(* ===== verification/_CoqProject ===== *)
-Q . S2P
Prelude.v
PyStr.v
PyValue.v
Url.v
FnMatch.v
FileSystem.v
World.v
OpenDal.v
OpenDalSpec.v
DownloadErrors.v
DownloadRetry.v
Destinations.v
Config.v
Providers.v
Cache.v
Main.v
ConfigSpec.v
MainSpec.v
CacheSpec.v
CacheProtocol.v
CacheRuns.v
PyNum.v
Json.v
PPrint.v
JsonSpec.v
PPrintSpec.v
Pydantic.v
OpenApi.v
OpenApiData.v
Documents.v
PydanticSpec.v
PydanticWrites.v
PydanticDocs.v
PydanticRef.v
PydanticObjects.v
OneOf.v
OpenApiSpec.v
ApiMeta.v
ApiCore.v
ApiJobSet.v
ApiTrainer.v
ApiMetaMore.v
ApiCoreMore.v
ApiWorkloads.v
ApiRecursive.v
ApiSpec.v
ApiDocs.v
ApiObjects.v
ApiText.v
Exports.v
ApiOpenApi.v
UnitTests.v
