(* ===== verification/Prelude.v ===== *)
(** * Kubeflow Trainer: verification of the Python sources

    ** The program

    Kubeflow Trainer runs training jobs on Kubernetes. Its Python code has two
    parts. The _initializers_ (pkg/initializers) are programs that run in the
    initializer containers of a TrainJob: they read their configuration from
    environment variables, and download a dataset or a pre-trained model from
    Hugging Face or S3 into /workspace, or deploy a cache cluster for a dataset.
    The _API package_ (api/python_api/kubeflow_trainer_api/models) holds one
    pydantic class per API type, with conversions from and to dictionaries; it is
    generated from the OpenAPI specification api/openapi-spec/swagger.json.

    ** The files

    The prelude and the parts of Python that the code uses:
    - [Prelude]: exceptions, the outcome of Python code ([Ret], [Raise],
      [OutOfFuel]), the state-and-exception monad [M], its lemmas;
    - [PyStr]: string methods (split, strip, startswith, removeprefix, upper,
      [int()]) and their rewrite database [pystr];
    - [PyValue]: dynamically typed values, dictionaries, truthiness, iteration;
    - [Url]: [urllib.parse.urlparse] with its errors; [FnMatch]:
      [fnmatch.fnmatch], with a specification of matching;
    - [PyNum]: decimal text of integers, double-precision floats, [float.__repr__]
      and the reading of decimals; [Json]: [json.dumps] and [json.loads] on text;
      [PPrint]: [pprint.pformat], with [repr] of strings, bytes and datetimes;
    - [FileSystem]: paths, [mkdir(parents=True, exist_ok=True)], writing files,
      on a tree of directories and files, with frame lemmas;
    - [World]: the file system together with the sequence of calls made to
      third-party services.

    The initializers:
    - [OpenDal]: utils/opendal.py, class S3Storage ([S3Storage_init],
      [resolve_keys], [is_object], [download] with its loop);
    - [Config]: types/types.py and utils/utils.py (the dataclasses as Modules,
      [get_config_from_env]);
    - [Providers]: dataset/huggingface.py, dataset/s3.py, model/huggingface.py,
      model/s3.py, one Module each, against the interfaces [DatasetProvider] and
      [ModelProvider];
    - [Cache]: dataset/cache.py ([parse_cache_storage_uri], [load_config], the
      created objects, [poll], [create_cluster], [cleanup],
      [download_dataset]);
    - [Main]: dataset/__main__.py and model/__main__.py.

    The API package:
    - [Pydantic]: annotations and schemas, the laws of pydantic, the generated
      validators, and the template of [to_dict], [from_dict], [to_json],
      [from_json] and [to_str];
    - [OneOf]: the classes IntOrString and Quantity;
    - [ApiMeta], [ApiCore], [ApiJobSet], [ApiTrainer]: one Module per class with
      [schema], [to_dict], [from_dict], [to_json], [from_json] and [to_str]
      written as in its source, for the Trainer API and every class it contains;
      [ApiMetaMore], [ApiCoreMore], [ApiWorkloads]: the other Kubernetes classes
      of the package; [ApiRecursive]: a class that contains itself, at every depth
      of nesting, with those that contain it, and InternalEvent; 461 classes in
      all, with the two one-of classes ([ApiDocs.all_models]);
    - [Exports]: the imports of models/__init__.py;
    - [OpenApi]: the schemas of the OpenAPI specification and the documents they
      allow ([valid]); [OpenApiData]: the 468 schemas of swagger.json, and the
      defaults that [from_dict] has for required properties ([fallback]);
    - [Documents]: a specification of the documents of a class on its schema
      alone: valid documents and their instances ([built]), the documents those
      are written back as ([canon]), documents that are certainly invalid, and
      what becomes of an instance that is written and read back ([rebuilt]);
    - [PydanticObjects]: the [model_config] of the classes, construction with
      keyword arguments and assignment to attributes, both with dictionaries in the
      place of instances, and the instances a program can reach with them
      ([reachable]);
    - [PydanticRef]: an implementation of pydantic's laws, to run the models.

    ** The theorems

    - [OpenDalSpec]: which objects a prefix names; a download into a fresh
      directory succeeds and stores exactly the objects no ignore pattern
      matches; it touches nothing outside its destination when no key has [..]
      components; ignored objects are not read.
    - [Destinations]: which keys share a file, and where a key with [..]
      components is stored.
    - [DownloadErrors]: what is stored and read when a download fails half-way,
      at an object that cannot be read or whose key continues another key, or at
      once, when the destination is a file; [DownloadRetry]: a download into a
      destination with other files, and the repetition of a failed download.
    - [ConfigSpec]: every field comes from its variable; required variables and
      defaults; which keys IGNORE_PATTERNS skips; the defaults of the model
      dataclasses are never used.
    - [MainSpec]: which repository, bucket and prefix a URI leads to; calls and
      their order; rejected URIs; the S3 dataset and model runs from the
      environment to the files.
    - [CacheSpec]: storage URI, namespace, the exact sequence of API calls of a
      successful run and the possible sequences of any run, readiness, and
      polling. It also shows that an existing LeaderWorkerSet makes a second run
      delete the ServiceAccount.
    - [CacheProtocol]: an abstract protocol of the cache bootstrap as a step
      relation on phases, and that [download_dataset] and the protocol have the
      same runs; by induction on the protocol, what a normal return means, bounds
      on calls and waiting time, and termination once the cluster settles; the
      cache run from the entry point on.
    - [CacheRuns]: what becomes of every API error of a run, and that the objects
      a run creates, waits for and deletes fit together.
    - [JsonSpec]: [json.loads] reads back what [json.dumps] writes, always ends,
      and returns data only.
    - [PPrintSpec]: [pformat] writes an expression of a small grammar of Python
      expressions for its value, returns unless an integer is too long, and does
      not depend on the order of dictionaries.
    - [PydanticSpec], [PydanticWrites], [PydanticDocs]: what a class promises to
      the classes that contain it ([Reads]: round trip, type soundness, the
      instances of valid documents, refusal of invalid ones, termination;
      [Converts]: also writing valid documents back) follows from what the classes
      it contains promise, for every class written with the template
      ([Templated]).
    - [ApiSpec], [ApiDocs], [ApiText]: every instance that conforms to its
      annotations is written to a dictionary or to JSON text and read back, as the
      same instance up to [rebuilt]; [from_dict] builds exactly the instance the schema assigns to
      a valid document, defaults included, refuses certainly invalid ones, missing
      required values included, and returns only what conforms to the annotations; [to_dict] writes a valid document back without losing a known
      value; a datetime makes [to_json] fail; the text of [to_str].
      Three predicates on instances occur: [conforms], the type alone; [carried],
      the values of Quantity and IntOrString parts survive JSON text; [settled],
      writing and reading back changes nothing.
    - [ApiObjects]: the type invariant of instances that are constructed, read and
      then assigned to.
    - [OpenApiSpec], [ApiOpenApi]: the exported classes are those of the OpenAPI
      specification, each with the fields, annotations and enumerations of its
      definition, and with the defaults of its optional properties that are no
      objects ([represents]), so that every document the specification allows is
      read by its class.
    - [Exports]: the package exports exactly the modelled classes, fourteen left
      over from earlier versions apart, and is closed under references.
    - [UnitTests]: the cases of the repository's unit tests of the initializers,
      evaluated on the definitions.

    ** Third-party code

    [opendal], [huggingface_hub], the Kubernetes client and pydantic are
    parameters: the classes [OpenDAL], [HuggingFaceHub], [Kubernetes] and
    [Pydantic]. The Kubernetes API may answer differently over time: an answer is
    a function of the calls and sleeps made before. The laws of pydantic are
    [PydanticLaws], those of assignment [PydanticObjectsLaws];
    [PydanticRef] and [PydanticObjects] show that they can hold. What theorems
    assume of the others is in their statements, with a concrete instance in
    their witnesses.

    ** Bounds and fuel

    Strings are sequences of 8-bit characters, standing for the code points below
    U+0100; a [\u] escape above that in a JSON text raises [ExternalError] in the
    model. Integers are unbounded, as Python's, with the limit of 4300 digits of
    their conversion from and to text; floats are doubles, with negative
    zero, infinities and NaN. The only unbounded loop is the polling of the cache initializer: [poll]
    takes fuel, [cache_terminates] gives the fuel that is enough once the cluster
    settles, [poll_fuel_irrelevant] says that more changes nothing, and
    [poll_unbounded] that no fuel is enough when the cluster never becomes
    available. The JSON scanner recurses on what is left of the text, with fuel
    that [loads_total] shows to be enough for every text. Python's recursion limit
    is modelled for the class that contains itself alone, where it is the
    parameter [depth]; a document whose [height] is at most [depth] fits. Every other function is structurally recursive, the layout
    of [pformat] included.

    ** Not modelled

    Log messages, except the warning that nothing was downloaded; symbolic links,
    permissions and a full disk in the file system; changes of the bucket during
    a download; the OpenAPI generator, whose output is compared with its input
    instead, and in the specification the integer formats and the descriptions;
    pydantic's coercions of values that are neither of the annotated
    type nor certainly refused; changes inside a list or dictionary that an
    attribute holds; the [repr] of time zones, a parameter; the set
    [one_of_schemas] in the dump of a one-of instance; the Go, Rust and deployment
    parts of the repository.

    What is left of the Python sources are tests, examples, the Sphinx
    configuration and licence headers. The development could grow by a full disk
    during a download, and by a reader of the expressions of [to_str]. *)

From Stdlib Require Export ZArith Lia Ascii.
From stdpp Require Export base option list gmap strings.

#[export] Set Warnings "-clear-no-such-hyp,-register-all".

(** stdpp blocks the reduction of string concatenation; the string lemmas of this
    development reduce it on constructors. *)
#[global] Arguments String.append : simpl nomatch.

(** ** Exceptions and outcomes *)

(** The exception classes the modelled code raises, catches or lets through.
    An exception raised by a third-party package that no handler of the code
    names is [ExternalError], with the class name it was raised with. *)
Inductive exn : Type :=
| ValueError (what : string)
| ValidationError (what : string)      (* pydantic's, a subclass of ValueError *)
| TypeError (what : string)
| IndexError
| KeyError (key : string)
| AttributeError (attr : string)
| FileNotFoundError (what : string)
| FileExistsError (what : string)
| NotADirectoryError (what : string)
| IsADirectoryError (what : string)
| ApiException (status : Z)
| NotFound
| BareException
| ExternalError (cls : string).

#[global] Instance exn_eq_dec : EqDecision exn.
Proof. solve_decision. Defined.

(** The result of running Python code: it returns, it raises, or (for the one
    unbounded loop of the sources) the fuel given to the model ran out. *)
Inductive outcome (A : Type) : Type :=
| Ret (a : A)
| Raise (e : exn)
| OutOfFuel.
Arguments Ret {A} a.
Arguments Raise {A} e.
Arguments OutOfFuel {A}.

#[global] Instance outcome_ret : MRet outcome := fun A a => Ret a.
#[global] Instance outcome_bind : MBind outcome := fun A B k r =>
  match r with
  | Ret a => k a
  | Raise e => Raise e
  | OutOfFuel => OutOfFuel
  end.
#[global] Instance outcome_fmap : FMap outcome := fun A B f r =>
  match r with
  | Ret a => Ret (f a)
  | Raise e => Raise e
  | OutOfFuel => OutOfFuel
  end.

Lemma outcome_bind_Ret {A B} (r : outcome A) (k : A → outcome B) b :
  r ≫= k = Ret b ↔ ∃ a, r = Ret a ∧ k a = Ret b.
Proof.
  split.
  - destruct r as [a| |]; intros H; try discriminate. by exists a.
  - by intros (a & -> & H).
Qed.

Lemma outcome_bind_Raise {A B} (r : outcome A) (k : A → outcome B) e :
  r ≫= k = Raise e ↔ r = Raise e ∨ ∃ a, r = Ret a ∧ k a = Raise e.
Proof.
  split.
  - destruct r as [a|e'|]; intros H; simplify_eq/=; eauto.
  - by intros [->|(a & -> & H)].
Qed.

(** ** The state-and-exception monad

    A computation over a world [W]: the changes made before an exception is
    raised persist, as they do in Python. *)
Definition M (W A : Type) : Type := W → outcome A * W.

#[global] Instance M_ret {W} : MRet (M W) := fun A a w => (Ret a, w).
#[global] Instance M_bind {W} : MBind (M W) := fun A B k m w =>
  match m w with
  | (Ret a, w') => k a w'
  | (Raise e, w') => (Raise e, w')
  | (OutOfFuel, w') => (OutOfFuel, w')
  end.

Definition raise {W A} (e : exn) : M W A := fun w => (Raise e, w).
Definition lift {W A} (r : outcome A) : M W A := fun w => (r, w).
Definition gets {W A} (f : W → A) : M W A := fun w => (Ret (f w), w).
Definition modify {W} (f : W → W) : M W unit := fun w => (Ret tt, f w).

(** [try: m  except e: h e], with the exceptions [h] does not handle re-raised
    by [h] itself. *)
Definition try_except {W A} (m : M W A) (h : exn → M W A) : M W A := fun w =>
  match m w with
  | (Raise e, w') => h e w'
  | r => r
  end.

Lemma M_bind_Ret {W A B} (m : M W A) (k : A → M W B) w a w' :
  m w = (Ret a, w') → (m ≫= k) w = k a w'.
Proof. unfold mbind, M_bind. by intros ->. Qed.

Lemma M_bind_Raise {W A B} (m : M W A) (k : A → M W B) w e w' :
  m w = (Raise e, w') → (m ≫= k) w = (Raise e, w').
Proof. unfold mbind, M_bind. by intros ->. Qed.

(** Closes a goal about one character by evaluating it on all 256. *)
Ltac by_all_chars c :=
  destruct c as [[] [] [] [] [] [] [] []]; vm_compute;
  first [reflexivity | discriminate | intros; discriminate | intros; reflexivity].
