(* ===== verification/PyStr.v ===== *)
(** * Python strings

    The operations of Python's [str] the sources use: [strip], [lstrip],
    [rstrip], [split] on one character, [startswith], [endswith],
    [removeprefix], slicing, [find], [in], [upper], [lower], and [int(str)].
    A string is a Rocq [string] whose characters stand for the code points
    U+0000 to U+00FF. *)

From S2P Require Import Prelude.
Local Open Scope string_scope.
Local Open Scope bool_scope.

(** ** Character classes *)

Definition code (c : ascii) : N := N_of_ascii c.
Definition in_range (lo hi : N) (c : ascii) : bool := (lo <=? code c)%N && (code c <=? hi)%N.
Definition ch_eqb (a b : ascii) : bool := Ascii.eqb a b.
#[global] Arguments ch_eqb : simpl never.

(** [str.isspace] on U+0000 to U+00FF. *)
Definition is_space (c : ascii) : bool :=
  in_range 9 13 c || in_range 28 32 c || (code c =? 133)%N || (code c =? 160)%N.
Definition is_lower (c : ascii) : bool := in_range 97 122 c.
Definition is_upper (c : ascii) : bool := in_range 65 90 c.
Definition is_alpha (c : ascii) : bool := is_lower c || is_upper c.
Definition is_digit (c : ascii) : bool := in_range 48 57 c.

Definition slash : ascii := "/"%char.

(** [str.upper] and [str.lower] on ASCII letters; the sources apply them to
    dataclass field names and to URL schemes, which are ASCII. *)
Definition upper_ch (c : ascii) : ascii :=
  if is_lower c then ascii_of_N (code c - 32) else c.
Definition lower_ch (c : ascii) : ascii :=
  if is_upper c then ascii_of_N (code c + 32) else c.

Fixpoint str_map (f : ascii → ascii) (s : string) : string :=
  match s with
  | EmptyString => EmptyString
  | String c s' => String (f c) (str_map f s')
  end.
Definition upper := str_map upper_ch.
Definition lower := str_map lower_ch.

(** ** Predicates over the characters of a string *)

Fixpoint str_forall (p : ascii → bool) (s : string) : bool :=
  match s with
  | EmptyString => true
  | String c s' => p c && str_forall p s'
  end.

(** [c in s] for a one-character [c]. *)
Fixpoint str_mem (c : ascii) (s : string) : bool :=
  match s with
  | EmptyString => false
  | String c' s' => ch_eqb c c' || str_mem c s'
  end.

Fixpoint str_filter (p : ascii → bool) (s : string) : string :=
  match s with
  | EmptyString => EmptyString
  | String c s' => if p c then String c (str_filter p s') else str_filter p s'
  end.

Definition str_empty (s : string) : bool :=
  match s with EmptyString => true | _ => false end.

(** ** Stripping *)

Fixpoint lstrip_by (p : ascii → bool) (s : string) : string :=
  match s with
  | EmptyString => EmptyString
  | String c s' => if p c then lstrip_by p s' else s
  end.

Fixpoint rstrip_by (p : ascii → bool) (s : string) : string :=
  match s with
  | EmptyString => EmptyString
  | String c s' =>
      match rstrip_by p s' with
      | EmptyString => if p c then EmptyString else String c EmptyString
      | r => String c r
      end
  end.

(** [s.strip()], [s.lstrip(c)] and [s.rstrip(c)] for a one-character [c]. *)
Definition strip (s : string) : string := rstrip_by is_space (lstrip_by is_space s).
Definition lstrip_ch (c : ascii) : string → string := lstrip_by (ch_eqb c).
Definition rstrip_ch (c : ascii) : string → string := rstrip_by (ch_eqb c).

(** ** Prefixes, suffixes, slices *)

Fixpoint startswith (p s : string) : bool :=
  match p, s with
  | EmptyString, _ => true
  | String _ _, EmptyString => false
  | String a p', String b s' => ch_eqb a b && startswith p' s'
  end.

(** [s[n:]]. *)
Fixpoint str_drop (n : nat) (s : string) : string :=
  match n, s with
  | O, _ => s
  | S _, EmptyString => EmptyString
  | S n', String _ s' => str_drop n' s'
  end.

(** [s[:n]]. *)
Fixpoint str_take (n : nat) (s : string) : string :=
  match n, s with
  | O, _ => EmptyString
  | S _, EmptyString => EmptyString
  | S n', String c s' => String c (str_take n' s')
  end.

Definition endswith (p s : string) : bool :=
  (String.length p <=? String.length s)%nat &&
  String.eqb (str_drop (String.length s - String.length p) s) p.

(** [s.removeprefix(p)]. *)
Definition removeprefix (p s : string) : string :=
  if startswith p s then str_drop (String.length p) s else s.

(** ** Searching and splitting on a character *)

(** The part before the first character satisfying [p], and the rest from that
    character on: what [s[:i]] and [s[i:]] are for [i] the least index found, or
    [len(s)] when there is none. *)
Fixpoint span_to (p : ascii → bool) (s : string) : string * string :=
  match s with
  | EmptyString => (EmptyString, EmptyString)
  | String c s' =>
      if p c then (EmptyString, s)
      else let '(a, b) := span_to p s' in (String c a, b)
  end.

(** [s.split(c, 1)] and the like: [Some (before, after)] around the first [c]. *)
Definition cut (c : ascii) (s : string) : option (string * string) :=
  match span_to (ch_eqb c) s with
  | (a, String _ b) => Some (a, b)
  | (_, EmptyString) => None
  end.

(** [s.split(c)]. *)
Fixpoint split (sep : ascii) (s : string) : list string :=
  match s with
  | EmptyString => [EmptyString]
  | String c s' =>
      if ch_eqb sep c then EmptyString :: split sep s'
      else match split sep s' with
           | h :: t => String c h :: t
           | [] => [String c EmptyString]
           end
  end.

(** [c.join(l)]. *)
Fixpoint join (sep : ascii) (l : list string) : string :=
  match l with
  | [] => EmptyString
  | [s] => s
  | s :: l' => s +:+ String sep (join sep l')
  end.

(** ** [int(s)] *)

(** The digits of an integer literal: decimal digits with single underscores
    between them. [prev] says whether the previous character was a digit; the
    result is the value and the number of digits. *)
Fixpoint int_digits (prev : bool) (acc : Z) (n : nat) (s : string) : option (Z * nat) :=
  match s with
  | EmptyString => if prev then Some (acc, n) else None
  | String c s' =>
      if is_digit c
      then int_digits true (acc * 10 + (Z.of_N (code c) - 48))%Z (S n) s'
      else if ch_eqb "_"%char c && prev then int_digits false acc n s'
      else None
  end.

(** CPython's default limit on the number of digits [int] converts. *)
Definition int_max_str_digits : nat := 4300.

Definition int_unsigned (s : string) : option Z :=
  match int_digits false 0 0 s with
  | Some (z, n) => if (n <=? int_max_str_digits)%nat then Some z else None
  | None => None
  end.

Definition py_int (s : string) : outcome Z :=
  let r := match strip s with
           | String "-"%char s' => Z.opp <$> int_unsigned s'
           | String "+"%char s' => int_unsigned s'
           | s' => int_unsigned s'
           end in
  match r with
  | Some z => Ret z
  | None => Raise (ValueError "invalid literal for int() with base 10")
  end.

(** ** Lemmas *)

Create Rewrite HintDb pystr.

Lemma ch_eqb_true a b : ch_eqb a b = true ↔ a = b.
Proof. apply Ascii.eqb_eq. Qed.
Lemma ch_eqb_false a b : ch_eqb a b = false ↔ a ≠ b.
Proof. apply Ascii.eqb_neq. Qed.
Lemma ch_eqb_refl a : ch_eqb a a = true.
Proof. apply Ascii.eqb_refl. Qed.

Lemma str_app_nil_r s : s +:+ "" = s.
Proof. induction s as [|c s IH]; simpl; [done|by rewrite IH]. Qed.
Lemma str_app_assoc a b c : (a +:+ b) +:+ c = a +:+ (b +:+ c).
Proof. induction a as [|x a IH]; simpl; [done|by rewrite IH]. Qed.
Lemma str_app_cons x a b : (String x a) +:+ b = String x (a +:+ b).
Proof. done. Qed.
Lemma str_app_length a b : String.length (a +:+ b) = (String.length a + String.length b)%nat.
Proof. induction a as [|x a IH]; simpl; [done|by rewrite IH]. Qed.
Lemma str_app_nil a b : a +:+ b = "" ↔ a = "" ∧ b = "".
Proof. destruct a; simpl; split; naive_solver. Qed.
Lemma str_app_inj_l a b c : a +:+ b = a +:+ c → b = c.
Proof. induction a as [|x a IH]; simpl; [done|]. intros [=]; auto. Qed.
Lemma str_app_inj_r a b c : a +:+ c = b +:+ c → a = b.
Proof.
  revert b. induction a as [|x a IH]; intros [|y b]; simpl; intros H; try done.
  - apply (f_equal String.length) in H. simpl in H. rewrite str_app_length in H. lia.
  - apply (f_equal String.length) in H. simpl in H. rewrite str_app_length in H. lia.
  - injection H as -> H. by rewrite (IH b H).
Qed.

(** Characters of a string *)

Lemma str_mem_app c a b : str_mem c (a +:+ b) = str_mem c a || str_mem c b.
Proof. induction a as [|x a IH]; simpl; [done|]. by rewrite IH, orb_assoc. Qed.
Lemma str_forall_app p a b : str_forall p (a +:+ b) = str_forall p a && str_forall p b.
Proof. induction a as [|x a IH]; simpl; [done|]. by rewrite IH, andb_assoc. Qed.
Lemma str_mem_forall c s : str_mem c s = false ↔ str_forall (fun x => negb (ch_eqb c x)) s = true.
Proof.
  induction s as [|x s IH]; simpl; [done|].
  rewrite orb_false_iff, andb_true_iff, negb_true_iff. by rewrite IH.
Qed.
Lemma str_forall_impl (p q : ascii → bool) s :
  (∀ c, p c = true → q c = true) → str_forall p s = true → str_forall q s = true.
Proof.
  intros Hpq. induction s as [|x s IH]; simpl; [done|].
  rewrite !andb_true_iff. naive_solver.
Qed.
Lemma str_empty_true s : str_empty s = true ↔ s = "".
Proof. by destruct s. Qed.
Lemma str_empty_false s : str_empty s = false ↔ s ≠ "".
Proof. by destruct s. Qed.

(** Stripping *)

Lemma lstrip_by_split p s :
  ∃ pre, s = pre +:+ lstrip_by p s ∧ str_forall p pre = true.
Proof.
  induction s as [|c s (pre & IH & Hp)]; simpl; [by exists ""|].
  destruct (p c) eqn:Hc.
  - exists (String c pre). simpl. rewrite Hc, Hp. by rewrite <- IH.
  - by exists "".
Qed.
Lemma lstrip_by_head p s c t : lstrip_by p s = String c t → p c = false.
Proof.
  induction s as [|x s IH]; simpl; [done|].
  destruct (p x) eqn:Hx; [done|]. by intros [= <- <-].
Qed.
Lemma lstrip_by_id p c t : p c = false → lstrip_by p (String c t) = String c t.
Proof. simpl. by intros ->. Qed.
Lemma lstrip_by_app p a b :
  str_forall p a = true → lstrip_by p (a +:+ b) = lstrip_by p b.
Proof.
  induction a as [|x a IH]; simpl; [done|].
  rewrite andb_true_iff. intros [-> ?]; auto.
Qed.
Lemma lstrip_ch_cons c s : lstrip_ch c (String c s) = lstrip_ch c s.
Proof. unfold lstrip_ch. simpl. by rewrite ch_eqb_refl. Qed.
Lemma lstrip_by_length p s : (String.length (lstrip_by p s) ≤ String.length s)%nat.
Proof. induction s as [|x s IH]; simpl; [done|]. destruct (p x); simpl; lia. Qed.

Lemma rstrip_by_split p s :
  ∃ suf, s = rstrip_by p s +:+ suf ∧ str_forall p suf = true.
Proof.
  induction s as [|c s (suf & IH & Hp)]; simpl; [by exists ""|].
  destruct (rstrip_by p s) as [|d r] eqn:E.
  - destruct (p c) eqn:Hc; simpl in IH; subst s.
    + exists (String c suf). simpl. by rewrite Hc, Hp.
    + by exists suf.
  - exists suf. simpl. simpl in IH. by rewrite IH.
Qed.
Lemma rstrip_by_last p s a c : rstrip_by p s = a +:+ String c "" → p c = false.
Proof.
  revert a. induction s as [|x s IH]; intros a; simpl.
  - by destruct a.
  - destruct (rstrip_by p s) as [|d r] eqn:E.
    + destruct (p x) eqn:Hx; [by destruct a|].
      destruct a as [|y a]; simpl; [by intros [= <-]|].
      intros [= _ H]. by destruct a.
    + destruct a as [|y a]; simpl; [by intros [=]|].
      intros [= -> H]. by apply (IH a).
Qed.
Lemma rstrip_by_snoc_id p a c :
  p c = false → rstrip_by p (a +:+ String c "") = a +:+ String c "".
Proof.
  intros Hc. induction a as [|x a IH]; simpl; [by rewrite Hc|].
  rewrite IH. by destruct a.
Qed.
Lemma rstrip_by_app p a b :
  str_forall p b = true → rstrip_by p (a +:+ b) = rstrip_by p a.
Proof.
  intros Hb. induction a as [|x a IH]; simpl.
  - induction b as [|y b IHb]; simpl in *; [done|].
    apply andb_true_iff in Hb as [-> Hb]. by rewrite IHb.
  - by rewrite IH.
Qed.

(** Prefixes and suffixes *)

Lemma startswith_iff p s : startswith p s = true ↔ ∃ t, s = p +:+ t.
Proof.
  revert s. induction p as [|a p IH]; intros s; simpl.
  - split; [by exists s|done].
  - destruct s as [|b s]; [split; [done|by intros (t & ?)]|].
    rewrite andb_true_iff, ch_eqb_true, IH. split.
    + intros [-> (t & ->)]. by exists t.
    + intros (t & [= -> ->]). eauto.
Qed.
Lemma str_drop_app a b : str_drop (String.length a) (a +:+ b) = b.
Proof. by induction a as [|x a IH]. Qed.
Lemma str_take_app a b : str_take (String.length a) (a +:+ b) = a.
Proof. induction a as [|x a IH]; simpl; [by destruct b|by rewrite IH]. Qed.
Lemma endswith_iff p s : endswith p s = true ↔ ∃ t, s = t +:+ p.
Proof.
  unfold endswith. rewrite andb_true_iff, Nat.leb_le, String.eqb_eq. split.
  - intros [Hl Hd]. exists (str_take (String.length s - String.length p) s).
    rewrite <- Hd at 2. clear Hl Hd.
    generalize (String.length s - String.length p)%nat as n.
    induction s as [|x s IH]; intros [|n]; simpl; try done. by rewrite <- IH.
  - intros (t & ->). rewrite str_app_length. split; [lia|].
    replace (String.length t + String.length p - String.length p)%nat
      with (String.length t) by lia.
    apply str_drop_app.
Qed.
Lemma removeprefix_app p s : removeprefix p (p +:+ s) = s.
Proof.
  unfold removeprefix. rewrite (proj2 (startswith_iff _ _)) by eauto.
  apply str_drop_app.
Qed.

(** Searching and splitting *)

Lemma span_to_app p s : let '(a, b) := span_to p s in s = a +:+ b.
Proof.
  induction s as [|c s IH]; simpl; [done|].
  destruct (p c); [done|]. destruct (span_to p s). by rewrite IH.
Qed.
Lemma span_to_all p s : str_forall (negb ∘ p) s = true → span_to p s = (s, "").
Proof.
  induction s as [|c s IH]; simpl; [done|].
  rewrite andb_true_iff, negb_true_iff. intros [-> Hs]. by rewrite IH.
Qed.
Lemma span_to_hit p a c b :
  str_forall (negb ∘ p) a = true → p c = true →
  span_to p (a +:+ String c b) = (a, String c b).
Proof.
  intros Ha Hc. induction a as [|x a IH]; simpl in *; [by rewrite Hc|].
  apply andb_true_iff in Ha as [Hx Ha]. apply negb_true_iff in Hx.
  by rewrite Hx, IH.
Qed.
Lemma span_to_fst p s : str_forall (negb ∘ p) (span_to p s).1 = true.
Proof.
  induction s as [|c s IH]; simpl; [done|].
  destruct (p c) eqn:Hc; [done|]. destruct (span_to p s). simpl in *. by rewrite Hc, IH.
Qed.

Lemma cut_app c a b : str_mem c a = false → cut c (a +:+ String c b) = Some (a, b).
Proof.
  intros Ha. unfold cut. rewrite span_to_hit; [done| |apply ch_eqb_refl].
  by apply str_mem_forall in Ha.
Qed.
Lemma cut_None c s : str_mem c s = false → cut c s = None.
Proof.
  intros Hs. unfold cut. rewrite span_to_all; [done|].
  by apply str_mem_forall in Hs.
Qed.
Lemma cut_Some c s a b :
  cut c s = Some (a, b) → s = a +:+ String c b ∧ str_mem c a = false.
Proof.
  unfold cut. pose proof (span_to_app (ch_eqb c) s) as Hs.
  pose proof (span_to_fst (ch_eqb c) s) as Hf.
  destruct (span_to (ch_eqb c) s) as [x [|d y]] eqn:E; [done|].
  intros [= -> ->]. simpl in *. rewrite Hs. split.
  - assert (ch_eqb c d = true) as Hd.
    { clear Hs Hf. revert a E. induction s as [|e s IH]; simpl; intros a E; [done|].
      destruct (ch_eqb c e) eqn:Hc; [by simplify_eq|].
      destruct (span_to (ch_eqb c) s) as [u v]. simplify_eq. by eapply IH. }
    apply ch_eqb_true in Hd. by subst.
  - by apply str_mem_forall.
Qed.

Lemma split_not_nil sep s : split sep s ≠ [].
Proof. destruct s as [|c s]; simpl; [done|]. by destruct (ch_eqb sep c), (split sep s). Qed.
Lemma split_none sep s : str_mem sep s = false → split sep s = [s].
Proof.
  induction s as [|c s IH]; simpl; [done|].
  rewrite orb_false_iff. intros [-> Hs]. by rewrite IH.
Qed.
Lemma split_app sep a b :
  str_mem sep a = false → split sep (a +:+ String sep b) = a :: split sep b.
Proof.
  induction a as [|c a IH]; simpl; [by rewrite ch_eqb_refl|].
  rewrite orb_false_iff. intros [-> Ha]. by rewrite IH.
Qed.
Lemma join_cons sep x l : l ≠ [] → join sep (x :: l) = x +:+ String sep (join sep l).
Proof. by destruct l. Qed.
Lemma join_split sep s : join sep (split sep s) = s.
Proof.
  induction s as [|c s IH]; simpl; [done|].
  destruct (ch_eqb sep c) eqn:Hc.
  - rewrite join_cons by apply split_not_nil. apply ch_eqb_true in Hc. by rewrite IH, Hc.
  - pose proof (split_not_nil sep s) as Hn. destruct (split sep s) as [|h [|h' t]]; [done| |].
    + simpl in *. by rewrite IH.
    + rewrite join_cons in IH by done. rewrite join_cons by done. by rewrite str_app_cons, IH.
Qed.
Lemma split_pieces sep s : Forall (fun x => str_mem sep x = false) (split sep s).
Proof.
  induction s as [|c s IH]; simpl; [by repeat constructor|].
  destruct (ch_eqb sep c) eqn:Hc; [by constructor|].
  destruct (split sep s) as [|h t].
  - constructor; [|done]. simpl. by rewrite Hc.
  - apply Forall_cons in IH as [Hh Ht]. constructor; [|done]. simpl. by rewrite Hc, Hh.
Qed.
Lemma split_inj sep s t : split sep s = split sep t → s = t.
Proof. intros H. by rewrite <- (join_split sep s), <- (join_split sep t), H. Qed.

#[export] Hint Rewrite str_app_nil_r str_app_assoc str_mem_app str_forall_app ch_eqb_refl
  str_drop_app str_take_app removeprefix_app : pystr.
