(* ===== verification/PyValue.v ===== *)
(** * Python values

    The dynamically typed values that cross the program's boundaries: JSON-like
    data (API responses, request bodies, dictionaries) and instances of classes
    ([VObj], the class name with its attributes in order). A dictionary is an
    association list in insertion order; [VBytes] is a byte string. *)

From S2P Require Import Prelude PyStr.
Local Open Scope string_scope.
Local Open Scope list_scope.

Inductive value : Type :=
| VNone
| VBool (b : bool)
| VInt (z : Z)
| VFloat (mant exp : Z)               (* the double mant * 2^exp, see PyNum *)
| VStr (s : string)
| VDatetime (micros : Z) (utc_offset : option Z)
| VList (l : list value)
| VDict (d : list (string * value))
| VObj (cls : string) (attrs : list (string * value))
| VBytes (s : string).

(** Induction through the lists and dictionaries. *)
Section value_ind'.
Variable P : value → Prop.
Hypothesis HNone : P VNone.
Hypothesis HBool : ∀ b, P (VBool b).
Hypothesis HInt : ∀ z, P (VInt z).
Hypothesis HFloat : ∀ m e, P (VFloat m e).
Hypothesis HStr : ∀ s, P (VStr s).
Hypothesis HDatetime : ∀ m o, P (VDatetime m o).
Hypothesis HList : ∀ l, Forall P l → P (VList l).
Hypothesis HDict : ∀ d, Forall (fun kv => P kv.2) d → P (VDict d).
Hypothesis HObj : ∀ c a, Forall (fun kv => P kv.2) a → P (VObj c a).
Hypothesis HBytes : ∀ s, P (VBytes s).

Fixpoint value_ind' (v : value) : P v :=
  let fields := fix go (d : list (string * value)) : Forall (fun kv => P kv.2) d :=
    match d with
    | [] => List.Forall_nil _
    | kv :: d' => List.Forall_cons _ kv d' (value_ind' kv.2) (go d')
    end in
  match v with
  | VNone => HNone
  | VBool b => HBool b
  | VInt z => HInt z
  | VFloat m e => HFloat m e
  | VStr s => HStr s
  | VDatetime m o => HDatetime m o
  | VList l => HList l ((fix go (l : list value) : Forall P l :=
      match l with
      | [] => List.Forall_nil _
      | x :: l' => List.Forall_cons _ x l' (value_ind' x) (go l')
      end) l)
  | VDict d => HDict d (fields d)
  | VObj c a => HObj c a (fields a)
  | VBytes s => HBytes s
  end.
End value_ind'.

(** ** Dictionary operations *)

(** [d.get(k)] as an option. *)
Fixpoint dict_get (d : list (string * value)) (k : string) : option value :=
  match d with
  | [] => None
  | (k', v) :: d' => if String.eqb k' k then Some v else dict_get d' k
  end.

(** [d[k] = v]: in place when the key is there, at the end otherwise. *)
Fixpoint dict_set (d : list (string * value)) (k : string) (v : value) : list (string * value) :=
  match d with
  | [] => [(k, v)]
  | (k', v') :: d' => if String.eqb k' k then (k', v) :: d' else (k', v') :: dict_set d' k v
  end.

(** ** Data *)

Fixpoint distinct (l : list string) : bool :=
  match l with
  | [] => true
  | x :: l' => negb (bool_decide (x ∈ l')) && distinct l'
  end%bool.

Lemma distinct_NoDup l : distinct l = true ↔ NoDup l.
Proof.
  induction l as [|x l IH]; cbn; [split; [constructor|done]|].
  by rewrite andb_true_iff, negb_true_iff, bool_decide_eq_false, NoDup_cons, IH.
Qed.

(** A value without instances of classes inside, whose dictionaries have each
    key once, as every Python dictionary does. *)
Fixpoint data (v : value) : bool :=
  match v with
  | VList l => forallb data l
  | VDict d => distinct d.*1 && forallb (fun kv => data kv.2) d
  | VObj _ _ => false
  | _ => true
  end%bool.

Lemma dict_set_keys d k v : (dict_set d k v).*1 = if decide (k ∈ d.*1) then d.*1 else d.*1 ++ [k].
Proof.
  induction d as [|[k' v'] d IH]; cbn; [done|].
  destruct (String.eqb_spec k' k) as [->|Hk]; cbn; [by rewrite decide_True by set_solver|].
  rewrite IH. repeat case_decide; set_solver.
Qed.

Lemma data_dict_set d k v : data (VDict d) = true → data v = true → data (VDict (dict_set d k v)) = true.
Proof.
  cbn. rewrite !andb_true_iff, !distinct_NoDup. intros [Hk Hd] Hv. split.
  - rewrite dict_set_keys. case_decide; [done|]. apply NoDup_app. split_and!; [done| |apply NoDup_singleton].
    intros x Hx ->%list_elem_of_singleton. done.
  - clear Hk. induction d as [|[k' v'] d IH]; cbn in *; [by rewrite Hv|].
    apply andb_true_iff in Hd as [Hv' Hd]. destruct (String.eqb k' k); cbn; [by rewrite Hv|].
    by rewrite Hv', IH.
Qed.

Lemma data_get d k v : data (VDict d) = true → dict_get d k = Some v → data v = true.
Proof.
  cbn. intros [_ Hd]%andb_true_iff. induction d as [|[k' v'] d IH]; [done|]. cbn in *.
  apply andb_true_iff in Hd as [Hv' Hd]. destruct (String.eqb k' k); [by intros [= <-]|auto].
Qed.

(** ** Access *)

(** [v[k]] for a string [k]: a missing key is a [KeyError], and indexing anything
    but a dictionary is a [TypeError]. *)
Definition getitem (v : value) (k : string) : outcome value :=
  match v with
  | VDict d => match dict_get d k with
               | Some x => Ret x
               | None => Raise (KeyError k)
               end
  | _ => Raise (TypeError "not subscriptable with str")
  end.

(** [v.get(k, dflt)]: only dictionaries have the method. *)
Definition get_default (v : value) (k : string) (dflt : value) : outcome value :=
  match v with
  | VDict d => Ret (default dflt (dict_get d k))
  | _ => Raise (AttributeError "get")
  end.

(** Python truthiness; class instances without [__bool__] or [__len__] are true. *)
Definition truth (v : value) : bool :=
  match v with
  | VNone => false
  | VBool b => b
  | VInt z => negb (z =? 0)%Z
  | VFloat m e => negb ((m =? 0)%Z && negb (e =? 1024)%Z)%bool
  | VStr s | VBytes s => negb (str_empty s)
  | VDatetime _ _ => true
  | VList l => match l with [] => false | _ => true end
  | VDict d => match d with [] => false | _ => true end
  | VObj _ _ => true
  end.

(** Iterating over a value. *)
Definition iter (v : value) : outcome (list value) :=
  match v with
  | VList l => Ret l
  | VDict d => Ret (map (fun kv => VStr kv.1) d)
  | VStr s => Ret (map (fun c => VStr (String c "")) (String.list_ascii_of_string s))
  | VBytes s => Ret (map (fun c => VInt (Z.of_N (N_of_ascii c))) (String.list_ascii_of_string s))
  | _ => Raise (TypeError "not iterable")
  end.

Lemma dict_get_set_eq d k v : dict_get (dict_set d k v) k = Some v.
Proof.
  induction d as [|[k' v'] d IH]; simpl; [by rewrite String.eqb_refl|].
  destruct (String.eqb_spec k' k) as [->|Hk]; simpl; [by rewrite String.eqb_refl|].
  by rewrite (proj2 (String.eqb_neq _ _) Hk).
Qed.
Lemma dict_get_set_ne d k k' v : k ≠ k' → dict_get (dict_set d k v) k' = dict_get d k'.
Proof.
  intros Hk. induction d as [|[j x] d IH]; simpl.
  - by rewrite (proj2 (String.eqb_neq _ _) Hk).
  - destruct (String.eqb_spec j k) as [->|Hj]; simpl; [|by rewrite IH].
    by rewrite (proj2 (String.eqb_neq _ _) Hk).
Qed.
