(* ===== verification/Url.v ===== *)
(** * urllib.parse.urlparse

    The standard library's [urlparse] as the initializers call it: one [str]
    argument, default scheme and fragments allowed. The IPv6 and IPvFuture
    checks on a bracketed network location are included, since a storage URI
    with a bracket makes [urlparse] raise. On characters up to U+00FF the NFKC
    check of the network location never raises and is left out. *)

From S2P Require Import Prelude PyStr.
Local Open Scope string_scope.
Local Open Scope bool_scope.

Record ParseResult : Type := {
  scheme : string;
  netloc : string;
  path : string;
  params : string;
  query : string;
  fragment : string;
}.

(** ** Bracketed hosts *)
Module Ip.

(** [str.partition] on one character, when the separator may be missing. *)
Definition partition (c : ascii) (s : string) : string * option string :=
  match cut c s with
  | Some (a, b) => (a, Some b)
  | None => (s, None)
  end.

Definition is_hex (c : ascii) : bool :=
  is_digit c || in_range 97 102 c || in_range 65 70 c.

(** An octet of a dotted quad: one to three digits, no leading zero, at most 255. *)
Definition octet_ok (s : string) : bool :=
  negb (str_empty s) && str_forall is_digit s && (String.length s <=? 3)%nat &&
  negb (startswith "0" s && (1 <? String.length s)%nat) &&
  match int_unsigned s with Some z => (z <=? 255)%Z | None => false end.
Definition ipv4_ok (s : string) : bool :=
  let o := split "."%char s in (length o =? 4)%nat && forallb octet_ok o.

Definition hextet_ok (s : string) : bool :=
  negb (str_empty s) && str_forall is_hex s && (String.length s <=? 4)%nat.

(** The positions of the empty parts strictly between the first and the last. *)
Definition inner_gaps (parts : list string) : list nat :=
  filter (fun i => parts !! i = Some "") (seq 1 (length parts - 2)).

(** The check of [IPv6Address] on the parts between colons, once a dotted-quad
    suffix has been replaced by two hextets. *)
Definition hextets_ok (parts : list string) : bool :=
  let n := length parts in
  let first_empty := str_empty (default "" (parts !! 0)) in
  let last_empty := str_empty (default "" (last parts)) in
  match inner_gaps parts with
  | [] =>
      (n =? 8)%nat && forallb hextet_ok parts
  | [skip] =>
      let hi := if first_empty then (skip - 1)%nat else skip in
      let lo := if last_empty then (n - skip - 2)%nat else (n - skip - 1)%nat in
      (negb first_empty || (hi =? 0)%nat) && (negb last_empty || (lo =? 0)%nat) &&
      (hi + lo <=? 7)%nat &&
      forallb hextet_ok (take hi parts) && forallb hextet_ok (drop (n - lo) parts)
  | _ => false
  end.

Definition ipv6_ok (s : string) : bool :=
  let '(addr, scope_id) := partition "%"%char s in
  let scope_fine := match scope_id with
                    | None => true
                    | Some z => negb (str_empty z) && negb (str_mem "%"%char z)
                    end in
  let parts := split ":"%char addr in
  let quad := str_mem "."%char (default "" (last parts)) in
  let parts' := if quad then (removelast parts ++ ["0"; "0"])%list else parts in
  scope_fine && (String.length addr <=? 45)%nat && negb (str_mem "/"%char s) &&
  (3 <=? length parts)%nat &&
  (negb quad || ipv4_ok (default "" (last parts))) &&
  (length parts' <=? 9)%nat && hextets_ok parts'.

(** [v<hex>.<anything>]. *)
Definition ipvfuture_ok (s : string) : bool :=
  match s with
  | String "v"%char s' =>
      match cut "."%char s' with
      | Some (h, r) => negb (str_empty h) && str_forall is_hex h && negb (str_empty r)
                       && negb (str_mem "010"%char r)
      | None => false
      end
  | _ => false
  end.

Definition check_bracketed_host (h : string) : bool :=
  if startswith "v" h then ipvfuture_ok h else ipv6_ok h.

(** [netloc.rpartition('@')[2]]. *)
Definition after_last_at (s : string) : string := default "" (last (split "@"%char s)).

Definition check_bracketed_netloc (netloc : string) : bool :=
  let hp := after_last_at netloc in
  match partition "["%char hp with
  | (before, Some bracketed) =>
      let '(hostname, port) := partition "]"%char bracketed in
      let p := default "" port in
      str_empty before && (str_empty p || startswith ":" p) && check_bracketed_host hostname
  | (_, None) => check_bracketed_host (partition ":"%char hp).1
  end.
End Ip.

(** ** urlsplit and urlparse *)

Definition c0_or_space (c : ascii) : bool := (code c <=? 32)%N.
Definition unsafe_ch (c : ascii) : bool :=
  (code c =? 9)%N || (code c =? 13)%N || (code c =? 10)%N.
Definition scheme_ch (c : ascii) : bool :=
  is_alpha c || is_digit c || ch_eqb "+"%char c || ch_eqb "-"%char c || ch_eqb "."%char c.

Definition split_scheme (url : string) : string * string :=
  match url with
  | String c _ =>
      match cut ":"%char url with
      | Some (s, rest) =>
          if is_alpha c && str_forall scheme_ch s then (lower s, rest) else ("", url)
      | None => ("", url)
      end
  | EmptyString => ("", url)
  end.

Definition netloc_end (c : ascii) : bool :=
  ch_eqb "/"%char c || ch_eqb "?"%char c || ch_eqb "#"%char c.

Definition split_netloc (url : string) : outcome (string * string) :=
  if startswith "//" url then
    let '(nl, rest) := span_to netloc_end (str_drop 2 url) in
    let has_open := str_mem "["%char nl in
    let has_close := str_mem "]"%char nl in
    if xorb has_open has_close then Raise (ValueError "Invalid IPv6 URL")
    else if has_open && has_close && negb (Ip.check_bracketed_netloc nl)
    then Raise (ValueError "Invalid IPv6 URL")
    else Ret (nl, rest)
  else Ret ("", url).

(** The split at the first [c], keeping everything when there is none. *)
Definition split_at (c : ascii) (s : string) : string * string :=
  match cut c s with
  | Some p => p
  | None => (s, "")
  end.

Definition uses_params : list string :=
  [""; "ftp"; "hdl"; "prospero"; "http"; "imap"; "https"; "shttp"; "rtsp"; "rtsps"; "rtspu";
   "sip"; "sips"; "mms"; "sftp"; "tel"].

(** [_splitparams]: the split at the first [;] of the last path segment. *)
Definition splitparams (url : string) : string * string :=
  let segs := split slash url in
  let seg := default "" (last segs) in
  match cut ";"%char seg with
  | Some (a, b) => (join slash (removelast segs ++ [a])%list, b)
  | None => (url, "")
  end.

Definition urlparse (url0 : string) : outcome ParseResult :=
  let url1 := str_filter (negb ∘ unsafe_ch) (lstrip_by c0_or_space url0) in
  let '(sch, url2) := split_scheme url1 in
  '(nl, url3) ← split_netloc url2;
  let '(url4, frag) := split_at "#"%char url3 in
  let '(url5, q) := split_at "?"%char url4 in
  let '(p, prm) := if bool_decide (sch ∈ uses_params) && str_mem ";"%char url5
                   then splitparams url5 else (url5, "") in
  Ret {| scheme := sch; netloc := nl; path := p; params := prm; query := q; fragment := frag |}.

(** ** Well-formed storage URIs *)

(** A scheme as the initializers use them: lower-case and without [;params]. *)
Definition plain_scheme (s : string) : bool :=
  match s with
  | String c _ => is_alpha c && str_forall scheme_ch s && String.eqb (lower s) s &&
                  bool_decide (s ∉ uses_params)
  | EmptyString => false
  end.
(** A network location with no delimiter, bracket or removed character. *)
Definition plain_netloc_ch (c : ascii) : bool :=
  negb (unsafe_ch c) && negb (netloc_end c) && negb (ch_eqb "["%char c) && negb (ch_eqb "]"%char c).
Definition plain_path_ch (c : ascii) : bool :=
  negb (unsafe_ch c) && negb (ch_eqb "?"%char c) && negb (ch_eqb "#"%char c).
Definition rooted (p : string) : bool := str_empty p || startswith "/" p.

Definition storage_uri_of (sch nl p : string) : string := sch +:+ "://" +:+ nl +:+ p.

Lemma str_filter_id p s : str_forall p s = true → str_filter p s = s.
Proof.
  induction s as [|c s IH]; simpl; [done|].
  rewrite andb_true_iff. intros [-> H]. by rewrite IH.
Qed.

(** Characters of a scheme are neither removed nor a colon. *)
Lemma alpha_not_c0 c : is_alpha c = true → c0_or_space c = false.
Proof. by_all_chars c. Qed.
Lemma scheme_ch_safe c : scheme_ch c = true → negb (unsafe_ch c) = true.
Proof. by_all_chars c. Qed.
Lemma scheme_ch_not_colon c : scheme_ch c = true → negb (ch_eqb ":"%char c) = true.
Proof. by_all_chars c. Qed.

Lemma plain_scheme_inv s :
  plain_scheme s = true →
  ∃ c t, s = String c t ∧ is_alpha c = true ∧ str_forall scheme_ch s = true ∧
         lower s = s ∧ s ∉ uses_params.
Proof.
  destruct s as [|c t]; [done|]. unfold plain_scheme.
  rewrite !andb_true_iff, bool_decide_eq_true, String.eqb_eq.
  intros [[[Ha Hs] Hl] Hu]. by exists c, t.
Qed.

Lemma split_scheme_plain s rest :
  plain_scheme s = true → split_scheme (s +:+ String ":" rest) = (s, rest).
Proof.
  intros (c & t & -> & Ha & Hs & Hl & _)%plain_scheme_inv.
  unfold split_scheme. rewrite str_app_cons. rewrite <- str_app_cons, cut_app.
  - by rewrite Ha, Hs, Hl.
  - apply str_mem_forall. eapply str_forall_impl; [|exact Hs]. apply scheme_ch_not_colon.
Qed.

Lemma plain_netloc_mem c nl :
  plain_netloc_ch c = false → str_forall plain_netloc_ch nl = true → str_mem c nl = false.
Proof.
  intros Hc Hnl. apply str_mem_forall. eapply str_forall_impl; [|exact Hnl].
  intros d Hd. apply negb_true_iff, ch_eqb_false. by intros ->; rewrite Hd in Hc.
Qed.

Lemma split_netloc_plain nl p :
  str_forall plain_netloc_ch nl = true → rooted p = true →
  split_netloc ("//" +:+ nl +:+ p) = Ret (nl, p).
Proof.
  intros Hnl Hp. unfold split_netloc. simpl.
  assert (span_to netloc_end (nl +:+ p) = (nl, p)) as ->.
  { assert (str_forall (negb ∘ netloc_end) nl = true) as Hend.
    { eapply str_forall_impl; [|exact Hnl]. intros c. unfold plain_netloc_ch, compose.
      rewrite !andb_true_iff. tauto. }
    destruct p as [|c p].
    - rewrite str_app_nil_r. by apply span_to_all.
    - apply span_to_hit; [done|]. unfold rooted in Hp. simpl in Hp.
      rewrite andb_true_r in Hp. apply ch_eqb_true in Hp as <-. done. }
  by rewrite !(plain_netloc_mem _ nl) by done.
Qed.

Lemma split_at_none c s : str_mem c s = false → split_at c s = (s, "").
Proof. intros H. unfold split_at. by rewrite cut_None. Qed.

Lemma storage_uri_filtered sch nl p :
  plain_scheme sch = true → str_forall plain_netloc_ch nl = true →
  str_forall plain_path_ch p = true →
  str_filter (negb ∘ unsafe_ch) (lstrip_by c0_or_space (storage_uri_of sch nl p)) =
  storage_uri_of sch nl p.
Proof.
  intros (c & t & -> & Ha & Hs & _)%plain_scheme_inv Hnl Hp.
  unfold storage_uri_of. rewrite str_app_cons, lstrip_by_id by by apply alpha_not_c0.
  apply str_filter_id. rewrite <- str_app_cons. rewrite !str_forall_app.
  rewrite !andb_true_iff. repeat split.
  - eapply str_forall_impl; [apply scheme_ch_safe|done].
  - eapply str_forall_impl; [|exact Hnl]. intros x. unfold plain_netloc_ch, compose.
    rewrite !andb_true_iff. tauto.
  - eapply str_forall_impl; [|exact Hp]. intros x. unfold plain_path_ch, compose.
    rewrite !andb_true_iff. tauto.
Qed.

(** [urlparse] recovers the parts of a well-formed storage URI. *)
Lemma urlparse_storage_uri sch nl p :
  plain_scheme sch = true → str_forall plain_netloc_ch nl = true →
  str_forall plain_path_ch p = true → rooted p = true →
  urlparse (storage_uri_of sch nl p) =
  Ret {| scheme := sch; netloc := nl; path := p; params := ""; query := ""; fragment := "" |}.
Proof.
  intros Hs Hnl Hp Hr. unfold urlparse.
  rewrite storage_uri_filtered by done. unfold storage_uri_of.
  change ("://" +:+ nl +:+ p) with (String ":" ("//" +:+ nl +:+ p)).
  rewrite split_scheme_plain, split_netloc_plain by done. simpl.
  rewrite split_at_none, split_at_none.
  - apply plain_scheme_inv in Hs as (c & t & _ & _ & _ & _ & Hu).
    by rewrite bool_decide_eq_false_2.
  - apply str_mem_forall. eapply str_forall_impl; [|exact Hp].
    intros x. unfold plain_path_ch. rewrite !andb_true_iff. tauto.
  - apply str_mem_forall. eapply str_forall_impl; [|exact Hp].
    intros x. unfold plain_path_ch. rewrite !andb_true_iff. tauto.
Qed.
