(* ===== verification/FnMatch.v ===== *)
(** * fnmatch.fnmatch

    The standard library's shell-pattern matching on a POSIX system, as the S3
    download uses it to skip objects. [fnmatch.translate] turns a pattern into a
    regular expression; here the pattern becomes a list of tokens with the
    meaning of that expression, and [matches] is the declarative meaning the
    executable matcher is proved to decide. *)

From S2P Require Import Prelude PyStr.
Local Open Scope string_scope.
Local Open Scope bool_scope.

Inductive token : Type :=
| TAny
| TStar
| TNever
| TSet (neg : bool) (items : list (ascii * ascii))
| TLit (c : ascii).

#[global] Instance token_eq_dec : EqDecision token.
Proof. solve_decision. Defined.

(** ** Bracket expressions *)

(** The text between the brackets, for a pattern whose [[] has just been read:
    a [!] and then a []] directly after it do not close the expression. *)
Definition bracket (s : string) : option string :=
  let '(neg, r1) := match s with
                    | String "!"%char r => ("!", r)
                    | _ => ("", s)
                    end in
  let '(cl, r2) := match r1 with
                   | String "]"%char r => ("]", r)
                   | _ => ("", r1)
                   end in
  match cut "]"%char r2 with
  | Some (a, _) => Some (neg +:+ cl +:+ a)
  | None => None
  end.

(** The chunks between the hyphens that make ranges: a hyphen counts only after
    [guard] more characters, and the two characters after it never hold the next. *)
Fixpoint chunks (guard : nat) (acc l : list ascii) : list (list ascii) :=
  match l with
  | [] => [reverse acc]
  | c :: l' =>
      if ch_eqb "-"%char c && (guard =? 0)%nat then reverse acc :: chunks 2 [] l'
      else chunks (pred guard) (c :: acc) l'
  end.

(** A trailing hyphen belongs to the chunk before it. *)
Fixpoint close_chunks (cs : list (list ascii)) : list (list ascii) :=
  match cs with
  | [c; []] => [(c ++ ["-"%char])%list]
  | c :: cs' => c :: close_chunks cs'
  | [] => []
  end.

(** Ranges whose bounds are in the wrong order are removed, from the right. *)
Fixpoint merge_chunks (cs : list (list ascii)) : list (list ascii) :=
  match cs with
  | [] => []
  | c :: cs' =>
      match merge_chunks cs' with
      | [] => [c]
      | d :: ds =>
          match last c, head d with
          | Some x, Some y =>
              if (code y <? code x)%N then (removelast c ++ tail d)%list :: ds
              else c :: d :: ds
          | _, _ => c :: d :: ds
          end
      end
  end.

Definition singles (l : list ascii) : list (ascii * ascii) := map (fun c => (c, c)) l.

(** The members of the set: the last character of a chunk and the first of the
    next are the bounds of a range. *)
Fixpoint set_items (c : list ascii) (cs : list (list ascii)) : list (ascii * ascii) :=
  match cs with
  | [] => singles c
  | d :: ds =>
      match last c, d with
      | Some x, y :: d' => (singles (removelast c) ++ (x, y) :: set_items d' ds)%list
      | _, _ => (singles c ++ set_items d ds)%list
      end
  end.

Definition bracket_token (stuff : string) : token :=
  let l := String.list_ascii_of_string stuff in
  let guard := match l with "!"%char :: _ => 2%nat | _ => 1%nat end in
  match merge_chunks (close_chunks (chunks guard [] l)) with
  | [[]] | [] => TNever
  | [["!"%char]] => TAny
  | ("!"%char :: c) :: cs => TSet true (set_items c cs)
  | c :: cs => TSet false (set_items c cs)
  end.

(** ** Patterns *)

(** [skip] counts the characters of a bracket expression still to be passed over. *)
Fixpoint tokens (skip : nat) (pat : string) : list token :=
  match pat with
  | EmptyString => []
  | String c pat' =>
      match skip with
      | S k => tokens k pat'
      | O =>
          if ch_eqb "*"%char c then TStar :: tokens 0 pat'
          else if ch_eqb "?"%char c then TAny :: tokens 0 pat'
          else if ch_eqb "["%char c then
            match bracket pat' with
            | Some stuff => bracket_token stuff :: tokens (S (String.length stuff)) pat'
            | None => TLit c :: tokens 0 pat'
            end
          else TLit c :: tokens 0 pat'
      end
  end.

Definition in_item (c : ascii) (i : ascii * ascii) : bool := in_range (code i.1) (code i.2) c.
Definition token_ok (t : token) (c : ascii) : bool :=
  match t with
  | TAny | TStar => true
  | TNever => false
  | TSet neg items => xorb neg (existsb (in_item c) items)
  | TLit d => ch_eqb d c
  end.

Fixpoint match_tokens (ts : list token) : string → bool :=
  match ts with
  | [] => str_empty
  | TStar :: ts' =>
      fix star (s : string) : bool :=
        match_tokens ts' s || match s with
                              | EmptyString => false
                              | String _ s' => star s'
                              end
  | t :: ts' => fun s =>
      match s with
      | EmptyString => false
      | String c s' => token_ok t c && match_tokens ts' s'
      end
  end.

Definition fnmatch (name pat : string) : bool := match_tokens (tokens 0 pat) name.

(** ** The declarative meaning *)

Inductive matches : list token → string → Prop :=
| matches_nil : matches [] ""
| matches_one t ts c s :
    t ≠ TStar → token_ok t c = true → matches ts s → matches (t :: ts) (String c s)
| matches_star ts a s : matches ts s → matches (TStar :: ts) (a +:+ s).
#[export] Hint Constructors matches : core.

Lemma match_star_iff ts s :
  match_tokens (TStar :: ts) s = true ↔ ∃ a b, s = a +:+ b ∧ match_tokens ts b = true.
Proof.
  split.
  - induction s as [|c s IH]; simpl; rewrite orb_true_iff; intros [H|H]; try done.
    + by exists "", "".
    + by exists "", (String c s).
    + apply IH in H as (a & b & -> & Hb). by exists (String c a), b.
  - intros (a & b & -> & Hb). induction a as [|c a IH].
    + destruct b; simpl in *; by rewrite Hb.
    + simpl. rewrite orb_true_iff. right. exact IH.
Qed.

Lemma match_tokens_spec ts s : match_tokens ts s = true ↔ matches ts s.
Proof.
  revert s. induction ts as [|t ts IH]; intros s.
  - destruct s; simpl; split; auto; by inversion 1.
  - destruct (decide (t = TStar)) as [->|Ht].
    + rewrite match_star_iff. split.
      * intros (a & b & -> & Hb). constructor. by apply IH.
      * inversion 1; subst; [done|]. exists a, s0. by rewrite IH.
    + assert (match_tokens (t :: ts) s =
              match s with "" => false | String c s' => token_ok t c && match_tokens ts s' end) as ->
        by by destruct t.
      destruct s as [|c s]; [split; [done|by inversion 1; subst]|].
      rewrite andb_true_iff, IH. split.
      * intros [? ?]. by constructor.
      * inversion 1; subst; done.
Qed.

(** ** Patterns of the form [*suffix] *)

Definition plain_pat_ch (c : ascii) : bool :=
  negb (ch_eqb "*"%char c) && negb (ch_eqb "?"%char c) && negb (ch_eqb "["%char c).

Lemma tokens_plain p :
  str_forall plain_pat_ch p = true → tokens 0 p = map TLit (String.list_ascii_of_string p).
Proof.
  induction p as [|c p IH]; simpl; [done|]. unfold plain_pat_ch at 1.
  rewrite !andb_true_iff, !negb_true_iff. intros [[[-> ->] ->] Hp]. by rewrite IH.
Qed.
Lemma match_plain p s :
  match_tokens (map TLit (String.list_ascii_of_string p)) s = true ↔ s = p.
Proof.
  revert s. induction p as [|c p IH]; intros s; simpl.
  - apply str_empty_true.
  - destruct s as [|d s]; [done|]. rewrite andb_true_iff, ch_eqb_true, IH. naive_solver.
Qed.
Lemma fnmatch_plain p s : str_forall plain_pat_ch p = true → fnmatch s p = true ↔ s = p.
Proof. intros Hp. unfold fnmatch. by rewrite tokens_plain, match_plain. Qed.
Lemma fnmatch_suffix p s :
  str_forall plain_pat_ch p = true → fnmatch s (String "*" p) = endswith p s.
Proof.
  intros Hp. apply eq_true_iff_eq. unfold fnmatch.
  change (tokens 0 (String "*" p)) with (TStar :: tokens 0 p).
  rewrite match_star_iff, endswith_iff, tokens_plain by done. split.
  - intros (a & b & -> & ->%match_plain). by exists a.
  - intros (t & ->). exists t, p. by rewrite match_plain.
Qed.
