(* ===== verification/FileSystem.v ===== *)
(** * Paths and the file system

    [pathlib.PurePosixPath] as the sources use it ([Path(s)], [/], [.parent],
    [.name]) and the two file-system operations of the download:
    [Path.mkdir(parents=True, exist_ok=True)] and writing a file opened in mode
    ["wb"]. The file system is a finite map from absolute component lists to
    nodes, without symbolic links, permissions or space limits. *)

From S2P Require Import Prelude PyStr.
Local Open Scope string_scope.
Local Open Scope bool_scope.
Local Open Scope list_scope.

(** ** Pure paths *)

Record Path : Type := { p_root : bool; p_parts : list string }.

#[global] Instance path_eq_dec : EqDecision Path.
Proof. solve_decision. Defined.

Definition keep_part (s : string) : bool := negb (str_empty s || String.eqb s ".").

(** [Path(s)]: empty and ["."] components are dropped. *)
Definition mk_path (s : string) : Path :=
  {| p_root := startswith "/" s; p_parts := List.filter keep_part (split slash s) |}.

(** [p / s]. *)
Definition path_join (p : Path) (s : string) : Path :=
  let q := mk_path s in
  if p_root q then q else {| p_root := p_root p; p_parts := (p_parts p ++ p_parts q) |}.

(** [p.parent] and [p.name]. *)
Definition path_parent (p : Path) : Path :=
  {| p_root := p_root p; p_parts := removelast (p_parts p) |}.
Definition path_name (p : Path) : string := default "" (last (p_parts p)).

(** ** The file system *)

Definition loc := list string.

Inductive node : Type :=
| File (data : string)
| Dir.

#[global] Instance node_eq_dec : EqDecision node.
Proof. solve_decision. Defined.

Record FS : Type := { fs_cwd : loc; fs_nodes : gmap loc node }.

(** The root directory always exists. *)
Definition fs_get (fs : FS) (l : loc) : option node :=
  match l with
  | [] => Some Dir
  | _ => fs_nodes fs !! l
  end.
Definition fs_set (fs : FS) (l : loc) (n : node) : FS :=
  {| fs_cwd := fs_cwd fs; fs_nodes := <[l := n]> (fs_nodes fs) |}.

(** Walking a path: every location passed through has to be a directory. *)
Fixpoint walk (fs : FS) (cur : loc) (parts : list string) : outcome loc :=
  match parts with
  | [] =>
      match fs_get fs cur with
      | Some Dir => Ret cur
      | Some (File _) => Raise (NotADirectoryError "ENOTDIR")
      | None => Raise (FileNotFoundError "ENOENT")
      end
  | c :: parts' =>
      match fs_get fs cur with
      | Some Dir => walk fs (if String.eqb c ".." then removelast cur else (cur ++ [c])) parts'
      | Some (File _) => Raise (NotADirectoryError "ENOTDIR")
      | None => Raise (FileNotFoundError "ENOENT")
      end
  end.

Definition start (fs : FS) (p : Path) : loc := if p_root p then [] else fs_cwd fs.

(** Where a path leads once its parent directory is found: the root of the walk,
    the directory a final [..] names, or an entry [c] of directory [d]. *)
Inductive target : Type :=
| AtDir (d : loc)
| Entry (d : loc) (c : string).

Definition locate (fs : FS) (p : Path) : outcome target :=
  match last (p_parts p) with
  | None => AtDir <$> walk fs (start fs p) []
  | Some c =>
      d ← walk fs (start fs p) (removelast (p_parts p));
      if String.eqb c ".." then Ret (AtDir (removelast d)) else Ret (Entry d c)
  end.

(** [os.mkdir]. *)
Definition os_mkdir (p : Path) : M FS unit := fun fs =>
  match locate fs p with
  | Ret (Entry d c) =>
      match fs_get fs (d ++ [c]) with
      | Some _ => (Raise (FileExistsError "EEXIST"), fs)
      | None => (Ret tt, fs_set fs (d ++ [c]) Dir)
      end
  | Ret (AtDir _) => (Raise (FileExistsError "EEXIST"), fs)
  | Raise e => (Raise e, fs)
  | OutOfFuel => (OutOfFuel, fs)
  end.

(** [Path.is_dir]. *)
Definition is_dir (fs : FS) (p : Path) : bool :=
  match walk fs (start fs p) (p_parts p) with
  | Ret _ => true
  | _ => false
  end.

(** The two handlers of [Path.mkdir] with [exist_ok=True]: [missing] runs when a
    parent is missing, any other failure is ignored when the path is a directory. *)
Definition mkdir_with (missing : exn → M FS unit) (p : Path) : M FS unit :=
  try_except (os_mkdir p) (fun e =>
    match e with
    | FileNotFoundError _ => missing e
    | _ => fun fs => if is_dir fs p then (Ret tt, fs) else (Raise e, fs)
    end).

(** [Path.mkdir(parents=True, exist_ok=True)], on the components from the last to
    the first: a missing parent is created first, then the path itself with
    [parents=False]. *)
Fixpoint mkdir_rev (root : bool) (rparts : list string) : M FS unit :=
  let p := {| p_root := root; p_parts := reverse rparts |} in
  mkdir_with (fun e =>
    match rparts with
    | [] => raise e
    | _ :: rparts' => mkdir_rev root rparts' ≫= fun _ => mkdir_with raise p
    end) p.

Definition mkdir_p (p : Path) : M FS unit := mkdir_rev (p_root p) (reverse (p_parts p)).

(** [with open(p, "wb") as f: f.write(data)]. *)
Definition write_bytes (p : Path) (data : string) : M FS unit := fun fs =>
  match locate fs p with
  | Ret (Entry d c) =>
      match fs_get fs (d ++ [c]) with
      | Some Dir => (Raise (IsADirectoryError "EISDIR"), fs)
      | _ => (Ret tt, fs_set fs (d ++ [c]) (File data))
      end
  | Ret (AtDir _) => (Raise (IsADirectoryError "EISDIR"), fs)
  | Raise e => (Raise e, fs)
  | OutOfFuel => (OutOfFuel, fs)
  end.

(** ** Paths without [..] *)

Definition clean (ps : list string) : Prop := ".." ∉ ps.
Definition abs (ps : list string) : Path := {| p_root := true; p_parts := ps |}.

(** Every node sits in a directory. *)
Definition fs_wf (fs : FS) : Prop :=
  ∀ l c n, fs_get fs (l ++ [c]) = Some n → fs_get fs l = Some Dir.

Lemma fs_get_set fs l n l' :
  l ≠ [] → fs_get (fs_set fs l n) l' = if decide (l' = l) then Some n else fs_get fs l'.
Proof.
  intros Hl. unfold fs_get, fs_set. destruct l'; simpl.
  - by rewrite decide_False.
  - rewrite lookup_insert. by repeat case_decide; subst.
Qed.

Lemma snoc_not_nil {A} (l : list A) x : l ++ [x] ≠ [].
Proof. by destruct l. Qed.
#[export] Hint Resolve snoc_not_nil : core.

Lemma clean_app ps qs : clean (ps ++ qs) ↔ clean ps ∧ clean qs.
Proof. unfold clean. rewrite elem_of_app. tauto. Qed.
Lemma clean_snoc ps c : clean (ps ++ [c]) ↔ clean ps ∧ c ≠ "..".
Proof. rewrite clean_app. unfold clean. rewrite list_elem_of_singleton. intuition congruence. Qed.

(** What a walk along [ps] from [cur] finds when no component is [..]. *)
Lemma walk_clean fs cur ps :
  clean ps →
  walk fs cur ps =
  match ps with
  | [] => match fs_get fs cur with
          | Some Dir => Ret cur
          | Some (File _) => Raise (NotADirectoryError "ENOTDIR")
          | None => Raise (FileNotFoundError "ENOENT")
          end
  | c :: ps' => match fs_get fs cur with
          | Some Dir => walk fs (cur ++ [c]) ps'
          | Some (File _) => Raise (NotADirectoryError "ENOTDIR")
          | None => Raise (FileNotFoundError "ENOENT")
          end
  end.
Proof.
  destruct ps as [|c ps]; intros Hc; simpl; [done|].
  assert (String.eqb c ".." = false) as ->; [|done].
  apply String.eqb_neq. unfold clean in Hc. set_solver.
Qed.

Lemma walk_dirs fs cur ps :
  clean ps → (∀ q, q `prefix_of` ps → fs_get fs (cur ++ q) = Some Dir) →
  walk fs cur ps = Ret (cur ++ ps).
Proof.
  revert cur. induction ps as [|c ps IH]; intros cur Hc Hd; rewrite walk_clean by done.
  - pose proof (Hd [] (prefix_nil _)) as H0. rewrite app_nil_r in *. by rewrite H0.
  - pose proof (Hd [] (prefix_nil _)) as H0. rewrite app_nil_r in H0. rewrite H0.
    rewrite IH.
    + by rewrite <- app_assoc.
    + unfold clean in *. set_solver.
    + intros q Hq. rewrite <- app_assoc. apply (Hd (c :: q)). by apply prefix_cons.
Qed.

Lemma walk_Ret fs cur ps d :
  clean ps → walk fs cur ps = Ret d → d = cur ++ ps ∧ fs_get fs d = Some Dir.
Proof.
  revert cur. induction ps as [|c ps IH]; intros cur Hc; rewrite walk_clean by done.
  - rewrite app_nil_r. destruct (fs_get fs cur) as [[]|] eqn:E; naive_solver.
  - destruct (fs_get fs cur) as [[]|] eqn:E; try done. intros Hw.
    apply IH in Hw as [-> Hd]; [|unfold clean in *; set_solver].
    by rewrite <- app_assoc in *.
Qed.

Lemma last_snoc_eq {A} (l : list A) x : last (l ++ [x]) = Some x.
Proof. apply last_snoc. Qed.
Lemma removelast_snoc {A} (l : list A) x : removelast (l ++ [x]) = l.
Proof. apply removelast_last. Qed.

(** Locating an absolute path without [..]. *)
Lemma locate_abs fs ps c :
  clean (ps ++ [c]) →
  locate fs (abs (ps ++ [c])) = (fun d => Entry d c) <$> walk fs [] ps.
Proof.
  intros [Hps Hc]%clean_snoc. unfold locate, abs, start; simpl.
  rewrite last_snoc_eq, removelast_snoc.
  rewrite (proj2 (String.eqb_neq _ _) Hc). by destruct (walk fs [] ps).
Qed.

Lemma prefix_snoc_inv {A} (l k : list A) x : l `prefix_of` k ++ [x] → l = k ++ [x] ∨ l `prefix_of` k.
Proof.
  intros [j Hj]. destruct j as [|y j _] using rev_ind.
  - left. by rewrite app_nil_r in Hj.
  - right. rewrite app_assoc in Hj. apply app_inj_tail in Hj as [-> _]. by exists j.
Qed.

(** ** Framing: what an operation can change, whatever its outcome *)

(** [fs'] has [fs]'s nodes, plus directories along [ps] that were missing. *)
Definition grows (ps : loc) (fs fs' : FS) : Prop :=
  fs_cwd fs' = fs_cwd fs ∧
  ∀ l, fs_get fs' l = fs_get fs l ∨
       (l `prefix_of` ps ∧ fs_get fs l = None ∧ fs_get fs' l = Some Dir).

#[global] Instance grows_refl ps : Reflexive (grows ps).
Proof. split; auto. Qed.
#[global] Instance grows_trans ps : Transitive (grows ps).
Proof.
  intros fs1 fs2 fs3 [Hc1 H1] [Hc2 H2]. split; [congruence|]. intros l.
  destruct (H1 l) as [E1|(? & ? & ?)], (H2 l) as [E2|(? & ? & ?)];
    [left; congruence|right; split; [done|split; congruence]|
     right; split; [done|split; congruence]|left; congruence].
Qed.
Lemma grows_mono ps qs fs fs' : ps `prefix_of` qs → grows ps fs fs' → grows qs fs fs'.
Proof.
  intros Hp [Hc H]. split; [done|]. intros l.
  destruct (H l) as [|(? & ? & ?)]; [by left|right]. split; [|done]. by etrans.
Qed.

Lemma os_mkdir_frame ps fs r fs' :
  clean ps → os_mkdir (abs ps) fs = (r, fs') →
  grows ps fs fs' ∧ (fs_wf fs → fs_wf fs').
Proof.
  intros Hc Hr. destruct ps as [|c ps _] using rev_ind.
  { unfold os_mkdir in Hr. simpl in Hr. by simplify_eq. }
  unfold os_mkdir in Hr. rewrite locate_abs in Hr by done.
  apply clean_snoc in Hc as [Hc _].
  destruct (walk fs [] ps) as [d| |] eqn:Hw; simpl in Hr; simplify_eq; try done.
  apply walk_Ret in Hw as [-> Hd]; [|done]. simpl in *.
  destruct (fs_get fs (ps ++ [c])) eqn:E; simplify_eq; [done|]. split.
  - split; [done|]. intros l. rewrite fs_get_set by done. case_decide; subst; eauto.
  - intros Hwf l x n. rewrite !fs_get_set by done. repeat case_decide; subst; intros Hn.
    + done.
    + apply app_inj_tail in H as [-> ->]. done.
    + done.
    + by apply Hwf in Hn.
Qed.

Lemma mkdir_with_frame missing ps fs r fs' :
  clean ps →
  (∀ e fs1 r1 fs1', missing e fs1 = (r1, fs1') → grows ps fs1 fs1' ∧ (fs_wf fs1 → fs_wf fs1')) →
  mkdir_with missing (abs ps) fs = (r, fs') →
  grows ps fs fs' ∧ (fs_wf fs → fs_wf fs').
Proof.
  intros Hc Hm Hr. unfold mkdir_with, try_except in Hr.
  destruct (os_mkdir (abs ps) fs) as [o fs1] eqn:E.
  apply os_mkdir_frame in E as [Hg Hwf]; [|done].
  destruct o as [|e|]; [by simplify_eq| |by simplify_eq].
  assert (∀ r1 fs2, missing e fs1 = (r1, fs2) → grows ps fs fs2 ∧ (fs_wf fs → fs_wf fs2)) as Hm'.
  { intros r1 fs2 [? ?]%Hm. split; [by etrans|auto]. }
  destruct e; try (by eapply Hm'); destruct (is_dir fs1 (abs ps)); by simplify_eq.
Qed.

Lemma mkdir_p_frame ps fs r fs' :
  clean ps → mkdir_p (abs ps) fs = (r, fs') →
  grows ps fs fs' ∧ (fs_wf fs → fs_wf fs').
Proof.
  unfold mkdir_p; simpl. rewrite <- (reverse_involutive ps) at 1 3.
  generalize (reverse ps) as rps. clear ps. intros rps Hc.
  revert fs r fs'. induction rps as [|c rps IH]; intros fs r fs'; cbn [mkdir_rev].
  { apply mkdir_with_frame; [done|]. intros e ? ? ? [= <- <-]. done. }
  rewrite reverse_cons in *. apply mkdir_with_frame; [done|].
  intros e fs1 r1 fs1'. unfold mbind, M_bind.
  destruct (mkdir_rev true rps fs1) as [o fs2] eqn:E.
  apply IH in E as [Hg Hwf]; [|by apply clean_snoc in Hc as [? _]].
  apply (grows_mono _ (reverse rps ++ [c])) in Hg; [|by apply prefix_app_r].
  destruct o as [[]| |]; [|by intros [= <- <-]..].
  intros [? ?]%mkdir_with_frame; [|done|].
  - split; [by etrans|auto].
  - intros ? ? ? ? [= <- <-]. done.
Qed.

(** A write changes the file it names and nothing else. *)
Lemma write_bytes_frame ps data fs r fs' :
  clean ps → write_bytes (abs ps) data fs = (r, fs') →
  fs_cwd fs' = fs_cwd fs ∧ (fs_wf fs → fs_wf fs') ∧
  (∀ l, l ≠ ps → fs_get fs' l = fs_get fs l) ∧
  (fs_get fs' ps = fs_get fs ps ∨ fs_get fs' ps = Some (File data)).
Proof.
  intros Hc Hr. destruct ps as [|c ps _] using rev_ind.
  { unfold write_bytes in Hr. simpl in Hr. simplify_eq. auto. }
  unfold write_bytes in Hr. rewrite locate_abs in Hr by done.
  apply clean_snoc in Hc as [Hc _].
  destruct (walk fs [] ps) as [d| |] eqn:Hw; simpl in Hr; simplify_eq; auto.
  apply walk_Ret in Hw as [-> Hd]; [|done]. simpl in *.
  assert (fs_get fs (ps ++ [c]) ≠ Some Dir → fs' = fs_set fs (ps ++ [c]) (File data) →
          fs_cwd fs' = fs_cwd fs ∧ (fs_wf fs → fs_wf fs') ∧
          (∀ l, l ≠ ps ++ [c] → fs_get fs' l = fs_get fs l) ∧
          (fs_get fs' (ps ++ [c]) = fs_get fs (ps ++ [c]) ∨
           fs_get fs' (ps ++ [c]) = Some (File data))) as Hset.
  { intros Hnd ->. repeat split.
    - intros Hwf l x n. rewrite !fs_get_set by done. repeat case_decide; subst; intros Hn.
      + by apply (f_equal length) in H; rewrite length_app in H; simpl in H; lia.
      + by apply app_inj_tail in H as [-> ->].
      + exfalso. apply Hnd. by eapply Hwf.
      + by eapply Hwf.
    - intros l Hl. rewrite fs_get_set by done. by rewrite decide_False.
    - right. rewrite fs_get_set by done. by rewrite decide_True. }
  destruct (fs_get fs (ps ++ [c])) as [[]|] eqn:E; simplify_eq; rewrite ?E in *; auto.
Qed.

(** ** When the operations succeed *)

Definition no_file (fs : FS) (ps : loc) : Prop :=
  ∀ q d, q `prefix_of` ps → fs_get fs q ≠ Some (File d).

Lemma fs_wf_prefix fs l k n :
  fs_wf fs → fs_get fs (l ++ k) = Some n → k ≠ [] → fs_get fs l = Some Dir.
Proof.
  intros Hwf. revert n. induction k as [|c k IH] using rev_ind; intros n Hn Hk; [done|].
  rewrite app_assoc in Hn. apply Hwf in Hn.
  destruct (decide (k = [])) as [->|Hk']; [by rewrite app_nil_r in Hn|by eapply IH].
Qed.

Lemma fs_wf_dirs fs ps :
  fs_wf fs → fs_get fs ps = Some Dir → ∀ q, q `prefix_of` ps → fs_get fs q = Some Dir.
Proof.
  intros Hwf Hd q [k ->]. destruct (decide (k = [])) as [->|Hk].
  - by rewrite app_nil_r in Hd.
  - by eapply fs_wf_prefix.
Qed.

Lemma walk_to_dir fs ps :
  fs_wf fs → clean ps → fs_get fs ps = Some Dir → walk fs [] ps = Ret ps.
Proof. intros Hwf Hc Hd. rewrite walk_dirs; [done|done|]. by apply fs_wf_dirs. Qed.

Lemma walk_missing fs cur ps :
  clean ps → (∀ q d, q `prefix_of` ps → fs_get fs (cur ++ q) ≠ Some (File d)) →
  fs_get fs (cur ++ ps) = None →
  walk fs cur ps = Raise (FileNotFoundError "ENOENT").
Proof.
  revert cur. induction ps as [|c ps IH]; intros cur Hc Hf Hn; rewrite walk_clean by done.
  - rewrite app_nil_r in Hn. by rewrite Hn.
  - destruct (fs_get fs cur) as [[d|]|] eqn:E; [|..|done].
    + exfalso. apply (Hf [] d); [apply prefix_nil|by rewrite app_nil_r].
    + apply IH.
      * unfold clean in *. set_solver.
      * intros q d Hq. rewrite <- app_assoc. apply Hf. by apply prefix_cons.
      * by rewrite <- app_assoc.
Qed.

(** With its parent directory present, [mkdir] leaves the path a directory. *)
Lemma mkdir_with_parent missing fs ps c :
  fs_wf fs → clean (ps ++ [c]) → fs_get fs ps = Some Dir →
  (∀ d, fs_get fs (ps ++ [c]) ≠ Some (File d)) →
  ∃ fs', mkdir_with missing (abs (ps ++ [c])) fs = (Ret tt, fs') ∧ fs_cwd fs' = fs_cwd fs ∧
    ∀ l, fs_get fs' l = if decide (l = ps ++ [c]) then Some Dir else fs_get fs l.
Proof.
  intros Hwf Hc Hd Hf. pose proof Hc as [Hc' _]%clean_snoc.
  unfold mkdir_with, try_except, os_mkdir. rewrite locate_abs, walk_to_dir by done. simpl.
  destruct (fs_get fs (ps ++ [c])) as [[d|]|] eqn:E.
  - by destruct (Hf d).
  - unfold is_dir, start. simpl. rewrite walk_to_dir by done. eexists. split; [done|].
    split; [done|]. intros l. by case_decide; subst.
  - eexists. split; [done|]. split; [done|]. intros l. by rewrite fs_get_set.
Qed.

Lemma prefix_snoc_iff {A} (l k : list A) x :
  l `prefix_of` k ++ [x] ↔ l = k ++ [x] ∨ l `prefix_of` k.
Proof.
  split; [apply prefix_snoc_inv|]. intros [->|H]; [done|]. by apply prefix_app_r.
Qed.

(** [fs'] is [fs] with every location along [ps] made a directory. *)
Definition made_dirs (ps : loc) (fs fs' : FS) : Prop :=
  fs_cwd fs' = fs_cwd fs ∧
  ∀ l, fs_get fs' l = if decide (l `prefix_of` ps) then Some Dir else fs_get fs l.

Lemma made_dirs_snoc ps c fs fs1 fs' :
  made_dirs ps fs fs1 → fs_cwd fs' = fs_cwd fs1 →
  (∀ l, fs_get fs' l = if decide (l = ps ++ [c]) then Some Dir else fs_get fs1 l) →
  made_dirs (ps ++ [c]) fs fs'.
Proof.
  intros [Hc1 H1] Hc H. split; [congruence|]. intros l. rewrite H, H1.
  repeat case_decide; rewrite ?prefix_snoc_iff in *; naive_solver.
Qed.

Lemma made_dirs_present fs ps : fs_wf fs → fs_get fs ps = Some Dir → made_dirs ps fs fs.
Proof.
  intros Hwf Hd. split; [done|]. intros l. case_decide; [|done]. by eapply fs_wf_dirs.
Qed.

Lemma mkdir_rev_ok rps fs :
  fs_wf fs → clean (reverse rps) → no_file fs (reverse rps) →
  ∃ fs', mkdir_rev true rps fs = (Ret tt, fs') ∧ made_dirs (reverse rps) fs fs'.
Proof.
  intros Hwf. induction rps as [|c rps IH]; intros Hc Hf; cbn [mkdir_rev].
  { exists fs. split; [done|]. by apply made_dirs_present. }
  rewrite reverse_cons in *. set (ps := reverse rps) in *. pose proof Hc as [Hc' _]%clean_snoc.
  assert (Hfile : ∀ d, fs_get fs (ps ++ [c]) ≠ Some (File d)) by (intros d; by apply Hf).
  assert (Hf' : no_file fs ps) by (intros q d Hq; apply Hf; by apply prefix_app_r).
  destruct (fs_get fs ps) as [[d|]|] eqn:E; [by destruct (Hf' ps d)|..].
  - destruct (mkdir_with_parent
      (fun e => mkdir_rev true rps ≫= fun _ => mkdir_with raise (abs (ps ++ [c])))
      fs ps c Hwf Hc E Hfile) as (fs' & H1 & H2 & H3).
    exists fs'. split; [exact H1|].
    eapply made_dirs_snoc; [by apply made_dirs_present|done|done].
  - destruct (IH Hc' Hf') as (fs1 & E1 & Hm1). pose proof Hm1 as [_ Hg1].
    assert (fs_wf fs1) as Hwf1.
    { apply (mkdir_p_frame ps fs (Ret tt)); [done| |done].
      unfold mkdir_p. simpl. unfold ps. by rewrite reverse_involutive. }
    assert (fs_get fs1 (ps ++ [c]) = None) as En.
    { rewrite Hg1, decide_False.
      - destruct (fs_get fs (ps ++ [c])) eqn:E'; [|done]. by apply Hwf in E'; rewrite E' in E.
      - intros Hp%prefix_length. rewrite length_app in Hp. simpl in Hp. lia. }
    destruct (mkdir_with_parent raise fs1 ps c) as (fs' & H1 & H2 & H3); try done.
    { rewrite Hg1. by rewrite decide_True. }
    { intros d. by rewrite En. }
    exists fs'. split; [|by eapply made_dirs_snoc].
    unfold mkdir_with at 1, try_except, os_mkdir.
    change {| p_root := true; p_parts := ps ++ [c] |} with (abs (ps ++ [c])).
    rewrite locate_abs, walk_missing by done. simpl.
    by rewrite (M_bind_Ret _ _ _ _ _ E1).
Qed.

Lemma mkdir_p_ok fs ps :
  fs_wf fs → clean ps → no_file fs ps →
  ∃ fs', mkdir_p (abs ps) fs = (Ret tt, fs') ∧ made_dirs ps fs fs'.
Proof.
  intros Hwf Hc Hf. unfold mkdir_p; simpl.
  destruct (mkdir_rev_ok (reverse ps) fs) as (fs' & ? & ?); rewrite ?reverse_involutive in *;
    eauto.
Qed.

Lemma write_bytes_ok fs ps c data :
  fs_wf fs → clean (ps ++ [c]) → fs_get fs ps = Some Dir → fs_get fs (ps ++ [c]) ≠ Some Dir →
  write_bytes (abs (ps ++ [c])) data fs = (Ret tt, fs_set fs (ps ++ [c]) (File data)).
Proof.
  intros Hwf Hc Hd Hn. pose proof Hc as [Hc' _]%clean_snoc.
  unfold write_bytes. rewrite locate_abs, walk_to_dir by done. simpl.
  by destruct (fs_get fs (ps ++ [c])) as [[]|].
Qed.
