(* ===== verification/World.v ===== *)
(** * The world of an initializer run

    What the download code reads and changes: the local file system, and the
    sequence of calls made to third-party services, which is how the theorems
    speak about what is (and is not) read, listed or downloaded. Log messages
    are left out, apart from the warning that nothing was downloaded. *)

From S2P Require Import Prelude PyStr PyValue FileSystem.
Local Open Scope string_scope.

(** The arguments of [huggingface_hub.snapshot_download]. The repository id is a
    string, or the empty byte string that [urlparse(None)] leads to. *)
Inductive RepoId : Type :=
| RepoStr (s : string)
| RepoBytes (s : string).

Record SnapshotArgs : Type := {
  repo_id : RepoId;
  repo_type : option string;
  local_dir : string;
  allow_patterns : option (list string);
  ignore_patterns : option (list string);
}.

(** The group, version and plural of a custom resource. *)
Record Resource : Type := { r_group : string; r_version : string; r_plural : string }.

Inductive event : Type :=
| HfLogin (token : string)
| HfSnapshotDownload (args : SnapshotArgs)
| S3Operator (config : list (string * string))
| S3Stat (key : string)
| S3List (directory : string)
| S3Read (key : string)
| WarnAllSkipped (n : nat)
| LoadInclusterConfig
| GetCustomObject (res : Resource) (namespace name : string)
| CreateServiceAccount (namespace : string) (body : value)
| CreateCustomObject (res : Resource) (namespace : string) (body : value)
| CreateService (namespace : string) (body : value)
| DeleteServiceAccount (name namespace : string)
| Sleep (seconds : nat).

Record World : Type := { w_fs : FS; w_trace : list event }.

Definition log (w : World) (evs : list event) : World :=
  {| w_fs := w_fs w; w_trace := w_trace w ++ evs |}.
Definition with_fs (w : World) (fs : FS) : World := {| w_fs := fs; w_trace := w_trace w |}.

Definition emit (ev : event) : M World unit := modify (fun w => log w [ev]).

(** A call to a third-party service: recorded, then its result. *)
Definition call {A} (ev : event) (r : outcome A) : M World A := emit ev ≫= fun _ => lift r.

(** A file-system operation. *)
Definition on_fs {A} (m : M FS A) : M World A := fun w =>
  let '(r, fs') := m (w_fs w) in (r, with_fs w fs').

Lemma call_run {A} ev (r : outcome A) w : call ev r w = (r, log w [ev]).
Proof. done. Qed.
Lemma on_fs_run {A} (m : M FS A) w r fs' :
  m (w_fs w) = (r, fs') → on_fs m w = (r, with_fs w fs').
Proof. intros E. unfold on_fs. by rewrite E. Qed.
Lemma on_fs_inv {A} (m : M FS A) w r w' :
  on_fs m w = (r, w') → m (w_fs w) = (r, w_fs w') ∧ w_trace w' = w_trace w.
Proof. unfold on_fs. destruct (m (w_fs w)). intros [= <- <-]. done. Qed.
Lemma log_app w evs evs' : log (log w evs) evs' = log w (evs ++ evs').
Proof. unfold log. simpl. by rewrite app_assoc. Qed.
Lemma log_nil w : log w [] = w.
Proof. destruct w. unfold log. simpl. by rewrite app_nil_r. Qed.
