(* ===== verification/OpenDal.v ===== *)
(** * S3 storage (pkg/initializers/utils/opendal.py)

    [S3Storage]: building the operator configuration, resolving a prefix to
    object keys, and downloading the objects into a directory. The [opendal]
    package is a parameter, the class [OpenDAL]. *)

From Stdlib Require Import QArith.
From S2P Require Import Prelude PyStr FnMatch FileSystem World.
Local Open Scope string_scope.
Local Open Scope bool_scope.
Local Open Scope list_scope.

Record entry : Type := { e_path : string; e_is_dir : bool }.

(** The arguments of [opendal.layers.RetryLayer]. *)
Record RetryLayer : Type := { max_times : nat; factor : Q; jitter : bool }.

(** The [opendal] package: operators and what [list], [stat] and [read] answer.
    The bucket does not change during a download, so these are functions. *)
Class OpenDAL : Type := {
  operator : Type;
  Operator : string → list (string * string) → outcome operator;
  layer : operator → RetryLayer → operator;
  op_list : operator → string → bool → outcome (list entry);
  op_stat_is_file : operator → string → outcome bool;
  op_read : operator → string → outcome string;
}.

(** Python truthiness of an [Optional[str]]. *)
Definition truthy (o : option string) : bool :=
  match o with
  | Some s => negb (str_empty s)
  | None => false
  end.

Section S3.
Context `{OpenDAL}.

Record S3Storage : Type := { op : operator; bucket : string }.

(** [if v: config[k] = v]. *)
Definition set_if (k : string) (v : option string) : list (string * string) :=
  match v with
  | Some s => if str_empty s then [] else [(k, s)]
  | None => []
  end.

Definition s3_config (bucket : string)
    (endpoint access_key_id secret_access_key region role_arn : option string)
    : list (string * string) :=
  [("root", "/"); ("bucket", bucket)] ++
  set_if "endpoint" endpoint ++
  set_if "access_key_id" access_key_id ++
  set_if "secret_access_key" secret_access_key ++
  (if truthy region then set_if "region" region else [("region", "auto")]) ++
  set_if "role_arn" role_arn.

Definition retry_layer : RetryLayer := {| max_times := 3; factor := 2; jitter := true |}.

(** [S3Storage.__init__]. *)
Definition S3Storage_init (bucket : string)
    (endpoint access_key_id secret_access_key region role_arn : option string)
    : M World S3Storage :=
  let config := s3_config bucket endpoint access_key_id secret_access_key region role_arn in
  o ← call (S3Operator config) (Operator "s3" config);
  mret {| op := layer o retry_layer; bucket := bucket |}.

(** [_is_object]. *)
Definition is_object (self : S3Storage) (key : string) : M World bool :=
  try_except (call (S3Stat key) (op_stat_is_file (op self) key)) (fun e =>
    match e with
    | NotFound => mret false
    | _ => raise e
    end).

Definition not_found_message (self : S3Storage) (prefix base : string) : string :=
  let location := "s3://" +:+ bucket self +:+ "/" +:+ base in
  let message :=
    if negb (str_empty base) && negb (endswith "/" prefix)
    then "No object at " +:+ location +:+ " and no objects under " +:+ location +:+ "/"
    else "No objects under " +:+ location +:+ "/" in
  message +:+ ". Objects are matched by their exact key or by directory, " +:+
  "not by a partial name prefix.".

(** The keys of the listed entries that are not directories. *)
Definition file_keys (es : list entry) : list string :=
  map e_path (List.filter (fun e => negb (e_is_dir e)) es).

(** [_resolve_keys]. *)
Definition resolve_keys (self : S3Storage) (prefix : string) : M World (list string) :=
  let base := rstrip_ch slash prefix in
  exact ← (if negb (str_empty base) && negb (endswith "/" prefix)
           then is_object self base else mret false);
  if exact : bool then mret [base] else
  let directory := if negb (str_empty base) then base +:+ "/" else "/" in
  entries ← call (S3List directory) (op_list (op self) directory true);
  match file_keys entries with
  | [] => raise (FileNotFoundError (not_found_message self prefix base))
  | keys => mret keys
  end.

(** [if ignore_patterns: if any(fnmatch.fnmatch(key, p) for p in ignore_patterns)]. *)
Definition ignored (ignore_patterns : option (list string)) (key : string) : bool :=
  match ignore_patterns with
  | None | Some [] => false
  | Some ps => existsb (fnmatch key) ps
  end.

Definition relative_path (base key : string) : string :=
  let r := lstrip_ch slash (str_drop (String.length base) key) in
  if str_empty r then path_name (mk_path key) else r.

(** One object: create its directory, read it, write it. *)
Definition download_one (self : S3Storage) (base : string) (destination : Path) (key : string)
    : M World unit :=
  let file_destination_path := path_join destination (relative_path base key) in
  on_fs (mkdir_p (path_parent file_destination_path)) ≫= fun _ =>
  data ← call (S3Read key) (op_read (op self) key);
  on_fs (write_bytes file_destination_path data).

(** The loop over the keys; the result is the number of objects downloaded. *)
Fixpoint download_loop (self : S3Storage) (base : string) (destination : Path)
    (ignore_patterns : option (list string)) (downloaded : nat) (keys : list string)
    : M World nat :=
  match keys with
  | [] => mret downloaded
  | key :: keys' =>
      if ignored ignore_patterns key
      then download_loop self base destination ignore_patterns downloaded keys'
      else download_one self base destination key ≫= fun _ =>
           download_loop self base destination ignore_patterns (S downloaded) keys'
  end.

(** [S3Storage.download]; its [except] clause logs and re-raises. *)
Definition download (self : S3Storage) (prefix destination_path : string)
    (ignore_patterns : option (list string)) : M World unit :=
  let destination := mk_path destination_path in
  on_fs (mkdir_p destination) ≫= fun _ =>
  keys ← resolve_keys self prefix;
  let base := rstrip_ch slash prefix in
  downloaded ← download_loop self base destination ignore_patterns 0 keys;
  if (downloaded =? 0)%nat then emit (WarnAllSkipped (length keys)) else mret tt.
End S3.
Arguments S3Storage : clear implicits.
Arguments S3Storage {_}.
