(* ===== verification/OpenDalSpec.v ===== *)
(** * S3 storage: theorems

    What [_resolve_keys] returns, what a download reads and writes, and that it
    stays inside its destination. Keys are spoken of as component lists: the key
    of components [ps] under [base] is [base/p1/.../pn]. *)

From S2P Require Import Prelude PyStr FnMatch FileSystem World OpenDal.
Local Open Scope string_scope.
Local Open Scope bool_scope.
Local Open Scope list_scope.

(** ** Keys and their destinations *)

(** A component an object key can be cut into without loss. *)
Definition valid_comp (c : string) : bool :=
  negb (str_empty c) && negb (str_mem slash c) && negb (String.eqb c ".") && negb (String.eqb c "..").
Definition valid_parts (ps : list string) : Prop := ps ≠ [] ∧ Forall (fun c => valid_comp c = true) ps.

Definition key_of (base : string) (ps : list string) : string :=
  base +:+ String slash (join slash ps).

Lemma valid_comp_inv c :
  valid_comp c = true ↔ c ≠ "" ∧ str_mem slash c = false ∧ c ≠ "." ∧ c ≠ "..".
Proof.
  unfold valid_comp. rewrite !andb_true_iff, !negb_true_iff, str_empty_false, !String.eqb_neq. tauto.
Qed.
Lemma valid_comp_keep c : valid_comp c = true → keep_part c = true.
Proof.
  intros (H1 & H2 & H3 & H4)%valid_comp_inv. unfold keep_part.
  apply negb_true_iff, orb_false_iff. by rewrite str_empty_false, String.eqb_neq.
Qed.
Lemma valid_parts_clean ps : valid_parts ps → clean ps.
Proof.
  intros [_ Hf] Hin. rewrite Forall_forall in Hf. apply Hf in Hin.
  by apply valid_comp_inv in Hin as (_ & _ & _ & ?).
Qed.

Lemma split_join sep l :
  l ≠ [] → Forall (fun c => str_mem sep c = false) l → split sep (join sep l) = l.
Proof.
  induction l as [|c l IH]; intros Hn Hf; [done|]. apply Forall_cons in Hf as [Hc Hf].
  destruct l as [|d l]; [by apply split_none|].
  rewrite join_cons, split_app by done. by rewrite IH.
Qed.
Lemma valid_parts_split ps : valid_parts ps → split slash (join slash ps) = ps.
Proof.
  intros [Hn Hf]. apply split_join; [done|]. eapply Forall_impl; [exact Hf|].
  intros c Hc. by apply valid_comp_inv in Hc as (? & ? & ?).
Qed.
Lemma valid_parts_join_head ps :
  valid_parts ps → ∃ c s, join slash ps = String c s ∧ ch_eqb slash c = false.
Proof.
  intros [Hn Hf]. destruct ps as [|p ps]; [done|].
  apply Forall_cons in Hf as [(Hp & Hs & _)%valid_comp_inv _].
  destruct p as [|c p]; [done|]. simpl in Hs. apply orb_false_iff in Hs as [Hc _].
  destruct ps; [by exists c, p|]. rewrite join_cons by done. by eexists _, _.
Qed.

Lemma List_filter_all {A} (f : A → bool) l : Forall (fun x => f x = true) l → List.filter f l = l.
Proof. induction 1 as [|x l Hx _ IH]; simpl; [done|]. by rewrite Hx, IH. Qed.

Lemma mk_path_parts ps :
  valid_parts ps → mk_path (join slash ps) = {| p_root := false; p_parts := ps |}.
Proof.
  intros Hv. unfold mk_path. rewrite valid_parts_split by done. f_equal.
  - destruct (valid_parts_join_head _ Hv) as (c & s & -> & Hc). simpl.
    unfold slash in Hc. by rewrite Hc.
  - apply List_filter_all. eapply Forall_impl; [apply Hv|]. apply valid_comp_keep.
Qed.

(** The relative path of [base/p1/.../pn] is [p1/.../pn]. *)
Lemma relative_path_key base ps :
  valid_parts ps → relative_path base (key_of base ps) = join slash ps.
Proof.
  intros Hv. unfold relative_path, key_of. rewrite str_drop_app.
  rewrite lstrip_ch_cons. unfold lstrip_ch.
  destruct (valid_parts_join_head _ Hv) as (c & s & -> & Hc).
  by rewrite lstrip_by_id.
Qed.

Lemma destination_key dps base ps :
  valid_parts ps → path_join (abs dps) (relative_path base (key_of base ps)) = abs (dps ++ ps).
Proof. intros Hv. unfold path_join. by rewrite relative_path_key, mk_path_parts. Qed.

Lemma key_of_inj base ps qs :
  valid_parts ps → valid_parts qs → key_of base ps = key_of base qs → ps = qs.
Proof.
  intros Hp Hq Hk%str_app_inj_l. injection Hk as Hk.
  by rewrite <- (valid_parts_split ps), <- (valid_parts_split qs), Hk.
Qed.

(** ** Resolving a prefix *)
Section Resolve.
Context `{OpenDAL}.
Implicit Types self : S3Storage.

(** OpenDAL lists by prefix: every entry under a directory path starts with it. *)
Definition lists_under self : Prop :=
  ∀ d es, op_list (op self) d true = Ret es → d ≠ "/" →
          Forall (fun e => startswith d (e_path e) = true) es.

Lemma rstrip_slash_id s : endswith "/" s = false → rstrip_ch slash s = s.
Proof.
  intros He. destruct (rstrip_by_split (ch_eqb slash) s) as (suf & Hs & Hall).
  unfold rstrip_ch. destruct suf as [|c suf]; [by rewrite str_app_nil_r in Hs|].
  exfalso. apply not_true_iff_false in He. apply He, endswith_iff.
  assert (∃ t, String c suf = t +:+ "/") as (t & Ht).
  { clear Hs. revert c Hall. induction suf as [|d suf IH]; intros c Hall; simpl in *.
    - rewrite andb_true_r in Hall. apply ch_eqb_true in Hall as <-. by exists "".
    - apply andb_true_iff in Hall as [_ Hall]. destruct (IH d Hall) as (t & Ht).
      exists (String c t). simpl. by rewrite Ht. }
  exists (rstrip_by (ch_eqb slash) s +:+ t). by rewrite str_app_assoc, <- Ht.
Qed.

Lemma rstrip_slash_dir s : endswith "/" s = false → rstrip_ch slash (s +:+ "/") = s.
Proof.
  intros He. unfold rstrip_ch. rewrite rstrip_by_app by done. by apply rstrip_slash_id.
Qed.

Lemma is_object_run self key w :
  is_object self key w =
  (match op_stat_is_file (op self) key with
   | Raise NotFound => Ret false
   | r => r
   end, log w [S3Stat key]).
Proof.
  unfold is_object, try_except. rewrite call_run.
  by destruct (op_stat_is_file (op self) key) as [|[]|].
Qed.

Definition directory_of (base : string) : string :=
  if negb (str_empty base) then base +:+ "/" else "/".

(** The listing half of [_resolve_keys]. *)
Lemma resolve_keys_run self prefix w :
  resolve_keys self prefix w =
  let base := rstrip_ch slash prefix in
  let probe := negb (str_empty base) && negb (endswith "/" prefix) in
  let w1 := if probe then log w [S3Stat base] else w in
  match (if probe then match op_stat_is_file (op self) base with
                       | Raise NotFound => Ret false
                       | r => r
                       end else Ret false) with
  | Ret true => (Ret [base], w1)
  | Ret false =>
      let w2 := log w1 [S3List (directory_of base)] in
      match op_list (op self) (directory_of base) true with
      | Ret es => match file_keys es with
                  | [] => (Raise (FileNotFoundError (not_found_message self prefix base)), w2)
                  | keys => (Ret keys, w2)
                  end
      | Raise e => (Raise e, w2)
      | OutOfFuel => (OutOfFuel, w2)
      end
  | Raise e => (Raise e, w1)
  | OutOfFuel => (OutOfFuel, w1)
  end.
Proof.
  unfold resolve_keys. cbv zeta. unfold mbind at 1, M_bind at 1.
  set (base := rstrip_ch slash prefix). set (probe := negb (str_empty base) && _).
  destruct probe.
  - rewrite is_object_run. destruct (op_stat_is_file (op self) base) as [[]|[]|]; try done;
      unfold mbind, M_bind; rewrite call_run; unfold directory_of;
      destruct (op_list _ _ _) as [es| |]; try done; by destruct (file_keys es).
  - unfold mret, M_ret, mbind, M_bind. rewrite call_run. unfold directory_of.
    destruct (op_list _ _ _) as [es| |]; try done; by destruct (file_keys es).
Qed.

(** A prefix without trailing slash that names an object resolves to that
    object alone, without any listing: the exact object takes precedence over
    the directory with the same name. *)
Theorem resolve_keys_exact self prefix w :
  prefix ≠ "" → endswith "/" prefix = false →
  op_stat_is_file (op self) prefix = Ret true →
  resolve_keys self prefix w = (Ret [prefix], log w [S3Stat prefix]).
Proof.
  intros Hne He Hst. rewrite resolve_keys_run. cbv zeta.
  rewrite rstrip_slash_id, He by done. rewrite (proj2 (str_empty_false _) Hne). simpl.
  by rewrite Hst.
Qed.

Lemma file_keys_in es k : k ∈ file_keys es → ∃ e, e ∈ es ∧ e_path e = k ∧ e_is_dir e = false.
Proof.
  unfold file_keys. intros Hk%list_elem_of_In. apply in_map_iff in Hk as (e & <- & He).
  apply filter_In in He as [He Hd%negb_true_iff]. exists e. by rewrite list_elem_of_In.
Qed.

Lemma resolve_keys_inv self prefix w keys w' :
  resolve_keys self prefix w = (Ret keys, w') →
  let base := rstrip_ch slash prefix in
  keys = [base] ∨
  ∃ es, op_list (op self) (directory_of base) true = Ret es ∧ keys = file_keys es ∧ keys ≠ [].
Proof.
  rewrite resolve_keys_run. cbv zeta.
  destruct (if negb _ && _ then _ else _) as [[]| |]; try done.
  { intros [= <- <-]. by left. }
  destruct (op_list (op self) (directory_of _) true) as [es| |]; try done.
  destruct (file_keys es) eqn:E; [done|]. intros [= <- <-]. right. exists es. by rewrite E.
Qed.

Lemma resolve_keys_under self prefix w keys w' :
  lists_under self → rstrip_ch slash prefix ≠ "" →
  resolve_keys self prefix w = (Ret keys, w') →
  let base := rstrip_ch slash prefix in
  keys ≠ [] ∧ Forall (fun k => k = base ∨ startswith (base +:+ "/") k = true) keys.
Proof.
  intros Hl Hne [->|(es & E & -> & Hn)]%resolve_keys_inv base.
  { split; [done|]. apply Forall_singleton. by left. }
  split; [done|]. unfold directory_of in E.
  rewrite (proj2 (str_empty_false _) Hne) in E. simpl in E. fold base in E, Hne.
  assert (base +:+ "/" ≠ "/") as Hnd by by destruct base as [|? []].
  pose proof (proj1 (Forall_forall _ _) (Hl _ _ E Hnd)) as Hall. apply Forall_forall.
  intros k (e & He & <- & _)%file_keys_in. right. by apply Hall.
Qed.

(** C17. The keys a non-empty prefix resolves to are never empty, and each is
    the object the prefix names or lies under that directory: an object whose
    key merely starts with the same characters is not returned. *)
Theorem resolve_keys_confined self prefix w keys w' :
  lists_under self → rstrip_ch slash prefix ≠ "" →
  resolve_keys self prefix w = (Ret keys, w') →
  let base := rstrip_ch slash prefix in
  keys ≠ [] ∧ Forall (fun k => k = base ∨ startswith (base +:+ "/") k = true) keys.
Proof. apply resolve_keys_under. Qed.

(** A prefix that names no object and whose directory holds none makes
    [_resolve_keys] raise [FileNotFoundError] with its message, after asking for
    the object and listing exactly that directory. *)
Lemma resolve_keys_not_found self prefix w es :
  prefix ≠ "" → endswith "/" prefix = false →
  op_stat_is_file (op self) prefix = Raise NotFound →
  op_list (op self) (prefix +:+ "/") true = Ret es → file_keys es = [] →
  resolve_keys self prefix w =
  (Raise (FileNotFoundError (not_found_message self prefix prefix)),
   log w [S3Stat prefix; S3List (prefix +:+ "/")]).
Proof.
  intros Hne He Hst Hl Hk. rewrite resolve_keys_run. cbv zeta.
  rewrite rstrip_slash_id, He by done. unfold directory_of.
  rewrite (proj2 (str_empty_false _) Hne). simpl. by rewrite Hst, Hl, Hk, log_app.
Qed.

(** Listing a directory that holds files. *)
Lemma resolve_keys_dir self base es w :
  base ≠ "" → endswith "/" base = false →
  op_list (op self) (base +:+ "/") true = Ret es → file_keys es ≠ [] →
  resolve_keys self (base +:+ "/") w = (Ret (file_keys es), log w [S3List (base +:+ "/")]).
Proof.
  intros Hne He Hl Hk. rewrite resolve_keys_run. cbv zeta.
  rewrite rstrip_slash_dir by done. rewrite (proj2 (endswith_iff "/" _)) by eauto.
  unfold directory_of. rewrite (proj2 (str_empty_false _) Hne). simpl.
  rewrite Hl. by destruct (file_keys es).
Qed.
End Resolve.

(** ** Downloading *)

(** The abstract effect of storing a file: it is there, its ancestors are
    directories, nothing else changes. *)
Definition put_file (l : loc) (data : string) (get : loc → option node) : loc → option node :=
  fun x => if decide (x = l) then Some (File data)
           else if decide (x `prefix_of` removelast l) then Some Dir
           else get x.
Definition put_files (plan : list (loc * string)) (get : loc → option node) : loc → option node :=
  foldl (fun g p => put_file p.1 p.2 g) get plan.

(** Two locations of which neither is inside the other. *)
Definition apart (l k : loc) : Prop := ¬ l `prefix_of` k ∧ ¬ k `prefix_of` l.

(** A location a file can be stored at. *)
Definition storable (fs : FS) (l : loc) : Prop :=
  no_file fs (removelast l) ∧ fs_get fs l ≠ Some Dir.

Lemma removelast_prefix {A} (l : list A) : removelast l `prefix_of` l.
Proof.
  destruct l as [|x l _] using rev_ind; [done|]. rewrite removelast_snoc. by apply prefix_app_r.
Qed.

Lemma put_file_apart l k data get : apart k l → put_file l data get k = get k.
Proof.
  intros [H1 H2]. unfold put_file. rewrite !decide_False; [done| |by intros ->].
  intros Hp. apply H1. etrans; [done|]. apply removelast_prefix.
Qed.

(** Other storable locations stay storable. *)
Lemma storable_put fs fs' l k data :
  apart k l → storable fs k →
  (∀ x, fs_get fs' x = put_file l data (fs_get fs) x) → storable fs' k.
Proof.
  intros Ha [Hn Hd] Hg. split.
  - intros q d Hq. rewrite Hg. unfold put_file. repeat case_decide; subst; [|done|by apply Hn].
    exfalso. apply Ha. etrans; [done|]. apply removelast_prefix.
  - rewrite Hg, put_file_apart; done.
Qed.

Lemma put_files_apart plan get k : Forall (fun p => apart k p.1) plan → put_files plan get k = get k.
Proof.
  revert get. induction plan as [|[l d] plan IH]; intros get Hf; simpl; [done|].
  apply Forall_cons in Hf as [Ha Hf]. rewrite IH by done. by apply put_file_apart.
Qed.

Lemma apart_sym l k : apart l k → apart k l.
Proof. intros [? ?]. by split. Qed.

Lemma put_files_in plan get l d :
  ForallOrdPairs apart plan.*1 → (l, d) ∈ plan → put_files plan get l = Some (File d).
Proof.
  revert get. induction plan as [|[k e] plan IH]; intros get Hp Hin; [by apply elem_of_nil in Hin|].
  inversion Hp as [|? ? Hk Hp']; subst. apply elem_of_cons in Hin as [[= -> ->]|Hin].
  - simpl. rewrite put_files_apart.
    + unfold put_file. by rewrite decide_True.
    + by rewrite Forall_fmap in Hk.
  - simpl. by apply IH.
Qed.

Lemma put_files_snoc pl p get :
  put_files (pl ++ [p]) get = put_file p.1 p.2 (put_files pl get).
Proof. unfold put_files. by rewrite foldl_app. Qed.

Lemma put_files_cases pl get x :
  put_files pl get x = get x ∨
  (∃ d, (x, d) ∈ pl ∧ put_files pl get x = Some (File d)) ∨
  (∃ p, p ∈ pl ∧ x `prefix_of` removelast p.1 ∧ put_files pl get x = Some Dir).
Proof.
  induction pl as [|[l d] pl IH] using rev_ind; [by left|].
  rewrite put_files_snoc. unfold put_file. simpl.
  assert ((l, d) ∈ pl ++ [(l, d)]) as Hin by set_solver.
  repeat case_decide; subst; [right; left; eauto|right; right; by exists (l, d)|].
  destruct IH as [->|[(e & He & ->)|(p & Hp & Hx & ->)]]; [by left|right; left|right; right].
  - exists e. split; [set_solver|done].
  - exists p. split; [set_solver|done].
Qed.

Lemma prefix_under {A} (x l k : list A) :
  x `prefix_of` l ++ k → x `prefix_of` l ∨ ∃ r, x = l ++ r ∧ r `prefix_of` k.
Proof.
  revert x. induction l as [|y l IH]; intros x Hx; [by right; exists x|].
  destruct x as [|z x]; [left; apply prefix_nil|].
  simpl in Hx. pose proof (prefix_cons_inv_1 _ _ _ _ Hx) as ->.
  apply prefix_cons_inv_2, IH in Hx as [Hx|(r & -> & Hr)].
  - left. by apply prefix_cons.
  - right. by exists r.
Qed.

Lemma removelast_app_ne {A} (l k : list A) : k ≠ [] → removelast (l ++ k) = l ++ removelast k.
Proof. intros. by rewrite removelast_app. Qed.

(** A destination that does not exist yet or is an empty directory. *)
Definition fresh (fs : FS) (dps : loc) : Prop :=
  no_file fs dps ∧ ∀ r, r ≠ [] → fs_get fs (dps ++ r) = None.

Lemma fresh_storable fs fs1 dps ps :
  fresh fs dps → made_dirs dps fs fs1 → ps ≠ [] → storable fs1 (dps ++ ps).
Proof.
  intros [_ Hn] [_ Hg] Hps.
  assert (∀ r, r ≠ [] → fs_get fs1 (dps ++ r) = None) as Hnone.
  { intros r Hr. rewrite Hg, decide_False; [by apply Hn|].
    intros Hp%prefix_length. rewrite length_app in Hp. destruct r; [done|simpl in Hp; lia]. }
  split; [|by rewrite Hnone].
  intros q d Hq. rewrite removelast_app_ne in Hq by done.
  apply prefix_under in Hq as [Hq|(r & -> & _)].
  - rewrite Hg. by rewrite decide_True.
  - destruct (decide (r = [])) as [->|Hr]; [|by rewrite Hnone].
    rewrite app_nil_r, Hg. by rewrite decide_True.
Qed.

Section Download.
Context `{OpenDAL}.
Implicit Types self : S3Storage.

Lemma download_one_ok self base dps ps content w :
  let key := key_of base ps in
  valid_parts ps → clean dps → fs_wf (w_fs w) → storable (w_fs w) (dps ++ ps) →
  op_read (op self) key = Ret content →
  ∃ fs', download_one self base (abs dps) key w = (Ret tt, with_fs (log w [S3Read key]) fs') ∧
    fs_wf fs' ∧ ∀ x, fs_get fs' x = put_file (dps ++ ps) content (fs_get (w_fs w)) x.
Proof.
  intros key Hv Hc Hwf [Hnf Hnd] Hr. unfold download_one, key.
  rewrite destination_key by done.
  pose proof Hv as [Hn _]. destruct ps as [|c ps _] using rev_ind; [done|].
  rewrite app_assoc in *. rewrite removelast_snoc in Hnf.
  assert (clean ((dps ++ ps) ++ [c])) as Hcl.
  { rewrite <- app_assoc. apply clean_app. split; [done|by apply valid_parts_clean]. }
  unfold path_parent. simpl. rewrite removelast_snoc. fold (abs (dps ++ ps)).
  destruct (mkdir_p_ok (w_fs w) (dps ++ ps)) as (fs1 & E1 & Hm); try done.
  { by apply clean_snoc in Hcl as [? _]. }
  rewrite (M_bind_Ret _ _ _ _ _ (on_fs_run _ _ _ _ E1)). unfold mbind, M_bind.
  rewrite call_run. unfold key in Hr. rewrite Hr.
  pose proof Hm as [_ Hg]. pose proof (mkdir_p_frame _ _ _ _ (proj1 (proj1 (clean_snoc _ _) Hcl)) E1) as [_ Hwf1].
  assert (fs_get fs1 ((dps ++ ps) ++ [c]) = fs_get (w_fs w) ((dps ++ ps) ++ [c])) as Hleaf.
  { rewrite Hg, decide_False; [done|]. intros Hp%prefix_length. rewrite length_app in Hp. simpl in Hp. lia. }
  assert (write_bytes (abs ((dps ++ ps) ++ [c])) content fs1 =
          (Ret tt, fs_set fs1 ((dps ++ ps) ++ [c]) (File content))) as Hw.
  { apply write_bytes_ok; auto; [rewrite Hg; by rewrite decide_True|by rewrite Hleaf]. }
  eexists. split; [|split].
  - unfold on_fs. simpl. rewrite Hw. done.
  - by apply (write_bytes_frame _ _ _ _ _ Hcl Hw); auto.
  - intros x. rewrite fs_get_set by done. unfold put_file. rewrite removelast_snoc.
    repeat case_decide; try done; rewrite Hg; by repeat case_decide.
Qed.

(** The component lists that are not ignored, and where their objects go. *)
Definition kept (base : string) (ip : option (list string)) (pss : list (list string)) :=
  List.filter (fun ps => negb (ignored ip (key_of base ps))) pss.
Definition plan (dps : loc) (content : list string → string) (pss : list (list string)) :=
  map (fun ps => (dps ++ ps, content ps)) pss.

Lemma kept_cons base ip ps pss :
  kept base ip (ps :: pss) =
  if ignored ip (key_of base ps) then kept base ip pss else ps :: kept base ip pss.
Proof. unfold kept. simpl. by destruct (ignored ip _). Qed.

Lemma apart_app dps ps qs : apart ps qs → apart (dps ++ ps) (dps ++ qs).
Proof. intros [H1 H2]. split; by intros ?%prefix_app_inv. Qed.

(** The loop stores exactly the kept objects, reading each once and in order. *)
Lemma download_loop_ok self base dps ip content pss n w :
  clean dps → Forall valid_parts pss → fs_wf (w_fs w) →
  ForallOrdPairs apart (kept base ip pss) →
  Forall (fun ps => storable (w_fs w) (dps ++ ps)) (kept base ip pss) →
  Forall (fun ps => op_read (op self) (key_of base ps) = Ret (content ps)) (kept base ip pss) →
  ∃ fs', download_loop self base (abs dps) ip n (map (key_of base) pss) w =
         (Ret (n + length (kept base ip pss)),
          with_fs (log w (map (S3Read ∘ key_of base) (kept base ip pss))) fs') ∧
         fs_wf fs' ∧
         ∀ x, fs_get fs' x = put_files (plan dps content (kept base ip pss)) (fs_get (w_fs w)) x.
Proof.
  intros Hc. revert n w. induction pss as [|ps pss IH]; intros n w Hv Hwf Ho Hs Hr.
  { exists (w_fs w). simpl. rewrite log_nil, Nat.add_0_r. by destruct w. }
  apply Forall_cons in Hv as [Hps Hv]. rewrite kept_cons in *. simpl.
  destruct (ignored ip (key_of base ps)); [by apply IH|].
  inversion Ho as [|? ? Hap Ho']; subst.
  apply Forall_cons in Hs as [Hst Hs]. apply Forall_cons in Hr as [Hrd Hr].
  destruct (download_one_ok self base dps ps (content ps) w) as (fs1 & E1 & Hwf1 & Hg1); try done.
  rewrite (M_bind_Ret _ _ _ _ _ E1).
  destruct (IH (S n) (with_fs (log w [S3Read (key_of base ps)]) fs1)) as (fs' & E & Hwf' & Hg'); try done.
  { rewrite Forall_forall in *. intros qs Hq.
    eapply storable_put; [|by apply Hs|exact Hg1]. apply apart_app, apart_sym. by apply Hap. }
  exists fs'. rewrite E. simpl. split; [|split; [done|]].
  - unfold log, with_fs. simpl. rewrite <- app_assoc. do 2 f_equal. lia.
  - intros x. rewrite Hg'. unfold put_files. simpl.
    clear -Hg1. generalize (plan dps content (kept base ip pss)) as pl.
    intros pl. revert x. induction pl as [|q pl IHp] using rev_ind; intros x; simpl.
    + apply Hg1.
    + rewrite !foldl_app. simpl. unfold put_file at 1 3. by repeat case_decide.
Qed.

Lemma plan_apart dps content pss :
  ForallOrdPairs apart pss → ForallOrdPairs apart (plan dps content pss).*1.
Proof.
  assert ((plan dps content pss).*1 = map (app dps) pss) as ->.
  { induction pss as [|ps pss IH]; simpl; [done|]. by f_equal. }
  induction 1 as [|ps pss Hps _ IH]; simpl; constructor; [|done].
  apply Forall_map. eapply Forall_impl; [exact Hps|]. intros qs. apply apart_app.
Qed.

Lemma plan_in dps content pss p : p ∈ plan dps content pss ↔ ∃ ps, ps ∈ pss ∧ p = (dps ++ ps, content ps).
Proof.
  unfold plan. rewrite list_elem_of_In, in_map_iff. split.
  - intros (ps & <- & Hin%list_elem_of_In). eauto.
  - intros (ps & Hin%list_elem_of_In & ->). eauto.
Qed.

Lemma app_inv_prefix {A} (l k : list A) : ¬ l `prefix_of` k → ∀ r, k ≠ l ++ r.
Proof. intros Hn r ->. by apply Hn, prefix_app_r. Qed.

(** What the file system holds once the planned files are stored. *)
Lemma stored_in_fresh dps content pss fs fs1 fs' :
  fresh fs dps → made_dirs dps fs fs1 → ForallOrdPairs apart pss → Forall (fun ps => ps ≠ []) pss →
  (∀ x, fs_get fs' x = put_files (plan dps content pss) (fs_get fs1) x) →
  (∀ ps, ps ∈ pss → fs_get fs' (dps ++ ps) = Some (File (content ps))) ∧
  (∀ r d, fs_get fs' (dps ++ r) = Some (File d) → r ∈ pss) ∧
  (∀ x, ¬ dps `prefix_of` x →
        fs_get fs' x = if decide (x `prefix_of` dps) then Some Dir else fs_get fs x).
Proof.
  intros [Hnf Hnone] [_ Hg1] Hap Hne Hg. split; [|split].
  - intros ps Hps. rewrite Hg. apply put_files_in; [by apply plan_apart|].
    apply plan_in. eauto.
  - intros r d. rewrite Hg. destruct (put_files_cases (plan dps content pss) (fs_get fs1) (dps ++ r))
      as [->|[(e & (ps & Hps & [= ?%app_inv_head _])%plan_in & _)|(p & _ & _ & ->)]]; [|by subst|done].
    rewrite Hg1. case_decide; [done|]. destruct (decide (r = [])) as [->|Hr].
    + by rewrite app_nil_r in *.
    + by rewrite Hnone.
  - intros x Hx. rewrite Hg.
    destruct (put_files_cases (plan dps content pss) (fs_get fs1) x)
      as [->|[(e & (ps & _ & [= ?])%plan_in & _)|(p & (ps & Hps & ->)%plan_in & Hp & ->)]].
    + apply Hg1.
    + by destruct (app_inv_prefix _ _ Hx ps).
    + rewrite Forall_forall in Hne. simpl in Hp. rewrite removelast_app_ne in Hp by by apply Hne.
      apply prefix_under in Hp as [Hp|(r & -> & _)]; [by rewrite decide_True|].
      by destruct (app_inv_prefix _ _ Hx r).
Qed.

Lemma kept_Forall (P : list string → Prop) base ip pss : Forall P pss → Forall P (kept base ip pss).
Proof.
  rewrite !Forall_forall. unfold kept. intros HP ps.
  rewrite list_elem_of_In, filter_In. intros [Hin%list_elem_of_In _]. by apply HP.
Qed.

(** A directory of objects as the storage presents it: its listing is the keys of
    the component lists [pss] under [base], none of the kept ones is a directory
    of another, and each kept one can be read. *)
Record directory_source self (base : string) (ip : option (list string))
    (pss : list (list string)) (content : list string → string) : Prop := {
  ds_base : base ≠ "" ∧ endswith "/" base = false;
  ds_list : ∃ es, op_list (op self) (base +:+ "/") true = Ret es ∧
                  file_keys es = map (key_of base) pss;
  ds_parts : pss ≠ [] ∧ Forall valid_parts pss;
  ds_apart : ForallOrdPairs apart (kept base ip pss);
  ds_read : Forall (fun ps => op_read (op self) (key_of base ps) = Ret (content ps))
              (kept base ip pss);
}.

(** The run from [w] to [w'] read exactly the kept objects, in order; each of them
    is the file at its relative path in [dps], no other file is in there, and
    outside only the missing ancestors of [dps] were created. *)
Record directory_stored (base : string) (dps : loc) (ip : option (list string))
    (pss : list (list string)) (content : list string → string) (w w' : World) : Prop := {
  st_trace : w_trace w' = w_trace w ++ [S3List (base +:+ "/")] ++
               map (S3Read ∘ key_of base) (kept base ip pss) ++
               (if decide (kept base ip pss = []) then [WarnAllSkipped (length pss)] else []);
  st_files : ∀ ps, ps ∈ kept base ip pss →
               fs_get (w_fs w') (dps ++ ps) = Some (File (content ps));
  st_only : ∀ r d, fs_get (w_fs w') (dps ++ r) = Some (File d) → r ∈ kept base ip pss;
  st_outside : ∀ x, ¬ dps `prefix_of` x →
               fs_get (w_fs w') x = if decide (x `prefix_of` dps) then Some Dir
                                    else fs_get (w_fs w) x;
}.

Lemma download_directory self base dest dps ip pss content w :
  directory_source self base ip pss content →
  mk_path dest = abs dps → clean dps → fs_wf (w_fs w) → fresh (w_fs w) dps →
  ∃ w', download self (base +:+ "/") dest ip w = (Ret tt, w') ∧
        directory_stored base dps ip pss content w w'.
Proof.
  intros [[Hb He] (es & Hl & Hk) [Hne Hv] Hap Hr] Hd Hc Hwf Hfr. unfold download. rewrite Hd.
  destruct (mkdir_p_ok (w_fs w) dps) as (fs1 & E1 & Hm); [done..|apply Hfr|].
  rewrite (M_bind_Ret _ _ _ _ _ (on_fs_run _ _ _ _ E1)).
  rewrite (M_bind_Ret _ _ _ _ _ (resolve_keys_dir self base es _ Hb He Hl
             ltac:(rewrite Hk; by destruct pss))).
  rewrite rstrip_slash_dir by done. rewrite Hk.
  assert (Forall (λ ps, ps ≠ []) (kept base ip pss)) as Hkne.
  { apply kept_Forall. eapply Forall_impl; [exact Hv|]. by intros ? []. }
  destruct (download_loop_ok self base dps ip content pss 0
              (log (with_fs w fs1) [S3List (base +:+ "/")])) as (fs' & E & _ & Hg); try done.
  { by apply (mkdir_p_frame _ _ _ _ Hc E1). }
  { eapply Forall_impl; [exact Hkne|]. intros ps. by apply fresh_storable with (fs := w_fs w). }
  rewrite (M_bind_Ret _ _ _ _ _ E). simpl.
  pose proof (stored_in_fresh dps content (kept base ip pss) _ _ _ Hfr Hm Hap Hkne Hg) as Hfs.
  destruct (kept base ip pss) as [|ps kps] eqn:Hkept; simpl.
  - eexists. split; [done|]. destruct Hfs as (H1 & H2 & H3).
    split; rewrite ?Hkept; [|done..]. simpl. by rewrite length_map, <- !app_assoc.
  - eexists. split; [done|]. destruct Hfs as (H1 & H2 & H3).
    split; rewrite ?Hkept; [|done..]. simpl. by rewrite app_nil_r, <- !app_assoc.
Qed.

(** C1. Downloading a directory of objects into a fresh destination succeeds,
    provided no object's key is a directory of another's. It reads exactly the
    objects no ignore pattern matches, in listing order; afterwards each of them
    is the file at its relative path, no other file is in the destination, and
    outside it only the missing ancestor directories have been created. When
    every object is ignored a warning is left and nothing is read. *)
Theorem download_directory_correct self base dest dps ip pss content w :
  directory_source self base ip pss content →
  mk_path dest = abs dps → clean dps → fs_wf (w_fs w) → fresh (w_fs w) dps →
  ∃ w', download self (base +:+ "/") dest ip w = (Ret tt, w') ∧
        directory_stored base dps ip pss content w w'.
Proof. apply download_directory. Qed.
End Download.

(** ** Containment *)

(** Outside [dps] nothing has changed, apart from missing ancestors of [dps]. *)
Definition contained (dps : loc) (fs fs' : FS) : Prop :=
  ∀ l, ¬ dps `prefix_of` l →
       fs_get fs' l = fs_get fs l ∨
       (l `prefix_of` dps ∧ fs_get fs l = None ∧ fs_get fs' l = Some Dir).

#[global] Instance contained_refl dps : Reflexive (contained dps).
Proof. intros fs l _. by left. Qed.
#[global] Instance contained_trans dps : Transitive (contained dps).
Proof.
  intros f1 f2 f3 H1 H2 l Hl. destruct (H1 l Hl) as [E1|(? & ? & ?)], (H2 l Hl) as [E2|(? & ? & ?)].
  - left. congruence.
  - right. split; [done|split; congruence].
  - right. split; [done|split; congruence].
  - left. congruence.
Qed.

Lemma grows_contained dps r fs fs' : grows (dps ++ r) fs fs' → contained dps fs fs'.
Proof.
  intros [_ Hg] l Hl. destruct (Hg l) as [|(Hp & ? & ?)]; [by left|].
  apply prefix_under in Hp as [Hp|(q & -> & _)]; [by right|].
  by destruct (app_inv_prefix _ _ Hl q).
Qed.
Lemma grows_contained_up dps ps fs fs' :
  ps `prefix_of` dps → grows ps fs fs' → contained dps fs fs'.
Proof.
  intros Hp Hg. apply (grows_contained dps []). rewrite app_nil_r. by eapply grows_mono.
Qed.

(** A relative path that stays below where it is joined. *)
Definition inner (rel : string) : Prop := clean (p_parts (mk_path rel)).

Lemma split_app_sep sep a b : split sep (a +:+ String sep b) = split sep a ++ split sep b.
Proof.
  induction a as [|c a IH]; simpl; [by rewrite ch_eqb_refl|].
  rewrite IH. destruct (ch_eqb sep c); [done|].
  pose proof (split_not_nil sep a). by destruct (split sep a).
Qed.

Lemma path_name_plain s : str_mem slash (path_name (mk_path s)) = false.
Proof.
  unfold path_name, mk_path. simpl.
  destruct (last (List.filter keep_part (split slash s))) as [c|] eqn:E; [|done]. simpl.
  apply last_Some_elem_of, list_elem_of_In, filter_In in E as [Hin%list_elem_of_In _].
  pose proof (split_pieces slash s) as Hp. rewrite Forall_forall in Hp. by apply Hp.
Qed.

Lemma unrooted s : (∀ c t, s = String c t → ch_eqb slash c = false) → p_root (mk_path s) = false.
Proof.
  intros Hs. unfold mk_path. cbn [p_root]. destruct s as [|c t]; [done|]. simpl.
  pose proof (Hs c t eq_refl) as Hc. unfold slash in Hc. by rewrite Hc.
Qed.

Lemma relative_path_unrooted base key : p_root (mk_path (relative_path base key)) = false.
Proof.
  apply unrooted. intros c t. unfold relative_path.
  destruct (str_empty (lstrip_ch slash _)).
  - intros Hp. pose proof (path_name_plain key) as Hn. rewrite Hp in Hn.
    by apply orb_false_iff in Hn as [? _].
  - apply lstrip_by_head.
Qed.

Lemma clean_filter ps : clean ps → clean (List.filter keep_part ps).
Proof.
  unfold clean. rewrite !list_elem_of_In, filter_In. tauto.
Qed.

Lemma clean_lstrip s : clean (split slash s) → clean (split slash (lstrip_ch slash s)).
Proof.
  unfold lstrip_ch. induction s as [|c s IH]; simpl; [done|].
  destruct (ch_eqb slash c) eqn:Hc; [|by simpl; rewrite Hc].
  intros Hcl. apply IH. unfold clean in *. set_solver.
Qed.

(** A key without [..] component has a relative path without one. *)
Lemma inner_relative base key :
  clean (split slash key) →
  base = "" ∨ key = base ∨ startswith (base +:+ "/") key = true →
  inner (relative_path base key).
Proof.
  intros Hk Hb. unfold inner, relative_path.
  destruct (str_empty (lstrip_ch slash (str_drop (String.length base) key))) eqn:E.
  - unfold mk_path at 1. cbn [p_parts].
    rewrite split_none by apply path_name_plain. apply clean_filter.
    unfold clean. rewrite list_elem_of_singleton. intros Hn. apply Hk.
    unfold path_name, mk_path in Hn. simpl in Hn.
    destruct (last (List.filter keep_part (split slash key))) as [c|] eqn:El; [|done].
    simpl in Hn. subst c.
    by apply last_Some_elem_of, list_elem_of_In, filter_In in El as [?%list_elem_of_In _].
  - apply clean_filter. destruct Hb as [->|[->|(t & ->)%startswith_iff]].
    + by apply clean_lstrip.
    + rewrite <- (str_app_nil_r base) in E at 2. rewrite str_drop_app in E. done.
    + rewrite str_app_assoc in *. rewrite str_drop_app. apply clean_lstrip.
      change ("/" +:+ t) with (String slash t) in *.
      rewrite split_app_sep, clean_app in Hk. destruct Hk as [_ Hk].
      change (String slash t) with ("" +:+ String slash t).
      rewrite split_app by done. unfold clean in *. set_solver.
Qed.

Section Containment.
Context `{OpenDAL}.
Implicit Types self : S3Storage.

Lemma download_one_contained self base dps key w r w' :
  clean dps → inner (relative_path base key) →
  download_one self base (abs dps) key w = (r, w') → contained dps (w_fs w) (w_fs w').
Proof.
  intros Hc Hi. unfold download_one, path_join. rewrite relative_path_unrooted. cbn [p_root p_parts abs].
  unfold inner in Hi. set (rel := p_parts (mk_path (relative_path base key))) in *.
  change {| p_root := true; p_parts := dps ++ rel |} with (abs (dps ++ rel)).
  assert (clean (dps ++ rel)) as Hcl by by apply clean_app.
  unfold path_parent. cbn [p_root p_parts abs]. fold (abs (removelast (dps ++ rel))).
  unfold mbind, M_bind.
  destruct (on_fs (mkdir_p (abs (removelast (dps ++ rel)))) w) as [o w1] eqn:E1.
  apply on_fs_inv in E1 as [E1 _].
  assert (contained dps (w_fs w) (w_fs w1)) as H1.
  { apply mkdir_p_frame in E1 as [Hg _].
    - destruct (decide (rel = [])) as [Hr|Hr].
      + rewrite Hr, app_nil_r in Hg. eapply grows_contained_up; [apply removelast_prefix|done].
      + rewrite removelast_app_ne in Hg by done. by eapply grows_contained.
    - unfold clean in *. intros Hin. apply Hcl. destruct (removelast_prefix (dps ++ rel)) as [k Hk].
      rewrite Hk. set_solver. }
  destruct o as [[]| |]; [|by intros [= <- <-]..].
  rewrite call_run. destruct (op_read (op self) key) as [data| |]; [|by intros [= <- <-]..].
  intros [E2 _]%on_fs_inv. etrans; [exact H1|].
  apply write_bytes_frame in E2 as (_ & _ & Hsame & _); [|done].
  intros l Hl. left. apply Hsame. by apply app_inv_prefix.
Qed.

Lemma download_loop_contained self base dps ip keys n w r w' :
  clean dps → Forall (fun k => inner (relative_path base k)) keys →
  download_loop self base (abs dps) ip n keys w = (r, w') → contained dps (w_fs w) (w_fs w').
Proof.
  intros Hc. revert n w. induction keys as [|key keys IH]; intros n w Hk; simpl.
  { by intros [= <- <-]. }
  apply Forall_cons in Hk as [Hi Hk]. destruct (ignored ip key); [by apply IH|].
  unfold mbind, M_bind. destruct (download_one self base (abs dps) key w) as [o w1] eqn:E1.
  apply download_one_contained in E1; [|done..].
  destruct o as [[]| |]; [|by intros [= <- <-]..].
  intros E. etrans; [exact E1|]. by eapply IH.
Qed.

Lemma resolve_keys_fs self prefix w r w' :
  resolve_keys self prefix w = (r, w') → w_fs w' = w_fs w.
Proof.
  rewrite resolve_keys_run. cbv zeta. intros E.
  repeat (case_match; simplify_eq; try done).
Qed.

(** No key the storage lists has a [..] component. *)
Definition no_dotdot self : Prop :=
  ∀ d es, op_list (op self) d true = Ret es → Forall (fun e => clean (split slash (e_path e))) es.

Lemma resolve_keys_inner self prefix w keys w' :
  lists_under self → no_dotdot self → clean (split slash (rstrip_ch slash prefix)) →
  resolve_keys self prefix w = (Ret keys, w') →
  Forall (fun k => inner (relative_path (rstrip_ch slash prefix) k)) keys.
Proof.
  intros Hl Hnd Hp Hr. set (base := rstrip_ch slash prefix) in *.
  assert (Forall (fun k => clean (split slash k)) keys) as Hclean.
  { apply resolve_keys_inv in Hr as [->|(es & E & -> & _)]; [by apply Forall_singleton|].
    apply Forall_forall. intros k (e & He & <- & _)%file_keys_in.
    exact (proj1 (Forall_forall _ _) (Hnd _ _ E) e He). }
  apply Forall_forall. intros k Hk. apply inner_relative.
  { exact (proj1 (Forall_forall _ _) Hclean k Hk). }
  destruct (decide (base = "")) as [Hb|Hb]; [by left|right].
  exact (proj1 (Forall_forall _ _) (proj2 (resolve_keys_under _ _ _ _ _ Hl Hb Hr)) k Hk).
Qed.

(** C4. When no object key and no prefix has a [..] component, a download
    never touches anything outside its destination directory, whether it
    succeeds or raises: it only creates missing ancestors of the destination. *)
Theorem download_contained self prefix dest dps ip w r w' :
  lists_under self → no_dotdot self → clean (split slash (rstrip_ch slash prefix)) →
  mk_path dest = abs dps → clean dps →
  download self prefix dest ip w = (r, w') → contained dps (w_fs w) (w_fs w').
Proof.
  intros Hl Hnd Hp Hd Hc. unfold download. rewrite Hd. unfold mbind, M_bind.
  destruct (on_fs (mkdir_p (abs dps)) w) as [o w1] eqn:E1.
  apply on_fs_inv in E1 as [[Hg _]%mkdir_p_frame _]; [|done].
  assert (contained dps (w_fs w) (w_fs w1)) as H1 by by eapply grows_contained_up.
  destruct o as [[]| |]; [|by intros [= <- <-]..].
  destruct (resolve_keys self prefix w1) as [ro w2] eqn:E2.
  pose proof (resolve_keys_fs _ _ _ _ _ E2) as Hfs.
  destruct ro as [keys| |]; [|by intros [= <- <-]; rewrite Hfs..].
  apply resolve_keys_inner in E2; [|done..].
  destruct (download_loop _ _ _ _ _ _ w2) as [ol w3] eqn:E3.
  apply download_loop_contained in E3; [|done..]. rewrite Hfs in E3.
  assert (contained dps (w_fs w) (w_fs w3)) as H3 by by etrans.
  destruct ol as [n| |]; [|by intros [= <- <-]..].
  destruct (n =? 0)%nat; by intros [= <- <-].
Qed.

(** The reads of the loop, whatever its outcome: an initial part of the objects
    no pattern matches, all of them when it returns. *)
Lemma download_one_reads self base dest key w r w' :
  download_one self base dest key w = (r, w') →
  ∃ b : bool, w_trace w' = w_trace w ++ (if b then [S3Read key] else []) ∧ (r = Ret tt → b = true).
Proof.
  unfold download_one, mbind, M_bind.
  destruct (on_fs _ w) as [o w1] eqn:E1. apply on_fs_inv in E1 as [_ Ht1].
  destruct o as [[]| |]; [|intros [= <- <-]; exists false; by rewrite app_nil_r..].
  rewrite call_run. destruct (op_read (op self) key) as [data| |];
    [|intros [= <- <-]; exists true; simpl; by rewrite Ht1..].
  intros [_ Ht2]%on_fs_inv. exists true. by rewrite Ht2, <- Ht1.
Qed.

(** C23. An object that an ignore pattern matches is never read: the reads of
    the download loop are, in order, an initial part of the keys no pattern
    matches, and all of them, each counted once, when the loop returns. *)
Theorem download_reads self base dest ip keys n w r w' :
  download_loop self base dest ip n keys w = (r, w') →
  ∃ done, done `prefix_of` List.filter (fun k => negb (ignored ip k)) keys ∧
    w_trace w' = w_trace w ++ map S3Read done ∧
    (∀ m, r = Ret m → done = List.filter (fun k => negb (ignored ip k)) keys ∧
                      m = n + length done).
Proof.
  revert n w. induction keys as [|key keys IH]; intros n w; simpl.
  { intros [= <- <-]. exists []. rewrite app_nil_r. split_and!; [done|done|].
    intros m [= <-]. simpl. split; [done|lia]. }
  destruct (ignored ip key) eqn:Hig; simpl; [by apply IH|].
  unfold mbind, M_bind. destruct (download_one self base dest key w) as [o w1] eqn:E1.
  apply download_one_reads in E1 as (b & Ht1 & Hb).
  destruct o as [[]| |].
  - intros (dn & Hp & Ht & Hm)%IH. rewrite Hb in Ht1 by done. exists (key :: dn).
    split_and!; [by apply prefix_cons|by rewrite Ht, Ht1, <- app_assoc|].
    intros m Hr. destruct (Hm m Hr) as [<- ->]. split; [done|simpl; lia].
  - intros [= <- <-]. exists (if b then [key] else []). split_and!; [|by destruct b|done].
    destruct b; [by apply prefix_cons, prefix_nil|apply prefix_nil].
  - intros [= <- <-]. exists (if b then [key] else []). split_and!; [|by destruct b|done].
    destruct b; [by apply prefix_cons, prefix_nil|apply prefix_nil].
Qed.
End Containment.

(** ** A bucket in memory

    OpenDAL over a bucket of objects: [list] matches the path as a plain string
    prefix, [stat] succeeds for exact keys only. *)

Definition lookup_object (objs : list (string * string)) (k : string) : option string :=
  snd <$> List.find (fun o => String.eqb o.1 k) objs.

Definition bucket_dal (objs : list (string * string)) : OpenDAL := {|
  operator := unit;
  Operator _ _ := Ret tt;
  layer o _ := o;
  op_list _ d _ :=
    Ret (map (fun o => {| e_path := o.1; e_is_dir := false |})
             (List.filter (fun o => startswith (if String.eqb d "/" then "" else d) o.1) objs));
  op_stat_is_file _ k :=
    match lookup_object objs k with Some _ => Ret true | None => Raise NotFound end;
  op_read _ k :=
    match lookup_object objs k with Some v => Ret v | None => Raise NotFound end;
|}.

Definition mem_storage (objs : list (string * string)) : @S3Storage (bucket_dal objs) :=
  @Build_S3Storage (bucket_dal objs) tt "test-bucket".

Definition empty_world : World :=
  {| w_fs := {| fs_cwd := []; fs_nodes := ∅ |}; w_trace := [] |}.

Lemma bucket_lists_under objs : @lists_under (bucket_dal objs) (mem_storage objs).
Proof.
  intros d es Hes Hd. simpl in Hes. injection Hes as <-.
  apply Forall_map, Forall_forall. intros o [_ Ho]%list_elem_of_In%filter_In. simpl.
  destruct (String.eqb_spec d "/"); [done|exact Ho].
Qed.

Lemma bucket_no_dotdot objs :
  forallb (fun o => negb (existsb (String.eqb "..") (split slash o.1))) objs = true →
  @no_dotdot (bucket_dal objs) (mem_storage objs).
Proof.
  intros Hall d es Hes. simpl in Hes. injection Hes as <-.
  apply Forall_map, Forall_forall. intros o [Hin _]%list_elem_of_In%filter_In. simpl.
  rewrite forallb_forall in Hall. apply Hall, negb_true_iff in Hin.
  intros Hd%list_elem_of_In. apply not_true_iff_false in Hin. apply Hin, existsb_exists.
  exists "..". by rewrite String.eqb_refl.
Qed.

Lemma empty_world_get l : l ≠ [] → fs_get (w_fs empty_world) l = None.
Proof. by destruct l. Qed.
Lemma empty_world_wf : fs_wf (w_fs empty_world).
Proof. intros l c n Hn. by rewrite empty_world_get in Hn. Qed.
Lemma empty_world_fresh dps : fresh (w_fs empty_world) dps.
Proof.
  split.
  - intros q d _. by destruct q.
  - intros r Hr. apply empty_world_get. by destruct dps.
Qed.

Definition llama_objects : list (string * string) :=
  [("models/llama", "archive"); ("models/llama/config.json", "{}");
   ("models/llama/w/model.bin", "0101"); ("models/llama-2/config.json", "{}")].

Lemma resolve_keys_exact_witness :
  @resolve_keys (bucket_dal llama_objects) (mem_storage llama_objects) "models/llama" empty_world
  = (Ret ["models/llama"], log empty_world [S3Stat "models/llama"]).
Proof.
  apply (@resolve_keys_exact (bucket_dal llama_objects) (mem_storage llama_objects));
    [done|reflexivity|reflexivity].
Defined.

Lemma resolve_keys_confined_witness :
  Forall (fun k => k = "models/llama" ∨ startswith "models/llama/" k = true)
    ["models/llama/config.json"; "models/llama/w/model.bin"].
Proof.
  apply (@resolve_keys_confined (bucket_dal llama_objects) (mem_storage llama_objects)
           "models/llama/" empty_world _ (log empty_world [S3List "models/llama/"]));
    [apply bucket_lists_under|done|vm_compute; reflexivity].
Defined.

Lemma llama_source :
  @directory_source (bucket_dal llama_objects) (mem_storage llama_objects) "models/llama"
    (Some ["*.bin"]) [["config.json"]; ["w"; "model.bin"]] (fun _ => "{}").
Proof.
  assert (kept "models/llama" (Some ["*.bin"]) [["config.json"]; ["w"; "model.bin"]] =
          [["config.json"]]) as Hk by reflexivity.
  split; rewrite ?Hk; [done|by eexists|split; [done|]; repeat constructor; done|repeat constructor..].
Qed.

Lemma download_directory_correct_witness :
  ∃ w', @download (bucket_dal llama_objects) (mem_storage llama_objects)
          "models/llama/" "/workspace/model" (Some ["*.bin"]) empty_world = (Ret tt, w') ∧
        fs_get (w_fs w') ["workspace"; "model"; "config.json"] = Some (File "{}") ∧
        w_trace w' = [S3List "models/llama/"; S3Read "models/llama/config.json"].
Proof.
  destruct (@download_directory_correct (bucket_dal llama_objects) (mem_storage llama_objects)
    "models/llama" "/workspace/model" ["workspace"; "model"] (Some ["*.bin"])
    [["config.json"]; ["w"; "model.bin"]] (fun _ => "{}") empty_world)
    as (w' & E & Hs).
  - apply llama_source.
  - reflexivity.
  - unfold clean. set_solver.
  - apply empty_world_wf.
  - apply empty_world_fresh.
  - exists w'. split; [exact E|]. destruct Hs as [Ht Hf _ _].
    split; [apply (Hf ["config.json"]); vm_compute; constructor|]. rewrite Ht. reflexivity.
Defined.

Lemma download_contained_witness :
  contained ["workspace"; "model"] (w_fs empty_world)
    (w_fs (@download (bucket_dal llama_objects) (mem_storage llama_objects)
             "models/llama/" "/workspace/model" None empty_world).2).
Proof.
  apply (@download_contained (bucket_dal llama_objects) (mem_storage llama_objects)
           "models/llama/" "/workspace/model" ["workspace"; "model"] None empty_world
           (@download (bucket_dal llama_objects) (mem_storage llama_objects)
             "models/llama/" "/workspace/model" None empty_world).1).
  - apply bucket_lists_under.
  - by apply bucket_no_dotdot.
  - vm_compute. set_solver.
  - reflexivity.
  - unfold clean. set_solver.
  - apply surjective_pairing.
Defined.

Lemma download_reads_witness :
  ∃ done, done `prefix_of` ["b.csv"] ∧
    w_trace (@download_loop (bucket_dal [("a.log", "x"); ("b.csv", "y")])
               (mem_storage [("a.log", "x"); ("b.csv", "y")]) "" (abs []) (Some ["*.log"]) 0
               ["a.log"; "b.csv"] empty_world).2 = [] ++ map S3Read done.
Proof.
  destruct (@download_reads (bucket_dal [("a.log", "x"); ("b.csv", "y")])
    (mem_storage [("a.log", "x"); ("b.csv", "y")]) "" (abs []) (Some ["*.log"])
    ["a.log"; "b.csv"] 0 empty_world _ _ (surjective_pairing _)) as (dn & Hp & Ht & _).
  exists dn. split; [exact Hp|exact Ht].
Defined.
