(* ===== verification/DownloadErrors.v ===== *)
(** * Downloads that fail half-way

    What is on disk and what has been read when a download of a directory of
    objects fails at some object: because the object cannot be read, or because
    its key continues the key of an object already stored, which the local file
    system cannot represent. *)

From S2P Require Import Prelude PyStr FileSystem World OpenDal OpenDalSpec.
Local Open Scope string_scope.
Local Open Scope list_scope.

(** ** Paths through a file *)

Lemma walk_through_file fs cur ps d k :
  clean (ps ++ k) → fs_get fs (cur ++ ps) = Some (File d) →
  (∀ q, q `prefix_of` ps → q ≠ ps → fs_get fs (cur ++ q) = Some Dir) →
  walk fs cur (ps ++ k) = Raise (NotADirectoryError "ENOTDIR").
Proof.
  revert cur. induction ps as [|c ps IH]; intros cur Hc Hf Hd.
  - rewrite app_nil_r in Hf. destruct k; cbn; by rewrite Hf.
  - cbn [app] in *. rewrite walk_clean by done.
    rewrite <- (app_nil_r cur), (Hd []); [|apply prefix_nil|done]. rewrite app_nil_r.
    apply IH.
    + unfold clean in *. set_solver.
    + by rewrite <- app_assoc.
    + intros q Hq Hne. rewrite <- app_assoc. apply Hd; [by apply prefix_cons|]. by intros [= ->].
Qed.

(** [mkdir(parents=True, exist_ok=True)] at or below a file. *)
Lemma mkdir_p_refused fs ps c e :
  os_mkdir (abs (ps ++ [c])) fs = (Raise e, fs) → (∀ what, e ≠ FileNotFoundError what) →
  is_dir fs (abs (ps ++ [c])) = false → mkdir_p (abs (ps ++ [c])) fs = (Raise e, fs).
Proof.
  intros Hm He Hd. unfold mkdir_p. cbn [abs p_root p_parts]. rewrite reverse_snoc. cbn [mkdir_rev].
  rewrite reverse_cons, reverse_involutive. fold (abs (ps ++ [c])).
  unfold mkdir_with, try_except. rewrite Hm. destruct e; try by rewrite Hd. by destruct (He what).
Qed.

Lemma dirs_above_file fs l d :
  fs_wf fs → fs_get fs l = Some (File d) → ∀ q, q `prefix_of` l → q ≠ l → fs_get fs q = Some Dir.
Proof.
  intros Hwf Hf q [k ->] Hq. eapply fs_wf_prefix; [done|exact Hf|].
  intros ->. by rewrite app_nil_r in Hq.
Qed.

Lemma mkdir_p_at_file fs l d k :
  fs_wf fs → clean (l ++ k) → l ≠ [] → fs_get fs l = Some (File d) →
  mkdir_p (abs (l ++ k)) fs =
  (Raise (if decide (k = []) then FileExistsError "EEXIST" else NotADirectoryError "ENOTDIR"), fs).
Proof.
  intros Hwf Hc Hl Hf. pose proof (dirs_above_file fs l d Hwf Hf) as Hdirs.
  assert (∀ k, clean (l ++ k) → is_dir fs (abs (l ++ k)) = false) as Hdir.
  { intros k' Hk. unfold is_dir, start, abs; cbn. by rewrite (walk_through_file fs [] l d). }
  destruct k as [|c k _] using rev_ind.
  - rewrite decide_True by done. specialize (Hdir [] Hc). rewrite app_nil_r in *.
    destruct l as [|c l _] using rev_ind; [done|]. apply mkdir_p_refused; [|done..].
    unfold os_mkdir. rewrite locate_abs by done. rewrite walk_to_dir; [by cbn; rewrite Hf|done| |].
    + by apply clean_snoc in Hc as [? _].
    + apply Hdirs; [by apply prefix_app_r|]. intros E%(f_equal length).
      rewrite length_app in E. cbn in E. lia.
  - rewrite decide_False by done. specialize (Hdir (k ++ [c]) Hc).
    rewrite app_assoc in *. apply mkdir_p_refused; [|done..].
    unfold os_mkdir. rewrite locate_abs by done.
    rewrite (walk_through_file fs [] l d); [done| |done..].
    by apply clean_snoc in Hc as [? _].
Qed.

(** ** Failing at the destination *)

(** A destination that is a file, or lies below one: nothing is asked of the
    storage and nothing changes. *)
Lemma download_destination_file `{OpenDAL} self prefix dest l d k ip w :
  mk_path dest = abs (l ++ k) → clean (l ++ k) → l ≠ [] → fs_wf (w_fs w) →
  fs_get (w_fs w) l = Some (File d) →
  download self prefix dest ip w =
  (Raise (if decide (k = []) then FileExistsError "EEXIST" else NotADirectoryError "ENOTDIR"), w).
Proof.
  intros Hd Hc Hl Hwf Hf. unfold download. rewrite Hd. apply M_bind_Raise.
  erewrite on_fs_run; [|by eapply mkdir_p_at_file]. by destruct w.
Qed.

(** ** Failing at an object *)

(** The run from [w] to [w'] listed the directory, read the objects of [kps] and
    stored them, each at its relative path in [dps], and then made the calls
    [extra]; there is no other file in [dps], no directories but those of the
    objects [begun], and outside only its missing ancestors were created. *)
Record partly_stored (base : string) (dps : loc) (kps begun : list (list string))
    (content : list string → string) (extra : list event) (w w' : World) : Prop := {
  pst_trace : w_trace w' = w_trace w ++ [S3List (base +:+ "/")] ++
                map (S3Read ∘ key_of base) kps ++ extra;
  pst_files : ∀ ps, ps ∈ kps → fs_get (w_fs w') (dps ++ ps) = Some (File (content ps));
  pst_only : ∀ r d, fs_get (w_fs w') (dps ++ r) = Some (File d) → r ∈ kps;
  pst_dirs : ∀ r, r ≠ [] → fs_get (w_fs w') (dps ++ r) = Some Dir →
             ∃ qs, qs ∈ begun ∧ r `prefix_of` removelast qs;
  pst_wf : fs_wf (w_fs w');
  pst_outside : ∀ x, ¬ dps `prefix_of` x →
                fs_get (w_fs w') x = if decide (x `prefix_of` dps) then Some Dir
                                     else fs_get (w_fs w) x;
}.

(** Storing files keeps locations apart from them storable. *)
Lemma storable_put_files fs fs' pl l :
  Forall (fun p => apart l p.1) pl → storable fs l →
  (∀ x, fs_get fs' x = put_files pl (fs_get fs) x) → storable fs' l.
Proof.
  intros Ha [Hn Hd] Hg. split; [|by rewrite Hg, put_files_apart].
  intros q d Hq. rewrite Hg.
  destruct (put_files_cases pl (fs_get fs) q) as [->|[(e & He & _)|(p & _ & _ & ->)]];
    [by apply Hn| |done].
  rewrite Forall_forall in Ha. destruct (Ha _ He) as [_ Hp]. exfalso. apply Hp.
  etrans; [exact Hq|]. apply removelast_prefix.
Qed.

(** The directories in a fresh destination are those of the stored files. *)
Lemma dirs_in_fresh dps content pss fs fs1 r :
  fresh fs dps → made_dirs dps fs fs1 → Forall (fun ps => ps ≠ []) pss → r ≠ [] →
  put_files (plan dps content pss) (fs_get fs1) (dps ++ r) = Some Dir →
  ∃ qs, qs ∈ pss ∧ r `prefix_of` removelast qs.
Proof.
  intros [_ Hnone] [_ Hg1] Hne Hr.
  destruct (put_files_cases (plan dps content pss) (fs_get fs1) (dps ++ r))
    as [->|[(e & _ & ->)|(p & (qs & Hq & ->)%plan_in & Hp & _)]]; [|done|].
  - rewrite Hg1, decide_False; [by rewrite Hnone|]. intros Hp%prefix_length. rewrite length_app in Hp.
    destruct r; [done|cbn in Hp; lia].
  - intros _. exists qs. split; [done|]. rewrite Forall_forall in Hne. cbn in Hp.
    rewrite removelast_app_ne in Hp by by apply Hne. by apply prefix_app_inv in Hp.
Qed.

Section Failing.
Context `{OpenDAL}.
Variable self : S3Storage.

Lemma download_loop_app base dest ip n keys keys' w :
  download_loop self base dest ip n (keys ++ keys') w =
  (m ← download_loop self base dest ip n keys; download_loop self base dest ip m keys') w.
Proof.
  revert n w. induction keys as [|key keys IH]; intros n w; [done|]. cbn [app download_loop].
  destruct (ignored ip key); [apply IH|].
  change ((download_one self base dest key ≫= fun _ =>
             download_loop self base dest ip (S n) (keys ++ keys')) w =
          ((download_one self base dest key ≫= fun _ => download_loop self base dest ip (S n) keys)
             ≫= fun m => download_loop self base dest ip m keys') w).
  unfold mbind, M_bind. destruct (download_one self base dest key w) as [[] w1]; [apply IH|done..].
Qed.

(** A directory of objects whose listing starts with the keys of [pss]; those of
    them that are kept are not inside one another and can be read. *)
Variable base dest : string.
Variable dps : loc.
Variable ip : option (list string).
Variable pss : list (list string).
Variable ps : list string.
Variable later : list string.
Variable content : list string → string.
Variable w : World.
Hypothesis Hbase : base ≠ "" ∧ endswith "/" base = false.
Hypothesis Hlist : ∃ es, op_list (op self) (base +:+ "/") true = Ret es ∧
  file_keys es = map (key_of base) pss ++ key_of base ps :: later.
Hypothesis Hvalid : Forall valid_parts (pss ++ [ps]).
Hypothesis Hapart : ForallOrdPairs apart (kept base ip pss).
Hypothesis Hread : Forall (fun qs => op_read (op self) (key_of base qs) = Ret (content qs))
                     (kept base ip pss).
Hypothesis Hkept : ignored ip (key_of base ps) = false.
Hypothesis Hdest : mk_path dest = abs dps.
Hypothesis Hclean : clean dps.
Hypothesis Hwf : fs_wf (w_fs w).
Hypothesis Hfresh : fresh (w_fs w) dps.

(** The state in which the object [ps] is reached. *)
Lemma download_reaches :
  ∃ fs1 w2, made_dirs dps (w_fs w) fs1 ∧ fs_wf (w_fs w2) ∧
    (∀ x, fs_get (w_fs w2) x = put_files (plan dps content (kept base ip pss)) (fs_get fs1) x) ∧
    partly_stored base dps (kept base ip pss) (kept base ip pss) content [] w w2 ∧
    ∀ e w', download_one self base (abs dps) (key_of base ps) w2 = (Raise e, w') →
            download self (base +:+ "/") dest ip w = (Raise e, w').
Proof using Hbase Hlist Hvalid Hapart Hread Hkept Hdest Hclean Hwf Hfresh.
  destruct Hbase as [Hb He], Hlist as (es & Hl & Hk).
  destruct (mkdir_p_ok (w_fs w) dps) as (fs1 & E1 & Hm); [done..|apply Hfresh|].
  assert (Forall (λ qs, qs ≠ []) (kept base ip pss)) as Hne.
  { apply kept_Forall. apply Forall_app in Hvalid as [Hv _]. eapply Forall_impl; [exact Hv|]. by intros ? []. }
  destruct (download_loop_ok self base dps ip content pss 0
              (log (with_fs w fs1) [S3List (base +:+ "/")])) as (fs2 & E2 & Hwf2 & Hg2); try done.
  { by apply Forall_app in Hvalid as [? _]. }
  { by apply (mkdir_p_frame _ _ _ _ Hclean E1). }
  { eapply Forall_impl; [exact Hne|]. intros qs. by apply fresh_storable with (fs := w_fs w). }
  eexists fs1, _. split; [done|]. split; [|split; [|split]]; cycle 3.
  - intros e w' Hone. unfold download. rewrite Hdest.
    rewrite (M_bind_Ret _ _ _ _ _ (on_fs_run _ _ _ _ E1)).
    rewrite (M_bind_Ret _ _ _ _ _ (resolve_keys_dir self base es _ Hb He Hl
               ltac:(rewrite Hk; by destruct pss))).
    rewrite rstrip_slash_dir, Hk by done. apply M_bind_Raise.
    rewrite download_loop_app, (M_bind_Ret _ _ _ _ _ E2). cbn [download_loop]. rewrite Hkept.
    apply M_bind_Raise. exact Hone.
  - exact Hwf2.
  - exact Hg2.
  - destruct (stored_in_fresh dps content (kept base ip pss) _ _ _ Hfresh Hm Hapart Hne Hg2) as (H1 & H2 & H3).
    split; [|done|done| |done|done]; cbn; [by rewrite app_nil_r, <- app_assoc|].
    intros r Hr Hd. rewrite Hg2 in Hd. by eapply dirs_in_fresh.
Qed.

(** The object cannot be read: its directory is created, no file is. *)
Lemma download_one_unreadable e w2 :
  fs_wf (w_fs w2) → storable (w_fs w2) (dps ++ ps) → op_read (op self) (key_of base ps) = Raise e →
  ∃ fs', download_one self base (abs dps) (key_of base ps) w2 =
           (Raise e, with_fs (log w2 [S3Read (key_of base ps)]) fs') ∧
         made_dirs (removelast (dps ++ ps)) (w_fs w2) fs' ∧ fs_wf fs'.
Proof using Hvalid Hclean.
  intros Hwf2 [Hnf _] Hr. apply Forall_app in Hvalid as [_ [Hv _]%Forall_cons].
  unfold download_one. rewrite destination_key by done.
  change (path_parent (abs (dps ++ ps))) with (abs (removelast (dps ++ ps))).
  assert (clean (removelast (dps ++ ps))) as Hcl.
  { assert (clean (dps ++ ps)) as Hc by (apply clean_app; split; [done|by apply valid_parts_clean]).
    unfold clean in *. destruct (removelast_prefix (dps ++ ps)) as [k Hk]. rewrite Hk in Hc. clear -Hc. set_solver. }
  destruct (mkdir_p_ok (w_fs w2) (removelast (dps ++ ps))) as (fs' & E & Hm); try done.
  exists fs'. split; [|split; [done|by apply (mkdir_p_frame _ _ _ _ Hcl E)]]. rewrite (M_bind_Ret _ _ _ _ _ (on_fs_run _ _ _ _ E)).
  apply M_bind_Raise. by rewrite call_run, Hr.
Qed.

Lemma kept_valid qs : qs ∈ kept base ip pss → valid_parts qs.
Proof using Hvalid.
  apply Forall_app in Hvalid as [Hv _]. apply (kept_Forall _ base ip) in Hv.
  rewrite Forall_forall in Hv. apply Hv.
Qed.

Lemma read_error_stops e :
  Forall (apart ps) (kept base ip pss) → op_read (op self) (key_of base ps) = Raise e →
  ∃ w', download self (base +:+ "/") dest ip w = (Raise e, w') ∧
        partly_stored base dps (kept base ip pss) (kept base ip pss ++ [ps]) content
          [S3Read (key_of base ps)] w w'.
Proof using Hbase Hlist Hvalid Hapart Hread Hkept Hdest Hclean Hwf Hfresh.
  intros Hps Hr. destruct download_reaches as (fs1 & w2 & Hm & Hwf2 & Hg2 & [Ht Hf Ho Hdi _ Hx] & Hrun).
  pose proof Hvalid as [_ [[Hne _] _]%Forall_cons]%Forall_app.
  destruct (download_one_unreadable e w2 Hwf2) as (fs' & E & [_ Hg'] & Hwf'); [|done|].
  { eapply (storable_put_files fs1); [|by eapply fresh_storable|exact Hg2].
    apply Forall_forall. intros p (qs & Hq & ->)%plan_in. apply apart_app.
    rewrite Forall_forall in Hps. by apply Hps. }
  eexists. split; [by apply Hrun|]. split; cbn [w_fs w_trace with_fs log].
  - rewrite Ht, app_nil_r. by rewrite <- !app_assoc.
  - intros qs Hq. rewrite Hg', decide_False; [by apply Hf|]. rewrite removelast_app_ne by done.
    intros Hp%prefix_app_inv. rewrite Forall_forall in Hps. destruct (Hps _ Hq) as [_ Hn].
    apply Hn. etrans; [done|]. apply removelast_prefix.
  - intros r d. rewrite Hg'. case_decide; [done|]. apply Ho.
  - intros r Hrne. rewrite Hg', removelast_app_ne by done. case_decide as Hp.
    + intros _. exists ps. split; [set_solver|]. by apply prefix_app_inv in Hp.
    + intros (qs & Hq & Hpre)%(Hdi r Hrne). exists qs. split; [set_solver|done].
  - exact Hwf'.
  - intros x Hnx. rewrite Hg', removelast_app_ne by done. case_decide as Hp; [|by apply Hx].
    apply prefix_under in Hp as [Hp|(r & -> & _)]; [by rewrite decide_True|].
    by destruct (app_inv_prefix _ _ Hnx r).
Qed.

(** C18. A read that fails ends the download with its exception: the objects
    before it in the listing that no pattern matches are stored completely, the
    failing one leaves no file, and nothing after it is read. *)
Theorem download_read_error e :
  Forall (apart ps) (kept base ip pss) → op_read (op self) (key_of base ps) = Raise e →
  ∃ w', download self (base +:+ "/") dest ip w = (Raise e, w') ∧
        partly_stored base dps (kept base ip pss) (kept base ip pss ++ [ps]) content
          [S3Read (key_of base ps)] w w'.
Proof using Hbase Hlist Hvalid Hapart Hread Hkept Hdest Hclean Hwf Hfresh. apply read_error_stops. Qed.

(** C26. S3 allows a key that continues another key, as [a] and [a/b], but a
    directory tree does not. When the shorter key comes first its object is
    stored as a file, and the download then fails at the longer one, before
    reading it, with [FileExistsError] or [NotADirectoryError]. *)
Theorem download_key_conflict qs rest :
  qs ∈ kept base ip pss → ps = qs ++ rest → rest ≠ [] →
  ∃ w', download self (base +:+ "/") dest ip w =
          (Raise (if decide (length rest = 1%nat) then FileExistsError "EEXIST"
                  else NotADirectoryError "ENOTDIR"), w') ∧
        partly_stored base dps (kept base ip pss) (kept base ip pss) content [] w w'.
Proof using Hbase Hlist Hvalid Hapart Hread Hkept Hdest Hclean Hwf Hfresh.
  intros Hq Hps Hrest. destruct download_reaches as (fs1 & w2 & Hm & Hwf2 & Hg2 & Hst & Hrun).
  exists w2. split; [|done]. apply Hrun. pose proof Hst as [_ Hf _ _ _ _]. specialize (Hf _ Hq).
  pose proof (kept_valid _ Hq) as [Hqne _].
  pose proof Hvalid as [_ [Hv _]%Forall_cons]%Forall_app.
  unfold download_one. rewrite destination_key by done.
  change (path_parent (abs (dps ++ ps))) with (abs (removelast (dps ++ ps))).
  destruct rest as [|c rest _] using rev_ind; [done|].
  assert (removelast (dps ++ ps) = (dps ++ qs) ++ rest) as ->.
  { rewrite Hps, !app_assoc. apply removelast_snoc. }
  apply M_bind_Raise. erewrite on_fs_run; [|apply (mkdir_p_at_file _ (dps ++ qs) (content qs) rest);
    [done|..|done]].
  - assert ((length (rest ++ [c]) = 1%nat) ↔ rest = []) as Hlen.
    { rewrite length_app. destruct rest; cbn; [done|]. split; [lia|done]. }
    rewrite (decide_ext _ _ _ _ Hlen). by destruct w2.
  - apply valid_parts_clean in Hv. rewrite Hps in Hv. rewrite !clean_app in Hv |- *. tauto.
  - intros [_ ?]%app_nil. done.
Qed.
End Failing.

(** ** Witnesses *)

(** A bucket in memory in which the objects with empty content cannot be read. *)
Definition flaky_dal (objs : list (string * string)) : OpenDAL := {|
  operator := unit;
  Operator _ _ := Ret tt;
  layer o _ := o;
  op_list o d r := @op_list (bucket_dal objs) o d r;
  op_stat_is_file o k := @op_stat_is_file (bucket_dal objs) o k;
  op_read o k :=
    match @op_read (bucket_dal objs) o k with
    | Ret s => if str_empty s then Raise (ExternalError "Unexpected") else Ret s
    | r => r
    end;
|}.

Definition flaky_objects : list (string * string) :=
  [("data/a.csv", "1"); ("data/b.csv", ""); ("data/c.csv", "3")].

Lemma download_read_error_witness :
  ∃ w', @download (flaky_dal flaky_objects) (@Build_S3Storage (flaky_dal flaky_objects) tt "bucket")
          "data/" "/workspace/dataset" None empty_world = (Raise (ExternalError "Unexpected"), w') ∧
        fs_get (w_fs w') ["workspace"; "dataset"; "a.csv"] = Some (File "1").
Proof.
  destruct (@download_read_error (flaky_dal flaky_objects)
    (@Build_S3Storage (flaky_dal flaky_objects) tt "bucket") "data" "/workspace/dataset"
    ["workspace"; "dataset"] None [["a.csv"]] ["b.csv"] ["data/c.csv"] (fun _ => "1") empty_world)
    with (e := ExternalError "Unexpected") as (w' & E & Hs).
  - done.
  - by eexists.
  - by repeat constructor.
  - repeat constructor.
  - by repeat constructor.
  - reflexivity.
  - reflexivity.
  - unfold clean. set_solver.
  - apply empty_world_wf.
  - apply empty_world_fresh.
  - repeat constructor; by intros [? [=]].
  - reflexivity.
  - exists w'. split; [exact E|]. destruct Hs as [_ Hf _ _ _ _]. apply (Hf ["a.csv"]). vm_compute. constructor.
Defined.

Definition nested_objects : list (string * string) := [("data/a", "1"); ("data/a/b", "2")].

Lemma download_key_conflict_witness :
  (@download (bucket_dal nested_objects) (mem_storage nested_objects)
     "data/" "/workspace/dataset" None empty_world).1 = Raise (FileExistsError "EEXIST").
Proof.
  destruct (@download_key_conflict (bucket_dal nested_objects) (mem_storage nested_objects) "data"
    "/workspace/dataset" ["workspace"; "dataset"] None [["a"]] ["a"; "b"] [] (fun _ => "1") empty_world)
    with (qs := ["a"]) (rest := ["b"]) as (w' & E & _).
  - done.
  - by eexists.
  - by repeat constructor.
  - repeat constructor.
  - by repeat constructor.
  - reflexivity.
  - reflexivity.
  - unfold clean. set_solver.
  - apply empty_world_wf.
  - apply empty_world_fresh.
  - vm_compute. constructor.
  - reflexivity.
  - done.
  - change "data/" with ("data" +:+ "/"). rewrite E. reflexivity.
Defined.
