(* ===== verification/DownloadRetry.v ===== *)
(** * Downloads into a destination that is not empty

    An initializer container that fails is started again, with what the failed run
    left in the destination. A download overwrites the files of its objects and
    leaves everything else alone ([download_over]); after a run that failed
    half-way, another run therefore ends as if there had been only one. *)

From S2P Require Import Prelude PyStr FileSystem World OpenDal OpenDalSpec DownloadErrors.
Local Open Scope string_scope.
Local Open Scope list_scope.

Lemma apart_elements l x y : ForallOrdPairs apart l → x ∈ l → y ∈ l → x = y ∨ apart x y.
Proof.
  induction 1 as [|z l Hz _ IH]; [by intros ?%elem_of_nil|]. rewrite Forall_forall in Hz.
  intros [->|Hx]%elem_of_cons [->|Hy]%elem_of_cons; [by left|right; by apply Hz| |by apply IH].
  right. by apply apart_sym, Hz.
Qed.

(** Of two elements of such a list, none is a directory of the other. *)
Lemma apart_not_below l x y :
  ForallOrdPairs apart l → x ∈ l → y ∈ l → y ≠ [] → ¬ x `prefix_of` removelast y.
Proof.
  intros Hl Hx Hy Hne Hp. pose proof (prefix_length _ _ Hp) as Hlen.
  destruct (apart_elements l x y Hl Hx Hy) as [->|[Hn _]].
  - destruct y as [|c y _] using rev_ind; [done|]. rewrite removelast_snoc, length_app in Hlen. cbn in Hlen. lia.
  - apply Hn. etrans; [exact Hp|]. apply removelast_prefix.
Qed.

(** The run from [w] to [w'] read exactly the kept objects, in order; each of them
    is the file at its relative path in [dps], and every other location is as
    before, the directories above these files apart. *)
Record directory_merged (base : string) (dps : loc) (ip : option (list string))
    (pss : list (list string)) (content : list string → string) (w w' : World) : Prop := {
  mg_trace : w_trace w' = w_trace w ++ [S3List (base +:+ "/")] ++
               map (S3Read ∘ key_of base) (kept base ip pss) ++
               (if decide (kept base ip pss = []) then [WarnAllSkipped (length pss)] else []);
  mg_files : ∀ ps, ps ∈ kept base ip pss →
               fs_get (w_fs w') (dps ++ ps) = Some (File (content ps));
  mg_above : ∀ x, x `prefix_of` dps → fs_get (w_fs w') x = Some Dir;
  mg_others : ∀ x, ¬ x `prefix_of` dps →
               (∀ ps, ps ∈ kept base ip pss → ¬ x `prefix_of` dps ++ ps) →
               fs_get (w_fs w') x = fs_get (w_fs w) x;
  mg_no_more : ∀ x d, fs_get (w_fs w') x = Some (File d) →
               fs_get (w_fs w) x = Some (File d) ∨ ∃ ps, ps ∈ kept base ip pss ∧ x = dps ++ ps;
}.

Lemma storable_made fs fs1 dps ps :
  made_dirs dps fs fs1 → ps ≠ [] → storable fs (dps ++ ps) → storable fs1 (dps ++ ps).
Proof.
  intros [_ Hg] Hps [Hn Hd]. split.
  - intros q d Hq. rewrite Hg. case_decide; [done|by apply Hn].
  - rewrite Hg, decide_False; [done|]. intros Hp%prefix_length. rewrite length_app in Hp.
    destruct ps; [done|cbn in Hp; lia].
Qed.

(** What the file system holds once the planned files are stored. *)
Lemma merged_state dps content pss fs fs1 fs' :
  made_dirs dps fs fs1 → ForallOrdPairs apart pss → Forall (fun ps => ps ≠ []) pss →
  (∀ x, fs_get fs' x = put_files (plan dps content pss) (fs_get fs1) x) →
  (∀ ps, ps ∈ pss → fs_get fs' (dps ++ ps) = Some (File (content ps))) ∧
  (∀ x, x `prefix_of` dps → fs_get fs' x = Some Dir) ∧
  (∀ x, ¬ x `prefix_of` dps → (∀ ps, ps ∈ pss → ¬ x `prefix_of` dps ++ ps) → fs_get fs' x = fs_get fs x) ∧
  (∀ x d, fs_get fs' x = Some (File d) → fs_get fs x = Some (File d) ∨ ∃ ps, ps ∈ pss ∧ x = dps ++ ps).
Proof.
  intros [_ Hg1] Hap Hne Hg.
  assert (∀ x, fs_get fs' x = fs_get fs1 x ∨ (∃ ps, ps ∈ pss ∧ x = dps ++ ps) ∨
    ∃ ps, ps ∈ pss ∧ x `prefix_of` dps ++ ps ∧ fs_get fs' x = Some Dir) as Hcases.
  { intros x. rewrite Hg. destruct (put_files_cases (plan dps content pss) (fs_get fs1) x)
      as [->|[(e & (ps & Hps & [= -> _])%plan_in & _)|(p & (ps & Hps & ->)%plan_in & Hp & ->)]];
      [by left|right; left; eauto|]. right. right. exists ps. split_and!; [done| |done]. cbn in Hp.
    etrans; [exact Hp|]. apply removelast_prefix. }
  split_and!.
  - intros ps Hps. rewrite Hg. apply put_files_in; [by apply plan_apart|]. apply plan_in. eauto.
  - intros x Hx. destruct (Hcases x) as [->|[(ps & Hps & ->)|(ps & _ & _ & ->)]]; [|exfalso|done].
    + rewrite Hg1. by rewrite decide_True.
    + apply prefix_length in Hx. rewrite length_app in Hx. rewrite Forall_forall in Hne.
      specialize (Hne ps Hps). destruct ps; [done|cbn in Hx; lia].
  - intros x Hx Hn. destruct (Hcases x) as [->|[(ps & Hps & ->)|(ps & Hps & Hp & _)]].
    + rewrite Hg1. by rewrite decide_False.
    + by destruct (Hn ps Hps).
    + by destruct (Hn ps Hps).
  - intros x d Hx. destruct (Hcases x) as [E|[?|(ps & _ & _ & E)]]; [|by right|congruence].
    left. rewrite E, Hg1 in Hx. by case_decide.
Qed.

Section Over.
Context `{OpenDAL}.
Implicit Types self : S3Storage.

(** A download overwrites: into a destination that already holds files and
    directories, it succeeds as long as no object has to go where a directory is
    or below a file; each kept object is the file at its relative path, and every
    other file and directory is as it was. *)
Lemma download_over self base dest dps ip pss content w :
  directory_source self base ip pss content →
  mk_path dest = abs dps → clean dps → fs_wf (w_fs w) → no_file (w_fs w) dps →
  Forall (fun ps => storable (w_fs w) (dps ++ ps)) (kept base ip pss) →
  ∃ w', download self (base +:+ "/") dest ip w = (Ret tt, w') ∧
        directory_merged base dps ip pss content w w'.
Proof.
  intros [[Hb He] (es & Hl & Hk) [Hne Hv] Hap Hr] Hd Hc Hwf Hnf Hst. unfold download. rewrite Hd.
  destruct (mkdir_p_ok (w_fs w) dps) as (fs1 & E1 & Hm); [done..|].
  rewrite (M_bind_Ret _ _ _ _ _ (on_fs_run _ _ _ _ E1)).
  rewrite (M_bind_Ret _ _ _ _ _ (resolve_keys_dir self base es _ Hb He Hl
             ltac:(rewrite Hk; by destruct pss))).
  rewrite rstrip_slash_dir by done. rewrite Hk.
  assert (Forall (λ ps, ps ≠ []) (kept base ip pss)) as Hkne.
  { apply kept_Forall. eapply Forall_impl; [exact Hv|]. by intros ? []. }
  destruct (download_loop_ok self base dps ip content pss 0
              (log (with_fs w fs1) [S3List (base +:+ "/")])) as (fs' & E & _ & Hg); try done.
  { by apply (mkdir_p_frame _ _ _ _ Hc E1). }
  { rewrite Forall_forall in Hst, Hkne |- *. intros ps Hps.
    eapply storable_made; [done|by apply Hkne|by apply Hst]. }
  rewrite (M_bind_Ret _ _ _ _ _ E). cbn [Nat.add].
  pose proof (merged_state dps content (kept base ip pss) _ _ _ Hm Hap Hkne Hg) as Hfs.
  destruct (kept base ip pss) as [|ps kps] eqn:Hkept; cbn -[decide].
  - eexists. split; [done|]. destruct Hfs as (H1 & H2 & H3 & H4).
    split; rewrite ?Hkept; [|done..]. cbn. by rewrite length_map, <- !app_assoc.
  - eexists. split; [done|]. destruct Hfs as (H1 & H2 & H3 & H4).
    split; rewrite ?Hkept; [|done..]. cbn. by rewrite app_nil_r, <- !app_assoc.
Qed.
End Over.

Section Retry.
Context `{OpenDAL}.
Implicit Types self : S3Storage.

Section PartlyStored.
Variable base : string.
Variable dps : loc.
Variable ip : option (list string).
Variables pss rest : list (list string).
Variable ps : list string.
Variable content : list string → string.
Variable extra : list event.
Variables w w1 : World.
Let all : list (list string) := pss ++ ps :: rest.
Hypothesis Hvalid : Forall valid_parts all.
Hypothesis Hapart : ForallOrdPairs apart (kept base ip all).
Hypothesis Hkept : ignored ip (key_of base ps) = false.
Hypothesis Hst : partly_stored base dps (kept base ip pss) (kept base ip pss ++ [ps]) content extra w w1.

Lemma kept_all : kept base ip all = kept base ip pss ++ ps :: kept base ip rest.
Proof using Hkept. unfold all, kept. rewrite List.filter_app. cbn. by rewrite Hkept. Qed.

Lemma kept_nonempty qs : qs ∈ kept base ip all → qs ≠ [].
Proof using Hvalid.
  pose proof (kept_Forall _ base ip _ Hvalid) as Hv. rewrite Forall_forall in Hv. intros Hq. by apply Hv.
Qed.

(** Every object can be stored where the failed run left its files. *)
Lemma partly_storable : Forall (fun qs => storable (w_fs w1) (dps ++ qs)) (kept base ip all).
Proof using Hvalid Hapart Hkept Hst.
  apply Forall_forall. intros qs Hq. pose proof (kept_nonempty qs Hq) as Hne. destruct Hst as [_ _ Ho Hd _ Hx].
  assert (∀ r, r ∈ kept base ip pss ++ [ps] → r ∈ kept base ip all) as Hsub
    by (intros r; rewrite kept_all; set_solver).
  split.
  - intros q d Hp Hfile. rewrite removelast_app_ne in Hp by done.
    destruct (decide (dps `prefix_of` q)) as [[r ->]|Hn].
    + apply Ho in Hfile. apply prefix_app_inv in Hp.
      apply (apart_not_below _ r qs Hapart); [apply Hsub; set_solver|done..].
    + apply prefix_under in Hp as [Hp|(r & -> & _)]; [|by apply Hn, prefix_app_r].
      rewrite Hx, decide_True in Hfile by done. done.
  - intros (qs' & Hq' & Hp)%(Hd qs Hne).
    by apply (apart_not_below _ qs qs' Hapart); [done|apply Hsub|apply kept_nonempty, Hsub|].
Qed.

Lemma partly_no_file : no_file (w_fs w1) dps.
Proof using Hvalid Hapart Hkept Hst.
  destruct Hst as [_ _ Ho _ _ Hx]. intros q d Hp Hfile.
  destruct (decide (dps `prefix_of` q)) as [[r ->]|Hn].
  - apply prefix_length in Hp as Hl. rewrite length_app in Hl. destruct r; [|cbn in Hl; lia].
    apply Ho in Hfile. assert ([] ∈ kept base ip all) as Hin by (rewrite kept_all; set_solver).
    by apply kept_nonempty in Hin.
  - by rewrite Hx, decide_True in Hfile.
Qed.
End PartlyStored.

(** C19. A failed download can be repeated: when a read fails half-way and the
    container is started again with what the failed run left, a run in which all
    objects can be read ends with exactly the wanted files in the destination, all
    of them complete, and outside it with what a single run would have left. *)
Theorem download_retry self self' base dest dps ip pss ps rest content e es w :
  op_list (op self) (base +:+ "/") true = Ret es →
  file_keys es = map (key_of base) (pss ++ ps :: rest) →
  Forall (fun qs => op_read (op self) (key_of base qs) = Ret (content qs)) (kept base ip pss) →
  ignored ip (key_of base ps) = false → op_read (op self) (key_of base ps) = Raise e →
  directory_source self' base ip (pss ++ ps :: rest) content →
  mk_path dest = abs dps → clean dps → fs_wf (w_fs w) → fresh (w_fs w) dps →
  ∃ w1 w2, download self (base +:+ "/") dest ip w = (Raise e, w1) ∧
    download self' (base +:+ "/") dest ip w1 = (Ret tt, w2) ∧
    directory_stored base dps ip (pss ++ ps :: rest) content w1 w2 ∧
    ∀ x, ¬ dps `prefix_of` x →
         fs_get (w_fs w2) x = if decide (x `prefix_of` dps) then Some Dir else fs_get (w_fs w) x.
Proof.
  intros Hl Hk Hread Hkept Hfail Hsrc Hd Hc Hwf Hfr. pose proof Hsrc as [Hbase _ [_ Hv] Hap _].
  pose proof (kept_all base ip pss rest ps Hkept) as Hall.
  assert (ForallOrdPairs apart (kept base ip pss) ∧ Forall (apart ps) (kept base ip pss)) as [Hap1 Hps].
  { rewrite Hall in Hap. clear -Hap. induction (kept base ip pss) as [|q l IH]; [by repeat constructor|].
    inversion Hap as [|? ? Hq Hl]; subst. destruct (IH Hl). apply Forall_app in Hq as [Hq [Hqp _]%Forall_cons].
    split; constructor; try done. by apply apart_sym. }
  destruct (read_error_stops self base dest dps ip pss ps (map (key_of base) rest) content w Hbase)
    with (e := e) as (w1 & E1 & Hst); try done.
  { exists es. split; [done|]. by rewrite Hk, map_app. }
  { apply Forall_app in Hv as [Hv1 Hv2]. apply Forall_app. split; [done|].
    apply Forall_cons in Hv2 as [Hv2 _]. by constructor. }
  destruct (download_over self' base dest dps ip (pss ++ ps :: rest) content w1) as (w2 & E2 & Hm); try done.
  { by apply Hst. }
  { by eapply partly_no_file. }
  { by eapply partly_storable. }
  destruct Hm as [Ht Hf Ha Ho Hno]. destruct Hst as [_ _ Hpo _ _ Hpx].
  assert (∀ x, ¬ dps `prefix_of` x →
    fs_get (w_fs w2) x = if decide (x `prefix_of` dps) then Some Dir else fs_get (w_fs w1) x) as Hout.
  { intros x Hx. destruct (decide (x `prefix_of` dps)); [by apply Ha|]. apply Ho; [done|].
    intros qs _ Hp. apply prefix_under in Hp as [?|(r & -> & _)]; [done|]. by apply Hx, prefix_app_r. }
  exists w1, w2. split_and!; [done..| |].
  - split; [done|done| |done]. intros r d Hfile.
    destruct (Hno _ _ Hfile) as [Hr%Hpo|(qs & Hq & ->%app_inv_head)]; [|done]. rewrite Hall. set_solver.
  - intros x Hx. rewrite Hout by done. destruct (decide (x `prefix_of` dps)) eqn:E; [done|]. by rewrite Hpx, E.
Qed.
End Retry.

(** ** Witnesses *)

(** A bucket of three objects; an operator that is not [true] cannot read the
    second one. *)
Definition settling_dal : OpenDAL := {|
  operator := bool;
  Operator _ _ := Ret true;
  layer o _ := o;
  op_list _ d _ := Ret (map (fun k => {| e_path := k; e_is_dir := false |})
                            ["data/a.csv"; "data/x/b.csv"; "data/x/c.csv"]);
  op_stat_is_file _ _ := Raise NotFound;
  op_read o k := if o : bool then Ret k
                 else if String.eqb k "data/x/b.csv" then Raise (ExternalError "Unexpected") else Ret k;
|}.
Definition settling_storage (o : bool) : @S3Storage settling_dal := @Build_S3Storage settling_dal o "bucket".
Definition settling_parts : list (list string) := [["a.csv"]; ["x"; "b.csv"]; ["x"; "c.csv"]].

Lemma settling_source :
  @directory_source settling_dal (settling_storage true) "data" None settling_parts (key_of "data").
Proof.
  split; [done|by eexists|split; [done|]; by repeat constructor| |by repeat constructor].
  repeat constructor; by intros [? [=]].
Qed.

Lemma download_retry_witness :
  ∃ w1 w2, @download settling_dal (settling_storage false) "data/" "/workspace/dataset" None empty_world =
             (Raise (ExternalError "Unexpected"), w1) ∧
    @download settling_dal (settling_storage true) "data/" "/workspace/dataset" None w1 = (Ret tt, w2) ∧
    fs_get (w_fs w2) ["workspace"; "dataset"; "x"; "c.csv"] = Some (File "data/x/c.csv").
Proof.
  destruct (@download_retry settling_dal (settling_storage false) (settling_storage true) "data"
    "/workspace/dataset" ["workspace"; "dataset"] None [["a.csv"]] ["x"; "b.csv"] [["x"; "c.csv"]]
    (key_of "data") (ExternalError "Unexpected")
    (map (fun k => {| e_path := k; e_is_dir := false |}) ["data/a.csv"; "data/x/b.csv"; "data/x/c.csv"])
    empty_world) as (w1 & w2 & E1 & E2 & [_ Hf _ _] & _).
  - reflexivity.
  - reflexivity.
  - repeat constructor.
  - reflexivity.
  - reflexivity.
  - apply settling_source.
  - reflexivity.
  - unfold clean. set_solver.
  - apply empty_world_wf.
  - apply empty_world_fresh.
  - exists w1, w2. split; [exact E1|]. split; [exact E2|]. apply (Hf ["x"; "c.csv"]).
    vm_compute. repeat constructor.
Defined.
