(* ===== verification/Destinations.v ===== *)
(** * Where objects are stored

    Which keys share a path below the destination, and where a key with [..]
    components leads. *)

From S2P Require Import Prelude PyStr FnMatch FileSystem World OpenDal OpenDalSpec.
Local Open Scope string_scope.
Local Open Scope bool_scope.
Local Open Scope list_scope.

(** ** Keys with the same path *)

(** The path of the object [base/rest]. *)
Definition destination_of (destination : Path) (base rest : string) : Path :=
  path_join destination (relative_path base (base +:+ String slash rest)).

Lemma lstrip_slash_path rest :
  lstrip_ch slash rest ≠ "" →
  mk_path (lstrip_ch slash rest) = {| p_root := false; p_parts := p_parts (mk_path rest) |}.
Proof.
  unfold mk_path. cbn [p_parts]. induction rest as [|c rest IH]; [done|]. unfold lstrip_ch in *. cbn [lstrip_by split].
  destruct (ch_eqb slash c) eqn:Hc; [exact IH|]. intros _. f_equal; cbn [split]; [|by rewrite Hc].
  cbn [startswith]. unfold slash in Hc. by rewrite Hc.
Qed.

Lemma destination_parts dps base rest :
  lstrip_ch slash rest ≠ "" →
  destination_of (abs dps) base rest = abs (dps ++ p_parts (mk_path rest)).
Proof.
  intros Hr. unfold destination_of, relative_path. rewrite str_drop_app, lstrip_ch_cons.
  destruct (lstrip_ch slash rest) as [|c s] eqn:E; [done|]. cbn [str_empty]. unfold path_join.
  rewrite <- E, lstrip_slash_path by (by rewrite E). done.
Qed.

(** C24. Two objects below the prefix, neither of them made of slashes alone, are
    given the same path exactly when their keys have the same components after
    empty and [.] components are dropped: [data/a], [data//a] and [data/./a] share
    one. Keys without such components share a path only if they are equal. *)
Theorem destination_injective dps base rest1 rest2 :
  lstrip_ch slash rest1 ≠ "" → lstrip_ch slash rest2 ≠ "" →
  (destination_of (abs dps) base rest1 = destination_of (abs dps) base rest2 ↔
   p_parts (mk_path rest1) = p_parts (mk_path rest2)) ∧
  (forallb keep_part (split slash rest1) = true → forallb keep_part (split slash rest2) = true →
   destination_of (abs dps) base rest1 = destination_of (abs dps) base rest2 → rest1 = rest2).
Proof.
  intros H1 H2. rewrite !destination_parts by done.
  assert (abs (dps ++ p_parts (mk_path rest1)) = abs (dps ++ p_parts (mk_path rest2)) ↔
          p_parts (mk_path rest1) = p_parts (mk_path rest2)) as Hiff.
  { split; [by intros [= ?%app_inv_head]|by intros ->]. }
  split; [exact Hiff|]. intros K1 K2 E%Hiff. cbn [mk_path p_parts] in E.
  apply (split_inj slash). rewrite !List_filter_all in E; [done|..];
    apply Forall_forall; intros x Hx%list_elem_of_In; [rewrite forallb_forall in K2|rewrite forallb_forall in K1]; auto.
Qed.

Lemma destination_injective_witness :
  destination_of (abs ["workspace"]) "data" "a//b" = destination_of (abs ["workspace"]) "data" "./a/b" ∧
  destination_of (abs ["workspace"]) "data" "a/b" ≠ destination_of (abs ["workspace"]) "data" "a/c".
Proof.
  split.
  - apply (destination_injective ["workspace"] "data" "a//b" "./a/b"); [done..|reflexivity].
  - intros E. destruct (destination_injective ["workspace"] "data" "a/b" "a/c") as [_ Hinj]; [done..|].
    by discriminate (Hinj eq_refl eq_refl E).
Defined.

(** ** Keys with [..] components *)



















