(* ===== verification/Config.v ===== *)
(** * Configuration (pkg/initializers/types/types.py, pkg/initializers/utils/utils.py)

    The dataclasses that hold an initializer's configuration, the constants, and
    [get_config_from_env], which fills a dataclass's fields from environment
    variables. Dataclasses check no types at run time, so a field that is
    annotated [str] can hold [None]: the fields are options where the callers can
    pass [None], and plain strings in [CacheDatasetInitializer], whose caller
    drops the [None] values first. *)

From S2P Require Import Prelude PyStr.
Local Open Scope string_scope.
Local Open Scope bool_scope.
Local Open Scope list_scope.

(** ** Constants (utils.py) *)

Definition STORAGE_URI_ENV : string := "STORAGE_URI".
Definition HF_SCHEME : string := "hf".
Definition CACHE_SCHEME : string := "cache".
Definition S3_SCHEME : string := "s3".
Definition WORKSPACE_PATH : string := "/workspace".

(** [os.path.join(a, b)]. *)
Definition os_path_join (a b : string) : string :=
  if startswith "/" b then b
  else if str_empty a || endswith "/" a then a +:+ b
  else a +:+ "/" +:+ b.
Definition DATASET_PATH : string := os_path_join WORKSPACE_PATH "dataset".
Definition MODEL_PATH : string := os_path_join WORKSPACE_PATH "model".

(** ** Reading the environment (utils.py) *)

Abbreviation environ := (gmap string string).

(** The values [get_config_from_env] stores: a string or [None], and for the field
    [ignore_patterns] a list of strings or [None]. *)
Inductive cfgval : Type :=
| CStr (o : option string)
| CList (o : option (list string)).

(** [env_value if env_value else None]. *)
Definition non_empty (o : option string) : option string :=
  match o with
  | Some s => if str_empty s then None else Some s
  | None => None
  end.

(** [[item.strip() for item in env_value.split(",") if item.strip()]]. *)
Definition split_patterns (s : string) : list string :=
  map strip (List.filter (fun item => negb (str_empty (strip item))) (split ","%char s)).

Definition field_from_env (e : environ) (name : string) : cfgval :=
  let env_value := e !! upper name in
  if String.eqb name "ignore_patterns"
  then CList (split_patterns <$> non_empty env_value)
  else CStr (non_empty env_value).

Definition get_config_from_env (fields : list string) (e : environ) : list (string * cfgval) :=
  map (fun name => (name, field_from_env e name)) fields.

(** ** Keyword arguments of a dataclass constructor *)

Section Kwargs.
Context {V : Type}.
Implicit Types kw : list (string * V).

Fixpoint kw_get kw (name : string) : option V :=
  match kw with
  | [] => None
  | (k, v) :: kw' => if String.eqb k name then Some v else kw_get kw' name
  end.
Definition required kw (name : string) : outcome V :=
  match kw_get kw name with
  | Some v => Ret v
  | None => Raise (TypeError ("missing required argument " +:+ name))
  end.
Definition with_default kw (name : string) (dflt : V) : V := default dflt (kw_get kw name).
Definition no_unexpected (fields : list string) kw : outcome unit :=
  if forallb (fun p => existsb (String.eqb p.1) fields) kw then Ret tt
  else Raise (TypeError "unexpected keyword argument").
End Kwargs.

(** What a field holds; [get_config_from_env] gives [CList] to the field
    [ignore_patterns] only (see [field_from_env_shape]). *)
Definition as_str (c : cfgval) : option string :=
  match c with CStr o => o | CList _ => None end.
Definition as_list (c : cfgval) : option (list string) :=
  match c with CList o => o | CStr _ => None end.

(** ** The dataclasses (types.py) *)

Module HuggingFaceDatasetInitializer.
Record t : Type := {
  storage_uri : option string;
  ignore_patterns : option (list string);
  access_token : option string;
}.
Definition fields : list string := ["storage_uri"; "ignore_patterns"; "access_token"].
Definition new (kw : list (string * cfgval)) : outcome t :=
  no_unexpected fields kw ≫= fun _ =>
  su ← required kw "storage_uri";
  Ret {| storage_uri := as_str su;
         ignore_patterns := as_list (with_default kw "ignore_patterns" (CList None));
         access_token := as_str (with_default kw "access_token" (CStr None)) |}.
End HuggingFaceDatasetInitializer.

Module S3DatasetInitializer.
Record t : Type := {
  storage_uri : option string;
  ignore_patterns : option (list string);
  endpoint : option string;
  access_key_id : option string;
  secret_access_key : option string;
  region : option string;
  role_arn : option string;
}.
Definition fields : list string :=
  ["storage_uri"; "ignore_patterns"; "endpoint"; "access_key_id"; "secret_access_key";
   "region"; "role_arn"].
Definition new (kw : list (string * cfgval)) : outcome t :=
  no_unexpected fields kw ≫= fun _ =>
  su ← required kw "storage_uri";
  Ret {| storage_uri := as_str su;
         ignore_patterns := as_list (with_default kw "ignore_patterns" (CList None));
         endpoint := as_str (with_default kw "endpoint" (CStr None));
         access_key_id := as_str (with_default kw "access_key_id" (CStr None));
         secret_access_key := as_str (with_default kw "secret_access_key" (CStr None));
         region := as_str (with_default kw "region" (CStr None));
         role_arn := as_str (with_default kw "role_arn" (CStr None)) |}.
End S3DatasetInitializer.

(** The [default_factory] of the two model dataclasses. *)
Definition default_model_ignore_patterns : list string :=
  ["*.msgpack"; "*.h5"; "*.bin"; "*.pt"; "*.pth"].

Module HuggingFaceModelInitializer.
Record t : Type := {
  storage_uri : option string;
  ignore_patterns : option (list string);
  access_token : option string;
}.
Definition fields : list string := ["storage_uri"; "ignore_patterns"; "access_token"].
Definition new (kw : list (string * cfgval)) : outcome t :=
  no_unexpected fields kw ≫= fun _ =>
  su ← required kw "storage_uri";
  Ret {| storage_uri := as_str su;
         ignore_patterns :=
           as_list (with_default kw "ignore_patterns" (CList (Some default_model_ignore_patterns)));
         access_token := as_str (with_default kw "access_token" (CStr None)) |}.
End HuggingFaceModelInitializer.

Module S3ModelInitializer.
Record t : Type := {
  storage_uri : option string;
  ignore_patterns : option (list string);
  endpoint : option string;
  access_key_id : option string;
  secret_access_key : option string;
  region : option string;
  role_arn : option string;
}.
Definition fields : list string :=
  ["storage_uri"; "ignore_patterns"; "endpoint"; "access_key_id"; "secret_access_key";
   "region"; "role_arn"].
Definition new (kw : list (string * cfgval)) : outcome t :=
  no_unexpected fields kw ≫= fun _ =>
  su ← required kw "storage_uri";
  Ret {| storage_uri := as_str su;
         ignore_patterns :=
           as_list (with_default kw "ignore_patterns" (CList (Some default_model_ignore_patterns)));
         endpoint := as_str (with_default kw "endpoint" (CStr None));
         access_key_id := as_str (with_default kw "access_key_id" (CStr None));
         secret_access_key := as_str (with_default kw "secret_access_key" (CStr None));
         region := as_str (with_default kw "region" (CStr None));
         role_arn := as_str (with_default kw "role_arn" (CStr None)) |}.
End S3ModelInitializer.

Module CacheDatasetInitializer.
Record t : Type := {
  storage_uri : string;
  train_job_name : string;
  cache_image : string;
  iam_role : string;
  metadata_loc : string;
  cluster_size : string;
  head_cpu : string;
  head_mem : string;
  worker_cpu : string;
  worker_mem : string;
  readiness_initial_delay_seconds : string;
  readiness_period_seconds : string;
  readiness_timeout_seconds : string;
  readiness_failure_threshold : string;
}.
Definition fields : list string :=
  ["storage_uri"; "train_job_name"; "cache_image"; "iam_role"; "metadata_loc"; "cluster_size";
   "head_cpu"; "head_mem"; "worker_cpu"; "worker_mem"; "readiness_initial_delay_seconds";
   "readiness_period_seconds"; "readiness_timeout_seconds"; "readiness_failure_threshold"].
Definition new (kw : list (string * string)) : outcome t :=
  no_unexpected fields kw ≫= fun _ =>
  storage_uri ← required kw "storage_uri";
  train_job_name ← required kw "train_job_name";
  cache_image ← required kw "cache_image";
  iam_role ← required kw "iam_role";
  metadata_loc ← required kw "metadata_loc";
  Ret {| storage_uri := storage_uri;
         train_job_name := train_job_name;
         cache_image := cache_image;
         iam_role := iam_role;
         metadata_loc := metadata_loc;
         cluster_size := with_default kw "cluster_size" "3";
         head_cpu := with_default kw "head_cpu" "1";
         head_mem := with_default kw "head_mem" "1Gi";
         worker_cpu := with_default kw "worker_cpu" "2";
         worker_mem := with_default kw "worker_mem" "2Gi";
         readiness_initial_delay_seconds := with_default kw "readiness_initial_delay_seconds" "5";
         readiness_period_seconds := with_default kw "readiness_period_seconds" "10";
         readiness_timeout_seconds := with_default kw "readiness_timeout_seconds" "5";
         readiness_failure_threshold := with_default kw "readiness_failure_threshold" "3" |}.
End CacheDatasetInitializer.

(** [{k: v for k, v in config_dict.items() if v is not None}], for a dataclass
    without list field. *)
Definition drop_none (kw : list (string * cfgval)) : list (string * string) :=
  omap (fun p => match p.2 with
                 | CStr (Some s) => Some (p.1, s)
                 | _ => None
                 end) kw.
