(* ===== verification/Providers.v ===== *)
(** * The Hugging Face and S3 providers
    (pkg/initializers/dataset/huggingface.py, dataset/s3.py, model/huggingface.py,
    model/s3.py, and the abstract classes of utils/utils.py)

    Each provider reads its configuration from the environment and downloads.
    [huggingface_hub] is a parameter, the class [HuggingFaceHub]. *)

From S2P Require Import Prelude PyStr Url FileSystem World OpenDal Config.
Local Open Scope string_scope.
Local Open Scope list_scope.

(** The abstract base classes [DatasetProvider] and [ModelProvider]: what an entry
    point needs of a provider. *)
Record DatasetProvider : Type := {
  dataset_config : Type;
  load_dataset_config : environ → outcome dataset_config;
  download_dataset : dataset_config → M World unit;
}.
Record ModelProvider : Type := {
  model_config : Type;
  load_model_config : environ → outcome model_config;
  download_model : model_config → M World unit;
}.

(** The [huggingface_hub] package: [login] may raise, and [snapshot_download] may
    write files and raise. *)
Class HuggingFaceHub : Type := {
  hub_login : string → outcome unit;
  hub_snapshot_download : SnapshotArgs → M FS unit;
}.

Section HuggingFace.
Context `{HuggingFaceHub}.

(** [if self.config.access_token: huggingface_hub.login(self.config.access_token)]. *)
Definition login_if (token : option string) : M World unit :=
  match token with
  | Some t => if str_empty t then mret tt else call (HfLogin t) (hub_login t)
  | None => mret tt
  end.

Definition snapshot_download (args : SnapshotArgs) : M World unit :=
  emit (HfSnapshotDownload args) ≫= fun _ => on_fs (hub_snapshot_download args).
End HuggingFace.

(** ** dataset/huggingface.py *)
Module DatasetHuggingFace.
Import HuggingFaceDatasetInitializer.

Definition load_config (e : environ) : outcome t := new (get_config_from_env fields e).

(** The repository id: the network location and the first path segment. With a
    [storage_uri] of [None] the parts are byte strings, and adding ["/"] raises. *)
Definition dataset_uri (self : t) : outcome string :=
  match storage_uri self with
  | None => Raise (TypeError "can't concat str to bytes")
  | Some uri =>
      r ← urlparse uri;
      match split slash (path r) !! 1 with
      | Some seg => Ret (netloc r +:+ "/" +:+ seg)
      | None => Raise IndexError
      end
  end.

Definition download_dataset `{HuggingFaceHub} (self : t) : M World unit :=
  uri ← lift (dataset_uri self);
  login_if (access_token self) ≫= fun _ =>
  snapshot_download {|
    repo_id := RepoStr uri;
    repo_type := Some "dataset";
    local_dir := DATASET_PATH;
    allow_patterns := None;
    World.ignore_patterns := ignore_patterns self;
  |}.

Definition provider `{HuggingFaceHub} : DatasetProvider :=
  {| load_dataset_config := load_config; Providers.download_dataset := download_dataset |}.
End DatasetHuggingFace.

(** ** model/huggingface.py *)
Module ModelHuggingFace.
Import HuggingFaceModelInitializer.

Definition load_config (e : environ) : outcome t := new (get_config_from_env fields e).

(** The repository id: the network location followed by the path. *)
Definition model_uri (self : t) : outcome RepoId :=
  match storage_uri self with
  | None => Ret (RepoBytes "")
  | Some uri => r ← urlparse uri; Ret (RepoStr (netloc r +:+ path r))
  end.

Definition allow : list string := ["*.json"; "*.safetensors"; "*.model"; "*.txt"; "*.gguf"].

Definition download_model `{HuggingFaceHub} (self : t) : M World unit :=
  uri ← lift (model_uri self);
  login_if (access_token self) ≫= fun _ =>
  snapshot_download {|
    repo_id := uri;
    repo_type := None;
    local_dir := MODEL_PATH;
    allow_patterns := Some allow;
    World.ignore_patterns := ignore_patterns self;
  |}.

Definition provider `{HuggingFaceHub} : ModelProvider :=
  {| load_model_config := load_config; Providers.download_model := download_model |}.
End ModelHuggingFace.

(** The bucket and the prefix an S3 storage URI names. With a [storage_uri] of
    [None] the path is a byte string, and [lstrip("/")] raises. *)
Definition s3_location (storage_uri : option string) : outcome (string * string) :=
  match storage_uri with
  | None => Raise (TypeError "a bytes-like object is required, not 'str'")
  | Some uri => r ← urlparse uri; Ret (netloc r, lstrip_ch slash (path r))
  end.

(** ** dataset/s3.py *)
Module DatasetS3.
Import S3DatasetInitializer.

Definition load_config (e : environ) : outcome t := new (get_config_from_env fields e).

Definition download_dataset `{OpenDAL} (self : t) : M World unit :=
  '(bucket, prefix) ← lift (s3_location (storage_uri self));
  s3_storage ← S3Storage_init bucket (endpoint self) (access_key_id self)
                 (secret_access_key self) (region self) (role_arn self);
  download s3_storage prefix DATASET_PATH (ignore_patterns self).

Definition provider `{OpenDAL} : DatasetProvider :=
  {| load_dataset_config := load_config; Providers.download_dataset := download_dataset |}.
End DatasetS3.

(** ** model/s3.py *)
Module ModelS3.
Import S3ModelInitializer.

Definition load_config (e : environ) : outcome t := new (get_config_from_env fields e).

Definition download_model `{OpenDAL} (self : t) : M World unit :=
  '(bucket, prefix) ← lift (s3_location (storage_uri self));
  s3_storage ← S3Storage_init bucket (endpoint self) (access_key_id self)
                 (secret_access_key self) (region self) (role_arn self);
  download s3_storage prefix MODEL_PATH (ignore_patterns self).

Definition provider `{OpenDAL} : ModelProvider :=
  {| load_model_config := load_config; Providers.download_model := download_model |}.
End ModelS3.
