(* ===== verification/Cache.v ===== *)
(** * The cache dataset initializer (pkg/initializers/dataset/cache.py)

    [CacheInitializer] asks the Kubernetes API for the TrainJob, creates a
    ServiceAccount, a LeaderWorkerSet and a Service owned by it, and polls the
    LeaderWorkerSet until it is available. The API server is a parameter, the
    class [Kubernetes]: its answer to a call is a function of the calls (and
    sleeps) made before, so that the cluster may change over time. *)

From S2P Require Import Prelude PyStr PyValue Url FileSystem World Config.
Local Open Scope string_scope.
Local Open Scope bool_scope.
Local Open Scope list_scope.
Import CacheDatasetInitializer.

Class Kubernetes : Type := {
  k8s_answer : list event → event → outcome value;
}.

(** ** Namespace and storage URI *)

Definition namespace_file : string := "/var/run/secrets/kubernetes.io/serviceaccount/namespace".

(** [open(p)] for reading; the content is what [f.read()] would return. *)
Definition read_text (p : Path) : M FS string := fun fs =>
  (match locate fs p with
   | Ret (Entry d c) =>
       match fs_get fs (d ++ [c]) with
       | Some (File s) => Ret s
       | Some Dir => Raise (IsADirectoryError "EISDIR")
       | None => Raise (FileNotFoundError "ENOENT")
       end
   | Ret (AtDir _) => Raise (IsADirectoryError "EISDIR")
   | Raise e => Raise e
   | OutOfFuel => OutOfFuel
   end, fs).

(** [f.readline()], up to the line end that [strip] then removes. *)
Definition first_line (s : string) : string :=
  (span_to (fun c => ch_eqb "010"%char c || ch_eqb "013"%char c) s).1.

Definition get_namespace : M World string :=
  try_except (s ← on_fs (read_text (mk_path namespace_file)); mret (strip (first_line s)))
    (fun e => match e with
              | FileNotFoundError _ => mret "default"
              | _ => raise e
              end).

Definition parse_cache_storage_uri (storage_uri : string) : outcome (string * string) :=
  r ← urlparse storage_uri;
  let schema_name := netloc r in
  let table_name := removeprefix "/" (path r) in
  if str_empty schema_name || str_empty table_name || str_mem slash table_name
  then Raise (ValueError "expected format cache://<SCHEMA_NAME>/<TABLE_NAME>")
  else Ret (schema_name, table_name).

(** ** CacheInitializer.load_config *)

Record CacheInitializer : Type := {
  config : CacheDatasetInitializer.t;
  schema_name : string;
  table_name : string;
}.

Definition load_config (e : environ) : outcome CacheInitializer :=
  let config_dict := drop_none (get_config_from_env fields e) in
  cfg ← new config_dict;
  '(schema, table) ← parse_cache_storage_uri (storage_uri cfg);
  Ret {| config := cfg; schema_name := schema; table_name := table |}.

(** ** CacheInitializer.download_dataset *)

Definition trainjobs : Resource :=
  {| r_group := "trainer.kubeflow.org"; r_version := "v1alpha1"; r_plural := "trainjobs" |}.
Definition leaderworkersets : Resource :=
  {| r_group := "leaderworkerset.x-k8s.io"; r_version := "v1"; r_plural := "leaderworkersets" |}.

(** The owner reference built from the fetched TrainJob; the message logged first
    reads [metadata.name]. *)
Definition owner_reference (training_job : value) : outcome value :=
  metadata ← getitem training_job "metadata";
  name ← getitem metadata "name";
  apiVersion ← getitem training_job "apiVersion";
  kind ← getitem training_job "kind";
  uid ← getitem metadata "uid";
  Ret (VDict [("apiVersion", apiVersion); ("kind", kind); ("name", name); ("uid", uid);
              ("controller", VBool true); ("blockOwnerDeletion", VBool true)]).

Definition service_account (job ns iam_role : string) (owner : value) : value :=
  VObj "V1ServiceAccount" [
    ("metadata", VObj "V1ObjectMeta" [
      ("name", VStr (job +:+ "-cache"));
      ("namespace", VStr ns);
      ("annotations", VDict [
        ("eks.amazonaws.com/sts-regional-endpoints", VStr "true");
        ("eks.amazonaws.com/role-arn", VStr iam_role)]);
      ("owner_references", VList [owner])])].

(** [service_account.metadata.name]. *)
Definition attr (v : value) (name : string) : value :=
  match v with VObj _ attrs => default VNone (dict_get attrs name) | _ => VNone end.
Definition account_name (service_account : value) : value := attr (attr service_account "metadata") "name".

(** [if v: env_vars.append({"name": name, "value": v})]. *)
Definition env_var (name v : string) : list value :=
  if str_empty v then [] else [VDict [("name", VStr name); ("value", VStr v)]].
Definition env_vars (metadata_loc table schema : string) : list value :=
  env_var "METADATA_LOC" metadata_loc ++ env_var "TABLE_NAME" table ++
  env_var "SCHEMA_NAME" schema.

(** The integers of the configuration, converted before any call is made. *)
Record Sizes : Type := {
  size : Z;
  initial_delay : Z;
  period : Z;
  timeout : Z;
  failure_threshold : Z;
}.

Definition read_sizes (cfg : CacheDatasetInitializer.t) : outcome Sizes :=
  size ← py_int (cluster_size cfg);
  initial_delay ← py_int (readiness_initial_delay_seconds cfg);
  period ← py_int (readiness_period_seconds cfg);
  timeout ← py_int (readiness_timeout_seconds cfg);
  failure_threshold ← py_int (readiness_failure_threshold cfg);
  Ret {| size := size; initial_delay := initial_delay; period := period; timeout := timeout;
         failure_threshold := failure_threshold |}.

Definition readiness_probe (z : Sizes) : value :=
  VDict [
    ("httpGet", VDict [("path", VStr "/ready"); ("port", VInt 8080)]);
    ("initialDelaySeconds", VInt (initial_delay z));
    ("periodSeconds", VInt (period z));
    ("timeoutSeconds", VInt (timeout z));
    ("failureThreshold", VInt (failure_threshold z))].

(** The container of the leader ([head]) and of the workers ([worker]). *)
Definition container (name image cpu mem : string) (env : list value) (z : Sizes) : value :=
  VDict [
    ("name", VStr name);
    ("image", VStr image);
    ("command", VList [VStr name]);
    ("args", VList [VStr "0.0.0.0"; VStr "50051"]);
    ("resources", VDict [
      ("limits", VDict [("cpu", VStr cpu); ("memory", VStr mem)]);
      ("requests", VDict [("cpu", VStr cpu); ("memory", VStr mem)])]);
    ("env", VList env);
    ("ports", VList [
      VDict [("containerPort", VInt 50051); ("name", VStr "grpc")];
      VDict [("containerPort", VInt 8080); ("name", VStr "health")]]);
    ("readinessProbe", readiness_probe z)].

Definition leader_template (self : CacheInitializer) (account : value) (env : list value)
    (z : Sizes) : value :=
  let job := train_job_name (config self) in
  VDict [
    ("metadata", VDict [("labels", VDict [("app", VStr (job +:+ "-cache-head"))])]);
    ("spec", VDict [
      ("serviceAccountName", account_name account);
      ("containers", VList [container "head" (cache_image (config self))
                              (head_cpu (config self)) (head_mem (config self)) env z])])].

Definition worker_template (self : CacheInitializer) (env : list value) (z : Sizes) : value :=
  let job := train_job_name (config self) in
  VDict [
    ("spec", VDict [
      ("serviceAccountName", VStr (job +:+ "-cache"));
      ("containers", VList [container "worker" (cache_image (config self))
                              (worker_cpu (config self)) (worker_mem (config self)) env z])])].

Definition lws_body (self : CacheInitializer) (ns : string) (owner : value) (z : Sizes) : value :=
  let job := train_job_name (config self) in
  let account := service_account job ns (iam_role (config self)) owner in
  let env := env_vars (metadata_loc (config self)) (table_name self) (schema_name self) in
  VDict [
    ("apiVersion", VStr "leaderworkerset.x-k8s.io/v1");
    ("kind", VStr "LeaderWorkerSet");
    ("metadata", VDict [
      ("name", VStr (job +:+ "-cache"));
      ("namespace", VStr ns);
      ("ownerReferences", VList [owner])]);
    ("spec", VDict [
      ("replicas", VInt 1);
      ("leaderWorkerTemplate", VDict [
        ("size", VInt (size z));
        ("leaderTemplate", leader_template self account env z);
        ("workerTemplate", worker_template self env z)])])].

(** [lws_body["metadata"]["name"]], the name that is polled. *)
Definition lws_name (lws_body : value) : string :=
  match getitem lws_body "metadata" ≫= fun metadata => getitem metadata "name" with
  | Ret (VStr name) => name
  | _ => ""
  end.

Definition service (job ns : string) (owner : value) : value :=
  VObj "V1Service" [
    ("metadata", VObj "V1ObjectMeta" [
      ("name", VStr (job +:+ "-cache-service"));
      ("namespace", VStr ns);
      ("owner_references", VList [owner])]);
    ("spec", VObj "V1ServiceSpec" [
      ("selector", VDict [("app", VStr (job +:+ "-cache-head"))]);
      ("ports", VList [VObj "V1ServicePort"
         [("protocol", VStr "TCP"); ("port", VInt 50051); ("target_port", VInt 50051)]])])].

Definition is_str (v : value) (s : string) : bool :=
  match v with VStr t => String.eqb t s | _ => false end.

(** [any(c["type"] == "Available" and c["status"] == "True" for c in conditions)]. *)
Fixpoint any_available (conditions : list value) : outcome bool :=
  match conditions with
  | [] => Ret false
  | c :: cs =>
      ty ← getitem c "type";
      if is_str ty "Available"
      then st ← getitem c "status";
           if is_str st "True" then Ret true else any_available cs
      else any_available cs
  end.

(** The readiness test of the polling loop. *)
Definition lws_ready (lws : value) : outcome bool :=
  status ← get_default lws "status" (VDict []);
  conditions ← get_default status "conditions" (VList []);
  l ← iter conditions;
  any_available l.

Section Download.
Context `{Kubernetes}.

Definition kcall (ev : event) : M World value := fun w =>
  (k8s_answer (w_trace w) ev, log w [ev]).

(** A creation for which an already existing object is no error. *)
Definition create_or_exists (ev : event) : M World unit :=
  try_except (kcall ev ≫= fun _ => mret tt) (fun e =>
    match e with
    | ApiException 409 => mret tt
    | _ => raise e
    end).

(** [while True]: get the LeaderWorkerSet, stop when it is available, else sleep. *)
Fixpoint poll (fuel : nat) (ns name : string) : M World unit :=
  match fuel with
  | O => fun w => (OutOfFuel, w)
  | S fuel' =>
      lws ← kcall (GetCustomObject leaderworkersets ns name);
      ready ← lift (lws_ready lws);
      if ready : bool then mret tt
      else emit (Sleep 5) ≫= fun _ => poll fuel' ns name
  end.

(** The first [try]: the owner reference, or [None] when the API call fails. *)
Definition fetch_owner (ns job : string) : M World (option value) :=
  try_except
    (training_job ← kcall (GetCustomObject trainjobs ns job);
     owner ← lift (owner_reference training_job);
     mret (Some owner))
    (fun e => match e with
              | ApiException _ => mret None
              | _ => raise e
              end).

(** The body of the second [try]. *)
Definition create_cluster (fuel : nat) (self : CacheInitializer) (ns : string) (owner : value)
    (z : Sizes) : M World unit :=
  let job := train_job_name (config self) in
  create_or_exists (CreateServiceAccount ns (service_account job ns (iam_role (config self)) owner))
    ≫= fun _ =>
  kcall (CreateCustomObject leaderworkersets ns (lws_body self ns owner z)) ≫= fun _ =>
  create_or_exists (CreateService ns (service job ns owner)) ≫= fun _ =>
  poll fuel ns (lws_name (lws_body self ns owner z)).

(** Its handler: delete the ServiceAccount, ignoring any failure, and return. *)
Definition cleanup (job ns : string) : M World unit :=
  try_except (kcall (DeleteServiceAccount (job +:+ "-cache") ns) ≫= fun _ => mret tt)
    (fun _ => mret tt).

Definition download_dataset (fuel : nat) (self : CacheInitializer) : M World unit :=
  let job := train_job_name (config self) in
  z ← lift (read_sizes (config self));
  ns ← get_namespace;
  kcall LoadInclusterConfig ≫= fun _ =>
  owner ← fetch_owner ns job;
  match owner with
  | None => mret tt
  | Some owner =>
      try_except (create_cluster fuel self ns owner z) (fun e =>
        match e with
        | ApiException _ => cleanup job ns
        | _ => raise e
        end)
  end.
End Download.
