(* ===== verification/Main.v ===== *)
(** * The entry points (pkg/initializers/dataset/__main__.py, model/__main__.py)

    Each reads STORAGE_URI, picks a provider by the scheme of the URI, loads its
    configuration and downloads. [fuel] bounds the polling of the cache
    initializer only. *)

From S2P Require Import Prelude PyStr Url FileSystem World OpenDal Config Providers Cache.
Local Open Scope string_scope.
Local Open Scope list_scope.

Definition run_dataset (p : DatasetProvider) (e : environ) : M World unit :=
  cfg ← lift (load_dataset_config p e);
  Providers.download_dataset p cfg.
Definition run_model (p : ModelProvider) (e : environ) : M World unit :=
  cfg ← lift (load_model_config p e);
  Providers.download_model p cfg.

Definition cache_provider `{Kubernetes} (fuel : nat) : DatasetProvider :=
  {| load_dataset_config := Cache.load_config;
     Providers.download_dataset := Cache.download_dataset fuel |}.

Section Dataset.
Context `{HuggingFaceHub, OpenDAL, Kubernetes}.

(** The [match] on the scheme. *)
Definition dataset_provider (fuel : nat) (scheme : string) : outcome DatasetProvider :=
  if String.eqb scheme HF_SCHEME then Ret DatasetHuggingFace.provider
  else if String.eqb scheme CACHE_SCHEME then Ret (cache_provider fuel)
  else if String.eqb scheme S3_SCHEME then Ret DatasetS3.provider
  else Raise (ValueError "Unsupported dataset storage URI scheme").

Definition dataset_main (fuel : nat) (e : environ) : M World unit :=
  match non_empty (e !! STORAGE_URI_ENV) with
  | None => raise (ValueError "STORAGE_URI environment variable must be set")
  | Some storage_uri =>
      r ← lift (urlparse storage_uri);
      provider ← lift (dataset_provider fuel (scheme r));
      run_dataset provider e
  end.
End Dataset.

Section Model.
Context `{HuggingFaceHub, OpenDAL}.

Definition model_provider (scheme : string) : outcome ModelProvider :=
  if String.eqb scheme HF_SCHEME then Ret ModelHuggingFace.provider
  else if String.eqb scheme S3_SCHEME then Ret ModelS3.provider
  else Raise BareException.

Definition model_main (e : environ) : M World unit :=
  match e !! STORAGE_URI_ENV with
  | None => raise (KeyError STORAGE_URI_ENV)
  | Some storage_uri =>
      r ← lift (urlparse storage_uri);
      provider ← lift (model_provider (scheme r));
      run_model provider e
  end.
End Model.
