(* ===== verification/ConfigSpec.v ===== *)
(** * Configuration: theorems

    What the environment becomes: the shape of the patterns read from
    IGNORE_PATTERNS, the defaults and required fields of the cache
    configuration, and the fate of the default ignore patterns of the model
    initializers. *)

From S2P Require Import Prelude PyStr Url FnMatch FileSystem World OpenDal Config Providers Cache.
Local Open Scope string_scope.
Local Open Scope bool_scope.
Local Open Scope list_scope.

(** ** Stripping *)

Lemma str_mem_lstrip c p s : str_mem c (lstrip_by p s) = true → str_mem c s = true.
Proof.
  destruct (lstrip_by_split p s) as (pre & Hs & _). rewrite Hs at 2.
  rewrite str_mem_app, orb_true_iff. tauto.
Qed.
Lemma str_mem_rstrip c p s : str_mem c (rstrip_by p s) = true → str_mem c s = true.
Proof.
  destruct (rstrip_by_split p s) as (suf & Hs & _). rewrite Hs at 2.
  rewrite str_mem_app, orb_true_iff. tauto.
Qed.
Lemma strip_mem c s : str_mem c s = false → str_mem c (strip s) = false.
Proof.
  rewrite <- !not_true_iff_false. intros Hs Hc. apply Hs.
  by eapply str_mem_lstrip, str_mem_rstrip.
Qed.

Lemma rstrip_by_head p c s : p c = false → ∃ t, rstrip_by p (String c s) = String c t.
Proof. intros Hc. simpl. rewrite Hc. destruct (rstrip_by p s); eauto. Qed.
Lemma rstrip_by_idem p s : rstrip_by p (rstrip_by p s) = rstrip_by p s.
Proof.
  destruct (rstrip_by_split p s) as (suf & Hs & Hsuf).
  rewrite <- (rstrip_by_app p (rstrip_by p s) suf Hsuf) at 1. by rewrite <- Hs.
Qed.
Lemma strip_idem s : strip (strip s) = strip s.
Proof.
  unfold strip. destruct (lstrip_by is_space s) as [|c t] eqn:E; [done|].
  pose proof (lstrip_by_head _ _ _ _ E) as Hc.
  destruct (rstrip_by_head is_space c t Hc) as [u Hu]. rewrite Hu, lstrip_by_id by done.
  by rewrite <- Hu, rstrip_by_idem.
Qed.

(** ** Ignore patterns *)

Lemma split_patterns_in s p :
  p ∈ split_patterns s ↔ ∃ item, item ∈ split ","%char s ∧ strip item ≠ "" ∧ p = strip item.
Proof.
  unfold split_patterns. rewrite list_elem_of_In, in_map_iff. split.
  - intros (item & <- & [Hin%list_elem_of_In Hne%negb_true_iff%str_empty_false]%filter_In). eauto.
  - intros (item & Hin & Hne & ->). exists item. split; [done|]. apply filter_In.
    rewrite negb_true_iff, str_empty_false. by rewrite <- list_elem_of_In.
Qed.

(** A pattern that survives the reading of IGNORE_PATTERNS unchanged. *)
Definition pattern_ok (p : string) : Prop := p ≠ "" ∧ strip p = p ∧ str_mem ","%char p = false.

(** Every pattern read from IGNORE_PATTERNS is non-empty, has no
    surrounding whitespace and contains no comma. *)
Lemma split_patterns_ok s : Forall pattern_ok (split_patterns s).
Proof.
  apply Forall_forall. intros p (item & Hin & Hne & ->)%split_patterns_in.
  repeat split; [done|apply strip_idem|]. apply strip_mem.
  pose proof (split_pieces ","%char s) as Hp. rewrite Forall_forall in Hp. by apply Hp.
Qed.

(** Patterns joined with commas are read back exactly. *)
Lemma split_patterns_join ps :
  ps ≠ [] → Forall pattern_ok ps → split_patterns (join ","%char ps) = ps.
Proof.
  intros Hne Hok. unfold split_patterns.
  assert (split ","%char (join ","%char ps) = ps) as ->.
  { clear -Hne Hok. induction ps as [|p ps IH]; [done|].
    apply Forall_cons in Hok as [(_ & _ & Hc) Hok].
    destruct ps as [|q ps]; [by apply split_none|].
    rewrite join_cons, split_app by done. by rewrite IH. }
  clear Hne. induction Hok as [|p ps (Hp & Hs & _) _ IH]; simpl; [done|].
  rewrite Hs. rewrite (proj2 (str_empty_false _) Hp). simpl. by rewrite Hs, IH.
Qed.

(** ** Reading the fields *)

(** Only [ignore_patterns] is a list. *)
Lemma field_from_env_shape e name :
  name ≠ "ignore_patterns" → field_from_env e name = CStr (non_empty (e !! upper name)).
Proof. intros Hn. unfold field_from_env. by rewrite (proj2 (String.eqb_neq _ _) Hn). Qed.

Lemma kw_get_drop_none fields e name :
  kw_get (drop_none (get_config_from_env fields e)) name =
  if decide (name ∈ fields) then as_str (field_from_env e name) else None.
Proof.
  induction fields as [|f fields IH]; simpl; [done|].
  unfold get_config_from_env, drop_none in *. simpl.
  destruct (String.eqb_spec f name) as [->|Hf].
  - rewrite (decide_True) by set_solver.
    destruct (field_from_env e name) as [[s|]|o] eqn:E; simpl.
    + by rewrite String.eqb_refl.
    + rewrite IH. case_decide; by rewrite ?E.
    + rewrite IH. case_decide; by rewrite ?E.
  - assert (∀ A (x y : A), (if decide (name ∈ f :: fields) then x else y) =
                           if decide (name ∈ fields) then x else y) as ->.
    { intros A x y. repeat case_decide; set_solver. }
    destruct (field_from_env e f) as [[s|]|o]; simpl; try exact IH.
    by rewrite (proj2 (String.eqb_neq _ _) Hf).
Qed.

Lemma drop_none_expected fields e :
  no_unexpected fields (drop_none (get_config_from_env fields e)) = Ret tt.
Proof.
  unfold no_unexpected.
  assert (forallb (fun p => existsb (String.eqb p.1) fields)
            (drop_none (get_config_from_env fields e)) = true) as ->; [|done].
  apply forallb_forall. intros [k v] Hin. apply existsb_exists. exists k.
  rewrite String.eqb_refl. split; [|done]. apply list_elem_of_In in Hin.
  unfold drop_none, get_config_from_env in Hin. apply list_elem_of_omap in Hin as ([k' c] & Hc & Hk).
  apply list_elem_of_In, in_map_iff in Hc as (f & Heq & Hf). injection Heq as <- <-.
  simpl in Hk. by destruct (field_from_env e f) as [[]|]; simplify_eq.
Qed.

(** A required field of the cache configuration: set, and not empty. *)
Definition env_field (e : environ) (name : string) : option string := non_empty (e !! upper name).

Lemma cache_kw e name :
  name ∈ CacheDatasetInitializer.fields →
  kw_get (drop_none (get_config_from_env CacheDatasetInitializer.fields e)) name =
  env_field e name.
Proof.
  intros Hin. rewrite kw_get_drop_none, decide_True by done.
  rewrite field_from_env_shape; [done|]. intros ->. vm_compute in Hin. set_solver.
Qed.

Definition cache_required : list string :=
  ["storage_uri"; "train_job_name"; "cache_image"; "iam_role"; "metadata_loc"].

Section CacheConfig.
Import CacheDatasetInitializer.

Lemma cache_new_eq e :
  new (drop_none (get_config_from_env fields e)) =
  let req name := match env_field e name with
                  | Some v => Ret v
                  | None => Raise (TypeError ("missing required argument " +:+ name))
                  end in
  let opt name dflt := default dflt (env_field e name) in
  su ← req "storage_uri"; tj ← req "train_job_name"; im ← req "cache_image";
  ro ← req "iam_role"; ml ← req "metadata_loc";
  Ret {| storage_uri := su; train_job_name := tj; cache_image := im; iam_role := ro;
         metadata_loc := ml;
         cluster_size := opt "cluster_size" "3";
         head_cpu := opt "head_cpu" "1"; head_mem := opt "head_mem" "1Gi";
         worker_cpu := opt "worker_cpu" "2"; worker_mem := opt "worker_mem" "2Gi";
         readiness_initial_delay_seconds := opt "readiness_initial_delay_seconds" "5";
         readiness_period_seconds := opt "readiness_period_seconds" "10";
         readiness_timeout_seconds := opt "readiness_timeout_seconds" "5";
         readiness_failure_threshold := opt "readiness_failure_threshold" "3" |}.
Proof.
  unfold new. rewrite drop_none_expected. unfold required, with_default.
  rewrite !cache_kw by (vm_compute; set_solver). done.
Qed.

(** Loading the cache configuration fails with a [TypeError] when one of
    its five required variables is unset or empty. *)
Lemma cache_requires e name :
  name ∈ cache_required → env_field e name = None →
  ∃ what, load_config e = Raise (TypeError what).
Proof.
  intros Hin Hnone. unfold load_config. rewrite cache_new_eq. cbv zeta.
  assert (Hstep : ∀ n (k : string → outcome t),
    (∀ v, ∃ what, (cfg ← k v; '(a, b) ← parse_cache_storage_uri (storage_uri cfg);
            Ret {| config := cfg; schema_name := a; table_name := b |}) = Raise (TypeError what))
      ∨ env_field e n = None →
    ∃ what, (cfg ← (match env_field e n with
                    | Some v => Ret v
                    | None => Raise (TypeError ("missing required argument " +:+ n))
                    end ≫= k);
             '(a, b) ← parse_cache_storage_uri (storage_uri cfg);
             Ret {| config := cfg; schema_name := a; table_name := b |}) = Raise (TypeError what)).
  { intros n k [Hk|Hn]; [destruct (env_field e n); [apply Hk|]|rewrite Hn]; by eexists. }
  repeat (apply elem_of_cons in Hin as [->|Hin];
          [repeat (apply Hstep; first [by right|left; intros ?])|]).
  by apply elem_of_nil in Hin.
Qed.

(** C34. A cache configuration that loads holds the value of each required
    variable, the value or the default of each optional one, and the schema and
    table of its storage URI. *)
Theorem cache_load_config_fields e self :
  load_config e = Ret self →
  let cfg := config self in
  let opt name dflt := default dflt (env_field e name) in
  env_field e "storage_uri" = Some (storage_uri cfg) ∧
  env_field e "train_job_name" = Some (train_job_name cfg) ∧
  env_field e "cache_image" = Some (cache_image cfg) ∧
  env_field e "iam_role" = Some (iam_role cfg) ∧
  env_field e "metadata_loc" = Some (metadata_loc cfg) ∧
  cluster_size cfg = opt "cluster_size" "3" ∧
  head_cpu cfg = opt "head_cpu" "1" ∧ head_mem cfg = opt "head_mem" "1Gi" ∧
  worker_cpu cfg = opt "worker_cpu" "2" ∧ worker_mem cfg = opt "worker_mem" "2Gi" ∧
  readiness_initial_delay_seconds cfg = opt "readiness_initial_delay_seconds" "5" ∧
  readiness_period_seconds cfg = opt "readiness_period_seconds" "10" ∧
  readiness_timeout_seconds cfg = opt "readiness_timeout_seconds" "5" ∧
  readiness_failure_threshold cfg = opt "readiness_failure_threshold" "3" ∧
  parse_cache_storage_uri (storage_uri cfg) = Ret (schema_name self, table_name self).
Proof.
  unfold load_config. rewrite cache_new_eq. cbv zeta.
  intros (cfg & Hcfg & Hp)%outcome_bind_Ret.
  apply outcome_bind_Ret in Hp as ([a b] & Hp & [= <-]).
  repeat (apply outcome_bind_Ret in Hcfg as (? & ?E & Hcfg)).
  injection Hcfg as <-. simpl in *.
  destruct (env_field e "storage_uri"), (env_field e "train_job_name"),
    (env_field e "cache_image"), (env_field e "iam_role"), (env_field e "metadata_loc"); try done.
  simplify_eq. done.
Qed.
End CacheConfig.

(** ** The default ignore patterns of the model initializers *)

Lemma ignored_matches ip key :
  ignored ip key = true ↔ ∃ ps p, ip = Some ps ∧ p ∈ ps ∧ matches (tokens 0 p) key.
Proof.
  assert (ignored ip key = match ip with Some ps => existsb (fnmatch key) ps | None => false end) as ->
    by (by destruct ip as [[]|]).
  destruct ip as [ps|]; [|split; [done|by intros (? & ? & [=] & _)]].
  rewrite existsb_exists. split.
  - intros (p & Hp%list_elem_of_In & Hm). exists ps, p. split_and!; [done..|]. by apply match_tokens_spec.
  - intros (ps' & p & [= <-] & Hp%list_elem_of_In & Hm). exists p. split; [done|]. by apply match_tokens_spec.
Qed.

(** The default ignore patterns of the model dataclasses skip exactly the
    keys that end in .msgpack, .h5, .bin, .pt or .pth. *)
Lemma default_patterns_ignore key :
  ignored (Some default_model_ignore_patterns) key =
  endswith ".msgpack" key || endswith ".h5" key || endswith ".bin" key ||
  endswith ".pt" key || endswith ".pth" key.
Proof.
  unfold ignored, default_model_ignore_patterns. simpl existsb.
  rewrite !fnmatch_suffix by reflexivity. by rewrite !orb_assoc, orb_false_r.
Qed.

(** C36. The model initializers never use the default ignore patterns of their
    dataclasses: [get_config_from_env] passes every field, so an unset or empty
    IGNORE_PATTERNS gives [None] and nothing is ignored, while constructing the
    dataclass without that argument gives the defaults. *)
Theorem model_default_patterns_unused e :
  env_field e "ignore_patterns" = None →
  (∃ c, ModelHuggingFace.load_config e = Ret c ∧
        HuggingFaceModelInitializer.ignore_patterns c = None) ∧
  (∃ c, ModelS3.load_config e = Ret c ∧ S3ModelInitializer.ignore_patterns c = None ∧
        ∀ key, ignored (S3ModelInitializer.ignore_patterns c) key = false) ∧
  (∀ su, ∃ c, HuggingFaceModelInitializer.new [("storage_uri", CStr su)] = Ret c ∧
        HuggingFaceModelInitializer.ignore_patterns c = Some default_model_ignore_patterns).
Proof.
  unfold env_field. intros He. change (upper "ignore_patterns") with "IGNORE_PATTERNS" in He.
  assert (split_patterns <$> non_empty (e !! "IGNORE_PATTERNS") = None) as Hnone by by rewrite He.
  split; [|split].
  - eexists. split; [reflexivity|]. exact Hnone.
  - eexists. split; [reflexivity|]. split; [exact Hnone|]. intros key.
    transitivity (ignored None key); [|done]. f_equal. exact Hnone.
  - intros su. eexists. split; reflexivity.
Qed.

(** An S3 dataset configuration always loads, each field holding its
    environment variable, or [None] when that is unset or empty; IGNORE_PATTERNS
    becomes the list of its patterns. *)
Lemma s3_dataset_load_config e :
  ∃ c, DatasetS3.load_config e = Ret c ∧
    S3DatasetInitializer.storage_uri c = non_empty (e !! "STORAGE_URI") ∧
    S3DatasetInitializer.ignore_patterns c = split_patterns <$> non_empty (e !! "IGNORE_PATTERNS") ∧
    S3DatasetInitializer.endpoint c = non_empty (e !! "ENDPOINT") ∧
    S3DatasetInitializer.access_key_id c = non_empty (e !! "ACCESS_KEY_ID") ∧
    S3DatasetInitializer.secret_access_key c = non_empty (e !! "SECRET_ACCESS_KEY") ∧
    S3DatasetInitializer.region c = non_empty (e !! "REGION") ∧
    S3DatasetInitializer.role_arn c = non_empty (e !! "ROLE_ARN").
Proof. eexists. split; [reflexivity|]. done. Qed.

(** C28. IGNORE_PATTERNS as the S3 providers understand it: an object is
    skipped exactly when the variable, split at commas, has a piece that is not
    blank and whose stripped text, read as a shell pattern, matches the whole key;
    unset or empty, it skips nothing. *)
Theorem ignore_patterns_equiv e key :
  let skipped := ∃ s item, e !! "IGNORE_PATTERNS" = Some s ∧ item ∈ split ","%char s ∧
                   strip item ≠ "" ∧ matches (tokens 0 (strip item)) key in
  (∃ c, DatasetS3.load_config e = Ret c ∧
        (ignored (S3DatasetInitializer.ignore_patterns c) key = true ↔ skipped)) ∧
  (∃ c, ModelS3.load_config e = Ret c ∧
        (ignored (S3ModelInitializer.ignore_patterns c) key = true ↔ skipped)).
Proof.
  intros skipped.
  assert (ignored (split_patterns <$> non_empty (e !! "IGNORE_PATTERNS")) key = true ↔ skipped)
    as Hiff.
  { unfold skipped. destruct (e !! "IGNORE_PATTERNS") as [s|]; [|split; [done|by intros (? & ? & [=] & _)]].
    rewrite ignored_matches. split.
    - intros (ps & p & Hps & Hp & Hm). exists s. cbn in Hps.
      destruct (str_empty s); [done|]. injection Hps as <-.
      apply split_patterns_in in Hp as (item & Hin & Hne & ->). by exists item.
    - intros (s' & item & [= <-] & Hin & Hne & Hm). exists (split_patterns s), (strip item).
      split_and!; [|apply split_patterns_in; by exists item|done]. cbn.
      destruct (str_empty s) eqn:Hs; [|done]. apply str_empty_true in Hs as ->.
      apply list_elem_of_singleton in Hin as ->. done. }
  split; (eexists; split; [reflexivity|exact Hiff]).
Qed.

(** ** Witnesses *)

Definition cache_env : environ :=
  {["STORAGE_URI" := "cache://minimal_schema/minimal_table"; "TRAIN_JOB_NAME" := "minimal-job";
    "CACHE_IMAGE" := "img:latest"; "IAM_ROLE" := "arn:role"; "METADATA_LOC" := "s3://b/m";
    "HEAD_CPU" := "4"]}.

Definition cache_self : CacheInitializer := {|
  config := {|
    CacheDatasetInitializer.storage_uri := "cache://minimal_schema/minimal_table";
    CacheDatasetInitializer.train_job_name := "minimal-job";
    CacheDatasetInitializer.cache_image := "img:latest";
    CacheDatasetInitializer.iam_role := "arn:role";
    CacheDatasetInitializer.metadata_loc := "s3://b/m";
    CacheDatasetInitializer.cluster_size := "3";
    CacheDatasetInitializer.head_cpu := "4";
    CacheDatasetInitializer.head_mem := "1Gi";
    CacheDatasetInitializer.worker_cpu := "2";
    CacheDatasetInitializer.worker_mem := "2Gi";
    CacheDatasetInitializer.readiness_initial_delay_seconds := "5";
    CacheDatasetInitializer.readiness_period_seconds := "10";
    CacheDatasetInitializer.readiness_timeout_seconds := "5";
    CacheDatasetInitializer.readiness_failure_threshold := "3" |};
  schema_name := "minimal_schema";
  table_name := "minimal_table" |}.

Lemma cache_load_config_fields_witness :
  load_config cache_env = Ret cache_self ∧
  CacheDatasetInitializer.head_cpu (config cache_self) =
    default "1" (env_field cache_env "head_cpu").
Proof.
  assert (load_config cache_env = Ret cache_self) as E by (vm_compute; reflexivity).
  split; [exact E|]. pose proof (cache_load_config_fields cache_env cache_self E) as Hf.
  destruct Hf as (_ & _ & _ & _ & _ & _ & Hc & _). exact Hc.
Defined.

Lemma model_default_patterns_unused_witness :
  ∃ c, ModelHuggingFace.load_config {["STORAGE_URI" := "hf://org/model"]} = Ret c ∧
       HuggingFaceModelInitializer.ignore_patterns c = None.
Proof.
  apply (model_default_patterns_unused {["STORAGE_URI" := "hf://org/model"]}). reflexivity.
Defined.
