(* ===== verification/MainSpec.v ===== *)
(** * Providers and entry points: theorems

    Which repository, bucket and prefix a storage URI leads to, what is called
    and in which order, and the dispatch of the two entry points, up to an
    end-to-end statement for an S3 dataset. *)

From S2P Require Import Prelude PyStr PyValue Url FnMatch FileSystem World OpenDal OpenDalSpec.
From S2P Require Import Config Providers Cache Main ConfigSpec.
Local Open Scope string_scope.
Local Open Scope bool_scope.
Local Open Scope list_scope.

(** ** Hugging Face *)

Definition login_events (token : option string) : list event :=
  match non_empty token with
  | Some t => [HfLogin t]
  | None => []
  end.

(** A token that is absent or accepted. *)
Definition login_accepted `{HuggingFaceHub} (token : option string) : Prop :=
  ∀ t, non_empty token = Some t → hub_login t = Ret tt.

Lemma login_if_run `{HuggingFaceHub} token w :
  login_accepted token → login_if token w = (Ret tt, log w (login_events token)).
Proof.
  unfold login_accepted, login_if, login_events. intros Hl.
  destruct token as [t|]; simpl in *; [|by rewrite log_nil].
  destruct (str_empty t); [by rewrite log_nil|]. by rewrite call_run, Hl.
Qed.

(** A name that can be a path segment of a storage URI. *)
Definition plain_segment (s : string) : bool :=
  str_forall (fun c => plain_path_ch c && negb (ch_eqb slash c)) s.

Lemma plain_segment_path s : plain_segment s = true → str_forall plain_path_ch s = true.
Proof. apply str_forall_impl. intros c. rewrite andb_true_iff. tauto. Qed.
Lemma plain_segment_slash s : plain_segment s = true → str_mem slash s = false.
Proof.
  intros Hs. apply str_mem_forall. eapply str_forall_impl; [|exact Hs].
  intros c. rewrite andb_true_iff. tauto.
Qed.

Lemma hf_plain : plain_scheme "hf" = true.
Proof. reflexivity. Qed.
Lemma s3_plain : plain_scheme "s3" = true.
Proof. reflexivity. Qed.
Lemma cache_plain : plain_scheme "cache" = true.
Proof. reflexivity. Qed.

Section HuggingFaceSpec.
Context `{HuggingFaceHub}.

(** C29. For hf://ORG/NAME, with anything after NAME, the dataset initializer
    downloads the dataset repository ORG/NAME into /workspace/dataset with the
    configured ignore patterns, after logging in exactly when a non-empty token
    is configured; the outcome is that of the download. *)
Theorem hf_dataset_download self org name rest w :
  str_forall plain_netloc_ch org = true → plain_segment name = true →
  str_forall plain_path_ch rest = true → rooted rest = true →
  HuggingFaceDatasetInitializer.storage_uri self =
    Some (storage_uri_of "hf" org ("/" +:+ name +:+ rest)) →
  login_accepted (HuggingFaceDatasetInitializer.access_token self) →
  let args := {| repo_id := RepoStr (org +:+ "/" +:+ name);
                 repo_type := Some "dataset";
                 local_dir := "/workspace/dataset";
                 allow_patterns := None;
                 ignore_patterns := HuggingFaceDatasetInitializer.ignore_patterns self |} in
  DatasetHuggingFace.download_dataset self w =
  on_fs (hub_snapshot_download args)
    (log w (login_events (HuggingFaceDatasetInitializer.access_token self) ++
            [HfSnapshotDownload args])).
Proof.
  intros Horg Hname Hrest Hroot Huri Hlog args.
  unfold DatasetHuggingFace.download_dataset, DatasetHuggingFace.dataset_uri. rewrite Huri.
  rewrite urlparse_storage_uri; [|done|done|
    rewrite !str_forall_app, (plain_segment_path _ Hname), Hrest; reflexivity|done].
  cbn [mbind outcome_bind netloc path].
  assert (split slash ("/" +:+ name +:+ rest) !! 1 = Some name) as ->.
  { change ("/" +:+ name +:+ rest) with ("" +:+ String slash (name +:+ rest)).
    rewrite split_app by done. simpl.
    destruct rest as [|c rest]; [by rewrite str_app_nil_r, split_none by by apply plain_segment_slash|].
    unfold rooted in Hroot. simpl in Hroot. rewrite andb_true_r in Hroot.
    apply ch_eqb_true in Hroot as <-. by rewrite split_app by by apply plain_segment_slash. }
  unfold mbind at 1, M_bind at 1, lift.
  rewrite (M_bind_Ret _ _ _ _ _ (login_if_run _ _ Hlog)).
  unfold snapshot_download, emit, modify, mbind, M_bind. by rewrite log_app.
Qed.

(** A dataset URI without a path, such as hf://NAME, makes the dataset
    initializer raise [IndexError] before any call is made. *)
Lemma hf_dataset_no_name self org w :
  str_forall plain_netloc_ch org = true →
  HuggingFaceDatasetInitializer.storage_uri self = Some (storage_uri_of "hf" org "") →
  DatasetHuggingFace.download_dataset self w = (Raise IndexError, w).
Proof.
  intros Horg Huri. unfold DatasetHuggingFace.download_dataset, DatasetHuggingFace.dataset_uri.
  by rewrite Huri, urlparse_storage_uri.
Qed.

(** C30. For a model URI hf://ORG/PATH the model initializer downloads the
    repository named by everything after hf:// into /workspace/model, allowing
    only JSON, safetensors, model, text and gguf files. *)
Theorem hf_model_download self org p w :
  str_forall plain_netloc_ch org = true → str_forall plain_path_ch p = true → rooted p = true →
  HuggingFaceModelInitializer.storage_uri self = Some (storage_uri_of "hf" org p) →
  login_accepted (HuggingFaceModelInitializer.access_token self) →
  let args := {| repo_id := RepoStr (org +:+ p);
                 repo_type := None;
                 local_dir := "/workspace/model";
                 allow_patterns := Some ["*.json"; "*.safetensors"; "*.model"; "*.txt"; "*.gguf"];
                 ignore_patterns := HuggingFaceModelInitializer.ignore_patterns self |} in
  ModelHuggingFace.download_model self w =
  on_fs (hub_snapshot_download args)
    (log w (login_events (HuggingFaceModelInitializer.access_token self) ++
            [HfSnapshotDownload args])).
Proof.
  intros Horg Hp Hroot Huri Hlog args.
  unfold ModelHuggingFace.download_model, ModelHuggingFace.model_uri. rewrite Huri.
  rewrite urlparse_storage_uri by done.
  unfold mbind at 1, M_bind at 1, lift. cbn [mbind outcome_bind netloc path].
  rewrite (M_bind_Ret _ _ _ _ _ (login_if_run _ _ Hlog)).
  unfold snapshot_download, emit, modify, mbind, M_bind. by rewrite log_app.
Qed.

(** When the login is refused, nothing is downloaded: the exception of
    [login] propagates and [snapshot_download] is not called. *)
Lemma hf_login_failure self uri t e w :
  ModelHuggingFace.model_uri self = Ret uri →
  non_empty (HuggingFaceModelInitializer.access_token self) = Some t →
  hub_login t = Raise e →
  ModelHuggingFace.download_model self w = (Raise e, log w [HfLogin t]).
Proof.
  intros Huri Ht He. unfold ModelHuggingFace.download_model. rewrite Huri.
  unfold mbind at 1, M_bind at 1, lift. apply M_bind_Raise. unfold login_if.
  destruct (HuggingFaceModelInitializer.access_token self) as [s|]; [|done]. simpl in Ht.
  destruct (str_empty s); [done|]. injection Ht as ->. by rewrite call_run, He.
Qed.
End HuggingFaceSpec.

(** ** S3 *)

(** The operator configuration always has the root, the bucket and a
    region, which is ["auto"] unless a non-empty one is given; endpoint,
    credentials and role appear exactly when they are non-empty; no key occurs
    twice. *)
Lemma s3_config_fields bucket endpoint access_key_id secret_access_key region role_arn :
  let cfg := s3_config bucket endpoint access_key_id secret_access_key region role_arn in
  kw_get cfg "root" = Some "/" ∧ kw_get cfg "bucket" = Some bucket ∧
  kw_get cfg "region" = Some (default "auto" (non_empty region)) ∧
  kw_get cfg "endpoint" = non_empty endpoint ∧
  kw_get cfg "access_key_id" = non_empty access_key_id ∧
  kw_get cfg "secret_access_key" = non_empty secret_access_key ∧
  kw_get cfg "role_arn" = non_empty role_arn ∧ NoDup cfg.*1.
Proof.
  unfold s3_config, set_if, truthy, non_empty.
  assert (∀ l : list string, bool_decide (NoDup l) = true → NoDup l) as Hnd
    by (intros l Hl; by apply bool_decide_eq_true in Hl).
  destruct endpoint as [[|? ?]|], access_key_id as [[|? ?]|], secret_access_key as [[|? ?]|],
    region as [[|? ?]|], role_arn as [[|? ?]|]; simpl; split_and!; try reflexivity;
    apply Hnd; reflexivity.
Qed.

(** An S3 storage URI s3://BUCKET/PATH names that bucket and, as the
    prefix, the path without its leading slashes. *)
Lemma s3_location_uri bucket p :
  str_forall plain_netloc_ch bucket = true → str_forall plain_path_ch p = true → rooted p = true →
  s3_location (Some (storage_uri_of "s3" bucket p)) = Ret (bucket, lstrip_ch slash p).
Proof. intros Hb Hp Hr. unfold s3_location. by rewrite urlparse_storage_uri. Qed.

(** ** The entry points *)

Section MainSpec.
Context `{Hub : HuggingFaceHub, Dal : OpenDAL, K8s : Kubernetes}.

(** C40. The dataset entry point raises [ValueError] when STORAGE_URI is unset
    or empty, or when its scheme is not hf, cache or s3; it then makes no call
    and leaves the world unchanged. *)
Theorem dataset_main_rejects fuel e w :
  non_empty (e !! "STORAGE_URI") = None ∨
  (∃ uri r, e !! "STORAGE_URI" = Some uri ∧ urlparse uri = Ret r ∧
            scheme r ∉ ["hf"; "cache"; "s3"]) →
  ∃ what, dataset_main fuel e w = (Raise (ValueError what), w).
Proof.
  unfold dataset_main, STORAGE_URI_ENV. intros [->|(uri & r & -> & Hr & Hs)]; [by eexists|].
  simpl. destruct (str_empty uri) eqn:Hempty; [by eexists|].
  unfold mbind at 1, M_bind at 1, lift. rewrite Hr.
  unfold mbind at 1, M_bind at 1, dataset_provider, HF_SCHEME, CACHE_SCHEME, S3_SCHEME.
  rewrite !(proj2 (String.eqb_neq _ _)) by set_solver. by eexists.
Qed.

Lemma dataset_main_run fuel e uri r p w :
  e !! "STORAGE_URI" = Some uri → uri ≠ "" → urlparse uri = Ret r →
  dataset_provider fuel (scheme r) = Ret p →
  dataset_main fuel e w = run_dataset p e w.
Proof.
  intros He Hne Hr Hp. unfold dataset_main, STORAGE_URI_ENV. rewrite He. simpl.
  rewrite (proj2 (str_empty_false _) Hne). unfold mbind, M_bind, lift. by rewrite Hr, Hp.
Qed.

(** The model entry point raises [KeyError] when STORAGE_URI is unset, and
    the bare [Exception] when its scheme is neither hf nor s3 (cache included);
    it then makes no call and leaves the world unchanged. *)
Lemma model_main_rejects e w :
  (e !! "STORAGE_URI" = None → model_main e w = (Raise (KeyError "STORAGE_URI"), w)) ∧
  (∀ uri r, e !! "STORAGE_URI" = Some uri → urlparse uri = Ret r → scheme r ∉ ["hf"; "s3"] →
            model_main e w = (Raise BareException, w)).
Proof.
  unfold model_main, STORAGE_URI_ENV. split; [by intros ->|].
  intros uri r -> Hr Hs. unfold mbind at 1, M_bind at 1, lift. rewrite Hr.
  unfold mbind at 1, M_bind at 1, model_provider, HF_SCHEME, S3_SCHEME.
  by rewrite !(proj2 (String.eqb_neq _ _)) by set_solver.
Qed.

Lemma lstrip_slash_dir base :
  startswith "/" base = false → base ≠ "" → lstrip_ch slash ("/" +:+ base +:+ "/") = base +:+ "/".
Proof.
  intros Hs Hne. change ("/" +:+ base +:+ "/") with (String slash (base +:+ "/")).
  rewrite lstrip_ch_cons. destruct base as [|c base]; [done|]. unfold lstrip_ch.
  rewrite str_app_cons, lstrip_by_id; [done|]. simpl in Hs. by rewrite andb_true_r in Hs.
Qed.

(** The storage operator the S3 dataset provider builds from the environment. *)
Definition s3_env_config (bucket : string) (e : environ) : list (string * string) :=
  s3_config bucket (non_empty (e !! "ENDPOINT")) (non_empty (e !! "ACCESS_KEY_ID"))
    (non_empty (e !! "SECRET_ACCESS_KEY")) (non_empty (e !! "REGION")) (non_empty (e !! "ROLE_ARN")).
Definition env_patterns (e : environ) : option (list string) :=
  split_patterns <$> non_empty (e !! "IGNORE_PATTERNS").

Lemma run_s3_dataset e bucket p o w :
  str_forall plain_netloc_ch bucket = true → str_forall plain_path_ch p = true → rooted p = true →
  e !! "STORAGE_URI" = Some (storage_uri_of "s3" bucket p) →
  Operator "s3" (s3_env_config bucket e) = Ret o →
  run_dataset DatasetS3.provider e w =
  download {| op := layer o retry_layer; bucket := bucket |} (lstrip_ch slash p) "/workspace/dataset"
    (env_patterns e) (log w [S3Operator (s3_env_config bucket e)]).
Proof.
  intros Hb Hp Hr He Ho.
  assert (DatasetS3.load_config e = Ret {|
    S3DatasetInitializer.storage_uri := Some (storage_uri_of "s3" bucket p);
    S3DatasetInitializer.ignore_patterns := env_patterns e;
    S3DatasetInitializer.endpoint := non_empty (e !! "ENDPOINT");
    S3DatasetInitializer.access_key_id := non_empty (e !! "ACCESS_KEY_ID");
    S3DatasetInitializer.secret_access_key := non_empty (e !! "SECRET_ACCESS_KEY");
    S3DatasetInitializer.region := non_empty (e !! "REGION");
    S3DatasetInitializer.role_arn := non_empty (e !! "ROLE_ARN") |}) as Hload.
  { assert (non_empty (e !! "STORAGE_URI") = Some (storage_uri_of "s3" bucket p)) as <-
      by by rewrite He. reflexivity. }
  unfold run_dataset. cbn [load_dataset_config Providers.download_dataset DatasetS3.provider].
  unfold mbind at 1, M_bind at 1, lift. rewrite Hload.
  unfold DatasetS3.download_dataset. cbn -[urlparse storage_uri_of].
  unfold mbind at 1, M_bind at 1, lift. rewrite urlparse_storage_uri by done.
  cbn [mbind outcome_bind netloc path]. unfold mbind at 1, M_bind at 1, S3Storage_init.
  unfold mbind at 1, M_bind at 1. rewrite call_run. unfold s3_env_config in Ho. by rewrite Ho.
Qed.

(** C2. End to end: with STORAGE_URI = s3://BUCKET/DIR/ and a fresh
    /workspace/dataset, the dataset entry point builds one operator from the
    environment and stores exactly the objects under DIR that no pattern of
    IGNORE_PATTERNS matches. *)
Theorem s3_dataset_main_stores fuel e bucket base o pss content w :
  str_forall plain_netloc_ch bucket = true → str_forall plain_path_ch base = true →
  startswith "/" base = false →
  e !! "STORAGE_URI" = Some (storage_uri_of "s3" bucket ("/" +:+ base +:+ "/")) →
  Operator "s3" (s3_env_config bucket e) = Ret o →
  directory_source {| op := layer o retry_layer; bucket := bucket |} base (env_patterns e) pss
    content →
  fs_wf (w_fs w) → fresh (w_fs w) ["workspace"; "dataset"] →
  ∃ w', dataset_main fuel e w = (Ret tt, w') ∧
        directory_stored base ["workspace"; "dataset"] (env_patterns e) pss content
          (log w [S3Operator (s3_env_config bucket e)]) w'.
Proof.
  intros Hb Hp Hs He Ho Hd Hwf Hfr.
  assert (str_forall plain_path_ch ("/" +:+ base +:+ "/") = true) as Hp'.
  { by rewrite !str_forall_app, Hp. }
  rewrite (dataset_main_run fuel e _ _ DatasetS3.provider w He ltac:(done)
             (urlparse_storage_uri "s3" _ _ s3_plain Hb Hp' eq_refl) eq_refl).
  rewrite (run_s3_dataset e bucket ("/" +:+ base +:+ "/") o) by done.
  rewrite lstrip_slash_dir by (done || apply Hd).
  by apply download_directory; [done|reflexivity|unfold clean; set_solver|done|done].
Qed.

Lemma model_main_run e uri r p w :
  e !! "STORAGE_URI" = Some uri → urlparse uri = Ret r → model_provider (scheme r) = Ret p →
  model_main e w = run_model p e w.
Proof.
  intros He Hr Hp. unfold model_main, STORAGE_URI_ENV. rewrite He. unfold mbind, M_bind, lift. by rewrite Hr, Hp.
Qed.

Lemma run_s3_model e bucket p o w :
  str_forall plain_netloc_ch bucket = true → str_forall plain_path_ch p = true → rooted p = true →
  e !! "STORAGE_URI" = Some (storage_uri_of "s3" bucket p) →
  Operator "s3" (s3_env_config bucket e) = Ret o →
  run_model ModelS3.provider e w =
  download {| op := layer o retry_layer; bucket := bucket |} (lstrip_ch slash p) "/workspace/model"
    (env_patterns e) (log w [S3Operator (s3_env_config bucket e)]).
Proof.
  intros Hb Hp Hr He Ho.
  assert (ModelS3.load_config e = Ret {|
    S3ModelInitializer.storage_uri := Some (storage_uri_of "s3" bucket p);
    S3ModelInitializer.ignore_patterns := env_patterns e;
    S3ModelInitializer.endpoint := non_empty (e !! "ENDPOINT");
    S3ModelInitializer.access_key_id := non_empty (e !! "ACCESS_KEY_ID");
    S3ModelInitializer.secret_access_key := non_empty (e !! "SECRET_ACCESS_KEY");
    S3ModelInitializer.region := non_empty (e !! "REGION");
    S3ModelInitializer.role_arn := non_empty (e !! "ROLE_ARN") |}) as Hload.
  { assert (non_empty (e !! "STORAGE_URI") = Some (storage_uri_of "s3" bucket p)) as <-
      by by rewrite He. reflexivity. }
  unfold run_model. cbn [load_model_config Providers.download_model ModelS3.provider].
  unfold mbind at 1, M_bind at 1, lift. rewrite Hload.
  unfold ModelS3.download_model. cbn -[urlparse storage_uri_of].
  unfold mbind at 1, M_bind at 1, lift. rewrite urlparse_storage_uri by done.
  cbn [mbind outcome_bind netloc path]. unfold mbind at 1, M_bind at 1, S3Storage_init.
  unfold mbind at 1, M_bind at 1. rewrite call_run. unfold s3_env_config in Ho. by rewrite Ho.
Qed.

(** C3. End to end for models: with STORAGE_URI = s3://BUCKET/DIR/ and a fresh
    /workspace/model, the model entry point builds one operator from the
    environment and stores exactly the objects under DIR that no pattern of
    IGNORE_PATTERNS matches; without IGNORE_PATTERNS that is all of them. *)
Theorem s3_model_main_stores e bucket base o pss content w :
  str_forall plain_netloc_ch bucket = true → str_forall plain_path_ch base = true →
  startswith "/" base = false →
  e !! "STORAGE_URI" = Some (storage_uri_of "s3" bucket ("/" +:+ base +:+ "/")) →
  Operator "s3" (s3_env_config bucket e) = Ret o →
  directory_source {| op := layer o retry_layer; bucket := bucket |} base (env_patterns e) pss
    content →
  fs_wf (w_fs w) → fresh (w_fs w) ["workspace"; "model"] →
  ∃ w', model_main e w = (Ret tt, w') ∧
        directory_stored base ["workspace"; "model"] (env_patterns e) pss content
          (log w [S3Operator (s3_env_config bucket e)]) w' ∧
        (e !! "IGNORE_PATTERNS" = None → ∀ ps, ps ∈ pss →
           fs_get (w_fs w') (["workspace"; "model"] ++ ps) = Some (File (content ps))).
Proof.
  intros Hb Hp Hs He Ho Hd Hwf Hfr.
  assert (str_forall plain_path_ch ("/" +:+ base +:+ "/") = true) as Hp'.
  { by rewrite !str_forall_app, Hp. }
  rewrite (model_main_run e _ _ ModelS3.provider w He
             (urlparse_storage_uri "s3" _ _ s3_plain Hb Hp' eq_refl) eq_refl).
  rewrite (run_s3_model e bucket ("/" +:+ base +:+ "/") o) by done.
  rewrite lstrip_slash_dir by (done || apply Hd).
  destruct (download_directory {| op := layer o retry_layer; bucket := bucket |} base "/workspace/model"
    ["workspace"; "model"] (env_patterns e) pss content (log w [S3Operator (s3_env_config bucket e)]))
    as (w' & E & Hst); [done|reflexivity|unfold clean; set_solver|done..|].
  exists w'. split_and!; [exact E|exact Hst|]. intros Hi ps Hps. apply (st_files _ _ _ _ _ _ _ Hst).
  unfold env_patterns. rewrite Hi. unfold kept. cbn. by rewrite List_filter_all; [|apply Forall_forall].
Qed.
End MainSpec.

(** ** Witnesses *)

(** A hub that accepts every token but ["bad"], and whose downloads succeed. *)
Definition null_hub : HuggingFaceHub := {|
  hub_login t := if String.eqb t "bad" then Raise (ExternalError "HfHubHTTPError") else Ret tt;
  hub_snapshot_download _ := mret tt;
|}.
(** A cluster that answers nothing. *)
Definition no_cluster : Kubernetes := {| k8s_answer _ _ := Raise (ExternalError "MaxRetryError") |}.

Definition hf_dataset_self (uri : string) : HuggingFaceDatasetInitializer.t := {|
  HuggingFaceDatasetInitializer.storage_uri := Some uri;
  HuggingFaceDatasetInitializer.ignore_patterns := None;
  HuggingFaceDatasetInitializer.access_token := Some "tok" |}.
Definition hf_model_self (uri token : string) : HuggingFaceModelInitializer.t := {|
  HuggingFaceModelInitializer.storage_uri := Some uri;
  HuggingFaceModelInitializer.ignore_patterns := None;
  HuggingFaceModelInitializer.access_token := Some token |}.

Lemma hf_dataset_download_witness :
  w_trace (@DatasetHuggingFace.download_dataset null_hub
             (hf_dataset_self "hf://tatsu-lab/alpaca/data") empty_world).2 =
  [HfLogin "tok";
   HfSnapshotDownload {| repo_id := RepoStr "tatsu-lab/alpaca"; repo_type := Some "dataset";
     local_dir := "/workspace/dataset"; allow_patterns := None; ignore_patterns := None |}].
Proof.
  rewrite (@hf_dataset_download null_hub (hf_dataset_self "hf://tatsu-lab/alpaca/data")
             "tatsu-lab" "alpaca" "/data" empty_world); try reflexivity.
  intros t [= <-]. reflexivity.
Defined.

Lemma hf_model_download_witness :
  (@ModelHuggingFace.download_model null_hub (hf_model_self "hf://org/model-v1" "tok")
     empty_world).1 = Ret tt.
Proof.
  rewrite (@hf_model_download null_hub (hf_model_self "hf://org/model-v1" "tok")
             "org" "/model-v1" empty_world); try reflexivity.
  intros t [= <-]. reflexivity.
Defined.

Lemma dataset_main_rejects_witness :
  ∃ what, @dataset_main null_hub (bucket_dal []) no_cluster 0
            {["STORAGE_URI" := "gs://b/x"]} empty_world = (Raise (ValueError what), empty_world).
Proof.
  apply (@dataset_main_rejects null_hub (bucket_dal []) no_cluster). right.
  eexists "gs://b/x", _. split; [reflexivity|]. split; [reflexivity|]. vm_compute. set_solver.
Defined.

Definition llama_env : environ :=
  {["STORAGE_URI" := "s3://test-bucket/models/llama/"; "IGNORE_PATTERNS" := " *.bin ,"]}.

Lemma s3_dataset_main_stores_witness :
  ∃ w', @dataset_main null_hub (bucket_dal llama_objects) no_cluster 0 llama_env empty_world =
          (Ret tt, w') ∧
        fs_get (w_fs w') ["workspace"; "dataset"; "config.json"] = Some (File "{}").
Proof.
  assert (env_patterns llama_env = Some ["*.bin"]) as Hip by (vm_compute; reflexivity).
  destruct (@s3_dataset_main_stores null_hub (bucket_dal llama_objects) no_cluster 0 llama_env
    "test-bucket" "models/llama" tt [["config.json"]; ["w"; "model.bin"]] (fun _ => "{}")
    empty_world) as (w' & E & Hs).
  - reflexivity.
  - reflexivity.
  - reflexivity.
  - vm_compute. reflexivity.
  - reflexivity.
  - rewrite Hip. apply llama_source.
  - apply empty_world_wf.
  - apply empty_world_fresh.
  - exists w'. split; [exact E|]. destruct Hs as [_ Hf _ _]. rewrite Hip in Hf.
    apply (Hf ["config.json"]). vm_compute. constructor.
Defined.

Lemma s3_model_main_stores_witness :
  ∃ w', @model_main null_hub (bucket_dal llama_objects) llama_env empty_world = (Ret tt, w') ∧
        fs_get (w_fs w') ["workspace"; "model"; "config.json"] = Some (File "{}").
Proof.
  assert (env_patterns llama_env = Some ["*.bin"]) as Hip by (vm_compute; reflexivity).
  destruct (@s3_model_main_stores null_hub (bucket_dal llama_objects) llama_env
    "test-bucket" "models/llama" tt [["config.json"]; ["w"; "model.bin"]] (fun _ => "{}")
    empty_world) as (w' & E & Hs & _).
  - reflexivity.
  - reflexivity.
  - reflexivity.
  - vm_compute. reflexivity.
  - reflexivity.
  - rewrite Hip. apply llama_source.
  - apply empty_world_wf.
  - apply empty_world_fresh.
  - exists w'. split; [exact E|]. destruct Hs as [_ Hf _ _]. rewrite Hip in Hf.
    apply (Hf ["config.json"]). vm_compute. constructor.
Defined.
