(* ===== verification/CacheSpec.v ===== *)
(** * The cache initializer: theorems

    The storage URI, the order of the API calls on every path, what happens on
    API errors, ownership and wiring of the created objects, and the polling
    loop. *)

From S2P Require Import Prelude PyStr PyValue Url FileSystem World Config Cache ConfigSpec.
From S2P Require Import OpenDalSpec MainSpec.
Local Open Scope string_scope.
Local Open Scope bool_scope.
Local Open Scope list_scope.
Import CacheDatasetInitializer.

(** ** The storage URI *)

Lemma parse_cache_uri_plain schema table :
  schema ≠ "" → table ≠ "" → str_forall plain_netloc_ch schema = true → plain_segment table = true →
  parse_cache_storage_uri (storage_uri_of "cache" schema ("/" +:+ table)) = Ret (schema, table).
Proof.
  intros Hs Ht Hps Hpt. unfold parse_cache_storage_uri.
  rewrite urlparse_storage_uri; [|done|done| |done].
  2:{ rewrite str_forall_app, (plain_segment_path _ Hpt). reflexivity. }
  cbn [mbind outcome_bind netloc path]. rewrite removeprefix_app.
  by rewrite (proj2 (str_empty_false _) Hs), (proj2 (str_empty_false _) Ht),
    (plain_segment_slash _ Hpt).
Qed.

(** A URI cache://SCHEMA/TABLE is parsed into its schema and its table. *)
Lemma parse_cache_uri_roundtrip schema table :
  schema ≠ "" → table ≠ "" → str_forall plain_netloc_ch schema = true → plain_segment table = true →
  parse_cache_storage_uri (storage_uri_of "cache" schema ("/" +:+ table)) = Ret (schema, table).
Proof. apply parse_cache_uri_plain. Qed.

Lemma urlparse_netloc_ok u r :
  urlparse u = Ret r → str_forall (negb ∘ netloc_end) (netloc r) = true.
Proof.
  unfold urlparse. destruct (split_scheme _) as [sch u2].
  intros ([nl u3] & Hnl & H)%outcome_bind_Ret.
  destruct (split_at _ _) as [u4 frag]. destruct (split_at _ _) as [u5 q].
  destruct (if _ && _ then _ else _) as [p prm]. injection H as <-. cbn [netloc].
  unfold split_netloc in Hnl. destruct (startswith "//" u2); [|by injection Hnl as <- <-].
  pose proof (span_to_fst netloc_end (str_drop 2 u2)) as Hf.
  destruct (span_to netloc_end (str_drop 2 u2)) as [a b].
  destruct (xorb _ _); [done|]. destruct (_ && _ && _); [done|]. by injection Hnl as <- <-.
Qed.

Lemma parse_cache_uri_inv u schema table :
  parse_cache_storage_uri u = Ret (schema, table) →
  ∃ r, urlparse u = Ret r ∧ schema = netloc r ∧ table = removeprefix "/" (path r) ∧
       schema ≠ "" ∧ table ≠ "" ∧ str_mem slash table = false.
Proof.
  unfold parse_cache_storage_uri. intros (r & Hr & H)%outcome_bind_Ret.
  destruct (str_empty (netloc r)) eqn:E1; [done|].
  destruct (str_empty (removeprefix "/" (path r))) eqn:E2; [done|].
  destruct (str_mem slash (removeprefix "/" (path r))) eqn:E3; [done|].
  injection H as <- <-. exists r. split_and!; [done..|by apply str_empty_false|
    by apply str_empty_false|done].
Qed.

(** Whatever the URI, a schema and a table that are accepted are not
    empty and contain no slash. *)
Lemma parse_cache_uri_sound u schema table :
  parse_cache_storage_uri u = Ret (schema, table) →
  schema ≠ "" ∧ table ≠ "" ∧ str_mem slash schema = false ∧ str_mem slash table = false.
Proof.
  intros (r & Hr & -> & -> & Hs & Ht & Hm)%parse_cache_uri_inv. split_and!; [done..| |done].
  apply str_mem_forall. eapply str_forall_impl; [|by eapply urlparse_netloc_ok].
  intros c. unfold compose, netloc_end. rewrite !negb_orb, !andb_true_iff. tauto.
Qed.

(** ** Namespace *)

Lemma get_namespace_world w : (get_namespace w).2 = w.
Proof.
  unfold get_namespace, try_except, mbind, M_bind, on_fs, read_text. destruct w as [fs tr]. simpl.
  destruct (locate fs _) as [[d|d c]|e|]; [|destruct (fs_get fs (d ++ [c])) as [[]|]|destruct e|];
    reflexivity.
Qed.

(** The namespace is the stripped first line of the service-account file,
    and ["default"] when that file is missing. *)
Lemma get_namespace_spec w :
  let file := ["var"; "run"; "secrets"; "kubernetes.io"; "serviceaccount"; "namespace"] in
  fs_wf (w_fs w) →
  (∀ s, fs_get (w_fs w) file = Some (File s) → get_namespace w = (Ret (strip (first_line s)), w)) ∧
  (no_file (w_fs w) file → fs_get (w_fs w) file = None → get_namespace w = (Ret "default", w)).
Proof.
  intros file Hwf.
  assert (mk_path namespace_file = abs (removelast file ++ ["namespace"])) as Hp by reflexivity.
  assert (clean (removelast file ++ ["namespace"])) as Hc by (unfold clean, file; set_solver).
  pose proof Hc as [Hc' _]%clean_snoc.
  assert (∀ r, read_text (mk_path namespace_file) (w_fs w) = (r, w_fs w) →
               on_fs (read_text (mk_path namespace_file)) w = (r, w)) as Hon.
  { intros r Hr. rewrite (on_fs_run _ _ _ _ Hr). by destruct w. }
  split.
  - intros s Hs. unfold get_namespace, try_except. erewrite M_bind_Ret; [reflexivity|].
    apply Hon. unfold read_text. rewrite Hp, locate_abs by done.
    rewrite walk_to_dir; [|done|done|].
    + cbn [fmap outcome_fmap]. change (removelast file ++ ["namespace"]) with file. by rewrite Hs.
    + apply (Hwf _ "namespace" (File s)). exact Hs.
  - intros Hnf Hn. unfold get_namespace, try_except.
    rewrite (M_bind_Raise _ _ w (FileNotFoundError "ENOENT") w); [reflexivity|]. apply Hon. unfold read_text. rewrite Hp, locate_abs by done.
    destruct (fs_get (w_fs w) (removelast file)) as [[d|]|] eqn:E.
    + exfalso. apply (Hnf (removelast file) d); [apply removelast_prefix|done].
    + rewrite walk_to_dir by done. cbn [fmap outcome_fmap].
      change (removelast file ++ ["namespace"]) with file. by rewrite Hn.
    + rewrite walk_missing; [done|done| |done].
      intros q d Hq. apply Hnf. etrans; [done|]. apply removelast_prefix.
Qed.

(** ** The API calls *)

(** The name that ServiceAccount and LeaderWorkerSet are meant to have. *)
Definition cache_name (train_job_name : string) : string := train_job_name +:+ "-cache".

Lemma kcall_run `{Kubernetes} ev w : kcall ev w = (k8s_answer (w_trace w) ev, log w [ev]).
Proof. done. Qed.

(** An answer that [create_or_exists] lets pass. *)
Definition created_or_exists (r : outcome value) : Prop :=
  (∃ v, r = Ret v) ∨ r = Raise (ApiException 409).

Lemma create_or_exists_ok `{Kubernetes} ev w :
  created_or_exists (k8s_answer (w_trace w) ev) → create_or_exists ev w = (Ret tt, log w [ev]).
Proof.
  unfold create_or_exists, try_except, mbind, M_bind. rewrite kcall_run.
  by intros [[v ->]| ->].
Qed.

(** ** Polling *)

Section Polling.
Context `{Kubernetes}.
Variable ns name : string.
Let get := GetCustomObject leaderworkersets ns name.

Definition not_ready (r : outcome value) : Prop := ∃ v, r = Ret v ∧ lws_ready v = Ret false.
Definition is_ready (r : outcome value) : Prop := ∃ v, r = Ret v ∧ lws_ready v = Ret true.

(** The calls of [n] rounds that find the LeaderWorkerSet not ready. *)
Definition rounds (n : nat) : list event := concat (replicate n [get; Sleep 5]).

Lemma rounds_S n : rounds (S n) = [get; Sleep 5] ++ rounds n.
Proof. done. Qed.

Lemma poll_S fuel w :
  poll (S fuel) ns name w =
  match k8s_answer (w_trace w) get with
  | Ret v => match lws_ready v with
             | Ret true => (Ret tt, log w [get])
             | Ret false => poll fuel ns name (log w [get; Sleep 5])
             | Raise e => (Raise e, log w [get])
             | OutOfFuel => (OutOfFuel, log w [get])
             end
  | Raise e => (Raise e, log w [get])
  | OutOfFuel => (OutOfFuel, log w [get])
  end.
Proof.
  cbn [poll]. unfold mbind at 1, M_bind at 1. rewrite kcall_run. fold get.
  destruct (k8s_answer (w_trace w) get) as [v| |]; [|done..].
  unfold mbind at 1, M_bind at 1, lift. destruct (lws_ready v) as [[]| |]; [done| |done..].
  unfold mbind, M_bind, emit, modify. by rewrite log_app.
Qed.

Lemma poll_ready n fuel w :
  (∀ i, (i < n)%nat → not_ready (k8s_answer (w_trace w ++ rounds i) get)) →
  is_ready (k8s_answer (w_trace w ++ rounds n) get) → (n < fuel)%nat →
  poll fuel ns name w = (Ret tt, log w (rounds n ++ [get])).
Proof.
  revert fuel w. induction n as [|n IH]; intros [|fuel] w Hn Hr Hf; try lia; rewrite poll_S.
  - unfold rounds in Hr. simpl in Hr. rewrite app_nil_r in Hr.
    destruct Hr as (v & -> & ->). done.
  - destruct (Hn 0 ltac:(lia)) as (v & Hv & Hnr). unfold rounds in Hv. simpl in Hv.
    rewrite app_nil_r in Hv. rewrite Hv, Hnr. rewrite (IH fuel); [|..|lia].
    + by rewrite log_app, rounds_S, <- app_assoc.
    + intros i Hi. cbn [w_trace log]. rewrite <- app_assoc, <- rounds_S. apply Hn. lia.
    + cbn [w_trace log]. by rewrite <- app_assoc, <- rounds_S.
Qed.

(** Whatever happens, the calls of the loop are rounds. *)
Lemma poll_trace fuel w r w' :
  poll fuel ns name w = (r, w') → ∃ k evs, evs `prefix_of` rounds k ∧ w' = log w evs.
Proof.
  revert w. induction fuel as [|fuel IH]; intros w.
  { intros [= <- <-]. exists 0, []. by rewrite log_nil. }
  assert (∃ k evs, evs `prefix_of` rounds k ∧ log w [get] = log w evs) as Hone.
  { exists 1, [get]. split; [|done]. by exists [Sleep 5]. }
  rewrite poll_S. destruct (k8s_answer (w_trace w) get) as [v| |]; [|by intros [= <- <-]..].
  destruct (lws_ready v) as [[]| |]; [by intros [= <- <-]| |by intros [= <- <-]..].
  intros (k & evs & Hp & ->)%IH. exists (S k), ([get; Sleep 5] ++ evs).
  rewrite log_app, rounds_S. split; [by apply prefix_app|done].
Qed.

(** The result of the polling loop does not depend on the fuel once it is
    enough: a run that ends within [fuel] rounds ends the same way with more. *)
Lemma poll_fuel_irrelevant fuel fuel' w r w' :
  poll fuel ns name w = (r, w') → r ≠ OutOfFuel → (fuel ≤ fuel')%nat → poll fuel' ns name w = (r, w').
Proof.
  revert fuel' w. induction fuel as [|fuel IH]; intros fuel' w; [by intros [= <- <-]|].
  destruct fuel' as [|fuel']; [lia|]. rewrite !poll_S.
  destruct (k8s_answer (w_trace w) get) as [v| |]; [|done..].
  destruct (lws_ready v) as [[]| |]; [done| |done..]. intros Hp Hr Hle. apply IH; [done..|lia].
Qed.

(** A LeaderWorkerSet that never becomes available is polled for ever:
    there is no bound on the number of rounds, every fuel runs out. *)
Lemma poll_unbounded fuel w :
  (∀ tr, not_ready (k8s_answer tr get)) → (poll fuel ns name w).1 = OutOfFuel.
Proof.
  intros Hn. revert w. induction fuel as [|fuel IH]; intros w; [done|].
  rewrite poll_S. destruct (Hn (w_trace w)) as (v & -> & ->). apply IH.
Qed.
End Polling.

Section Calls.
Context `{Kubernetes}.
Variable self : CacheInitializer.
Variable ns : string.
Variable z : Sizes.
Variable w : World.
Hypothesis Hsizes : read_sizes (config self) = Ret z.
Hypothesis Hns : get_namespace w = (Ret ns, w).

Let job := train_job_name (config self).
Let get_job := GetCustomObject trainjobs ns job.
Definition create_sa (owner : value) : event :=
  CreateServiceAccount ns (service_account job ns (iam_role (config self)) owner).
Definition create_lws (owner : value) : event :=
  CreateCustomObject leaderworkersets ns (lws_body self ns owner z).
Definition create_svc (owner : value) : event := CreateService ns (service job ns owner).
Definition get_lws : event := GetCustomObject leaderworkersets ns (cache_name job).
Definition delete_sa : event := DeleteServiceAccount (cache_name job) ns.

(** The API server's configuration loads. *)
Definition config_loads : Prop := ∃ v, k8s_answer (w_trace w) LoadInclusterConfig = Ret v.
(** The TrainJob is found and [owner] is its owner reference. *)
Definition job_found (owner : value) : Prop :=
  ∃ tj, k8s_answer (w_trace w ++ [LoadInclusterConfig]) get_job = Ret tj ∧
        owner_reference tj = Ret owner.

Let w_owner := log w [LoadInclusterConfig; get_job].

Lemma download_dataset_owner fuel owner :
  config_loads → job_found owner →
  download_dataset fuel self w =
  try_except (create_cluster fuel self ns owner z) (fun e =>
    match e with
    | ApiException _ => cleanup job ns
    | _ => raise e
    end) w_owner.
Proof.
  intros [v Hv] (tj & Htj & Ho). unfold download_dataset.
  unfold mbind at 1, M_bind at 1, lift. rewrite Hsizes.
  rewrite (M_bind_Ret _ _ _ _ _ Hns). unfold mbind at 1, M_bind at 1. rewrite kcall_run, Hv.
  unfold mbind at 1, M_bind at 1, fetch_owner, try_except at 1.
  unfold mbind at 1, M_bind at 1. rewrite kcall_run. cbn [w_trace log]. fold job get_job. rewrite Htj.
  unfold mbind, M_bind, lift. rewrite Ho. by rewrite log_app.
Qed.

(** When the TrainJob cannot be fetched because of an API error, the cache
    initializer returns after that call: nothing is created or deleted. *)
Lemma cache_no_train_job fuel status :
  config_loads →
  k8s_answer (w_trace w ++ [LoadInclusterConfig]) get_job = Raise (ApiException status) →
  download_dataset fuel self w = (Ret tt, log w [LoadInclusterConfig; get_job]).
Proof.
  intros [v Hv] Htj. unfold download_dataset.
  unfold mbind at 1, M_bind at 1, lift. rewrite Hsizes.
  rewrite (M_bind_Ret _ _ _ _ _ Hns). unfold mbind at 1, M_bind at 1. rewrite kcall_run, Hv.
  unfold mbind at 1, M_bind at 1, fetch_owner, try_except at 1.
  unfold mbind at 1, M_bind at 1. rewrite kcall_run. cbn [w_trace log]. fold job get_job. rewrite Htj.
  by rewrite log_app.
Qed.

(** The calls of [create_cluster] up to the polling. *)
Lemma create_cluster_to_poll fuel owner :
  created_or_exists (k8s_answer (w_trace w_owner) (create_sa owner)) →
  (∃ v, k8s_answer (w_trace w_owner ++ [create_sa owner]) (create_lws owner) = Ret v) →
  created_or_exists (k8s_answer (w_trace w_owner ++ [create_sa owner; create_lws owner])
                       (create_svc owner)) →
  create_cluster fuel self ns owner z w_owner =
  poll fuel ns (cache_name job)
    (log w_owner [create_sa owner; create_lws owner; create_svc owner]).
Proof.
  intros Hsa [v Hlws] Hsvc. unfold create_cluster. fold job.
  rewrite (M_bind_Ret _ _ _ _ _ (create_or_exists_ok _ _ Hsa)).
  unfold mbind at 1, M_bind at 1. rewrite kcall_run. fold (create_lws owner) (create_sa owner).
  change (w_trace (log w_owner [create_sa owner])) with (w_trace w_owner ++ [create_sa owner]).
  rewrite Hlws, log_app.
  by rewrite (M_bind_Ret _ _ _ _ _ (create_or_exists_ok (create_svc owner)
    (log w_owner [create_sa owner; create_lws owner]) Hsvc)), log_app.
Qed.

(** C22. A LeaderWorkerSet that already exists is not tolerated, unlike an
    existing ServiceAccount or Service: when its creation answers 409, as in a
    second run of the same TrainJob, the run deletes the ServiceAccount the
    running cache cluster uses, creates no Service, does not wait for readiness,
    and returns normally. *)
Theorem cache_rerun_deletes_service_account fuel owner :
  config_loads → job_found owner →
  created_or_exists (k8s_answer (w_trace w_owner) (create_sa owner)) →
  k8s_answer (w_trace w_owner ++ [create_sa owner]) (create_lws owner) =
    Raise (ApiException 409) →
  k8s_answer (w_trace w_owner ++ [create_sa owner; create_lws owner]) delete_sa ≠ OutOfFuel →
  download_dataset fuel self w =
  (Ret tt, log w [LoadInclusterConfig; get_job; create_sa owner; create_lws owner; delete_sa]).
Proof.
  intros Hc Hj Hsa Hlws Hd. rewrite (download_dataset_owner fuel owner) by done.
  unfold try_except at 1, create_cluster. fold job.
  rewrite (M_bind_Ret _ _ _ _ _ (create_or_exists_ok _ _ Hsa)).
  unfold mbind at 1, M_bind at 1. rewrite kcall_run. fold (create_lws owner) (create_sa owner).
  change (w_trace (log w_owner [create_sa owner])) with (w_trace w_owner ++ [create_sa owner]).
  rewrite Hlws. unfold cleanup, try_except, mbind, M_bind. rewrite kcall_run. change (DeleteServiceAccount _ _) with delete_sa.
  rewrite log_app. change (w_trace (log w_owner ([create_sa owner] ++ [create_lws owner])))
    with (w_trace w_owner ++ [create_sa owner; create_lws owner]).
  unfold w_owner. rewrite !log_app. by destruct (k8s_answer _ delete_sa).
Qed.

(** C5. The whole run: when the TrainJob is found, the objects are created
    (an existing ServiceAccount or Service is accepted) and the LeaderWorkerSet
    is available at the [n]-th repeated poll, the run returns normally having
    made exactly these calls in this order, with five seconds between polls and
    no deletion; fuel larger than [n] is enough. *)
Theorem cache_cluster_created fuel owner n :
  config_loads → job_found owner →
  created_or_exists (k8s_answer (w_trace w_owner) (create_sa owner)) →
  (∃ v, k8s_answer (w_trace w_owner ++ [create_sa owner]) (create_lws owner) = Ret v) →
  created_or_exists (k8s_answer (w_trace w_owner ++ [create_sa owner; create_lws owner])
                       (create_svc owner)) →
  let before := w_trace w_owner ++ [create_sa owner; create_lws owner; create_svc owner] in
  (∀ i, (i < n)%nat → not_ready (k8s_answer (before ++ rounds ns (cache_name job) i) get_lws)) →
  is_ready (k8s_answer (before ++ rounds ns (cache_name job) n) get_lws) →
  (n < fuel)%nat →
  download_dataset fuel self w =
  (Ret tt, log w ([LoadInclusterConfig; get_job; create_sa owner; create_lws owner;
                   create_svc owner] ++ rounds ns (cache_name job) n ++ [get_lws])).
Proof.
  intros Hc Hj Hsa Hlws Hsvc before Hn Hr Hf. rewrite (download_dataset_owner fuel owner) by done.
  unfold try_except. rewrite create_cluster_to_poll by done.
  rewrite (poll_ready ns (cache_name job) n); [|exact Hn|exact Hr|done].
  unfold w_owner. by rewrite !log_app.
Qed.

Lemma create_or_exists_trace ev w1 r w2 : create_or_exists ev w1 = (r, w2) → w2 = log w1 [ev].
Proof.
  unfold create_or_exists, try_except, mbind, M_bind. rewrite kcall_run.
  destruct (k8s_answer (w_trace w1) ev) as [|e|]; [by intros [= <- <-]| |by intros [= <- <-]].
  repeat case_match; by intros [= <- <-].
Qed.

Lemma create_cluster_trace fuel owner w1 r w2 :
  create_cluster fuel self ns owner z w1 = (r, w2) →
  ∃ k evs, w2 = log w1 evs ∧
    evs `prefix_of` [create_sa owner; create_lws owner; create_svc owner] ++
                    rounds ns (cache_name job) k.
Proof.
  unfold create_cluster. fold job (create_sa owner) (create_lws owner) (create_svc owner).
  unfold mbind at 1, M_bind at 1.
  destruct (create_or_exists (create_sa owner) w1) as [r1 w3] eqn:E1.
  apply create_or_exists_trace in E1 as ->.
  destruct r1 as [[]| |]; [|intros [= <- <-]; exists 0, [create_sa owner]; by split; [|eexists]..].
  unfold mbind at 1, M_bind at 1. rewrite kcall_run, log_app.
  destruct (k8s_answer _ (create_lws owner)) as [v| |];
    [|intros [= <- <-]; exists 0, [create_sa owner; create_lws owner]; by split; [|eexists]..].
  unfold mbind at 1, M_bind at 1.
  destruct (create_or_exists (create_svc owner) _) as [r3 w4] eqn:E3.
  apply create_or_exists_trace in E3 as ->. rewrite log_app.
  destruct r3 as [[]| |]; [|intros [= <- <-]; exists 0;
    exists [create_sa owner; create_lws owner; create_svc owner]; by split; [|eexists]..].
  intros (k & evs & Hp & ->)%poll_trace. rewrite log_app. eexists k, _. split; [done|].
  by apply prefix_app.
Qed.

(** The calls of a run. *)
Lemma download_calls fuel r w' :
  download_dataset fuel self w = (r, w') →
  ∃ evs, w' = log w evs ∧
    (evs `prefix_of` [LoadInclusterConfig; get_job] ∨
     ∃ owner k calls del, job_found owner ∧
       calls `prefix_of` [create_sa owner; create_lws owner; create_svc owner] ++
                         rounds ns (cache_name job) k ∧
       (del = [] ∨ del = [delete_sa]) ∧
       evs = [LoadInclusterConfig; get_job] ++ calls ++ del).
Proof.
  unfold download_dataset. unfold mbind at 1, M_bind at 1, lift. rewrite Hsizes.
  rewrite (M_bind_Ret _ _ _ _ _ Hns). unfold mbind at 1, M_bind at 1. rewrite kcall_run.
  assert ([LoadInclusterConfig] `prefix_of` [LoadInclusterConfig; get_job]) as Hone by by eexists.
  destruct (k8s_answer (w_trace w) LoadInclusterConfig) as [v| |]; [|intros [= <- <-]; eauto..].
  unfold mbind at 1, M_bind at 1, fetch_owner, try_except at 1.
  unfold mbind at 1, M_bind at 1. rewrite kcall_run, log_app. cbn [w_trace log].
  fold job get_job. change ([LoadInclusterConfig] ++ [get_job]) with [LoadInclusterConfig; get_job].
  destruct (k8s_answer (w_trace w ++ [LoadInclusterConfig]) get_job) as [tj|e|] eqn:Htj;
    [|destruct e; intros [= <- <-]; eauto|intros [= <- <-]; eauto].
  unfold mbind at 1, M_bind at 1, lift.
  destruct (owner_reference tj) as [owner|e|] eqn:Ho;
    [|destruct e; intros [= <- <-]; eauto|intros [= <- <-]; eauto].
  unfold mret, M_ret, try_except at 1.
  destruct (create_cluster fuel self ns owner z _) as [rc w2] eqn:Ec.
  apply create_cluster_trace in Ec as (k & calls & -> & Hp). rewrite log_app.
  intros Hrun. assert (∃ del, (del = [] ∨ del = [delete_sa]) ∧
    w' = log w ([LoadInclusterConfig; get_job] ++ calls ++ del)) as (del & Hdel & ->).
  { destruct rc as [|e|]; [|destruct e|].
    all: try (injection Hrun as <- <-; exists []; rewrite app_nil_r; by split; [left|]).
    exists [delete_sa]. split; [by right|]. rewrite app_assoc. revert Hrun.
    unfold cleanup, try_except, mbind, M_bind. rewrite kcall_run, log_app.
    change (DeleteServiceAccount _ _) with delete_sa.
    destruct (k8s_answer _ delete_sa); by intros [= <- <-]. }
  eexists. split; [done|]. right. exists owner, k, calls, del.
  split_and!; [by exists tj|done|done|done].
Qed.
(** C8. On every path, whatever the API answers, the calls are: the
    configuration, the TrainJob, then (only if it was found) an initial part of
    ServiceAccount, LeaderWorkerSet, Service and polls, in this order and each
    created object carrying the TrainJob's owner reference, then at most one
    deletion, of the ServiceAccount. *)
Theorem cache_calls_ordered fuel r w' :
  download_dataset fuel self w = (r, w') →
  ∃ evs, w' = log w evs ∧
    (evs `prefix_of` [LoadInclusterConfig; get_job] ∨
     ∃ owner k calls del, job_found owner ∧
       calls `prefix_of` [create_sa owner; create_lws owner; create_svc owner] ++
                         rounds ns (cache_name job) k ∧
       (del = [] ∨ del = [delete_sa]) ∧
       evs = [LoadInclusterConfig; get_job] ++ calls ++ del).
Proof. apply download_calls. Qed.
End Calls.

(** A cluster size or probe setting that is not an integer ends the run
    with the [ValueError] of its conversion, before the cluster is contacted. *)
Lemma cache_bad_sizes `{Kubernetes} fuel self w e :
  read_sizes (config self) = Raise e → download_dataset fuel self w = (Raise e, w).
Proof. intros Hz. unfold download_dataset, mbind, M_bind, lift. by rewrite Hz. Qed.

(** ** Wiring of the created objects *)

(** The value at a path of keys. *)
Fixpoint at_keys (v : value) (keys : list string) : outcome value :=
  match keys with
  | [] => Ret v
  | k :: ks =>
      x ← match v with
          | VObj _ attrs => match dict_get attrs k with
                            | Some x => Ret x
                            | None => Raise (AttributeError k)
                            end
          | _ => getitem v k
          end;
      at_keys x ks
  end.

Definition pod_template (role : string) : list string :=
  ["spec"; "leaderWorkerTemplate"; role].

(** What Kubernetes makes of the objects. A Service sends its traffic to the pods
    that have every label of its selector, at its target ports. *)
Definition entries_at (v : value) (keys : list string) : list (string * value) :=
  match at_keys v keys with Ret (VDict d) => d | _ => [] end.
Definition items_at (v : value) (keys : list string) : list value :=
  match at_keys v keys with Ret (VList l) => l | _ => [] end.
Definition str_at (v : value) (keys : list string) : option string :=
  match at_keys v keys with Ret (VStr s) => Some s | _ => None end.
Definition int_at (v : value) (keys : list string) : option Z :=
  match at_keys v keys with Ret (VInt n) => Some n | _ => None end.

Definition has_label (labels : list (string * value)) (kv : string * value) : bool :=
  match dict_get labels kv.1, kv.2 with Some (VStr s), VStr t => String.eqb s t | _, _ => false end.
Definition selects (svc lws : value) (role : string) : bool :=
  forallb (has_label (entries_at lws (pod_template role ++ ["metadata"; "labels"])))
    (entries_at svc ["spec"; "selector"]).
(** The ports at which the containers of a role are open. *)
Definition open_ports (lws : value) (role : string) : list (option Z) :=
  map (fun p => int_at p ["containerPort"])
    (flat_map (fun c => items_at c ["ports"]) (items_at lws (pod_template role ++ ["spec"; "containers"]))).
Definition target_ports (svc : value) : list (option Z) :=
  map (fun p => int_at p ["target_port"]) (items_at svc ["spec"; "ports"]).

(** The pods of both roles run under the account [sa]; both objects belong to the
    same owners. *)
Definition runs_as (lws sa : value) : Prop :=
  (∃ name, str_at sa ["metadata"; "name"] = Some name ∧
     ∀ role, role = "leaderTemplate" ∨ role = "workerTemplate" →
       str_at lws (pod_template role ++ ["spec"; "serviceAccountName"]) = Some name) ∧
  items_at sa ["metadata"; "owner_references"] = items_at lws ["metadata"; "ownerReferences"].
(** The Service leads to the leader's pods alone, at ports that are open there. *)
Definition exposes (svc lws : value) : Prop :=
  selects svc lws "leaderTemplate" = true ∧ selects svc lws "workerTemplate" = false ∧
  target_ports svc ≠ [] ∧ target_ports svc ⊆ open_ports lws "leaderTemplate" ∧
  items_at svc ["metadata"; "owner_references"] = items_at lws ["metadata"; "ownerReferences"].

Lemma lws_runs_as self ns owner z :
  runs_as (lws_body self ns owner z)
    (service_account (train_job_name (config self)) ns (iam_role (config self)) owner).
Proof. split; [eexists; split; [reflexivity|]; by intros role [-> | ->]|reflexivity]. Qed.
Lemma service_exposes self ns owner z :
  exposes (service (train_job_name (config self)) ns owner) (lws_body self ns owner z).
Proof.
  split_and!; [|done|done| |done].
  - cbn. by rewrite String.eqb_refl.
  - intros p ->%list_elem_of_singleton. constructor.
Qed.

(** After a successful [load_config] the table and the schema are always
    passed to the cache containers, and the metadata location whenever it is
    not empty; leader and workers get the same environment. *)
Theorem cache_env_complete e self ns owner z :
  load_config e = Ret self → metadata_loc (config self) ≠ "" →
  ∀ role, role = "leaderTemplate" ∨ role = "workerTemplate" →
  ∃ c, at_keys (lws_body self ns owner z) (pod_template role ++ ["spec"; "containers"]) =
         Ret (VList [c]) ∧
       at_keys c ["env"] = Ret (VList [
         VDict [("name", VStr "METADATA_LOC"); ("value", VStr (metadata_loc (config self)))];
         VDict [("name", VStr "TABLE_NAME"); ("value", VStr (table_name self))];
         VDict [("name", VStr "SCHEMA_NAME"); ("value", VStr (schema_name self))]]).
Proof.
  unfold load_config. intros (cfg & Hnew & ([sch tab] & Hp & Hs)%outcome_bind_Ret)%outcome_bind_Ret.
  injection Hs as <-. intros Hm role Hrole. cbn [config table_name schema_name] in *.
  apply parse_cache_uri_inv in Hp as (_ & _ & _ & _ & Hsch & Htab & _).
  apply str_empty_false in Hm, Hsch, Htab.
  destruct Hrole as [-> | ->]; (eexists; split; [reflexivity|]); cbn;
    unfold env_vars, env_var; by rewrite Hm, Hsch, Htab.
Qed.

(** ** Readiness *)

(** [c] is a condition of type [ty] and status [st]. *)
Definition is_condition (c : value) (ts : string * string) : Prop :=
  getitem c "type" = Ret (VStr ts.1) ∧ getitem c "status" = Ret (VStr ts.2).

Lemma any_available_spec cs tss :
  Forall2 is_condition cs tss → any_available cs = Ret (bool_decide (("Available", "True") ∈ tss)).
Proof.
  induction 1 as [|c [ty st] cs tss [Hty Hst] _ IH]; [done|].
  cbn [any_available]. rewrite Hty, Hst. cbn [mbind outcome_bind is_str fst snd]. rewrite IH.
  destruct (String.eqb_spec ty "Available"), (String.eqb_spec st "True"); simplify_eq;
    f_equal; apply eq_sym; try (apply bool_decide_eq_true; left);
    apply bool_decide_ext; set_solver.
Qed.

(** The LeaderWorkerSet counts as ready exactly when one of its status
    conditions, at any position, is Available with status True; without a
    status or without conditions it is not ready. *)
Lemma lws_ready_spec lws status cs tss :
  get_default lws "status" (VDict []) = Ret status →
  get_default status "conditions" (VList []) = Ret (VList cs) →
  Forall2 is_condition cs tss →
  lws_ready lws = Ret (bool_decide (("Available", "True") ∈ tss)).
Proof.
  intros Hs Hc Hf. unfold lws_ready. rewrite Hs. cbn [mbind outcome_bind]. rewrite Hc.
  cbn [mbind outcome_bind iter]. by apply any_available_spec.
Qed.

(** ** A concrete cluster *)

Definition demo_job : value := VDict [
  ("apiVersion", VStr "trainer.kubeflow.org/v1alpha1"); ("kind", VStr "TrainJob");
  ("metadata", VDict [("name", VStr "minimal-job"); ("uid", VStr "u-1")])].
Definition demo_owner : value := VDict [
  ("apiVersion", VStr "trainer.kubeflow.org/v1alpha1"); ("kind", VStr "TrainJob");
  ("name", VStr "minimal-job"); ("uid", VStr "u-1"); ("controller", VBool true);
  ("blockOwnerDeletion", VBool true)].
Definition demo_conditions (avail : string) : list value := [
  VDict [("type", VStr "Progressing"); ("status", VStr "True")];
  VDict [("type", VStr "Available"); ("status", VStr avail)]].
Definition demo_lws (avail : string) : value :=
  VDict [("status", VDict [("conditions", VList (demo_conditions avail))])].

Definition is_sleep (ev : event) : bool := match ev with Sleep _ => true | _ => false end.

(** [job] tells whether the TrainJob exists, [lws] whether the LeaderWorkerSet
    exists before the run, [ready] after how many sleeps it is available. *)
Definition demo_cluster (job lws : bool) (ready : nat) : Kubernetes := {|
  k8s_answer tr ev :=
    match ev with
    | GetCustomObject res _ _ =>
        if String.eqb (r_plural res) "trainjobs"
        then if job then Ret demo_job else Raise (ApiException 404)
        else Ret (demo_lws (if (ready <=? length (filter is_sleep tr))%nat then "True" else "False"))
    | CreateCustomObject _ _ _ => if lws then Raise (ApiException 409) else Ret VNone
    | CreateServiceAccount _ _ => if lws then Raise (ApiException 409) else Ret VNone
    | _ => Ret VNone
    end |}.

Definition demo_sizes : Sizes :=
  {| size := 3; initial_delay := 5; period := 10; timeout := 5; failure_threshold := 3 |}.

Lemma demo_read_sizes : read_sizes (config cache_self) = Ret demo_sizes.
Proof. vm_compute. reflexivity. Qed.
Lemma demo_namespace : get_namespace empty_world = (Ret "default", empty_world).
Proof. vm_compute. reflexivity. Qed.

Lemma cache_rerun_deletes_service_account_witness :
  last (w_trace (@download_dataset (demo_cluster true true 0) 5 cache_self empty_world).2) =
  Some (DeleteServiceAccount "minimal-job-cache" "default").
Proof.
  rewrite (@cache_rerun_deletes_service_account (demo_cluster true true 0) cache_self "default"
    demo_sizes empty_world demo_read_sizes demo_namespace 5 demo_owner); [reflexivity|..].
  - by exists VNone.
  - by exists demo_job.
  - by right.
  - reflexivity.
  - done.
Defined.

Lemma cache_cluster_created_witness :
  (@download_dataset (demo_cluster true false 2) 5 cache_self empty_world).1 = Ret tt.
Proof.
  rewrite (@cache_cluster_created (demo_cluster true false 2) cache_self "default"
    demo_sizes empty_world demo_read_sizes demo_namespace 5 demo_owner 2); [reflexivity|..].
  - by exists VNone.
  - by exists demo_job.
  - left. by exists VNone.
  - by exists VNone.
  - left. by exists VNone.
  - intros i Hi. exists (demo_lws "False"). destruct i as [|[|]]; [done..|lia].
  - by exists (demo_lws "True").
  - lia.
Defined.

Lemma cache_calls_ordered_witness :
  ∃ evs, (@download_dataset (demo_cluster true false 2) 5 cache_self empty_world).2 =
         log empty_world evs.
Proof.
  destruct (@cache_calls_ordered (demo_cluster true false 2) cache_self "default" demo_sizes
    empty_world demo_read_sizes demo_namespace 5 _ _ (surjective_pairing _)) as (evs & -> & _).
  by exists evs.
Defined.

Lemma cache_env_complete_witness :
  ∃ c, at_keys (lws_body cache_self "default" demo_owner demo_sizes)
         (pod_template "workerTemplate" ++ ["spec"; "containers"]) = Ret (VList [c]).
Proof.
  destruct (cache_env_complete cache_env cache_self "default" demo_owner demo_sizes
    ltac:(vm_compute; reflexivity) ltac:(done) "workerTemplate" ltac:(by right)) as (c & Hc & _).
  by exists c.
Defined.

