(* ===== verification/CacheProtocol.v ===== *)
(** * The bootstrap protocol of the cache cluster

    An abstract account of what the cache initializer promises to the cluster:
    the phases of a run, the call that each phase makes, and the phase that each
    answer leads to, as a step relation. [download_dataset] refines it, in both
    directions: a run of the code is a path of the protocol, and a path of the
    protocol is a run of the code. Facts about all runs then follow by induction
    on paths. *)

From S2P Require Import Prelude PyStr PyValue Url FileSystem World OpenDal Config Providers Cache Main OpenDalSpec ConfigSpec MainSpec CacheSpec.
From stdpp Require Import relations.
Local Open Scope string_scope.
Local Open Scope bool_scope.
Local Open Scope list_scope.

Inductive phase : Type :=
| Starting
| Connected                       (* the cluster configuration is loaded *)
| Owned (owner : value)           (* the TrainJob is found *)
| HasAccount (owner : value)
| HasCluster (owner : value)
| Polling
| Waiting                         (* between two polls *)
| CleaningUp                      (* after an API error *)
| Finished (r : outcome unit).

(** An error other than an answer of the API server. *)
Definition other_error (e : exn) : Prop := ∀ status, e ≠ ApiException status.

Section Protocol.
Context `{Kubernetes}.
Variable self : CacheInitializer.
Variable ns : string.
Variable z : Sizes.

Let job := CacheDatasetInitializer.train_job_name (config self).
Let get_job := GetCustomObject trainjobs ns job.

(** The call of a phase in which the cluster is being created. *)
Inductive creates : phase → event → Prop :=
| creates_account owner : creates (Owned owner) (create_sa self ns owner)
| creates_lws owner : creates (HasAccount owner) (create_lws self ns z owner)
| creates_service owner : creates (HasCluster owner) (create_svc self ns owner)
| creates_poll : creates Polling (get_lws self ns).

(** An object that exists already is no error. *)
Definition tolerates (p : phase) : bool :=
  match p with Owned _ | HasCluster _ => true | _ => false end.

(** In phase [p] the call [ev] is made; the answer [r] leads to the next phase. *)
Inductive step : phase → event → outcome value → phase → Prop :=
| step_load v : step Starting LoadInclusterConfig (Ret v) Connected
| step_load_error e : step Starting LoadInclusterConfig (Raise e) (Finished (Raise e))
| step_job tj owner :
    owner_reference tj = Ret owner → step Connected get_job (Ret tj) (Owned owner)
| step_job_malformed tj e :
    owner_reference tj = Raise e → step Connected get_job (Ret tj) (Finished (Raise e))
| step_no_job status :
    step Connected get_job (Raise (ApiException status)) (Finished (Ret tt))
| step_job_error e :
    other_error e → step Connected get_job (Raise e) (Finished (Raise e))
| step_account owner r :
    created_or_exists r → step (Owned owner) (create_sa self ns owner) r (HasAccount owner)
| step_cluster owner v :
    step (HasAccount owner) (create_lws self ns z owner) (Ret v) (HasCluster owner)
| step_service owner r :
    created_or_exists r → step (HasCluster owner) (create_svc self ns owner) r Polling
| step_ready v :
    lws_ready v = Ret true → step Polling (get_lws self ns) (Ret v) (Finished (Ret tt))
| step_not_ready v :
    lws_ready v = Ret false → step Polling (get_lws self ns) (Ret v) Waiting
| step_lws_malformed v e :
    lws_ready v = Raise e → step Polling (get_lws self ns) (Ret v) (Finished (Raise e))
| step_sleep r : step Waiting (Sleep 5) r Polling
| step_api_error p ev status :
    creates p ev → (tolerates p = true → status ≠ 409%Z) →
    step p ev (Raise (ApiException status)) CleaningUp
| step_error p ev e :
    creates p ev → other_error e → step p ev (Raise e) (Finished (Raise e))
| step_cleaned r : r ≠ OutOfFuel → step CleaningUp (delete_sa self ns) r (Finished (Ret tt)).

(** A step in a cluster with history [tr]; the call becomes part of the history. *)
Definition cstep (c c' : phase * list event) : Prop :=
  ∃ ev, step c.1 ev (k8s_answer c.2 ev) c'.1 ∧ c'.2 = c.2 ++ [ev].

(** ** The rest of the code in each phase *)

Definition guarded (m : M World unit) : M World unit :=
  try_except m (fun e => match e with
                         | ApiException _ => cleanup job ns
                         | _ => raise e
                         end).

Definition from_service (fuel : nat) (owner : value) : M World unit :=
  create_or_exists (create_svc self ns owner) ≫= fun _ => poll fuel ns (cache_name job).

Definition from_owner (fuel : nat) (owner : option value) : M World unit :=
  match owner with
  | None => mret tt
  | Some owner => guarded (create_cluster fuel self ns owner z)
  end.

Definition rest (fuel : nat) (p : phase) : M World unit :=
  match p with
  | Starting => kcall LoadInclusterConfig ≫= fun _ => fetch_owner ns job ≫= from_owner fuel
  | Connected => fetch_owner ns job ≫= from_owner fuel
  | Owned owner => guarded (create_cluster fuel self ns owner z)
  | HasAccount owner =>
      guarded (kcall (create_lws self ns z owner) ≫= fun _ => from_service fuel owner)
  | HasCluster owner => guarded (from_service fuel owner)
  | Polling => guarded (poll fuel ns (cache_name job))
  | Waiting => guarded (emit (Sleep 5) ≫= fun _ => poll fuel ns (cache_name job))
  | CleaningUp => cleanup job ns
  | Finished r => lift r
  end.

(** A poll takes one unit of fuel. *)
Definition cost (p : phase) : nat := match p with Polling => 1 | _ => 0 end.

Lemma download_dataset_rest fuel w :
  read_sizes (config self) = Ret z → get_namespace w = (Ret ns, w) →
  download_dataset fuel self w = rest fuel Starting w.
Proof.
  intros Hz Hns. unfold download_dataset, mbind at 1, M_bind at 1, lift. rewrite Hz.
  by rewrite (M_bind_Ret _ _ _ _ _ Hns).
Qed.

(** ** Refinement *)

Lemma guarded_Ret {A} (m : M World A) (k : A → M World unit) w a w' :
  m w = (Ret a, w') → guarded (m ≫= k) w = guarded (k a) w'.
Proof. intros Hm. unfold guarded, try_except. by rewrite (M_bind_Ret _ _ _ _ _ Hm). Qed.
Lemma guarded_api_error (m : M World unit) w status w' :
  m w = (Raise (ApiException status), w') → guarded m w = cleanup job ns w'.
Proof. intros Hm. unfold guarded, try_except. by rewrite Hm. Qed.
Lemma guarded_error (m : M World unit) w e w' :
  m w = (Raise e, w') → other_error e → guarded m w = (Raise e, w').
Proof.
  intros Hm He. unfold guarded, try_except. rewrite Hm. destruct e; try done. by destruct (He status).
Qed.

(** The outcome of [create_or_exists] when the call fails. *)
Lemma create_or_exists_error ev w e :
  k8s_answer (w_trace w) ev = Raise e → e ≠ ApiException 409 →
  create_or_exists ev w = (Raise e, log w [ev]).
Proof.
  intros Ha He. unfold create_or_exists, try_except, mbind, M_bind. rewrite kcall_run, Ha.
  destruct e as [| | | | | | | | | |status| | |]; try done.
  destruct (decide (status = 409%Z)) as [->|Hs]; [done|].
  by repeat (match goal with |- context [match ?x with _ => _ end] => is_var x; destruct x end).
Qed.

(** Reading an answered object never runs out of fuel, and raises no API error
    when the object is malformed. *)
Definition reads {A} (r : outcome A) : Prop :=
  match r with Ret _ => True | Raise e => other_error e | OutOfFuel => False end.

Lemma reads_bind {A B} (r : outcome A) (k : A → outcome B) :
  reads r → (∀ a, reads (k a)) → reads (r ≫= k).
Proof. destruct r; cbn; auto. Qed.
Lemma getitem_reads v k : reads (getitem v k).
Proof. destruct v as [| | | | | | |d| |]; cbn; try done. by destruct (dict_get d k). Qed.
Lemma get_default_reads v k d : reads (get_default v k d).
Proof. by destruct v. Qed.
Lemma owner_reference_reads tj : reads (owner_reference tj).
Proof. unfold owner_reference. repeat (apply reads_bind; [apply getitem_reads|intros ?]). done. Qed.
Lemma any_available_reads cs : reads (any_available cs).
Proof.
  induction cs as [|c cs IH]; [done|]. cbn. apply reads_bind; [apply getitem_reads|intros ty].
  destruct (is_str ty _); [|done]. apply reads_bind; [apply getitem_reads|intros st].
  by destruct (is_str st _).
Qed.
Lemma lws_ready_reads v : reads (lws_ready v).
Proof.
  unfold lws_ready. do 2 (apply reads_bind; [apply get_default_reads|intros ?]).
  apply reads_bind; [|apply any_available_reads]. by destruct a0.
Qed.

(** The TrainJob is answered. *)
Lemma fetch_owner_found tj w :
  k8s_answer (w_trace w) get_job = Ret tj →
  fetch_owner ns job w =
  match owner_reference tj with
  | Ret owner => (Ret (Some owner), log w [get_job])
  | Raise e => (Raise e, log w [get_job])
  | OutOfFuel => (OutOfFuel, log w [get_job])
  end.
Proof.
  intros Ha. unfold fetch_owner, try_except, mbind at 1, M_bind at 1.
  rewrite kcall_run. fold get_job. rewrite Ha. unfold mbind, M_bind, lift.
  pose proof (owner_reference_reads tj) as Ho. destruct (owner_reference tj) as [owner|e|]; [done| |done].
  destruct e; try done. by destruct (Ho status).
Qed.

(** One round of the polling loop. *)
Lemma poll_round fuel w :
  poll (S fuel) ns (cache_name job) w =
  match k8s_answer (w_trace w) (get_lws self ns) with
  | Ret v => match lws_ready v with
             | Ret true => (Ret tt, log w [get_lws self ns])
             | Ret false => (emit (Sleep 5) ≫= fun _ => poll fuel ns (cache_name job))
                              (log w [get_lws self ns])
             | Raise e => (Raise e, log w [get_lws self ns])
             | OutOfFuel => (OutOfFuel, log w [get_lws self ns])
             end
  | Raise e => (Raise e, log w [get_lws self ns])
  | OutOfFuel => (OutOfFuel, log w [get_lws self ns])
  end.
Proof.
  rewrite poll_S. change (GetCustomObject _ _ _) with (get_lws self ns).
  destruct (k8s_answer _ _) as [v| |]; [|done..]. destruct (lws_ready v) as [[]| |]; [done| |done..].
  unfold mbind, M_bind, emit, modify. by rewrite log_app.
Qed.

(** The exception of a phase's call leaves the creation code. *)
Lemma creates_error p ev w fuel e :
  creates p ev → k8s_answer (w_trace w) ev = Raise e →
  (tolerates p = true → e ≠ ApiException 409) →
  ∃ m, rest (cost p + fuel) p = guarded m ∧ m w = (Raise e, log w [ev]).
Proof.
  intros Hc Ha He. destruct Hc; (eexists; split; [reflexivity|]).
  - unfold create_cluster. apply M_bind_Raise. apply create_or_exists_error; [done|by apply He].
  - apply M_bind_Raise. by rewrite kcall_run, Ha.
  - apply M_bind_Raise. apply create_or_exists_error; [done|by apply He].
  - cbn [cost Nat.add]. by rewrite poll_round, Ha.
Qed.

Lemma cstep_rest p ev q w fuel :
  step p ev (k8s_answer (w_trace w) ev) q →
  rest (cost p + fuel) p w = rest fuel q (log w [ev]).
Proof.
  remember (k8s_answer (w_trace w) ev) as r eqn:Hr. intros Hs. symmetry in Hr.
  destruct Hs as [v|e|tj owner Ho|tj e Ho|status|e He|owner r Hok|owner v|owner r Hok|v Hv|v Hv|v e Hv
                 |r|p ev status Hc Ht|p ev e Hc He|r Hd]; cbn [cost Nat.add].
  - cbn [rest]. by rewrite (M_bind_Ret _ _ w v (log w [LoadInclusterConfig])) by by rewrite kcall_run, Hr.
  - cbn [rest]. apply M_bind_Raise. by rewrite kcall_run, Hr.
  - cbn [rest]. rewrite (M_bind_Ret _ _ w (Some owner) (log w [get_job])); [done|].
    by rewrite (fetch_owner_found tj), Ho.
  - cbn [rest]. apply M_bind_Raise. by rewrite (fetch_owner_found tj), Ho.
  - cbn [rest]. rewrite (M_bind_Ret _ _ w None (log w [get_job])); [done|]. unfold fetch_owner, try_except, mbind, M_bind.
    rewrite kcall_run. fold get_job. by rewrite Hr.
  - cbn [rest]. apply M_bind_Raise. unfold fetch_owner, try_except, mbind, M_bind.
    rewrite kcall_run. fold get_job. rewrite Hr. destruct e; try done. by destruct (He status).
  - cbn [rest]. unfold create_cluster. etrans; [eapply guarded_Ret|done].
    apply create_or_exists_ok. by rewrite Hr.
  - cbn [rest]. etrans; [eapply guarded_Ret|done]. by rewrite kcall_run, Hr.
  - cbn [rest]. etrans; [eapply guarded_Ret|done].
    apply create_or_exists_ok. by rewrite Hr.
  - cbn [rest]. unfold guarded, try_except. by rewrite poll_round, Hr, Hv.
  - cbn [rest]. unfold guarded, try_except. by rewrite poll_round, Hr, Hv.
  - cbn [rest]. pose proof (lws_ready_reads v) as Hl. rewrite Hv in Hl. apply guarded_error; [|done].
    by rewrite poll_round, Hr, Hv.
  - cbn [rest]. etrans; [by eapply guarded_Ret|done].
  - destruct (creates_error p ev w fuel _ Hc Hr) as (m & -> & Hm); [intros Hp [= ->]; by apply Ht|].
    by apply (guarded_api_error _ _ status).
  - destruct (creates_error p ev w fuel _ Hc Hr) as (m & -> & Hm); [intros _; apply He|].
    by apply guarded_error.
  - cbn [rest]. unfold cleanup, try_except, mbind, M_bind. rewrite kcall_run.
    change (DeleteServiceAccount _ _) with (delete_sa self ns). by rewrite Hr; destruct r.
Qed.

(** A path of the protocol is a run of the code, with the fuel its polls take. *)
Lemma csteps_rest p tr q tr' :
  rtc cstep (p, tr) (q, tr') →
  ∃ n, ∀ fuel fs, rest (n + fuel) p {| w_fs := fs; w_trace := tr |} =
                  rest fuel q {| w_fs := fs; w_trace := tr' |}.
Proof.
  intros Hp. remember (p, tr) as c eqn:Hc. remember (q, tr') as c' eqn:Hc'. revert p tr Hc.
  induction Hp as [c|c [q1 tr1] c'' (ev & Hs & Htr) _ IH]; intros p tr ->.
  { injection Hc' as -> ->. by exists 0. }
  cbn in Hs, Htr. subst tr1. destruct (IH Hc' _ _ eq_refl) as [n Hn]. exists (cost p + n).
  intros fuel fs. rewrite <- Nat.add_assoc, <- Hn. by apply (cstep_rest p ev q1 {| w_fs := fs; w_trace := tr |}).
Qed.

Lemma exn_cases e : (∃ status, e = ApiException status) ∨ other_error e.
Proof. destruct e; try (by right); left; by eexists. Qed.

(** A creating call that fails goes on, cleans up or ends the run. *)
Lemma creates_raise p ev e :
  creates p ev →
  (tolerates p = true ∧ created_or_exists (Raise e)) ∨ ∃ q, step p ev (Raise e) q.
Proof.
  intros Hc. destruct (exn_cases e) as [[status ->]|He]; [|right; eexists; by apply step_error].
  destruct (tolerates p) eqn:Ht; [|right; eexists; apply step_api_error; [done|by rewrite Ht]].
  destruct (decide (status = 409%Z)) as [->|Hs]; [by left; split; [|right]|].
  right. eexists. by apply step_api_error.
Qed.

(** Every phase but the last makes a call, whatever the cluster answers. *)
Lemma step_progress p tr :
  (∀ tr ev, k8s_answer tr ev ≠ OutOfFuel) → (∀ r, p ≠ Finished r) →
  ∃ ev q, step p ev (k8s_answer tr ev) q.
Proof.
  intros Hk Hp.
  assert (∀ ev, (∃ v, k8s_answer tr ev = Ret v) ∨ ∃ e, k8s_answer tr ev = Raise e) as Hans.
  { intros ev. pose proof (Hk tr ev). destruct (k8s_answer tr ev); naive_solver. }
  destruct p as [| |owner|owner|owner| | | |r]; [..|by destruct (Hp r)].
  - exists LoadInclusterConfig. destruct (Hans LoadInclusterConfig) as [[v ->]|[e ->]]; eauto using step.
  - exists get_job. destruct (Hans get_job) as [[tj ->]|[e ->]].
    + pose proof (owner_reference_reads tj). destruct (owner_reference tj) eqn:E; [..|done]; eauto using step.
    + destruct (exn_cases e) as [[status ->]|He]; eauto using step.
  - exists (create_sa self ns owner). destruct (Hans (create_sa self ns owner)) as [[v ->]|[e ->]].
    + eexists. apply step_account. left. by eexists.
    + destruct (creates_raise _ _ e (creates_account owner)) as [[_ Hok]|Hq]; eauto using step.
  - exists (create_lws self ns z owner). destruct (Hans (create_lws self ns z owner)) as [[v ->]|[e ->]]; [eauto using step|].
    by destruct (creates_raise _ _ e (creates_lws owner)) as [[]|Hq].
  - exists (create_svc self ns owner). destruct (Hans (create_svc self ns owner)) as [[v ->]|[e ->]].
    + eexists. apply step_service. left. by eexists.
    + destruct (creates_raise _ _ e (creates_service owner)) as [[_ Hok]|Hq]; eauto using step.
  - exists (get_lws self ns). destruct (Hans (get_lws self ns)) as [[v ->]|[e ->]].
    + pose proof (lws_ready_reads v). destruct (lws_ready v) as [[]| |] eqn:E; [..|done]; eauto using step.
    + by destruct (creates_raise _ _ e creates_poll) as [[]|Hq].
  - eauto using step.
  - exists (delete_sa self ns), (Finished (Ret tt)). by apply step_cleaned.
Qed.

(** A bound on the calls that are left: two per unit of fuel, and a constant
    that goes down from phase to phase. *)
Definition calls_left (fuel : nat) (p : phase) : nat :=
  2 * fuel + match p with
             | Starting => 6 | Connected => 5 | Owned _ => 4 | HasAccount _ => 3
             | HasCluster _ | Waiting => 2 | Polling | CleaningUp => 1
             | Finished _ => 0
             end.

Lemma step_left p ev r q fuel : step p ev r q → (calls_left fuel q < calls_left (cost p + fuel) p)%nat.
Proof. intros Hs. destruct Hs as [| | | | | | | | | | | | |? ? ? []|? ? ? []|]; unfold calls_left; cbn; lia. Qed.

(** A phase in which the code makes a call. *)
Lemma rest_step p fuel w :
  (∀ tr ev, k8s_answer tr ev ≠ OutOfFuel) → (∀ r, p ≠ Finished r) → (cost p ≤ fuel)%nat →
  ∃ ev q fuel', step p ev (k8s_answer (w_trace w) ev) q ∧ fuel = cost p + fuel' ∧
    rest fuel p w = rest fuel' q (log w [ev]).
Proof.
  intros Hk Hp Hf. destruct (step_progress p (w_trace w) Hk Hp) as (ev & q & Hs).
  exists ev, q, (fuel - cost p). split_and!; [done|lia|].
  replace fuel with (cost p + (fuel - cost p)) at 1 by lia. by apply cstep_rest.
Qed.

Lemma phase_cases fuel p :
  (∃ r, p = Finished r) ∨ (p = Polling ∧ fuel = 0%nat) ∨ ((∀ r, p ≠ Finished r) ∧ (cost p ≤ fuel)%nat).
Proof.
  destruct p; try (right; right; cbn; split; [done|lia]); [|left; by eexists].
  destruct fuel; [by right; left|]. right. right. cbn. split; [done|lia].
Qed.

(** A run of the code is a path of the protocol: up to the end, or up to a poll
    when the fuel runs out. *)
Lemma rest_csteps fuel p w :
  (∀ tr ev, k8s_answer tr ev ≠ OutOfFuel) →
  ∃ q, rtc cstep (p, w_trace w) (q, w_trace (rest fuel p w).2) ∧
    w_fs (rest fuel p w).2 = w_fs w ∧
    (q = Finished (rest fuel p w).1 ∨ q = Polling ∧ (rest fuel p w).1 = OutOfFuel).
Proof.
  intros Hk. remember (calls_left fuel p) as n eqn:Hn. revert fuel p w Hn.
  induction (lt_wf n) as [n _ IH]. intros fuel p w ->.
  destruct (phase_cases fuel p) as [[r ->]|[[-> ->]|[Hp Hf]]].
  - exists (Finished r). split_and!; [done..|by left].
  - exists Polling. split_and!; [done..|by right].
  - destruct (rest_step p fuel w Hk Hp Hf) as (ev & q & fuel' & Hs & -> & ->).
    destruct (IH _ (step_left _ _ _ _ fuel' Hs) fuel' q (log w [ev]) eq_refl) as (q' & Hq & Hfs & Hr).
    exists q'. split_and!; [|done..]. eapply rtc_l; [|done]. by exists ev.
Qed.

(** Rule induction on the paths from the start. *)
Lemma csteps_invariant (I : phase → list event → Prop) tr0 :
  I Starting tr0 →
  (∀ p tr ev q, I p tr → step p ev (k8s_answer tr ev) q → I q (tr ++ [ev])) →
  ∀ p tr, rtc cstep (Starting, tr0) (p, tr) → I p tr.
Proof.
  intros H0 HI p tr Hp. change (I (p, tr).1 (p, tr).2). revert Hp.
  apply (rtc_ind_r (fun c => I c.1 c.2)); [done|].
  intros [p1 tr1] [q tr2] _ (ev & Hs & Htr) Hi. cbn in *. subst tr2. by eapply HI.
Qed.
End Protocol.

(** ** Runs *)

(** The time slept, in seconds, and the number of polls. *)
Definition seconds (tr : list event) : nat :=
  sum_list (map (fun ev => match ev with Sleep n => n | _ => 0%nat end) tr).
Definition is_lws_get (ev : event) : bool :=
  match ev with
  | GetCustomObject res _ _ => String.eqb (r_plural res) "leaderworkersets"
  | _ => false
  end.
Definition polls (tr : list event) : nat :=
  sum_list (map (fun ev => if is_lws_get ev then 1%nat else 0%nat) tr).

Lemma seconds_app evs evs' : seconds (evs ++ evs') = seconds evs + seconds evs'.
Proof. unfold seconds. rewrite map_app. apply sum_list_with_app. Qed.
Lemma polls_app evs evs' : polls (evs ++ evs') = polls evs + polls evs'.
Proof. unfold polls. rewrite map_app. apply sum_list_with_app. Qed.

Section Runs.
Context `{Kubernetes}.
Variable self : CacheInitializer.
Variable ns : string.
Variable z : Sizes.
Variable w : World.
(** The API server answers every call. *)
Hypothesis Hanswers : ∀ tr ev, k8s_answer tr ev ≠ OutOfFuel.
Hypothesis Hsizes : read_sizes (config self) = Ret z.
Hypothesis Hns : get_namespace w = (Ret ns, w).

(** Reachable from the start, in the history of [w]. *)
Definition reachable : phase * list event → Prop := rtc (cstep self ns z) (Starting, w_trace w).

Lemma download_path fuel r w' :
  download_dataset fuel self w = (r, w') →
  w_fs w' = w_fs w ∧ (reachable (Finished r, w_trace w') ∨ r = OutOfFuel ∧ reachable (Polling, w_trace w')).
Proof using Hanswers Hsizes Hns.
  rewrite (download_dataset_rest self ns z fuel w) by done. intros Hr.
  destruct (rest_csteps self ns z fuel Starting w Hanswers) as (q & Hq & Hfs & Hor).
  rewrite Hr in *. split; [done|]. cbn in Hor. destruct Hor as [->|[-> ->]]; auto.
Qed.

(** C6. The cache initializer implements the bootstrap protocol. Every run of
    [download_dataset] is a path of the protocol, to its end with the same outcome
    or, when the fuel is used up, to a poll; it leaves the file system alone.
    Conversely, whatever end the protocol reaches, the code reaches it, with the
    same calls, for every fuel from some amount on. *)
Theorem cache_refines_protocol :
  (∀ fuel r w', download_dataset fuel self w = (r, w') →
     w_fs w' = w_fs w ∧
     (reachable (Finished r, w_trace w') ∨ r = OutOfFuel ∧ reachable (Polling, w_trace w'))) ∧
  (∀ r tr', reachable (Finished r, tr') →
     ∃ n, ∀ fuel, (n ≤ fuel)%nat →
       download_dataset fuel self w = (r, {| w_fs := w_fs w; w_trace := tr' |})).
Proof using Hanswers Hsizes Hns.
  split; [apply download_path|]. intros r tr' (n & Hn)%csteps_rest. exists n. intros fuel Hf.
  rewrite (download_dataset_rest self ns z fuel w) by done.
  replace fuel with (n + (fuel - n)) by lia. destruct w as [fs tr]. cbn [w_fs w_trace]. by rewrite Hn.
Qed.

(** What a phase says about the calls made so far. *)
Definition api_error_last (tr : list event) : Prop :=
  ∃ tr1 ev status, tr = tr1 ++ [ev] ∧ k8s_answer tr1 ev = Raise (ApiException status).
Definition history (p : phase) (tr : list event) : Prop :=
  let get_job := GetCustomObject trainjobs ns (CacheDatasetInitializer.train_job_name (config self)) in
  match p with
  | Starting => tr = w_trace w
  | Connected => tr = w_trace w ++ [LoadInclusterConfig]
  | CleaningUp => api_error_last tr
  | Finished (Ret _) =>
      (tr = w_trace w ++ [LoadInclusterConfig; get_job] ∧ api_error_last tr) ∨
      (∃ tr1, tr = tr1 ++ [delete_sa self ns] ∧ api_error_last tr1) ∨
      (∃ tr1, tr = tr1 ++ [get_lws self ns] ∧ is_ready (k8s_answer tr1 (get_lws self ns)))
  | _ => True
  end.

Lemma history_invariant p tr : reachable (p, tr) → history p tr.
Proof using.
  apply csteps_invariant; [done|]. intros p1 tr1 ev q Hi Hs.
  remember (k8s_answer tr1 ev) as r eqn:Hr. symmetry in Hr.
  destruct Hs as [v|e|tj owner Ho|tj e Ho|status|e He|owner r Hok|owner v|owner r Hok|v Hv|v Hv|v e Hv
                 |r|p2 ev status Hc Ht|p2 ev e Hc He|r Hd]; cbn in *; try done.
  - by subst tr1.
  - left. subst tr1. rewrite <- app_assoc. split; [done|]. rewrite app_assoc.
    by eexists _, _, _.
  - right. right. exists tr1. split; [done|]. exists v. by rewrite Hr.
  - by eexists _, _, _.
  - right. left. by exists tr1.
Qed.

(** C7. What a normal return means: either the API server refused to show the
    TrainJob, and nothing else was asked of it; or some later call was answered
    with an API error and the last call deleted the ServiceAccount; or the last
    call showed the LeaderWorkerSet available. In no other case does the run
    return without an exception, and only in the last is there a cache. *)
Theorem cache_normal_return fuel w' :
  download_dataset fuel self w = (Ret tt, w') →
  let tr := w_trace w' in
  let get_job := GetCustomObject trainjobs ns (CacheDatasetInitializer.train_job_name (config self)) in
  (tr = w_trace w ++ [LoadInclusterConfig; get_job] ∧ api_error_last tr) ∨
  (∃ tr1, tr = tr1 ++ [delete_sa self ns] ∧ api_error_last tr1) ∨
  (∃ tr1, tr = tr1 ++ [get_lws self ns] ∧ is_ready (k8s_answer tr1 (get_lws self ns))).
Proof using Hanswers Hsizes Hns.
  intros [_ [Hp|[[=] _]]]%download_path. exact (history_invariant _ _ Hp).
Qed.

(** The numbers of calls and seconds that a phase allows. *)
Definition counts (p : phase) (evs : list event) : Prop :=
  match p with
  | Starting => length evs = 0%nat ∧ polls evs = 0%nat ∧ seconds evs = 0%nat
  | Connected => length evs = 1%nat ∧ polls evs = 0%nat ∧ seconds evs = 0%nat
  | Owned _ => length evs = 2%nat ∧ polls evs = 0%nat ∧ seconds evs = 0%nat
  | HasAccount _ => length evs = 3%nat ∧ polls evs = 0%nat ∧ seconds evs = 0%nat
  | HasCluster _ => length evs = 4%nat ∧ polls evs = 0%nat ∧ seconds evs = 0%nat
  | Polling => length evs = 5 + 2 * polls evs ∧ seconds evs = 5 * polls evs
  | Waiting => length evs + 1 = 5 + 2 * polls evs ∧ seconds evs + 5 = 5 * polls evs
  | CleaningUp => length evs ≤ 5 + 2 * polls evs ∧ seconds evs ≤ 5 * polls evs ≤ seconds evs + 5
  | Finished _ => length evs ≤ 6 + 2 * polls evs ∧ seconds evs ≤ 5 * polls evs ≤ seconds evs + 5
  end%nat.

Lemma counts_invariant p tr : reachable (p, tr) → ∃ evs, tr = w_trace w ++ evs ∧ counts p evs.
Proof using.
  apply (csteps_invariant self ns z (fun p tr => ∃ evs, tr = w_trace w ++ evs ∧ counts p evs));
    [exists []; by rewrite app_nil_r|].
  intros p1 tr1 ev q (evs & -> & Hi) Hs. exists (evs ++ [ev]). split; [by rewrite app_assoc|].
  destruct Hs as [| | | | | | | | | | | | |? ? ? []|? ? ? []|]; unfold counts in *;
    rewrite length_app, polls_app, seconds_app; cbn; lia.
Qed.

(** A poll takes a unit of fuel. *)
Lemma rest_polls fuel p w1 :
  (polls (w_trace (rest self ns z fuel p w1).2) ≤ polls (w_trace w1) + fuel)%nat.
Proof using Hanswers.
  remember (calls_left fuel p) as n eqn:Hn. revert fuel p w1 Hn.
  induction (lt_wf n) as [n _ IH]. intros fuel p w1 ->.
  destruct (phase_cases fuel p) as [[r ->]|[[-> ->]|[Hp Hf]]]; [cbn; lia..|].
  destruct (rest_step self ns z p fuel w1 Hanswers Hp Hf) as (ev & q & fuel' & Hs & -> & ->).
  pose proof (IH _ (step_left _ _ _ _ _ _ _ fuel' Hs) fuel' q (log w1 [ev]) eq_refl) as Hq.
  cbn [w_trace log] in Hq. rewrite polls_app in Hq.
  assert (polls [ev] ≤ cost p)%nat; [|lia].
  destruct Hs as [| | | | | | | | | | | | |? ? ? []|? ? ? []|]; cbn; lia.
Qed.

(** C27. Bounds on a run, however it ends: with [k] polls of the
    LeaderWorkerSet, at most the fuel, it makes at most 6 calls besides the polls
    and the sleeps between them, and sleeps for 5(k-1) to 5k seconds. *)
Theorem cache_run_bounds fuel r w' :
  download_dataset fuel self w = (r, w') →
  ∃ evs, w_trace w' = w_trace w ++ evs ∧ (polls evs ≤ fuel)%nat ∧
    (length evs ≤ 6 + 2 * polls evs)%nat ∧
    (seconds evs ≤ 5 * polls evs ≤ seconds evs + 5)%nat.
Proof using Hanswers Hsizes Hns.
  intros Hd. pose proof (rest_polls fuel Starting w) as Hf.
  rewrite <- (download_dataset_rest self ns z fuel w), Hd in Hf by done. cbn [snd] in Hf.
  apply download_path in Hd as [_ Hp].
  assert (∃ evs, w_trace w' = w_trace w ++ evs ∧ (length evs ≤ 6 + 2 * polls evs)%nat ∧
    (seconds evs ≤ 5 * polls evs ≤ seconds evs + 5)%nat) as (evs & He & Hl & Hsec).
  { destruct Hp as [Hp|[_ Hp]]; apply counts_invariant in Hp as (evs & He & Hc);
      exists evs; cbn in Hc; (split; [done|lia]). }
  exists evs. split_and!; try done; [|lia..]. rewrite He, polls_app in Hf. lia.
Qed.

(** Once [N] seconds have been slept the LeaderWorkerSet is no longer reported
    as not ready: it is available, or polling it fails. *)
Definition settles (N : nat) : Prop :=
  ∀ tr, (N ≤ seconds tr)%nat → ¬ not_ready (k8s_answer tr (get_lws self ns)).

(** Enough fuel for the polls that phase [p] may still need. *)
Definition enough (N fuel : nat) (p : phase) (tr : list event) : Prop :=
  match p with
  | Finished r => r ≠ OutOfFuel
  | CleaningUp => True
  | Waiting => 1 ≤ fuel ∧ N ≤ seconds tr + 5 * fuel
  | _ => 1 ≤ fuel ∧ N + 5 ≤ seconds tr + 5 * fuel
  end%nat.

Lemma step_enough N fuel p tr ev q :
  settles N → enough N (cost p + fuel) p tr → step self ns z p ev (k8s_answer tr ev) q →
  enough N fuel q (tr ++ [ev]).
Proof using.
  intros HN He Hs. remember (k8s_answer tr ev) as r eqn:Hr.
  destruct Hs as [| | | | | | | | | |v Hv| | |? ? ? []|? ? ? []|];
    cbn in *; rewrite ?seconds_app; cbn; try done; try lia.
  destruct (decide (N ≤ seconds tr)%nat) as [Hle|]; [|lia].
  destruct (HN _ Hle). exists v. by rewrite <- Hr.
Qed.

Lemma rest_terminates N fuel p w1 :
  settles N → enough N fuel p (w_trace w1) → (rest self ns z fuel p w1).1 ≠ OutOfFuel.
Proof using Hanswers.
  intros HN. remember (calls_left fuel p) as n eqn:Hn. revert fuel p w1 Hn.
  induction (lt_wf n) as [n _ IH]. intros fuel p w1 -> He.
  destruct (phase_cases fuel p) as [[r ->]|[[-> ->]|[Hp Hf]]]; [done|cbn in He; lia|].
  destruct (rest_step self ns z p fuel w1 Hanswers Hp Hf) as (ev & q & fuel' & Hs & -> & ->).
  apply (IH _ (step_left _ _ _ _ _ _ _ fuel' Hs) fuel' q (log w1 [ev]) eq_refl).
  by eapply step_enough.
Qed.

(** C20. The run ends once the cluster settles: if after [N] seconds of waiting
    the LeaderWorkerSet is available or its polling fails, then [N/5 + 1] rounds
    are enough for the run to end, whatever the other calls are answered. *)
Theorem cache_terminates N fuel :
  settles N → (N + 5 ≤ 5 * fuel)%nat →
  ∃ r w', download_dataset fuel self w = (r, w') ∧ r ≠ OutOfFuel.
Proof using Hanswers Hsizes Hns.
  intros HN Hf. pose proof (rest_terminates N fuel Starting w HN) as Ht.
  rewrite <- (download_dataset_rest self ns z fuel w) in Ht by done.
  destruct (download_dataset fuel self w) as [r w']. exists r, w'. split; [done|].
  apply Ht. cbn. lia.
Qed.
End Runs.

(** ** The entry point *)

Lemma cache_load_config_ok e schema table :
  schema ≠ "" → table ≠ "" → str_forall plain_netloc_ch schema = true → plain_segment table = true →
  e !! "STORAGE_URI" = Some (storage_uri_of "cache" schema ("/" +:+ table)) →
  (∀ name, name ∈ cache_required → env_field e name ≠ None) →
  ∃ self, Cache.load_config e = Ret self ∧ schema_name self = schema ∧ table_name self = table.
Proof.
  intros Hs Ht Hps Hpt He Hreq. unfold Cache.load_config. rewrite cache_new_eq. cbv zeta.
  assert (∀ name, name ∈ cache_required → ∃ v, env_field e name = Some v) as Hsome.
  { intros name Hin. destruct (env_field e name) eqn:E; [by eexists|]. by destruct (Hreq name Hin). }
  assert (env_field e "storage_uri" = Some (storage_uri_of "cache" schema ("/" +:+ table))) as Hu.
  { unfold env_field. change (upper "storage_uri") with "STORAGE_URI". by rewrite He. }
  destruct (Hsome "train_job_name") as [? ->]; [unfold cache_required; set_solver|].
  destruct (Hsome "cache_image") as [? ->]; [unfold cache_required; set_solver|].
  destruct (Hsome "iam_role") as [? ->]; [unfold cache_required; set_solver|].
  destruct (Hsome "metadata_loc") as [? ->]; [unfold cache_required; set_solver|].
  rewrite Hu. cbn [mbind outcome_bind CacheDatasetInitializer.storage_uri].
  rewrite parse_cache_uri_plain by done. by eexists.
Qed.

(** C21. The dataset entry point with STORAGE_URI cache://SCHEMA/TABLE and the
    required variables set loads the configuration of that schema and table and
    runs the bootstrap protocol: a cluster size or probe setting that is no
    integer ends the run before any call, otherwise every run is a path of the
    protocol, and the file system is left alone. *)
Theorem cache_dataset_main `{HuggingFaceHub, OpenDAL, Kubernetes} e schema table w :
  schema ≠ "" → table ≠ "" → str_forall plain_netloc_ch schema = true → plain_segment table = true →
  e !! "STORAGE_URI" = Some (storage_uri_of "cache" schema ("/" +:+ table)) →
  (∀ name, name ∈ cache_required → env_field e name ≠ None) →
  (∀ tr ev, k8s_answer tr ev ≠ OutOfFuel) →
  ∃ self, Cache.load_config e = Ret self ∧ schema_name self = schema ∧ table_name self = table ∧
    (∀ fuel err, read_sizes (config self) = Raise err → dataset_main fuel e w = (Raise err, w)) ∧
    (∀ fuel ns z r w', read_sizes (config self) = Ret z → get_namespace w = (Ret ns, w) →
       dataset_main fuel e w = (r, w') →
       w_fs w' = w_fs w ∧
       (reachable self ns z w (Finished r, w_trace w') ∨
        r = OutOfFuel ∧ reachable self ns z w (Polling, w_trace w'))).
Proof.
  intros Hs Ht Hps Hpt He Hreq Hans.
  destruct (cache_load_config_ok e schema table) as (self & Hload & Hsch & Htab); [done..|].
  assert (∀ fuel, dataset_main fuel e w = Cache.download_dataset fuel self w) as Hmain.
  { intros fuel. assert (str_forall plain_path_ch ("/" +:+ table) = true) as Hpath.
    { by rewrite str_forall_app, (plain_segment_path _ Hpt). }
    rewrite (dataset_main_run fuel e _ _ (cache_provider fuel) w He ltac:(done)
      (urlparse_storage_uri "cache" _ _ eq_refl Hps Hpath eq_refl) eq_refl).
    unfold run_dataset, mbind, M_bind, lift. cbn [load_dataset_config cache_provider]. by rewrite Hload. }
  exists self. split_and!; [done..| |].
  - intros fuel err Herr. rewrite Hmain. by apply cache_bad_sizes.
  - intros fuel ns z r w' Hz Hns. rewrite Hmain. by apply download_path.
Qed.

(** ** A concrete cluster *)

(** Every call succeeds; the LeaderWorkerSet is available after ten seconds. *)
Definition demo_k8s : Kubernetes := {|
  k8s_answer tr ev :=
    match ev with
    | GetCustomObject res _ _ =>
        if String.eqb (r_plural res) "trainjobs" then Ret demo_job
        else Ret (demo_lws (if (10 <=? seconds tr)%nat then "True" else "False"))
    | _ => Ret VNone
    end |}.

Lemma demo_answers tr ev : @k8s_answer demo_k8s tr ev ≠ OutOfFuel.
Proof. destruct ev; cbn; try done. by destruct (String.eqb _ _). Qed.

Lemma cache_refines_protocol_witness :
  ∃ w', @reachable demo_k8s cache_self "default" demo_sizes empty_world (Finished (Ret tt), w_trace w').
Proof.
  destruct (@cache_refines_protocol demo_k8s cache_self "default" demo_sizes empty_world demo_answers
    demo_read_sizes demo_namespace) as [Hrun _].
  destruct (@download_dataset demo_k8s 5 cache_self empty_world) as [r w'] eqn:E.
  destruct (Hrun 5 _ _ E) as [_ [Hp|[-> _]]].
  - exists w'. assert (r = Ret tt) as <-; [|done].
    change r with (r, w').1. rewrite <- E. vm_compute. reflexivity.
  - exfalso. apply (f_equal fst) in E. vm_compute in E. discriminate.
Defined.

Lemma cache_normal_return_witness :
  ∃ tr1, w_trace (@download_dataset demo_k8s 5 cache_self empty_world).2 =
           tr1 ++ [get_lws cache_self "default"] ∧
         is_ready (@k8s_answer demo_k8s tr1 (get_lws cache_self "default")).
Proof.
  destruct (@cache_normal_return demo_k8s cache_self "default" demo_sizes empty_world demo_answers
    demo_read_sizes demo_namespace 5 (@download_dataset demo_k8s 5 cache_self empty_world).2)
    as [[Ht _]|[(tr1 & Ht & _)|Hr]]; [vm_compute; reflexivity|exfalso..|exact Hr].
  - vm_compute in Ht. discriminate.
  - apply (f_equal last) in Ht. rewrite last_snoc in Ht. vm_compute in Ht. discriminate.
Defined.

Lemma cache_run_bounds_witness :
  ∃ evs, w_trace (@download_dataset demo_k8s 5 cache_self empty_world).2 = evs ∧
    (length evs ≤ 6 + 2 * polls evs)%nat.
Proof.
  destruct (@cache_run_bounds demo_k8s cache_self "default" demo_sizes empty_world demo_answers
    demo_read_sizes demo_namespace 5 _ _ (surjective_pairing _)) as (evs & He & _ & Hl & _).
  by exists evs.
Defined.

Lemma demo_settles : @settles demo_k8s cache_self "default" 10.
Proof.
  intros tr Ht (v & Hv & Hn). cbn [demo_k8s k8s_answer get_lws] in Hv.
  rewrite (proj2 (Nat.leb_le _ _) Ht) in Hv. cbn in Hv. injection Hv as <-. by vm_compute in Hn.
Qed.

Lemma cache_terminates_witness :
  ∃ r w', @download_dataset demo_k8s 3 cache_self empty_world = (r, w') ∧ r ≠ OutOfFuel.
Proof.
  apply (@cache_terminates demo_k8s cache_self "default" demo_sizes empty_world demo_answers
    demo_read_sizes demo_namespace 10 3 demo_settles). lia.
Defined.

Lemma cache_dataset_main_witness :
  ∃ self, Cache.load_config cache_env = Ret self ∧ schema_name self = "minimal_schema" ∧
    w_fs (@dataset_main null_hub (bucket_dal []) demo_k8s 5 cache_env empty_world).2 =
    w_fs empty_world.
Proof.
  destruct (@cache_dataset_main null_hub (bucket_dal []) demo_k8s cache_env "minimal_schema"
    "minimal_table" empty_world) as (self & Hl & Hs & _ & _ & Hrun).
  - done.
  - done.
  - reflexivity.
  - reflexivity.
  - vm_compute. reflexivity.
  - apply Forall_forall. unfold cache_required. repeat constructor; vm_compute; discriminate.
  - exact demo_answers.
  - assert (Cache.load_config cache_env = Ret cache_self) as E by (vm_compute; reflexivity).
    rewrite E in Hl. injection Hl as <-. exists cache_self. split; [exact E|]. split; [exact Hs|].
    apply (Hrun 5 "default" demo_sizes _ _ demo_read_sizes demo_namespace (surjective_pairing _)).
Defined.
