(* ===== verification/CacheRuns.v ===== *)
(** * Runs of the cache initializer: API errors and created objects

    Two facts about every run, from the paths of the bootstrap protocol: what
    becomes of each API error, and that the objects of a run fit together. *)

From S2P Require Import Prelude PyStr PyValue FileSystem World Config Cache ConfigSpec OpenDalSpec MainSpec CacheSpec CacheProtocol.
From stdpp Require Import relations.
Local Open Scope string_scope.
Local Open Scope bool_scope.
Local Open Scope list_scope.

Section Paths.
Context `{Kubernetes}.
Variable self : CacheInitializer.
Variable ns : string.
Variable z : Sizes.

Let step := step self ns z.



End Paths.

Section Runs.
Context `{Kubernetes}.
Variable self : CacheInitializer.
Variable ns : string.
Variable z : Sizes.
Variable w : World.
(** The API server answers every call. *)
Hypothesis Hanswers : ∀ tr ev, k8s_answer tr ev ≠ OutOfFuel.
Hypothesis Hsizes : read_sizes (config self) = Ret z.
Hypothesis Hns : get_namespace w = (Ret ns, w).

Let get_job := GetCustomObject trainjobs ns (CacheDatasetInitializer.train_job_name (config self)).

(** ** API errors *)





(** ** The created objects *)

(** The calls of a run for a TrainJob with the owner reference [owner]. *)
Definition calls_for (owner : value) : list event :=
  [LoadInclusterConfig; get_job; create_sa self ns owner; create_lws self ns z owner;
   create_svc self ns owner; get_lws self ns; Sleep 5; delete_sa self ns].

(** Until the TrainJob is known nothing is created; afterwards the ServiceAccount
    comes first. *)
Definition made (p : phase) (evs : list event) : Prop :=
  ∃ owner, evs ⊆ calls_for owner ∧
  match p with
  | Starting | Connected => evs ⊆ [LoadInclusterConfig; get_job]
  | Owned o => o = owner ∧ evs ⊆ [LoadInclusterConfig; get_job]
  | HasAccount o | HasCluster o => o = owner ∧ create_sa self ns owner ∈ evs
  | Polling | Waiting | CleaningUp => create_sa self ns owner ∈ evs
  | Finished _ => evs ⊆ [LoadInclusterConfig; get_job] ∨ create_sa self ns owner ∈ evs
  end.

Lemma subseteq_snoc {A} (l l' : list A) x : l ⊆ l' → x ∈ l' → l ++ [x] ⊆ l'.
Proof. intros Hl Hx y [Hy|Hy%list_elem_of_singleton]%elem_of_app; [by apply Hl|by subst y]. Qed.
Lemma elem_of_snoc {A} (l : list A) x y : x ∈ l → x ∈ l ++ [y].
Proof. intros Hx. apply elem_of_app. by left. Qed.
Lemma elem_of_last {A} (l : list A) x : x ∈ l ++ [x].
Proof. apply elem_of_app. right. apply list_elem_of_here. Qed.

Ltac solve_elem := unfold calls_for; solve [repeat first [apply list_elem_of_here | apply list_elem_of_further]].
Ltac solve_made :=
  (split; [apply subseteq_snoc; [by auto|solve_elem]|]); cbn match;
  repeat match goal with |- _ ∧ _ => split; [reflexivity|] end;
  first [ apply elem_of_last | by apply elem_of_snoc | apply subseteq_snoc; [done|solve_elem]
        | left; apply subseteq_snoc; [done|solve_elem] | right; apply elem_of_last
        | right; by apply elem_of_snoc ].

Lemma made_step p ev a q evs : step self ns z p ev a q → made p evs → made q (evs ++ [ev]).
Proof using.
  intros Hs (owner & Hall & Hp).
  assert (∀ o, evs ⊆ [LoadInclusterConfig; get_job] → evs ⊆ calls_for o) as Hearly.
  { intros o Hl x Hx%Hl. apply elem_of_cons in Hx as [->|Hx%list_elem_of_singleton]; [|subst x]; solve_elem. }
  destruct Hs as [v|e|tj owner' Ho|tj e Ho|status'|e He|owner' a Hok|owner' v|owner' a Hok|v Hv|v Hv|v e Hv
                 |a|p2 ev status' [o|o|o|] Ht|p2 ev e [o|o|o|] He|a Hd];
    cbn match in Hp; try destruct Hp as [-> Hp]; [exists owner|exists owner|exists owner'|exists owner..]; solve_made.
Qed.

Lemma made_invariant p tr : reachable self ns z w (p, tr) → ∃ evs, tr = w_trace w ++ evs ∧ made p evs.
Proof using.
  apply (csteps_invariant self ns z (fun p tr => ∃ evs, tr = w_trace w ++ evs ∧ made p evs)).
  - exists []. split; [by rewrite app_nil_r|]. exists VNone. split; intros x Hx; by apply elem_of_nil in Hx.
  - intros p1 tr1 ev q (evs & -> & Hm) Hs. exists (evs ++ [ev]). split; [by rewrite app_assoc|]. by eapply made_step.
Qed.

(** C35. The objects of a run fit together, in every run whatever the API answers.
    The pods of a LeaderWorkerSet that the run creates, leader and workers alike,
    run under a ServiceAccount that it creates in the same namespace; the Service
    it creates selects the leader's pods and not the workers', and leads to ports
    that are open there; the object it waits for is that LeaderWorkerSet; and what
    it deletes is that ServiceAccount. All three have the same owner. *)
Theorem cache_objects_wired fuel r w' :
  download_dataset fuel self w = (r, w') →
  ∃ evs, w_trace w' = w_trace w ++ evs ∧
    (∀ ns' lws, CreateCustomObject leaderworkersets ns' lws ∈ evs →
       (∃ sa, CreateServiceAccount ns' sa ∈ evs ∧ runs_as lws sa) ∧
       (∀ ns'' svc, CreateService ns'' svc ∈ evs → ns'' = ns' ∧ exposes svc lws) ∧
       (∀ ns'' name, GetCustomObject leaderworkersets ns'' name ∈ evs →
          ns'' = ns' ∧ str_at lws ["metadata"; "name"] = Some name)) ∧
    (∀ name ns', DeleteServiceAccount name ns' ∈ evs →
       ∃ sa, CreateServiceAccount ns' sa ∈ evs ∧ str_at sa ["metadata"; "name"] = Some name).
Proof using Hanswers Hsizes Hns.
  intros Hrun. destruct (download_path self ns z w Hanswers Hsizes Hns fuel r w' Hrun) as [_ Hp].
  assert (∃ evs owner, w_trace w' = w_trace w ++ evs ∧ evs ⊆ calls_for owner ∧
    (evs ⊆ [LoadInclusterConfig; get_job] ∨ create_sa self ns owner ∈ evs)) as (evs & owner & -> & Hall & Hsa).
  { destruct Hp as [Hp|[_ Hp]]; apply made_invariant in Hp as (evs & ? & owner & Hall & Hsa);
      exists evs, owner; cbn in Hsa; tauto. }
  exists evs. split; [done|].
  assert (∀ ev, ev ∈ evs → ev ≠ LoadInclusterConfig → ev ≠ get_job → create_sa self ns owner ∈ evs) as Hcreated.
  { intros ev Hev Hl Hj. destruct Hsa as [Hsa|]; [|done]. apply Hsa in Hev.
    apply elem_of_cons in Hev as [?|Hev%list_elem_of_singleton]; done. }
  assert (∀ ev, ev ∈ evs → ev ∈ calls_for owner) as Hin by auto. unfold calls_for in Hin.
  split.
  - intros ns' lws Hlws. pose proof (Hcreated _ Hlws ltac:(done) ltac:(done)) as Hacc.
    assert (CreateCustomObject leaderworkersets ns' lws = create_lws self ns z owner) as [= -> ->].
    { apply Hin in Hlws. rewrite !elem_of_cons in Hlws. destruct_or! Hlws; try done. by apply elem_of_nil in Hlws. }
    split_and!.
    + eexists. split; [exact Hacc|apply lws_runs_as].
    + intros ns'' svc Hsvc. assert (CreateService ns'' svc = create_svc self ns owner) as [= -> ->].
      { apply Hin in Hsvc. rewrite !elem_of_cons in Hsvc. destruct_or! Hsvc; try done. by apply elem_of_nil in Hsvc. }
      split; [done|apply service_exposes].
    + intros ns'' name Hget. assert (GetCustomObject leaderworkersets ns'' name = get_lws self ns) as [= -> ->]; [|done].
      assert (GetCustomObject leaderworkersets ns'' name ≠ get_job) as Hne by (by intros [=]).
      apply Hin in Hget. rewrite !elem_of_cons in Hget. destruct_or! Hget; try done. by apply elem_of_nil in Hget.
  - intros name ns' Hdel. pose proof (Hcreated _ Hdel ltac:(done) ltac:(done)) as Hacc.
    assert (DeleteServiceAccount name ns' = delete_sa self ns) as [= -> ->].
    { apply Hin in Hdel. rewrite !elem_of_cons in Hdel. destruct_or! Hdel; try done. by apply elem_of_nil in Hdel. }
    eexists. split; [exact Hacc|]. done.
Qed.
End Runs.

(** ** Concrete runs *)



Lemma cache_objects_wired_witness :
  ∃ sa, CreateServiceAccount "default" sa ∈
          w_trace (@download_dataset demo_k8s 5 cache_self empty_world).2 ∧
        runs_as (lws_body cache_self "default" demo_owner demo_sizes) sa.
Proof.
  destruct (@cache_objects_wired demo_k8s cache_self "default" demo_sizes empty_world demo_answers
    demo_read_sizes demo_namespace 5 _ _ (surjective_pairing _)) as (evs & E & Hl & _).
  change (w_trace empty_world ++ evs) with evs in E. rewrite E.
  destruct (Hl "default" (lws_body cache_self "default" demo_owner demo_sizes)) as [Hsa _]; [|exact Hsa].
  rewrite <- E. apply (list_elem_of_lookup_2 _ 3). vm_compute. reflexivity.
Defined.
