(* ===== verification/PyNum.v ===== *)
(** * The text of Python numbers

    [repr(int)], [repr(float)] and [float(str)] as [json] uses them. A double is a
    pair of a mantissa [m] and an exponent [e] standing for m * 2^e, with [m] odd,
    (0, 0) for zero, or (0, -1) for negative zero. The exponent 1024, beyond every
    finite double, is kept for the infinities (mantissa 1 and -1) and for NaN
    (mantissa 0). *)

From S2P Require Import Prelude PyStr.
Local Open Scope string_scope.
Local Open Scope Z_scope.
Local Open Scope bool_scope.

(** ** Integers *)

Definition digit_ch (d : Z) : ascii := ascii_of_N (Z.to_N (48 + d)).

(** The decimal digits of [n] in front of [acc]. *)
Fixpoint dec_digits (fuel : nat) (n : Z) (acc : string) : string :=
  match fuel with
  | O => acc
  | S fuel' =>
      let acc' := String (digit_ch (n mod 10)) acc in
      if n <? 10 then acc' else dec_digits fuel' (n / 10) acc'
  end.
Definition dec (n : Z) : string := dec_digits (S (Z.to_nat (Z.log2 n))) n "".

(** [repr(z)], with CPython's limit on the number of digits. *)
Definition int_repr (z : Z) : outcome string :=
  let d := dec (Z.abs z) in
  if (String.length d <=? int_max_str_digits)%nat
  then Ret (if z <? 0 then String "-" d else d)
  else Raise (ValueError "Exceeds the limit for integer string conversion").

(** The value of a string of digits. *)
Fixpoint dec_value (acc : Z) (s : string) : Z :=
  match s with
  | EmptyString => acc
  | String c s' => dec_value (acc * 10 + (Z.of_N (code c) - 48)) s'
  end.

(** ** Floats *)

Definition double : Type := (Z * Z)%type.
Definition infinity : double := (1, 1024).
Definition nan : double := (0, 1024).
Definition is_zero (x : double) : bool := (x.1 =? 0) && negb (x.2 =? 1024).
Definition d_opp (x : double) : double :=
  if is_zero x then (0, - 1 - x.2) else (- x.1, x.2).
Definition d_eqb (x y : double) : bool := (x.1 =? y.1) && (x.2 =? y.2).

(** Moves the factors of two of [m] into the exponent. *)
Fixpoint canon_pos (m : positive) (e : Z) : double :=
  match m with
  | xO m' => canon_pos m' (e + 1)
  | _ => (Zpos m, e)
  end.
Definition canon (m e : Z) : double :=
  match m with
  | Z0 => (0, 0)
  | Zpos p => canon_pos p e
  | Zneg p => d_opp (canon_pos p e)
  end.

(** [num / (den * 2^e)] rounded to the nearest integer, ties to even, with the
    exact quotient's integer part. *)
Definition scale_div (num den e : Z) : Z * Z * Z :=
  let n := if e <? 0 then num * 2 ^ (- e) else num in
  let d := if e <? 0 then den else den * 2 ^ e in
  (n / d, n mod d, d).
Definition round_half_even (qrd : Z * Z * Z) : Z :=
  let '(q, r, d) := qrd in
  match Z.compare (2 * r) d with
  | Lt => q
  | Gt => q + 1
  | Eq => if Z.even q then q else q + 1
  end.

(** The double nearest to [num / den], for [num >= 0] and [den > 0]. *)
Definition round_double (num den : Z) : double :=
  if num =? 0 then (0, 0)
  else
    let e0 := Z.max (Z.log2 num - Z.log2 den - 53) (-1074) in
    let '(q0, _, _) := scale_div num den e0 in
    let e := if 2 ^ 53 <=? q0 then e0 + 1 else e0 in
    let m := round_half_even (scale_div num den e) in
    if 2 ^ 1024 <=? m * 2 ^ (Z.max e 0) then infinity else canon m e.

(** The double nearest to [d * 10^x], for [d >= 0]. *)
Definition decimal_double (d x : Z) : double :=
  if d =? 0 then (0, 0)
  else
    let magnitude := Z.of_nat (String.length (dec d)) + x in
    if 400 <? magnitude then infinity
    else if magnitude <? -400 then (0, 0)
    else if 0 <=? x then round_double (d * 10 ^ x) 1
    else round_double d (10 ^ (- x)).

(** The number [p] of digits before the decimal point of [num / den > 0], that is
    10^(p-1) <= num/den < 10^p, found from below in a few steps. *)
Definition ge_pow10 (num den p : Z) : bool :=
  if 0 <=? p then den * 10 ^ p <=? num else den <=? num * 10 ^ (- p).
Fixpoint point_from (fuel : nat) (num den p : Z) : Z :=
  match fuel with
  | O => p
  | S fuel' => if ge_pow10 num den p then point_from fuel' num den (p + 1) else p
  end.
Definition decimal_point (num den : Z) : Z :=
  point_from 8 num den ((Z.log2 num - Z.log2 den) * 30103 / 100000 - 2).

(** The [n]-digit integer whose value, scaled back by 10^(p-n), reads as [x]: the
    nearer one of the two around it when both do. *)
Definition shortest_at (x : double) (num den p n : Z) : option Z :=
  let k := n - p in
  let a := if 0 <=? k then num * 10 ^ k else num in
  let b := if 0 <=? k then den else den * 10 ^ (- k) in
  let q := a / b in
  let r := a mod b in
  let reads c := d_eqb (decimal_double c (p - n)) x in
  match reads q, reads (q + 1) with
  | true, true => Some (round_half_even (q, r, b))
  | true, false => Some q
  | false, true => Some (q + 1)
  | false, false => None
  end.
Fixpoint shortest_from (fuel : nat) (x : double) (num den p n : Z) : Z * Z :=
  match fuel with
  | O => (0, n)
  | S fuel' =>
      match shortest_at x num den p n with
      | Some c => (c, n)
      | None => shortest_from fuel' x num den p (n + 1)
      end
  end.

Fixpoint zeros (n : nat) : string :=
  match n with O => "" | S n' => String "0" (zeros n') end.

(** The digits [ds] with the decimal point after the first [p]; the exponent form
    below 1e-4 and from 1e16 on. *)
Definition place_point (ds : string) (p : Z) : string :=
  let len := Z.of_nat (String.length ds) in
  if (-4 <? p) && (p <=? 16) then
    if p <=? 0 then "0." +:+ zeros (Z.to_nat (- p)) +:+ ds
    else if len <=? p then ds +:+ zeros (Z.to_nat (p - len)) +:+ ".0"
    else str_take (Z.to_nat p) ds +:+ "." +:+ str_drop (Z.to_nat p) ds
  else
    let x := p - 1 in
    let ex := dec (Z.abs x) in
    str_take 1 ds +:+ (if len <=? 1 then "" else "." +:+ str_drop 1 ds) +:+ "e" +:+
    (if x <? 0 then "-" else "+") +:+ (if (String.length ex <? 2)%nat then "0" +:+ ex else ex).

Definition float_repr_pos (x : double) : string :=
  let num := x.1 * 2 ^ (Z.max x.2 0) in
  let den := 2 ^ (Z.max (- x.2) 0) in
  let p := decimal_point num den in
  let '(c, n) := shortest_from 17 x num den p 1 in
  let ds := dec c in
  place_point (rstrip_ch "0" ds) (p + (Z.of_nat (String.length ds) - n)).

(** [repr(x)], with the names [json] gives to the values that are not finite. *)
Definition float_repr (x : double) : string :=
  if x.2 =? 1024 then
    if x.1 =? 0 then "NaN" else if x.1 <? 0 then "-Infinity" else "Infinity"
  else if x.1 =? 0 then if x.2 =? 0 then "0.0" else "-0.0"
  else if x.1 <? 0 then String "-" (float_repr_pos (d_opp x))
  else float_repr_pos x.
