(* ===== verification/Json.v ===== *)
(** * The json module: [json.dumps] and [json.loads]

    [dumps] with its default arguments (ASCII output, the separators [", "] and
    [": "], NaN allowed) and [loads] as CPython's scanner reads a document:
    whitespace, strings with escapes, numbers, literals, arrays, and objects in
    which a repeated key keeps its place and takes the last value. The errors of
    [loads] are [JSONDecodeError]s, a subclass of [ValueError]. A character given
    by an escape above U+00FF has no place in the strings of this development and
    raises [ExternalError]. *)

From S2P Require Import Prelude PyStr PyValue PyNum.
Local Open Scope string_scope.
Local Open Scope bool_scope.

Definition quote : ascii := "034"%char.
Definition backslash : ascii := "\"%char.

(** ** Encoding *)

Definition hex_digit (n : N) : ascii :=
  ascii_of_N (if (n <? 10)%N then 48 + n else 87 + n)%N.

(** A character inside a string literal. *)
Definition encode_ch (c : ascii) : string :=
  let escaped e := String backslash (String e "") in
  if ch_eqb c quote then escaped quote
  else if ch_eqb c backslash then escaped backslash
  else if ch_eqb c "010"%char then escaped "n"%char
  else if ch_eqb c "013"%char then escaped "r"%char
  else if ch_eqb c "009"%char then escaped "t"%char
  else if ch_eqb c "012"%char then escaped "f"%char
  else if ch_eqb c "008"%char then escaped "b"%char
  else if in_range 32 126 c then String c ""
  else String backslash ("u00" +:+
         String (hex_digit (code c / 16)) (String (hex_digit (code c mod 16)) "")).

Fixpoint encode_chars (s : string) : string :=
  match s with
  | EmptyString => EmptyString
  | String c s' => encode_ch c +:+ encode_chars s'
  end.
Definition encode_str (s : string) : string :=
  String quote (encode_chars s +:+ String quote "").

(** [", ".join(l)]. *)
Fixpoint comma_join (l : list string) : string :=
  match l with
  | [] => ""
  | [s] => s
  | s :: l' => s +:+ ", " +:+ comma_join l'
  end.

Fixpoint dumps (v : value) : outcome string :=
  match v with
  | VNone => Ret "null"
  | VBool true => Ret "true"
  | VBool false => Ret "false"
  | VInt z => int_repr z
  | VFloat m e => Ret (float_repr (m, e))
  | VStr s => Ret (encode_str s)
  | VList l => ts ← mapM dumps l; Ret ("[" +:+ comma_join ts +:+ "]")
  | VDict d =>
      ts ← mapM (fun kv => t ← dumps kv.2; Ret (encode_str kv.1 +:+ ": " +:+ t)) d;
      Ret ("{" +:+ comma_join ts +:+ "}")
  | VDatetime _ _ => Raise (TypeError "Object of type datetime is not JSON serializable")
  | VBytes _ => Raise (TypeError "Object of type bytes is not JSON serializable")
  | VObj c _ => Raise (TypeError ("Object of type " +:+ c +:+ " is not JSON serializable"))
  end.

(** What [dumps] accepts. *)
Fixpoint json_data (v : value) : bool :=
  match v with
  | VDatetime _ _ | VObj _ _ | VBytes _ => false
  | VList l => forallb json_data l
  | VDict d => forallb (fun kv => json_data kv.2) d
  | _ => true
  end.

(** ** Scanning *)

Definition decode_error {A} (what : string) : outcome A := Raise (ValueError what).

Definition is_ws (c : ascii) : bool :=
  ch_eqb c " "%char || ch_eqb c "009"%char || ch_eqb c "010"%char || ch_eqb c "013"%char.
Definition skip_ws : string → string := lstrip_by is_ws.

Definition hex_value (c : ascii) : option N :=
  if in_range 48 57 c then Some (code c - 48)%N
  else if in_range 97 102 c then Some (code c - 87)%N
  else if in_range 65 70 c then Some (code c - 55)%N
  else None.

(** The four hexadecimal digits of a [\u] escape. *)
Definition hex4 (a b c d : ascii) : option N :=
  x ← hex_value a; y ← hex_value b; z ← hex_value c; w ← hex_value d;
  Some (((x * 16 + y) * 16 + z) * 16 + w)%N.

(** The other escapes. *)
Definition unescape (c : ascii) : option ascii :=
  if ch_eqb c quote || ch_eqb c backslash || ch_eqb c slash then Some c
  else if ch_eqb c "b"%char then Some "008"%char
  else if ch_eqb c "f"%char then Some "012"%char
  else if ch_eqb c "n"%char then Some "010"%char
  else if ch_eqb c "r"%char then Some "013"%char
  else if ch_eqb c "t"%char then Some "009"%char
  else None.

Definition cons_ch (c : ascii) (r : outcome (string * string)) : outcome (string * string) :=
  '(t, rest) ← r; Ret (String c t, rest).

(** After the opening quote: the string and what follows the closing quote. *)
Fixpoint scan_string (s : string) : outcome (string * string) :=
  match s with
  | EmptyString => decode_error "Unterminated string"
  | String c s' =>
      if ch_eqb c quote then Ret ("", s')
      else if ch_eqb c backslash then
        match s' with
        | EmptyString => decode_error "Unterminated string"
        | String e s'' =>
            if ch_eqb e "u"%char then
              match s'' with
              | String h1 (String h2 (String h3 (String h4 r))) =>
                  match hex4 h1 h2 h3 h4 with
                  | None => decode_error "Invalid \uXXXX escape"
                  | Some n =>
                      if (n <? 256)%N then cons_ch (ascii_of_N n) (scan_string r)
                      else Raise (ExternalError "character above U+00FF")
                  end
              | _ => decode_error "Invalid \uXXXX escape"
              end
            else match unescape e with
                 | Some c' => cons_ch c' (scan_string s'')
                 | None => decode_error "Invalid \escape"
                 end
        end
      else if (code c <? 32)%N then decode_error "Invalid control character at"
      else cons_ch c (scan_string s')
  end.

Definition span_digits : string → string * string := span_to (fun c => negb (is_digit c)).

(** The parts of a number literal: the digits before the point, those after it,
    the exponent with its sign, and what follows. *)
Record Literal : Type := {
  l_int : string;
  l_frac : string;
  l_exp : option Z;
  l_rest : string;
}.

Definition scan_frac (s : string) : string * string :=
  match s with
  | String c s' =>
      if ch_eqb c "."%char then
        let '(fp, r) := span_digits s' in
        if str_empty fp then ("", s) else (fp, r)
      else ("", s)
  | EmptyString => ("", s)
  end.

Definition scan_sign (s : string) : bool * string :=
  match s with
  | String c s' =>
      if ch_eqb c "-"%char then (true, s')
      else if ch_eqb c "+"%char then (false, s') else (false, s)
  | EmptyString => (false, s)
  end.

Definition scan_exp (s : string) : option Z * string :=
  match s with
  | String c s' =>
      if ch_eqb c "e"%char || ch_eqb c "E"%char then
        let '(neg, s2) := scan_sign s' in
        let '(ep, r) := span_digits s2 in
        if str_empty ep then (None, s)
        else (Some (if neg then - dec_value 0 ep else dec_value 0 ep)%Z, r)
      else (None, s)
  | EmptyString => (None, s)
  end.

(** An unsigned literal: no digit may follow a leading zero. *)
Definition scan_literal (s : string) : option Literal :=
  let '(ip, r) := span_digits s in
  if str_empty ip then None
  else
    let '(ip, r) := if startswith "0" ip then ("0", str_drop 1 s) else (ip, r) in
    let '(fp, r) := scan_frac r in
    let '(ex, r) := scan_exp r in
    Some {| l_int := ip; l_frac := fp; l_exp := ex; l_rest := r |}.

Definition signed_double (neg : bool) (x : double) : value :=
  let y := if neg then d_opp x else x in VFloat y.1 y.2.

(** The value of a literal: a float when it has a fraction or an exponent. *)
Definition literal_value (neg : bool) (l : Literal) : outcome value :=
  match l_frac l, l_exp l with
  | EmptyString, None =>
      match int_unsigned (l_int l) with
      | Some z => Ret (VInt (if neg then - z else z)%Z)
      | None => Raise (ValueError "Exceeds the limit for integer string conversion")
      end
  | fp, ex =>
      Ret (signed_double neg (decimal_double (dec_value 0 (l_int l +:+ fp))
        (default 0%Z ex - Z.of_nat (String.length fp))%Z))
  end.

Definition scan_number (neg : bool) (s : string) : outcome (value * string) :=
  match scan_literal s with
  | None => decode_error "Expecting value"
  | Some l => v ← literal_value neg l; Ret (v, l_rest l)
  end.

(** The scanner; [scan_items] and [scan_members] read the elements of an array
    and the members of an object from the first one on. *)
Fixpoint scan_once (fuel : nat) (s : string) : outcome (value * string) :=
  match fuel with
  | O => OutOfFuel
  | S fuel' =>
      match s with
      | EmptyString => decode_error "Expecting value"
      | String c s' =>
          if ch_eqb c quote then '(t, r) ← scan_string s'; Ret (VStr t, r)
          else if ch_eqb c "{"%char then
            match skip_ws s' with
            | String c2 r => if ch_eqb c2 "}"%char then Ret (VDict [], r)
                             else scan_members fuel' [] (String c2 r)
            | EmptyString => decode_error "Expecting property name enclosed in double quotes"
            end
          else if ch_eqb c "["%char then
            match skip_ws s' with
            | String c2 r => if ch_eqb c2 "]"%char then Ret (VList [], r)
                             else scan_items fuel' [] (String c2 r)
            | EmptyString => decode_error "Expecting value"
            end
          else if startswith "null" s then Ret (VNone, str_drop 4 s)
          else if startswith "true" s then Ret (VBool true, str_drop 4 s)
          else if startswith "false" s then Ret (VBool false, str_drop 5 s)
          else if startswith "NaN" s then Ret (signed_double false nan, str_drop 3 s)
          else if startswith "Infinity" s then Ret (signed_double false infinity, str_drop 8 s)
          else if startswith "-Infinity" s then Ret (signed_double true infinity, str_drop 9 s)
          else if ch_eqb c "-"%char then scan_number true s'
          else scan_number false s
      end
  end
with scan_items (fuel : nat) (acc : list value) (s : string) : outcome (value * string) :=
  match fuel with
  | O => OutOfFuel
  | S fuel' =>
      '(v, r) ← scan_once fuel' s;
      match skip_ws r with
      | String c r' =>
          if ch_eqb c "]"%char then Ret (VList (acc ++ [v]), r')
          else if ch_eqb c ","%char then scan_items fuel' (acc ++ [v]) (skip_ws r')
          else decode_error "Expecting ',' delimiter"
      | EmptyString => decode_error "Expecting ',' delimiter"
      end
  end
with scan_members (fuel : nat) (acc : list (string * value)) (s : string) :
    outcome (value * string) :=
  match fuel with
  | O => OutOfFuel
  | S fuel' =>
      match s with
      | String q s' =>
          if ch_eqb q quote then
            '(k, r) ← scan_string s';
            match skip_ws r with
            | String c r' =>
                if ch_eqb c ":"%char then
                  '(v, r) ← scan_once fuel' (skip_ws r');
                  match skip_ws r with
                  | String c r' =>
                      if ch_eqb c "}"%char then Ret (VDict (dict_set acc k v), r')
                      else if ch_eqb c ","%char
                      then scan_members fuel' (dict_set acc k v) (skip_ws r')
                      else decode_error "Expecting ',' delimiter"
                  | EmptyString => decode_error "Expecting ',' delimiter"
                  end
                else decode_error "Expecting ':' delimiter"
            | EmptyString => decode_error "Expecting ':' delimiter"
            end
          else decode_error "Expecting property name enclosed in double quotes"
      | EmptyString => decode_error "Expecting property name enclosed in double quotes"
      end
  end.

(** The fuel that is enough for a document (see [loads_total]). *)
Definition scan_fuel (s : string) : nat := 2 * String.length s + 1.

Definition loads (s : string) : outcome value :=
  let s := skip_ws s in
  '(v, r) ← scan_once (scan_fuel s) s;
  if str_empty (skip_ws r) then Ret v else decode_error "Extra data".
