(* ===== verification/PPrint.v ===== *)
(** * The pprint module: [pprint.pformat]

    [pformat] with its default arguments (width 80, indentation 1, sorted
    dictionaries), as CPython's [PrettyPrinter] computes it: the [repr] of a value
    when it fits the rest of the line, else a layout of its items, of the lines
    and words of a string, or of the bytes. A printer is a function of the
    indentation, the allowance (what still follows on the last line) and the
    level of nesting. The names in quotes are those of the methods. *)

From S2P Require Import Prelude PyStr PyValue PyNum Json.
Local Open Scope string_scope.
Local Open Scope bool_scope.
Local Open Scope Z_scope.

Definition newline : ascii := "010"%char.
Definition len (s : string) : Z := Z.of_nat (String.length s).
Fixpoint spaces (n : nat) : string :=
  match n with O => "" | S n' => String " " (spaces n') end.
(** ['\n' + ' ' * indent]. *)
Definition break (indent : Z) : string := String newline (spaces (Z.to_nat indent)).

(** ** [repr] *)

Definition squote : ascii := "'"%char.

(** What [repr] of a string writes as it is; the characters from U+0080 to U+00A0
    and U+00AD are not printable. *)
Definition printable (c : ascii) : bool :=
  in_range 32 126 c || in_range 161 172 c || in_range 174 255 c.
Definition printable_byte (c : ascii) : bool := in_range 32 126 c.

Definition repr_ch (ok : ascii → bool) (q c : ascii) : string :=
  let escaped e := String backslash (String e "") in
  if ch_eqb c q || ch_eqb c backslash then escaped c
  else if ch_eqb c "009"%char then escaped "t"%char
  else if ch_eqb c newline then escaped "n"%char
  else if ch_eqb c "013"%char then escaped "r"%char
  else if ok c then String c ""
  else String backslash (String "x" (String (hex_digit (code c / 16))
         (String (hex_digit (code c mod 16)) ""))).
Fixpoint repr_chars (ok : ascii → bool) (q : ascii) (s : string) : string :=
  match s with
  | EmptyString => ""
  | String c s' => repr_ch ok q c +:+ repr_chars ok q s'
  end.
(** Double quotes for a text with single quotes and without double quotes. *)
Definition repr_quote (s : string) : ascii :=
  if str_mem squote s && negb (str_mem quote s) then quote else squote.
Definition quoted (ok : ascii → bool) (s : string) : string :=
  let q := repr_quote s in String q (repr_chars ok q s +:+ String q "").
Definition str_repr (s : string) : string := quoted printable s.
Definition bytes_repr (s : string) : string := String "b" (quoted printable_byte s).

Definition py_float_repr (x : double) : string :=
  if x.2 =? 1024 then if x.1 =? 0 then "nan" else if x.1 <? 0 then "-inf" else "inf"
  else float_repr x.

(** The date of a number of days after 1970-01-01, in the Gregorian calendar with
    years that begin in March. *)
Definition civil (days : Z) : Z * Z * Z :=
  let z := days + 719468 in
  let era := z / 146097 in
  let doe := z mod 146097 in
  let yoe := (doe - doe / 1460 + doe / 36524 - doe / 146096) / 365 in
  let doy := doe - (365 * yoe + yoe / 4 - yoe / 100) in
  let mp := (5 * doy + 2) / 153 in
  let d := doy - (153 * mp + 2) / 5 + 1 in
  let m := if mp <? 10 then mp + 3 else mp - 9 in
  (yoe + era * 400 + (if m <=? 2 then 1 else 0), m, d).

(** [repr] of a datetime whose own fields are [micros] after 1970-01-01; seconds
    and microseconds are left out from the right when they are zero. *)
Definition datetime_repr (micros : Z) (tz : option string) : string :=
  let secs := micros / 1000000 in
  let '(y, m, d) := civil (secs / 86400) in
  let s := secs mod 60 in
  let us := micros mod 1000000 in
  "datetime.datetime(" +:+
  comma_join ([dec y; dec m; dec d; dec (secs mod 86400 / 3600); dec (secs mod 3600 / 60)] ++
    (if (s =? 0) && (us =? 0) then [] else if us =? 0 then [dec s] else [dec s; dec us]) ++
    match tz with Some t => ["tzinfo=" +:+ t] | None => [] end)%list +:+ ")".

(** ** Strings *)

(** [s.splitlines(True)]. *)
Definition is_linebreak (c : ascii) : bool := in_range 10 13 c || in_range 28 30 c || ch_eqb c "133"%char.
Fixpoint splitlines (s : string) : list string :=
  match s with
  | EmptyString => []
  | String c s' =>
      match splitlines s' with
      | [] => [String c ""]
      | l :: ls =>
          if is_linebreak c && negb (ch_eqb c "013"%char && startswith (String newline "") l)
          then String c "" :: l :: ls
          else String c l :: ls
      end
  end.

(** [re.findall(r'\S*\s*', line)] without the empty match at the end: a part ends
    where a space is followed by something else. *)
Definition is_re_space (c : ascii) : bool :=
  in_range 9 13 c || in_range 28 32 c || ch_eqb c "133"%char || ch_eqb c "160"%char.
Fixpoint parts (line : string) : list string :=
  match line with
  | EmptyString => []
  | String c line' =>
      match parts line' with
      | String c' p :: ps =>
          if is_re_space c && negb (is_re_space c') then String c "" :: String c' p :: ps
          else String c (String c' p) :: ps
      | ps => String c "" :: ps
      end
  end.

Definition page_width : Z := 80.

(** The [repr]s of as many parts as fit a line, one after the other; the last
    line of the string leaves room for the allowance. *)
Definition flush (current : string) : list string :=
  if str_empty current then [] else [str_repr current].
Fixpoint fill_lines (current : string) (ps : list string) (max_width allowance : Z) : list string :=
  match ps with
  | [] => flush current
  | part :: ps' =>
      let candidate := current +:+ part in
      let max_width2 := match ps' with [] => max_width - allowance | _ => max_width end in
      if max_width2 <? len (str_repr candidate)
      then (flush current ++ fill_lines part ps' max_width allowance)%list
      else fill_lines candidate ps' max_width allowance
  end.
Fixpoint str_chunks (lines : list string) (max_width allowance : Z) : list string :=
  match lines with
  | [] => []
  | line :: lines' =>
      let allowance1 := match lines' with [] => allowance | _ => 0 end in
      ((if len (str_repr line) <=? max_width - allowance1 then [str_repr line]
        else fill_lines "" (parts line) max_width allowance1) ++
       str_chunks lines' max_width allowance)%list
  end.

Fixpoint join_lines (indent : Z) (l : list string) : string :=
  match l with
  | [] => ""
  | [s] => s
  | s :: l' => s +:+ break indent +:+ join_lines indent l'
  end.
Definition parens (level : nat) (s : string) : string :=
  if (level =? 1)%nat then "(" +:+ s +:+ ")" else s.

(** ["_pprint_str"]. *)
Definition pprint_str (s : string) (indent allowance : Z) (level : nat) : string :=
  if str_empty s then str_repr s
  else
    let extra := if (level =? 1)%nat then 1 else 0 in
    let lines := splitlines s in
    let chunks := str_chunks lines (page_width - (indent + extra)) (allowance + extra) in
    match chunks with
    | [_] => str_repr (default "" (last lines))
    | _ => parens level (join_lines (indent + extra) chunks)
    end.

(** ** Bytes *)

Fixpoint chunks4 (s : string) : list string :=
  match s with
  | String a (String b (String c (String d s'))) =>
      String a (String b (String c (String d ""))) :: chunks4 s'
  | EmptyString => []
  | _ => [s]
  end.
(** ["_wrap_bytes_repr"]: only a last part of fewer than four bytes leaves room for
    the allowance. *)
Definition flush_bytes (current : string) : list string :=
  if str_empty current then [] else [bytes_repr current].
Fixpoint wrap_bytes_repr (current : string) (ps : list string) (width allowance : Z) : list string :=
  match ps with
  | [] => flush_bytes current
  | part :: ps' =>
      let candidate := current +:+ part in
      let width := if len part <? 4 then width - allowance else width in
      if width <? len (bytes_repr candidate)
      then (flush_bytes current ++ wrap_bytes_repr part ps' width allowance)%list
      else wrap_bytes_repr candidate ps' width allowance
  end.
Definition pprint_bytes (s : string) (indent allowance : Z) (level : nat) : string :=
  if len s <=? 4 then bytes_repr s
  else
    let extra := if (level =? 1)%nat then 1 else 0 in
    parens level (join_lines (indent + extra)
      (wrap_bytes_repr "" (chunks4 s) (page_width - (indent + extra)) (allowance + extra))).

(** ** Dictionaries *)

(** [sorted(d.items(), key=_safe_tuple)]: by the keys, which are distinct. *)
Fixpoint insert_item {A} (x : string * A) (l : list (string * A)) : list (string * A) :=
  match l with
  | [] => [x]
  | y :: l' => if String.leb x.1 y.1 then x :: l else y :: insert_item x l'
  end.
Fixpoint sort_items {A} (l : list (string * A)) : list (string * A) :=
  match l with
  | [] => []
  | x :: l' => insert_item x (sort_items l')
  end.

(** ** Values *)

Definition Printer : Type := Z → Z → nat → outcome string.

(** ["_format_items"]. *)
Fixpoint layout_items (ps : list Printer) (indent allowance : Z) (level : nat) : outcome string :=
  match ps with
  | [] => Ret ""
  | [p] => p indent allowance level
  | p :: ps' =>
      t ← p indent 1 level;
      r ← layout_items ps' indent allowance level;
      Ret (t +:+ "," +:+ break indent +:+ r)
  end.
(** An item [key: value] of ["_format_dict_items"]. *)
Definition pair_printer (kp : string * Printer) : Printer := fun indent allowance level =>
  let rep := str_repr kp.1 in
  t ← kp.2 (indent + len rep + 2) allowance level;
  Ret (rep +:+ ": " +:+ t).

Section Values.
(** [repr] of the time zone with an offset. *)
Variable tzinfo_repr : Z → string.

(** ["_safe_repr"]. An instance of a class is left to its own [repr], which is not
    modelled. *)
Fixpoint safe_repr (v : value) : outcome string :=
  match v with
  | VNone => Ret "None"
  | VBool true => Ret "True"
  | VBool false => Ret "False"
  | VInt z => int_repr z
  | VFloat m e => Ret (py_float_repr (m, e))
  | VStr s => Ret (str_repr s)
  | VBytes s => Ret (bytes_repr s)
  | VDatetime micros offset => Ret (datetime_repr micros (tzinfo_repr <$> offset))
  | VList l => ts ← mapM safe_repr l; Ret ("[" +:+ comma_join ts +:+ "]")
  | VDict d =>
      kts ← mapM (fun kv => t ← safe_repr kv.2; Ret (kv.1, t)) d;
      Ret ("{" +:+ comma_join (map (fun kt => str_repr kt.1 +:+ ": " +:+ kt.2) (sort_items kts)) +:+ "}")
  | VObj c _ => Raise (ExternalError ("repr of " +:+ c))
  end.

(** ["_format"]. *)
Fixpoint format (v : value) : Printer := fun indent allowance level =>
  rep ← safe_repr v;
  if len rep <=? page_width - indent - allowance then Ret rep
  else
    match v with
    | VStr s => Ret (pprint_str s indent allowance (S level))
    | VBytes s => Ret (pprint_bytes s indent allowance (S level))
    | VList l =>
        t ← layout_items (map format l) (indent + 1) (allowance + 1) (S level);
        Ret ("[" +:+ t +:+ "]")
    | VDict d =>
        t ← layout_items (map pair_printer (sort_items (map (fun kv => (kv.1, format kv.2)) d)))
              (indent + 1) (allowance + 1) (S level);
        Ret ("{" +:+ t +:+ "}")
    | _ => Ret rep
    end.

Definition pformat (v : value) : outcome string := format v 0 0 0%nat.
End Values.
