(* ===== verification/JsonSpec.v ===== *)
(** * json: theorems

    [loads] is total, reads back exactly what [dumps] writes, and [dumps] refuses
    everything that is no JSON data. *)

From S2P Require Import Prelude PyStr PyValue PyNum Json.
Local Open Scope string_scope.
Local Open Scope bool_scope.

(** ** Decimal digits *)

Lemma digit_ch_ok d :
  (0 ≤ d < 10)%Z → is_digit (digit_ch d) = true ∧ (Z.of_N (code (digit_ch d)) - 48 = d)%Z.
Proof.
  intros Hd. assert (d = 0 ∨ d = 1 ∨ d = 2 ∨ d = 3 ∨ d = 4 ∨ d = 5 ∨ d = 6 ∨ d = 7 ∨ d = 8 ∨ d = 9)%Z
    as Hc by lia.
  by destruct Hc as [->|[->|[->|[->|[->|[->|[->|[->|[->| ->]]]]]]]]].
Qed.

Lemma digit_ch_zero d : (0 ≤ d < 10)%Z → digit_ch d = "0"%char → d = 0%Z.
Proof. intros Hd Hz. destruct (digit_ch_ok d Hd) as [_ <-]. by rewrite Hz. Qed.

(** The digits of [n]: decimal, with the value [n], without leading zero. *)
Definition digits_of (n : Z) (ds : string) : Prop :=
  ds ≠ "" ∧ str_forall is_digit ds = true ∧
  (∀ a, dec_value a ds = a * 10 ^ Z.of_nat (String.length ds) + n)%Z ∧
  (startswith "0" ds = true → ds = "0").

Lemma dec_value_app a s t : dec_value a (s +:+ t) = dec_value (dec_value a s) t.
Proof. revert a. induction s as [|c s IH]; intros a; [done|]. apply IH. Qed.

Lemma dec_digits_spec fuel n acc :
  (0 ≤ n < 2 ^ Z.of_nat fuel)%Z → fuel ≠ 0%nat →
  ∃ ds, dec_digits fuel n acc = ds +:+ acc ∧ digits_of n ds ∧ (n ≠ 0%Z → startswith "0" ds = false).
Proof.
  revert n acc. induction fuel as [|fuel IH]; intros n acc Hn Hf; [done|].
  pose proof (Z.mod_pos_bound n 10 ltac:(lia)) as Hm.
  destruct (digit_ch_ok _ Hm) as [Hd Hv]. cbn [dec_digits].
  destruct (Z.ltb_spec n 10) as [Hlt|Hge].
  - rewrite (Z.mod_small n 10) in * by lia. exists (String (digit_ch n) ""). split; [done|].
    split; [split_and!; [done| |intros a|]|].
    + cbn. by rewrite Hd.
    + cbn. rewrite Hv. lia.
    + cbn. intros [->%ch_eqb_true _]%andb_true_iff. done.
    + intros Hnz. cbn. rewrite andb_true_r. apply ch_eqb_false. intros E. symmetry in E.
      by apply digit_ch_zero in E.
  - assert (0 ≤ n / 10 < 2 ^ Z.of_nat fuel)%Z as Hq.
    { split; [by apply Z.div_pos; lia|]. apply Z.div_lt_upper_bound; [lia|].
      rewrite Nat2Z.inj_succ, Z.pow_succ_r in Hn by lia. lia. }
    destruct (IH (n / 10)%Z (String (digit_ch (n mod 10)) acc) Hq) as (ds & Hds & (Hne & Hall & Hval & _) & Hz).
    { intros ->. cbn in Hq. assert (1 ≤ n / 10)%Z by (apply Z.div_le_lower_bound; lia). lia. }
    assert (startswith "0" ds = false) as Hz'.
    { apply Hz. assert (1 ≤ n / 10)%Z by (apply Z.div_le_lower_bound; lia). lia. }
    assert (startswith "0" (ds +:+ String (digit_ch (n mod 10)) "") = false) as Hz2.
    { by destruct ds as [|c ds]. }
    exists (ds +:+ String (digit_ch (n mod 10)) ""). rewrite Hds, str_app_assoc. split; [done|].
    split; [split_and!|by intros _].
    + by destruct ds.
    + rewrite str_forall_app, Hall. cbn. by rewrite Hd.
    + intros a. rewrite dec_value_app, Hval, str_app_length. cbn. rewrite Hv.
      rewrite Nat2Z.inj_add, Z.pow_add_r by lia. change (10 ^ Z.of_nat 1)%Z with 10%Z.
      pose proof (Z.div_mod n 10 ltac:(lia)). lia.
    + by rewrite Hz2.
Qed.

Lemma dec_spec n : (0 ≤ n)%Z → digits_of n (dec n).
Proof.
  intros Hn. unfold dec.
  destruct (dec_digits_spec (S (Z.to_nat (Z.log2 n))) n "") as (ds & -> & Hds & _); [|done|].
  - pose proof (Z.log2_nonneg n). rewrite Nat2Z.inj_succ, Z2Nat.id by done.
    destruct (decide (n = 0)%Z) as [->|]; [done|]. split; [done|]. apply Z.log2_spec. lia.
  - by rewrite str_app_nil_r.
Qed.

Lemma int_digits_value prev acc k s :
  str_forall is_digit s = true → prev = true ∨ s ≠ "" →
  int_digits prev acc k s = Some (dec_value acc s, k + String.length s)%nat.
Proof.
  revert prev acc k. induction s as [|c s IH]; intros prev acc k Hs Hp; cbn.
  - destruct Hp as [->|]; [|done]. by rewrite Nat.add_0_r.
  - cbn in Hs. apply andb_true_iff in Hs as [-> Hs]. rewrite IH by auto. do 2 f_equal. lia.
Qed.

(** ** Numbers *)

(** A character that can continue a number. *)
Definition number_ch (c : ascii) : bool :=
  is_digit c || ch_eqb c "."%char || ch_eqb c "e"%char || ch_eqb c "E"%char ||
  ch_eqb c "+"%char || ch_eqb c "-"%char.
Definition delimited (rest : string) : bool :=
  match rest with
  | EmptyString => true
  | String c _ => negb (number_ch c)
  end.

Lemma delimited_head c rest : delimited (String c rest) = true →
  is_digit c = false ∧ ch_eqb c "."%char = false ∧
  ch_eqb c "e"%char || ch_eqb c "E"%char = false ∧
  ch_eqb c "+"%char = false ∧ ch_eqb c "-"%char = false.
Proof.
  cbn. unfold number_ch. rewrite negb_true_iff, !orb_false_iff. naive_solver.
Qed.

Lemma span_digits_app t rest :
  delimited rest = true →
  span_digits (t +:+ rest) = ((span_digits t).1, (span_digits t).2 +:+ rest).
Proof.
  intros Hr. unfold span_digits. induction t as [|c t IH]; cbn.
  - destruct rest as [|c rest]; [done|]. apply delimited_head in Hr as (Hd & _). cbn. by rewrite Hd.
  - destruct (is_digit c); cbn; [|done]. rewrite IH.
    by destruct (span_to (λ c, negb (is_digit c)) t).
Qed.

Lemma scan_frac_app t rest :
  delimited rest = true →
  scan_frac (t +:+ rest) = ((scan_frac t).1, (scan_frac t).2 +:+ rest).
Proof.
  intros Hr. destruct t as [|c t]; cbn.
  - destruct rest as [|c rest]; [done|]. apply delimited_head in Hr as (_ & Hd & _). cbn. by rewrite Hd.
  - destruct (ch_eqb c "."%char); [|done]. rewrite span_digits_app by done.
    destruct (span_digits t) as [fp r]. cbn. by destruct (str_empty fp).
Qed.

Lemma scan_sign_app t rest :
  delimited rest = true →
  scan_sign (t +:+ rest) = ((scan_sign t).1, (scan_sign t).2 +:+ rest).
Proof.
  intros Hr. destruct t as [|c t]; cbn.
  - destruct rest as [|c rest]; [done|]. apply delimited_head in Hr as (_ & _ & _ & Hp & Hm). cbn.
    by rewrite Hp, Hm.
  - by destruct (ch_eqb c "-"%char), (ch_eqb c "+"%char).
Qed.

Lemma scan_exp_app t rest :
  delimited rest = true →
  scan_exp (t +:+ rest) = ((scan_exp t).1, (scan_exp t).2 +:+ rest).
Proof.
  intros Hr. destruct t as [|c t]; cbn.
  - destruct rest as [|c rest]; [done|]. apply delimited_head in Hr as (_ & _ & He & _). cbn. by rewrite He.
  - destruct (_ || _); [|done]. rewrite scan_sign_app by done.
    destruct (scan_sign t) as [neg s2]. cbn. rewrite span_digits_app by done.
    destruct (span_digits s2) as [ep r]. cbn. by destruct (str_empty ep).
Qed.

Lemma scan_number_app neg t rest v :
  delimited rest = true → scan_number neg t = Ret (v, "") →
  scan_number neg (t +:+ rest) = Ret (v, rest).
Proof.
  intros Hr. unfold scan_number, scan_literal. rewrite span_digits_app by done.
  destruct t as [|c t]; [done|].
  destruct (span_digits (String c t)) as [ip r] eqn:Hs. cbn [fst snd].
  destruct (str_empty ip) eqn:Hip; [done|].
  assert ((if startswith "0" ip then ("0", str_drop 1 (String c t +:+ rest)) else (ip, r +:+ rest)) =
          let p := if startswith "0" ip then ("0", str_drop 1 (String c t)) else (ip, r) in
          (p.1, p.2 +:+ rest)) as ->.
  { by destruct (startswith "0" ip). }
  destruct (if startswith "0" ip then _ else _) as [ip' r']. cbn [fst snd].
  rewrite scan_frac_app by done. destruct (scan_frac r') as [fp r2]. cbn [fst snd].
  rewrite scan_exp_app by done. destruct (scan_exp r2) as [ex r3]. cbn [fst snd].
  unfold literal_value. cbn [l_int l_frac l_exp l_rest].
  intros (w & Hw & [= -> ->])%outcome_bind_Ret. by rewrite Hw.
Qed.

(** ** Strings *)

Lemma scan_encode_ch c r : scan_string (encode_ch c +:+ r) = cons_ch c (scan_string r).
Proof. destruct c as [[] [] [] [] [] [] [] []]; reflexivity. Qed.

Lemma scan_encode_chars s rest :
  scan_string (encode_chars s +:+ String quote rest) = Ret (s, rest).
Proof.
  induction s as [|c s IH]; [done|]. cbn [encode_chars].
  by rewrite str_app_assoc, scan_encode_ch, IH.
Qed.

(** ** The scanner, one step at a time *)

Lemma scan_once_digit fuel c s :
  is_digit c = true → scan_once (S fuel) (String c s) = scan_number false (String c s).
Proof. destruct c as [[] [] [] [] [] [] [] []]; try done; reflexivity. Qed.

Lemma scan_once_minus fuel c s :
  is_digit c = true →
  scan_once (S fuel) (String "-"%char (String c s)) = scan_number true (String c s).
Proof. destruct c as [[] [] [] [] [] [] [] []]; try done; reflexivity. Qed.

Lemma scan_once_str fuel s rest :
  scan_once (S fuel) (encode_str s +:+ rest) = Ret (VStr s, rest).
Proof.
  unfold encode_str. rewrite str_app_cons, str_app_assoc, str_app_cons.
  change (scan_once (S fuel) (String quote ?x)) with ('(t, r) ← scan_string x; Ret (VStr t, r)).
  by rewrite scan_encode_chars.
Qed.

Definition starts_array (s : string) : Prop :=
  ∃ c r, s = String c r ∧ is_ws c = false ∧ ch_eqb c "]"%char = false ∧ ch_eqb c "}"%char = false.

Lemma skip_ws_start s : starts_array s → skip_ws s = s.
Proof. intros (c & r & -> & Hc & _). by apply lstrip_by_id. Qed.
Lemma starts_array_app s t : starts_array s → starts_array (s +:+ t).
Proof. intros (c & r & -> & Hc). by exists c, (r +:+ t). Qed.

Lemma scan_once_array fuel s :
  starts_array s → scan_once (S fuel) (String "["%char s) = scan_items fuel [] s.
Proof.
  intros Hs. cbn [scan_once]. rewrite (skip_ws_start _ Hs).
  destruct Hs as (c & r & -> & _ & Hc & _). cbn. by rewrite Hc.
Qed.
Lemma scan_once_object fuel s :
  starts_array s → scan_once (S fuel) (String "{"%char s) = scan_members fuel [] s.
Proof.
  intros Hs. cbn [scan_once]. rewrite (skip_ws_start _ Hs).
  destruct Hs as (c & r & -> & _ & _ & Hc). cbn. by rewrite Hc.
Qed.

Lemma scan_items_S fuel acc s :
  scan_items (S fuel) acc s =
  '(v, r) ← scan_once fuel s;
  match skip_ws r with
  | String c r' =>
      if ch_eqb c "]"%char then Ret (VList (acc ++ [v]), r')
      else if ch_eqb c ","%char then scan_items fuel (acc ++ [v]) (skip_ws r')
      else decode_error "Expecting ',' delimiter"
  | EmptyString => decode_error "Expecting ',' delimiter"
  end.
Proof. done. Qed.

Lemma scan_members_key fuel acc k s :
  starts_array s →
  scan_members (S fuel) acc (encode_str k +:+ ": " +:+ s) =
  '(v, r) ← scan_once fuel s;
  match skip_ws r with
  | String c r' =>
      if ch_eqb c "}"%char then Ret (VDict (dict_set acc k v), r')
      else if ch_eqb c ","%char then scan_members fuel (dict_set acc k v) (skip_ws r')
      else decode_error "Expecting ',' delimiter"
  | EmptyString => decode_error "Expecting ',' delimiter"
  end.
Proof.
  intros Hs. unfold encode_str. rewrite str_app_cons, str_app_assoc, !str_app_cons.
  cbn [scan_members]. change (ch_eqb quote quote) with true. cbn match.
  rewrite scan_encode_chars. cbn [mbind outcome_bind String.append].
  change (skip_ws (String ":"%char (String " "%char s))) with (String ":"%char (String " "%char s)).
  cbn match. rewrite ch_eqb_refl. change (skip_ws (String " "%char s)) with (skip_ws s).
  by rewrite (skip_ws_start _ Hs).
Qed.

(** ** Reading back what was written *)

(** A float whose text is read as itself. *)
Definition float_ok (m e : Z) : bool :=
  let reads neg t :=
    match scan_number neg t with
    | Ret (VFloat m' e', EmptyString) => (m =? m')%Z && (e =? e')%Z
    | _ => false
    end in
  if (e =? 1024)%Z then (m =? 0)%Z || (m =? 1)%Z || (m =? -1)%Z
  else if (m =? 0)%Z then (e =? 0)%Z || (e =? -1)%Z
  else if (m <? 0)%Z then reads true (float_repr_pos (d_opp (m, e)))
  else reads false (float_repr_pos (m, e)).

Definition int_ok (z : Z) : bool :=
  (String.length (dec (Z.abs z)) <=? int_max_str_digits)%nat.

(** JSON data within the limits: integers that [repr] converts, floats that are
    doubles, distinct keys. *)
Fixpoint json_ok (v : value) : bool :=
  match v with
  | VNone | VBool _ | VStr _ => true
  | VInt z => int_ok z
  | VFloat m e => float_ok m e
  | VList l => forallb json_ok l
  | VDict d => distinct d.*1 && forallb (fun kv => json_ok kv.2) d
  | VDatetime _ _ | VObj _ _ | VBytes _ => false
  end.

(** The text of [v] starts a value, and the scanner reads [v] from it. *)
Definition reads_as (v : value) (t : string) : Prop :=
  starts_array t ∧
  ∃ n, ∀ fuel rest, (n ≤ fuel)%nat → delimited rest = true → scan_once fuel (t +:+ rest) = Ret (v, rest).

(** A literal that is read in one step. *)
Lemma reads_as_one v t :
  starts_array t →
  (∀ fuel rest, delimited rest = true → scan_once (S fuel) (t +:+ rest) = Ret (v, rest)) →
  reads_as v t.
Proof.
  intros Ht Hs. split; [done|]. exists 1%nat. intros [|fuel] rest Hf Hr; [lia|]. by apply Hs.
Qed.

Ltac starts := eexists _, _; split_and!; reflexivity.

Lemma digit_starts c s : is_digit c = true → starts_array (String c s).
Proof.
  intros Hc. exists c, s. split; [done|]. revert Hc. by destruct c as [[] [] [] [] [] [] [] []].
Qed.

Lemma scan_number_digit neg t r :
  scan_number neg t = Ret r → ∃ c s, t = String c s ∧ is_digit c = true.
Proof.
  unfold scan_number, scan_literal. destruct t as [|c s]; [done|]. intros H. exists c, s.
  split; [done|]. revert H. unfold span_digits. cbn. by destruct (is_digit c).
Qed.

Lemma number_reads neg t v :
  scan_number neg t = Ret (v, "") →
  reads_as v (if neg then String "-"%char t else t).
Proof.
  intros Ht. pose proof Ht as (c & s & -> & Hc)%scan_number_digit. destruct neg.
  - apply reads_as_one; [starts|]. intros fuel rest Hr. cbn [String.append].
    rewrite scan_once_minus by done. by apply (scan_number_app true (String c s)).
  - apply reads_as_one; [by apply digit_starts|]. intros fuel rest Hr. cbn [String.append].
    rewrite scan_once_digit by done. by apply (scan_number_app false (String c s)).
Qed.

Lemma scan_int neg n :
  (0 ≤ n)%Z → (String.length (dec n) <=? int_max_str_digits)%nat = true →
  scan_number neg (dec n) = Ret (VInt (if neg then - n else n)%Z, "").
Proof.
  intros Hn Hl. destruct (dec_spec n Hn) as (Hne & Hall & Hval & Hzero).
  unfold scan_number, scan_literal. unfold span_digits. rewrite span_to_all.
  2:{ unfold compose. eapply str_forall_impl; [|exact Hall]. intros c Hc. cbn. by rewrite Hc. }
  rewrite (proj2 (str_empty_false _) Hne).
  assert ((if startswith "0" (dec n) then ("0", str_drop 1 (dec n)) else (dec n, "")) = (dec n, ""))
    as ->. { destruct (startswith "0" (dec n)); [|done]. by rewrite Hzero. }
  cbn [scan_frac scan_exp]. unfold literal_value. cbn [l_int l_frac l_exp l_rest].
  unfold int_unsigned. rewrite int_digits_value by auto. cbn [Nat.add]. rewrite Hl. cbn.
  rewrite Hval. do 4 f_equal; lia.
Qed.

Lemma int_reads z t : int_ok z = true → int_repr z = Ret t → reads_as (VInt z) t.
Proof.
  unfold int_ok, int_repr. intros Hok. rewrite Hok. intros [= <-].
  pose proof (scan_int (z <? 0)%Z (Z.abs z) ltac:(lia) Hok) as Hs. apply number_reads in Hs.
  assert ((if z <? 0 then - Z.abs z else Z.abs z) = z)%Z as Hz by (destruct (Z.ltb_spec z 0); lia).
  by rewrite Hz in Hs.
Qed.

Lemma float_reads m e : float_ok m e = true → reads_as (VFloat m e) (float_repr (m, e)).
Proof.
  unfold float_ok, float_repr. cbn [fst snd]. destruct (Z.eqb_spec e 1024) as [->|He].
  - rewrite !orb_true_iff, !Z.eqb_eq. intros [[-> | ->]| ->]; cbn;
      (apply reads_as_one; [starts|]; reflexivity).
  - destruct (Z.eqb_spec m 0) as [->|Hm].
    + rewrite orb_true_iff, !Z.eqb_eq. intros [-> | ->]; [by apply (number_reads false)|by apply (number_reads true)].
    + set (reads := fun neg t => match scan_number neg t with
        | Ret (VFloat m' e', EmptyString) => (m =? m')%Z && (e =? e')%Z | _ => false end).
      assert (∀ neg t, reads neg t = true → scan_number neg t = Ret (VFloat m e, "")) as Hreads.
      { intros neg t. unfold reads. destruct (scan_number neg t) as [[[] []]| |]; try done.
        by intros [->%Z.eqb_eq ->%Z.eqb_eq]%andb_true_iff. }
      destruct (m <? 0)%Z; intros H%Hreads; by apply (number_reads) in H.
Qed.

(** The elements of a non-empty array. *)
Lemma items_read l ts :
  Forall2 reads_as l ts → l ≠ [] →
  starts_array (comma_join ts) ∧
  ∃ n, ∀ fuel acc rest, (n ≤ fuel)%nat →
    scan_items fuel acc (comma_join ts +:+ String "]"%char rest) = Ret (VList (acc ++ l), rest).
Proof.
  induction 1 as [|v t l ts [Hst [n Hn]] Hl IH]; [done|]. intros _.
  destruct l as [|v2 l].
  - inversion Hl; subst. split; [done|]. exists (S n). intros [|fuel] acc rest Hf; [lia|].
    rewrite scan_items_S. cbn [comma_join]. rewrite Hn by (try lia; done). done.
  - destruct IH as [Hst2 [n2 Hn2]]; [done|]. inversion Hl as [|? t2 ? ts2 _ _]; subst.
    change (comma_join (t :: t2 :: ts2)) with (t +:+ ", " +:+ comma_join (t2 :: ts2)).
    split; [by apply starts_array_app|]. exists (S (n + n2)). intros [|fuel] acc rest Hf; [lia|].
    rewrite scan_items_S, !str_app_assoc, Hn by (try lia; done). cbn [mbind outcome_bind].
    cbn [String.append]. change (skip_ws (String ","%char ?x)) with (String ","%char x).
    cbn match. change (skip_ws (String " "%char ?x)) with (skip_ws x).
    rewrite (skip_ws_start _ (starts_array_app _ _ Hst2)).
    change (ch_eqb ","%char "]"%char) with false. change (ch_eqb ","%char ","%char) with true.
    cbn match. rewrite Hn2 by lia. by rewrite <- app_assoc.
Qed.

Lemma dict_set_snoc d k v : k ∉ d.*1 → dict_set d k v = (d ++ [(k, v)])%list.
Proof.
  induction d as [|[k' v'] d IH]; cbn; [done|]. intros Hk.
  rewrite (proj2 (String.eqb_neq k' k)) by set_solver. rewrite IH; [done|set_solver].
Qed.

Definition member_text (kv : string * value) (t : string) : Prop :=
  ∃ u, t = encode_str kv.1 +:+ ": " +:+ u ∧ reads_as kv.2 u.

(** The members of a non-empty object whose keys are distinct. *)
Lemma members_read d ts :
  Forall2 member_text d ts → d ≠ [] → NoDup d.*1 →
  starts_array (comma_join ts) ∧
  ∃ n, ∀ fuel acc rest, (n ≤ fuel)%nat → (∀ k, k ∈ d.*1 → k ∉ acc.*1) →
    scan_members fuel acc (comma_join ts +:+ String "}"%char rest) = Ret (VDict (acc ++ d), rest).
Proof.
  induction 1 as [|[k v] t d ts (u & -> & Hst & n & Hn) Hd IH]; [done|]. intros _ Hnd.
  cbn [fst snd fmap list_fmap] in *. apply NoDup_cons in Hnd as [Hk Hnd].
  assert (∀ x, starts_array (encode_str k +:+ x)) as Hkey.
  { intros x. eexists _, _. by split. }
  destruct d as [|kv2 d].
  - inversion Hd; subst. cbn [comma_join]. split; [apply Hkey|]. exists (S n).
    intros [|fuel] acc rest Hf Hacc; [lia|]. rewrite !str_app_assoc, scan_members_key
      by by apply starts_array_app.
    rewrite Hn by (try lia; done). cbn. rewrite dict_set_snoc; [done|]. apply Hacc. set_solver.
  - destruct IH as [Hst2 [n2 Hn2]]; [done..|]. inversion Hd as [|? t2 ? ts2 _ _]; subst.
    change (comma_join (?a :: t2 :: ts2)) with (a +:+ ", " +:+ comma_join (t2 :: ts2)).
    split; [rewrite !str_app_assoc; apply Hkey|]. exists (S (n + n2)).
    intros [|fuel] acc rest Hf Hacc; [lia|].
    rewrite !str_app_assoc, scan_members_key by by apply starts_array_app.
    rewrite Hn by (try lia; done). cbn [mbind outcome_bind].
    cbn [String.append]. change (skip_ws (String ","%char ?x)) with (String ","%char x).
    cbn match. change (skip_ws (String " "%char ?x)) with (skip_ws x).
    rewrite (skip_ws_start _ (starts_array_app _ _ Hst2)).
    change (ch_eqb ","%char "}"%char) with false. change (ch_eqb ","%char ","%char) with true.
    cbn match. rewrite dict_set_snoc by (apply Hacc; set_solver). rewrite Hn2; [|lia|].
    + by rewrite <- app_assoc.
    + intros k' Hk'. rewrite fmap_app. set_solver.
Qed.

Lemma mapM_reads {A} (f : A → outcome string) (ok : A → bool) (R : A → string → Prop) l :
  Forall (fun x => ok x = true → ∃ t, f x = Ret t ∧ R x t) l → forallb ok l = true →
  ∃ ts, mapM f l = Ret ts ∧ Forall2 R l ts.
Proof.
  induction 1 as [|x l Hx _ IH]; cbn; [by exists []|].
  intros [Hok Hl]%andb_true_iff. destruct (Hx Hok) as (t & Ht & HR), (IH Hl) as (ts & Hts & HRs).
  exists (t :: ts). rewrite Ht. cbn. rewrite Hts. by split; [|constructor].
Qed.

Lemma dumps_dict d :
  dumps (VDict d) =
  ts ← mapM (fun kv => t ← dumps kv.2; Ret (encode_str kv.1 +:+ ": " +:+ t)) d;
  Ret ("{" +:+ comma_join ts +:+ "}").
Proof. done. Qed.

Lemma dumps_reads v : json_ok v = true → ∃ t, dumps v = Ret t ∧ reads_as v t.
Proof.
  induction v as [|b|z|m e|s| |l IH|d IH| |] using value_ind'; intros Hok; try done.
  - eexists. split; [done|]. apply reads_as_one; [starts|done].
  - destruct b; (eexists; split; [done|]; apply reads_as_one; [starts|done]).
  - change (int_ok z = true) in Hok. pose proof Hok as Hlen. unfold int_ok in Hlen.
    eexists. split; [cbn [dumps]; unfold int_repr; by rewrite Hlen|]. apply int_reads; [done|].
    unfold int_repr. by rewrite Hlen.
  - eexists. split; [done|]. by apply float_reads.
  - eexists. split; [done|]. apply reads_as_one; [by eexists _, _|]. intros fuel rest _.
    apply scan_once_str.
  - destruct (mapM_reads dumps json_ok reads_as l IH Hok) as (ts & Hts & HR).
    exists ("[" +:+ comma_join ts +:+ "]"). cbn. rewrite Hts. split; [done|].
    destruct l as [|x l]; [inversion HR; subst; apply reads_as_one; [starts|done]|].
    destruct (items_read _ _ HR) as [Hst [n Hn]]; [done|]. split; [starts|]. exists (S n).
    intros [|fuel] rest Hf Hr; [lia|]. rewrite str_app_cons, str_app_assoc, scan_once_array
      by by apply starts_array_app.
    apply Hn. lia.
  - cbn in Hok. apply andb_true_iff in Hok as [Hk%distinct_NoDup Hok].
    destruct (mapM_reads (fun kv => t ← dumps kv.2; Ret (encode_str kv.1 +:+ ": " +:+ t))
      (fun kv => json_ok kv.2) member_text d) as (ts & Hts & HR); [|done|].
    { eapply Forall_impl; [exact IH|]. intros kv Hkv Hkok. destruct (Hkv Hkok) as (t & Ht & HR).
      rewrite Ht. eexists. split; [done|]. by exists t. }
    exists (String "{"%char (comma_join ts +:+ "}")). rewrite dumps_dict, Hts. split; [done|].
    destruct d as [|x d]; [inversion HR; subst; apply reads_as_one; [starts|done]|].
    destruct (members_read _ _ HR) as [Hst [n Hn]]; [done..|]. split; [starts|]. exists (S n).
    intros [|fuel] rest Hf Hr; [lia|]. rewrite str_app_cons, str_app_assoc, scan_once_object
      by by apply starts_array_app.
    apply Hn; [lia|set_solver].
Qed.

(** ** Fuel *)

(** Case analysis on the scrutinees of the scanner. *)
Ltac scan_cases :=
  repeat match goal with
         | |- context [if ?b then _ else _] => destruct b eqn:?
         end.

(** One more unit of fuel changes no result that was reached. *)
Lemma scan_more_fuel fuel :
  (∀ s, scan_once fuel s ≠ OutOfFuel → scan_once (S fuel) s = scan_once fuel s) ∧
  (∀ acc s, scan_items fuel acc s ≠ OutOfFuel → scan_items (S fuel) acc s = scan_items fuel acc s) ∧
  (∀ acc s, scan_members fuel acc s ≠ OutOfFuel →
            scan_members (S fuel) acc s = scan_members fuel acc s).
Proof.
  induction fuel as [|fuel (IHo & IHi & IHm)]; [done|]. split_and!.
  - intros [|c s]; [done|]. remember (S fuel) as fuel1. rewrite Heqfuel1 at 1 3. cbn [scan_once].
    destruct (skip_ws s) as [|c2 r]; subst fuel1; scan_cases; auto.
  - intros acc s. remember (S fuel) as fuel1. rewrite Heqfuel1 at 1 3. rewrite !scan_items_S.
    destruct (scan_once fuel s) as [[v r]| |] eqn:Ho; subst fuel1; rewrite ?IHo by congruence;
      rewrite ?Ho; cbn [mbind outcome_bind]; [|done..].
    destruct (skip_ws r); scan_cases; auto.
  - intros acc s. remember (S fuel) as fuel1. rewrite Heqfuel1 at 1 3. cbn [scan_members].
    destruct s as [|q s]; [done|]. destruct (ch_eqb q quote); [|done].
    destruct (scan_string s) as [[k r]| |]; cbn [mbind outcome_bind]; [|done..].
    destruct (skip_ws r) as [|c r2]; [done|]. destruct (ch_eqb c ":"%char); [|done].
    destruct (scan_once fuel (skip_ws r2)) as [[v r3]| |] eqn:Ho; subst fuel1;
      rewrite ?IHo by congruence; rewrite ?Ho; cbn [mbind outcome_bind]; [|done..].
    destruct (skip_ws r3); scan_cases; auto.
Qed.

Lemma scan_once_fuel fuel fuel' s :
  scan_once fuel s ≠ OutOfFuel → (fuel ≤ fuel')%nat → scan_once fuel' s = scan_once fuel s.
Proof.
  intros Hs Hle. induction Hle as [|fuel' Hle IH]; [done|].
  destruct (scan_more_fuel fuel') as [Ho _]. rewrite Ho; congruence.
Qed.

(** A result that is reached, and leaves less than [s] to read. *)
Definition consumes (s : string) (r : outcome (value * string)) : Prop :=
  match r with
  | Ret (_, rest) => (String.length rest < String.length s)%nat
  | Raise _ => True
  | OutOfFuel => False
  end.

Lemma consumes_le s s' r :
  (String.length s' ≤ String.length s)%nat → consumes s' r → consumes s r.
Proof. destruct r as [[v rest]| |]; cbn; [lia|done..]. Qed.

Lemma scan_string_length s t r : scan_string s = Ret (t, r) → (String.length r < String.length s)%nat.
Proof.
  revert t. induction s as [s IH] using (induction_ltof1 _ String.length). unfold ltof in IH.
  intros t. assert (∀ c s' t, (String.length s' < String.length s)%nat →
    cons_ch c (scan_string s') = Ret (t, r) → (String.length r < String.length s)%nat) as Hrec.
  { intros c s' t' Hl. unfold cons_ch. intros ([u r'] & Hs & [= <- <-])%outcome_bind_Ret.
    apply IH in Hs; [lia|done]. }
  destruct s as [|c s]; [done|]. cbn [scan_string]. destruct (ch_eqb c quote); [intros [= <- <-]; cbn; lia|].
  destruct (ch_eqb c backslash).
  - destruct s as [|e s]; [done|]. destruct (ch_eqb e "u"%char).
    + destruct s as [|h1 [|h2 [|h3 [|h4 s]]]]; try done. destruct (hex4 h1 h2 h3 h4); [|done].
      case_match; [|done]. apply Hrec. cbn. lia.
    + destruct (unescape e); [|done]. apply Hrec. cbn. lia.
  - case_match; [done|]. apply Hrec. cbn. lia.
Qed.

Lemma scan_string_no_fuel s : scan_string s ≠ OutOfFuel.
Proof.
  induction s as [s IH] using (induction_ltof1 _ String.length). unfold ltof in IH.
  assert (∀ c s', (String.length s' < String.length s)%nat →
    cons_ch c (scan_string s') ≠ OutOfFuel) as Hrec.
  { intros c s' Hl. apply IH in Hl. unfold cons_ch. by destruct (scan_string s') as [[]| |]. }
  destruct s as [|c s]; [done|]. cbn [scan_string].
  repeat (case_match; try done); apply Hrec; cbn; lia.
Qed.

Lemma span_digits_length s : String.length s =
  (String.length (span_digits s).1 + String.length (span_digits s).2)%nat.
Proof.
  unfold span_digits. pose proof (span_to_app (fun c => negb (is_digit c)) s) as Hs.
  destruct (span_to _ s) as [a b]. rewrite Hs at 1. apply str_app_length.
Qed.
Lemma scan_frac_length s : (String.length (scan_frac s).2 ≤ String.length s)%nat.
Proof.
  destruct s as [|c s]; cbn; [done|]. destruct (ch_eqb c "."%char); [|done].
  pose proof (span_digits_length s). destruct (span_digits s) as [a b].
  destruct (str_empty a); cbn in *; lia.
Qed.
Lemma scan_exp_length s : (String.length (scan_exp s).2 ≤ String.length s)%nat.
Proof.
  destruct s as [|c s]; cbn; [done|]. destruct (_ || _); [|done].
  assert (String.length (scan_sign s).2 ≤ String.length s)%nat as Hs.
  { destruct s as [|d s]; cbn; [done|]. destruct (ch_eqb d "-"%char), (ch_eqb d "+"%char); cbn; lia. }
  destruct (scan_sign s) as [neg s2]. cbn in Hs.
  pose proof (span_digits_length s2). destruct (span_digits s2) as [a b].
  destruct (str_empty a); cbn in *; lia.
Qed.

Lemma scan_number_consumes neg s : consumes s (scan_number neg s).
Proof.
  unfold scan_number, scan_literal. pose proof (span_digits_length s) as Hs.
  destruct (span_digits s) as [ip r]. cbn in Hs. destruct ip as [|c ip]; [done|]. cbn [str_empty].
  assert (String.length (if startswith "0" (String c ip) then ("0", str_drop 1 s)
                         else (String c ip, r)).2 < String.length s)%nat as Hr.
  { destruct (startswith "0" (String c ip)); cbn in *; [|lia].
    destruct s as [|d s]; cbn in *; lia. }
  destruct (if startswith "0" (String c ip) then _ else _) as [ip' r']. cbn in Hr.
  pose proof (scan_frac_length r'). destruct (scan_frac r') as [fp r2]. cbn in *.
  pose proof (scan_exp_length r2). destruct (scan_exp r2) as [ex r3]. cbn in *.
  destruct (literal_value _ _) eqn:Hv; cbn; [lia|done|].
  revert Hv. unfold literal_value. cbn. repeat case_match; done.
Qed.

(** Enough fuel for a text: [2 * length + 1], and one more between elements. *)
Lemma scan_enough fuel :
  (∀ s, (2 * String.length s + 1 ≤ fuel)%nat → consumes s (scan_once fuel s)) ∧
  (∀ acc s, (2 * String.length s + 2 ≤ fuel)%nat → consumes s (scan_items fuel acc s)) ∧
  (∀ acc s, (2 * String.length s + 2 ≤ fuel)%nat → consumes s (scan_members fuel acc s)).
Proof.
  assert (∀ s, String.length (skip_ws s) ≤ String.length s)%nat as Hws by apply lstrip_by_length.
  assert (∀ p s, startswith p s = true → p ≠ "" →
    String.length (str_drop (String.length p) s) < String.length s)%nat as Hdrop.
  { intros p s (t & ->)%startswith_iff Hp. rewrite str_drop_app, str_app_length.
    destruct p; [done|]. cbn. lia. }
  induction fuel as [|fuel (IHo & IHi & IHm)]; [split_and!; intros; lia|]. split_and!.
  - intros [|c s] Hf; [done|]. cbn [scan_once]. pose proof (Hws s) as Hw.
    destruct (ch_eqb c quote).
    { destruct (scan_string s) as [[t r]| |] eqn:Hs; cbn; [|done|].
      - apply scan_string_length in Hs. lia.
      - by apply scan_string_no_fuel in Hs. }
    destruct (ch_eqb c "{"%char).
    { destruct (skip_ws s) as [|c2 r]; [done|]. cbn in Hw, Hf. case_match; [cbn; lia|].
      eapply consumes_le; [|apply IHm]; cbn; lia. }
    destruct (ch_eqb c "["%char).
    { destruct (skip_ws s) as [|c2 r]; [done|]. cbn in Hw, Hf. case_match; [cbn; lia|].
      eapply consumes_le; [|apply IHi]; cbn; lia. }
    do 6 (match goal with |- context [startswith ?p ?s] => destruct (startswith p s) eqn:Hp;
            [exact (Hdrop p s Hp ltac:(done))|clear Hp] end).
    case_match; [|apply scan_number_consumes].
    eapply consumes_le; [|apply scan_number_consumes]. cbn. lia.
  - intros acc s Hf. rewrite scan_items_S. pose proof (IHo s ltac:(lia)) as Ho.
    destruct (scan_once fuel s) as [[v r]| |]; [|done..]. cbn in Ho |- *. pose proof (Hws r) as Hw.
    destruct (skip_ws r) as [|c r']; [done|]. cbn in Hw. pose proof (Hws r').
    case_match; [cbn; lia|]. case_match; [|done]. eapply consumes_le; [|apply IHi]; lia.
  - intros acc [|q s] Hf; [done|]. cbn [scan_members]. cbn in Hf.
    destruct (ch_eqb q quote); [|done].
    destruct (scan_string s) as [[k r]| |] eqn:Hs; cbn [mbind outcome_bind]; [|done|].
    2:{ by apply scan_string_no_fuel in Hs. }
    apply scan_string_length in Hs. pose proof (Hws r) as Hw.
    destruct (skip_ws r) as [|c r2]; [done|]. cbn in Hw. pose proof (Hws r2) as Hw2.
    destruct (ch_eqb c ":"%char); [|done]. pose proof (IHo (skip_ws r2) ltac:(lia)) as Ho.
    destruct (scan_once fuel (skip_ws r2)) as [[v r3]| |]; [|done..]. cbn in Ho |- *.
    pose proof (Hws r3) as Hw3. destruct (skip_ws r3) as [|c3 r4]; [done|]. cbn in Hw3.
    pose proof (Hws r4). case_match; [cbn; lia|]. case_match; [|done].
    eapply consumes_le; [|apply IHm]; cbn; lia.
Qed.

(** [loads] always ends, with a value or an exception: the fuel of the
    scanner is enough for every text. *)
Lemma loads_total s : loads s ≠ OutOfFuel.
Proof.
  unfold loads. destruct (scan_enough (scan_fuel (skip_ws s))) as [Ho _].
  pose proof (Ho (skip_ws s) ltac:(unfold scan_fuel; lia)) as Hc.
  destruct (scan_once _ _) as [[v r]| |]; [|done..]. cbn. by case_match.
Qed.

(** What the scanner reads is data: no instances, every key once. *)
Lemma scan_number_data neg s v r : scan_number neg s = Ret (v, r) → data v = true.
Proof.
  unfold scan_number. destruct (scan_literal s) as [l|]; [|done].
  intros (x & Hx & [= <- <-])%outcome_bind_Ret. revert Hx. unfold literal_value.
  destruct (l_frac l), (l_exp l); try (by intros [= <-]).
  destruct (int_unsigned (l_int l)); [by intros [= <-]|done].
Qed.

Lemma scan_data fuel :
  (∀ s v r, scan_once fuel s = Ret (v, r) → data v = true) ∧
  (∀ acc s v r, forallb data acc = true → scan_items fuel acc s = Ret (v, r) → data v = true) ∧
  (∀ acc s v r, data (VDict acc) = true → scan_members fuel acc s = Ret (v, r) → data v = true).
Proof.
  induction fuel as [|fuel (IHo & IHi & IHm)]; [done|]. split_and!.
  - intros [|c s] v r; [done|]. cbn [scan_once].
    case_match; [by intros ([t r'] & _ & [= <- <-])%outcome_bind_Ret|].
    case_match; [destruct (skip_ws s) as [|c2 r2]; [done|]; case_match; [by intros [= <- <-]|by apply IHm]|].
    case_match; [destruct (skip_ws s) as [|c2 r2]; [done|]; case_match; [by intros [= <- <-]|by apply IHi]|].
    do 6 (case_match; [by intros [= <- <-]|]).
    case_match; apply scan_number_data.
  - intros acc s v r Hacc. rewrite scan_items_S. intros ([x r1] & Hx & Hrest)%outcome_bind_Ret.
    apply IHo in Hx. assert (forallb data (acc ++ [x]) = true) as Hacc'.
    { by rewrite forallb_app, Hacc; cbn; rewrite Hx. }
    destruct (skip_ws r1) as [|c r2]; [done|]. case_match; [by injection Hrest as <- <-|].
    case_match; [|done]. by eapply IHi.
  - intros acc [|q s] v r Hacc; [done|]. cbn [scan_members]. destruct (ch_eqb q quote); [|done].
    intros ([k r1] & _ & Hrest)%outcome_bind_Ret. destruct (skip_ws r1) as [|c r2]; [done|].
    destruct (ch_eqb c ":"%char); [|done]. apply outcome_bind_Ret in Hrest as ([x r3] & Hx & Hrest).
    apply IHo in Hx. pose proof (data_dict_set acc k x Hacc Hx) as Hacc'.
    destruct (skip_ws r3) as [|c3 r4]; [done|]. case_match; [by injection Hrest as <- <-|].
    case_match; [|done]. by eapply IHm.
Qed.

Lemma loads_data s v : loads s = Ret v → data v = true.
Proof.
  unfold loads. intros ([x r] & Hx & Hr)%outcome_bind_Ret.
  destruct (scan_data (scan_fuel (skip_ws s))) as [Ho _]. apply Ho in Hx. by case_match; simplify_eq.
Qed.

Lemma loads_of_dumps v : json_ok v = true → ∃ t, dumps v = Ret t ∧ loads t = Ret v.
Proof.
  intros Hok. destruct (dumps_reads v Hok) as (t & Ht & Hst & n & Hn). exists t. split; [done|].
  unfold loads. rewrite (skip_ws_start _ Hst).
  destruct (scan_enough (scan_fuel t)) as [Ho _].
  pose proof (Ho t ltac:(unfold scan_fuel; lia)) as Hc.
  pose proof (Hn (scan_fuel t + n)%nat "" ltac:(lia) eq_refl) as Hr. rewrite str_app_nil_r in Hr.
  rewrite (scan_once_fuel (scan_fuel t)) in Hr; [|by intros E; rewrite E in Hc|lia].
  by rewrite Hr.
Qed.

(** ** What [dumps] refuses *)

Lemma mapM_Ret_inv {A B} (f : A → outcome B) l ts :
  mapM f l = Ret ts → Forall (fun x => ∃ t, f x = Ret t) l.
Proof.
  revert ts. induction l as [|x l IH]; intros ts; [by constructor|]. cbn.
  intros (t & Ht & (us & Hus & _)%outcome_bind_Ret)%outcome_bind_Ret. constructor; eauto.
Qed.
Lemma mapM_no_fuel {A B} (f : A → outcome B) l :
  Forall (fun x => f x ≠ OutOfFuel) l → mapM f l ≠ OutOfFuel.
Proof.
  induction 1 as [|x l Hx _ IH]; cbn; [done|]. destruct (f x); [|done..]. cbn.
  by destruct (mapM f l).
Qed.

Lemma dumps_outcome v :
  dumps v ≠ OutOfFuel ∧ ∀ t, dumps v = Ret t → json_data v = true.
Proof.
  induction v as [|b|z|m e|s| |l IH|d IH| |] using value_ind'; try done.
  - by destruct b.
  - split; [|done]. cbn. unfold int_repr. by case_match.
  - apply Forall_and in IH as [Hf Hd]. cbn. pose proof (mapM_no_fuel dumps l Hf) as Hm.
    destruct (mapM dumps l) as [ts| |] eqn:E; [|done..]. split; [done|]. intros _ _.
    apply forallb_forall. intros x Hx%list_elem_of_In. apply mapM_Ret_inv in E.
    rewrite Forall_forall in E, Hd. destruct (E x Hx) as [t Ht]. by apply (Hd x Hx t).
  - apply Forall_and in IH as [Hf Hd]. rewrite dumps_dict.
    set (f := fun kv : string * value => t ← dumps kv.2; Ret (encode_str kv.1 +:+ ": " +:+ t)).
    assert (mapM f d ≠ OutOfFuel) as Hm.
    { apply mapM_no_fuel. eapply Forall_impl; [exact Hf|]. intros kv. unfold f.
      by destruct (dumps kv.2). }
    destruct (mapM f d) as [ts| |] eqn:E; [|done..]. split; [done|]. intros _ _. cbn [json_data].
    apply forallb_forall. intros x Hx%list_elem_of_In. apply mapM_Ret_inv in E.
    rewrite Forall_forall in E, Hd. destruct (E x Hx) as [t (u & Hu & _)%outcome_bind_Ret].
    by apply (Hd x Hx u).
Qed.

Lemma dumps_not_data v : json_data v = false → ∃ e, dumps v = Raise e.
Proof.
  intros Hd. destruct (dumps_outcome v) as [Hf Hr]. destruct (dumps v) as [t|e|]; [|by exists e|done].
  by rewrite (Hr t) in Hd.
Qed.
