(* ===== verification/PPrintSpec.v ===== *)
(** * The pprint module: lemmas

    A grammar of Python expressions for values ([expr]), which says nothing about
    widths, and that [pformat] writes such an expression: strings are cut into
    adjacent literals whose texts make up the string, items are kept, and line
    breaks come only where brackets or parentheses are open. Then: when [pformat]
    returns, its text for values that fit a line, and that it does not depend on
    the order of a dictionary. *)

From stdpp Require Import sorting.
From S2P Require Import Prelude PyStr PyValue PyNum Json JsonSpec PPrint.
Local Open Scope string_scope.
Local Open Scope bool_scope.
Local Open Scope Z_scope.

(** ** The grammar *)

(** Items with a comma, and a space or a line break, between them. *)
Inductive comma_items : list string → string → Prop :=
| items_nil : comma_items [] ""
| items_one t : comma_items [t] t
| items_cons t sep ts r :
    sep = " " ∨ (∃ n, sep = break n) → ts ≠ [] → comma_items ts r →
    comma_items (t :: ts) (t +:+ "," +:+ sep +:+ r).

Definition concats (l : list string) : string := foldr String.append "" l.

Section Grammar.
Variable tzinfo_repr : Z → string.

Definition atom (v : value) : bool :=
  match v with VStr _ | VBytes _ | VList _ | VDict _ | VObj _ _ => false | _ => true end.

(** [expr inside v t]: the text [t] is an expression for [v]; [inside] when
    brackets or parentheses are open around it, so that lines may be broken. *)
Inductive expr (inside : bool) : value → string → Prop :=
| expr_atom v t : atom v = true → safe_repr tzinfo_repr v = Ret t → expr inside v t
| expr_str s : expr inside (VStr s) (str_repr s)
| expr_strs n pieces :
    inside = true → pieces ≠ [] →
    expr inside (VStr (concats pieces)) (join_lines n (map str_repr pieces))
| expr_bytes s : expr inside (VBytes s) (bytes_repr s)
| expr_bytess n pieces :
    inside = true → pieces ≠ [] →
    expr inside (VBytes (concats pieces)) (join_lines n (map bytes_repr pieces))
| expr_parens v t : expr true v t → expr inside v ("(" +:+ t +:+ ")")
| expr_list l ts t :
    Forall2 (expr true) l ts → comma_items ts t → expr inside (VList l) ("[" +:+ t +:+ "]")
| expr_dict d d' ts t :
    d ≡ₚ d' → Forall2 (fun kv t => ∃ t', expr true kv.2 t' ∧ t = str_repr kv.1 +:+ ": " +:+ t') d' ts →
    comma_items ts t → expr inside (VDict d) ("{" +:+ t +:+ "}").
End Grammar.

(** ** Strings *)

Lemma concats_app l1 l2 : concats (l1 ++ l2)%list = concats l1 +:+ concats l2.
Proof.
  induction l1 as [|s l1 IH]; [done|]. change (s +:+ concats (l1 ++ l2)%list = (s +:+ concats l1) +:+ concats l2).
  by rewrite IH, str_app_assoc.
Qed.

Lemma splitlines_concat s : concats (splitlines s) = s.
Proof.
  induction s as [|c s IH]; [done|]. cbn. destruct (splitlines s) as [|l ls]; cbn in *; [by subst|].
  destruct (_ && _); cbn; by rewrite IH.
Qed.
Lemma splitlines_nonempty s : Forall (fun l => l ≠ "") (splitlines s).
Proof.
  induction s as [|c s IH]; [constructor|]. cbn. destruct (splitlines s) as [|l ls]; [by repeat constructor|].
  destruct (_ && _); [by constructor|]. apply Forall_cons in IH as [_ IH]. by constructor.
Qed.
Lemma parts_concat s : concats (parts s) = s.
Proof.
  induction s as [|c s IH]; [done|]. cbn. destruct (parts s) as [|[|c' p] ps]; cbn in *.
  - by subst.
  - by rewrite IH.
  - destruct (_ && _); cbn; by rewrite IH.
Qed.

Lemma flush_pieces cur : ∃ pieces, flush cur = map str_repr pieces ∧ concats pieces = cur.
Proof.
  unfold flush. destruct cur as [|c cur]; [by exists []|]. exists [String c cur]. cbn.
  by rewrite str_app_nil_r.
Qed.
Lemma fill_lines_pieces cur ps w a :
  ∃ pieces, fill_lines cur ps w a = map str_repr pieces ∧ concats pieces = cur +:+ concats ps.
Proof.
  revert cur. induction ps as [|p ps IH]; intros cur; cbn -[str_repr].
  - rewrite str_app_nil_r. apply flush_pieces.
  - destruct (_ <? _).
    + destruct (flush_pieces cur) as (l1 & -> & <-), (IH p) as (l2 & -> & Hl2). exists (l1 ++ l2)%list.
      by rewrite map_app, concats_app, Hl2.
    + destruct (IH (cur +:+ p)) as (l & -> & Hl). exists l. by rewrite Hl, str_app_assoc.
Qed.
Lemma str_chunks_pieces lines w a :
  Forall (fun l => l ≠ "") lines →
  ∃ pieces, str_chunks lines w a = map str_repr pieces ∧ concats pieces = concats lines ∧
            (length lines ≤ length pieces)%nat.
Proof.
  induction 1 as [|line lines Hl _ (l2 & E & Hc & Hn)]; [by exists []|]. cbn -[str_repr].
  set (a1 := match lines with [] => a | _ => 0 end).
  assert (∃ l1, (if len (str_repr line) <=? w - a1 then [str_repr line]
                 else fill_lines "" (parts line) w a1) = map str_repr l1 ∧ concats l1 = line) as (l1 & -> & H1).
  { destruct (_ <=? _); [exists [line]; cbn; by rewrite str_app_nil_r|].
    destruct (fill_lines_pieces "" (parts line) w a1) as (l1 & -> & H1). exists l1.
    by rewrite parts_concat in H1. }
  exists (l1 ++ l2)%list. rewrite E, map_app, concats_app, H1, Hc, length_app. split_and!; [done..|].
  destruct l1; [by subst|]. cbn. lia.
Qed.

Lemma pprint_str_expr tz s indent allowance level :
  (1 ≤ level)%nat → expr tz (negb (level =? 1)%nat) (VStr s) (pprint_str s indent allowance level).
Proof.
  intros Hlevel. unfold pprint_str. destruct s as [|c s]; [apply expr_str|].
  cbn [str_empty]. set (s' := String c s). set (w := page_width - _). set (a := allowance + _).
  destruct (str_chunks_pieces (splitlines s') w a (splitlines_nonempty s')) as (ps & E & Hc & Hn).
  pose proof (splitlines_concat s') as Hs. rewrite Hs in Hc. rewrite E. cbv zeta.
  destruct ps as [|p [|p2 ps]]; [by subst s'| |]; cbn [map].
  - destruct (splitlines s') as [|l [|]]; cbn in Hn; try lia; [by subst s'|].
    cbn in Hs. rewrite str_app_nil_r in Hs. cbn. rewrite Hs. apply expr_str.
  - change (expr tz (negb (level =? 1)%nat) (VStr s')
      (parens level (join_lines (indent + (if (level =? 1)%nat then 1 else 0)) (map str_repr (p :: p2 :: ps))))).
    rewrite <- Hc. unfold parens. destruct (level =? 1)%nat; cbn [negb]; [apply expr_parens|]; by apply expr_strs.
Qed.

(** ** Bytes *)

Lemma chunks4_concat s : concats (chunks4 s) = s.
Proof.
  cut (∀ n s, (String.length s <= n)%nat → concats (chunks4 s) = s); [intros Hn; by apply (Hn _ s (le_n _))|].
  clear s. induction n as [|n IH]; intros s Hs; destruct s as [|a [|b [|c [|d s]]]]; cbn in *; try done; try lia.
  rewrite IH; [done|lia].
Qed.
Lemma wrap_bytes_pieces cur ps w a :
  ∃ pieces, wrap_bytes_repr cur ps w a = map bytes_repr pieces ∧ concats pieces = cur +:+ concats ps.
Proof.
  revert cur w. induction ps as [|p ps IH]; intros cur w; cbn -[bytes_repr].
  - rewrite str_app_nil_r. unfold flush_bytes. destruct cur as [|c cur]; [by exists []|].
    exists [String c cur]. cbn. by rewrite str_app_nil_r.
  - set (w' := if len p <? 4 then w - a else w). destruct (w' <? _).
    + destruct (IH p w') as (l2 & -> & Hl2). unfold flush_bytes. destruct cur as [|c cur].
      * by exists l2.
      * exists (String c cur :: l2). split; [done|].
        change (String c cur +:+ concats l2 = String c cur +:+ p +:+ concats ps). by rewrite Hl2.
    + destruct (IH (cur +:+ p) w') as (l & -> & Hl). exists l. by rewrite Hl, str_app_assoc.
Qed.
Lemma pprint_bytes_expr tz s indent allowance level :
  (1 ≤ level)%nat → expr tz (negb (level =? 1)%nat) (VBytes s) (pprint_bytes s indent allowance level).
Proof.
  intros Hlevel. unfold pprint_bytes. destruct (len s <=? 4) eqn:Hlen; [apply expr_bytes|].
  set (w := page_width - _). set (a := allowance + _).
  destruct (wrap_bytes_pieces "" (chunks4 s) w a) as (ps & -> & Hc).
  rewrite chunks4_concat in Hc. cbn in Hc. cbv zeta.
  assert (ps ≠ []) as Hne by (intros ->; cbn in Hc; by subst s).
  rewrite <- Hc. unfold parens. destruct (level =? 1)%nat; cbn [negb]; [apply expr_parens|]; by apply expr_bytess.
Qed.

(** ** Sorting *)

Section Sorting.
Context {A B : Type}.

Lemma insert_item_perm (x : string * A) l : insert_item x l ≡ₚ x :: l.
Proof.
  induction l as [|y l IH]; [done|]. cbn. destruct (String.leb x.1 y.1); [done|].
  by rewrite IH, Permutation_swap.
Qed.
Lemma sort_items_perm (l : list (string * A)) : sort_items l ≡ₚ l.
Proof. induction l as [|x l IH]; [done|]. cbn. by rewrite insert_item_perm, IH. Qed.

(** Only the keys decide. *)
Lemma insert_item_Forall2 (R : string * A → string * B → Prop) x y l k :
  (∀ x y, R x y → x.1 = y.1) → R x y → Forall2 R l k → Forall2 R (insert_item x l) (insert_item y k).
Proof.
  intros HR Hxy Hl. induction Hl as [|x' y' l k Hxy' Hl IH]; cbn; [by repeat constructor|].
  rewrite (HR _ _ Hxy), (HR _ _ Hxy'). destruct (String.leb _ _); by repeat constructor.
Qed.
Lemma sort_items_Forall2 (R : string * A → string * B → Prop) l k :
  (∀ x y, R x y → x.1 = y.1) → Forall2 R l k → Forall2 R (sort_items l) (sort_items k).
Proof.
  intros HR Hl. induction Hl as [|x y l k Hxy _ IH]; cbn; [constructor|]. by apply insert_item_Forall2.
Qed.

(** The order of distinct keys does not matter. *)
Definition key_le (x y : string * A) : Prop := String.le x.1 y.1.

Lemma insert_item_sorted x l : StronglySorted key_le l → StronglySorted key_le (insert_item x l).
Proof.
  induction 1 as [|y l Hl IH Hy]; cbn; [by repeat constructor|].
  destruct (String.leb x.1 y.1) eqn:E.
  - assert (key_le x y) as Hxy by (unfold key_le, String.le; by rewrite E).
    constructor; [by constructor|]. constructor; [done|].
    eapply Forall_impl; [exact Hy|]. intros z Hz. unfold key_le in *. by etrans.
  - constructor; [done|]. rewrite Forall_forall in Hy |- *. intros z Hz.
    rewrite insert_item_perm in Hz. apply elem_of_cons in Hz as [->|Hz]; [|by apply Hy].
    unfold key_le, String.le. destruct (String.leb_total y.1 x.1) as [->|Hxy]; [done|congruence].
Qed.
Lemma sort_items_sorted l : StronglySorted key_le (sort_items l).
Proof. induction l as [|x l IH]; cbn; [constructor|]. by apply insert_item_sorted. Qed.

Lemma sort_items_proper (l k : list (string * A)) :
  NoDup l.*1 → l ≡ₚ k → sort_items l = sort_items k.
Proof.
  intros Hnd Hlk. apply (StronglySorted_unique_strong key_le); [|apply sort_items_sorted..|].
  - intros x y Hx Hy Hxy Hyx. unfold key_le in *.
    assert (x.1 = y.1) as Hk by (by apply (anti_symm String.le)).
    rewrite sort_items_perm in Hx. rewrite sort_items_perm, <- Hlk in Hy.
    apply list_elem_of_lookup_1 in Hx as [i Hi]. apply list_elem_of_lookup_1 in Hy as [j Hj].
    assert (i = j) as ->; [|congruence].
    apply (NoDup_lookup l.*1 i j x.1); [done|..]; rewrite list_lookup_fmap; [by rewrite Hi|].
    rewrite Hj. cbn. congruence.
  - by rewrite !sort_items_perm.
Qed.
End Sorting.

(** ** Values *)

Lemma comma_join_items ts : comma_items ts (comma_join ts).
Proof.
  induction ts as [|t [|t' ts] IH]; [constructor..|].
  change (comma_items (t :: t' :: ts) (t +:+ "," +:+ " " +:+ comma_join (t' :: ts))).
  apply items_cons; [by left|done|done].
Qed.

Lemma layout_items_ok {A} (E : A → string → Prop) xs ps indent allowance level t :
  Forall2 (fun x (p : Printer) => ∀ i a t, p i a level = Ret t → E x t) xs ps →
  layout_items ps indent allowance level = Ret t →
  ∃ ts, Forall2 E xs ts ∧ comma_items ts t.
Proof.
  intros Hall. revert t. induction Hall as [|x p xs ps Hp Hall IH]; intros t.
  { intros [= <-]. exists []. split; constructor. }
  destruct ps as [|p' ps].
  - intros Ht. exists [t]. apply Forall2_nil_inv_r in Hall as ->. split; [|constructor].
    constructor; [by eapply Hp|constructor].
  - intros (t1 & H1 & (r & Hr & [= <-])%outcome_bind_Ret)%outcome_bind_Ret.
    destruct (IH r Hr) as (ts & Hts & Hr'). exists (t1 :: ts). split; [constructor; [by eapply Hp|done]|].
    change (comma_items (t1 :: ts) (t1 +:+ "," +:+ break indent +:+ r)).
    apply items_cons; [right; by eexists| |done]. inversion Hall; subst. by inversion Hts.
Qed.

Lemma mapM_Ret {A B} (f : A → outcome B) l ts :
  mapM f l = Ret ts ↔ Forall2 (fun x t => f x = Ret t) l ts.
Proof.
  split.
  - revert ts. induction l as [|x l IH]; intros ts; [intros [= <-]; constructor|]. cbn.
    intros (t & Ht & (us & Hus & [= <-])%outcome_bind_Ret)%outcome_bind_Ret. constructor; auto.
  - induction 1 as [|x t l ts Hx _ IH]; [done|]. cbn. by rewrite Hx, IH.
Qed.

Section Expressions.
Variable tz : Z → string.

Definition pair_expr (kv : string * value) (t : string) : Prop :=
  ∃ t', expr tz true kv.2 t' ∧ t = str_repr kv.1 +:+ ": " +:+ t'.

Lemma repr_expr v : ∀ inside t, safe_repr tz v = Ret t → expr tz inside v t.
Proof.
  induction v as [| | | | | |l IH|d IH| |] using value_ind'; intros inside t Ht;
    try (by apply expr_atom); try (injection Ht as <-; first [apply expr_str|apply expr_bytes]); try done.
  - cbn in Ht. apply outcome_bind_Ret in Ht as (ts & Hts%mapM_Ret & [= <-]).
    eapply expr_list; [|apply comma_join_items].
    clear -IH Hts. induction Hts as [|v t l ts Hv _ IHl]; [constructor|].
    apply Forall_cons in IH as [Hi IH]. constructor; auto.
  - cbn in Ht. apply outcome_bind_Ret in Ht as (kts & Hkts%mapM_Ret & [= <-]).
    eapply expr_dict; [symmetry; apply sort_items_perm| |apply comma_join_items].
    apply Forall2_fmap_r.
    eapply Forall2_impl;
      [apply (sort_items_Forall2 (fun kv kt => kv.1 = kt.1 ∧ expr tz true kv.2 kt.2) d kts); [by intros ?? []|]|].
    + clear -IH Hkts. induction Hkts as [|[k v] [k' t] d kts Hv _ IHd]; [constructor|].
      apply Forall_cons in IH as [Hi IH]. cbn in Hv. apply outcome_bind_Ret in Hv as (t' & Ht & [= <- <-]).
      constructor; [split; [done|]; cbn; by apply Hi|by auto].
    + intros kv kt [Hk Ht]. exists kt.2. by rewrite Hk.
Qed.

Lemma format_expr v indent allowance level t :
  format tz v indent allowance level = Ret t → expr tz (negb (level =? 0)%nat) v t.
Proof.
  revert indent allowance level t.
  induction v as [| | | | | |l IH|d IH| |] using value_ind'; intros indent allowance level t;
    cbn [format]; intros (rep & Hrep & Ht)%outcome_bind_Ret;
    destruct (len rep <=? _); try (injection Ht as <-; by apply repr_expr).
  - injection Ht as <-. by apply (pprint_str_expr tz s indent allowance (S level)); lia.
  - apply outcome_bind_Ret in Ht as (r & Hr & [= <-]).
    apply (layout_items_ok (expr tz true) l) in Hr as (ts & Hts & Hi).
    2:{ apply Forall2_fmap_r, Forall_Forall2_diag. eapply Forall_impl; [exact IH|].
      intros v Hv i a t Hf. exact (Hv i a (S level) t Hf). }
    by eapply expr_list.
  - apply outcome_bind_Ret in Ht as (r & Hr & [= <-]).
    apply (layout_items_ok pair_expr (sort_items d)) in Hr as (ts & Hts & Hi).
    2:{ apply Forall2_fmap_r. eapply Forall2_impl;
        [apply (sort_items_Forall2 (fun kv (kp : string * Printer) => kv.1 = kp.1 ∧
           ∀ i a t, kp.2 i a (S level) = Ret t → expr tz true kv.2 t) d); [by intros ?? []|]|].
      - apply Forall2_fmap_r, Forall_Forall2_diag. eapply Forall_impl; [exact IH|].
        intros [k v] Hv. split; [done|]. intros i a t Hf. exact (Hv i a (S level) t Hf).
      - intros kv kp [Hk Hp] i a t (t' & Ht' & [= <-])%outcome_bind_Ret. exists t'.
        rewrite Hk. split; [by eapply Hp|done]. }
    eapply expr_dict; [symmetry; apply sort_items_perm|exact Hts|done].
  - injection Ht as <-. by apply (pprint_bytes_expr tz s indent allowance (S level)); lia.
Qed.
End Expressions.

(** ** When [pformat] returns *)

(** Data whose integers are within the limit of digits. *)
Fixpoint reprable (v : value) : bool :=
  match v with
  | VInt z => (String.length (dec (Z.abs z)) <=? int_max_str_digits)%nat
  | VList l => forallb reprable l
  | VDict d => forallb (fun kv => reprable kv.2) d
  | VObj _ _ => false
  | _ => true
  end.

Lemma mapM_returns {A B} (f : A → outcome B) l :
  Forall (fun x => ∃ t, f x = Ret t) l → ∃ ts, mapM f l = Ret ts.
Proof. induction 1 as [|x l [t Ht] _ [ts IH]]; [by exists []|]. cbn. rewrite Ht. cbn. rewrite IH. by eexists. Qed.

Lemma layout_items_returns ps indent allowance level :
  Forall (fun p : Printer => ∀ i a, ∃ t, p i a level = Ret t) ps →
  ∃ t, layout_items ps indent allowance level = Ret t.
Proof.
  induction 1 as [|p ps Hp _ [r IH]]; [by eexists|]. destruct ps as [|p' ps]; [apply Hp|].
  destruct (Hp indent 1) as [t Ht].
  change (∃ u, (t ← p indent 1 level; r ← layout_items (p' :: ps) indent allowance level;
                Ret (t +:+ "," +:+ break indent +:+ r)) = Ret u).
  rewrite Ht, IH. by eexists.
Qed.

Section Returns.
Variable tz : Z → string.

Lemma safe_repr_returns v : reprable v = true → ∃ t, safe_repr tz v = Ret t.
Proof.
  induction v as [|b|z| | | |l IH|d IH| |] using value_ind'; intros Hv; try done; try (by eexists).
  - destruct b; by eexists.
  - cbn [safe_repr reprable] in *. unfold int_repr. rewrite Hv. by eexists.
  - cbn in *. destruct (mapM_returns (safe_repr tz) l) as [ts ->]; [|by eexists].
    rewrite forallb_forall in Hv. rewrite Forall_forall in IH |- *. intros x Hx.
    by apply IH, Hv, list_elem_of_In.
  - cbn in *. destruct (mapM_returns (fun kv => t ← safe_repr tz kv.2; Ret (kv.1, t)) d) as [ts ->]; [|by eexists].
    rewrite forallb_forall in Hv. rewrite Forall_forall in IH |- *. intros x Hx.
    destruct (IH x Hx) as [t ->]; [by apply Hv, list_elem_of_In|by eexists].
Qed.

(** What fits the rest of the line is written as its [repr]. *)
Lemma format_fits v rep indent allowance level :
  safe_repr tz v = Ret rep → (len rep <=? page_width - indent - allowance) = true →
  format tz v indent allowance level = Ret rep.
Proof. intros Hv E. destruct v; cbn [format]; rewrite Hv; cbn [mbind outcome_bind]; by rewrite E. Qed.

Lemma format_repr v indent allowance level t :
  format tz v indent allowance level = Ret t → ∃ rep, safe_repr tz v = Ret rep.
Proof. destruct v; cbn [format]; intros (rep & Hrep & _)%outcome_bind_Ret; by exists rep. Qed.

Lemma format_returns v indent allowance level :
  reprable v = true → ∃ t, format tz v indent allowance level = Ret t.
Proof.
  revert indent allowance level.
  induction v as [| | | | | |l IH|d IH| |] using value_ind'; intros indent allowance level Hv;
    cbn [format]; destruct (safe_repr_returns _ Hv) as [rep ->]; cbn [mbind outcome_bind];
    destruct (len rep <=? _); try (by eexists).
  - destruct (layout_items_returns (map (format tz) l) (indent + 1) (allowance + 1) (S level)) as [t ->];
      [|by eexists].
    cbn in Hv. rewrite forallb_forall in Hv. rewrite Forall_forall in IH. apply Forall_fmap, Forall_forall.
    intros x Hx i a. by apply IH, Hv, list_elem_of_In.
  - destruct (layout_items_returns
      (map pair_printer (sort_items (map (fun kv => (kv.1, format tz kv.2)) d)))
      (indent + 1) (allowance + 1) (S level)) as [t ->]; [|by eexists].
    cbn in Hv. rewrite forallb_forall in Hv. rewrite Forall_forall in IH. apply Forall_fmap, Forall_forall.
    intros kp Hkp i a. rewrite sort_items_perm in Hkp. apply list_elem_of_fmap_1 in Hkp as (kv & -> & Hkv).
    unfold pair_printer. cbn [fst snd].
    destruct (IH kv Hkv (i + len (str_repr kv.1) + 2) a (S level)) as [t Ht];
      [by apply Hv, list_elem_of_In|]. cbn. rewrite Ht. by eexists.
Qed.
End Returns.

(** ** The order of dictionaries *)

(** Values that differ in the order of their dictionaries only, at any depth. *)
Inductive same_value : value → value → Prop :=
| same_refl v : same_value v v
| same_list l l' : Forall2 same_value l l' → same_value (VList l) (VList l')
| same_dict d d1 d' :
    NoDup d.*1 → d ≡ₚ d1 →
    Forall2 (fun kv kv' => kv.1 = kv'.1 ∧ same_value kv.2 kv'.2) d1 d' →
    same_value (VDict d) (VDict d').

Lemma layout_items_ext ps qs indent allowance level :
  Forall2 (fun p q : Printer => ∀ i a, p i a level = q i a level) ps qs →
  layout_items ps indent allowance level = layout_items qs indent allowance level.
Proof.
  induction 1 as [|p q ps qs Hp Hps IH]; [done|].
  destruct Hps as [|p' q' ps qs Hp' Hps]; [apply Hp|].
  change ((t ← p indent 1 level; r ← layout_items (p' :: ps) indent allowance level;
           Ret (t +:+ "," +:+ break indent +:+ r)) =
          (t ← q indent 1 level; r ← layout_items (q' :: qs) indent allowance level;
           Ret (t +:+ "," +:+ break indent +:+ r))).
  by rewrite Hp, IH.
Qed.

Section Order.
Variable tz : Z → string.

Definition same_text (v w : value) : Prop :=
  ∀ rep, safe_repr tz v = Ret rep →
    safe_repr tz w = Ret rep ∧ ∀ i a level, format tz v i a level = format tz w i a level.

Lemma format_unfold v w rep i a level :
  safe_repr tz v = Ret rep → safe_repr tz w = Ret rep →
  ((len rep <=? page_width - i - a) = false → format tz v i a level = format tz w i a level) →
  format tz v i a level = format tz w i a level.
Proof.
  intros Hv Hw Hlong. destruct (len rep <=? page_width - i - a) eqn:E; [|by apply Hlong].
  by rewrite (format_fits tz v rep i a level Hv E), (format_fits tz w rep i a level Hw E).
Qed.

Lemma same_text_list l l' : Forall2 same_text l l' → same_text (VList l) (VList l').
Proof.
  intros Hl rep Hrep.
  assert (safe_repr tz (VList l') = Ret rep ∧
          Forall2 (fun v w => ∀ i a level, format tz v i a level = format tz w i a level) l l') as [Hrep' Hf].
  { cbn in Hrep |- *. apply outcome_bind_Ret in Hrep as (ts & Hts%mapM_Ret & [= <-]).
    assert (Forall2 (fun x t => safe_repr tz x = Ret t) l' ts ∧
            Forall2 (fun v w => ∀ i a level, format tz v i a level = format tz w i a level) l l') as [H1 H2].
    { clear -Hl Hts. revert ts Hts. induction Hl as [|v w l l' Hv _ IH]; intros ts Hts.
      - apply Forall2_nil_inv_l in Hts as ->. by split.
      - apply Forall2_cons_inv_l in Hts as (t & ts' & Ht & Hts & ->). destruct (IH _ Hts), (Hv _ Ht).
        split; by constructor. }
    split; [|done]. apply mapM_Ret in H1. by rewrite H1. }
  split; [done|]. intros i a level. apply (format_unfold _ _ rep); [done..|]. intros E. cbn [format].
  rewrite Hrep, Hrep'. cbn [mbind outcome_bind]. rewrite E.
  rewrite (layout_items_ext (map (format tz) l) (map (format tz) l')); [done|].
  apply Forall2_fmap. eapply Forall2_impl; [exact Hf|]. auto.
Qed.

Definition repr_item (kv : string * value) : outcome (string * string) :=
  t ← safe_repr tz kv.2; Ret (kv.1, t).
Lemma safe_repr_dict d :
  safe_repr tz (VDict d) =
  kts ← mapM repr_item d;
  Ret ("{" +:+ comma_join (map (fun kt => str_repr kt.1 +:+ ": " +:+ kt.2) (sort_items kts)) +:+ "}").
Proof. done. Qed.

Lemma same_text_dict d d1 d' :
  NoDup d.*1 → d ≡ₚ d1 → Forall2 (fun kv kv' => kv.1 = kv'.1 ∧ same_text kv.2 kv'.2) d1 d' →
  same_text (VDict d) (VDict d').
Proof.
  intros Hnd Hp Hd rep Hrep. pose proof Hrep as Hrep0. rewrite safe_repr_dict in Hrep.
  apply outcome_bind_Ret in Hrep as (kts & Hkts%mapM_Ret & [= Hrep]).
  destruct (Permutation_Forall2 Hp Hkts) as (kts1 & Hk & Hk1).
  assert (Forall2 (fun kv kt => repr_item kv = Ret kt) d' kts1 ∧
          Forall2 (fun kv kv' => kv.1 = kv'.1 ∧
            ∀ i a level, format tz kv.2 i a level = format tz kv'.2 i a level) d1 d') as [Hd' Hf].
  { clear -Hd Hk1. revert kts1 Hk1. induction Hd as [|[k v] [k' w] d1 d' [Hk Hv] _ IH]; intros kts1 Hk1.
    - apply Forall2_nil_inv_l in Hk1 as ->. by split.
    - apply Forall2_cons_inv_l in Hk1 as (kt & kts' & Ht & Hk1 & ->). destruct (IH _ Hk1).
      unfold repr_item in Ht. cbn in Hk, Hv, Ht. subst k'. apply outcome_bind_Ret in Ht as (t & Ht & [= <-]).
      destruct (Hv _ Ht) as [Hw Hf]. split; (constructor; [|done]); [unfold repr_item; cbn; by rewrite Hw|done]. }
  assert (kts.*1 = d.*1) as Hkeys.
  { clear -Hkts. induction Hkts as [|kv kt d kts Ht _ IH]; [done|]. rewrite !fmap_cons, IH.
    unfold repr_item in Ht. by apply outcome_bind_Ret in Ht as (t & _ & [= <-]). }
  assert (safe_repr tz (VDict d') = Ret rep) as Hrep'.
  { rewrite safe_repr_dict. apply mapM_Ret in Hd'. rewrite Hd'. cbn [mbind outcome_bind].
    rewrite <- (sort_items_proper kts kts1), <- Hrep; [done|by rewrite Hkeys|done]. }
  split; [done|]. intros i a level. apply (format_unfold _ _ rep); [done..|]. intros E. cbn [format].
  rewrite Hrep0, Hrep'. cbn [mbind outcome_bind]. rewrite E.
  set (pr := fun kv : string * value => (kv.1, format tz kv.2)).
  rewrite (sort_items_proper (map pr d) (map pr d1)).
  2:{ change (map pr d) with (pr <$> d). by rewrite <- list_fmap_compose. }
  2:{ by rewrite Hp. }
  rewrite (layout_items_ext (map pair_printer (sort_items (map pr d1)))
    (map pair_printer (sort_items (map pr d')))); [done|].
  apply Forall2_fmap. eapply Forall2_impl;
    [apply (sort_items_Forall2 (fun kp kq : string * Printer => kp.1 = kq.1 ∧
       ∀ i a level, kp.2 i a level = kq.2 i a level)); [by intros ?? []|]|].
  - apply Forall2_fmap. exact Hf.
  - intros [k p] [k' q] [Hkk Hpq] i' a'. cbn in Hkk, Hpq. subst k'. unfold pair_printer. cbn. by rewrite Hpq.
Qed.

Lemma same_value_text v w : same_value v w → same_text v w.
Proof.
  revert w. induction v as [| | | | | |l IH|d IH| |] using value_ind'; intros w Hw;
    inversion Hw as [|? l' Hl|? d1 d' Hnd Hp Hd]; subst; try (by intros rep Hrep).
  - apply same_text_list. clear -IH Hl. induction Hl as [|v w l l' Hv _ IHl]; [constructor|].
    apply Forall_cons in IH as [Hi IH]. constructor; auto.
  - eapply same_text_dict; [done..|]. rewrite Hp in IH. clear -IH Hd.
    induction Hd as [|kv kv' d1 d' [Hk Hv] _ IHd]; [constructor|].
    apply Forall_cons in IH as [Hi IH]. constructor; auto.
Qed.
End Order.
