(* ===== verification/Pydantic.v ===== *)
(** * pydantic models and the generated (de)serialisers

    The classes under api/python_api/kubeflow_trainer_api/models are generated
    from one template: a pydantic model with typed fields, a [to_dict] that
    overrides pydantic's dump for the fields that hold models, and a [from_dict]
    that rebuilds the nested models before validation. pydantic itself is the
    class [Pydantic] with the documented behaviour the template relies on; the
    statements of the template are the combinators [Override] and [Entry], from
    which each class is written as its source is. *)

From S2P Require Import Prelude PyStr PyValue Json PPrint.
Local Open Scope string_scope.
Local Open Scope bool_scope.
Local Open Scope list_scope.

(** ** Annotations and schemas *)

(** A field of a model: attribute name, alias (the JSON key), annotation,
    default ([None] for a required field), and its [field_validator], which
    raises or returns its argument unchanged. The class variable [__properties]
    of a class repeats the aliases in order and is not read. *)
Record Field (A : Type) : Type := MkField {
  f_name : string;
  f_alias : string;
  f_ann : A;
  f_default : option value;
  f_check : value → outcome unit;
}.
Arguments MkField {A} f_name f_alias f_ann f_default f_check.
Arguments f_name {A} f.
Arguments f_alias {A} f.
Arguments f_ann {A} f.
Arguments f_default {A} f.
Arguments f_check {A} f _.

Inductive ann : Type :=
| StrictStr
| StrictInt
| StrictBool
| StrictFloat
| StrictBytes
| LaxStr                              (* [str] *)
| LaxInt                              (* [int] *)
| LaxFloat                            (* [float] *)
| Datetime
| AnyValue
| Union (a b : ann)
| Optional (a : ann)
| List (a : ann)
| Dict (a : ann)                      (* keys are strings *)
| Model (s : Schema)
with Schema : Type :=
| MkSchema (name : string) (fields : list (Field ann))
    (inv : option (list (string * value) → bool)).

(** Induction on annotations, through the fields of the models. *)
Definition base_ann (a : ann) : bool :=
  match a with Union _ _ | Optional _ | List _ | Dict _ | Model _ => false | _ => true end.

Section AnnInd.
Variable P : ann → Prop.
Hypothesis Hbase : ∀ a, base_ann a = true → P a.
Hypothesis Hunion : ∀ a b, P a → P b → P (Union a b).
Hypothesis Hoptional : ∀ a, P a → P (Optional a).
Hypothesis Hlist : ∀ a, P a → P (List a).
Hypothesis Hdict : ∀ a, P a → P (Dict a).
Hypothesis Hmodel : ∀ n fs inv, Forall (fun f => P (f_ann f)) fs → P (Model (MkSchema n fs inv)).

Fixpoint ann_ind' (a : ann) : P a :=
  match a with
  | Union a b => Hunion a b (ann_ind' a) (ann_ind' b)
  | Optional a => Hoptional a (ann_ind' a)
  | List a => Hlist a (ann_ind' a)
  | Dict a => Hdict a (ann_ind' a)
  | Model (MkSchema n fs inv) =>
      Hmodel n fs inv
        ((fix go (fs : list (Field ann)) : Forall (fun f => P (f_ann f)) fs :=
            match fs with
            | [] => List.Forall_nil _
            | f :: fs' => @List.Forall_cons _ (fun f => P (f_ann f)) f fs' (ann_ind' (f_ann f)) (go fs')
            end) fs)
  | StrictStr => Hbase StrictStr eq_refl
  | StrictInt => Hbase StrictInt eq_refl
  | StrictBool => Hbase StrictBool eq_refl
  | StrictFloat => Hbase StrictFloat eq_refl
  | StrictBytes => Hbase StrictBytes eq_refl
  | LaxStr => Hbase LaxStr eq_refl
  | LaxInt => Hbase LaxInt eq_refl
  | LaxFloat => Hbase LaxFloat eq_refl
  | Datetime => Hbase Datetime eq_refl
  | AnyValue => Hbase AnyValue eq_refl
  end.
End AnnInd.

Definition s_name (s : Schema) : string := let '(MkSchema n _ _) := s in n.
Definition s_fields (s : Schema) : list (Field ann) := let '(MkSchema _ fs _) := s in fs.
(** A relation between the attributes of the instances, for the one-of classes. *)
Definition inv_holds (inv : option (list (string * value) → bool)) (attrs : list (string * value)) :
    bool :=
  match inv with None => true | Some i => i attrs end.
Definition s_inv (s : Schema) : list (string * value) → bool :=
  let '(MkSchema _ _ i) := s in inv_holds i.

Definition no_check (v : value) : outcome unit := Ret tt.
Definition model (name : string) (fields : list (Field ann)) : Schema :=
  MkSchema name fields None.

(** [name: a = Field(...)], [name: Optional[a] = Field(default=None, ...)] and
    [name: Optional[a] = Field(default=d, ...)], each with its alias. *)
Definition req (name alias : string) (a : ann) : Field ann := MkField name alias a None no_check.
Definition opt (name alias : string) (a : ann) : Field ann :=
  MkField name alias (Optional a) (Some VNone) no_check.
Definition opt_or (name alias : string) (a : ann) (d : value) : Field ann :=
  MkField name alias (Optional a) (Some d) no_check.
Definition checked (f : Field ann) (check : value → outcome unit) : Field ann :=
  MkField (f_name f) (f_alias f) (f_ann f) (f_default f) check.

(** ** The generated enum validators *)

Definition in_enum (values : list string) (v : value) : bool :=
  match v with VStr s => bool_decide (s ∈ values) | _ => false end.
Definition enum_error : exn := ValueError "must be one of enum values".

(** [if value not in set([...]): raise ValueError(...)]. *)
Definition one_of (values : list string) (v : value) : outcome unit :=
  if in_enum values v then Ret tt else Raise enum_error.
(** The same after [if value is None: return value]. *)
Definition none_or_one_of (values : list string) (v : value) : outcome unit :=
  match v with VNone => Ret tt | _ => one_of values v end.
Fixpoint check_all (values : list string) (l : list value) : outcome unit :=
  match l with
  | [] => Ret tt
  | x :: l' => one_of values x ≫= fun _ => check_all values l'
  end.
(** [for i in value: if i not in set([...]): raise ValueError(...)]. *)
Definition none_or_each_of (values : list string) (v : value) : outcome unit :=
  match v with
  | VNone => Ret tt
  | _ => l ← iter v; check_all values l
  end.

(** [v.items()]. *)
Definition items (v : value) : outcome (list (string * value)) :=
  match v with VDict d => Ret d | _ => Raise (AttributeError "items") end.

(** The same over [value.values()]. *)
Definition none_or_each_value_of (values : list string) (v : value) : outcome unit :=
  match v with
  | VNone => Ret tt
  | _ => d ← items v; check_all values d.*2
  end.

(** ** Types of values *)

(** No class instance inside. *)
Fixpoint plain (v : value) : bool :=
  match v with
  | VList l => forallb plain l
  | VDict d => forallb (fun kv => plain kv.2) d
  | VObj _ _ => false
  | _ => true
  end.

Definition unit_ok (r : outcome unit) : bool := match r with Ret _ => true | _ => false end.
Definition is_none (v : value) : bool := match v with VNone => true | _ => false end.
(** A field whose default is not [None] does not hold an explicit [None]. *)
Definition default_kept (f : Field ann) (v : value) : bool :=
  match f_default f with
  | Some VNone | None => true
  | Some _ => negb (is_none v)
  end.

(** The instances that writing and reading back leaves as they are, nested models
    included: values of the annotations, the attributes of a one-of class related
    as its [from_json] leaves them, and no explicit [None] over another default.
    [conforms] below is the type of the instances alone. *)
Fixpoint settled (a : ann) (v : value) {struct a} : bool :=
  match a, v with
  | (StrictStr | LaxStr), VStr _ => true
  | (StrictInt | LaxInt), VInt _ => true
  | StrictBool, VBool _ => true
  | (StrictFloat | LaxFloat), VFloat _ _ => true
  | StrictBytes, VBytes _ => true
  | Datetime, VDatetime _ _ => true
  | AnyValue, _ => plain v
  | Union a1 a2, _ => settled a1 v || settled a2 v
  | Optional _, VNone => true
  | Optional a', _ => settled a' v
  | List a', VList l => forallb (settled a') l
  | Dict a', VDict d => distinct (map fst d) && forallb (fun kv => settled a' kv.2) d
  | Model (MkSchema n fs inv), VObj c attrs =>
      String.eqb c n && inv_holds inv attrs &&
      (fix go (fs : list (Field ann)) (attrs : list (string * value)) : bool :=
         match fs, attrs with
         | [], [] => true
         | f :: fs', (k, x) :: attrs' =>
             String.eqb k (f_name f) && settled (f_ann f) x && default_kept f x &&
             unit_ok (f_check f x) && go fs' attrs'
         | _, _ => false
         end) fs attrs
  | _, _ => false
  end.

(** The instances of the annotations, nested models included: every attribute has
    the type of its field and passes its validator. *)
Fixpoint conforms (a : ann) (v : value) {struct a} : bool :=
  match a, v with
  | (StrictStr | LaxStr), VStr _ => true
  | (StrictInt | LaxInt), VInt _ => true
  | StrictBool, VBool _ => true
  | (StrictFloat | LaxFloat), VFloat _ _ => true
  | StrictBytes, VBytes _ => true
  | Datetime, VDatetime _ _ => true
  | AnyValue, _ => plain v
  | Union a1 a2, _ => conforms a1 v || conforms a2 v
  | Optional _, VNone => true
  | Optional a', _ => conforms a' v
  | List a', VList l => forallb (conforms a') l
  | Dict a', VDict d => distinct (map fst d) && forallb (fun kv => conforms a' kv.2) d
  | Model (MkSchema n fs _), VObj c attrs =>
      String.eqb c n &&
      (fix go (fs : list (Field ann)) (attrs : list (string * value)) : bool :=
         match fs, attrs with
         | [], [] => true
         | f :: fs', (k, x) :: attrs' =>
             String.eqb k (f_name f) && conforms (f_ann f) x && unit_ok (f_check f x) &&
             go fs' attrs'
         | _, _ => false
         end) fs attrs
  | _, _ => false
  end.

(** Annotations without models, whose instances are dumped as they are. *)
Fixpoint plain_ann (a : ann) : bool :=
  match a with
  | Model _ => false
  | Union a b => plain_ann a && plain_ann b
  | Optional a | List a | Dict a => plain_ann a
  | _ => true
  end.

(** A value that validation returns unchanged: of exactly the annotated type;
    instances of models are not looked into. *)
Fixpoint accepts (a : ann) (v : value) {struct a} : bool :=
  match a, v with
  | (StrictStr | LaxStr), VStr _ => true
  | (StrictInt | LaxInt), VInt _ => true
  | StrictBool, VBool _ => true
  | (StrictFloat | LaxFloat), VFloat _ _ => true
  | StrictBytes, VBytes _ => true
  | Datetime, VDatetime _ _ => true
  | AnyValue, _ => true
  | Union a1 a2, _ => accepts a1 v || accepts a2 v
  | Optional _, VNone => true
  | Optional a', _ => accepts a' v
  | List a', VList l => forallb (accepts a') l
  | Dict a', VDict d => forallb (fun kv => accepts a' kv.2) d
  | Model s, VObj c _ => String.eqb c (s_name s)
  | _, _ => false
  end.

(** A value that validation certainly refuses. *)
Fixpoint rejects (a : ann) (v : value) {struct a} : bool :=
  match a, v with
  | StrictStr, VStr _ | StrictInt, VInt _ | StrictBool, VBool _ => false
  | StrictFloat, (VFloat _ _ | VInt _) => false
  | StrictBytes, VBytes _ => false
  | (StrictStr | StrictInt | StrictBool | StrictFloat | StrictBytes), _ => true
  | LaxStr, (VStr _ | VBytes _) => false
  | LaxStr, _ => true
  | (LaxInt | LaxFloat), (VNone | VList _ | VDict _) => true
  | Datetime, (VNone | VList _ | VDict _) => true
  | Union a1 a2, _ => rejects a1 v && rejects a2 v
  | Optional _, VNone => false
  | Optional a', _ => rejects a' v
  | List a', VList l =>
      existsb (rejects a') l && forallb (fun x => accepts a' x || rejects a' x) l
  | List _, (VNone | VBool _ | VInt _ | VFloat _ _ | VStr _ | VDict _ | VDatetime _ _) => true
  | Dict a', VDict d =>
      existsb (fun kv => rejects a' kv.2) d &&
      forallb (fun kv => accepts a' kv.2 || rejects a' kv.2) d
  | Dict _, (VNone | VBool _ | VInt _ | VFloat _ _ | VStr _ | VList _ | VDatetime _ _) => true
  | Model _, (VNone | VBool _ | VInt _ | VFloat _ _ | VStr _ | VList _ | VDatetime _ _ | VBytes _) => true
  | _, _ => false
  end.

(** The data of an instance, nested models included, under the aliases and with
    the attributes that are [None]. *)
Fixpoint dump_all (a : ann) (v : value) {struct a} : value :=
  if plain_ann a then v else
  match a, v with
  | Optional _, VNone => VNone
  | Optional a', _ => dump_all a' v
  | List a', VList l => VList (map (dump_all a') l)
  | Dict a', VDict d => VDict (map (fun kv => (kv.1, dump_all a' kv.2)) d)
  | Model (MkSchema _ fs _), VObj _ attrs =>
      VDict ((fix go (fs : list (Field ann)) (attrs : list (string * value)) :=
        match fs, attrs with
        | f :: fs', (_, x) :: attrs' => (f_alias f, dump_all (f_ann f) x) :: go fs' attrs'
        | _, _ => []
        end) fs attrs)
  | _, _ => v
  end.

(** No instance of a one-of class inside: the dump of such an instance has the set
    [one_of_schemas], which is not a value of this development. *)
Fixpoint without_oneof (a : ann) (v : value) {struct a} : bool :=
  if plain_ann a then true else
  match a, v with
  | Optional _, VNone => true
  | Optional a', _ => without_oneof a' v
  | List a', VList l => forallb (without_oneof a') l
  | Dict a', VDict d => forallb (fun kv => without_oneof a' kv.2) d
  | Model (MkSchema _ fs inv), VObj _ attrs =>
      match inv with
      | Some _ => false
      | None =>
          (fix go (fs : list (Field ann)) (attrs : list (string * value)) :=
             match fs, attrs with
             | f :: fs', (_, x) :: attrs' => without_oneof (f_ann f) x && go fs' attrs'
             | _, _ => true
             end) fs attrs
      end
  | _, _ => true
  end.

(** ** pydantic *)

(** [validate a v] validates [v] against the annotation [a]; [cls.model_validate]
    is the case [Model]. [model_dump] is called with [by_alias=True] and
    [exclude_none=True], [model_dump_by_alias] with [by_alias=True] alone.
    [tzinfo_repr] is the [repr] of the time zones of the datetimes it makes. *)
Class Pydantic : Type := {
  validate : ann → value → outcome value;
  model_dump : Schema → value → outcome (list (string * value));
  model_dump_by_alias : Schema → value → outcome value;
  tzinfo_repr : Z → string;
}.

Definition model_validate `{Pydantic} (s : Schema) (v : value) : outcome value :=
  validate (Model s) v.

(** A field is validated against its annotation, then by its validator, whose
    [ValueError] becomes a [ValidationError]. *)
Definition validate_field `{Pydantic} (f : Field ann) (v : value) : outcome value :=
  x ← validate (f_ann f) v;
  match f_check f x with
  | Ret _ => Ret x
  | Raise (ValueError what) => Raise (ValidationError what)
  | Raise e => Raise e
  | OutOfFuel => OutOfFuel
  end.

(** The argument of a field in keyword arguments: by alias, by name, or the default
    as it is. *)
Definition argument (d : list (string * value)) (f : Field ann) : option value + value :=
  match dict_get d (f_alias f), dict_get d (f_name f) with
  | Some v, _ => inr v
  | None, Some v => inr v
  | None, None => inl (f_default f)
  end.

(** The dump of the attributes [attrs] of the fields [fs]: one entry per
    attribute that is not [None], in order, under its alias; data without models
    is dumped as it is. *)
Inductive dumped : list (Field ann) → list (string * value) → list (string * value) → Prop :=
| dumped_nil : dumped [] [] []
| dumped_none f fs k attrs d :
    dumped fs attrs d → dumped (f :: fs) ((k, VNone) :: attrs) d
| dumped_some f fs k v w attrs d :
    v ≠ VNone → (plain v = true → w = v) →
    dumped fs attrs d → dumped (f :: fs) ((k, v) :: attrs) ((f_alias f, w) :: d).

(** Validation returns a value or raises a [ValidationError]. *)
Definition decides (r : outcome value) : Prop :=
  (∃ x, r = Ret x) ∨ ∃ what, r = Raise (ValidationError what).

(** What is relied on. *)
Class PydanticLaws `{Pydantic} : Prop := {
  validate_accepts a v : accepts a v = true → validate a v = Ret v;
  validate_rejects a v : rejects a v = true → ∃ what, validate a v = Raise (ValidationError what);
  validate_kwargs s d attrs :
    Forall2 (fun f kx => kx.1 = f_name f ∧
               match dict_get d (f_alias f) with
               | Some v => validate_field f v = Ret kx.2
               | None => dict_get d (f_name f) = None ∧ f_default f = Some kx.2
               end) (s_fields s) attrs →
    validate (Model s) (VDict d) = Ret (VObj (s_name s) attrs);
  validate_dict_error s d :
    Forall (fun f => ∃ v, dict_get d (f_alias f) = Some v ∧ decides (validate_field f v))
      (s_fields s) →
    Exists (fun f => ∃ v, dict_get d (f_alias f) = Some v ∧
              ∃ what, validate_field f v = Raise (ValidationError what)) (s_fields s) →
    ∃ what, validate (Model s) (VDict d) = Raise (ValidationError what);
  validate_decides a v : plain_ann a = true → decides (validate a v);
  validate_plain a v x :
    plain_ann a = true → data v = true → validate a v = Ret x → settled a x = true;
  validate_optional a v x :
    validate (Optional a) v = Ret x → v = VNone ∧ x = VNone ∨ v ≠ VNone ∧ validate a v = Ret x;
  validate_items a l x :
    validate (List a) (VList l) = Ret x →
    ∃ xs, x = VList xs ∧ Forall2 (fun y z => validate a y = Ret z) l xs;
  validate_values a d x :
    validate (Dict a) (VDict d) = Ret x →
    ∃ d', x = VDict d' ∧ Forall2 (fun kv kv' => kv.1 = kv'.1 ∧ validate a kv.2 = Ret kv'.2) d d';
  validate_fields s d x :
    validate (Model s) (VDict d) = Ret x →
    ∃ attrs, x = VObj (s_name s) attrs ∧
      Forall2 (fun f kx => kx.1 = f_name f ∧
                 match argument d f with
                 | inr v => validate_field f v = Ret kx.2
                 | inl dflt => dflt = Some kx.2
                 end) (s_fields s) attrs;
  dump_fields s attrs :
    conforms (Model s) (VObj (s_name s) attrs) = true →
    ∃ d, model_dump s (VObj (s_name s) attrs) = Ret d ∧ dumped (s_fields s) attrs d;
  dump_by_alias s x :
    conforms (Model s) x = true → without_oneof (Model s) x = true →
    model_dump_by_alias s x = Ret (dump_all (Model s) x);
}.

(** ** The template of [to_dict] *)

Definition getattr (v : value) (attr : string) : outcome value :=
  match v with
  | VObj _ attrs => match dict_get attrs attr with
                    | Some x => Ret x
                    | None => Raise (AttributeError attr)
                    end
  | _ => Raise (AttributeError attr)
  end.

Inductive Override : Type :=
| Dump (attr key : string) (to_dict : value → outcome value)
| DumpItems (attr key : string) (to_dict : value → outcome value)
| DumpValues (attr key : string) (to_dict : value → outcome value).

(** [for _item in ...: if _item: _items.append(_item.to_dict())]. *)
Fixpoint dump_items (to_dict : value → outcome value) (l : list value) : outcome (list value) :=
  match l with
  | [] => Ret []
  | x :: l' =>
      if truth x then w ← to_dict x; ws ← dump_items to_dict l'; Ret (w :: ws)
      else dump_items to_dict l'
  end.

(** [for _key in ...: if ...[_key]: _field_dict[_key] = ...[_key].to_dict()]. *)
Fixpoint dump_values (to_dict : value → outcome value) (d : list (string * value)) :
    outcome (list (string * value)) :=
  match d with
  | [] => Ret []
  | (k, x) :: d' =>
      if truth x then w ← to_dict x; ws ← dump_values to_dict d'; Ret ((k, w) :: ws)
      else dump_values to_dict d'
  end.

(** [if self.attr: _dict[key] = ...]. *)
Definition override (self : value) (_dict : list (string * value)) (o : Override) :
    outcome (list (string * value)) :=
  match o with
  | Dump attr key to_dict =>
      v ← getattr self attr;
      if truth v then w ← to_dict v; Ret (dict_set _dict key w) else Ret _dict
  | DumpItems attr key to_dict =>
      v ← getattr self attr;
      if truth v then l ← iter v; ws ← dump_items to_dict l; Ret (dict_set _dict key (VList ws))
      else Ret _dict
  | DumpValues attr key to_dict =>
      v ← getattr self attr;
      if truth v then d ← items v; ws ← dump_values to_dict d; Ret (dict_set _dict key (VDict ws))
      else Ret _dict
  end.

Fixpoint overrides (self : value) (_dict : list (string * value)) (os : list Override) :
    outcome (list (string * value)) :=
  match os with
  | [] => Ret _dict
  | o :: os' => _dict ← override self _dict o; overrides self _dict os'
  end.

Definition to_dict_with `{Pydantic} (s : Schema) (os : list Override) (self : value) :
    outcome value :=
  _dict ← model_dump s self;
  _dict ← overrides self _dict os;
  Ret (VDict _dict).

(** ** The template of [from_dict] *)

Inductive Entry : Type :=
| Get (key : string)                       (* obj.get(key) *)
| GetOr (key : string) (dflt : value)      (* obj.get(key) if ... is not None else dflt *)
| FromDict (key : string) (from_dict : value → outcome value)
| FromDictItems (key : string) (from_dict : value → outcome value)
| FromDictValues (key : string) (from_dict : value → outcome value).

Definition entry_key (e : Entry) : string :=
  match e with
  | Get k | GetOr k _ | FromDict k _ | FromDictItems k _ | FromDictValues k _ => k
  end.

Fixpoint from_items (from_dict : value → outcome value) (l : list value) : outcome (list value) :=
  match l with
  | [] => Ret []
  | x :: l' => y ← from_dict x; ys ← from_items from_dict l'; Ret (y :: ys)
  end.
Fixpoint from_values (from_dict : value → outcome value) (d : list (string * value)) :
    outcome (list (string * value)) :=
  match d with
  | [] => Ret []
  | (k, x) :: d' => y ← from_dict x; ys ← from_values from_dict d'; Ret ((k, y) :: ys)
  end.

(** The entry's value; [... if obj.get(key) is not None else None] in the last three. *)
Definition entry (obj : list (string * value)) (e : Entry) : outcome value :=
  let v := default VNone (dict_get obj (entry_key e)) in
  match e with
  | Get _ => Ret v
  | GetOr _ dflt => Ret (if is_none v then dflt else v)
  | FromDict _ from_dict => if is_none v then Ret VNone else from_dict v
  | FromDictItems _ from_dict =>
      if is_none v then Ret VNone
      else l ← iter v; ys ← from_items from_dict l; Ret (VList ys)
  | FromDictValues _ from_dict =>
      if is_none v then Ret VNone
      else d ← items v; ys ← from_values from_dict d; Ret (VDict ys)
  end.

(** The dictionary display [{"key": value, ...}] given to [model_validate]. *)
Fixpoint entries (obj : list (string * value)) (es : list Entry) :
    outcome (list (string * value)) :=
  match es with
  | [] => Ret []
  | e :: es' => v ← entry obj e; d ← entries obj es'; Ret ((entry_key e, v) :: d)
  end.

Definition from_dict_with `{Pydantic} (s : Schema) (es : list Entry) (obj : value) :
    outcome value :=
  match obj with
  | VNone => Ret VNone
  | VDict d => args ← entries d es; model_validate s (VDict args)
  | _ => model_validate s obj
  end.

(** ** [to_json] and [from_json] *)

(** [json.dumps(self.to_dict())]. *)
Definition to_json_with (to_dict : value → outcome value) (self : value) : outcome string :=
  v ← to_dict self; dumps v.

(** [cls.from_dict(json.loads(json_str))]. *)
Definition from_json_with (from_dict : value → outcome value) (json_str : string) : outcome value :=
  obj ← loads json_str; from_dict obj.

(** ** [to_str] *)

(** [pprint.pformat(self.model_dump(by_alias=True))]. *)
Definition to_str_with `{Pydantic} (s : Schema) (self : value) : outcome string :=
  v ← model_dump_by_alias s self; pformat tzinfo_repr v.
