(* ===== verification/OpenApi.v ===== *)
(** * The OpenAPI specification: schemas and what they mean

    api/openapi-spec/swagger.json is the specification from which the Python
    models are generated. This file has the schema objects it is written with,
    and the validity of a document: the meaning of [type], [properties],
    [required], [items], [additionalProperties], [enum], [oneOf] and [$ref] in
    OpenAPI 3.0. The definitions themselves are in [OpenApiData]. *)

From S2P Require Import Prelude PyStr PyValue.
Local Open Scope string_scope.
Local Open Scope bool_scope.
Local Open Scope list_scope.

(** ** Schema objects *)

(** The type of a schema object. A property [{"allOf": [{"$ref": r}]}] has the
    type of the reference; the integer formats int32 and int64, the [x-] extensions
    and the descriptions are left out. *)
Inductive oas_type : Type :=
| TString
| TEnum (values : list string)        (* a string with [enum] *)
| TByte                               (* a string with format byte *)
| TDateTime                           (* a string with format date-time *)
| TInteger
| TNumber
| TBoolean
| TAny                                (* no [type] *)
| TObject                             (* an object without [properties] *)
| TArray (items : oas_type)
| TMap (values : oas_type)            (* an object with [additionalProperties] *)
| TOneOf (t1 t2 : oas_type)
| TRef (name : string).

Record Property : Type := MkProperty {
  p_name : string;
  p_type : oas_type;
  p_default : option value;
}.

(** A property, with its [default] in the second case. *)
Definition prop (name : string) (t : oas_type) : Property := MkProperty name t None.
Definition prop_or (name : string) (t : oas_type) (dflt : value) : Property :=
  MkProperty name t (Some dflt).

(** A definition: an object with properties, or another type. *)
Inductive oas_def : Type :=
| DObject (required : list string) (properties : list Property)
| DType (t : oas_type).

(** The value of a key of an association list. *)
Fixpoint assoc {A} (l : list (string * A)) (k : string) : option A :=
  match l with
  | [] => None
  | (k', a) :: l' => if String.eqb k' k then Some a else assoc l' k
  end.

Definition property_of (ps : list Property) (name : string) : option Property :=
  List.find (fun p => String.eqb (p_name p) name) ps.

Definition is_required (required : list string) (name : string) : bool :=
  bool_decide (name ∈ required).

(** The name of the Python class of a definition: the parts of its name,
    capitalised, without the dots between them. *)
Definition capitalize (s : string) : string :=
  match s with
  | String c s' => String (upper_ch c) s'
  | EmptyString => ""
  end.
Definition class_name (name : string) : string :=
  String.concat "" (map capitalize (split "." name)).

(** ** Validity of documents *)

(** The documents of the types that contain no other type. A date-time is a
    string, and an integer is a number, which a reader may convert; with [strict],
    documents that hold either are left out. *)
Definition valid_scalar (strict : bool) (t : oas_type) (v : value) : bool :=
  match t, v with
  | (TString | TByte), VStr _ => true
  | TEnum values, VStr s => bool_decide (s ∈ values)
  | TDateTime, VStr _ => negb strict
  | TInteger, VInt _ => true
  | TNumber, VFloat _ _ => true
  | TNumber, VInt _ => negb strict
  | TBoolean, VBool _ => true
  | TObject, VDict _ => true
  | TAny, _ => true
  | _, _ => false
  end.

Section Validity.
Variable definitions : list (string * oas_def).
Variable strict : bool.

(** What a reference to a definition that is not an object stands for. *)
Definition resolve (t : oas_type) : oas_type :=
  match t with
  | TRef name => match assoc definitions name with Some (DType t') => t' | _ => t end
  | _ => t
  end.

(** A property that a definition does not name may hold anything. The
    alternatives of [oneOf] are scalar types. *)
Fixpoint valid (v : value) (t : oas_type) {struct v} : bool :=
  match v with
  | VList l =>
      match resolve t with
      | TArray t' => forallb (fun x => valid x t') l
      | t' => valid_scalar strict t' v
      end
  | VDict d =>
      match resolve t with
      | TMap t' => forallb (fun kv => valid kv.2 t') d
      | TRef name =>
          match assoc definitions name with
          | Some (DObject required ps) =>
              forallb (fun k => bool_decide (k ∈ d.*1)) required &&
              forallb (fun kv => match property_of ps kv.1 with
                                 | Some p => valid kv.2 (p_type p)
                                 | None => true
                                 end) d
          | _ => false
          end
      | t' => valid_scalar strict t' v
      end
  | _ =>
      match resolve t with
      | TOneOf t1 t2 => xorb (valid_scalar strict t1 v) (valid_scalar strict t2 v)
      | t' => valid_scalar strict t' v
      end
  end.
End Validity.

(** The depth of nesting of a document. *)
Fixpoint height (v : value) : nat :=
  match v with
  | VList l => S (foldr (fun x n => height x `max` n)%nat O l)
  | VDict d => S (foldr (fun kv n => height kv.2 `max` n)%nat O d)
  | _ => 1%nat
  end.

Lemma height_item l x : x ∈ l → (height x < height (VList l))%nat.
Proof.
  cbn. induction l as [|y l IH]; [by intros ?%elem_of_nil|]. cbn.
  intros [->|Hx]%elem_of_cons; [lia|]. specialize (IH Hx). lia.
Qed.
Lemma height_entry d kv : kv ∈ d → (height kv.2 < height (VDict d))%nat.
Proof.
  cbn. induction d as [|kv' d IH]; [by intros ?%elem_of_nil|]. cbn.
  intros [->|Hx]%elem_of_cons; [lia|]. specialize (IH Hx). lia.
Qed.
