(* ===== verification/OpenApiData.v ===== *)
(** * The OpenAPI specification: definitions

    The schemas of api/openapi-spec/swagger.json, one definition each, in the
    notation of [OpenApi]; [definitions] is the whole specification. *)

From S2P Require Import Prelude PyValue OpenApi.
Local Open Scope string_scope.
Local Open Scope list_scope.

Definition io_k8s_api_autoscaling_v2_ContainerResourceMetricSource : oas_def :=
  DObject ["name"; "target"; "container"] [
  prop_or "container" TString (VStr "");
  prop_or "name" TString (VStr "");
  prop_or "target" (TRef "io.k8s.api.autoscaling.v2.MetricTarget") (VDict [])].
Definition io_k8s_api_autoscaling_v2_ContainerResourceMetricStatus : oas_def :=
  DObject ["name"; "current"; "container"] [
  prop_or "container" TString (VStr "");
  prop_or "current" (TRef "io.k8s.api.autoscaling.v2.MetricValueStatus") (VDict []);
  prop_or "name" TString (VStr "")].
Definition io_k8s_api_autoscaling_v2_CrossVersionObjectReference : oas_def :=
  DObject ["kind"; "name"] [
  prop "apiVersion" TString;
  prop_or "kind" TString (VStr "");
  prop_or "name" TString (VStr "")].
Definition io_k8s_api_autoscaling_v2_ExternalMetricSource : oas_def :=
  DObject ["metric"; "target"] [
  prop_or "metric" (TRef "io.k8s.api.autoscaling.v2.MetricIdentifier") (VDict []);
  prop_or "target" (TRef "io.k8s.api.autoscaling.v2.MetricTarget") (VDict [])].
Definition io_k8s_api_autoscaling_v2_ExternalMetricStatus : oas_def :=
  DObject ["metric"; "current"] [
  prop_or "current" (TRef "io.k8s.api.autoscaling.v2.MetricValueStatus") (VDict []);
  prop_or "metric" (TRef "io.k8s.api.autoscaling.v2.MetricIdentifier") (VDict [])].
Definition io_k8s_api_autoscaling_v2_HPAScalingPolicy : oas_def :=
  DObject ["type"; "value"; "periodSeconds"] [
  prop_or "periodSeconds" TInteger (VInt 0);
  prop_or "type" TString (VStr "");
  prop_or "value" TInteger (VInt 0)].
Definition io_k8s_api_autoscaling_v2_HPAScalingRules : oas_def :=
  DObject [] [
  prop "policies" (TArray (TRef "io.k8s.api.autoscaling.v2.HPAScalingPolicy"));
  prop "selectPolicy" TString;
  prop "stabilizationWindowSeconds" TInteger;
  prop "tolerance" (TRef "io.k8s.apimachinery.pkg.api.resource.Quantity")].
Definition io_k8s_api_autoscaling_v2_HorizontalPodAutoscaler : oas_def :=
  DObject ["spec"] [
  prop "apiVersion" TString;
  prop "kind" TString;
  prop_or "metadata" (TRef "io.k8s.apimachinery.pkg.apis.meta.v1.ObjectMeta") (VDict []);
  prop_or "spec" (TRef "io.k8s.api.autoscaling.v2.HorizontalPodAutoscalerSpec") (VDict []);
  prop_or "status" (TRef "io.k8s.api.autoscaling.v2.HorizontalPodAutoscalerStatus") (VDict [])].
Definition io_k8s_api_autoscaling_v2_HorizontalPodAutoscalerBehavior : oas_def :=
  DObject [] [
  prop "scaleDown" (TRef "io.k8s.api.autoscaling.v2.HPAScalingRules");
  prop "scaleUp" (TRef "io.k8s.api.autoscaling.v2.HPAScalingRules")].
Definition io_k8s_api_autoscaling_v2_HorizontalPodAutoscalerCondition : oas_def :=
  DObject ["type"; "status"] [
  prop "lastTransitionTime" (TRef "io.k8s.apimachinery.pkg.apis.meta.v1.Time");
  prop "message" TString;
  prop "observedGeneration" TInteger;
  prop "reason" TString;
  prop_or "status" TString (VStr "");
  prop_or "type" TString (VStr "")].
Definition io_k8s_api_autoscaling_v2_HorizontalPodAutoscalerList : oas_def :=
  DObject ["items"] [
  prop "apiVersion" TString;
  prop "items" (TArray (TRef "io.k8s.api.autoscaling.v2.HorizontalPodAutoscaler"));
  prop "kind" TString;
  prop_or "metadata" (TRef "io.k8s.apimachinery.pkg.apis.meta.v1.ListMeta") (VDict [])].
Definition io_k8s_api_autoscaling_v2_HorizontalPodAutoscalerSpec : oas_def :=
  DObject ["scaleTargetRef"; "maxReplicas"] [
  prop "behavior" (TRef "io.k8s.api.autoscaling.v2.HorizontalPodAutoscalerBehavior");
  prop_or "maxReplicas" TInteger (VInt 0);
  prop "metrics" (TArray (TRef "io.k8s.api.autoscaling.v2.MetricSpec"));
  prop "minReplicas" TInteger;
  prop_or "scaleTargetRef" (TRef "io.k8s.api.autoscaling.v2.CrossVersionObjectReference") (VDict
    [])].
Definition io_k8s_api_autoscaling_v2_HorizontalPodAutoscalerStatus : oas_def :=
  DObject ["desiredReplicas"] [
  prop "conditions" (TArray (TRef "io.k8s.api.autoscaling.v2.HorizontalPodAutoscalerCondition"));
  prop "currentMetrics" (TArray (TRef "io.k8s.api.autoscaling.v2.MetricStatus"));
  prop "currentReplicas" TInteger;
  prop_or "desiredReplicas" TInteger (VInt 0);
  prop "lastScaleTime" (TRef "io.k8s.apimachinery.pkg.apis.meta.v1.Time");
  prop "observedGeneration" TInteger].
Definition io_k8s_api_autoscaling_v2_MetricIdentifier : oas_def :=
  DObject ["name"] [
  prop_or "name" TString (VStr "");
  prop "selector" (TRef "io.k8s.apimachinery.pkg.apis.meta.v1.LabelSelector")].
Definition io_k8s_api_autoscaling_v2_MetricSpec : oas_def :=
  DObject ["type"] [
  prop "containerResource" (TRef "io.k8s.api.autoscaling.v2.ContainerResourceMetricSource");
  prop "external" (TRef "io.k8s.api.autoscaling.v2.ExternalMetricSource");
  prop "object" (TRef "io.k8s.api.autoscaling.v2.ObjectMetricSource");
  prop "pods" (TRef "io.k8s.api.autoscaling.v2.PodsMetricSource");
  prop "resource" (TRef "io.k8s.api.autoscaling.v2.ResourceMetricSource");
  prop_or "type" TString (VStr "")].
Definition io_k8s_api_autoscaling_v2_MetricStatus : oas_def :=
  DObject ["type"] [
  prop "containerResource" (TRef "io.k8s.api.autoscaling.v2.ContainerResourceMetricStatus");
  prop "external" (TRef "io.k8s.api.autoscaling.v2.ExternalMetricStatus");
  prop "object" (TRef "io.k8s.api.autoscaling.v2.ObjectMetricStatus");
  prop "pods" (TRef "io.k8s.api.autoscaling.v2.PodsMetricStatus");
  prop "resource" (TRef "io.k8s.api.autoscaling.v2.ResourceMetricStatus");
  prop_or "type" TString (VStr "")].
Definition io_k8s_api_autoscaling_v2_MetricTarget : oas_def :=
  DObject ["type"] [
  prop "averageUtilization" TInteger;
  prop "averageValue" (TRef "io.k8s.apimachinery.pkg.api.resource.Quantity");
  prop_or "type" TString (VStr "");
  prop "value" (TRef "io.k8s.apimachinery.pkg.api.resource.Quantity")].
Definition io_k8s_api_autoscaling_v2_MetricValueStatus : oas_def :=
  DObject [] [
  prop "averageUtilization" TInteger;
  prop "averageValue" (TRef "io.k8s.apimachinery.pkg.api.resource.Quantity");
  prop "value" (TRef "io.k8s.apimachinery.pkg.api.resource.Quantity")].
Definition io_k8s_api_autoscaling_v2_ObjectMetricSource : oas_def :=
  DObject ["describedObject"; "target"; "metric"] [
  prop_or "describedObject" (TRef "io.k8s.api.autoscaling.v2.CrossVersionObjectReference") (VDict
    []);
  prop_or "metric" (TRef "io.k8s.api.autoscaling.v2.MetricIdentifier") (VDict []);
  prop_or "target" (TRef "io.k8s.api.autoscaling.v2.MetricTarget") (VDict [])].
Definition io_k8s_api_autoscaling_v2_ObjectMetricStatus : oas_def :=
  DObject ["metric"; "current"; "describedObject"] [
  prop_or "current" (TRef "io.k8s.api.autoscaling.v2.MetricValueStatus") (VDict []);
  prop_or "describedObject" (TRef "io.k8s.api.autoscaling.v2.CrossVersionObjectReference") (VDict
    []);
  prop_or "metric" (TRef "io.k8s.api.autoscaling.v2.MetricIdentifier") (VDict [])].
Definition io_k8s_api_autoscaling_v2_PodsMetricSource : oas_def :=
  DObject ["metric"; "target"] [
  prop_or "metric" (TRef "io.k8s.api.autoscaling.v2.MetricIdentifier") (VDict []);
  prop_or "target" (TRef "io.k8s.api.autoscaling.v2.MetricTarget") (VDict [])].
Definition io_k8s_api_autoscaling_v2_PodsMetricStatus : oas_def :=
  DObject ["metric"; "current"] [
  prop_or "current" (TRef "io.k8s.api.autoscaling.v2.MetricValueStatus") (VDict []);
  prop_or "metric" (TRef "io.k8s.api.autoscaling.v2.MetricIdentifier") (VDict [])].
Definition io_k8s_api_autoscaling_v2_ResourceMetricSource : oas_def :=
  DObject ["name"; "target"] [
  prop_or "name" TString (VStr "");
  prop_or "target" (TRef "io.k8s.api.autoscaling.v2.MetricTarget") (VDict [])].
Definition io_k8s_api_autoscaling_v2_ResourceMetricStatus : oas_def :=
  DObject ["name"; "current"] [
  prop_or "current" (TRef "io.k8s.api.autoscaling.v2.MetricValueStatus") (VDict []);
  prop_or "name" TString (VStr "")].
Definition io_k8s_api_batch_v1_CronJob : oas_def :=
  DObject ["spec"] [
  prop "apiVersion" TString;
  prop "kind" TString;
  prop_or "metadata" (TRef "io.k8s.apimachinery.pkg.apis.meta.v1.ObjectMeta") (VDict []);
  prop_or "spec" (TRef "io.k8s.api.batch.v1.CronJobSpec") (VDict []);
  prop_or "status" (TRef "io.k8s.api.batch.v1.CronJobStatus") (VDict [])].
Definition io_k8s_api_batch_v1_CronJobList : oas_def :=
  DObject ["items"] [
  prop "apiVersion" TString;
  prop "items" (TArray (TRef "io.k8s.api.batch.v1.CronJob"));
  prop "kind" TString;
  prop_or "metadata" (TRef "io.k8s.apimachinery.pkg.apis.meta.v1.ListMeta") (VDict [])].
Definition io_k8s_api_batch_v1_CronJobSpec : oas_def :=
  DObject ["schedule"; "jobTemplate"] [
  prop "concurrencyPolicy" (TEnum ["Allow"; "Forbid"; "Replace"]);
  prop "failedJobsHistoryLimit" TInteger;
  prop_or "jobTemplate" (TRef "io.k8s.api.batch.v1.JobTemplateSpec") (VDict []);
  prop_or "schedule" TString (VStr "");
  prop "startingDeadlineSeconds" TInteger;
  prop "successfulJobsHistoryLimit" TInteger;
  prop "suspend" TBoolean;
  prop "timeZone" TString].
Definition io_k8s_api_batch_v1_CronJobStatus : oas_def :=
  DObject [] [
  prop "active" (TArray (TRef "io.k8s.api.core.v1.ObjectReference"));
  prop "lastScheduleTime" (TRef "io.k8s.apimachinery.pkg.apis.meta.v1.Time");
  prop "lastSuccessfulTime" (TRef "io.k8s.apimachinery.pkg.apis.meta.v1.Time")].
Definition io_k8s_api_batch_v1_Job : oas_def :=
  DObject [] [
  prop "apiVersion" TString;
  prop "kind" TString;
  prop_or "metadata" (TRef "io.k8s.apimachinery.pkg.apis.meta.v1.ObjectMeta") (VDict []);
  prop_or "spec" (TRef "io.k8s.api.batch.v1.JobSpec") (VDict []);
  prop_or "status" (TRef "io.k8s.api.batch.v1.JobStatus") (VDict [])].
Definition io_k8s_api_batch_v1_JobCondition : oas_def :=
  DObject ["type"; "status"] [
  prop "lastProbeTime" (TRef "io.k8s.apimachinery.pkg.apis.meta.v1.Time");
  prop "lastTransitionTime" (TRef "io.k8s.apimachinery.pkg.apis.meta.v1.Time");
  prop "message" TString;
  prop "reason" TString;
  prop_or "status" TString (VStr "");
  prop_or "type" TString (VStr "")].
Definition io_k8s_api_batch_v1_JobList : oas_def :=
  DObject ["items"] [
  prop "apiVersion" TString;
  prop "items" (TArray (TRef "io.k8s.api.batch.v1.Job"));
  prop "kind" TString;
  prop_or "metadata" (TRef "io.k8s.apimachinery.pkg.apis.meta.v1.ListMeta") (VDict [])].
Definition io_k8s_api_batch_v1_JobSchedulingConfiguration : oas_def :=
  DObject [] [
  prop "disruptionMode" (TRef "io.k8s.api.scheduling.v1alpha3.WorkloadPodGroupDisruptionMode");
  prop "resourceClaims" (TArray (TRef
    "io.k8s.api.scheduling.v1alpha3.WorkloadPodGroupResourceClaim"));
  prop "schedulingConstraints" (TRef
    "io.k8s.api.scheduling.v1alpha3.WorkloadPodGroupSchedulingConstraints");
  prop "schedulingPolicy" (TRef "io.k8s.api.scheduling.v1alpha3.WorkloadPodGroupSchedulingPolicy")].
Definition io_k8s_api_batch_v1_JobSpec : oas_def :=
  DObject ["template"] [
  prop "activeDeadlineSeconds" TInteger;
  prop "backoffLimit" TInteger;
  prop "backoffLimitPerIndex" TInteger;
  prop "completionMode" (TEnum ["Indexed"; "NonIndexed"]);
  prop "completions" TInteger;
  prop "managedBy" TString;
  prop "manualSelector" TBoolean;
  prop "maxFailedIndexes" TInteger;
  prop "parallelism" TInteger;
  prop "podFailurePolicy" (TRef "io.k8s.api.batch.v1.PodFailurePolicy");
  prop "podReplacementPolicy" (TEnum ["Failed"; "TerminatingOrFailed"]);
  prop "scheduling" (TRef "io.k8s.api.batch.v1.JobSchedulingConfiguration");
  prop "selector" (TRef "io.k8s.apimachinery.pkg.apis.meta.v1.LabelSelector");
  prop "successPolicy" (TRef "io.k8s.api.batch.v1.SuccessPolicy");
  prop "suspend" TBoolean;
  prop_or "template" (TRef "io.k8s.api.core.v1.PodTemplateSpec") (VDict []);
  prop "ttlSecondsAfterFinished" TInteger].
Definition io_k8s_api_batch_v1_JobStatus : oas_def :=
  DObject [] [
  prop "active" TInteger;
  prop "completedIndexes" TString;
  prop "completionTime" (TRef "io.k8s.apimachinery.pkg.apis.meta.v1.Time");
  prop "conditions" (TArray (TRef "io.k8s.api.batch.v1.JobCondition"));
  prop "failed" TInteger;
  prop "failedIndexes" TString;
  prop "ready" TInteger;
  prop "startTime" (TRef "io.k8s.apimachinery.pkg.apis.meta.v1.Time");
  prop "succeeded" TInteger;
  prop "terminating" TInteger;
  prop "uncountedTerminatedPods" (TRef "io.k8s.api.batch.v1.UncountedTerminatedPods")].
Definition io_k8s_api_batch_v1_JobTemplateSpec : oas_def :=
  DObject [] [
  prop_or "metadata" (TRef "io.k8s.apimachinery.pkg.apis.meta.v1.ObjectMeta") (VDict []);
  prop_or "spec" (TRef "io.k8s.api.batch.v1.JobSpec") (VDict [])].
Definition io_k8s_api_batch_v1_PodFailurePolicy : oas_def :=
  DObject ["rules"] [
  prop "rules" (TArray (TRef "io.k8s.api.batch.v1.PodFailurePolicyRule"))].
Definition io_k8s_api_batch_v1_PodFailurePolicyOnExitCodesRequirement : oas_def :=
  DObject ["operator"; "values"] [
  prop "containerName" TString;
  prop "operator" (TEnum ["In"; "NotIn"]);
  prop "values" (TArray TInteger)].
Definition io_k8s_api_batch_v1_PodFailurePolicyOnPodConditionsPattern : oas_def :=
  DObject ["type"] [
  prop_or "status" TString (VStr "");
  prop_or "type" TString (VStr "")].
Definition io_k8s_api_batch_v1_PodFailurePolicyRule : oas_def :=
  DObject ["action"] [
  prop "action" (TEnum ["Count"; "FailIndex"; "FailJob"; "Ignore"]);
  prop "onExitCodes" (TRef "io.k8s.api.batch.v1.PodFailurePolicyOnExitCodesRequirement");
  prop "onPodConditions" (TArray (TRef
    "io.k8s.api.batch.v1.PodFailurePolicyOnPodConditionsPattern"))].
Definition io_k8s_api_batch_v1_SuccessPolicy : oas_def :=
  DObject ["rules"] [
  prop "rules" (TArray (TRef "io.k8s.api.batch.v1.SuccessPolicyRule"))].
Definition io_k8s_api_batch_v1_SuccessPolicyRule : oas_def :=
  DObject [] [
  prop "succeededCount" TInteger;
  prop "succeededIndexes" TString].
Definition io_k8s_api_batch_v1_UncountedTerminatedPods : oas_def :=
  DObject [] [
  prop "failed" (TArray TString);
  prop "succeeded" (TArray TString)].
Definition io_k8s_api_core_v1_AWSElasticBlockStoreVolumeSource : oas_def :=
  DObject ["volumeID"] [
  prop "fsType" TString;
  prop "partition" TInteger;
  prop "readOnly" TBoolean;
  prop_or "volumeID" TString (VStr "")].
Definition io_k8s_api_core_v1_Affinity : oas_def :=
  DObject [] [
  prop "nodeAffinity" (TRef "io.k8s.api.core.v1.NodeAffinity");
  prop "podAffinity" (TRef "io.k8s.api.core.v1.PodAffinity");
  prop "podAntiAffinity" (TRef "io.k8s.api.core.v1.PodAntiAffinity")].
Definition io_k8s_api_core_v1_AppArmorProfile : oas_def :=
  DObject ["type"] [
  prop "localhostProfile" TString;
  prop "type" (TEnum ["Localhost"; "RuntimeDefault"; "Unconfined"])].
Definition io_k8s_api_core_v1_AttachedVolume : oas_def :=
  DObject ["name"; "devicePath"] [
  prop_or "devicePath" TString (VStr "");
  prop_or "name" TString (VStr "")].
Definition io_k8s_api_core_v1_AvoidPods : oas_def :=
  DObject [] [
  prop "preferAvoidPods" (TArray (TRef "io.k8s.api.core.v1.PreferAvoidPodsEntry"))].
Definition io_k8s_api_core_v1_AzureDiskVolumeSource : oas_def :=
  DObject ["diskName"; "diskURI"] [
  prop_or "cachingMode" (TEnum ["None"; "ReadOnly"; "ReadWrite"]) (VStr "ReadWrite");
  prop_or "diskName" TString (VStr "");
  prop_or "diskURI" TString (VStr "");
  prop_or "fsType" TString (VStr "ext4");
  prop_or "kind" (TEnum ["Dedicated"; "Managed"; "Shared"]) (VStr "Shared");
  prop_or "readOnly" TBoolean (VBool false)].
Definition io_k8s_api_core_v1_AzureFilePersistentVolumeSource : oas_def :=
  DObject ["secretName"; "shareName"] [
  prop "readOnly" TBoolean;
  prop_or "secretName" TString (VStr "");
  prop "secretNamespace" TString;
  prop_or "shareName" TString (VStr "")].
Definition io_k8s_api_core_v1_AzureFileVolumeSource : oas_def :=
  DObject ["secretName"; "shareName"] [
  prop "readOnly" TBoolean;
  prop_or "secretName" TString (VStr "");
  prop_or "shareName" TString (VStr "")].
Definition io_k8s_api_core_v1_Binding : oas_def :=
  DObject ["target"] [
  prop "apiVersion" TString;
  prop "kind" TString;
  prop_or "metadata" (TRef "io.k8s.apimachinery.pkg.apis.meta.v1.ObjectMeta") (VDict []);
  prop_or "target" (TRef "io.k8s.api.core.v1.ObjectReference") (VDict [])].
Definition io_k8s_api_core_v1_CSIPersistentVolumeSource : oas_def :=
  DObject ["driver"; "volumeHandle"] [
  prop "controllerExpandSecretRef" (TRef "io.k8s.api.core.v1.SecretReference");
  prop "controllerPublishSecretRef" (TRef "io.k8s.api.core.v1.SecretReference");
  prop_or "driver" TString (VStr "");
  prop "fsType" TString;
  prop "nodeExpandSecretRef" (TRef "io.k8s.api.core.v1.SecretReference");
  prop "nodePublishSecretRef" (TRef "io.k8s.api.core.v1.SecretReference");
  prop "nodeStageSecretRef" (TRef "io.k8s.api.core.v1.SecretReference");
  prop "readOnly" TBoolean;
  prop "volumeAttributes" (TMap TString);
  prop_or "volumeHandle" TString (VStr "")].
Definition io_k8s_api_core_v1_CSIVolumeSource : oas_def :=
  DObject ["driver"] [
  prop_or "driver" TString (VStr "");
  prop "fsType" TString;
  prop "nodePublishSecretRef" (TRef "io.k8s.api.core.v1.LocalObjectReference");
  prop "readOnly" TBoolean;
  prop "volumeAttributes" (TMap TString)].
Definition io_k8s_api_core_v1_Capabilities : oas_def :=
  DObject [] [
  prop "add" (TArray TString);
  prop "drop" (TArray TString)].
Definition io_k8s_api_core_v1_CephFSPersistentVolumeSource : oas_def :=
  DObject ["monitors"] [
  prop "monitors" (TArray TString);
  prop "path" TString;
  prop "readOnly" TBoolean;
  prop "secretFile" TString;
  prop "secretRef" (TRef "io.k8s.api.core.v1.SecretReference");
  prop "user" TString].
Definition io_k8s_api_core_v1_CephFSVolumeSource : oas_def :=
  DObject ["monitors"] [
  prop "monitors" (TArray TString);
  prop "path" TString;
  prop "readOnly" TBoolean;
  prop "secretFile" TString;
  prop "secretRef" (TRef "io.k8s.api.core.v1.LocalObjectReference");
  prop "user" TString].
Definition io_k8s_api_core_v1_CinderPersistentVolumeSource : oas_def :=
  DObject ["volumeID"] [
  prop "fsType" TString;
  prop "readOnly" TBoolean;
  prop "secretRef" (TRef "io.k8s.api.core.v1.SecretReference");
  prop_or "volumeID" TString (VStr "")].
Definition io_k8s_api_core_v1_CinderVolumeSource : oas_def :=
  DObject ["volumeID"] [
  prop "fsType" TString;
  prop "readOnly" TBoolean;
  prop "secretRef" (TRef "io.k8s.api.core.v1.LocalObjectReference");
  prop_or "volumeID" TString (VStr "")].
Definition io_k8s_api_core_v1_ClientIPConfig : oas_def :=
  DObject [] [
  prop "timeoutSeconds" TInteger].
Definition io_k8s_api_core_v1_ClusterTrustBundleProjection : oas_def :=
  DObject ["path"] [
  prop "labelSelector" (TRef "io.k8s.apimachinery.pkg.apis.meta.v1.LabelSelector");
  prop "name" TString;
  prop "optional" TBoolean;
  prop_or "path" TString (VStr "");
  prop "signerName" TString;
  prop "user" TInteger].
Definition io_k8s_api_core_v1_ComponentCondition : oas_def :=
  DObject ["type"; "status"] [
  prop "error" TString;
  prop "message" TString;
  prop_or "status" TString (VStr "");
  prop_or "type" TString (VStr "")].
Definition io_k8s_api_core_v1_ComponentStatus : oas_def :=
  DObject [] [
  prop "apiVersion" TString;
  prop "conditions" (TArray (TRef "io.k8s.api.core.v1.ComponentCondition"));
  prop "kind" TString;
  prop_or "metadata" (TRef "io.k8s.apimachinery.pkg.apis.meta.v1.ObjectMeta") (VDict [])].
Definition io_k8s_api_core_v1_ComponentStatusList : oas_def :=
  DObject ["items"] [
  prop "apiVersion" TString;
  prop "items" (TArray (TRef "io.k8s.api.core.v1.ComponentStatus"));
  prop "kind" TString;
  prop_or "metadata" (TRef "io.k8s.apimachinery.pkg.apis.meta.v1.ListMeta") (VDict [])].
Definition io_k8s_api_core_v1_ConfigMap : oas_def :=
  DObject [] [
  prop "apiVersion" TString;
  prop "binaryData" (TMap TByte);
  prop "data" (TMap TString);
  prop "immutable" TBoolean;
  prop "kind" TString;
  prop_or "metadata" (TRef "io.k8s.apimachinery.pkg.apis.meta.v1.ObjectMeta") (VDict [])].
Definition io_k8s_api_core_v1_ConfigMapEnvSource : oas_def :=
  DObject [] [
  prop_or "name" TString (VStr "");
  prop "optional" TBoolean].
Definition io_k8s_api_core_v1_ConfigMapKeySelector : oas_def :=
  DObject ["key"] [
  prop_or "key" TString (VStr "");
  prop_or "name" TString (VStr "");
  prop "optional" TBoolean].
Definition io_k8s_api_core_v1_ConfigMapList : oas_def :=
  DObject ["items"] [
  prop "apiVersion" TString;
  prop "items" (TArray (TRef "io.k8s.api.core.v1.ConfigMap"));
  prop "kind" TString;
  prop_or "metadata" (TRef "io.k8s.apimachinery.pkg.apis.meta.v1.ListMeta") (VDict [])].
Definition io_k8s_api_core_v1_ConfigMapNodeConfigSource : oas_def :=
  DObject ["namespace"; "name"; "kubeletConfigKey"] [
  prop_or "kubeletConfigKey" TString (VStr "");
  prop_or "name" TString (VStr "");
  prop_or "namespace" TString (VStr "");
  prop "resourceVersion" TString;
  prop "uid" TString].
Definition io_k8s_api_core_v1_ConfigMapProjection : oas_def :=
  DObject [] [
  prop "items" (TArray (TRef "io.k8s.api.core.v1.KeyToPath"));
  prop_or "name" TString (VStr "");
  prop "optional" TBoolean].
Definition io_k8s_api_core_v1_ConfigMapVolumeSource : oas_def :=
  DObject [] [
  prop "defaultMode" TInteger;
  prop "defaultUser" TInteger;
  prop "items" (TArray (TRef "io.k8s.api.core.v1.KeyToPath"));
  prop_or "name" TString (VStr "");
  prop "optional" TBoolean].
Definition io_k8s_api_core_v1_Container : oas_def :=
  DObject ["name"] [
  prop "args" (TArray TString);
  prop "command" (TArray TString);
  prop "env" (TArray (TRef "io.k8s.api.core.v1.EnvVar"));
  prop "envFrom" (TArray (TRef "io.k8s.api.core.v1.EnvFromSource"));
  prop "image" TString;
  prop "imagePullPolicy" (TEnum ["Always"; "IfNotPresent"; "Never"]);
  prop "lifecycle" (TRef "io.k8s.api.core.v1.Lifecycle");
  prop "livenessProbe" (TRef "io.k8s.api.core.v1.Probe");
  prop_or "name" TString (VStr "");
  prop "ports" (TArray (TRef "io.k8s.api.core.v1.ContainerPort"));
  prop "readinessProbe" (TRef "io.k8s.api.core.v1.Probe");
  prop "resizePolicy" (TArray (TRef "io.k8s.api.core.v1.ContainerResizePolicy"));
  prop_or "resources" (TRef "io.k8s.api.core.v1.ResourceRequirements") (VDict []);
  prop "restartPolicy" TString;
  prop "restartPolicyRules" (TArray (TRef "io.k8s.api.core.v1.ContainerRestartRule"));
  prop "securityContext" (TRef "io.k8s.api.core.v1.SecurityContext");
  prop "startupProbe" (TRef "io.k8s.api.core.v1.Probe");
  prop "stdin" TBoolean;
  prop "stdinOnce" TBoolean;
  prop "terminationMessagePath" TString;
  prop "terminationMessagePolicy" (TEnum ["FallbackToLogsOnError"; "File"]);
  prop "tty" TBoolean;
  prop "volumeDevices" (TArray (TRef "io.k8s.api.core.v1.VolumeDevice"));
  prop "volumeMounts" (TArray (TRef "io.k8s.api.core.v1.VolumeMount"));
  prop "workingDir" TString].
Definition io_k8s_api_core_v1_ContainerExtendedResourceRequest : oas_def :=
  DObject ["containerName"; "resourceName"; "requestName"] [
  prop_or "containerName" TString (VStr "");
  prop_or "requestName" TString (VStr "");
  prop_or "resourceName" TString (VStr "")].
Definition io_k8s_api_core_v1_ContainerImage : oas_def :=
  DObject [] [
  prop "names" (TArray TString);
  prop "sizeBytes" TInteger].
Definition io_k8s_api_core_v1_ContainerPort : oas_def :=
  DObject ["containerPort"] [
  prop_or "containerPort" TInteger (VInt 0);
  prop "hostIP" TString;
  prop "hostPort" TInteger;
  prop "name" TString;
  prop_or "protocol" (TEnum ["SCTP"; "TCP"; "UDP"]) (VStr "TCP")].
Definition io_k8s_api_core_v1_ContainerResizePolicy : oas_def :=
  DObject ["resourceName"; "restartPolicy"] [
  prop_or "resourceName" TString (VStr "");
  prop_or "restartPolicy" TString (VStr "")].
Definition io_k8s_api_core_v1_ContainerRestartRule : oas_def :=
  DObject ["action"] [
  prop "action" TString;
  prop "exitCodes" (TRef "io.k8s.api.core.v1.ContainerRestartRuleOnExitCodes")].
Definition io_k8s_api_core_v1_ContainerRestartRuleOnExitCodes : oas_def :=
  DObject ["operator"] [
  prop "operator" TString;
  prop "values" (TArray TInteger)].
Definition io_k8s_api_core_v1_ContainerState : oas_def :=
  DObject [] [
  prop "running" (TRef "io.k8s.api.core.v1.ContainerStateRunning");
  prop "terminated" (TRef "io.k8s.api.core.v1.ContainerStateTerminated");
  prop "waiting" (TRef "io.k8s.api.core.v1.ContainerStateWaiting")].
Definition io_k8s_api_core_v1_ContainerStateRunning : oas_def :=
  DObject [] [
  prop "startedAt" (TRef "io.k8s.apimachinery.pkg.apis.meta.v1.Time")].
Definition io_k8s_api_core_v1_ContainerStateTerminated : oas_def :=
  DObject ["exitCode"] [
  prop "containerID" TString;
  prop_or "exitCode" TInteger (VInt 0);
  prop "finishedAt" (TRef "io.k8s.apimachinery.pkg.apis.meta.v1.Time");
  prop "message" TString;
  prop "reason" TString;
  prop "signal" TInteger;
  prop "startedAt" (TRef "io.k8s.apimachinery.pkg.apis.meta.v1.Time")].
Definition io_k8s_api_core_v1_ContainerStateWaiting : oas_def :=
  DObject [] [
  prop "message" TString;
  prop "reason" TString].
Definition io_k8s_api_core_v1_ContainerStatus : oas_def :=
  DObject ["name"; "ready"; "restartCount"; "image"; "imageID"] [
  prop "allocatedResources" (TMap (TRef "io.k8s.apimachinery.pkg.api.resource.Quantity"));
  prop "allocatedResourcesStatus" (TArray (TRef "io.k8s.api.core.v1.ResourceStatus"));
  prop "containerID" TString;
  prop_or "image" TString (VStr "");
  prop_or "imageID" TString (VStr "");
  prop_or "lastState" (TRef "io.k8s.api.core.v1.ContainerState") (VDict []);
  prop_or "name" TString (VStr "");
  prop_or "ready" TBoolean (VBool false);
  prop "resources" (TRef "io.k8s.api.core.v1.ResourceRequirements");
  prop_or "restartCount" TInteger (VInt 0);
  prop "started" TBoolean;
  prop_or "state" (TRef "io.k8s.api.core.v1.ContainerState") (VDict []);
  prop "stopSignal" (TEnum ["SIGABRT"; "SIGALRM"; "SIGBUS"; "SIGCHLD"; "SIGCLD"; "SIGCONT";
    "SIGFPE"; "SIGHUP"; "SIGILL"; "SIGINT"; "SIGIO"; "SIGIOT"; "SIGKILL"; "SIGPIPE"; "SIGPOLL";
    "SIGPROF"; "SIGPWR"; "SIGQUIT"; "SIGRTMAX"; "SIGRTMAX-1"; "SIGRTMAX-10"; "SIGRTMAX-11";
    "SIGRTMAX-12"; "SIGRTMAX-13"; "SIGRTMAX-14"; "SIGRTMAX-2"; "SIGRTMAX-3"; "SIGRTMAX-4";
    "SIGRTMAX-5"; "SIGRTMAX-6"; "SIGRTMAX-7"; "SIGRTMAX-8"; "SIGRTMAX-9"; "SIGRTMIN";
    "SIGRTMIN+1"; "SIGRTMIN+10"; "SIGRTMIN+11"; "SIGRTMIN+12"; "SIGRTMIN+13"; "SIGRTMIN+14";
    "SIGRTMIN+15"; "SIGRTMIN+2"; "SIGRTMIN+3"; "SIGRTMIN+4"; "SIGRTMIN+5"; "SIGRTMIN+6";
    "SIGRTMIN+7"; "SIGRTMIN+8"; "SIGRTMIN+9"; "SIGSEGV"; "SIGSTKFLT"; "SIGSTOP"; "SIGSYS";
    "SIGTERM"; "SIGTRAP"; "SIGTSTP"; "SIGTTIN"; "SIGTTOU"; "SIGURG"; "SIGUSR1"; "SIGUSR2";
    "SIGVTALRM"; "SIGWINCH"; "SIGXCPU"; "SIGXFSZ"]);
  prop "user" (TRef "io.k8s.api.core.v1.ContainerUser");
  prop "volumeMounts" (TArray (TRef "io.k8s.api.core.v1.VolumeMountStatus"))].
Definition io_k8s_api_core_v1_ContainerUser : oas_def :=
  DObject [] [
  prop "linux" (TRef "io.k8s.api.core.v1.LinuxContainerUser")].
Definition io_k8s_api_core_v1_DaemonEndpoint : oas_def :=
  DObject ["Port"] [
  prop_or "Port" TInteger (VInt 0)].
Definition io_k8s_api_core_v1_DownwardAPIProjection : oas_def :=
  DObject [] [
  prop "items" (TArray (TRef "io.k8s.api.core.v1.DownwardAPIVolumeFile"))].
Definition io_k8s_api_core_v1_DownwardAPIVolumeFile : oas_def :=
  DObject ["path"] [
  prop "fieldRef" (TRef "io.k8s.api.core.v1.ObjectFieldSelector");
  prop "mode" TInteger;
  prop_or "path" TString (VStr "");
  prop "resourceFieldRef" (TRef "io.k8s.api.core.v1.ResourceFieldSelector");
  prop "user" TInteger].
Definition io_k8s_api_core_v1_DownwardAPIVolumeSource : oas_def :=
  DObject [] [
  prop "defaultMode" TInteger;
  prop "defaultUser" TInteger;
  prop "items" (TArray (TRef "io.k8s.api.core.v1.DownwardAPIVolumeFile"))].
Definition io_k8s_api_core_v1_EmptyDirVolumeSource : oas_def :=
  DObject [] [
  prop "medium" TString;
  prop "mode" TInteger;
  prop "sizeLimit" (TRef "io.k8s.apimachinery.pkg.api.resource.Quantity")].
Definition io_k8s_api_core_v1_EndpointAddress : oas_def :=
  DObject ["ip"] [
  prop "hostname" TString;
  prop_or "ip" TString (VStr "");
  prop "nodeName" TString;
  prop "targetRef" (TRef "io.k8s.api.core.v1.ObjectReference")].
Definition io_k8s_api_core_v1_EndpointPort : oas_def :=
  DObject ["port"] [
  prop "appProtocol" TString;
  prop "name" TString;
  prop_or "port" TInteger (VInt 0);
  prop "protocol" (TEnum ["SCTP"; "TCP"; "UDP"])].
Definition io_k8s_api_core_v1_EndpointSubset : oas_def :=
  DObject [] [
  prop "addresses" (TArray (TRef "io.k8s.api.core.v1.EndpointAddress"));
  prop "notReadyAddresses" (TArray (TRef "io.k8s.api.core.v1.EndpointAddress"));
  prop "ports" (TArray (TRef "io.k8s.api.core.v1.EndpointPort"))].
Definition io_k8s_api_core_v1_Endpoints : oas_def :=
  DObject [] [
  prop "apiVersion" TString;
  prop "kind" TString;
  prop_or "metadata" (TRef "io.k8s.apimachinery.pkg.apis.meta.v1.ObjectMeta") (VDict []);
  prop "subsets" (TArray (TRef "io.k8s.api.core.v1.EndpointSubset"))].
Definition io_k8s_api_core_v1_EndpointsList : oas_def :=
  DObject ["items"] [
  prop "apiVersion" TString;
  prop "items" (TArray (TRef "io.k8s.api.core.v1.Endpoints"));
  prop "kind" TString;
  prop_or "metadata" (TRef "io.k8s.apimachinery.pkg.apis.meta.v1.ListMeta") (VDict [])].
Definition io_k8s_api_core_v1_EnvFromSource : oas_def :=
  DObject [] [
  prop "configMapRef" (TRef "io.k8s.api.core.v1.ConfigMapEnvSource");
  prop "prefix" TString;
  prop "secretRef" (TRef "io.k8s.api.core.v1.SecretEnvSource")].
Definition io_k8s_api_core_v1_EnvVar : oas_def :=
  DObject ["name"] [
  prop_or "name" TString (VStr "");
  prop "value" TString;
  prop "valueFrom" (TRef "io.k8s.api.core.v1.EnvVarSource")].
Definition io_k8s_api_core_v1_EnvVarSource : oas_def :=
  DObject [] [
  prop "configMapKeyRef" (TRef "io.k8s.api.core.v1.ConfigMapKeySelector");
  prop "fieldRef" (TRef "io.k8s.api.core.v1.ObjectFieldSelector");
  prop "fileKeyRef" (TRef "io.k8s.api.core.v1.FileKeySelector");
  prop "resourceFieldRef" (TRef "io.k8s.api.core.v1.ResourceFieldSelector");
  prop "secretKeyRef" (TRef "io.k8s.api.core.v1.SecretKeySelector")].
Definition io_k8s_api_core_v1_EphemeralContainer : oas_def :=
  DObject ["name"] [
  prop "args" (TArray TString);
  prop "command" (TArray TString);
  prop "env" (TArray (TRef "io.k8s.api.core.v1.EnvVar"));
  prop "envFrom" (TArray (TRef "io.k8s.api.core.v1.EnvFromSource"));
  prop "image" TString;
  prop "imagePullPolicy" (TEnum ["Always"; "IfNotPresent"; "Never"]);
  prop "lifecycle" (TRef "io.k8s.api.core.v1.Lifecycle");
  prop "livenessProbe" (TRef "io.k8s.api.core.v1.Probe");
  prop_or "name" TString (VStr "");
  prop "ports" (TArray (TRef "io.k8s.api.core.v1.ContainerPort"));
  prop "readinessProbe" (TRef "io.k8s.api.core.v1.Probe");
  prop "resizePolicy" (TArray (TRef "io.k8s.api.core.v1.ContainerResizePolicy"));
  prop_or "resources" (TRef "io.k8s.api.core.v1.ResourceRequirements") (VDict []);
  prop "restartPolicy" TString;
  prop "restartPolicyRules" (TArray (TRef "io.k8s.api.core.v1.ContainerRestartRule"));
  prop "securityContext" (TRef "io.k8s.api.core.v1.SecurityContext");
  prop "startupProbe" (TRef "io.k8s.api.core.v1.Probe");
  prop "stdin" TBoolean;
  prop "stdinOnce" TBoolean;
  prop "targetContainerName" TString;
  prop "terminationMessagePath" TString;
  prop "terminationMessagePolicy" (TEnum ["FallbackToLogsOnError"; "File"]);
  prop "tty" TBoolean;
  prop "volumeDevices" (TArray (TRef "io.k8s.api.core.v1.VolumeDevice"));
  prop "volumeMounts" (TArray (TRef "io.k8s.api.core.v1.VolumeMount"));
  prop "workingDir" TString].
Definition io_k8s_api_core_v1_EphemeralContainerCommon : oas_def :=
  DObject ["name"] [
  prop "args" (TArray TString);
  prop "command" (TArray TString);
  prop "env" (TArray (TRef "io.k8s.api.core.v1.EnvVar"));
  prop "envFrom" (TArray (TRef "io.k8s.api.core.v1.EnvFromSource"));
  prop "image" TString;
  prop "imagePullPolicy" (TEnum ["Always"; "IfNotPresent"; "Never"]);
  prop "lifecycle" (TRef "io.k8s.api.core.v1.Lifecycle");
  prop "livenessProbe" (TRef "io.k8s.api.core.v1.Probe");
  prop_or "name" TString (VStr "");
  prop "ports" (TArray (TRef "io.k8s.api.core.v1.ContainerPort"));
  prop "readinessProbe" (TRef "io.k8s.api.core.v1.Probe");
  prop "resizePolicy" (TArray (TRef "io.k8s.api.core.v1.ContainerResizePolicy"));
  prop_or "resources" (TRef "io.k8s.api.core.v1.ResourceRequirements") (VDict []);
  prop "restartPolicy" TString;
  prop "restartPolicyRules" (TArray (TRef "io.k8s.api.core.v1.ContainerRestartRule"));
  prop "securityContext" (TRef "io.k8s.api.core.v1.SecurityContext");
  prop "startupProbe" (TRef "io.k8s.api.core.v1.Probe");
  prop "stdin" TBoolean;
  prop "stdinOnce" TBoolean;
  prop "terminationMessagePath" TString;
  prop "terminationMessagePolicy" (TEnum ["FallbackToLogsOnError"; "File"]);
  prop "tty" TBoolean;
  prop "volumeDevices" (TArray (TRef "io.k8s.api.core.v1.VolumeDevice"));
  prop "volumeMounts" (TArray (TRef "io.k8s.api.core.v1.VolumeMount"));
  prop "workingDir" TString].
Definition io_k8s_api_core_v1_EphemeralVolumeSource : oas_def :=
  DObject [] [
  prop "volumeClaimTemplate" (TRef "io.k8s.api.core.v1.PersistentVolumeClaimTemplate")].
Definition io_k8s_api_core_v1_Event : oas_def :=
  DObject ["metadata"; "involvedObject"] [
  prop "action" TString;
  prop "apiVersion" TString;
  prop "count" TInteger;
  prop "eventTime" (TRef "io.k8s.apimachinery.pkg.apis.meta.v1.MicroTime");
  prop "firstTimestamp" (TRef "io.k8s.apimachinery.pkg.apis.meta.v1.Time");
  prop_or "involvedObject" (TRef "io.k8s.api.core.v1.ObjectReference") (VDict []);
  prop "kind" TString;
  prop "lastTimestamp" (TRef "io.k8s.apimachinery.pkg.apis.meta.v1.Time");
  prop "message" TString;
  prop_or "metadata" (TRef "io.k8s.apimachinery.pkg.apis.meta.v1.ObjectMeta") (VDict []);
  prop "reason" TString;
  prop "related" (TRef "io.k8s.api.core.v1.ObjectReference");
  prop_or "reportingComponent" TString (VStr "");
  prop_or "reportingInstance" TString (VStr "");
  prop "series" (TRef "io.k8s.api.core.v1.EventSeries");
  prop_or "source" (TRef "io.k8s.api.core.v1.EventSource") (VDict []);
  prop "type" TString].
Definition io_k8s_api_core_v1_EventList : oas_def :=
  DObject ["items"] [
  prop "apiVersion" TString;
  prop "items" (TArray (TRef "io.k8s.api.core.v1.Event"));
  prop "kind" TString;
  prop_or "metadata" (TRef "io.k8s.apimachinery.pkg.apis.meta.v1.ListMeta") (VDict [])].
Definition io_k8s_api_core_v1_EventSeries : oas_def :=
  DObject [] [
  prop "count" TInteger;
  prop "lastObservedTime" (TRef "io.k8s.apimachinery.pkg.apis.meta.v1.MicroTime")].
Definition io_k8s_api_core_v1_EventSource : oas_def :=
  DObject [] [
  prop "component" TString;
  prop "host" TString].
Definition io_k8s_api_core_v1_EvictionResponder : oas_def :=
  DObject ["name"; "priority"] [
  prop_or "name" TString (VStr "");
  prop "priority" TInteger].
Definition io_k8s_api_core_v1_ExecAction : oas_def :=
  DObject [] [
  prop "command" (TArray TString)].
Definition io_k8s_api_core_v1_FCVolumeSource : oas_def :=
  DObject [] [
  prop "fsType" TString;
  prop "lun" TInteger;
  prop "readOnly" TBoolean;
  prop "targetWWNs" (TArray TString);
  prop "wwids" (TArray TString)].
Definition io_k8s_api_core_v1_FileKeySelector : oas_def :=
  DObject ["volumeName"; "path"; "key"] [
  prop_or "key" TString (VStr "");
  prop_or "optional" TBoolean (VBool false);
  prop_or "path" TString (VStr "");
  prop_or "volumeName" TString (VStr "")].
Definition io_k8s_api_core_v1_FlexPersistentVolumeSource : oas_def :=
  DObject ["driver"] [
  prop_or "driver" TString (VStr "");
  prop "fsType" TString;
  prop "options" (TMap TString);
  prop "readOnly" TBoolean;
  prop "secretRef" (TRef "io.k8s.api.core.v1.SecretReference")].
Definition io_k8s_api_core_v1_FlexVolumeSource : oas_def :=
  DObject ["driver"] [
  prop_or "driver" TString (VStr "");
  prop "fsType" TString;
  prop "options" (TMap TString);
  prop "readOnly" TBoolean;
  prop "secretRef" (TRef "io.k8s.api.core.v1.LocalObjectReference")].
Definition io_k8s_api_core_v1_FlockerVolumeSource : oas_def :=
  DObject [] [
  prop "datasetName" TString;
  prop "datasetUUID" TString].
Definition io_k8s_api_core_v1_GCEPersistentDiskVolumeSource : oas_def :=
  DObject ["pdName"] [
  prop "fsType" TString;
  prop "partition" TInteger;
  prop_or "pdName" TString (VStr "");
  prop "readOnly" TBoolean].
Definition io_k8s_api_core_v1_GRPCAction : oas_def :=
  DObject ["port"] [
  prop "mode" (TEnum ["Plaintext"; "TLS"]);
  prop_or "port" TInteger (VInt 0);
  prop_or "service" TString (VStr "")].
Definition io_k8s_api_core_v1_GitRepoVolumeSource : oas_def :=
  DObject ["repository"] [
  prop "directory" TString;
  prop_or "repository" TString (VStr "");
  prop "revision" TString].
Definition io_k8s_api_core_v1_GlusterfsPersistentVolumeSource : oas_def :=
  DObject ["endpoints"; "path"] [
  prop_or "endpoints" TString (VStr "");
  prop "endpointsNamespace" TString;
  prop_or "path" TString (VStr "");
  prop "readOnly" TBoolean].
Definition io_k8s_api_core_v1_GlusterfsVolumeSource : oas_def :=
  DObject ["endpoints"; "path"] [
  prop_or "endpoints" TString (VStr "");
  prop_or "path" TString (VStr "");
  prop "readOnly" TBoolean].
Definition io_k8s_api_core_v1_HTTPGetAction : oas_def :=
  DObject ["port"] [
  prop "host" TString;
  prop "httpHeaders" (TArray (TRef "io.k8s.api.core.v1.HTTPHeader"));
  prop "path" TString;
  prop "port" (TRef "io.k8s.apimachinery.pkg.util.intstr.IntOrString");
  prop "protocol" (TEnum ["HTTP1"; "HTTP2"]);
  prop "scheme" (TEnum ["HTTP"; "HTTPS"])].
Definition io_k8s_api_core_v1_HTTPHeader : oas_def :=
  DObject ["name"; "value"] [
  prop_or "name" TString (VStr "");
  prop_or "value" TString (VStr "")].
Definition io_k8s_api_core_v1_HostAlias : oas_def :=
  DObject ["ip"] [
  prop "hostnames" (TArray TString);
  prop_or "ip" TString (VStr "")].
Definition io_k8s_api_core_v1_HostIP : oas_def :=
  DObject ["ip"] [
  prop_or "ip" TString (VStr "")].
Definition io_k8s_api_core_v1_HostPathVolumeSource : oas_def :=
  DObject ["path"] [
  prop_or "path" TString (VStr "");
  prop "type" (TEnum [""; "BlockDevice"; "CharDevice"; "Directory"; "DirectoryOrCreate"; "File";
    "FileOrCreate"; "Socket"])].
Definition io_k8s_api_core_v1_ISCSIPersistentVolumeSource : oas_def :=
  DObject ["targetPortal"; "iqn"; "lun"] [
  prop "chapAuthDiscovery" TBoolean;
  prop "chapAuthSession" TBoolean;
  prop "fsType" TString;
  prop "initiatorName" TString;
  prop_or "iqn" TString (VStr "");
  prop_or "iscsiInterface" TString (VStr "default");
  prop_or "lun" TInteger (VInt 0);
  prop "portals" (TArray TString);
  prop "readOnly" TBoolean;
  prop "secretRef" (TRef "io.k8s.api.core.v1.SecretReference");
  prop_or "targetPortal" TString (VStr "")].
Definition io_k8s_api_core_v1_ISCSIVolumeSource : oas_def :=
  DObject ["targetPortal"; "iqn"; "lun"] [
  prop "chapAuthDiscovery" TBoolean;
  prop "chapAuthSession" TBoolean;
  prop "fsType" TString;
  prop "initiatorName" TString;
  prop_or "iqn" TString (VStr "");
  prop_or "iscsiInterface" TString (VStr "default");
  prop_or "lun" TInteger (VInt 0);
  prop "portals" (TArray TString);
  prop "readOnly" TBoolean;
  prop "secretRef" (TRef "io.k8s.api.core.v1.LocalObjectReference");
  prop_or "targetPortal" TString (VStr "")].
Definition io_k8s_api_core_v1_ImageVolumeSource : oas_def :=
  DObject [] [
  prop "pullPolicy" (TEnum ["Always"; "IfNotPresent"; "Never"]);
  prop "reference" TString].
Definition io_k8s_api_core_v1_ImageVolumeStatus : oas_def :=
  DObject ["imageRef"] [
  prop "imageRef" TString].
Definition io_k8s_api_core_v1_KeyToPath : oas_def :=
  DObject ["key"; "path"] [
  prop_or "key" TString (VStr "");
  prop "mode" TInteger;
  prop_or "path" TString (VStr "");
  prop "user" TInteger].
Definition io_k8s_api_core_v1_Lifecycle : oas_def :=
  DObject [] [
  prop "postStart" (TRef "io.k8s.api.core.v1.LifecycleHandler");
  prop "preStop" (TRef "io.k8s.api.core.v1.LifecycleHandler");
  prop "stopSignal" (TEnum ["SIGABRT"; "SIGALRM"; "SIGBUS"; "SIGCHLD"; "SIGCLD"; "SIGCONT";
    "SIGFPE"; "SIGHUP"; "SIGILL"; "SIGINT"; "SIGIO"; "SIGIOT"; "SIGKILL"; "SIGPIPE"; "SIGPOLL";
    "SIGPROF"; "SIGPWR"; "SIGQUIT"; "SIGRTMAX"; "SIGRTMAX-1"; "SIGRTMAX-10"; "SIGRTMAX-11";
    "SIGRTMAX-12"; "SIGRTMAX-13"; "SIGRTMAX-14"; "SIGRTMAX-2"; "SIGRTMAX-3"; "SIGRTMAX-4";
    "SIGRTMAX-5"; "SIGRTMAX-6"; "SIGRTMAX-7"; "SIGRTMAX-8"; "SIGRTMAX-9"; "SIGRTMIN";
    "SIGRTMIN+1"; "SIGRTMIN+10"; "SIGRTMIN+11"; "SIGRTMIN+12"; "SIGRTMIN+13"; "SIGRTMIN+14";
    "SIGRTMIN+15"; "SIGRTMIN+2"; "SIGRTMIN+3"; "SIGRTMIN+4"; "SIGRTMIN+5"; "SIGRTMIN+6";
    "SIGRTMIN+7"; "SIGRTMIN+8"; "SIGRTMIN+9"; "SIGSEGV"; "SIGSTKFLT"; "SIGSTOP"; "SIGSYS";
    "SIGTERM"; "SIGTRAP"; "SIGTSTP"; "SIGTTIN"; "SIGTTOU"; "SIGURG"; "SIGUSR1"; "SIGUSR2";
    "SIGVTALRM"; "SIGWINCH"; "SIGXCPU"; "SIGXFSZ"])].
Definition io_k8s_api_core_v1_LifecycleHandler : oas_def :=
  DObject [] [
  prop "exec" (TRef "io.k8s.api.core.v1.ExecAction");
  prop "httpGet" (TRef "io.k8s.api.core.v1.HTTPGetAction");
  prop "sleep" (TRef "io.k8s.api.core.v1.SleepAction");
  prop "tcpSocket" (TRef "io.k8s.api.core.v1.TCPSocketAction")].
Definition io_k8s_api_core_v1_LimitRange : oas_def :=
  DObject [] [
  prop "apiVersion" TString;
  prop "kind" TString;
  prop_or "metadata" (TRef "io.k8s.apimachinery.pkg.apis.meta.v1.ObjectMeta") (VDict []);
  prop_or "spec" (TRef "io.k8s.api.core.v1.LimitRangeSpec") (VDict [])].
Definition io_k8s_api_core_v1_LimitRangeItem : oas_def :=
  DObject ["type"] [
  prop "default" (TMap (TRef "io.k8s.apimachinery.pkg.api.resource.Quantity"));
  prop "defaultRequest" (TMap (TRef "io.k8s.apimachinery.pkg.api.resource.Quantity"));
  prop "max" (TMap (TRef "io.k8s.apimachinery.pkg.api.resource.Quantity"));
  prop "maxLimitRequestRatio" (TMap (TRef "io.k8s.apimachinery.pkg.api.resource.Quantity"));
  prop "min" (TMap (TRef "io.k8s.apimachinery.pkg.api.resource.Quantity"));
  prop_or "type" TString (VStr "")].
Definition io_k8s_api_core_v1_LimitRangeList : oas_def :=
  DObject ["items"] [
  prop "apiVersion" TString;
  prop "items" (TArray (TRef "io.k8s.api.core.v1.LimitRange"));
  prop "kind" TString;
  prop_or "metadata" (TRef "io.k8s.apimachinery.pkg.apis.meta.v1.ListMeta") (VDict [])].
Definition io_k8s_api_core_v1_LimitRangeSpec : oas_def :=
  DObject ["limits"] [
  prop "limits" (TArray (TRef "io.k8s.api.core.v1.LimitRangeItem"))].
Definition io_k8s_api_core_v1_LinuxContainerUser : oas_def :=
  DObject ["uid"; "gid"] [
  prop_or "gid" TInteger (VInt 0);
  prop "supplementalGroups" (TArray TInteger);
  prop_or "uid" TInteger (VInt 0)].
Definition io_k8s_api_core_v1_List : oas_def :=
  DObject ["items"] [
  prop "apiVersion" TString;
  prop "items" (TArray (TRef "io.k8s.apimachinery.pkg.runtime.RawExtension"));
  prop "kind" TString;
  prop_or "metadata" (TRef "io.k8s.apimachinery.pkg.apis.meta.v1.ListMeta") (VDict [])].
Definition io_k8s_api_core_v1_LoadBalancerIngress : oas_def :=
  DObject [] [
  prop "hostname" TString;
  prop "ip" TString;
  prop "ipMode" TString;
  prop "ports" (TArray (TRef "io.k8s.api.core.v1.PortStatus"))].
Definition io_k8s_api_core_v1_LoadBalancerStatus : oas_def :=
  DObject [] [
  prop "ingress" (TArray (TRef "io.k8s.api.core.v1.LoadBalancerIngress"))].
Definition io_k8s_api_core_v1_LocalObjectReference : oas_def :=
  DObject [] [
  prop_or "name" TString (VStr "")].
Definition io_k8s_api_core_v1_LocalVolumeSource : oas_def :=
  DObject ["path"] [
  prop "fsType" TString;
  prop_or "path" TString (VStr "")].
Definition io_k8s_api_core_v1_ModifyVolumeStatus : oas_def :=
  DObject ["status"] [
  prop "status" (TEnum ["InProgress"; "Infeasible"; "Pending"]);
  prop "targetVolumeAttributesClassName" TString].
Definition io_k8s_api_core_v1_NFSVolumeSource : oas_def :=
  DObject ["server"; "path"] [
  prop_or "path" TString (VStr "");
  prop "readOnly" TBoolean;
  prop_or "server" TString (VStr "")].
Definition io_k8s_api_core_v1_Namespace : oas_def :=
  DObject [] [
  prop "apiVersion" TString;
  prop "kind" TString;
  prop_or "metadata" (TRef "io.k8s.apimachinery.pkg.apis.meta.v1.ObjectMeta") (VDict []);
  prop_or "spec" (TRef "io.k8s.api.core.v1.NamespaceSpec") (VDict []);
  prop_or "status" (TRef "io.k8s.api.core.v1.NamespaceStatus") (VDict [])].
Definition io_k8s_api_core_v1_NamespaceCondition : oas_def :=
  DObject ["type"; "status"] [
  prop "lastTransitionTime" (TRef "io.k8s.apimachinery.pkg.apis.meta.v1.Time");
  prop "message" TString;
  prop "reason" TString;
  prop_or "status" TString (VStr "");
  prop_or "type" TString (VStr "")].
Definition io_k8s_api_core_v1_NamespaceList : oas_def :=
  DObject ["items"] [
  prop "apiVersion" TString;
  prop "items" (TArray (TRef "io.k8s.api.core.v1.Namespace"));
  prop "kind" TString;
  prop_or "metadata" (TRef "io.k8s.apimachinery.pkg.apis.meta.v1.ListMeta") (VDict [])].
Definition io_k8s_api_core_v1_NamespaceSpec : oas_def :=
  DObject [] [
  prop "finalizers" (TArray TString)].
Definition io_k8s_api_core_v1_NamespaceStatus : oas_def :=
  DObject [] [
  prop "conditions" (TArray (TRef "io.k8s.api.core.v1.NamespaceCondition"));
  prop "phase" (TEnum ["Active"; "Terminating"])].
Definition io_k8s_api_core_v1_Node : oas_def :=
  DObject [] [
  prop "apiVersion" TString;
  prop "kind" TString;
  prop_or "metadata" (TRef "io.k8s.apimachinery.pkg.apis.meta.v1.ObjectMeta") (VDict []);
  prop_or "spec" (TRef "io.k8s.api.core.v1.NodeSpec") (VDict []);
  prop_or "status" (TRef "io.k8s.api.core.v1.NodeStatus") (VDict [])].
Definition io_k8s_api_core_v1_NodeAddress : oas_def :=
  DObject ["type"; "address"] [
  prop_or "address" TString (VStr "");
  prop_or "type" TString (VStr "")].
Definition io_k8s_api_core_v1_NodeAffinity : oas_def :=
  DObject [] [
  prop "preferredDuringSchedulingIgnoredDuringExecution" (TArray (TRef
    "io.k8s.api.core.v1.PreferredSchedulingTerm"));
  prop "requiredDuringSchedulingIgnoredDuringExecution" (TRef "io.k8s.api.core.v1.NodeSelector")].
Definition io_k8s_api_core_v1_NodeAllocatableMappedResources : oas_def :=
  DObject ["name"; "quantity"] [
  prop_or "name" TString (VStr "");
  prop "quantity" (TRef "io.k8s.apimachinery.pkg.api.resource.Quantity")].
Definition io_k8s_api_core_v1_NodeAllocatableOverheadResources : oas_def :=
  DObject ["name"] [
  prop_or "name" TString (VStr "");
  prop "perContainer" (TRef "io.k8s.apimachinery.pkg.api.resource.Quantity");
  prop "perPod" (TRef "io.k8s.apimachinery.pkg.api.resource.Quantity")].
Definition io_k8s_api_core_v1_NodeAllocatableResourceClaimStatus : oas_def :=
  DObject ["resourceClaimName"] [
  prop "containers" (TArray TString);
  prop "mapping" (TArray (TRef "io.k8s.api.core.v1.NodeAllocatableMappedResources"));
  prop "overhead" (TArray (TRef "io.k8s.api.core.v1.NodeAllocatableOverheadResources"));
  prop_or "resourceClaimName" TString (VStr "")].
Definition io_k8s_api_core_v1_NodeCondition : oas_def :=
  DObject ["type"; "status"] [
  prop "lastHeartbeatTime" (TRef "io.k8s.apimachinery.pkg.apis.meta.v1.Time");
  prop "lastTransitionTime" (TRef "io.k8s.apimachinery.pkg.apis.meta.v1.Time");
  prop "message" TString;
  prop "reason" TString;
  prop_or "status" TString (VStr "");
  prop_or "type" TString (VStr "")].
Definition io_k8s_api_core_v1_NodeConfigSource : oas_def :=
  DObject [] [
  prop "configMap" (TRef "io.k8s.api.core.v1.ConfigMapNodeConfigSource")].
Definition io_k8s_api_core_v1_NodeConfigStatus : oas_def :=
  DObject [] [
  prop "active" (TRef "io.k8s.api.core.v1.NodeConfigSource");
  prop "assigned" (TRef "io.k8s.api.core.v1.NodeConfigSource");
  prop "error" TString;
  prop "lastKnownGood" (TRef "io.k8s.api.core.v1.NodeConfigSource")].
Definition io_k8s_api_core_v1_NodeDaemonEndpoints : oas_def :=
  DObject [] [
  prop_or "kubeletEndpoint" (TRef "io.k8s.api.core.v1.DaemonEndpoint") (VDict [])].
Definition io_k8s_api_core_v1_NodeFeatures : oas_def :=
  DObject [] [
  prop "supplementalGroupsPolicy" TBoolean].
Definition io_k8s_api_core_v1_NodeList : oas_def :=
  DObject ["items"] [
  prop "apiVersion" TString;
  prop "items" (TArray (TRef "io.k8s.api.core.v1.Node"));
  prop "kind" TString;
  prop_or "metadata" (TRef "io.k8s.apimachinery.pkg.apis.meta.v1.ListMeta") (VDict [])].
Definition io_k8s_api_core_v1_NodePodPreemptionPolicy : oas_def :=
  DObject [] [
  prop "disableResizePreemption" (TArray TString)].
Definition io_k8s_api_core_v1_NodeProxyOptions : oas_def :=
  DObject [] [
  prop "apiVersion" TString;
  prop "kind" TString;
  prop "path" TString].
Definition io_k8s_api_core_v1_NodeRuntimeHandler : oas_def :=
  DObject [] [
  prop "features" (TRef "io.k8s.api.core.v1.NodeRuntimeHandlerFeatures");
  prop_or "name" TString (VStr "")].
Definition io_k8s_api_core_v1_NodeRuntimeHandlerFeatures : oas_def :=
  DObject [] [
  prop "recursiveReadOnlyMounts" TBoolean;
  prop "userNamespaces" TBoolean].
Definition io_k8s_api_core_v1_NodeSelector : oas_def :=
  DObject ["nodeSelectorTerms"] [
  prop "nodeSelectorTerms" (TArray (TRef "io.k8s.api.core.v1.NodeSelectorTerm"))].
Definition io_k8s_api_core_v1_NodeSelectorRequirement : oas_def :=
  DObject ["key"; "operator"] [
  prop_or "key" TString (VStr "");
  prop "operator" (TEnum ["DoesNotExist"; "Exists"; "Gt"; "In"; "Lt"; "NotIn"]);
  prop "values" (TArray TString)].
Definition io_k8s_api_core_v1_NodeSelectorTerm : oas_def :=
  DObject [] [
  prop "matchExpressions" (TArray (TRef "io.k8s.api.core.v1.NodeSelectorRequirement"));
  prop "matchFields" (TArray (TRef "io.k8s.api.core.v1.NodeSelectorRequirement"))].
Definition io_k8s_api_core_v1_NodeSpec : oas_def :=
  DObject [] [
  prop "configSource" (TRef "io.k8s.api.core.v1.NodeConfigSource");
  prop "externalID" TString;
  prop "podCIDR" TString;
  prop "podCIDRs" (TArray TString);
  prop "podPreemptionPolicy" (TRef "io.k8s.api.core.v1.NodePodPreemptionPolicy");
  prop "providerID" TString;
  prop "taints" (TArray (TRef "io.k8s.api.core.v1.Taint"));
  prop "unschedulable" TBoolean].
Definition io_k8s_api_core_v1_NodeStatus : oas_def :=
  DObject [] [
  prop "addresses" (TArray (TRef "io.k8s.api.core.v1.NodeAddress"));
  prop "allocatable" (TMap (TRef "io.k8s.apimachinery.pkg.api.resource.Quantity"));
  prop "capacity" (TMap (TRef "io.k8s.apimachinery.pkg.api.resource.Quantity"));
  prop "conditions" (TArray (TRef "io.k8s.api.core.v1.NodeCondition"));
  prop "config" (TRef "io.k8s.api.core.v1.NodeConfigStatus");
  prop_or "daemonEndpoints" (TRef "io.k8s.api.core.v1.NodeDaemonEndpoints") (VDict []);
  prop "declaredFeatures" (TArray TString);
  prop "features" (TRef "io.k8s.api.core.v1.NodeFeatures");
  prop "images" (TArray (TRef "io.k8s.api.core.v1.ContainerImage"));
  prop_or "nodeInfo" (TRef "io.k8s.api.core.v1.NodeSystemInfo") (VDict []);
  prop "phase" (TEnum ["Pending"; "Running"; "Terminated"]);
  prop "runtimeHandlers" (TArray (TRef "io.k8s.api.core.v1.NodeRuntimeHandler"));
  prop "volumesAttached" (TArray (TRef "io.k8s.api.core.v1.AttachedVolume"));
  prop "volumesInUse" (TArray TString)].
Definition io_k8s_api_core_v1_NodeSwapStatus : oas_def :=
  DObject [] [
  prop "capacity" TInteger].
Definition io_k8s_api_core_v1_NodeSystemInfo : oas_def :=
  DObject ["machineID"; "systemUUID"; "bootID"; "kernelVersion"; "osImage";
    "containerRuntimeVersion"; "kubeletVersion"; "kubeProxyVersion"; "operatingSystem";
    "architecture"] [
  prop_or "architecture" TString (VStr "");
  prop_or "bootID" TString (VStr "");
  prop_or "containerRuntimeVersion" TString (VStr "");
  prop_or "kernelVersion" TString (VStr "");
  prop_or "kubeProxyVersion" TString (VStr "");
  prop_or "kubeletVersion" TString (VStr "");
  prop_or "machineID" TString (VStr "");
  prop_or "operatingSystem" TString (VStr "");
  prop_or "osImage" TString (VStr "");
  prop "runningInUserNamespace" TBoolean;
  prop "swap" (TRef "io.k8s.api.core.v1.NodeSwapStatus");
  prop_or "systemUUID" TString (VStr "")].
Definition io_k8s_api_core_v1_ObjectFieldSelector : oas_def :=
  DObject ["fieldPath"] [
  prop "apiVersion" TString;
  prop_or "fieldPath" TString (VStr "")].
Definition io_k8s_api_core_v1_ObjectReference : oas_def :=
  DObject [] [
  prop "apiVersion" TString;
  prop "fieldPath" TString;
  prop "kind" TString;
  prop "name" TString;
  prop "namespace" TString;
  prop "resourceVersion" TString;
  prop "uid" TString].
Definition io_k8s_api_core_v1_PersistentVolume : oas_def :=
  DObject [] [
  prop "apiVersion" TString;
  prop "kind" TString;
  prop_or "metadata" (TRef "io.k8s.apimachinery.pkg.apis.meta.v1.ObjectMeta") (VDict []);
  prop_or "spec" (TRef "io.k8s.api.core.v1.PersistentVolumeSpec") (VDict []);
  prop_or "status" (TRef "io.k8s.api.core.v1.PersistentVolumeStatus") (VDict [])].
Definition io_k8s_api_core_v1_PersistentVolumeClaim : oas_def :=
  DObject [] [
  prop "apiVersion" TString;
  prop "kind" TString;
  prop_or "metadata" (TRef "io.k8s.apimachinery.pkg.apis.meta.v1.ObjectMeta") (VDict []);
  prop_or "spec" (TRef "io.k8s.api.core.v1.PersistentVolumeClaimSpec") (VDict []);
  prop_or "status" (TRef "io.k8s.api.core.v1.PersistentVolumeClaimStatus") (VDict [])].
Definition io_k8s_api_core_v1_PersistentVolumeClaimCondition : oas_def :=
  DObject ["type"; "status"] [
  prop "lastProbeTime" (TRef "io.k8s.apimachinery.pkg.apis.meta.v1.Time");
  prop "lastTransitionTime" (TRef "io.k8s.apimachinery.pkg.apis.meta.v1.Time");
  prop "message" TString;
  prop "reason" TString;
  prop_or "status" TString (VStr "");
  prop_or "type" TString (VStr "")].
Definition io_k8s_api_core_v1_PersistentVolumeClaimList : oas_def :=
  DObject ["items"] [
  prop "apiVersion" TString;
  prop "items" (TArray (TRef "io.k8s.api.core.v1.PersistentVolumeClaim"));
  prop "kind" TString;
  prop_or "metadata" (TRef "io.k8s.apimachinery.pkg.apis.meta.v1.ListMeta") (VDict [])].
Definition io_k8s_api_core_v1_PersistentVolumeClaimSpec : oas_def :=
  DObject [] [
  prop "accessModes" (TArray (TEnum ["ReadOnlyMany"; "ReadWriteMany"; "ReadWriteOnce";
    "ReadWriteOncePod"]));
  prop "dataSource" (TRef "io.k8s.api.core.v1.TypedLocalObjectReference");
  prop "dataSourceRef" (TRef "io.k8s.api.core.v1.TypedObjectReference");
  prop_or "resources" (TRef "io.k8s.api.core.v1.VolumeResourceRequirements") (VDict []);
  prop "selector" (TRef "io.k8s.apimachinery.pkg.apis.meta.v1.LabelSelector");
  prop "storageClassName" TString;
  prop "volumeAttributesClassName" TString;
  prop "volumeMode" (TEnum ["Block"; "Filesystem"]);
  prop "volumeName" TString].
Definition io_k8s_api_core_v1_PersistentVolumeClaimStatus : oas_def :=
  DObject [] [
  prop "accessModes" (TArray (TEnum ["ReadOnlyMany"; "ReadWriteMany"; "ReadWriteOnce";
    "ReadWriteOncePod"]));
  prop "allocatedResourceStatuses" (TMap (TEnum ["ControllerResizeInProgress";
    "ControllerResizeInfeasible"; "NodeResizeInProgress"; "NodeResizeInfeasible";
    "NodeResizePending"]));
  prop "allocatedResources" (TMap (TRef "io.k8s.apimachinery.pkg.api.resource.Quantity"));
  prop "capacity" (TMap (TRef "io.k8s.apimachinery.pkg.api.resource.Quantity"));
  prop "conditions" (TArray (TRef "io.k8s.api.core.v1.PersistentVolumeClaimCondition"));
  prop "currentVolumeAttributesClassName" TString;
  prop "healthStatus" (TRef "io.k8s.api.core.v1.VolumeHealthStatus");
  prop "modifyVolumeStatus" (TRef "io.k8s.api.core.v1.ModifyVolumeStatus");
  prop "phase" (TEnum ["Bound"; "Lost"; "Pending"])].
Definition io_k8s_api_core_v1_PersistentVolumeClaimTemplate : oas_def :=
  DObject ["spec"] [
  prop_or "metadata" (TRef "io.k8s.apimachinery.pkg.apis.meta.v1.ObjectMeta") (VDict []);
  prop_or "spec" (TRef "io.k8s.api.core.v1.PersistentVolumeClaimSpec") (VDict [])].
Definition io_k8s_api_core_v1_PersistentVolumeClaimVolumeSource : oas_def :=
  DObject ["claimName"] [
  prop_or "claimName" TString (VStr "");
  prop "readOnly" TBoolean].
Definition io_k8s_api_core_v1_PersistentVolumeList : oas_def :=
  DObject ["items"] [
  prop "apiVersion" TString;
  prop "items" (TArray (TRef "io.k8s.api.core.v1.PersistentVolume"));
  prop "kind" TString;
  prop_or "metadata" (TRef "io.k8s.apimachinery.pkg.apis.meta.v1.ListMeta") (VDict [])].
Definition io_k8s_api_core_v1_PersistentVolumeSource : oas_def :=
  DObject [] [
  prop "awsElasticBlockStore" (TRef "io.k8s.api.core.v1.AWSElasticBlockStoreVolumeSource");
  prop "azureDisk" (TRef "io.k8s.api.core.v1.AzureDiskVolumeSource");
  prop "azureFile" (TRef "io.k8s.api.core.v1.AzureFilePersistentVolumeSource");
  prop "cephfs" (TRef "io.k8s.api.core.v1.CephFSPersistentVolumeSource");
  prop "cinder" (TRef "io.k8s.api.core.v1.CinderPersistentVolumeSource");
  prop "csi" (TRef "io.k8s.api.core.v1.CSIPersistentVolumeSource");
  prop "fc" (TRef "io.k8s.api.core.v1.FCVolumeSource");
  prop "flexVolume" (TRef "io.k8s.api.core.v1.FlexPersistentVolumeSource");
  prop "flocker" (TRef "io.k8s.api.core.v1.FlockerVolumeSource");
  prop "gcePersistentDisk" (TRef "io.k8s.api.core.v1.GCEPersistentDiskVolumeSource");
  prop "glusterfs" (TRef "io.k8s.api.core.v1.GlusterfsPersistentVolumeSource");
  prop "hostPath" (TRef "io.k8s.api.core.v1.HostPathVolumeSource");
  prop "iscsi" (TRef "io.k8s.api.core.v1.ISCSIPersistentVolumeSource");
  prop "local" (TRef "io.k8s.api.core.v1.LocalVolumeSource");
  prop "nfs" (TRef "io.k8s.api.core.v1.NFSVolumeSource");
  prop "photonPersistentDisk" (TRef "io.k8s.api.core.v1.PhotonPersistentDiskVolumeSource");
  prop "portworxVolume" (TRef "io.k8s.api.core.v1.PortworxVolumeSource");
  prop "quobyte" (TRef "io.k8s.api.core.v1.QuobyteVolumeSource");
  prop "rbd" (TRef "io.k8s.api.core.v1.RBDPersistentVolumeSource");
  prop "scaleIO" (TRef "io.k8s.api.core.v1.ScaleIOPersistentVolumeSource");
  prop "storageos" (TRef "io.k8s.api.core.v1.StorageOSPersistentVolumeSource");
  prop "vsphereVolume" (TRef "io.k8s.api.core.v1.VsphereVirtualDiskVolumeSource")].
Definition io_k8s_api_core_v1_PersistentVolumeSpec : oas_def :=
  DObject [] [
  prop "accessModes" (TArray (TEnum ["ReadOnlyMany"; "ReadWriteMany"; "ReadWriteOnce";
    "ReadWriteOncePod"]));
  prop "awsElasticBlockStore" (TRef "io.k8s.api.core.v1.AWSElasticBlockStoreVolumeSource");
  prop "azureDisk" (TRef "io.k8s.api.core.v1.AzureDiskVolumeSource");
  prop "azureFile" (TRef "io.k8s.api.core.v1.AzureFilePersistentVolumeSource");
  prop "capacity" (TMap (TRef "io.k8s.apimachinery.pkg.api.resource.Quantity"));
  prop "cephfs" (TRef "io.k8s.api.core.v1.CephFSPersistentVolumeSource");
  prop "cinder" (TRef "io.k8s.api.core.v1.CinderPersistentVolumeSource");
  prop "claimRef" (TRef "io.k8s.api.core.v1.ObjectReference");
  prop "csi" (TRef "io.k8s.api.core.v1.CSIPersistentVolumeSource");
  prop "fc" (TRef "io.k8s.api.core.v1.FCVolumeSource");
  prop "flexVolume" (TRef "io.k8s.api.core.v1.FlexPersistentVolumeSource");
  prop "flocker" (TRef "io.k8s.api.core.v1.FlockerVolumeSource");
  prop "gcePersistentDisk" (TRef "io.k8s.api.core.v1.GCEPersistentDiskVolumeSource");
  prop "glusterfs" (TRef "io.k8s.api.core.v1.GlusterfsPersistentVolumeSource");
  prop "hostPath" (TRef "io.k8s.api.core.v1.HostPathVolumeSource");
  prop "iscsi" (TRef "io.k8s.api.core.v1.ISCSIPersistentVolumeSource");
  prop "local" (TRef "io.k8s.api.core.v1.LocalVolumeSource");
  prop "mountOptions" (TArray TString);
  prop "nfs" (TRef "io.k8s.api.core.v1.NFSVolumeSource");
  prop "nodeAffinity" (TRef "io.k8s.api.core.v1.VolumeNodeAffinity");
  prop "persistentVolumeReclaimPolicy" (TEnum ["Delete"; "Recycle"; "Retain"]);
  prop "photonPersistentDisk" (TRef "io.k8s.api.core.v1.PhotonPersistentDiskVolumeSource");
  prop "portworxVolume" (TRef "io.k8s.api.core.v1.PortworxVolumeSource");
  prop "quobyte" (TRef "io.k8s.api.core.v1.QuobyteVolumeSource");
  prop "rbd" (TRef "io.k8s.api.core.v1.RBDPersistentVolumeSource");
  prop "scaleIO" (TRef "io.k8s.api.core.v1.ScaleIOPersistentVolumeSource");
  prop "storageClassName" TString;
  prop "storageos" (TRef "io.k8s.api.core.v1.StorageOSPersistentVolumeSource");
  prop "volumeAttributesClassName" TString;
  prop "volumeMode" (TEnum ["Block"; "Filesystem"]);
  prop "vsphereVolume" (TRef "io.k8s.api.core.v1.VsphereVirtualDiskVolumeSource")].
Definition io_k8s_api_core_v1_PersistentVolumeStatus : oas_def :=
  DObject [] [
  prop "lastPhaseTransitionTime" (TRef "io.k8s.apimachinery.pkg.apis.meta.v1.Time");
  prop "message" TString;
  prop "phase" (TEnum ["Available"; "Bound"; "Failed"; "Pending"; "Released"]);
  prop "reason" TString].
Definition io_k8s_api_core_v1_PhotonPersistentDiskVolumeSource : oas_def :=
  DObject ["pdID"] [
  prop "fsType" TString;
  prop_or "pdID" TString (VStr "")].
Definition io_k8s_api_core_v1_Pod : oas_def :=
  DObject [] [
  prop "apiVersion" TString;
  prop "kind" TString;
  prop_or "metadata" (TRef "io.k8s.apimachinery.pkg.apis.meta.v1.ObjectMeta") (VDict []);
  prop_or "spec" (TRef "io.k8s.api.core.v1.PodSpec") (VDict []);
  prop_or "status" (TRef "io.k8s.api.core.v1.PodStatus") (VDict [])].
Definition io_k8s_api_core_v1_PodAffinity : oas_def :=
  DObject [] [
  prop "preferredDuringSchedulingIgnoredDuringExecution" (TArray (TRef
    "io.k8s.api.core.v1.WeightedPodAffinityTerm"));
  prop "requiredDuringSchedulingIgnoredDuringExecution" (TArray (TRef
    "io.k8s.api.core.v1.PodAffinityTerm"))].
Definition io_k8s_api_core_v1_PodAffinityTerm : oas_def :=
  DObject ["topologyKey"] [
  prop "labelSelector" (TRef "io.k8s.apimachinery.pkg.apis.meta.v1.LabelSelector");
  prop "matchLabelKeys" (TArray TString);
  prop "mismatchLabelKeys" (TArray TString);
  prop "namespaceSelector" (TRef "io.k8s.apimachinery.pkg.apis.meta.v1.LabelSelector");
  prop "namespaces" (TArray TString);
  prop_or "topologyKey" TString (VStr "")].
Definition io_k8s_api_core_v1_PodAntiAffinity : oas_def :=
  DObject [] [
  prop "preferredDuringSchedulingIgnoredDuringExecution" (TArray (TRef
    "io.k8s.api.core.v1.WeightedPodAffinityTerm"));
  prop "requiredDuringSchedulingIgnoredDuringExecution" (TArray (TRef
    "io.k8s.api.core.v1.PodAffinityTerm"))].
Definition io_k8s_api_core_v1_PodAttachOptions : oas_def :=
  DObject [] [
  prop "apiVersion" TString;
  prop "container" TString;
  prop "kind" TString;
  prop "stderr" TBoolean;
  prop "stdin" TBoolean;
  prop "stdout" TBoolean;
  prop "tty" TBoolean].
Definition io_k8s_api_core_v1_PodCertificateProjection : oas_def :=
  DObject ["signerName"; "keyType"] [
  prop "certificateChainPath" TString;
  prop "credentialBundlePath" TString;
  prop "keyPath" TString;
  prop "keyType" TString;
  prop "maxExpirationSeconds" TInteger;
  prop "signerName" TString;
  prop "user" TInteger;
  prop "userAnnotations" (TMap TString)].
Definition io_k8s_api_core_v1_PodCondition : oas_def :=
  DObject ["type"; "status"] [
  prop "lastProbeTime" (TRef "io.k8s.apimachinery.pkg.apis.meta.v1.Time");
  prop "lastTransitionTime" (TRef "io.k8s.apimachinery.pkg.apis.meta.v1.Time");
  prop "message" TString;
  prop "observedGeneration" TInteger;
  prop "reason" TString;
  prop_or "status" TString (VStr "");
  prop_or "type" TString (VStr "")].
Definition io_k8s_api_core_v1_PodDNSConfig : oas_def :=
  DObject [] [
  prop "nameservers" (TArray TString);
  prop "options" (TArray (TRef "io.k8s.api.core.v1.PodDNSConfigOption"));
  prop "searches" (TArray TString)].
Definition io_k8s_api_core_v1_PodDNSConfigOption : oas_def :=
  DObject [] [
  prop "name" TString;
  prop "value" TString].
Definition io_k8s_api_core_v1_PodExecOptions : oas_def :=
  DObject ["command"] [
  prop "apiVersion" TString;
  prop "command" (TArray TString);
  prop "container" TString;
  prop "kind" TString;
  prop "stderr" TBoolean;
  prop "stdin" TBoolean;
  prop "stdout" TBoolean;
  prop "tty" TBoolean].
Definition io_k8s_api_core_v1_PodExtendedResourceClaimStatus : oas_def :=
  DObject ["requestMappings"; "resourceClaimName"] [
  prop "requestMappings" (TArray (TRef "io.k8s.api.core.v1.ContainerExtendedResourceRequest"));
  prop_or "resourceClaimName" TString (VStr "")].
Definition io_k8s_api_core_v1_PodIP : oas_def :=
  DObject ["ip"] [
  prop_or "ip" TString (VStr "")].
Definition io_k8s_api_core_v1_PodList : oas_def :=
  DObject ["items"] [
  prop "apiVersion" TString;
  prop "items" (TArray (TRef "io.k8s.api.core.v1.Pod"));
  prop "kind" TString;
  prop_or "metadata" (TRef "io.k8s.apimachinery.pkg.apis.meta.v1.ListMeta") (VDict [])].
Definition io_k8s_api_core_v1_PodLogOptions : oas_def :=
  DObject [] [
  prop "apiVersion" TString;
  prop "container" TString;
  prop "follow" TBoolean;
  prop "insecureSkipTLSVerifyBackend" TBoolean;
  prop "kind" TString;
  prop "limitBytes" TInteger;
  prop "previous" TBoolean;
  prop "sinceSeconds" TInteger;
  prop "sinceTime" (TRef "io.k8s.apimachinery.pkg.apis.meta.v1.Time");
  prop "stream" TString;
  prop "tailLines" TInteger;
  prop "timestamps" TBoolean].
Definition io_k8s_api_core_v1_PodOS : oas_def :=
  DObject ["name"] [
  prop_or "name" TString (VStr "")].
Definition io_k8s_api_core_v1_PodPortForwardOptions : oas_def :=
  DObject [] [
  prop "apiVersion" TString;
  prop "kind" TString;
  prop "ports" (TArray TInteger)].
Definition io_k8s_api_core_v1_PodProxyOptions : oas_def :=
  DObject [] [
  prop "apiVersion" TString;
  prop "kind" TString;
  prop "path" TString].
Definition io_k8s_api_core_v1_PodReadinessGate : oas_def :=
  DObject ["conditionType"] [
  prop_or "conditionType" TString (VStr "")].
Definition io_k8s_api_core_v1_PodResourceClaim : oas_def :=
  DObject ["name"] [
  prop_or "name" TString (VStr "");
  prop "resourceClaimName" TString;
  prop "resourceClaimTemplateName" TString].
Definition io_k8s_api_core_v1_PodResourceClaimStatus : oas_def :=
  DObject ["name"] [
  prop_or "name" TString (VStr "");
  prop "resourceClaimName" TString].
Definition io_k8s_api_core_v1_PodSchedulingGate : oas_def :=
  DObject ["name"] [
  prop_or "name" TString (VStr "")].
Definition io_k8s_api_core_v1_PodSchedulingGroup : oas_def :=
  DObject [] [
  prop "podGroupName" TString].
Definition io_k8s_api_core_v1_PodSecurityContext : oas_def :=
  DObject [] [
  prop "appArmorProfile" (TRef "io.k8s.api.core.v1.AppArmorProfile");
  prop "fsGroup" TInteger;
  prop "fsGroupChangePolicy" (TEnum ["Always"; "OnRootMismatch"]);
  prop "runAsGroup" TInteger;
  prop "runAsNonRoot" TBoolean;
  prop "runAsUser" TInteger;
  prop "seLinuxChangePolicy" TString;
  prop "seLinuxOptions" (TRef "io.k8s.api.core.v1.SELinuxOptions");
  prop "seccompProfile" (TRef "io.k8s.api.core.v1.SeccompProfile");
  prop "supplementalGroups" (TArray TInteger);
  prop "supplementalGroupsPolicy" (TEnum ["Merge"; "Strict"]);
  prop "sysctls" (TArray (TRef "io.k8s.api.core.v1.Sysctl"));
  prop "windowsOptions" (TRef "io.k8s.api.core.v1.WindowsSecurityContextOptions")].
Definition io_k8s_api_core_v1_PodSignature : oas_def :=
  DObject [] [
  prop "podController" (TRef "io.k8s.apimachinery.pkg.apis.meta.v1.OwnerReference")].
Definition io_k8s_api_core_v1_PodSpec : oas_def :=
  DObject ["containers"] [
  prop "activeDeadlineSeconds" TInteger;
  prop "affinity" (TRef "io.k8s.api.core.v1.Affinity");
  prop "automountServiceAccountToken" TBoolean;
  prop "containers" (TArray (TRef "io.k8s.api.core.v1.Container"));
  prop "dnsConfig" (TRef "io.k8s.api.core.v1.PodDNSConfig");
  prop "dnsPolicy" (TEnum ["ClusterFirst"; "ClusterFirstWithHostNet"; "Default"; "None"]);
  prop "enableServiceLinks" TBoolean;
  prop "ephemeralContainers" (TArray (TRef "io.k8s.api.core.v1.EphemeralContainer"));
  prop "evictionResponders" (TArray (TRef "io.k8s.api.core.v1.EvictionResponder"));
  prop "hostAliases" (TArray (TRef "io.k8s.api.core.v1.HostAlias"));
  prop "hostIPC" TBoolean;
  prop "hostNetwork" TBoolean;
  prop "hostPID" TBoolean;
  prop "hostUsers" TBoolean;
  prop "hostname" TString;
  prop "hostnameOverride" TString;
  prop "imagePullSecrets" (TArray (TRef "io.k8s.api.core.v1.LocalObjectReference"));
  prop "initContainers" (TArray (TRef "io.k8s.api.core.v1.Container"));
  prop "nodeName" TString;
  prop "nodeSelector" (TMap TString);
  prop "os" (TRef "io.k8s.api.core.v1.PodOS");
  prop "overhead" (TMap (TRef "io.k8s.apimachinery.pkg.api.resource.Quantity"));
  prop "preemptionPolicy" (TEnum ["Never"; "PreemptLowerPriority"]);
  prop "priority" TInteger;
  prop "priorityClassName" TString;
  prop "readinessGates" (TArray (TRef "io.k8s.api.core.v1.PodReadinessGate"));
  prop "resourceClaims" (TArray (TRef "io.k8s.api.core.v1.PodResourceClaim"));
  prop "resources" (TRef "io.k8s.api.core.v1.ResourceRequirements");
  prop "restartPolicy" (TEnum ["Always"; "Never"; "OnFailure"]);
  prop "runtimeClassName" TString;
  prop "schedulerName" TString;
  prop "schedulingGates" (TArray (TRef "io.k8s.api.core.v1.PodSchedulingGate"));
  prop "schedulingGroup" (TRef "io.k8s.api.core.v1.PodSchedulingGroup");
  prop "securityContext" (TRef "io.k8s.api.core.v1.PodSecurityContext");
  prop "serviceAccount" TString;
  prop "serviceAccountName" TString;
  prop "setHostnameAsFQDN" TBoolean;
  prop "shareProcessNamespace" TBoolean;
  prop "subdomain" TString;
  prop "terminationGracePeriodSeconds" TInteger;
  prop "tolerations" (TArray (TRef "io.k8s.api.core.v1.Toleration"));
  prop "topologySpreadConstraints" (TArray (TRef "io.k8s.api.core.v1.TopologySpreadConstraint"));
  prop "volumes" (TArray (TRef "io.k8s.api.core.v1.Volume"))].
Definition io_k8s_api_core_v1_PodStatus : oas_def :=
  DObject [] [
  prop "allocatedResources" (TMap (TRef "io.k8s.apimachinery.pkg.api.resource.Quantity"));
  prop "conditions" (TArray (TRef "io.k8s.api.core.v1.PodCondition"));
  prop "containerStatuses" (TArray (TRef "io.k8s.api.core.v1.ContainerStatus"));
  prop "ephemeralContainerStatuses" (TArray (TRef "io.k8s.api.core.v1.ContainerStatus"));
  prop "extendedResourceClaimStatus" (TRef "io.k8s.api.core.v1.PodExtendedResourceClaimStatus");
  prop "hostIP" TString;
  prop "hostIPs" (TArray (TRef "io.k8s.api.core.v1.HostIP"));
  prop "initContainerStatuses" (TArray (TRef "io.k8s.api.core.v1.ContainerStatus"));
  prop "message" TString;
  prop "nodeAllocatableResourceClaimStatuses" (TArray (TRef
    "io.k8s.api.core.v1.NodeAllocatableResourceClaimStatus"));
  prop "nominatedNodeName" TString;
  prop "observedGeneration" TInteger;
  prop "phase" (TEnum ["Failed"; "Pending"; "Running"; "Succeeded"; "Unknown"]);
  prop "podIP" TString;
  prop "podIPs" (TArray (TRef "io.k8s.api.core.v1.PodIP"));
  prop "qosClass" (TEnum ["BestEffort"; "Burstable"; "Guaranteed"]);
  prop "reason" TString;
  prop "resize" TString;
  prop "resourceClaimStatuses" (TArray (TRef "io.k8s.api.core.v1.PodResourceClaimStatus"));
  prop "resources" (TRef "io.k8s.api.core.v1.ResourceRequirements");
  prop "startTime" (TRef "io.k8s.apimachinery.pkg.apis.meta.v1.Time");
  prop "volumeHealth" (TArray (TRef "io.k8s.api.core.v1.PodVolumeHealth"))].
Definition io_k8s_api_core_v1_PodTemplate : oas_def :=
  DObject [] [
  prop "apiVersion" TString;
  prop "kind" TString;
  prop_or "metadata" (TRef "io.k8s.apimachinery.pkg.apis.meta.v1.ObjectMeta") (VDict []);
  prop_or "template" (TRef "io.k8s.api.core.v1.PodTemplateSpec") (VDict [])].
Definition io_k8s_api_core_v1_PodTemplateList : oas_def :=
  DObject ["items"] [
  prop "apiVersion" TString;
  prop "items" (TArray (TRef "io.k8s.api.core.v1.PodTemplate"));
  prop "kind" TString;
  prop_or "metadata" (TRef "io.k8s.apimachinery.pkg.apis.meta.v1.ListMeta") (VDict [])].
Definition io_k8s_api_core_v1_PodTemplateSpec : oas_def :=
  DObject [] [
  prop_or "metadata" (TRef "io.k8s.apimachinery.pkg.apis.meta.v1.ObjectMeta") (VDict []);
  prop_or "spec" (TRef "io.k8s.api.core.v1.PodSpec") (VDict [])].
Definition io_k8s_api_core_v1_PodVolumeHealth : oas_def :=
  DObject ["name"] [
  prop "healthConditions" (TArray (TRef "io.k8s.api.core.v1.VolumeHealthCondition"));
  prop "lastTransitionTime" (TRef "io.k8s.apimachinery.pkg.apis.meta.v1.Time");
  prop_or "name" TString (VStr "")].
Definition io_k8s_api_core_v1_PortStatus : oas_def :=
  DObject ["port"; "protocol"] [
  prop "error" TString;
  prop_or "port" TInteger (VInt 0);
  prop "protocol" (TEnum ["SCTP"; "TCP"; "UDP"])].
Definition io_k8s_api_core_v1_PortworxVolumeSource : oas_def :=
  DObject ["volumeID"] [
  prop "fsType" TString;
  prop "readOnly" TBoolean;
  prop_or "volumeID" TString (VStr "")].
Definition io_k8s_api_core_v1_PreferAvoidPodsEntry : oas_def :=
  DObject ["podSignature"] [
  prop "evictionTime" (TRef "io.k8s.apimachinery.pkg.apis.meta.v1.Time");
  prop "message" TString;
  prop_or "podSignature" (TRef "io.k8s.api.core.v1.PodSignature") (VDict []);
  prop "reason" TString].
Definition io_k8s_api_core_v1_PreferredSchedulingTerm : oas_def :=
  DObject ["weight"; "preference"] [
  prop_or "preference" (TRef "io.k8s.api.core.v1.NodeSelectorTerm") (VDict []);
  prop_or "weight" TInteger (VInt 0)].
Definition io_k8s_api_core_v1_Probe : oas_def :=
  DObject [] [
  prop "exec" (TRef "io.k8s.api.core.v1.ExecAction");
  prop "failureThreshold" TInteger;
  prop "grpc" (TRef "io.k8s.api.core.v1.GRPCAction");
  prop "httpGet" (TRef "io.k8s.api.core.v1.HTTPGetAction");
  prop "initialDelaySeconds" TInteger;
  prop "periodSeconds" TInteger;
  prop "successThreshold" TInteger;
  prop "tcpSocket" (TRef "io.k8s.api.core.v1.TCPSocketAction");
  prop "terminationGracePeriodSeconds" TInteger;
  prop "timeoutSeconds" TInteger].
Definition io_k8s_api_core_v1_ProbeHandler : oas_def :=
  DObject [] [
  prop "exec" (TRef "io.k8s.api.core.v1.ExecAction");
  prop "grpc" (TRef "io.k8s.api.core.v1.GRPCAction");
  prop "httpGet" (TRef "io.k8s.api.core.v1.HTTPGetAction");
  prop "tcpSocket" (TRef "io.k8s.api.core.v1.TCPSocketAction")].
Definition io_k8s_api_core_v1_ProjectedVolumeSource : oas_def :=
  DObject [] [
  prop "defaultMode" TInteger;
  prop "defaultUser" TInteger;
  prop "sources" (TArray (TRef "io.k8s.api.core.v1.VolumeProjection"))].
Definition io_k8s_api_core_v1_QuobyteVolumeSource : oas_def :=
  DObject ["registry"; "volume"] [
  prop "group" TString;
  prop "readOnly" TBoolean;
  prop_or "registry" TString (VStr "");
  prop "tenant" TString;
  prop "user" TString;
  prop_or "volume" TString (VStr "")].
Definition io_k8s_api_core_v1_RBDPersistentVolumeSource : oas_def :=
  DObject ["monitors"; "image"] [
  prop "fsType" TString;
  prop_or "image" TString (VStr "");
  prop_or "keyring" TString (VStr "/etc/ceph/keyring");
  prop "monitors" (TArray TString);
  prop_or "pool" TString (VStr "rbd");
  prop "readOnly" TBoolean;
  prop "secretRef" (TRef "io.k8s.api.core.v1.SecretReference");
  prop_or "user" TString (VStr "admin")].
Definition io_k8s_api_core_v1_RBDVolumeSource : oas_def :=
  DObject ["monitors"; "image"] [
  prop "fsType" TString;
  prop_or "image" TString (VStr "");
  prop_or "keyring" TString (VStr "/etc/ceph/keyring");
  prop "monitors" (TArray TString);
  prop_or "pool" TString (VStr "rbd");
  prop "readOnly" TBoolean;
  prop "secretRef" (TRef "io.k8s.api.core.v1.LocalObjectReference");
  prop_or "user" TString (VStr "admin")].
Definition io_k8s_api_core_v1_RangeAllocation : oas_def :=
  DObject ["range"; "data"] [
  prop "apiVersion" TString;
  prop "data" TByte;
  prop "kind" TString;
  prop_or "metadata" (TRef "io.k8s.apimachinery.pkg.apis.meta.v1.ObjectMeta") (VDict []);
  prop_or "range" TString (VStr "")].
Definition io_k8s_api_core_v1_ReplicationController : oas_def :=
  DObject [] [
  prop "apiVersion" TString;
  prop "kind" TString;
  prop_or "metadata" (TRef "io.k8s.apimachinery.pkg.apis.meta.v1.ObjectMeta") (VDict []);
  prop_or "spec" (TRef "io.k8s.api.core.v1.ReplicationControllerSpec") (VDict []);
  prop_or "status" (TRef "io.k8s.api.core.v1.ReplicationControllerStatus") (VDict [])].
Definition io_k8s_api_core_v1_ReplicationControllerCondition : oas_def :=
  DObject ["type"; "status"] [
  prop "lastTransitionTime" (TRef "io.k8s.apimachinery.pkg.apis.meta.v1.Time");
  prop "message" TString;
  prop "reason" TString;
  prop_or "status" TString (VStr "");
  prop_or "type" TString (VStr "")].
Definition io_k8s_api_core_v1_ReplicationControllerList : oas_def :=
  DObject ["items"] [
  prop "apiVersion" TString;
  prop "items" (TArray (TRef "io.k8s.api.core.v1.ReplicationController"));
  prop "kind" TString;
  prop_or "metadata" (TRef "io.k8s.apimachinery.pkg.apis.meta.v1.ListMeta") (VDict [])].
Definition io_k8s_api_core_v1_ReplicationControllerSpec : oas_def :=
  DObject [] [
  prop_or "minReadySeconds" TInteger (VInt 0);
  prop_or "replicas" TInteger (VInt 1);
  prop "selector" (TMap TString);
  prop "template" (TRef "io.k8s.api.core.v1.PodTemplateSpec")].
Definition io_k8s_api_core_v1_ReplicationControllerStatus : oas_def :=
  DObject ["replicas"] [
  prop "availableReplicas" TInteger;
  prop "conditions" (TArray (TRef "io.k8s.api.core.v1.ReplicationControllerCondition"));
  prop "fullyLabeledReplicas" TInteger;
  prop "observedGeneration" TInteger;
  prop "readyReplicas" TInteger;
  prop_or "replicas" TInteger (VInt 0)].
Definition io_k8s_api_core_v1_ResourceClaim : oas_def :=
  DObject ["name"] [
  prop_or "name" TString (VStr "");
  prop "request" TString].
Definition io_k8s_api_core_v1_ResourceFieldSelector : oas_def :=
  DObject ["resource"] [
  prop "containerName" TString;
  prop "divisor" (TRef "io.k8s.apimachinery.pkg.api.resource.Quantity");
  prop_or "resource" TString (VStr "")].
Definition io_k8s_api_core_v1_ResourceHealth : oas_def :=
  DObject ["resourceID"] [
  prop "health" TString;
  prop "message" TString;
  prop_or "resourceID" TString (VStr "")].
Definition io_k8s_api_core_v1_ResourceQuota : oas_def :=
  DObject [] [
  prop "apiVersion" TString;
  prop "kind" TString;
  prop_or "metadata" (TRef "io.k8s.apimachinery.pkg.apis.meta.v1.ObjectMeta") (VDict []);
  prop_or "spec" (TRef "io.k8s.api.core.v1.ResourceQuotaSpec") (VDict []);
  prop_or "status" (TRef "io.k8s.api.core.v1.ResourceQuotaStatus") (VDict [])].
Definition io_k8s_api_core_v1_ResourceQuotaList : oas_def :=
  DObject ["items"] [
  prop "apiVersion" TString;
  prop "items" (TArray (TRef "io.k8s.api.core.v1.ResourceQuota"));
  prop "kind" TString;
  prop_or "metadata" (TRef "io.k8s.apimachinery.pkg.apis.meta.v1.ListMeta") (VDict [])].
Definition io_k8s_api_core_v1_ResourceQuotaSpec : oas_def :=
  DObject [] [
  prop "hard" (TMap (TRef "io.k8s.apimachinery.pkg.api.resource.Quantity"));
  prop "scopeSelector" (TRef "io.k8s.api.core.v1.ScopeSelector");
  prop "scopes" (TArray (TEnum ["BestEffort"; "CrossNamespacePodAffinity"; "NotBestEffort";
    "NotTerminating"; "PriorityClass"; "Terminating"; "VolumeAttributesClass"]))].
Definition io_k8s_api_core_v1_ResourceQuotaStatus : oas_def :=
  DObject [] [
  prop "hard" (TMap (TRef "io.k8s.apimachinery.pkg.api.resource.Quantity"));
  prop "used" (TMap (TRef "io.k8s.apimachinery.pkg.api.resource.Quantity"))].
Definition io_k8s_api_core_v1_ResourceRequirements : oas_def :=
  DObject [] [
  prop "claims" (TArray (TRef "io.k8s.api.core.v1.ResourceClaim"));
  prop "limits" (TMap (TRef "io.k8s.apimachinery.pkg.api.resource.Quantity"));
  prop "requests" (TMap (TRef "io.k8s.apimachinery.pkg.api.resource.Quantity"))].
Definition io_k8s_api_core_v1_ResourceStatus : oas_def :=
  DObject ["name"] [
  prop_or "name" TString (VStr "");
  prop "resources" (TArray (TRef "io.k8s.api.core.v1.ResourceHealth"))].
Definition io_k8s_api_core_v1_SELinuxOptions : oas_def :=
  DObject [] [
  prop "level" TString;
  prop "role" TString;
  prop "type" TString;
  prop "user" TString].
Definition io_k8s_api_core_v1_ScaleIOPersistentVolumeSource : oas_def :=
  DObject ["gateway"; "system"; "secretRef"] [
  prop_or "fsType" TString (VStr "xfs");
  prop_or "gateway" TString (VStr "");
  prop "protectionDomain" TString;
  prop "readOnly" TBoolean;
  prop "secretRef" (TRef "io.k8s.api.core.v1.SecretReference");
  prop "sslEnabled" TBoolean;
  prop_or "storageMode" TString (VStr "ThinProvisioned");
  prop "storagePool" TString;
  prop_or "system" TString (VStr "");
  prop "volumeName" TString].
Definition io_k8s_api_core_v1_ScaleIOVolumeSource : oas_def :=
  DObject ["gateway"; "system"; "secretRef"] [
  prop_or "fsType" TString (VStr "xfs");
  prop_or "gateway" TString (VStr "");
  prop "protectionDomain" TString;
  prop "readOnly" TBoolean;
  prop "secretRef" (TRef "io.k8s.api.core.v1.LocalObjectReference");
  prop "sslEnabled" TBoolean;
  prop_or "storageMode" TString (VStr "ThinProvisioned");
  prop "storagePool" TString;
  prop_or "system" TString (VStr "");
  prop "volumeName" TString].
Definition io_k8s_api_core_v1_ScopeSelector : oas_def :=
  DObject [] [
  prop "matchExpressions" (TArray (TRef "io.k8s.api.core.v1.ScopedResourceSelectorRequirement"))].
Definition io_k8s_api_core_v1_ScopedResourceSelectorRequirement : oas_def :=
  DObject ["scopeName"; "operator"] [
  prop "operator" (TEnum ["DoesNotExist"; "Exists"; "In"; "NotIn"]);
  prop "scopeName" (TEnum ["BestEffort"; "CrossNamespacePodAffinity"; "NotBestEffort";
    "NotTerminating"; "PriorityClass"; "Terminating"; "VolumeAttributesClass"]);
  prop "values" (TArray TString)].
Definition io_k8s_api_core_v1_SeccompProfile : oas_def :=
  DObject ["type"] [
  prop "localhostProfile" TString;
  prop "type" (TEnum ["Localhost"; "RuntimeDefault"; "Unconfined"])].
Definition io_k8s_api_core_v1_Secret : oas_def :=
  DObject [] [
  prop "apiVersion" TString;
  prop "data" (TMap TByte);
  prop "immutable" TBoolean;
  prop "kind" TString;
  prop_or "metadata" (TRef "io.k8s.apimachinery.pkg.apis.meta.v1.ObjectMeta") (VDict []);
  prop "stringData" (TMap TString);
  prop "type" TString].
Definition io_k8s_api_core_v1_SecretEnvSource : oas_def :=
  DObject [] [
  prop_or "name" TString (VStr "");
  prop "optional" TBoolean].
Definition io_k8s_api_core_v1_SecretKeySelector : oas_def :=
  DObject ["key"] [
  prop_or "key" TString (VStr "");
  prop_or "name" TString (VStr "");
  prop "optional" TBoolean].
Definition io_k8s_api_core_v1_SecretList : oas_def :=
  DObject ["items"] [
  prop "apiVersion" TString;
  prop "items" (TArray (TRef "io.k8s.api.core.v1.Secret"));
  prop "kind" TString;
  prop_or "metadata" (TRef "io.k8s.apimachinery.pkg.apis.meta.v1.ListMeta") (VDict [])].
Definition io_k8s_api_core_v1_SecretProjection : oas_def :=
  DObject [] [
  prop "items" (TArray (TRef "io.k8s.api.core.v1.KeyToPath"));
  prop_or "name" TString (VStr "");
  prop "optional" TBoolean].
Definition io_k8s_api_core_v1_SecretReference : oas_def :=
  DObject [] [
  prop "name" TString;
  prop "namespace" TString].
Definition io_k8s_api_core_v1_SecretVolumeSource : oas_def :=
  DObject [] [
  prop "defaultMode" TInteger;
  prop "defaultUser" TInteger;
  prop "items" (TArray (TRef "io.k8s.api.core.v1.KeyToPath"));
  prop "optional" TBoolean;
  prop "secretName" TString].
Definition io_k8s_api_core_v1_SecurityContext : oas_def :=
  DObject [] [
  prop "allowPrivilegeEscalation" TBoolean;
  prop "appArmorProfile" (TRef "io.k8s.api.core.v1.AppArmorProfile");
  prop "capabilities" (TRef "io.k8s.api.core.v1.Capabilities");
  prop "privileged" TBoolean;
  prop "procMount" (TEnum ["Default"; "Unmasked"]);
  prop "readOnlyRootFilesystem" TBoolean;
  prop "runAsGroup" TInteger;
  prop "runAsNonRoot" TBoolean;
  prop "runAsUser" TInteger;
  prop "seLinuxOptions" (TRef "io.k8s.api.core.v1.SELinuxOptions");
  prop "seccompProfile" (TRef "io.k8s.api.core.v1.SeccompProfile");
  prop "windowsOptions" (TRef "io.k8s.api.core.v1.WindowsSecurityContextOptions")].
Definition io_k8s_api_core_v1_SerializedReference : oas_def :=
  DObject [] [
  prop "apiVersion" TString;
  prop "kind" TString;
  prop_or "reference" (TRef "io.k8s.api.core.v1.ObjectReference") (VDict [])].
Definition io_k8s_api_core_v1_Service : oas_def :=
  DObject [] [
  prop "apiVersion" TString;
  prop "kind" TString;
  prop_or "metadata" (TRef "io.k8s.apimachinery.pkg.apis.meta.v1.ObjectMeta") (VDict []);
  prop_or "spec" (TRef "io.k8s.api.core.v1.ServiceSpec") (VDict []);
  prop_or "status" (TRef "io.k8s.api.core.v1.ServiceStatus") (VDict [])].
Definition io_k8s_api_core_v1_ServiceAccount : oas_def :=
  DObject [] [
  prop "apiVersion" TString;
  prop "automountServiceAccountToken" TBoolean;
  prop "imagePullSecrets" (TArray (TRef "io.k8s.api.core.v1.LocalObjectReference"));
  prop "kind" TString;
  prop_or "metadata" (TRef "io.k8s.apimachinery.pkg.apis.meta.v1.ObjectMeta") (VDict []);
  prop "secrets" (TArray (TRef "io.k8s.api.core.v1.ObjectReference"))].
Definition io_k8s_api_core_v1_ServiceAccountList : oas_def :=
  DObject ["items"] [
  prop "apiVersion" TString;
  prop "items" (TArray (TRef "io.k8s.api.core.v1.ServiceAccount"));
  prop "kind" TString;
  prop_or "metadata" (TRef "io.k8s.apimachinery.pkg.apis.meta.v1.ListMeta") (VDict [])].
Definition io_k8s_api_core_v1_ServiceAccountTokenProjection : oas_def :=
  DObject ["path"] [
  prop "audience" TString;
  prop "expirationSeconds" TInteger;
  prop_or "path" TString (VStr "");
  prop "user" TInteger].
Definition io_k8s_api_core_v1_ServiceList : oas_def :=
  DObject ["items"] [
  prop "apiVersion" TString;
  prop "items" (TArray (TRef "io.k8s.api.core.v1.Service"));
  prop "kind" TString;
  prop_or "metadata" (TRef "io.k8s.apimachinery.pkg.apis.meta.v1.ListMeta") (VDict [])].
Definition io_k8s_api_core_v1_ServicePort : oas_def :=
  DObject ["port"] [
  prop "appProtocol" TString;
  prop "name" TString;
  prop "nodePort" TInteger;
  prop_or "port" TInteger (VInt 0);
  prop_or "protocol" (TEnum ["SCTP"; "TCP"; "UDP"]) (VStr "TCP");
  prop "targetPort" (TRef "io.k8s.apimachinery.pkg.util.intstr.IntOrString")].
Definition io_k8s_api_core_v1_ServiceProxyOptions : oas_def :=
  DObject [] [
  prop "apiVersion" TString;
  prop "kind" TString;
  prop "path" TString].
Definition io_k8s_api_core_v1_ServiceSpec : oas_def :=
  DObject [] [
  prop "allocateLoadBalancerNodePorts" TBoolean;
  prop "clusterIP" TString;
  prop "clusterIPs" (TArray TString);
  prop "externalIPs" (TArray TString);
  prop "externalName" TString;
  prop "externalTrafficPolicy" (TEnum ["Cluster"; "Local"]);
  prop "healthCheckNodePort" TInteger;
  prop "internalTrafficPolicy" (TEnum ["Cluster"; "Local"]);
  prop "ipFamilies" (TArray (TEnum [""; "IPv4"; "IPv6"]));
  prop "ipFamilyPolicy" (TEnum ["PreferDualStack"; "RequireDualStack"; "SingleStack"]);
  prop "loadBalancerClass" TString;
  prop "loadBalancerIP" TString;
  prop "loadBalancerSourceRanges" (TArray TString);
  prop "ports" (TArray (TRef "io.k8s.api.core.v1.ServicePort"));
  prop "publishNotReadyAddresses" TBoolean;
  prop "selector" (TMap TString);
  prop "sessionAffinity" (TEnum ["ClientIP"; "None"]);
  prop "sessionAffinityConfig" (TRef "io.k8s.api.core.v1.SessionAffinityConfig");
  prop "trafficDistribution" TString;
  prop "type" (TEnum ["ClusterIP"; "ExternalName"; "LoadBalancer"; "NodePort"])].
Definition io_k8s_api_core_v1_ServiceStatus : oas_def :=
  DObject [] [
  prop "conditions" (TArray (TRef "io.k8s.apimachinery.pkg.apis.meta.v1.Condition"));
  prop_or "loadBalancer" (TRef "io.k8s.api.core.v1.LoadBalancerStatus") (VDict [])].
Definition io_k8s_api_core_v1_SessionAffinityConfig : oas_def :=
  DObject [] [
  prop "clientIP" (TRef "io.k8s.api.core.v1.ClientIPConfig")].
Definition io_k8s_api_core_v1_SleepAction : oas_def :=
  DObject ["seconds"] [
  prop_or "seconds" TInteger (VInt 0)].
Definition io_k8s_api_core_v1_StorageOSPersistentVolumeSource : oas_def :=
  DObject [] [
  prop "fsType" TString;
  prop "readOnly" TBoolean;
  prop "secretRef" (TRef "io.k8s.api.core.v1.ObjectReference");
  prop "volumeName" TString;
  prop "volumeNamespace" TString].
Definition io_k8s_api_core_v1_StorageOSVolumeSource : oas_def :=
  DObject [] [
  prop "fsType" TString;
  prop "readOnly" TBoolean;
  prop "secretRef" (TRef "io.k8s.api.core.v1.LocalObjectReference");
  prop "volumeName" TString;
  prop "volumeNamespace" TString].
Definition io_k8s_api_core_v1_Sysctl : oas_def :=
  DObject ["name"; "value"] [
  prop_or "name" TString (VStr "");
  prop_or "value" TString (VStr "")].
Definition io_k8s_api_core_v1_TCPSocketAction : oas_def :=
  DObject ["port"] [
  prop "host" TString;
  prop "port" (TRef "io.k8s.apimachinery.pkg.util.intstr.IntOrString")].
Definition io_k8s_api_core_v1_Taint : oas_def :=
  DObject ["key"; "effect"] [
  prop "effect" (TEnum ["NoExecute"; "NoSchedule"; "PreferNoSchedule"]);
  prop_or "key" TString (VStr "");
  prop "timeAdded" (TRef "io.k8s.apimachinery.pkg.apis.meta.v1.Time");
  prop "value" TString].
Definition io_k8s_api_core_v1_Toleration : oas_def :=
  DObject [] [
  prop "effect" (TEnum ["NoExecute"; "NoSchedule"; "PreferNoSchedule"]);
  prop "key" TString;
  prop "operator" (TEnum ["Equal"; "Exists"; "Gt"; "Lt"]);
  prop "tolerationSeconds" TInteger;
  prop "value" TString].
Definition io_k8s_api_core_v1_TopologySelectorLabelRequirement : oas_def :=
  DObject ["key"; "values"] [
  prop_or "key" TString (VStr "");
  prop "values" (TArray TString)].
Definition io_k8s_api_core_v1_TopologySelectorTerm : oas_def :=
  DObject [] [
  prop "matchLabelExpressions" (TArray (TRef
    "io.k8s.api.core.v1.TopologySelectorLabelRequirement"))].
Definition io_k8s_api_core_v1_TopologySpreadConstraint : oas_def :=
  DObject ["maxSkew"; "topologyKey"; "whenUnsatisfiable"] [
  prop "labelSelector" (TRef "io.k8s.apimachinery.pkg.apis.meta.v1.LabelSelector");
  prop "matchLabelKeys" (TArray TString);
  prop_or "maxSkew" TInteger (VInt 0);
  prop "minDomains" TInteger;
  prop "nodeAffinityPolicy" (TEnum ["Honor"; "Ignore"]);
  prop "nodeTaintsPolicy" (TEnum ["Honor"; "Ignore"]);
  prop_or "topologyKey" TString (VStr "");
  prop "whenUnsatisfiable" (TEnum ["DoNotSchedule"; "ScheduleAnyway"])].
Definition io_k8s_api_core_v1_TypedLocalObjectReference : oas_def :=
  DObject ["kind"; "name"] [
  prop "apiGroup" TString;
  prop_or "kind" TString (VStr "");
  prop_or "name" TString (VStr "")].
Definition io_k8s_api_core_v1_TypedObjectReference : oas_def :=
  DObject ["kind"; "name"] [
  prop "apiGroup" TString;
  prop_or "kind" TString (VStr "");
  prop_or "name" TString (VStr "");
  prop "namespace" TString].
Definition io_k8s_api_core_v1_Volume : oas_def :=
  DObject ["name"] [
  prop "awsElasticBlockStore" (TRef "io.k8s.api.core.v1.AWSElasticBlockStoreVolumeSource");
  prop "azureDisk" (TRef "io.k8s.api.core.v1.AzureDiskVolumeSource");
  prop "azureFile" (TRef "io.k8s.api.core.v1.AzureFileVolumeSource");
  prop "cephfs" (TRef "io.k8s.api.core.v1.CephFSVolumeSource");
  prop "cinder" (TRef "io.k8s.api.core.v1.CinderVolumeSource");
  prop "configMap" (TRef "io.k8s.api.core.v1.ConfigMapVolumeSource");
  prop "csi" (TRef "io.k8s.api.core.v1.CSIVolumeSource");
  prop "downwardAPI" (TRef "io.k8s.api.core.v1.DownwardAPIVolumeSource");
  prop "emptyDir" (TRef "io.k8s.api.core.v1.EmptyDirVolumeSource");
  prop "ephemeral" (TRef "io.k8s.api.core.v1.EphemeralVolumeSource");
  prop "fc" (TRef "io.k8s.api.core.v1.FCVolumeSource");
  prop "flexVolume" (TRef "io.k8s.api.core.v1.FlexVolumeSource");
  prop "flocker" (TRef "io.k8s.api.core.v1.FlockerVolumeSource");
  prop "gcePersistentDisk" (TRef "io.k8s.api.core.v1.GCEPersistentDiskVolumeSource");
  prop "gitRepo" (TRef "io.k8s.api.core.v1.GitRepoVolumeSource");
  prop "glusterfs" (TRef "io.k8s.api.core.v1.GlusterfsVolumeSource");
  prop "hostPath" (TRef "io.k8s.api.core.v1.HostPathVolumeSource");
  prop "image" (TRef "io.k8s.api.core.v1.ImageVolumeSource");
  prop "iscsi" (TRef "io.k8s.api.core.v1.ISCSIVolumeSource");
  prop_or "name" TString (VStr "");
  prop "nfs" (TRef "io.k8s.api.core.v1.NFSVolumeSource");
  prop "persistentVolumeClaim" (TRef "io.k8s.api.core.v1.PersistentVolumeClaimVolumeSource");
  prop "photonPersistentDisk" (TRef "io.k8s.api.core.v1.PhotonPersistentDiskVolumeSource");
  prop "portworxVolume" (TRef "io.k8s.api.core.v1.PortworxVolumeSource");
  prop "projected" (TRef "io.k8s.api.core.v1.ProjectedVolumeSource");
  prop "quobyte" (TRef "io.k8s.api.core.v1.QuobyteVolumeSource");
  prop "rbd" (TRef "io.k8s.api.core.v1.RBDVolumeSource");
  prop "scaleIO" (TRef "io.k8s.api.core.v1.ScaleIOVolumeSource");
  prop "secret" (TRef "io.k8s.api.core.v1.SecretVolumeSource");
  prop "storageos" (TRef "io.k8s.api.core.v1.StorageOSVolumeSource");
  prop "vsphereVolume" (TRef "io.k8s.api.core.v1.VsphereVirtualDiskVolumeSource")].
Definition io_k8s_api_core_v1_VolumeDevice : oas_def :=
  DObject ["name"; "devicePath"] [
  prop_or "devicePath" TString (VStr "");
  prop_or "name" TString (VStr "")].
Definition io_k8s_api_core_v1_VolumeHealthCondition : oas_def :=
  DObject ["status"; "reason"] [
  prop "message" TString;
  prop_or "reason" TString (VStr "");
  prop "status" (TEnum ["DataLoss"; "Degraded"; "Inaccessible"])].
Definition io_k8s_api_core_v1_VolumeHealthStatus : oas_def :=
  DObject [] [
  prop "healthConditions" (TArray (TRef "io.k8s.api.core.v1.VolumeHealthCondition"));
  prop "lastTransitionTime" (TRef "io.k8s.apimachinery.pkg.apis.meta.v1.Time")].
Definition io_k8s_api_core_v1_VolumeMount : oas_def :=
  DObject ["name"; "mountPath"] [
  prop "bindMountOptions" (TArray TString);
  prop_or "mountPath" TString (VStr "");
  prop "mountPropagation" (TEnum ["Bidirectional"; "HostToContainer"; "None"]);
  prop_or "name" TString (VStr "");
  prop "readOnly" TBoolean;
  prop "recursiveReadOnly" TString;
  prop "subPath" TString;
  prop "subPathExpr" TString].
Definition io_k8s_api_core_v1_VolumeMountStatus : oas_def :=
  DObject ["name"; "mountPath"] [
  prop_or "mountPath" TString (VStr "");
  prop_or "name" TString (VStr "");
  prop "readOnly" TBoolean;
  prop "recursiveReadOnly" TString;
  prop "volumeStatus" (TRef "io.k8s.api.core.v1.VolumeStatus")].
Definition io_k8s_api_core_v1_VolumeNodeAffinity : oas_def :=
  DObject [] [
  prop "required" (TRef "io.k8s.api.core.v1.NodeSelector")].
Definition io_k8s_api_core_v1_VolumeProjection : oas_def :=
  DObject [] [
  prop "clusterTrustBundle" (TRef "io.k8s.api.core.v1.ClusterTrustBundleProjection");
  prop "configMap" (TRef "io.k8s.api.core.v1.ConfigMapProjection");
  prop "downwardAPI" (TRef "io.k8s.api.core.v1.DownwardAPIProjection");
  prop "podCertificate" (TRef "io.k8s.api.core.v1.PodCertificateProjection");
  prop "secret" (TRef "io.k8s.api.core.v1.SecretProjection");
  prop "serviceAccountToken" (TRef "io.k8s.api.core.v1.ServiceAccountTokenProjection")].
Definition io_k8s_api_core_v1_VolumeResourceRequirements : oas_def :=
  DObject [] [
  prop "limits" (TMap (TRef "io.k8s.apimachinery.pkg.api.resource.Quantity"));
  prop "requests" (TMap (TRef "io.k8s.apimachinery.pkg.api.resource.Quantity"))].
Definition io_k8s_api_core_v1_VolumeSource : oas_def :=
  DObject [] [
  prop "awsElasticBlockStore" (TRef "io.k8s.api.core.v1.AWSElasticBlockStoreVolumeSource");
  prop "azureDisk" (TRef "io.k8s.api.core.v1.AzureDiskVolumeSource");
  prop "azureFile" (TRef "io.k8s.api.core.v1.AzureFileVolumeSource");
  prop "cephfs" (TRef "io.k8s.api.core.v1.CephFSVolumeSource");
  prop "cinder" (TRef "io.k8s.api.core.v1.CinderVolumeSource");
  prop "configMap" (TRef "io.k8s.api.core.v1.ConfigMapVolumeSource");
  prop "csi" (TRef "io.k8s.api.core.v1.CSIVolumeSource");
  prop "downwardAPI" (TRef "io.k8s.api.core.v1.DownwardAPIVolumeSource");
  prop "emptyDir" (TRef "io.k8s.api.core.v1.EmptyDirVolumeSource");
  prop "ephemeral" (TRef "io.k8s.api.core.v1.EphemeralVolumeSource");
  prop "fc" (TRef "io.k8s.api.core.v1.FCVolumeSource");
  prop "flexVolume" (TRef "io.k8s.api.core.v1.FlexVolumeSource");
  prop "flocker" (TRef "io.k8s.api.core.v1.FlockerVolumeSource");
  prop "gcePersistentDisk" (TRef "io.k8s.api.core.v1.GCEPersistentDiskVolumeSource");
  prop "gitRepo" (TRef "io.k8s.api.core.v1.GitRepoVolumeSource");
  prop "glusterfs" (TRef "io.k8s.api.core.v1.GlusterfsVolumeSource");
  prop "hostPath" (TRef "io.k8s.api.core.v1.HostPathVolumeSource");
  prop "image" (TRef "io.k8s.api.core.v1.ImageVolumeSource");
  prop "iscsi" (TRef "io.k8s.api.core.v1.ISCSIVolumeSource");
  prop "nfs" (TRef "io.k8s.api.core.v1.NFSVolumeSource");
  prop "persistentVolumeClaim" (TRef "io.k8s.api.core.v1.PersistentVolumeClaimVolumeSource");
  prop "photonPersistentDisk" (TRef "io.k8s.api.core.v1.PhotonPersistentDiskVolumeSource");
  prop "portworxVolume" (TRef "io.k8s.api.core.v1.PortworxVolumeSource");
  prop "projected" (TRef "io.k8s.api.core.v1.ProjectedVolumeSource");
  prop "quobyte" (TRef "io.k8s.api.core.v1.QuobyteVolumeSource");
  prop "rbd" (TRef "io.k8s.api.core.v1.RBDVolumeSource");
  prop "scaleIO" (TRef "io.k8s.api.core.v1.ScaleIOVolumeSource");
  prop "secret" (TRef "io.k8s.api.core.v1.SecretVolumeSource");
  prop "storageos" (TRef "io.k8s.api.core.v1.StorageOSVolumeSource");
  prop "vsphereVolume" (TRef "io.k8s.api.core.v1.VsphereVirtualDiskVolumeSource")].
Definition io_k8s_api_core_v1_VolumeStatus : oas_def :=
  DObject [] [
  prop "image" (TRef "io.k8s.api.core.v1.ImageVolumeStatus")].
Definition io_k8s_api_core_v1_VsphereVirtualDiskVolumeSource : oas_def :=
  DObject ["volumePath"] [
  prop "fsType" TString;
  prop "storagePolicyID" TString;
  prop "storagePolicyName" TString;
  prop_or "volumePath" TString (VStr "")].
Definition io_k8s_api_core_v1_WeightedPodAffinityTerm : oas_def :=
  DObject ["weight"; "podAffinityTerm"] [
  prop_or "podAffinityTerm" (TRef "io.k8s.api.core.v1.PodAffinityTerm") (VDict []);
  prop_or "weight" TInteger (VInt 0)].
Definition io_k8s_api_core_v1_WindowsSecurityContextOptions : oas_def :=
  DObject [] [
  prop "gmsaCredentialSpec" TString;
  prop "gmsaCredentialSpecName" TString;
  prop "hostProcess" TBoolean;
  prop "runAsUserName" TString].
Definition io_k8s_api_scheduling_v1alpha3_AllCompositeDisruptionMode : oas_def :=
  DType TObject.
Definition io_k8s_api_scheduling_v1alpha3_AllDisruptionMode : oas_def :=
  DType TObject.
Definition io_k8s_api_scheduling_v1alpha3_BasicSchedulingPolicy : oas_def :=
  DType TObject.
Definition io_k8s_api_scheduling_v1alpha3_CompositeBasicSchedulingPolicy : oas_def :=
  DType TObject.
Definition io_k8s_api_scheduling_v1alpha3_CompositeDisruptionMode : oas_def :=
  DObject [] [
  prop "all" (TRef "io.k8s.api.scheduling.v1alpha3.AllCompositeDisruptionMode");
  prop "single" (TRef "io.k8s.api.scheduling.v1alpha3.SingleCompositeDisruptionMode")].
Definition io_k8s_api_scheduling_v1alpha3_CompositeGangSchedulingPolicy : oas_def :=
  DObject ["minGroupCount"] [
  prop_or "minGroupCount" TInteger (VInt 0)].
Definition io_k8s_api_scheduling_v1alpha3_CompositePodGroup : oas_def :=
  DObject ["spec"] [
  prop "apiVersion" TString;
  prop "kind" TString;
  prop_or "metadata" (TRef "io.k8s.apimachinery.pkg.apis.meta.v1.ObjectMeta") (VDict []);
  prop_or "spec" (TRef "io.k8s.api.scheduling.v1alpha3.CompositePodGroupSpec") (VDict []);
  prop_or "status" (TRef "io.k8s.api.scheduling.v1alpha3.CompositePodGroupStatus") (VDict [])].
Definition io_k8s_api_scheduling_v1alpha3_CompositePodGroupList : oas_def :=
  DObject ["items"] [
  prop "apiVersion" TString;
  prop "items" (TArray (TRef "io.k8s.api.scheduling.v1alpha3.CompositePodGroup"));
  prop "kind" TString;
  prop_or "metadata" (TRef "io.k8s.apimachinery.pkg.apis.meta.v1.ListMeta") (VDict [])].
Definition io_k8s_api_scheduling_v1alpha3_CompositePodGroupSchedulingConstraints : oas_def :=
  DObject [] [
  prop "topology" (TArray (TRef "io.k8s.api.scheduling.v1alpha3.TopologyConstraint"))].
Definition io_k8s_api_scheduling_v1alpha3_CompositePodGroupSchedulingPolicy : oas_def :=
  DObject [] [
  prop "basic" (TRef "io.k8s.api.scheduling.v1alpha3.CompositeBasicSchedulingPolicy");
  prop "gang" (TRef "io.k8s.api.scheduling.v1alpha3.CompositeGangSchedulingPolicy")].
Definition io_k8s_api_scheduling_v1alpha3_CompositePodGroupSpec : oas_def :=
  DObject ["workloadRef"; "schedulingPolicy"] [
  prop_or "disruptionMode" (TRef "io.k8s.api.scheduling.v1alpha3.CompositeDisruptionMode") (VDict
    [("single", VDict [])]);
  prop "parentCompositePodGroupName" TString;
  prop "preemptionPolicy" (TEnum ["Never"; "PreemptLowerPriority"]);
  prop "priority" TInteger;
  prop "priorityClassName" TString;
  prop "schedulingConstraints" (TRef
    "io.k8s.api.scheduling.v1alpha3.CompositePodGroupSchedulingConstraints");
  prop_or "schedulingPolicy" (TRef
    "io.k8s.api.scheduling.v1alpha3.CompositePodGroupSchedulingPolicy") (VDict []);
  prop "workloadRef" (TRef "io.k8s.api.scheduling.v1alpha3.WorkloadReference")].
Definition io_k8s_api_scheduling_v1alpha3_CompositePodGroupStatus : oas_def :=
  DObject [] [
  prop "conditions" (TArray (TRef "io.k8s.apimachinery.pkg.apis.meta.v1.Condition"))].
Definition io_k8s_api_scheduling_v1alpha3_CompositePodGroupTemplate : oas_def :=
  DObject ["name"; "schedulingPolicy"] [
  prop "compositePodGroupTemplates" (TArray (TRef
    "io.k8s.api.scheduling.v1alpha3.CompositePodGroupTemplate"));
  prop "disruptionMode" (TRef "io.k8s.api.scheduling.v1alpha3.CompositeDisruptionMode");
  prop_or "name" TString (VStr "");
  prop "podGroupTemplates" (TArray (TRef "io.k8s.api.scheduling.v1alpha3.PodGroupTemplate"));
  prop "preemptionPolicy" (TEnum ["Never"; "PreemptLowerPriority"]);
  prop "priority" TInteger;
  prop "priorityClassName" TString;
  prop "schedulingConstraints" (TRef
    "io.k8s.api.scheduling.v1alpha3.CompositePodGroupSchedulingConstraints");
  prop_or "schedulingPolicy" (TRef
    "io.k8s.api.scheduling.v1alpha3.CompositePodGroupSchedulingPolicy") (VDict [])].
Definition io_k8s_api_scheduling_v1alpha3_DisruptionMode : oas_def :=
  DObject [] [
  prop "all" (TRef "io.k8s.api.scheduling.v1alpha3.AllDisruptionMode");
  prop "single" (TRef "io.k8s.api.scheduling.v1alpha3.SingleDisruptionMode")].
Definition io_k8s_api_scheduling_v1alpha3_GangSchedulingPolicy : oas_def :=
  DObject ["minCount"] [
  prop_or "minCount" TInteger (VInt 0)].
Definition io_k8s_api_scheduling_v1alpha3_PodGroup : oas_def :=
  DObject ["spec"] [
  prop "apiVersion" TString;
  prop "kind" TString;
  prop_or "metadata" (TRef "io.k8s.apimachinery.pkg.apis.meta.v1.ObjectMeta") (VDict []);
  prop_or "spec" (TRef "io.k8s.api.scheduling.v1alpha3.PodGroupSpec") (VDict []);
  prop_or "status" (TRef "io.k8s.api.scheduling.v1alpha3.PodGroupStatus") (VDict [])].
Definition io_k8s_api_scheduling_v1alpha3_PodGroupList : oas_def :=
  DObject ["items"] [
  prop "apiVersion" TString;
  prop "items" (TArray (TRef "io.k8s.api.scheduling.v1alpha3.PodGroup"));
  prop "kind" TString;
  prop_or "metadata" (TRef "io.k8s.apimachinery.pkg.apis.meta.v1.ListMeta") (VDict [])].
Definition io_k8s_api_scheduling_v1alpha3_PodGroupResourceClaim : oas_def :=
  DObject ["name"] [
  prop_or "name" TString (VStr "");
  prop "resourceClaimName" TString;
  prop "resourceClaimTemplateName" TString].
Definition io_k8s_api_scheduling_v1alpha3_PodGroupResourceClaimStatus : oas_def :=
  DObject ["name"] [
  prop_or "name" TString (VStr "");
  prop "resourceClaimName" TString].
Definition io_k8s_api_scheduling_v1alpha3_PodGroupSchedulingConstraints : oas_def :=
  DObject [] [
  prop "topology" (TArray (TRef "io.k8s.api.scheduling.v1alpha3.TopologyConstraint"))].
Definition io_k8s_api_scheduling_v1alpha3_PodGroupSchedulingPolicy : oas_def :=
  DObject [] [
  prop "basic" (TRef "io.k8s.api.scheduling.v1alpha3.BasicSchedulingPolicy");
  prop "gang" (TRef "io.k8s.api.scheduling.v1alpha3.GangSchedulingPolicy")].
Definition io_k8s_api_scheduling_v1alpha3_PodGroupSpec : oas_def :=
  DObject ["schedulingPolicy"] [
  prop_or "disruptionMode" (TRef "io.k8s.api.scheduling.v1alpha3.DisruptionMode") (VDict
    [("single", VDict [])]);
  prop "parentCompositePodGroupName" TString;
  prop "preemptionPolicy" (TEnum ["Never"; "PreemptLowerPriority"]);
  prop "priority" TInteger;
  prop "priorityClassName" TString;
  prop "resourceClaims" (TArray (TRef "io.k8s.api.scheduling.v1alpha3.PodGroupResourceClaim"));
  prop "schedulingConstraints" (TRef
    "io.k8s.api.scheduling.v1alpha3.PodGroupSchedulingConstraints");
  prop_or "schedulingPolicy" (TRef "io.k8s.api.scheduling.v1alpha3.PodGroupSchedulingPolicy")
    (VDict []);
  prop "workloadRef" (TRef "io.k8s.api.scheduling.v1alpha3.WorkloadReference")].
Definition io_k8s_api_scheduling_v1alpha3_PodGroupStatus : oas_def :=
  DObject [] [
  prop "conditions" (TArray (TRef "io.k8s.apimachinery.pkg.apis.meta.v1.Condition"));
  prop "resourceClaimStatuses" (TArray (TRef
    "io.k8s.api.scheduling.v1alpha3.PodGroupResourceClaimStatus"))].
Definition io_k8s_api_scheduling_v1alpha3_PodGroupTemplate : oas_def :=
  DObject ["name"; "schedulingPolicy"] [
  prop "disruptionMode" (TRef "io.k8s.api.scheduling.v1alpha3.DisruptionMode");
  prop_or "name" TString (VStr "");
  prop "preemptionPolicy" (TEnum ["Never"; "PreemptLowerPriority"]);
  prop "priority" TInteger;
  prop "priorityClassName" TString;
  prop "resourceClaims" (TArray (TRef "io.k8s.api.scheduling.v1alpha3.PodGroupResourceClaim"));
  prop "schedulingConstraints" (TRef
    "io.k8s.api.scheduling.v1alpha3.PodGroupSchedulingConstraints");
  prop_or "schedulingPolicy" (TRef "io.k8s.api.scheduling.v1alpha3.PodGroupSchedulingPolicy")
    (VDict [])].
Definition io_k8s_api_scheduling_v1alpha3_SingleCompositeDisruptionMode : oas_def :=
  DType TObject.
Definition io_k8s_api_scheduling_v1alpha3_SingleDisruptionMode : oas_def :=
  DType TObject.
Definition io_k8s_api_scheduling_v1alpha3_TopologyConstraint : oas_def :=
  DObject ["key"] [
  prop_or "key" TString (VStr "")].
Definition io_k8s_api_scheduling_v1alpha3_TypedLocalObjectReference : oas_def :=
  DObject ["kind"; "name"] [
  prop "apiGroup" TString;
  prop_or "kind" TString (VStr "");
  prop_or "name" TString (VStr "")].
Definition io_k8s_api_scheduling_v1alpha3_Workload : oas_def :=
  DObject ["spec"] [
  prop "apiVersion" TString;
  prop "kind" TString;
  prop_or "metadata" (TRef "io.k8s.apimachinery.pkg.apis.meta.v1.ObjectMeta") (VDict []);
  prop_or "spec" (TRef "io.k8s.api.scheduling.v1alpha3.WorkloadSpec") (VDict [])].
Definition io_k8s_api_scheduling_v1alpha3_WorkloadCompositePodGroupAllDisruptionMode : oas_def :=
  DType TObject.
Definition io_k8s_api_scheduling_v1alpha3_WorkloadCompositePodGroupBasicSchedulingPolicy :
    oas_def :=
  DType TObject.
Definition io_k8s_api_scheduling_v1alpha3_WorkloadCompositePodGroupDisruptionMode : oas_def :=
  DObject [] [
  prop "all" (TRef "io.k8s.api.scheduling.v1alpha3.WorkloadCompositePodGroupAllDisruptionMode");
  prop "single" (TRef
    "io.k8s.api.scheduling.v1alpha3.WorkloadCompositePodGroupSingleDisruptionMode")].
Definition io_k8s_api_scheduling_v1alpha3_WorkloadCompositePodGroupGangSchedulingPolicy : oas_def :=
  DObject [] [
  prop "minGroupCount" TInteger].
Definition io_k8s_api_scheduling_v1alpha3_WorkloadCompositePodGroupSchedulingConstraints :
    oas_def :=
  DObject [] [
  prop "topology" (TArray (TRef "io.k8s.api.scheduling.v1alpha3.TopologyConstraint"))].
Definition io_k8s_api_scheduling_v1alpha3_WorkloadCompositePodGroupSchedulingPolicy : oas_def :=
  DObject [] [
  prop "basic" (TRef
    "io.k8s.api.scheduling.v1alpha3.WorkloadCompositePodGroupBasicSchedulingPolicy");
  prop "gang" (TRef
    "io.k8s.api.scheduling.v1alpha3.WorkloadCompositePodGroupGangSchedulingPolicy")].
Definition io_k8s_api_scheduling_v1alpha3_WorkloadCompositePodGroupSingleDisruptionMode : oas_def :=
  DType TObject.
Definition io_k8s_api_scheduling_v1alpha3_WorkloadList : oas_def :=
  DObject ["items"] [
  prop "apiVersion" TString;
  prop "items" (TArray (TRef "io.k8s.api.scheduling.v1alpha3.Workload"));
  prop "kind" TString;
  prop_or "metadata" (TRef "io.k8s.apimachinery.pkg.apis.meta.v1.ListMeta") (VDict [])].
Definition io_k8s_api_scheduling_v1alpha3_WorkloadPodGroupAllDisruptionMode : oas_def :=
  DType TObject.
Definition io_k8s_api_scheduling_v1alpha3_WorkloadPodGroupBasicSchedulingPolicy : oas_def :=
  DType TObject.
Definition io_k8s_api_scheduling_v1alpha3_WorkloadPodGroupDisruptionMode : oas_def :=
  DObject [] [
  prop "all" (TRef "io.k8s.api.scheduling.v1alpha3.WorkloadPodGroupAllDisruptionMode");
  prop "single" (TRef "io.k8s.api.scheduling.v1alpha3.WorkloadPodGroupSingleDisruptionMode")].
Definition io_k8s_api_scheduling_v1alpha3_WorkloadPodGroupGangSchedulingPolicy : oas_def :=
  DObject [] [
  prop "minCount" TInteger].
Definition io_k8s_api_scheduling_v1alpha3_WorkloadPodGroupResourceClaim : oas_def :=
  DObject ["name"] [
  prop_or "name" TString (VStr "");
  prop "resourceClaimName" TString;
  prop "resourceClaimTemplateName" TString].
Definition io_k8s_api_scheduling_v1alpha3_WorkloadPodGroupSchedulingConstraints : oas_def :=
  DObject [] [
  prop "topology" (TArray (TRef "io.k8s.api.scheduling.v1alpha3.TopologyConstraint"))].
Definition io_k8s_api_scheduling_v1alpha3_WorkloadPodGroupSchedulingPolicy : oas_def :=
  DObject [] [
  prop "basic" (TRef "io.k8s.api.scheduling.v1alpha3.WorkloadPodGroupBasicSchedulingPolicy");
  prop "gang" (TRef "io.k8s.api.scheduling.v1alpha3.WorkloadPodGroupGangSchedulingPolicy")].
Definition io_k8s_api_scheduling_v1alpha3_WorkloadPodGroupSingleDisruptionMode : oas_def :=
  DType TObject.
Definition io_k8s_api_scheduling_v1alpha3_WorkloadReference : oas_def :=
  DObject ["workloadName"; "templateName"] [
  prop_or "templateName" TString (VStr "");
  prop_or "workloadName" TString (VStr "")].
Definition io_k8s_api_scheduling_v1alpha3_WorkloadSpec : oas_def :=
  DObject [] [
  prop "compositePodGroupTemplates" (TArray (TRef
    "io.k8s.api.scheduling.v1alpha3.CompositePodGroupTemplate"));
  prop "controllerRef" (TRef "io.k8s.api.scheduling.v1alpha3.TypedLocalObjectReference");
  prop "podGroupTemplates" (TArray (TRef "io.k8s.api.scheduling.v1alpha3.PodGroupTemplate"))].
Definition io_k8s_apimachinery_pkg_api_resource_Quantity : oas_def :=
  DType (TOneOf TString TNumber).
Definition io_k8s_apimachinery_pkg_apis_meta_v1_APIGroup : oas_def :=
  DObject ["name"; "versions"] [
  prop "apiVersion" TString;
  prop "kind" TString;
  prop_or "name" TString (VStr "");
  prop_or "preferredVersion" (TRef
    "io.k8s.apimachinery.pkg.apis.meta.v1.GroupVersionForDiscovery") (VDict []);
  prop "serverAddressByClientCIDRs" (TArray (TRef
    "io.k8s.apimachinery.pkg.apis.meta.v1.ServerAddressByClientCIDR"));
  prop "versions" (TArray (TRef "io.k8s.apimachinery.pkg.apis.meta.v1.GroupVersionForDiscovery"))].
Definition io_k8s_apimachinery_pkg_apis_meta_v1_APIGroupList : oas_def :=
  DObject ["groups"] [
  prop "apiVersion" TString;
  prop "groups" (TArray (TRef "io.k8s.apimachinery.pkg.apis.meta.v1.APIGroup"));
  prop "kind" TString].
Definition io_k8s_apimachinery_pkg_apis_meta_v1_APIResource : oas_def :=
  DObject ["name"; "singularName"; "namespaced"; "kind"; "verbs"] [
  prop "categories" (TArray TString);
  prop "group" TString;
  prop_or "kind" TString (VStr "");
  prop_or "name" TString (VStr "");
  prop_or "namespaced" TBoolean (VBool false);
  prop "shortNames" (TArray TString);
  prop_or "singularName" TString (VStr "");
  prop "storageVersionHash" TString;
  prop "verbs" (TArray TString);
  prop "version" TString].
Definition io_k8s_apimachinery_pkg_apis_meta_v1_APIResourceList : oas_def :=
  DObject ["groupVersion"; "resources"] [
  prop "apiVersion" TString;
  prop_or "groupVersion" TString (VStr "");
  prop "kind" TString;
  prop "resources" (TArray (TRef "io.k8s.apimachinery.pkg.apis.meta.v1.APIResource"))].
Definition io_k8s_apimachinery_pkg_apis_meta_v1_APIVersions : oas_def :=
  DObject ["versions"; "serverAddressByClientCIDRs"] [
  prop "apiVersion" TString;
  prop "kind" TString;
  prop "serverAddressByClientCIDRs" (TArray (TRef
    "io.k8s.apimachinery.pkg.apis.meta.v1.ServerAddressByClientCIDR"));
  prop "versions" (TArray TString)].
Definition io_k8s_apimachinery_pkg_apis_meta_v1_ApplyOptions : oas_def :=
  DObject ["force"; "fieldManager"] [
  prop "apiVersion" TString;
  prop "dryRun" (TArray TString);
  prop_or "fieldManager" TString (VStr "");
  prop_or "force" TBoolean (VBool false);
  prop "kind" TString].
Definition io_k8s_apimachinery_pkg_apis_meta_v1_Condition : oas_def :=
  DObject ["type"; "status"; "lastTransitionTime"; "reason"; "message"] [
  prop "lastTransitionTime" (TRef "io.k8s.apimachinery.pkg.apis.meta.v1.Time");
  prop_or "message" TString (VStr "");
  prop "observedGeneration" TInteger;
  prop_or "reason" TString (VStr "");
  prop_or "status" TString (VStr "");
  prop_or "type" TString (VStr "")].
Definition io_k8s_apimachinery_pkg_apis_meta_v1_CreateOptions : oas_def :=
  DObject [] [
  prop "apiVersion" TString;
  prop "dryRun" (TArray TString);
  prop "fieldManager" TString;
  prop "fieldValidation" TString;
  prop "kind" TString].
Definition io_k8s_apimachinery_pkg_apis_meta_v1_DeleteOptions : oas_def :=
  DObject [] [
  prop "apiVersion" TString;
  prop "dryRun" (TArray TString);
  prop "gracePeriodSeconds" TInteger;
  prop "ignoreStoreReadErrorWithClusterBreakingPotential" TBoolean;
  prop "kind" TString;
  prop "orphanDependents" TBoolean;
  prop "preconditions" (TRef "io.k8s.apimachinery.pkg.apis.meta.v1.Preconditions");
  prop "propagationPolicy" TString].
Definition io_k8s_apimachinery_pkg_apis_meta_v1_Duration : oas_def :=
  DType TString.
Definition io_k8s_apimachinery_pkg_apis_meta_v1_FieldSelectorRequirement : oas_def :=
  DObject ["key"; "operator"] [
  prop_or "key" TString (VStr "");
  prop_or "operator" TString (VStr "");
  prop "values" (TArray TString)].
Definition io_k8s_apimachinery_pkg_apis_meta_v1_FieldsV1 : oas_def :=
  DType TObject.
Definition io_k8s_apimachinery_pkg_apis_meta_v1_GetOptions : oas_def :=
  DObject [] [
  prop "apiVersion" TString;
  prop "kind" TString;
  prop "resourceVersion" TString].
Definition io_k8s_apimachinery_pkg_apis_meta_v1_GroupKind : oas_def :=
  DObject ["group"; "kind"] [
  prop_or "group" TString (VStr "");
  prop_or "kind" TString (VStr "")].
Definition io_k8s_apimachinery_pkg_apis_meta_v1_GroupResource : oas_def :=
  DObject ["group"; "resource"] [
  prop_or "group" TString (VStr "");
  prop_or "resource" TString (VStr "")].
Definition io_k8s_apimachinery_pkg_apis_meta_v1_GroupVersion : oas_def :=
  DObject ["group"; "version"] [
  prop_or "group" TString (VStr "");
  prop_or "version" TString (VStr "")].
Definition io_k8s_apimachinery_pkg_apis_meta_v1_GroupVersionForDiscovery : oas_def :=
  DObject ["groupVersion"; "version"] [
  prop_or "groupVersion" TString (VStr "");
  prop_or "version" TString (VStr "")].
Definition io_k8s_apimachinery_pkg_apis_meta_v1_GroupVersionKind : oas_def :=
  DObject ["group"; "version"; "kind"] [
  prop_or "group" TString (VStr "");
  prop_or "kind" TString (VStr "");
  prop_or "version" TString (VStr "")].
Definition io_k8s_apimachinery_pkg_apis_meta_v1_GroupVersionResource : oas_def :=
  DObject ["group"; "version"; "resource"] [
  prop_or "group" TString (VStr "");
  prop_or "resource" TString (VStr "");
  prop_or "version" TString (VStr "")].
Definition io_k8s_apimachinery_pkg_apis_meta_v1_InternalEvent : oas_def :=
  DObject ["Type"; "Object"] [
  prop "Object" TAny;
  prop_or "Type" TString (VStr "")].
Definition io_k8s_apimachinery_pkg_apis_meta_v1_LabelSelector : oas_def :=
  DObject [] [
  prop "matchExpressions" (TArray (TRef
    "io.k8s.apimachinery.pkg.apis.meta.v1.LabelSelectorRequirement"));
  prop "matchLabels" (TMap TString)].
Definition io_k8s_apimachinery_pkg_apis_meta_v1_LabelSelectorRequirement : oas_def :=
  DObject ["key"; "operator"] [
  prop_or "key" TString (VStr "");
  prop_or "operator" TString (VStr "");
  prop "values" (TArray TString)].
Definition io_k8s_apimachinery_pkg_apis_meta_v1_List : oas_def :=
  DObject ["items"] [
  prop "apiVersion" TString;
  prop "items" (TArray (TRef "io.k8s.apimachinery.pkg.runtime.RawExtension"));
  prop "kind" TString;
  prop_or "metadata" (TRef "io.k8s.apimachinery.pkg.apis.meta.v1.ListMeta") (VDict [])].
Definition io_k8s_apimachinery_pkg_apis_meta_v1_ListMeta : oas_def :=
  DObject [] [
  prop "continue" TString;
  prop "remainingItemCount" TInteger;
  prop "resourceVersion" TString;
  prop "selfLink" TString;
  prop "shardInfo" (TRef "io.k8s.apimachinery.pkg.apis.meta.v1.ShardInfo")].
Definition io_k8s_apimachinery_pkg_apis_meta_v1_ListOptions : oas_def :=
  DObject [] [
  prop "allowWatchBookmarks" TBoolean;
  prop "apiVersion" TString;
  prop "continue" TString;
  prop "fieldSelector" TString;
  prop "kind" TString;
  prop "labelSelector" TString;
  prop "limit" TInteger;
  prop "resourceVersion" TString;
  prop "resourceVersionMatch" TString;
  prop "sendInitialEvents" TBoolean;
  prop "shardSelector" TString;
  prop "timeoutSeconds" TInteger;
  prop "watch" TBoolean].
Definition io_k8s_apimachinery_pkg_apis_meta_v1_ManagedFieldsEntry : oas_def :=
  DObject [] [
  prop "apiVersion" TString;
  prop "fieldsType" TString;
  prop "fieldsV1" (TRef "io.k8s.apimachinery.pkg.apis.meta.v1.FieldsV1");
  prop "manager" TString;
  prop "operation" TString;
  prop "subresource" TString;
  prop "time" (TRef "io.k8s.apimachinery.pkg.apis.meta.v1.Time")].
Definition io_k8s_apimachinery_pkg_apis_meta_v1_MicroTime : oas_def :=
  DType TDateTime.
Definition io_k8s_apimachinery_pkg_apis_meta_v1_ObjectMeta : oas_def :=
  DObject [] [
  prop "annotations" (TMap TString);
  prop "creationTimestamp" (TRef "io.k8s.apimachinery.pkg.apis.meta.v1.Time");
  prop "deletionGracePeriodSeconds" TInteger;
  prop "deletionTimestamp" (TRef "io.k8s.apimachinery.pkg.apis.meta.v1.Time");
  prop "finalizers" (TArray TString);
  prop "generateName" TString;
  prop "generation" TInteger;
  prop "labels" (TMap TString);
  prop "managedFields" (TArray (TRef "io.k8s.apimachinery.pkg.apis.meta.v1.ManagedFieldsEntry"));
  prop "name" TString;
  prop "namespace" TString;
  prop "ownerReferences" (TArray (TRef "io.k8s.apimachinery.pkg.apis.meta.v1.OwnerReference"));
  prop "resourceVersion" TString;
  prop "selfLink" TString;
  prop "uid" TString].
Definition io_k8s_apimachinery_pkg_apis_meta_v1_OwnerReference : oas_def :=
  DObject ["apiVersion"; "kind"; "name"; "uid"] [
  prop_or "apiVersion" TString (VStr "");
  prop "blockOwnerDeletion" TBoolean;
  prop "controller" TBoolean;
  prop_or "kind" TString (VStr "");
  prop_or "name" TString (VStr "");
  prop_or "uid" TString (VStr "")].
Definition io_k8s_apimachinery_pkg_apis_meta_v1_PartialObjectMetadata : oas_def :=
  DObject [] [
  prop "apiVersion" TString;
  prop "kind" TString;
  prop_or "metadata" (TRef "io.k8s.apimachinery.pkg.apis.meta.v1.ObjectMeta") (VDict [])].
Definition io_k8s_apimachinery_pkg_apis_meta_v1_PartialObjectMetadataList : oas_def :=
  DObject ["items"] [
  prop "apiVersion" TString;
  prop "items" (TArray (TRef "io.k8s.apimachinery.pkg.apis.meta.v1.PartialObjectMetadata"));
  prop "kind" TString;
  prop_or "metadata" (TRef "io.k8s.apimachinery.pkg.apis.meta.v1.ListMeta") (VDict [])].
Definition io_k8s_apimachinery_pkg_apis_meta_v1_Patch : oas_def :=
  DType TObject.
Definition io_k8s_apimachinery_pkg_apis_meta_v1_PatchOptions : oas_def :=
  DObject [] [
  prop "apiVersion" TString;
  prop "dryRun" (TArray TString);
  prop "fieldManager" TString;
  prop "fieldValidation" TString;
  prop "force" TBoolean;
  prop "kind" TString].
Definition io_k8s_apimachinery_pkg_apis_meta_v1_Preconditions : oas_def :=
  DObject [] [
  prop "resourceVersion" TString;
  prop "uid" TString].
Definition io_k8s_apimachinery_pkg_apis_meta_v1_RootPaths : oas_def :=
  DObject ["paths"] [
  prop "paths" (TArray TString)].
Definition io_k8s_apimachinery_pkg_apis_meta_v1_ServerAddressByClientCIDR : oas_def :=
  DObject ["clientCIDR"; "serverAddress"] [
  prop_or "clientCIDR" TString (VStr "");
  prop_or "serverAddress" TString (VStr "")].
Definition io_k8s_apimachinery_pkg_apis_meta_v1_ShardInfo : oas_def :=
  DObject ["selector"] [
  prop_or "selector" TString (VStr "")].
Definition io_k8s_apimachinery_pkg_apis_meta_v1_Status : oas_def :=
  DObject [] [
  prop "apiVersion" TString;
  prop "code" TInteger;
  prop "details" (TRef "io.k8s.apimachinery.pkg.apis.meta.v1.StatusDetails");
  prop "kind" TString;
  prop "message" TString;
  prop_or "metadata" (TRef "io.k8s.apimachinery.pkg.apis.meta.v1.ListMeta") (VDict []);
  prop "reason" TString;
  prop "status" TString].
Definition io_k8s_apimachinery_pkg_apis_meta_v1_StatusCause : oas_def :=
  DObject [] [
  prop "field" TString;
  prop "message" TString;
  prop "reason" TString].
Definition io_k8s_apimachinery_pkg_apis_meta_v1_StatusDetails : oas_def :=
  DObject [] [
  prop "causes" (TArray (TRef "io.k8s.apimachinery.pkg.apis.meta.v1.StatusCause"));
  prop "group" TString;
  prop "kind" TString;
  prop "name" TString;
  prop "retryAfterSeconds" TInteger;
  prop "uid" TString].
Definition io_k8s_apimachinery_pkg_apis_meta_v1_Table : oas_def :=
  DObject ["columnDefinitions"; "rows"] [
  prop "apiVersion" TString;
  prop "columnDefinitions" (TArray (TRef
    "io.k8s.apimachinery.pkg.apis.meta.v1.TableColumnDefinition"));
  prop "kind" TString;
  prop_or "metadata" (TRef "io.k8s.apimachinery.pkg.apis.meta.v1.ListMeta") (VDict []);
  prop "rows" (TArray (TRef "io.k8s.apimachinery.pkg.apis.meta.v1.TableRow"))].
Definition io_k8s_apimachinery_pkg_apis_meta_v1_TableColumnDefinition : oas_def :=
  DObject ["name"; "type"; "format"; "description"; "priority"] [
  prop_or "description" TString (VStr "");
  prop_or "format" TString (VStr "");
  prop_or "name" TString (VStr "");
  prop_or "priority" TInteger (VInt 0);
  prop_or "type" TString (VStr "")].
Definition io_k8s_apimachinery_pkg_apis_meta_v1_TableOptions : oas_def :=
  DObject [] [
  prop "apiVersion" TString;
  prop "includeObject" TString;
  prop "kind" TString].
Definition io_k8s_apimachinery_pkg_apis_meta_v1_TableRow : oas_def :=
  DObject ["cells"] [
  prop "cells" (TArray TObject);
  prop "conditions" (TArray (TRef "io.k8s.apimachinery.pkg.apis.meta.v1.TableRowCondition"));
  prop "object" (TRef "io.k8s.apimachinery.pkg.runtime.RawExtension")].
Definition io_k8s_apimachinery_pkg_apis_meta_v1_TableRowCondition : oas_def :=
  DObject ["type"; "status"] [
  prop "message" TString;
  prop "reason" TString;
  prop_or "status" TString (VStr "");
  prop_or "type" TString (VStr "")].
Definition io_k8s_apimachinery_pkg_apis_meta_v1_Time : oas_def :=
  DType TDateTime.
Definition io_k8s_apimachinery_pkg_apis_meta_v1_Timestamp : oas_def :=
  DObject ["seconds"; "nanos"] [
  prop_or "nanos" TInteger (VInt 0);
  prop_or "seconds" TInteger (VInt 0)].
Definition io_k8s_apimachinery_pkg_apis_meta_v1_TypeMeta : oas_def :=
  DObject [] [
  prop "apiVersion" TString;
  prop "kind" TString].
Definition io_k8s_apimachinery_pkg_apis_meta_v1_UpdateOptions : oas_def :=
  DObject [] [
  prop "apiVersion" TString;
  prop "dryRun" (TArray TString);
  prop "fieldManager" TString;
  prop "fieldValidation" TString;
  prop "kind" TString].
Definition io_k8s_apimachinery_pkg_apis_meta_v1_WatchEvent : oas_def :=
  DObject ["type"; "object"] [
  prop "object" (TRef "io.k8s.apimachinery.pkg.runtime.RawExtension");
  prop_or "type" TString (VStr "")].
Definition io_k8s_apimachinery_pkg_runtime_RawExtension : oas_def :=
  DType TObject.
Definition io_k8s_apimachinery_pkg_runtime_TypeMeta : oas_def :=
  DObject [] [
  prop "apiVersion" TString;
  prop "kind" TString].
Definition io_k8s_apimachinery_pkg_runtime_Unknown : oas_def :=
  DObject ["ContentEncoding"; "ContentType"] [
  prop_or "ContentEncoding" TString (VStr "");
  prop_or "ContentType" TString (VStr "");
  prop "apiVersion" TString;
  prop "kind" TString].
Definition io_k8s_apimachinery_pkg_util_intstr_IntOrString : oas_def :=
  DType (TOneOf TInteger TString).
Definition jobset_v1alpha2_Coordinator : oas_def :=
  DObject ["replicatedJob"] [
  prop "jobIndex" TInteger;
  prop "podIndex" TInteger;
  prop_or "replicatedJob" TString (VStr "")].
Definition jobset_v1alpha2_DependsOn : oas_def :=
  DObject ["name"; "status"] [
  prop_or "name" TString (VStr "");
  prop_or "status" TString (VStr "")].
Definition jobset_v1alpha2_FailurePolicy : oas_def :=
  DObject [] [
  prop "maxRestarts" TInteger;
  prop "restartStrategy" TString;
  prop "rules" (TArray (TRef "jobset.v1alpha2.FailurePolicyRule"))].
Definition jobset_v1alpha2_FailurePolicyRule : oas_def :=
  DObject ["name"; "action"] [
  prop_or "action" TString (VStr "");
  prop_or "name" TString (VStr "");
  prop "onJobFailureMessagePatterns" (TArray TString);
  prop "onJobFailureReasons" (TArray TString);
  prop "targetReplicatedJobs" (TArray TString)].
Definition jobset_v1alpha2_JobScheduling : oas_def :=
  DObject [] [
  prop "disruptionMode" (TRef "io.k8s.api.scheduling.v1alpha3.WorkloadPodGroupDisruptionMode");
  prop "resourceClaims" (TArray (TRef
    "io.k8s.api.scheduling.v1alpha3.WorkloadPodGroupResourceClaim"));
  prop "schedulingConstraints" (TRef
    "io.k8s.api.scheduling.v1alpha3.WorkloadPodGroupSchedulingConstraints");
  prop "schedulingPolicy" (TRef "io.k8s.api.scheduling.v1alpha3.WorkloadPodGroupSchedulingPolicy")].
Definition jobset_v1alpha2_JobSet : oas_def :=
  DObject [] [
  prop "apiVersion" TString;
  prop "kind" TString;
  prop_or "metadata" (TRef "io.k8s.apimachinery.pkg.apis.meta.v1.ObjectMeta") (VDict []);
  prop_or "spec" (TRef "jobset.v1alpha2.JobSetSpec") (VDict []);
  prop_or "status" (TRef "jobset.v1alpha2.JobSetStatus") (VDict [])].
Definition jobset_v1alpha2_JobSetList : oas_def :=
  DObject ["items"] [
  prop "apiVersion" TString;
  prop "items" (TArray (TRef "jobset.v1alpha2.JobSet"));
  prop "kind" TString;
  prop_or "metadata" (TRef "io.k8s.apimachinery.pkg.apis.meta.v1.ListMeta") (VDict [])].
Definition jobset_v1alpha2_JobSetScheduling : oas_def :=
  DObject [] [
  prop "disruptionMode" (TRef
    "io.k8s.api.scheduling.v1alpha3.WorkloadCompositePodGroupDisruptionMode");
  prop "replicatedJobs" (TArray (TRef "jobset.v1alpha2.ReplicatedJobScheduling"));
  prop "schedulingConstraints" (TRef
    "io.k8s.api.scheduling.v1alpha3.WorkloadCompositePodGroupSchedulingConstraints");
  prop "schedulingPolicy" (TRef
    "io.k8s.api.scheduling.v1alpha3.WorkloadCompositePodGroupSchedulingPolicy")].
Definition jobset_v1alpha2_JobSetSpec : oas_def :=
  DObject [] [
  prop "activeDeadlineSeconds" TInteger;
  prop "coordinator" (TRef "jobset.v1alpha2.Coordinator");
  prop "failurePolicy" (TRef "jobset.v1alpha2.FailurePolicy");
  prop "managedBy" TString;
  prop "network" (TRef "jobset.v1alpha2.Network");
  prop "replicatedJobs" (TArray (TRef "jobset.v1alpha2.ReplicatedJob"));
  prop "scheduling" (TRef "jobset.v1alpha2.JobSetScheduling");
  prop "startupPolicy" (TRef "jobset.v1alpha2.StartupPolicy");
  prop "successPolicy" (TRef "jobset.v1alpha2.SuccessPolicy");
  prop "suspend" TBoolean;
  prop "ttlSecondsAfterFinished" TInteger;
  prop "volumeClaimPolicies" (TArray (TRef "jobset.v1alpha2.VolumeClaimPolicy"))].
Definition jobset_v1alpha2_JobSetStatus : oas_def :=
  DObject [] [
  prop "conditions" (TArray (TRef "io.k8s.apimachinery.pkg.apis.meta.v1.Condition"));
  prop "currentInPlaceRestartAttempt" TInteger;
  prop "executionAttempts" TInteger;
  prop "previousInPlaceRestartAttempt" TInteger;
  prop "replicatedJobsStatus" (TArray (TRef "jobset.v1alpha2.ReplicatedJobStatus"));
  prop_or "restarts" TInteger (VInt 0);
  prop "restartsCountTowardsMax" TInteger;
  prop "startTime" (TRef "io.k8s.apimachinery.pkg.apis.meta.v1.Time");
  prop "terminalState" TString].
Definition jobset_v1alpha2_Network : oas_def :=
  DObject [] [
  prop "enableDNSHostnames" TBoolean;
  prop "publishNotReadyAddresses" TBoolean;
  prop "subdomain" TString].
Definition jobset_v1alpha2_ReplicatedJob : oas_def :=
  DObject ["name"; "template"] [
  prop "dependsOn" (TArray (TRef "jobset.v1alpha2.DependsOn"));
  prop "groupName" TString;
  prop_or "name" TString (VStr "");
  prop "replicas" TInteger;
  prop_or "template" (TRef "io.k8s.api.batch.v1.JobTemplateSpec") (VDict [])].
Definition jobset_v1alpha2_ReplicatedJobScheduling : oas_def :=
  DObject ["targetReplicatedJobs"] [
  prop "disruptionMode" (TRef
    "io.k8s.api.scheduling.v1alpha3.WorkloadCompositePodGroupDisruptionMode");
  prop "job" (TRef "jobset.v1alpha2.JobScheduling");
  prop "schedulingConstraints" (TRef
    "io.k8s.api.scheduling.v1alpha3.WorkloadCompositePodGroupSchedulingConstraints");
  prop "schedulingPolicy" (TRef
    "io.k8s.api.scheduling.v1alpha3.WorkloadCompositePodGroupSchedulingPolicy");
  prop "targetReplicatedJobs" (TArray TString)].
Definition jobset_v1alpha2_ReplicatedJobStatus : oas_def :=
  DObject ["name"; "ready"; "succeeded"; "failed"; "active"; "suspended"] [
  prop_or "active" TInteger (VInt 0);
  prop_or "failed" TInteger (VInt 0);
  prop "jobRestarts" (TArray TInteger);
  prop "jobRestartsCountTowardsMax" (TArray TInteger);
  prop_or "name" TString (VStr "");
  prop_or "ready" TInteger (VInt 0);
  prop_or "succeeded" TInteger (VInt 0);
  prop_or "suspended" TInteger (VInt 0)].
Definition jobset_v1alpha2_StartupPolicy : oas_def :=
  DObject ["startupPolicyOrder"] [
  prop_or "startupPolicyOrder" TString (VStr "")].
Definition jobset_v1alpha2_SuccessPolicy : oas_def :=
  DObject ["operator"] [
  prop_or "operator" TString (VStr "");
  prop "targetReplicatedJobs" (TArray TString)].
Definition jobset_v1alpha2_VolumeClaimPolicy : oas_def :=
  DObject [] [
  prop "retentionPolicy" (TRef "jobset.v1alpha2.VolumeRetentionPolicy");
  prop "templates" (TArray (TRef "io.k8s.api.core.v1.PersistentVolumeClaim"))].
Definition jobset_v1alpha2_VolumeRetentionPolicy : oas_def :=
  DObject [] [
  prop "whenDeleted" TString].
Definition scheduling_v1beta1_NetworkTopologySpec : oas_def :=
  DObject [] [
  prop "highestTierAllowed" TInteger;
  prop "mode" TString].
Definition trainer_v1alpha1_CategoricalSpace : oas_def :=
  DObject ["choices"] [
  prop "choices" (TArray TString)].
Definition trainer_v1alpha1_ClusterTrainingRuntime : oas_def :=
  DObject [] [
  prop "apiVersion" TString;
  prop "kind" TString;
  prop_or "metadata" (TRef "io.k8s.apimachinery.pkg.apis.meta.v1.ObjectMeta") (VDict []);
  prop_or "spec" (TRef "trainer.v1alpha1.TrainingRuntimeSpec") (VDict [])].
Definition trainer_v1alpha1_ClusterTrainingRuntimeList : oas_def :=
  DObject ["items"] [
  prop "apiVersion" TString;
  prop "items" (TArray (TRef "trainer.v1alpha1.ClusterTrainingRuntime"));
  prop "kind" TString;
  prop_or "metadata" (TRef "io.k8s.apimachinery.pkg.apis.meta.v1.ListMeta") (VDict [])].
Definition trainer_v1alpha1_ContainerPatch : oas_def :=
  DObject ["name"] [
  prop "env" (TArray (TRef "io.k8s.api.core.v1.EnvVar"));
  prop "name" TString;
  prop "resources" (TRef "io.k8s.api.core.v1.ResourceRequirements");
  prop "securityContext" (TRef "io.k8s.api.core.v1.SecurityContext");
  prop "volumeMounts" (TArray (TRef "io.k8s.api.core.v1.VolumeMount"))].
Definition trainer_v1alpha1_CoschedulingPodGroupPolicySource : oas_def :=
  DObject [] [
  prop "scheduleTimeoutSeconds" TInteger].
Definition trainer_v1alpha1_DatasetInitializer : oas_def :=
  DObject [] [
  prop "env" (TArray (TRef "io.k8s.api.core.v1.EnvVar"));
  prop "secretRef" (TRef "io.k8s.api.core.v1.LocalObjectReference");
  prop "storageUri" TString].
Definition trainer_v1alpha1_EnvInjection : oas_def :=
  DObject [] [
  prop "targets" (TArray (TRef "trainer.v1alpha1.EnvInjectionTarget"))].
Definition trainer_v1alpha1_EnvInjectionTarget : oas_def :=
  DObject ["jobName"; "containerNames"] [
  prop "containerNames" (TArray TString);
  prop "jobName" TString].
Definition trainer_v1alpha1_FluxMLPolicySource : oas_def :=
  DObject [] [
  prop "numProcPerNode" TInteger].
Definition trainer_v1alpha1_GridAlgorithm : oas_def :=
  DType TObject.
Definition trainer_v1alpha1_Initializer : oas_def :=
  DObject [] [
  prop "dataset" (TRef "trainer.v1alpha1.DatasetInitializer");
  prop "model" (TRef "trainer.v1alpha1.ModelInitializer")].
Definition trainer_v1alpha1_JAXMLPolicySource : oas_def :=
  DType TObject.
Definition trainer_v1alpha1_JobSetSpecPatch : oas_def :=
  DObject [] [
  prop "replicatedJobs" (TArray (TRef "trainer.v1alpha1.ReplicatedJobPatch"))].
Definition trainer_v1alpha1_JobSetTemplatePatch : oas_def :=
  DObject [] [
  prop "metadata" (TRef "io.k8s.apimachinery.pkg.apis.meta.v1.ObjectMeta");
  prop "spec" (TRef "trainer.v1alpha1.JobSetSpecPatch")].
Definition trainer_v1alpha1_JobSetTemplateSpec : oas_def :=
  DObject [] [
  prop_or "metadata" (TRef "io.k8s.apimachinery.pkg.apis.meta.v1.ObjectMeta") (VDict []);
  prop_or "spec" (TRef "jobset.v1alpha2.JobSetSpec") (VDict [])].
Definition trainer_v1alpha1_JobSpecPatch : oas_def :=
  DObject [] [
  prop "template" (TRef "trainer.v1alpha1.PodTemplatePatch")].
Definition trainer_v1alpha1_JobStatus : oas_def :=
  DObject ["name"; "ready"; "succeeded"; "failed"; "active"; "suspended"] [
  prop "active" TInteger;
  prop "failed" TInteger;
  prop "name" TString;
  prop "ready" TInteger;
  prop "succeeded" TInteger;
  prop "suspended" TInteger].
Definition trainer_v1alpha1_JobTemplatePatch : oas_def :=
  DObject [] [
  prop "metadata" (TRef "io.k8s.apimachinery.pkg.apis.meta.v1.ObjectMeta");
  prop "spec" (TRef "trainer.v1alpha1.JobSpecPatch")].
Definition trainer_v1alpha1_LogUniformSpace : oas_def :=
  DObject ["min"; "max"] [
  prop "max" TString;
  prop "min" TString;
  prop "type" TString].
Definition trainer_v1alpha1_MLPolicy : oas_def :=
  DObject [] [
  prop "flux" (TRef "trainer.v1alpha1.FluxMLPolicySource");
  prop "jax" (TRef "trainer.v1alpha1.JAXMLPolicySource");
  prop "mpi" (TRef "trainer.v1alpha1.MPIMLPolicySource");
  prop "numNodes" TInteger;
  prop "torch" (TRef "trainer.v1alpha1.TorchMLPolicySource");
  prop "xgboost" (TRef "trainer.v1alpha1.XGBoostMLPolicySource")].
Definition trainer_v1alpha1_MLPolicySource : oas_def :=
  DObject [] [
  prop "flux" (TRef "trainer.v1alpha1.FluxMLPolicySource");
  prop "jax" (TRef "trainer.v1alpha1.JAXMLPolicySource");
  prop "mpi" (TRef "trainer.v1alpha1.MPIMLPolicySource");
  prop "torch" (TRef "trainer.v1alpha1.TorchMLPolicySource");
  prop "xgboost" (TRef "trainer.v1alpha1.XGBoostMLPolicySource")].
Definition trainer_v1alpha1_MPIMLPolicySource : oas_def :=
  DObject [] [
  prop "mpiImplementation" TString;
  prop "numProcPerNode" TInteger;
  prop "runLauncherAsNode" TBoolean;
  prop "sshAuthMountPath" TString].
Definition trainer_v1alpha1_Metric : oas_def :=
  DObject ["name"; "value"] [
  prop "name" TString;
  prop "value" TString].
Definition trainer_v1alpha1_ModelInitializer : oas_def :=
  DObject [] [
  prop "env" (TArray (TRef "io.k8s.api.core.v1.EnvVar"));
  prop "secretRef" (TRef "io.k8s.api.core.v1.LocalObjectReference");
  prop "storageUri" TString].
Definition trainer_v1alpha1_Objective : oas_def :=
  DObject ["metric"] [
  prop "direction" TString;
  prop "metric" TString].
Definition trainer_v1alpha1_OptimizationJob : oas_def :=
  DObject ["spec"] [
  prop "apiVersion" TString;
  prop "kind" TString;
  prop_or "metadata" (TRef "io.k8s.apimachinery.pkg.apis.meta.v1.ObjectMeta") (VDict []);
  prop_or "spec" (TRef "trainer.v1alpha1.OptimizationJobSpec") (VDict []);
  prop "status" (TRef "trainer.v1alpha1.OptimizationJobStatus")].
Definition trainer_v1alpha1_OptimizationJobList : oas_def :=
  DObject ["items"] [
  prop "apiVersion" TString;
  prop "items" (TArray (TRef "trainer.v1alpha1.OptimizationJob"));
  prop "kind" TString;
  prop_or "metadata" (TRef "io.k8s.apimachinery.pkg.apis.meta.v1.ListMeta") (VDict [])].
Definition trainer_v1alpha1_OptimizationJobSpec : oas_def :=
  DObject ["objectives"; "parameters"; "trainJobTemplate"] [
  prop "numTrials" TInteger;
  prop "objectives" (TArray (TRef "trainer.v1alpha1.Objective"));
  prop "parallelTrials" TInteger;
  prop "parameters" (TArray (TRef "trainer.v1alpha1.Parameter"));
  prop "searchAlgorithm" (TRef "trainer.v1alpha1.SearchAlgorithm");
  prop_or "trainJobTemplate" (TRef "trainer.v1alpha1.TrainJobTemplateSpec") (VDict [])].
Definition trainer_v1alpha1_OptimizationJobStatus : oas_def :=
  DObject [] [
  prop "conditions" (TArray (TRef "io.k8s.apimachinery.pkg.apis.meta.v1.Condition"));
  prop_or "result" (TRef "trainer.v1alpha1.Result") (VDict [])].
Definition trainer_v1alpha1_Parameter : oas_def :=
  DObject ["name"; "searchSpace"] [
  prop "name" TString;
  prop "searchSpace" (TRef "trainer.v1alpha1.SearchSpace")].
Definition trainer_v1alpha1_ParameterAssignment : oas_def :=
  DObject ["name"; "value"] [
  prop "name" TString;
  prop "value" TString].
Definition trainer_v1alpha1_PodGroupPolicy : oas_def :=
  DObject [] [
  prop "coscheduling" (TRef "trainer.v1alpha1.CoschedulingPodGroupPolicySource");
  prop "volcano" (TRef "trainer.v1alpha1.VolcanoPodGroupPolicySource")].
Definition trainer_v1alpha1_PodGroupPolicySource : oas_def :=
  DObject [] [
  prop "coscheduling" (TRef "trainer.v1alpha1.CoschedulingPodGroupPolicySource");
  prop "volcano" (TRef "trainer.v1alpha1.VolcanoPodGroupPolicySource")].
Definition trainer_v1alpha1_PodSpecPatch : oas_def :=
  DObject [] [
  prop "affinity" (TRef "io.k8s.api.core.v1.Affinity");
  prop "containers" (TArray (TRef "trainer.v1alpha1.ContainerPatch"));
  prop "imagePullSecrets" (TArray (TRef "io.k8s.api.core.v1.LocalObjectReference"));
  prop "initContainers" (TArray (TRef "trainer.v1alpha1.ContainerPatch"));
  prop "nodeSelector" (TMap TString);
  prop "resourceClaims" (TArray (TRef "io.k8s.api.core.v1.PodResourceClaim"));
  prop "schedulingGates" (TArray (TRef "io.k8s.api.core.v1.PodSchedulingGate"));
  prop "securityContext" (TRef "io.k8s.api.core.v1.PodSecurityContext");
  prop "serviceAccountName" TString;
  prop "terminationGracePeriodSeconds" TInteger;
  prop "tolerations" (TArray (TRef "io.k8s.api.core.v1.Toleration"));
  prop "volumes" (TArray (TRef "io.k8s.api.core.v1.Volume"))].
Definition trainer_v1alpha1_PodTemplatePatch : oas_def :=
  DObject [] [
  prop "metadata" (TRef "io.k8s.apimachinery.pkg.apis.meta.v1.ObjectMeta");
  prop "spec" (TRef "trainer.v1alpha1.PodSpecPatch")].
Definition trainer_v1alpha1_RandomAlgorithm : oas_def :=
  DObject [] [
  prop "seed" TInteger].
Definition trainer_v1alpha1_ReplicatedJobPatch : oas_def :=
  DObject ["name"] [
  prop "name" TString;
  prop "template" (TRef "trainer.v1alpha1.JobTemplatePatch")].
Definition trainer_v1alpha1_Result : oas_def :=
  DObject ["trainJobName"] [
  prop "parameters" (TArray (TRef "trainer.v1alpha1.ParameterAssignment"));
  prop "trainJobName" TString].
Definition trainer_v1alpha1_RuntimePatch : oas_def :=
  DObject ["manager"] [
  prop "manager" TString;
  prop "time" (TRef "io.k8s.apimachinery.pkg.apis.meta.v1.Time");
  prop "trainingRuntimeSpec" (TRef "trainer.v1alpha1.TrainingRuntimeSpecPatch")].
Definition trainer_v1alpha1_RuntimeRef : oas_def :=
  DObject ["name"] [
  prop "apiGroup" TString;
  prop "kind" TString;
  prop "name" TString].
Definition trainer_v1alpha1_SearchAlgorithm : oas_def :=
  DObject [] [
  prop "grid" (TRef "trainer.v1alpha1.GridAlgorithm");
  prop "random" (TRef "trainer.v1alpha1.RandomAlgorithm")].
Definition trainer_v1alpha1_SearchSpace : oas_def :=
  DObject [] [
  prop_or "categorical" (TRef "trainer.v1alpha1.CategoricalSpace") (VDict []);
  prop_or "logUniform" (TRef "trainer.v1alpha1.LogUniformSpace") (VDict []);
  prop_or "uniform" (TRef "trainer.v1alpha1.UniformSpace") (VDict [])].
Definition trainer_v1alpha1_TorchMLPolicySource : oas_def :=
  DObject [] [
  prop "envInjection" (TRef "trainer.v1alpha1.EnvInjection")].
Definition trainer_v1alpha1_TrainJob : oas_def :=
  DObject [] [
  prop "apiVersion" TString;
  prop "kind" TString;
  prop_or "metadata" (TRef "io.k8s.apimachinery.pkg.apis.meta.v1.ObjectMeta") (VDict []);
  prop_or "spec" (TRef "trainer.v1alpha1.TrainJobSpec") (VDict []);
  prop_or "status" (TRef "trainer.v1alpha1.TrainJobStatus") (VDict [])].
Definition trainer_v1alpha1_TrainJobList : oas_def :=
  DObject ["items"] [
  prop "apiVersion" TString;
  prop "items" (TArray (TRef "trainer.v1alpha1.TrainJob"));
  prop "kind" TString;
  prop_or "metadata" (TRef "io.k8s.apimachinery.pkg.apis.meta.v1.ListMeta") (VDict [])].
Definition trainer_v1alpha1_TrainJobSpec : oas_def :=
  DObject ["runtimeRef"] [
  prop "activeDeadlineSeconds" TInteger;
  prop "initializer" (TRef "trainer.v1alpha1.Initializer");
  prop "managedBy" TString;
  prop "runtimePatches" (TArray (TRef "trainer.v1alpha1.RuntimePatch"));
  prop_or "runtimeRef" (TRef "trainer.v1alpha1.RuntimeRef") (VDict []);
  prop "suspend" TBoolean;
  prop "trainer" (TRef "trainer.v1alpha1.Trainer")].
Definition trainer_v1alpha1_TrainJobStatus : oas_def :=
  DObject [] [
  prop "conditions" (TArray (TRef "io.k8s.apimachinery.pkg.apis.meta.v1.Condition"));
  prop "jobsStatus" (TArray (TRef "trainer.v1alpha1.JobStatus"));
  prop "trainerStatus" (TRef "trainer.v1alpha1.TrainerStatus")].
Definition trainer_v1alpha1_TrainJobTemplateSpec : oas_def :=
  DObject ["spec"] [
  prop_or "metadata" (TRef "io.k8s.apimachinery.pkg.apis.meta.v1.ObjectMeta") (VDict []);
  prop_or "spec" (TRef "trainer.v1alpha1.TrainJobSpec") (VDict [])].
Definition trainer_v1alpha1_Trainer : oas_def :=
  DObject [] [
  prop "args" (TArray TString);
  prop "command" (TArray TString);
  prop "env" (TArray (TRef "io.k8s.api.core.v1.EnvVar"));
  prop "image" TString;
  prop "numNodes" TInteger;
  prop "numProcPerNode" TInteger;
  prop "resourceClaimsPerNode" (TArray (TRef "trainer.v1alpha1.TrainerResourceClaim"));
  prop "resourcesPerNode" (TRef "io.k8s.api.core.v1.ResourceRequirements")].
Definition trainer_v1alpha1_TrainerResourceClaim : oas_def :=
  DObject ["name"; "resourceClaimTemplateName"] [
  prop "name" TString;
  prop "resourceClaimTemplateName" TString].
Definition trainer_v1alpha1_TrainerStatus : oas_def :=
  DObject [] [
  prop "estimatedRemainingSeconds" TInteger;
  prop "lastUpdatedTime" (TRef "io.k8s.apimachinery.pkg.apis.meta.v1.Time");
  prop "metrics" (TArray (TRef "trainer.v1alpha1.Metric"));
  prop "progressPercentage" TInteger].
Definition trainer_v1alpha1_TrainingRuntime : oas_def :=
  DObject [] [
  prop "apiVersion" TString;
  prop "kind" TString;
  prop_or "metadata" (TRef "io.k8s.apimachinery.pkg.apis.meta.v1.ObjectMeta") (VDict []);
  prop_or "spec" (TRef "trainer.v1alpha1.TrainingRuntimeSpec") (VDict [])].
Definition trainer_v1alpha1_TrainingRuntimeList : oas_def :=
  DObject ["items"] [
  prop "apiVersion" TString;
  prop "items" (TArray (TRef "trainer.v1alpha1.TrainingRuntime"));
  prop "kind" TString;
  prop_or "metadata" (TRef "io.k8s.apimachinery.pkg.apis.meta.v1.ListMeta") (VDict [])].
Definition trainer_v1alpha1_TrainingRuntimeSpec : oas_def :=
  DObject [] [
  prop "mlPolicy" (TRef "trainer.v1alpha1.MLPolicy");
  prop "podGroupPolicy" (TRef "trainer.v1alpha1.PodGroupPolicy");
  prop_or "template" (TRef "trainer.v1alpha1.JobSetTemplateSpec") (VDict [])].
Definition trainer_v1alpha1_TrainingRuntimeSpecPatch : oas_def :=
  DObject [] [
  prop "template" (TRef "trainer.v1alpha1.JobSetTemplatePatch")].
Definition trainer_v1alpha1_UniformSpace : oas_def :=
  DObject ["min"; "max"] [
  prop "max" TString;
  prop "min" TString;
  prop "type" TString].
Definition trainer_v1alpha1_UpdateTrainJobStatusRequest : oas_def :=
  DObject [] [
  prop "trainerStatus" (TRef "trainer.v1alpha1.TrainerStatus")].
Definition trainer_v1alpha1_VolcanoPodGroupPolicySource : oas_def :=
  DObject [] [
  prop "networkTopology" (TRef "scheduling.v1beta1.NetworkTopologySpec")].
Definition trainer_v1alpha1_XGBoostMLPolicySource : oas_def :=
  DType TObject.

(** The specification. *)
Definition definitions : list (string * oas_def) := [
  ("io.k8s.api.autoscaling.v2.ContainerResourceMetricSource",
    io_k8s_api_autoscaling_v2_ContainerResourceMetricSource);
  ("io.k8s.api.autoscaling.v2.ContainerResourceMetricStatus",
    io_k8s_api_autoscaling_v2_ContainerResourceMetricStatus);
  ("io.k8s.api.autoscaling.v2.CrossVersionObjectReference",
    io_k8s_api_autoscaling_v2_CrossVersionObjectReference);
  ("io.k8s.api.autoscaling.v2.ExternalMetricSource",
    io_k8s_api_autoscaling_v2_ExternalMetricSource);
  ("io.k8s.api.autoscaling.v2.ExternalMetricStatus",
    io_k8s_api_autoscaling_v2_ExternalMetricStatus);
  ("io.k8s.api.autoscaling.v2.HPAScalingPolicy", io_k8s_api_autoscaling_v2_HPAScalingPolicy);
  ("io.k8s.api.autoscaling.v2.HPAScalingRules", io_k8s_api_autoscaling_v2_HPAScalingRules);
  ("io.k8s.api.autoscaling.v2.HorizontalPodAutoscaler",
    io_k8s_api_autoscaling_v2_HorizontalPodAutoscaler);
  ("io.k8s.api.autoscaling.v2.HorizontalPodAutoscalerBehavior",
    io_k8s_api_autoscaling_v2_HorizontalPodAutoscalerBehavior);
  ("io.k8s.api.autoscaling.v2.HorizontalPodAutoscalerCondition",
    io_k8s_api_autoscaling_v2_HorizontalPodAutoscalerCondition);
  ("io.k8s.api.autoscaling.v2.HorizontalPodAutoscalerList",
    io_k8s_api_autoscaling_v2_HorizontalPodAutoscalerList);
  ("io.k8s.api.autoscaling.v2.HorizontalPodAutoscalerSpec",
    io_k8s_api_autoscaling_v2_HorizontalPodAutoscalerSpec);
  ("io.k8s.api.autoscaling.v2.HorizontalPodAutoscalerStatus",
    io_k8s_api_autoscaling_v2_HorizontalPodAutoscalerStatus);
  ("io.k8s.api.autoscaling.v2.MetricIdentifier", io_k8s_api_autoscaling_v2_MetricIdentifier);
  ("io.k8s.api.autoscaling.v2.MetricSpec", io_k8s_api_autoscaling_v2_MetricSpec);
  ("io.k8s.api.autoscaling.v2.MetricStatus", io_k8s_api_autoscaling_v2_MetricStatus);
  ("io.k8s.api.autoscaling.v2.MetricTarget", io_k8s_api_autoscaling_v2_MetricTarget);
  ("io.k8s.api.autoscaling.v2.MetricValueStatus", io_k8s_api_autoscaling_v2_MetricValueStatus);
  ("io.k8s.api.autoscaling.v2.ObjectMetricSource", io_k8s_api_autoscaling_v2_ObjectMetricSource);
  ("io.k8s.api.autoscaling.v2.ObjectMetricStatus", io_k8s_api_autoscaling_v2_ObjectMetricStatus);
  ("io.k8s.api.autoscaling.v2.PodsMetricSource", io_k8s_api_autoscaling_v2_PodsMetricSource);
  ("io.k8s.api.autoscaling.v2.PodsMetricStatus", io_k8s_api_autoscaling_v2_PodsMetricStatus);
  ("io.k8s.api.autoscaling.v2.ResourceMetricSource",
    io_k8s_api_autoscaling_v2_ResourceMetricSource);
  ("io.k8s.api.autoscaling.v2.ResourceMetricStatus",
    io_k8s_api_autoscaling_v2_ResourceMetricStatus);
  ("io.k8s.api.batch.v1.CronJob", io_k8s_api_batch_v1_CronJob);
  ("io.k8s.api.batch.v1.CronJobList", io_k8s_api_batch_v1_CronJobList);
  ("io.k8s.api.batch.v1.CronJobSpec", io_k8s_api_batch_v1_CronJobSpec);
  ("io.k8s.api.batch.v1.CronJobStatus", io_k8s_api_batch_v1_CronJobStatus);
  ("io.k8s.api.batch.v1.Job", io_k8s_api_batch_v1_Job);
  ("io.k8s.api.batch.v1.JobCondition", io_k8s_api_batch_v1_JobCondition);
  ("io.k8s.api.batch.v1.JobList", io_k8s_api_batch_v1_JobList);
  ("io.k8s.api.batch.v1.JobSchedulingConfiguration",
    io_k8s_api_batch_v1_JobSchedulingConfiguration);
  ("io.k8s.api.batch.v1.JobSpec", io_k8s_api_batch_v1_JobSpec);
  ("io.k8s.api.batch.v1.JobStatus", io_k8s_api_batch_v1_JobStatus);
  ("io.k8s.api.batch.v1.JobTemplateSpec", io_k8s_api_batch_v1_JobTemplateSpec);
  ("io.k8s.api.batch.v1.PodFailurePolicy", io_k8s_api_batch_v1_PodFailurePolicy);
  ("io.k8s.api.batch.v1.PodFailurePolicyOnExitCodesRequirement",
    io_k8s_api_batch_v1_PodFailurePolicyOnExitCodesRequirement);
  ("io.k8s.api.batch.v1.PodFailurePolicyOnPodConditionsPattern",
    io_k8s_api_batch_v1_PodFailurePolicyOnPodConditionsPattern);
  ("io.k8s.api.batch.v1.PodFailurePolicyRule", io_k8s_api_batch_v1_PodFailurePolicyRule);
  ("io.k8s.api.batch.v1.SuccessPolicy", io_k8s_api_batch_v1_SuccessPolicy);
  ("io.k8s.api.batch.v1.SuccessPolicyRule", io_k8s_api_batch_v1_SuccessPolicyRule);
  ("io.k8s.api.batch.v1.UncountedTerminatedPods", io_k8s_api_batch_v1_UncountedTerminatedPods);
  ("io.k8s.api.core.v1.AWSElasticBlockStoreVolumeSource",
    io_k8s_api_core_v1_AWSElasticBlockStoreVolumeSource);
  ("io.k8s.api.core.v1.Affinity", io_k8s_api_core_v1_Affinity);
  ("io.k8s.api.core.v1.AppArmorProfile", io_k8s_api_core_v1_AppArmorProfile);
  ("io.k8s.api.core.v1.AttachedVolume", io_k8s_api_core_v1_AttachedVolume);
  ("io.k8s.api.core.v1.AvoidPods", io_k8s_api_core_v1_AvoidPods);
  ("io.k8s.api.core.v1.AzureDiskVolumeSource", io_k8s_api_core_v1_AzureDiskVolumeSource);
  ("io.k8s.api.core.v1.AzureFilePersistentVolumeSource",
    io_k8s_api_core_v1_AzureFilePersistentVolumeSource);
  ("io.k8s.api.core.v1.AzureFileVolumeSource", io_k8s_api_core_v1_AzureFileVolumeSource);
  ("io.k8s.api.core.v1.Binding", io_k8s_api_core_v1_Binding);
  ("io.k8s.api.core.v1.CSIPersistentVolumeSource", io_k8s_api_core_v1_CSIPersistentVolumeSource);
  ("io.k8s.api.core.v1.CSIVolumeSource", io_k8s_api_core_v1_CSIVolumeSource);
  ("io.k8s.api.core.v1.Capabilities", io_k8s_api_core_v1_Capabilities);
  ("io.k8s.api.core.v1.CephFSPersistentVolumeSource",
    io_k8s_api_core_v1_CephFSPersistentVolumeSource);
  ("io.k8s.api.core.v1.CephFSVolumeSource", io_k8s_api_core_v1_CephFSVolumeSource);
  ("io.k8s.api.core.v1.CinderPersistentVolumeSource",
    io_k8s_api_core_v1_CinderPersistentVolumeSource);
  ("io.k8s.api.core.v1.CinderVolumeSource", io_k8s_api_core_v1_CinderVolumeSource);
  ("io.k8s.api.core.v1.ClientIPConfig", io_k8s_api_core_v1_ClientIPConfig);
  ("io.k8s.api.core.v1.ClusterTrustBundleProjection",
    io_k8s_api_core_v1_ClusterTrustBundleProjection);
  ("io.k8s.api.core.v1.ComponentCondition", io_k8s_api_core_v1_ComponentCondition);
  ("io.k8s.api.core.v1.ComponentStatus", io_k8s_api_core_v1_ComponentStatus);
  ("io.k8s.api.core.v1.ComponentStatusList", io_k8s_api_core_v1_ComponentStatusList);
  ("io.k8s.api.core.v1.ConfigMap", io_k8s_api_core_v1_ConfigMap);
  ("io.k8s.api.core.v1.ConfigMapEnvSource", io_k8s_api_core_v1_ConfigMapEnvSource);
  ("io.k8s.api.core.v1.ConfigMapKeySelector", io_k8s_api_core_v1_ConfigMapKeySelector);
  ("io.k8s.api.core.v1.ConfigMapList", io_k8s_api_core_v1_ConfigMapList);
  ("io.k8s.api.core.v1.ConfigMapNodeConfigSource", io_k8s_api_core_v1_ConfigMapNodeConfigSource);
  ("io.k8s.api.core.v1.ConfigMapProjection", io_k8s_api_core_v1_ConfigMapProjection);
  ("io.k8s.api.core.v1.ConfigMapVolumeSource", io_k8s_api_core_v1_ConfigMapVolumeSource);
  ("io.k8s.api.core.v1.Container", io_k8s_api_core_v1_Container);
  ("io.k8s.api.core.v1.ContainerExtendedResourceRequest",
    io_k8s_api_core_v1_ContainerExtendedResourceRequest);
  ("io.k8s.api.core.v1.ContainerImage", io_k8s_api_core_v1_ContainerImage);
  ("io.k8s.api.core.v1.ContainerPort", io_k8s_api_core_v1_ContainerPort);
  ("io.k8s.api.core.v1.ContainerResizePolicy", io_k8s_api_core_v1_ContainerResizePolicy);
  ("io.k8s.api.core.v1.ContainerRestartRule", io_k8s_api_core_v1_ContainerRestartRule);
  ("io.k8s.api.core.v1.ContainerRestartRuleOnExitCodes",
    io_k8s_api_core_v1_ContainerRestartRuleOnExitCodes);
  ("io.k8s.api.core.v1.ContainerState", io_k8s_api_core_v1_ContainerState);
  ("io.k8s.api.core.v1.ContainerStateRunning", io_k8s_api_core_v1_ContainerStateRunning);
  ("io.k8s.api.core.v1.ContainerStateTerminated", io_k8s_api_core_v1_ContainerStateTerminated);
  ("io.k8s.api.core.v1.ContainerStateWaiting", io_k8s_api_core_v1_ContainerStateWaiting);
  ("io.k8s.api.core.v1.ContainerStatus", io_k8s_api_core_v1_ContainerStatus);
  ("io.k8s.api.core.v1.ContainerUser", io_k8s_api_core_v1_ContainerUser);
  ("io.k8s.api.core.v1.DaemonEndpoint", io_k8s_api_core_v1_DaemonEndpoint);
  ("io.k8s.api.core.v1.DownwardAPIProjection", io_k8s_api_core_v1_DownwardAPIProjection);
  ("io.k8s.api.core.v1.DownwardAPIVolumeFile", io_k8s_api_core_v1_DownwardAPIVolumeFile);
  ("io.k8s.api.core.v1.DownwardAPIVolumeSource", io_k8s_api_core_v1_DownwardAPIVolumeSource);
  ("io.k8s.api.core.v1.EmptyDirVolumeSource", io_k8s_api_core_v1_EmptyDirVolumeSource);
  ("io.k8s.api.core.v1.EndpointAddress", io_k8s_api_core_v1_EndpointAddress);
  ("io.k8s.api.core.v1.EndpointPort", io_k8s_api_core_v1_EndpointPort);
  ("io.k8s.api.core.v1.EndpointSubset", io_k8s_api_core_v1_EndpointSubset);
  ("io.k8s.api.core.v1.Endpoints", io_k8s_api_core_v1_Endpoints);
  ("io.k8s.api.core.v1.EndpointsList", io_k8s_api_core_v1_EndpointsList);
  ("io.k8s.api.core.v1.EnvFromSource", io_k8s_api_core_v1_EnvFromSource);
  ("io.k8s.api.core.v1.EnvVar", io_k8s_api_core_v1_EnvVar);
  ("io.k8s.api.core.v1.EnvVarSource", io_k8s_api_core_v1_EnvVarSource);
  ("io.k8s.api.core.v1.EphemeralContainer", io_k8s_api_core_v1_EphemeralContainer);
  ("io.k8s.api.core.v1.EphemeralContainerCommon", io_k8s_api_core_v1_EphemeralContainerCommon);
  ("io.k8s.api.core.v1.EphemeralVolumeSource", io_k8s_api_core_v1_EphemeralVolumeSource);
  ("io.k8s.api.core.v1.Event", io_k8s_api_core_v1_Event);
  ("io.k8s.api.core.v1.EventList", io_k8s_api_core_v1_EventList);
  ("io.k8s.api.core.v1.EventSeries", io_k8s_api_core_v1_EventSeries);
  ("io.k8s.api.core.v1.EventSource", io_k8s_api_core_v1_EventSource);
  ("io.k8s.api.core.v1.EvictionResponder", io_k8s_api_core_v1_EvictionResponder);
  ("io.k8s.api.core.v1.ExecAction", io_k8s_api_core_v1_ExecAction);
  ("io.k8s.api.core.v1.FCVolumeSource", io_k8s_api_core_v1_FCVolumeSource);
  ("io.k8s.api.core.v1.FileKeySelector", io_k8s_api_core_v1_FileKeySelector);
  ("io.k8s.api.core.v1.FlexPersistentVolumeSource", io_k8s_api_core_v1_FlexPersistentVolumeSource);
  ("io.k8s.api.core.v1.FlexVolumeSource", io_k8s_api_core_v1_FlexVolumeSource);
  ("io.k8s.api.core.v1.FlockerVolumeSource", io_k8s_api_core_v1_FlockerVolumeSource);
  ("io.k8s.api.core.v1.GCEPersistentDiskVolumeSource",
    io_k8s_api_core_v1_GCEPersistentDiskVolumeSource);
  ("io.k8s.api.core.v1.GRPCAction", io_k8s_api_core_v1_GRPCAction);
  ("io.k8s.api.core.v1.GitRepoVolumeSource", io_k8s_api_core_v1_GitRepoVolumeSource);
  ("io.k8s.api.core.v1.GlusterfsPersistentVolumeSource",
    io_k8s_api_core_v1_GlusterfsPersistentVolumeSource);
  ("io.k8s.api.core.v1.GlusterfsVolumeSource", io_k8s_api_core_v1_GlusterfsVolumeSource);
  ("io.k8s.api.core.v1.HTTPGetAction", io_k8s_api_core_v1_HTTPGetAction);
  ("io.k8s.api.core.v1.HTTPHeader", io_k8s_api_core_v1_HTTPHeader);
  ("io.k8s.api.core.v1.HostAlias", io_k8s_api_core_v1_HostAlias);
  ("io.k8s.api.core.v1.HostIP", io_k8s_api_core_v1_HostIP);
  ("io.k8s.api.core.v1.HostPathVolumeSource", io_k8s_api_core_v1_HostPathVolumeSource);
  ("io.k8s.api.core.v1.ISCSIPersistentVolumeSource",
    io_k8s_api_core_v1_ISCSIPersistentVolumeSource);
  ("io.k8s.api.core.v1.ISCSIVolumeSource", io_k8s_api_core_v1_ISCSIVolumeSource);
  ("io.k8s.api.core.v1.ImageVolumeSource", io_k8s_api_core_v1_ImageVolumeSource);
  ("io.k8s.api.core.v1.ImageVolumeStatus", io_k8s_api_core_v1_ImageVolumeStatus);
  ("io.k8s.api.core.v1.KeyToPath", io_k8s_api_core_v1_KeyToPath);
  ("io.k8s.api.core.v1.Lifecycle", io_k8s_api_core_v1_Lifecycle);
  ("io.k8s.api.core.v1.LifecycleHandler", io_k8s_api_core_v1_LifecycleHandler);
  ("io.k8s.api.core.v1.LimitRange", io_k8s_api_core_v1_LimitRange);
  ("io.k8s.api.core.v1.LimitRangeItem", io_k8s_api_core_v1_LimitRangeItem);
  ("io.k8s.api.core.v1.LimitRangeList", io_k8s_api_core_v1_LimitRangeList);
  ("io.k8s.api.core.v1.LimitRangeSpec", io_k8s_api_core_v1_LimitRangeSpec);
  ("io.k8s.api.core.v1.LinuxContainerUser", io_k8s_api_core_v1_LinuxContainerUser);
  ("io.k8s.api.core.v1.List", io_k8s_api_core_v1_List);
  ("io.k8s.api.core.v1.LoadBalancerIngress", io_k8s_api_core_v1_LoadBalancerIngress);
  ("io.k8s.api.core.v1.LoadBalancerStatus", io_k8s_api_core_v1_LoadBalancerStatus);
  ("io.k8s.api.core.v1.LocalObjectReference", io_k8s_api_core_v1_LocalObjectReference);
  ("io.k8s.api.core.v1.LocalVolumeSource", io_k8s_api_core_v1_LocalVolumeSource);
  ("io.k8s.api.core.v1.ModifyVolumeStatus", io_k8s_api_core_v1_ModifyVolumeStatus);
  ("io.k8s.api.core.v1.NFSVolumeSource", io_k8s_api_core_v1_NFSVolumeSource);
  ("io.k8s.api.core.v1.Namespace", io_k8s_api_core_v1_Namespace);
  ("io.k8s.api.core.v1.NamespaceCondition", io_k8s_api_core_v1_NamespaceCondition);
  ("io.k8s.api.core.v1.NamespaceList", io_k8s_api_core_v1_NamespaceList);
  ("io.k8s.api.core.v1.NamespaceSpec", io_k8s_api_core_v1_NamespaceSpec);
  ("io.k8s.api.core.v1.NamespaceStatus", io_k8s_api_core_v1_NamespaceStatus);
  ("io.k8s.api.core.v1.Node", io_k8s_api_core_v1_Node);
  ("io.k8s.api.core.v1.NodeAddress", io_k8s_api_core_v1_NodeAddress);
  ("io.k8s.api.core.v1.NodeAffinity", io_k8s_api_core_v1_NodeAffinity);
  ("io.k8s.api.core.v1.NodeAllocatableMappedResources",
    io_k8s_api_core_v1_NodeAllocatableMappedResources);
  ("io.k8s.api.core.v1.NodeAllocatableOverheadResources",
    io_k8s_api_core_v1_NodeAllocatableOverheadResources);
  ("io.k8s.api.core.v1.NodeAllocatableResourceClaimStatus",
    io_k8s_api_core_v1_NodeAllocatableResourceClaimStatus);
  ("io.k8s.api.core.v1.NodeCondition", io_k8s_api_core_v1_NodeCondition);
  ("io.k8s.api.core.v1.NodeConfigSource", io_k8s_api_core_v1_NodeConfigSource);
  ("io.k8s.api.core.v1.NodeConfigStatus", io_k8s_api_core_v1_NodeConfigStatus);
  ("io.k8s.api.core.v1.NodeDaemonEndpoints", io_k8s_api_core_v1_NodeDaemonEndpoints);
  ("io.k8s.api.core.v1.NodeFeatures", io_k8s_api_core_v1_NodeFeatures);
  ("io.k8s.api.core.v1.NodeList", io_k8s_api_core_v1_NodeList);
  ("io.k8s.api.core.v1.NodePodPreemptionPolicy", io_k8s_api_core_v1_NodePodPreemptionPolicy);
  ("io.k8s.api.core.v1.NodeProxyOptions", io_k8s_api_core_v1_NodeProxyOptions);
  ("io.k8s.api.core.v1.NodeRuntimeHandler", io_k8s_api_core_v1_NodeRuntimeHandler);
  ("io.k8s.api.core.v1.NodeRuntimeHandlerFeatures", io_k8s_api_core_v1_NodeRuntimeHandlerFeatures);
  ("io.k8s.api.core.v1.NodeSelector", io_k8s_api_core_v1_NodeSelector);
  ("io.k8s.api.core.v1.NodeSelectorRequirement", io_k8s_api_core_v1_NodeSelectorRequirement);
  ("io.k8s.api.core.v1.NodeSelectorTerm", io_k8s_api_core_v1_NodeSelectorTerm);
  ("io.k8s.api.core.v1.NodeSpec", io_k8s_api_core_v1_NodeSpec);
  ("io.k8s.api.core.v1.NodeStatus", io_k8s_api_core_v1_NodeStatus);
  ("io.k8s.api.core.v1.NodeSwapStatus", io_k8s_api_core_v1_NodeSwapStatus);
  ("io.k8s.api.core.v1.NodeSystemInfo", io_k8s_api_core_v1_NodeSystemInfo);
  ("io.k8s.api.core.v1.ObjectFieldSelector", io_k8s_api_core_v1_ObjectFieldSelector);
  ("io.k8s.api.core.v1.ObjectReference", io_k8s_api_core_v1_ObjectReference);
  ("io.k8s.api.core.v1.PersistentVolume", io_k8s_api_core_v1_PersistentVolume);
  ("io.k8s.api.core.v1.PersistentVolumeClaim", io_k8s_api_core_v1_PersistentVolumeClaim);
  ("io.k8s.api.core.v1.PersistentVolumeClaimCondition",
    io_k8s_api_core_v1_PersistentVolumeClaimCondition);
  ("io.k8s.api.core.v1.PersistentVolumeClaimList", io_k8s_api_core_v1_PersistentVolumeClaimList);
  ("io.k8s.api.core.v1.PersistentVolumeClaimSpec", io_k8s_api_core_v1_PersistentVolumeClaimSpec);
  ("io.k8s.api.core.v1.PersistentVolumeClaimStatus",
    io_k8s_api_core_v1_PersistentVolumeClaimStatus);
  ("io.k8s.api.core.v1.PersistentVolumeClaimTemplate",
    io_k8s_api_core_v1_PersistentVolumeClaimTemplate);
  ("io.k8s.api.core.v1.PersistentVolumeClaimVolumeSource",
    io_k8s_api_core_v1_PersistentVolumeClaimVolumeSource);
  ("io.k8s.api.core.v1.PersistentVolumeList", io_k8s_api_core_v1_PersistentVolumeList);
  ("io.k8s.api.core.v1.PersistentVolumeSource", io_k8s_api_core_v1_PersistentVolumeSource);
  ("io.k8s.api.core.v1.PersistentVolumeSpec", io_k8s_api_core_v1_PersistentVolumeSpec);
  ("io.k8s.api.core.v1.PersistentVolumeStatus", io_k8s_api_core_v1_PersistentVolumeStatus);
  ("io.k8s.api.core.v1.PhotonPersistentDiskVolumeSource",
    io_k8s_api_core_v1_PhotonPersistentDiskVolumeSource);
  ("io.k8s.api.core.v1.Pod", io_k8s_api_core_v1_Pod);
  ("io.k8s.api.core.v1.PodAffinity", io_k8s_api_core_v1_PodAffinity);
  ("io.k8s.api.core.v1.PodAffinityTerm", io_k8s_api_core_v1_PodAffinityTerm);
  ("io.k8s.api.core.v1.PodAntiAffinity", io_k8s_api_core_v1_PodAntiAffinity);
  ("io.k8s.api.core.v1.PodAttachOptions", io_k8s_api_core_v1_PodAttachOptions);
  ("io.k8s.api.core.v1.PodCertificateProjection", io_k8s_api_core_v1_PodCertificateProjection);
  ("io.k8s.api.core.v1.PodCondition", io_k8s_api_core_v1_PodCondition);
  ("io.k8s.api.core.v1.PodDNSConfig", io_k8s_api_core_v1_PodDNSConfig);
  ("io.k8s.api.core.v1.PodDNSConfigOption", io_k8s_api_core_v1_PodDNSConfigOption);
  ("io.k8s.api.core.v1.PodExecOptions", io_k8s_api_core_v1_PodExecOptions);
  ("io.k8s.api.core.v1.PodExtendedResourceClaimStatus",
    io_k8s_api_core_v1_PodExtendedResourceClaimStatus);
  ("io.k8s.api.core.v1.PodIP", io_k8s_api_core_v1_PodIP);
  ("io.k8s.api.core.v1.PodList", io_k8s_api_core_v1_PodList);
  ("io.k8s.api.core.v1.PodLogOptions", io_k8s_api_core_v1_PodLogOptions);
  ("io.k8s.api.core.v1.PodOS", io_k8s_api_core_v1_PodOS);
  ("io.k8s.api.core.v1.PodPortForwardOptions", io_k8s_api_core_v1_PodPortForwardOptions);
  ("io.k8s.api.core.v1.PodProxyOptions", io_k8s_api_core_v1_PodProxyOptions);
  ("io.k8s.api.core.v1.PodReadinessGate", io_k8s_api_core_v1_PodReadinessGate);
  ("io.k8s.api.core.v1.PodResourceClaim", io_k8s_api_core_v1_PodResourceClaim);
  ("io.k8s.api.core.v1.PodResourceClaimStatus", io_k8s_api_core_v1_PodResourceClaimStatus);
  ("io.k8s.api.core.v1.PodSchedulingGate", io_k8s_api_core_v1_PodSchedulingGate);
  ("io.k8s.api.core.v1.PodSchedulingGroup", io_k8s_api_core_v1_PodSchedulingGroup);
  ("io.k8s.api.core.v1.PodSecurityContext", io_k8s_api_core_v1_PodSecurityContext);
  ("io.k8s.api.core.v1.PodSignature", io_k8s_api_core_v1_PodSignature);
  ("io.k8s.api.core.v1.PodSpec", io_k8s_api_core_v1_PodSpec);
  ("io.k8s.api.core.v1.PodStatus", io_k8s_api_core_v1_PodStatus);
  ("io.k8s.api.core.v1.PodTemplate", io_k8s_api_core_v1_PodTemplate);
  ("io.k8s.api.core.v1.PodTemplateList", io_k8s_api_core_v1_PodTemplateList);
  ("io.k8s.api.core.v1.PodTemplateSpec", io_k8s_api_core_v1_PodTemplateSpec);
  ("io.k8s.api.core.v1.PodVolumeHealth", io_k8s_api_core_v1_PodVolumeHealth);
  ("io.k8s.api.core.v1.PortStatus", io_k8s_api_core_v1_PortStatus);
  ("io.k8s.api.core.v1.PortworxVolumeSource", io_k8s_api_core_v1_PortworxVolumeSource);
  ("io.k8s.api.core.v1.PreferAvoidPodsEntry", io_k8s_api_core_v1_PreferAvoidPodsEntry);
  ("io.k8s.api.core.v1.PreferredSchedulingTerm", io_k8s_api_core_v1_PreferredSchedulingTerm);
  ("io.k8s.api.core.v1.Probe", io_k8s_api_core_v1_Probe);
  ("io.k8s.api.core.v1.ProbeHandler", io_k8s_api_core_v1_ProbeHandler);
  ("io.k8s.api.core.v1.ProjectedVolumeSource", io_k8s_api_core_v1_ProjectedVolumeSource);
  ("io.k8s.api.core.v1.QuobyteVolumeSource", io_k8s_api_core_v1_QuobyteVolumeSource);
  ("io.k8s.api.core.v1.RBDPersistentVolumeSource", io_k8s_api_core_v1_RBDPersistentVolumeSource);
  ("io.k8s.api.core.v1.RBDVolumeSource", io_k8s_api_core_v1_RBDVolumeSource);
  ("io.k8s.api.core.v1.RangeAllocation", io_k8s_api_core_v1_RangeAllocation);
  ("io.k8s.api.core.v1.ReplicationController", io_k8s_api_core_v1_ReplicationController);
  ("io.k8s.api.core.v1.ReplicationControllerCondition",
    io_k8s_api_core_v1_ReplicationControllerCondition);
  ("io.k8s.api.core.v1.ReplicationControllerList", io_k8s_api_core_v1_ReplicationControllerList);
  ("io.k8s.api.core.v1.ReplicationControllerSpec", io_k8s_api_core_v1_ReplicationControllerSpec);
  ("io.k8s.api.core.v1.ReplicationControllerStatus",
    io_k8s_api_core_v1_ReplicationControllerStatus);
  ("io.k8s.api.core.v1.ResourceClaim", io_k8s_api_core_v1_ResourceClaim);
  ("io.k8s.api.core.v1.ResourceFieldSelector", io_k8s_api_core_v1_ResourceFieldSelector);
  ("io.k8s.api.core.v1.ResourceHealth", io_k8s_api_core_v1_ResourceHealth);
  ("io.k8s.api.core.v1.ResourceQuota", io_k8s_api_core_v1_ResourceQuota);
  ("io.k8s.api.core.v1.ResourceQuotaList", io_k8s_api_core_v1_ResourceQuotaList);
  ("io.k8s.api.core.v1.ResourceQuotaSpec", io_k8s_api_core_v1_ResourceQuotaSpec);
  ("io.k8s.api.core.v1.ResourceQuotaStatus", io_k8s_api_core_v1_ResourceQuotaStatus);
  ("io.k8s.api.core.v1.ResourceRequirements", io_k8s_api_core_v1_ResourceRequirements);
  ("io.k8s.api.core.v1.ResourceStatus", io_k8s_api_core_v1_ResourceStatus);
  ("io.k8s.api.core.v1.SELinuxOptions", io_k8s_api_core_v1_SELinuxOptions);
  ("io.k8s.api.core.v1.ScaleIOPersistentVolumeSource",
    io_k8s_api_core_v1_ScaleIOPersistentVolumeSource);
  ("io.k8s.api.core.v1.ScaleIOVolumeSource", io_k8s_api_core_v1_ScaleIOVolumeSource);
  ("io.k8s.api.core.v1.ScopeSelector", io_k8s_api_core_v1_ScopeSelector);
  ("io.k8s.api.core.v1.ScopedResourceSelectorRequirement",
    io_k8s_api_core_v1_ScopedResourceSelectorRequirement);
  ("io.k8s.api.core.v1.SeccompProfile", io_k8s_api_core_v1_SeccompProfile);
  ("io.k8s.api.core.v1.Secret", io_k8s_api_core_v1_Secret);
  ("io.k8s.api.core.v1.SecretEnvSource", io_k8s_api_core_v1_SecretEnvSource);
  ("io.k8s.api.core.v1.SecretKeySelector", io_k8s_api_core_v1_SecretKeySelector);
  ("io.k8s.api.core.v1.SecretList", io_k8s_api_core_v1_SecretList);
  ("io.k8s.api.core.v1.SecretProjection", io_k8s_api_core_v1_SecretProjection);
  ("io.k8s.api.core.v1.SecretReference", io_k8s_api_core_v1_SecretReference);
  ("io.k8s.api.core.v1.SecretVolumeSource", io_k8s_api_core_v1_SecretVolumeSource);
  ("io.k8s.api.core.v1.SecurityContext", io_k8s_api_core_v1_SecurityContext);
  ("io.k8s.api.core.v1.SerializedReference", io_k8s_api_core_v1_SerializedReference);
  ("io.k8s.api.core.v1.Service", io_k8s_api_core_v1_Service);
  ("io.k8s.api.core.v1.ServiceAccount", io_k8s_api_core_v1_ServiceAccount);
  ("io.k8s.api.core.v1.ServiceAccountList", io_k8s_api_core_v1_ServiceAccountList);
  ("io.k8s.api.core.v1.ServiceAccountTokenProjection",
    io_k8s_api_core_v1_ServiceAccountTokenProjection);
  ("io.k8s.api.core.v1.ServiceList", io_k8s_api_core_v1_ServiceList);
  ("io.k8s.api.core.v1.ServicePort", io_k8s_api_core_v1_ServicePort);
  ("io.k8s.api.core.v1.ServiceProxyOptions", io_k8s_api_core_v1_ServiceProxyOptions);
  ("io.k8s.api.core.v1.ServiceSpec", io_k8s_api_core_v1_ServiceSpec);
  ("io.k8s.api.core.v1.ServiceStatus", io_k8s_api_core_v1_ServiceStatus);
  ("io.k8s.api.core.v1.SessionAffinityConfig", io_k8s_api_core_v1_SessionAffinityConfig);
  ("io.k8s.api.core.v1.SleepAction", io_k8s_api_core_v1_SleepAction);
  ("io.k8s.api.core.v1.StorageOSPersistentVolumeSource",
    io_k8s_api_core_v1_StorageOSPersistentVolumeSource);
  ("io.k8s.api.core.v1.StorageOSVolumeSource", io_k8s_api_core_v1_StorageOSVolumeSource);
  ("io.k8s.api.core.v1.Sysctl", io_k8s_api_core_v1_Sysctl);
  ("io.k8s.api.core.v1.TCPSocketAction", io_k8s_api_core_v1_TCPSocketAction);
  ("io.k8s.api.core.v1.Taint", io_k8s_api_core_v1_Taint);
  ("io.k8s.api.core.v1.Toleration", io_k8s_api_core_v1_Toleration);
  ("io.k8s.api.core.v1.TopologySelectorLabelRequirement",
    io_k8s_api_core_v1_TopologySelectorLabelRequirement);
  ("io.k8s.api.core.v1.TopologySelectorTerm", io_k8s_api_core_v1_TopologySelectorTerm);
  ("io.k8s.api.core.v1.TopologySpreadConstraint", io_k8s_api_core_v1_TopologySpreadConstraint);
  ("io.k8s.api.core.v1.TypedLocalObjectReference", io_k8s_api_core_v1_TypedLocalObjectReference);
  ("io.k8s.api.core.v1.TypedObjectReference", io_k8s_api_core_v1_TypedObjectReference);
  ("io.k8s.api.core.v1.Volume", io_k8s_api_core_v1_Volume);
  ("io.k8s.api.core.v1.VolumeDevice", io_k8s_api_core_v1_VolumeDevice);
  ("io.k8s.api.core.v1.VolumeHealthCondition", io_k8s_api_core_v1_VolumeHealthCondition);
  ("io.k8s.api.core.v1.VolumeHealthStatus", io_k8s_api_core_v1_VolumeHealthStatus);
  ("io.k8s.api.core.v1.VolumeMount", io_k8s_api_core_v1_VolumeMount);
  ("io.k8s.api.core.v1.VolumeMountStatus", io_k8s_api_core_v1_VolumeMountStatus);
  ("io.k8s.api.core.v1.VolumeNodeAffinity", io_k8s_api_core_v1_VolumeNodeAffinity);
  ("io.k8s.api.core.v1.VolumeProjection", io_k8s_api_core_v1_VolumeProjection);
  ("io.k8s.api.core.v1.VolumeResourceRequirements", io_k8s_api_core_v1_VolumeResourceRequirements);
  ("io.k8s.api.core.v1.VolumeSource", io_k8s_api_core_v1_VolumeSource);
  ("io.k8s.api.core.v1.VolumeStatus", io_k8s_api_core_v1_VolumeStatus);
  ("io.k8s.api.core.v1.VsphereVirtualDiskVolumeSource",
    io_k8s_api_core_v1_VsphereVirtualDiskVolumeSource);
  ("io.k8s.api.core.v1.WeightedPodAffinityTerm", io_k8s_api_core_v1_WeightedPodAffinityTerm);
  ("io.k8s.api.core.v1.WindowsSecurityContextOptions",
    io_k8s_api_core_v1_WindowsSecurityContextOptions);
  ("io.k8s.api.scheduling.v1alpha3.AllCompositeDisruptionMode",
    io_k8s_api_scheduling_v1alpha3_AllCompositeDisruptionMode);
  ("io.k8s.api.scheduling.v1alpha3.AllDisruptionMode",
    io_k8s_api_scheduling_v1alpha3_AllDisruptionMode);
  ("io.k8s.api.scheduling.v1alpha3.BasicSchedulingPolicy",
    io_k8s_api_scheduling_v1alpha3_BasicSchedulingPolicy);
  ("io.k8s.api.scheduling.v1alpha3.CompositeBasicSchedulingPolicy",
    io_k8s_api_scheduling_v1alpha3_CompositeBasicSchedulingPolicy);
  ("io.k8s.api.scheduling.v1alpha3.CompositeDisruptionMode",
    io_k8s_api_scheduling_v1alpha3_CompositeDisruptionMode);
  ("io.k8s.api.scheduling.v1alpha3.CompositeGangSchedulingPolicy",
    io_k8s_api_scheduling_v1alpha3_CompositeGangSchedulingPolicy);
  ("io.k8s.api.scheduling.v1alpha3.CompositePodGroup",
    io_k8s_api_scheduling_v1alpha3_CompositePodGroup);
  ("io.k8s.api.scheduling.v1alpha3.CompositePodGroupList",
    io_k8s_api_scheduling_v1alpha3_CompositePodGroupList);
  ("io.k8s.api.scheduling.v1alpha3.CompositePodGroupSchedulingConstraints",
    io_k8s_api_scheduling_v1alpha3_CompositePodGroupSchedulingConstraints);
  ("io.k8s.api.scheduling.v1alpha3.CompositePodGroupSchedulingPolicy",
    io_k8s_api_scheduling_v1alpha3_CompositePodGroupSchedulingPolicy);
  ("io.k8s.api.scheduling.v1alpha3.CompositePodGroupSpec",
    io_k8s_api_scheduling_v1alpha3_CompositePodGroupSpec);
  ("io.k8s.api.scheduling.v1alpha3.CompositePodGroupStatus",
    io_k8s_api_scheduling_v1alpha3_CompositePodGroupStatus);
  ("io.k8s.api.scheduling.v1alpha3.CompositePodGroupTemplate",
    io_k8s_api_scheduling_v1alpha3_CompositePodGroupTemplate);
  ("io.k8s.api.scheduling.v1alpha3.DisruptionMode", io_k8s_api_scheduling_v1alpha3_DisruptionMode);
  ("io.k8s.api.scheduling.v1alpha3.GangSchedulingPolicy",
    io_k8s_api_scheduling_v1alpha3_GangSchedulingPolicy);
  ("io.k8s.api.scheduling.v1alpha3.PodGroup", io_k8s_api_scheduling_v1alpha3_PodGroup);
  ("io.k8s.api.scheduling.v1alpha3.PodGroupList", io_k8s_api_scheduling_v1alpha3_PodGroupList);
  ("io.k8s.api.scheduling.v1alpha3.PodGroupResourceClaim",
    io_k8s_api_scheduling_v1alpha3_PodGroupResourceClaim);
  ("io.k8s.api.scheduling.v1alpha3.PodGroupResourceClaimStatus",
    io_k8s_api_scheduling_v1alpha3_PodGroupResourceClaimStatus);
  ("io.k8s.api.scheduling.v1alpha3.PodGroupSchedulingConstraints",
    io_k8s_api_scheduling_v1alpha3_PodGroupSchedulingConstraints);
  ("io.k8s.api.scheduling.v1alpha3.PodGroupSchedulingPolicy",
    io_k8s_api_scheduling_v1alpha3_PodGroupSchedulingPolicy);
  ("io.k8s.api.scheduling.v1alpha3.PodGroupSpec", io_k8s_api_scheduling_v1alpha3_PodGroupSpec);
  ("io.k8s.api.scheduling.v1alpha3.PodGroupStatus", io_k8s_api_scheduling_v1alpha3_PodGroupStatus);
  ("io.k8s.api.scheduling.v1alpha3.PodGroupTemplate",
    io_k8s_api_scheduling_v1alpha3_PodGroupTemplate);
  ("io.k8s.api.scheduling.v1alpha3.SingleCompositeDisruptionMode",
    io_k8s_api_scheduling_v1alpha3_SingleCompositeDisruptionMode);
  ("io.k8s.api.scheduling.v1alpha3.SingleDisruptionMode",
    io_k8s_api_scheduling_v1alpha3_SingleDisruptionMode);
  ("io.k8s.api.scheduling.v1alpha3.TopologyConstraint",
    io_k8s_api_scheduling_v1alpha3_TopologyConstraint);
  ("io.k8s.api.scheduling.v1alpha3.TypedLocalObjectReference",
    io_k8s_api_scheduling_v1alpha3_TypedLocalObjectReference);
  ("io.k8s.api.scheduling.v1alpha3.Workload", io_k8s_api_scheduling_v1alpha3_Workload);
  ("io.k8s.api.scheduling.v1alpha3.WorkloadCompositePodGroupAllDisruptionMode",
    io_k8s_api_scheduling_v1alpha3_WorkloadCompositePodGroupAllDisruptionMode);
  ("io.k8s.api.scheduling.v1alpha3.WorkloadCompositePodGroupBasicSchedulingPolicy",
    io_k8s_api_scheduling_v1alpha3_WorkloadCompositePodGroupBasicSchedulingPolicy);
  ("io.k8s.api.scheduling.v1alpha3.WorkloadCompositePodGroupDisruptionMode",
    io_k8s_api_scheduling_v1alpha3_WorkloadCompositePodGroupDisruptionMode);
  ("io.k8s.api.scheduling.v1alpha3.WorkloadCompositePodGroupGangSchedulingPolicy",
    io_k8s_api_scheduling_v1alpha3_WorkloadCompositePodGroupGangSchedulingPolicy);
  ("io.k8s.api.scheduling.v1alpha3.WorkloadCompositePodGroupSchedulingConstraints",
    io_k8s_api_scheduling_v1alpha3_WorkloadCompositePodGroupSchedulingConstraints);
  ("io.k8s.api.scheduling.v1alpha3.WorkloadCompositePodGroupSchedulingPolicy",
    io_k8s_api_scheduling_v1alpha3_WorkloadCompositePodGroupSchedulingPolicy);
  ("io.k8s.api.scheduling.v1alpha3.WorkloadCompositePodGroupSingleDisruptionMode",
    io_k8s_api_scheduling_v1alpha3_WorkloadCompositePodGroupSingleDisruptionMode);
  ("io.k8s.api.scheduling.v1alpha3.WorkloadList", io_k8s_api_scheduling_v1alpha3_WorkloadList);
  ("io.k8s.api.scheduling.v1alpha3.WorkloadPodGroupAllDisruptionMode",
    io_k8s_api_scheduling_v1alpha3_WorkloadPodGroupAllDisruptionMode);
  ("io.k8s.api.scheduling.v1alpha3.WorkloadPodGroupBasicSchedulingPolicy",
    io_k8s_api_scheduling_v1alpha3_WorkloadPodGroupBasicSchedulingPolicy);
  ("io.k8s.api.scheduling.v1alpha3.WorkloadPodGroupDisruptionMode",
    io_k8s_api_scheduling_v1alpha3_WorkloadPodGroupDisruptionMode);
  ("io.k8s.api.scheduling.v1alpha3.WorkloadPodGroupGangSchedulingPolicy",
    io_k8s_api_scheduling_v1alpha3_WorkloadPodGroupGangSchedulingPolicy);
  ("io.k8s.api.scheduling.v1alpha3.WorkloadPodGroupResourceClaim",
    io_k8s_api_scheduling_v1alpha3_WorkloadPodGroupResourceClaim);
  ("io.k8s.api.scheduling.v1alpha3.WorkloadPodGroupSchedulingConstraints",
    io_k8s_api_scheduling_v1alpha3_WorkloadPodGroupSchedulingConstraints);
  ("io.k8s.api.scheduling.v1alpha3.WorkloadPodGroupSchedulingPolicy",
    io_k8s_api_scheduling_v1alpha3_WorkloadPodGroupSchedulingPolicy);
  ("io.k8s.api.scheduling.v1alpha3.WorkloadPodGroupSingleDisruptionMode",
    io_k8s_api_scheduling_v1alpha3_WorkloadPodGroupSingleDisruptionMode);
  ("io.k8s.api.scheduling.v1alpha3.WorkloadReference",
    io_k8s_api_scheduling_v1alpha3_WorkloadReference);
  ("io.k8s.api.scheduling.v1alpha3.WorkloadSpec", io_k8s_api_scheduling_v1alpha3_WorkloadSpec);
  ("io.k8s.apimachinery.pkg.api.resource.Quantity", io_k8s_apimachinery_pkg_api_resource_Quantity);
  ("io.k8s.apimachinery.pkg.apis.meta.v1.APIGroup", io_k8s_apimachinery_pkg_apis_meta_v1_APIGroup);
  ("io.k8s.apimachinery.pkg.apis.meta.v1.APIGroupList",
    io_k8s_apimachinery_pkg_apis_meta_v1_APIGroupList);
  ("io.k8s.apimachinery.pkg.apis.meta.v1.APIResource",
    io_k8s_apimachinery_pkg_apis_meta_v1_APIResource);
  ("io.k8s.apimachinery.pkg.apis.meta.v1.APIResourceList",
    io_k8s_apimachinery_pkg_apis_meta_v1_APIResourceList);
  ("io.k8s.apimachinery.pkg.apis.meta.v1.APIVersions",
    io_k8s_apimachinery_pkg_apis_meta_v1_APIVersions);
  ("io.k8s.apimachinery.pkg.apis.meta.v1.ApplyOptions",
    io_k8s_apimachinery_pkg_apis_meta_v1_ApplyOptions);
  ("io.k8s.apimachinery.pkg.apis.meta.v1.Condition",
    io_k8s_apimachinery_pkg_apis_meta_v1_Condition);
  ("io.k8s.apimachinery.pkg.apis.meta.v1.CreateOptions",
    io_k8s_apimachinery_pkg_apis_meta_v1_CreateOptions);
  ("io.k8s.apimachinery.pkg.apis.meta.v1.DeleteOptions",
    io_k8s_apimachinery_pkg_apis_meta_v1_DeleteOptions);
  ("io.k8s.apimachinery.pkg.apis.meta.v1.Duration", io_k8s_apimachinery_pkg_apis_meta_v1_Duration);
  ("io.k8s.apimachinery.pkg.apis.meta.v1.FieldSelectorRequirement",
    io_k8s_apimachinery_pkg_apis_meta_v1_FieldSelectorRequirement);
  ("io.k8s.apimachinery.pkg.apis.meta.v1.FieldsV1", io_k8s_apimachinery_pkg_apis_meta_v1_FieldsV1);
  ("io.k8s.apimachinery.pkg.apis.meta.v1.GetOptions",
    io_k8s_apimachinery_pkg_apis_meta_v1_GetOptions);
  ("io.k8s.apimachinery.pkg.apis.meta.v1.GroupKind",
    io_k8s_apimachinery_pkg_apis_meta_v1_GroupKind);
  ("io.k8s.apimachinery.pkg.apis.meta.v1.GroupResource",
    io_k8s_apimachinery_pkg_apis_meta_v1_GroupResource);
  ("io.k8s.apimachinery.pkg.apis.meta.v1.GroupVersion",
    io_k8s_apimachinery_pkg_apis_meta_v1_GroupVersion);
  ("io.k8s.apimachinery.pkg.apis.meta.v1.GroupVersionForDiscovery",
    io_k8s_apimachinery_pkg_apis_meta_v1_GroupVersionForDiscovery);
  ("io.k8s.apimachinery.pkg.apis.meta.v1.GroupVersionKind",
    io_k8s_apimachinery_pkg_apis_meta_v1_GroupVersionKind);
  ("io.k8s.apimachinery.pkg.apis.meta.v1.GroupVersionResource",
    io_k8s_apimachinery_pkg_apis_meta_v1_GroupVersionResource);
  ("io.k8s.apimachinery.pkg.apis.meta.v1.InternalEvent",
    io_k8s_apimachinery_pkg_apis_meta_v1_InternalEvent);
  ("io.k8s.apimachinery.pkg.apis.meta.v1.LabelSelector",
    io_k8s_apimachinery_pkg_apis_meta_v1_LabelSelector);
  ("io.k8s.apimachinery.pkg.apis.meta.v1.LabelSelectorRequirement",
    io_k8s_apimachinery_pkg_apis_meta_v1_LabelSelectorRequirement);
  ("io.k8s.apimachinery.pkg.apis.meta.v1.List", io_k8s_apimachinery_pkg_apis_meta_v1_List);
  ("io.k8s.apimachinery.pkg.apis.meta.v1.ListMeta", io_k8s_apimachinery_pkg_apis_meta_v1_ListMeta);
  ("io.k8s.apimachinery.pkg.apis.meta.v1.ListOptions",
    io_k8s_apimachinery_pkg_apis_meta_v1_ListOptions);
  ("io.k8s.apimachinery.pkg.apis.meta.v1.ManagedFieldsEntry",
    io_k8s_apimachinery_pkg_apis_meta_v1_ManagedFieldsEntry);
  ("io.k8s.apimachinery.pkg.apis.meta.v1.MicroTime",
    io_k8s_apimachinery_pkg_apis_meta_v1_MicroTime);
  ("io.k8s.apimachinery.pkg.apis.meta.v1.ObjectMeta",
    io_k8s_apimachinery_pkg_apis_meta_v1_ObjectMeta);
  ("io.k8s.apimachinery.pkg.apis.meta.v1.OwnerReference",
    io_k8s_apimachinery_pkg_apis_meta_v1_OwnerReference);
  ("io.k8s.apimachinery.pkg.apis.meta.v1.PartialObjectMetadata",
    io_k8s_apimachinery_pkg_apis_meta_v1_PartialObjectMetadata);
  ("io.k8s.apimachinery.pkg.apis.meta.v1.PartialObjectMetadataList",
    io_k8s_apimachinery_pkg_apis_meta_v1_PartialObjectMetadataList);
  ("io.k8s.apimachinery.pkg.apis.meta.v1.Patch", io_k8s_apimachinery_pkg_apis_meta_v1_Patch);
  ("io.k8s.apimachinery.pkg.apis.meta.v1.PatchOptions",
    io_k8s_apimachinery_pkg_apis_meta_v1_PatchOptions);
  ("io.k8s.apimachinery.pkg.apis.meta.v1.Preconditions",
    io_k8s_apimachinery_pkg_apis_meta_v1_Preconditions);
  ("io.k8s.apimachinery.pkg.apis.meta.v1.RootPaths",
    io_k8s_apimachinery_pkg_apis_meta_v1_RootPaths);
  ("io.k8s.apimachinery.pkg.apis.meta.v1.ServerAddressByClientCIDR",
    io_k8s_apimachinery_pkg_apis_meta_v1_ServerAddressByClientCIDR);
  ("io.k8s.apimachinery.pkg.apis.meta.v1.ShardInfo",
    io_k8s_apimachinery_pkg_apis_meta_v1_ShardInfo);
  ("io.k8s.apimachinery.pkg.apis.meta.v1.Status", io_k8s_apimachinery_pkg_apis_meta_v1_Status);
  ("io.k8s.apimachinery.pkg.apis.meta.v1.StatusCause",
    io_k8s_apimachinery_pkg_apis_meta_v1_StatusCause);
  ("io.k8s.apimachinery.pkg.apis.meta.v1.StatusDetails",
    io_k8s_apimachinery_pkg_apis_meta_v1_StatusDetails);
  ("io.k8s.apimachinery.pkg.apis.meta.v1.Table", io_k8s_apimachinery_pkg_apis_meta_v1_Table);
  ("io.k8s.apimachinery.pkg.apis.meta.v1.TableColumnDefinition",
    io_k8s_apimachinery_pkg_apis_meta_v1_TableColumnDefinition);
  ("io.k8s.apimachinery.pkg.apis.meta.v1.TableOptions",
    io_k8s_apimachinery_pkg_apis_meta_v1_TableOptions);
  ("io.k8s.apimachinery.pkg.apis.meta.v1.TableRow", io_k8s_apimachinery_pkg_apis_meta_v1_TableRow);
  ("io.k8s.apimachinery.pkg.apis.meta.v1.TableRowCondition",
    io_k8s_apimachinery_pkg_apis_meta_v1_TableRowCondition);
  ("io.k8s.apimachinery.pkg.apis.meta.v1.Time", io_k8s_apimachinery_pkg_apis_meta_v1_Time);
  ("io.k8s.apimachinery.pkg.apis.meta.v1.Timestamp",
    io_k8s_apimachinery_pkg_apis_meta_v1_Timestamp);
  ("io.k8s.apimachinery.pkg.apis.meta.v1.TypeMeta", io_k8s_apimachinery_pkg_apis_meta_v1_TypeMeta);
  ("io.k8s.apimachinery.pkg.apis.meta.v1.UpdateOptions",
    io_k8s_apimachinery_pkg_apis_meta_v1_UpdateOptions);
  ("io.k8s.apimachinery.pkg.apis.meta.v1.WatchEvent",
    io_k8s_apimachinery_pkg_apis_meta_v1_WatchEvent);
  ("io.k8s.apimachinery.pkg.runtime.RawExtension", io_k8s_apimachinery_pkg_runtime_RawExtension);
  ("io.k8s.apimachinery.pkg.runtime.TypeMeta", io_k8s_apimachinery_pkg_runtime_TypeMeta);
  ("io.k8s.apimachinery.pkg.runtime.Unknown", io_k8s_apimachinery_pkg_runtime_Unknown);
  ("io.k8s.apimachinery.pkg.util.intstr.IntOrString",
    io_k8s_apimachinery_pkg_util_intstr_IntOrString);
  ("jobset.v1alpha2.Coordinator", jobset_v1alpha2_Coordinator);
  ("jobset.v1alpha2.DependsOn", jobset_v1alpha2_DependsOn);
  ("jobset.v1alpha2.FailurePolicy", jobset_v1alpha2_FailurePolicy);
  ("jobset.v1alpha2.FailurePolicyRule", jobset_v1alpha2_FailurePolicyRule);
  ("jobset.v1alpha2.JobScheduling", jobset_v1alpha2_JobScheduling);
  ("jobset.v1alpha2.JobSet", jobset_v1alpha2_JobSet);
  ("jobset.v1alpha2.JobSetList", jobset_v1alpha2_JobSetList);
  ("jobset.v1alpha2.JobSetScheduling", jobset_v1alpha2_JobSetScheduling);
  ("jobset.v1alpha2.JobSetSpec", jobset_v1alpha2_JobSetSpec);
  ("jobset.v1alpha2.JobSetStatus", jobset_v1alpha2_JobSetStatus);
  ("jobset.v1alpha2.Network", jobset_v1alpha2_Network);
  ("jobset.v1alpha2.ReplicatedJob", jobset_v1alpha2_ReplicatedJob);
  ("jobset.v1alpha2.ReplicatedJobScheduling", jobset_v1alpha2_ReplicatedJobScheduling);
  ("jobset.v1alpha2.ReplicatedJobStatus", jobset_v1alpha2_ReplicatedJobStatus);
  ("jobset.v1alpha2.StartupPolicy", jobset_v1alpha2_StartupPolicy);
  ("jobset.v1alpha2.SuccessPolicy", jobset_v1alpha2_SuccessPolicy);
  ("jobset.v1alpha2.VolumeClaimPolicy", jobset_v1alpha2_VolumeClaimPolicy);
  ("jobset.v1alpha2.VolumeRetentionPolicy", jobset_v1alpha2_VolumeRetentionPolicy);
  ("scheduling.v1beta1.NetworkTopologySpec", scheduling_v1beta1_NetworkTopologySpec);
  ("trainer.v1alpha1.CategoricalSpace", trainer_v1alpha1_CategoricalSpace);
  ("trainer.v1alpha1.ClusterTrainingRuntime", trainer_v1alpha1_ClusterTrainingRuntime);
  ("trainer.v1alpha1.ClusterTrainingRuntimeList", trainer_v1alpha1_ClusterTrainingRuntimeList);
  ("trainer.v1alpha1.ContainerPatch", trainer_v1alpha1_ContainerPatch);
  ("trainer.v1alpha1.CoschedulingPodGroupPolicySource",
    trainer_v1alpha1_CoschedulingPodGroupPolicySource);
  ("trainer.v1alpha1.DatasetInitializer", trainer_v1alpha1_DatasetInitializer);
  ("trainer.v1alpha1.EnvInjection", trainer_v1alpha1_EnvInjection);
  ("trainer.v1alpha1.EnvInjectionTarget", trainer_v1alpha1_EnvInjectionTarget);
  ("trainer.v1alpha1.FluxMLPolicySource", trainer_v1alpha1_FluxMLPolicySource);
  ("trainer.v1alpha1.GridAlgorithm", trainer_v1alpha1_GridAlgorithm);
  ("trainer.v1alpha1.Initializer", trainer_v1alpha1_Initializer);
  ("trainer.v1alpha1.JAXMLPolicySource", trainer_v1alpha1_JAXMLPolicySource);
  ("trainer.v1alpha1.JobSetSpecPatch", trainer_v1alpha1_JobSetSpecPatch);
  ("trainer.v1alpha1.JobSetTemplatePatch", trainer_v1alpha1_JobSetTemplatePatch);
  ("trainer.v1alpha1.JobSetTemplateSpec", trainer_v1alpha1_JobSetTemplateSpec);
  ("trainer.v1alpha1.JobSpecPatch", trainer_v1alpha1_JobSpecPatch);
  ("trainer.v1alpha1.JobStatus", trainer_v1alpha1_JobStatus);
  ("trainer.v1alpha1.JobTemplatePatch", trainer_v1alpha1_JobTemplatePatch);
  ("trainer.v1alpha1.LogUniformSpace", trainer_v1alpha1_LogUniformSpace);
  ("trainer.v1alpha1.MLPolicy", trainer_v1alpha1_MLPolicy);
  ("trainer.v1alpha1.MLPolicySource", trainer_v1alpha1_MLPolicySource);
  ("trainer.v1alpha1.MPIMLPolicySource", trainer_v1alpha1_MPIMLPolicySource);
  ("trainer.v1alpha1.Metric", trainer_v1alpha1_Metric);
  ("trainer.v1alpha1.ModelInitializer", trainer_v1alpha1_ModelInitializer);
  ("trainer.v1alpha1.Objective", trainer_v1alpha1_Objective);
  ("trainer.v1alpha1.OptimizationJob", trainer_v1alpha1_OptimizationJob);
  ("trainer.v1alpha1.OptimizationJobList", trainer_v1alpha1_OptimizationJobList);
  ("trainer.v1alpha1.OptimizationJobSpec", trainer_v1alpha1_OptimizationJobSpec);
  ("trainer.v1alpha1.OptimizationJobStatus", trainer_v1alpha1_OptimizationJobStatus);
  ("trainer.v1alpha1.Parameter", trainer_v1alpha1_Parameter);
  ("trainer.v1alpha1.ParameterAssignment", trainer_v1alpha1_ParameterAssignment);
  ("trainer.v1alpha1.PodGroupPolicy", trainer_v1alpha1_PodGroupPolicy);
  ("trainer.v1alpha1.PodGroupPolicySource", trainer_v1alpha1_PodGroupPolicySource);
  ("trainer.v1alpha1.PodSpecPatch", trainer_v1alpha1_PodSpecPatch);
  ("trainer.v1alpha1.PodTemplatePatch", trainer_v1alpha1_PodTemplatePatch);
  ("trainer.v1alpha1.RandomAlgorithm", trainer_v1alpha1_RandomAlgorithm);
  ("trainer.v1alpha1.ReplicatedJobPatch", trainer_v1alpha1_ReplicatedJobPatch);
  ("trainer.v1alpha1.Result", trainer_v1alpha1_Result);
  ("trainer.v1alpha1.RuntimePatch", trainer_v1alpha1_RuntimePatch);
  ("trainer.v1alpha1.RuntimeRef", trainer_v1alpha1_RuntimeRef);
  ("trainer.v1alpha1.SearchAlgorithm", trainer_v1alpha1_SearchAlgorithm);
  ("trainer.v1alpha1.SearchSpace", trainer_v1alpha1_SearchSpace);
  ("trainer.v1alpha1.TorchMLPolicySource", trainer_v1alpha1_TorchMLPolicySource);
  ("trainer.v1alpha1.TrainJob", trainer_v1alpha1_TrainJob);
  ("trainer.v1alpha1.TrainJobList", trainer_v1alpha1_TrainJobList);
  ("trainer.v1alpha1.TrainJobSpec", trainer_v1alpha1_TrainJobSpec);
  ("trainer.v1alpha1.TrainJobStatus", trainer_v1alpha1_TrainJobStatus);
  ("trainer.v1alpha1.TrainJobTemplateSpec", trainer_v1alpha1_TrainJobTemplateSpec);
  ("trainer.v1alpha1.Trainer", trainer_v1alpha1_Trainer);
  ("trainer.v1alpha1.TrainerResourceClaim", trainer_v1alpha1_TrainerResourceClaim);
  ("trainer.v1alpha1.TrainerStatus", trainer_v1alpha1_TrainerStatus);
  ("trainer.v1alpha1.TrainingRuntime", trainer_v1alpha1_TrainingRuntime);
  ("trainer.v1alpha1.TrainingRuntimeList", trainer_v1alpha1_TrainingRuntimeList);
  ("trainer.v1alpha1.TrainingRuntimeSpec", trainer_v1alpha1_TrainingRuntimeSpec);
  ("trainer.v1alpha1.TrainingRuntimeSpecPatch", trainer_v1alpha1_TrainingRuntimeSpecPatch);
  ("trainer.v1alpha1.UniformSpace", trainer_v1alpha1_UniformSpace);
  ("trainer.v1alpha1.UpdateTrainJobStatusRequest", trainer_v1alpha1_UpdateTrainJobStatusRequest);
  ("trainer.v1alpha1.VolcanoPodGroupPolicySource", trainer_v1alpha1_VolcanoPodGroupPolicySource);
  ("trainer.v1alpha1.XGBoostMLPolicySource", trainer_v1alpha1_XGBoostMLPolicySource)].

(** ** Defaults of required properties *)

Definition required_defaults (def : oas_def) : list (string * value) :=
  match def with
  | DObject required ps =>
      omap (fun p => match p_default p with
                     | Some (VDict _) | None => None
                     | Some v => if is_required required (p_name p) then Some (p_name p, v) else None
                     end) ps
  | DType _ => []
  end.

(** For each class, the required properties for which the specification has a
    default that is no object. *)
Definition specified_defaults : list (string * list (string * value)) :=
  Eval vm_compute in
    filter (fun cd => cd.2 ≠ []) (map (fun nd => (class_name nd.1, required_defaults nd.2)) definitions).

Lemma specified_defaults_eq :
  specified_defaults =
  filter (fun cd => cd.2 ≠ []) (map (fun nd => (class_name nd.1, required_defaults nd.2)) definitions).
Proof. vm_compute; reflexivity. Qed.

(** The same for the classes left from an earlier specification, which is not at
    hand: the values their [from_dict] has. *)
Definition earlier_defaults : list (string * list (string * value)) := [
  ("TrainerV1alpha1SettingKV", [("name", VStr ""); ("value", VStr "")]);
  ("TrainerV1alpha1NormalSpace", [("mean", VStr ""); ("stdDev", VStr "")]);
  ("TrainerV1alpha1EarlyStopping", [("name", VStr "")]);
  ("TrainerV1alpha1IntSpace", [("max", VStr ""); ("min", VStr "")]);
  ("TrainerV1alpha1Algorithm", [("name", VStr "")]);
  ("TrainerV1alpha1LogNormalSpace", [("mean", VStr ""); ("stdDev", VStr "")]);
  ("TrainerV1alpha1CustomAlgorithm", [("name", VStr "")]);
  ("IoK8sApiCoreV1WorkloadReference", [("name", VStr ""); ("podGroup", VStr "")])].

(** The value that stands in for a required property of a class. *)
Definition fallback (class key : string) : option value :=
  match assoc specified_defaults class with
  | Some d => assoc d key
  | None => match assoc earlier_defaults class with Some d => assoc d key | None => None end
  end.
