(* ===== verification/Documents.v ===== *)
(** * Documents of the API: what they are and which instances they stand for

    A specification of [from_dict] on the schemas and the defaults of the OpenAPI
    specification alone, without reference to the code of the classes: the
    documents that are certainly valid, the instance that a valid document stands
    for, and the documents that are certainly not valid. A document that is
    neither leaves the answer to pydantic's coercions. *)

From S2P Require Import Prelude PyStr PyValue JsonSpec Pydantic OpenApi OpenApiData.
Local Open Scope string_scope.
Local Open Scope bool_scope.
Local Open Scope list_scope.

(** The value of a field in a document; a missing key counts as null. *)
Definition present (d : list (string * value)) (f : Field ann) : value :=
  default VNone (dict_get d (f_alias f)).
(** The attribute of a field of the class [n] that a document lacks: its default,
    for a required field the one the specification has. *)
Definition fill (n : string) (f : Field ann) : value :=
  match f_default f with
  | Some v => v
  | None => default VNone (fallback n (f_alias f))
  end.

(** What validation does with an argument of a field. *)
Definition arg_accepted (f : Field ann) (v : value) : bool :=
  accepts (f_ann f) v && unit_ok (f_check f v).
Definition arg_refused (f : Field ann) (v : value) : bool :=
  rejects (f_ann f) v ||
  (accepts (f_ann f) v && match f_check f v with Raise (ValueError _) => true | _ => false end).

(** A value for one-of classes: it has one of the two types, not the other, and
    survives the way through JSON text. *)
Definition fits_one (fs : list (Field ann)) (v : value) : bool :=
  match fs with
  | [f1; f2; fa] =>
      json_ok v && negb (is_none v) && accepts (f_ann fa) v &&
      ((accepts (f_ann f1) v && rejects (f_ann f2) v) ||
       (rejects (f_ann f1) v && accepts (f_ann f2) v))
  | _ => false
  end.
Definition fits_none (fs : list (Field ann)) (v : value) : bool :=
  match fs with
  | [f1; f2; _] => is_none v || (json_ok v && rejects (f_ann f1) v && rejects (f_ann f2) v)
  | _ => false
  end.
(** Its instance: the validator of its type holds the value too. *)
Definition built_one (n : string) (fs : list (Field ann)) (v : value) : value :=
  match fs with
  | [f1; f2; fa] =>
      if accepts (f_ann f1) v
      then VObj n [(f_name f1, v); (f_name f2, VNone); (f_name fa, v)]
      else VObj n [(f_name f1, VNone); (f_name f2, v); (f_name fa, v)]
  | _ => v
  end.

(** The instance of a valid document. *)
Fixpoint built (a : ann) (v : value) {struct a} : value :=
  if plain_ann a then v else
  match a, v with
  | Optional _, VNone => VNone
  | Optional a', _ => built a' v
  | List a', VList l => VList (map (built a') l)
  | Dict a', VDict d => VDict (map (fun kv => (kv.1, built a' kv.2)) d)
  | Model (MkSchema n fs inv), _ =>
      match inv, v with
      | None, VDict d =>
          VObj n (map (fun f => (f_name f, let x := present d f in
                                           if is_none x then fill n f else built (f_ann f) x)) fs)
      | Some _, _ => built_one n fs v
      | _, _ => v
      end
  | _, _ => v
  end.

(** The document that its instance is written as: the fields that hold something,
    in their order, unknown keys left out. *)
Fixpoint canon (a : ann) (v : value) {struct a} : value :=
  if plain_ann a then v else
  match a, v with
  | Optional _, VNone => VNone
  | Optional a', _ => canon a' v
  | List a', VList l => VList (map (canon a') l)
  | Dict a', VDict d => VDict (map (fun kv => (kv.1, canon a' kv.2)) d)
  | Model (MkSchema n fs inv), _ =>
      match inv, v with
      | None, VDict d =>
          VDict (flat_map (fun f => let x := present d f in
                                    let w := if is_none x then fill n f else canon (f_ann f) x in
                                    if is_none w then [] else [(f_alias f, w)]) fs)
      | _, _ => v
      end
  | _, _ => v
  end.

Fixpoint valid_doc (a : ann) (v : value) {struct a} : bool :=
  if plain_ann a then accepts a v else
  match a, v with
  | Optional _, VNone => true
  | Optional a', _ => valid_doc a' v
  | List a', VList l => forallb (valid_doc a') l
  | Dict a', VDict d => forallb (fun kv => valid_doc a' kv.2) d
  | Model (MkSchema n fs inv), _ =>
      match inv, v with
      | None, VDict d =>
          forallb (fun f => let x := present d f in
                            if is_none x then arg_accepted f (fill n f)
                            else valid_doc (f_ann f) x && unit_ok (f_check f (built (f_ann f) x))) fs
      | Some _, _ => fits_one fs v
      | _, _ => false
      end
  | _, _ => false
  end.

(** A list of models is read by iterating over what is there: the elements of a
    list, the characters of a string, the keys of an object. An empty string or
    object is therefore no reason to refuse a document. *)
Fixpoint invalid_doc (a : ann) (v : value) {struct a} : bool :=
  if plain_ann a then rejects a v else
  match a, v with
  | Optional _, VNone => false
  | Optional a', _ => invalid_doc a' v
  | List a', _ => match iter v with Ret l => existsb (invalid_doc a') l | _ => true end
  | Dict a', VDict d => existsb (fun kv => invalid_doc a' kv.2) d
  | Dict _, _ => true
  | Model (MkSchema n fs inv), _ =>
      match inv, v with
      | None, VDict d =>
          existsb (fun f => let x := present d f in
                            if is_none x then arg_refused f (fill n f)
                            else if plain_ann (f_ann f) then arg_refused f x
                            else invalid_doc (f_ann f) x) fs
      | None, VObj _ _ => false
      | None, _ => true
      | Some _, _ => fits_none fs v
      end
  | _, _ => false
  end.

(** ** Instances written and read back *)

(** The instance that [from_dict] makes of what [to_dict] wrote of an instance: the
    same data; an attribute that was [None] over another default has the default,
    and a one-of instance is as [from_json] makes it of its value, whichever of
    its validators were set before. *)
Fixpoint rebuilt (a : ann) (x : value) {struct a} : value :=
  if plain_ann a then x else
  match a, x with
  | Optional _, VNone => VNone
  | Optional a', _ => rebuilt a' x
  | List a', VList l => VList (map (rebuilt a') l)
  | Dict a', VDict d => VDict (map (fun kv => (kv.1, rebuilt a' kv.2)) d)
  | Model (MkSchema n fs inv), VObj c attrs =>
      match inv with
      | Some _ => match attrs with [_; _; (_, v)] => built_one n fs v | _ => x end
      | None =>
          VObj c ((fix go (fs : list (Field ann)) (attrs : list (string * value)) :=
            match fs, attrs with
            | f :: fs', (k, y) :: attrs' =>
                (k, if is_none y then default VNone (f_default f) else rebuilt (f_ann f) y) ::
                go fs' attrs'
            | _, _ => []
            end) fs attrs)
      end
  | _, _ => x
  end.

(** The values of the one-of instances inside survive the way through JSON text,
    which their [from_dict] takes. *)
Fixpoint carried (a : ann) (x : value) {struct a} : bool :=
  if plain_ann a then true else
  match a, x with
  | Optional _, VNone => true
  | Optional a', _ => carried a' x
  | List a', VList l => forallb (carried a') l
  | Dict a', VDict d => forallb (fun kv => carried a' kv.2) d
  | Model (MkSchema n fs inv), VObj _ attrs =>
      match inv with
      | Some _ => match attrs with [_; _; (_, v)] => json_ok v | _ => false end
      | None =>
          (fix go (fs : list (Field ann)) (attrs : list (string * value)) :=
             match fs, attrs with
             | f :: fs', (_, y) :: attrs' => carried (f_ann f) y && go fs' attrs'
             | _, _ => true
             end) fs attrs
      end
  | _, _ => true
  end.

(** ** Unfolding *)

Definition rebuilt_field (f : Field ann) (y : value) : value :=
  if is_none y then default VNone (f_default f) else rebuilt (f_ann f) y.
Definition rebuilt_attrs (fs : list (Field ann)) (attrs : list (string * value)) :
    list (string * value) :=
  zip_with (fun f kx => (kx.1, rebuilt_field f kx.2)) fs attrs.

Lemma plain_rebuilt a x : plain_ann a = true → rebuilt a x = x.
Proof. intros Ha. destruct a; cbn [rebuilt]; by rewrite Ha. Qed.
Lemma plain_carried a x : plain_ann a = true → carried a x = true.
Proof. intros Ha. destruct a; cbn [carried]; by rewrite Ha. Qed.

Definition field_valid (n : string) (d : list (string * value)) (f : Field ann) : bool :=
  let x := present d f in
  if is_none x then arg_accepted f (fill n f)
  else valid_doc (f_ann f) x && unit_ok (f_check f (built (f_ann f) x)).
Definition field_invalid (n : string) (d : list (string * value)) (f : Field ann) : bool :=
  let x := present d f in
  if is_none x then arg_refused f (fill n f)
  else if plain_ann (f_ann f) then arg_refused f x else invalid_doc (f_ann f) x.
Definition field_built (n : string) (d : list (string * value)) (f : Field ann) : value :=
  let x := present d f in if is_none x then fill n f else built (f_ann f) x.

Definition field_canon (n : string) (d : list (string * value)) (f : Field ann) : value :=
  let x := present d f in if is_none x then fill n f else canon (f_ann f) x.

Lemma plain_canon a v : plain_ann a = true → canon a v = v.
Proof. intros Ha. destruct a; cbn [canon]; by rewrite Ha. Qed.
Lemma plain_built a v : plain_ann a = true → built a v = v.
Proof. intros Ha. destruct a; cbn [built]; by rewrite Ha. Qed.
Lemma plain_valid a v : plain_ann a = true → valid_doc a v = accepts a v.
Proof. intros Ha. destruct a; cbn [valid_doc]; by rewrite Ha. Qed.
Lemma plain_invalid a v : plain_ann a = true → invalid_doc a v = rejects a v.
Proof. intros Ha. destruct a; cbn [invalid_doc]; by rewrite Ha. Qed.

(** A class without relation between its attributes. *)
Definition regular (s : Schema) : Prop := let '(MkSchema _ _ i) := s in i = None.

Lemma regular_valid s v :
  regular s → valid_doc (Model s) v = true →
  ∃ d, v = VDict d ∧ Forall (fun f => field_valid (s_name s) d f = true) (s_fields s) ∧
       built (Model s) v = VObj (s_name s) (map (fun f => (f_name f, field_built (s_name s) d f)) (s_fields s)).
Proof.
  destruct s as [n fs i]. cbn [regular s_name s_fields]. intros ->.
  destruct v as [| | | | | | |d| |]; cbn; try done. rewrite forallb_forall. intros Hf.
  exists d. split_and!; [done| |done]. apply Forall_forall. intros f Hin%list_elem_of_In.
  by apply Hf.
Qed.

Lemma regular_invalid s v :
  regular s → invalid_doc (Model s) v = true →
  match v with
  | VDict d => ∃ f, f ∈ s_fields s ∧ field_invalid (s_name s) d f = true
  | VObj _ _ => False
  | _ => True
  end.
Proof.
  destruct s as [n fs i]. cbn [regular s_fields]. intros ->. destruct v as [| | | | | | |d| |]; cbn; try done.
  intros (f & Hf & Hb)%existsb_exists. exists f. split; [by apply list_elem_of_In|done].
Qed.

Lemma regular_canon s d :
  regular s →
  canon (Model s) (VDict d) =
  VDict (flat_map (fun f => if is_none (field_canon (s_name s) d f) then []
                            else [(f_alias f, field_canon (s_name s) d f)]) (s_fields s)).
Proof. destruct s as [n fs i]. cbn [regular]. by intros ->. Qed.

Lemma regular_rebuilt s c attrs :
  regular s → rebuilt (Model s) (VObj c attrs) = VObj c (rebuilt_attrs (s_fields s) attrs).
Proof.
  destruct s as [n fs i]. cbn [regular s_fields]. intros ->. cbn. f_equal. revert attrs.
  induction fs as [|f fs IH]; intros [|[k y] attrs]; [done..|]. cbn. by rewrite IH.
Qed.

Lemma regular_carried s c attrs :
  regular s → length (s_fields s) = length attrs →
  carried (Model s) (VObj c attrs) = true ↔
  Forall2 (fun f kx => carried (f_ann f) kx.2 = true) (s_fields s) attrs.
Proof.
  destruct s as [n fs i]. cbn [regular s_fields]. intros ->. cbn. revert attrs.
  induction fs as [|f fs IH]; intros [|[k y] attrs]; try done; cbn; intros Hlen.
  rewrite andb_true_iff, Forall2_cons, IH by lia. done.
Qed.
