(* ===== verification/PydanticSpec.v ===== *)
(** * The (de)serialisation template: lemmas

    The behaviour of one class from that of the classes it uses. [Converts] is
    the interface between classes, what a class promises to the classes that
    have fields of its type; [Templated] says that a class is written with the
    template, its overrides and entries fitting its fields. This file shows that
    such a class has the first two promises, [RoundTrip] and [Sound]. *)

From S2P Require Import Prelude PyStr PyValue Pydantic Documents.
Local Open Scope string_scope.
Local Open Scope bool_scope.
Local Open Scope list_scope.

(** ** Types *)

Definition typed_attr (f : Field ann) (kx : string * value) : Prop :=
  kx.1 = f_name f ∧ settled (f_ann f) kx.2 = true ∧ default_kept f kx.2 = true ∧
  f_check f kx.2 = Ret tt.

Lemma settled_model s v :
  settled (Model s) v = true ↔
  ∃ attrs, v = VObj (s_name s) attrs ∧ s_inv s attrs = true ∧
           Forall2 typed_attr (s_fields s) attrs.
Proof.
  destruct s as [n fs inv]. cbn [s_name s_fields s_inv]. cbn [settled].
  destruct v as [| | | | | | | |c attrs|]; try (split; [done|by intros (? & [=] & _)]).
  rewrite !andb_true_iff, String.eqb_eq.
  match goal with |- context [?go fs attrs] => assert (go fs attrs = true ↔ Forall2 typed_attr fs attrs) as Hgo end.
  { clear. revert attrs. induction fs as [|f fs IH]; intros [|[k x] attrs]; cbn.
    - split; [by constructor|done].
    - split; [done|]. inversion 1.
    - split; [done|]. inversion 1.
    - rewrite !andb_true_iff, IH, Forall2_cons, String.eqb_eq. unfold typed_attr. cbn [fst snd].
      destruct (f_check f x) as [[]| |]; cbn [unit_ok]; naive_solver. }
  rewrite Hgo. split.
  - intros [[-> Hi] Hf]. by exists attrs.
  - by intros (attrs' & [= -> ->] & ? & ?).
Qed.

Lemma settled_accepts a v : settled a v = true → accepts a v = true.
Proof.
  revert v. induction a as [| | | | | | | | | |a1 IH1 a2 IH2|a IH|a IH|a IH|s]; intros v Hv;
    try (destruct v; done).
  - cbn in *. apply orb_true_iff in Hv as [Hv|Hv]; apply orb_true_iff; auto.
  - destruct v; cbn in *; auto.
  - destruct v as [| | | | | |l| | |]; try done. cbn in *.
    rewrite forallb_forall in Hv |- *. auto.
  - destruct v as [| | | | | | |d| |]; try done. cbn in *.
    apply andb_true_iff in Hv as [_ Hv]. rewrite forallb_forall in Hv |- *. auto.
  - apply settled_model in Hv as (attrs & -> & _). cbn. apply String.eqb_refl.
Qed.

Lemma data_plain v : data v = true → plain v = true.
Proof.
  induction v as [| | | | | |l IH|d IH| |] using value_ind'; try done; cbn.
  - rewrite !forallb_forall. rewrite Forall_forall in IH. intros Hl x Hx.
    apply IH; [by apply list_elem_of_In|auto].
  - intros [_ Hd]%andb_true_iff. rewrite forallb_forall in Hd |- *. rewrite Forall_forall in IH.
    intros x Hx. apply IH; [by apply list_elem_of_In|auto].
Qed.

Lemma accepts_settled a v :
  plain_ann a = true → data v = true → accepts a v = true → settled a v = true.
Proof.
  revert v. induction a as [| | | | | | | | | |a1 IH1 a2 IH2|a IH|a IH|a IH|s]; intros v Hp Hv Ha;
    try (destruct v; done).
  - by apply data_plain.
  - cbn in *. apply andb_true_iff in Hp as [? ?].
    apply orb_true_iff in Ha as [Ha|Ha]; apply orb_true_iff; auto.
  - destruct v; first [done|exact (IH _ Hp Hv Ha)].
  - destruct v as [| | | | | |l| | |]; try done. cbn in *.
    rewrite forallb_forall in Hv, Ha |- *. auto.
  - destruct v as [| | | | | | |d| |]; try done. cbn in *.
    apply andb_true_iff in Hv as [Hk Hv]. apply andb_true_iff. split; [done|].
    rewrite forallb_forall in Hv, Ha |- *. auto.
Qed.

Lemma rejects_not_accepts a v : rejects a v = true → accepts a v = false.
Proof.
  revert v. induction a as [| | | | | | | | | |a1 IH1 a2 IH2|a IH|a IH|a IH|s]; intros v Hr;
    try (destruct v; done).
  - cbn in *. apply andb_true_iff in Hr as [H1 H2]. by rewrite IH1, IH2.
  - destruct v; try done; exact (IH _ Hr).
  - destruct v as [| | | | | |l| | |]; try done. cbn in Hr |- *.
    apply andb_true_iff in Hr as [(x & Hx & Hr)%existsb_exists _]. apply not_true_is_false.
    rewrite forallb_forall. intros Ha. specialize (Ha _ Hx). by rewrite (IH _ Hr) in Ha.
  - destruct v as [| | | | | | |d| |]; try done. cbn in Hr |- *.
    apply andb_true_iff in Hr as [(x & Hx & Hr)%existsb_exists _]. apply not_true_is_false.
    rewrite forallb_forall. intros Ha. specialize (Ha _ Hx). by rewrite (IH _ Hr) in Ha.
Qed.

Lemma plain_ann_plain a v : plain_ann a = true → settled a v = true → plain v = true.
Proof.
  revert v. induction a as [| | | | | | | | | |a1 IH1 a2 IH2|a IH|a IH|a IH|s]; intros v Ha Hv;
    try first [exact Hv | destruct v; done].
  - cbn in *. apply andb_true_iff in Ha as [? ?]. apply orb_true_iff in Hv as [Hv|Hv]; auto.
  - destruct v; first [done | exact (IH _ Ha Hv)].
  - destruct v as [| | | | | |l| | |]; try done. cbn in *.
    rewrite forallb_forall in Hv |- *. auto.
  - destruct v as [| | | | | | |d| |]; try done. cbn in *.
    apply andb_true_iff in Hv as [_ Hv]. rewrite forallb_forall in Hv |- *. auto.
Qed.

Definition conforming_attr (f : Field ann) (kx : string * value) : Prop :=
  kx.1 = f_name f ∧ conforms (f_ann f) kx.2 = true ∧ f_check f kx.2 = Ret tt.

Lemma conforms_model s v :
  conforms (Model s) v = true ↔
  ∃ attrs, v = VObj (s_name s) attrs ∧ Forall2 conforming_attr (s_fields s) attrs.
Proof.
  destruct s as [n fs inv]. cbn [s_name s_fields]. cbn [conforms].
  destruct v as [| | | | | | | |c attrs|]; try (split; [done|by intros (? & [=] & _)]).
  rewrite andb_true_iff, String.eqb_eq.
  match goal with |- context [?go fs attrs] => assert (go fs attrs = true ↔ Forall2 conforming_attr fs attrs) as Hgo end.
  { clear. revert attrs. induction fs as [|f fs IH]; intros [|[k x] attrs]; cbn.
    - split; [by constructor|done].
    - split; [done|]. inversion 1.
    - split; [done|]. inversion 1.
    - rewrite !andb_true_iff, IH, Forall2_cons, String.eqb_eq. unfold conforming_attr. cbn [fst snd].
      destruct (f_check f x) as [[]| |]; cbn [unit_ok]; naive_solver. }
  rewrite Hgo. split; [intros [-> Hf]; by exists attrs|by intros (attrs' & [= -> ->] & ?)].
Qed.

Lemma conforms_accepts a v : conforms a v = true → accepts a v = true.
Proof.
  revert v. induction a as [| | | | | | | | | |a1 IH1 a2 IH2|a IH|a IH|a IH|s]; intros v Hv;
    try (destruct v; done).
  - cbn in *. apply orb_true_iff in Hv as [Hv|Hv]; apply orb_true_iff; auto.
  - destruct v; cbn in *; auto.
  - destruct v as [| | | | | |l| | |]; try done. cbn in *.
    rewrite forallb_forall in Hv |- *. auto.
  - destruct v as [| | | | | | |d| |]; try done. cbn in *.
    apply andb_true_iff in Hv as [_ Hv]. rewrite forallb_forall in Hv |- *. auto.
  - apply conforms_model in Hv as (attrs & -> & _). cbn. apply String.eqb_refl.
Qed.

Lemma settled_conforms a v : settled a v = true → conforms a v = true.
Proof.
  revert v. induction a as [a Hb|a1 a2 IH1 IH2|a IH|a IH|a IH|n fs inv IH] using ann_ind'; intros v Hv;
    [by destruct a|..].
  - cbn in *. apply orb_true_iff in Hv as [Hv|Hv]; apply orb_true_iff; auto.
  - destruct v; cbn in *; auto.
  - destruct v as [| | | | | |l| | |]; try done. cbn in *.
    rewrite forallb_forall in Hv |- *. auto.
  - destruct v as [| | | | | | |d| |]; try done. cbn in *.
    apply andb_true_iff in Hv as [-> Hv]. cbn. rewrite forallb_forall in Hv |- *. auto.
  - apply settled_model in Hv as (attrs & -> & _ & Hf). apply conforms_model. exists attrs. split; [done|].
    cbn [s_fields] in *. revert attrs Hf. induction IH as [|f fs Hf _ IHs]; intros attrs Hattrs.
    { apply Forall2_nil_inv_l in Hattrs as ->. constructor. }
    apply Forall2_cons_inv_l in Hattrs as (kx & attrs' & (Hk & Hx & _ & Hc) & Hattrs & ->).
    constructor; [split_and!; auto|auto].
Qed.

Lemma typed_conforming f kx : typed_attr f kx → conforming_attr f kx.
Proof. intros (? & ?%settled_conforms & _ & ?). by split_and!. Qed.

Lemma plain_conforms a v : plain_ann a = true → conforms a v = settled a v.
Proof.
  revert v. induction a as [| | | | | | | | | |a1 IH1 a2 IH2|a IH|a IH|a IH|s]; intros v Ha;
    try (destruct v; done).
  - cbn in *. apply andb_true_iff in Ha as [? ?]. by rewrite IH1, IH2.
  - destruct v; cbn in *; auto.
  - destruct v as [| | | | | |l| | |]; try done. cbn in *. clear -IH Ha.
    induction l as [|x l IHl]; cbn; [done|]. by rewrite IH, IHl.
  - destruct v as [| | | | | | |d| |]; try done. cbn in *. f_equal. clear -IH Ha.
    induction d as [|x d IHd]; cbn; [done|]. by rewrite IH, IHd.
Qed.

(** ** Keys *)

Lemma dict_get_notin d k : k ∉ d.*1 → dict_get d k = None.
Proof.
  induction d as [|[k' v] d IH]; cbn; [done|]. intros Hk.
  rewrite (proj2 (String.eqb_neq k' k)) by set_solver. apply IH. set_solver.
Qed.

Lemma dict_get_elem d k v : NoDup d.*1 → (k, v) ∈ d → dict_get d k = Some v.
Proof.
  induction d as [|[k' v'] d IH]; cbn; [by intros _ ?%elem_of_nil|].
  intros [Hk Hd]%NoDup_cons [[= -> ->]|Hin]%elem_of_cons; [by rewrite String.eqb_refl|].
  rewrite (proj2 (String.eqb_neq k' k)); [by apply IH|].
  intros ->. apply Hk. by apply list_elem_of_fmap_2 with (f := fst) in Hin.
Qed.

Lemma dict_set_app pre k w w' d :
  k ∉ pre.*1 → dict_set (pre ++ (k, w) :: d) k w' = pre ++ (k, w') :: d.
Proof.
  induction pre as [|[k' v'] pre IH]; cbn; [by rewrite String.eqb_refl|].
  intros Hk. rewrite (proj2 (String.eqb_neq k' k)) by set_solver. rewrite IH; [done|set_solver].
Qed.

(** The keys of the attributes that are not [None]. *)
Fixpoint set_keys (fs : list (Field ann)) (attrs : list (string * value)) : list string :=
  match fs, attrs with
  | f :: fs', (_, x) :: attrs' =>
      if is_none x then set_keys fs' attrs' else f_alias f :: set_keys fs' attrs'
  | _, _ => []
  end.

Lemma dumped_keys fs attrs d : dumped fs attrs d → d.*1 = set_keys fs attrs.
Proof. induction 1 as [| |f fs k v w attrs d Hv _ _ IH]; cbn; [done..|]. by destruct v; cbn; f_equal. Qed.
Lemma set_keys_sublist fs attrs : set_keys fs attrs ⊆ f_alias <$> fs.
Proof.
  revert attrs. induction fs as [|f fs IH]; intros [|[k x] attrs]; cbn; [set_solver..|].
  specialize (IH attrs). destruct (is_none x); set_solver.
Qed.

(** ** The interface between classes *)

(** [from_dict] makes an instance of what [to_dict] writes of one, [rebuilt]. That
    one is [settled]: it is read back as it is from then on. *)
Class RoundTrip (s : Schema) (to_dict from_dict : value → outcome value) : Prop := {
  round_trip x : conforms (Model s) x = true → carried (Model s) x = true →
    ∃ v, to_dict x = Ret v ∧ v ≠ VNone ∧ from_dict v = Ret (rebuilt (Model s) x) ∧
         settled (Model s) (rebuilt (Model s) x) = true;
  settled_rebuilt x : settled (Model s) x = true →
    carried (Model s) x = true ∧ rebuilt (Model s) x = x;
}.

(** What [from_dict] gives from data is an instance that conforms to the
    annotations; only [None] gives [None]. *)
Class Sound (s : Schema) (from_dict : value → outcome value) : Prop :=
  sound v x : data v = true → from_dict v = Ret x →
    (v = VNone ∧ x = VNone) ∨ conforms (Model s) x = true.

(** On a valid document [from_dict] returns the instance it stands for. *)
Class Builds (s : Schema) (from_dict : value → outcome value) : Prop :=
  builds v : valid_doc (Model s) v = true → from_dict v = Ret (built (Model s) v).

(** On a document that is not valid, [None] apart, [from_dict] raises. *)
Class Refuses (s : Schema) (from_dict : value → outcome value) : Prop := {
  refuses v : v ≠ VNone → invalid_doc (Model s) v = true → data v = true →
    ∃ e, from_dict v = Raise e;
  refuses_none : from_dict VNone = Ret VNone ∨ ∃ e, from_dict VNone = Raise e;
}.

(** [from_dict] returns or raises. *)
Class Ends (from_dict : value → outcome value) : Prop :=
  ends v : data v = true → from_dict v ≠ OutOfFuel.

(** The instance of a valid document is well typed, and [to_dict] writes it as the
    document that is left when null and unknown keys are dropped and defaults are
    filled in. *)
Class Writes (s : Schema) (to_dict : value → outcome value) : Prop :=
  writes v : valid_doc (Model s) v = true → data v = true →
    settled (Model s) (built (Model s) v) = true ∧
    to_dict (built (Model s) v) = Ret (canon (Model s) v).

(** In a class, and in the classes inside it, the attributes have different names
    and the validators are on fields that hold no models. *)
Definition unchecked (f : Field ann) : Prop := ∀ x, f_check f x = Ret tt.
Fixpoint well_built (a : ann) : Prop :=
  match a with
  | Optional a | List a | Dict a => well_built a
  | Union a b => well_built a ∧ well_built b
  | Model (MkSchema _ fs _) =>
      distinct (f_name <$> fs) = true ∧
      (fix go (fs : list (Field ann)) : Prop :=
         match fs with
         | [] => True
         | f :: fs' => ((plain_ann (f_ann f) = true ∨ unchecked f) ∧ well_built (f_ann f)) ∧ go fs'
         end) fs
  | _ => True
  end.
Class WellBuilt (s : Schema) : Prop := schema_well_built : well_built (Model s).

(** What every class promises, and what the classes that contain others rely on. *)
Class Reads (s : Schema) (to_dict from_dict : value → outcome value) : Prop := {
  #[global] reads_round_trip :: RoundTrip s to_dict from_dict;
  #[global] reads_sound :: Sound s from_dict;
  #[global] reads_builds :: Builds s from_dict;
  #[global] reads_refuses :: Refuses s from_dict;
  #[global] reads_ends :: Ends from_dict;
}.
Class Converts (s : Schema) (to_dict from_dict : value → outcome value) : Prop := {
  #[global] converts_reads :: Reads s to_dict from_dict;
  #[global] converts_writes :: Writes s to_dict;
  #[global] converts_well_built :: WellBuilt s;
}.

Section Items.
Context (s : Schema) (t g : value → outcome value) `{HR : !RoundTrip s t g}.

Lemma model_truth x : conforms (Model s) x = true → truth x = true.
Proof. by intros (attrs & -> & _)%conforms_model. Qed.

Lemma dump_items_ok l :
  forallb (conforms (Model s)) l = true → forallb (carried (Model s)) l = true →
  ∃ ws, dump_items t l = Ret ws ∧ from_items g ws = Ret (map (rebuilt (Model s)) l) ∧
        forallb (settled (Model s)) (map (rebuilt (Model s)) l) = true.
Proof using HR.
  induction l as [|x l IH]; cbn -[conforms carried rebuilt settled]; [by exists []|].
  intros [Hx Hl]%andb_true_iff [Cx Cl]%andb_true_iff. destruct (IH Hl Cl) as (ws & Hws & Hf & Ha).
  destruct (round_trip x Hx Cx) as (w & Hw & _ & Hg & Hax). exists (w :: ws).
  rewrite (model_truth x Hx), Hw. cbn -[rebuilt settled]. by rewrite Hws, Hg, Hf, Hax, Ha.
Qed.

Lemma dump_values_ok (d : list (string * value)) :
  forallb (fun kv => conforms (Model s) kv.2) d = true →
  forallb (fun kv => carried (Model s) kv.2) d = true →
  ∃ ws, dump_values t d = Ret ws ∧
        from_values g ws = Ret (map (fun kv => (kv.1, rebuilt (Model s) kv.2)) d) ∧
        forallb (fun kv => settled (Model s) kv.2) (map (fun kv => (kv.1, rebuilt (Model s) kv.2)) d) = true.
Proof using HR.
  induction d as [|[k x] d IH]; cbn -[conforms carried rebuilt settled]; [by exists []|].
  intros [Hx Hd]%andb_true_iff [Cx Cd]%andb_true_iff. destruct (IH Hd Cd) as (ws & Hws & Hf & Ha).
  destruct (round_trip x Hx Cx) as (w & Hw & _ & Hg & Hax). exists ((k, w) :: ws).
  rewrite (model_truth x Hx), Hw. cbn -[rebuilt settled]. by rewrite Hws, Hg, Hf, Hax, Ha.
Qed.

Lemma settled_items l :
  forallb (settled (Model s)) l = true →
  forallb (carried (Model s)) l = true ∧ map (rebuilt (Model s)) l = l.
Proof using HR.
  induction l as [|x l IH]; cbn -[settled carried rebuilt]; [done|].
  intros [[Hc Hr]%settled_rebuilt [Hcl Hrl]%IH]%andb_true_iff. by rewrite Hc, Hr, Hrl.
Qed.
Lemma settled_values (d : list (string * value)) :
  forallb (fun kv => settled (Model s) kv.2) d = true →
  forallb (fun kv => carried (Model s) kv.2) d = true ∧
  map (fun kv => (kv.1, rebuilt (Model s) kv.2)) d = d.
Proof using HR.
  induction d as [|[k x] d IH]; cbn -[settled carried rebuilt]; [done|].
  intros [[Hc Hr]%settled_rebuilt [Hcl Hrl]%IH]%andb_true_iff. by rewrite Hc, Hr, Hrl.
Qed.
End Items.

(** ** One class *)

(** A field that never holds [None]. *)
Definition never_none (f : Field ann) : bool :=
  negb (settled (f_ann f) VNone) ||
  match f_default f with None | Some VNone => false | Some _ => true end.

(** [a], or [Optional[a]]. *)
Inductive maybe_optional (a : ann) : ann → Prop :=
| is_ann : maybe_optional a a
| is_optional : maybe_optional a (Optional a).

Lemma maybe_optional_inv a b v :
  maybe_optional a b → v ≠ VNone →
  settled b v = settled a v ∧ conforms b v = conforms a v ∧ accepts b v = accepts a v ∧
  (plain_ann a = false → carried b v = carried a v ∧ rebuilt b v = rebuilt a v).
Proof. intros [] Hv; [done|]. split_and!; [by destruct v..|]. intros Ha. cbn. rewrite Ha. by destruct v. Qed.

(** The validator of a plain field raises nothing but [ValueError] on values of
    its type; a field that holds models has none. *)
Definition check_decides (f : Field ann) : Prop :=
  ∀ x, settled (f_ann f) x = true →
    f_check f x = Ret tt ∨ ∃ what, f_check f x = Raise (ValueError what).

(** The override, if any, and the entry that fit a field. *)
Inductive field_code (n : string) (f : Field ann) : option Override → Entry → Prop :=
| code_get :
    plain_ann (f_ann f) = true → is_none (fill n f) = true → check_decides f →
    field_code n f None (Get (f_alias f))
| code_get_or dflt :
    plain_ann (f_ann f) = true → never_none f = true → data dflt = true → check_decides f →
    fill n f = dflt →
    field_code n f None (GetOr (f_alias f) dflt)
| code_model s t g :
    maybe_optional (Model s) (f_ann f) → unchecked f → is_none (fill n f) = true → Converts s t g →
    field_code n f (Some (Dump (f_name f) (f_alias f) t)) (FromDict (f_alias f) g)
| code_items s t g :
    maybe_optional (List (Model s)) (f_ann f) → unchecked f → is_none (fill n f) = true → Converts s t g →
    field_code n f (Some (DumpItems (f_name f) (f_alias f) t)) (FromDictItems (f_alias f) g)
| code_values s t g :
    maybe_optional (Dict (Model s)) (f_ann f) → unchecked f → is_none (fill n f) = true → Converts s t g →
    field_code n f (Some (DumpValues (f_name f) (f_alias f) t)) (FromDictValues (f_alias f) g).

Definition override_opt (self : value) (d : list (string * value)) (o : option Override) :
    outcome (list (string * value)) :=
  match o with Some o => override self d o | None => Ret d end.

Lemma default_kept_some f y : is_none y = false → default_kept f y = true.
Proof. intros Hy. unfold default_kept. rewrite Hy. by destruct (f_default f) as [[]|]. Qed.

(** An attribute that can be written and read back. *)
Definition writable_attr (f : Field ann) (kx : string * value) : Prop :=
  conforming_attr f kx ∧ carried (f_ann f) kx.2 = true.

Lemma code_default {n} f o e :
  field_code n f o e → conforms (f_ann f) VNone = true →
  ∀ obj, dict_get obj (f_alias f) = None → entry obj e = Ret (default VNone (f_default f)).
Proof.
  intros Hcode Ht obj Hobj.
  assert (is_none (fill n f) = true → default VNone (f_default f) = VNone) as Hfill.
  { unfold fill. destruct (f_default f) as [[]|]; done. }
  destruct Hcode as [Hp Hf _|dflt Hp Hn _ _ Hf|s t g Hm _ Hf _|s t g Hm _ Hf _|s t g Hm _ Hf _];
    unfold entry; cbn [entry_key]; rewrite Hobj; cbn; try (by rewrite (Hfill Hf)).
  unfold never_none in Hn. rewrite plain_conforms in Ht by done. rewrite Ht in Hn.
  unfold fill in Hf. by destruct (f_default f) as [[]|]; try done; rewrite Hf.
Qed.

(** The code of a field whose value is [None] leaves the dictionary alone. *)
Lemma code_none {n} f o e c all :
  field_code n f o e → dict_get all (f_name f) = Some VNone →
  ∀ d, override_opt (VObj c all) d o = Ret d.
Proof. intros Hcode Hx d. destruct Hcode; cbn; rewrite ?Hx; done. Qed.

(** An override and an entry for a field whose attribute is [x]: from what the
    override stores over pydantic's [w0] the entry reads [y], a settled attribute. *)
Definition field_written (f : Field ann) (o : option Override) (e : Entry) (x w0 y : value) : Prop :=
  ∃ w, (∀ c all pre d, dict_get all (f_name f) = Some x → f_alias f ∉ pre.*1 →
          override_opt (VObj c all) (pre ++ (f_alias f, w0) :: d) o =
          Ret (pre ++ (f_alias f, w) :: d)) ∧
       (∀ obj, dict_get obj (f_alias f) = Some w → entry obj e = Ret y) ∧
       typed_attr f (f_name f, y).

Lemma nested_typed f a y :
  maybe_optional a (f_ann f) → settled a y = true → y ≠ VNone → unchecked f → typed_attr f (f_name f, y).
Proof.
  intros Hm Hy Hyn Hu. split_and!; [done| |by apply default_kept_some; destruct y|apply Hu].
  cbn [snd]. by destruct (maybe_optional_inv _ _ y Hm Hyn) as (-> & _).
Qed.

Lemma plain_field_written f e x w0 :
  plain_ann (f_ann f) = true → conforming_attr f (f_name f, x) → x ≠ VNone → (plain x = true → w0 = x) →
  (∀ obj, dict_get obj (f_alias f) = Some x → entry obj e = Ret x) →
  field_written f None e x w0 (rebuilt (f_ann f) x).
Proof.
  intros Hp (_ & Ht & Hck) Hn Hw0 He. cbn [snd] in *. rewrite plain_conforms in Ht by done.
  rewrite plain_rebuilt by done. exists x. rewrite (Hw0 (plain_ann_plain _ _ Hp Ht)).
  split_and!; [done..|]. split_and!; [done..| |done]. apply default_kept_some. by destruct x.
Qed.

Section Written.
Context (s : Schema) (t g : value → outcome value) `{HR : !RoundTrip s t g}.
Context (f : Field ann) (w0 : value) (Hu : unchecked f).

Lemma model_field_written x :
  maybe_optional (Model s) (f_ann f) → conforms (Model s) x = true → carried (Model s) x = true →
  field_written f (Some (Dump (f_name f) (f_alias f) t)) (FromDict (f_alias f) g) x w0 (rebuilt (Model s) x).
Proof using HR Hu.
  intros Hm Ht Hcr. destruct (round_trip x Ht Hcr) as (w & Hw & Hwn & Hg & Ha). exists w. split_and!.
  - intros c all pre d Hx Hpre. cbn. rewrite Hx. cbn. rewrite (model_truth s x Ht), Hw. cbn.
    by rewrite dict_set_app.
  - intros obj Hobj. unfold entry. cbn [entry_key]. rewrite Hobj. cbn. by destruct w.
  - eapply nested_typed; [done..| |done]. by intros E'; apply settled_accepts in Ha; rewrite E' in Ha.
Qed.

Lemma items_field_written l :
  maybe_optional (List (Model s)) (f_ann f) → (plain (VList l) = true → w0 = VList l) →
  forallb (conforms (Model s)) l = true → forallb (carried (Model s)) l = true →
  field_written f (Some (DumpItems (f_name f) (f_alias f) t)) (FromDictItems (f_alias f) g)
    (VList l) w0 (VList (map (rebuilt (Model s)) l)).
Proof using HR Hu.
  intros Hm Hw0 Ht Hcr. destruct (dump_items_ok s t g l Ht Hcr) as (ws & Hws & Hf & Ha).
  exists (VList ws). split_and!.
  - intros c all pre d Hx Hpre. cbn. rewrite Hx. cbn. destruct l as [|x l]; cbn -[dump_items].
    + rewrite (Hw0 eq_refl). by injection Hws as <-.
    + rewrite Hws. cbn. by rewrite dict_set_app.
  - intros obj Hobj. unfold entry. cbn [entry_key]. rewrite Hobj. cbn -[rebuilt]. by rewrite Hf.
  - by eapply nested_typed.
Qed.

Lemma values_field_written d0 :
  maybe_optional (Dict (Model s)) (f_ann f) → (plain (VDict d0) = true → w0 = VDict d0) →
  conforms (Dict (Model s)) (VDict d0) = true → forallb (fun kv => carried (Model s) kv.2) d0 = true →
  field_written f (Some (DumpValues (f_name f) (f_alias f) t)) (FromDictValues (f_alias f) g)
    (VDict d0) w0 (VDict (map (fun kv => (kv.1, rebuilt (Model s) kv.2)) d0)).
Proof using HR Hu.
  intros Hm Hw0 Ht Hcr.
  change (distinct (map fst d0) && forallb (fun kv => conforms (Model s) kv.2) d0 = true) in Ht.
  apply andb_true_iff in Ht as [Hd Ht].
  destruct (dump_values_ok s t g d0 Ht Hcr) as (ws & Hws & Hf & Ha). exists (VDict ws). split_and!.
  - intros c all pre d Hx Hpre. cbn. rewrite Hx. cbn. destruct d0 as [|x d0]; cbn -[dump_values].
    + rewrite (Hw0 eq_refl). by injection Hws as <-.
    + rewrite Hws. cbn. by rewrite dict_set_app.
  - intros obj Hobj. unfold entry. cbn [entry_key]. rewrite Hobj. cbn -[rebuilt]. by rewrite Hf.
  - eapply nested_typed; [done| |done..].
    change (distinct (map fst (map (fun kv => (kv.1, rebuilt (Model s) kv.2)) d0)) &&
      forallb (fun kv => settled (Model s) kv.2) (map (fun kv => (kv.1, rebuilt (Model s) kv.2)) d0) = true).
    rewrite map_map, Ha, andb_true_r. exact Hd.
Qed.
End Written.

(** The code of a field that is set stores a value from which it reads it back. *)
Lemma code_some {n} f o e x w0 :
  field_code n f o e → writable_attr f (f_name f, x) → x ≠ VNone → (plain x = true → w0 = x) →
  field_written f o e x w0 (rebuilt (f_ann f) x).
Proof.
  intros Hcode [Hconf Hcr] Hn Hw0. pose proof Hconf as (_ & Ht & _). cbn [snd] in *.
  destruct Hcode as [Hp _ _|dflt Hp _ _ _ _|s t g Hm Hu _ HR|s t g Hm Hu _ HR|s t g Hm Hu _ HR].
  1,2: apply plain_field_written; [done..|]; intros obj Hobj; unfold entry; cbn [entry_key]; rewrite Hobj;
    by destruct x.
  all: destruct (maybe_optional_inv _ _ x Hm Hn) as (_ & E & _ & [E1 E2]%(fun H => H eq_refl));
    rewrite E in Ht; rewrite E1 in Hcr; rewrite E2.
  - by eapply model_field_written; first [exact _|done].
  - destruct x as [| | | | | |l| | |]; try done. by eapply items_field_written; first [exact _|done].
  - destruct x as [| | | | | | |d| |]; try done. by eapply values_field_written; first [exact _|done].
Qed.

(** A settled attribute is read back as it was. *)
Lemma code_settled {n} f o e kx :
  field_code n f o e → typed_attr f kx → writable_attr f kx ∧ rebuilt_field f kx.2 = kx.2.
Proof.
  intros Hcode Ht. pose proof (typed_conforming _ _ Ht) as Hc.
  assert (carried (f_ann f) kx.2 = true ∧ rebuilt_field f kx.2 = kx.2) as [? ?]; [|by split_and!].
  destruct Ht as (_ & Ht & Hk & _), kx as [k x]. cbn [fst snd] in *. unfold rebuilt_field.
  destruct (is_none x) eqn:Hn.
  - destruct x; try done. unfold default_kept in Hk.
    split; [|by destruct (f_default f) as [[]|]].
    destruct Hcode as [Hp _ _|dflt Hp _ _ _ _|s t g Hm _ _ _|s t g Hm _ _ _|s t g Hm _ _ _];
      [by apply plain_carried..| | |]; apply settled_accepts in Ht; by destruct Hm.
  - assert (x ≠ VNone) as Hx by (by destruct x).
    destruct Hcode as [Hp _ _|dflt Hp _ _ _ _|s t g Hm _ _ HR|s t g Hm _ _ HR|s t g Hm _ _ HR];
      [by rewrite plain_carried, plain_rebuilt..| | |];
      destruct (maybe_optional_inv _ _ x Hm Hx) as (E & _ & _ & [-> ->]%(fun H => H eq_refl)); rewrite E in Ht.
    + by apply settled_rebuilt.
    + destruct x as [| | | | | |l| | |]; try done. destruct (settled_items s t g l Ht) as [Hcr Hr].
      split; [done|]. by rewrite <- Hr at 2.
    + destruct x as [| | | | | | |d| |]; try done.
      change (distinct (map fst d) && forallb (fun kv => settled (Model s) kv.2) d = true) in Ht.
      apply andb_true_iff in Ht as [_ Ht]. destruct (settled_values s t g d Ht) as [Hcr Hr].
      split; [done|]. by rewrite <- Hr at 2.
Qed.

Lemma code_key {n} f o e : field_code n f o e → entry_key e = f_alias f.
Proof. by intros []. Qed.

(** The overrides and entries that fit a list of fields. *)
Inductive coded (n : string) : list (Field ann) → list Override → list Entry → Prop :=
| coded_nil : coded n [] [] []
| coded_plain f e fs os es :
    field_code n f None e → coded n fs os es → coded n (f :: fs) os (e :: es)
| coded_over f o e fs os es :
    field_code n f (Some o) e → coded n fs os es → coded n (f :: fs) (o :: os) (e :: es).

Lemma coded_cons {n} f fs os es :
  coded n (f :: fs) os es →
  ∃ o e os' es', field_code n f o e ∧ coded n fs os' es' ∧ es = e :: es' ∧
    ∀ self d, overrides self d os = override_opt self d o ≫= fun d => overrides self d os'.
Proof. inversion 1; subst; [exists None|exists (Some o)]; by eexists _, _, _. Qed.

Lemma coded_settled {n} fs os es attrs :
  coded n fs os es → Forall2 typed_attr fs attrs →
  Forall2 writable_attr fs attrs ∧ rebuilt_attrs fs attrs = attrs.
Proof.
  intros Hc. revert attrs. induction Hc as [|f e fs os es Hcode _ IH|f o e fs os es Hcode _ IH];
    intros attrs Ht;
    first [ apply Forall2_nil_inv_l in Ht as ->; split; [constructor|done]
          | apply Forall2_cons_inv_l in Ht as ([k x] & attrs' & Hx & Ht & ->);
            destruct (code_settled _ _ _ _ Hcode Hx) as [Hw Hr], (IH _ Ht) as [Hws Hrs];
            split; [by constructor|]; unfold rebuilt_attrs in *; cbn in Hr |- *; by rewrite Hr, Hrs ].
Qed.

(** The default of a field is a value of it. *)
Definition default_typed (f : Field ann) : bool :=
  match f_default f with
  | Some v => conforms (f_ann f) v && unit_ok (f_check f v)
  | None => true
  end.

Lemma default_settled {n} f o e :
  field_code n f o e → default_typed f = true → conforming_attr f (f_name f, VNone) →
  typed_attr f (f_name f, default VNone (f_default f)).
Proof.
  intros Hcode Hd (_ & Ht & Hc). cbn [snd] in *. unfold typed_attr, default_kept, default_typed in *. cbn [fst snd].
  assert (settled (f_ann f) VNone = true) as Hs.
  { destruct Hcode as [Hp _ _|dflt Hp _ _ _ _|s t g Hm _ _ _|s t g Hm _ _ _|s t g Hm _ _ _];
      [by rewrite <- plain_conforms..| | |]; apply conforms_accepts in Ht; by destruct Hm. }
  destruct (f_default f) as [v|] eqn:E; cbn; [|by split_and!].
  apply andb_true_iff in Hd as [Hv Hcv]. split_and!; [done| |by destruct v|by destruct (f_check f v) as [[]| |]].
  destruct (is_none v) eqn:En; [by destruct v|].
  assert (plain_ann (f_ann f) = true) as Hp; [|by rewrite <- plain_conforms].
  assert (is_none (fill n f) = false) as Hf by (unfold fill; by rewrite E).
  destruct Hcode; congruence.
Qed.

Lemma overrides_ok {n} c all fs os es attrs pre d0 :
  coded n fs os es → forallb default_typed fs = true →
  Forall2 writable_attr fs attrs → dumped fs attrs d0 →
  (∀ kx, kx ∈ attrs → dict_get all kx.1 = Some kx.2) →
  NoDup (f_alias <$> fs) → (∀ f, f ∈ fs → f_alias f ∉ pre.*1) →
  ∃ d1, overrides (VObj c all) (pre ++ d0) os = Ret (pre ++ d1) ∧ d1.*1 = d0.*1 ∧
    Forall2 typed_attr fs (rebuilt_attrs fs attrs) ∧
    ∀ obj, (∀ f, f ∈ fs → dict_get obj (f_alias f) = dict_get d1 (f_alias f)) →
           entries obj es = Ret (zip (f_alias <$> fs) (rebuilt_attrs fs attrs).*2).
Proof.
  revert os es attrs pre d0. induction fs as [|f fs IH]; intros os es attrs pre d0 Hc Hdt Ht Hd Hall Hnd Hpre.
  { inversion Hc; subst. inversion Ht; subst. inversion Hd; subst. exists []. split_and!; [done..|constructor|done]. }
  apply coded_cons in Hc as (o & e & os' & es' & Hcode & Hc & -> & Hos).
  cbn in Hdt. apply andb_true_iff in Hdt as [Hdf Hdt].
  apply Forall2_cons_inv_l in Ht as ([k x] & attrs' & Hx & Ht & ->).
  pose proof Hx as [Hcf _]. pose proof Hcf as (Hk & Hcx & _). cbn [fst snd] in Hk, Hcx. subst k.
  pose proof (Hall _ (list_elem_of_here _ _)) as Hgx. cbn [fst snd] in Hgx.
  rewrite fmap_cons in Hnd. apply NoDup_cons in Hnd as [Hfresh Hnd].
  assert (∀ kx, kx ∈ attrs' → dict_get all kx.1 = Some kx.2) as Hall' by set_solver.
  unfold rebuilt_attrs. cbn [zip_with]. fold (rebuilt_attrs fs attrs'). cbn [fst snd].
  rewrite !fmap_cons. cbn [zip_with entries snd]. rewrite (code_key _ _ _ Hcode). unfold rebuilt_field.
  rewrite Hos. inversion Hd as [|? ? ? ? ? Hd'|? ? ? ? w0 ? d' Hn Hw Hd']; subst.
  - pose proof (code_none _ _ _ c all Hcode Hgx) as Hov.
    pose proof (code_default _ _ _ Hcode Hcx) as Hen. rewrite Hov.
    destruct (IH _ _ _ pre _ Hc Hdt Ht Hd' Hall' Hnd) as (d1 & H1 & H2 & H3 & H4); [set_solver|].
    exists d1. split_and!; [done..|constructor; [by eapply default_settled|done]|].
    intros obj Hobj. rewrite Hen, (H4 obj); [done|set_solver|].
    rewrite Hobj by set_solver. apply dict_get_notin. rewrite H2, (dumped_keys _ _ _ Hd').
    intros Hin. apply Hfresh. by apply (set_keys_sublist _ _ _ Hin).
  - destruct (code_some _ _ _ _ _ Hcode Hx Hn Hw) as (w & Hov & Hen & Hacc).
    assert (is_none x = false) as -> by (by destruct x).
    rewrite (Hov c all) by (done || apply Hpre; set_solver). cbn [mbind outcome_bind].
    destruct (IH _ _ _ (pre ++ [(f_alias f, w)]) _ Hc Hdt Ht Hd' Hall' Hnd) as (d1 & H1 & H2 & H3 & H4).
    { intros f' Hf'. rewrite fmap_app. cbn. apply not_elem_of_app. split; [set_solver|].
      rewrite list_elem_of_singleton. intros Heq. apply Hfresh. rewrite <- Heq.
      by apply list_elem_of_fmap_2. }
    rewrite <- !app_assoc in H1. exists ((f_alias f, w) :: d1). cbn in H1 |- *.
    split_and!; [done|by f_equal|by constructor|]. intros obj Hobj. rewrite Hen, (H4 obj); [done| |].
    + intros f' Hf'. rewrite Hobj by set_solver. rewrite (proj2 (String.eqb_neq _ _)); [done|].
      intros Heq. apply Hfresh. rewrite Heq. by apply list_elem_of_fmap_2.
    + rewrite Hobj by set_solver. by rewrite String.eqb_refl.
Qed.

Section OneClass.
Context `{HL : PydanticLaws}.

Lemma typed_accepted f kx : typed_attr f kx → arg_accepted f kx.2 = true.
Proof. intros (_ & Ht & _ & Hc). unfold arg_accepted. by rewrite (settled_accepts _ _ Ht), Hc. Qed.

Lemma arg_accepted_validates f v : arg_accepted f v = true → validate_field f v = Ret v.
Proof using HL.
  intros [Ha Hc]%andb_true_iff. unfold validate_field. rewrite validate_accepts by done. cbn.
  by destruct (f_check f v).
Qed.

(** The case in which every field is given. *)
Lemma validate_dict s d attrs :
  Forall2 (fun f kx => kx.1 = f_name f ∧
             ∃ v, dict_get d (f_alias f) = Some v ∧ validate_field f v = Ret kx.2)
    (s_fields s) attrs →
  validate (Model s) (VDict d) = Ret (VObj (s_name s) attrs).
Proof using HL.
  intros Hf. apply validate_kwargs. eapply Forall2_impl; [exact Hf|].
  intros f kx (Hk & v & -> & Hv). done.
Qed.

Lemma typed_validate_dict s attrs :
  distinct (f_alias <$> s_fields s) = true → Forall2 typed_attr (s_fields s) attrs →
  validate (Model s) (VDict (zip (f_alias <$> s_fields s) attrs.*2)) = Ret (VObj (s_name s) attrs).
Proof using HL.
  intros Hd%distinct_NoDup Ht. apply validate_dict.
  pose proof (Forall2_length _ _ _ Ht) as Hlen.
  apply Forall2_same_length_lookup_2; [done|]. intros i f kx Hf Hkx.
  pose proof (Forall2_lookup_lr _ _ _ _ _ _ Ht Hf Hkx) as Hty. split; [apply Hty|].
  exists kx.2. split; [|by apply arg_accepted_validates, typed_accepted].
  apply dict_get_elem.
  - rewrite fst_zip; [done|]. rewrite !length_fmap. lia.
  - apply (list_elem_of_lookup_2 _ i), lookup_zip_with_Some.
    exists (f_alias f), kx.2. by rewrite !list_lookup_fmap, Hf, Hkx.
Qed.

(** [to_dict] gives a dictionary with exactly the set fields under their aliases
    in the declared order, from which the entries of [from_dict] read the
    attributes back. *)
Lemma coded_to_dict s os es attrs :
  distinct (f_alias <$> s_fields s) = true → distinct (f_name <$> s_fields s) = true →
  coded (s_name s) (s_fields s) os es → forallb default_typed (s_fields s) = true →
  Forall2 writable_attr (s_fields s) attrs →
  ∃ d, to_dict_with s os (VObj (s_name s) attrs) = Ret (VDict d) ∧
       d.*1 = set_keys (s_fields s) attrs ∧
       Forall2 typed_attr (s_fields s) (rebuilt_attrs (s_fields s) attrs) ∧
       entries d es = Ret (zip (f_alias <$> s_fields s) (rebuilt_attrs (s_fields s) attrs).*2).
Proof using HL.
  intros Ha Hn Hc Hdt Ht. destruct (dump_fields s attrs) as (d0 & Hdump & Hd).
  { apply conforms_model. exists attrs. split; [done|]. eapply Forall2_impl; [done|]. by intros ? ? [? _]. }
  assert (attrs.*1 = f_name <$> s_fields s) as Hnames.
  { clear -Ht. by induction Ht as [|? ? ? ? [(? & _) _]]; cbn; f_equal. }
  destruct (overrides_ok (s_name s) attrs _ _ _ _ [] d0 Hc Hdt Ht Hd) as (d1 & H1 & H2 & H3 & H4).
  - intros [k x] Hin. apply dict_get_elem; [|done]. rewrite Hnames. by apply distinct_NoDup.
  - by apply distinct_NoDup.
  - set_solver.
  - exists d1. cbn in H1. split_and!.
    + unfold to_dict_with. rewrite Hdump. cbn. by rewrite H1.
    + by rewrite H2, (dumped_keys _ _ _ Hd).
    + done.
    + by apply H4.
Qed.
End OneClass.

(** ** Classes written with the template *)

Class Templated `{Pydantic} (s : Schema) (to_dict from_dict : value → outcome value) : Prop :=
  templated : ∃ os es, to_dict = to_dict_with s os ∧ from_dict = from_dict_with s es ∧
    distinct (f_alias <$> s_fields s) = true ∧ distinct (f_name <$> s_fields s) = true ∧
    regular s ∧ forallb default_typed (s_fields s) = true ∧ coded (s_name s) (s_fields s) os es.

Lemma templated_to_dict `{PydanticLaws} s t g attrs :
  Templated s t g → conforms (Model s) (VObj (s_name s) attrs) = true →
  carried (Model s) (VObj (s_name s) attrs) = true →
  ∃ d, t (VObj (s_name s) attrs) = Ret (VDict d) ∧ d.*1 = set_keys (s_fields s) attrs ∧
       g (VDict d) = Ret (rebuilt (Model s) (VObj (s_name s) attrs)) ∧
       settled (Model s) (rebuilt (Model s) (VObj (s_name s) attrs)) = true.
Proof.
  intros (os & es & -> & -> & Ha & Hn & Hr & Hdt & Hc) (? & [= <-] & Hx)%conforms_model Hcr.
  apply (regular_carried s _ attrs Hr (Forall2_length _ _ _ Hx)) in Hcr.
  destruct (coded_to_dict s os es attrs Ha Hn Hc Hdt) as (d & Ht & Hk & Hacc & He).
  { apply Forall2_same_length_lookup_2; [by eapply Forall2_length|]. intros i f kx Hf Hkx.
    exact (conj (Forall2_lookup_lr _ _ _ _ _ _ Hx Hf Hkx) (Forall2_lookup_lr _ _ _ _ _ _ Hcr Hf Hkx)). }
  exists d. rewrite regular_rebuilt by done. split_and!; [done..| |].
  - unfold from_dict_with, model_validate. rewrite He. by apply typed_validate_dict.
  - apply settled_model. eexists. split_and!; [done| |done]. destruct s as [n fs i]. cbn in Hr |- *. by subst i.
Qed.

#[export] Instance templated_round_trip `{PydanticLaws} s t g : Templated s t g → RoundTrip s t g.
Proof.
  intros Hm. split.
  - intros x Hx Hcr. pose proof Hx as (attrs & -> & _)%conforms_model.
    destruct (templated_to_dict s t g attrs Hm Hx Hcr) as (d & Ht & _ & Hg). by exists (VDict d).
  - intros x (attrs & -> & _ & Ht)%settled_model. destruct Hm as (os & es & _ & _ & _ & _ & Hr & _ & Hc).
    destruct (coded_settled _ _ _ _ Hc Ht) as [Hw E]. rewrite regular_rebuilt, E by done. split; [|done].
    apply regular_carried; [done|by eapply Forall2_length|]. eapply Forall2_impl; [done|]. by intros ? ? [_ ?].
Qed.

(** ** What [from_dict] returns *)

Lemma entries_lookup obj es args i e :
  entries obj es = Ret args → es !! i = Some e →
  ∃ v, entry obj e = Ret v ∧ args !! i = Some (entry_key e, v).
Proof.
  revert args i. induction es as [|e' es IH]; intros args i; [done|]. cbn.
  intros (v & Hv & (rest & Hrest & [= <-])%outcome_bind_Ret)%outcome_bind_Ret.
  destruct i as [|i]; cbn; [intros [= <-]; eauto|by apply IH].
Qed.

Lemma coded_keys {n} fs os es : coded n fs os es → entry_key <$> es = f_alias <$> fs.
Proof.
  induction 1 as [|f e fs os es Hc _ IH|f o e fs os es Hc _ IH]; [done|..];
    rewrite !fmap_cons, IH; by rewrite (code_key _ _ _ Hc).
Qed.


Lemma iter_data v l : data v = true → iter v = Ret l → Forall (fun x => data x = true) l.
Proof.
  assert (∀ A (f : A → value) l, (∀ a, data (f a) = true) → Forall (fun x => data x = true) (map f l))
    as Hmap.
  { intros A f l0 Hf. apply Forall_map, Forall_forall. auto. }
  destruct v as [| | | |s| |l0|d| |]; cbn; try done; intros Hv [= <-]; try by apply Hmap.
  apply Forall_forall. intros x Hx. rewrite forallb_forall in Hv. by apply Hv, list_elem_of_In.
Qed.

Section Returned.
Context `{HL : PydanticLaws}.

(** Validation of a nested instance returns it, and refuses [None]. *)
Lemma validate_nested s y x :
  y = VNone ∨ conforms (Model s) y = true → validate (Model s) y = Ret x →
  conforms (Model s) x = true.
Proof using HL.
  intros [->|Hy] Hx.
  - by destruct (validate_rejects (Model s) VNone eq_refl) as [what Hw]; rewrite Hw in Hx.
  - pose proof Hy as (attrs & -> & _)%conforms_model.
    rewrite validate_accepts in Hx by (cbn; apply String.eqb_refl). by injection Hx as <-.
Qed.

Lemma from_items_sound s g l ys zs :
  Sound s g → Forall (fun x => data x = true) l → from_items g l = Ret ys →
  Forall2 (fun y z => validate (Model s) y = Ret z) ys zs → forallb (conforms (Model s)) zs = true.
Proof using HL.
  intros HS Hl. revert ys zs. induction Hl as [|v l Hv _ IH]; intros ys zs; cbn [from_items].
  - intros [= <-]. by inversion 1.
  - intros (y & Hy & (ys' & Hys & [= <-])%outcome_bind_Ret)%outcome_bind_Ret.
    intros (z & zs' & Hz & Hzs & ->)%Forall2_cons_inv_l. cbn [forallb].
    rewrite (IH _ _ Hys Hzs), andb_true_r. eapply validate_nested; [|done].
    destruct (sound v y Hv Hy) as [[_ ->]|]; auto.
Qed.

Lemma from_values_sound s g d ys zs :
  Sound s g → data (VDict d) = true → from_values g d = Ret ys →
  Forall2 (fun kv kv' => kv.1 = kv'.1 ∧ validate (Model s) kv.2 = Ret kv'.2) ys zs →
  conforms (Dict (Model s)) (VDict zs) = true.
Proof using HL.
  intros HS Hd Hys Hzs.
  assert (zs.*1 = d.*1 ∧ forallb (fun kv => conforms (Model s) kv.2) zs = true) as [Hk Hf].
  2:{ change (distinct zs.*1 && forallb (fun kv => conforms (Model s) kv.2) zs = true).
      cbn in Hd. apply andb_true_iff in Hd as [Hd _]. by rewrite Hk, Hd, Hf. }
  cbn in Hd. apply andb_true_iff in Hd as [_ Hd]. revert ys zs Hys Hzs.
  induction d as [|[k v] d IH]; intros ys zs; cbn [from_values].
  - intros [= <-]. by inversion 1.
  - cbn in Hd. apply andb_true_iff in Hd as [Hv Hd].
    intros (y & Hy & (ys' & Hys & [= <-])%outcome_bind_Ret)%outcome_bind_Ret.
    intros ([k' z] & zs' & [Hk Hz] & Hzs & ->)%Forall2_cons_inv_l. cbn in Hk, Hz. subst k'.
    destruct (IH Hd _ _ Hys Hzs) as [Hk Hf]. split; [by rewrite !fmap_cons, Hk|]. cbn [forallb snd].
    rewrite Hf, andb_true_r. eapply validate_nested; [|done].
    destruct (sound v y Hv Hy) as [[_ ->]|]; auto.
Qed.

Lemma validate_field_inv f y x :
  validate_field f y = Ret x → validate (f_ann f) y = Ret x ∧ f_check f x = Ret tt.
Proof.
  unfold validate_field. intros (x' & Hx & Hc)%outcome_bind_Ret.
  destruct (f_check f x') as [[]|[]|] eqn:Hf; try done. by injection Hc as <-.
Qed.

(** Validation against [a] or [Optional[a]]. *)
Lemma validate_maybe_optional a b y x :
  maybe_optional a b → validate b y = Ret x →
  (y = VNone ∧ x = VNone ∧ conforms b x = true) ∨
  (validate a y = Ret x ∧ (conforms a x = true → conforms b x = true)).
Proof using HL.
  intros [] Hx; [by right|].
  apply validate_optional in Hx as [[-> ->]|[_ Hx]]; [by left|]. right. split; [done|]. by destruct x.
Qed.

Lemma code_sound {n} f o e obj y x :
  field_code n f o e → data (VDict obj) = true → entry obj e = Ret y → validate (f_ann f) y = Ret x →
  conforms (f_ann f) x = true.
Proof using HL.
  intros Hcode Hobj He Hx.
  assert (data (default VNone (dict_get obj (entry_key e))) = true) as Hv.
  { destruct (dict_get obj (entry_key e)) eqn:E; [by eapply data_get|done]. }
  destruct Hcode as [Hp _ _|dflt Hp _ Hd _ _|s t g Hm _ _ HS|s t g Hm _ _ HS|s t g Hm _ _ HS];
    unfold entry in He; cbn [entry_key] in He, Hv.
  - injection He as <-. rewrite plain_conforms by done. by eapply validate_plain.
  - rewrite plain_conforms by done. eapply validate_plain; [done| |done].
    injection He as <-. by destruct (is_none _).
  - destruct (validate_maybe_optional _ _ _ _ Hm Hx) as [(_ & _ & ?)|[Hx' Hc]]; [done|].
    apply Hc. eapply validate_nested; [|done]. destruct (is_none _); [left; congruence|].
    destruct (sound _ y Hv He) as [[_ ->]|]; auto.
  - destruct (validate_maybe_optional _ _ _ _ Hm Hx) as [(_ & _ & ?)|[Hx' Hc]]; [done|].
    apply Hc. destruct (is_none _).
    { injection He as <-. by destruct (validate_rejects (List (Model s)) VNone eq_refl) as [w Hw]; congruence. }
    apply outcome_bind_Ret in He as (l & Hl & (ys & Hys & [= <-])%outcome_bind_Ret).
    apply validate_items in Hx' as (zs & -> & Hzs).
    exact (from_items_sound s g l ys zs _ (iter_data _ _ Hv Hl) Hys Hzs).
  - destruct (validate_maybe_optional _ _ _ _ Hm Hx) as [(_ & _ & ?)|[Hx' Hc]]; [done|].
    apply Hc. destruct (is_none _).
    { injection He as <-. by destruct (validate_rejects (Dict (Model s)) VNone eq_refl) as [w Hw]; congruence. }
    apply outcome_bind_Ret in He as (d & Hd & (ys & Hys & [= <-])%outcome_bind_Ret).
    apply validate_values in Hx' as (zs & -> & Hzs).
    destruct (default VNone _) as [| | | | | | |d0| |]; try done. injection Hd as <-.
    exact (from_values_sound s g d0 ys zs _ Hv Hys Hzs).
Qed.

Lemma coded_lookup {n} fs os es i f :
  coded n fs os es → fs !! i = Some f → ∃ o e, es !! i = Some e ∧ field_code n f o e.
Proof.
  intros Hc. revert i. induction Hc as [|f' e fs os es Hcode _ IH|f' o e fs os es Hcode _ IH];
    intros [|i]; cbn; try done; try (by intros [= <-]; eauto); apply IH.
Qed.

Lemma entries_keys obj es args : entries obj es = Ret args → args.*1 = entry_key <$> es.
Proof.
  revert args. induction es as [|e es IH]; intros args; [by intros [= <-]|]. cbn.
  intros (v & _ & (rest & Hrest & [= <-])%outcome_bind_Ret)%outcome_bind_Ret.
  rewrite !fmap_cons. by f_equal; auto.
Qed.

Lemma coded_sound s os es :
  distinct (f_alias <$> s_fields s) = true → coded (s_name s) (s_fields s) os es →
  Sound s (from_dict_with s es).
Proof using HL.
  intros Ha Hc v x Hv. unfold from_dict_with, model_validate.
  assert (rejects (Model s) v = true → validate (Model s) v = Ret x →
          (v = VNone ∧ x = VNone) ∨ conforms (Model s) x = true) as Hrej.
  { intros [what Hw]%validate_rejects. congruence. }
  destruct v as [| | | | | | |d| |]; try (by apply Hrej); [by intros [= <-]; left|].
  intros (args & Hargs & Hx)%outcome_bind_Ret. right.
  assert (args.*1 = f_alias <$> s_fields s) as Hkeys
    by (rewrite (entries_keys _ _ _ Hargs); by eapply coded_keys).
  assert (∀ i f, s_fields s !! i = Some f → ∃ o e y, field_code (s_name s) f o e ∧ entry d e = Ret y ∧
    dict_get args (f_alias f) = Some y) as Hfields.
  { intros i f Hf. destruct (coded_lookup _ _ _ _ _ Hc Hf) as (o & e & He & Hcode).
    destruct (entries_lookup _ _ _ _ _ Hargs He) as (y & Hy & Hi). exists o, e, y. split_and!; [done..|].
    rewrite (code_key _ _ _ Hcode) in Hi.
    apply dict_get_elem; [by rewrite Hkeys; apply distinct_NoDup|by eapply list_elem_of_lookup_2]. }
  apply validate_fields in Hx as (attrs & -> & Hattrs).
  apply conforms_model. exists attrs. split; [done|]. pose proof (Forall2_length _ _ _ Hattrs) as Hlen.
  apply Forall2_same_length_lookup_2; [done|]. intros i f kx Hf Hkx.
  destruct (Hfields _ _ Hf) as (o & e & y & Hcode & He & Hy).
  destruct (Forall2_lookup_lr _ _ _ _ _ _ Hattrs Hf Hkx) as [Hk Hval]. unfold argument in Hval.
  rewrite Hy in Hval. apply validate_field_inv in Hval as [Hval Hcheck]. split_and!; [done|by eapply code_sound|done].
Qed.
End Returned.

(** [from_dict] reads nothing but the keys of its entries. *)
Lemma entries_ext obj obj' es :
  (∀ e, e ∈ es → dict_get obj (entry_key e) = dict_get obj' (entry_key e)) →
  entries obj es = entries obj' es.
Proof.
  induction es as [|e es IH]; intros He; [done|]. cbn.
  rewrite IH by set_solver. unfold entry. by rewrite (He e) by set_solver.
Qed.

Lemma templated_unknown_keys `{Pydantic} s t g d d' :
  Templated s t g →
  (∀ f, f ∈ s_fields s → dict_get d (f_alias f) = dict_get d' (f_alias f)) →
  g (VDict d) = g (VDict d').
Proof.
  intros (os & es & _ & -> & _ & _ & _ & _ & Hc) Hd. unfold from_dict_with.
  rewrite (entries_ext d d' es); [done|]. intros e He.
  apply (list_elem_of_fmap_2 entry_key) in He. rewrite (coded_keys _ _ _ Hc) in He.
  apply list_elem_of_fmap_1 in He as (f & -> & Hf). auto.
Qed.

(** The arguments that [from_dict] computes are all accepted or refused, and one
    of them is refused. *)
Definition args_refused (fs : list (Field ann)) (args : list (string * value)) : bool :=
  let arg f := default VNone (dict_get args (f_alias f)) in
  forallb (fun f => bool_decide (is_Some (dict_get args (f_alias f))) &&
                    (arg_accepted f (arg f) || arg_refused f (arg f))) fs &&
  existsb (fun f => arg_refused f (arg f)) fs.

Section Refused.
Context `{HL : PydanticLaws}.

Lemma arg_refused_raises f v :
  arg_refused f v = true → ∃ what, validate_field f v = Raise (ValidationError what).
Proof using HL.
  unfold validate_field. intros [Hr|[Ha Hc]%andb_true_iff]%orb_true_iff.
  - destruct (validate_rejects _ _ Hr) as [what ->]. by exists what.
  - rewrite validate_accepts by done. cbn. destruct (f_check f v) as [|[]|]; try done. by eexists.
Qed.

Lemma args_refused_raises s args :
  args_refused (s_fields s) args = true →
  ∃ what, validate (Model s) (VDict args) = Raise (ValidationError what).
Proof using HL.
  intros [Hall Hex]%andb_true_iff. rewrite forallb_forall in Hall. apply validate_dict_error.
  - apply Forall_forall. intros f Hf. apply list_elem_of_In, Hall in Hf.
    apply andb_true_iff in Hf as [[v Hv]%bool_decide_eq_true Hf]. exists v. split; [done|].
    rewrite Hv in Hf. cbn in Hf. apply orb_true_iff in Hf as [Hf|Hf].
    + left. exists v. by apply arg_accepted_validates.
    + right. by apply arg_refused_raises.
  - apply existsb_exists in Hex as (f & Hf & Hr). pose proof (Hall f Hf) as Hsome.
    apply andb_true_iff in Hsome as [[v Hv]%bool_decide_eq_true _]. rewrite Hv in Hr.
    apply Exists_exists. exists f. split; [by apply list_elem_of_In|]. exists v.
    split; [done|]. by apply arg_refused_raises.
Qed.

Lemma from_dict_with_refused s es d args :
  entries d es = Ret args → args_refused (s_fields s) args = true →
  ∃ what, from_dict_with s es (VDict d) = Raise (ValidationError what).
Proof using HL.
  intros He Hr. unfold from_dict_with, model_validate. rewrite He. by apply args_refused_raises.
Qed.
End Refused.

(** ** Collections of classes *)

Record ApiModel : Type := {
  m_schema : Schema;
  m_to_dict : value → outcome value;
  m_from_dict : value → outcome value;
  m_to_json : value → outcome string;
  m_from_json : string → outcome value;
  m_to_str : value → outcome string;
}.

Definition is_templated `{Pydantic} (m : ApiModel) : Prop :=
  Templated (m_schema m) (m_to_dict m) (m_from_dict m) ∧
  m_to_json m = to_json_with (m_to_dict m) ∧ m_from_json m = from_json_with (m_from_dict m) ∧
  m_to_str m = to_str_with (m_schema m).

(** ** The generated validators *)

Lemma one_of_decides values x :
  one_of values x = Ret tt ∨ ∃ what, one_of values x = Raise (ValueError what).
Proof. unfold one_of, enum_error. destruct (in_enum values x); eauto. Qed.
Lemma check_all_decides values l :
  check_all values l = Ret tt ∨ ∃ what, check_all values l = Raise (ValueError what).
Proof.
  induction l as [|x l IH]; [by left|]. cbn.
  destruct (one_of_decides values x) as [->|[what ->]]; [done|]. right. by exists what.
Qed.
Lemma none_or_one_of_decides values x :
  none_or_one_of values x = Ret tt ∨ ∃ what, none_or_one_of values x = Raise (ValueError what).
Proof. destruct x; first [by left|apply one_of_decides]. Qed.
Lemma none_or_each_of_decides values a x :
  settled (Optional (List a)) x = true →
  none_or_each_of values x = Ret tt ∨ ∃ what, none_or_each_of values x = Raise (ValueError what).
Proof. destruct x; try done; [by left|]. intros _. apply check_all_decides. Qed.
Lemma none_or_each_value_of_decides values a x :
  settled (Optional (Dict a)) x = true →
  none_or_each_value_of values x = Ret tt ∨
  ∃ what, none_or_each_value_of values x = Raise (ValueError what).
Proof. destruct x; try done; [by left|]. intros _. apply check_all_decides. Qed.

(** Solves [check_decides] for a concrete field. *)
Ltac solve_check :=
  let x := fresh in let Hx := fresh in
  intros x Hx;
  first [ left; reflexivity
        | apply one_of_decides | apply none_or_one_of_decides
        | eapply none_or_each_of_decides; exact Hx
        | eapply none_or_each_value_of_decides; exact Hx ].

(** Solves [coded] for concrete fields, overrides and entries. *)
Ltac solve_coded :=
  lazymatch goal with
  | |- coded (s_name ?s) _ _ _ => let n := eval lazy in (s_name s) in change (s_name s) with n
  | |- _ => idtac
  end;
  repeat first
    [ apply coded_nil
    | apply coded_plain;
      [first [ apply code_get; [reflexivity|vm_compute; reflexivity|solve_check]
             | apply code_get_or;
               [reflexivity|reflexivity|reflexivity|solve_check|vm_compute; reflexivity] ]|]
    | apply coded_over;
      [first [ eapply code_model; [constructor|intros ?; reflexivity|vm_compute; reflexivity|typeclasses eauto]
             | eapply code_items; [constructor|intros ?; reflexivity|vm_compute; reflexivity|typeclasses eauto]
             | eapply code_values; [constructor|intros ?; reflexivity|vm_compute; reflexivity|typeclasses eauto] ]|] ].

(** Solves [Templated] for a class written with the template. *)
Ltac solve_model :=
  eexists _, _; split_and!;
  [reflexivity|reflexivity|vm_compute; reflexivity|vm_compute; reflexivity|reflexivity|reflexivity|solve_coded].

(** Solves [Forall is_templated] for a list of classes with their instances. *)
Ltac solve_models :=
  repeat first [apply List.Forall_nil | apply List.Forall_cons; [split_and!; [cbn; typeclasses eauto|reflexivity|reflexivity|reflexivity]|]].
