(* ===== verification/PydanticWrites.v ===== *)
(** * The (de)serialisation template: writing documents back

    What [to_dict] makes of the instance of a valid document, for a class written
    with the template whose nested classes do the same ([Writes]): the document
    itself, in the order of the fields, without null and unknown keys and with the
    defaults filled in ([canon]). *)

From S2P Require Import Prelude PyStr PyValue Pydantic OpenApi OpenApiData Documents PydanticSpec.
Local Open Scope string_scope.
Local Open Scope bool_scope.
Local Open Scope list_scope.

(** ** Lists and dictionaries of models *)

Section Nested.
Context (s : Schema) (t : value → outcome value) `{HW : !Writes s t}.

Lemma items_written l :
  forallb (valid_doc (Model s)) l = true → forallb data l = true →
  forallb (settled (Model s)) (map (built (Model s)) l) = true ∧
  dump_items t (map (built (Model s)) l) = Ret (map (canon (Model s)) l).
Proof using HW.
  induction l as [|v l IH]; cbn -[valid_doc built canon settled]; [done|].
  intros [Hv Hl]%andb_true_iff [Hd Hdl]%andb_true_iff. destruct (IH Hl Hdl) as [Ht Hw].
  destruct (writes v Hv Hd) as [Hvt Hvw]. rewrite (model_truth s _ (settled_conforms _ _ Hvt)), Hvw, Hw, Hvt. done.
Qed.

Lemma values_written d :
  forallb (fun kv => valid_doc (Model s) kv.2) d = true → forallb (fun kv => data kv.2) d = true →
  forallb (fun kv => settled (Model s) kv.2) (map (fun kv => (kv.1, built (Model s) kv.2)) d) = true ∧
  dump_values t (map (fun kv => (kv.1, built (Model s) kv.2)) d) =
  Ret (map (fun kv => (kv.1, canon (Model s) kv.2)) d).
Proof using HW.
  induction d as [|[k v] d IH]; cbn -[valid_doc built canon settled]; [done|].
  intros [Hv Hl]%andb_true_iff [Hd Hdl]%andb_true_iff. destruct (IH Hl Hdl) as [Ht Hw].
  destruct (writes v Hv Hd) as [Hvt Hvw]. rewrite (model_truth s _ (settled_conforms _ _ Hvt)), Hvw, Hw, Hvt. done.
Qed.
End Nested.

(** ** One field *)

Lemma default_kept_fill n f : default_kept f (fill n f) = true.
Proof. unfold default_kept, fill. by destruct (f_default f) as [[]|]. Qed.

Lemma unit_ok_Ret r : unit_ok r = true → r = Ret tt.
Proof. by destruct r as [[]| |]. Qed.

Lemma maybe_optional_typed a b v :
  maybe_optional a b → is_none v = false → settled a v = true → settled b v = true.
Proof. intros [] Hv Ht; [done|]. by destruct v. Qed.

Lemma maybe_optional_doc a b v :
  maybe_optional a b → plain_ann a = false → is_none v = false →
  valid_doc b v = valid_doc a v ∧ built b v = built a v ∧ canon b v = canon a v.
Proof. intros [] Ha Hv; [done|]. cbn. rewrite Ha. by destruct v. Qed.

(** The code of a field stores the attribute of a valid document as [canon] says. *)
Definition writes_field (n : string) (obj : list (string * value)) (f : Field ann)
    (o : option Override) : Prop :=
  let x := field_built n obj f in
  typed_attr f (f_name f, x) ∧ is_none (field_canon n obj f) = is_none x ∧
  (is_none x = false →
   ∀ c all w0 pre d, dict_get all (f_name f) = Some x → (plain x = true → w0 = x) →
     f_alias f ∉ pre.*1 →
     override_opt (VObj c all) (pre ++ (f_alias f, w0) :: d) o =
     Ret (pre ++ (f_alias f, field_canon n obj f) :: d)).

Lemma plain_written n obj f :
  plain_ann (f_ann f) = true → data (VDict obj) = true →
  data (fill n f) = true → field_valid n obj f = true → writes_field n obj f None.
Proof.
  intros Hp Hobj Hf Hv. unfold writes_field, field_built, field_canon, field_valid in *.
  assert (data (present obj f) = true) as Hd.
  { unfold present. destruct (dict_get obj (f_alias f)) eqn:E; [by eapply data_get|done]. }
  assert (∀ x, accepts (f_ann f) x = true → unit_ok (f_check f x) = true → data x = true →
    default_kept f x = true → typed_attr f (f_name f, x) ∧ is_none x = is_none x ∧
    (is_none x = false → ∀ c all w0 pre d, dict_get all (f_name f) = Some x → (plain x = true → w0 = x) →
     f_alias f ∉ pre.*1 →
     override_opt (VObj c all) (pre ++ (f_alias f, w0) :: d) None = Ret (pre ++ (f_alias f, x) :: d))) as Hx.
  { intros x Ha Hc Hdx Hk. apply accepts_settled in Ha; [|done..]. split_and!; [|done|].
    - by split_and!; [..|apply unit_ok_Ret].
    - intros _ c all w0 pre d _ Hw _. by rewrite (Hw (plain_ann_plain _ _ Hp Ha)). }
  destruct (is_none (present obj f)) eqn:Hn.
  - apply andb_true_iff in Hv as [Ha Hc]. apply Hx; [done..|apply default_kept_fill].
  - rewrite plain_valid, plain_built in Hv by done. rewrite plain_built, plain_canon by done.
    apply andb_true_iff in Hv as [Ha Hc]. apply Hx; [done..|by apply default_kept_some].
Qed.

Lemma missing_written n obj f o a :
  maybe_optional a (f_ann f) → accepts a VNone = false → is_none (fill n f) = true →
  is_none (present obj f) = true → field_valid n obj f = true → writes_field n obj f o.
Proof.
  intros Hm Ha Hf Hn Hv. unfold writes_field, field_built, field_canon, field_valid in *. rewrite Hn in *.
  pose proof (default_kept_fill n f) as Hk. destruct (fill n f); try done.
  apply andb_true_iff in Hv as [Hacc Hc]. split_and!; [|done..].
  split_and!; [done| |done|by apply unit_ok_Ret]. cbn [snd]. destruct Hm; [congruence|done].
Qed.

Lemma nested_written n obj f o a :
  let x := present obj f in
  maybe_optional a (f_ann f) → plain_ann a = false → is_none x = false → field_valid n obj f = true →
  (valid_doc a x = true →
   settled a (built a x) = true ∧ is_none (built a x) = false ∧ is_none (canon a x) = false ∧
   ∀ c all w0 pre d, dict_get all (f_name f) = Some (built a x) → (plain (built a x) = true → w0 = built a x) →
     f_alias f ∉ pre.*1 →
     override_opt (VObj c all) (pre ++ (f_alias f, w0) :: d) o = Ret (pre ++ (f_alias f, canon a x) :: d)) →
  writes_field n obj f o.
Proof.
  intros x Hm Hp Hn Hv Hx. unfold writes_field, field_built, field_canon, field_valid in *. fold x in Hv |- *.
  rewrite Hn in *. destruct (maybe_optional_doc a (f_ann f) x Hm Hp Hn) as (Ev & Eb & Ec).
  rewrite Ev, Eb in Hv. rewrite Eb, Ec. apply andb_true_iff in Hv as [Hd Hc].
  destruct (Hx Hd) as (Ht & Hb & Hcn & Ho). rewrite Hb, Hcn. split_and!; [|done|by intros _].
  split_and!; [done|by eapply maybe_optional_typed|by apply default_kept_some|by apply unit_ok_Ret].
Qed.

Lemma code_written {n} f o e obj :
  field_code n f o e → data (VDict obj) = true → field_valid n obj f = true → writes_field n obj f o.
Proof.
  intros Hcode Hobj Hv.
  assert (data (present obj f) = true) as Hd.
  { unfold present. destruct (dict_get obj (f_alias f)) eqn:E; [by eapply data_get|done]. }
  destruct Hcode as [Hp Hf _|dflt Hp _ Hdd _ Hf|s t g Hm _ Hf HC|s t g Hm _ Hf HC|s t g Hm _ Hf HC].
  { apply plain_written; [done..| |done]. by destruct (fill n f). }
  { apply plain_written; [done..| |done]. by rewrite Hf. }
  all: destruct (is_none (present obj f)) eqn:Hn; [by eapply missing_written|].
  all: eapply nested_written; [done..|]; intros Hdoc.
  - destruct (writes _ Hdoc Hd) as [Ht Hw]. pose proof (model_truth s _ (settled_conforms _ _ Ht)) as Htr. split_and!; [done|..].
    + by destruct (built (Model s) (present obj f)).
    + by destruct s as [? ? []], (present obj f).
    + intros c all w0 pre d Hall _ Hpre. cbn -[built canon]. rewrite Hall. cbn -[built canon].
      rewrite Htr, Hw. cbn -[canon]. by rewrite dict_set_app.
  - destruct (present obj f) as [| | | | | |l| | |]; try done.
    destruct (items_written s t l Hdoc Hd) as [Ht Hw].
    change (built (List (Model s)) (VList l)) with (VList (map (built (Model s)) l)).
    change (canon (List (Model s)) (VList l)) with (VList (map (canon (Model s)) l)). split_and!; [done..|].
    intros c all w0 pre d Hall Hw0 Hpre. destruct l as [|v l]; cbn -[built canon dump_items]; rewrite Hall.
    + cbn. by rewrite (Hw0 eq_refl).
    + cbn -[built canon dump_items]. cbn [map] in Hw. rewrite Hw. cbn -[canon]. by rewrite dict_set_app.
  - destruct (present obj f) as [| | | | | | |l| |]; try done. cbn in Hd. apply andb_true_iff in Hd as [Hk Hd].
    destruct (values_written s t l Hdoc Hd) as [Ht Hw].
    change (built (Dict (Model s)) (VDict l)) with (VDict (map (fun kv => (kv.1, built (Model s) kv.2)) l)).
    change (canon (Dict (Model s)) (VDict l)) with (VDict (map (fun kv => (kv.1, canon (Model s) kv.2)) l)).
    split_and!; [|done..|].
    + change (distinct (map fst (map (fun kv => (kv.1, built (Model s) kv.2)) l)) &&
              forallb (fun kv => settled (Model s) kv.2) (map (fun kv => (kv.1, built (Model s) kv.2)) l) = true).
      rewrite map_map. cbn [fst]. by rewrite Ht, andb_true_r.
    + intros c all w0 pre d Hall Hw0 Hpre. destruct l as [|v l]; cbn -[built canon dump_values]; rewrite Hall.
      * cbn. by rewrite (Hw0 eq_refl).
      * cbn -[built canon dump_values]. cbn [map] in Hw. rewrite Hw. cbn -[canon]. by rewrite dict_set_app.
Qed.

(** ** One class *)

Definition written (n : string) (obj : list (string * value)) (f : Field ann) : list (string * value) :=
  if is_none (field_canon n obj f) then [] else [(f_alias f, field_canon n obj f)].

Lemma dumped_some_inv f fs k x attrs d :
  dumped (f :: fs) ((k, x) :: attrs) d → is_none x = false →
  ∃ w0 d', d = (f_alias f, w0) :: d' ∧ (plain x = true → w0 = x) ∧ dumped fs attrs d'.
Proof. intros Hd Hx. inversion Hd; subst; [done|]. eauto. Qed.

Lemma overrides_written n c all fs os es obj pre d0 :
  coded n fs os es → data (VDict obj) = true → Forall (fun f => field_valid n obj f = true) fs →
  dumped fs (map (fun f => (f_name f, field_built n obj f)) fs) d0 →
  (∀ f, f ∈ fs → dict_get all (f_name f) = Some (field_built n obj f)) →
  NoDup (f_alias <$> fs) → (∀ f, f ∈ fs → f_alias f ∉ pre.*1) →
  overrides (VObj c all) (pre ++ d0) os = Ret (pre ++ flat_map (written n obj) fs).
Proof.
  intros Hc Hobj. revert os es pre d0 Hc.
  induction fs as [|f fs IH]; intros os es pre d0 Hc Hv Hd Hall Hnd Hpre.
  { inversion Hc; subst. by inversion Hd; subst. }
  apply coded_cons in Hc as (o & e & os' & es' & Hcode & Hc & -> & Hos). rewrite Hos.
  apply Forall_cons in Hv as [Hf Hv].
  rewrite fmap_cons in Hnd. apply NoDup_cons in Hnd as [Hfresh Hnd].
  destruct (code_written _ _ _ _ Hcode Hobj Hf) as (Hty & Hnone & Hov).
  pose proof (Hall f (list_elem_of_here _ _)) as Hgx. pose proof (Hty) as (_ & Ht & _). cbn [snd] in Ht.
  cbn [flat_map]. unfold written at 1. rewrite Hnone.
  cbn [map] in Hd. destruct (is_none (field_built n obj f)) eqn:Hnb.
  - assert (field_built n obj f = VNone) as E by (by destruct (field_built n obj f)). rewrite E in *.
    inversion Hd as [|? ? ? ? ? Hd'|? ? ? ? w0 ? d' Hne]; subst; [|done].
    rewrite (code_none _ _ _ c all Hcode Hgx). cbn [mbind outcome_bind].
    cbn. eapply IH; [done..|set_solver|done|set_solver].
  - destruct (dumped_some_inv _ _ _ _ _ _ Hd Hnb) as (w0 & d' & -> & Hw & Hd').
    rewrite (Hov eq_refl) by set_solver. cbn [mbind outcome_bind].
    change (pre ++ (f_alias f, field_canon n obj f) :: d') with (pre ++ [(f_alias f, field_canon n obj f)] ++ d').
    rewrite app_assoc. rewrite (IH os' es'); [by rewrite <- app_assoc|done..|set_solver|done|].
    intros f' Hf'. rewrite fmap_app. cbn. apply not_elem_of_app. split; [set_solver|].
    rewrite list_elem_of_singleton. intros Heq. apply Hfresh. rewrite <- Heq.
    by apply list_elem_of_fmap_2.
Qed.

Lemma built_typed n obj fs os es :
  coded n fs os es → data (VDict obj) = true → Forall (fun f => field_valid n obj f = true) fs →
  Forall2 typed_attr fs (map (fun f => (f_name f, field_built n obj f)) fs).
Proof.
  intros Hc Hobj. induction Hc as [|f e fs os es Hcode _ IH|f o e fs os es Hcode _ IH]; [constructor|..];
    intros [Hf Hv]%Forall_cons; constructor; auto; by destruct (code_written _ _ _ _ Hcode Hobj Hf).
Qed.

Lemma templated_writes `{PydanticLaws} s t g : Templated s t g → Writes s t.
Proof.
  intros (os & es & -> & _ & Ha & Hn & Hr & _ & Hc) v Hv Hd.
  destruct (regular_valid s v Hr Hv) as (d & -> & Hf & ->).
  set (attrs := map (fun f => (f_name f, field_built (s_name s) d f)) (s_fields s)).
  assert (settled (Model s) (VObj (s_name s) attrs) = true) as Ht.
  { apply settled_model. exists attrs. split_and!; [done| |by eapply built_typed].
    clear -Hr. destruct s as [n fs i]. by cbn in Hr |- *; subst i. }
  split; [done|]. destruct (dump_fields s attrs (settled_conforms _ _ Ht)) as (d0 & Hdump & Hd0).
  unfold to_dict_with. rewrite Hdump. cbn [mbind outcome_bind].
  rewrite (overrides_written (s_name s) _ attrs (s_fields s) os es d [] d0 Hc Hd Hf Hd0).
  - by rewrite regular_canon.
  - intros f Hin. apply dict_get_elem.
    + change (NoDup (fst <$> ((fun f => (f_name f, field_built (s_name s) d f)) <$> s_fields s))).
      rewrite <- list_fmap_compose. by apply distinct_NoDup.
    + by apply (list_elem_of_fmap_2 (fun f => (f_name f, field_built (s_name s) d f))).
  - by apply distinct_NoDup.
  - set_solver.
Qed.
