(* ===== verification/PydanticDocs.v ===== *)
(** * The (de)serialisation template: documents

    A class written with the template meets the specification of documents
    ([Documents]), given that the classes it contains do: it builds the instance
    of a valid document, raises on a document that is not valid, and always ends.
    With the round trip and the type soundness this is [Converts]. *)

From S2P Require Import Prelude PyStr PyValue Pydantic Documents PydanticSpec PydanticWrites.
Local Open Scope string_scope.
Local Open Scope bool_scope.
Local Open Scope list_scope.

(** ** Lists and dictionaries of models *)

Lemma forallb_snd {A B} (p : B → bool) (d : list (A * B)) : forallb p d.*2 = forallb (fun kv => p kv.2) d.
Proof. induction d as [|kv d IH]; cbn; [done|]. by rewrite IH. Qed.
Lemma existsb_snd {A B} (p : B → bool) (d : list (A * B)) : existsb p d.*2 = existsb (fun kv => p kv.2) d.
Proof. induction d as [|kv d IH]; cbn; [done|]. by rewrite IH. Qed.

Lemma valid_model s v :
  valid_doc (Model s) v = true → v ≠ VNone ∧ ∃ attrs, built (Model s) v = VObj (s_name s) attrs.
Proof.
  destruct s as [n fs [inv|]]; cbn.
  - destruct fs as [|f1 [|f2 [|fa [|]]]]; cbn; try done. intros Hv. split; [by intros ->|].
    destruct (accepts (f_ann f1) v); eauto.
  - destruct v as [| | | | | | |d| |]; try done. intros _. split; [done|]. eauto.
Qed.

Lemma valid_accepts s v : valid_doc (Model s) v = true → accepts (Model s) (built (Model s) v) = true.
Proof. intros [_ [attrs ->]]%valid_model. cbn. apply String.eqb_refl. Qed.

Section Collections.
Context (s : Schema) (t g : value → outcome value) `{HC : !Converts s t g}.

Lemma from_items_built l :
  forallb (valid_doc (Model s)) l = true → from_items g l = Ret (map (built (Model s)) l).
Proof using HC.
  induction l as [|v l IH]; cbn -[valid_doc built]; [done|]. intros [Hv Hl]%andb_true_iff.
  rewrite (builds v Hv). cbn -[built]. by rewrite (IH Hl).
Qed.
Lemma from_values_built d :
  forallb (fun kv => valid_doc (Model s) kv.2) d = true →
  from_values g d = Ret (map (fun kv => (kv.1, built (Model s) kv.2)) d).
Proof using HC.
  induction d as [|[k v] d IH]; cbn -[valid_doc built]; [done|]. intros [Hv Hd]%andb_true_iff.
  rewrite (builds v Hv). cbn -[built]. by rewrite (IH Hd).
Qed.

Lemma built_items_accepted l :
  forallb (valid_doc (Model s)) l = true →
  accepts (List (Model s)) (VList (map (built (Model s)) l)) = true.
Proof.
  intros Hl. rewrite forallb_forall in Hl.
  change (forallb (accepts (Model s)) (map (built (Model s)) l) = true). rewrite forallb_forall.
  intros x (v & <- & Hv)%in_map_iff. by apply valid_accepts, Hl.
Qed.
Lemma built_values_accepted d :
  forallb (fun kv => valid_doc (Model s) kv.2) d = true →
  accepts (Dict (Model s)) (VDict (map (fun kv => (kv.1, built (Model s) kv.2)) d)) = true.
Proof.
  intros Hd. rewrite forallb_forall in Hd.
  change (forallb (fun kv => accepts (Model s) kv.2)
            (map (fun kv => (kv.1, built (Model s) kv.2)) d) = true). rewrite forallb_forall.
  intros x (kv & <- & Hv)%in_map_iff. by apply valid_accepts, Hd.
Qed.

Lemma from_items_ends l : forallb data l = true → from_items g l ≠ OutOfFuel.
Proof using HC.
  induction l as [|v l IH]; cbn; [done|]. intros [Hv Hl]%andb_true_iff.
  pose proof (ends v Hv). destruct (g v); cbn; [|done..]. pose proof (IH Hl).
  by destruct (from_items g l).
Qed.
Lemma from_values_ends d : forallb (fun kv => data kv.2) d = true → from_values g d ≠ OutOfFuel.
Proof using HC.
  induction d as [|[k v] d IH]; cbn; [done|]. intros [Hv Hd]%andb_true_iff.
  pose proof (ends v Hv). destruct (g v); cbn; [|done..]. pose proof (IH Hd).
  by destruct (from_values g d).
Qed.

(** What comes out of nested conversions is accepted or refused: an instance of
    the class, or [None]. *)
Definition instance_or_none (y : value) : Prop := accepts (Model s) y = true ∨ y = VNone.

Lemma sound_instance v y : data v = true → g v = Ret y → instance_or_none y.
Proof using HC.
  intros Hv Hy. destruct (sound v y Hv Hy) as [[_ ->]|(attrs & -> & _)%conforms_model]; [by right|].
  left. cbn. apply String.eqb_refl.
Qed.
Lemma instance_verdict y : instance_or_none y → accepts (Model s) y || rejects (Model s) y = true.
Proof. by intros [->| ->]. Qed.

Lemma from_items_Ret l ys :
  forallb data l = true → from_items g l = Ret ys →
  Forall2 (fun v y => data v = true ∧ g v = Ret y ∧ instance_or_none y) l ys.
Proof using HC.
  revert ys. induction l as [|v l IH]; cbn; intros ys; [intros _ [= <-]; constructor|].
  intros [Hv Hl]%andb_true_iff (y & Hy & (ys' & Hys & [= <-])%outcome_bind_Ret)%outcome_bind_Ret.
  constructor; [|by apply IH]. split_and!; [done..|]. by eapply sound_instance.
Qed.
Lemma from_values_Ret d ys :
  forallb (fun kv => data kv.2) d = true → from_values g d = Ret ys →
  Forall2 (fun v y => data v = true ∧ g v = Ret y ∧ instance_or_none y) d.*2 ys.*2.
Proof using HC.
  revert ys. induction d as [|[k v] d IH]; cbn; intros ys; [intros _ [= <-]; constructor|].
  intros [Hv Hl]%andb_true_iff (y & Hy & (ys' & Hys & [= <-])%outcome_bind_Ret)%outcome_bind_Ret.
  constructor; [|by apply IH]. split_and!; [done..|]. by eapply sound_instance.
Qed.

(** An invalid element that was converted gave [None]. *)
Lemma invalid_gives_none l ys :
  Forall2 (fun v y => data v = true ∧ g v = Ret y ∧ instance_or_none y) l ys →
  existsb (invalid_doc (Model s)) l = true → VNone ∈ ys.
Proof using HC.
  intros Hl (v & [i Hi]%list_elem_of_In%list_elem_of_lookup_1 & Hv)%existsb_exists.
  destruct (Forall2_lookup_l _ _ _ _ _ Hl Hi) as (y & Hy & Hd & Hg & _).
  assert (y = VNone) as ->; [|by eapply list_elem_of_lookup_2].
  destruct (is_none v) eqn:Hn.
  - destruct v; try done. destruct refuses_none as [Hr|[e Hr]]; congruence.
  - destruct (refuses v) as [e He]; [by destruct v|done..|]. congruence.
Qed.

Lemma items_verdict l ys :
  Forall2 (fun v y => data v = true ∧ g v = Ret y ∧ instance_or_none y) l ys →
  if forallb (accepts (Model s)) ys then VNone ∉ ys
  else existsb (rejects (Model s)) ys = true ∧
       forallb (fun x => accepts (Model s) x || rejects (Model s) x) ys = true.
Proof.
  intros Hl. assert (Forall instance_or_none ys) as Hs.
  { clear -Hl. induction Hl as [|v y l ys (_ & _ & Hy) _ IH]; by constructor. }
  destruct (forallb (accepts (Model s)) ys) eqn:Ha.
  - rewrite forallb_forall in Ha. intros Hin%list_elem_of_In. by specialize (Ha _ Hin).
  - split.
    + clear -Hs Ha. induction Hs as [|y ys Hy _ IH]; [done|]. cbn -[accepts rejects] in Ha |- *.
      destruct Hy as [Hy| ->]; [|done]. rewrite Hy in Ha. rewrite (IH Ha). apply orb_true_r.
    + rewrite forallb_forall. rewrite Forall_forall in Hs. intros y Hy%list_elem_of_In.
      by apply instance_verdict, Hs.
Qed.
End Collections.

(** ** [a], or [Optional[a]] *)

Lemma maybe_optional_some a b v :
  maybe_optional a b → v ≠ VNone →
  accepts b v = accepts a v ∧ rejects b v = rejects a v ∧
  (plain_ann a = false →
   valid_doc b v = valid_doc a v ∧ invalid_doc b v = invalid_doc a v ∧ built b v = built a v).
Proof.
  intros [] Hv; [done|]. split_and!; [by destruct v..|]. intros Ha. cbn. rewrite Ha. by destruct v.
Qed.
Lemma maybe_optional_plain a b : maybe_optional a b → plain_ann b = plain_ann a.
Proof. by intros []. Qed.

(** A value of which pydantic is known to return it unchanged or to refuse it. *)
Definition judged (a : ann) (v : value) : bool := accepts a v || rejects a v.

Lemma judged_optional a b v :
  maybe_optional a b → judged a v = true → judged b v = true.
Proof.
  intros Hm Hj. destruct (is_none v) eqn:Hn.
  - destruct v; try done. by destruct Hm.
  - unfold judged. destruct (maybe_optional_some a b v Hm) as (-> & -> & _); [by destruct v|done].
Qed.

Lemma accepts_items a l : accepts (List a) (VList l) = forallb (accepts a) l.
Proof. done. Qed.
Lemma rejects_items a l :
  rejects (List a) (VList l) = existsb (rejects a) l && forallb (fun x => accepts a x || rejects a x) l.
Proof. done. Qed.
Lemma accepts_values a d : accepts (Dict a) (VDict d) = forallb (fun kv => accepts a kv.2) d.
Proof. done. Qed.
Lemma rejects_values a d :
  rejects (Dict a) (VDict d) =
  existsb (fun kv => rejects a kv.2) d && forallb (fun kv => accepts a kv.2 || rejects a kv.2) d.
Proof. done. Qed.

(** ** One field *)

Section Field.
Context `{HL : PydanticLaws}.

Lemma judged_decides f v :
  unchecked f → judged (f_ann f) v = true →
  decides (validate_field f v) ∧
  (rejects (f_ann f) v = true → ∃ what, validate_field f v = Raise (ValidationError what)).
Proof using HL.
  intros Hc Hj. assert (rejects (f_ann f) v = true →
    ∃ what, validate_field f v = Raise (ValidationError what)) as Hr.
  { intros Hr. apply arg_refused_raises. unfold arg_refused. by rewrite Hr. }
  split; [|done]. apply orb_true_iff in Hj as [Ha|Hj]; [|by right; apply Hr].
  left. exists v. apply arg_accepted_validates. unfold arg_accepted. by rewrite Ha, Hc.
Qed.

Lemma plain_decides f v :
  plain_ann (f_ann f) = true → check_decides f → data v = true → decides (validate_field f v).
Proof using HL.
  intros Hp Hc Hv. unfold validate_field.
  destruct (validate_decides (f_ann f) v Hp) as [[x Hx]|[what ->]]; [|right; by exists what].
  rewrite Hx. cbn. pose proof (validate_plain _ _ _ Hp Hv Hx) as Ht.
  destruct (Hc x Ht) as [->|[what ->]]; [left|right]; by eexists.
Qed.

(** What the entry of a field that holds models gives is accepted or refused,
    and refused when the document is not valid there. *)
Definition refused_if_invalid (n : string) (obj : list (string * value)) (f : Field ann) (y : value) : Prop :=
  judged (f_ann f) y = true ∧ (field_invalid n obj f = true → rejects (f_ann f) y = true).

Lemma nested_missing n obj f a :
  maybe_optional a (f_ann f) → unchecked f → is_none (fill n f) = true → judged a VNone = true →
  is_none (present obj f) = true → refused_if_invalid n obj f VNone.
Proof.
  intros Hm Hu Hf Hj Hn. split; [by eapply judged_optional|]. unfold field_invalid. rewrite Hn.
  destruct (fill n f); try done. unfold arg_refused. rewrite Hu, andb_false_r. by intros [|]%orb_true_iff.
Qed.
Lemma nested_present n obj f a y :
  maybe_optional a (f_ann f) → plain_ann a = false → is_none (present obj f) = false →
  y ≠ VNone ∨ f_ann f = a →
  judged a y = true → (invalid_doc a (present obj f) = true → rejects a y = true) →
  refused_if_invalid n obj f y.
Proof.
  intros Hm Hp Hn Hy Hj Hi. split; [by eapply judged_optional|]. unfold field_invalid.
  rewrite (maybe_optional_plain _ _ Hm), Hp, Hn.
  destruct (maybe_optional_some _ _ (present obj f) Hm) as (_ & _ & Hb); [by destruct (present obj f)|].
  destruct (Hb Hp) as (_ & -> & _). intros Hbad. destruct Hy as [Hy| ->]; [|by auto].
  destruct (maybe_optional_some _ _ y Hm Hy) as (_ & -> & _). by auto.
Qed.

Lemma entry_model n obj f s t g y :
  Converts s t g → maybe_optional (Model s) (f_ann f) → unchecked f → is_none (fill n f) = true →
  data (present obj f) = true →
  entry obj (FromDict (f_alias f) g) = Ret y → refused_if_invalid n obj f y.
Proof.
  intros HC Hm Hu Hf Hd. unfold entry. cbn [entry_key]. fold (present obj f).
  destruct (is_none (present obj f)) eqn:Hn; [intros [= <-]; by eapply nested_missing|].
  intros Hy. destruct (sound _ _ Hd Hy) as [[Hp _]|Hc]; [by rewrite Hp in Hn|].
  apply conforms_model in Hc as (attrs & -> & _). eapply nested_present; [done..|by left| |].
  - unfold judged. cbn. by rewrite String.eqb_refl.
  - intros Hi. destruct (refuses (present obj f)) as [e He]; [|done..|by rewrite He in Hy].
    by destruct (present obj f).
Qed.

Lemma entry_items n obj f s t g y :
  Converts s t g → maybe_optional (List (Model s)) (f_ann f) → unchecked f → is_none (fill n f) = true →
  data (present obj f) = true →
  entry obj (FromDictItems (f_alias f) g) = Ret y → refused_if_invalid n obj f y.
Proof.
  intros HC Hm Hu Hf Hd. unfold entry. cbn [entry_key]. fold (present obj f).
  destruct (is_none (present obj f)) eqn:Hn; [intros [= <-]; by eapply nested_missing|].
  intros (l & Hl & (ys & Hys & [= <-])%outcome_bind_Ret)%outcome_bind_Ret.
  assert (forallb data l = true) as Hdl.
  { rewrite forallb_forall. pose proof (iter_data _ _ Hd Hl) as Hall. rewrite Forall_forall in Hall.
    intros x Hx. by apply Hall, list_elem_of_In. }
  pose proof (from_items_Ret s t g l ys Hdl Hys) as Hall.
  pose proof (items_verdict s g l ys Hall) as Hv.
  eapply nested_present; [done..|by left| |].
  - unfold judged. rewrite accepts_items, rejects_items. destruct (forallb (accepts (Model s)) ys); [done|]. destruct Hv as [-> ->]. done.
  - intros Hi. assert (VNone ∈ ys) as Hin.
    { eapply invalid_gives_none; [done..|]. 
      destruct (present obj f); try done; cbn [invalid_doc plain_ann] in Hi; by rewrite Hl in Hi. }
    rewrite rejects_items. destruct (forallb (accepts (Model s)) ys); [done|]. destruct Hv as [-> ->]. done.
Qed.

Lemma entry_values n obj f s t g y :
  Converts s t g → maybe_optional (Dict (Model s)) (f_ann f) → unchecked f → is_none (fill n f) = true →
  data (present obj f) = true →
  entry obj (FromDictValues (f_alias f) g) = Ret y → refused_if_invalid n obj f y.
Proof.
  intros HC Hm Hu Hf Hd. unfold entry. cbn [entry_key]. fold (present obj f).
  destruct (is_none (present obj f)) eqn:Hn; [intros [= <-]; by eapply nested_missing|].
  intros (d & Hl & (ys & Hys & [= <-])%outcome_bind_Ret)%outcome_bind_Ret.
  destruct (present obj f) as [| | | | | | |d'| |] eqn:Hp; try done. injection Hl as ->.
  cbn in Hd. apply andb_true_iff in Hd as [_ Hd].
  pose proof (from_values_Ret s t g d ys Hd Hys) as Hall.
  pose proof (items_verdict s g _ _ Hall) as Hv.
  rewrite !forallb_snd, existsb_snd in Hv.
  eapply nested_present; [done|done|by rewrite Hp|by left| |].
  - unfold judged. rewrite accepts_values, rejects_values.
    destruct (forallb (fun kv => accepts (Model s) kv.2) ys); [done|]. destruct Hv as [-> ->]. done.
  - rewrite Hp. intros Hi. assert (VNone ∈ ys.*2) as Hin.
    { eapply invalid_gives_none; [done..|]. by rewrite existsb_snd. }
    rewrite rejects_values. destruct (forallb (fun kv => accepts (Model s) kv.2) ys); [done|].
    destruct Hv as [-> ->]. done.
Qed.

Lemma data_present obj f : data (VDict obj) = true → data (present obj f) = true.
Proof. intros Hd. unfold present. destruct (dict_get obj (f_alias f)) eqn:E; [by eapply data_get|done]. Qed.

(** Every argument is validated, with a [ValidationError] at worst; and with one
    where the document is not valid. *)
Lemma code_decides {n} f o e obj y :
  field_code n f o e → data (VDict obj) = true → entry obj e = Ret y →
  decides (validate_field f y) ∧
  (field_invalid n obj f = true → ∃ what, validate_field f y = Raise (ValidationError what)).
Proof using HL.
  intros Hcode Hobj%(data_present obj f) He.
  assert (unchecked f → refused_if_invalid n obj f y → decides (validate_field f y) ∧
    (field_invalid n obj f = true → ∃ what, validate_field f y = Raise (ValidationError what))) as Hnest.
  { intros Hu [Hj Hr]. destruct (judged_decides f y Hu Hj) as [Hd Hd']. auto. }
  assert (plain_ann (f_ann f) = true → field_invalid n obj f = true →
    arg_refused f (if is_none (present obj f) then fill n f else present obj f) = true) as Hpl.
  { unfold field_invalid. intros ->. by destruct (is_none _). }
  destruct Hcode as [Hp Hf Hc|dflt Hp _ Hd Hc Hf|s t g Hm Hu Hf HC|s t g Hm Hu Hf HC|s t g Hm Hu Hf HC].
  - injection He as <-. cbn [entry_key]. fold (present obj f). split; [by apply plain_decides|].
    intros Hr%(Hpl Hp). apply arg_refused_raises. destruct (present obj f), (fill n f); done.
  - unfold entry in He. cbn [entry_key] in He. fold (present obj f) in He. rewrite <- Hf in Hd, He.
    injection He as <-. split.
    + apply plain_decides; [done..|]. by destruct (is_none _).
    + intros Hr%(Hpl Hp). by apply arg_refused_raises.
  - apply Hnest; [done|]. by eapply entry_model.
  - apply Hnest; [done|]. by eapply entry_items.
  - apply Hnest; [done|]. by eapply entry_values.
Qed.

Lemma entry_ends {n} f o e obj : field_code n f o e → data (VDict obj) = true → entry obj e ≠ OutOfFuel.
Proof.
  intros Hcode Hobj%(data_present obj f). unfold entry.
  destruct Hcode as [| |s t g Hm Hu _ HC|s t g Hm Hu _ HC|s t g Hm Hu _ HC]; cbn [entry_key]; try done;
    fold (present obj f); destruct (is_none (present obj f)); try done.
  - by apply ends.
  - destruct (iter (present obj f)) as [l| |] eqn:Hl; cbn; [|done|by destruct (present obj f)].
    pose proof (from_items_ends s t g l) as He. destruct (from_items g l); try done.
    intros _. apply He; [|done]. rewrite forallb_forall.
    pose proof (iter_data _ _ Hobj Hl) as Hall. rewrite Forall_forall in Hall.
    intros x Hx. by apply Hall, list_elem_of_In.
  - destruct (present obj f) as [| | | | | | |d| |]; cbn; try done. cbn in Hobj.
    apply andb_true_iff in Hobj as [_ Hobj]. pose proof (from_values_ends s t g d Hobj).
    by destruct (from_values g d).
Qed.

(** A valid field of the document is converted to its attribute, which
    validation accepts. *)
Lemma code_built {n} f o e obj :
  field_code n f o e → field_valid n obj f = true →
  entry obj e = Ret (field_built n obj f) ∧ arg_accepted f (field_built n obj f) = true.
Proof.
  intros Hcode. unfold entry, field_valid, field_built.
  assert (∀ a, maybe_optional a (f_ann f) → plain_ann a = false → is_none (present obj f) = false →
    valid_doc (f_ann f) (present obj f) && unit_ok (f_check f (built (f_ann f) (present obj f))) = true →
    valid_doc a (present obj f) = true ∧ built (f_ann f) (present obj f) = built a (present obj f) ∧
    (accepts a (built a (present obj f)) = true → built a (present obj f) ≠ VNone →
     arg_accepted f (built (f_ann f) (present obj f)) = true)) as Hnest.
  { intros a Hm Hp Hn [Hv Hc]%andb_true_iff.
    destruct (maybe_optional_some a (f_ann f) (present obj f) Hm) as (_ & _ & Hb); [by destruct (present obj f)|].
    destruct (Hb Hp) as (Ev & _ & Eb). rewrite Ev in Hv. rewrite Eb in Hc |- *. split_and!; [done..|].
    intros Ha Hne. unfold arg_accepted.
    destruct (maybe_optional_some a (f_ann f) _ Hm Hne) as (-> & _). by rewrite Ha, Hc. }
  destruct Hcode as [Hp Hf _|dflt Hp Hn _ _ Hf|s t g Hm _ Hf HC|s t g Hm _ Hf HC|s t g Hm _ Hf HC];
    cbn [entry_key]; fold (present obj f); destruct (is_none (present obj f)) eqn:E.
  - destruct (present obj f), (fill n f); done.
  - rewrite plain_valid, plain_built by done. done.
  - by rewrite Hf.
  - rewrite plain_valid, plain_built by done. done.
  - by destruct (fill n f).
  - intros Hv. destruct (Hnest _ Hm eq_refl eq_refl Hv) as (Hv' & -> & Ha).
    rewrite (builds _ Hv'). split; [done|]. apply Ha; [by apply valid_accepts|].
    by destruct (valid_model _ _ Hv') as (_ & attrs & ->).
  - by destruct (fill n f).
  - intros Hv. destruct (Hnest _ Hm eq_refl eq_refl Hv) as (Hv' & -> & Ha).
    destruct (present obj f) as [| | | | | |l| | |]; try done. cbn [iter mbind outcome_bind].
    change (forallb (valid_doc (Model s)) l = true) in Hv'. rewrite (from_items_built s t g l Hv').
    split; [done|]. apply Ha; [by apply built_items_accepted|done].
  - by destruct (fill n f).
  - intros Hv. destruct (Hnest _ Hm eq_refl eq_refl Hv) as (Hv' & -> & Ha).
    destruct (present obj f) as [| | | | | | |d| |]; try done. cbn [items mbind outcome_bind].
    change (forallb (fun kv => valid_doc (Model s) kv.2) d = true) in Hv'.
    rewrite (from_values_built s t g d Hv').
    split; [done|]. apply Ha; [by apply built_values_accepted|done].
Qed.
End Field.

(** ** One class *)

Lemma decides_all {A} (P : A → outcome value) l :
  Forall (fun a => decides (P a)) l →
  (∃ xs, Forall2 (fun a x => P a = Ret x) l xs) ∨
  Exists (fun a => ∃ what, P a = Raise (ValidationError what)) l.
Proof.
  induction 1 as [|a l [[x Hx]|Hw] _ [[xs IH]|IH]]; [by left; exists []|..].
  - left. exists (x :: xs). by constructor.
  - right. by apply Exists_cons_tl.
  - right. by apply Exists_cons_hd.
  - right. by apply Exists_cons_hd.
Qed.

Section Class.
Context `{HL : PydanticLaws}.
Context (s : Schema) (os : list Override) (es : list Entry).
Hypothesis Haliases : distinct (f_alias <$> s_fields s) = true.
Hypothesis Hcoded : coded (s_name s) (s_fields s) os es.

(** The entry and the argument of a field. *)
Lemma entries_field d args f :
  entries d es = Ret args → f ∈ s_fields s →
  ∃ o e y, field_code (s_name s) f o e ∧ entry d e = Ret y ∧ dict_get args (f_alias f) = Some y.
Proof using Haliases Hcoded.
  intros Hargs [i Hf]%list_elem_of_lookup_1.
  destruct (coded_lookup _ _ _ _ _ Hcoded Hf) as (o & e & He & Hcode).
  destruct (entries_lookup _ _ _ _ _ Hargs He) as (y & Hy & Hi). exists o, e, y. split_and!; [done..|].
  rewrite (code_key _ _ _ Hcode) in Hi. apply dict_get_elem; [|by eapply list_elem_of_lookup_2].
  rewrite (entries_keys _ _ _ Hargs), (coded_keys _ _ _ Hcoded). by apply distinct_NoDup.
Qed.

Lemma entries_end d : data (VDict d) = true → entries d es ≠ OutOfFuel.
Proof using Hcoded.
  intros Hd. clear Haliases. revert Hcoded. generalize (s_fields s). intros fs Hc.
  induction Hc as [|f e fs os' es' Hcode _ IH|f o e fs os' es' Hcode _ IH]; [done|..]; cbn;
    pose proof (entry_ends _ _ _ _ Hcode Hd); destruct (entry d e); cbn; try done;
    by destruct (entries d es').
Qed.

Lemma entries_built d :
  Forall (fun f => field_valid (s_name s) d f = true) (s_fields s) →
  entries d es = Ret (map (fun f => (f_alias f, field_built (s_name s) d f)) (s_fields s)) ∧
  Forall (fun f => arg_accepted f (field_built (s_name s) d f) = true) (s_fields s).
Proof using Hcoded.
  clear Haliases. revert Hcoded. generalize (s_fields s). intros fs Hc.
  induction Hc as [|f e fs os' es' Hcode _ IH|f o e fs os' es' Hcode _ IH]; [done|..];
    intros [Hf Hfs]%Forall_cons; destruct (IH Hfs) as [He Ha];
    destruct (code_built _ _ _ _ Hcode Hf) as [Hy Hacc]; cbn; rewrite Hy, He, (code_key _ _ _ Hcode);
    (split; [done|by constructor]).
Qed.

Lemma builds_class v :
  regular s → valid_doc (Model s) v = true → from_dict_with s es v = Ret (built (Model s) v).
Proof using HL Haliases Hcoded.
  intros Hr (d & -> & Hf & ->)%regular_valid; [|done]. unfold from_dict_with.
  destruct (entries_built d Hf) as [-> Ha]. cbn [mbind outcome_bind].
  apply validate_dict, Forall2_same_length_lookup_2; [by rewrite length_map|].
  intros i f kx Hi Hkx. rewrite list_lookup_fmap, Hi in Hkx. injection Hkx as <-.
  split; [done|]. exists (field_built (s_name s) d f). pose proof (list_elem_of_lookup_2 _ _ _ Hi) as Hin. split.
  - apply dict_get_elem.
    + change (NoDup (fst <$> ((fun f => (f_alias f, field_built (s_name s) d f)) <$> s_fields s))).
      rewrite <- list_fmap_compose. by apply distinct_NoDup.
    + by apply (list_elem_of_fmap_2 (fun f => (f_alias f, field_built (s_name s) d f))).
  - rewrite Forall_forall in Ha. by apply arg_accepted_validates, Ha.
Qed.

Lemma not_a_dict v : rejects (Model s) v = true → ∃ e, validate (Model s) v = Raise e.
Proof using HL. intros [what ->]%validate_rejects. by eexists. Qed.

(** Validation of the arguments. *)
Lemma validate_args d args :
  data (VDict d) = true → entries d es = Ret args →
  decides (validate (Model s) (VDict args)) ∧
  ((∃ f, f ∈ s_fields s ∧ field_invalid (s_name s) d f = true) →
   ∃ what, validate (Model s) (VDict args) = Raise (ValidationError what)).
Proof using HL Haliases Hcoded.
  intros Hd Hargs.
  assert (∀ f, f ∈ s_fields s → ∃ y, dict_get args (f_alias f) = Some y ∧ decides (validate_field f y) ∧
    (field_invalid (s_name s) d f = true → ∃ what, validate_field f y = Raise (ValidationError what))) as Hf.
  { intros f Hf. destruct (entries_field d args f Hargs Hf) as (o & e & y & Hcode & Hy & Hg).
    exists y. split; [done|]. by eapply code_decides. }
  assert (Exists (fun f => ∃ v, dict_get args (f_alias f) = Some v ∧
            ∃ what, validate_field f v = Raise (ValidationError what)) (s_fields s) →
    ∃ what, validate (Model s) (VDict args) = Raise (ValidationError what)) as Hex.
  { apply validate_dict_error, Forall_forall. intros f (y & Hg & Hy & _)%Hf. by exists y. }
  split.
  - destruct (decides_all (fun f => validate_field f (default VNone (dict_get args (f_alias f))))
      (s_fields s)) as [(attrs & Hattrs)|He].
    + apply Forall_forall. intros f (y & -> & Hy & _)%Hf. done.
    + left. eexists. apply (validate_dict _ _ (zip (f_name <$> s_fields s) attrs)).
      pose proof (Forall2_length _ _ _ Hattrs) as Hlen.
      apply Forall2_same_length_lookup_2; [rewrite length_zip, length_fmap; lia|].
      intros i f kx Hi (k & x & -> & Hk & Hx)%lookup_zip_with_Some.
      rewrite list_lookup_fmap, Hi in Hk. injection Hk as <-. split; [done|].
      pose proof (Forall2_lookup_lr _ _ _ _ _ _ Hattrs Hi Hx) as Hv.
      destruct (Hf f) as (y & Hg & _); [by eapply list_elem_of_lookup_2|].
      cbn beta in Hv. rewrite Hg in Hv. by exists y.
    + right. apply Hex. rewrite Exists_exists in He |- *. destruct He as (f & Hin & Hw).
      exists f. split; [done|]. destruct (Hf f Hin) as (y & Hg & _).
      cbn beta in Hw. rewrite Hg in Hw. by exists y.
  - intros (f & Hin & Hi). apply Hex, Exists_exists. exists f. split; [done|].
    destruct (Hf f Hin) as (y & Hg & _ & Hw). exists y. auto.
Qed.

Lemma refuses_class v :
  regular s → v ≠ VNone → invalid_doc (Model s) v = true → data v = true →
  ∃ e, from_dict_with s es v = Raise e.
Proof using HL Haliases Hcoded.
  intros Hr Hn Hi Hd. pose proof (regular_invalid s v Hr Hi) as Hv. unfold from_dict_with, model_validate.
  destruct v as [| | | | | | |d| |]; try done;
    try (by apply not_a_dict).
  pose proof (entries_end d Hd) as He.
  destruct (entries d es) as [args|e|] eqn:Hargs; cbn; [|by exists e|done].
  destruct (validate_args d args Hd Hargs) as [_ Hw]. destruct (Hw Hv) as [what ->]. by eexists.
Qed.

Lemma ends_class v : data v = true → from_dict_with s es v ≠ OutOfFuel.
Proof using HL Haliases Hcoded.
  intros Hd. unfold from_dict_with, model_validate.
  destruct v as [| | | | | | |d| |]; try done;
    try (edestruct not_a_dict as [e ->]; [|done]; done).
  pose proof (entries_end d Hd) as He. destruct (entries d es) as [args|e|] eqn:Hargs; cbn; [|done..].
  by destruct (validate_args d args Hd Hargs) as [[[x ->]|[what ->]] _].
Qed.
End Class.

(** ** Names and validators *)

Lemma well_built_model s :
  well_built (Model s) ↔ distinct (f_name <$> s_fields s) = true ∧
  Forall (fun f => (plain_ann (f_ann f) = true ∨ unchecked f) ∧ well_built (f_ann f)) (s_fields s).
Proof.
  destruct s as [n fs i]. cbn [s_fields]. change (well_built (Model (MkSchema n fs i))) with
    (distinct (f_name <$> fs) = true ∧
     (fix go (fs : list (Field ann)) : Prop :=
        match fs with
        | [] => True
        | f :: fs' => ((plain_ann (f_ann f) = true ∨ unchecked f) ∧ well_built (f_ann f)) ∧ go fs'
        end) fs).
  f_equiv. induction fs as [|f fs IH]; [by split|]. by rewrite Forall_cons, IH.
Qed.
Lemma plain_well_built a : plain_ann a = true → well_built a.
Proof. induction a; cbn; try done. intros [??]%andb_true_iff. auto. Qed.

Lemma maybe_optional_well_built a b : maybe_optional a b → well_built a → well_built b.
Proof. by intros []. Qed.

Lemma coded_well_built n fs os es :
  coded n fs os es → Forall (fun f => (plain_ann (f_ann f) = true ∨ unchecked f) ∧ well_built (f_ann f)) fs.
Proof.
  assert (∀ f o e, field_code n f o e → (plain_ann (f_ann f) = true ∨ unchecked f) ∧ well_built (f_ann f)) as Hf.
  { intros f o e [| |s t g Hm ? _ HC|s t g Hm ? _ HC|s t g Hm ? _ HC];
      first [by split; [left|apply plain_well_built]
            |split; [by right|eapply maybe_optional_well_built; [exact Hm|apply schema_well_built]]]. }
  induction 1; constructor; eauto.
Qed.

#[export] Instance templated_converts `{HL : PydanticLaws} s t g : Templated s t g → Converts s t g.
Proof.
  intros Hm. pose proof Hm as (os & es & -> & -> & Ha & Hn & Hr & _ & Hc).
  split; [split|by eapply templated_writes|by apply well_built_model; split; [|by eapply coded_well_built]].
  - by apply templated_round_trip.
  - by eapply coded_sound.
  - intros v. by eapply builds_class.
  - split; [|by left]. intros v ???. by eapply refuses_class.
  - intros v. by eapply ends_class.
Qed.
