(* ===== verification/PydanticRef.v ===== *)
(** * A concrete pydantic

    A reference implementation of the class [Pydantic] without coercions, which
    shows that the laws can hold and lets the models be run on concrete data. *)

From S2P Require Import Prelude PyStr PyValue PyNum Pydantic PydanticSpec.
Local Open Scope string_scope.
Local Open Scope bool_scope.
Local Open Scope list_scope.

Definition after_check (f : Field ann) (x : value) : outcome value :=
  match f_check f x with
  | Ret _ => Ret x
  | Raise (ValueError what) => Raise (ValidationError what)
  | Raise e => Raise e
  | OutOfFuel => OutOfFuel
  end.

Section Fields.
Variable rv : ann → value → outcome value.
Variable d : list (string * value).

Fixpoint ref_fields (fs : list (Field ann)) : outcome (list (string * value)) :=
  match fs with
  | [] => Ret []
  | f :: fs' =>
      x ← match argument d f with
          | inr v => y ← rv (f_ann f) v; after_check f y
          | inl (Some dv) => Ret dv
          | inl None => Raise (ValidationError "Field required")
          end;
      rest ← ref_fields fs';
      Ret ((f_name f, x) :: rest)
  end.
End Fields.

Fixpoint ref_validate (a : ann) (v : value) {struct a} : outcome value :=
  if accepts a v then Ret v
  else match a, v with
       | Optional a', _ => ref_validate a' v
       | Model (MkSchema n fs _), VDict d =>
           attrs ← ref_fields ref_validate d fs; Ret (VObj n attrs)
       | _, _ => Raise (ValidationError "type")
       end.

(** The dump of a value of an annotated field, by alias and without [None]s. *)
Fixpoint ref_dump (a : ann) (v : value) {struct a} : value :=
  if plain v then v
  else match a, v with
       | Optional a', _ => ref_dump a' v
       | List a', VList l => VList (map (ref_dump a') l)
       | Dict a', VDict d => VDict (map (fun kv => (kv.1, ref_dump a' kv.2)) d)
       | Model (MkSchema _ fs _), VObj _ attrs =>
           VDict ((fix go (fs : list (Field ann)) (attrs : list (string * value)) :=
             match fs, attrs with
             | f :: fs', (_, x) :: attrs' =>
                 if is_none x then go fs' attrs'
                 else (f_alias f, ref_dump (f_ann f) x) :: go fs' attrs'
             | _, _ => []
             end) fs attrs)
       | _, _ => v
       end.

Definition ref_model_dump (s : Schema) (v : value) : outcome (list (string * value)) :=
  match ref_dump (Model s) v with
  | VDict d => Ret d
  | _ => Raise (AttributeError "model_dump")
  end.

#[export] Instance pydantic_ref : Pydantic :=
  {| validate := ref_validate; model_dump := ref_model_dump;
     model_dump_by_alias s v := Ret (dump_all (Model s) v);
     tzinfo_repr offset := "TzInfo(" +:+ dec offset +:+ ")" |}.

Lemma ref_validate_rejects a v :
  rejects a v = true → ∃ what, ref_validate a v = Raise (ValidationError what).
Proof.
  revert v. induction a as [| | | | | | | | | |a1 IH1 a2 IH2|a IH|a IH|a IH|[n fs inv]]; intros v Hr;
    try (destruct v; try done; by eexists).
  - cbn [ref_validate]. rewrite (rejects_not_accepts _ _ Hr). by eexists.
  - cbn [ref_validate]. rewrite (rejects_not_accepts _ _ Hr). apply IH. by destruct v.
  - cbn [ref_validate]. rewrite (rejects_not_accepts _ _ Hr). by destruct v; eexists.
  - cbn [ref_validate]. rewrite (rejects_not_accepts _ _ Hr). by destruct v; eexists.
Qed.

Lemma ref_validate_decides a v : plain_ann a = true → decides (ref_validate a v).
Proof.
  induction a as [| | | | | | | | | |a1 IH1 a2 IH2|a IH|a IH|a IH|s]; intros Hp; try done; cbn [ref_validate];
    destruct (accepts _ v); try (left; by eexists); try (right; destruct v; by eexists).
  by apply IH.
Qed.

Lemma ref_validate_dict s d :
  validate (Model s) (VDict d) =
  attrs ← ref_fields ref_validate d (s_fields s); Ret (VObj (s_name s) attrs).
Proof. by destruct s as [n fs inv]. Qed.

Lemma ref_fields_cons d f fs v :
  dict_get d (f_alias f) = Some v →
  ref_fields ref_validate d (f :: fs) =
  x ← validate_field f v; rest ← ref_fields ref_validate d fs; Ret ((f_name f, x) :: rest).
Proof. intros Hv. cbn. unfold argument. by rewrite Hv. Qed.

Lemma ref_dumped fs attrs inv n :
  Forall2 conforming_attr fs attrs →
  ∃ d, ref_dump (Model (MkSchema n fs inv)) (VObj n attrs) = VDict d ∧ dumped fs attrs d.
Proof.
  induction 1 as [|f [k x] fs attrs Hx _ (d & Hd & IH)]; [exists []; split; [done|constructor]|].
  cbn in Hd |- *. injection Hd as Hd. destruct (is_none x) eqn:Hn.
  - exists d. split; [by f_equal|]. destruct x; try done. by constructor.
  - exists ((f_alias f, ref_dump (f_ann f) x) :: d). split; [by rewrite Hd|]. constructor; [by destruct x| |done].
    intros Hp. destruct (f_ann f); cbn; by rewrite Hp.
Qed.

Lemma ref_validate_accepts a v : accepts a v = true → ref_validate a v = Ret v.
Proof. intros Ha. by destruct a; cbn [ref_validate]; rewrite Ha. Qed.

(** A value that is neither accepted nor descended into is refused. *)
Lemma ref_validate_plain a v x :
  plain_ann a = true → data v = true → ref_validate a v = Ret x → settled a x = true.
Proof.
  induction a as [| | | | | | | | | |a1 IH1 a2 IH2|a IH|a IH|a IH|s]; intros Hp Hv Hx;
    match type of Hx with ref_validate ?a v = _ => destruct (accepts a v) eqn:Ha end;
    try (rewrite ref_validate_accepts in Hx by done; injection Hx as <-; by apply accepts_settled);
    cbn [ref_validate] in Hx; rewrite Ha in Hx; try (by destruct v).
  specialize (IH Hp Hv Hx). by destruct x.
Qed.

Lemma ref_fields_inv d fs attrs :
  ref_fields ref_validate d fs = Ret attrs →
  Forall2 (fun f kx => kx.1 = f_name f ∧
             match argument d f with
             | inr v => validate_field f v = Ret kx.2
             | inl dflt => dflt = Some kx.2
             end) fs attrs.
Proof.
  revert attrs. induction fs as [|f fs IH]; intros attrs; [intros [= <-]; constructor|]. cbn.
  intros (x & Hx & (rest & Hrest & [= <-])%outcome_bind_Ret)%outcome_bind_Ret.
  constructor; [|by apply IH]. split; [done|]. cbn [snd].
  destruct (argument d f) as [[dv|]|v]; [by injection Hx as ->|done|done].
Qed.

#[export] Instance pydantic_ref_laws : PydanticLaws.
Proof.
  split.
  - exact ref_validate_accepts.
  - exact ref_validate_rejects.
  - intros s d attrs Hf. rewrite ref_validate_dict.
    assert (ref_fields ref_validate d (s_fields s) = Ret attrs) as ->; [|done].
    induction Hf as [|f [k x] fs attrs (Hk & Hx) _ IH]; [done|]. cbn [fst snd] in Hk, Hx. subst k.
    destruct (dict_get d (f_alias f)) as [v|] eqn:Hv.
    + rewrite (ref_fields_cons _ _ _ _ Hv), Hx. cbn. by rewrite IH.
    + destruct Hx as [Hn Hd]. cbn. unfold argument. rewrite Hv, Hn, Hd. cbn. by rewrite IH.
  - intros s d Hall Hex. rewrite ref_validate_dict.
    assert (∃ what, ref_fields ref_validate d (s_fields s) = Raise (ValidationError what))
      as [what ->]; [|by exists what].
    revert Hex. induction Hall as [|f fs (v & Hv & Hvf) _ IH]; [by intros ?%Exists_nil|].
    rewrite (ref_fields_cons _ _ _ _ Hv). destruct Hvf as [[x Hx]|[what Hx]].
    + intros [(v' & Hv' & what & Hw)|Hex]%Exists_cons; [congruence|].
      destruct (IH Hex) as [what Hw]. exists what. rewrite Hx. cbn. by rewrite Hw.
    + intros _. exists what. by rewrite Hx.
  - exact ref_validate_decides.
  - exact ref_validate_plain.
  - intros a v x Hx. cbn [validate pydantic_ref ref_validate] in Hx.
    destruct (is_none v) eqn:Hn; [left; destruct v; try done; by injection Hx as <-|].
    right. split; [by destruct v|]. destruct (accepts (Optional a) v) eqn:Ha; [|done].
    injection Hx as <-. apply ref_validate_accepts. by destruct v.
  - intros a l x Hx. cbn [validate pydantic_ref ref_validate] in Hx.
    destruct (accepts (List a) (VList l)) eqn:Ha; [|done]. injection Hx as <-. exists l. split; [done|].
    cbn in Ha. rewrite forallb_forall in Ha. apply Forall_Forall2_diag, Forall_forall.
    intros y Hy. by apply ref_validate_accepts, Ha, list_elem_of_In.
  - intros a d x Hx. cbn [validate pydantic_ref ref_validate] in Hx.
    destruct (accepts (Dict a) (VDict d)) eqn:Ha; [|done]. injection Hx as <-. exists d. split; [done|].
    cbn in Ha. rewrite forallb_forall in Ha. apply Forall_Forall2_diag, Forall_forall.
    intros y Hy. split; [done|]. by apply ref_validate_accepts, Ha, list_elem_of_In.
  - intros s d x. rewrite ref_validate_dict. intros (attrs & Hattrs & [= <-])%outcome_bind_Ret.
    exists attrs. split; [done|]. by apply ref_fields_inv.
  - intros [n fs inv] attrs (? & [= <-] & Hf)%conforms_model. cbn [s_name s_fields] in *.
    destruct (ref_dumped fs attrs inv n Hf) as (d & Hd & Hdd). exists d.
    split; [|done]. unfold model_dump, pydantic_ref, ref_model_dump. by rewrite Hd.
  - done.
Qed.
