(* ===== verification/PydanticObjects.v ===== *)
(** * Constructing and changing instances

    The classes are used as objects as well: they are constructed with keyword
    arguments, [TrainJob(spec=...)], and their attributes are assigned,
    [job.spec.trainer.num_nodes = 2]. Both go through pydantic's validation, which
    also takes dictionaries for the instances of nested classes; assignment is
    configured by [model_config], and [PydanticObjects] has it with what its
    documentation says. An instance that others contain is changed in all of them
    when it is assigned to: [mutates] changes any number of the instances inside a
    value at once, which covers every way of sharing them. *)

From S2P Require Import Prelude PyStr PyValue Pydantic Documents PydanticSpec PydanticDocs PydanticRef.
Local Open Scope string_scope.
Local Open Scope bool_scope.
Local Open Scope list_scope.

(** [ConfigDict(populate_by_name=..., validate_assignment=...)]. *)
Record ConfigDict : Type := {
  populate_by_name : bool;
  validate_assignment : bool;
}.

(** The [model_config] of every class that is written with the template. *)
Definition model_config : ConfigDict := {| populate_by_name := true; validate_assignment := true |}.

(** [setattr c s self name v] is [self.name = v]: the instance afterwards; an
    exception leaves it as it was. *)
Class PydanticObjects : Type := {
  setattr : ConfigDict → Schema → value → string → value → outcome value;
}.

(** An assignment validates the value as an argument of the field when
    [validate_assignment] is set, and stores it as it is otherwise. *)
Class PydanticObjectsLaws `{Pydantic} `{PydanticObjects} : Prop := {
  setattr_validated c s attrs f v :
    validate_assignment c = true → distinct (f_name <$> s_fields s) = true → f ∈ s_fields s →
    setattr c s (VObj (s_name s) attrs) (f_name f) v =
    (y ← validate_field f v; Ret (VObj (s_name s) (dict_set attrs (f_name f) y)));
  setattr_as_is c s attrs f v :
    validate_assignment c = false → distinct (f_name <$> s_fields s) = true → f ∈ s_fields s →
    setattr c s (VObj (s_name s) attrs) (f_name f) v =
    Ret (VObj (s_name s) (dict_set attrs (f_name f) v));
  setattr_unknown c s attrs name v :
    name ∉ f_name <$> s_fields s →
    ∃ e, setattr c s (VObj (s_name s) attrs) name v = Raise e;
}.

(** ** Arguments *)

(** A value that the program may give where [a] is expected: data where no models
    are; an instance that conforms to its class, or a dictionary of arguments for
    it that are admissible themselves, the defaults of the others being values of
    their fields; lists and dictionaries of these; and whatever is certainly
    refused. *)
Fixpoint admissible (a : ann) (v : value) {struct a} : Prop :=
  if plain_ann a then data v = true else
  conforms a v = true ∨ rejects a v = true ∨
  match a, v with
  | Optional a', _ => admissible a' v
  | List a', VList l => Forall (admissible a') l
  | Dict a', VDict d => distinct d.*1 = true ∧ Forall (fun kv => admissible a' kv.2) d
  | Model (MkSchema _ fs _), VDict d =>
      (fix go (fs : list (Field ann)) : Prop :=
         match fs with
         | [] => True
         | f :: fs' =>
             match argument d f with
             | inr w => admissible (f_ann f) w
             | inl dflt => ∀ y, dflt = Some y → conforming_attr f (f_name f, y)
             end ∧ go fs'
         end) fs
  | _, _ => False
  end.

Lemma plain_admissible a v : plain_ann a = true → admissible a v → data v = true.
Proof. intros Hp. destruct a; cbn [admissible]; by rewrite Hp. Qed.

(** The arguments of one class. *)
Definition admissible_argument (d : list (string * value)) (f : Field ann) : Prop :=
  match argument d f with
  | inr w => admissible (f_ann f) w
  | inl dflt => ∀ y, dflt = Some y → conforming_attr f (f_name f, y)
  end.

Lemma admissible_model s v :
  admissible (Model s) v ↔
  conforms (Model s) v = true ∨ rejects (Model s) v = true ∨
  ∃ d, v = VDict d ∧ Forall (admissible_argument d) (s_fields s).
Proof.
  destruct s as [n fs i]. cbn [s_fields]. do 2 (apply or_iff_compat_l).
  destruct v as [| | | | | | |d| |]; try (split; [done|by intros (? & [=] & _)]).
  match goal with |- ?go fs ↔ _ => assert (go fs ↔ Forall (admissible_argument d) fs) as -> end.
  { induction fs as [|f fs IH]; [done|]. by rewrite Forall_cons, IH. }
  split; [by exists d|by intros (? & [= <-] & ?)].
Qed.

(** What validation returns for it conforms. *)
Section Admissible.
Context `{HL : PydanticLaws}.

Lemma attributes_conform fs d attrs :
  Forall (fun f => ∀ v x, admissible (f_ann f) v → validate (f_ann f) v = Ret x → conforms (f_ann f) x = true) fs →
  Forall (admissible_argument d) fs →
  Forall2 (fun f kx => kx.1 = f_name f ∧
             match argument d f with
             | inr v => validate_field f v = Ret kx.2
             | inl dflt => dflt = Some kx.2
             end) fs attrs →
  Forall2 conforming_attr fs attrs.
Proof.
  intros IH Ha Hf. induction Hf as [|f [k x] fs attrs [Hk Hx] _ IHf]; [constructor|].
  apply Forall_cons in IH as [IH IHs]. apply Forall_cons in Ha as [Ha Has]. constructor; [|auto].
  cbn [fst snd] in *. subst k. unfold admissible_argument in Ha. destruct (argument d f) as [dflt|v]; [auto|].
  apply validate_field_inv in Hx as [Hx Hc]. split_and!; [done|by eapply IH|done].
Qed.

Lemma admissible_conforms a v x : admissible a v → validate a v = Ret x → conforms a x = true.
Proof using HL.
  revert v x. induction a as [a Hb|a1 a2 IH1 IH2|a IH|a IH|a IH|n fs inv IH] using ann_ind'; intros v x Ha Hx;
    match type of Hx with validate ?a _ = _ => destruct (plain_ann a) eqn:Hp end;
    try (rewrite plain_conforms by done; by eapply validate_plain; [| |done]; [|eapply plain_admissible]);
    [by destruct a|..].
  all: match type of Hx with validate ?a _ = _ =>
         assert (conforms a v = true → conforms a x = true) as Hsame
           by (intros Hc; rewrite (validate_accepts _ _ (conforms_accepts _ _ Hc)) in Hx; congruence);
         assert (rejects a v = true → conforms a x = true) as Hno
           by (intros [what Hw]%validate_rejects; congruence)
       end.
  - cbn [admissible] in Ha. rewrite Hp in Ha. destruct Ha as [|[|]]; auto.
  - cbn [admissible] in Ha. rewrite Hp in Ha. destruct Ha as [|[|Ha]]; [auto..|].
    apply validate_optional in Hx as [[-> ->]|[_ Hx]]; [done|]. specialize (IH v x Ha Hx). by destruct x.
  - cbn [admissible] in Ha. rewrite Hp in Ha. destruct Ha as [|[|Ha]]; [auto..|].
    destruct v as [| | | | | |l| | |]; try done. apply validate_items in Hx as (xs & -> & Hxs).
    cbn. rewrite forallb_forall. clear Hsame Hno. induction Hxs as [|y z l xs Hyz _ IHl]; [done|].
    apply Forall_cons in Ha as [Hy Ha]. intros w [<-|Hw]; [by eapply IH|by apply IHl].
  - cbn [admissible] in Ha. rewrite Hp in Ha. destruct Ha as [|[|Ha]]; [auto..|].
    destruct v as [| | | | | | |d| |]; try done. destruct Ha as [Hd Ha].
    apply validate_values in Hx as (xs & -> & Hxs). clear Hsame Hno.
    assert (xs.*1 = d.*1) as Hk by (clear -Hxs; induction Hxs as [|? ? ? ? []]; cbn; congruence).
    change (distinct xs.*1 && forallb (fun kv => conforms a kv.2) xs = true). rewrite Hk, Hd. cbn.
    rewrite forallb_forall. clear Hd Hk. induction Hxs as [|y z l xs [_ Hyz] _ IHl]; [done|].
    apply Forall_cons in Ha as [Hy Ha]. intros w [<-|Hw]; [by eapply IH|by apply IHl].
  - apply admissible_model in Ha as [|[|(d & -> & Ha)]]; [auto..|].
    apply validate_fields in Hx as (attrs & -> & Hattrs). apply conforms_model. exists attrs. split; [done|].
    by eapply attributes_conform.
Qed.

Lemma admissible_attr f v y :
  admissible (f_ann f) v → validate_field f v = Ret y → conforming_attr f (f_name f, y).
Proof using HL.
  intros Ha [Hv Hc]%validate_field_inv. split_and!; [done|by eapply admissible_conforms|done].
Qed.
End Admissible.

(** ** Changing instances *)

Section Mutation.
Context `{HP : Pydantic} `{HO : PydanticObjects}.

(** Assignments to any of the instances inside a value of an annotation. *)
Inductive mutates : ann → value → value → Prop :=
| mutates_not a x : mutates a x x
| mutates_here s x f v x' :
    f ∈ s_fields s → admissible (f_ann f) v → setattr model_config s x (f_name f) v = Ret x' →
    mutates (Model s) x x'
| mutates_inside s attrs attrs' :
    mutates_attrs (s_fields s) attrs attrs' →
    mutates (Model s) (VObj (s_name s) attrs) (VObj (s_name s) attrs')
| mutates_item a l1 x x' l2 :
    mutates a x x' → mutates (List a) (VList (l1 ++ x :: l2)) (VList (l1 ++ x' :: l2))
| mutates_value a d1 k x x' d2 :
    mutates a x x' → mutates (Dict a) (VDict (d1 ++ (k, x) :: d2)) (VDict (d1 ++ (k, x') :: d2))
| mutates_optional a x x' : x ≠ VNone → mutates a x x' → mutates (Optional a) x x'
| mutates_trans a x x' x'' : mutates a x x' → mutates a x' x'' → mutates a x x''
with mutates_attrs : list (Field ann) → list (string * value) → list (string * value) → Prop :=
| mutates_nil : mutates_attrs [] [] []
| mutates_cons f fs k x x' attrs attrs' :
    mutates (f_ann f) x x' → mutates_attrs fs attrs attrs' →
    mutates_attrs (f :: fs) ((k, x) :: attrs) ((k, x') :: attrs').

Scheme mutates_min := Minimality for mutates Sort Prop
  with mutates_attrs_min := Minimality for mutates_attrs Sort Prop.
Combined Scheme mutates_both from mutates_min, mutates_attrs_min.

(** The instances of a class that a program can get hold of: constructed with
    keyword arguments (which [__init__] validates as a dictionary), read from a
    document, and changed. *)
Inductive reachable (m : ApiModel) : value → Prop :=
| reachable_new kwargs x :
    (∀ f v, f ∈ s_fields (m_schema m) → argument kwargs f = inr v → admissible (f_ann f) v) →
    model_validate (m_schema m) (VDict kwargs) = Ret x → reachable m x
| reachable_from_dict v x :
    data v = true → m_from_dict m v = Ret x → x ≠ VNone → reachable m x
| reachable_from_json s x : m_from_json m s = Ret x → x ≠ VNone → reachable m x
| reachable_mutated x x' :
    reachable m x → mutates (Model (m_schema m)) x x' → reachable m x'.
End Mutation.

(** ** Changes keep the types *)

Lemma conforming_set fs attrs f y :
  NoDup (f_name <$> fs) → Forall2 conforming_attr fs attrs → f ∈ fs → conforming_attr f (f_name f, y) →
  Forall2 conforming_attr fs (dict_set attrs (f_name f) y).
Proof.
  intros Hn Hf. induction Hf as [|f' [k x] fs attrs Hx Hf IH]; [by intros ?%elem_of_nil|].
  rewrite fmap_cons in Hn. apply NoDup_cons in Hn as [Hfresh Hn].
  intros Hin Hy. pose proof Hx as (Hk & _). cbn in Hk |- *. subst k.
  apply elem_of_cons in Hin as [->|Hin].
  - rewrite String.eqb_refl. by constructor.
  - rewrite (proj2 (String.eqb_neq _ _)); [constructor; auto|].
    intros E. apply Hfresh. rewrite E. by apply list_elem_of_fmap_2.
Qed.

Section Preservation.
Context `{HL : PydanticLaws} `{HO : PydanticObjects} `{HOL : !PydanticObjectsLaws}.

Lemma mutates_plain a x x' : mutates a x x' → plain_ann a = true → x' = x.
Proof.
  induction 1 as [|s x f v x'| |a l1 x x' l2 _ IH|a d1 k x x' d2 _ IH|a x x' _ _ IH|a x x' x'' _ IH1 _ IH2];
    intros Hp; try done.
  - by rewrite IH.
  - by rewrite IH.
  - by apply IH.
  - rewrite IH2, IH1; done.
Qed.

(** An assignment to an instance that conforms to its class. *)
Lemma setattr_conforms s x f v x' :
  distinct (f_name <$> s_fields s) = true → conforms (Model s) x = true → f ∈ s_fields s →
  admissible (f_ann f) v → setattr model_config s x (f_name f) v = Ret x' → conforms (Model s) x' = true.
Proof using HL HOL.
  intros Hn (attrs & -> & Hattrs)%conforms_model Hf Ha.
  rewrite setattr_validated by done. intros (y & Hy & [= <-])%outcome_bind_Ret.
  apply conforms_model. eexists. split; [done|]. apply conforming_set; [by apply distinct_NoDup|done..|].
  by eapply admissible_attr.
Qed.

Lemma mutates_both_conform :
  (∀ a x x', mutates a x x' → well_built a → conforms a x = true → conforms a x' = true) ∧
  (∀ fs attrs attrs', mutates_attrs fs attrs attrs' →
     Forall (fun f => (plain_ann (f_ann f) = true ∨ unchecked f) ∧ well_built (f_ann f)) fs →
     Forall2 conforming_attr fs attrs → Forall2 conforming_attr fs attrs').
Proof using HL HOL.
  apply mutates_both;
    [|intros s x f v x' Hf Ha Hset|intros s attrs attrs' Hm IH|intros a l1 x x' l2 _ IH
     |intros a d1 k x x' d2 _ IH|intros a x x' Hx _ IH|intros a x x' x'' _ IH1 _ IH2|
     |intros f fs k x x' attrs attrs' Hm IH _ IHs]; intros Hw Hc; try done.
  - apply well_built_model in Hw as [Hn _]. by eapply setattr_conforms.
  - apply well_built_model in Hw as [_ Hw]. apply conforms_model in Hc as (? & [= <-] & Hc).
    apply conforms_model. eexists. split; [done|]. auto.
  - cbn in Hc |- *. rewrite forallb_app in Hc |- *. cbn in Hc |- *.
    apply andb_true_iff in Hc as [H1 [H2 H3]%andb_true_iff]. by rewrite H1, H3, IH.
  - cbn in Hc |- *. rewrite map_app, forallb_app in Hc |- *. cbn in Hc |- *.
    apply andb_true_iff in Hc as [Hk [H1 [H2 H3]%andb_true_iff]%andb_true_iff]. by rewrite Hk, H1, H3, IH.
  - assert (conforms a x = true) as Hcx by (by destruct x). specialize (IH Hw Hcx). by destruct x'.
  - auto.
  - apply Forall_cons in Hw as [[Hp Hw] Hws]. apply Forall2_cons in Hc as [(Hk & Hx & Hcheck) Hcs].
    cbn [fst snd] in *. constructor; [|auto]. split_and!; [done|by apply IH|]. cbn [snd].
    destruct Hp as [Hp|Hu]; [|by apply Hu]. by rewrite (mutates_plain _ _ _ Hm Hp).
Qed.

(** A new instance conforms to its class, its defaults included. *)
Lemma new_conforms s kwargs x :
  forallb default_typed (s_fields s) = true →
  (∀ f v, f ∈ s_fields s → argument kwargs f = inr v → admissible (f_ann f) v) →
  model_validate s (VDict kwargs) = Ret x → conforms (Model s) x = true.
Proof using HL.
  intros Hd Ha Hx. eapply admissible_conforms; [|exact Hx]. apply admissible_model. right. right.
  exists kwargs. split; [done|]. apply Forall_forall. intros f Hf. unfold admissible_argument.
  destruct (argument kwargs f) as [dflt|v] eqn:E; [|by eapply Ha]. intros y ->.
  rewrite forallb_forall in Hd. apply list_elem_of_In in Hf. specialize (Hd f Hf). unfold default_typed in Hd.
  assert (f_default f = Some y) as Ef
    by (unfold argument in E; destruct (dict_get kwargs (f_alias f)), (dict_get kwargs (f_name f)); congruence).
  rewrite Ef in Hd. apply andb_true_iff in Hd as [Ht Hc]. split_and!; [done..|].
  cbn [snd]. by destruct (f_check f y) as [[]| |].
Qed.
End Preservation.

(** ** An implementation *)

(** The reference implementation of [PydanticRef], with objects. *)
#[export] Instance objects_ref : PydanticObjects := {|
  setattr c s x name v :=
    match List.find (fun f => String.eqb (f_name f) name) (s_fields s), x with
    | Some f, VObj n attrs =>
        y ← if validate_assignment c then validate_field f v else Ret v;
        Ret (VObj n (dict_set attrs name y))
    | _, _ => Raise (ValueError "object has no field")
    end |}.

Lemma find_field (fs : list (Field ann)) f :
  NoDup (f_name <$> fs) → f ∈ fs → List.find (fun f' => String.eqb (f_name f') (f_name f)) fs = Some f.
Proof.
  induction fs as [|f' fs IH]; [by intros _ ?%elem_of_nil|]. rewrite fmap_cons.
  intros [Hfresh Hn]%NoDup_cons [->|Hin]%elem_of_cons; cbn; [by rewrite String.eqb_refl|].
  rewrite (proj2 (String.eqb_neq _ _)); [by apply IH|].
  intros E. apply Hfresh. rewrite E. by apply list_elem_of_fmap_2.
Qed.

#[export] Instance objects_ref_laws : PydanticObjectsLaws.
Proof.
  split.
  - intros c s attrs f v Hc Hn Hf. cbn [setattr objects_ref]. rewrite find_field, Hc; [done| |done].
    by apply distinct_NoDup.
  - intros c s attrs f v Hc Hn Hf. cbn [setattr objects_ref]. rewrite find_field, Hc; [done| |done].
    by apply distinct_NoDup.
  - intros c s attrs name v Hn. cbn [setattr objects_ref]. exists (ValueError "object has no field").
    destruct (List.find _ _) as [f|] eqn:E; [|done]. apply find_some in E as [Hf <-%String.eqb_eq].
    destruct Hn. by apply list_elem_of_fmap_2, list_elem_of_In.
Qed.
