(* ===== verification/OneOf.v ===== *)
(** * The one-of classes: IntOrString and Quantity

    Two generated classes hold a value of one of two types. Their code is the
    same up to the two annotations; [OneOf] has what differs. An instance has
    the attributes [oneof_schema_1_validator] and [oneof_schema_2_validator],
    used to validate by assignment, and [actual_instance]; the constant
    [one_of_schemas] is left out. *)

From S2P Require Import Prelude PyStr PyValue PyNum Json JsonSpec Pydantic Documents PydanticSpec PydanticDocs.
Local Open Scope string_scope.
Local Open Scope bool_scope.
Local Open Scope list_scope.

Record OneOf : Type := {
  o_name : string;
  o_schema_1 : ann;
  o_schema_2 : ann;
  o_actual : ann;
}.

Section OneOfCode.
Context `{Pydantic}.
Variable o : OneOf.

Definition oneof_schema_1_validator : Field ann :=
  opt "oneof_schema_1_validator" "oneof_schema_1_validator" (o_schema_1 o).
Definition oneof_schema_2_validator : Field ann :=
  opt "oneof_schema_2_validator" "oneof_schema_2_validator" (o_schema_2 o).

(** [try: instance.validator = v; match += 1  except (ValidationError, ValueError): ...]. *)
Definition count_match (f : Field ann) (v : value) (m : nat) : outcome nat :=
  match validate_field f v with
  | Ret _ => Ret (S m)
  | Raise (ValidationError _ | ValueError _) => Ret m
  | Raise e => Raise e
  | OutOfFuel => OutOfFuel
  end.

Definition verdict {A} (m : nat) (a : A) : outcome A :=
  match m with
  | O => Raise (ValueError "No match found")
  | 1 => Ret a
  | _ => Raise (ValueError "Multiple matches found")
  end.

Definition actual_instance_must_validate_oneof (v : value) : outcome unit :=
  m ← count_match oneof_schema_1_validator v 0;
  m ← count_match oneof_schema_2_validator v m;
  verdict m tt.

Definition actual_instance : Field ann :=
  checked (opt "actual_instance" "actual_instance" (o_actual o))
    actual_instance_must_validate_oneof.

(** An instance as [from_json] leaves it: the validator that matched holds the
    value too. *)
Definition same_prim (v w : value) : bool :=
  match v, w with
  | VInt x, VInt y => Z.eqb x y
  | VStr s, VStr t => String.eqb s t
  | VFloat m e, VFloat m' e' => Z.eqb m m' && Z.eqb e e'
  | _, _ => false
  end.
Definition from_json_instance (attrs : list (string * value)) : bool :=
  match attrs with
  | [(_, x1); (_, x2); (_, v)] =>
      json_ok v &&
      ((settled (o_schema_1 o) v && same_prim x1 v && is_none x2) ||
       (settled (o_schema_2 o) v && same_prim x2 v && is_none x1))
  | _ => false
  end.

Definition oneof_schema : Schema :=
  MkSchema (o_name o) [oneof_schema_1_validator; oneof_schema_2_validator; actual_instance]
    (Some from_json_instance).

(** [try: instance.validator = json.loads(json_str);
    instance.actual_instance = instance.validator; match += 1
    except (ValidationError, ValueError): ...]. *)
Definition deserialize (f : Field ann) (json_str : string) (st : list (string * value) * nat) :
    outcome (list (string * value) * nat) :=
  let '(attrs, m) := st in
  match loads json_str ≫= validate_field f with
  | Ret x =>
      let attrs := dict_set attrs (f_name f) x in
      match validate_field actual_instance x with
      | Ret y => Ret (dict_set attrs "actual_instance" y, S m)
      | Raise (ValidationError _ | ValueError _) => Ret (attrs, m)
      | Raise e => Raise e
      | OutOfFuel => OutOfFuel
      end
  | Raise (ValidationError _ | ValueError _) => Ret (attrs, m)
  | Raise e => Raise e
  | OutOfFuel => OutOfFuel
  end.

Definition oneof_from_json (json_str : string) : outcome value :=
  let instance := [("oneof_schema_1_validator", VNone); ("oneof_schema_2_validator", VNone);
                   ("actual_instance", VNone)] in
  st ← deserialize oneof_schema_1_validator json_str (instance, 0%nat);
  st ← deserialize oneof_schema_2_validator json_str st;
  verdict st.2 (VObj (o_name o) st.1).
End OneOfCode.

(** [cls.from_json(json.dumps(obj))]. *)
Definition oneof_from_dict `{Pydantic} (o : OneOf) (obj : value) : outcome value :=
  json_str ← dumps obj; oneof_from_json o json_str.

(** [__init__(self, *args, **kwargs)]. *)
Definition oneof_init `{Pydantic} (o : OneOf) (args : list value) (kwargs : list (string * value)) :
    outcome value :=
  match args with
  | [] => model_validate (oneof_schema o) (VDict kwargs)
  | [v] =>
      match kwargs with
      | [] => model_validate (oneof_schema o) (VDict [("actual_instance", v)])
      | _ => Raise (ValueError "If a position argument is used, keyword arguments cannot be used.")
      end
  | _ => Raise (ValueError "If a position argument is used, only 1 is allowed to set `actual_instance`")
  end.

(** [None] gives [None], a primitive value itself (no schema is a class with a
    [to_dict] of its own). *)
Definition oneof_to_dict (self : value) : outcome value := getattr self "actual_instance".

(** ["null"] for [None], else [json.dumps(self.actual_instance)]. *)
Definition oneof_to_json (self : value) : outcome string :=
  v ← getattr self "actual_instance"; dumps v.

Module IoK8sApimachineryPkgUtilIntstrIntOrString.
Definition oneof : OneOf := {|
  o_name := "IoK8sApimachineryPkgUtilIntstrIntOrString";
  o_schema_1 := StrictInt; o_schema_2 := StrictStr; o_actual := Union LaxInt LaxStr |}.
Definition schema `{Pydantic} : Schema := oneof_schema oneof.
(** [__init__] and the validator of [actual_instance], which [schema] has. *)
Definition init `{Pydantic} : list value → list (string * value) → outcome value := oneof_init oneof.
Definition must_validate_oneof `{Pydantic} : value → outcome unit :=
  actual_instance_must_validate_oneof oneof.
Definition to_dict `{Pydantic} : value → outcome value := oneof_to_dict.
Definition from_dict `{Pydantic} : value → outcome value := oneof_from_dict oneof.
Definition to_json `{Pydantic} : value → outcome string := oneof_to_json.
Definition from_json `{Pydantic} : string → outcome value := oneof_from_json oneof.
(** [pprint.pformat(self.model_dump())]: no field has an alias. The dump has the set
    [one_of_schemas] too, about which the laws say nothing. *)
Definition to_str `{Pydantic} : value → outcome string := to_str_with schema.
End IoK8sApimachineryPkgUtilIntstrIntOrString.

Module IoK8sApimachineryPkgApiResourceQuantity.
Definition oneof : OneOf := {|
  o_name := "IoK8sApimachineryPkgApiResourceQuantity";
  o_schema_1 := StrictStr; o_schema_2 := Union StrictFloat StrictInt;
  o_actual := Union LaxFloat LaxStr |}.
Definition schema `{Pydantic} : Schema := oneof_schema oneof.
(** [__init__] and the validator of [actual_instance], which [schema] has. *)
Definition init `{Pydantic} : list value → list (string * value) → outcome value := oneof_init oneof.
Definition must_validate_oneof `{Pydantic} : value → outcome unit :=
  actual_instance_must_validate_oneof oneof.
Definition to_dict `{Pydantic} : value → outcome value := oneof_to_dict.
Definition from_dict `{Pydantic} : value → outcome value := oneof_from_dict oneof.
Definition to_json `{Pydantic} : value → outcome string := oneof_to_json.
Definition from_json `{Pydantic} : string → outcome value := oneof_from_json oneof.
Definition to_str `{Pydantic} : value → outcome string := to_str_with schema.
End IoK8sApimachineryPkgApiResourceQuantity.

(** ** Lemmas *)

Section OneOfLemmas.
Context `{HL : PydanticLaws}.
Variable o : OneOf.

Lemma optional_accepts name a v :
  accepts a v = true → validate_field (opt name name a) v = Ret v.
Proof using HL.
  intros Ha. unfold validate_field. cbn [f_ann f_check opt].
  rewrite validate_accepts; [done|]. by destruct v; cbn.
Qed.
Lemma optional_rejects name a v :
  v ≠ VNone → rejects a v = true →
  ∃ what, validate_field (opt name name a) v = Raise (ValidationError what).
Proof using HL.
  intros Hn Hr. unfold validate_field. cbn [f_ann f_check opt].
  destruct (validate_rejects (Optional a) v) as [what Hw]; [by destruct v; cbn|].
  exists what. by rewrite Hw.
Qed.

(** The value fits exactly one schema, the first or the second. *)
Definition fits_1 (v : value) : Prop :=
  v ≠ VNone ∧ accepts (o_schema_1 o) v = true ∧ rejects (o_schema_2 o) v = true.
Definition fits_2 (v : value) : Prop :=
  v ≠ VNone ∧ rejects (o_schema_1 o) v = true ∧ accepts (o_schema_2 o) v = true.

Lemma must_validate v : fits_1 v ∨ fits_2 v → actual_instance_must_validate_oneof o v = Ret tt.
Proof using HL.
  unfold actual_instance_must_validate_oneof, count_match.
  intros [(Hn & Ha & Hr)|(Hn & Hr & Ha)];
    destruct (optional_rejects "oneof_schema_1_validator" _ _ Hn Hr) as [w1 Hw1],
             (optional_rejects "oneof_schema_2_validator" _ _ Hn Hr) as [w2 Hw2];
    unfold oneof_schema_1_validator, oneof_schema_2_validator;
    by rewrite ?(optional_accepts _ _ _ Ha), ?Hw1, ?Hw2.
Qed.

Lemma validate_actual v :
  fits_1 v ∨ fits_2 v → accepts (o_actual o) v = true →
  validate_field (actual_instance o) v = Ret v.
Proof using HL.
  intros Hf Ha. unfold validate_field. cbn [f_ann f_check actual_instance checked opt].
  rewrite validate_accepts by by destruct v. cbn. by rewrite must_validate.
Qed.

Section Document.
(** A document [json_str] with the value [v]. *)
Variable json_str : string.
Variable v : value.
Hypothesis Hloads : loads json_str = Ret v.

Lemma deserialize_ok f attrs m :
  validate_field f v = Ret v → validate_field (actual_instance o) v = Ret v →
  deserialize o f json_str (attrs, m) =
  Ret (dict_set (dict_set attrs (f_name f) v) "actual_instance" v, S m).
Proof using Hloads. intros Hf Ha. unfold deserialize. rewrite Hloads. cbn. by rewrite Hf, Ha. Qed.
Lemma deserialize_fail f st what :
  validate_field f v = Raise (ValidationError what) → deserialize o f json_str st = Ret st.
Proof using Hloads. intros Hf. unfold deserialize. destruct st. rewrite Hloads. cbn. by rewrite Hf. Qed.
Lemma deserialize_refused f attrs m what :
  validate_field f v = Ret v → validate_field (actual_instance o) v = Raise (ValidationError what) →
  deserialize o f json_str (attrs, m) = Ret (dict_set attrs (f_name f) v, m).
Proof using Hloads. intros Hf Ha. unfold deserialize. rewrite Hloads. cbn. by rewrite Hf, Ha. Qed.

Definition instance_1 : value :=
  VObj (o_name o) [("oneof_schema_1_validator", v); ("oneof_schema_2_validator", VNone);
                   ("actual_instance", v)].
Definition instance_2 : value :=
  VObj (o_name o) [("oneof_schema_1_validator", VNone); ("oneof_schema_2_validator", v);
                   ("actual_instance", v)].

Lemma oneof_from_json_1 :
  fits_1 v → accepts (o_actual o) v = true → oneof_from_json o json_str = Ret instance_1.
Proof using HL Hloads.
  intros Hf Ha. pose proof (validate_actual v (or_introl Hf) Ha) as Hact.
  destruct Hf as (Hn & H1 & H2).
  destruct (optional_rejects "oneof_schema_2_validator" _ _ Hn H2) as [what Hw].
  unfold oneof_from_json.
  rewrite (deserialize_ok (oneof_schema_1_validator o) _ _ (optional_accepts _ _ _ H1) Hact).
  cbn [mbind outcome_bind]. by rewrite (deserialize_fail (oneof_schema_2_validator o) _ _ Hw).
Qed.
Lemma oneof_from_json_2 :
  fits_2 v → accepts (o_actual o) v = true → oneof_from_json o json_str = Ret instance_2.
Proof using HL Hloads.
  intros Hf Ha. pose proof (validate_actual v (or_intror Hf) Ha) as Hact.
  destruct Hf as (Hn & H1 & H2).
  destruct (optional_rejects "oneof_schema_1_validator" _ _ Hn H1) as [what Hw].
  unfold oneof_from_json. rewrite (deserialize_fail (oneof_schema_1_validator o) _ _ Hw).
  cbn [mbind outcome_bind].
  by rewrite (deserialize_ok (oneof_schema_2_validator o) _ _ (optional_accepts _ _ _ H2) Hact).
Qed.

(** A value other than [None] that fits no schema. *)
Lemma oneof_from_json_no_match :
  v ≠ VNone → rejects (o_schema_1 o) v = true → rejects (o_schema_2 o) v = true →
  oneof_from_json o json_str = Raise (ValueError "No match found").
Proof using HL Hloads.
  intros Hn H1 H2. unfold oneof_from_json.
  destruct (optional_rejects "oneof_schema_1_validator" _ _ Hn H1) as [w1 Hw1].
  destruct (optional_rejects "oneof_schema_2_validator" _ _ Hn H2) as [w2 Hw2].
  rewrite (deserialize_fail (oneof_schema_1_validator o) _ _ Hw1). cbn [mbind outcome_bind].
  by rewrite (deserialize_fail (oneof_schema_2_validator o) _ _ Hw2).
Qed.

End Document.

(** [None] fits both schemas, so it is never an [actual_instance]. *)
Lemma none_not_validated :
  (∀ name a, validate_field (opt name name a) VNone = Ret VNone) ∧
  actual_instance_must_validate_oneof o VNone = Raise (ValueError "Multiple matches found").
Proof using HL.
  assert (∀ name a, validate_field (opt name name a) VNone = Ret VNone) as Hopt.
  { intros name a. unfold validate_field. by rewrite validate_accepts. }
  split; [done|]. unfold actual_instance_must_validate_oneof, count_match.
  unfold oneof_schema_1_validator, oneof_schema_2_validator. by rewrite !Hopt.
Qed.

(** The document [null]. *)
Lemma oneof_from_json_none json_str :
  loads json_str = Ret VNone → oneof_from_json o json_str = Raise (ValueError "No match found").
Proof using HL.
  intros Hs. destruct none_not_validated as [Hopt Hmust]. assert (validate_field (actual_instance o) VNone =
          Raise (ValidationError "Multiple matches found")) as Hact.
  { unfold validate_field. cbn [f_ann f_check actual_instance checked opt].
    rewrite validate_accepts by done. cbn [mbind outcome_bind]. by rewrite Hmust. }
  unfold oneof_from_json.
  rewrite (deserialize_refused json_str VNone Hs (oneof_schema_1_validator o) _ _ _ (Hopt _ _) Hact).
  cbn [mbind outcome_bind].
  by rewrite (deserialize_refused json_str VNone Hs (oneof_schema_2_validator o) _ _ _ (Hopt _ _) Hact).
Qed.

(** A text that is no JSON document. *)
Lemma oneof_from_json_invalid json_str what :
  loads json_str = Raise (ValueError what) →
  oneof_from_json o json_str = Raise (ValueError "No match found").
Proof. intros Hs. unfold oneof_from_json, deserialize. by rewrite Hs. Qed.

Lemma oneof_from_dict_json v :
  json_ok v = true →
  ∃ json_str, oneof_from_dict o v = oneof_from_json o json_str ∧ loads json_str = Ret v.
Proof.
  intros (t & Ht & Hl)%loads_of_dumps. exists t. split; [|done]. unfold oneof_from_dict. by rewrite Ht.
Qed.
End OneOfLemmas.

(** The positional argument becomes [actual_instance], the validators stay unset. *)
Lemma oneof_init_positional `{PydanticLaws} o v :
  fits_1 o v ∨ fits_2 o v → accepts (o_actual o) v = true →
  ∃ x, oneof_init o [v] [] = Ret x ∧ oneof_to_dict x = Ret v.
Proof.
  intros Hf Ha. eexists (VObj (o_name o) [("oneof_schema_1_validator", VNone);
    ("oneof_schema_2_validator", VNone); ("actual_instance", v)]).
  split; [|done]. apply (validate_kwargs (oneof_schema o)).
  do 2 (apply Forall2_cons; split; [done|]). apply Forall2_cons. split; [|constructor].
  split; [done|]. cbn [dict_get f_alias actual_instance checked opt]. rewrite String.eqb_refl.
  by apply validate_actual.
Qed.

(** ** What [from_json] returns *)

Section OneOfSound.
Context `{HL : PydanticLaws}.
Variable o : OneOf.
Hypothesis Hplain : plain_ann (o_schema_1 o) && plain_ann (o_schema_2 o) && plain_ann (o_actual o) = true.
Hypothesis Hdata : ∀ x, settled (o_schema_1 o) x || settled (o_schema_2 o) x = true → data x = true.

Lemma deserialize_inv f json_str attrs m attrs' m' :
  deserialize o f json_str (attrs, m) = Ret (attrs', m') →
  (attrs' = attrs ∧ m' = m) ∨
  ∃ v x, loads json_str = Ret v ∧ validate_field f v = Ret x ∧
    ((attrs' = dict_set attrs (f_name f) x ∧ m' = m) ∨
     ∃ y, validate_field (actual_instance o) x = Ret y ∧ m' = S m ∧
          attrs' = dict_set (dict_set attrs (f_name f) x) "actual_instance" y).
Proof.
  unfold deserialize. destruct (loads json_str) as [v|e|]; cbn; [|destruct e|]; try done;
    try (by intros [= <- <-]; left).
  destruct (validate_field f v) as [x|[]|] eqn:Hf; try done; try (by intros [= <- <-]; left).
  intros Hd. right. exists v, x. split_and!; [done..|].
  destruct (validate_field (actual_instance o) x) as [y|[]|] eqn:Hy; try done;
    injection Hd as <- <-; eauto.
Qed.

(** A state of [from_json]: the attributes conform, [actual_instance] once it
    has been set. *)
Definition conforming_state (st : list (string * value) * nat) : Prop :=
  ∃ x1 x2 y,
    st.1 = [("oneof_schema_1_validator", x1); ("oneof_schema_2_validator", x2);
            ("actual_instance", y)] ∧
    settled (Optional (o_schema_1 o)) x1 = true ∧ settled (Optional (o_schema_2 o)) x2 = true ∧
    (st.2 = 0%nat ∨ conforming_attr (actual_instance o) ("actual_instance", y)).

Lemma actual_conforms x y :
  data x = true → validate_field (actual_instance o) x = Ret y →
  conforming_attr (actual_instance o) ("actual_instance", y).
Proof using HL Hplain.
  intros Hx [Hy Hc]%validate_field_inv. apply andb_true_iff in Hplain as [_ Hp].
  split_and!; [done| |done]. rewrite plain_conforms by exact Hp. by eapply validate_plain.
Qed.

Lemma deserialize_conforms i json_str st st' :
  let f := if i : bool then oneof_schema_1_validator o else oneof_schema_2_validator o in
  conforming_state st → deserialize o f json_str st = Ret st' → conforming_state st'.
Proof using HL Hplain Hdata.
  intros f (x1 & x2 & y & Hst & H1 & H2 & Hy) Hd. destruct st as [attrs m], st' as [attrs' m'].
  cbn [fst snd] in *. subst attrs.
  apply deserialize_inv in Hd as [[-> ->]|(v & x & Hv%loads_data & [Hx _]%validate_field_inv & Hd)].
  { exists x1, x2, y. by split_and!. }
  pose proof Hplain as [[Hp1 Hp2]%andb_true_iff _]%andb_true_iff.
  assert (settled (f_ann f) x = true) as Ht by (eapply validate_plain; [by destruct i|done..]).
  assert (data x = true) as Hdx.
  { destruct i, x; try done; cbn in Ht; apply Hdata; by rewrite Ht, ?orb_true_r. }
  destruct Hd as [[-> ->]|(y' & Hy' & -> & ->)].
  - destruct i; [exists x, x2, y|exists x1, x, y]; by split_and!.
  - apply (actual_conforms _ _ Hdx) in Hy'.
    destruct i; [exists x, x2, y'|exists x1, x, y']; by split_and!; try right.
Qed.

Lemma oneof_from_json_conforms json_str x :
  oneof_from_json o json_str = Ret x → conforms (Model (oneof_schema o)) x = true.
Proof using HL Hplain Hdata.
  unfold oneof_from_json. intros (st1 & Hs1 & (st2 & Hs2 & Hv)%outcome_bind_Ret)%outcome_bind_Ret.
  apply (deserialize_conforms true) in Hs1; [|by exists VNone, VNone, VNone; split_and!; try left].
  apply (deserialize_conforms false) in Hs2 as (x1 & x2 & y & Hst & H1 & H2 & Hy); [|done].
  destruct st2 as [attrs m]. cbn [fst snd] in *. subst attrs.
  pose proof Hplain as [[Hp1 Hp2]%andb_true_iff _]%andb_true_iff.
  destruct m as [|[|]]; try done. injection Hv as <-. destruct Hy as [|Hy]; [done|].
  apply conforms_model. eexists. split; [done|].
  apply Forall2_cons; split; [by split_and!; [|rewrite plain_conforms|]|].
  apply Forall2_cons; split; [by split_and!; [|rewrite plain_conforms|]|].
  apply Forall2_cons; split; [exact Hy|constructor].
Qed.

Lemma oneof_sound : Sound (oneof_schema o) (oneof_from_dict o).
Proof using HL Hplain Hdata.
  intros v x _ (json_str & _ & Hx)%outcome_bind_Ret. right. by eapply oneof_from_json_conforms.
Qed.
End OneOfSound.

(** ** Documents *)

Section OneOfDocs.
Context `{HL : PydanticLaws}.
Variable o : OneOf.
Hypothesis Hplain : plain_ann (o_schema_1 o) && plain_ann (o_schema_2 o) && plain_ann (o_actual o) = true.

Lemma oneof_json_builds json_str v :
  loads json_str = Ret v → valid_doc (Model (oneof_schema o)) v = true →
  oneof_from_json o json_str = Ret (built (Model (oneof_schema o)) v).
Proof using HL.
  intros Ht Hv. change (fits_one (s_fields (oneof_schema o)) v = true) in Hv.
  cbn -[accepts rejects json_ok] in Hv. apply andb_true_iff in Hv as [Hv Hfit].
  apply andb_true_iff in Hv as [[Hj Hn%negb_true_iff]%andb_true_iff Ha].
  change (oneof_from_json o json_str = Ret (built_one (o_name o) (s_fields (oneof_schema o)) v)).
  cbn -[accepts]. assert (v ≠ VNone) as Hne by (by destruct v).
  assert (∀ a, accepts (Optional a) v = accepts a v) as Ea by (intros a; by destruct v).
  assert (∀ a, rejects (Optional a) v = rejects a v) as Er by (intros a; by destruct v).
  rewrite !Ea, !Er in *.
  apply orb_true_iff in Hfit as [[H1 H2]%andb_true_iff|[H1 H2]%andb_true_iff].
  - rewrite H1. by apply oneof_from_json_1.
  - rewrite (rejects_not_accepts _ _ H1). by apply oneof_from_json_2.
Qed.
Lemma oneof_json_refuses json_str v :
  loads json_str = Ret v → invalid_doc (Model (oneof_schema o)) v = true →
  oneof_from_json o json_str = Raise (ValueError "No match found").
Proof using HL.
  intros Ht Hv. change (fits_none (s_fields (oneof_schema o)) v = true) in Hv.
  cbn -[rejects json_ok] in Hv. destruct (is_none v) eqn:E.
  - destruct v; try done. by apply oneof_from_json_none.
  - apply andb_true_iff in Hv as [[_ H1]%andb_true_iff H2].
    apply (oneof_from_json_no_match o json_str v); by destruct v.
Qed.

Lemma valid_json_ok v : valid_doc (Model (oneof_schema o)) v = true → json_ok v = true.
Proof.
  change (valid_doc (Model (oneof_schema o)) v) with (fits_one (s_fields (oneof_schema o)) v).
  cbn -[accepts rejects json_ok]. by destruct (json_ok v).
Qed.
Lemma invalid_json_ok v : invalid_doc (Model (oneof_schema o)) v = true → json_ok v = true.
Proof.
  change (invalid_doc (Model (oneof_schema o)) v) with (fits_none (s_fields (oneof_schema o)) v).
  cbn -[rejects json_ok]. destruct v; try done; by destruct (json_ok _).
Qed.

Lemma oneof_builds : Builds (oneof_schema o) (oneof_from_dict o).
Proof using HL.
  intros v Hv. destruct (oneof_from_dict_json o v (valid_json_ok v Hv)) as (t & -> & Ht).
  by apply oneof_json_builds.
Qed.
Lemma oneof_refuses : Refuses (oneof_schema o) (oneof_from_dict o).
Proof using HL.
  split.
  - intros v _ Hv _. destruct (oneof_from_dict_json o v (invalid_json_ok v Hv)) as (t & -> & Ht).
    eexists. by eapply oneof_json_refuses.
  - right. destruct (oneof_from_dict_json o VNone eq_refl) as (t & -> & Ht). eexists.
    by apply oneof_from_json_none.
Qed.

Lemma optional_decides name a v :
  plain_ann a = true → decides (validate_field (opt name name a) v).
Proof using HL.
  intros Ha. unfold validate_field. cbn [f_ann f_check opt].
  destruct (validate_decides (Optional a) v Ha) as [[x ->]|[what ->]]; [left|right]; by eexists.
Qed.
Lemma count_match_ends name a v m :
  plain_ann a = true → ∃ m', count_match (opt name name a) v m = Ret m'.
Proof using HL.
  intros Ha. unfold count_match.
  destruct (optional_decides name a v Ha) as [[x ->]|[what ->]]; by eexists.
Qed.
Lemma actual_decides v : decides (validate_field (actual_instance o) v).
Proof using HL Hplain.
  pose proof Hplain as [[H1 H2]%andb_true_iff H3]%andb_true_iff.
  unfold validate_field. cbn [f_ann f_check actual_instance checked opt].
  destruct (validate_decides (Optional (o_actual o)) v H3) as [[x ->]|[what ->]]; [|right; by eexists].
  cbn [mbind outcome_bind]. unfold actual_instance_must_validate_oneof.
  destruct (count_match_ends "oneof_schema_1_validator" _ x 0 H1) as [m Hm].
  destruct (count_match_ends "oneof_schema_2_validator" _ x m H2) as [m' Hm'].
  unfold oneof_schema_1_validator, oneof_schema_2_validator. rewrite Hm. cbn [mbind outcome_bind].
  rewrite Hm'. cbn. destruct m' as [|[|]]; [right|left|right]; by eexists.
Qed.

Lemma deserialize_ends name a json_str st :
  plain_ann a = true → deserialize o (opt name name a) json_str st ≠ OutOfFuel.
Proof using HL Hplain.
  intros Ha. unfold deserialize. destruct st as [attrs m]. pose proof (loads_total json_str).
  destruct (loads json_str) as [v|e|]; cbn; [|by destruct e|done].
  destruct (optional_decides name a v Ha) as [[x ->]|[what ->]]; [|done].
  by destruct (actual_decides x) as [[y ->]|[what ->]].
Qed.

Lemma oneof_from_json_ends json_str : oneof_from_json o json_str ≠ OutOfFuel.
Proof using HL Hplain.
  pose proof Hplain as [[H1 H2]%andb_true_iff _]%andb_true_iff. unfold oneof_from_json.
  pose proof (deserialize_ends "oneof_schema_1_validator" _ json_str
    ([("oneof_schema_1_validator", VNone); ("oneof_schema_2_validator", VNone);
      ("actual_instance", VNone)], 0%nat) H1) as Hd.
  unfold oneof_schema_1_validator at 1. destruct (deserialize _ _ _ _) as [st| |]; try done.
  cbn [mbind outcome_bind]. pose proof (deserialize_ends "oneof_schema_2_validator" _ json_str st H2) as Hd2.
  unfold oneof_schema_2_validator. destruct (deserialize _ _ _ st) as [st2| |]; try done.
  cbn [mbind outcome_bind]. by destruct st2 as [attrs [|[|]]].
Qed.

Lemma oneof_ends : Ends (oneof_from_dict o).
Proof using HL Hplain.
  intros v _. unfold oneof_from_dict. pose proof (dumps_outcome v) as [Hd _].
  destruct (dumps v) as [t| |]; cbn; [|done..]. apply oneof_from_json_ends.
Qed.
End OneOfDocs.

(** ** Round trips *)

Lemma same_prim_eq v w : same_prim v w = true → v = w.
Proof.
  destruct v, w; cbn; try done.
  - by intros ->%Z.eqb_eq.
  - by intros [->%Z.eqb_eq ->%Z.eqb_eq]%andb_true_iff.
  - by intros ->%String.eqb_eq.
Qed.

Lemma oneof_writes `{PydanticLaws} (o : OneOf) :
  plain_ann (o_schema_1 o) && plain_ann (o_schema_2 o) && plain_ann (o_actual o) = true →
  (∀ v, settled (o_schema_1 o) v || settled (o_schema_2 o) v = true → same_prim v v = true) →
  Writes (oneof_schema o) oneof_to_dict.
Proof.
  intros [[P1 P2]%andb_true_iff P3]%andb_true_iff Hprim v Hv Hd.
  change (fits_one (s_fields (oneof_schema o)) v = true) in Hv.
  change (built (Model (oneof_schema o)) v) with (built_one (o_name o) (s_fields (oneof_schema o)) v).
  change (canon (Model (oneof_schema o)) v) with v.
  cbn -[accepts rejects json_ok] in Hv. apply andb_true_iff in Hv as [Hv Hfit].
  apply andb_true_iff in Hv as [[Hj Hn%negb_true_iff]%andb_true_iff Ha].
  assert (v ≠ VNone) as Hne by (by destruct v).
  assert (∀ a, accepts (Optional a) v = accepts a v) as Ea by (intros a; by destruct v).
  assert (∀ a, rejects (Optional a) v = rejects a v) as Er by (intros a; by destruct v).
  assert (∀ a, settled (Optional a) v = settled a v) as Eh by (intros a; by destruct v).
  rewrite !Ea, !Er in *.
  change (built_one (o_name o) (s_fields (oneof_schema o)) v) with
    (if accepts (Optional (o_schema_1 o)) v
     then VObj (o_name o) [("oneof_schema_1_validator", v); ("oneof_schema_2_validator", VNone); ("actual_instance", v)]
     else VObj (o_name o) [("oneof_schema_1_validator", VNone); ("oneof_schema_2_validator", v); ("actual_instance", v)]).
  rewrite Ea.
  assert (fits_1 o v ∨ fits_2 o v) as Hfits.
  { apply orb_true_iff in Hfit as [[]%andb_true_iff|[]%andb_true_iff]; [left|right]; by split_and!. }
  pose proof (must_validate o v Hfits) as Hm. apply (accepts_settled _ _ P3 Hd) in Ha.
  assert (∀ x1 x2, settled (Optional (o_schema_1 o)) x1 = true → settled (Optional (o_schema_2 o)) x2 = true →
    from_json_instance o [("oneof_schema_1_validator", x1); ("oneof_schema_2_validator", x2);
                          ("actual_instance", v)] = true →
    settled (Model (oneof_schema o))
      (VObj (o_name o) [("oneof_schema_1_validator", x1); ("oneof_schema_2_validator", x2);
                        ("actual_instance", v)]) = true) as Hobj.
  { intros x1 x2 T1 T2 Hi. apply settled_model. eexists. split_and!; [done..|].
    constructor; [by split_and!|]. constructor; [by split_and!|]. constructor; [|constructor].
    split_and!; [done| |done|done]. cbn [snd]. change (settled (Optional (o_actual o)) v = true). by rewrite Eh. }
  destruct Hfits as [(_ & H1 & H2)|(_ & H1 & H2)].
  - rewrite H1. apply (accepts_settled _ _ P1 Hd) in H1. split; [|done]. apply Hobj; [by rewrite Eh|done|].
    cbn -[settled json_ok]. rewrite Hj, H1, Hprim by by rewrite H1. done.
  - rewrite (rejects_not_accepts _ _ H1). apply (accepts_settled _ _ P2 Hd) in H2. split; [|done].
    apply Hobj; [done|by rewrite Eh|]. cbn -[settled json_ok]. rewrite Hj, H2, Hprim by by rewrite H2, orb_true_r.
    cbn. by rewrite orb_true_r.
Qed.

Lemma json_ok_data v : json_ok v = true → data v = true.
Proof. intros (t & _ & Hl)%loads_of_dumps. by eapply loads_data. Qed.

Section OneOfRoundTrip.
Context `{HL : PydanticLaws}.
Variable o : OneOf.
Hypothesis Hfits : ∀ v, conforms (o_actual o) v = true → fits_1 o v ∨ fits_2 o v.
Hypothesis Hwrites : Writes (oneof_schema o) oneof_to_dict.

(** The attributes of an instance: its value is not [None], and fits one schema. *)
Lemma oneof_instance x :
  conforms (Model (oneof_schema o)) x = true →
  ∃ x1 x2 v, x = VObj (o_name o) [("oneof_schema_1_validator", x1); ("oneof_schema_2_validator", x2);
                                  ("actual_instance", v)] ∧
    v ≠ VNone ∧ conforms (o_actual o) v = true.
Proof using HL.
  intros (attrs & -> & Ht)%conforms_model. cbn [oneof_schema s_name s_fields] in *.
  apply Forall2_cons_inv_l in Ht as ([k1 x1] & ? & (Hk1 & _) & Ht & ->).
  apply Forall2_cons_inv_l in Ht as ([k2 x2] & ? & (Hk2 & _) & Ht & ->).
  apply Forall2_cons_inv_l in Ht as ([k3 v] & ? & (Hk3 & Hv & Hc) & Ht & ->).
  apply Forall2_nil_inv_l in Ht as ->. cbn in Hk1, Hk2, Hk3. subst k1 k2 k3. cbn [snd] in Hv, Hc.
  assert (v ≠ VNone) as Hn.
  { intros ->. destruct (none_not_validated o) as [_ Hm]. cbn in Hc. congruence. }
  exists x1, x2, v. split_and!; [done..|]. by destruct v.
Qed.

(** Its value is a document, of which [from_dict] makes [rebuilt]. *)
Lemma oneof_value v :
  v ≠ VNone → conforms (o_actual o) v = true → json_ok v = true →
  valid_doc (Model (oneof_schema o)) v = true.
Proof using Hfits.
  intros Hn Hv Hj. change (fits_one (s_fields (oneof_schema o)) v = true).
  assert (∀ a, accepts (Optional a) v = accepts a v) as Ea by (intros a; by destruct v).
  assert (∀ a, rejects (Optional a) v = rejects a v) as Er by (intros a; by destruct v).
  assert (is_none v = false) as En by (by destruct v).
  cbn -[accepts rejects json_ok]. rewrite !Ea, !Er, Hj, En, (conforms_accepts _ _ Hv).
  destruct (Hfits v Hv) as [(_ & -> & ->)|(_ & -> & ->)]; [done|]. apply orb_true_r.
Qed.

Lemma oneof_round_trip : RoundTrip (oneof_schema o) oneof_to_dict (oneof_from_dict o).
Proof using HL Hfits Hwrites.
  split.
  - intros x (x1 & x2 & v & -> & Hn & Hv)%oneof_instance Hj. exists v. split_and!; [done..| |].
    + by apply oneof_builds, oneof_value.
    + exact (proj1 (writes v (oneof_value v Hn Hv Hj) (json_ok_data v Hj))).
  - intros x Hx. pose proof Hx as (x1 & x2 & v & -> & Hn & Hv)%settled_conforms%oneof_instance.
    apply settled_model in Hx as (? & [= <-] & [Hj Hi]%andb_true_iff & _). split; [done|].
    change (built_one (o_name o) (s_fields (oneof_schema o)) v = VObj (o_name o) [
      ("oneof_schema_1_validator", x1); ("oneof_schema_2_validator", x2); ("actual_instance", v)]).
    cbn -[accepts]. assert (accepts (Optional (o_schema_1 o)) v = accepts (o_schema_1 o) v) as -> by (by destruct v).
    apply orb_true_iff in Hi as [Hi|Hi]; apply andb_true_iff in Hi as [[Hs%settled_accepts ->%same_prim_eq]%andb_true_iff Hnone].
    + rewrite Hs. by destruct x2.
    + destruct x1; try done.
      destruct (Hfits v Hv) as [(_ & _ & Hr)|(_ & Hr & _)]; apply rejects_not_accepts in Hr; [congruence|].
      by rewrite Hr.
Qed.
End OneOfRoundTrip.

Lemma oneof_converts `{PydanticLaws} (o : OneOf) :
  plain_ann (o_schema_1 o) && plain_ann (o_schema_2 o) && plain_ann (o_actual o) = true →
  (∀ x, settled (o_schema_1 o) x || settled (o_schema_2 o) x = true → data x = true) →
  (∀ v, conforms (o_actual o) v = true → fits_1 o v ∨ fits_2 o v) →
  (∀ v, settled (o_schema_1 o) v || settled (o_schema_2 o) v = true → same_prim v v = true) →
  Converts (oneof_schema o) oneof_to_dict (oneof_from_dict o).
Proof.
  intros Hp Hd Hf Hs. split; [split|by apply oneof_writes|].
  6:{ apply well_built_model. split; [done|]. apply andb_true_iff in Hp as [[P1 P2]%andb_true_iff P3].
      repeat apply List.Forall_cons; try apply List.Forall_nil; (split; [by left|by apply plain_well_built]). }
  - apply oneof_round_trip; [done|by apply oneof_writes].
  - by apply oneof_sound.
  - apply oneof_builds.
  - apply oneof_refuses.
  - by apply oneof_ends.
Qed.

#[export] Instance IntOrString_converts `{PydanticLaws} :
  Converts IoK8sApimachineryPkgUtilIntstrIntOrString.schema
    IoK8sApimachineryPkgUtilIntstrIntOrString.to_dict
    IoK8sApimachineryPkgUtilIntstrIntOrString.from_dict.
Proof.
  apply oneof_converts; [done|by intros []|by intros [] Hv; try done; first [by left|by right]|].
  intros [| |z| |t| | | | |] Hv; try done; [apply Z.eqb_refl|apply String.eqb_refl].
Qed.

#[export] Instance Quantity_converts `{PydanticLaws} :
  Converts IoK8sApimachineryPkgApiResourceQuantity.schema
    IoK8sApimachineryPkgApiResourceQuantity.to_dict
    IoK8sApimachineryPkgApiResourceQuantity.from_dict.
Proof.
  apply oneof_converts; [done|by intros []|by intros [] Hv; try done; first [by left|by right]|].
  intros [| |z|m e|t| | | | |] Hv; try done; [apply Z.eqb_refl|cbn; by rewrite !Z.eqb_refl|apply String.eqb_refl].
Qed.
