(* ===== verification/OpenApiSpec.v ===== *)
(** * The models and the OpenAPI specification

    When a class implements a definition of the specification ([represents]):
    the same properties in the same order, each with the annotation of its type,
    required or optional alike, with the enumeration and the default that the
    specification has. A document that is valid by the specification is then a
    valid document of the class, in the sense of [Documents]. *)

From S2P Require Import Prelude PyStr PyValue Json JsonSpec Pydantic OpenApi OpenApiData Documents PydanticSpec PydanticDocs OneOf.
Local Open Scope string_scope.
Local Open Scope bool_scope.
Local Open Scope list_scope.

(** The annotation of a type that contains no other type. *)
Definition scalar_ann (t : oas_type) : option ann :=
  match t with
  | TString | TEnum _ => Some StrictStr
  | TByte => Some (Union StrictBytes StrictStr)
  | TDateTime => Some Datetime
  | TInteger => Some StrictInt
  | TNumber => Some (Union StrictFloat StrictInt)
  | TBoolean => Some StrictBool
  | TAny => Some (Optional AnyValue)
  | TObject => Some (Dict AnyValue)
  | _ => None
  end.

(** The validator of a property with an enumeration. *)
Definition enum_check (required : bool) (t : oas_type) : value → outcome unit :=
  match t with
  | TEnum values => if required then one_of values else none_or_one_of values
  | TArray (TEnum values) => none_or_each_of values
  | TMap (TEnum values) => none_or_each_value_of values
  | _ => no_check
  end.

(** The default of an optional field: the one of the specification, unless that
    is an object. *)
Definition field_default (p : Property) : value :=
  match p_default p with
  | Some (VDict _) | None => VNone
  | Some v => v
  end.

(** The field of the class [n] for a property. *)
Definition field_of (R : oas_type → ann → Prop) (n : string) (required : list string)
    (p : Property) (f : Field ann) : Prop :=
  let needed := is_required required (p_name p) in
  f_alias f = p_name p ∧
  (∀ v, f_check f v = enum_check needed (p_type p) v) ∧
  (if needed then R (p_type p) (f_ann f) ∧ f_default f = None
   else ∃ a, f_ann f = Optional a ∧ R (p_type p) a ∧ f_default f = Some (field_default p)) ∧
  (needed = false ∨ p_type p = TAny → arg_accepted f (fill n f) = true).

Definition oneofs : list OneOf :=
  [IoK8sApimachineryPkgUtilIntstrIntOrString.oneof; IoK8sApimachineryPkgApiResourceQuantity.oneof].

(** An annotation for the documents of a type, down to [k] levels of nesting. *)
Fixpoint represents `{Pydantic} (k : nat) (t : oas_type) (a : ann) : Prop :=
  match k with
  | O => True
  | S k =>
      match resolve definitions t with
      | TArray t' => ∃ a', a = List a' ∧ represents k t' a'
      | TMap t' => ∃ a', a = Dict a' ∧ represents k t' a'
      | TOneOf t1 t2 =>
          ∃ o, a = Model (oneof_schema o) ∧ o ∈ oneofs ∧
               scalar_ann t1 = Some (o_schema_1 o) ∧ scalar_ann t2 = Some (o_schema_2 o)
      | TRef name =>
          ∃ s required ps, a = Model s ∧ assoc definitions name = Some (DObject required ps) ∧
            regular s ∧ s_name s = class_name name ∧
            Forall2 (field_of (represents k) (s_name s) required) ps (s_fields s)
      | t' => scalar_ann t' = Some a
      end
  end.

Definition Represents `{Pydantic} (bound : nat) (t : oas_type) (a : ann) : Prop :=
  ∀ k, (k ≤ bound)%nat → represents k t a.

Lemma field_of_impl (R R' : oas_type → ann → Prop) n required p f :
  (∀ t a, R t a → R' t a) → field_of R n required p f → field_of R' n required p f.
Proof.
  intros HR (Ha & Hc & Hf & Hd). split_and!; [done..| |done].
  destruct (is_required _ _); [naive_solver|]. destruct Hf as (a & ? & ? & ?). exists a. auto.
Qed.

Section Rules.
Context `{Pydantic}.

Lemma represents_zero t a : Represents 0 t a.
Proof. intros k Hk. by replace k with 0%nat by lia. Qed.

Lemma represents_less bound t a : Represents (S bound) t a → Represents bound t a.
Proof. intros HR k Hk. apply HR. lia. Qed.

Lemma represents_scalar bound t a :
  resolve definitions t = t → scalar_ann t = Some a → Represents bound t a.
Proof. intros Hr Ha [|k] _; [done|]. cbn [represents resolve]. rewrite Hr. by destruct t. Qed.

Lemma represents_alias bound name t a :
  assoc definitions name = Some (DType t) → scalar_ann t = Some a → Represents bound (TRef name) a.
Proof. intros Hr Ha [|k] _; [done|]. cbn [represents resolve]. rewrite Hr. by destruct t. Qed.

Lemma represents_array bound t a : Represents bound t a → Represents bound (TArray t) (List a).
Proof. intros HR [|k] Hk; [done|]. exists a. split; [done|]. apply HR. lia. Qed.
Lemma represents_map bound t a : Represents bound t a → Represents bound (TMap t) (Dict a).
Proof. intros HR [|k] Hk; [done|]. exists a. split; [done|]. apply HR. lia. Qed.

Lemma represents_oneof bound name t1 t2 o :
  assoc definitions name = Some (DType (TOneOf t1 t2)) → o ∈ oneofs →
  scalar_ann t1 = Some (o_schema_1 o) → scalar_ann t2 = Some (o_schema_2 o) →
  Represents bound (TRef name) (Model (oneof_schema o)).
Proof. intros Hr Ho H1 H2 [|k] _; [done|]. cbn [represents resolve]. rewrite Hr. by exists o. Qed.

Lemma represents_object bound name s required ps :
  assoc definitions name = Some (DObject required ps) → regular s → s_name s = class_name name →
  Forall2 (field_of (Represents bound) (s_name s) required) ps (s_fields s) →
  Represents (S bound) (TRef name) (Model s).
Proof.
  intros Hr Hs Hn Hf [|k] Hk; [done|]. cbn [represents resolve]. rewrite Hr. exists s, required, ps. split_and!; [done..|].
  eapply Forall2_impl; [exact Hf|]. intros p f. apply field_of_impl. intros t a HR. apply HR. lia.
Qed.
End Rules.

(** ** Documents of collections *)

Lemma valid_doc_items a l : valid_doc (List a) (VList l) = forallb (valid_doc a) l.
Proof.
  cbn [valid_doc plain_ann]. destruct (plain_ann a) eqn:Ha; [|done]. cbn.
  induction l as [|x l IH]; cbn; [done|]. by rewrite IH, plain_valid.
Qed.
Lemma valid_doc_values a d : valid_doc (Dict a) (VDict d) = forallb (fun kv => valid_doc a kv.2) d.
Proof.
  cbn [valid_doc plain_ann]. destruct (plain_ann a) eqn:Ha; [|done]. cbn.
  induction d as [|x d IH]; cbn; [done|]. by rewrite IH, plain_valid.
Qed.
Lemma valid_doc_optional a v :
  is_none v = false → valid_doc (Optional a) v = valid_doc a v ∧ built (Optional a) v = built a v.
Proof.
  intros Hv. cbn [valid_doc built plain_ann]. destruct (plain_ann a) eqn:Ha; [|by destruct v].
  rewrite plain_valid, plain_built by done. by destruct v.
Qed.

Lemma regular_valid_doc s d :
  regular s → valid_doc (Model s) (VDict d) = forallb (field_valid (s_name s) d) (s_fields s).
Proof. destruct s as [n fs inv]. cbn [regular]. by intros ->. Qed.

Lemma json_ok_item l x : json_ok (VList l) = true → x ∈ l → json_ok x = true.
Proof. cbn. rewrite forallb_forall. intros Hl Hx%list_elem_of_In. auto. Qed.
Lemma json_ok_entry d kv : json_ok (VDict d) = true → kv ∈ d → json_ok kv.2 = true.
Proof.
  cbn. intros [_ Hd]%andb_true_iff Hx%list_elem_of_In. rewrite forallb_forall in Hd. by apply Hd.
Qed.

Lemma built_items a l : built (List a) (VList l) = VList (map (built a) l).
Proof.
  cbn [built plain_ann]. destruct (plain_ann a) eqn:Ha; [|done]. f_equal.
  induction l as [|x l IH]; cbn; [done|]. by rewrite plain_built, <- IH.
Qed.
Lemma built_values a d : built (Dict a) (VDict d) = VDict (map (fun kv => (kv.1, built a kv.2)) d).
Proof.
  cbn [built plain_ann]. destruct (plain_ann a) eqn:Ha; [|done]. f_equal.
  induction d as [|[k x] d IH]; cbn; [done|]. by rewrite plain_built, <- IH.
Qed.

Lemma check_all_each values l :
  (∀ x, x ∈ l → one_of values x = Ret tt) → check_all values l = Ret tt.
Proof.
  induction l as [|x l IH]; cbn; [done|]. intros Hl. rewrite Hl by set_solver. cbn. apply IH. set_solver.
Qed.

(** ** The specification is well formed *)

(** The names of the properties of a definition are distinct; no definition stands
    for any document, or for another definition. *)
Definition well_formed (defs : list (string * oas_def)) : bool :=
  forallb (fun nd => match nd.2 with
                     | DObject _ ps => distinct (map p_name ps)
                     | DType t => match t with TAny | TRef _ => false | _ => true end
                     end) defs.

Lemma definitions_well_formed : well_formed definitions = true.
Proof. vm_compute. reflexivity. Qed.

Lemma assoc_elem {A} (l : list (string * A)) k a : assoc l k = Some a → (k, a) ∈ l.
Proof.
  induction l as [|[k' a'] l IH]; cbn; [done|].
  destruct (String.eqb_spec k' k) as [->|_]; [intros [= ->]; by left|]. intros ?%IH. by right.
Qed.

Lemma well_formed_assoc defs name def :
  well_formed defs = true → assoc defs name = Some def →
  match def with
  | DObject _ ps => NoDup (map p_name ps)
  | DType t => t ≠ TAny ∧ ∀ name', t ≠ TRef name'
  end.
Proof.
  intros Hw Hin%assoc_elem%list_elem_of_In. unfold well_formed in Hw.
  rewrite forallb_forall in Hw. specialize (Hw _ Hin). cbn in Hw. destruct def as [req ps|t]; [by apply distinct_NoDup|by destruct t].
Qed.

Lemma definition_properties name required ps :
  assoc definitions name = Some (DObject required ps) → NoDup (map p_name ps).
Proof. apply (well_formed_assoc definitions name (DObject required ps) definitions_well_formed). Qed.
Lemma definition_not_any name : assoc definitions name ≠ Some (DType TAny).
Proof. intros Hn. by apply (well_formed_assoc definitions name (DType TAny) definitions_well_formed) in Hn as [].
Qed.
Lemma definition_not_ref name name' : assoc definitions name ≠ Some (DType (TRef name')).
Proof.
  intros Hn. apply (well_formed_assoc definitions name (DType (TRef name')) definitions_well_formed) in Hn as [_ Hn].
  by eapply Hn.
Qed.

Lemma property_of_elem ps p : NoDup (map p_name ps) → p ∈ ps → property_of ps (p_name p) = Some p.
Proof.
  unfold property_of. induction ps as [|q ps IH]; cbn; [by intros _ ?%elem_of_nil|].
  intros [Hq Hps]%NoDup_cons [->|Hp]%elem_of_cons; [by rewrite String.eqb_refl|].
  rewrite (proj2 (String.eqb_neq _ _)); [by apply IH|].
  intros E. apply Hq. rewrite E. by apply list_elem_of_fmap_2.
Qed.

Lemma dict_get_in d k x : dict_get d k = Some x → (k, x) ∈ d.
Proof.
  induction d as [|[k' x'] d IH]; cbn; [done|].
  destruct (String.eqb_spec k' k) as [->|_]; [intros [= ->]; by left|]. intros ?%IH. by right.
Qed.

(** ** Valid documents *)

Definition is_scalar (t : oas_type) : bool :=
  match t with TArray _ | TMap _ | TOneOf _ _ | TRef _ => false | _ => true end.

Section ValidDocuments.
Context `{Pydantic}.

Lemma resolve_not_ref t : match t with TRef _ => False | _ => True end → resolve definitions t = t.
Proof. by destruct t. Qed.

Lemma valid_resolved strict v t :
  is_scalar (resolve definitions t) = true →
  valid definitions strict v t = valid_scalar strict (resolve definitions t) v.
Proof. intros Ht. destruct v; cbn [valid]; destruct (resolve definitions t); done. Qed.

(** The documents of a type and of the annotation that represents it; the values
    of an enumeration pass its validator, and null is for [TAny] alone. *)
Definition adequate (t : oas_type) (a : ann) (v : value) : Prop :=
  valid_doc a v = true ∧ (∀ needed, enum_check needed t (built a v) = Ret tt) ∧
  (v = VNone → t = TAny).

Lemma adequate_scalar t a v :
  is_scalar t = true → scalar_ann t = Some a → valid_scalar true t v = true → adequate t a v.
Proof.
  intros Ht Ha Hv.
  destruct t as [|values| | | | | | | | | | |]; try done; injection Ha as <-; split_and!; try done;
    try (by destruct v).
  - intros needed. destruct v as [| | | |s| | | | |]; try done. cbn in *. unfold one_of, none_or_one_of, one_of.
    by destruct needed; cbn; rewrite Hv.
  - destruct v as [| | | | | | |d| |]; try done. cbn. by apply forallb_forall.
Qed.

Lemma adequate_array t a l :
  (∀ x, x ∈ l → adequate t a x) → adequate (TArray t) (List a) (VList l).
Proof.
  intros Hl. split_and!; [| |done].
  - rewrite valid_doc_items, forallb_forall. intros x Hx%list_elem_of_In. by apply Hl.
  - intros needed. rewrite built_items. destruct t as [|values| | | | | | | | | | |]; try done. cbn.
    apply check_all_each. intros x (y & -> & Hy)%list_elem_of_fmap. by apply (Hl y Hy) with (needed := true).
Qed.
Lemma adequate_map t a d :
  (∀ kv, kv ∈ d → adequate t a kv.2) → adequate (TMap t) (Dict a) (VDict d).
Proof.
  intros Hd. split_and!; [| |done].
  - rewrite valid_doc_values, forallb_forall. intros x Hx%list_elem_of_In. by apply Hd.
  - intros needed. rewrite built_values. destruct t as [|values| | | | | | | | | | |]; try done. cbn.
    apply check_all_each. intros x (kv & -> & Hkv)%list_elem_of_fmap.
    apply list_elem_of_fmap in Hkv as (kv' & -> & Hkv'). by apply (Hd kv' Hkv') with (needed := true).
Qed.

Lemma adequate_oneof t1 t2 o v :
  o ∈ oneofs → scalar_ann t1 = Some (o_schema_1 o) → scalar_ann t2 = Some (o_schema_2 o) →
  json_ok v = true → xorb (valid_scalar true t1 v) (valid_scalar true t2 v) = true →
  valid_doc (Model (oneof_schema o)) v = true.
Proof.
  intros Ho H1 H2 Hj Hv. cbn [valid_doc plain_ann oneof_schema]. unfold fits_one. rewrite Hj.
  apply elem_of_cons in Ho as [->|[->|Ho%elem_of_nil]%elem_of_cons]; [..|done];
    destruct t1; try discriminate H1; destruct t2; try discriminate H2; destruct v; try done;
    cbn in Hv |- *; try done.
Qed.


(** The parts of a valid document of an object definition. *)
Lemma valid_object name required ps d :
  assoc definitions name = Some (DObject required ps) →
  valid definitions true (VDict d) (TRef name) = true →
  (∀ k, k ∈ required → dict_get d k ≠ None) ∧
  (∀ p x, p ∈ ps → dict_get d (p_name p) = Some x → valid definitions true x (p_type p) = true).
Proof.
  intros Hn. cbn [valid resolve]. rewrite Hn. cbn match. rewrite Hn. intros [Hr Hp]%andb_true_iff. rewrite !forallb_forall in *. split.
  - intros k Hk%list_elem_of_In%Hr%bool_decide_eq_true. apply list_elem_of_fmap in Hk as ([k' x] & -> & Hx).
    intros Hd. clear -Hx Hd. induction d as [|[j y] d IH]; cbn in *; [by apply elem_of_nil in Hx|].
    destruct (String.eqb_spec j k'); [done|]. apply elem_of_cons in Hx as [[= -> ->]|Hx]; [done|auto].
  - intros p x Hin Hx%dict_get_in%list_elem_of_In%Hp. cbn [fst snd] in Hx.
    by rewrite (property_of_elem ps p (definition_properties _ _ _ Hn) Hin) in Hx.
Qed.

Lemma adequate_object (R : oas_type → ann → Prop) name s required ps d :
  assoc definitions name = Some (DObject required ps) → regular s →
  Forall2 (field_of R (s_name s) required) ps (s_fields s) →
  (∀ t a kv, R t a → kv ∈ d → valid definitions true kv.2 t = true → adequate t a kv.2) →
  valid definitions true (VDict d) (TRef name) = true → valid_doc (Model s) (VDict d) = true.
Proof.
  intros Hn Hs Hf HR Hv. destruct (valid_object _ _ _ _ Hn Hv) as [Hreq Hval].
  rewrite regular_valid_doc, forallb_forall by done. intros f [i Hi]%list_elem_of_In%list_elem_of_lookup_1.
  destruct (Forall2_lookup_r _ _ _ _ _ Hf Hi) as (p & Hp%list_elem_of_lookup_2 & Ha & Hc & Hann & Hfill).
  unfold field_valid, present. rewrite Ha. destruct (dict_get d (p_name p)) as [x|] eqn:Hx; cbn [from_option id].
  - pose proof (Hval p x Hp Hx) as Hvx. apply dict_get_in in Hx.
    destruct (is_none x) eqn:Hnone.
    { destruct x; try done. apply Hfill. right. destruct (is_required required (p_name p)).
      - destruct Hann as [HRp _]. by destruct (HR _ _ _ HRp Hx Hvx) as (_ & _ & ?); auto.
      - destruct Hann as (a & _ & HRp & _). by destruct (HR _ _ _ HRp Hx Hvx) as (_ & _ & ?); auto. }
    destruct (is_required required (p_name p)) eqn:Er.
    + destruct Hann as [HRp _]. destruct (HR _ _ _ HRp Hx Hvx) as (Hd & Hk & _). cbn [snd] in *.
      by rewrite Hd, Hc, Hk.
    + destruct Hann as (a & -> & HRp & _). destruct (valid_doc_optional a x Hnone) as [-> ->].
      destruct (HR _ _ _ HRp Hx Hvx) as (Hd & Hk & _). cbn [snd] in *.
      by rewrite Hd, Hc, Hk.
  - apply Hfill. destruct (is_required required (p_name p)) eqn:Er; [|by left].
    apply bool_decide_eq_true in Er. by destruct (Hreq _ Er).
Qed.

Lemma valid_represented k : ∀ t a v,
  represents k t a → (height v ≤ k)%nat → json_ok v = true → valid definitions true v t = true →
  adequate t a v.
Proof.
  induction k as [|k IH]; intros t a v Hr Hh Hj Hv; [by destruct v; cbn in Hh; lia|].
  cbn [represents] in Hr. destruct (is_scalar (resolve definitions t)) eqn:Hsc.
  { rewrite valid_resolved in Hv by done.
    assert (scalar_ann (resolve definitions t) = Some a) as Ha by (by destruct (resolve definitions t)).
    destruct (adequate_scalar _ a v Hsc Ha Hv) as (Hd & He & Hn). split_and!; [done|by destruct t|].
    intros E%Hn. destruct t as [| | | | | | | | | | | |name]; try done. cbn [resolve] in E.
    destruct (assoc definitions name) as [[|t]|] eqn:Et; try done. subst t. by apply definition_not_any in Et. }
  destruct (resolve definitions t) as [| | | | | | | | |t'|t'|t1 t2|name] eqn:Et; try done.
  - destruct Hr as (a' & -> & Hr). assert (∃ l, v = VList l) as [l ->].
    { destruct v; cbn [valid] in Hv; rewrite Et in Hv; try done. eauto. }
    cbn [valid] in Hv. rewrite Et, forallb_forall in Hv.
    assert (adequate (TArray t') (List a') (VList l)) as (Hd & He & _).
    { apply adequate_array. intros x Hx. apply IH; [done|..].
      - pose proof (height_item l x Hx). lia.
      - by eapply json_ok_item.
      - by apply Hv, list_elem_of_In. }
    split_and!; [done| |done]. destruct t; cbn [resolve] in Et; try done; congruence.
  - destruct Hr as (a' & -> & Hr). assert (∃ d, v = VDict d) as [d ->].
    { destruct v; cbn [valid] in Hv; rewrite Et in Hv; try done. eauto. }
    cbn [valid] in Hv. rewrite Et, forallb_forall in Hv.
    assert (adequate (TMap t') (Dict a') (VDict d)) as (Hd & He & _).
    { apply adequate_map. intros kv Hx. apply IH; [done|..].
      - pose proof (height_entry d kv Hx). lia.
      - by eapply json_ok_entry.
      - by apply Hv, list_elem_of_In. }
    split_and!; [done| |done]. destruct t; cbn [resolve] in Et; try done; congruence.
  - destruct Hr as (o & -> & Ho & H1 & H2).
    assert (valid_doc (Model (oneof_schema o)) v = true) as Hd.
    { apply (adequate_oneof t1 t2); [done..|]. destruct v; cbn [valid] in Hv; rewrite Et in Hv; done. }
    split_and!; [done| |].
    + intros needed. destruct t; cbn [resolve] in Et; done.
    + intros ->. by apply valid_model in Hd as [].
  - destruct Hr as (s & required & ps & -> & Hn & Hs & _ & Hf).
    assert (t = TRef name) as ->.
    { destruct t as [| | | | | | | | | | | |n]; cbn [resolve] in Et; try done.
      destruct (assoc definitions n) as [[|t]|] eqn:E; try congruence. subst t. by apply definition_not_ref in E. }
    assert (∃ d, v = VDict d) as [d ->].
    { destruct v; cbn [valid] in Hv; rewrite Et in Hv; try done. eauto. }
    split_and!; [|done..]. apply (adequate_object (represents k) name s required ps d); [done..| |done].
    intros t a kv HR Hx Hvx. apply IH; [done|..].
    + pose proof (height_entry d kv Hx). lia.
    + by eapply json_ok_entry.
    + done.
Qed.
End ValidDocuments.

(** ** Checking a class against its definition *)

Section Fields.
Context `{Pydantic} (bound : nat) (n : string) (required : list string) (p : Property) (f : Field ann).

Lemma field_needed :
  is_required required (p_name p) = true → f_alias f = p_name p →
  (∀ v, f_check f v = enum_check true (p_type p) v) → f_default f = None →
  (p_type p = TAny → arg_accepted f (fill n f) = true) → Represents bound (p_type p) (f_ann f) →
  field_of (Represents bound) n required p f.
Proof. intros Hr Ha Hc Hd Hf HR. unfold field_of. rewrite Hr. naive_solver. Qed.

Lemma field_optional a :
  is_required required (p_name p) = false → f_alias f = p_name p →
  (∀ v, f_check f v = enum_check false (p_type p) v) → f_ann f = Optional a →
  f_default f = Some (field_default p) → arg_accepted f (field_default p) = true →
  Represents bound (p_type p) a → field_of (Represents bound) n required p f.
Proof.
  intros Hr Ha Hc Hann Hd Hf HR. unfold field_of, fill. rewrite Hr, Hd. split_and!; [done..| |done].
  by exists a.
Qed.
End Fields.

(** The rules, and the classes as they are checked. *)
Create HintDb represents discriminated.
#[export] Hint Constants Opaque : represents.
#[export] Hint Resolve represents_array represents_map : represents.
#[export] Hint Extern 1 (Represents _ TString _) => apply represents_scalar; reflexivity : represents.
#[export] Hint Extern 1 (Represents _ (TEnum _) _) => apply represents_scalar; reflexivity : represents.
#[export] Hint Extern 1 (Represents _ TByte _) => apply represents_scalar; reflexivity : represents.
#[export] Hint Extern 1 (Represents _ TInteger _) => apply represents_scalar; reflexivity : represents.
#[export] Hint Extern 1 (Represents _ TBoolean _) => apply represents_scalar; reflexivity : represents.
#[export] Hint Extern 1 (Represents _ TAny _) => apply represents_scalar; reflexivity : represents.
#[export] Hint Extern 1 (Represents _ TObject _) => apply represents_scalar; reflexivity : represents.

(** Solves [Forall2 field_of] for concrete properties and fields. *)
Ltac solve_fields :=
  lazymatch goal with
  | |- Forall2 (field_of _ (s_name ?s) _) _ _ => let n := eval lazy in (s_name s) in change (s_name s) with n
  end;
  repeat first
    [ apply List.Forall2_nil
    | apply List.Forall2_cons;
      [first [ apply field_needed;
               [vm_compute; reflexivity|reflexivity|intros ?; reflexivity|reflexivity
               |first [discriminate|intros _; vm_compute; reflexivity]|cbn [p_type f_ann prop prop_or req checked]; solve [eauto with represents nocore]]
             | eapply field_optional;
               [vm_compute; reflexivity|reflexivity|intros ?; reflexivity|reflexivity|reflexivity
               |reflexivity|cbn [p_type prop prop_or]; solve [eauto with represents nocore]] ]|] ].

(** Solves [Represents] for the class of a definition. *)
Ltac solve_object def :=
  lazymatch goal with
  | |- Represents (S ?b) (TRef ?name) (Model ?s) =>
      let d := eval unfold def in def in
      lazymatch d with
      | DObject ?required ?ps =>
          apply (represents_object b name s required ps);
          [vm_compute; reflexivity|reflexivity|reflexivity|solve_fields]
      end
  end.
Ltac solve_represents def :=
  lazymatch goal with
  | |- Represents ?b _ _ => destruct b; [apply represents_zero|solve_object def]
  end.
