(* ===== verification/ApiMeta.v ===== *)
(** * API machinery models

    The classes of the Kubernetes API machinery (object metadata, conditions,
    label selectors) that the Trainer API uses, from
    api/python_api/kubeflow_trainer_api/models/io_k8s_apimachinery_*.py. Each
    Module is a class: its fields, [to_dict] and [from_dict]. *)

From S2P Require Import Prelude PyStr PyValue Pydantic PydanticSpec PydanticDocs.
From S2P Require Import OneOf.
Local Open Scope string_scope.
Local Open Scope list_scope.

Module IoK8sApimachineryPkgApisMetaV1ManagedFieldsEntry.
Definition schema `{Pydantic} : Schema := model "IoK8sApimachineryPkgApisMetaV1ManagedFieldsEntry" [
  opt "api_version" "apiVersion" StrictStr;
  opt "fields_type" "fieldsType" StrictStr;
  opt "fields_v1" "fieldsV1" (Dict AnyValue);
  opt "manager" "manager" StrictStr;
  opt "operation" "operation" StrictStr;
  opt "subresource" "subresource" StrictStr;
  opt "time" "time" Datetime].
Definition to_dict `{Pydantic} : value → outcome value := to_dict_with schema [].
Definition from_dict `{Pydantic} : value → outcome value := from_dict_with schema [
  Get "apiVersion";
  Get "fieldsType";
  Get "fieldsV1";
  Get "manager";
  Get "operation";
  Get "subresource";
  Get "time"].
Definition to_json `{Pydantic} : value → outcome string := to_json_with to_dict.
Definition from_json `{Pydantic} : string → outcome value := from_json_with from_dict.
Definition to_str `{Pydantic} : value → outcome string := to_str_with schema.
End IoK8sApimachineryPkgApisMetaV1ManagedFieldsEntry.
#[export] Instance IoK8sApimachineryPkgApisMetaV1ManagedFieldsEntry_templated `{PydanticLaws} :
  Templated IoK8sApimachineryPkgApisMetaV1ManagedFieldsEntry.schema
    IoK8sApimachineryPkgApisMetaV1ManagedFieldsEntry.to_dict
      IoK8sApimachineryPkgApisMetaV1ManagedFieldsEntry.from_dict.
Proof. solve_model. Qed.

Module IoK8sApimachineryPkgApisMetaV1OwnerReference.
Definition schema `{Pydantic} : Schema := model "IoK8sApimachineryPkgApisMetaV1OwnerReference" [
  req "api_version" "apiVersion" StrictStr;
  opt "block_owner_deletion" "blockOwnerDeletion" StrictBool;
  opt "controller" "controller" StrictBool;
  req "kind" "kind" StrictStr;
  req "name" "name" StrictStr;
  req "uid" "uid" StrictStr].
Definition to_dict `{Pydantic} : value → outcome value := to_dict_with schema [].
Definition from_dict `{Pydantic} : value → outcome value := from_dict_with schema [
  GetOr "apiVersion" (VStr "");
  Get "blockOwnerDeletion";
  Get "controller";
  GetOr "kind" (VStr "");
  GetOr "name" (VStr "");
  GetOr "uid" (VStr "")].
Definition to_json `{Pydantic} : value → outcome string := to_json_with to_dict.
Definition from_json `{Pydantic} : string → outcome value := from_json_with from_dict.
Definition to_str `{Pydantic} : value → outcome string := to_str_with schema.
End IoK8sApimachineryPkgApisMetaV1OwnerReference.
#[export] Instance IoK8sApimachineryPkgApisMetaV1OwnerReference_templated `{PydanticLaws} :
  Templated IoK8sApimachineryPkgApisMetaV1OwnerReference.schema
    IoK8sApimachineryPkgApisMetaV1OwnerReference.to_dict
      IoK8sApimachineryPkgApisMetaV1OwnerReference.from_dict.
Proof. solve_model. Qed.

Module IoK8sApimachineryPkgApisMetaV1ObjectMeta.
Definition schema `{Pydantic} : Schema := model "IoK8sApimachineryPkgApisMetaV1ObjectMeta" [
  opt "annotations" "annotations" (Dict StrictStr);
  opt "creation_timestamp" "creationTimestamp" Datetime;
  opt "deletion_grace_period_seconds" "deletionGracePeriodSeconds" StrictInt;
  opt "deletion_timestamp" "deletionTimestamp" Datetime;
  opt "finalizers" "finalizers" (List StrictStr);
  opt "generate_name" "generateName" StrictStr;
  opt "generation" "generation" StrictInt;
  opt "labels" "labels" (Dict StrictStr);
  opt "managed_fields" "managedFields" (List
    (Model IoK8sApimachineryPkgApisMetaV1ManagedFieldsEntry.schema));
  opt "name" "name" StrictStr;
  opt "namespace" "namespace" StrictStr;
  opt "owner_references" "ownerReferences" (List
    (Model IoK8sApimachineryPkgApisMetaV1OwnerReference.schema));
  opt "resource_version" "resourceVersion" StrictStr;
  opt "self_link" "selfLink" StrictStr;
  opt "uid" "uid" StrictStr].
Definition to_dict `{Pydantic} : value → outcome value := to_dict_with schema [
  DumpItems "managed_fields" "managedFields"
    IoK8sApimachineryPkgApisMetaV1ManagedFieldsEntry.to_dict;
  DumpItems "owner_references" "ownerReferences"
    IoK8sApimachineryPkgApisMetaV1OwnerReference.to_dict].
Definition from_dict `{Pydantic} : value → outcome value := from_dict_with schema [
  Get "annotations";
  Get "creationTimestamp";
  Get "deletionGracePeriodSeconds";
  Get "deletionTimestamp";
  Get "finalizers";
  Get "generateName";
  Get "generation";
  Get "labels";
  FromDictItems "managedFields" IoK8sApimachineryPkgApisMetaV1ManagedFieldsEntry.from_dict;
  Get "name";
  Get "namespace";
  FromDictItems "ownerReferences" IoK8sApimachineryPkgApisMetaV1OwnerReference.from_dict;
  Get "resourceVersion";
  Get "selfLink";
  Get "uid"].
Definition to_json `{Pydantic} : value → outcome string := to_json_with to_dict.
Definition from_json `{Pydantic} : string → outcome value := from_json_with from_dict.
Definition to_str `{Pydantic} : value → outcome string := to_str_with schema.
End IoK8sApimachineryPkgApisMetaV1ObjectMeta.
#[export] Instance IoK8sApimachineryPkgApisMetaV1ObjectMeta_templated `{PydanticLaws} :
  Templated IoK8sApimachineryPkgApisMetaV1ObjectMeta.schema
    IoK8sApimachineryPkgApisMetaV1ObjectMeta.to_dict
      IoK8sApimachineryPkgApisMetaV1ObjectMeta.from_dict.
Proof. solve_model. Qed.

Module IoK8sApimachineryPkgApisMetaV1LabelSelectorRequirement.
Definition schema `{Pydantic} : Schema :=
  model "IoK8sApimachineryPkgApisMetaV1LabelSelectorRequirement" [
  req "key" "key" StrictStr;
  req "operator" "operator" StrictStr;
  opt "values" "values" (List StrictStr)].
Definition to_dict `{Pydantic} : value → outcome value := to_dict_with schema [].
Definition from_dict `{Pydantic} : value → outcome value := from_dict_with schema [
  GetOr "key" (VStr "");
  GetOr "operator" (VStr "");
  Get "values"].
Definition to_json `{Pydantic} : value → outcome string := to_json_with to_dict.
Definition from_json `{Pydantic} : string → outcome value := from_json_with from_dict.
Definition to_str `{Pydantic} : value → outcome string := to_str_with schema.
End IoK8sApimachineryPkgApisMetaV1LabelSelectorRequirement.
#[export] Instance IoK8sApimachineryPkgApisMetaV1LabelSelectorRequirement_templated
  `{PydanticLaws} :
  Templated IoK8sApimachineryPkgApisMetaV1LabelSelectorRequirement.schema
    IoK8sApimachineryPkgApisMetaV1LabelSelectorRequirement.to_dict
      IoK8sApimachineryPkgApisMetaV1LabelSelectorRequirement.from_dict.
Proof. solve_model. Qed.

Module IoK8sApimachineryPkgApisMetaV1LabelSelector.
Definition schema `{Pydantic} : Schema := model "IoK8sApimachineryPkgApisMetaV1LabelSelector" [
  opt "match_expressions" "matchExpressions" (List
    (Model IoK8sApimachineryPkgApisMetaV1LabelSelectorRequirement.schema));
  opt "match_labels" "matchLabels" (Dict StrictStr)].
Definition to_dict `{Pydantic} : value → outcome value := to_dict_with schema [
  DumpItems "match_expressions" "matchExpressions"
    IoK8sApimachineryPkgApisMetaV1LabelSelectorRequirement.to_dict].
Definition from_dict `{Pydantic} : value → outcome value := from_dict_with schema [
  FromDictItems "matchExpressions" IoK8sApimachineryPkgApisMetaV1LabelSelectorRequirement.from_dict;
  Get "matchLabels"].
Definition to_json `{Pydantic} : value → outcome string := to_json_with to_dict.
Definition from_json `{Pydantic} : string → outcome value := from_json_with from_dict.
Definition to_str `{Pydantic} : value → outcome string := to_str_with schema.
End IoK8sApimachineryPkgApisMetaV1LabelSelector.
#[export] Instance IoK8sApimachineryPkgApisMetaV1LabelSelector_templated `{PydanticLaws} :
  Templated IoK8sApimachineryPkgApisMetaV1LabelSelector.schema
    IoK8sApimachineryPkgApisMetaV1LabelSelector.to_dict
      IoK8sApimachineryPkgApisMetaV1LabelSelector.from_dict.
Proof. solve_model. Qed.

Module IoK8sApimachineryPkgApisMetaV1ShardInfo.
Definition schema `{Pydantic} : Schema := model "IoK8sApimachineryPkgApisMetaV1ShardInfo" [
  req "selector" "selector" StrictStr].
Definition to_dict `{Pydantic} : value → outcome value := to_dict_with schema [].
Definition from_dict `{Pydantic} : value → outcome value := from_dict_with schema [
  GetOr "selector" (VStr "")].
Definition to_json `{Pydantic} : value → outcome string := to_json_with to_dict.
Definition from_json `{Pydantic} : string → outcome value := from_json_with from_dict.
Definition to_str `{Pydantic} : value → outcome string := to_str_with schema.
End IoK8sApimachineryPkgApisMetaV1ShardInfo.
#[export] Instance IoK8sApimachineryPkgApisMetaV1ShardInfo_templated `{PydanticLaws} :
  Templated IoK8sApimachineryPkgApisMetaV1ShardInfo.schema
    IoK8sApimachineryPkgApisMetaV1ShardInfo.to_dict
      IoK8sApimachineryPkgApisMetaV1ShardInfo.from_dict.
Proof. solve_model. Qed.

Module IoK8sApimachineryPkgApisMetaV1ListMeta.
Definition schema `{Pydantic} : Schema := model "IoK8sApimachineryPkgApisMetaV1ListMeta" [
  opt "var_continue" "continue" StrictStr;
  opt "remaining_item_count" "remainingItemCount" StrictInt;
  opt "resource_version" "resourceVersion" StrictStr;
  opt "self_link" "selfLink" StrictStr;
  opt "shard_info" "shardInfo" (Model IoK8sApimachineryPkgApisMetaV1ShardInfo.schema)].
Definition to_dict `{Pydantic} : value → outcome value := to_dict_with schema [
  Dump "shard_info" "shardInfo" IoK8sApimachineryPkgApisMetaV1ShardInfo.to_dict].
Definition from_dict `{Pydantic} : value → outcome value := from_dict_with schema [
  Get "continue";
  Get "remainingItemCount";
  Get "resourceVersion";
  Get "selfLink";
  FromDict "shardInfo" IoK8sApimachineryPkgApisMetaV1ShardInfo.from_dict].
Definition to_json `{Pydantic} : value → outcome string := to_json_with to_dict.
Definition from_json `{Pydantic} : string → outcome value := from_json_with from_dict.
Definition to_str `{Pydantic} : value → outcome string := to_str_with schema.
End IoK8sApimachineryPkgApisMetaV1ListMeta.
#[export] Instance IoK8sApimachineryPkgApisMetaV1ListMeta_templated `{PydanticLaws} :
  Templated IoK8sApimachineryPkgApisMetaV1ListMeta.schema
    IoK8sApimachineryPkgApisMetaV1ListMeta.to_dict IoK8sApimachineryPkgApisMetaV1ListMeta.from_dict.
Proof. solve_model. Qed.

Module IoK8sApimachineryPkgApisMetaV1Condition.
Definition schema `{Pydantic} : Schema := model "IoK8sApimachineryPkgApisMetaV1Condition" [
  req "last_transition_time" "lastTransitionTime" Datetime;
  req "message" "message" StrictStr;
  opt "observed_generation" "observedGeneration" StrictInt;
  req "reason" "reason" StrictStr;
  req "status" "status" StrictStr;
  req "type" "type" StrictStr].
Definition to_dict `{Pydantic} : value → outcome value := to_dict_with schema [].
Definition from_dict `{Pydantic} : value → outcome value := from_dict_with schema [
  Get "lastTransitionTime";
  GetOr "message" (VStr "");
  Get "observedGeneration";
  GetOr "reason" (VStr "");
  GetOr "status" (VStr "");
  GetOr "type" (VStr "")].
Definition to_json `{Pydantic} : value → outcome string := to_json_with to_dict.
Definition from_json `{Pydantic} : string → outcome value := from_json_with from_dict.
Definition to_str `{Pydantic} : value → outcome string := to_str_with schema.
End IoK8sApimachineryPkgApisMetaV1Condition.
#[export] Instance IoK8sApimachineryPkgApisMetaV1Condition_templated `{PydanticLaws} :
  Templated IoK8sApimachineryPkgApisMetaV1Condition.schema
    IoK8sApimachineryPkgApisMetaV1Condition.to_dict
      IoK8sApimachineryPkgApisMetaV1Condition.from_dict.
Proof. solve_model. Qed.

(** All the classes of this file. *)
Definition meta_models `{Pydantic} : list ApiModel := [
  {| m_schema := IoK8sApimachineryPkgApisMetaV1ManagedFieldsEntry.schema;
     m_to_dict := IoK8sApimachineryPkgApisMetaV1ManagedFieldsEntry.to_dict;
     m_from_dict := IoK8sApimachineryPkgApisMetaV1ManagedFieldsEntry.from_dict;
     m_to_json := IoK8sApimachineryPkgApisMetaV1ManagedFieldsEntry.to_json;
     m_from_json := IoK8sApimachineryPkgApisMetaV1ManagedFieldsEntry.from_json;
     m_to_str := IoK8sApimachineryPkgApisMetaV1ManagedFieldsEntry.to_str |};
  {| m_schema := IoK8sApimachineryPkgApisMetaV1OwnerReference.schema;
     m_to_dict := IoK8sApimachineryPkgApisMetaV1OwnerReference.to_dict;
     m_from_dict := IoK8sApimachineryPkgApisMetaV1OwnerReference.from_dict;
     m_to_json := IoK8sApimachineryPkgApisMetaV1OwnerReference.to_json;
     m_from_json := IoK8sApimachineryPkgApisMetaV1OwnerReference.from_json;
     m_to_str := IoK8sApimachineryPkgApisMetaV1OwnerReference.to_str |};
  {| m_schema := IoK8sApimachineryPkgApisMetaV1ObjectMeta.schema;
     m_to_dict := IoK8sApimachineryPkgApisMetaV1ObjectMeta.to_dict;
     m_from_dict := IoK8sApimachineryPkgApisMetaV1ObjectMeta.from_dict;
     m_to_json := IoK8sApimachineryPkgApisMetaV1ObjectMeta.to_json;
     m_from_json := IoK8sApimachineryPkgApisMetaV1ObjectMeta.from_json;
     m_to_str := IoK8sApimachineryPkgApisMetaV1ObjectMeta.to_str |};
  {| m_schema := IoK8sApimachineryPkgApisMetaV1LabelSelectorRequirement.schema;
     m_to_dict := IoK8sApimachineryPkgApisMetaV1LabelSelectorRequirement.to_dict;
     m_from_dict := IoK8sApimachineryPkgApisMetaV1LabelSelectorRequirement.from_dict;
     m_to_json := IoK8sApimachineryPkgApisMetaV1LabelSelectorRequirement.to_json;
     m_from_json := IoK8sApimachineryPkgApisMetaV1LabelSelectorRequirement.from_json;
     m_to_str := IoK8sApimachineryPkgApisMetaV1LabelSelectorRequirement.to_str |};
  {| m_schema := IoK8sApimachineryPkgApisMetaV1LabelSelector.schema;
     m_to_dict := IoK8sApimachineryPkgApisMetaV1LabelSelector.to_dict;
     m_from_dict := IoK8sApimachineryPkgApisMetaV1LabelSelector.from_dict;
     m_to_json := IoK8sApimachineryPkgApisMetaV1LabelSelector.to_json;
     m_from_json := IoK8sApimachineryPkgApisMetaV1LabelSelector.from_json;
     m_to_str := IoK8sApimachineryPkgApisMetaV1LabelSelector.to_str |};
  {| m_schema := IoK8sApimachineryPkgApisMetaV1ShardInfo.schema;
     m_to_dict := IoK8sApimachineryPkgApisMetaV1ShardInfo.to_dict;
     m_from_dict := IoK8sApimachineryPkgApisMetaV1ShardInfo.from_dict;
     m_to_json := IoK8sApimachineryPkgApisMetaV1ShardInfo.to_json;
     m_from_json := IoK8sApimachineryPkgApisMetaV1ShardInfo.from_json;
     m_to_str := IoK8sApimachineryPkgApisMetaV1ShardInfo.to_str |};
  {| m_schema := IoK8sApimachineryPkgApisMetaV1ListMeta.schema;
     m_to_dict := IoK8sApimachineryPkgApisMetaV1ListMeta.to_dict;
     m_from_dict := IoK8sApimachineryPkgApisMetaV1ListMeta.from_dict;
     m_to_json := IoK8sApimachineryPkgApisMetaV1ListMeta.to_json;
     m_from_json := IoK8sApimachineryPkgApisMetaV1ListMeta.from_json;
     m_to_str := IoK8sApimachineryPkgApisMetaV1ListMeta.to_str |};
  {| m_schema := IoK8sApimachineryPkgApisMetaV1Condition.schema;
     m_to_dict := IoK8sApimachineryPkgApisMetaV1Condition.to_dict;
     m_from_dict := IoK8sApimachineryPkgApisMetaV1Condition.from_dict;
     m_to_json := IoK8sApimachineryPkgApisMetaV1Condition.to_json;
     m_from_json := IoK8sApimachineryPkgApisMetaV1Condition.from_json;
     m_to_str := IoK8sApimachineryPkgApisMetaV1Condition.to_str |}].
Lemma meta_models_templated `{PydanticLaws} : Forall is_templated meta_models.
Proof. solve_models. Qed.
