(* ===== verification/ApiCore.v ===== *)
(** * Core Kubernetes models

    The pod-level classes (containers, environment, affinity, volumes) that the
    Trainer API uses, from
    api/python_api/kubeflow_trainer_api/models/io_k8s_api_core_*.py. Each Module
    is a class: its fields, [to_dict] and [from_dict]. *)

From S2P Require Import Prelude PyStr PyValue Pydantic PydanticSpec PydanticDocs.
From S2P Require Import OneOf ApiMeta.
Local Open Scope string_scope.
Local Open Scope list_scope.

Module IoK8sApiCoreV1NodeSelectorRequirement.
Definition schema `{Pydantic} : Schema := model "IoK8sApiCoreV1NodeSelectorRequirement" [
  req "key" "key" StrictStr;
  checked (req "operator" "operator" StrictStr)
    (one_of ["DoesNotExist"; "Exists"; "Gt"; "In"; "Lt"; "NotIn"]);
  opt "values" "values" (List StrictStr)].
Definition to_dict `{Pydantic} : value → outcome value := to_dict_with schema [].
Definition from_dict `{Pydantic} : value → outcome value := from_dict_with schema [
  GetOr "key" (VStr "");
  Get "operator";
  Get "values"].
Definition to_json `{Pydantic} : value → outcome string := to_json_with to_dict.
Definition from_json `{Pydantic} : string → outcome value := from_json_with from_dict.
Definition to_str `{Pydantic} : value → outcome string := to_str_with schema.
End IoK8sApiCoreV1NodeSelectorRequirement.
#[export] Instance IoK8sApiCoreV1NodeSelectorRequirement_templated `{PydanticLaws} :
  Templated IoK8sApiCoreV1NodeSelectorRequirement.schema
    IoK8sApiCoreV1NodeSelectorRequirement.to_dict IoK8sApiCoreV1NodeSelectorRequirement.from_dict.
Proof. solve_model. Qed.

Module IoK8sApiCoreV1NodeSelectorTerm.
Definition schema `{Pydantic} : Schema := model "IoK8sApiCoreV1NodeSelectorTerm" [
  opt "match_expressions" "matchExpressions" (List
    (Model IoK8sApiCoreV1NodeSelectorRequirement.schema));
  opt "match_fields" "matchFields" (List (Model IoK8sApiCoreV1NodeSelectorRequirement.schema))].
Definition to_dict `{Pydantic} : value → outcome value := to_dict_with schema [
  DumpItems "match_expressions" "matchExpressions" IoK8sApiCoreV1NodeSelectorRequirement.to_dict;
  DumpItems "match_fields" "matchFields" IoK8sApiCoreV1NodeSelectorRequirement.to_dict].
Definition from_dict `{Pydantic} : value → outcome value := from_dict_with schema [
  FromDictItems "matchExpressions" IoK8sApiCoreV1NodeSelectorRequirement.from_dict;
  FromDictItems "matchFields" IoK8sApiCoreV1NodeSelectorRequirement.from_dict].
Definition to_json `{Pydantic} : value → outcome string := to_json_with to_dict.
Definition from_json `{Pydantic} : string → outcome value := from_json_with from_dict.
Definition to_str `{Pydantic} : value → outcome string := to_str_with schema.
End IoK8sApiCoreV1NodeSelectorTerm.
#[export] Instance IoK8sApiCoreV1NodeSelectorTerm_templated `{PydanticLaws} :
  Templated IoK8sApiCoreV1NodeSelectorTerm.schema IoK8sApiCoreV1NodeSelectorTerm.to_dict
    IoK8sApiCoreV1NodeSelectorTerm.from_dict.
Proof. solve_model. Qed.

Module IoK8sApiCoreV1PreferredSchedulingTerm.
Definition schema `{Pydantic} : Schema := model "IoK8sApiCoreV1PreferredSchedulingTerm" [
  req "preference" "preference" (Model IoK8sApiCoreV1NodeSelectorTerm.schema);
  req "weight" "weight" StrictInt].
Definition to_dict `{Pydantic} : value → outcome value := to_dict_with schema [
  Dump "preference" "preference" IoK8sApiCoreV1NodeSelectorTerm.to_dict].
Definition from_dict `{Pydantic} : value → outcome value := from_dict_with schema [
  FromDict "preference" IoK8sApiCoreV1NodeSelectorTerm.from_dict;
  GetOr "weight" (VInt 0)].
Definition to_json `{Pydantic} : value → outcome string := to_json_with to_dict.
Definition from_json `{Pydantic} : string → outcome value := from_json_with from_dict.
Definition to_str `{Pydantic} : value → outcome string := to_str_with schema.
End IoK8sApiCoreV1PreferredSchedulingTerm.
#[export] Instance IoK8sApiCoreV1PreferredSchedulingTerm_templated `{PydanticLaws} :
  Templated IoK8sApiCoreV1PreferredSchedulingTerm.schema
    IoK8sApiCoreV1PreferredSchedulingTerm.to_dict IoK8sApiCoreV1PreferredSchedulingTerm.from_dict.
Proof. solve_model. Qed.

Module IoK8sApiCoreV1NodeSelector.
Definition schema `{Pydantic} : Schema := model "IoK8sApiCoreV1NodeSelector" [
  req "node_selector_terms" "nodeSelectorTerms" (List
    (Model IoK8sApiCoreV1NodeSelectorTerm.schema))].
Definition to_dict `{Pydantic} : value → outcome value := to_dict_with schema [
  DumpItems "node_selector_terms" "nodeSelectorTerms" IoK8sApiCoreV1NodeSelectorTerm.to_dict].
Definition from_dict `{Pydantic} : value → outcome value := from_dict_with schema [
  FromDictItems "nodeSelectorTerms" IoK8sApiCoreV1NodeSelectorTerm.from_dict].
Definition to_json `{Pydantic} : value → outcome string := to_json_with to_dict.
Definition from_json `{Pydantic} : string → outcome value := from_json_with from_dict.
Definition to_str `{Pydantic} : value → outcome string := to_str_with schema.
End IoK8sApiCoreV1NodeSelector.
#[export] Instance IoK8sApiCoreV1NodeSelector_templated `{PydanticLaws} :
  Templated IoK8sApiCoreV1NodeSelector.schema IoK8sApiCoreV1NodeSelector.to_dict
    IoK8sApiCoreV1NodeSelector.from_dict.
Proof. solve_model. Qed.

Module IoK8sApiCoreV1NodeAffinity.
Definition schema `{Pydantic} : Schema := model "IoK8sApiCoreV1NodeAffinity" [
  opt "preferred_during_scheduling_ignored_during_execution"
    "preferredDuringSchedulingIgnoredDuringExecution" (List
      (Model IoK8sApiCoreV1PreferredSchedulingTerm.schema));
  opt "required_during_scheduling_ignored_during_execution"
    "requiredDuringSchedulingIgnoredDuringExecution" (Model IoK8sApiCoreV1NodeSelector.schema)].
Definition to_dict `{Pydantic} : value → outcome value := to_dict_with schema [
  DumpItems "preferred_during_scheduling_ignored_during_execution"
    "preferredDuringSchedulingIgnoredDuringExecution" IoK8sApiCoreV1PreferredSchedulingTerm.to_dict;
  Dump "required_during_scheduling_ignored_during_execution"
    "requiredDuringSchedulingIgnoredDuringExecution" IoK8sApiCoreV1NodeSelector.to_dict].
Definition from_dict `{Pydantic} : value → outcome value := from_dict_with schema [
  FromDictItems "preferredDuringSchedulingIgnoredDuringExecution"
    IoK8sApiCoreV1PreferredSchedulingTerm.from_dict;
  FromDict "requiredDuringSchedulingIgnoredDuringExecution" IoK8sApiCoreV1NodeSelector.from_dict].
Definition to_json `{Pydantic} : value → outcome string := to_json_with to_dict.
Definition from_json `{Pydantic} : string → outcome value := from_json_with from_dict.
Definition to_str `{Pydantic} : value → outcome string := to_str_with schema.
End IoK8sApiCoreV1NodeAffinity.
#[export] Instance IoK8sApiCoreV1NodeAffinity_templated `{PydanticLaws} :
  Templated IoK8sApiCoreV1NodeAffinity.schema IoK8sApiCoreV1NodeAffinity.to_dict
    IoK8sApiCoreV1NodeAffinity.from_dict.
Proof. solve_model. Qed.

Module IoK8sApiCoreV1PodAffinityTerm.
Definition schema `{Pydantic} : Schema := model "IoK8sApiCoreV1PodAffinityTerm" [
  opt "label_selector" "labelSelector" (Model IoK8sApimachineryPkgApisMetaV1LabelSelector.schema);
  opt "match_label_keys" "matchLabelKeys" (List StrictStr);
  opt "mismatch_label_keys" "mismatchLabelKeys" (List StrictStr);
  opt "namespace_selector" "namespaceSelector"
    (Model IoK8sApimachineryPkgApisMetaV1LabelSelector.schema);
  opt "namespaces" "namespaces" (List StrictStr);
  req "topology_key" "topologyKey" StrictStr].
Definition to_dict `{Pydantic} : value → outcome value := to_dict_with schema [
  Dump "label_selector" "labelSelector" IoK8sApimachineryPkgApisMetaV1LabelSelector.to_dict;
  Dump "namespace_selector" "namespaceSelector"
    IoK8sApimachineryPkgApisMetaV1LabelSelector.to_dict].
Definition from_dict `{Pydantic} : value → outcome value := from_dict_with schema [
  FromDict "labelSelector" IoK8sApimachineryPkgApisMetaV1LabelSelector.from_dict;
  Get "matchLabelKeys";
  Get "mismatchLabelKeys";
  FromDict "namespaceSelector" IoK8sApimachineryPkgApisMetaV1LabelSelector.from_dict;
  Get "namespaces";
  GetOr "topologyKey" (VStr "")].
Definition to_json `{Pydantic} : value → outcome string := to_json_with to_dict.
Definition from_json `{Pydantic} : string → outcome value := from_json_with from_dict.
Definition to_str `{Pydantic} : value → outcome string := to_str_with schema.
End IoK8sApiCoreV1PodAffinityTerm.
#[export] Instance IoK8sApiCoreV1PodAffinityTerm_templated `{PydanticLaws} :
  Templated IoK8sApiCoreV1PodAffinityTerm.schema IoK8sApiCoreV1PodAffinityTerm.to_dict
    IoK8sApiCoreV1PodAffinityTerm.from_dict.
Proof. solve_model. Qed.

Module IoK8sApiCoreV1WeightedPodAffinityTerm.
Definition schema `{Pydantic} : Schema := model "IoK8sApiCoreV1WeightedPodAffinityTerm" [
  req "pod_affinity_term" "podAffinityTerm" (Model IoK8sApiCoreV1PodAffinityTerm.schema);
  req "weight" "weight" StrictInt].
Definition to_dict `{Pydantic} : value → outcome value := to_dict_with schema [
  Dump "pod_affinity_term" "podAffinityTerm" IoK8sApiCoreV1PodAffinityTerm.to_dict].
Definition from_dict `{Pydantic} : value → outcome value := from_dict_with schema [
  FromDict "podAffinityTerm" IoK8sApiCoreV1PodAffinityTerm.from_dict;
  GetOr "weight" (VInt 0)].
Definition to_json `{Pydantic} : value → outcome string := to_json_with to_dict.
Definition from_json `{Pydantic} : string → outcome value := from_json_with from_dict.
Definition to_str `{Pydantic} : value → outcome string := to_str_with schema.
End IoK8sApiCoreV1WeightedPodAffinityTerm.
#[export] Instance IoK8sApiCoreV1WeightedPodAffinityTerm_templated `{PydanticLaws} :
  Templated IoK8sApiCoreV1WeightedPodAffinityTerm.schema
    IoK8sApiCoreV1WeightedPodAffinityTerm.to_dict IoK8sApiCoreV1WeightedPodAffinityTerm.from_dict.
Proof. solve_model. Qed.

Module IoK8sApiCoreV1PodAffinity.
Definition schema `{Pydantic} : Schema := model "IoK8sApiCoreV1PodAffinity" [
  opt "preferred_during_scheduling_ignored_during_execution"
    "preferredDuringSchedulingIgnoredDuringExecution" (List
      (Model IoK8sApiCoreV1WeightedPodAffinityTerm.schema));
  opt "required_during_scheduling_ignored_during_execution"
    "requiredDuringSchedulingIgnoredDuringExecution" (List
      (Model IoK8sApiCoreV1PodAffinityTerm.schema))].
Definition to_dict `{Pydantic} : value → outcome value := to_dict_with schema [
  DumpItems "preferred_during_scheduling_ignored_during_execution"
    "preferredDuringSchedulingIgnoredDuringExecution" IoK8sApiCoreV1WeightedPodAffinityTerm.to_dict;
  DumpItems "required_during_scheduling_ignored_during_execution"
    "requiredDuringSchedulingIgnoredDuringExecution" IoK8sApiCoreV1PodAffinityTerm.to_dict].
Definition from_dict `{Pydantic} : value → outcome value := from_dict_with schema [
  FromDictItems "preferredDuringSchedulingIgnoredDuringExecution"
    IoK8sApiCoreV1WeightedPodAffinityTerm.from_dict;
  FromDictItems "requiredDuringSchedulingIgnoredDuringExecution"
    IoK8sApiCoreV1PodAffinityTerm.from_dict].
Definition to_json `{Pydantic} : value → outcome string := to_json_with to_dict.
Definition from_json `{Pydantic} : string → outcome value := from_json_with from_dict.
Definition to_str `{Pydantic} : value → outcome string := to_str_with schema.
End IoK8sApiCoreV1PodAffinity.
#[export] Instance IoK8sApiCoreV1PodAffinity_templated `{PydanticLaws} :
  Templated IoK8sApiCoreV1PodAffinity.schema IoK8sApiCoreV1PodAffinity.to_dict
    IoK8sApiCoreV1PodAffinity.from_dict.
Proof. solve_model. Qed.

Module IoK8sApiCoreV1PodAntiAffinity.
Definition schema `{Pydantic} : Schema := model "IoK8sApiCoreV1PodAntiAffinity" [
  opt "preferred_during_scheduling_ignored_during_execution"
    "preferredDuringSchedulingIgnoredDuringExecution" (List
      (Model IoK8sApiCoreV1WeightedPodAffinityTerm.schema));
  opt "required_during_scheduling_ignored_during_execution"
    "requiredDuringSchedulingIgnoredDuringExecution" (List
      (Model IoK8sApiCoreV1PodAffinityTerm.schema))].
Definition to_dict `{Pydantic} : value → outcome value := to_dict_with schema [
  DumpItems "preferred_during_scheduling_ignored_during_execution"
    "preferredDuringSchedulingIgnoredDuringExecution" IoK8sApiCoreV1WeightedPodAffinityTerm.to_dict;
  DumpItems "required_during_scheduling_ignored_during_execution"
    "requiredDuringSchedulingIgnoredDuringExecution" IoK8sApiCoreV1PodAffinityTerm.to_dict].
Definition from_dict `{Pydantic} : value → outcome value := from_dict_with schema [
  FromDictItems "preferredDuringSchedulingIgnoredDuringExecution"
    IoK8sApiCoreV1WeightedPodAffinityTerm.from_dict;
  FromDictItems "requiredDuringSchedulingIgnoredDuringExecution"
    IoK8sApiCoreV1PodAffinityTerm.from_dict].
Definition to_json `{Pydantic} : value → outcome string := to_json_with to_dict.
Definition from_json `{Pydantic} : string → outcome value := from_json_with from_dict.
Definition to_str `{Pydantic} : value → outcome string := to_str_with schema.
End IoK8sApiCoreV1PodAntiAffinity.
#[export] Instance IoK8sApiCoreV1PodAntiAffinity_templated `{PydanticLaws} :
  Templated IoK8sApiCoreV1PodAntiAffinity.schema IoK8sApiCoreV1PodAntiAffinity.to_dict
    IoK8sApiCoreV1PodAntiAffinity.from_dict.
Proof. solve_model. Qed.

Module IoK8sApiCoreV1Affinity.
Definition schema `{Pydantic} : Schema := model "IoK8sApiCoreV1Affinity" [
  opt "node_affinity" "nodeAffinity" (Model IoK8sApiCoreV1NodeAffinity.schema);
  opt "pod_affinity" "podAffinity" (Model IoK8sApiCoreV1PodAffinity.schema);
  opt "pod_anti_affinity" "podAntiAffinity" (Model IoK8sApiCoreV1PodAntiAffinity.schema)].
Definition to_dict `{Pydantic} : value → outcome value := to_dict_with schema [
  Dump "node_affinity" "nodeAffinity" IoK8sApiCoreV1NodeAffinity.to_dict;
  Dump "pod_affinity" "podAffinity" IoK8sApiCoreV1PodAffinity.to_dict;
  Dump "pod_anti_affinity" "podAntiAffinity" IoK8sApiCoreV1PodAntiAffinity.to_dict].
Definition from_dict `{Pydantic} : value → outcome value := from_dict_with schema [
  FromDict "nodeAffinity" IoK8sApiCoreV1NodeAffinity.from_dict;
  FromDict "podAffinity" IoK8sApiCoreV1PodAffinity.from_dict;
  FromDict "podAntiAffinity" IoK8sApiCoreV1PodAntiAffinity.from_dict].
Definition to_json `{Pydantic} : value → outcome string := to_json_with to_dict.
Definition from_json `{Pydantic} : string → outcome value := from_json_with from_dict.
Definition to_str `{Pydantic} : value → outcome string := to_str_with schema.
End IoK8sApiCoreV1Affinity.
#[export] Instance IoK8sApiCoreV1Affinity_templated `{PydanticLaws} :
  Templated IoK8sApiCoreV1Affinity.schema IoK8sApiCoreV1Affinity.to_dict
    IoK8sApiCoreV1Affinity.from_dict.
Proof. solve_model. Qed.

Module IoK8sApiCoreV1ConfigMapKeySelector.
Definition schema `{Pydantic} : Schema := model "IoK8sApiCoreV1ConfigMapKeySelector" [
  req "key" "key" StrictStr;
  opt_or "name" "name" StrictStr (VStr "");
  opt "optional" "optional" StrictBool].
Definition to_dict `{Pydantic} : value → outcome value := to_dict_with schema [].
Definition from_dict `{Pydantic} : value → outcome value := from_dict_with schema [
  GetOr "key" (VStr "");
  GetOr "name" (VStr "");
  Get "optional"].
Definition to_json `{Pydantic} : value → outcome string := to_json_with to_dict.
Definition from_json `{Pydantic} : string → outcome value := from_json_with from_dict.
Definition to_str `{Pydantic} : value → outcome string := to_str_with schema.
End IoK8sApiCoreV1ConfigMapKeySelector.
#[export] Instance IoK8sApiCoreV1ConfigMapKeySelector_templated `{PydanticLaws} :
  Templated IoK8sApiCoreV1ConfigMapKeySelector.schema IoK8sApiCoreV1ConfigMapKeySelector.to_dict
    IoK8sApiCoreV1ConfigMapKeySelector.from_dict.
Proof. solve_model. Qed.

Module IoK8sApiCoreV1ObjectFieldSelector.
Definition schema `{Pydantic} : Schema := model "IoK8sApiCoreV1ObjectFieldSelector" [
  opt "api_version" "apiVersion" StrictStr;
  req "field_path" "fieldPath" StrictStr].
Definition to_dict `{Pydantic} : value → outcome value := to_dict_with schema [].
Definition from_dict `{Pydantic} : value → outcome value := from_dict_with schema [
  Get "apiVersion";
  GetOr "fieldPath" (VStr "")].
Definition to_json `{Pydantic} : value → outcome string := to_json_with to_dict.
Definition from_json `{Pydantic} : string → outcome value := from_json_with from_dict.
Definition to_str `{Pydantic} : value → outcome string := to_str_with schema.
End IoK8sApiCoreV1ObjectFieldSelector.
#[export] Instance IoK8sApiCoreV1ObjectFieldSelector_templated `{PydanticLaws} :
  Templated IoK8sApiCoreV1ObjectFieldSelector.schema IoK8sApiCoreV1ObjectFieldSelector.to_dict
    IoK8sApiCoreV1ObjectFieldSelector.from_dict.
Proof. solve_model. Qed.

Module IoK8sApiCoreV1FileKeySelector.
Definition schema `{Pydantic} : Schema := model "IoK8sApiCoreV1FileKeySelector" [
  req "key" "key" StrictStr;
  opt_or "optional" "optional" StrictBool (VBool false);
  req "path" "path" StrictStr;
  req "volume_name" "volumeName" StrictStr].
Definition to_dict `{Pydantic} : value → outcome value := to_dict_with schema [].
Definition from_dict `{Pydantic} : value → outcome value := from_dict_with schema [
  GetOr "key" (VStr "");
  GetOr "optional" (VBool false);
  GetOr "path" (VStr "");
  GetOr "volumeName" (VStr "")].
Definition to_json `{Pydantic} : value → outcome string := to_json_with to_dict.
Definition from_json `{Pydantic} : string → outcome value := from_json_with from_dict.
Definition to_str `{Pydantic} : value → outcome string := to_str_with schema.
End IoK8sApiCoreV1FileKeySelector.
#[export] Instance IoK8sApiCoreV1FileKeySelector_templated `{PydanticLaws} :
  Templated IoK8sApiCoreV1FileKeySelector.schema IoK8sApiCoreV1FileKeySelector.to_dict
    IoK8sApiCoreV1FileKeySelector.from_dict.
Proof. solve_model. Qed.

Module IoK8sApiCoreV1ResourceFieldSelector.
Definition schema `{Pydantic} : Schema := model "IoK8sApiCoreV1ResourceFieldSelector" [
  opt "container_name" "containerName" StrictStr;
  opt "divisor" "divisor" (Model IoK8sApimachineryPkgApiResourceQuantity.schema);
  req "resource" "resource" StrictStr].
Definition to_dict `{Pydantic} : value → outcome value := to_dict_with schema [
  Dump "divisor" "divisor" IoK8sApimachineryPkgApiResourceQuantity.to_dict].
Definition from_dict `{Pydantic} : value → outcome value := from_dict_with schema [
  Get "containerName";
  FromDict "divisor" IoK8sApimachineryPkgApiResourceQuantity.from_dict;
  GetOr "resource" (VStr "")].
Definition to_json `{Pydantic} : value → outcome string := to_json_with to_dict.
Definition from_json `{Pydantic} : string → outcome value := from_json_with from_dict.
Definition to_str `{Pydantic} : value → outcome string := to_str_with schema.
End IoK8sApiCoreV1ResourceFieldSelector.
#[export] Instance IoK8sApiCoreV1ResourceFieldSelector_templated `{PydanticLaws} :
  Templated IoK8sApiCoreV1ResourceFieldSelector.schema IoK8sApiCoreV1ResourceFieldSelector.to_dict
    IoK8sApiCoreV1ResourceFieldSelector.from_dict.
Proof. solve_model. Qed.

Module IoK8sApiCoreV1SecretKeySelector.
Definition schema `{Pydantic} : Schema := model "IoK8sApiCoreV1SecretKeySelector" [
  req "key" "key" StrictStr;
  opt_or "name" "name" StrictStr (VStr "");
  opt "optional" "optional" StrictBool].
Definition to_dict `{Pydantic} : value → outcome value := to_dict_with schema [].
Definition from_dict `{Pydantic} : value → outcome value := from_dict_with schema [
  GetOr "key" (VStr "");
  GetOr "name" (VStr "");
  Get "optional"].
Definition to_json `{Pydantic} : value → outcome string := to_json_with to_dict.
Definition from_json `{Pydantic} : string → outcome value := from_json_with from_dict.
Definition to_str `{Pydantic} : value → outcome string := to_str_with schema.
End IoK8sApiCoreV1SecretKeySelector.
#[export] Instance IoK8sApiCoreV1SecretKeySelector_templated `{PydanticLaws} :
  Templated IoK8sApiCoreV1SecretKeySelector.schema IoK8sApiCoreV1SecretKeySelector.to_dict
    IoK8sApiCoreV1SecretKeySelector.from_dict.
Proof. solve_model. Qed.

Module IoK8sApiCoreV1EnvVarSource.
Definition schema `{Pydantic} : Schema := model "IoK8sApiCoreV1EnvVarSource" [
  opt "config_map_key_ref" "configMapKeyRef" (Model IoK8sApiCoreV1ConfigMapKeySelector.schema);
  opt "field_ref" "fieldRef" (Model IoK8sApiCoreV1ObjectFieldSelector.schema);
  opt "file_key_ref" "fileKeyRef" (Model IoK8sApiCoreV1FileKeySelector.schema);
  opt "resource_field_ref" "resourceFieldRef" (Model IoK8sApiCoreV1ResourceFieldSelector.schema);
  opt "secret_key_ref" "secretKeyRef" (Model IoK8sApiCoreV1SecretKeySelector.schema)].
Definition to_dict `{Pydantic} : value → outcome value := to_dict_with schema [
  Dump "config_map_key_ref" "configMapKeyRef" IoK8sApiCoreV1ConfigMapKeySelector.to_dict;
  Dump "field_ref" "fieldRef" IoK8sApiCoreV1ObjectFieldSelector.to_dict;
  Dump "file_key_ref" "fileKeyRef" IoK8sApiCoreV1FileKeySelector.to_dict;
  Dump "resource_field_ref" "resourceFieldRef" IoK8sApiCoreV1ResourceFieldSelector.to_dict;
  Dump "secret_key_ref" "secretKeyRef" IoK8sApiCoreV1SecretKeySelector.to_dict].
Definition from_dict `{Pydantic} : value → outcome value := from_dict_with schema [
  FromDict "configMapKeyRef" IoK8sApiCoreV1ConfigMapKeySelector.from_dict;
  FromDict "fieldRef" IoK8sApiCoreV1ObjectFieldSelector.from_dict;
  FromDict "fileKeyRef" IoK8sApiCoreV1FileKeySelector.from_dict;
  FromDict "resourceFieldRef" IoK8sApiCoreV1ResourceFieldSelector.from_dict;
  FromDict "secretKeyRef" IoK8sApiCoreV1SecretKeySelector.from_dict].
Definition to_json `{Pydantic} : value → outcome string := to_json_with to_dict.
Definition from_json `{Pydantic} : string → outcome value := from_json_with from_dict.
Definition to_str `{Pydantic} : value → outcome string := to_str_with schema.
End IoK8sApiCoreV1EnvVarSource.
#[export] Instance IoK8sApiCoreV1EnvVarSource_templated `{PydanticLaws} :
  Templated IoK8sApiCoreV1EnvVarSource.schema IoK8sApiCoreV1EnvVarSource.to_dict
    IoK8sApiCoreV1EnvVarSource.from_dict.
Proof. solve_model. Qed.

Module IoK8sApiCoreV1EnvVar.
Definition schema `{Pydantic} : Schema := model "IoK8sApiCoreV1EnvVar" [
  req "name" "name" StrictStr;
  opt "value" "value" StrictStr;
  opt "value_from" "valueFrom" (Model IoK8sApiCoreV1EnvVarSource.schema)].
Definition to_dict `{Pydantic} : value → outcome value := to_dict_with schema [
  Dump "value_from" "valueFrom" IoK8sApiCoreV1EnvVarSource.to_dict].
Definition from_dict `{Pydantic} : value → outcome value := from_dict_with schema [
  GetOr "name" (VStr "");
  Get "value";
  FromDict "valueFrom" IoK8sApiCoreV1EnvVarSource.from_dict].
Definition to_json `{Pydantic} : value → outcome string := to_json_with to_dict.
Definition from_json `{Pydantic} : string → outcome value := from_json_with from_dict.
Definition to_str `{Pydantic} : value → outcome string := to_str_with schema.
End IoK8sApiCoreV1EnvVar.
#[export] Instance IoK8sApiCoreV1EnvVar_templated `{PydanticLaws} :
  Templated IoK8sApiCoreV1EnvVar.schema IoK8sApiCoreV1EnvVar.to_dict IoK8sApiCoreV1EnvVar.from_dict.
Proof. solve_model. Qed.

Module IoK8sApiCoreV1ConfigMapEnvSource.
Definition schema `{Pydantic} : Schema := model "IoK8sApiCoreV1ConfigMapEnvSource" [
  opt_or "name" "name" StrictStr (VStr "");
  opt "optional" "optional" StrictBool].
Definition to_dict `{Pydantic} : value → outcome value := to_dict_with schema [].
Definition from_dict `{Pydantic} : value → outcome value := from_dict_with schema [
  GetOr "name" (VStr "");
  Get "optional"].
Definition to_json `{Pydantic} : value → outcome string := to_json_with to_dict.
Definition from_json `{Pydantic} : string → outcome value := from_json_with from_dict.
Definition to_str `{Pydantic} : value → outcome string := to_str_with schema.
End IoK8sApiCoreV1ConfigMapEnvSource.
#[export] Instance IoK8sApiCoreV1ConfigMapEnvSource_templated `{PydanticLaws} :
  Templated IoK8sApiCoreV1ConfigMapEnvSource.schema IoK8sApiCoreV1ConfigMapEnvSource.to_dict
    IoK8sApiCoreV1ConfigMapEnvSource.from_dict.
Proof. solve_model. Qed.

Module IoK8sApiCoreV1SecretEnvSource.
Definition schema `{Pydantic} : Schema := model "IoK8sApiCoreV1SecretEnvSource" [
  opt_or "name" "name" StrictStr (VStr "");
  opt "optional" "optional" StrictBool].
Definition to_dict `{Pydantic} : value → outcome value := to_dict_with schema [].
Definition from_dict `{Pydantic} : value → outcome value := from_dict_with schema [
  GetOr "name" (VStr "");
  Get "optional"].
Definition to_json `{Pydantic} : value → outcome string := to_json_with to_dict.
Definition from_json `{Pydantic} : string → outcome value := from_json_with from_dict.
Definition to_str `{Pydantic} : value → outcome string := to_str_with schema.
End IoK8sApiCoreV1SecretEnvSource.
#[export] Instance IoK8sApiCoreV1SecretEnvSource_templated `{PydanticLaws} :
  Templated IoK8sApiCoreV1SecretEnvSource.schema IoK8sApiCoreV1SecretEnvSource.to_dict
    IoK8sApiCoreV1SecretEnvSource.from_dict.
Proof. solve_model. Qed.

Module IoK8sApiCoreV1EnvFromSource.
Definition schema `{Pydantic} : Schema := model "IoK8sApiCoreV1EnvFromSource" [
  opt "config_map_ref" "configMapRef" (Model IoK8sApiCoreV1ConfigMapEnvSource.schema);
  opt "prefix" "prefix" StrictStr;
  opt "secret_ref" "secretRef" (Model IoK8sApiCoreV1SecretEnvSource.schema)].
Definition to_dict `{Pydantic} : value → outcome value := to_dict_with schema [
  Dump "config_map_ref" "configMapRef" IoK8sApiCoreV1ConfigMapEnvSource.to_dict;
  Dump "secret_ref" "secretRef" IoK8sApiCoreV1SecretEnvSource.to_dict].
Definition from_dict `{Pydantic} : value → outcome value := from_dict_with schema [
  FromDict "configMapRef" IoK8sApiCoreV1ConfigMapEnvSource.from_dict;
  Get "prefix";
  FromDict "secretRef" IoK8sApiCoreV1SecretEnvSource.from_dict].
Definition to_json `{Pydantic} : value → outcome string := to_json_with to_dict.
Definition from_json `{Pydantic} : string → outcome value := from_json_with from_dict.
Definition to_str `{Pydantic} : value → outcome string := to_str_with schema.
End IoK8sApiCoreV1EnvFromSource.
#[export] Instance IoK8sApiCoreV1EnvFromSource_templated `{PydanticLaws} :
  Templated IoK8sApiCoreV1EnvFromSource.schema IoK8sApiCoreV1EnvFromSource.to_dict
    IoK8sApiCoreV1EnvFromSource.from_dict.
Proof. solve_model. Qed.

Module IoK8sApiCoreV1ExecAction.
Definition schema `{Pydantic} : Schema := model "IoK8sApiCoreV1ExecAction" [
  opt "command" "command" (List StrictStr)].
Definition to_dict `{Pydantic} : value → outcome value := to_dict_with schema [].
Definition from_dict `{Pydantic} : value → outcome value := from_dict_with schema [
  Get "command"].
Definition to_json `{Pydantic} : value → outcome string := to_json_with to_dict.
Definition from_json `{Pydantic} : string → outcome value := from_json_with from_dict.
Definition to_str `{Pydantic} : value → outcome string := to_str_with schema.
End IoK8sApiCoreV1ExecAction.
#[export] Instance IoK8sApiCoreV1ExecAction_templated `{PydanticLaws} :
  Templated IoK8sApiCoreV1ExecAction.schema IoK8sApiCoreV1ExecAction.to_dict
    IoK8sApiCoreV1ExecAction.from_dict.
Proof. solve_model. Qed.

Module IoK8sApiCoreV1HTTPHeader.
Definition schema `{Pydantic} : Schema := model "IoK8sApiCoreV1HTTPHeader" [
  req "name" "name" StrictStr;
  req "value" "value" StrictStr].
Definition to_dict `{Pydantic} : value → outcome value := to_dict_with schema [].
Definition from_dict `{Pydantic} : value → outcome value := from_dict_with schema [
  GetOr "name" (VStr "");
  GetOr "value" (VStr "")].
Definition to_json `{Pydantic} : value → outcome string := to_json_with to_dict.
Definition from_json `{Pydantic} : string → outcome value := from_json_with from_dict.
Definition to_str `{Pydantic} : value → outcome string := to_str_with schema.
End IoK8sApiCoreV1HTTPHeader.
#[export] Instance IoK8sApiCoreV1HTTPHeader_templated `{PydanticLaws} :
  Templated IoK8sApiCoreV1HTTPHeader.schema IoK8sApiCoreV1HTTPHeader.to_dict
    IoK8sApiCoreV1HTTPHeader.from_dict.
Proof. solve_model. Qed.

Module IoK8sApiCoreV1HTTPGetAction.
Definition schema `{Pydantic} : Schema := model "IoK8sApiCoreV1HTTPGetAction" [
  opt "host" "host" StrictStr;
  opt "http_headers" "httpHeaders" (List (Model IoK8sApiCoreV1HTTPHeader.schema));
  opt "path" "path" StrictStr;
  req "port" "port" (Model IoK8sApimachineryPkgUtilIntstrIntOrString.schema);
  checked (opt "protocol" "protocol" StrictStr)
    (none_or_one_of ["HTTP1"; "HTTP2"]);
  checked (opt "scheme" "scheme" StrictStr)
    (none_or_one_of ["HTTP"; "HTTPS"])].
Definition to_dict `{Pydantic} : value → outcome value := to_dict_with schema [
  DumpItems "http_headers" "httpHeaders" IoK8sApiCoreV1HTTPHeader.to_dict;
  Dump "port" "port" IoK8sApimachineryPkgUtilIntstrIntOrString.to_dict].
Definition from_dict `{Pydantic} : value → outcome value := from_dict_with schema [
  Get "host";
  FromDictItems "httpHeaders" IoK8sApiCoreV1HTTPHeader.from_dict;
  Get "path";
  FromDict "port" IoK8sApimachineryPkgUtilIntstrIntOrString.from_dict;
  Get "protocol";
  Get "scheme"].
Definition to_json `{Pydantic} : value → outcome string := to_json_with to_dict.
Definition from_json `{Pydantic} : string → outcome value := from_json_with from_dict.
Definition to_str `{Pydantic} : value → outcome string := to_str_with schema.
End IoK8sApiCoreV1HTTPGetAction.
#[export] Instance IoK8sApiCoreV1HTTPGetAction_templated `{PydanticLaws} :
  Templated IoK8sApiCoreV1HTTPGetAction.schema IoK8sApiCoreV1HTTPGetAction.to_dict
    IoK8sApiCoreV1HTTPGetAction.from_dict.
Proof. solve_model. Qed.

Module IoK8sApiCoreV1SleepAction.
Definition schema `{Pydantic} : Schema := model "IoK8sApiCoreV1SleepAction" [
  req "seconds" "seconds" StrictInt].
Definition to_dict `{Pydantic} : value → outcome value := to_dict_with schema [].
Definition from_dict `{Pydantic} : value → outcome value := from_dict_with schema [
  GetOr "seconds" (VInt 0)].
Definition to_json `{Pydantic} : value → outcome string := to_json_with to_dict.
Definition from_json `{Pydantic} : string → outcome value := from_json_with from_dict.
Definition to_str `{Pydantic} : value → outcome string := to_str_with schema.
End IoK8sApiCoreV1SleepAction.
#[export] Instance IoK8sApiCoreV1SleepAction_templated `{PydanticLaws} :
  Templated IoK8sApiCoreV1SleepAction.schema IoK8sApiCoreV1SleepAction.to_dict
    IoK8sApiCoreV1SleepAction.from_dict.
Proof. solve_model. Qed.

Module IoK8sApiCoreV1TCPSocketAction.
Definition schema `{Pydantic} : Schema := model "IoK8sApiCoreV1TCPSocketAction" [
  opt "host" "host" StrictStr;
  req "port" "port" (Model IoK8sApimachineryPkgUtilIntstrIntOrString.schema)].
Definition to_dict `{Pydantic} : value → outcome value := to_dict_with schema [
  Dump "port" "port" IoK8sApimachineryPkgUtilIntstrIntOrString.to_dict].
Definition from_dict `{Pydantic} : value → outcome value := from_dict_with schema [
  Get "host";
  FromDict "port" IoK8sApimachineryPkgUtilIntstrIntOrString.from_dict].
Definition to_json `{Pydantic} : value → outcome string := to_json_with to_dict.
Definition from_json `{Pydantic} : string → outcome value := from_json_with from_dict.
Definition to_str `{Pydantic} : value → outcome string := to_str_with schema.
End IoK8sApiCoreV1TCPSocketAction.
#[export] Instance IoK8sApiCoreV1TCPSocketAction_templated `{PydanticLaws} :
  Templated IoK8sApiCoreV1TCPSocketAction.schema IoK8sApiCoreV1TCPSocketAction.to_dict
    IoK8sApiCoreV1TCPSocketAction.from_dict.
Proof. solve_model. Qed.

Module IoK8sApiCoreV1LifecycleHandler.
Definition schema `{Pydantic} : Schema := model "IoK8sApiCoreV1LifecycleHandler" [
  opt "var_exec" "exec" (Model IoK8sApiCoreV1ExecAction.schema);
  opt "http_get" "httpGet" (Model IoK8sApiCoreV1HTTPGetAction.schema);
  opt "sleep" "sleep" (Model IoK8sApiCoreV1SleepAction.schema);
  opt "tcp_socket" "tcpSocket" (Model IoK8sApiCoreV1TCPSocketAction.schema)].
Definition to_dict `{Pydantic} : value → outcome value := to_dict_with schema [
  Dump "var_exec" "exec" IoK8sApiCoreV1ExecAction.to_dict;
  Dump "http_get" "httpGet" IoK8sApiCoreV1HTTPGetAction.to_dict;
  Dump "sleep" "sleep" IoK8sApiCoreV1SleepAction.to_dict;
  Dump "tcp_socket" "tcpSocket" IoK8sApiCoreV1TCPSocketAction.to_dict].
Definition from_dict `{Pydantic} : value → outcome value := from_dict_with schema [
  FromDict "exec" IoK8sApiCoreV1ExecAction.from_dict;
  FromDict "httpGet" IoK8sApiCoreV1HTTPGetAction.from_dict;
  FromDict "sleep" IoK8sApiCoreV1SleepAction.from_dict;
  FromDict "tcpSocket" IoK8sApiCoreV1TCPSocketAction.from_dict].
Definition to_json `{Pydantic} : value → outcome string := to_json_with to_dict.
Definition from_json `{Pydantic} : string → outcome value := from_json_with from_dict.
Definition to_str `{Pydantic} : value → outcome string := to_str_with schema.
End IoK8sApiCoreV1LifecycleHandler.
#[export] Instance IoK8sApiCoreV1LifecycleHandler_templated `{PydanticLaws} :
  Templated IoK8sApiCoreV1LifecycleHandler.schema IoK8sApiCoreV1LifecycleHandler.to_dict
    IoK8sApiCoreV1LifecycleHandler.from_dict.
Proof. solve_model. Qed.

Module IoK8sApiCoreV1Lifecycle.
Definition schema `{Pydantic} : Schema := model "IoK8sApiCoreV1Lifecycle" [
  opt "post_start" "postStart" (Model IoK8sApiCoreV1LifecycleHandler.schema);
  opt "pre_stop" "preStop" (Model IoK8sApiCoreV1LifecycleHandler.schema);
  checked (opt "stop_signal" "stopSignal" StrictStr)
    (none_or_one_of ["SIGABRT"; "SIGALRM"; "SIGBUS"; "SIGCHLD"; "SIGCLD"; "SIGCONT"; "SIGFPE";
      "SIGHUP"; "SIGILL"; "SIGINT"; "SIGIO"; "SIGIOT"; "SIGKILL"; "SIGPIPE"; "SIGPOLL"; "SIGPROF";
        "SIGPWR"; "SIGQUIT"; "SIGRTMAX"; "SIGRTMAX-1"; "SIGRTMAX-10"; "SIGRTMAX-11";
          "SIGRTMAX-12"; "SIGRTMAX-13"; "SIGRTMAX-14"; "SIGRTMAX-2"; "SIGRTMAX-3"; "SIGRTMAX-4";
            "SIGRTMAX-5"; "SIGRTMAX-6"; "SIGRTMAX-7"; "SIGRTMAX-8"; "SIGRTMAX-9"; "SIGRTMIN";
              "SIGRTMIN+1"; "SIGRTMIN+10"; "SIGRTMIN+11"; "SIGRTMIN+12"; "SIGRTMIN+13";
                "SIGRTMIN+14"; "SIGRTMIN+15"; "SIGRTMIN+2"; "SIGRTMIN+3"; "SIGRTMIN+4";
                  "SIGRTMIN+5"; "SIGRTMIN+6"; "SIGRTMIN+7"; "SIGRTMIN+8"; "SIGRTMIN+9"; "SIGSEGV";
                    "SIGSTKFLT"; "SIGSTOP"; "SIGSYS"; "SIGTERM"; "SIGTRAP"; "SIGTSTP"; "SIGTTIN";
                      "SIGTTOU"; "SIGURG"; "SIGUSR1"; "SIGUSR2"; "SIGVTALRM"; "SIGWINCH";
                        "SIGXCPU"; "SIGXFSZ"])].
Definition to_dict `{Pydantic} : value → outcome value := to_dict_with schema [
  Dump "post_start" "postStart" IoK8sApiCoreV1LifecycleHandler.to_dict;
  Dump "pre_stop" "preStop" IoK8sApiCoreV1LifecycleHandler.to_dict].
Definition from_dict `{Pydantic} : value → outcome value := from_dict_with schema [
  FromDict "postStart" IoK8sApiCoreV1LifecycleHandler.from_dict;
  FromDict "preStop" IoK8sApiCoreV1LifecycleHandler.from_dict;
  Get "stopSignal"].
Definition to_json `{Pydantic} : value → outcome string := to_json_with to_dict.
Definition from_json `{Pydantic} : string → outcome value := from_json_with from_dict.
Definition to_str `{Pydantic} : value → outcome string := to_str_with schema.
End IoK8sApiCoreV1Lifecycle.
#[export] Instance IoK8sApiCoreV1Lifecycle_templated `{PydanticLaws} :
  Templated IoK8sApiCoreV1Lifecycle.schema IoK8sApiCoreV1Lifecycle.to_dict
    IoK8sApiCoreV1Lifecycle.from_dict.
Proof. solve_model. Qed.

Module IoK8sApiCoreV1GRPCAction.
Definition schema `{Pydantic} : Schema := model "IoK8sApiCoreV1GRPCAction" [
  checked (opt "mode" "mode" StrictStr)
    (none_or_one_of ["Plaintext"; "TLS"]);
  req "port" "port" StrictInt;
  opt_or "service" "service" StrictStr (VStr "")].
Definition to_dict `{Pydantic} : value → outcome value := to_dict_with schema [].
Definition from_dict `{Pydantic} : value → outcome value := from_dict_with schema [
  Get "mode";
  GetOr "port" (VInt 0);
  GetOr "service" (VStr "")].
Definition to_json `{Pydantic} : value → outcome string := to_json_with to_dict.
Definition from_json `{Pydantic} : string → outcome value := from_json_with from_dict.
Definition to_str `{Pydantic} : value → outcome string := to_str_with schema.
End IoK8sApiCoreV1GRPCAction.
#[export] Instance IoK8sApiCoreV1GRPCAction_templated `{PydanticLaws} :
  Templated IoK8sApiCoreV1GRPCAction.schema IoK8sApiCoreV1GRPCAction.to_dict
    IoK8sApiCoreV1GRPCAction.from_dict.
Proof. solve_model. Qed.

Module IoK8sApiCoreV1Probe.
Definition schema `{Pydantic} : Schema := model "IoK8sApiCoreV1Probe" [
  opt "var_exec" "exec" (Model IoK8sApiCoreV1ExecAction.schema);
  opt "failure_threshold" "failureThreshold" StrictInt;
  opt "grpc" "grpc" (Model IoK8sApiCoreV1GRPCAction.schema);
  opt "http_get" "httpGet" (Model IoK8sApiCoreV1HTTPGetAction.schema);
  opt "initial_delay_seconds" "initialDelaySeconds" StrictInt;
  opt "period_seconds" "periodSeconds" StrictInt;
  opt "success_threshold" "successThreshold" StrictInt;
  opt "tcp_socket" "tcpSocket" (Model IoK8sApiCoreV1TCPSocketAction.schema);
  opt "termination_grace_period_seconds" "terminationGracePeriodSeconds" StrictInt;
  opt "timeout_seconds" "timeoutSeconds" StrictInt].
Definition to_dict `{Pydantic} : value → outcome value := to_dict_with schema [
  Dump "var_exec" "exec" IoK8sApiCoreV1ExecAction.to_dict;
  Dump "grpc" "grpc" IoK8sApiCoreV1GRPCAction.to_dict;
  Dump "http_get" "httpGet" IoK8sApiCoreV1HTTPGetAction.to_dict;
  Dump "tcp_socket" "tcpSocket" IoK8sApiCoreV1TCPSocketAction.to_dict].
Definition from_dict `{Pydantic} : value → outcome value := from_dict_with schema [
  FromDict "exec" IoK8sApiCoreV1ExecAction.from_dict;
  Get "failureThreshold";
  FromDict "grpc" IoK8sApiCoreV1GRPCAction.from_dict;
  FromDict "httpGet" IoK8sApiCoreV1HTTPGetAction.from_dict;
  Get "initialDelaySeconds";
  Get "periodSeconds";
  Get "successThreshold";
  FromDict "tcpSocket" IoK8sApiCoreV1TCPSocketAction.from_dict;
  Get "terminationGracePeriodSeconds";
  Get "timeoutSeconds"].
Definition to_json `{Pydantic} : value → outcome string := to_json_with to_dict.
Definition from_json `{Pydantic} : string → outcome value := from_json_with from_dict.
Definition to_str `{Pydantic} : value → outcome string := to_str_with schema.
End IoK8sApiCoreV1Probe.
#[export] Instance IoK8sApiCoreV1Probe_templated `{PydanticLaws} :
  Templated IoK8sApiCoreV1Probe.schema IoK8sApiCoreV1Probe.to_dict IoK8sApiCoreV1Probe.from_dict.
Proof. solve_model. Qed.

Module IoK8sApiCoreV1ContainerPort.
Definition schema `{Pydantic} : Schema := model "IoK8sApiCoreV1ContainerPort" [
  req "container_port" "containerPort" StrictInt;
  opt "host_ip" "hostIP" StrictStr;
  opt "host_port" "hostPort" StrictInt;
  opt "name" "name" StrictStr;
  checked (opt_or "protocol" "protocol" StrictStr (VStr "TCP"))
    (none_or_one_of ["SCTP"; "TCP"; "UDP"])].
Definition to_dict `{Pydantic} : value → outcome value := to_dict_with schema [].
Definition from_dict `{Pydantic} : value → outcome value := from_dict_with schema [
  GetOr "containerPort" (VInt 0);
  Get "hostIP";
  Get "hostPort";
  Get "name";
  GetOr "protocol" (VStr "TCP")].
Definition to_json `{Pydantic} : value → outcome string := to_json_with to_dict.
Definition from_json `{Pydantic} : string → outcome value := from_json_with from_dict.
Definition to_str `{Pydantic} : value → outcome string := to_str_with schema.
End IoK8sApiCoreV1ContainerPort.
#[export] Instance IoK8sApiCoreV1ContainerPort_templated `{PydanticLaws} :
  Templated IoK8sApiCoreV1ContainerPort.schema IoK8sApiCoreV1ContainerPort.to_dict
    IoK8sApiCoreV1ContainerPort.from_dict.
Proof. solve_model. Qed.

Module IoK8sApiCoreV1ContainerResizePolicy.
Definition schema `{Pydantic} : Schema := model "IoK8sApiCoreV1ContainerResizePolicy" [
  req "resource_name" "resourceName" StrictStr;
  req "restart_policy" "restartPolicy" StrictStr].
Definition to_dict `{Pydantic} : value → outcome value := to_dict_with schema [].
Definition from_dict `{Pydantic} : value → outcome value := from_dict_with schema [
  GetOr "resourceName" (VStr "");
  GetOr "restartPolicy" (VStr "")].
Definition to_json `{Pydantic} : value → outcome string := to_json_with to_dict.
Definition from_json `{Pydantic} : string → outcome value := from_json_with from_dict.
Definition to_str `{Pydantic} : value → outcome string := to_str_with schema.
End IoK8sApiCoreV1ContainerResizePolicy.
#[export] Instance IoK8sApiCoreV1ContainerResizePolicy_templated `{PydanticLaws} :
  Templated IoK8sApiCoreV1ContainerResizePolicy.schema IoK8sApiCoreV1ContainerResizePolicy.to_dict
    IoK8sApiCoreV1ContainerResizePolicy.from_dict.
Proof. solve_model. Qed.

Module IoK8sApiCoreV1ResourceClaim.
Definition schema `{Pydantic} : Schema := model "IoK8sApiCoreV1ResourceClaim" [
  req "name" "name" StrictStr;
  opt "request" "request" StrictStr].
Definition to_dict `{Pydantic} : value → outcome value := to_dict_with schema [].
Definition from_dict `{Pydantic} : value → outcome value := from_dict_with schema [
  GetOr "name" (VStr "");
  Get "request"].
Definition to_json `{Pydantic} : value → outcome string := to_json_with to_dict.
Definition from_json `{Pydantic} : string → outcome value := from_json_with from_dict.
Definition to_str `{Pydantic} : value → outcome string := to_str_with schema.
End IoK8sApiCoreV1ResourceClaim.
#[export] Instance IoK8sApiCoreV1ResourceClaim_templated `{PydanticLaws} :
  Templated IoK8sApiCoreV1ResourceClaim.schema IoK8sApiCoreV1ResourceClaim.to_dict
    IoK8sApiCoreV1ResourceClaim.from_dict.
Proof. solve_model. Qed.

Module IoK8sApiCoreV1ResourceRequirements.
Definition schema `{Pydantic} : Schema := model "IoK8sApiCoreV1ResourceRequirements" [
  opt "claims" "claims" (List (Model IoK8sApiCoreV1ResourceClaim.schema));
  opt "limits" "limits" (Dict (Model IoK8sApimachineryPkgApiResourceQuantity.schema));
  opt "requests" "requests" (Dict (Model IoK8sApimachineryPkgApiResourceQuantity.schema))].
Definition to_dict `{Pydantic} : value → outcome value := to_dict_with schema [
  DumpItems "claims" "claims" IoK8sApiCoreV1ResourceClaim.to_dict;
  DumpValues "limits" "limits" IoK8sApimachineryPkgApiResourceQuantity.to_dict;
  DumpValues "requests" "requests" IoK8sApimachineryPkgApiResourceQuantity.to_dict].
Definition from_dict `{Pydantic} : value → outcome value := from_dict_with schema [
  FromDictItems "claims" IoK8sApiCoreV1ResourceClaim.from_dict;
  FromDictValues "limits" IoK8sApimachineryPkgApiResourceQuantity.from_dict;
  FromDictValues "requests" IoK8sApimachineryPkgApiResourceQuantity.from_dict].
Definition to_json `{Pydantic} : value → outcome string := to_json_with to_dict.
Definition from_json `{Pydantic} : string → outcome value := from_json_with from_dict.
Definition to_str `{Pydantic} : value → outcome string := to_str_with schema.
End IoK8sApiCoreV1ResourceRequirements.
#[export] Instance IoK8sApiCoreV1ResourceRequirements_templated `{PydanticLaws} :
  Templated IoK8sApiCoreV1ResourceRequirements.schema IoK8sApiCoreV1ResourceRequirements.to_dict
    IoK8sApiCoreV1ResourceRequirements.from_dict.
Proof. solve_model. Qed.

Module IoK8sApiCoreV1ContainerRestartRuleOnExitCodes.
Definition schema `{Pydantic} : Schema := model "IoK8sApiCoreV1ContainerRestartRuleOnExitCodes" [
  req "operator" "operator" StrictStr;
  opt "values" "values" (List StrictInt)].
Definition to_dict `{Pydantic} : value → outcome value := to_dict_with schema [].
Definition from_dict `{Pydantic} : value → outcome value := from_dict_with schema [
  Get "operator";
  Get "values"].
Definition to_json `{Pydantic} : value → outcome string := to_json_with to_dict.
Definition from_json `{Pydantic} : string → outcome value := from_json_with from_dict.
Definition to_str `{Pydantic} : value → outcome string := to_str_with schema.
End IoK8sApiCoreV1ContainerRestartRuleOnExitCodes.
#[export] Instance IoK8sApiCoreV1ContainerRestartRuleOnExitCodes_templated `{PydanticLaws} :
  Templated IoK8sApiCoreV1ContainerRestartRuleOnExitCodes.schema
    IoK8sApiCoreV1ContainerRestartRuleOnExitCodes.to_dict
      IoK8sApiCoreV1ContainerRestartRuleOnExitCodes.from_dict.
Proof. solve_model. Qed.

Module IoK8sApiCoreV1ContainerRestartRule.
Definition schema `{Pydantic} : Schema := model "IoK8sApiCoreV1ContainerRestartRule" [
  req "action" "action" StrictStr;
  opt "exit_codes" "exitCodes" (Model IoK8sApiCoreV1ContainerRestartRuleOnExitCodes.schema)].
Definition to_dict `{Pydantic} : value → outcome value := to_dict_with schema [
  Dump "exit_codes" "exitCodes" IoK8sApiCoreV1ContainerRestartRuleOnExitCodes.to_dict].
Definition from_dict `{Pydantic} : value → outcome value := from_dict_with schema [
  Get "action";
  FromDict "exitCodes" IoK8sApiCoreV1ContainerRestartRuleOnExitCodes.from_dict].
Definition to_json `{Pydantic} : value → outcome string := to_json_with to_dict.
Definition from_json `{Pydantic} : string → outcome value := from_json_with from_dict.
Definition to_str `{Pydantic} : value → outcome string := to_str_with schema.
End IoK8sApiCoreV1ContainerRestartRule.
#[export] Instance IoK8sApiCoreV1ContainerRestartRule_templated `{PydanticLaws} :
  Templated IoK8sApiCoreV1ContainerRestartRule.schema IoK8sApiCoreV1ContainerRestartRule.to_dict
    IoK8sApiCoreV1ContainerRestartRule.from_dict.
Proof. solve_model. Qed.

Module IoK8sApiCoreV1AppArmorProfile.
Definition schema `{Pydantic} : Schema := model "IoK8sApiCoreV1AppArmorProfile" [
  opt "localhost_profile" "localhostProfile" StrictStr;
  checked (req "type" "type" StrictStr)
    (one_of ["Localhost"; "RuntimeDefault"; "Unconfined"])].
Definition to_dict `{Pydantic} : value → outcome value := to_dict_with schema [].
Definition from_dict `{Pydantic} : value → outcome value := from_dict_with schema [
  Get "localhostProfile";
  Get "type"].
Definition to_json `{Pydantic} : value → outcome string := to_json_with to_dict.
Definition from_json `{Pydantic} : string → outcome value := from_json_with from_dict.
Definition to_str `{Pydantic} : value → outcome string := to_str_with schema.
End IoK8sApiCoreV1AppArmorProfile.
#[export] Instance IoK8sApiCoreV1AppArmorProfile_templated `{PydanticLaws} :
  Templated IoK8sApiCoreV1AppArmorProfile.schema IoK8sApiCoreV1AppArmorProfile.to_dict
    IoK8sApiCoreV1AppArmorProfile.from_dict.
Proof. solve_model. Qed.

Module IoK8sApiCoreV1Capabilities.
Definition schema `{Pydantic} : Schema := model "IoK8sApiCoreV1Capabilities" [
  opt "add" "add" (List StrictStr);
  opt "drop" "drop" (List StrictStr)].
Definition to_dict `{Pydantic} : value → outcome value := to_dict_with schema [].
Definition from_dict `{Pydantic} : value → outcome value := from_dict_with schema [
  Get "add";
  Get "drop"].
Definition to_json `{Pydantic} : value → outcome string := to_json_with to_dict.
Definition from_json `{Pydantic} : string → outcome value := from_json_with from_dict.
Definition to_str `{Pydantic} : value → outcome string := to_str_with schema.
End IoK8sApiCoreV1Capabilities.
#[export] Instance IoK8sApiCoreV1Capabilities_templated `{PydanticLaws} :
  Templated IoK8sApiCoreV1Capabilities.schema IoK8sApiCoreV1Capabilities.to_dict
    IoK8sApiCoreV1Capabilities.from_dict.
Proof. solve_model. Qed.

Module IoK8sApiCoreV1SELinuxOptions.
Definition schema `{Pydantic} : Schema := model "IoK8sApiCoreV1SELinuxOptions" [
  opt "level" "level" StrictStr;
  opt "role" "role" StrictStr;
  opt "type" "type" StrictStr;
  opt "user" "user" StrictStr].
Definition to_dict `{Pydantic} : value → outcome value := to_dict_with schema [].
Definition from_dict `{Pydantic} : value → outcome value := from_dict_with schema [
  Get "level";
  Get "role";
  Get "type";
  Get "user"].
Definition to_json `{Pydantic} : value → outcome string := to_json_with to_dict.
Definition from_json `{Pydantic} : string → outcome value := from_json_with from_dict.
Definition to_str `{Pydantic} : value → outcome string := to_str_with schema.
End IoK8sApiCoreV1SELinuxOptions.
#[export] Instance IoK8sApiCoreV1SELinuxOptions_templated `{PydanticLaws} :
  Templated IoK8sApiCoreV1SELinuxOptions.schema IoK8sApiCoreV1SELinuxOptions.to_dict
    IoK8sApiCoreV1SELinuxOptions.from_dict.
Proof. solve_model. Qed.

Module IoK8sApiCoreV1SeccompProfile.
Definition schema `{Pydantic} : Schema := model "IoK8sApiCoreV1SeccompProfile" [
  opt "localhost_profile" "localhostProfile" StrictStr;
  checked (req "type" "type" StrictStr)
    (one_of ["Localhost"; "RuntimeDefault"; "Unconfined"])].
Definition to_dict `{Pydantic} : value → outcome value := to_dict_with schema [].
Definition from_dict `{Pydantic} : value → outcome value := from_dict_with schema [
  Get "localhostProfile";
  Get "type"].
Definition to_json `{Pydantic} : value → outcome string := to_json_with to_dict.
Definition from_json `{Pydantic} : string → outcome value := from_json_with from_dict.
Definition to_str `{Pydantic} : value → outcome string := to_str_with schema.
End IoK8sApiCoreV1SeccompProfile.
#[export] Instance IoK8sApiCoreV1SeccompProfile_templated `{PydanticLaws} :
  Templated IoK8sApiCoreV1SeccompProfile.schema IoK8sApiCoreV1SeccompProfile.to_dict
    IoK8sApiCoreV1SeccompProfile.from_dict.
Proof. solve_model. Qed.

Module IoK8sApiCoreV1WindowsSecurityContextOptions.
Definition schema `{Pydantic} : Schema := model "IoK8sApiCoreV1WindowsSecurityContextOptions" [
  opt "gmsa_credential_spec" "gmsaCredentialSpec" StrictStr;
  opt "gmsa_credential_spec_name" "gmsaCredentialSpecName" StrictStr;
  opt "host_process" "hostProcess" StrictBool;
  opt "run_as_user_name" "runAsUserName" StrictStr].
Definition to_dict `{Pydantic} : value → outcome value := to_dict_with schema [].
Definition from_dict `{Pydantic} : value → outcome value := from_dict_with schema [
  Get "gmsaCredentialSpec";
  Get "gmsaCredentialSpecName";
  Get "hostProcess";
  Get "runAsUserName"].
Definition to_json `{Pydantic} : value → outcome string := to_json_with to_dict.
Definition from_json `{Pydantic} : string → outcome value := from_json_with from_dict.
Definition to_str `{Pydantic} : value → outcome string := to_str_with schema.
End IoK8sApiCoreV1WindowsSecurityContextOptions.
#[export] Instance IoK8sApiCoreV1WindowsSecurityContextOptions_templated `{PydanticLaws} :
  Templated IoK8sApiCoreV1WindowsSecurityContextOptions.schema
    IoK8sApiCoreV1WindowsSecurityContextOptions.to_dict
      IoK8sApiCoreV1WindowsSecurityContextOptions.from_dict.
Proof. solve_model. Qed.

Module IoK8sApiCoreV1SecurityContext.
Definition schema `{Pydantic} : Schema := model "IoK8sApiCoreV1SecurityContext" [
  opt "allow_privilege_escalation" "allowPrivilegeEscalation" StrictBool;
  opt "app_armor_profile" "appArmorProfile" (Model IoK8sApiCoreV1AppArmorProfile.schema);
  opt "capabilities" "capabilities" (Model IoK8sApiCoreV1Capabilities.schema);
  opt "privileged" "privileged" StrictBool;
  checked (opt "proc_mount" "procMount" StrictStr)
    (none_or_one_of ["Default"; "Unmasked"]);
  opt "read_only_root_filesystem" "readOnlyRootFilesystem" StrictBool;
  opt "run_as_group" "runAsGroup" StrictInt;
  opt "run_as_non_root" "runAsNonRoot" StrictBool;
  opt "run_as_user" "runAsUser" StrictInt;
  opt "se_linux_options" "seLinuxOptions" (Model IoK8sApiCoreV1SELinuxOptions.schema);
  opt "seccomp_profile" "seccompProfile" (Model IoK8sApiCoreV1SeccompProfile.schema);
  opt "windows_options" "windowsOptions"
    (Model IoK8sApiCoreV1WindowsSecurityContextOptions.schema)].
Definition to_dict `{Pydantic} : value → outcome value := to_dict_with schema [
  Dump "app_armor_profile" "appArmorProfile" IoK8sApiCoreV1AppArmorProfile.to_dict;
  Dump "capabilities" "capabilities" IoK8sApiCoreV1Capabilities.to_dict;
  Dump "se_linux_options" "seLinuxOptions" IoK8sApiCoreV1SELinuxOptions.to_dict;
  Dump "seccomp_profile" "seccompProfile" IoK8sApiCoreV1SeccompProfile.to_dict;
  Dump "windows_options" "windowsOptions" IoK8sApiCoreV1WindowsSecurityContextOptions.to_dict].
Definition from_dict `{Pydantic} : value → outcome value := from_dict_with schema [
  Get "allowPrivilegeEscalation";
  FromDict "appArmorProfile" IoK8sApiCoreV1AppArmorProfile.from_dict;
  FromDict "capabilities" IoK8sApiCoreV1Capabilities.from_dict;
  Get "privileged";
  Get "procMount";
  Get "readOnlyRootFilesystem";
  Get "runAsGroup";
  Get "runAsNonRoot";
  Get "runAsUser";
  FromDict "seLinuxOptions" IoK8sApiCoreV1SELinuxOptions.from_dict;
  FromDict "seccompProfile" IoK8sApiCoreV1SeccompProfile.from_dict;
  FromDict "windowsOptions" IoK8sApiCoreV1WindowsSecurityContextOptions.from_dict].
Definition to_json `{Pydantic} : value → outcome string := to_json_with to_dict.
Definition from_json `{Pydantic} : string → outcome value := from_json_with from_dict.
Definition to_str `{Pydantic} : value → outcome string := to_str_with schema.
End IoK8sApiCoreV1SecurityContext.
#[export] Instance IoK8sApiCoreV1SecurityContext_templated `{PydanticLaws} :
  Templated IoK8sApiCoreV1SecurityContext.schema IoK8sApiCoreV1SecurityContext.to_dict
    IoK8sApiCoreV1SecurityContext.from_dict.
Proof. solve_model. Qed.

Module IoK8sApiCoreV1VolumeDevice.
Definition schema `{Pydantic} : Schema := model "IoK8sApiCoreV1VolumeDevice" [
  req "device_path" "devicePath" StrictStr;
  req "name" "name" StrictStr].
Definition to_dict `{Pydantic} : value → outcome value := to_dict_with schema [].
Definition from_dict `{Pydantic} : value → outcome value := from_dict_with schema [
  GetOr "devicePath" (VStr "");
  GetOr "name" (VStr "")].
Definition to_json `{Pydantic} : value → outcome string := to_json_with to_dict.
Definition from_json `{Pydantic} : string → outcome value := from_json_with from_dict.
Definition to_str `{Pydantic} : value → outcome string := to_str_with schema.
End IoK8sApiCoreV1VolumeDevice.
#[export] Instance IoK8sApiCoreV1VolumeDevice_templated `{PydanticLaws} :
  Templated IoK8sApiCoreV1VolumeDevice.schema IoK8sApiCoreV1VolumeDevice.to_dict
    IoK8sApiCoreV1VolumeDevice.from_dict.
Proof. solve_model. Qed.

Module IoK8sApiCoreV1VolumeMount.
Definition schema `{Pydantic} : Schema := model "IoK8sApiCoreV1VolumeMount" [
  opt "bind_mount_options" "bindMountOptions" (List StrictStr);
  req "mount_path" "mountPath" StrictStr;
  checked (opt "mount_propagation" "mountPropagation" StrictStr)
    (none_or_one_of ["Bidirectional"; "HostToContainer"; "None"]);
  req "name" "name" StrictStr;
  opt "read_only" "readOnly" StrictBool;
  opt "recursive_read_only" "recursiveReadOnly" StrictStr;
  opt "sub_path" "subPath" StrictStr;
  opt "sub_path_expr" "subPathExpr" StrictStr].
Definition to_dict `{Pydantic} : value → outcome value := to_dict_with schema [].
Definition from_dict `{Pydantic} : value → outcome value := from_dict_with schema [
  Get "bindMountOptions";
  GetOr "mountPath" (VStr "");
  Get "mountPropagation";
  GetOr "name" (VStr "");
  Get "readOnly";
  Get "recursiveReadOnly";
  Get "subPath";
  Get "subPathExpr"].
Definition to_json `{Pydantic} : value → outcome string := to_json_with to_dict.
Definition from_json `{Pydantic} : string → outcome value := from_json_with from_dict.
Definition to_str `{Pydantic} : value → outcome string := to_str_with schema.
End IoK8sApiCoreV1VolumeMount.
#[export] Instance IoK8sApiCoreV1VolumeMount_templated `{PydanticLaws} :
  Templated IoK8sApiCoreV1VolumeMount.schema IoK8sApiCoreV1VolumeMount.to_dict
    IoK8sApiCoreV1VolumeMount.from_dict.
Proof. solve_model. Qed.

Module IoK8sApiCoreV1Container.
Definition schema `{Pydantic} : Schema := model "IoK8sApiCoreV1Container" [
  opt "args" "args" (List StrictStr);
  opt "command" "command" (List StrictStr);
  opt "env" "env" (List (Model IoK8sApiCoreV1EnvVar.schema));
  opt "env_from" "envFrom" (List (Model IoK8sApiCoreV1EnvFromSource.schema));
  opt "image" "image" StrictStr;
  checked (opt "image_pull_policy" "imagePullPolicy" StrictStr)
    (none_or_one_of ["Always"; "IfNotPresent"; "Never"]);
  opt "lifecycle" "lifecycle" (Model IoK8sApiCoreV1Lifecycle.schema);
  opt "liveness_probe" "livenessProbe" (Model IoK8sApiCoreV1Probe.schema);
  req "name" "name" StrictStr;
  opt "ports" "ports" (List (Model IoK8sApiCoreV1ContainerPort.schema));
  opt "readiness_probe" "readinessProbe" (Model IoK8sApiCoreV1Probe.schema);
  opt "resize_policy" "resizePolicy" (List (Model IoK8sApiCoreV1ContainerResizePolicy.schema));
  opt "resources" "resources" (Model IoK8sApiCoreV1ResourceRequirements.schema);
  opt "restart_policy" "restartPolicy" StrictStr;
  opt "restart_policy_rules" "restartPolicyRules" (List
    (Model IoK8sApiCoreV1ContainerRestartRule.schema));
  opt "security_context" "securityContext" (Model IoK8sApiCoreV1SecurityContext.schema);
  opt "startup_probe" "startupProbe" (Model IoK8sApiCoreV1Probe.schema);
  opt "stdin" "stdin" StrictBool;
  opt "stdin_once" "stdinOnce" StrictBool;
  opt "termination_message_path" "terminationMessagePath" StrictStr;
  checked (opt "termination_message_policy" "terminationMessagePolicy" StrictStr)
    (none_or_one_of ["FallbackToLogsOnError"; "File"]);
  opt "tty" "tty" StrictBool;
  opt "volume_devices" "volumeDevices" (List (Model IoK8sApiCoreV1VolumeDevice.schema));
  opt "volume_mounts" "volumeMounts" (List (Model IoK8sApiCoreV1VolumeMount.schema));
  opt "working_dir" "workingDir" StrictStr].
Definition to_dict `{Pydantic} : value → outcome value := to_dict_with schema [
  DumpItems "env" "env" IoK8sApiCoreV1EnvVar.to_dict;
  DumpItems "env_from" "envFrom" IoK8sApiCoreV1EnvFromSource.to_dict;
  Dump "lifecycle" "lifecycle" IoK8sApiCoreV1Lifecycle.to_dict;
  Dump "liveness_probe" "livenessProbe" IoK8sApiCoreV1Probe.to_dict;
  DumpItems "ports" "ports" IoK8sApiCoreV1ContainerPort.to_dict;
  Dump "readiness_probe" "readinessProbe" IoK8sApiCoreV1Probe.to_dict;
  DumpItems "resize_policy" "resizePolicy" IoK8sApiCoreV1ContainerResizePolicy.to_dict;
  Dump "resources" "resources" IoK8sApiCoreV1ResourceRequirements.to_dict;
  DumpItems "restart_policy_rules" "restartPolicyRules" IoK8sApiCoreV1ContainerRestartRule.to_dict;
  Dump "security_context" "securityContext" IoK8sApiCoreV1SecurityContext.to_dict;
  Dump "startup_probe" "startupProbe" IoK8sApiCoreV1Probe.to_dict;
  DumpItems "volume_devices" "volumeDevices" IoK8sApiCoreV1VolumeDevice.to_dict;
  DumpItems "volume_mounts" "volumeMounts" IoK8sApiCoreV1VolumeMount.to_dict].
Definition from_dict `{Pydantic} : value → outcome value := from_dict_with schema [
  Get "args";
  Get "command";
  FromDictItems "env" IoK8sApiCoreV1EnvVar.from_dict;
  FromDictItems "envFrom" IoK8sApiCoreV1EnvFromSource.from_dict;
  Get "image";
  Get "imagePullPolicy";
  FromDict "lifecycle" IoK8sApiCoreV1Lifecycle.from_dict;
  FromDict "livenessProbe" IoK8sApiCoreV1Probe.from_dict;
  GetOr "name" (VStr "");
  FromDictItems "ports" IoK8sApiCoreV1ContainerPort.from_dict;
  FromDict "readinessProbe" IoK8sApiCoreV1Probe.from_dict;
  FromDictItems "resizePolicy" IoK8sApiCoreV1ContainerResizePolicy.from_dict;
  FromDict "resources" IoK8sApiCoreV1ResourceRequirements.from_dict;
  Get "restartPolicy";
  FromDictItems "restartPolicyRules" IoK8sApiCoreV1ContainerRestartRule.from_dict;
  FromDict "securityContext" IoK8sApiCoreV1SecurityContext.from_dict;
  FromDict "startupProbe" IoK8sApiCoreV1Probe.from_dict;
  Get "stdin";
  Get "stdinOnce";
  Get "terminationMessagePath";
  Get "terminationMessagePolicy";
  Get "tty";
  FromDictItems "volumeDevices" IoK8sApiCoreV1VolumeDevice.from_dict;
  FromDictItems "volumeMounts" IoK8sApiCoreV1VolumeMount.from_dict;
  Get "workingDir"].
Definition to_json `{Pydantic} : value → outcome string := to_json_with to_dict.
Definition from_json `{Pydantic} : string → outcome value := from_json_with from_dict.
Definition to_str `{Pydantic} : value → outcome string := to_str_with schema.
End IoK8sApiCoreV1Container.
#[export] Instance IoK8sApiCoreV1Container_templated `{PydanticLaws} :
  Templated IoK8sApiCoreV1Container.schema IoK8sApiCoreV1Container.to_dict
    IoK8sApiCoreV1Container.from_dict.
Proof. solve_model. Qed.

Module IoK8sApiCoreV1PodDNSConfigOption.
Definition schema `{Pydantic} : Schema := model "IoK8sApiCoreV1PodDNSConfigOption" [
  opt "name" "name" StrictStr;
  opt "value" "value" StrictStr].
Definition to_dict `{Pydantic} : value → outcome value := to_dict_with schema [].
Definition from_dict `{Pydantic} : value → outcome value := from_dict_with schema [
  Get "name";
  Get "value"].
Definition to_json `{Pydantic} : value → outcome string := to_json_with to_dict.
Definition from_json `{Pydantic} : string → outcome value := from_json_with from_dict.
Definition to_str `{Pydantic} : value → outcome string := to_str_with schema.
End IoK8sApiCoreV1PodDNSConfigOption.
#[export] Instance IoK8sApiCoreV1PodDNSConfigOption_templated `{PydanticLaws} :
  Templated IoK8sApiCoreV1PodDNSConfigOption.schema IoK8sApiCoreV1PodDNSConfigOption.to_dict
    IoK8sApiCoreV1PodDNSConfigOption.from_dict.
Proof. solve_model. Qed.

Module IoK8sApiCoreV1PodDNSConfig.
Definition schema `{Pydantic} : Schema := model "IoK8sApiCoreV1PodDNSConfig" [
  opt "nameservers" "nameservers" (List StrictStr);
  opt "options" "options" (List (Model IoK8sApiCoreV1PodDNSConfigOption.schema));
  opt "searches" "searches" (List StrictStr)].
Definition to_dict `{Pydantic} : value → outcome value := to_dict_with schema [
  DumpItems "options" "options" IoK8sApiCoreV1PodDNSConfigOption.to_dict].
Definition from_dict `{Pydantic} : value → outcome value := from_dict_with schema [
  Get "nameservers";
  FromDictItems "options" IoK8sApiCoreV1PodDNSConfigOption.from_dict;
  Get "searches"].
Definition to_json `{Pydantic} : value → outcome string := to_json_with to_dict.
Definition from_json `{Pydantic} : string → outcome value := from_json_with from_dict.
Definition to_str `{Pydantic} : value → outcome string := to_str_with schema.
End IoK8sApiCoreV1PodDNSConfig.
#[export] Instance IoK8sApiCoreV1PodDNSConfig_templated `{PydanticLaws} :
  Templated IoK8sApiCoreV1PodDNSConfig.schema IoK8sApiCoreV1PodDNSConfig.to_dict
    IoK8sApiCoreV1PodDNSConfig.from_dict.
Proof. solve_model. Qed.

Module IoK8sApiCoreV1EphemeralContainer.
Definition schema `{Pydantic} : Schema := model "IoK8sApiCoreV1EphemeralContainer" [
  opt "args" "args" (List StrictStr);
  opt "command" "command" (List StrictStr);
  opt "env" "env" (List (Model IoK8sApiCoreV1EnvVar.schema));
  opt "env_from" "envFrom" (List (Model IoK8sApiCoreV1EnvFromSource.schema));
  opt "image" "image" StrictStr;
  checked (opt "image_pull_policy" "imagePullPolicy" StrictStr)
    (none_or_one_of ["Always"; "IfNotPresent"; "Never"]);
  opt "lifecycle" "lifecycle" (Model IoK8sApiCoreV1Lifecycle.schema);
  opt "liveness_probe" "livenessProbe" (Model IoK8sApiCoreV1Probe.schema);
  req "name" "name" StrictStr;
  opt "ports" "ports" (List (Model IoK8sApiCoreV1ContainerPort.schema));
  opt "readiness_probe" "readinessProbe" (Model IoK8sApiCoreV1Probe.schema);
  opt "resize_policy" "resizePolicy" (List (Model IoK8sApiCoreV1ContainerResizePolicy.schema));
  opt "resources" "resources" (Model IoK8sApiCoreV1ResourceRequirements.schema);
  opt "restart_policy" "restartPolicy" StrictStr;
  opt "restart_policy_rules" "restartPolicyRules" (List
    (Model IoK8sApiCoreV1ContainerRestartRule.schema));
  opt "security_context" "securityContext" (Model IoK8sApiCoreV1SecurityContext.schema);
  opt "startup_probe" "startupProbe" (Model IoK8sApiCoreV1Probe.schema);
  opt "stdin" "stdin" StrictBool;
  opt "stdin_once" "stdinOnce" StrictBool;
  opt "target_container_name" "targetContainerName" StrictStr;
  opt "termination_message_path" "terminationMessagePath" StrictStr;
  checked (opt "termination_message_policy" "terminationMessagePolicy" StrictStr)
    (none_or_one_of ["FallbackToLogsOnError"; "File"]);
  opt "tty" "tty" StrictBool;
  opt "volume_devices" "volumeDevices" (List (Model IoK8sApiCoreV1VolumeDevice.schema));
  opt "volume_mounts" "volumeMounts" (List (Model IoK8sApiCoreV1VolumeMount.schema));
  opt "working_dir" "workingDir" StrictStr].
Definition to_dict `{Pydantic} : value → outcome value := to_dict_with schema [
  DumpItems "env" "env" IoK8sApiCoreV1EnvVar.to_dict;
  DumpItems "env_from" "envFrom" IoK8sApiCoreV1EnvFromSource.to_dict;
  Dump "lifecycle" "lifecycle" IoK8sApiCoreV1Lifecycle.to_dict;
  Dump "liveness_probe" "livenessProbe" IoK8sApiCoreV1Probe.to_dict;
  DumpItems "ports" "ports" IoK8sApiCoreV1ContainerPort.to_dict;
  Dump "readiness_probe" "readinessProbe" IoK8sApiCoreV1Probe.to_dict;
  DumpItems "resize_policy" "resizePolicy" IoK8sApiCoreV1ContainerResizePolicy.to_dict;
  Dump "resources" "resources" IoK8sApiCoreV1ResourceRequirements.to_dict;
  DumpItems "restart_policy_rules" "restartPolicyRules" IoK8sApiCoreV1ContainerRestartRule.to_dict;
  Dump "security_context" "securityContext" IoK8sApiCoreV1SecurityContext.to_dict;
  Dump "startup_probe" "startupProbe" IoK8sApiCoreV1Probe.to_dict;
  DumpItems "volume_devices" "volumeDevices" IoK8sApiCoreV1VolumeDevice.to_dict;
  DumpItems "volume_mounts" "volumeMounts" IoK8sApiCoreV1VolumeMount.to_dict].
Definition from_dict `{Pydantic} : value → outcome value := from_dict_with schema [
  Get "args";
  Get "command";
  FromDictItems "env" IoK8sApiCoreV1EnvVar.from_dict;
  FromDictItems "envFrom" IoK8sApiCoreV1EnvFromSource.from_dict;
  Get "image";
  Get "imagePullPolicy";
  FromDict "lifecycle" IoK8sApiCoreV1Lifecycle.from_dict;
  FromDict "livenessProbe" IoK8sApiCoreV1Probe.from_dict;
  GetOr "name" (VStr "");
  FromDictItems "ports" IoK8sApiCoreV1ContainerPort.from_dict;
  FromDict "readinessProbe" IoK8sApiCoreV1Probe.from_dict;
  FromDictItems "resizePolicy" IoK8sApiCoreV1ContainerResizePolicy.from_dict;
  FromDict "resources" IoK8sApiCoreV1ResourceRequirements.from_dict;
  Get "restartPolicy";
  FromDictItems "restartPolicyRules" IoK8sApiCoreV1ContainerRestartRule.from_dict;
  FromDict "securityContext" IoK8sApiCoreV1SecurityContext.from_dict;
  FromDict "startupProbe" IoK8sApiCoreV1Probe.from_dict;
  Get "stdin";
  Get "stdinOnce";
  Get "targetContainerName";
  Get "terminationMessagePath";
  Get "terminationMessagePolicy";
  Get "tty";
  FromDictItems "volumeDevices" IoK8sApiCoreV1VolumeDevice.from_dict;
  FromDictItems "volumeMounts" IoK8sApiCoreV1VolumeMount.from_dict;
  Get "workingDir"].
Definition to_json `{Pydantic} : value → outcome string := to_json_with to_dict.
Definition from_json `{Pydantic} : string → outcome value := from_json_with from_dict.
Definition to_str `{Pydantic} : value → outcome string := to_str_with schema.
End IoK8sApiCoreV1EphemeralContainer.
#[export] Instance IoK8sApiCoreV1EphemeralContainer_templated `{PydanticLaws} :
  Templated IoK8sApiCoreV1EphemeralContainer.schema IoK8sApiCoreV1EphemeralContainer.to_dict
    IoK8sApiCoreV1EphemeralContainer.from_dict.
Proof. solve_model. Qed.

Module IoK8sApiCoreV1EvictionResponder.
Definition schema `{Pydantic} : Schema := model "IoK8sApiCoreV1EvictionResponder" [
  req "name" "name" StrictStr;
  req "priority" "priority" StrictInt].
Definition to_dict `{Pydantic} : value → outcome value := to_dict_with schema [].
Definition from_dict `{Pydantic} : value → outcome value := from_dict_with schema [
  GetOr "name" (VStr "");
  Get "priority"].
Definition to_json `{Pydantic} : value → outcome string := to_json_with to_dict.
Definition from_json `{Pydantic} : string → outcome value := from_json_with from_dict.
Definition to_str `{Pydantic} : value → outcome string := to_str_with schema.
End IoK8sApiCoreV1EvictionResponder.
#[export] Instance IoK8sApiCoreV1EvictionResponder_templated `{PydanticLaws} :
  Templated IoK8sApiCoreV1EvictionResponder.schema IoK8sApiCoreV1EvictionResponder.to_dict
    IoK8sApiCoreV1EvictionResponder.from_dict.
Proof. solve_model. Qed.

Module IoK8sApiCoreV1HostAlias.
Definition schema `{Pydantic} : Schema := model "IoK8sApiCoreV1HostAlias" [
  opt "hostnames" "hostnames" (List StrictStr);
  req "ip" "ip" StrictStr].
Definition to_dict `{Pydantic} : value → outcome value := to_dict_with schema [].
Definition from_dict `{Pydantic} : value → outcome value := from_dict_with schema [
  Get "hostnames";
  GetOr "ip" (VStr "")].
Definition to_json `{Pydantic} : value → outcome string := to_json_with to_dict.
Definition from_json `{Pydantic} : string → outcome value := from_json_with from_dict.
Definition to_str `{Pydantic} : value → outcome string := to_str_with schema.
End IoK8sApiCoreV1HostAlias.
#[export] Instance IoK8sApiCoreV1HostAlias_templated `{PydanticLaws} :
  Templated IoK8sApiCoreV1HostAlias.schema IoK8sApiCoreV1HostAlias.to_dict
    IoK8sApiCoreV1HostAlias.from_dict.
Proof. solve_model. Qed.

Module IoK8sApiCoreV1LocalObjectReference.
Definition schema `{Pydantic} : Schema := model "IoK8sApiCoreV1LocalObjectReference" [
  opt_or "name" "name" StrictStr (VStr "")].
Definition to_dict `{Pydantic} : value → outcome value := to_dict_with schema [].
Definition from_dict `{Pydantic} : value → outcome value := from_dict_with schema [
  GetOr "name" (VStr "")].
Definition to_json `{Pydantic} : value → outcome string := to_json_with to_dict.
Definition from_json `{Pydantic} : string → outcome value := from_json_with from_dict.
Definition to_str `{Pydantic} : value → outcome string := to_str_with schema.
End IoK8sApiCoreV1LocalObjectReference.
#[export] Instance IoK8sApiCoreV1LocalObjectReference_templated `{PydanticLaws} :
  Templated IoK8sApiCoreV1LocalObjectReference.schema IoK8sApiCoreV1LocalObjectReference.to_dict
    IoK8sApiCoreV1LocalObjectReference.from_dict.
Proof. solve_model. Qed.

Module IoK8sApiCoreV1PodOS.
Definition schema `{Pydantic} : Schema := model "IoK8sApiCoreV1PodOS" [
  req "name" "name" StrictStr].
Definition to_dict `{Pydantic} : value → outcome value := to_dict_with schema [].
Definition from_dict `{Pydantic} : value → outcome value := from_dict_with schema [
  GetOr "name" (VStr "")].
Definition to_json `{Pydantic} : value → outcome string := to_json_with to_dict.
Definition from_json `{Pydantic} : string → outcome value := from_json_with from_dict.
Definition to_str `{Pydantic} : value → outcome string := to_str_with schema.
End IoK8sApiCoreV1PodOS.
#[export] Instance IoK8sApiCoreV1PodOS_templated `{PydanticLaws} :
  Templated IoK8sApiCoreV1PodOS.schema IoK8sApiCoreV1PodOS.to_dict IoK8sApiCoreV1PodOS.from_dict.
Proof. solve_model. Qed.

Module IoK8sApiCoreV1PodReadinessGate.
Definition schema `{Pydantic} : Schema := model "IoK8sApiCoreV1PodReadinessGate" [
  req "condition_type" "conditionType" StrictStr].
Definition to_dict `{Pydantic} : value → outcome value := to_dict_with schema [].
Definition from_dict `{Pydantic} : value → outcome value := from_dict_with schema [
  GetOr "conditionType" (VStr "")].
Definition to_json `{Pydantic} : value → outcome string := to_json_with to_dict.
Definition from_json `{Pydantic} : string → outcome value := from_json_with from_dict.
Definition to_str `{Pydantic} : value → outcome string := to_str_with schema.
End IoK8sApiCoreV1PodReadinessGate.
#[export] Instance IoK8sApiCoreV1PodReadinessGate_templated `{PydanticLaws} :
  Templated IoK8sApiCoreV1PodReadinessGate.schema IoK8sApiCoreV1PodReadinessGate.to_dict
    IoK8sApiCoreV1PodReadinessGate.from_dict.
Proof. solve_model. Qed.

Module IoK8sApiCoreV1PodResourceClaim.
Definition schema `{Pydantic} : Schema := model "IoK8sApiCoreV1PodResourceClaim" [
  req "name" "name" StrictStr;
  opt "resource_claim_name" "resourceClaimName" StrictStr;
  opt "resource_claim_template_name" "resourceClaimTemplateName" StrictStr].
Definition to_dict `{Pydantic} : value → outcome value := to_dict_with schema [].
Definition from_dict `{Pydantic} : value → outcome value := from_dict_with schema [
  GetOr "name" (VStr "");
  Get "resourceClaimName";
  Get "resourceClaimTemplateName"].
Definition to_json `{Pydantic} : value → outcome string := to_json_with to_dict.
Definition from_json `{Pydantic} : string → outcome value := from_json_with from_dict.
Definition to_str `{Pydantic} : value → outcome string := to_str_with schema.
End IoK8sApiCoreV1PodResourceClaim.
#[export] Instance IoK8sApiCoreV1PodResourceClaim_templated `{PydanticLaws} :
  Templated IoK8sApiCoreV1PodResourceClaim.schema IoK8sApiCoreV1PodResourceClaim.to_dict
    IoK8sApiCoreV1PodResourceClaim.from_dict.
Proof. solve_model. Qed.

Module IoK8sApiCoreV1PodSchedulingGate.
Definition schema `{Pydantic} : Schema := model "IoK8sApiCoreV1PodSchedulingGate" [
  req "name" "name" StrictStr].
Definition to_dict `{Pydantic} : value → outcome value := to_dict_with schema [].
Definition from_dict `{Pydantic} : value → outcome value := from_dict_with schema [
  GetOr "name" (VStr "")].
Definition to_json `{Pydantic} : value → outcome string := to_json_with to_dict.
Definition from_json `{Pydantic} : string → outcome value := from_json_with from_dict.
Definition to_str `{Pydantic} : value → outcome string := to_str_with schema.
End IoK8sApiCoreV1PodSchedulingGate.
#[export] Instance IoK8sApiCoreV1PodSchedulingGate_templated `{PydanticLaws} :
  Templated IoK8sApiCoreV1PodSchedulingGate.schema IoK8sApiCoreV1PodSchedulingGate.to_dict
    IoK8sApiCoreV1PodSchedulingGate.from_dict.
Proof. solve_model. Qed.

Module IoK8sApiCoreV1PodSchedulingGroup.
Definition schema `{Pydantic} : Schema := model "IoK8sApiCoreV1PodSchedulingGroup" [
  opt "pod_group_name" "podGroupName" StrictStr].
Definition to_dict `{Pydantic} : value → outcome value := to_dict_with schema [].
Definition from_dict `{Pydantic} : value → outcome value := from_dict_with schema [
  Get "podGroupName"].
Definition to_json `{Pydantic} : value → outcome string := to_json_with to_dict.
Definition from_json `{Pydantic} : string → outcome value := from_json_with from_dict.
Definition to_str `{Pydantic} : value → outcome string := to_str_with schema.
End IoK8sApiCoreV1PodSchedulingGroup.
#[export] Instance IoK8sApiCoreV1PodSchedulingGroup_templated `{PydanticLaws} :
  Templated IoK8sApiCoreV1PodSchedulingGroup.schema IoK8sApiCoreV1PodSchedulingGroup.to_dict
    IoK8sApiCoreV1PodSchedulingGroup.from_dict.
Proof. solve_model. Qed.

Module IoK8sApiCoreV1Sysctl.
Definition schema `{Pydantic} : Schema := model "IoK8sApiCoreV1Sysctl" [
  req "name" "name" StrictStr;
  req "value" "value" StrictStr].
Definition to_dict `{Pydantic} : value → outcome value := to_dict_with schema [].
Definition from_dict `{Pydantic} : value → outcome value := from_dict_with schema [
  GetOr "name" (VStr "");
  GetOr "value" (VStr "")].
Definition to_json `{Pydantic} : value → outcome string := to_json_with to_dict.
Definition from_json `{Pydantic} : string → outcome value := from_json_with from_dict.
Definition to_str `{Pydantic} : value → outcome string := to_str_with schema.
End IoK8sApiCoreV1Sysctl.
#[export] Instance IoK8sApiCoreV1Sysctl_templated `{PydanticLaws} :
  Templated IoK8sApiCoreV1Sysctl.schema IoK8sApiCoreV1Sysctl.to_dict IoK8sApiCoreV1Sysctl.from_dict.
Proof. solve_model. Qed.

Module IoK8sApiCoreV1PodSecurityContext.
Definition schema `{Pydantic} : Schema := model "IoK8sApiCoreV1PodSecurityContext" [
  opt "app_armor_profile" "appArmorProfile" (Model IoK8sApiCoreV1AppArmorProfile.schema);
  opt "fs_group" "fsGroup" StrictInt;
  checked (opt "fs_group_change_policy" "fsGroupChangePolicy" StrictStr)
    (none_or_one_of ["Always"; "OnRootMismatch"]);
  opt "run_as_group" "runAsGroup" StrictInt;
  opt "run_as_non_root" "runAsNonRoot" StrictBool;
  opt "run_as_user" "runAsUser" StrictInt;
  opt "se_linux_change_policy" "seLinuxChangePolicy" StrictStr;
  opt "se_linux_options" "seLinuxOptions" (Model IoK8sApiCoreV1SELinuxOptions.schema);
  opt "seccomp_profile" "seccompProfile" (Model IoK8sApiCoreV1SeccompProfile.schema);
  opt "supplemental_groups" "supplementalGroups" (List StrictInt);
  checked (opt "supplemental_groups_policy" "supplementalGroupsPolicy" StrictStr)
    (none_or_one_of ["Merge"; "Strict"]);
  opt "sysctls" "sysctls" (List (Model IoK8sApiCoreV1Sysctl.schema));
  opt "windows_options" "windowsOptions"
    (Model IoK8sApiCoreV1WindowsSecurityContextOptions.schema)].
Definition to_dict `{Pydantic} : value → outcome value := to_dict_with schema [
  Dump "app_armor_profile" "appArmorProfile" IoK8sApiCoreV1AppArmorProfile.to_dict;
  Dump "se_linux_options" "seLinuxOptions" IoK8sApiCoreV1SELinuxOptions.to_dict;
  Dump "seccomp_profile" "seccompProfile" IoK8sApiCoreV1SeccompProfile.to_dict;
  DumpItems "sysctls" "sysctls" IoK8sApiCoreV1Sysctl.to_dict;
  Dump "windows_options" "windowsOptions" IoK8sApiCoreV1WindowsSecurityContextOptions.to_dict].
Definition from_dict `{Pydantic} : value → outcome value := from_dict_with schema [
  FromDict "appArmorProfile" IoK8sApiCoreV1AppArmorProfile.from_dict;
  Get "fsGroup";
  Get "fsGroupChangePolicy";
  Get "runAsGroup";
  Get "runAsNonRoot";
  Get "runAsUser";
  Get "seLinuxChangePolicy";
  FromDict "seLinuxOptions" IoK8sApiCoreV1SELinuxOptions.from_dict;
  FromDict "seccompProfile" IoK8sApiCoreV1SeccompProfile.from_dict;
  Get "supplementalGroups";
  Get "supplementalGroupsPolicy";
  FromDictItems "sysctls" IoK8sApiCoreV1Sysctl.from_dict;
  FromDict "windowsOptions" IoK8sApiCoreV1WindowsSecurityContextOptions.from_dict].
Definition to_json `{Pydantic} : value → outcome string := to_json_with to_dict.
Definition from_json `{Pydantic} : string → outcome value := from_json_with from_dict.
Definition to_str `{Pydantic} : value → outcome string := to_str_with schema.
End IoK8sApiCoreV1PodSecurityContext.
#[export] Instance IoK8sApiCoreV1PodSecurityContext_templated `{PydanticLaws} :
  Templated IoK8sApiCoreV1PodSecurityContext.schema IoK8sApiCoreV1PodSecurityContext.to_dict
    IoK8sApiCoreV1PodSecurityContext.from_dict.
Proof. solve_model. Qed.

Module IoK8sApiCoreV1Toleration.
Definition schema `{Pydantic} : Schema := model "IoK8sApiCoreV1Toleration" [
  checked (opt "effect" "effect" StrictStr)
    (none_or_one_of ["NoExecute"; "NoSchedule"; "PreferNoSchedule"]);
  opt "key" "key" StrictStr;
  checked (opt "operator" "operator" StrictStr)
    (none_or_one_of ["Equal"; "Exists"; "Gt"; "Lt"]);
  opt "toleration_seconds" "tolerationSeconds" StrictInt;
  opt "value" "value" StrictStr].
Definition to_dict `{Pydantic} : value → outcome value := to_dict_with schema [].
Definition from_dict `{Pydantic} : value → outcome value := from_dict_with schema [
  Get "effect";
  Get "key";
  Get "operator";
  Get "tolerationSeconds";
  Get "value"].
Definition to_json `{Pydantic} : value → outcome string := to_json_with to_dict.
Definition from_json `{Pydantic} : string → outcome value := from_json_with from_dict.
Definition to_str `{Pydantic} : value → outcome string := to_str_with schema.
End IoK8sApiCoreV1Toleration.
#[export] Instance IoK8sApiCoreV1Toleration_templated `{PydanticLaws} :
  Templated IoK8sApiCoreV1Toleration.schema IoK8sApiCoreV1Toleration.to_dict
    IoK8sApiCoreV1Toleration.from_dict.
Proof. solve_model. Qed.

Module IoK8sApiCoreV1TopologySpreadConstraint.
Definition schema `{Pydantic} : Schema := model "IoK8sApiCoreV1TopologySpreadConstraint" [
  opt "label_selector" "labelSelector" (Model IoK8sApimachineryPkgApisMetaV1LabelSelector.schema);
  opt "match_label_keys" "matchLabelKeys" (List StrictStr);
  req "max_skew" "maxSkew" StrictInt;
  opt "min_domains" "minDomains" StrictInt;
  checked (opt "node_affinity_policy" "nodeAffinityPolicy" StrictStr)
    (none_or_one_of ["Honor"; "Ignore"]);
  checked (opt "node_taints_policy" "nodeTaintsPolicy" StrictStr)
    (none_or_one_of ["Honor"; "Ignore"]);
  req "topology_key" "topologyKey" StrictStr;
  checked (req "when_unsatisfiable" "whenUnsatisfiable" StrictStr)
    (one_of ["DoNotSchedule"; "ScheduleAnyway"])].
Definition to_dict `{Pydantic} : value → outcome value := to_dict_with schema [
  Dump "label_selector" "labelSelector" IoK8sApimachineryPkgApisMetaV1LabelSelector.to_dict].
Definition from_dict `{Pydantic} : value → outcome value := from_dict_with schema [
  FromDict "labelSelector" IoK8sApimachineryPkgApisMetaV1LabelSelector.from_dict;
  Get "matchLabelKeys";
  GetOr "maxSkew" (VInt 0);
  Get "minDomains";
  Get "nodeAffinityPolicy";
  Get "nodeTaintsPolicy";
  GetOr "topologyKey" (VStr "");
  Get "whenUnsatisfiable"].
Definition to_json `{Pydantic} : value → outcome string := to_json_with to_dict.
Definition from_json `{Pydantic} : string → outcome value := from_json_with from_dict.
Definition to_str `{Pydantic} : value → outcome string := to_str_with schema.
End IoK8sApiCoreV1TopologySpreadConstraint.
#[export] Instance IoK8sApiCoreV1TopologySpreadConstraint_templated `{PydanticLaws} :
  Templated IoK8sApiCoreV1TopologySpreadConstraint.schema
    IoK8sApiCoreV1TopologySpreadConstraint.to_dict IoK8sApiCoreV1TopologySpreadConstraint.from_dict.
Proof. solve_model. Qed.

Module IoK8sApiCoreV1AWSElasticBlockStoreVolumeSource.
Definition schema `{Pydantic} : Schema := model "IoK8sApiCoreV1AWSElasticBlockStoreVolumeSource" [
  opt "fs_type" "fsType" StrictStr;
  opt "partition" "partition" StrictInt;
  opt "read_only" "readOnly" StrictBool;
  req "volume_id" "volumeID" StrictStr].
Definition to_dict `{Pydantic} : value → outcome value := to_dict_with schema [].
Definition from_dict `{Pydantic} : value → outcome value := from_dict_with schema [
  Get "fsType";
  Get "partition";
  Get "readOnly";
  GetOr "volumeID" (VStr "")].
Definition to_json `{Pydantic} : value → outcome string := to_json_with to_dict.
Definition from_json `{Pydantic} : string → outcome value := from_json_with from_dict.
Definition to_str `{Pydantic} : value → outcome string := to_str_with schema.
End IoK8sApiCoreV1AWSElasticBlockStoreVolumeSource.
#[export] Instance IoK8sApiCoreV1AWSElasticBlockStoreVolumeSource_templated `{PydanticLaws} :
  Templated IoK8sApiCoreV1AWSElasticBlockStoreVolumeSource.schema
    IoK8sApiCoreV1AWSElasticBlockStoreVolumeSource.to_dict
      IoK8sApiCoreV1AWSElasticBlockStoreVolumeSource.from_dict.
Proof. solve_model. Qed.

Module IoK8sApiCoreV1AzureDiskVolumeSource.
Definition schema `{Pydantic} : Schema := model "IoK8sApiCoreV1AzureDiskVolumeSource" [
  checked (opt_or "caching_mode" "cachingMode" StrictStr (VStr "ReadWrite"))
    (none_or_one_of ["None"; "ReadOnly"; "ReadWrite"]);
  req "disk_name" "diskName" StrictStr;
  req "disk_uri" "diskURI" StrictStr;
  opt_or "fs_type" "fsType" StrictStr (VStr "ext4");
  checked (opt_or "kind" "kind" StrictStr (VStr "Shared"))
    (none_or_one_of ["Dedicated"; "Managed"; "Shared"]);
  opt_or "read_only" "readOnly" StrictBool (VBool false)].
Definition to_dict `{Pydantic} : value → outcome value := to_dict_with schema [].
Definition from_dict `{Pydantic} : value → outcome value := from_dict_with schema [
  GetOr "cachingMode" (VStr "ReadWrite");
  GetOr "diskName" (VStr "");
  GetOr "diskURI" (VStr "");
  GetOr "fsType" (VStr "ext4");
  GetOr "kind" (VStr "Shared");
  GetOr "readOnly" (VBool false)].
Definition to_json `{Pydantic} : value → outcome string := to_json_with to_dict.
Definition from_json `{Pydantic} : string → outcome value := from_json_with from_dict.
Definition to_str `{Pydantic} : value → outcome string := to_str_with schema.
End IoK8sApiCoreV1AzureDiskVolumeSource.
#[export] Instance IoK8sApiCoreV1AzureDiskVolumeSource_templated `{PydanticLaws} :
  Templated IoK8sApiCoreV1AzureDiskVolumeSource.schema IoK8sApiCoreV1AzureDiskVolumeSource.to_dict
    IoK8sApiCoreV1AzureDiskVolumeSource.from_dict.
Proof. solve_model. Qed.

Module IoK8sApiCoreV1AzureFileVolumeSource.
Definition schema `{Pydantic} : Schema := model "IoK8sApiCoreV1AzureFileVolumeSource" [
  opt "read_only" "readOnly" StrictBool;
  req "secret_name" "secretName" StrictStr;
  req "share_name" "shareName" StrictStr].
Definition to_dict `{Pydantic} : value → outcome value := to_dict_with schema [].
Definition from_dict `{Pydantic} : value → outcome value := from_dict_with schema [
  Get "readOnly";
  GetOr "secretName" (VStr "");
  GetOr "shareName" (VStr "")].
Definition to_json `{Pydantic} : value → outcome string := to_json_with to_dict.
Definition from_json `{Pydantic} : string → outcome value := from_json_with from_dict.
Definition to_str `{Pydantic} : value → outcome string := to_str_with schema.
End IoK8sApiCoreV1AzureFileVolumeSource.
#[export] Instance IoK8sApiCoreV1AzureFileVolumeSource_templated `{PydanticLaws} :
  Templated IoK8sApiCoreV1AzureFileVolumeSource.schema IoK8sApiCoreV1AzureFileVolumeSource.to_dict
    IoK8sApiCoreV1AzureFileVolumeSource.from_dict.
Proof. solve_model. Qed.

Module IoK8sApiCoreV1CephFSVolumeSource.
Definition schema `{Pydantic} : Schema := model "IoK8sApiCoreV1CephFSVolumeSource" [
  req "monitors" "monitors" (List StrictStr);
  opt "path" "path" StrictStr;
  opt "read_only" "readOnly" StrictBool;
  opt "secret_file" "secretFile" StrictStr;
  opt "secret_ref" "secretRef" (Model IoK8sApiCoreV1LocalObjectReference.schema);
  opt "user" "user" StrictStr].
Definition to_dict `{Pydantic} : value → outcome value := to_dict_with schema [
  Dump "secret_ref" "secretRef" IoK8sApiCoreV1LocalObjectReference.to_dict].
Definition from_dict `{Pydantic} : value → outcome value := from_dict_with schema [
  Get "monitors";
  Get "path";
  Get "readOnly";
  Get "secretFile";
  FromDict "secretRef" IoK8sApiCoreV1LocalObjectReference.from_dict;
  Get "user"].
Definition to_json `{Pydantic} : value → outcome string := to_json_with to_dict.
Definition from_json `{Pydantic} : string → outcome value := from_json_with from_dict.
Definition to_str `{Pydantic} : value → outcome string := to_str_with schema.
End IoK8sApiCoreV1CephFSVolumeSource.
#[export] Instance IoK8sApiCoreV1CephFSVolumeSource_templated `{PydanticLaws} :
  Templated IoK8sApiCoreV1CephFSVolumeSource.schema IoK8sApiCoreV1CephFSVolumeSource.to_dict
    IoK8sApiCoreV1CephFSVolumeSource.from_dict.
Proof. solve_model. Qed.

Module IoK8sApiCoreV1CinderVolumeSource.
Definition schema `{Pydantic} : Schema := model "IoK8sApiCoreV1CinderVolumeSource" [
  opt "fs_type" "fsType" StrictStr;
  opt "read_only" "readOnly" StrictBool;
  opt "secret_ref" "secretRef" (Model IoK8sApiCoreV1LocalObjectReference.schema);
  req "volume_id" "volumeID" StrictStr].
Definition to_dict `{Pydantic} : value → outcome value := to_dict_with schema [
  Dump "secret_ref" "secretRef" IoK8sApiCoreV1LocalObjectReference.to_dict].
Definition from_dict `{Pydantic} : value → outcome value := from_dict_with schema [
  Get "fsType";
  Get "readOnly";
  FromDict "secretRef" IoK8sApiCoreV1LocalObjectReference.from_dict;
  GetOr "volumeID" (VStr "")].
Definition to_json `{Pydantic} : value → outcome string := to_json_with to_dict.
Definition from_json `{Pydantic} : string → outcome value := from_json_with from_dict.
Definition to_str `{Pydantic} : value → outcome string := to_str_with schema.
End IoK8sApiCoreV1CinderVolumeSource.
#[export] Instance IoK8sApiCoreV1CinderVolumeSource_templated `{PydanticLaws} :
  Templated IoK8sApiCoreV1CinderVolumeSource.schema IoK8sApiCoreV1CinderVolumeSource.to_dict
    IoK8sApiCoreV1CinderVolumeSource.from_dict.
Proof. solve_model. Qed.

Module IoK8sApiCoreV1KeyToPath.
Definition schema `{Pydantic} : Schema := model "IoK8sApiCoreV1KeyToPath" [
  req "key" "key" StrictStr;
  opt "mode" "mode" StrictInt;
  req "path" "path" StrictStr;
  opt "user" "user" StrictInt].
Definition to_dict `{Pydantic} : value → outcome value := to_dict_with schema [].
Definition from_dict `{Pydantic} : value → outcome value := from_dict_with schema [
  GetOr "key" (VStr "");
  Get "mode";
  GetOr "path" (VStr "");
  Get "user"].
Definition to_json `{Pydantic} : value → outcome string := to_json_with to_dict.
Definition from_json `{Pydantic} : string → outcome value := from_json_with from_dict.
Definition to_str `{Pydantic} : value → outcome string := to_str_with schema.
End IoK8sApiCoreV1KeyToPath.
#[export] Instance IoK8sApiCoreV1KeyToPath_templated `{PydanticLaws} :
  Templated IoK8sApiCoreV1KeyToPath.schema IoK8sApiCoreV1KeyToPath.to_dict
    IoK8sApiCoreV1KeyToPath.from_dict.
Proof. solve_model. Qed.

Module IoK8sApiCoreV1ConfigMapVolumeSource.
Definition schema `{Pydantic} : Schema := model "IoK8sApiCoreV1ConfigMapVolumeSource" [
  opt "default_mode" "defaultMode" StrictInt;
  opt "default_user" "defaultUser" StrictInt;
  opt "items" "items" (List (Model IoK8sApiCoreV1KeyToPath.schema));
  opt_or "name" "name" StrictStr (VStr "");
  opt "optional" "optional" StrictBool].
Definition to_dict `{Pydantic} : value → outcome value := to_dict_with schema [
  DumpItems "items" "items" IoK8sApiCoreV1KeyToPath.to_dict].
Definition from_dict `{Pydantic} : value → outcome value := from_dict_with schema [
  Get "defaultMode";
  Get "defaultUser";
  FromDictItems "items" IoK8sApiCoreV1KeyToPath.from_dict;
  GetOr "name" (VStr "");
  Get "optional"].
Definition to_json `{Pydantic} : value → outcome string := to_json_with to_dict.
Definition from_json `{Pydantic} : string → outcome value := from_json_with from_dict.
Definition to_str `{Pydantic} : value → outcome string := to_str_with schema.
End IoK8sApiCoreV1ConfigMapVolumeSource.
#[export] Instance IoK8sApiCoreV1ConfigMapVolumeSource_templated `{PydanticLaws} :
  Templated IoK8sApiCoreV1ConfigMapVolumeSource.schema IoK8sApiCoreV1ConfigMapVolumeSource.to_dict
    IoK8sApiCoreV1ConfigMapVolumeSource.from_dict.
Proof. solve_model. Qed.

Module IoK8sApiCoreV1CSIVolumeSource.
Definition schema `{Pydantic} : Schema := model "IoK8sApiCoreV1CSIVolumeSource" [
  req "driver" "driver" StrictStr;
  opt "fs_type" "fsType" StrictStr;
  opt "node_publish_secret_ref" "nodePublishSecretRef"
    (Model IoK8sApiCoreV1LocalObjectReference.schema);
  opt "read_only" "readOnly" StrictBool;
  opt "volume_attributes" "volumeAttributes" (Dict StrictStr)].
Definition to_dict `{Pydantic} : value → outcome value := to_dict_with schema [
  Dump "node_publish_secret_ref" "nodePublishSecretRef" IoK8sApiCoreV1LocalObjectReference.to_dict].
Definition from_dict `{Pydantic} : value → outcome value := from_dict_with schema [
  GetOr "driver" (VStr "");
  Get "fsType";
  FromDict "nodePublishSecretRef" IoK8sApiCoreV1LocalObjectReference.from_dict;
  Get "readOnly";
  Get "volumeAttributes"].
Definition to_json `{Pydantic} : value → outcome string := to_json_with to_dict.
Definition from_json `{Pydantic} : string → outcome value := from_json_with from_dict.
Definition to_str `{Pydantic} : value → outcome string := to_str_with schema.
End IoK8sApiCoreV1CSIVolumeSource.
#[export] Instance IoK8sApiCoreV1CSIVolumeSource_templated `{PydanticLaws} :
  Templated IoK8sApiCoreV1CSIVolumeSource.schema IoK8sApiCoreV1CSIVolumeSource.to_dict
    IoK8sApiCoreV1CSIVolumeSource.from_dict.
Proof. solve_model. Qed.

Module IoK8sApiCoreV1DownwardAPIVolumeFile.
Definition schema `{Pydantic} : Schema := model "IoK8sApiCoreV1DownwardAPIVolumeFile" [
  opt "field_ref" "fieldRef" (Model IoK8sApiCoreV1ObjectFieldSelector.schema);
  opt "mode" "mode" StrictInt;
  req "path" "path" StrictStr;
  opt "resource_field_ref" "resourceFieldRef" (Model IoK8sApiCoreV1ResourceFieldSelector.schema);
  opt "user" "user" StrictInt].
Definition to_dict `{Pydantic} : value → outcome value := to_dict_with schema [
  Dump "field_ref" "fieldRef" IoK8sApiCoreV1ObjectFieldSelector.to_dict;
  Dump "resource_field_ref" "resourceFieldRef" IoK8sApiCoreV1ResourceFieldSelector.to_dict].
Definition from_dict `{Pydantic} : value → outcome value := from_dict_with schema [
  FromDict "fieldRef" IoK8sApiCoreV1ObjectFieldSelector.from_dict;
  Get "mode";
  GetOr "path" (VStr "");
  FromDict "resourceFieldRef" IoK8sApiCoreV1ResourceFieldSelector.from_dict;
  Get "user"].
Definition to_json `{Pydantic} : value → outcome string := to_json_with to_dict.
Definition from_json `{Pydantic} : string → outcome value := from_json_with from_dict.
Definition to_str `{Pydantic} : value → outcome string := to_str_with schema.
End IoK8sApiCoreV1DownwardAPIVolumeFile.
#[export] Instance IoK8sApiCoreV1DownwardAPIVolumeFile_templated `{PydanticLaws} :
  Templated IoK8sApiCoreV1DownwardAPIVolumeFile.schema IoK8sApiCoreV1DownwardAPIVolumeFile.to_dict
    IoK8sApiCoreV1DownwardAPIVolumeFile.from_dict.
Proof. solve_model. Qed.

Module IoK8sApiCoreV1DownwardAPIVolumeSource.
Definition schema `{Pydantic} : Schema := model "IoK8sApiCoreV1DownwardAPIVolumeSource" [
  opt "default_mode" "defaultMode" StrictInt;
  opt "default_user" "defaultUser" StrictInt;
  opt "items" "items" (List (Model IoK8sApiCoreV1DownwardAPIVolumeFile.schema))].
Definition to_dict `{Pydantic} : value → outcome value := to_dict_with schema [
  DumpItems "items" "items" IoK8sApiCoreV1DownwardAPIVolumeFile.to_dict].
Definition from_dict `{Pydantic} : value → outcome value := from_dict_with schema [
  Get "defaultMode";
  Get "defaultUser";
  FromDictItems "items" IoK8sApiCoreV1DownwardAPIVolumeFile.from_dict].
Definition to_json `{Pydantic} : value → outcome string := to_json_with to_dict.
Definition from_json `{Pydantic} : string → outcome value := from_json_with from_dict.
Definition to_str `{Pydantic} : value → outcome string := to_str_with schema.
End IoK8sApiCoreV1DownwardAPIVolumeSource.
#[export] Instance IoK8sApiCoreV1DownwardAPIVolumeSource_templated `{PydanticLaws} :
  Templated IoK8sApiCoreV1DownwardAPIVolumeSource.schema
    IoK8sApiCoreV1DownwardAPIVolumeSource.to_dict IoK8sApiCoreV1DownwardAPIVolumeSource.from_dict.
Proof. solve_model. Qed.

Module IoK8sApiCoreV1EmptyDirVolumeSource.
Definition schema `{Pydantic} : Schema := model "IoK8sApiCoreV1EmptyDirVolumeSource" [
  opt "medium" "medium" StrictStr;
  opt "mode" "mode" StrictInt;
  opt "size_limit" "sizeLimit" (Model IoK8sApimachineryPkgApiResourceQuantity.schema)].
Definition to_dict `{Pydantic} : value → outcome value := to_dict_with schema [
  Dump "size_limit" "sizeLimit" IoK8sApimachineryPkgApiResourceQuantity.to_dict].
Definition from_dict `{Pydantic} : value → outcome value := from_dict_with schema [
  Get "medium";
  Get "mode";
  FromDict "sizeLimit" IoK8sApimachineryPkgApiResourceQuantity.from_dict].
Definition to_json `{Pydantic} : value → outcome string := to_json_with to_dict.
Definition from_json `{Pydantic} : string → outcome value := from_json_with from_dict.
Definition to_str `{Pydantic} : value → outcome string := to_str_with schema.
End IoK8sApiCoreV1EmptyDirVolumeSource.
#[export] Instance IoK8sApiCoreV1EmptyDirVolumeSource_templated `{PydanticLaws} :
  Templated IoK8sApiCoreV1EmptyDirVolumeSource.schema IoK8sApiCoreV1EmptyDirVolumeSource.to_dict
    IoK8sApiCoreV1EmptyDirVolumeSource.from_dict.
Proof. solve_model. Qed.

Module IoK8sApiCoreV1TypedLocalObjectReference.
Definition schema `{Pydantic} : Schema := model "IoK8sApiCoreV1TypedLocalObjectReference" [
  opt "api_group" "apiGroup" StrictStr;
  req "kind" "kind" StrictStr;
  req "name" "name" StrictStr].
Definition to_dict `{Pydantic} : value → outcome value := to_dict_with schema [].
Definition from_dict `{Pydantic} : value → outcome value := from_dict_with schema [
  Get "apiGroup";
  GetOr "kind" (VStr "");
  GetOr "name" (VStr "")].
Definition to_json `{Pydantic} : value → outcome string := to_json_with to_dict.
Definition from_json `{Pydantic} : string → outcome value := from_json_with from_dict.
Definition to_str `{Pydantic} : value → outcome string := to_str_with schema.
End IoK8sApiCoreV1TypedLocalObjectReference.
#[export] Instance IoK8sApiCoreV1TypedLocalObjectReference_templated `{PydanticLaws} :
  Templated IoK8sApiCoreV1TypedLocalObjectReference.schema
    IoK8sApiCoreV1TypedLocalObjectReference.to_dict
      IoK8sApiCoreV1TypedLocalObjectReference.from_dict.
Proof. solve_model. Qed.

Module IoK8sApiCoreV1TypedObjectReference.
Definition schema `{Pydantic} : Schema := model "IoK8sApiCoreV1TypedObjectReference" [
  opt "api_group" "apiGroup" StrictStr;
  req "kind" "kind" StrictStr;
  req "name" "name" StrictStr;
  opt "namespace" "namespace" StrictStr].
Definition to_dict `{Pydantic} : value → outcome value := to_dict_with schema [].
Definition from_dict `{Pydantic} : value → outcome value := from_dict_with schema [
  Get "apiGroup";
  GetOr "kind" (VStr "");
  GetOr "name" (VStr "");
  Get "namespace"].
Definition to_json `{Pydantic} : value → outcome string := to_json_with to_dict.
Definition from_json `{Pydantic} : string → outcome value := from_json_with from_dict.
Definition to_str `{Pydantic} : value → outcome string := to_str_with schema.
End IoK8sApiCoreV1TypedObjectReference.
#[export] Instance IoK8sApiCoreV1TypedObjectReference_templated `{PydanticLaws} :
  Templated IoK8sApiCoreV1TypedObjectReference.schema IoK8sApiCoreV1TypedObjectReference.to_dict
    IoK8sApiCoreV1TypedObjectReference.from_dict.
Proof. solve_model. Qed.

Module IoK8sApiCoreV1VolumeResourceRequirements.
Definition schema `{Pydantic} : Schema := model "IoK8sApiCoreV1VolumeResourceRequirements" [
  opt "limits" "limits" (Dict (Model IoK8sApimachineryPkgApiResourceQuantity.schema));
  opt "requests" "requests" (Dict (Model IoK8sApimachineryPkgApiResourceQuantity.schema))].
Definition to_dict `{Pydantic} : value → outcome value := to_dict_with schema [
  DumpValues "limits" "limits" IoK8sApimachineryPkgApiResourceQuantity.to_dict;
  DumpValues "requests" "requests" IoK8sApimachineryPkgApiResourceQuantity.to_dict].
Definition from_dict `{Pydantic} : value → outcome value := from_dict_with schema [
  FromDictValues "limits" IoK8sApimachineryPkgApiResourceQuantity.from_dict;
  FromDictValues "requests" IoK8sApimachineryPkgApiResourceQuantity.from_dict].
Definition to_json `{Pydantic} : value → outcome string := to_json_with to_dict.
Definition from_json `{Pydantic} : string → outcome value := from_json_with from_dict.
Definition to_str `{Pydantic} : value → outcome string := to_str_with schema.
End IoK8sApiCoreV1VolumeResourceRequirements.
#[export] Instance IoK8sApiCoreV1VolumeResourceRequirements_templated `{PydanticLaws} :
  Templated IoK8sApiCoreV1VolumeResourceRequirements.schema
    IoK8sApiCoreV1VolumeResourceRequirements.to_dict
      IoK8sApiCoreV1VolumeResourceRequirements.from_dict.
Proof. solve_model. Qed.

Module IoK8sApiCoreV1PersistentVolumeClaimSpec.
Definition schema `{Pydantic} : Schema := model "IoK8sApiCoreV1PersistentVolumeClaimSpec" [
  checked (opt "access_modes" "accessModes" (List StrictStr))
    (none_or_each_of ["ReadOnlyMany"; "ReadWriteMany"; "ReadWriteOnce"; "ReadWriteOncePod"]);
  opt "data_source" "dataSource" (Model IoK8sApiCoreV1TypedLocalObjectReference.schema);
  opt "data_source_ref" "dataSourceRef" (Model IoK8sApiCoreV1TypedObjectReference.schema);
  opt "resources" "resources" (Model IoK8sApiCoreV1VolumeResourceRequirements.schema);
  opt "selector" "selector" (Model IoK8sApimachineryPkgApisMetaV1LabelSelector.schema);
  opt "storage_class_name" "storageClassName" StrictStr;
  opt "volume_attributes_class_name" "volumeAttributesClassName" StrictStr;
  checked (opt "volume_mode" "volumeMode" StrictStr)
    (none_or_one_of ["Block"; "Filesystem"]);
  opt "volume_name" "volumeName" StrictStr].
Definition to_dict `{Pydantic} : value → outcome value := to_dict_with schema [
  Dump "data_source" "dataSource" IoK8sApiCoreV1TypedLocalObjectReference.to_dict;
  Dump "data_source_ref" "dataSourceRef" IoK8sApiCoreV1TypedObjectReference.to_dict;
  Dump "resources" "resources" IoK8sApiCoreV1VolumeResourceRequirements.to_dict;
  Dump "selector" "selector" IoK8sApimachineryPkgApisMetaV1LabelSelector.to_dict].
Definition from_dict `{Pydantic} : value → outcome value := from_dict_with schema [
  Get "accessModes";
  FromDict "dataSource" IoK8sApiCoreV1TypedLocalObjectReference.from_dict;
  FromDict "dataSourceRef" IoK8sApiCoreV1TypedObjectReference.from_dict;
  FromDict "resources" IoK8sApiCoreV1VolumeResourceRequirements.from_dict;
  FromDict "selector" IoK8sApimachineryPkgApisMetaV1LabelSelector.from_dict;
  Get "storageClassName";
  Get "volumeAttributesClassName";
  Get "volumeMode";
  Get "volumeName"].
Definition to_json `{Pydantic} : value → outcome string := to_json_with to_dict.
Definition from_json `{Pydantic} : string → outcome value := from_json_with from_dict.
Definition to_str `{Pydantic} : value → outcome string := to_str_with schema.
End IoK8sApiCoreV1PersistentVolumeClaimSpec.
#[export] Instance IoK8sApiCoreV1PersistentVolumeClaimSpec_templated `{PydanticLaws} :
  Templated IoK8sApiCoreV1PersistentVolumeClaimSpec.schema
    IoK8sApiCoreV1PersistentVolumeClaimSpec.to_dict
      IoK8sApiCoreV1PersistentVolumeClaimSpec.from_dict.
Proof. solve_model. Qed.

Module IoK8sApiCoreV1PersistentVolumeClaimTemplate.
Definition schema `{Pydantic} : Schema := model "IoK8sApiCoreV1PersistentVolumeClaimTemplate" [
  opt "metadata" "metadata" (Model IoK8sApimachineryPkgApisMetaV1ObjectMeta.schema);
  req "spec" "spec" (Model IoK8sApiCoreV1PersistentVolumeClaimSpec.schema)].
Definition to_dict `{Pydantic} : value → outcome value := to_dict_with schema [
  Dump "metadata" "metadata" IoK8sApimachineryPkgApisMetaV1ObjectMeta.to_dict;
  Dump "spec" "spec" IoK8sApiCoreV1PersistentVolumeClaimSpec.to_dict].
Definition from_dict `{Pydantic} : value → outcome value := from_dict_with schema [
  FromDict "metadata" IoK8sApimachineryPkgApisMetaV1ObjectMeta.from_dict;
  FromDict "spec" IoK8sApiCoreV1PersistentVolumeClaimSpec.from_dict].
Definition to_json `{Pydantic} : value → outcome string := to_json_with to_dict.
Definition from_json `{Pydantic} : string → outcome value := from_json_with from_dict.
Definition to_str `{Pydantic} : value → outcome string := to_str_with schema.
End IoK8sApiCoreV1PersistentVolumeClaimTemplate.
#[export] Instance IoK8sApiCoreV1PersistentVolumeClaimTemplate_templated `{PydanticLaws} :
  Templated IoK8sApiCoreV1PersistentVolumeClaimTemplate.schema
    IoK8sApiCoreV1PersistentVolumeClaimTemplate.to_dict
      IoK8sApiCoreV1PersistentVolumeClaimTemplate.from_dict.
Proof. solve_model. Qed.

Module IoK8sApiCoreV1EphemeralVolumeSource.
Definition schema `{Pydantic} : Schema := model "IoK8sApiCoreV1EphemeralVolumeSource" [
  opt "volume_claim_template" "volumeClaimTemplate"
    (Model IoK8sApiCoreV1PersistentVolumeClaimTemplate.schema)].
Definition to_dict `{Pydantic} : value → outcome value := to_dict_with schema [
  Dump "volume_claim_template" "volumeClaimTemplate"
    IoK8sApiCoreV1PersistentVolumeClaimTemplate.to_dict].
Definition from_dict `{Pydantic} : value → outcome value := from_dict_with schema [
  FromDict "volumeClaimTemplate" IoK8sApiCoreV1PersistentVolumeClaimTemplate.from_dict].
Definition to_json `{Pydantic} : value → outcome string := to_json_with to_dict.
Definition from_json `{Pydantic} : string → outcome value := from_json_with from_dict.
Definition to_str `{Pydantic} : value → outcome string := to_str_with schema.
End IoK8sApiCoreV1EphemeralVolumeSource.
#[export] Instance IoK8sApiCoreV1EphemeralVolumeSource_templated `{PydanticLaws} :
  Templated IoK8sApiCoreV1EphemeralVolumeSource.schema IoK8sApiCoreV1EphemeralVolumeSource.to_dict
    IoK8sApiCoreV1EphemeralVolumeSource.from_dict.
Proof. solve_model. Qed.

Module IoK8sApiCoreV1FCVolumeSource.
Definition schema `{Pydantic} : Schema := model "IoK8sApiCoreV1FCVolumeSource" [
  opt "fs_type" "fsType" StrictStr;
  opt "lun" "lun" StrictInt;
  opt "read_only" "readOnly" StrictBool;
  opt "target_wwns" "targetWWNs" (List StrictStr);
  opt "wwids" "wwids" (List StrictStr)].
Definition to_dict `{Pydantic} : value → outcome value := to_dict_with schema [].
Definition from_dict `{Pydantic} : value → outcome value := from_dict_with schema [
  Get "fsType";
  Get "lun";
  Get "readOnly";
  Get "targetWWNs";
  Get "wwids"].
Definition to_json `{Pydantic} : value → outcome string := to_json_with to_dict.
Definition from_json `{Pydantic} : string → outcome value := from_json_with from_dict.
Definition to_str `{Pydantic} : value → outcome string := to_str_with schema.
End IoK8sApiCoreV1FCVolumeSource.
#[export] Instance IoK8sApiCoreV1FCVolumeSource_templated `{PydanticLaws} :
  Templated IoK8sApiCoreV1FCVolumeSource.schema IoK8sApiCoreV1FCVolumeSource.to_dict
    IoK8sApiCoreV1FCVolumeSource.from_dict.
Proof. solve_model. Qed.

Module IoK8sApiCoreV1FlexVolumeSource.
Definition schema `{Pydantic} : Schema := model "IoK8sApiCoreV1FlexVolumeSource" [
  req "driver" "driver" StrictStr;
  opt "fs_type" "fsType" StrictStr;
  opt "options" "options" (Dict StrictStr);
  opt "read_only" "readOnly" StrictBool;
  opt "secret_ref" "secretRef" (Model IoK8sApiCoreV1LocalObjectReference.schema)].
Definition to_dict `{Pydantic} : value → outcome value := to_dict_with schema [
  Dump "secret_ref" "secretRef" IoK8sApiCoreV1LocalObjectReference.to_dict].
Definition from_dict `{Pydantic} : value → outcome value := from_dict_with schema [
  GetOr "driver" (VStr "");
  Get "fsType";
  Get "options";
  Get "readOnly";
  FromDict "secretRef" IoK8sApiCoreV1LocalObjectReference.from_dict].
Definition to_json `{Pydantic} : value → outcome string := to_json_with to_dict.
Definition from_json `{Pydantic} : string → outcome value := from_json_with from_dict.
Definition to_str `{Pydantic} : value → outcome string := to_str_with schema.
End IoK8sApiCoreV1FlexVolumeSource.
#[export] Instance IoK8sApiCoreV1FlexVolumeSource_templated `{PydanticLaws} :
  Templated IoK8sApiCoreV1FlexVolumeSource.schema IoK8sApiCoreV1FlexVolumeSource.to_dict
    IoK8sApiCoreV1FlexVolumeSource.from_dict.
Proof. solve_model. Qed.

Module IoK8sApiCoreV1FlockerVolumeSource.
Definition schema `{Pydantic} : Schema := model "IoK8sApiCoreV1FlockerVolumeSource" [
  opt "dataset_name" "datasetName" StrictStr;
  opt "dataset_uuid" "datasetUUID" StrictStr].
Definition to_dict `{Pydantic} : value → outcome value := to_dict_with schema [].
Definition from_dict `{Pydantic} : value → outcome value := from_dict_with schema [
  Get "datasetName";
  Get "datasetUUID"].
Definition to_json `{Pydantic} : value → outcome string := to_json_with to_dict.
Definition from_json `{Pydantic} : string → outcome value := from_json_with from_dict.
Definition to_str `{Pydantic} : value → outcome string := to_str_with schema.
End IoK8sApiCoreV1FlockerVolumeSource.
#[export] Instance IoK8sApiCoreV1FlockerVolumeSource_templated `{PydanticLaws} :
  Templated IoK8sApiCoreV1FlockerVolumeSource.schema IoK8sApiCoreV1FlockerVolumeSource.to_dict
    IoK8sApiCoreV1FlockerVolumeSource.from_dict.
Proof. solve_model. Qed.

Module IoK8sApiCoreV1GCEPersistentDiskVolumeSource.
Definition schema `{Pydantic} : Schema := model "IoK8sApiCoreV1GCEPersistentDiskVolumeSource" [
  opt "fs_type" "fsType" StrictStr;
  opt "partition" "partition" StrictInt;
  req "pd_name" "pdName" StrictStr;
  opt "read_only" "readOnly" StrictBool].
Definition to_dict `{Pydantic} : value → outcome value := to_dict_with schema [].
Definition from_dict `{Pydantic} : value → outcome value := from_dict_with schema [
  Get "fsType";
  Get "partition";
  GetOr "pdName" (VStr "");
  Get "readOnly"].
Definition to_json `{Pydantic} : value → outcome string := to_json_with to_dict.
Definition from_json `{Pydantic} : string → outcome value := from_json_with from_dict.
Definition to_str `{Pydantic} : value → outcome string := to_str_with schema.
End IoK8sApiCoreV1GCEPersistentDiskVolumeSource.
#[export] Instance IoK8sApiCoreV1GCEPersistentDiskVolumeSource_templated `{PydanticLaws} :
  Templated IoK8sApiCoreV1GCEPersistentDiskVolumeSource.schema
    IoK8sApiCoreV1GCEPersistentDiskVolumeSource.to_dict
      IoK8sApiCoreV1GCEPersistentDiskVolumeSource.from_dict.
Proof. solve_model. Qed.

Module IoK8sApiCoreV1GitRepoVolumeSource.
Definition schema `{Pydantic} : Schema := model "IoK8sApiCoreV1GitRepoVolumeSource" [
  opt "directory" "directory" StrictStr;
  req "repository" "repository" StrictStr;
  opt "revision" "revision" StrictStr].
Definition to_dict `{Pydantic} : value → outcome value := to_dict_with schema [].
Definition from_dict `{Pydantic} : value → outcome value := from_dict_with schema [
  Get "directory";
  GetOr "repository" (VStr "");
  Get "revision"].
Definition to_json `{Pydantic} : value → outcome string := to_json_with to_dict.
Definition from_json `{Pydantic} : string → outcome value := from_json_with from_dict.
Definition to_str `{Pydantic} : value → outcome string := to_str_with schema.
End IoK8sApiCoreV1GitRepoVolumeSource.
#[export] Instance IoK8sApiCoreV1GitRepoVolumeSource_templated `{PydanticLaws} :
  Templated IoK8sApiCoreV1GitRepoVolumeSource.schema IoK8sApiCoreV1GitRepoVolumeSource.to_dict
    IoK8sApiCoreV1GitRepoVolumeSource.from_dict.
Proof. solve_model. Qed.

Module IoK8sApiCoreV1GlusterfsVolumeSource.
Definition schema `{Pydantic} : Schema := model "IoK8sApiCoreV1GlusterfsVolumeSource" [
  req "endpoints" "endpoints" StrictStr;
  req "path" "path" StrictStr;
  opt "read_only" "readOnly" StrictBool].
Definition to_dict `{Pydantic} : value → outcome value := to_dict_with schema [].
Definition from_dict `{Pydantic} : value → outcome value := from_dict_with schema [
  GetOr "endpoints" (VStr "");
  GetOr "path" (VStr "");
  Get "readOnly"].
Definition to_json `{Pydantic} : value → outcome string := to_json_with to_dict.
Definition from_json `{Pydantic} : string → outcome value := from_json_with from_dict.
Definition to_str `{Pydantic} : value → outcome string := to_str_with schema.
End IoK8sApiCoreV1GlusterfsVolumeSource.
#[export] Instance IoK8sApiCoreV1GlusterfsVolumeSource_templated `{PydanticLaws} :
  Templated IoK8sApiCoreV1GlusterfsVolumeSource.schema IoK8sApiCoreV1GlusterfsVolumeSource.to_dict
    IoK8sApiCoreV1GlusterfsVolumeSource.from_dict.
Proof. solve_model. Qed.

Module IoK8sApiCoreV1HostPathVolumeSource.
Definition schema `{Pydantic} : Schema := model "IoK8sApiCoreV1HostPathVolumeSource" [
  req "path" "path" StrictStr;
  checked (opt "type" "type" StrictStr)
    (none_or_one_of [""; "BlockDevice"; "CharDevice"; "Directory"; "DirectoryOrCreate"; "File";
      "FileOrCreate"; "Socket"])].
Definition to_dict `{Pydantic} : value → outcome value := to_dict_with schema [].
Definition from_dict `{Pydantic} : value → outcome value := from_dict_with schema [
  GetOr "path" (VStr "");
  Get "type"].
Definition to_json `{Pydantic} : value → outcome string := to_json_with to_dict.
Definition from_json `{Pydantic} : string → outcome value := from_json_with from_dict.
Definition to_str `{Pydantic} : value → outcome string := to_str_with schema.
End IoK8sApiCoreV1HostPathVolumeSource.
#[export] Instance IoK8sApiCoreV1HostPathVolumeSource_templated `{PydanticLaws} :
  Templated IoK8sApiCoreV1HostPathVolumeSource.schema IoK8sApiCoreV1HostPathVolumeSource.to_dict
    IoK8sApiCoreV1HostPathVolumeSource.from_dict.
Proof. solve_model. Qed.

Module IoK8sApiCoreV1ImageVolumeSource.
Definition schema `{Pydantic} : Schema := model "IoK8sApiCoreV1ImageVolumeSource" [
  checked (opt "pull_policy" "pullPolicy" StrictStr)
    (none_or_one_of ["Always"; "IfNotPresent"; "Never"]);
  opt "reference" "reference" StrictStr].
Definition to_dict `{Pydantic} : value → outcome value := to_dict_with schema [].
Definition from_dict `{Pydantic} : value → outcome value := from_dict_with schema [
  Get "pullPolicy";
  Get "reference"].
Definition to_json `{Pydantic} : value → outcome string := to_json_with to_dict.
Definition from_json `{Pydantic} : string → outcome value := from_json_with from_dict.
Definition to_str `{Pydantic} : value → outcome string := to_str_with schema.
End IoK8sApiCoreV1ImageVolumeSource.
#[export] Instance IoK8sApiCoreV1ImageVolumeSource_templated `{PydanticLaws} :
  Templated IoK8sApiCoreV1ImageVolumeSource.schema IoK8sApiCoreV1ImageVolumeSource.to_dict
    IoK8sApiCoreV1ImageVolumeSource.from_dict.
Proof. solve_model. Qed.

Module IoK8sApiCoreV1ISCSIVolumeSource.
Definition schema `{Pydantic} : Schema := model "IoK8sApiCoreV1ISCSIVolumeSource" [
  opt "chap_auth_discovery" "chapAuthDiscovery" StrictBool;
  opt "chap_auth_session" "chapAuthSession" StrictBool;
  opt "fs_type" "fsType" StrictStr;
  opt "initiator_name" "initiatorName" StrictStr;
  req "iqn" "iqn" StrictStr;
  opt_or "iscsi_interface" "iscsiInterface" StrictStr (VStr "default");
  req "lun" "lun" StrictInt;
  opt "portals" "portals" (List StrictStr);
  opt "read_only" "readOnly" StrictBool;
  opt "secret_ref" "secretRef" (Model IoK8sApiCoreV1LocalObjectReference.schema);
  req "target_portal" "targetPortal" StrictStr].
Definition to_dict `{Pydantic} : value → outcome value := to_dict_with schema [
  Dump "secret_ref" "secretRef" IoK8sApiCoreV1LocalObjectReference.to_dict].
Definition from_dict `{Pydantic} : value → outcome value := from_dict_with schema [
  Get "chapAuthDiscovery";
  Get "chapAuthSession";
  Get "fsType";
  Get "initiatorName";
  GetOr "iqn" (VStr "");
  GetOr "iscsiInterface" (VStr "default");
  GetOr "lun" (VInt 0);
  Get "portals";
  Get "readOnly";
  FromDict "secretRef" IoK8sApiCoreV1LocalObjectReference.from_dict;
  GetOr "targetPortal" (VStr "")].
Definition to_json `{Pydantic} : value → outcome string := to_json_with to_dict.
Definition from_json `{Pydantic} : string → outcome value := from_json_with from_dict.
Definition to_str `{Pydantic} : value → outcome string := to_str_with schema.
End IoK8sApiCoreV1ISCSIVolumeSource.
#[export] Instance IoK8sApiCoreV1ISCSIVolumeSource_templated `{PydanticLaws} :
  Templated IoK8sApiCoreV1ISCSIVolumeSource.schema IoK8sApiCoreV1ISCSIVolumeSource.to_dict
    IoK8sApiCoreV1ISCSIVolumeSource.from_dict.
Proof. solve_model. Qed.

Module IoK8sApiCoreV1NFSVolumeSource.
Definition schema `{Pydantic} : Schema := model "IoK8sApiCoreV1NFSVolumeSource" [
  req "path" "path" StrictStr;
  opt "read_only" "readOnly" StrictBool;
  req "server" "server" StrictStr].
Definition to_dict `{Pydantic} : value → outcome value := to_dict_with schema [].
Definition from_dict `{Pydantic} : value → outcome value := from_dict_with schema [
  GetOr "path" (VStr "");
  Get "readOnly";
  GetOr "server" (VStr "")].
Definition to_json `{Pydantic} : value → outcome string := to_json_with to_dict.
Definition from_json `{Pydantic} : string → outcome value := from_json_with from_dict.
Definition to_str `{Pydantic} : value → outcome string := to_str_with schema.
End IoK8sApiCoreV1NFSVolumeSource.
#[export] Instance IoK8sApiCoreV1NFSVolumeSource_templated `{PydanticLaws} :
  Templated IoK8sApiCoreV1NFSVolumeSource.schema IoK8sApiCoreV1NFSVolumeSource.to_dict
    IoK8sApiCoreV1NFSVolumeSource.from_dict.
Proof. solve_model. Qed.

Module IoK8sApiCoreV1PersistentVolumeClaimVolumeSource.
Definition schema `{Pydantic} : Schema := model "IoK8sApiCoreV1PersistentVolumeClaimVolumeSource" [
  req "claim_name" "claimName" StrictStr;
  opt "read_only" "readOnly" StrictBool].
Definition to_dict `{Pydantic} : value → outcome value := to_dict_with schema [].
Definition from_dict `{Pydantic} : value → outcome value := from_dict_with schema [
  GetOr "claimName" (VStr "");
  Get "readOnly"].
Definition to_json `{Pydantic} : value → outcome string := to_json_with to_dict.
Definition from_json `{Pydantic} : string → outcome value := from_json_with from_dict.
Definition to_str `{Pydantic} : value → outcome string := to_str_with schema.
End IoK8sApiCoreV1PersistentVolumeClaimVolumeSource.
#[export] Instance IoK8sApiCoreV1PersistentVolumeClaimVolumeSource_templated `{PydanticLaws} :
  Templated IoK8sApiCoreV1PersistentVolumeClaimVolumeSource.schema
    IoK8sApiCoreV1PersistentVolumeClaimVolumeSource.to_dict
      IoK8sApiCoreV1PersistentVolumeClaimVolumeSource.from_dict.
Proof. solve_model. Qed.

Module IoK8sApiCoreV1PhotonPersistentDiskVolumeSource.
Definition schema `{Pydantic} : Schema := model "IoK8sApiCoreV1PhotonPersistentDiskVolumeSource" [
  opt "fs_type" "fsType" StrictStr;
  req "pd_id" "pdID" StrictStr].
Definition to_dict `{Pydantic} : value → outcome value := to_dict_with schema [].
Definition from_dict `{Pydantic} : value → outcome value := from_dict_with schema [
  Get "fsType";
  GetOr "pdID" (VStr "")].
Definition to_json `{Pydantic} : value → outcome string := to_json_with to_dict.
Definition from_json `{Pydantic} : string → outcome value := from_json_with from_dict.
Definition to_str `{Pydantic} : value → outcome string := to_str_with schema.
End IoK8sApiCoreV1PhotonPersistentDiskVolumeSource.
#[export] Instance IoK8sApiCoreV1PhotonPersistentDiskVolumeSource_templated `{PydanticLaws} :
  Templated IoK8sApiCoreV1PhotonPersistentDiskVolumeSource.schema
    IoK8sApiCoreV1PhotonPersistentDiskVolumeSource.to_dict
      IoK8sApiCoreV1PhotonPersistentDiskVolumeSource.from_dict.
Proof. solve_model. Qed.

Module IoK8sApiCoreV1PortworxVolumeSource.
Definition schema `{Pydantic} : Schema := model "IoK8sApiCoreV1PortworxVolumeSource" [
  opt "fs_type" "fsType" StrictStr;
  opt "read_only" "readOnly" StrictBool;
  req "volume_id" "volumeID" StrictStr].
Definition to_dict `{Pydantic} : value → outcome value := to_dict_with schema [].
Definition from_dict `{Pydantic} : value → outcome value := from_dict_with schema [
  Get "fsType";
  Get "readOnly";
  GetOr "volumeID" (VStr "")].
Definition to_json `{Pydantic} : value → outcome string := to_json_with to_dict.
Definition from_json `{Pydantic} : string → outcome value := from_json_with from_dict.
Definition to_str `{Pydantic} : value → outcome string := to_str_with schema.
End IoK8sApiCoreV1PortworxVolumeSource.
#[export] Instance IoK8sApiCoreV1PortworxVolumeSource_templated `{PydanticLaws} :
  Templated IoK8sApiCoreV1PortworxVolumeSource.schema IoK8sApiCoreV1PortworxVolumeSource.to_dict
    IoK8sApiCoreV1PortworxVolumeSource.from_dict.
Proof. solve_model. Qed.

Module IoK8sApiCoreV1ClusterTrustBundleProjection.
Definition schema `{Pydantic} : Schema := model "IoK8sApiCoreV1ClusterTrustBundleProjection" [
  opt "label_selector" "labelSelector" (Model IoK8sApimachineryPkgApisMetaV1LabelSelector.schema);
  opt "name" "name" StrictStr;
  opt "optional" "optional" StrictBool;
  req "path" "path" StrictStr;
  opt "signer_name" "signerName" StrictStr;
  opt "user" "user" StrictInt].
Definition to_dict `{Pydantic} : value → outcome value := to_dict_with schema [
  Dump "label_selector" "labelSelector" IoK8sApimachineryPkgApisMetaV1LabelSelector.to_dict].
Definition from_dict `{Pydantic} : value → outcome value := from_dict_with schema [
  FromDict "labelSelector" IoK8sApimachineryPkgApisMetaV1LabelSelector.from_dict;
  Get "name";
  Get "optional";
  GetOr "path" (VStr "");
  Get "signerName";
  Get "user"].
Definition to_json `{Pydantic} : value → outcome string := to_json_with to_dict.
Definition from_json `{Pydantic} : string → outcome value := from_json_with from_dict.
Definition to_str `{Pydantic} : value → outcome string := to_str_with schema.
End IoK8sApiCoreV1ClusterTrustBundleProjection.
#[export] Instance IoK8sApiCoreV1ClusterTrustBundleProjection_templated `{PydanticLaws} :
  Templated IoK8sApiCoreV1ClusterTrustBundleProjection.schema
    IoK8sApiCoreV1ClusterTrustBundleProjection.to_dict
      IoK8sApiCoreV1ClusterTrustBundleProjection.from_dict.
Proof. solve_model. Qed.

Module IoK8sApiCoreV1ConfigMapProjection.
Definition schema `{Pydantic} : Schema := model "IoK8sApiCoreV1ConfigMapProjection" [
  opt "items" "items" (List (Model IoK8sApiCoreV1KeyToPath.schema));
  opt_or "name" "name" StrictStr (VStr "");
  opt "optional" "optional" StrictBool].
Definition to_dict `{Pydantic} : value → outcome value := to_dict_with schema [
  DumpItems "items" "items" IoK8sApiCoreV1KeyToPath.to_dict].
Definition from_dict `{Pydantic} : value → outcome value := from_dict_with schema [
  FromDictItems "items" IoK8sApiCoreV1KeyToPath.from_dict;
  GetOr "name" (VStr "");
  Get "optional"].
Definition to_json `{Pydantic} : value → outcome string := to_json_with to_dict.
Definition from_json `{Pydantic} : string → outcome value := from_json_with from_dict.
Definition to_str `{Pydantic} : value → outcome string := to_str_with schema.
End IoK8sApiCoreV1ConfigMapProjection.
#[export] Instance IoK8sApiCoreV1ConfigMapProjection_templated `{PydanticLaws} :
  Templated IoK8sApiCoreV1ConfigMapProjection.schema IoK8sApiCoreV1ConfigMapProjection.to_dict
    IoK8sApiCoreV1ConfigMapProjection.from_dict.
Proof. solve_model. Qed.

Module IoK8sApiCoreV1DownwardAPIProjection.
Definition schema `{Pydantic} : Schema := model "IoK8sApiCoreV1DownwardAPIProjection" [
  opt "items" "items" (List (Model IoK8sApiCoreV1DownwardAPIVolumeFile.schema))].
Definition to_dict `{Pydantic} : value → outcome value := to_dict_with schema [
  DumpItems "items" "items" IoK8sApiCoreV1DownwardAPIVolumeFile.to_dict].
Definition from_dict `{Pydantic} : value → outcome value := from_dict_with schema [
  FromDictItems "items" IoK8sApiCoreV1DownwardAPIVolumeFile.from_dict].
Definition to_json `{Pydantic} : value → outcome string := to_json_with to_dict.
Definition from_json `{Pydantic} : string → outcome value := from_json_with from_dict.
Definition to_str `{Pydantic} : value → outcome string := to_str_with schema.
End IoK8sApiCoreV1DownwardAPIProjection.
#[export] Instance IoK8sApiCoreV1DownwardAPIProjection_templated `{PydanticLaws} :
  Templated IoK8sApiCoreV1DownwardAPIProjection.schema IoK8sApiCoreV1DownwardAPIProjection.to_dict
    IoK8sApiCoreV1DownwardAPIProjection.from_dict.
Proof. solve_model. Qed.

Module IoK8sApiCoreV1PodCertificateProjection.
Definition schema `{Pydantic} : Schema := model "IoK8sApiCoreV1PodCertificateProjection" [
  opt "certificate_chain_path" "certificateChainPath" StrictStr;
  opt "credential_bundle_path" "credentialBundlePath" StrictStr;
  opt "key_path" "keyPath" StrictStr;
  req "key_type" "keyType" StrictStr;
  opt "max_expiration_seconds" "maxExpirationSeconds" StrictInt;
  req "signer_name" "signerName" StrictStr;
  opt "user" "user" StrictInt;
  opt "user_annotations" "userAnnotations" (Dict StrictStr)].
Definition to_dict `{Pydantic} : value → outcome value := to_dict_with schema [].
Definition from_dict `{Pydantic} : value → outcome value := from_dict_with schema [
  Get "certificateChainPath";
  Get "credentialBundlePath";
  Get "keyPath";
  Get "keyType";
  Get "maxExpirationSeconds";
  Get "signerName";
  Get "user";
  Get "userAnnotations"].
Definition to_json `{Pydantic} : value → outcome string := to_json_with to_dict.
Definition from_json `{Pydantic} : string → outcome value := from_json_with from_dict.
Definition to_str `{Pydantic} : value → outcome string := to_str_with schema.
End IoK8sApiCoreV1PodCertificateProjection.
#[export] Instance IoK8sApiCoreV1PodCertificateProjection_templated `{PydanticLaws} :
  Templated IoK8sApiCoreV1PodCertificateProjection.schema
    IoK8sApiCoreV1PodCertificateProjection.to_dict IoK8sApiCoreV1PodCertificateProjection.from_dict.
Proof. solve_model. Qed.

Module IoK8sApiCoreV1SecretProjection.
Definition schema `{Pydantic} : Schema := model "IoK8sApiCoreV1SecretProjection" [
  opt "items" "items" (List (Model IoK8sApiCoreV1KeyToPath.schema));
  opt_or "name" "name" StrictStr (VStr "");
  opt "optional" "optional" StrictBool].
Definition to_dict `{Pydantic} : value → outcome value := to_dict_with schema [
  DumpItems "items" "items" IoK8sApiCoreV1KeyToPath.to_dict].
Definition from_dict `{Pydantic} : value → outcome value := from_dict_with schema [
  FromDictItems "items" IoK8sApiCoreV1KeyToPath.from_dict;
  GetOr "name" (VStr "");
  Get "optional"].
Definition to_json `{Pydantic} : value → outcome string := to_json_with to_dict.
Definition from_json `{Pydantic} : string → outcome value := from_json_with from_dict.
Definition to_str `{Pydantic} : value → outcome string := to_str_with schema.
End IoK8sApiCoreV1SecretProjection.
#[export] Instance IoK8sApiCoreV1SecretProjection_templated `{PydanticLaws} :
  Templated IoK8sApiCoreV1SecretProjection.schema IoK8sApiCoreV1SecretProjection.to_dict
    IoK8sApiCoreV1SecretProjection.from_dict.
Proof. solve_model. Qed.

Module IoK8sApiCoreV1ServiceAccountTokenProjection.
Definition schema `{Pydantic} : Schema := model "IoK8sApiCoreV1ServiceAccountTokenProjection" [
  opt "audience" "audience" StrictStr;
  opt "expiration_seconds" "expirationSeconds" StrictInt;
  req "path" "path" StrictStr;
  opt "user" "user" StrictInt].
Definition to_dict `{Pydantic} : value → outcome value := to_dict_with schema [].
Definition from_dict `{Pydantic} : value → outcome value := from_dict_with schema [
  Get "audience";
  Get "expirationSeconds";
  GetOr "path" (VStr "");
  Get "user"].
Definition to_json `{Pydantic} : value → outcome string := to_json_with to_dict.
Definition from_json `{Pydantic} : string → outcome value := from_json_with from_dict.
Definition to_str `{Pydantic} : value → outcome string := to_str_with schema.
End IoK8sApiCoreV1ServiceAccountTokenProjection.
#[export] Instance IoK8sApiCoreV1ServiceAccountTokenProjection_templated `{PydanticLaws} :
  Templated IoK8sApiCoreV1ServiceAccountTokenProjection.schema
    IoK8sApiCoreV1ServiceAccountTokenProjection.to_dict
      IoK8sApiCoreV1ServiceAccountTokenProjection.from_dict.
Proof. solve_model. Qed.

Module IoK8sApiCoreV1VolumeProjection.
Definition schema `{Pydantic} : Schema := model "IoK8sApiCoreV1VolumeProjection" [
  opt "cluster_trust_bundle" "clusterTrustBundle"
    (Model IoK8sApiCoreV1ClusterTrustBundleProjection.schema);
  opt "config_map" "configMap" (Model IoK8sApiCoreV1ConfigMapProjection.schema);
  opt "downward_api" "downwardAPI" (Model IoK8sApiCoreV1DownwardAPIProjection.schema);
  opt "pod_certificate" "podCertificate" (Model IoK8sApiCoreV1PodCertificateProjection.schema);
  opt "secret" "secret" (Model IoK8sApiCoreV1SecretProjection.schema);
  opt "service_account_token" "serviceAccountToken"
    (Model IoK8sApiCoreV1ServiceAccountTokenProjection.schema)].
Definition to_dict `{Pydantic} : value → outcome value := to_dict_with schema [
  Dump "cluster_trust_bundle" "clusterTrustBundle"
    IoK8sApiCoreV1ClusterTrustBundleProjection.to_dict;
  Dump "config_map" "configMap" IoK8sApiCoreV1ConfigMapProjection.to_dict;
  Dump "downward_api" "downwardAPI" IoK8sApiCoreV1DownwardAPIProjection.to_dict;
  Dump "pod_certificate" "podCertificate" IoK8sApiCoreV1PodCertificateProjection.to_dict;
  Dump "secret" "secret" IoK8sApiCoreV1SecretProjection.to_dict;
  Dump "service_account_token" "serviceAccountToken"
    IoK8sApiCoreV1ServiceAccountTokenProjection.to_dict].
Definition from_dict `{Pydantic} : value → outcome value := from_dict_with schema [
  FromDict "clusterTrustBundle" IoK8sApiCoreV1ClusterTrustBundleProjection.from_dict;
  FromDict "configMap" IoK8sApiCoreV1ConfigMapProjection.from_dict;
  FromDict "downwardAPI" IoK8sApiCoreV1DownwardAPIProjection.from_dict;
  FromDict "podCertificate" IoK8sApiCoreV1PodCertificateProjection.from_dict;
  FromDict "secret" IoK8sApiCoreV1SecretProjection.from_dict;
  FromDict "serviceAccountToken" IoK8sApiCoreV1ServiceAccountTokenProjection.from_dict].
Definition to_json `{Pydantic} : value → outcome string := to_json_with to_dict.
Definition from_json `{Pydantic} : string → outcome value := from_json_with from_dict.
Definition to_str `{Pydantic} : value → outcome string := to_str_with schema.
End IoK8sApiCoreV1VolumeProjection.
#[export] Instance IoK8sApiCoreV1VolumeProjection_templated `{PydanticLaws} :
  Templated IoK8sApiCoreV1VolumeProjection.schema IoK8sApiCoreV1VolumeProjection.to_dict
    IoK8sApiCoreV1VolumeProjection.from_dict.
Proof. solve_model. Qed.

Module IoK8sApiCoreV1ProjectedVolumeSource.
Definition schema `{Pydantic} : Schema := model "IoK8sApiCoreV1ProjectedVolumeSource" [
  opt "default_mode" "defaultMode" StrictInt;
  opt "default_user" "defaultUser" StrictInt;
  opt "sources" "sources" (List (Model IoK8sApiCoreV1VolumeProjection.schema))].
Definition to_dict `{Pydantic} : value → outcome value := to_dict_with schema [
  DumpItems "sources" "sources" IoK8sApiCoreV1VolumeProjection.to_dict].
Definition from_dict `{Pydantic} : value → outcome value := from_dict_with schema [
  Get "defaultMode";
  Get "defaultUser";
  FromDictItems "sources" IoK8sApiCoreV1VolumeProjection.from_dict].
Definition to_json `{Pydantic} : value → outcome string := to_json_with to_dict.
Definition from_json `{Pydantic} : string → outcome value := from_json_with from_dict.
Definition to_str `{Pydantic} : value → outcome string := to_str_with schema.
End IoK8sApiCoreV1ProjectedVolumeSource.
#[export] Instance IoK8sApiCoreV1ProjectedVolumeSource_templated `{PydanticLaws} :
  Templated IoK8sApiCoreV1ProjectedVolumeSource.schema IoK8sApiCoreV1ProjectedVolumeSource.to_dict
    IoK8sApiCoreV1ProjectedVolumeSource.from_dict.
Proof. solve_model. Qed.

Module IoK8sApiCoreV1QuobyteVolumeSource.
Definition schema `{Pydantic} : Schema := model "IoK8sApiCoreV1QuobyteVolumeSource" [
  opt "group" "group" StrictStr;
  opt "read_only" "readOnly" StrictBool;
  req "registry" "registry" StrictStr;
  opt "tenant" "tenant" StrictStr;
  opt "user" "user" StrictStr;
  req "volume" "volume" StrictStr].
Definition to_dict `{Pydantic} : value → outcome value := to_dict_with schema [].
Definition from_dict `{Pydantic} : value → outcome value := from_dict_with schema [
  Get "group";
  Get "readOnly";
  GetOr "registry" (VStr "");
  Get "tenant";
  Get "user";
  GetOr "volume" (VStr "")].
Definition to_json `{Pydantic} : value → outcome string := to_json_with to_dict.
Definition from_json `{Pydantic} : string → outcome value := from_json_with from_dict.
Definition to_str `{Pydantic} : value → outcome string := to_str_with schema.
End IoK8sApiCoreV1QuobyteVolumeSource.
#[export] Instance IoK8sApiCoreV1QuobyteVolumeSource_templated `{PydanticLaws} :
  Templated IoK8sApiCoreV1QuobyteVolumeSource.schema IoK8sApiCoreV1QuobyteVolumeSource.to_dict
    IoK8sApiCoreV1QuobyteVolumeSource.from_dict.
Proof. solve_model. Qed.

Module IoK8sApiCoreV1RBDVolumeSource.
Definition schema `{Pydantic} : Schema := model "IoK8sApiCoreV1RBDVolumeSource" [
  opt "fs_type" "fsType" StrictStr;
  req "image" "image" StrictStr;
  opt_or "keyring" "keyring" StrictStr (VStr "/etc/ceph/keyring");
  req "monitors" "monitors" (List StrictStr);
  opt_or "pool" "pool" StrictStr (VStr "rbd");
  opt "read_only" "readOnly" StrictBool;
  opt "secret_ref" "secretRef" (Model IoK8sApiCoreV1LocalObjectReference.schema);
  opt_or "user" "user" StrictStr (VStr "admin")].
Definition to_dict `{Pydantic} : value → outcome value := to_dict_with schema [
  Dump "secret_ref" "secretRef" IoK8sApiCoreV1LocalObjectReference.to_dict].
Definition from_dict `{Pydantic} : value → outcome value := from_dict_with schema [
  Get "fsType";
  GetOr "image" (VStr "");
  GetOr "keyring" (VStr "/etc/ceph/keyring");
  Get "monitors";
  GetOr "pool" (VStr "rbd");
  Get "readOnly";
  FromDict "secretRef" IoK8sApiCoreV1LocalObjectReference.from_dict;
  GetOr "user" (VStr "admin")].
Definition to_json `{Pydantic} : value → outcome string := to_json_with to_dict.
Definition from_json `{Pydantic} : string → outcome value := from_json_with from_dict.
Definition to_str `{Pydantic} : value → outcome string := to_str_with schema.
End IoK8sApiCoreV1RBDVolumeSource.
#[export] Instance IoK8sApiCoreV1RBDVolumeSource_templated `{PydanticLaws} :
  Templated IoK8sApiCoreV1RBDVolumeSource.schema IoK8sApiCoreV1RBDVolumeSource.to_dict
    IoK8sApiCoreV1RBDVolumeSource.from_dict.
Proof. solve_model. Qed.

Module IoK8sApiCoreV1ScaleIOVolumeSource.
Definition schema `{Pydantic} : Schema := model "IoK8sApiCoreV1ScaleIOVolumeSource" [
  opt_or "fs_type" "fsType" StrictStr (VStr "xfs");
  req "gateway" "gateway" StrictStr;
  opt "protection_domain" "protectionDomain" StrictStr;
  opt "read_only" "readOnly" StrictBool;
  req "secret_ref" "secretRef" (Model IoK8sApiCoreV1LocalObjectReference.schema);
  opt "ssl_enabled" "sslEnabled" StrictBool;
  opt_or "storage_mode" "storageMode" StrictStr (VStr "ThinProvisioned");
  opt "storage_pool" "storagePool" StrictStr;
  req "system" "system" StrictStr;
  opt "volume_name" "volumeName" StrictStr].
Definition to_dict `{Pydantic} : value → outcome value := to_dict_with schema [
  Dump "secret_ref" "secretRef" IoK8sApiCoreV1LocalObjectReference.to_dict].
Definition from_dict `{Pydantic} : value → outcome value := from_dict_with schema [
  GetOr "fsType" (VStr "xfs");
  GetOr "gateway" (VStr "");
  Get "protectionDomain";
  Get "readOnly";
  FromDict "secretRef" IoK8sApiCoreV1LocalObjectReference.from_dict;
  Get "sslEnabled";
  GetOr "storageMode" (VStr "ThinProvisioned");
  Get "storagePool";
  GetOr "system" (VStr "");
  Get "volumeName"].
Definition to_json `{Pydantic} : value → outcome string := to_json_with to_dict.
Definition from_json `{Pydantic} : string → outcome value := from_json_with from_dict.
Definition to_str `{Pydantic} : value → outcome string := to_str_with schema.
End IoK8sApiCoreV1ScaleIOVolumeSource.
#[export] Instance IoK8sApiCoreV1ScaleIOVolumeSource_templated `{PydanticLaws} :
  Templated IoK8sApiCoreV1ScaleIOVolumeSource.schema IoK8sApiCoreV1ScaleIOVolumeSource.to_dict
    IoK8sApiCoreV1ScaleIOVolumeSource.from_dict.
Proof. solve_model. Qed.

Module IoK8sApiCoreV1SecretVolumeSource.
Definition schema `{Pydantic} : Schema := model "IoK8sApiCoreV1SecretVolumeSource" [
  opt "default_mode" "defaultMode" StrictInt;
  opt "default_user" "defaultUser" StrictInt;
  opt "items" "items" (List (Model IoK8sApiCoreV1KeyToPath.schema));
  opt "optional" "optional" StrictBool;
  opt "secret_name" "secretName" StrictStr].
Definition to_dict `{Pydantic} : value → outcome value := to_dict_with schema [
  DumpItems "items" "items" IoK8sApiCoreV1KeyToPath.to_dict].
Definition from_dict `{Pydantic} : value → outcome value := from_dict_with schema [
  Get "defaultMode";
  Get "defaultUser";
  FromDictItems "items" IoK8sApiCoreV1KeyToPath.from_dict;
  Get "optional";
  Get "secretName"].
Definition to_json `{Pydantic} : value → outcome string := to_json_with to_dict.
Definition from_json `{Pydantic} : string → outcome value := from_json_with from_dict.
Definition to_str `{Pydantic} : value → outcome string := to_str_with schema.
End IoK8sApiCoreV1SecretVolumeSource.
#[export] Instance IoK8sApiCoreV1SecretVolumeSource_templated `{PydanticLaws} :
  Templated IoK8sApiCoreV1SecretVolumeSource.schema IoK8sApiCoreV1SecretVolumeSource.to_dict
    IoK8sApiCoreV1SecretVolumeSource.from_dict.
Proof. solve_model. Qed.

Module IoK8sApiCoreV1StorageOSVolumeSource.
Definition schema `{Pydantic} : Schema := model "IoK8sApiCoreV1StorageOSVolumeSource" [
  opt "fs_type" "fsType" StrictStr;
  opt "read_only" "readOnly" StrictBool;
  opt "secret_ref" "secretRef" (Model IoK8sApiCoreV1LocalObjectReference.schema);
  opt "volume_name" "volumeName" StrictStr;
  opt "volume_namespace" "volumeNamespace" StrictStr].
Definition to_dict `{Pydantic} : value → outcome value := to_dict_with schema [
  Dump "secret_ref" "secretRef" IoK8sApiCoreV1LocalObjectReference.to_dict].
Definition from_dict `{Pydantic} : value → outcome value := from_dict_with schema [
  Get "fsType";
  Get "readOnly";
  FromDict "secretRef" IoK8sApiCoreV1LocalObjectReference.from_dict;
  Get "volumeName";
  Get "volumeNamespace"].
Definition to_json `{Pydantic} : value → outcome string := to_json_with to_dict.
Definition from_json `{Pydantic} : string → outcome value := from_json_with from_dict.
Definition to_str `{Pydantic} : value → outcome string := to_str_with schema.
End IoK8sApiCoreV1StorageOSVolumeSource.
#[export] Instance IoK8sApiCoreV1StorageOSVolumeSource_templated `{PydanticLaws} :
  Templated IoK8sApiCoreV1StorageOSVolumeSource.schema IoK8sApiCoreV1StorageOSVolumeSource.to_dict
    IoK8sApiCoreV1StorageOSVolumeSource.from_dict.
Proof. solve_model. Qed.

Module IoK8sApiCoreV1VsphereVirtualDiskVolumeSource.
Definition schema `{Pydantic} : Schema := model "IoK8sApiCoreV1VsphereVirtualDiskVolumeSource" [
  opt "fs_type" "fsType" StrictStr;
  opt "storage_policy_id" "storagePolicyID" StrictStr;
  opt "storage_policy_name" "storagePolicyName" StrictStr;
  req "volume_path" "volumePath" StrictStr].
Definition to_dict `{Pydantic} : value → outcome value := to_dict_with schema [].
Definition from_dict `{Pydantic} : value → outcome value := from_dict_with schema [
  Get "fsType";
  Get "storagePolicyID";
  Get "storagePolicyName";
  GetOr "volumePath" (VStr "")].
Definition to_json `{Pydantic} : value → outcome string := to_json_with to_dict.
Definition from_json `{Pydantic} : string → outcome value := from_json_with from_dict.
Definition to_str `{Pydantic} : value → outcome string := to_str_with schema.
End IoK8sApiCoreV1VsphereVirtualDiskVolumeSource.
#[export] Instance IoK8sApiCoreV1VsphereVirtualDiskVolumeSource_templated `{PydanticLaws} :
  Templated IoK8sApiCoreV1VsphereVirtualDiskVolumeSource.schema
    IoK8sApiCoreV1VsphereVirtualDiskVolumeSource.to_dict
      IoK8sApiCoreV1VsphereVirtualDiskVolumeSource.from_dict.
Proof. solve_model. Qed.

Module IoK8sApiCoreV1Volume.
Definition schema `{Pydantic} : Schema := model "IoK8sApiCoreV1Volume" [
  opt "aws_elastic_block_store" "awsElasticBlockStore"
    (Model IoK8sApiCoreV1AWSElasticBlockStoreVolumeSource.schema);
  opt "azure_disk" "azureDisk" (Model IoK8sApiCoreV1AzureDiskVolumeSource.schema);
  opt "azure_file" "azureFile" (Model IoK8sApiCoreV1AzureFileVolumeSource.schema);
  opt "cephfs" "cephfs" (Model IoK8sApiCoreV1CephFSVolumeSource.schema);
  opt "cinder" "cinder" (Model IoK8sApiCoreV1CinderVolumeSource.schema);
  opt "config_map" "configMap" (Model IoK8sApiCoreV1ConfigMapVolumeSource.schema);
  opt "csi" "csi" (Model IoK8sApiCoreV1CSIVolumeSource.schema);
  opt "downward_api" "downwardAPI" (Model IoK8sApiCoreV1DownwardAPIVolumeSource.schema);
  opt "empty_dir" "emptyDir" (Model IoK8sApiCoreV1EmptyDirVolumeSource.schema);
  opt "ephemeral" "ephemeral" (Model IoK8sApiCoreV1EphemeralVolumeSource.schema);
  opt "fc" "fc" (Model IoK8sApiCoreV1FCVolumeSource.schema);
  opt "flex_volume" "flexVolume" (Model IoK8sApiCoreV1FlexVolumeSource.schema);
  opt "flocker" "flocker" (Model IoK8sApiCoreV1FlockerVolumeSource.schema);
  opt "gce_persistent_disk" "gcePersistentDisk"
    (Model IoK8sApiCoreV1GCEPersistentDiskVolumeSource.schema);
  opt "git_repo" "gitRepo" (Model IoK8sApiCoreV1GitRepoVolumeSource.schema);
  opt "glusterfs" "glusterfs" (Model IoK8sApiCoreV1GlusterfsVolumeSource.schema);
  opt "host_path" "hostPath" (Model IoK8sApiCoreV1HostPathVolumeSource.schema);
  opt "image" "image" (Model IoK8sApiCoreV1ImageVolumeSource.schema);
  opt "iscsi" "iscsi" (Model IoK8sApiCoreV1ISCSIVolumeSource.schema);
  req "name" "name" StrictStr;
  opt "nfs" "nfs" (Model IoK8sApiCoreV1NFSVolumeSource.schema);
  opt "persistent_volume_claim" "persistentVolumeClaim"
    (Model IoK8sApiCoreV1PersistentVolumeClaimVolumeSource.schema);
  opt "photon_persistent_disk" "photonPersistentDisk"
    (Model IoK8sApiCoreV1PhotonPersistentDiskVolumeSource.schema);
  opt "portworx_volume" "portworxVolume" (Model IoK8sApiCoreV1PortworxVolumeSource.schema);
  opt "projected" "projected" (Model IoK8sApiCoreV1ProjectedVolumeSource.schema);
  opt "quobyte" "quobyte" (Model IoK8sApiCoreV1QuobyteVolumeSource.schema);
  opt "rbd" "rbd" (Model IoK8sApiCoreV1RBDVolumeSource.schema);
  opt "scale_io" "scaleIO" (Model IoK8sApiCoreV1ScaleIOVolumeSource.schema);
  opt "secret" "secret" (Model IoK8sApiCoreV1SecretVolumeSource.schema);
  opt "storageos" "storageos" (Model IoK8sApiCoreV1StorageOSVolumeSource.schema);
  opt "vsphere_volume" "vsphereVolume" (Model IoK8sApiCoreV1VsphereVirtualDiskVolumeSource.schema)].
Definition to_dict `{Pydantic} : value → outcome value := to_dict_with schema [
  Dump "aws_elastic_block_store" "awsElasticBlockStore"
    IoK8sApiCoreV1AWSElasticBlockStoreVolumeSource.to_dict;
  Dump "azure_disk" "azureDisk" IoK8sApiCoreV1AzureDiskVolumeSource.to_dict;
  Dump "azure_file" "azureFile" IoK8sApiCoreV1AzureFileVolumeSource.to_dict;
  Dump "cephfs" "cephfs" IoK8sApiCoreV1CephFSVolumeSource.to_dict;
  Dump "cinder" "cinder" IoK8sApiCoreV1CinderVolumeSource.to_dict;
  Dump "config_map" "configMap" IoK8sApiCoreV1ConfigMapVolumeSource.to_dict;
  Dump "csi" "csi" IoK8sApiCoreV1CSIVolumeSource.to_dict;
  Dump "downward_api" "downwardAPI" IoK8sApiCoreV1DownwardAPIVolumeSource.to_dict;
  Dump "empty_dir" "emptyDir" IoK8sApiCoreV1EmptyDirVolumeSource.to_dict;
  Dump "ephemeral" "ephemeral" IoK8sApiCoreV1EphemeralVolumeSource.to_dict;
  Dump "fc" "fc" IoK8sApiCoreV1FCVolumeSource.to_dict;
  Dump "flex_volume" "flexVolume" IoK8sApiCoreV1FlexVolumeSource.to_dict;
  Dump "flocker" "flocker" IoK8sApiCoreV1FlockerVolumeSource.to_dict;
  Dump "gce_persistent_disk" "gcePersistentDisk"
    IoK8sApiCoreV1GCEPersistentDiskVolumeSource.to_dict;
  Dump "git_repo" "gitRepo" IoK8sApiCoreV1GitRepoVolumeSource.to_dict;
  Dump "glusterfs" "glusterfs" IoK8sApiCoreV1GlusterfsVolumeSource.to_dict;
  Dump "host_path" "hostPath" IoK8sApiCoreV1HostPathVolumeSource.to_dict;
  Dump "image" "image" IoK8sApiCoreV1ImageVolumeSource.to_dict;
  Dump "iscsi" "iscsi" IoK8sApiCoreV1ISCSIVolumeSource.to_dict;
  Dump "nfs" "nfs" IoK8sApiCoreV1NFSVolumeSource.to_dict;
  Dump "persistent_volume_claim" "persistentVolumeClaim"
    IoK8sApiCoreV1PersistentVolumeClaimVolumeSource.to_dict;
  Dump "photon_persistent_disk" "photonPersistentDisk"
    IoK8sApiCoreV1PhotonPersistentDiskVolumeSource.to_dict;
  Dump "portworx_volume" "portworxVolume" IoK8sApiCoreV1PortworxVolumeSource.to_dict;
  Dump "projected" "projected" IoK8sApiCoreV1ProjectedVolumeSource.to_dict;
  Dump "quobyte" "quobyte" IoK8sApiCoreV1QuobyteVolumeSource.to_dict;
  Dump "rbd" "rbd" IoK8sApiCoreV1RBDVolumeSource.to_dict;
  Dump "scale_io" "scaleIO" IoK8sApiCoreV1ScaleIOVolumeSource.to_dict;
  Dump "secret" "secret" IoK8sApiCoreV1SecretVolumeSource.to_dict;
  Dump "storageos" "storageos" IoK8sApiCoreV1StorageOSVolumeSource.to_dict;
  Dump "vsphere_volume" "vsphereVolume" IoK8sApiCoreV1VsphereVirtualDiskVolumeSource.to_dict].
Definition from_dict `{Pydantic} : value → outcome value := from_dict_with schema [
  FromDict "awsElasticBlockStore" IoK8sApiCoreV1AWSElasticBlockStoreVolumeSource.from_dict;
  FromDict "azureDisk" IoK8sApiCoreV1AzureDiskVolumeSource.from_dict;
  FromDict "azureFile" IoK8sApiCoreV1AzureFileVolumeSource.from_dict;
  FromDict "cephfs" IoK8sApiCoreV1CephFSVolumeSource.from_dict;
  FromDict "cinder" IoK8sApiCoreV1CinderVolumeSource.from_dict;
  FromDict "configMap" IoK8sApiCoreV1ConfigMapVolumeSource.from_dict;
  FromDict "csi" IoK8sApiCoreV1CSIVolumeSource.from_dict;
  FromDict "downwardAPI" IoK8sApiCoreV1DownwardAPIVolumeSource.from_dict;
  FromDict "emptyDir" IoK8sApiCoreV1EmptyDirVolumeSource.from_dict;
  FromDict "ephemeral" IoK8sApiCoreV1EphemeralVolumeSource.from_dict;
  FromDict "fc" IoK8sApiCoreV1FCVolumeSource.from_dict;
  FromDict "flexVolume" IoK8sApiCoreV1FlexVolumeSource.from_dict;
  FromDict "flocker" IoK8sApiCoreV1FlockerVolumeSource.from_dict;
  FromDict "gcePersistentDisk" IoK8sApiCoreV1GCEPersistentDiskVolumeSource.from_dict;
  FromDict "gitRepo" IoK8sApiCoreV1GitRepoVolumeSource.from_dict;
  FromDict "glusterfs" IoK8sApiCoreV1GlusterfsVolumeSource.from_dict;
  FromDict "hostPath" IoK8sApiCoreV1HostPathVolumeSource.from_dict;
  FromDict "image" IoK8sApiCoreV1ImageVolumeSource.from_dict;
  FromDict "iscsi" IoK8sApiCoreV1ISCSIVolumeSource.from_dict;
  GetOr "name" (VStr "");
  FromDict "nfs" IoK8sApiCoreV1NFSVolumeSource.from_dict;
  FromDict "persistentVolumeClaim" IoK8sApiCoreV1PersistentVolumeClaimVolumeSource.from_dict;
  FromDict "photonPersistentDisk" IoK8sApiCoreV1PhotonPersistentDiskVolumeSource.from_dict;
  FromDict "portworxVolume" IoK8sApiCoreV1PortworxVolumeSource.from_dict;
  FromDict "projected" IoK8sApiCoreV1ProjectedVolumeSource.from_dict;
  FromDict "quobyte" IoK8sApiCoreV1QuobyteVolumeSource.from_dict;
  FromDict "rbd" IoK8sApiCoreV1RBDVolumeSource.from_dict;
  FromDict "scaleIO" IoK8sApiCoreV1ScaleIOVolumeSource.from_dict;
  FromDict "secret" IoK8sApiCoreV1SecretVolumeSource.from_dict;
  FromDict "storageos" IoK8sApiCoreV1StorageOSVolumeSource.from_dict;
  FromDict "vsphereVolume" IoK8sApiCoreV1VsphereVirtualDiskVolumeSource.from_dict].
Definition to_json `{Pydantic} : value → outcome string := to_json_with to_dict.
Definition from_json `{Pydantic} : string → outcome value := from_json_with from_dict.
Definition to_str `{Pydantic} : value → outcome string := to_str_with schema.
End IoK8sApiCoreV1Volume.
#[export] Instance IoK8sApiCoreV1Volume_templated `{PydanticLaws} :
  Templated IoK8sApiCoreV1Volume.schema IoK8sApiCoreV1Volume.to_dict IoK8sApiCoreV1Volume.from_dict.
Proof. solve_model. Qed.

Module IoK8sApiCoreV1PodSpec.
Definition schema `{Pydantic} : Schema := model "IoK8sApiCoreV1PodSpec" [
  opt "active_deadline_seconds" "activeDeadlineSeconds" StrictInt;
  opt "affinity" "affinity" (Model IoK8sApiCoreV1Affinity.schema);
  opt "automount_service_account_token" "automountServiceAccountToken" StrictBool;
  req "containers" "containers" (List (Model IoK8sApiCoreV1Container.schema));
  opt "dns_config" "dnsConfig" (Model IoK8sApiCoreV1PodDNSConfig.schema);
  checked (opt "dns_policy" "dnsPolicy" StrictStr)
    (none_or_one_of ["ClusterFirst"; "ClusterFirstWithHostNet"; "Default"; "None"]);
  opt "enable_service_links" "enableServiceLinks" StrictBool;
  opt "ephemeral_containers" "ephemeralContainers" (List
    (Model IoK8sApiCoreV1EphemeralContainer.schema));
  opt "eviction_responders" "evictionResponders" (List
    (Model IoK8sApiCoreV1EvictionResponder.schema));
  opt "host_aliases" "hostAliases" (List (Model IoK8sApiCoreV1HostAlias.schema));
  opt "host_ipc" "hostIPC" StrictBool;
  opt "host_network" "hostNetwork" StrictBool;
  opt "host_pid" "hostPID" StrictBool;
  opt "host_users" "hostUsers" StrictBool;
  opt "hostname" "hostname" StrictStr;
  opt "hostname_override" "hostnameOverride" StrictStr;
  opt "image_pull_secrets" "imagePullSecrets" (List
    (Model IoK8sApiCoreV1LocalObjectReference.schema));
  opt "init_containers" "initContainers" (List (Model IoK8sApiCoreV1Container.schema));
  opt "node_name" "nodeName" StrictStr;
  opt "node_selector" "nodeSelector" (Dict StrictStr);
  opt "os" "os" (Model IoK8sApiCoreV1PodOS.schema);
  opt "overhead" "overhead" (Dict (Model IoK8sApimachineryPkgApiResourceQuantity.schema));
  checked (opt "preemption_policy" "preemptionPolicy" StrictStr)
    (none_or_one_of ["Never"; "PreemptLowerPriority"]);
  opt "priority" "priority" StrictInt;
  opt "priority_class_name" "priorityClassName" StrictStr;
  opt "readiness_gates" "readinessGates" (List (Model IoK8sApiCoreV1PodReadinessGate.schema));
  opt "resource_claims" "resourceClaims" (List (Model IoK8sApiCoreV1PodResourceClaim.schema));
  opt "resources" "resources" (Model IoK8sApiCoreV1ResourceRequirements.schema);
  checked (opt "restart_policy" "restartPolicy" StrictStr)
    (none_or_one_of ["Always"; "Never"; "OnFailure"]);
  opt "runtime_class_name" "runtimeClassName" StrictStr;
  opt "scheduler_name" "schedulerName" StrictStr;
  opt "scheduling_gates" "schedulingGates" (List (Model IoK8sApiCoreV1PodSchedulingGate.schema));
  opt "scheduling_group" "schedulingGroup" (Model IoK8sApiCoreV1PodSchedulingGroup.schema);
  opt "security_context" "securityContext" (Model IoK8sApiCoreV1PodSecurityContext.schema);
  opt "service_account" "serviceAccount" StrictStr;
  opt "service_account_name" "serviceAccountName" StrictStr;
  opt "set_hostname_as_fqdn" "setHostnameAsFQDN" StrictBool;
  opt "share_process_namespace" "shareProcessNamespace" StrictBool;
  opt "subdomain" "subdomain" StrictStr;
  opt "termination_grace_period_seconds" "terminationGracePeriodSeconds" StrictInt;
  opt "tolerations" "tolerations" (List (Model IoK8sApiCoreV1Toleration.schema));
  opt "topology_spread_constraints" "topologySpreadConstraints" (List
    (Model IoK8sApiCoreV1TopologySpreadConstraint.schema));
  opt "volumes" "volumes" (List (Model IoK8sApiCoreV1Volume.schema))].
Definition to_dict `{Pydantic} : value → outcome value := to_dict_with schema [
  Dump "affinity" "affinity" IoK8sApiCoreV1Affinity.to_dict;
  DumpItems "containers" "containers" IoK8sApiCoreV1Container.to_dict;
  Dump "dns_config" "dnsConfig" IoK8sApiCoreV1PodDNSConfig.to_dict;
  DumpItems "ephemeral_containers" "ephemeralContainers" IoK8sApiCoreV1EphemeralContainer.to_dict;
  DumpItems "eviction_responders" "evictionResponders" IoK8sApiCoreV1EvictionResponder.to_dict;
  DumpItems "host_aliases" "hostAliases" IoK8sApiCoreV1HostAlias.to_dict;
  DumpItems "image_pull_secrets" "imagePullSecrets" IoK8sApiCoreV1LocalObjectReference.to_dict;
  DumpItems "init_containers" "initContainers" IoK8sApiCoreV1Container.to_dict;
  Dump "os" "os" IoK8sApiCoreV1PodOS.to_dict;
  DumpValues "overhead" "overhead" IoK8sApimachineryPkgApiResourceQuantity.to_dict;
  DumpItems "readiness_gates" "readinessGates" IoK8sApiCoreV1PodReadinessGate.to_dict;
  DumpItems "resource_claims" "resourceClaims" IoK8sApiCoreV1PodResourceClaim.to_dict;
  Dump "resources" "resources" IoK8sApiCoreV1ResourceRequirements.to_dict;
  DumpItems "scheduling_gates" "schedulingGates" IoK8sApiCoreV1PodSchedulingGate.to_dict;
  Dump "scheduling_group" "schedulingGroup" IoK8sApiCoreV1PodSchedulingGroup.to_dict;
  Dump "security_context" "securityContext" IoK8sApiCoreV1PodSecurityContext.to_dict;
  DumpItems "tolerations" "tolerations" IoK8sApiCoreV1Toleration.to_dict;
  DumpItems "topology_spread_constraints" "topologySpreadConstraints"
    IoK8sApiCoreV1TopologySpreadConstraint.to_dict;
  DumpItems "volumes" "volumes" IoK8sApiCoreV1Volume.to_dict].
Definition from_dict `{Pydantic} : value → outcome value := from_dict_with schema [
  Get "activeDeadlineSeconds";
  FromDict "affinity" IoK8sApiCoreV1Affinity.from_dict;
  Get "automountServiceAccountToken";
  FromDictItems "containers" IoK8sApiCoreV1Container.from_dict;
  FromDict "dnsConfig" IoK8sApiCoreV1PodDNSConfig.from_dict;
  Get "dnsPolicy";
  Get "enableServiceLinks";
  FromDictItems "ephemeralContainers" IoK8sApiCoreV1EphemeralContainer.from_dict;
  FromDictItems "evictionResponders" IoK8sApiCoreV1EvictionResponder.from_dict;
  FromDictItems "hostAliases" IoK8sApiCoreV1HostAlias.from_dict;
  Get "hostIPC";
  Get "hostNetwork";
  Get "hostPID";
  Get "hostUsers";
  Get "hostname";
  Get "hostnameOverride";
  FromDictItems "imagePullSecrets" IoK8sApiCoreV1LocalObjectReference.from_dict;
  FromDictItems "initContainers" IoK8sApiCoreV1Container.from_dict;
  Get "nodeName";
  Get "nodeSelector";
  FromDict "os" IoK8sApiCoreV1PodOS.from_dict;
  FromDictValues "overhead" IoK8sApimachineryPkgApiResourceQuantity.from_dict;
  Get "preemptionPolicy";
  Get "priority";
  Get "priorityClassName";
  FromDictItems "readinessGates" IoK8sApiCoreV1PodReadinessGate.from_dict;
  FromDictItems "resourceClaims" IoK8sApiCoreV1PodResourceClaim.from_dict;
  FromDict "resources" IoK8sApiCoreV1ResourceRequirements.from_dict;
  Get "restartPolicy";
  Get "runtimeClassName";
  Get "schedulerName";
  FromDictItems "schedulingGates" IoK8sApiCoreV1PodSchedulingGate.from_dict;
  FromDict "schedulingGroup" IoK8sApiCoreV1PodSchedulingGroup.from_dict;
  FromDict "securityContext" IoK8sApiCoreV1PodSecurityContext.from_dict;
  Get "serviceAccount";
  Get "serviceAccountName";
  Get "setHostnameAsFQDN";
  Get "shareProcessNamespace";
  Get "subdomain";
  Get "terminationGracePeriodSeconds";
  FromDictItems "tolerations" IoK8sApiCoreV1Toleration.from_dict;
  FromDictItems "topologySpreadConstraints" IoK8sApiCoreV1TopologySpreadConstraint.from_dict;
  FromDictItems "volumes" IoK8sApiCoreV1Volume.from_dict].
Definition to_json `{Pydantic} : value → outcome string := to_json_with to_dict.
Definition from_json `{Pydantic} : string → outcome value := from_json_with from_dict.
Definition to_str `{Pydantic} : value → outcome string := to_str_with schema.
End IoK8sApiCoreV1PodSpec.
#[export] Instance IoK8sApiCoreV1PodSpec_templated `{PydanticLaws} :
  Templated IoK8sApiCoreV1PodSpec.schema IoK8sApiCoreV1PodSpec.to_dict
    IoK8sApiCoreV1PodSpec.from_dict.
Proof. solve_model. Qed.

Module IoK8sApiCoreV1PodTemplateSpec.
Definition schema `{Pydantic} : Schema := model "IoK8sApiCoreV1PodTemplateSpec" [
  opt "metadata" "metadata" (Model IoK8sApimachineryPkgApisMetaV1ObjectMeta.schema);
  opt "spec" "spec" (Model IoK8sApiCoreV1PodSpec.schema)].
Definition to_dict `{Pydantic} : value → outcome value := to_dict_with schema [
  Dump "metadata" "metadata" IoK8sApimachineryPkgApisMetaV1ObjectMeta.to_dict;
  Dump "spec" "spec" IoK8sApiCoreV1PodSpec.to_dict].
Definition from_dict `{Pydantic} : value → outcome value := from_dict_with schema [
  FromDict "metadata" IoK8sApimachineryPkgApisMetaV1ObjectMeta.from_dict;
  FromDict "spec" IoK8sApiCoreV1PodSpec.from_dict].
Definition to_json `{Pydantic} : value → outcome string := to_json_with to_dict.
Definition from_json `{Pydantic} : string → outcome value := from_json_with from_dict.
Definition to_str `{Pydantic} : value → outcome string := to_str_with schema.
End IoK8sApiCoreV1PodTemplateSpec.
#[export] Instance IoK8sApiCoreV1PodTemplateSpec_templated `{PydanticLaws} :
  Templated IoK8sApiCoreV1PodTemplateSpec.schema IoK8sApiCoreV1PodTemplateSpec.to_dict
    IoK8sApiCoreV1PodTemplateSpec.from_dict.
Proof. solve_model. Qed.

Module IoK8sApiCoreV1PersistentVolumeClaimCondition.
Definition schema `{Pydantic} : Schema := model "IoK8sApiCoreV1PersistentVolumeClaimCondition" [
  opt "last_probe_time" "lastProbeTime" Datetime;
  opt "last_transition_time" "lastTransitionTime" Datetime;
  opt "message" "message" StrictStr;
  opt "reason" "reason" StrictStr;
  req "status" "status" StrictStr;
  req "type" "type" StrictStr].
Definition to_dict `{Pydantic} : value → outcome value := to_dict_with schema [].
Definition from_dict `{Pydantic} : value → outcome value := from_dict_with schema [
  Get "lastProbeTime";
  Get "lastTransitionTime";
  Get "message";
  Get "reason";
  GetOr "status" (VStr "");
  GetOr "type" (VStr "")].
Definition to_json `{Pydantic} : value → outcome string := to_json_with to_dict.
Definition from_json `{Pydantic} : string → outcome value := from_json_with from_dict.
Definition to_str `{Pydantic} : value → outcome string := to_str_with schema.
End IoK8sApiCoreV1PersistentVolumeClaimCondition.
#[export] Instance IoK8sApiCoreV1PersistentVolumeClaimCondition_templated `{PydanticLaws} :
  Templated IoK8sApiCoreV1PersistentVolumeClaimCondition.schema
    IoK8sApiCoreV1PersistentVolumeClaimCondition.to_dict
      IoK8sApiCoreV1PersistentVolumeClaimCondition.from_dict.
Proof. solve_model. Qed.

Module IoK8sApiCoreV1VolumeHealthCondition.
Definition schema `{Pydantic} : Schema := model "IoK8sApiCoreV1VolumeHealthCondition" [
  opt "message" "message" StrictStr;
  req "reason" "reason" StrictStr;
  checked (req "status" "status" StrictStr)
    (one_of ["DataLoss"; "Degraded"; "Inaccessible"])].
Definition to_dict `{Pydantic} : value → outcome value := to_dict_with schema [].
Definition from_dict `{Pydantic} : value → outcome value := from_dict_with schema [
  Get "message";
  GetOr "reason" (VStr "");
  Get "status"].
Definition to_json `{Pydantic} : value → outcome string := to_json_with to_dict.
Definition from_json `{Pydantic} : string → outcome value := from_json_with from_dict.
Definition to_str `{Pydantic} : value → outcome string := to_str_with schema.
End IoK8sApiCoreV1VolumeHealthCondition.
#[export] Instance IoK8sApiCoreV1VolumeHealthCondition_templated `{PydanticLaws} :
  Templated IoK8sApiCoreV1VolumeHealthCondition.schema IoK8sApiCoreV1VolumeHealthCondition.to_dict
    IoK8sApiCoreV1VolumeHealthCondition.from_dict.
Proof. solve_model. Qed.

Module IoK8sApiCoreV1VolumeHealthStatus.
Definition schema `{Pydantic} : Schema := model "IoK8sApiCoreV1VolumeHealthStatus" [
  opt "health_conditions" "healthConditions" (List
    (Model IoK8sApiCoreV1VolumeHealthCondition.schema));
  opt "last_transition_time" "lastTransitionTime" Datetime].
Definition to_dict `{Pydantic} : value → outcome value := to_dict_with schema [
  DumpItems "health_conditions" "healthConditions" IoK8sApiCoreV1VolumeHealthCondition.to_dict].
Definition from_dict `{Pydantic} : value → outcome value := from_dict_with schema [
  FromDictItems "healthConditions" IoK8sApiCoreV1VolumeHealthCondition.from_dict;
  Get "lastTransitionTime"].
Definition to_json `{Pydantic} : value → outcome string := to_json_with to_dict.
Definition from_json `{Pydantic} : string → outcome value := from_json_with from_dict.
Definition to_str `{Pydantic} : value → outcome string := to_str_with schema.
End IoK8sApiCoreV1VolumeHealthStatus.
#[export] Instance IoK8sApiCoreV1VolumeHealthStatus_templated `{PydanticLaws} :
  Templated IoK8sApiCoreV1VolumeHealthStatus.schema IoK8sApiCoreV1VolumeHealthStatus.to_dict
    IoK8sApiCoreV1VolumeHealthStatus.from_dict.
Proof. solve_model. Qed.

Module IoK8sApiCoreV1ModifyVolumeStatus.
Definition schema `{Pydantic} : Schema := model "IoK8sApiCoreV1ModifyVolumeStatus" [
  checked (req "status" "status" StrictStr)
    (one_of ["InProgress"; "Infeasible"; "Pending"]);
  opt "target_volume_attributes_class_name" "targetVolumeAttributesClassName" StrictStr].
Definition to_dict `{Pydantic} : value → outcome value := to_dict_with schema [].
Definition from_dict `{Pydantic} : value → outcome value := from_dict_with schema [
  Get "status";
  Get "targetVolumeAttributesClassName"].
Definition to_json `{Pydantic} : value → outcome string := to_json_with to_dict.
Definition from_json `{Pydantic} : string → outcome value := from_json_with from_dict.
Definition to_str `{Pydantic} : value → outcome string := to_str_with schema.
End IoK8sApiCoreV1ModifyVolumeStatus.
#[export] Instance IoK8sApiCoreV1ModifyVolumeStatus_templated `{PydanticLaws} :
  Templated IoK8sApiCoreV1ModifyVolumeStatus.schema IoK8sApiCoreV1ModifyVolumeStatus.to_dict
    IoK8sApiCoreV1ModifyVolumeStatus.from_dict.
Proof. solve_model. Qed.

Module IoK8sApiCoreV1PersistentVolumeClaimStatus.
Definition schema `{Pydantic} : Schema := model "IoK8sApiCoreV1PersistentVolumeClaimStatus" [
  checked (opt "access_modes" "accessModes" (List StrictStr))
    (none_or_each_of ["ReadOnlyMany"; "ReadWriteMany"; "ReadWriteOnce"; "ReadWriteOncePod"]);
  checked (opt "allocated_resource_statuses" "allocatedResourceStatuses" (Dict StrictStr))
    (none_or_each_value_of ["ControllerResizeInProgress"; "ControllerResizeInfeasible";
      "NodeResizeInProgress"; "NodeResizeInfeasible"; "NodeResizePending"]);
  opt "allocated_resources" "allocatedResources" (Dict
    (Model IoK8sApimachineryPkgApiResourceQuantity.schema));
  opt "capacity" "capacity" (Dict (Model IoK8sApimachineryPkgApiResourceQuantity.schema));
  opt "conditions" "conditions" (List (Model IoK8sApiCoreV1PersistentVolumeClaimCondition.schema));
  opt "current_volume_attributes_class_name" "currentVolumeAttributesClassName" StrictStr;
  opt "health_status" "healthStatus" (Model IoK8sApiCoreV1VolumeHealthStatus.schema);
  opt "modify_volume_status" "modifyVolumeStatus" (Model IoK8sApiCoreV1ModifyVolumeStatus.schema);
  checked (opt "phase" "phase" StrictStr)
    (none_or_one_of ["Bound"; "Lost"; "Pending"])].
Definition to_dict `{Pydantic} : value → outcome value := to_dict_with schema [
  DumpValues "allocated_resources" "allocatedResources"
    IoK8sApimachineryPkgApiResourceQuantity.to_dict;
  DumpValues "capacity" "capacity" IoK8sApimachineryPkgApiResourceQuantity.to_dict;
  DumpItems "conditions" "conditions" IoK8sApiCoreV1PersistentVolumeClaimCondition.to_dict;
  Dump "health_status" "healthStatus" IoK8sApiCoreV1VolumeHealthStatus.to_dict;
  Dump "modify_volume_status" "modifyVolumeStatus" IoK8sApiCoreV1ModifyVolumeStatus.to_dict].
Definition from_dict `{Pydantic} : value → outcome value := from_dict_with schema [
  Get "accessModes";
  Get "allocatedResourceStatuses";
  FromDictValues "allocatedResources" IoK8sApimachineryPkgApiResourceQuantity.from_dict;
  FromDictValues "capacity" IoK8sApimachineryPkgApiResourceQuantity.from_dict;
  FromDictItems "conditions" IoK8sApiCoreV1PersistentVolumeClaimCondition.from_dict;
  Get "currentVolumeAttributesClassName";
  FromDict "healthStatus" IoK8sApiCoreV1VolumeHealthStatus.from_dict;
  FromDict "modifyVolumeStatus" IoK8sApiCoreV1ModifyVolumeStatus.from_dict;
  Get "phase"].
Definition to_json `{Pydantic} : value → outcome string := to_json_with to_dict.
Definition from_json `{Pydantic} : string → outcome value := from_json_with from_dict.
Definition to_str `{Pydantic} : value → outcome string := to_str_with schema.
End IoK8sApiCoreV1PersistentVolumeClaimStatus.
#[export] Instance IoK8sApiCoreV1PersistentVolumeClaimStatus_templated `{PydanticLaws} :
  Templated IoK8sApiCoreV1PersistentVolumeClaimStatus.schema
    IoK8sApiCoreV1PersistentVolumeClaimStatus.to_dict
      IoK8sApiCoreV1PersistentVolumeClaimStatus.from_dict.
Proof. solve_model. Qed.

Module IoK8sApiCoreV1PersistentVolumeClaim.
Definition schema `{Pydantic} : Schema := model "IoK8sApiCoreV1PersistentVolumeClaim" [
  opt "api_version" "apiVersion" StrictStr;
  opt "kind" "kind" StrictStr;
  opt "metadata" "metadata" (Model IoK8sApimachineryPkgApisMetaV1ObjectMeta.schema);
  opt "spec" "spec" (Model IoK8sApiCoreV1PersistentVolumeClaimSpec.schema);
  opt "status" "status" (Model IoK8sApiCoreV1PersistentVolumeClaimStatus.schema)].
Definition to_dict `{Pydantic} : value → outcome value := to_dict_with schema [
  Dump "metadata" "metadata" IoK8sApimachineryPkgApisMetaV1ObjectMeta.to_dict;
  Dump "spec" "spec" IoK8sApiCoreV1PersistentVolumeClaimSpec.to_dict;
  Dump "status" "status" IoK8sApiCoreV1PersistentVolumeClaimStatus.to_dict].
Definition from_dict `{Pydantic} : value → outcome value := from_dict_with schema [
  Get "apiVersion";
  Get "kind";
  FromDict "metadata" IoK8sApimachineryPkgApisMetaV1ObjectMeta.from_dict;
  FromDict "spec" IoK8sApiCoreV1PersistentVolumeClaimSpec.from_dict;
  FromDict "status" IoK8sApiCoreV1PersistentVolumeClaimStatus.from_dict].
Definition to_json `{Pydantic} : value → outcome string := to_json_with to_dict.
Definition from_json `{Pydantic} : string → outcome value := from_json_with from_dict.
Definition to_str `{Pydantic} : value → outcome string := to_str_with schema.
End IoK8sApiCoreV1PersistentVolumeClaim.
#[export] Instance IoK8sApiCoreV1PersistentVolumeClaim_templated `{PydanticLaws} :
  Templated IoK8sApiCoreV1PersistentVolumeClaim.schema IoK8sApiCoreV1PersistentVolumeClaim.to_dict
    IoK8sApiCoreV1PersistentVolumeClaim.from_dict.
Proof. solve_model. Qed.

(** All the classes of this file. *)
Definition core_models `{Pydantic} : list ApiModel := [
  {| m_schema := IoK8sApiCoreV1NodeSelectorRequirement.schema;
     m_to_dict := IoK8sApiCoreV1NodeSelectorRequirement.to_dict;
     m_from_dict := IoK8sApiCoreV1NodeSelectorRequirement.from_dict;
     m_to_json := IoK8sApiCoreV1NodeSelectorRequirement.to_json;
     m_from_json := IoK8sApiCoreV1NodeSelectorRequirement.from_json;
     m_to_str := IoK8sApiCoreV1NodeSelectorRequirement.to_str |};
  {| m_schema := IoK8sApiCoreV1NodeSelectorTerm.schema;
     m_to_dict := IoK8sApiCoreV1NodeSelectorTerm.to_dict;
     m_from_dict := IoK8sApiCoreV1NodeSelectorTerm.from_dict;
     m_to_json := IoK8sApiCoreV1NodeSelectorTerm.to_json;
     m_from_json := IoK8sApiCoreV1NodeSelectorTerm.from_json;
     m_to_str := IoK8sApiCoreV1NodeSelectorTerm.to_str |};
  {| m_schema := IoK8sApiCoreV1PreferredSchedulingTerm.schema;
     m_to_dict := IoK8sApiCoreV1PreferredSchedulingTerm.to_dict;
     m_from_dict := IoK8sApiCoreV1PreferredSchedulingTerm.from_dict;
     m_to_json := IoK8sApiCoreV1PreferredSchedulingTerm.to_json;
     m_from_json := IoK8sApiCoreV1PreferredSchedulingTerm.from_json;
     m_to_str := IoK8sApiCoreV1PreferredSchedulingTerm.to_str |};
  {| m_schema := IoK8sApiCoreV1NodeSelector.schema;
     m_to_dict := IoK8sApiCoreV1NodeSelector.to_dict;
     m_from_dict := IoK8sApiCoreV1NodeSelector.from_dict;
     m_to_json := IoK8sApiCoreV1NodeSelector.to_json;
     m_from_json := IoK8sApiCoreV1NodeSelector.from_json;
     m_to_str := IoK8sApiCoreV1NodeSelector.to_str |};
  {| m_schema := IoK8sApiCoreV1NodeAffinity.schema;
     m_to_dict := IoK8sApiCoreV1NodeAffinity.to_dict;
     m_from_dict := IoK8sApiCoreV1NodeAffinity.from_dict;
     m_to_json := IoK8sApiCoreV1NodeAffinity.to_json;
     m_from_json := IoK8sApiCoreV1NodeAffinity.from_json;
     m_to_str := IoK8sApiCoreV1NodeAffinity.to_str |};
  {| m_schema := IoK8sApiCoreV1PodAffinityTerm.schema;
     m_to_dict := IoK8sApiCoreV1PodAffinityTerm.to_dict;
     m_from_dict := IoK8sApiCoreV1PodAffinityTerm.from_dict;
     m_to_json := IoK8sApiCoreV1PodAffinityTerm.to_json;
     m_from_json := IoK8sApiCoreV1PodAffinityTerm.from_json;
     m_to_str := IoK8sApiCoreV1PodAffinityTerm.to_str |};
  {| m_schema := IoK8sApiCoreV1WeightedPodAffinityTerm.schema;
     m_to_dict := IoK8sApiCoreV1WeightedPodAffinityTerm.to_dict;
     m_from_dict := IoK8sApiCoreV1WeightedPodAffinityTerm.from_dict;
     m_to_json := IoK8sApiCoreV1WeightedPodAffinityTerm.to_json;
     m_from_json := IoK8sApiCoreV1WeightedPodAffinityTerm.from_json;
     m_to_str := IoK8sApiCoreV1WeightedPodAffinityTerm.to_str |};
  {| m_schema := IoK8sApiCoreV1PodAffinity.schema;
     m_to_dict := IoK8sApiCoreV1PodAffinity.to_dict;
     m_from_dict := IoK8sApiCoreV1PodAffinity.from_dict;
     m_to_json := IoK8sApiCoreV1PodAffinity.to_json;
     m_from_json := IoK8sApiCoreV1PodAffinity.from_json;
     m_to_str := IoK8sApiCoreV1PodAffinity.to_str |};
  {| m_schema := IoK8sApiCoreV1PodAntiAffinity.schema;
     m_to_dict := IoK8sApiCoreV1PodAntiAffinity.to_dict;
     m_from_dict := IoK8sApiCoreV1PodAntiAffinity.from_dict;
     m_to_json := IoK8sApiCoreV1PodAntiAffinity.to_json;
     m_from_json := IoK8sApiCoreV1PodAntiAffinity.from_json;
     m_to_str := IoK8sApiCoreV1PodAntiAffinity.to_str |};
  {| m_schema := IoK8sApiCoreV1Affinity.schema;
     m_to_dict := IoK8sApiCoreV1Affinity.to_dict;
     m_from_dict := IoK8sApiCoreV1Affinity.from_dict;
     m_to_json := IoK8sApiCoreV1Affinity.to_json;
     m_from_json := IoK8sApiCoreV1Affinity.from_json;
     m_to_str := IoK8sApiCoreV1Affinity.to_str |};
  {| m_schema := IoK8sApiCoreV1ConfigMapKeySelector.schema;
     m_to_dict := IoK8sApiCoreV1ConfigMapKeySelector.to_dict;
     m_from_dict := IoK8sApiCoreV1ConfigMapKeySelector.from_dict;
     m_to_json := IoK8sApiCoreV1ConfigMapKeySelector.to_json;
     m_from_json := IoK8sApiCoreV1ConfigMapKeySelector.from_json;
     m_to_str := IoK8sApiCoreV1ConfigMapKeySelector.to_str |};
  {| m_schema := IoK8sApiCoreV1ObjectFieldSelector.schema;
     m_to_dict := IoK8sApiCoreV1ObjectFieldSelector.to_dict;
     m_from_dict := IoK8sApiCoreV1ObjectFieldSelector.from_dict;
     m_to_json := IoK8sApiCoreV1ObjectFieldSelector.to_json;
     m_from_json := IoK8sApiCoreV1ObjectFieldSelector.from_json;
     m_to_str := IoK8sApiCoreV1ObjectFieldSelector.to_str |};
  {| m_schema := IoK8sApiCoreV1FileKeySelector.schema;
     m_to_dict := IoK8sApiCoreV1FileKeySelector.to_dict;
     m_from_dict := IoK8sApiCoreV1FileKeySelector.from_dict;
     m_to_json := IoK8sApiCoreV1FileKeySelector.to_json;
     m_from_json := IoK8sApiCoreV1FileKeySelector.from_json;
     m_to_str := IoK8sApiCoreV1FileKeySelector.to_str |};
  {| m_schema := IoK8sApiCoreV1ResourceFieldSelector.schema;
     m_to_dict := IoK8sApiCoreV1ResourceFieldSelector.to_dict;
     m_from_dict := IoK8sApiCoreV1ResourceFieldSelector.from_dict;
     m_to_json := IoK8sApiCoreV1ResourceFieldSelector.to_json;
     m_from_json := IoK8sApiCoreV1ResourceFieldSelector.from_json;
     m_to_str := IoK8sApiCoreV1ResourceFieldSelector.to_str |};
  {| m_schema := IoK8sApiCoreV1SecretKeySelector.schema;
     m_to_dict := IoK8sApiCoreV1SecretKeySelector.to_dict;
     m_from_dict := IoK8sApiCoreV1SecretKeySelector.from_dict;
     m_to_json := IoK8sApiCoreV1SecretKeySelector.to_json;
     m_from_json := IoK8sApiCoreV1SecretKeySelector.from_json;
     m_to_str := IoK8sApiCoreV1SecretKeySelector.to_str |};
  {| m_schema := IoK8sApiCoreV1EnvVarSource.schema;
     m_to_dict := IoK8sApiCoreV1EnvVarSource.to_dict;
     m_from_dict := IoK8sApiCoreV1EnvVarSource.from_dict;
     m_to_json := IoK8sApiCoreV1EnvVarSource.to_json;
     m_from_json := IoK8sApiCoreV1EnvVarSource.from_json;
     m_to_str := IoK8sApiCoreV1EnvVarSource.to_str |};
  {| m_schema := IoK8sApiCoreV1EnvVar.schema;
     m_to_dict := IoK8sApiCoreV1EnvVar.to_dict;
     m_from_dict := IoK8sApiCoreV1EnvVar.from_dict;
     m_to_json := IoK8sApiCoreV1EnvVar.to_json;
     m_from_json := IoK8sApiCoreV1EnvVar.from_json;
     m_to_str := IoK8sApiCoreV1EnvVar.to_str |};
  {| m_schema := IoK8sApiCoreV1ConfigMapEnvSource.schema;
     m_to_dict := IoK8sApiCoreV1ConfigMapEnvSource.to_dict;
     m_from_dict := IoK8sApiCoreV1ConfigMapEnvSource.from_dict;
     m_to_json := IoK8sApiCoreV1ConfigMapEnvSource.to_json;
     m_from_json := IoK8sApiCoreV1ConfigMapEnvSource.from_json;
     m_to_str := IoK8sApiCoreV1ConfigMapEnvSource.to_str |};
  {| m_schema := IoK8sApiCoreV1SecretEnvSource.schema;
     m_to_dict := IoK8sApiCoreV1SecretEnvSource.to_dict;
     m_from_dict := IoK8sApiCoreV1SecretEnvSource.from_dict;
     m_to_json := IoK8sApiCoreV1SecretEnvSource.to_json;
     m_from_json := IoK8sApiCoreV1SecretEnvSource.from_json;
     m_to_str := IoK8sApiCoreV1SecretEnvSource.to_str |};
  {| m_schema := IoK8sApiCoreV1EnvFromSource.schema;
     m_to_dict := IoK8sApiCoreV1EnvFromSource.to_dict;
     m_from_dict := IoK8sApiCoreV1EnvFromSource.from_dict;
     m_to_json := IoK8sApiCoreV1EnvFromSource.to_json;
     m_from_json := IoK8sApiCoreV1EnvFromSource.from_json;
     m_to_str := IoK8sApiCoreV1EnvFromSource.to_str |};
  {| m_schema := IoK8sApiCoreV1ExecAction.schema;
     m_to_dict := IoK8sApiCoreV1ExecAction.to_dict;
     m_from_dict := IoK8sApiCoreV1ExecAction.from_dict;
     m_to_json := IoK8sApiCoreV1ExecAction.to_json;
     m_from_json := IoK8sApiCoreV1ExecAction.from_json;
     m_to_str := IoK8sApiCoreV1ExecAction.to_str |};
  {| m_schema := IoK8sApiCoreV1HTTPHeader.schema;
     m_to_dict := IoK8sApiCoreV1HTTPHeader.to_dict;
     m_from_dict := IoK8sApiCoreV1HTTPHeader.from_dict;
     m_to_json := IoK8sApiCoreV1HTTPHeader.to_json;
     m_from_json := IoK8sApiCoreV1HTTPHeader.from_json;
     m_to_str := IoK8sApiCoreV1HTTPHeader.to_str |};
  {| m_schema := IoK8sApiCoreV1HTTPGetAction.schema;
     m_to_dict := IoK8sApiCoreV1HTTPGetAction.to_dict;
     m_from_dict := IoK8sApiCoreV1HTTPGetAction.from_dict;
     m_to_json := IoK8sApiCoreV1HTTPGetAction.to_json;
     m_from_json := IoK8sApiCoreV1HTTPGetAction.from_json;
     m_to_str := IoK8sApiCoreV1HTTPGetAction.to_str |};
  {| m_schema := IoK8sApiCoreV1SleepAction.schema;
     m_to_dict := IoK8sApiCoreV1SleepAction.to_dict;
     m_from_dict := IoK8sApiCoreV1SleepAction.from_dict;
     m_to_json := IoK8sApiCoreV1SleepAction.to_json;
     m_from_json := IoK8sApiCoreV1SleepAction.from_json;
     m_to_str := IoK8sApiCoreV1SleepAction.to_str |};
  {| m_schema := IoK8sApiCoreV1TCPSocketAction.schema;
     m_to_dict := IoK8sApiCoreV1TCPSocketAction.to_dict;
     m_from_dict := IoK8sApiCoreV1TCPSocketAction.from_dict;
     m_to_json := IoK8sApiCoreV1TCPSocketAction.to_json;
     m_from_json := IoK8sApiCoreV1TCPSocketAction.from_json;
     m_to_str := IoK8sApiCoreV1TCPSocketAction.to_str |};
  {| m_schema := IoK8sApiCoreV1LifecycleHandler.schema;
     m_to_dict := IoK8sApiCoreV1LifecycleHandler.to_dict;
     m_from_dict := IoK8sApiCoreV1LifecycleHandler.from_dict;
     m_to_json := IoK8sApiCoreV1LifecycleHandler.to_json;
     m_from_json := IoK8sApiCoreV1LifecycleHandler.from_json;
     m_to_str := IoK8sApiCoreV1LifecycleHandler.to_str |};
  {| m_schema := IoK8sApiCoreV1Lifecycle.schema;
     m_to_dict := IoK8sApiCoreV1Lifecycle.to_dict;
     m_from_dict := IoK8sApiCoreV1Lifecycle.from_dict;
     m_to_json := IoK8sApiCoreV1Lifecycle.to_json;
     m_from_json := IoK8sApiCoreV1Lifecycle.from_json;
     m_to_str := IoK8sApiCoreV1Lifecycle.to_str |};
  {| m_schema := IoK8sApiCoreV1GRPCAction.schema;
     m_to_dict := IoK8sApiCoreV1GRPCAction.to_dict;
     m_from_dict := IoK8sApiCoreV1GRPCAction.from_dict;
     m_to_json := IoK8sApiCoreV1GRPCAction.to_json;
     m_from_json := IoK8sApiCoreV1GRPCAction.from_json;
     m_to_str := IoK8sApiCoreV1GRPCAction.to_str |};
  {| m_schema := IoK8sApiCoreV1Probe.schema;
     m_to_dict := IoK8sApiCoreV1Probe.to_dict;
     m_from_dict := IoK8sApiCoreV1Probe.from_dict;
     m_to_json := IoK8sApiCoreV1Probe.to_json;
     m_from_json := IoK8sApiCoreV1Probe.from_json;
     m_to_str := IoK8sApiCoreV1Probe.to_str |};
  {| m_schema := IoK8sApiCoreV1ContainerPort.schema;
     m_to_dict := IoK8sApiCoreV1ContainerPort.to_dict;
     m_from_dict := IoK8sApiCoreV1ContainerPort.from_dict;
     m_to_json := IoK8sApiCoreV1ContainerPort.to_json;
     m_from_json := IoK8sApiCoreV1ContainerPort.from_json;
     m_to_str := IoK8sApiCoreV1ContainerPort.to_str |};
  {| m_schema := IoK8sApiCoreV1ContainerResizePolicy.schema;
     m_to_dict := IoK8sApiCoreV1ContainerResizePolicy.to_dict;
     m_from_dict := IoK8sApiCoreV1ContainerResizePolicy.from_dict;
     m_to_json := IoK8sApiCoreV1ContainerResizePolicy.to_json;
     m_from_json := IoK8sApiCoreV1ContainerResizePolicy.from_json;
     m_to_str := IoK8sApiCoreV1ContainerResizePolicy.to_str |};
  {| m_schema := IoK8sApiCoreV1ResourceClaim.schema;
     m_to_dict := IoK8sApiCoreV1ResourceClaim.to_dict;
     m_from_dict := IoK8sApiCoreV1ResourceClaim.from_dict;
     m_to_json := IoK8sApiCoreV1ResourceClaim.to_json;
     m_from_json := IoK8sApiCoreV1ResourceClaim.from_json;
     m_to_str := IoK8sApiCoreV1ResourceClaim.to_str |};
  {| m_schema := IoK8sApiCoreV1ResourceRequirements.schema;
     m_to_dict := IoK8sApiCoreV1ResourceRequirements.to_dict;
     m_from_dict := IoK8sApiCoreV1ResourceRequirements.from_dict;
     m_to_json := IoK8sApiCoreV1ResourceRequirements.to_json;
     m_from_json := IoK8sApiCoreV1ResourceRequirements.from_json;
     m_to_str := IoK8sApiCoreV1ResourceRequirements.to_str |};
  {| m_schema := IoK8sApiCoreV1ContainerRestartRuleOnExitCodes.schema;
     m_to_dict := IoK8sApiCoreV1ContainerRestartRuleOnExitCodes.to_dict;
     m_from_dict := IoK8sApiCoreV1ContainerRestartRuleOnExitCodes.from_dict;
     m_to_json := IoK8sApiCoreV1ContainerRestartRuleOnExitCodes.to_json;
     m_from_json := IoK8sApiCoreV1ContainerRestartRuleOnExitCodes.from_json;
     m_to_str := IoK8sApiCoreV1ContainerRestartRuleOnExitCodes.to_str |};
  {| m_schema := IoK8sApiCoreV1ContainerRestartRule.schema;
     m_to_dict := IoK8sApiCoreV1ContainerRestartRule.to_dict;
     m_from_dict := IoK8sApiCoreV1ContainerRestartRule.from_dict;
     m_to_json := IoK8sApiCoreV1ContainerRestartRule.to_json;
     m_from_json := IoK8sApiCoreV1ContainerRestartRule.from_json;
     m_to_str := IoK8sApiCoreV1ContainerRestartRule.to_str |};
  {| m_schema := IoK8sApiCoreV1AppArmorProfile.schema;
     m_to_dict := IoK8sApiCoreV1AppArmorProfile.to_dict;
     m_from_dict := IoK8sApiCoreV1AppArmorProfile.from_dict;
     m_to_json := IoK8sApiCoreV1AppArmorProfile.to_json;
     m_from_json := IoK8sApiCoreV1AppArmorProfile.from_json;
     m_to_str := IoK8sApiCoreV1AppArmorProfile.to_str |};
  {| m_schema := IoK8sApiCoreV1Capabilities.schema;
     m_to_dict := IoK8sApiCoreV1Capabilities.to_dict;
     m_from_dict := IoK8sApiCoreV1Capabilities.from_dict;
     m_to_json := IoK8sApiCoreV1Capabilities.to_json;
     m_from_json := IoK8sApiCoreV1Capabilities.from_json;
     m_to_str := IoK8sApiCoreV1Capabilities.to_str |};
  {| m_schema := IoK8sApiCoreV1SELinuxOptions.schema;
     m_to_dict := IoK8sApiCoreV1SELinuxOptions.to_dict;
     m_from_dict := IoK8sApiCoreV1SELinuxOptions.from_dict;
     m_to_json := IoK8sApiCoreV1SELinuxOptions.to_json;
     m_from_json := IoK8sApiCoreV1SELinuxOptions.from_json;
     m_to_str := IoK8sApiCoreV1SELinuxOptions.to_str |};
  {| m_schema := IoK8sApiCoreV1SeccompProfile.schema;
     m_to_dict := IoK8sApiCoreV1SeccompProfile.to_dict;
     m_from_dict := IoK8sApiCoreV1SeccompProfile.from_dict;
     m_to_json := IoK8sApiCoreV1SeccompProfile.to_json;
     m_from_json := IoK8sApiCoreV1SeccompProfile.from_json;
     m_to_str := IoK8sApiCoreV1SeccompProfile.to_str |};
  {| m_schema := IoK8sApiCoreV1WindowsSecurityContextOptions.schema;
     m_to_dict := IoK8sApiCoreV1WindowsSecurityContextOptions.to_dict;
     m_from_dict := IoK8sApiCoreV1WindowsSecurityContextOptions.from_dict;
     m_to_json := IoK8sApiCoreV1WindowsSecurityContextOptions.to_json;
     m_from_json := IoK8sApiCoreV1WindowsSecurityContextOptions.from_json;
     m_to_str := IoK8sApiCoreV1WindowsSecurityContextOptions.to_str |};
  {| m_schema := IoK8sApiCoreV1SecurityContext.schema;
     m_to_dict := IoK8sApiCoreV1SecurityContext.to_dict;
     m_from_dict := IoK8sApiCoreV1SecurityContext.from_dict;
     m_to_json := IoK8sApiCoreV1SecurityContext.to_json;
     m_from_json := IoK8sApiCoreV1SecurityContext.from_json;
     m_to_str := IoK8sApiCoreV1SecurityContext.to_str |};
  {| m_schema := IoK8sApiCoreV1VolumeDevice.schema;
     m_to_dict := IoK8sApiCoreV1VolumeDevice.to_dict;
     m_from_dict := IoK8sApiCoreV1VolumeDevice.from_dict;
     m_to_json := IoK8sApiCoreV1VolumeDevice.to_json;
     m_from_json := IoK8sApiCoreV1VolumeDevice.from_json;
     m_to_str := IoK8sApiCoreV1VolumeDevice.to_str |};
  {| m_schema := IoK8sApiCoreV1VolumeMount.schema;
     m_to_dict := IoK8sApiCoreV1VolumeMount.to_dict;
     m_from_dict := IoK8sApiCoreV1VolumeMount.from_dict;
     m_to_json := IoK8sApiCoreV1VolumeMount.to_json;
     m_from_json := IoK8sApiCoreV1VolumeMount.from_json;
     m_to_str := IoK8sApiCoreV1VolumeMount.to_str |};
  {| m_schema := IoK8sApiCoreV1Container.schema;
     m_to_dict := IoK8sApiCoreV1Container.to_dict;
     m_from_dict := IoK8sApiCoreV1Container.from_dict;
     m_to_json := IoK8sApiCoreV1Container.to_json;
     m_from_json := IoK8sApiCoreV1Container.from_json;
     m_to_str := IoK8sApiCoreV1Container.to_str |};
  {| m_schema := IoK8sApiCoreV1PodDNSConfigOption.schema;
     m_to_dict := IoK8sApiCoreV1PodDNSConfigOption.to_dict;
     m_from_dict := IoK8sApiCoreV1PodDNSConfigOption.from_dict;
     m_to_json := IoK8sApiCoreV1PodDNSConfigOption.to_json;
     m_from_json := IoK8sApiCoreV1PodDNSConfigOption.from_json;
     m_to_str := IoK8sApiCoreV1PodDNSConfigOption.to_str |};
  {| m_schema := IoK8sApiCoreV1PodDNSConfig.schema;
     m_to_dict := IoK8sApiCoreV1PodDNSConfig.to_dict;
     m_from_dict := IoK8sApiCoreV1PodDNSConfig.from_dict;
     m_to_json := IoK8sApiCoreV1PodDNSConfig.to_json;
     m_from_json := IoK8sApiCoreV1PodDNSConfig.from_json;
     m_to_str := IoK8sApiCoreV1PodDNSConfig.to_str |};
  {| m_schema := IoK8sApiCoreV1EphemeralContainer.schema;
     m_to_dict := IoK8sApiCoreV1EphemeralContainer.to_dict;
     m_from_dict := IoK8sApiCoreV1EphemeralContainer.from_dict;
     m_to_json := IoK8sApiCoreV1EphemeralContainer.to_json;
     m_from_json := IoK8sApiCoreV1EphemeralContainer.from_json;
     m_to_str := IoK8sApiCoreV1EphemeralContainer.to_str |};
  {| m_schema := IoK8sApiCoreV1EvictionResponder.schema;
     m_to_dict := IoK8sApiCoreV1EvictionResponder.to_dict;
     m_from_dict := IoK8sApiCoreV1EvictionResponder.from_dict;
     m_to_json := IoK8sApiCoreV1EvictionResponder.to_json;
     m_from_json := IoK8sApiCoreV1EvictionResponder.from_json;
     m_to_str := IoK8sApiCoreV1EvictionResponder.to_str |};
  {| m_schema := IoK8sApiCoreV1HostAlias.schema;
     m_to_dict := IoK8sApiCoreV1HostAlias.to_dict;
     m_from_dict := IoK8sApiCoreV1HostAlias.from_dict;
     m_to_json := IoK8sApiCoreV1HostAlias.to_json;
     m_from_json := IoK8sApiCoreV1HostAlias.from_json;
     m_to_str := IoK8sApiCoreV1HostAlias.to_str |};
  {| m_schema := IoK8sApiCoreV1LocalObjectReference.schema;
     m_to_dict := IoK8sApiCoreV1LocalObjectReference.to_dict;
     m_from_dict := IoK8sApiCoreV1LocalObjectReference.from_dict;
     m_to_json := IoK8sApiCoreV1LocalObjectReference.to_json;
     m_from_json := IoK8sApiCoreV1LocalObjectReference.from_json;
     m_to_str := IoK8sApiCoreV1LocalObjectReference.to_str |};
  {| m_schema := IoK8sApiCoreV1PodOS.schema;
     m_to_dict := IoK8sApiCoreV1PodOS.to_dict;
     m_from_dict := IoK8sApiCoreV1PodOS.from_dict;
     m_to_json := IoK8sApiCoreV1PodOS.to_json;
     m_from_json := IoK8sApiCoreV1PodOS.from_json;
     m_to_str := IoK8sApiCoreV1PodOS.to_str |};
  {| m_schema := IoK8sApiCoreV1PodReadinessGate.schema;
     m_to_dict := IoK8sApiCoreV1PodReadinessGate.to_dict;
     m_from_dict := IoK8sApiCoreV1PodReadinessGate.from_dict;
     m_to_json := IoK8sApiCoreV1PodReadinessGate.to_json;
     m_from_json := IoK8sApiCoreV1PodReadinessGate.from_json;
     m_to_str := IoK8sApiCoreV1PodReadinessGate.to_str |};
  {| m_schema := IoK8sApiCoreV1PodResourceClaim.schema;
     m_to_dict := IoK8sApiCoreV1PodResourceClaim.to_dict;
     m_from_dict := IoK8sApiCoreV1PodResourceClaim.from_dict;
     m_to_json := IoK8sApiCoreV1PodResourceClaim.to_json;
     m_from_json := IoK8sApiCoreV1PodResourceClaim.from_json;
     m_to_str := IoK8sApiCoreV1PodResourceClaim.to_str |};
  {| m_schema := IoK8sApiCoreV1PodSchedulingGate.schema;
     m_to_dict := IoK8sApiCoreV1PodSchedulingGate.to_dict;
     m_from_dict := IoK8sApiCoreV1PodSchedulingGate.from_dict;
     m_to_json := IoK8sApiCoreV1PodSchedulingGate.to_json;
     m_from_json := IoK8sApiCoreV1PodSchedulingGate.from_json;
     m_to_str := IoK8sApiCoreV1PodSchedulingGate.to_str |};
  {| m_schema := IoK8sApiCoreV1PodSchedulingGroup.schema;
     m_to_dict := IoK8sApiCoreV1PodSchedulingGroup.to_dict;
     m_from_dict := IoK8sApiCoreV1PodSchedulingGroup.from_dict;
     m_to_json := IoK8sApiCoreV1PodSchedulingGroup.to_json;
     m_from_json := IoK8sApiCoreV1PodSchedulingGroup.from_json;
     m_to_str := IoK8sApiCoreV1PodSchedulingGroup.to_str |};
  {| m_schema := IoK8sApiCoreV1Sysctl.schema;
     m_to_dict := IoK8sApiCoreV1Sysctl.to_dict;
     m_from_dict := IoK8sApiCoreV1Sysctl.from_dict;
     m_to_json := IoK8sApiCoreV1Sysctl.to_json;
     m_from_json := IoK8sApiCoreV1Sysctl.from_json;
     m_to_str := IoK8sApiCoreV1Sysctl.to_str |};
  {| m_schema := IoK8sApiCoreV1PodSecurityContext.schema;
     m_to_dict := IoK8sApiCoreV1PodSecurityContext.to_dict;
     m_from_dict := IoK8sApiCoreV1PodSecurityContext.from_dict;
     m_to_json := IoK8sApiCoreV1PodSecurityContext.to_json;
     m_from_json := IoK8sApiCoreV1PodSecurityContext.from_json;
     m_to_str := IoK8sApiCoreV1PodSecurityContext.to_str |};
  {| m_schema := IoK8sApiCoreV1Toleration.schema;
     m_to_dict := IoK8sApiCoreV1Toleration.to_dict;
     m_from_dict := IoK8sApiCoreV1Toleration.from_dict;
     m_to_json := IoK8sApiCoreV1Toleration.to_json;
     m_from_json := IoK8sApiCoreV1Toleration.from_json;
     m_to_str := IoK8sApiCoreV1Toleration.to_str |};
  {| m_schema := IoK8sApiCoreV1TopologySpreadConstraint.schema;
     m_to_dict := IoK8sApiCoreV1TopologySpreadConstraint.to_dict;
     m_from_dict := IoK8sApiCoreV1TopologySpreadConstraint.from_dict;
     m_to_json := IoK8sApiCoreV1TopologySpreadConstraint.to_json;
     m_from_json := IoK8sApiCoreV1TopologySpreadConstraint.from_json;
     m_to_str := IoK8sApiCoreV1TopologySpreadConstraint.to_str |};
  {| m_schema := IoK8sApiCoreV1AWSElasticBlockStoreVolumeSource.schema;
     m_to_dict := IoK8sApiCoreV1AWSElasticBlockStoreVolumeSource.to_dict;
     m_from_dict := IoK8sApiCoreV1AWSElasticBlockStoreVolumeSource.from_dict;
     m_to_json := IoK8sApiCoreV1AWSElasticBlockStoreVolumeSource.to_json;
     m_from_json := IoK8sApiCoreV1AWSElasticBlockStoreVolumeSource.from_json;
     m_to_str := IoK8sApiCoreV1AWSElasticBlockStoreVolumeSource.to_str |};
  {| m_schema := IoK8sApiCoreV1AzureDiskVolumeSource.schema;
     m_to_dict := IoK8sApiCoreV1AzureDiskVolumeSource.to_dict;
     m_from_dict := IoK8sApiCoreV1AzureDiskVolumeSource.from_dict;
     m_to_json := IoK8sApiCoreV1AzureDiskVolumeSource.to_json;
     m_from_json := IoK8sApiCoreV1AzureDiskVolumeSource.from_json;
     m_to_str := IoK8sApiCoreV1AzureDiskVolumeSource.to_str |};
  {| m_schema := IoK8sApiCoreV1AzureFileVolumeSource.schema;
     m_to_dict := IoK8sApiCoreV1AzureFileVolumeSource.to_dict;
     m_from_dict := IoK8sApiCoreV1AzureFileVolumeSource.from_dict;
     m_to_json := IoK8sApiCoreV1AzureFileVolumeSource.to_json;
     m_from_json := IoK8sApiCoreV1AzureFileVolumeSource.from_json;
     m_to_str := IoK8sApiCoreV1AzureFileVolumeSource.to_str |};
  {| m_schema := IoK8sApiCoreV1CephFSVolumeSource.schema;
     m_to_dict := IoK8sApiCoreV1CephFSVolumeSource.to_dict;
     m_from_dict := IoK8sApiCoreV1CephFSVolumeSource.from_dict;
     m_to_json := IoK8sApiCoreV1CephFSVolumeSource.to_json;
     m_from_json := IoK8sApiCoreV1CephFSVolumeSource.from_json;
     m_to_str := IoK8sApiCoreV1CephFSVolumeSource.to_str |};
  {| m_schema := IoK8sApiCoreV1CinderVolumeSource.schema;
     m_to_dict := IoK8sApiCoreV1CinderVolumeSource.to_dict;
     m_from_dict := IoK8sApiCoreV1CinderVolumeSource.from_dict;
     m_to_json := IoK8sApiCoreV1CinderVolumeSource.to_json;
     m_from_json := IoK8sApiCoreV1CinderVolumeSource.from_json;
     m_to_str := IoK8sApiCoreV1CinderVolumeSource.to_str |};
  {| m_schema := IoK8sApiCoreV1KeyToPath.schema;
     m_to_dict := IoK8sApiCoreV1KeyToPath.to_dict;
     m_from_dict := IoK8sApiCoreV1KeyToPath.from_dict;
     m_to_json := IoK8sApiCoreV1KeyToPath.to_json;
     m_from_json := IoK8sApiCoreV1KeyToPath.from_json;
     m_to_str := IoK8sApiCoreV1KeyToPath.to_str |};
  {| m_schema := IoK8sApiCoreV1ConfigMapVolumeSource.schema;
     m_to_dict := IoK8sApiCoreV1ConfigMapVolumeSource.to_dict;
     m_from_dict := IoK8sApiCoreV1ConfigMapVolumeSource.from_dict;
     m_to_json := IoK8sApiCoreV1ConfigMapVolumeSource.to_json;
     m_from_json := IoK8sApiCoreV1ConfigMapVolumeSource.from_json;
     m_to_str := IoK8sApiCoreV1ConfigMapVolumeSource.to_str |};
  {| m_schema := IoK8sApiCoreV1CSIVolumeSource.schema;
     m_to_dict := IoK8sApiCoreV1CSIVolumeSource.to_dict;
     m_from_dict := IoK8sApiCoreV1CSIVolumeSource.from_dict;
     m_to_json := IoK8sApiCoreV1CSIVolumeSource.to_json;
     m_from_json := IoK8sApiCoreV1CSIVolumeSource.from_json;
     m_to_str := IoK8sApiCoreV1CSIVolumeSource.to_str |};
  {| m_schema := IoK8sApiCoreV1DownwardAPIVolumeFile.schema;
     m_to_dict := IoK8sApiCoreV1DownwardAPIVolumeFile.to_dict;
     m_from_dict := IoK8sApiCoreV1DownwardAPIVolumeFile.from_dict;
     m_to_json := IoK8sApiCoreV1DownwardAPIVolumeFile.to_json;
     m_from_json := IoK8sApiCoreV1DownwardAPIVolumeFile.from_json;
     m_to_str := IoK8sApiCoreV1DownwardAPIVolumeFile.to_str |};
  {| m_schema := IoK8sApiCoreV1DownwardAPIVolumeSource.schema;
     m_to_dict := IoK8sApiCoreV1DownwardAPIVolumeSource.to_dict;
     m_from_dict := IoK8sApiCoreV1DownwardAPIVolumeSource.from_dict;
     m_to_json := IoK8sApiCoreV1DownwardAPIVolumeSource.to_json;
     m_from_json := IoK8sApiCoreV1DownwardAPIVolumeSource.from_json;
     m_to_str := IoK8sApiCoreV1DownwardAPIVolumeSource.to_str |};
  {| m_schema := IoK8sApiCoreV1EmptyDirVolumeSource.schema;
     m_to_dict := IoK8sApiCoreV1EmptyDirVolumeSource.to_dict;
     m_from_dict := IoK8sApiCoreV1EmptyDirVolumeSource.from_dict;
     m_to_json := IoK8sApiCoreV1EmptyDirVolumeSource.to_json;
     m_from_json := IoK8sApiCoreV1EmptyDirVolumeSource.from_json;
     m_to_str := IoK8sApiCoreV1EmptyDirVolumeSource.to_str |};
  {| m_schema := IoK8sApiCoreV1TypedLocalObjectReference.schema;
     m_to_dict := IoK8sApiCoreV1TypedLocalObjectReference.to_dict;
     m_from_dict := IoK8sApiCoreV1TypedLocalObjectReference.from_dict;
     m_to_json := IoK8sApiCoreV1TypedLocalObjectReference.to_json;
     m_from_json := IoK8sApiCoreV1TypedLocalObjectReference.from_json;
     m_to_str := IoK8sApiCoreV1TypedLocalObjectReference.to_str |};
  {| m_schema := IoK8sApiCoreV1TypedObjectReference.schema;
     m_to_dict := IoK8sApiCoreV1TypedObjectReference.to_dict;
     m_from_dict := IoK8sApiCoreV1TypedObjectReference.from_dict;
     m_to_json := IoK8sApiCoreV1TypedObjectReference.to_json;
     m_from_json := IoK8sApiCoreV1TypedObjectReference.from_json;
     m_to_str := IoK8sApiCoreV1TypedObjectReference.to_str |};
  {| m_schema := IoK8sApiCoreV1VolumeResourceRequirements.schema;
     m_to_dict := IoK8sApiCoreV1VolumeResourceRequirements.to_dict;
     m_from_dict := IoK8sApiCoreV1VolumeResourceRequirements.from_dict;
     m_to_json := IoK8sApiCoreV1VolumeResourceRequirements.to_json;
     m_from_json := IoK8sApiCoreV1VolumeResourceRequirements.from_json;
     m_to_str := IoK8sApiCoreV1VolumeResourceRequirements.to_str |};
  {| m_schema := IoK8sApiCoreV1PersistentVolumeClaimSpec.schema;
     m_to_dict := IoK8sApiCoreV1PersistentVolumeClaimSpec.to_dict;
     m_from_dict := IoK8sApiCoreV1PersistentVolumeClaimSpec.from_dict;
     m_to_json := IoK8sApiCoreV1PersistentVolumeClaimSpec.to_json;
     m_from_json := IoK8sApiCoreV1PersistentVolumeClaimSpec.from_json;
     m_to_str := IoK8sApiCoreV1PersistentVolumeClaimSpec.to_str |};
  {| m_schema := IoK8sApiCoreV1PersistentVolumeClaimTemplate.schema;
     m_to_dict := IoK8sApiCoreV1PersistentVolumeClaimTemplate.to_dict;
     m_from_dict := IoK8sApiCoreV1PersistentVolumeClaimTemplate.from_dict;
     m_to_json := IoK8sApiCoreV1PersistentVolumeClaimTemplate.to_json;
     m_from_json := IoK8sApiCoreV1PersistentVolumeClaimTemplate.from_json;
     m_to_str := IoK8sApiCoreV1PersistentVolumeClaimTemplate.to_str |};
  {| m_schema := IoK8sApiCoreV1EphemeralVolumeSource.schema;
     m_to_dict := IoK8sApiCoreV1EphemeralVolumeSource.to_dict;
     m_from_dict := IoK8sApiCoreV1EphemeralVolumeSource.from_dict;
     m_to_json := IoK8sApiCoreV1EphemeralVolumeSource.to_json;
     m_from_json := IoK8sApiCoreV1EphemeralVolumeSource.from_json;
     m_to_str := IoK8sApiCoreV1EphemeralVolumeSource.to_str |};
  {| m_schema := IoK8sApiCoreV1FCVolumeSource.schema;
     m_to_dict := IoK8sApiCoreV1FCVolumeSource.to_dict;
     m_from_dict := IoK8sApiCoreV1FCVolumeSource.from_dict;
     m_to_json := IoK8sApiCoreV1FCVolumeSource.to_json;
     m_from_json := IoK8sApiCoreV1FCVolumeSource.from_json;
     m_to_str := IoK8sApiCoreV1FCVolumeSource.to_str |};
  {| m_schema := IoK8sApiCoreV1FlexVolumeSource.schema;
     m_to_dict := IoK8sApiCoreV1FlexVolumeSource.to_dict;
     m_from_dict := IoK8sApiCoreV1FlexVolumeSource.from_dict;
     m_to_json := IoK8sApiCoreV1FlexVolumeSource.to_json;
     m_from_json := IoK8sApiCoreV1FlexVolumeSource.from_json;
     m_to_str := IoK8sApiCoreV1FlexVolumeSource.to_str |};
  {| m_schema := IoK8sApiCoreV1FlockerVolumeSource.schema;
     m_to_dict := IoK8sApiCoreV1FlockerVolumeSource.to_dict;
     m_from_dict := IoK8sApiCoreV1FlockerVolumeSource.from_dict;
     m_to_json := IoK8sApiCoreV1FlockerVolumeSource.to_json;
     m_from_json := IoK8sApiCoreV1FlockerVolumeSource.from_json;
     m_to_str := IoK8sApiCoreV1FlockerVolumeSource.to_str |};
  {| m_schema := IoK8sApiCoreV1GCEPersistentDiskVolumeSource.schema;
     m_to_dict := IoK8sApiCoreV1GCEPersistentDiskVolumeSource.to_dict;
     m_from_dict := IoK8sApiCoreV1GCEPersistentDiskVolumeSource.from_dict;
     m_to_json := IoK8sApiCoreV1GCEPersistentDiskVolumeSource.to_json;
     m_from_json := IoK8sApiCoreV1GCEPersistentDiskVolumeSource.from_json;
     m_to_str := IoK8sApiCoreV1GCEPersistentDiskVolumeSource.to_str |};
  {| m_schema := IoK8sApiCoreV1GitRepoVolumeSource.schema;
     m_to_dict := IoK8sApiCoreV1GitRepoVolumeSource.to_dict;
     m_from_dict := IoK8sApiCoreV1GitRepoVolumeSource.from_dict;
     m_to_json := IoK8sApiCoreV1GitRepoVolumeSource.to_json;
     m_from_json := IoK8sApiCoreV1GitRepoVolumeSource.from_json;
     m_to_str := IoK8sApiCoreV1GitRepoVolumeSource.to_str |};
  {| m_schema := IoK8sApiCoreV1GlusterfsVolumeSource.schema;
     m_to_dict := IoK8sApiCoreV1GlusterfsVolumeSource.to_dict;
     m_from_dict := IoK8sApiCoreV1GlusterfsVolumeSource.from_dict;
     m_to_json := IoK8sApiCoreV1GlusterfsVolumeSource.to_json;
     m_from_json := IoK8sApiCoreV1GlusterfsVolumeSource.from_json;
     m_to_str := IoK8sApiCoreV1GlusterfsVolumeSource.to_str |};
  {| m_schema := IoK8sApiCoreV1HostPathVolumeSource.schema;
     m_to_dict := IoK8sApiCoreV1HostPathVolumeSource.to_dict;
     m_from_dict := IoK8sApiCoreV1HostPathVolumeSource.from_dict;
     m_to_json := IoK8sApiCoreV1HostPathVolumeSource.to_json;
     m_from_json := IoK8sApiCoreV1HostPathVolumeSource.from_json;
     m_to_str := IoK8sApiCoreV1HostPathVolumeSource.to_str |};
  {| m_schema := IoK8sApiCoreV1ImageVolumeSource.schema;
     m_to_dict := IoK8sApiCoreV1ImageVolumeSource.to_dict;
     m_from_dict := IoK8sApiCoreV1ImageVolumeSource.from_dict;
     m_to_json := IoK8sApiCoreV1ImageVolumeSource.to_json;
     m_from_json := IoK8sApiCoreV1ImageVolumeSource.from_json;
     m_to_str := IoK8sApiCoreV1ImageVolumeSource.to_str |};
  {| m_schema := IoK8sApiCoreV1ISCSIVolumeSource.schema;
     m_to_dict := IoK8sApiCoreV1ISCSIVolumeSource.to_dict;
     m_from_dict := IoK8sApiCoreV1ISCSIVolumeSource.from_dict;
     m_to_json := IoK8sApiCoreV1ISCSIVolumeSource.to_json;
     m_from_json := IoK8sApiCoreV1ISCSIVolumeSource.from_json;
     m_to_str := IoK8sApiCoreV1ISCSIVolumeSource.to_str |};
  {| m_schema := IoK8sApiCoreV1NFSVolumeSource.schema;
     m_to_dict := IoK8sApiCoreV1NFSVolumeSource.to_dict;
     m_from_dict := IoK8sApiCoreV1NFSVolumeSource.from_dict;
     m_to_json := IoK8sApiCoreV1NFSVolumeSource.to_json;
     m_from_json := IoK8sApiCoreV1NFSVolumeSource.from_json;
     m_to_str := IoK8sApiCoreV1NFSVolumeSource.to_str |};
  {| m_schema := IoK8sApiCoreV1PersistentVolumeClaimVolumeSource.schema;
     m_to_dict := IoK8sApiCoreV1PersistentVolumeClaimVolumeSource.to_dict;
     m_from_dict := IoK8sApiCoreV1PersistentVolumeClaimVolumeSource.from_dict;
     m_to_json := IoK8sApiCoreV1PersistentVolumeClaimVolumeSource.to_json;
     m_from_json := IoK8sApiCoreV1PersistentVolumeClaimVolumeSource.from_json;
     m_to_str := IoK8sApiCoreV1PersistentVolumeClaimVolumeSource.to_str |};
  {| m_schema := IoK8sApiCoreV1PhotonPersistentDiskVolumeSource.schema;
     m_to_dict := IoK8sApiCoreV1PhotonPersistentDiskVolumeSource.to_dict;
     m_from_dict := IoK8sApiCoreV1PhotonPersistentDiskVolumeSource.from_dict;
     m_to_json := IoK8sApiCoreV1PhotonPersistentDiskVolumeSource.to_json;
     m_from_json := IoK8sApiCoreV1PhotonPersistentDiskVolumeSource.from_json;
     m_to_str := IoK8sApiCoreV1PhotonPersistentDiskVolumeSource.to_str |};
  {| m_schema := IoK8sApiCoreV1PortworxVolumeSource.schema;
     m_to_dict := IoK8sApiCoreV1PortworxVolumeSource.to_dict;
     m_from_dict := IoK8sApiCoreV1PortworxVolumeSource.from_dict;
     m_to_json := IoK8sApiCoreV1PortworxVolumeSource.to_json;
     m_from_json := IoK8sApiCoreV1PortworxVolumeSource.from_json;
     m_to_str := IoK8sApiCoreV1PortworxVolumeSource.to_str |};
  {| m_schema := IoK8sApiCoreV1ClusterTrustBundleProjection.schema;
     m_to_dict := IoK8sApiCoreV1ClusterTrustBundleProjection.to_dict;
     m_from_dict := IoK8sApiCoreV1ClusterTrustBundleProjection.from_dict;
     m_to_json := IoK8sApiCoreV1ClusterTrustBundleProjection.to_json;
     m_from_json := IoK8sApiCoreV1ClusterTrustBundleProjection.from_json;
     m_to_str := IoK8sApiCoreV1ClusterTrustBundleProjection.to_str |};
  {| m_schema := IoK8sApiCoreV1ConfigMapProjection.schema;
     m_to_dict := IoK8sApiCoreV1ConfigMapProjection.to_dict;
     m_from_dict := IoK8sApiCoreV1ConfigMapProjection.from_dict;
     m_to_json := IoK8sApiCoreV1ConfigMapProjection.to_json;
     m_from_json := IoK8sApiCoreV1ConfigMapProjection.from_json;
     m_to_str := IoK8sApiCoreV1ConfigMapProjection.to_str |};
  {| m_schema := IoK8sApiCoreV1DownwardAPIProjection.schema;
     m_to_dict := IoK8sApiCoreV1DownwardAPIProjection.to_dict;
     m_from_dict := IoK8sApiCoreV1DownwardAPIProjection.from_dict;
     m_to_json := IoK8sApiCoreV1DownwardAPIProjection.to_json;
     m_from_json := IoK8sApiCoreV1DownwardAPIProjection.from_json;
     m_to_str := IoK8sApiCoreV1DownwardAPIProjection.to_str |};
  {| m_schema := IoK8sApiCoreV1PodCertificateProjection.schema;
     m_to_dict := IoK8sApiCoreV1PodCertificateProjection.to_dict;
     m_from_dict := IoK8sApiCoreV1PodCertificateProjection.from_dict;
     m_to_json := IoK8sApiCoreV1PodCertificateProjection.to_json;
     m_from_json := IoK8sApiCoreV1PodCertificateProjection.from_json;
     m_to_str := IoK8sApiCoreV1PodCertificateProjection.to_str |};
  {| m_schema := IoK8sApiCoreV1SecretProjection.schema;
     m_to_dict := IoK8sApiCoreV1SecretProjection.to_dict;
     m_from_dict := IoK8sApiCoreV1SecretProjection.from_dict;
     m_to_json := IoK8sApiCoreV1SecretProjection.to_json;
     m_from_json := IoK8sApiCoreV1SecretProjection.from_json;
     m_to_str := IoK8sApiCoreV1SecretProjection.to_str |};
  {| m_schema := IoK8sApiCoreV1ServiceAccountTokenProjection.schema;
     m_to_dict := IoK8sApiCoreV1ServiceAccountTokenProjection.to_dict;
     m_from_dict := IoK8sApiCoreV1ServiceAccountTokenProjection.from_dict;
     m_to_json := IoK8sApiCoreV1ServiceAccountTokenProjection.to_json;
     m_from_json := IoK8sApiCoreV1ServiceAccountTokenProjection.from_json;
     m_to_str := IoK8sApiCoreV1ServiceAccountTokenProjection.to_str |};
  {| m_schema := IoK8sApiCoreV1VolumeProjection.schema;
     m_to_dict := IoK8sApiCoreV1VolumeProjection.to_dict;
     m_from_dict := IoK8sApiCoreV1VolumeProjection.from_dict;
     m_to_json := IoK8sApiCoreV1VolumeProjection.to_json;
     m_from_json := IoK8sApiCoreV1VolumeProjection.from_json;
     m_to_str := IoK8sApiCoreV1VolumeProjection.to_str |};
  {| m_schema := IoK8sApiCoreV1ProjectedVolumeSource.schema;
     m_to_dict := IoK8sApiCoreV1ProjectedVolumeSource.to_dict;
     m_from_dict := IoK8sApiCoreV1ProjectedVolumeSource.from_dict;
     m_to_json := IoK8sApiCoreV1ProjectedVolumeSource.to_json;
     m_from_json := IoK8sApiCoreV1ProjectedVolumeSource.from_json;
     m_to_str := IoK8sApiCoreV1ProjectedVolumeSource.to_str |};
  {| m_schema := IoK8sApiCoreV1QuobyteVolumeSource.schema;
     m_to_dict := IoK8sApiCoreV1QuobyteVolumeSource.to_dict;
     m_from_dict := IoK8sApiCoreV1QuobyteVolumeSource.from_dict;
     m_to_json := IoK8sApiCoreV1QuobyteVolumeSource.to_json;
     m_from_json := IoK8sApiCoreV1QuobyteVolumeSource.from_json;
     m_to_str := IoK8sApiCoreV1QuobyteVolumeSource.to_str |};
  {| m_schema := IoK8sApiCoreV1RBDVolumeSource.schema;
     m_to_dict := IoK8sApiCoreV1RBDVolumeSource.to_dict;
     m_from_dict := IoK8sApiCoreV1RBDVolumeSource.from_dict;
     m_to_json := IoK8sApiCoreV1RBDVolumeSource.to_json;
     m_from_json := IoK8sApiCoreV1RBDVolumeSource.from_json;
     m_to_str := IoK8sApiCoreV1RBDVolumeSource.to_str |};
  {| m_schema := IoK8sApiCoreV1ScaleIOVolumeSource.schema;
     m_to_dict := IoK8sApiCoreV1ScaleIOVolumeSource.to_dict;
     m_from_dict := IoK8sApiCoreV1ScaleIOVolumeSource.from_dict;
     m_to_json := IoK8sApiCoreV1ScaleIOVolumeSource.to_json;
     m_from_json := IoK8sApiCoreV1ScaleIOVolumeSource.from_json;
     m_to_str := IoK8sApiCoreV1ScaleIOVolumeSource.to_str |};
  {| m_schema := IoK8sApiCoreV1SecretVolumeSource.schema;
     m_to_dict := IoK8sApiCoreV1SecretVolumeSource.to_dict;
     m_from_dict := IoK8sApiCoreV1SecretVolumeSource.from_dict;
     m_to_json := IoK8sApiCoreV1SecretVolumeSource.to_json;
     m_from_json := IoK8sApiCoreV1SecretVolumeSource.from_json;
     m_to_str := IoK8sApiCoreV1SecretVolumeSource.to_str |};
  {| m_schema := IoK8sApiCoreV1StorageOSVolumeSource.schema;
     m_to_dict := IoK8sApiCoreV1StorageOSVolumeSource.to_dict;
     m_from_dict := IoK8sApiCoreV1StorageOSVolumeSource.from_dict;
     m_to_json := IoK8sApiCoreV1StorageOSVolumeSource.to_json;
     m_from_json := IoK8sApiCoreV1StorageOSVolumeSource.from_json;
     m_to_str := IoK8sApiCoreV1StorageOSVolumeSource.to_str |};
  {| m_schema := IoK8sApiCoreV1VsphereVirtualDiskVolumeSource.schema;
     m_to_dict := IoK8sApiCoreV1VsphereVirtualDiskVolumeSource.to_dict;
     m_from_dict := IoK8sApiCoreV1VsphereVirtualDiskVolumeSource.from_dict;
     m_to_json := IoK8sApiCoreV1VsphereVirtualDiskVolumeSource.to_json;
     m_from_json := IoK8sApiCoreV1VsphereVirtualDiskVolumeSource.from_json;
     m_to_str := IoK8sApiCoreV1VsphereVirtualDiskVolumeSource.to_str |};
  {| m_schema := IoK8sApiCoreV1Volume.schema;
     m_to_dict := IoK8sApiCoreV1Volume.to_dict;
     m_from_dict := IoK8sApiCoreV1Volume.from_dict;
     m_to_json := IoK8sApiCoreV1Volume.to_json;
     m_from_json := IoK8sApiCoreV1Volume.from_json;
     m_to_str := IoK8sApiCoreV1Volume.to_str |};
  {| m_schema := IoK8sApiCoreV1PodSpec.schema;
     m_to_dict := IoK8sApiCoreV1PodSpec.to_dict;
     m_from_dict := IoK8sApiCoreV1PodSpec.from_dict;
     m_to_json := IoK8sApiCoreV1PodSpec.to_json;
     m_from_json := IoK8sApiCoreV1PodSpec.from_json;
     m_to_str := IoK8sApiCoreV1PodSpec.to_str |};
  {| m_schema := IoK8sApiCoreV1PodTemplateSpec.schema;
     m_to_dict := IoK8sApiCoreV1PodTemplateSpec.to_dict;
     m_from_dict := IoK8sApiCoreV1PodTemplateSpec.from_dict;
     m_to_json := IoK8sApiCoreV1PodTemplateSpec.to_json;
     m_from_json := IoK8sApiCoreV1PodTemplateSpec.from_json;
     m_to_str := IoK8sApiCoreV1PodTemplateSpec.to_str |};
  {| m_schema := IoK8sApiCoreV1PersistentVolumeClaimCondition.schema;
     m_to_dict := IoK8sApiCoreV1PersistentVolumeClaimCondition.to_dict;
     m_from_dict := IoK8sApiCoreV1PersistentVolumeClaimCondition.from_dict;
     m_to_json := IoK8sApiCoreV1PersistentVolumeClaimCondition.to_json;
     m_from_json := IoK8sApiCoreV1PersistentVolumeClaimCondition.from_json;
     m_to_str := IoK8sApiCoreV1PersistentVolumeClaimCondition.to_str |};
  {| m_schema := IoK8sApiCoreV1VolumeHealthCondition.schema;
     m_to_dict := IoK8sApiCoreV1VolumeHealthCondition.to_dict;
     m_from_dict := IoK8sApiCoreV1VolumeHealthCondition.from_dict;
     m_to_json := IoK8sApiCoreV1VolumeHealthCondition.to_json;
     m_from_json := IoK8sApiCoreV1VolumeHealthCondition.from_json;
     m_to_str := IoK8sApiCoreV1VolumeHealthCondition.to_str |};
  {| m_schema := IoK8sApiCoreV1VolumeHealthStatus.schema;
     m_to_dict := IoK8sApiCoreV1VolumeHealthStatus.to_dict;
     m_from_dict := IoK8sApiCoreV1VolumeHealthStatus.from_dict;
     m_to_json := IoK8sApiCoreV1VolumeHealthStatus.to_json;
     m_from_json := IoK8sApiCoreV1VolumeHealthStatus.from_json;
     m_to_str := IoK8sApiCoreV1VolumeHealthStatus.to_str |};
  {| m_schema := IoK8sApiCoreV1ModifyVolumeStatus.schema;
     m_to_dict := IoK8sApiCoreV1ModifyVolumeStatus.to_dict;
     m_from_dict := IoK8sApiCoreV1ModifyVolumeStatus.from_dict;
     m_to_json := IoK8sApiCoreV1ModifyVolumeStatus.to_json;
     m_from_json := IoK8sApiCoreV1ModifyVolumeStatus.from_json;
     m_to_str := IoK8sApiCoreV1ModifyVolumeStatus.to_str |};
  {| m_schema := IoK8sApiCoreV1PersistentVolumeClaimStatus.schema;
     m_to_dict := IoK8sApiCoreV1PersistentVolumeClaimStatus.to_dict;
     m_from_dict := IoK8sApiCoreV1PersistentVolumeClaimStatus.from_dict;
     m_to_json := IoK8sApiCoreV1PersistentVolumeClaimStatus.to_json;
     m_from_json := IoK8sApiCoreV1PersistentVolumeClaimStatus.from_json;
     m_to_str := IoK8sApiCoreV1PersistentVolumeClaimStatus.to_str |};
  {| m_schema := IoK8sApiCoreV1PersistentVolumeClaim.schema;
     m_to_dict := IoK8sApiCoreV1PersistentVolumeClaim.to_dict;
     m_from_dict := IoK8sApiCoreV1PersistentVolumeClaim.from_dict;
     m_to_json := IoK8sApiCoreV1PersistentVolumeClaim.to_json;
     m_from_json := IoK8sApiCoreV1PersistentVolumeClaim.from_json;
     m_to_str := IoK8sApiCoreV1PersistentVolumeClaim.to_str |}].
Lemma core_models_templated `{PydanticLaws} : Forall is_templated core_models.
Proof. solve_models. Qed.
