(* ===== verification/ApiJobSet.v ===== *)
(** * Batch, scheduling and JobSet models

    The classes of the batch, scheduling and JobSet APIs that a training runtime
    uses, from api/python_api/kubeflow_trainer_api/models (io_k8s_api_batch_*,
    io_k8s_api_scheduling_*, jobset_* and scheduling_* files). Each Module is a class:
    its fields, [to_dict] and [from_dict]. *)

From S2P Require Import Prelude PyStr PyValue Pydantic PydanticSpec PydanticDocs.
From S2P Require Import OneOf ApiMeta ApiCore.
Local Open Scope string_scope.
Local Open Scope list_scope.

Module SchedulingV1beta1NetworkTopologySpec.
Definition schema `{Pydantic} : Schema := model "SchedulingV1beta1NetworkTopologySpec" [
  opt "highest_tier_allowed" "highestTierAllowed" StrictInt;
  opt "mode" "mode" StrictStr].
Definition to_dict `{Pydantic} : value → outcome value := to_dict_with schema [].
Definition from_dict `{Pydantic} : value → outcome value := from_dict_with schema [
  Get "highestTierAllowed";
  Get "mode"].
Definition to_json `{Pydantic} : value → outcome string := to_json_with to_dict.
Definition from_json `{Pydantic} : string → outcome value := from_json_with from_dict.
Definition to_str `{Pydantic} : value → outcome string := to_str_with schema.
End SchedulingV1beta1NetworkTopologySpec.
#[export] Instance SchedulingV1beta1NetworkTopologySpec_templated `{PydanticLaws} :
  Templated SchedulingV1beta1NetworkTopologySpec.schema
    SchedulingV1beta1NetworkTopologySpec.to_dict SchedulingV1beta1NetworkTopologySpec.from_dict.
Proof. solve_model. Qed.

Module JobsetV1alpha2Coordinator.
Definition schema `{Pydantic} : Schema := model "JobsetV1alpha2Coordinator" [
  opt "job_index" "jobIndex" StrictInt;
  opt "pod_index" "podIndex" StrictInt;
  req "replicated_job" "replicatedJob" StrictStr].
Definition to_dict `{Pydantic} : value → outcome value := to_dict_with schema [].
Definition from_dict `{Pydantic} : value → outcome value := from_dict_with schema [
  Get "jobIndex";
  Get "podIndex";
  GetOr "replicatedJob" (VStr "")].
Definition to_json `{Pydantic} : value → outcome string := to_json_with to_dict.
Definition from_json `{Pydantic} : string → outcome value := from_json_with from_dict.
Definition to_str `{Pydantic} : value → outcome string := to_str_with schema.
End JobsetV1alpha2Coordinator.
#[export] Instance JobsetV1alpha2Coordinator_templated `{PydanticLaws} :
  Templated JobsetV1alpha2Coordinator.schema JobsetV1alpha2Coordinator.to_dict
    JobsetV1alpha2Coordinator.from_dict.
Proof. solve_model. Qed.

Module JobsetV1alpha2FailurePolicyRule.
Definition schema `{Pydantic} : Schema := model "JobsetV1alpha2FailurePolicyRule" [
  req "action" "action" StrictStr;
  req "name" "name" StrictStr;
  opt "on_job_failure_message_patterns" "onJobFailureMessagePatterns" (List StrictStr);
  opt "on_job_failure_reasons" "onJobFailureReasons" (List StrictStr);
  opt "target_replicated_jobs" "targetReplicatedJobs" (List StrictStr)].
Definition to_dict `{Pydantic} : value → outcome value := to_dict_with schema [].
Definition from_dict `{Pydantic} : value → outcome value := from_dict_with schema [
  GetOr "action" (VStr "");
  GetOr "name" (VStr "");
  Get "onJobFailureMessagePatterns";
  Get "onJobFailureReasons";
  Get "targetReplicatedJobs"].
Definition to_json `{Pydantic} : value → outcome string := to_json_with to_dict.
Definition from_json `{Pydantic} : string → outcome value := from_json_with from_dict.
Definition to_str `{Pydantic} : value → outcome string := to_str_with schema.
End JobsetV1alpha2FailurePolicyRule.
#[export] Instance JobsetV1alpha2FailurePolicyRule_templated `{PydanticLaws} :
  Templated JobsetV1alpha2FailurePolicyRule.schema JobsetV1alpha2FailurePolicyRule.to_dict
    JobsetV1alpha2FailurePolicyRule.from_dict.
Proof. solve_model. Qed.

Module JobsetV1alpha2FailurePolicy.
Definition schema `{Pydantic} : Schema := model "JobsetV1alpha2FailurePolicy" [
  opt "max_restarts" "maxRestarts" StrictInt;
  opt "restart_strategy" "restartStrategy" StrictStr;
  opt "rules" "rules" (List (Model JobsetV1alpha2FailurePolicyRule.schema))].
Definition to_dict `{Pydantic} : value → outcome value := to_dict_with schema [
  DumpItems "rules" "rules" JobsetV1alpha2FailurePolicyRule.to_dict].
Definition from_dict `{Pydantic} : value → outcome value := from_dict_with schema [
  Get "maxRestarts";
  Get "restartStrategy";
  FromDictItems "rules" JobsetV1alpha2FailurePolicyRule.from_dict].
Definition to_json `{Pydantic} : value → outcome string := to_json_with to_dict.
Definition from_json `{Pydantic} : string → outcome value := from_json_with from_dict.
Definition to_str `{Pydantic} : value → outcome string := to_str_with schema.
End JobsetV1alpha2FailurePolicy.
#[export] Instance JobsetV1alpha2FailurePolicy_templated `{PydanticLaws} :
  Templated JobsetV1alpha2FailurePolicy.schema JobsetV1alpha2FailurePolicy.to_dict
    JobsetV1alpha2FailurePolicy.from_dict.
Proof. solve_model. Qed.

Module JobsetV1alpha2Network.
Definition schema `{Pydantic} : Schema := model "JobsetV1alpha2Network" [
  opt "enable_dns_hostnames" "enableDNSHostnames" StrictBool;
  opt "publish_not_ready_addresses" "publishNotReadyAddresses" StrictBool;
  opt "subdomain" "subdomain" StrictStr].
Definition to_dict `{Pydantic} : value → outcome value := to_dict_with schema [].
Definition from_dict `{Pydantic} : value → outcome value := from_dict_with schema [
  Get "enableDNSHostnames";
  Get "publishNotReadyAddresses";
  Get "subdomain"].
Definition to_json `{Pydantic} : value → outcome string := to_json_with to_dict.
Definition from_json `{Pydantic} : string → outcome value := from_json_with from_dict.
Definition to_str `{Pydantic} : value → outcome string := to_str_with schema.
End JobsetV1alpha2Network.
#[export] Instance JobsetV1alpha2Network_templated `{PydanticLaws} :
  Templated JobsetV1alpha2Network.schema JobsetV1alpha2Network.to_dict
    JobsetV1alpha2Network.from_dict.
Proof. solve_model. Qed.

Module JobsetV1alpha2DependsOn.
Definition schema `{Pydantic} : Schema := model "JobsetV1alpha2DependsOn" [
  req "name" "name" StrictStr;
  req "status" "status" StrictStr].
Definition to_dict `{Pydantic} : value → outcome value := to_dict_with schema [].
Definition from_dict `{Pydantic} : value → outcome value := from_dict_with schema [
  GetOr "name" (VStr "");
  GetOr "status" (VStr "")].
Definition to_json `{Pydantic} : value → outcome string := to_json_with to_dict.
Definition from_json `{Pydantic} : string → outcome value := from_json_with from_dict.
Definition to_str `{Pydantic} : value → outcome string := to_str_with schema.
End JobsetV1alpha2DependsOn.
#[export] Instance JobsetV1alpha2DependsOn_templated `{PydanticLaws} :
  Templated JobsetV1alpha2DependsOn.schema JobsetV1alpha2DependsOn.to_dict
    JobsetV1alpha2DependsOn.from_dict.
Proof. solve_model. Qed.

Module IoK8sApiBatchV1PodFailurePolicyOnExitCodesRequirement.
Definition schema `{Pydantic} : Schema :=
  model "IoK8sApiBatchV1PodFailurePolicyOnExitCodesRequirement" [
  opt "container_name" "containerName" StrictStr;
  checked (req "operator" "operator" StrictStr)
    (one_of ["In"; "NotIn"]);
  req "values" "values" (List StrictInt)].
Definition to_dict `{Pydantic} : value → outcome value := to_dict_with schema [].
Definition from_dict `{Pydantic} : value → outcome value := from_dict_with schema [
  Get "containerName";
  Get "operator";
  Get "values"].
Definition to_json `{Pydantic} : value → outcome string := to_json_with to_dict.
Definition from_json `{Pydantic} : string → outcome value := from_json_with from_dict.
Definition to_str `{Pydantic} : value → outcome string := to_str_with schema.
End IoK8sApiBatchV1PodFailurePolicyOnExitCodesRequirement.
#[export] Instance IoK8sApiBatchV1PodFailurePolicyOnExitCodesRequirement_templated `{PydanticLaws} :
  Templated IoK8sApiBatchV1PodFailurePolicyOnExitCodesRequirement.schema
    IoK8sApiBatchV1PodFailurePolicyOnExitCodesRequirement.to_dict
      IoK8sApiBatchV1PodFailurePolicyOnExitCodesRequirement.from_dict.
Proof. solve_model. Qed.

Module IoK8sApiBatchV1PodFailurePolicyOnPodConditionsPattern.
Definition schema `{Pydantic} : Schema :=
  model "IoK8sApiBatchV1PodFailurePolicyOnPodConditionsPattern" [
  opt_or "status" "status" StrictStr (VStr "");
  req "type" "type" StrictStr].
Definition to_dict `{Pydantic} : value → outcome value := to_dict_with schema [].
Definition from_dict `{Pydantic} : value → outcome value := from_dict_with schema [
  GetOr "status" (VStr "");
  GetOr "type" (VStr "")].
Definition to_json `{Pydantic} : value → outcome string := to_json_with to_dict.
Definition from_json `{Pydantic} : string → outcome value := from_json_with from_dict.
Definition to_str `{Pydantic} : value → outcome string := to_str_with schema.
End IoK8sApiBatchV1PodFailurePolicyOnPodConditionsPattern.
#[export] Instance IoK8sApiBatchV1PodFailurePolicyOnPodConditionsPattern_templated `{PydanticLaws} :
  Templated IoK8sApiBatchV1PodFailurePolicyOnPodConditionsPattern.schema
    IoK8sApiBatchV1PodFailurePolicyOnPodConditionsPattern.to_dict
      IoK8sApiBatchV1PodFailurePolicyOnPodConditionsPattern.from_dict.
Proof. solve_model. Qed.

Module IoK8sApiBatchV1PodFailurePolicyRule.
Definition schema `{Pydantic} : Schema := model "IoK8sApiBatchV1PodFailurePolicyRule" [
  checked (req "action" "action" StrictStr)
    (one_of ["Count"; "FailIndex"; "FailJob"; "Ignore"]);
  opt "on_exit_codes" "onExitCodes"
    (Model IoK8sApiBatchV1PodFailurePolicyOnExitCodesRequirement.schema);
  opt "on_pod_conditions" "onPodConditions" (List
    (Model IoK8sApiBatchV1PodFailurePolicyOnPodConditionsPattern.schema))].
Definition to_dict `{Pydantic} : value → outcome value := to_dict_with schema [
  Dump "on_exit_codes" "onExitCodes" IoK8sApiBatchV1PodFailurePolicyOnExitCodesRequirement.to_dict;
  DumpItems "on_pod_conditions" "onPodConditions"
    IoK8sApiBatchV1PodFailurePolicyOnPodConditionsPattern.to_dict].
Definition from_dict `{Pydantic} : value → outcome value := from_dict_with schema [
  Get "action";
  FromDict "onExitCodes" IoK8sApiBatchV1PodFailurePolicyOnExitCodesRequirement.from_dict;
  FromDictItems "onPodConditions" IoK8sApiBatchV1PodFailurePolicyOnPodConditionsPattern.from_dict].
Definition to_json `{Pydantic} : value → outcome string := to_json_with to_dict.
Definition from_json `{Pydantic} : string → outcome value := from_json_with from_dict.
Definition to_str `{Pydantic} : value → outcome string := to_str_with schema.
End IoK8sApiBatchV1PodFailurePolicyRule.
#[export] Instance IoK8sApiBatchV1PodFailurePolicyRule_templated `{PydanticLaws} :
  Templated IoK8sApiBatchV1PodFailurePolicyRule.schema IoK8sApiBatchV1PodFailurePolicyRule.to_dict
    IoK8sApiBatchV1PodFailurePolicyRule.from_dict.
Proof. solve_model. Qed.

Module IoK8sApiBatchV1PodFailurePolicy.
Definition schema `{Pydantic} : Schema := model "IoK8sApiBatchV1PodFailurePolicy" [
  req "rules" "rules" (List (Model IoK8sApiBatchV1PodFailurePolicyRule.schema))].
Definition to_dict `{Pydantic} : value → outcome value := to_dict_with schema [
  DumpItems "rules" "rules" IoK8sApiBatchV1PodFailurePolicyRule.to_dict].
Definition from_dict `{Pydantic} : value → outcome value := from_dict_with schema [
  FromDictItems "rules" IoK8sApiBatchV1PodFailurePolicyRule.from_dict].
Definition to_json `{Pydantic} : value → outcome string := to_json_with to_dict.
Definition from_json `{Pydantic} : string → outcome value := from_json_with from_dict.
Definition to_str `{Pydantic} : value → outcome string := to_str_with schema.
End IoK8sApiBatchV1PodFailurePolicy.
#[export] Instance IoK8sApiBatchV1PodFailurePolicy_templated `{PydanticLaws} :
  Templated IoK8sApiBatchV1PodFailurePolicy.schema IoK8sApiBatchV1PodFailurePolicy.to_dict
    IoK8sApiBatchV1PodFailurePolicy.from_dict.
Proof. solve_model. Qed.

Module IoK8sApiSchedulingV1alpha3WorkloadPodGroupDisruptionMode.
Definition schema `{Pydantic} : Schema :=
  model "IoK8sApiSchedulingV1alpha3WorkloadPodGroupDisruptionMode" [
  opt "all" "all" (Dict AnyValue);
  opt "single" "single" (Dict AnyValue)].
Definition to_dict `{Pydantic} : value → outcome value := to_dict_with schema [].
Definition from_dict `{Pydantic} : value → outcome value := from_dict_with schema [
  Get "all";
  Get "single"].
Definition to_json `{Pydantic} : value → outcome string := to_json_with to_dict.
Definition from_json `{Pydantic} : string → outcome value := from_json_with from_dict.
Definition to_str `{Pydantic} : value → outcome string := to_str_with schema.
End IoK8sApiSchedulingV1alpha3WorkloadPodGroupDisruptionMode.
#[export] Instance IoK8sApiSchedulingV1alpha3WorkloadPodGroupDisruptionMode_templated
  `{PydanticLaws} :
  Templated IoK8sApiSchedulingV1alpha3WorkloadPodGroupDisruptionMode.schema
    IoK8sApiSchedulingV1alpha3WorkloadPodGroupDisruptionMode.to_dict
      IoK8sApiSchedulingV1alpha3WorkloadPodGroupDisruptionMode.from_dict.
Proof. solve_model. Qed.

Module IoK8sApiSchedulingV1alpha3WorkloadPodGroupResourceClaim.
Definition schema `{Pydantic} : Schema :=
  model "IoK8sApiSchedulingV1alpha3WorkloadPodGroupResourceClaim" [
  req "name" "name" StrictStr;
  opt "resource_claim_name" "resourceClaimName" StrictStr;
  opt "resource_claim_template_name" "resourceClaimTemplateName" StrictStr].
Definition to_dict `{Pydantic} : value → outcome value := to_dict_with schema [].
Definition from_dict `{Pydantic} : value → outcome value := from_dict_with schema [
  GetOr "name" (VStr "");
  Get "resourceClaimName";
  Get "resourceClaimTemplateName"].
Definition to_json `{Pydantic} : value → outcome string := to_json_with to_dict.
Definition from_json `{Pydantic} : string → outcome value := from_json_with from_dict.
Definition to_str `{Pydantic} : value → outcome string := to_str_with schema.
End IoK8sApiSchedulingV1alpha3WorkloadPodGroupResourceClaim.
#[export] Instance IoK8sApiSchedulingV1alpha3WorkloadPodGroupResourceClaim_templated
  `{PydanticLaws} :
  Templated IoK8sApiSchedulingV1alpha3WorkloadPodGroupResourceClaim.schema
    IoK8sApiSchedulingV1alpha3WorkloadPodGroupResourceClaim.to_dict
      IoK8sApiSchedulingV1alpha3WorkloadPodGroupResourceClaim.from_dict.
Proof. solve_model. Qed.

Module IoK8sApiSchedulingV1alpha3TopologyConstraint.
Definition schema `{Pydantic} : Schema := model "IoK8sApiSchedulingV1alpha3TopologyConstraint" [
  req "key" "key" StrictStr].
Definition to_dict `{Pydantic} : value → outcome value := to_dict_with schema [].
Definition from_dict `{Pydantic} : value → outcome value := from_dict_with schema [
  GetOr "key" (VStr "")].
Definition to_json `{Pydantic} : value → outcome string := to_json_with to_dict.
Definition from_json `{Pydantic} : string → outcome value := from_json_with from_dict.
Definition to_str `{Pydantic} : value → outcome string := to_str_with schema.
End IoK8sApiSchedulingV1alpha3TopologyConstraint.
#[export] Instance IoK8sApiSchedulingV1alpha3TopologyConstraint_templated `{PydanticLaws} :
  Templated IoK8sApiSchedulingV1alpha3TopologyConstraint.schema
    IoK8sApiSchedulingV1alpha3TopologyConstraint.to_dict
      IoK8sApiSchedulingV1alpha3TopologyConstraint.from_dict.
Proof. solve_model. Qed.

Module IoK8sApiSchedulingV1alpha3WorkloadPodGroupSchedulingConstraints.
Definition schema `{Pydantic} : Schema :=
  model "IoK8sApiSchedulingV1alpha3WorkloadPodGroupSchedulingConstraints" [
  opt "topology" "topology" (List (Model IoK8sApiSchedulingV1alpha3TopologyConstraint.schema))].
Definition to_dict `{Pydantic} : value → outcome value := to_dict_with schema [
  DumpItems "topology" "topology" IoK8sApiSchedulingV1alpha3TopologyConstraint.to_dict].
Definition from_dict `{Pydantic} : value → outcome value := from_dict_with schema [
  FromDictItems "topology" IoK8sApiSchedulingV1alpha3TopologyConstraint.from_dict].
Definition to_json `{Pydantic} : value → outcome string := to_json_with to_dict.
Definition from_json `{Pydantic} : string → outcome value := from_json_with from_dict.
Definition to_str `{Pydantic} : value → outcome string := to_str_with schema.
End IoK8sApiSchedulingV1alpha3WorkloadPodGroupSchedulingConstraints.
#[export] Instance IoK8sApiSchedulingV1alpha3WorkloadPodGroupSchedulingConstraints_templated
  `{PydanticLaws} :
  Templated IoK8sApiSchedulingV1alpha3WorkloadPodGroupSchedulingConstraints.schema
    IoK8sApiSchedulingV1alpha3WorkloadPodGroupSchedulingConstraints.to_dict
      IoK8sApiSchedulingV1alpha3WorkloadPodGroupSchedulingConstraints.from_dict.
Proof. solve_model. Qed.

Module IoK8sApiSchedulingV1alpha3WorkloadPodGroupGangSchedulingPolicy.
Definition schema `{Pydantic} : Schema :=
  model "IoK8sApiSchedulingV1alpha3WorkloadPodGroupGangSchedulingPolicy" [
  opt "min_count" "minCount" StrictInt].
Definition to_dict `{Pydantic} : value → outcome value := to_dict_with schema [].
Definition from_dict `{Pydantic} : value → outcome value := from_dict_with schema [
  Get "minCount"].
Definition to_json `{Pydantic} : value → outcome string := to_json_with to_dict.
Definition from_json `{Pydantic} : string → outcome value := from_json_with from_dict.
Definition to_str `{Pydantic} : value → outcome string := to_str_with schema.
End IoK8sApiSchedulingV1alpha3WorkloadPodGroupGangSchedulingPolicy.
#[export] Instance IoK8sApiSchedulingV1alpha3WorkloadPodGroupGangSchedulingPolicy_templated
  `{PydanticLaws} :
  Templated IoK8sApiSchedulingV1alpha3WorkloadPodGroupGangSchedulingPolicy.schema
    IoK8sApiSchedulingV1alpha3WorkloadPodGroupGangSchedulingPolicy.to_dict
      IoK8sApiSchedulingV1alpha3WorkloadPodGroupGangSchedulingPolicy.from_dict.
Proof. solve_model. Qed.

Module IoK8sApiSchedulingV1alpha3WorkloadPodGroupSchedulingPolicy.
Definition schema `{Pydantic} : Schema :=
  model "IoK8sApiSchedulingV1alpha3WorkloadPodGroupSchedulingPolicy" [
  opt "basic" "basic" (Dict AnyValue);
  opt "gang" "gang" (Model IoK8sApiSchedulingV1alpha3WorkloadPodGroupGangSchedulingPolicy.schema)].
Definition to_dict `{Pydantic} : value → outcome value := to_dict_with schema [
  Dump "gang" "gang" IoK8sApiSchedulingV1alpha3WorkloadPodGroupGangSchedulingPolicy.to_dict].
Definition from_dict `{Pydantic} : value → outcome value := from_dict_with schema [
  Get "basic";
  FromDict "gang" IoK8sApiSchedulingV1alpha3WorkloadPodGroupGangSchedulingPolicy.from_dict].
Definition to_json `{Pydantic} : value → outcome string := to_json_with to_dict.
Definition from_json `{Pydantic} : string → outcome value := from_json_with from_dict.
Definition to_str `{Pydantic} : value → outcome string := to_str_with schema.
End IoK8sApiSchedulingV1alpha3WorkloadPodGroupSchedulingPolicy.
#[export] Instance IoK8sApiSchedulingV1alpha3WorkloadPodGroupSchedulingPolicy_templated
  `{PydanticLaws} :
  Templated IoK8sApiSchedulingV1alpha3WorkloadPodGroupSchedulingPolicy.schema
    IoK8sApiSchedulingV1alpha3WorkloadPodGroupSchedulingPolicy.to_dict
      IoK8sApiSchedulingV1alpha3WorkloadPodGroupSchedulingPolicy.from_dict.
Proof. solve_model. Qed.

Module IoK8sApiBatchV1JobSchedulingConfiguration.
Definition schema `{Pydantic} : Schema := model "IoK8sApiBatchV1JobSchedulingConfiguration" [
  opt "disruption_mode" "disruptionMode"
    (Model IoK8sApiSchedulingV1alpha3WorkloadPodGroupDisruptionMode.schema);
  opt "resource_claims" "resourceClaims" (List
    (Model IoK8sApiSchedulingV1alpha3WorkloadPodGroupResourceClaim.schema));
  opt "scheduling_constraints" "schedulingConstraints"
    (Model IoK8sApiSchedulingV1alpha3WorkloadPodGroupSchedulingConstraints.schema);
  opt "scheduling_policy" "schedulingPolicy"
    (Model IoK8sApiSchedulingV1alpha3WorkloadPodGroupSchedulingPolicy.schema)].
Definition to_dict `{Pydantic} : value → outcome value := to_dict_with schema [
  Dump "disruption_mode" "disruptionMode"
    IoK8sApiSchedulingV1alpha3WorkloadPodGroupDisruptionMode.to_dict;
  DumpItems "resource_claims" "resourceClaims"
    IoK8sApiSchedulingV1alpha3WorkloadPodGroupResourceClaim.to_dict;
  Dump "scheduling_constraints" "schedulingConstraints"
    IoK8sApiSchedulingV1alpha3WorkloadPodGroupSchedulingConstraints.to_dict;
  Dump "scheduling_policy" "schedulingPolicy"
    IoK8sApiSchedulingV1alpha3WorkloadPodGroupSchedulingPolicy.to_dict].
Definition from_dict `{Pydantic} : value → outcome value := from_dict_with schema [
  FromDict "disruptionMode" IoK8sApiSchedulingV1alpha3WorkloadPodGroupDisruptionMode.from_dict;
  FromDictItems "resourceClaims" IoK8sApiSchedulingV1alpha3WorkloadPodGroupResourceClaim.from_dict;
  FromDict "schedulingConstraints"
    IoK8sApiSchedulingV1alpha3WorkloadPodGroupSchedulingConstraints.from_dict;
  FromDict "schedulingPolicy" IoK8sApiSchedulingV1alpha3WorkloadPodGroupSchedulingPolicy.from_dict].
Definition to_json `{Pydantic} : value → outcome string := to_json_with to_dict.
Definition from_json `{Pydantic} : string → outcome value := from_json_with from_dict.
Definition to_str `{Pydantic} : value → outcome string := to_str_with schema.
End IoK8sApiBatchV1JobSchedulingConfiguration.
#[export] Instance IoK8sApiBatchV1JobSchedulingConfiguration_templated `{PydanticLaws} :
  Templated IoK8sApiBatchV1JobSchedulingConfiguration.schema
    IoK8sApiBatchV1JobSchedulingConfiguration.to_dict
      IoK8sApiBatchV1JobSchedulingConfiguration.from_dict.
Proof. solve_model. Qed.

Module IoK8sApiBatchV1SuccessPolicyRule.
Definition schema `{Pydantic} : Schema := model "IoK8sApiBatchV1SuccessPolicyRule" [
  opt "succeeded_count" "succeededCount" StrictInt;
  opt "succeeded_indexes" "succeededIndexes" StrictStr].
Definition to_dict `{Pydantic} : value → outcome value := to_dict_with schema [].
Definition from_dict `{Pydantic} : value → outcome value := from_dict_with schema [
  Get "succeededCount";
  Get "succeededIndexes"].
Definition to_json `{Pydantic} : value → outcome string := to_json_with to_dict.
Definition from_json `{Pydantic} : string → outcome value := from_json_with from_dict.
Definition to_str `{Pydantic} : value → outcome string := to_str_with schema.
End IoK8sApiBatchV1SuccessPolicyRule.
#[export] Instance IoK8sApiBatchV1SuccessPolicyRule_templated `{PydanticLaws} :
  Templated IoK8sApiBatchV1SuccessPolicyRule.schema IoK8sApiBatchV1SuccessPolicyRule.to_dict
    IoK8sApiBatchV1SuccessPolicyRule.from_dict.
Proof. solve_model. Qed.

Module IoK8sApiBatchV1SuccessPolicy.
Definition schema `{Pydantic} : Schema := model "IoK8sApiBatchV1SuccessPolicy" [
  req "rules" "rules" (List (Model IoK8sApiBatchV1SuccessPolicyRule.schema))].
Definition to_dict `{Pydantic} : value → outcome value := to_dict_with schema [
  DumpItems "rules" "rules" IoK8sApiBatchV1SuccessPolicyRule.to_dict].
Definition from_dict `{Pydantic} : value → outcome value := from_dict_with schema [
  FromDictItems "rules" IoK8sApiBatchV1SuccessPolicyRule.from_dict].
Definition to_json `{Pydantic} : value → outcome string := to_json_with to_dict.
Definition from_json `{Pydantic} : string → outcome value := from_json_with from_dict.
Definition to_str `{Pydantic} : value → outcome string := to_str_with schema.
End IoK8sApiBatchV1SuccessPolicy.
#[export] Instance IoK8sApiBatchV1SuccessPolicy_templated `{PydanticLaws} :
  Templated IoK8sApiBatchV1SuccessPolicy.schema IoK8sApiBatchV1SuccessPolicy.to_dict
    IoK8sApiBatchV1SuccessPolicy.from_dict.
Proof. solve_model. Qed.

Module IoK8sApiBatchV1JobSpec.
Definition schema `{Pydantic} : Schema := model "IoK8sApiBatchV1JobSpec" [
  opt "active_deadline_seconds" "activeDeadlineSeconds" StrictInt;
  opt "backoff_limit" "backoffLimit" StrictInt;
  opt "backoff_limit_per_index" "backoffLimitPerIndex" StrictInt;
  checked (opt "completion_mode" "completionMode" StrictStr)
    (none_or_one_of ["Indexed"; "NonIndexed"]);
  opt "completions" "completions" StrictInt;
  opt "managed_by" "managedBy" StrictStr;
  opt "manual_selector" "manualSelector" StrictBool;
  opt "max_failed_indexes" "maxFailedIndexes" StrictInt;
  opt "parallelism" "parallelism" StrictInt;
  opt "pod_failure_policy" "podFailurePolicy" (Model IoK8sApiBatchV1PodFailurePolicy.schema);
  checked (opt "pod_replacement_policy" "podReplacementPolicy" StrictStr)
    (none_or_one_of ["Failed"; "TerminatingOrFailed"]);
  opt "scheduling" "scheduling" (Model IoK8sApiBatchV1JobSchedulingConfiguration.schema);
  opt "selector" "selector" (Model IoK8sApimachineryPkgApisMetaV1LabelSelector.schema);
  opt "success_policy" "successPolicy" (Model IoK8sApiBatchV1SuccessPolicy.schema);
  opt "suspend" "suspend" StrictBool;
  req "template" "template" (Model IoK8sApiCoreV1PodTemplateSpec.schema);
  opt "ttl_seconds_after_finished" "ttlSecondsAfterFinished" StrictInt].
Definition to_dict `{Pydantic} : value → outcome value := to_dict_with schema [
  Dump "pod_failure_policy" "podFailurePolicy" IoK8sApiBatchV1PodFailurePolicy.to_dict;
  Dump "scheduling" "scheduling" IoK8sApiBatchV1JobSchedulingConfiguration.to_dict;
  Dump "selector" "selector" IoK8sApimachineryPkgApisMetaV1LabelSelector.to_dict;
  Dump "success_policy" "successPolicy" IoK8sApiBatchV1SuccessPolicy.to_dict;
  Dump "template" "template" IoK8sApiCoreV1PodTemplateSpec.to_dict].
Definition from_dict `{Pydantic} : value → outcome value := from_dict_with schema [
  Get "activeDeadlineSeconds";
  Get "backoffLimit";
  Get "backoffLimitPerIndex";
  Get "completionMode";
  Get "completions";
  Get "managedBy";
  Get "manualSelector";
  Get "maxFailedIndexes";
  Get "parallelism";
  FromDict "podFailurePolicy" IoK8sApiBatchV1PodFailurePolicy.from_dict;
  Get "podReplacementPolicy";
  FromDict "scheduling" IoK8sApiBatchV1JobSchedulingConfiguration.from_dict;
  FromDict "selector" IoK8sApimachineryPkgApisMetaV1LabelSelector.from_dict;
  FromDict "successPolicy" IoK8sApiBatchV1SuccessPolicy.from_dict;
  Get "suspend";
  FromDict "template" IoK8sApiCoreV1PodTemplateSpec.from_dict;
  Get "ttlSecondsAfterFinished"].
Definition to_json `{Pydantic} : value → outcome string := to_json_with to_dict.
Definition from_json `{Pydantic} : string → outcome value := from_json_with from_dict.
Definition to_str `{Pydantic} : value → outcome string := to_str_with schema.
End IoK8sApiBatchV1JobSpec.
#[export] Instance IoK8sApiBatchV1JobSpec_templated `{PydanticLaws} :
  Templated IoK8sApiBatchV1JobSpec.schema IoK8sApiBatchV1JobSpec.to_dict
    IoK8sApiBatchV1JobSpec.from_dict.
Proof. solve_model. Qed.

Module IoK8sApiBatchV1JobTemplateSpec.
Definition schema `{Pydantic} : Schema := model "IoK8sApiBatchV1JobTemplateSpec" [
  opt "metadata" "metadata" (Model IoK8sApimachineryPkgApisMetaV1ObjectMeta.schema);
  opt "spec" "spec" (Model IoK8sApiBatchV1JobSpec.schema)].
Definition to_dict `{Pydantic} : value → outcome value := to_dict_with schema [
  Dump "metadata" "metadata" IoK8sApimachineryPkgApisMetaV1ObjectMeta.to_dict;
  Dump "spec" "spec" IoK8sApiBatchV1JobSpec.to_dict].
Definition from_dict `{Pydantic} : value → outcome value := from_dict_with schema [
  FromDict "metadata" IoK8sApimachineryPkgApisMetaV1ObjectMeta.from_dict;
  FromDict "spec" IoK8sApiBatchV1JobSpec.from_dict].
Definition to_json `{Pydantic} : value → outcome string := to_json_with to_dict.
Definition from_json `{Pydantic} : string → outcome value := from_json_with from_dict.
Definition to_str `{Pydantic} : value → outcome string := to_str_with schema.
End IoK8sApiBatchV1JobTemplateSpec.
#[export] Instance IoK8sApiBatchV1JobTemplateSpec_templated `{PydanticLaws} :
  Templated IoK8sApiBatchV1JobTemplateSpec.schema IoK8sApiBatchV1JobTemplateSpec.to_dict
    IoK8sApiBatchV1JobTemplateSpec.from_dict.
Proof. solve_model. Qed.

Module JobsetV1alpha2ReplicatedJob.
Definition schema `{Pydantic} : Schema := model "JobsetV1alpha2ReplicatedJob" [
  opt "depends_on" "dependsOn" (List (Model JobsetV1alpha2DependsOn.schema));
  opt "group_name" "groupName" StrictStr;
  req "name" "name" StrictStr;
  opt "replicas" "replicas" StrictInt;
  req "template" "template" (Model IoK8sApiBatchV1JobTemplateSpec.schema)].
Definition to_dict `{Pydantic} : value → outcome value := to_dict_with schema [
  DumpItems "depends_on" "dependsOn" JobsetV1alpha2DependsOn.to_dict;
  Dump "template" "template" IoK8sApiBatchV1JobTemplateSpec.to_dict].
Definition from_dict `{Pydantic} : value → outcome value := from_dict_with schema [
  FromDictItems "dependsOn" JobsetV1alpha2DependsOn.from_dict;
  Get "groupName";
  GetOr "name" (VStr "");
  Get "replicas";
  FromDict "template" IoK8sApiBatchV1JobTemplateSpec.from_dict].
Definition to_json `{Pydantic} : value → outcome string := to_json_with to_dict.
Definition from_json `{Pydantic} : string → outcome value := from_json_with from_dict.
Definition to_str `{Pydantic} : value → outcome string := to_str_with schema.
End JobsetV1alpha2ReplicatedJob.
#[export] Instance JobsetV1alpha2ReplicatedJob_templated `{PydanticLaws} :
  Templated JobsetV1alpha2ReplicatedJob.schema JobsetV1alpha2ReplicatedJob.to_dict
    JobsetV1alpha2ReplicatedJob.from_dict.
Proof. solve_model. Qed.

Module IoK8sApiSchedulingV1alpha3WorkloadCompositePodGroupDisruptionMode.
Definition schema `{Pydantic} : Schema :=
  model "IoK8sApiSchedulingV1alpha3WorkloadCompositePodGroupDisruptionMode" [
  opt "all" "all" (Dict AnyValue);
  opt "single" "single" (Dict AnyValue)].
Definition to_dict `{Pydantic} : value → outcome value := to_dict_with schema [].
Definition from_dict `{Pydantic} : value → outcome value := from_dict_with schema [
  Get "all";
  Get "single"].
Definition to_json `{Pydantic} : value → outcome string := to_json_with to_dict.
Definition from_json `{Pydantic} : string → outcome value := from_json_with from_dict.
Definition to_str `{Pydantic} : value → outcome string := to_str_with schema.
End IoK8sApiSchedulingV1alpha3WorkloadCompositePodGroupDisruptionMode.
#[export] Instance IoK8sApiSchedulingV1alpha3WorkloadCompositePodGroupDisruptionMode_templated
  `{PydanticLaws} :
  Templated IoK8sApiSchedulingV1alpha3WorkloadCompositePodGroupDisruptionMode.schema
    IoK8sApiSchedulingV1alpha3WorkloadCompositePodGroupDisruptionMode.to_dict
      IoK8sApiSchedulingV1alpha3WorkloadCompositePodGroupDisruptionMode.from_dict.
Proof. solve_model. Qed.

Module JobsetV1alpha2JobScheduling.
Definition schema `{Pydantic} : Schema := model "JobsetV1alpha2JobScheduling" [
  opt "disruption_mode" "disruptionMode"
    (Model IoK8sApiSchedulingV1alpha3WorkloadPodGroupDisruptionMode.schema);
  opt "resource_claims" "resourceClaims" (List
    (Model IoK8sApiSchedulingV1alpha3WorkloadPodGroupResourceClaim.schema));
  opt "scheduling_constraints" "schedulingConstraints"
    (Model IoK8sApiSchedulingV1alpha3WorkloadPodGroupSchedulingConstraints.schema);
  opt "scheduling_policy" "schedulingPolicy"
    (Model IoK8sApiSchedulingV1alpha3WorkloadPodGroupSchedulingPolicy.schema)].
Definition to_dict `{Pydantic} : value → outcome value := to_dict_with schema [
  Dump "disruption_mode" "disruptionMode"
    IoK8sApiSchedulingV1alpha3WorkloadPodGroupDisruptionMode.to_dict;
  DumpItems "resource_claims" "resourceClaims"
    IoK8sApiSchedulingV1alpha3WorkloadPodGroupResourceClaim.to_dict;
  Dump "scheduling_constraints" "schedulingConstraints"
    IoK8sApiSchedulingV1alpha3WorkloadPodGroupSchedulingConstraints.to_dict;
  Dump "scheduling_policy" "schedulingPolicy"
    IoK8sApiSchedulingV1alpha3WorkloadPodGroupSchedulingPolicy.to_dict].
Definition from_dict `{Pydantic} : value → outcome value := from_dict_with schema [
  FromDict "disruptionMode" IoK8sApiSchedulingV1alpha3WorkloadPodGroupDisruptionMode.from_dict;
  FromDictItems "resourceClaims" IoK8sApiSchedulingV1alpha3WorkloadPodGroupResourceClaim.from_dict;
  FromDict "schedulingConstraints"
    IoK8sApiSchedulingV1alpha3WorkloadPodGroupSchedulingConstraints.from_dict;
  FromDict "schedulingPolicy" IoK8sApiSchedulingV1alpha3WorkloadPodGroupSchedulingPolicy.from_dict].
Definition to_json `{Pydantic} : value → outcome string := to_json_with to_dict.
Definition from_json `{Pydantic} : string → outcome value := from_json_with from_dict.
Definition to_str `{Pydantic} : value → outcome string := to_str_with schema.
End JobsetV1alpha2JobScheduling.
#[export] Instance JobsetV1alpha2JobScheduling_templated `{PydanticLaws} :
  Templated JobsetV1alpha2JobScheduling.schema JobsetV1alpha2JobScheduling.to_dict
    JobsetV1alpha2JobScheduling.from_dict.
Proof. solve_model. Qed.

Module IoK8sApiSchedulingV1alpha3WorkloadCompositePodGroupSchedulingConstraints.
Definition schema `{Pydantic} : Schema :=
  model "IoK8sApiSchedulingV1alpha3WorkloadCompositePodGroupSchedulingConstraints" [
  opt "topology" "topology" (List (Model IoK8sApiSchedulingV1alpha3TopologyConstraint.schema))].
Definition to_dict `{Pydantic} : value → outcome value := to_dict_with schema [
  DumpItems "topology" "topology" IoK8sApiSchedulingV1alpha3TopologyConstraint.to_dict].
Definition from_dict `{Pydantic} : value → outcome value := from_dict_with schema [
  FromDictItems "topology" IoK8sApiSchedulingV1alpha3TopologyConstraint.from_dict].
Definition to_json `{Pydantic} : value → outcome string := to_json_with to_dict.
Definition from_json `{Pydantic} : string → outcome value := from_json_with from_dict.
Definition to_str `{Pydantic} : value → outcome string := to_str_with schema.
End IoK8sApiSchedulingV1alpha3WorkloadCompositePodGroupSchedulingConstraints.
#[export] Instance
  IoK8sApiSchedulingV1alpha3WorkloadCompositePodGroupSchedulingConstraints_templated
    `{PydanticLaws} :
  Templated IoK8sApiSchedulingV1alpha3WorkloadCompositePodGroupSchedulingConstraints.schema
    IoK8sApiSchedulingV1alpha3WorkloadCompositePodGroupSchedulingConstraints.to_dict
      IoK8sApiSchedulingV1alpha3WorkloadCompositePodGroupSchedulingConstraints.from_dict.
Proof. solve_model. Qed.

Module IoK8sApiSchedulingV1alpha3WorkloadCompositePodGroupGangSchedulingPolicy.
Definition schema `{Pydantic} : Schema :=
  model "IoK8sApiSchedulingV1alpha3WorkloadCompositePodGroupGangSchedulingPolicy" [
  opt "min_group_count" "minGroupCount" StrictInt].
Definition to_dict `{Pydantic} : value → outcome value := to_dict_with schema [].
Definition from_dict `{Pydantic} : value → outcome value := from_dict_with schema [
  Get "minGroupCount"].
Definition to_json `{Pydantic} : value → outcome string := to_json_with to_dict.
Definition from_json `{Pydantic} : string → outcome value := from_json_with from_dict.
Definition to_str `{Pydantic} : value → outcome string := to_str_with schema.
End IoK8sApiSchedulingV1alpha3WorkloadCompositePodGroupGangSchedulingPolicy.
#[export] Instance
  IoK8sApiSchedulingV1alpha3WorkloadCompositePodGroupGangSchedulingPolicy_templated
    `{PydanticLaws} :
  Templated IoK8sApiSchedulingV1alpha3WorkloadCompositePodGroupGangSchedulingPolicy.schema
    IoK8sApiSchedulingV1alpha3WorkloadCompositePodGroupGangSchedulingPolicy.to_dict
      IoK8sApiSchedulingV1alpha3WorkloadCompositePodGroupGangSchedulingPolicy.from_dict.
Proof. solve_model. Qed.

Module IoK8sApiSchedulingV1alpha3WorkloadCompositePodGroupSchedulingPolicy.
Definition schema `{Pydantic} : Schema :=
  model "IoK8sApiSchedulingV1alpha3WorkloadCompositePodGroupSchedulingPolicy" [
  opt "basic" "basic" (Dict AnyValue);
  opt "gang" "gang"
    (Model IoK8sApiSchedulingV1alpha3WorkloadCompositePodGroupGangSchedulingPolicy.schema)].
Definition to_dict `{Pydantic} : value → outcome value := to_dict_with schema [
  Dump "gang" "gang"
    IoK8sApiSchedulingV1alpha3WorkloadCompositePodGroupGangSchedulingPolicy.to_dict].
Definition from_dict `{Pydantic} : value → outcome value := from_dict_with schema [
  Get "basic";
  FromDict "gang"
    IoK8sApiSchedulingV1alpha3WorkloadCompositePodGroupGangSchedulingPolicy.from_dict].
Definition to_json `{Pydantic} : value → outcome string := to_json_with to_dict.
Definition from_json `{Pydantic} : string → outcome value := from_json_with from_dict.
Definition to_str `{Pydantic} : value → outcome string := to_str_with schema.
End IoK8sApiSchedulingV1alpha3WorkloadCompositePodGroupSchedulingPolicy.
#[export] Instance IoK8sApiSchedulingV1alpha3WorkloadCompositePodGroupSchedulingPolicy_templated
  `{PydanticLaws} :
  Templated IoK8sApiSchedulingV1alpha3WorkloadCompositePodGroupSchedulingPolicy.schema
    IoK8sApiSchedulingV1alpha3WorkloadCompositePodGroupSchedulingPolicy.to_dict
      IoK8sApiSchedulingV1alpha3WorkloadCompositePodGroupSchedulingPolicy.from_dict.
Proof. solve_model. Qed.

Module JobsetV1alpha2ReplicatedJobScheduling.
Definition schema `{Pydantic} : Schema := model "JobsetV1alpha2ReplicatedJobScheduling" [
  opt "disruption_mode" "disruptionMode"
    (Model IoK8sApiSchedulingV1alpha3WorkloadCompositePodGroupDisruptionMode.schema);
  opt "job" "job" (Model JobsetV1alpha2JobScheduling.schema);
  opt "scheduling_constraints" "schedulingConstraints"
    (Model IoK8sApiSchedulingV1alpha3WorkloadCompositePodGroupSchedulingConstraints.schema);
  opt "scheduling_policy" "schedulingPolicy"
    (Model IoK8sApiSchedulingV1alpha3WorkloadCompositePodGroupSchedulingPolicy.schema);
  req "target_replicated_jobs" "targetReplicatedJobs" (List StrictStr)].
Definition to_dict `{Pydantic} : value → outcome value := to_dict_with schema [
  Dump "disruption_mode" "disruptionMode"
    IoK8sApiSchedulingV1alpha3WorkloadCompositePodGroupDisruptionMode.to_dict;
  Dump "job" "job" JobsetV1alpha2JobScheduling.to_dict;
  Dump "scheduling_constraints" "schedulingConstraints"
    IoK8sApiSchedulingV1alpha3WorkloadCompositePodGroupSchedulingConstraints.to_dict;
  Dump "scheduling_policy" "schedulingPolicy"
    IoK8sApiSchedulingV1alpha3WorkloadCompositePodGroupSchedulingPolicy.to_dict].
Definition from_dict `{Pydantic} : value → outcome value := from_dict_with schema [
  FromDict "disruptionMode"
    IoK8sApiSchedulingV1alpha3WorkloadCompositePodGroupDisruptionMode.from_dict;
  FromDict "job" JobsetV1alpha2JobScheduling.from_dict;
  FromDict "schedulingConstraints"
    IoK8sApiSchedulingV1alpha3WorkloadCompositePodGroupSchedulingConstraints.from_dict;
  FromDict "schedulingPolicy"
    IoK8sApiSchedulingV1alpha3WorkloadCompositePodGroupSchedulingPolicy.from_dict;
  Get "targetReplicatedJobs"].
Definition to_json `{Pydantic} : value → outcome string := to_json_with to_dict.
Definition from_json `{Pydantic} : string → outcome value := from_json_with from_dict.
Definition to_str `{Pydantic} : value → outcome string := to_str_with schema.
End JobsetV1alpha2ReplicatedJobScheduling.
#[export] Instance JobsetV1alpha2ReplicatedJobScheduling_templated `{PydanticLaws} :
  Templated JobsetV1alpha2ReplicatedJobScheduling.schema
    JobsetV1alpha2ReplicatedJobScheduling.to_dict JobsetV1alpha2ReplicatedJobScheduling.from_dict.
Proof. solve_model. Qed.

Module JobsetV1alpha2JobSetScheduling.
Definition schema `{Pydantic} : Schema := model "JobsetV1alpha2JobSetScheduling" [
  opt "disruption_mode" "disruptionMode"
    (Model IoK8sApiSchedulingV1alpha3WorkloadCompositePodGroupDisruptionMode.schema);
  opt "replicated_jobs" "replicatedJobs" (List
    (Model JobsetV1alpha2ReplicatedJobScheduling.schema));
  opt "scheduling_constraints" "schedulingConstraints"
    (Model IoK8sApiSchedulingV1alpha3WorkloadCompositePodGroupSchedulingConstraints.schema);
  opt "scheduling_policy" "schedulingPolicy"
    (Model IoK8sApiSchedulingV1alpha3WorkloadCompositePodGroupSchedulingPolicy.schema)].
Definition to_dict `{Pydantic} : value → outcome value := to_dict_with schema [
  Dump "disruption_mode" "disruptionMode"
    IoK8sApiSchedulingV1alpha3WorkloadCompositePodGroupDisruptionMode.to_dict;
  DumpItems "replicated_jobs" "replicatedJobs" JobsetV1alpha2ReplicatedJobScheduling.to_dict;
  Dump "scheduling_constraints" "schedulingConstraints"
    IoK8sApiSchedulingV1alpha3WorkloadCompositePodGroupSchedulingConstraints.to_dict;
  Dump "scheduling_policy" "schedulingPolicy"
    IoK8sApiSchedulingV1alpha3WorkloadCompositePodGroupSchedulingPolicy.to_dict].
Definition from_dict `{Pydantic} : value → outcome value := from_dict_with schema [
  FromDict "disruptionMode"
    IoK8sApiSchedulingV1alpha3WorkloadCompositePodGroupDisruptionMode.from_dict;
  FromDictItems "replicatedJobs" JobsetV1alpha2ReplicatedJobScheduling.from_dict;
  FromDict "schedulingConstraints"
    IoK8sApiSchedulingV1alpha3WorkloadCompositePodGroupSchedulingConstraints.from_dict;
  FromDict "schedulingPolicy"
    IoK8sApiSchedulingV1alpha3WorkloadCompositePodGroupSchedulingPolicy.from_dict].
Definition to_json `{Pydantic} : value → outcome string := to_json_with to_dict.
Definition from_json `{Pydantic} : string → outcome value := from_json_with from_dict.
Definition to_str `{Pydantic} : value → outcome string := to_str_with schema.
End JobsetV1alpha2JobSetScheduling.
#[export] Instance JobsetV1alpha2JobSetScheduling_templated `{PydanticLaws} :
  Templated JobsetV1alpha2JobSetScheduling.schema JobsetV1alpha2JobSetScheduling.to_dict
    JobsetV1alpha2JobSetScheduling.from_dict.
Proof. solve_model. Qed.

Module JobsetV1alpha2StartupPolicy.
Definition schema `{Pydantic} : Schema := model "JobsetV1alpha2StartupPolicy" [
  req "startup_policy_order" "startupPolicyOrder" StrictStr].
Definition to_dict `{Pydantic} : value → outcome value := to_dict_with schema [].
Definition from_dict `{Pydantic} : value → outcome value := from_dict_with schema [
  GetOr "startupPolicyOrder" (VStr "")].
Definition to_json `{Pydantic} : value → outcome string := to_json_with to_dict.
Definition from_json `{Pydantic} : string → outcome value := from_json_with from_dict.
Definition to_str `{Pydantic} : value → outcome string := to_str_with schema.
End JobsetV1alpha2StartupPolicy.
#[export] Instance JobsetV1alpha2StartupPolicy_templated `{PydanticLaws} :
  Templated JobsetV1alpha2StartupPolicy.schema JobsetV1alpha2StartupPolicy.to_dict
    JobsetV1alpha2StartupPolicy.from_dict.
Proof. solve_model. Qed.

Module JobsetV1alpha2SuccessPolicy.
Definition schema `{Pydantic} : Schema := model "JobsetV1alpha2SuccessPolicy" [
  req "operator" "operator" StrictStr;
  opt "target_replicated_jobs" "targetReplicatedJobs" (List StrictStr)].
Definition to_dict `{Pydantic} : value → outcome value := to_dict_with schema [].
Definition from_dict `{Pydantic} : value → outcome value := from_dict_with schema [
  GetOr "operator" (VStr "");
  Get "targetReplicatedJobs"].
Definition to_json `{Pydantic} : value → outcome string := to_json_with to_dict.
Definition from_json `{Pydantic} : string → outcome value := from_json_with from_dict.
Definition to_str `{Pydantic} : value → outcome string := to_str_with schema.
End JobsetV1alpha2SuccessPolicy.
#[export] Instance JobsetV1alpha2SuccessPolicy_templated `{PydanticLaws} :
  Templated JobsetV1alpha2SuccessPolicy.schema JobsetV1alpha2SuccessPolicy.to_dict
    JobsetV1alpha2SuccessPolicy.from_dict.
Proof. solve_model. Qed.

Module JobsetV1alpha2VolumeRetentionPolicy.
Definition schema `{Pydantic} : Schema := model "JobsetV1alpha2VolumeRetentionPolicy" [
  opt "when_deleted" "whenDeleted" StrictStr].
Definition to_dict `{Pydantic} : value → outcome value := to_dict_with schema [].
Definition from_dict `{Pydantic} : value → outcome value := from_dict_with schema [
  Get "whenDeleted"].
Definition to_json `{Pydantic} : value → outcome string := to_json_with to_dict.
Definition from_json `{Pydantic} : string → outcome value := from_json_with from_dict.
Definition to_str `{Pydantic} : value → outcome string := to_str_with schema.
End JobsetV1alpha2VolumeRetentionPolicy.
#[export] Instance JobsetV1alpha2VolumeRetentionPolicy_templated `{PydanticLaws} :
  Templated JobsetV1alpha2VolumeRetentionPolicy.schema JobsetV1alpha2VolumeRetentionPolicy.to_dict
    JobsetV1alpha2VolumeRetentionPolicy.from_dict.
Proof. solve_model. Qed.

Module JobsetV1alpha2VolumeClaimPolicy.
Definition schema `{Pydantic} : Schema := model "JobsetV1alpha2VolumeClaimPolicy" [
  opt "retention_policy" "retentionPolicy" (Model JobsetV1alpha2VolumeRetentionPolicy.schema);
  opt "templates" "templates" (List (Model IoK8sApiCoreV1PersistentVolumeClaim.schema))].
Definition to_dict `{Pydantic} : value → outcome value := to_dict_with schema [
  Dump "retention_policy" "retentionPolicy" JobsetV1alpha2VolumeRetentionPolicy.to_dict;
  DumpItems "templates" "templates" IoK8sApiCoreV1PersistentVolumeClaim.to_dict].
Definition from_dict `{Pydantic} : value → outcome value := from_dict_with schema [
  FromDict "retentionPolicy" JobsetV1alpha2VolumeRetentionPolicy.from_dict;
  FromDictItems "templates" IoK8sApiCoreV1PersistentVolumeClaim.from_dict].
Definition to_json `{Pydantic} : value → outcome string := to_json_with to_dict.
Definition from_json `{Pydantic} : string → outcome value := from_json_with from_dict.
Definition to_str `{Pydantic} : value → outcome string := to_str_with schema.
End JobsetV1alpha2VolumeClaimPolicy.
#[export] Instance JobsetV1alpha2VolumeClaimPolicy_templated `{PydanticLaws} :
  Templated JobsetV1alpha2VolumeClaimPolicy.schema JobsetV1alpha2VolumeClaimPolicy.to_dict
    JobsetV1alpha2VolumeClaimPolicy.from_dict.
Proof. solve_model. Qed.

Module JobsetV1alpha2JobSetSpec.
Definition schema `{Pydantic} : Schema := model "JobsetV1alpha2JobSetSpec" [
  opt "active_deadline_seconds" "activeDeadlineSeconds" StrictInt;
  opt "coordinator" "coordinator" (Model JobsetV1alpha2Coordinator.schema);
  opt "failure_policy" "failurePolicy" (Model JobsetV1alpha2FailurePolicy.schema);
  opt "managed_by" "managedBy" StrictStr;
  opt "network" "network" (Model JobsetV1alpha2Network.schema);
  opt "replicated_jobs" "replicatedJobs" (List (Model JobsetV1alpha2ReplicatedJob.schema));
  opt "scheduling" "scheduling" (Model JobsetV1alpha2JobSetScheduling.schema);
  opt "startup_policy" "startupPolicy" (Model JobsetV1alpha2StartupPolicy.schema);
  opt "success_policy" "successPolicy" (Model JobsetV1alpha2SuccessPolicy.schema);
  opt "suspend" "suspend" StrictBool;
  opt "ttl_seconds_after_finished" "ttlSecondsAfterFinished" StrictInt;
  opt "volume_claim_policies" "volumeClaimPolicies" (List
    (Model JobsetV1alpha2VolumeClaimPolicy.schema))].
Definition to_dict `{Pydantic} : value → outcome value := to_dict_with schema [
  Dump "coordinator" "coordinator" JobsetV1alpha2Coordinator.to_dict;
  Dump "failure_policy" "failurePolicy" JobsetV1alpha2FailurePolicy.to_dict;
  Dump "network" "network" JobsetV1alpha2Network.to_dict;
  DumpItems "replicated_jobs" "replicatedJobs" JobsetV1alpha2ReplicatedJob.to_dict;
  Dump "scheduling" "scheduling" JobsetV1alpha2JobSetScheduling.to_dict;
  Dump "startup_policy" "startupPolicy" JobsetV1alpha2StartupPolicy.to_dict;
  Dump "success_policy" "successPolicy" JobsetV1alpha2SuccessPolicy.to_dict;
  DumpItems "volume_claim_policies" "volumeClaimPolicies" JobsetV1alpha2VolumeClaimPolicy.to_dict].
Definition from_dict `{Pydantic} : value → outcome value := from_dict_with schema [
  Get "activeDeadlineSeconds";
  FromDict "coordinator" JobsetV1alpha2Coordinator.from_dict;
  FromDict "failurePolicy" JobsetV1alpha2FailurePolicy.from_dict;
  Get "managedBy";
  FromDict "network" JobsetV1alpha2Network.from_dict;
  FromDictItems "replicatedJobs" JobsetV1alpha2ReplicatedJob.from_dict;
  FromDict "scheduling" JobsetV1alpha2JobSetScheduling.from_dict;
  FromDict "startupPolicy" JobsetV1alpha2StartupPolicy.from_dict;
  FromDict "successPolicy" JobsetV1alpha2SuccessPolicy.from_dict;
  Get "suspend";
  Get "ttlSecondsAfterFinished";
  FromDictItems "volumeClaimPolicies" JobsetV1alpha2VolumeClaimPolicy.from_dict].
Definition to_json `{Pydantic} : value → outcome string := to_json_with to_dict.
Definition from_json `{Pydantic} : string → outcome value := from_json_with from_dict.
Definition to_str `{Pydantic} : value → outcome string := to_str_with schema.
End JobsetV1alpha2JobSetSpec.
#[export] Instance JobsetV1alpha2JobSetSpec_templated `{PydanticLaws} :
  Templated JobsetV1alpha2JobSetSpec.schema JobsetV1alpha2JobSetSpec.to_dict
    JobsetV1alpha2JobSetSpec.from_dict.
Proof. solve_model. Qed.

(** All the classes of this file. *)
Definition jobset_models `{Pydantic} : list ApiModel := [
  {| m_schema := SchedulingV1beta1NetworkTopologySpec.schema;
     m_to_dict := SchedulingV1beta1NetworkTopologySpec.to_dict;
     m_from_dict := SchedulingV1beta1NetworkTopologySpec.from_dict;
     m_to_json := SchedulingV1beta1NetworkTopologySpec.to_json;
     m_from_json := SchedulingV1beta1NetworkTopologySpec.from_json;
     m_to_str := SchedulingV1beta1NetworkTopologySpec.to_str |};
  {| m_schema := JobsetV1alpha2Coordinator.schema;
     m_to_dict := JobsetV1alpha2Coordinator.to_dict;
     m_from_dict := JobsetV1alpha2Coordinator.from_dict;
     m_to_json := JobsetV1alpha2Coordinator.to_json;
     m_from_json := JobsetV1alpha2Coordinator.from_json;
     m_to_str := JobsetV1alpha2Coordinator.to_str |};
  {| m_schema := JobsetV1alpha2FailurePolicyRule.schema;
     m_to_dict := JobsetV1alpha2FailurePolicyRule.to_dict;
     m_from_dict := JobsetV1alpha2FailurePolicyRule.from_dict;
     m_to_json := JobsetV1alpha2FailurePolicyRule.to_json;
     m_from_json := JobsetV1alpha2FailurePolicyRule.from_json;
     m_to_str := JobsetV1alpha2FailurePolicyRule.to_str |};
  {| m_schema := JobsetV1alpha2FailurePolicy.schema;
     m_to_dict := JobsetV1alpha2FailurePolicy.to_dict;
     m_from_dict := JobsetV1alpha2FailurePolicy.from_dict;
     m_to_json := JobsetV1alpha2FailurePolicy.to_json;
     m_from_json := JobsetV1alpha2FailurePolicy.from_json;
     m_to_str := JobsetV1alpha2FailurePolicy.to_str |};
  {| m_schema := JobsetV1alpha2Network.schema;
     m_to_dict := JobsetV1alpha2Network.to_dict;
     m_from_dict := JobsetV1alpha2Network.from_dict;
     m_to_json := JobsetV1alpha2Network.to_json;
     m_from_json := JobsetV1alpha2Network.from_json;
     m_to_str := JobsetV1alpha2Network.to_str |};
  {| m_schema := JobsetV1alpha2DependsOn.schema;
     m_to_dict := JobsetV1alpha2DependsOn.to_dict;
     m_from_dict := JobsetV1alpha2DependsOn.from_dict;
     m_to_json := JobsetV1alpha2DependsOn.to_json;
     m_from_json := JobsetV1alpha2DependsOn.from_json;
     m_to_str := JobsetV1alpha2DependsOn.to_str |};
  {| m_schema := IoK8sApiBatchV1PodFailurePolicyOnExitCodesRequirement.schema;
     m_to_dict := IoK8sApiBatchV1PodFailurePolicyOnExitCodesRequirement.to_dict;
     m_from_dict := IoK8sApiBatchV1PodFailurePolicyOnExitCodesRequirement.from_dict;
     m_to_json := IoK8sApiBatchV1PodFailurePolicyOnExitCodesRequirement.to_json;
     m_from_json := IoK8sApiBatchV1PodFailurePolicyOnExitCodesRequirement.from_json;
     m_to_str := IoK8sApiBatchV1PodFailurePolicyOnExitCodesRequirement.to_str |};
  {| m_schema := IoK8sApiBatchV1PodFailurePolicyOnPodConditionsPattern.schema;
     m_to_dict := IoK8sApiBatchV1PodFailurePolicyOnPodConditionsPattern.to_dict;
     m_from_dict := IoK8sApiBatchV1PodFailurePolicyOnPodConditionsPattern.from_dict;
     m_to_json := IoK8sApiBatchV1PodFailurePolicyOnPodConditionsPattern.to_json;
     m_from_json := IoK8sApiBatchV1PodFailurePolicyOnPodConditionsPattern.from_json;
     m_to_str := IoK8sApiBatchV1PodFailurePolicyOnPodConditionsPattern.to_str |};
  {| m_schema := IoK8sApiBatchV1PodFailurePolicyRule.schema;
     m_to_dict := IoK8sApiBatchV1PodFailurePolicyRule.to_dict;
     m_from_dict := IoK8sApiBatchV1PodFailurePolicyRule.from_dict;
     m_to_json := IoK8sApiBatchV1PodFailurePolicyRule.to_json;
     m_from_json := IoK8sApiBatchV1PodFailurePolicyRule.from_json;
     m_to_str := IoK8sApiBatchV1PodFailurePolicyRule.to_str |};
  {| m_schema := IoK8sApiBatchV1PodFailurePolicy.schema;
     m_to_dict := IoK8sApiBatchV1PodFailurePolicy.to_dict;
     m_from_dict := IoK8sApiBatchV1PodFailurePolicy.from_dict;
     m_to_json := IoK8sApiBatchV1PodFailurePolicy.to_json;
     m_from_json := IoK8sApiBatchV1PodFailurePolicy.from_json;
     m_to_str := IoK8sApiBatchV1PodFailurePolicy.to_str |};
  {| m_schema := IoK8sApiSchedulingV1alpha3WorkloadPodGroupDisruptionMode.schema;
     m_to_dict := IoK8sApiSchedulingV1alpha3WorkloadPodGroupDisruptionMode.to_dict;
     m_from_dict := IoK8sApiSchedulingV1alpha3WorkloadPodGroupDisruptionMode.from_dict;
     m_to_json := IoK8sApiSchedulingV1alpha3WorkloadPodGroupDisruptionMode.to_json;
     m_from_json := IoK8sApiSchedulingV1alpha3WorkloadPodGroupDisruptionMode.from_json;
     m_to_str := IoK8sApiSchedulingV1alpha3WorkloadPodGroupDisruptionMode.to_str |};
  {| m_schema := IoK8sApiSchedulingV1alpha3WorkloadPodGroupResourceClaim.schema;
     m_to_dict := IoK8sApiSchedulingV1alpha3WorkloadPodGroupResourceClaim.to_dict;
     m_from_dict := IoK8sApiSchedulingV1alpha3WorkloadPodGroupResourceClaim.from_dict;
     m_to_json := IoK8sApiSchedulingV1alpha3WorkloadPodGroupResourceClaim.to_json;
     m_from_json := IoK8sApiSchedulingV1alpha3WorkloadPodGroupResourceClaim.from_json;
     m_to_str := IoK8sApiSchedulingV1alpha3WorkloadPodGroupResourceClaim.to_str |};
  {| m_schema := IoK8sApiSchedulingV1alpha3TopologyConstraint.schema;
     m_to_dict := IoK8sApiSchedulingV1alpha3TopologyConstraint.to_dict;
     m_from_dict := IoK8sApiSchedulingV1alpha3TopologyConstraint.from_dict;
     m_to_json := IoK8sApiSchedulingV1alpha3TopologyConstraint.to_json;
     m_from_json := IoK8sApiSchedulingV1alpha3TopologyConstraint.from_json;
     m_to_str := IoK8sApiSchedulingV1alpha3TopologyConstraint.to_str |};
  {| m_schema := IoK8sApiSchedulingV1alpha3WorkloadPodGroupSchedulingConstraints.schema;
     m_to_dict := IoK8sApiSchedulingV1alpha3WorkloadPodGroupSchedulingConstraints.to_dict;
     m_from_dict := IoK8sApiSchedulingV1alpha3WorkloadPodGroupSchedulingConstraints.from_dict;
     m_to_json := IoK8sApiSchedulingV1alpha3WorkloadPodGroupSchedulingConstraints.to_json;
     m_from_json := IoK8sApiSchedulingV1alpha3WorkloadPodGroupSchedulingConstraints.from_json;
     m_to_str := IoK8sApiSchedulingV1alpha3WorkloadPodGroupSchedulingConstraints.to_str |};
  {| m_schema := IoK8sApiSchedulingV1alpha3WorkloadPodGroupGangSchedulingPolicy.schema;
     m_to_dict := IoK8sApiSchedulingV1alpha3WorkloadPodGroupGangSchedulingPolicy.to_dict;
     m_from_dict := IoK8sApiSchedulingV1alpha3WorkloadPodGroupGangSchedulingPolicy.from_dict;
     m_to_json := IoK8sApiSchedulingV1alpha3WorkloadPodGroupGangSchedulingPolicy.to_json;
     m_from_json := IoK8sApiSchedulingV1alpha3WorkloadPodGroupGangSchedulingPolicy.from_json;
     m_to_str := IoK8sApiSchedulingV1alpha3WorkloadPodGroupGangSchedulingPolicy.to_str |};
  {| m_schema := IoK8sApiSchedulingV1alpha3WorkloadPodGroupSchedulingPolicy.schema;
     m_to_dict := IoK8sApiSchedulingV1alpha3WorkloadPodGroupSchedulingPolicy.to_dict;
     m_from_dict := IoK8sApiSchedulingV1alpha3WorkloadPodGroupSchedulingPolicy.from_dict;
     m_to_json := IoK8sApiSchedulingV1alpha3WorkloadPodGroupSchedulingPolicy.to_json;
     m_from_json := IoK8sApiSchedulingV1alpha3WorkloadPodGroupSchedulingPolicy.from_json;
     m_to_str := IoK8sApiSchedulingV1alpha3WorkloadPodGroupSchedulingPolicy.to_str |};
  {| m_schema := IoK8sApiBatchV1JobSchedulingConfiguration.schema;
     m_to_dict := IoK8sApiBatchV1JobSchedulingConfiguration.to_dict;
     m_from_dict := IoK8sApiBatchV1JobSchedulingConfiguration.from_dict;
     m_to_json := IoK8sApiBatchV1JobSchedulingConfiguration.to_json;
     m_from_json := IoK8sApiBatchV1JobSchedulingConfiguration.from_json;
     m_to_str := IoK8sApiBatchV1JobSchedulingConfiguration.to_str |};
  {| m_schema := IoK8sApiBatchV1SuccessPolicyRule.schema;
     m_to_dict := IoK8sApiBatchV1SuccessPolicyRule.to_dict;
     m_from_dict := IoK8sApiBatchV1SuccessPolicyRule.from_dict;
     m_to_json := IoK8sApiBatchV1SuccessPolicyRule.to_json;
     m_from_json := IoK8sApiBatchV1SuccessPolicyRule.from_json;
     m_to_str := IoK8sApiBatchV1SuccessPolicyRule.to_str |};
  {| m_schema := IoK8sApiBatchV1SuccessPolicy.schema;
     m_to_dict := IoK8sApiBatchV1SuccessPolicy.to_dict;
     m_from_dict := IoK8sApiBatchV1SuccessPolicy.from_dict;
     m_to_json := IoK8sApiBatchV1SuccessPolicy.to_json;
     m_from_json := IoK8sApiBatchV1SuccessPolicy.from_json;
     m_to_str := IoK8sApiBatchV1SuccessPolicy.to_str |};
  {| m_schema := IoK8sApiBatchV1JobSpec.schema;
     m_to_dict := IoK8sApiBatchV1JobSpec.to_dict;
     m_from_dict := IoK8sApiBatchV1JobSpec.from_dict;
     m_to_json := IoK8sApiBatchV1JobSpec.to_json;
     m_from_json := IoK8sApiBatchV1JobSpec.from_json;
     m_to_str := IoK8sApiBatchV1JobSpec.to_str |};
  {| m_schema := IoK8sApiBatchV1JobTemplateSpec.schema;
     m_to_dict := IoK8sApiBatchV1JobTemplateSpec.to_dict;
     m_from_dict := IoK8sApiBatchV1JobTemplateSpec.from_dict;
     m_to_json := IoK8sApiBatchV1JobTemplateSpec.to_json;
     m_from_json := IoK8sApiBatchV1JobTemplateSpec.from_json;
     m_to_str := IoK8sApiBatchV1JobTemplateSpec.to_str |};
  {| m_schema := JobsetV1alpha2ReplicatedJob.schema;
     m_to_dict := JobsetV1alpha2ReplicatedJob.to_dict;
     m_from_dict := JobsetV1alpha2ReplicatedJob.from_dict;
     m_to_json := JobsetV1alpha2ReplicatedJob.to_json;
     m_from_json := JobsetV1alpha2ReplicatedJob.from_json;
     m_to_str := JobsetV1alpha2ReplicatedJob.to_str |};
  {| m_schema := IoK8sApiSchedulingV1alpha3WorkloadCompositePodGroupDisruptionMode.schema;
     m_to_dict := IoK8sApiSchedulingV1alpha3WorkloadCompositePodGroupDisruptionMode.to_dict;
     m_from_dict := IoK8sApiSchedulingV1alpha3WorkloadCompositePodGroupDisruptionMode.from_dict;
     m_to_json := IoK8sApiSchedulingV1alpha3WorkloadCompositePodGroupDisruptionMode.to_json;
     m_from_json := IoK8sApiSchedulingV1alpha3WorkloadCompositePodGroupDisruptionMode.from_json;
     m_to_str := IoK8sApiSchedulingV1alpha3WorkloadCompositePodGroupDisruptionMode.to_str |};
  {| m_schema := JobsetV1alpha2JobScheduling.schema;
     m_to_dict := JobsetV1alpha2JobScheduling.to_dict;
     m_from_dict := JobsetV1alpha2JobScheduling.from_dict;
     m_to_json := JobsetV1alpha2JobScheduling.to_json;
     m_from_json := JobsetV1alpha2JobScheduling.from_json;
     m_to_str := JobsetV1alpha2JobScheduling.to_str |};
  {| m_schema := IoK8sApiSchedulingV1alpha3WorkloadCompositePodGroupSchedulingConstraints.schema;
     m_to_dict := IoK8sApiSchedulingV1alpha3WorkloadCompositePodGroupSchedulingConstraints.to_dict;
     m_from_dict := IoK8sApiSchedulingV1alpha3WorkloadCompositePodGroupSchedulingConstraints.from_dict;
     m_to_json := IoK8sApiSchedulingV1alpha3WorkloadCompositePodGroupSchedulingConstraints.to_json;
     m_from_json := IoK8sApiSchedulingV1alpha3WorkloadCompositePodGroupSchedulingConstraints.from_json;
     m_to_str := IoK8sApiSchedulingV1alpha3WorkloadCompositePodGroupSchedulingConstraints.to_str |};
  {| m_schema := IoK8sApiSchedulingV1alpha3WorkloadCompositePodGroupGangSchedulingPolicy.schema;
     m_to_dict := IoK8sApiSchedulingV1alpha3WorkloadCompositePodGroupGangSchedulingPolicy.to_dict;
     m_from_dict := IoK8sApiSchedulingV1alpha3WorkloadCompositePodGroupGangSchedulingPolicy.from_dict;
     m_to_json := IoK8sApiSchedulingV1alpha3WorkloadCompositePodGroupGangSchedulingPolicy.to_json;
     m_from_json := IoK8sApiSchedulingV1alpha3WorkloadCompositePodGroupGangSchedulingPolicy.from_json;
     m_to_str := IoK8sApiSchedulingV1alpha3WorkloadCompositePodGroupGangSchedulingPolicy.to_str |};
  {| m_schema := IoK8sApiSchedulingV1alpha3WorkloadCompositePodGroupSchedulingPolicy.schema;
     m_to_dict := IoK8sApiSchedulingV1alpha3WorkloadCompositePodGroupSchedulingPolicy.to_dict;
     m_from_dict := IoK8sApiSchedulingV1alpha3WorkloadCompositePodGroupSchedulingPolicy.from_dict;
     m_to_json := IoK8sApiSchedulingV1alpha3WorkloadCompositePodGroupSchedulingPolicy.to_json;
     m_from_json := IoK8sApiSchedulingV1alpha3WorkloadCompositePodGroupSchedulingPolicy.from_json;
     m_to_str := IoK8sApiSchedulingV1alpha3WorkloadCompositePodGroupSchedulingPolicy.to_str |};
  {| m_schema := JobsetV1alpha2ReplicatedJobScheduling.schema;
     m_to_dict := JobsetV1alpha2ReplicatedJobScheduling.to_dict;
     m_from_dict := JobsetV1alpha2ReplicatedJobScheduling.from_dict;
     m_to_json := JobsetV1alpha2ReplicatedJobScheduling.to_json;
     m_from_json := JobsetV1alpha2ReplicatedJobScheduling.from_json;
     m_to_str := JobsetV1alpha2ReplicatedJobScheduling.to_str |};
  {| m_schema := JobsetV1alpha2JobSetScheduling.schema;
     m_to_dict := JobsetV1alpha2JobSetScheduling.to_dict;
     m_from_dict := JobsetV1alpha2JobSetScheduling.from_dict;
     m_to_json := JobsetV1alpha2JobSetScheduling.to_json;
     m_from_json := JobsetV1alpha2JobSetScheduling.from_json;
     m_to_str := JobsetV1alpha2JobSetScheduling.to_str |};
  {| m_schema := JobsetV1alpha2StartupPolicy.schema;
     m_to_dict := JobsetV1alpha2StartupPolicy.to_dict;
     m_from_dict := JobsetV1alpha2StartupPolicy.from_dict;
     m_to_json := JobsetV1alpha2StartupPolicy.to_json;
     m_from_json := JobsetV1alpha2StartupPolicy.from_json;
     m_to_str := JobsetV1alpha2StartupPolicy.to_str |};
  {| m_schema := JobsetV1alpha2SuccessPolicy.schema;
     m_to_dict := JobsetV1alpha2SuccessPolicy.to_dict;
     m_from_dict := JobsetV1alpha2SuccessPolicy.from_dict;
     m_to_json := JobsetV1alpha2SuccessPolicy.to_json;
     m_from_json := JobsetV1alpha2SuccessPolicy.from_json;
     m_to_str := JobsetV1alpha2SuccessPolicy.to_str |};
  {| m_schema := JobsetV1alpha2VolumeRetentionPolicy.schema;
     m_to_dict := JobsetV1alpha2VolumeRetentionPolicy.to_dict;
     m_from_dict := JobsetV1alpha2VolumeRetentionPolicy.from_dict;
     m_to_json := JobsetV1alpha2VolumeRetentionPolicy.to_json;
     m_from_json := JobsetV1alpha2VolumeRetentionPolicy.from_json;
     m_to_str := JobsetV1alpha2VolumeRetentionPolicy.to_str |};
  {| m_schema := JobsetV1alpha2VolumeClaimPolicy.schema;
     m_to_dict := JobsetV1alpha2VolumeClaimPolicy.to_dict;
     m_from_dict := JobsetV1alpha2VolumeClaimPolicy.from_dict;
     m_to_json := JobsetV1alpha2VolumeClaimPolicy.to_json;
     m_from_json := JobsetV1alpha2VolumeClaimPolicy.from_json;
     m_to_str := JobsetV1alpha2VolumeClaimPolicy.to_str |};
  {| m_schema := JobsetV1alpha2JobSetSpec.schema;
     m_to_dict := JobsetV1alpha2JobSetSpec.to_dict;
     m_from_dict := JobsetV1alpha2JobSetSpec.from_dict;
     m_to_json := JobsetV1alpha2JobSetSpec.to_json;
     m_from_json := JobsetV1alpha2JobSetSpec.from_json;
     m_to_str := JobsetV1alpha2JobSetSpec.to_str |}].
Lemma jobset_models_templated `{PydanticLaws} : Forall is_templated jobset_models.
Proof. solve_models. Qed.
