(* ===== verification/ApiTrainer.v ===== *)
(** * Trainer models

    The classes of the Trainer API itself, from
    api/python_api/kubeflow_trainer_api/models/trainer_v1alpha1_*.py: TrainJob
    and its status, the training runtimes, their policies and patches, and
    OptimizationJob. Each Module is a class: its fields, [to_dict] and
    [from_dict]. *)

From S2P Require Import Prelude PyStr PyValue Pydantic PydanticSpec PydanticDocs.
From S2P Require Import OneOf ApiMeta ApiCore ApiJobSet.
Local Open Scope string_scope.
Local Open Scope list_scope.

Module TrainerV1alpha1SettingKV.
Definition schema `{Pydantic} : Schema := model "TrainerV1alpha1SettingKV" [
  req "name" "name" StrictStr;
  req "value" "value" StrictStr].
Definition to_dict `{Pydantic} : value → outcome value := to_dict_with schema [].
Definition from_dict `{Pydantic} : value → outcome value := from_dict_with schema [
  GetOr "name" (VStr "");
  GetOr "value" (VStr "")].
Definition to_json `{Pydantic} : value → outcome string := to_json_with to_dict.
Definition from_json `{Pydantic} : string → outcome value := from_json_with from_dict.
Definition to_str `{Pydantic} : value → outcome string := to_str_with schema.
End TrainerV1alpha1SettingKV.
#[export] Instance TrainerV1alpha1SettingKV_templated `{PydanticLaws} :
  Templated TrainerV1alpha1SettingKV.schema TrainerV1alpha1SettingKV.to_dict
    TrainerV1alpha1SettingKV.from_dict.
Proof. solve_model. Qed.

Module TrainerV1alpha1Algorithm.
Definition schema `{Pydantic} : Schema := model "TrainerV1alpha1Algorithm" [
  req "name" "name" StrictStr;
  opt "provider" "provider" StrictStr;
  opt "settings" "settings" (List (Model TrainerV1alpha1SettingKV.schema))].
Definition to_dict `{Pydantic} : value → outcome value := to_dict_with schema [
  DumpItems "settings" "settings" TrainerV1alpha1SettingKV.to_dict].
Definition from_dict `{Pydantic} : value → outcome value := from_dict_with schema [
  GetOr "name" (VStr "");
  Get "provider";
  FromDictItems "settings" TrainerV1alpha1SettingKV.from_dict].
Definition to_json `{Pydantic} : value → outcome string := to_json_with to_dict.
Definition from_json `{Pydantic} : string → outcome value := from_json_with from_dict.
Definition to_str `{Pydantic} : value → outcome string := to_str_with schema.
End TrainerV1alpha1Algorithm.
#[export] Instance TrainerV1alpha1Algorithm_templated `{PydanticLaws} :
  Templated TrainerV1alpha1Algorithm.schema TrainerV1alpha1Algorithm.to_dict
    TrainerV1alpha1Algorithm.from_dict.
Proof. solve_model. Qed.

Module TrainerV1alpha1BayesianAlgorithm.
Definition schema `{Pydantic} : Schema := model "TrainerV1alpha1BayesianAlgorithm" [
  opt "acquisition_function" "acquisitionFunction" StrictStr;
  opt "initial_trials" "initialTrials" StrictInt].
Definition to_dict `{Pydantic} : value → outcome value := to_dict_with schema [].
Definition from_dict `{Pydantic} : value → outcome value := from_dict_with schema [
  Get "acquisitionFunction";
  Get "initialTrials"].
Definition to_json `{Pydantic} : value → outcome string := to_json_with to_dict.
Definition from_json `{Pydantic} : string → outcome value := from_json_with from_dict.
Definition to_str `{Pydantic} : value → outcome string := to_str_with schema.
End TrainerV1alpha1BayesianAlgorithm.
#[export] Instance TrainerV1alpha1BayesianAlgorithm_templated `{PydanticLaws} :
  Templated TrainerV1alpha1BayesianAlgorithm.schema TrainerV1alpha1BayesianAlgorithm.to_dict
    TrainerV1alpha1BayesianAlgorithm.from_dict.
Proof. solve_model. Qed.

Module TrainerV1alpha1ParameterAssignment.
Definition schema `{Pydantic} : Schema := model "TrainerV1alpha1ParameterAssignment" [
  req "name" "name" StrictStr;
  req "value" "value" StrictStr].
Definition to_dict `{Pydantic} : value → outcome value := to_dict_with schema [].
Definition from_dict `{Pydantic} : value → outcome value := from_dict_with schema [
  Get "name";
  Get "value"].
Definition to_json `{Pydantic} : value → outcome string := to_json_with to_dict.
Definition from_json `{Pydantic} : string → outcome value := from_json_with from_dict.
Definition to_str `{Pydantic} : value → outcome string := to_str_with schema.
End TrainerV1alpha1ParameterAssignment.
#[export] Instance TrainerV1alpha1ParameterAssignment_templated `{PydanticLaws} :
  Templated TrainerV1alpha1ParameterAssignment.schema TrainerV1alpha1ParameterAssignment.to_dict
    TrainerV1alpha1ParameterAssignment.from_dict.
Proof. solve_model. Qed.

Module TrainerV1alpha1BestTrial.
Definition schema `{Pydantic} : Schema := model "TrainerV1alpha1BestTrial" [
  opt "parameters" "parameters" (List (Model TrainerV1alpha1ParameterAssignment.schema))].
Definition to_dict `{Pydantic} : value → outcome value := to_dict_with schema [
  DumpItems "parameters" "parameters" TrainerV1alpha1ParameterAssignment.to_dict].
Definition from_dict `{Pydantic} : value → outcome value := from_dict_with schema [
  FromDictItems "parameters" TrainerV1alpha1ParameterAssignment.from_dict].
Definition to_json `{Pydantic} : value → outcome string := to_json_with to_dict.
Definition from_json `{Pydantic} : string → outcome value := from_json_with from_dict.
Definition to_str `{Pydantic} : value → outcome string := to_str_with schema.
End TrainerV1alpha1BestTrial.
#[export] Instance TrainerV1alpha1BestTrial_templated `{PydanticLaws} :
  Templated TrainerV1alpha1BestTrial.schema TrainerV1alpha1BestTrial.to_dict
    TrainerV1alpha1BestTrial.from_dict.
Proof. solve_model. Qed.

Module TrainerV1alpha1CategoricalSpace.
Definition schema `{Pydantic} : Schema := model "TrainerV1alpha1CategoricalSpace" [
  req "choices" "choices" (List StrictStr)].
Definition to_dict `{Pydantic} : value → outcome value := to_dict_with schema [].
Definition from_dict `{Pydantic} : value → outcome value := from_dict_with schema [
  Get "choices"].
Definition to_json `{Pydantic} : value → outcome string := to_json_with to_dict.
Definition from_json `{Pydantic} : string → outcome value := from_json_with from_dict.
Definition to_str `{Pydantic} : value → outcome string := to_str_with schema.
End TrainerV1alpha1CategoricalSpace.
#[export] Instance TrainerV1alpha1CategoricalSpace_templated `{PydanticLaws} :
  Templated TrainerV1alpha1CategoricalSpace.schema TrainerV1alpha1CategoricalSpace.to_dict
    TrainerV1alpha1CategoricalSpace.from_dict.
Proof. solve_model. Qed.

Module TrainerV1alpha1FluxMLPolicySource.
Definition schema `{Pydantic} : Schema := model "TrainerV1alpha1FluxMLPolicySource" [
  opt "num_proc_per_node" "numProcPerNode" StrictInt].
Definition to_dict `{Pydantic} : value → outcome value := to_dict_with schema [].
Definition from_dict `{Pydantic} : value → outcome value := from_dict_with schema [
  Get "numProcPerNode"].
Definition to_json `{Pydantic} : value → outcome string := to_json_with to_dict.
Definition from_json `{Pydantic} : string → outcome value := from_json_with from_dict.
Definition to_str `{Pydantic} : value → outcome string := to_str_with schema.
End TrainerV1alpha1FluxMLPolicySource.
#[export] Instance TrainerV1alpha1FluxMLPolicySource_templated `{PydanticLaws} :
  Templated TrainerV1alpha1FluxMLPolicySource.schema TrainerV1alpha1FluxMLPolicySource.to_dict
    TrainerV1alpha1FluxMLPolicySource.from_dict.
Proof. solve_model. Qed.

Module TrainerV1alpha1MPIMLPolicySource.
Definition schema `{Pydantic} : Schema := model "TrainerV1alpha1MPIMLPolicySource" [
  opt "mpi_implementation" "mpiImplementation" StrictStr;
  opt "num_proc_per_node" "numProcPerNode" StrictInt;
  opt "run_launcher_as_node" "runLauncherAsNode" StrictBool;
  opt "ssh_auth_mount_path" "sshAuthMountPath" StrictStr].
Definition to_dict `{Pydantic} : value → outcome value := to_dict_with schema [].
Definition from_dict `{Pydantic} : value → outcome value := from_dict_with schema [
  Get "mpiImplementation";
  Get "numProcPerNode";
  Get "runLauncherAsNode";
  Get "sshAuthMountPath"].
Definition to_json `{Pydantic} : value → outcome string := to_json_with to_dict.
Definition from_json `{Pydantic} : string → outcome value := from_json_with from_dict.
Definition to_str `{Pydantic} : value → outcome string := to_str_with schema.
End TrainerV1alpha1MPIMLPolicySource.
#[export] Instance TrainerV1alpha1MPIMLPolicySource_templated `{PydanticLaws} :
  Templated TrainerV1alpha1MPIMLPolicySource.schema TrainerV1alpha1MPIMLPolicySource.to_dict
    TrainerV1alpha1MPIMLPolicySource.from_dict.
Proof. solve_model. Qed.

Module TrainerV1alpha1EnvInjectionTarget.
Definition schema `{Pydantic} : Schema := model "TrainerV1alpha1EnvInjectionTarget" [
  req "container_names" "containerNames" (List StrictStr);
  req "job_name" "jobName" StrictStr].
Definition to_dict `{Pydantic} : value → outcome value := to_dict_with schema [].
Definition from_dict `{Pydantic} : value → outcome value := from_dict_with schema [
  Get "containerNames";
  Get "jobName"].
Definition to_json `{Pydantic} : value → outcome string := to_json_with to_dict.
Definition from_json `{Pydantic} : string → outcome value := from_json_with from_dict.
Definition to_str `{Pydantic} : value → outcome string := to_str_with schema.
End TrainerV1alpha1EnvInjectionTarget.
#[export] Instance TrainerV1alpha1EnvInjectionTarget_templated `{PydanticLaws} :
  Templated TrainerV1alpha1EnvInjectionTarget.schema TrainerV1alpha1EnvInjectionTarget.to_dict
    TrainerV1alpha1EnvInjectionTarget.from_dict.
Proof. solve_model. Qed.

Module TrainerV1alpha1EnvInjection.
Definition schema `{Pydantic} : Schema := model "TrainerV1alpha1EnvInjection" [
  opt "targets" "targets" (List (Model TrainerV1alpha1EnvInjectionTarget.schema))].
Definition to_dict `{Pydantic} : value → outcome value := to_dict_with schema [
  DumpItems "targets" "targets" TrainerV1alpha1EnvInjectionTarget.to_dict].
Definition from_dict `{Pydantic} : value → outcome value := from_dict_with schema [
  FromDictItems "targets" TrainerV1alpha1EnvInjectionTarget.from_dict].
Definition to_json `{Pydantic} : value → outcome string := to_json_with to_dict.
Definition from_json `{Pydantic} : string → outcome value := from_json_with from_dict.
Definition to_str `{Pydantic} : value → outcome string := to_str_with schema.
End TrainerV1alpha1EnvInjection.
#[export] Instance TrainerV1alpha1EnvInjection_templated `{PydanticLaws} :
  Templated TrainerV1alpha1EnvInjection.schema TrainerV1alpha1EnvInjection.to_dict
    TrainerV1alpha1EnvInjection.from_dict.
Proof. solve_model. Qed.

Module TrainerV1alpha1TorchMLPolicySource.
Definition schema `{Pydantic} : Schema := model "TrainerV1alpha1TorchMLPolicySource" [
  opt "env_injection" "envInjection" (Model TrainerV1alpha1EnvInjection.schema)].
Definition to_dict `{Pydantic} : value → outcome value := to_dict_with schema [
  Dump "env_injection" "envInjection" TrainerV1alpha1EnvInjection.to_dict].
Definition from_dict `{Pydantic} : value → outcome value := from_dict_with schema [
  FromDict "envInjection" TrainerV1alpha1EnvInjection.from_dict].
Definition to_json `{Pydantic} : value → outcome string := to_json_with to_dict.
Definition from_json `{Pydantic} : string → outcome value := from_json_with from_dict.
Definition to_str `{Pydantic} : value → outcome string := to_str_with schema.
End TrainerV1alpha1TorchMLPolicySource.
#[export] Instance TrainerV1alpha1TorchMLPolicySource_templated `{PydanticLaws} :
  Templated TrainerV1alpha1TorchMLPolicySource.schema TrainerV1alpha1TorchMLPolicySource.to_dict
    TrainerV1alpha1TorchMLPolicySource.from_dict.
Proof. solve_model. Qed.

Module TrainerV1alpha1MLPolicy.
Definition schema `{Pydantic} : Schema := model "TrainerV1alpha1MLPolicy" [
  opt "flux" "flux" (Model TrainerV1alpha1FluxMLPolicySource.schema);
  opt "jax" "jax" (Dict AnyValue);
  opt "mpi" "mpi" (Model TrainerV1alpha1MPIMLPolicySource.schema);
  opt "num_nodes" "numNodes" StrictInt;
  opt "torch" "torch" (Model TrainerV1alpha1TorchMLPolicySource.schema);
  opt "xgboost" "xgboost" (Dict AnyValue)].
Definition to_dict `{Pydantic} : value → outcome value := to_dict_with schema [
  Dump "flux" "flux" TrainerV1alpha1FluxMLPolicySource.to_dict;
  Dump "mpi" "mpi" TrainerV1alpha1MPIMLPolicySource.to_dict;
  Dump "torch" "torch" TrainerV1alpha1TorchMLPolicySource.to_dict].
Definition from_dict `{Pydantic} : value → outcome value := from_dict_with schema [
  FromDict "flux" TrainerV1alpha1FluxMLPolicySource.from_dict;
  Get "jax";
  FromDict "mpi" TrainerV1alpha1MPIMLPolicySource.from_dict;
  Get "numNodes";
  FromDict "torch" TrainerV1alpha1TorchMLPolicySource.from_dict;
  Get "xgboost"].
Definition to_json `{Pydantic} : value → outcome string := to_json_with to_dict.
Definition from_json `{Pydantic} : string → outcome value := from_json_with from_dict.
Definition to_str `{Pydantic} : value → outcome string := to_str_with schema.
End TrainerV1alpha1MLPolicy.
#[export] Instance TrainerV1alpha1MLPolicy_templated `{PydanticLaws} :
  Templated TrainerV1alpha1MLPolicy.schema TrainerV1alpha1MLPolicy.to_dict
    TrainerV1alpha1MLPolicy.from_dict.
Proof. solve_model. Qed.

Module TrainerV1alpha1CoschedulingPodGroupPolicySource.
Definition schema `{Pydantic} : Schema := model "TrainerV1alpha1CoschedulingPodGroupPolicySource" [
  opt "schedule_timeout_seconds" "scheduleTimeoutSeconds" StrictInt].
Definition to_dict `{Pydantic} : value → outcome value := to_dict_with schema [].
Definition from_dict `{Pydantic} : value → outcome value := from_dict_with schema [
  Get "scheduleTimeoutSeconds"].
Definition to_json `{Pydantic} : value → outcome string := to_json_with to_dict.
Definition from_json `{Pydantic} : string → outcome value := from_json_with from_dict.
Definition to_str `{Pydantic} : value → outcome string := to_str_with schema.
End TrainerV1alpha1CoschedulingPodGroupPolicySource.
#[export] Instance TrainerV1alpha1CoschedulingPodGroupPolicySource_templated `{PydanticLaws} :
  Templated TrainerV1alpha1CoschedulingPodGroupPolicySource.schema
    TrainerV1alpha1CoschedulingPodGroupPolicySource.to_dict
      TrainerV1alpha1CoschedulingPodGroupPolicySource.from_dict.
Proof. solve_model. Qed.

Module TrainerV1alpha1VolcanoPodGroupPolicySource.
Definition schema `{Pydantic} : Schema := model "TrainerV1alpha1VolcanoPodGroupPolicySource" [
  opt "network_topology" "networkTopology" (Model SchedulingV1beta1NetworkTopologySpec.schema)].
Definition to_dict `{Pydantic} : value → outcome value := to_dict_with schema [
  Dump "network_topology" "networkTopology" SchedulingV1beta1NetworkTopologySpec.to_dict].
Definition from_dict `{Pydantic} : value → outcome value := from_dict_with schema [
  FromDict "networkTopology" SchedulingV1beta1NetworkTopologySpec.from_dict].
Definition to_json `{Pydantic} : value → outcome string := to_json_with to_dict.
Definition from_json `{Pydantic} : string → outcome value := from_json_with from_dict.
Definition to_str `{Pydantic} : value → outcome string := to_str_with schema.
End TrainerV1alpha1VolcanoPodGroupPolicySource.
#[export] Instance TrainerV1alpha1VolcanoPodGroupPolicySource_templated `{PydanticLaws} :
  Templated TrainerV1alpha1VolcanoPodGroupPolicySource.schema
    TrainerV1alpha1VolcanoPodGroupPolicySource.to_dict
      TrainerV1alpha1VolcanoPodGroupPolicySource.from_dict.
Proof. solve_model. Qed.

Module TrainerV1alpha1PodGroupPolicy.
Definition schema `{Pydantic} : Schema := model "TrainerV1alpha1PodGroupPolicy" [
  opt "coscheduling" "coscheduling" (Model TrainerV1alpha1CoschedulingPodGroupPolicySource.schema);
  opt "volcano" "volcano" (Model TrainerV1alpha1VolcanoPodGroupPolicySource.schema)].
Definition to_dict `{Pydantic} : value → outcome value := to_dict_with schema [
  Dump "coscheduling" "coscheduling" TrainerV1alpha1CoschedulingPodGroupPolicySource.to_dict;
  Dump "volcano" "volcano" TrainerV1alpha1VolcanoPodGroupPolicySource.to_dict].
Definition from_dict `{Pydantic} : value → outcome value := from_dict_with schema [
  FromDict "coscheduling" TrainerV1alpha1CoschedulingPodGroupPolicySource.from_dict;
  FromDict "volcano" TrainerV1alpha1VolcanoPodGroupPolicySource.from_dict].
Definition to_json `{Pydantic} : value → outcome string := to_json_with to_dict.
Definition from_json `{Pydantic} : string → outcome value := from_json_with from_dict.
Definition to_str `{Pydantic} : value → outcome string := to_str_with schema.
End TrainerV1alpha1PodGroupPolicy.
#[export] Instance TrainerV1alpha1PodGroupPolicy_templated `{PydanticLaws} :
  Templated TrainerV1alpha1PodGroupPolicy.schema TrainerV1alpha1PodGroupPolicy.to_dict
    TrainerV1alpha1PodGroupPolicy.from_dict.
Proof. solve_model. Qed.

Module TrainerV1alpha1JobSetTemplateSpec.
Definition schema `{Pydantic} : Schema := model "TrainerV1alpha1JobSetTemplateSpec" [
  opt "metadata" "metadata" (Model IoK8sApimachineryPkgApisMetaV1ObjectMeta.schema);
  opt "spec" "spec" (Model JobsetV1alpha2JobSetSpec.schema)].
Definition to_dict `{Pydantic} : value → outcome value := to_dict_with schema [
  Dump "metadata" "metadata" IoK8sApimachineryPkgApisMetaV1ObjectMeta.to_dict;
  Dump "spec" "spec" JobsetV1alpha2JobSetSpec.to_dict].
Definition from_dict `{Pydantic} : value → outcome value := from_dict_with schema [
  FromDict "metadata" IoK8sApimachineryPkgApisMetaV1ObjectMeta.from_dict;
  FromDict "spec" JobsetV1alpha2JobSetSpec.from_dict].
Definition to_json `{Pydantic} : value → outcome string := to_json_with to_dict.
Definition from_json `{Pydantic} : string → outcome value := from_json_with from_dict.
Definition to_str `{Pydantic} : value → outcome string := to_str_with schema.
End TrainerV1alpha1JobSetTemplateSpec.
#[export] Instance TrainerV1alpha1JobSetTemplateSpec_templated `{PydanticLaws} :
  Templated TrainerV1alpha1JobSetTemplateSpec.schema TrainerV1alpha1JobSetTemplateSpec.to_dict
    TrainerV1alpha1JobSetTemplateSpec.from_dict.
Proof. solve_model. Qed.

Module TrainerV1alpha1TrainingRuntimeSpec.
Definition schema `{Pydantic} : Schema := model "TrainerV1alpha1TrainingRuntimeSpec" [
  opt "ml_policy" "mlPolicy" (Model TrainerV1alpha1MLPolicy.schema);
  opt "pod_group_policy" "podGroupPolicy" (Model TrainerV1alpha1PodGroupPolicy.schema);
  opt "template" "template" (Model TrainerV1alpha1JobSetTemplateSpec.schema)].
Definition to_dict `{Pydantic} : value → outcome value := to_dict_with schema [
  Dump "ml_policy" "mlPolicy" TrainerV1alpha1MLPolicy.to_dict;
  Dump "pod_group_policy" "podGroupPolicy" TrainerV1alpha1PodGroupPolicy.to_dict;
  Dump "template" "template" TrainerV1alpha1JobSetTemplateSpec.to_dict].
Definition from_dict `{Pydantic} : value → outcome value := from_dict_with schema [
  FromDict "mlPolicy" TrainerV1alpha1MLPolicy.from_dict;
  FromDict "podGroupPolicy" TrainerV1alpha1PodGroupPolicy.from_dict;
  FromDict "template" TrainerV1alpha1JobSetTemplateSpec.from_dict].
Definition to_json `{Pydantic} : value → outcome string := to_json_with to_dict.
Definition from_json `{Pydantic} : string → outcome value := from_json_with from_dict.
Definition to_str `{Pydantic} : value → outcome string := to_str_with schema.
End TrainerV1alpha1TrainingRuntimeSpec.
#[export] Instance TrainerV1alpha1TrainingRuntimeSpec_templated `{PydanticLaws} :
  Templated TrainerV1alpha1TrainingRuntimeSpec.schema TrainerV1alpha1TrainingRuntimeSpec.to_dict
    TrainerV1alpha1TrainingRuntimeSpec.from_dict.
Proof. solve_model. Qed.

Module TrainerV1alpha1ClusterTrainingRuntime.
Definition schema `{Pydantic} : Schema := model "TrainerV1alpha1ClusterTrainingRuntime" [
  opt "api_version" "apiVersion" StrictStr;
  opt "kind" "kind" StrictStr;
  opt "metadata" "metadata" (Model IoK8sApimachineryPkgApisMetaV1ObjectMeta.schema);
  opt "spec" "spec" (Model TrainerV1alpha1TrainingRuntimeSpec.schema)].
Definition to_dict `{Pydantic} : value → outcome value := to_dict_with schema [
  Dump "metadata" "metadata" IoK8sApimachineryPkgApisMetaV1ObjectMeta.to_dict;
  Dump "spec" "spec" TrainerV1alpha1TrainingRuntimeSpec.to_dict].
Definition from_dict `{Pydantic} : value → outcome value := from_dict_with schema [
  Get "apiVersion";
  Get "kind";
  FromDict "metadata" IoK8sApimachineryPkgApisMetaV1ObjectMeta.from_dict;
  FromDict "spec" TrainerV1alpha1TrainingRuntimeSpec.from_dict].
Definition to_json `{Pydantic} : value → outcome string := to_json_with to_dict.
Definition from_json `{Pydantic} : string → outcome value := from_json_with from_dict.
Definition to_str `{Pydantic} : value → outcome string := to_str_with schema.
End TrainerV1alpha1ClusterTrainingRuntime.
#[export] Instance TrainerV1alpha1ClusterTrainingRuntime_templated `{PydanticLaws} :
  Templated TrainerV1alpha1ClusterTrainingRuntime.schema
    TrainerV1alpha1ClusterTrainingRuntime.to_dict TrainerV1alpha1ClusterTrainingRuntime.from_dict.
Proof. solve_model. Qed.

Module TrainerV1alpha1ClusterTrainingRuntimeList.
Definition schema `{Pydantic} : Schema := model "TrainerV1alpha1ClusterTrainingRuntimeList" [
  opt "api_version" "apiVersion" StrictStr;
  req "items" "items" (List (Model TrainerV1alpha1ClusterTrainingRuntime.schema));
  opt "kind" "kind" StrictStr;
  opt "metadata" "metadata" (Model IoK8sApimachineryPkgApisMetaV1ListMeta.schema)].
Definition to_dict `{Pydantic} : value → outcome value := to_dict_with schema [
  DumpItems "items" "items" TrainerV1alpha1ClusterTrainingRuntime.to_dict;
  Dump "metadata" "metadata" IoK8sApimachineryPkgApisMetaV1ListMeta.to_dict].
Definition from_dict `{Pydantic} : value → outcome value := from_dict_with schema [
  Get "apiVersion";
  FromDictItems "items" TrainerV1alpha1ClusterTrainingRuntime.from_dict;
  Get "kind";
  FromDict "metadata" IoK8sApimachineryPkgApisMetaV1ListMeta.from_dict].
Definition to_json `{Pydantic} : value → outcome string := to_json_with to_dict.
Definition from_json `{Pydantic} : string → outcome value := from_json_with from_dict.
Definition to_str `{Pydantic} : value → outcome string := to_str_with schema.
End TrainerV1alpha1ClusterTrainingRuntimeList.
#[export] Instance TrainerV1alpha1ClusterTrainingRuntimeList_templated `{PydanticLaws} :
  Templated TrainerV1alpha1ClusterTrainingRuntimeList.schema
    TrainerV1alpha1ClusterTrainingRuntimeList.to_dict
      TrainerV1alpha1ClusterTrainingRuntimeList.from_dict.
Proof. solve_model. Qed.

Module TrainerV1alpha1ContainerPatch.
Definition schema `{Pydantic} : Schema := model "TrainerV1alpha1ContainerPatch" [
  opt "env" "env" (List (Model IoK8sApiCoreV1EnvVar.schema));
  req "name" "name" StrictStr;
  opt "resources" "resources" (Model IoK8sApiCoreV1ResourceRequirements.schema);
  opt "security_context" "securityContext" (Model IoK8sApiCoreV1SecurityContext.schema);
  opt "volume_mounts" "volumeMounts" (List (Model IoK8sApiCoreV1VolumeMount.schema))].
Definition to_dict `{Pydantic} : value → outcome value := to_dict_with schema [
  DumpItems "env" "env" IoK8sApiCoreV1EnvVar.to_dict;
  Dump "resources" "resources" IoK8sApiCoreV1ResourceRequirements.to_dict;
  Dump "security_context" "securityContext" IoK8sApiCoreV1SecurityContext.to_dict;
  DumpItems "volume_mounts" "volumeMounts" IoK8sApiCoreV1VolumeMount.to_dict].
Definition from_dict `{Pydantic} : value → outcome value := from_dict_with schema [
  FromDictItems "env" IoK8sApiCoreV1EnvVar.from_dict;
  Get "name";
  FromDict "resources" IoK8sApiCoreV1ResourceRequirements.from_dict;
  FromDict "securityContext" IoK8sApiCoreV1SecurityContext.from_dict;
  FromDictItems "volumeMounts" IoK8sApiCoreV1VolumeMount.from_dict].
Definition to_json `{Pydantic} : value → outcome string := to_json_with to_dict.
Definition from_json `{Pydantic} : string → outcome value := from_json_with from_dict.
Definition to_str `{Pydantic} : value → outcome string := to_str_with schema.
End TrainerV1alpha1ContainerPatch.
#[export] Instance TrainerV1alpha1ContainerPatch_templated `{PydanticLaws} :
  Templated TrainerV1alpha1ContainerPatch.schema TrainerV1alpha1ContainerPatch.to_dict
    TrainerV1alpha1ContainerPatch.from_dict.
Proof. solve_model. Qed.

Module TrainerV1alpha1CustomAlgorithm.
Definition schema `{Pydantic} : Schema := model "TrainerV1alpha1CustomAlgorithm" [
  req "name" "name" StrictStr;
  opt "settings" "settings" (List (Model TrainerV1alpha1SettingKV.schema))].
Definition to_dict `{Pydantic} : value → outcome value := to_dict_with schema [
  DumpItems "settings" "settings" TrainerV1alpha1SettingKV.to_dict].
Definition from_dict `{Pydantic} : value → outcome value := from_dict_with schema [
  GetOr "name" (VStr "");
  FromDictItems "settings" TrainerV1alpha1SettingKV.from_dict].
Definition to_json `{Pydantic} : value → outcome string := to_json_with to_dict.
Definition from_json `{Pydantic} : string → outcome value := from_json_with from_dict.
Definition to_str `{Pydantic} : value → outcome string := to_str_with schema.
End TrainerV1alpha1CustomAlgorithm.
#[export] Instance TrainerV1alpha1CustomAlgorithm_templated `{PydanticLaws} :
  Templated TrainerV1alpha1CustomAlgorithm.schema TrainerV1alpha1CustomAlgorithm.to_dict
    TrainerV1alpha1CustomAlgorithm.from_dict.
Proof. solve_model. Qed.

Module TrainerV1alpha1DatasetInitializer.
Definition schema `{Pydantic} : Schema := model "TrainerV1alpha1DatasetInitializer" [
  opt "env" "env" (List (Model IoK8sApiCoreV1EnvVar.schema));
  opt "secret_ref" "secretRef" (Model IoK8sApiCoreV1LocalObjectReference.schema);
  opt "storage_uri" "storageUri" StrictStr].
Definition to_dict `{Pydantic} : value → outcome value := to_dict_with schema [
  DumpItems "env" "env" IoK8sApiCoreV1EnvVar.to_dict;
  Dump "secret_ref" "secretRef" IoK8sApiCoreV1LocalObjectReference.to_dict].
Definition from_dict `{Pydantic} : value → outcome value := from_dict_with schema [
  FromDictItems "env" IoK8sApiCoreV1EnvVar.from_dict;
  FromDict "secretRef" IoK8sApiCoreV1LocalObjectReference.from_dict;
  Get "storageUri"].
Definition to_json `{Pydantic} : value → outcome string := to_json_with to_dict.
Definition from_json `{Pydantic} : string → outcome value := from_json_with from_dict.
Definition to_str `{Pydantic} : value → outcome string := to_str_with schema.
End TrainerV1alpha1DatasetInitializer.
#[export] Instance TrainerV1alpha1DatasetInitializer_templated `{PydanticLaws} :
  Templated TrainerV1alpha1DatasetInitializer.schema TrainerV1alpha1DatasetInitializer.to_dict
    TrainerV1alpha1DatasetInitializer.from_dict.
Proof. solve_model. Qed.

Module TrainerV1alpha1EarlyStopping.
Definition schema `{Pydantic} : Schema := model "TrainerV1alpha1EarlyStopping" [
  req "name" "name" StrictStr;
  opt "settings" "settings" (List (Model TrainerV1alpha1SettingKV.schema))].
Definition to_dict `{Pydantic} : value → outcome value := to_dict_with schema [
  DumpItems "settings" "settings" TrainerV1alpha1SettingKV.to_dict].
Definition from_dict `{Pydantic} : value → outcome value := from_dict_with schema [
  GetOr "name" (VStr "");
  FromDictItems "settings" TrainerV1alpha1SettingKV.from_dict].
Definition to_json `{Pydantic} : value → outcome string := to_json_with to_dict.
Definition from_json `{Pydantic} : string → outcome value := from_json_with from_dict.
Definition to_str `{Pydantic} : value → outcome string := to_str_with schema.
End TrainerV1alpha1EarlyStopping.
#[export] Instance TrainerV1alpha1EarlyStopping_templated `{PydanticLaws} :
  Templated TrainerV1alpha1EarlyStopping.schema TrainerV1alpha1EarlyStopping.to_dict
    TrainerV1alpha1EarlyStopping.from_dict.
Proof. solve_model. Qed.

Module TrainerV1alpha1ModelInitializer.
Definition schema `{Pydantic} : Schema := model "TrainerV1alpha1ModelInitializer" [
  opt "env" "env" (List (Model IoK8sApiCoreV1EnvVar.schema));
  opt "secret_ref" "secretRef" (Model IoK8sApiCoreV1LocalObjectReference.schema);
  opt "storage_uri" "storageUri" StrictStr].
Definition to_dict `{Pydantic} : value → outcome value := to_dict_with schema [
  DumpItems "env" "env" IoK8sApiCoreV1EnvVar.to_dict;
  Dump "secret_ref" "secretRef" IoK8sApiCoreV1LocalObjectReference.to_dict].
Definition from_dict `{Pydantic} : value → outcome value := from_dict_with schema [
  FromDictItems "env" IoK8sApiCoreV1EnvVar.from_dict;
  FromDict "secretRef" IoK8sApiCoreV1LocalObjectReference.from_dict;
  Get "storageUri"].
Definition to_json `{Pydantic} : value → outcome string := to_json_with to_dict.
Definition from_json `{Pydantic} : string → outcome value := from_json_with from_dict.
Definition to_str `{Pydantic} : value → outcome string := to_str_with schema.
End TrainerV1alpha1ModelInitializer.
#[export] Instance TrainerV1alpha1ModelInitializer_templated `{PydanticLaws} :
  Templated TrainerV1alpha1ModelInitializer.schema TrainerV1alpha1ModelInitializer.to_dict
    TrainerV1alpha1ModelInitializer.from_dict.
Proof. solve_model. Qed.

Module TrainerV1alpha1Initializer.
Definition schema `{Pydantic} : Schema := model "TrainerV1alpha1Initializer" [
  opt "dataset" "dataset" (Model TrainerV1alpha1DatasetInitializer.schema);
  opt "model" "model" (Model TrainerV1alpha1ModelInitializer.schema)].
Definition to_dict `{Pydantic} : value → outcome value := to_dict_with schema [
  Dump "dataset" "dataset" TrainerV1alpha1DatasetInitializer.to_dict;
  Dump "model" "model" TrainerV1alpha1ModelInitializer.to_dict].
Definition from_dict `{Pydantic} : value → outcome value := from_dict_with schema [
  FromDict "dataset" TrainerV1alpha1DatasetInitializer.from_dict;
  FromDict "model" TrainerV1alpha1ModelInitializer.from_dict].
Definition to_json `{Pydantic} : value → outcome string := to_json_with to_dict.
Definition from_json `{Pydantic} : string → outcome value := from_json_with from_dict.
Definition to_str `{Pydantic} : value → outcome string := to_str_with schema.
End TrainerV1alpha1Initializer.
#[export] Instance TrainerV1alpha1Initializer_templated `{PydanticLaws} :
  Templated TrainerV1alpha1Initializer.schema TrainerV1alpha1Initializer.to_dict
    TrainerV1alpha1Initializer.from_dict.
Proof. solve_model. Qed.

Module TrainerV1alpha1IntSpace.
Definition schema `{Pydantic} : Schema := model "TrainerV1alpha1IntSpace" [
  req "max" "max" StrictStr;
  req "min" "min" StrictStr;
  opt "step" "step" StrictStr].
Definition to_dict `{Pydantic} : value → outcome value := to_dict_with schema [].
Definition from_dict `{Pydantic} : value → outcome value := from_dict_with schema [
  GetOr "max" (VStr "");
  GetOr "min" (VStr "");
  Get "step"].
Definition to_json `{Pydantic} : value → outcome string := to_json_with to_dict.
Definition from_json `{Pydantic} : string → outcome value := from_json_with from_dict.
Definition to_str `{Pydantic} : value → outcome string := to_str_with schema.
End TrainerV1alpha1IntSpace.
#[export] Instance TrainerV1alpha1IntSpace_templated `{PydanticLaws} :
  Templated TrainerV1alpha1IntSpace.schema TrainerV1alpha1IntSpace.to_dict
    TrainerV1alpha1IntSpace.from_dict.
Proof. solve_model. Qed.

Module TrainerV1alpha1PodSpecPatch.
Definition schema `{Pydantic} : Schema := model "TrainerV1alpha1PodSpecPatch" [
  opt "affinity" "affinity" (Model IoK8sApiCoreV1Affinity.schema);
  opt "containers" "containers" (List (Model TrainerV1alpha1ContainerPatch.schema));
  opt "image_pull_secrets" "imagePullSecrets" (List
    (Model IoK8sApiCoreV1LocalObjectReference.schema));
  opt "init_containers" "initContainers" (List (Model TrainerV1alpha1ContainerPatch.schema));
  opt "node_selector" "nodeSelector" (Dict StrictStr);
  opt "resource_claims" "resourceClaims" (List (Model IoK8sApiCoreV1PodResourceClaim.schema));
  opt "scheduling_gates" "schedulingGates" (List (Model IoK8sApiCoreV1PodSchedulingGate.schema));
  opt "security_context" "securityContext" (Model IoK8sApiCoreV1PodSecurityContext.schema);
  opt "service_account_name" "serviceAccountName" StrictStr;
  opt "termination_grace_period_seconds" "terminationGracePeriodSeconds" StrictInt;
  opt "tolerations" "tolerations" (List (Model IoK8sApiCoreV1Toleration.schema));
  opt "volumes" "volumes" (List (Model IoK8sApiCoreV1Volume.schema))].
Definition to_dict `{Pydantic} : value → outcome value := to_dict_with schema [
  Dump "affinity" "affinity" IoK8sApiCoreV1Affinity.to_dict;
  DumpItems "containers" "containers" TrainerV1alpha1ContainerPatch.to_dict;
  DumpItems "image_pull_secrets" "imagePullSecrets" IoK8sApiCoreV1LocalObjectReference.to_dict;
  DumpItems "init_containers" "initContainers" TrainerV1alpha1ContainerPatch.to_dict;
  DumpItems "resource_claims" "resourceClaims" IoK8sApiCoreV1PodResourceClaim.to_dict;
  DumpItems "scheduling_gates" "schedulingGates" IoK8sApiCoreV1PodSchedulingGate.to_dict;
  Dump "security_context" "securityContext" IoK8sApiCoreV1PodSecurityContext.to_dict;
  DumpItems "tolerations" "tolerations" IoK8sApiCoreV1Toleration.to_dict;
  DumpItems "volumes" "volumes" IoK8sApiCoreV1Volume.to_dict].
Definition from_dict `{Pydantic} : value → outcome value := from_dict_with schema [
  FromDict "affinity" IoK8sApiCoreV1Affinity.from_dict;
  FromDictItems "containers" TrainerV1alpha1ContainerPatch.from_dict;
  FromDictItems "imagePullSecrets" IoK8sApiCoreV1LocalObjectReference.from_dict;
  FromDictItems "initContainers" TrainerV1alpha1ContainerPatch.from_dict;
  Get "nodeSelector";
  FromDictItems "resourceClaims" IoK8sApiCoreV1PodResourceClaim.from_dict;
  FromDictItems "schedulingGates" IoK8sApiCoreV1PodSchedulingGate.from_dict;
  FromDict "securityContext" IoK8sApiCoreV1PodSecurityContext.from_dict;
  Get "serviceAccountName";
  Get "terminationGracePeriodSeconds";
  FromDictItems "tolerations" IoK8sApiCoreV1Toleration.from_dict;
  FromDictItems "volumes" IoK8sApiCoreV1Volume.from_dict].
Definition to_json `{Pydantic} : value → outcome string := to_json_with to_dict.
Definition from_json `{Pydantic} : string → outcome value := from_json_with from_dict.
Definition to_str `{Pydantic} : value → outcome string := to_str_with schema.
End TrainerV1alpha1PodSpecPatch.
#[export] Instance TrainerV1alpha1PodSpecPatch_templated `{PydanticLaws} :
  Templated TrainerV1alpha1PodSpecPatch.schema TrainerV1alpha1PodSpecPatch.to_dict
    TrainerV1alpha1PodSpecPatch.from_dict.
Proof. solve_model. Qed.

Module TrainerV1alpha1PodTemplatePatch.
Definition schema `{Pydantic} : Schema := model "TrainerV1alpha1PodTemplatePatch" [
  opt "metadata" "metadata" (Model IoK8sApimachineryPkgApisMetaV1ObjectMeta.schema);
  opt "spec" "spec" (Model TrainerV1alpha1PodSpecPatch.schema)].
Definition to_dict `{Pydantic} : value → outcome value := to_dict_with schema [
  Dump "metadata" "metadata" IoK8sApimachineryPkgApisMetaV1ObjectMeta.to_dict;
  Dump "spec" "spec" TrainerV1alpha1PodSpecPatch.to_dict].
Definition from_dict `{Pydantic} : value → outcome value := from_dict_with schema [
  FromDict "metadata" IoK8sApimachineryPkgApisMetaV1ObjectMeta.from_dict;
  FromDict "spec" TrainerV1alpha1PodSpecPatch.from_dict].
Definition to_json `{Pydantic} : value → outcome string := to_json_with to_dict.
Definition from_json `{Pydantic} : string → outcome value := from_json_with from_dict.
Definition to_str `{Pydantic} : value → outcome string := to_str_with schema.
End TrainerV1alpha1PodTemplatePatch.
#[export] Instance TrainerV1alpha1PodTemplatePatch_templated `{PydanticLaws} :
  Templated TrainerV1alpha1PodTemplatePatch.schema TrainerV1alpha1PodTemplatePatch.to_dict
    TrainerV1alpha1PodTemplatePatch.from_dict.
Proof. solve_model. Qed.

Module TrainerV1alpha1JobSpecPatch.
Definition schema `{Pydantic} : Schema := model "TrainerV1alpha1JobSpecPatch" [
  opt "template" "template" (Model TrainerV1alpha1PodTemplatePatch.schema)].
Definition to_dict `{Pydantic} : value → outcome value := to_dict_with schema [
  Dump "template" "template" TrainerV1alpha1PodTemplatePatch.to_dict].
Definition from_dict `{Pydantic} : value → outcome value := from_dict_with schema [
  FromDict "template" TrainerV1alpha1PodTemplatePatch.from_dict].
Definition to_json `{Pydantic} : value → outcome string := to_json_with to_dict.
Definition from_json `{Pydantic} : string → outcome value := from_json_with from_dict.
Definition to_str `{Pydantic} : value → outcome string := to_str_with schema.
End TrainerV1alpha1JobSpecPatch.
#[export] Instance TrainerV1alpha1JobSpecPatch_templated `{PydanticLaws} :
  Templated TrainerV1alpha1JobSpecPatch.schema TrainerV1alpha1JobSpecPatch.to_dict
    TrainerV1alpha1JobSpecPatch.from_dict.
Proof. solve_model. Qed.

Module TrainerV1alpha1JobTemplatePatch.
Definition schema `{Pydantic} : Schema := model "TrainerV1alpha1JobTemplatePatch" [
  opt "metadata" "metadata" (Model IoK8sApimachineryPkgApisMetaV1ObjectMeta.schema);
  opt "spec" "spec" (Model TrainerV1alpha1JobSpecPatch.schema)].
Definition to_dict `{Pydantic} : value → outcome value := to_dict_with schema [
  Dump "metadata" "metadata" IoK8sApimachineryPkgApisMetaV1ObjectMeta.to_dict;
  Dump "spec" "spec" TrainerV1alpha1JobSpecPatch.to_dict].
Definition from_dict `{Pydantic} : value → outcome value := from_dict_with schema [
  FromDict "metadata" IoK8sApimachineryPkgApisMetaV1ObjectMeta.from_dict;
  FromDict "spec" TrainerV1alpha1JobSpecPatch.from_dict].
Definition to_json `{Pydantic} : value → outcome string := to_json_with to_dict.
Definition from_json `{Pydantic} : string → outcome value := from_json_with from_dict.
Definition to_str `{Pydantic} : value → outcome string := to_str_with schema.
End TrainerV1alpha1JobTemplatePatch.
#[export] Instance TrainerV1alpha1JobTemplatePatch_templated `{PydanticLaws} :
  Templated TrainerV1alpha1JobTemplatePatch.schema TrainerV1alpha1JobTemplatePatch.to_dict
    TrainerV1alpha1JobTemplatePatch.from_dict.
Proof. solve_model. Qed.

Module TrainerV1alpha1ReplicatedJobPatch.
Definition schema `{Pydantic} : Schema := model "TrainerV1alpha1ReplicatedJobPatch" [
  req "name" "name" StrictStr;
  opt "template" "template" (Model TrainerV1alpha1JobTemplatePatch.schema)].
Definition to_dict `{Pydantic} : value → outcome value := to_dict_with schema [
  Dump "template" "template" TrainerV1alpha1JobTemplatePatch.to_dict].
Definition from_dict `{Pydantic} : value → outcome value := from_dict_with schema [
  Get "name";
  FromDict "template" TrainerV1alpha1JobTemplatePatch.from_dict].
Definition to_json `{Pydantic} : value → outcome string := to_json_with to_dict.
Definition from_json `{Pydantic} : string → outcome value := from_json_with from_dict.
Definition to_str `{Pydantic} : value → outcome string := to_str_with schema.
End TrainerV1alpha1ReplicatedJobPatch.
#[export] Instance TrainerV1alpha1ReplicatedJobPatch_templated `{PydanticLaws} :
  Templated TrainerV1alpha1ReplicatedJobPatch.schema TrainerV1alpha1ReplicatedJobPatch.to_dict
    TrainerV1alpha1ReplicatedJobPatch.from_dict.
Proof. solve_model. Qed.

Module TrainerV1alpha1JobSetSpecPatch.
Definition schema `{Pydantic} : Schema := model "TrainerV1alpha1JobSetSpecPatch" [
  opt "replicated_jobs" "replicatedJobs" (List (Model TrainerV1alpha1ReplicatedJobPatch.schema))].
Definition to_dict `{Pydantic} : value → outcome value := to_dict_with schema [
  DumpItems "replicated_jobs" "replicatedJobs" TrainerV1alpha1ReplicatedJobPatch.to_dict].
Definition from_dict `{Pydantic} : value → outcome value := from_dict_with schema [
  FromDictItems "replicatedJobs" TrainerV1alpha1ReplicatedJobPatch.from_dict].
Definition to_json `{Pydantic} : value → outcome string := to_json_with to_dict.
Definition from_json `{Pydantic} : string → outcome value := from_json_with from_dict.
Definition to_str `{Pydantic} : value → outcome string := to_str_with schema.
End TrainerV1alpha1JobSetSpecPatch.
#[export] Instance TrainerV1alpha1JobSetSpecPatch_templated `{PydanticLaws} :
  Templated TrainerV1alpha1JobSetSpecPatch.schema TrainerV1alpha1JobSetSpecPatch.to_dict
    TrainerV1alpha1JobSetSpecPatch.from_dict.
Proof. solve_model. Qed.

Module TrainerV1alpha1JobSetTemplatePatch.
Definition schema `{Pydantic} : Schema := model "TrainerV1alpha1JobSetTemplatePatch" [
  opt "metadata" "metadata" (Model IoK8sApimachineryPkgApisMetaV1ObjectMeta.schema);
  opt "spec" "spec" (Model TrainerV1alpha1JobSetSpecPatch.schema)].
Definition to_dict `{Pydantic} : value → outcome value := to_dict_with schema [
  Dump "metadata" "metadata" IoK8sApimachineryPkgApisMetaV1ObjectMeta.to_dict;
  Dump "spec" "spec" TrainerV1alpha1JobSetSpecPatch.to_dict].
Definition from_dict `{Pydantic} : value → outcome value := from_dict_with schema [
  FromDict "metadata" IoK8sApimachineryPkgApisMetaV1ObjectMeta.from_dict;
  FromDict "spec" TrainerV1alpha1JobSetSpecPatch.from_dict].
Definition to_json `{Pydantic} : value → outcome string := to_json_with to_dict.
Definition from_json `{Pydantic} : string → outcome value := from_json_with from_dict.
Definition to_str `{Pydantic} : value → outcome string := to_str_with schema.
End TrainerV1alpha1JobSetTemplatePatch.
#[export] Instance TrainerV1alpha1JobSetTemplatePatch_templated `{PydanticLaws} :
  Templated TrainerV1alpha1JobSetTemplatePatch.schema TrainerV1alpha1JobSetTemplatePatch.to_dict
    TrainerV1alpha1JobSetTemplatePatch.from_dict.
Proof. solve_model. Qed.

Module TrainerV1alpha1JobStatus.
Definition schema `{Pydantic} : Schema := model "TrainerV1alpha1JobStatus" [
  req "active" "active" StrictInt;
  req "failed" "failed" StrictInt;
  req "name" "name" StrictStr;
  req "ready" "ready" StrictInt;
  req "succeeded" "succeeded" StrictInt;
  req "suspended" "suspended" StrictInt].
Definition to_dict `{Pydantic} : value → outcome value := to_dict_with schema [].
Definition from_dict `{Pydantic} : value → outcome value := from_dict_with schema [
  Get "active";
  Get "failed";
  Get "name";
  Get "ready";
  Get "succeeded";
  Get "suspended"].
Definition to_json `{Pydantic} : value → outcome string := to_json_with to_dict.
Definition from_json `{Pydantic} : string → outcome value := from_json_with from_dict.
Definition to_str `{Pydantic} : value → outcome string := to_str_with schema.
End TrainerV1alpha1JobStatus.
#[export] Instance TrainerV1alpha1JobStatus_templated `{PydanticLaws} :
  Templated TrainerV1alpha1JobStatus.schema TrainerV1alpha1JobStatus.to_dict
    TrainerV1alpha1JobStatus.from_dict.
Proof. solve_model. Qed.

Module TrainerV1alpha1LogNormalSpace.
Definition schema `{Pydantic} : Schema := model "TrainerV1alpha1LogNormalSpace" [
  req "mean" "mean" StrictStr;
  req "std_dev" "stdDev" StrictStr].
Definition to_dict `{Pydantic} : value → outcome value := to_dict_with schema [].
Definition from_dict `{Pydantic} : value → outcome value := from_dict_with schema [
  GetOr "mean" (VStr "");
  GetOr "stdDev" (VStr "")].
Definition to_json `{Pydantic} : value → outcome string := to_json_with to_dict.
Definition from_json `{Pydantic} : string → outcome value := from_json_with from_dict.
Definition to_str `{Pydantic} : value → outcome string := to_str_with schema.
End TrainerV1alpha1LogNormalSpace.
#[export] Instance TrainerV1alpha1LogNormalSpace_templated `{PydanticLaws} :
  Templated TrainerV1alpha1LogNormalSpace.schema TrainerV1alpha1LogNormalSpace.to_dict
    TrainerV1alpha1LogNormalSpace.from_dict.
Proof. solve_model. Qed.

Module TrainerV1alpha1LogUniformSpace.
Definition schema `{Pydantic} : Schema := model "TrainerV1alpha1LogUniformSpace" [
  req "max" "max" StrictStr;
  req "min" "min" StrictStr;
  opt "type" "type" StrictStr].
Definition to_dict `{Pydantic} : value → outcome value := to_dict_with schema [].
Definition from_dict `{Pydantic} : value → outcome value := from_dict_with schema [
  Get "max";
  Get "min";
  Get "type"].
Definition to_json `{Pydantic} : value → outcome string := to_json_with to_dict.
Definition from_json `{Pydantic} : string → outcome value := from_json_with from_dict.
Definition to_str `{Pydantic} : value → outcome string := to_str_with schema.
End TrainerV1alpha1LogUniformSpace.
#[export] Instance TrainerV1alpha1LogUniformSpace_templated `{PydanticLaws} :
  Templated TrainerV1alpha1LogUniformSpace.schema TrainerV1alpha1LogUniformSpace.to_dict
    TrainerV1alpha1LogUniformSpace.from_dict.
Proof. solve_model. Qed.

Module TrainerV1alpha1Metric.
Definition schema `{Pydantic} : Schema := model "TrainerV1alpha1Metric" [
  req "name" "name" StrictStr;
  req "value" "value" StrictStr].
Definition to_dict `{Pydantic} : value → outcome value := to_dict_with schema [].
Definition from_dict `{Pydantic} : value → outcome value := from_dict_with schema [
  Get "name";
  Get "value"].
Definition to_json `{Pydantic} : value → outcome string := to_json_with to_dict.
Definition from_json `{Pydantic} : string → outcome value := from_json_with from_dict.
Definition to_str `{Pydantic} : value → outcome string := to_str_with schema.
End TrainerV1alpha1Metric.
#[export] Instance TrainerV1alpha1Metric_templated `{PydanticLaws} :
  Templated TrainerV1alpha1Metric.schema TrainerV1alpha1Metric.to_dict
    TrainerV1alpha1Metric.from_dict.
Proof. solve_model. Qed.

Module TrainerV1alpha1MLPolicySource.
Definition schema `{Pydantic} : Schema := model "TrainerV1alpha1MLPolicySource" [
  opt "flux" "flux" (Model TrainerV1alpha1FluxMLPolicySource.schema);
  opt "jax" "jax" (Dict AnyValue);
  opt "mpi" "mpi" (Model TrainerV1alpha1MPIMLPolicySource.schema);
  opt "torch" "torch" (Model TrainerV1alpha1TorchMLPolicySource.schema);
  opt "xgboost" "xgboost" (Dict AnyValue)].
Definition to_dict `{Pydantic} : value → outcome value := to_dict_with schema [
  Dump "flux" "flux" TrainerV1alpha1FluxMLPolicySource.to_dict;
  Dump "mpi" "mpi" TrainerV1alpha1MPIMLPolicySource.to_dict;
  Dump "torch" "torch" TrainerV1alpha1TorchMLPolicySource.to_dict].
Definition from_dict `{Pydantic} : value → outcome value := from_dict_with schema [
  FromDict "flux" TrainerV1alpha1FluxMLPolicySource.from_dict;
  Get "jax";
  FromDict "mpi" TrainerV1alpha1MPIMLPolicySource.from_dict;
  FromDict "torch" TrainerV1alpha1TorchMLPolicySource.from_dict;
  Get "xgboost"].
Definition to_json `{Pydantic} : value → outcome string := to_json_with to_dict.
Definition from_json `{Pydantic} : string → outcome value := from_json_with from_dict.
Definition to_str `{Pydantic} : value → outcome string := to_str_with schema.
End TrainerV1alpha1MLPolicySource.
#[export] Instance TrainerV1alpha1MLPolicySource_templated `{PydanticLaws} :
  Templated TrainerV1alpha1MLPolicySource.schema TrainerV1alpha1MLPolicySource.to_dict
    TrainerV1alpha1MLPolicySource.from_dict.
Proof. solve_model. Qed.

Module TrainerV1alpha1NormalSpace.
Definition schema `{Pydantic} : Schema := model "TrainerV1alpha1NormalSpace" [
  req "mean" "mean" StrictStr;
  req "std_dev" "stdDev" StrictStr].
Definition to_dict `{Pydantic} : value → outcome value := to_dict_with schema [].
Definition from_dict `{Pydantic} : value → outcome value := from_dict_with schema [
  GetOr "mean" (VStr "");
  GetOr "stdDev" (VStr "")].
Definition to_json `{Pydantic} : value → outcome string := to_json_with to_dict.
Definition from_json `{Pydantic} : string → outcome value := from_json_with from_dict.
Definition to_str `{Pydantic} : value → outcome string := to_str_with schema.
End TrainerV1alpha1NormalSpace.
#[export] Instance TrainerV1alpha1NormalSpace_templated `{PydanticLaws} :
  Templated TrainerV1alpha1NormalSpace.schema TrainerV1alpha1NormalSpace.to_dict
    TrainerV1alpha1NormalSpace.from_dict.
Proof. solve_model. Qed.

Module TrainerV1alpha1Objective.
Definition schema `{Pydantic} : Schema := model "TrainerV1alpha1Objective" [
  opt "direction" "direction" StrictStr;
  req "metric" "metric" StrictStr].
Definition to_dict `{Pydantic} : value → outcome value := to_dict_with schema [].
Definition from_dict `{Pydantic} : value → outcome value := from_dict_with schema [
  Get "direction";
  Get "metric"].
Definition to_json `{Pydantic} : value → outcome string := to_json_with to_dict.
Definition from_json `{Pydantic} : string → outcome value := from_json_with from_dict.
Definition to_str `{Pydantic} : value → outcome string := to_str_with schema.
End TrainerV1alpha1Objective.
#[export] Instance TrainerV1alpha1Objective_templated `{PydanticLaws} :
  Templated TrainerV1alpha1Objective.schema TrainerV1alpha1Objective.to_dict
    TrainerV1alpha1Objective.from_dict.
Proof. solve_model. Qed.

Module TrainerV1alpha1UniformSpace.
Definition schema `{Pydantic} : Schema := model "TrainerV1alpha1UniformSpace" [
  req "max" "max" StrictStr;
  req "min" "min" StrictStr;
  opt "type" "type" StrictStr].
Definition to_dict `{Pydantic} : value → outcome value := to_dict_with schema [].
Definition from_dict `{Pydantic} : value → outcome value := from_dict_with schema [
  Get "max";
  Get "min";
  Get "type"].
Definition to_json `{Pydantic} : value → outcome string := to_json_with to_dict.
Definition from_json `{Pydantic} : string → outcome value := from_json_with from_dict.
Definition to_str `{Pydantic} : value → outcome string := to_str_with schema.
End TrainerV1alpha1UniformSpace.
#[export] Instance TrainerV1alpha1UniformSpace_templated `{PydanticLaws} :
  Templated TrainerV1alpha1UniformSpace.schema TrainerV1alpha1UniformSpace.to_dict
    TrainerV1alpha1UniformSpace.from_dict.
Proof. solve_model. Qed.

Module TrainerV1alpha1SearchSpace.
Definition schema `{Pydantic} : Schema := model "TrainerV1alpha1SearchSpace" [
  opt "categorical" "categorical" (Model TrainerV1alpha1CategoricalSpace.schema);
  opt "log_uniform" "logUniform" (Model TrainerV1alpha1LogUniformSpace.schema);
  opt "uniform" "uniform" (Model TrainerV1alpha1UniformSpace.schema)].
Definition to_dict `{Pydantic} : value → outcome value := to_dict_with schema [
  Dump "categorical" "categorical" TrainerV1alpha1CategoricalSpace.to_dict;
  Dump "log_uniform" "logUniform" TrainerV1alpha1LogUniformSpace.to_dict;
  Dump "uniform" "uniform" TrainerV1alpha1UniformSpace.to_dict].
Definition from_dict `{Pydantic} : value → outcome value := from_dict_with schema [
  FromDict "categorical" TrainerV1alpha1CategoricalSpace.from_dict;
  FromDict "logUniform" TrainerV1alpha1LogUniformSpace.from_dict;
  FromDict "uniform" TrainerV1alpha1UniformSpace.from_dict].
Definition to_json `{Pydantic} : value → outcome string := to_json_with to_dict.
Definition from_json `{Pydantic} : string → outcome value := from_json_with from_dict.
Definition to_str `{Pydantic} : value → outcome string := to_str_with schema.
End TrainerV1alpha1SearchSpace.
#[export] Instance TrainerV1alpha1SearchSpace_templated `{PydanticLaws} :
  Templated TrainerV1alpha1SearchSpace.schema TrainerV1alpha1SearchSpace.to_dict
    TrainerV1alpha1SearchSpace.from_dict.
Proof. solve_model. Qed.

Module TrainerV1alpha1Parameter.
Definition schema `{Pydantic} : Schema := model "TrainerV1alpha1Parameter" [
  req "name" "name" StrictStr;
  req "search_space" "searchSpace" (Model TrainerV1alpha1SearchSpace.schema)].
Definition to_dict `{Pydantic} : value → outcome value := to_dict_with schema [
  Dump "search_space" "searchSpace" TrainerV1alpha1SearchSpace.to_dict].
Definition from_dict `{Pydantic} : value → outcome value := from_dict_with schema [
  Get "name";
  FromDict "searchSpace" TrainerV1alpha1SearchSpace.from_dict].
Definition to_json `{Pydantic} : value → outcome string := to_json_with to_dict.
Definition from_json `{Pydantic} : string → outcome value := from_json_with from_dict.
Definition to_str `{Pydantic} : value → outcome string := to_str_with schema.
End TrainerV1alpha1Parameter.
#[export] Instance TrainerV1alpha1Parameter_templated `{PydanticLaws} :
  Templated TrainerV1alpha1Parameter.schema TrainerV1alpha1Parameter.to_dict
    TrainerV1alpha1Parameter.from_dict.
Proof. solve_model. Qed.

Module TrainerV1alpha1RandomAlgorithm.
Definition schema `{Pydantic} : Schema := model "TrainerV1alpha1RandomAlgorithm" [
  opt "seed" "seed" StrictInt].
Definition to_dict `{Pydantic} : value → outcome value := to_dict_with schema [].
Definition from_dict `{Pydantic} : value → outcome value := from_dict_with schema [
  Get "seed"].
Definition to_json `{Pydantic} : value → outcome string := to_json_with to_dict.
Definition from_json `{Pydantic} : string → outcome value := from_json_with from_dict.
Definition to_str `{Pydantic} : value → outcome string := to_str_with schema.
End TrainerV1alpha1RandomAlgorithm.
#[export] Instance TrainerV1alpha1RandomAlgorithm_templated `{PydanticLaws} :
  Templated TrainerV1alpha1RandomAlgorithm.schema TrainerV1alpha1RandomAlgorithm.to_dict
    TrainerV1alpha1RandomAlgorithm.from_dict.
Proof. solve_model. Qed.

Module TrainerV1alpha1SearchAlgorithm.
Definition schema `{Pydantic} : Schema := model "TrainerV1alpha1SearchAlgorithm" [
  opt "grid" "grid" (Dict AnyValue);
  opt "random" "random" (Model TrainerV1alpha1RandomAlgorithm.schema)].
Definition to_dict `{Pydantic} : value → outcome value := to_dict_with schema [
  Dump "random" "random" TrainerV1alpha1RandomAlgorithm.to_dict].
Definition from_dict `{Pydantic} : value → outcome value := from_dict_with schema [
  Get "grid";
  FromDict "random" TrainerV1alpha1RandomAlgorithm.from_dict].
Definition to_json `{Pydantic} : value → outcome string := to_json_with to_dict.
Definition from_json `{Pydantic} : string → outcome value := from_json_with from_dict.
Definition to_str `{Pydantic} : value → outcome string := to_str_with schema.
End TrainerV1alpha1SearchAlgorithm.
#[export] Instance TrainerV1alpha1SearchAlgorithm_templated `{PydanticLaws} :
  Templated TrainerV1alpha1SearchAlgorithm.schema TrainerV1alpha1SearchAlgorithm.to_dict
    TrainerV1alpha1SearchAlgorithm.from_dict.
Proof. solve_model. Qed.

Module TrainerV1alpha1TrainingRuntimeSpecPatch.
Definition schema `{Pydantic} : Schema := model "TrainerV1alpha1TrainingRuntimeSpecPatch" [
  opt "template" "template" (Model TrainerV1alpha1JobSetTemplatePatch.schema)].
Definition to_dict `{Pydantic} : value → outcome value := to_dict_with schema [
  Dump "template" "template" TrainerV1alpha1JobSetTemplatePatch.to_dict].
Definition from_dict `{Pydantic} : value → outcome value := from_dict_with schema [
  FromDict "template" TrainerV1alpha1JobSetTemplatePatch.from_dict].
Definition to_json `{Pydantic} : value → outcome string := to_json_with to_dict.
Definition from_json `{Pydantic} : string → outcome value := from_json_with from_dict.
Definition to_str `{Pydantic} : value → outcome string := to_str_with schema.
End TrainerV1alpha1TrainingRuntimeSpecPatch.
#[export] Instance TrainerV1alpha1TrainingRuntimeSpecPatch_templated `{PydanticLaws} :
  Templated TrainerV1alpha1TrainingRuntimeSpecPatch.schema
    TrainerV1alpha1TrainingRuntimeSpecPatch.to_dict
      TrainerV1alpha1TrainingRuntimeSpecPatch.from_dict.
Proof. solve_model. Qed.

Module TrainerV1alpha1RuntimePatch.
Definition schema `{Pydantic} : Schema := model "TrainerV1alpha1RuntimePatch" [
  req "manager" "manager" StrictStr;
  opt "time" "time" Datetime;
  opt "training_runtime_spec" "trainingRuntimeSpec"
    (Model TrainerV1alpha1TrainingRuntimeSpecPatch.schema)].
Definition to_dict `{Pydantic} : value → outcome value := to_dict_with schema [
  Dump "training_runtime_spec" "trainingRuntimeSpec"
    TrainerV1alpha1TrainingRuntimeSpecPatch.to_dict].
Definition from_dict `{Pydantic} : value → outcome value := from_dict_with schema [
  Get "manager";
  Get "time";
  FromDict "trainingRuntimeSpec" TrainerV1alpha1TrainingRuntimeSpecPatch.from_dict].
Definition to_json `{Pydantic} : value → outcome string := to_json_with to_dict.
Definition from_json `{Pydantic} : string → outcome value := from_json_with from_dict.
Definition to_str `{Pydantic} : value → outcome string := to_str_with schema.
End TrainerV1alpha1RuntimePatch.
#[export] Instance TrainerV1alpha1RuntimePatch_templated `{PydanticLaws} :
  Templated TrainerV1alpha1RuntimePatch.schema TrainerV1alpha1RuntimePatch.to_dict
    TrainerV1alpha1RuntimePatch.from_dict.
Proof. solve_model. Qed.

Module TrainerV1alpha1RuntimeRef.
Definition schema `{Pydantic} : Schema := model "TrainerV1alpha1RuntimeRef" [
  opt "api_group" "apiGroup" StrictStr;
  opt "kind" "kind" StrictStr;
  req "name" "name" StrictStr].
Definition to_dict `{Pydantic} : value → outcome value := to_dict_with schema [].
Definition from_dict `{Pydantic} : value → outcome value := from_dict_with schema [
  Get "apiGroup";
  Get "kind";
  Get "name"].
Definition to_json `{Pydantic} : value → outcome string := to_json_with to_dict.
Definition from_json `{Pydantic} : string → outcome value := from_json_with from_dict.
Definition to_str `{Pydantic} : value → outcome string := to_str_with schema.
End TrainerV1alpha1RuntimeRef.
#[export] Instance TrainerV1alpha1RuntimeRef_templated `{PydanticLaws} :
  Templated TrainerV1alpha1RuntimeRef.schema TrainerV1alpha1RuntimeRef.to_dict
    TrainerV1alpha1RuntimeRef.from_dict.
Proof. solve_model. Qed.

Module TrainerV1alpha1TrainerResourceClaim.
Definition schema `{Pydantic} : Schema := model "TrainerV1alpha1TrainerResourceClaim" [
  req "name" "name" StrictStr;
  req "resource_claim_template_name" "resourceClaimTemplateName" StrictStr].
Definition to_dict `{Pydantic} : value → outcome value := to_dict_with schema [].
Definition from_dict `{Pydantic} : value → outcome value := from_dict_with schema [
  Get "name";
  Get "resourceClaimTemplateName"].
Definition to_json `{Pydantic} : value → outcome string := to_json_with to_dict.
Definition from_json `{Pydantic} : string → outcome value := from_json_with from_dict.
Definition to_str `{Pydantic} : value → outcome string := to_str_with schema.
End TrainerV1alpha1TrainerResourceClaim.
#[export] Instance TrainerV1alpha1TrainerResourceClaim_templated `{PydanticLaws} :
  Templated TrainerV1alpha1TrainerResourceClaim.schema TrainerV1alpha1TrainerResourceClaim.to_dict
    TrainerV1alpha1TrainerResourceClaim.from_dict.
Proof. solve_model. Qed.

Module TrainerV1alpha1Trainer.
Definition schema `{Pydantic} : Schema := model "TrainerV1alpha1Trainer" [
  opt "args" "args" (List StrictStr);
  opt "command" "command" (List StrictStr);
  opt "env" "env" (List (Model IoK8sApiCoreV1EnvVar.schema));
  opt "image" "image" StrictStr;
  opt "num_nodes" "numNodes" StrictInt;
  opt "num_proc_per_node" "numProcPerNode" StrictInt;
  opt "resource_claims_per_node" "resourceClaimsPerNode" (List
    (Model TrainerV1alpha1TrainerResourceClaim.schema));
  opt "resources_per_node" "resourcesPerNode" (Model IoK8sApiCoreV1ResourceRequirements.schema)].
Definition to_dict `{Pydantic} : value → outcome value := to_dict_with schema [
  DumpItems "env" "env" IoK8sApiCoreV1EnvVar.to_dict;
  DumpItems "resource_claims_per_node" "resourceClaimsPerNode"
    TrainerV1alpha1TrainerResourceClaim.to_dict;
  Dump "resources_per_node" "resourcesPerNode" IoK8sApiCoreV1ResourceRequirements.to_dict].
Definition from_dict `{Pydantic} : value → outcome value := from_dict_with schema [
  Get "args";
  Get "command";
  FromDictItems "env" IoK8sApiCoreV1EnvVar.from_dict;
  Get "image";
  Get "numNodes";
  Get "numProcPerNode";
  FromDictItems "resourceClaimsPerNode" TrainerV1alpha1TrainerResourceClaim.from_dict;
  FromDict "resourcesPerNode" IoK8sApiCoreV1ResourceRequirements.from_dict].
Definition to_json `{Pydantic} : value → outcome string := to_json_with to_dict.
Definition from_json `{Pydantic} : string → outcome value := from_json_with from_dict.
Definition to_str `{Pydantic} : value → outcome string := to_str_with schema.
End TrainerV1alpha1Trainer.
#[export] Instance TrainerV1alpha1Trainer_templated `{PydanticLaws} :
  Templated TrainerV1alpha1Trainer.schema TrainerV1alpha1Trainer.to_dict
    TrainerV1alpha1Trainer.from_dict.
Proof. solve_model. Qed.

Module TrainerV1alpha1TrainJobSpec.
Definition schema `{Pydantic} : Schema := model "TrainerV1alpha1TrainJobSpec" [
  opt "active_deadline_seconds" "activeDeadlineSeconds" StrictInt;
  opt "initializer" "initializer" (Model TrainerV1alpha1Initializer.schema);
  opt "managed_by" "managedBy" StrictStr;
  opt "runtime_patches" "runtimePatches" (List (Model TrainerV1alpha1RuntimePatch.schema));
  req "runtime_ref" "runtimeRef" (Model TrainerV1alpha1RuntimeRef.schema);
  opt "suspend" "suspend" StrictBool;
  opt "trainer" "trainer" (Model TrainerV1alpha1Trainer.schema)].
Definition to_dict `{Pydantic} : value → outcome value := to_dict_with schema [
  Dump "initializer" "initializer" TrainerV1alpha1Initializer.to_dict;
  DumpItems "runtime_patches" "runtimePatches" TrainerV1alpha1RuntimePatch.to_dict;
  Dump "runtime_ref" "runtimeRef" TrainerV1alpha1RuntimeRef.to_dict;
  Dump "trainer" "trainer" TrainerV1alpha1Trainer.to_dict].
Definition from_dict `{Pydantic} : value → outcome value := from_dict_with schema [
  Get "activeDeadlineSeconds";
  FromDict "initializer" TrainerV1alpha1Initializer.from_dict;
  Get "managedBy";
  FromDictItems "runtimePatches" TrainerV1alpha1RuntimePatch.from_dict;
  FromDict "runtimeRef" TrainerV1alpha1RuntimeRef.from_dict;
  Get "suspend";
  FromDict "trainer" TrainerV1alpha1Trainer.from_dict].
Definition to_json `{Pydantic} : value → outcome string := to_json_with to_dict.
Definition from_json `{Pydantic} : string → outcome value := from_json_with from_dict.
Definition to_str `{Pydantic} : value → outcome string := to_str_with schema.
End TrainerV1alpha1TrainJobSpec.
#[export] Instance TrainerV1alpha1TrainJobSpec_templated `{PydanticLaws} :
  Templated TrainerV1alpha1TrainJobSpec.schema TrainerV1alpha1TrainJobSpec.to_dict
    TrainerV1alpha1TrainJobSpec.from_dict.
Proof. solve_model. Qed.

Module TrainerV1alpha1TrainJobTemplateSpec.
Definition schema `{Pydantic} : Schema := model "TrainerV1alpha1TrainJobTemplateSpec" [
  opt "metadata" "metadata" (Model IoK8sApimachineryPkgApisMetaV1ObjectMeta.schema);
  req "spec" "spec" (Model TrainerV1alpha1TrainJobSpec.schema)].
Definition to_dict `{Pydantic} : value → outcome value := to_dict_with schema [
  Dump "metadata" "metadata" IoK8sApimachineryPkgApisMetaV1ObjectMeta.to_dict;
  Dump "spec" "spec" TrainerV1alpha1TrainJobSpec.to_dict].
Definition from_dict `{Pydantic} : value → outcome value := from_dict_with schema [
  FromDict "metadata" IoK8sApimachineryPkgApisMetaV1ObjectMeta.from_dict;
  FromDict "spec" TrainerV1alpha1TrainJobSpec.from_dict].
Definition to_json `{Pydantic} : value → outcome string := to_json_with to_dict.
Definition from_json `{Pydantic} : string → outcome value := from_json_with from_dict.
Definition to_str `{Pydantic} : value → outcome string := to_str_with schema.
End TrainerV1alpha1TrainJobTemplateSpec.
#[export] Instance TrainerV1alpha1TrainJobTemplateSpec_templated `{PydanticLaws} :
  Templated TrainerV1alpha1TrainJobTemplateSpec.schema TrainerV1alpha1TrainJobTemplateSpec.to_dict
    TrainerV1alpha1TrainJobTemplateSpec.from_dict.
Proof. solve_model. Qed.

Module TrainerV1alpha1OptimizationJobSpec.
Definition schema `{Pydantic} : Schema := model "TrainerV1alpha1OptimizationJobSpec" [
  opt "num_trials" "numTrials" StrictInt;
  req "objectives" "objectives" (List (Model TrainerV1alpha1Objective.schema));
  opt "parallel_trials" "parallelTrials" StrictInt;
  req "parameters" "parameters" (List (Model TrainerV1alpha1Parameter.schema));
  opt "search_algorithm" "searchAlgorithm" (Model TrainerV1alpha1SearchAlgorithm.schema);
  req "train_job_template" "trainJobTemplate" (Model TrainerV1alpha1TrainJobTemplateSpec.schema)].
Definition to_dict `{Pydantic} : value → outcome value := to_dict_with schema [
  DumpItems "objectives" "objectives" TrainerV1alpha1Objective.to_dict;
  DumpItems "parameters" "parameters" TrainerV1alpha1Parameter.to_dict;
  Dump "search_algorithm" "searchAlgorithm" TrainerV1alpha1SearchAlgorithm.to_dict;
  Dump "train_job_template" "trainJobTemplate" TrainerV1alpha1TrainJobTemplateSpec.to_dict].
Definition from_dict `{Pydantic} : value → outcome value := from_dict_with schema [
  Get "numTrials";
  FromDictItems "objectives" TrainerV1alpha1Objective.from_dict;
  Get "parallelTrials";
  FromDictItems "parameters" TrainerV1alpha1Parameter.from_dict;
  FromDict "searchAlgorithm" TrainerV1alpha1SearchAlgorithm.from_dict;
  FromDict "trainJobTemplate" TrainerV1alpha1TrainJobTemplateSpec.from_dict].
Definition to_json `{Pydantic} : value → outcome string := to_json_with to_dict.
Definition from_json `{Pydantic} : string → outcome value := from_json_with from_dict.
Definition to_str `{Pydantic} : value → outcome string := to_str_with schema.
End TrainerV1alpha1OptimizationJobSpec.
#[export] Instance TrainerV1alpha1OptimizationJobSpec_templated `{PydanticLaws} :
  Templated TrainerV1alpha1OptimizationJobSpec.schema TrainerV1alpha1OptimizationJobSpec.to_dict
    TrainerV1alpha1OptimizationJobSpec.from_dict.
Proof. solve_model. Qed.

Module TrainerV1alpha1Result.
Definition schema `{Pydantic} : Schema := model "TrainerV1alpha1Result" [
  opt "parameters" "parameters" (List (Model TrainerV1alpha1ParameterAssignment.schema));
  req "train_job_name" "trainJobName" StrictStr].
Definition to_dict `{Pydantic} : value → outcome value := to_dict_with schema [
  DumpItems "parameters" "parameters" TrainerV1alpha1ParameterAssignment.to_dict].
Definition from_dict `{Pydantic} : value → outcome value := from_dict_with schema [
  FromDictItems "parameters" TrainerV1alpha1ParameterAssignment.from_dict;
  Get "trainJobName"].
Definition to_json `{Pydantic} : value → outcome string := to_json_with to_dict.
Definition from_json `{Pydantic} : string → outcome value := from_json_with from_dict.
Definition to_str `{Pydantic} : value → outcome string := to_str_with schema.
End TrainerV1alpha1Result.
#[export] Instance TrainerV1alpha1Result_templated `{PydanticLaws} :
  Templated TrainerV1alpha1Result.schema TrainerV1alpha1Result.to_dict
    TrainerV1alpha1Result.from_dict.
Proof. solve_model. Qed.

Module TrainerV1alpha1OptimizationJobStatus.
Definition schema `{Pydantic} : Schema := model "TrainerV1alpha1OptimizationJobStatus" [
  opt "conditions" "conditions" (List (Model IoK8sApimachineryPkgApisMetaV1Condition.schema));
  opt "result" "result" (Model TrainerV1alpha1Result.schema)].
Definition to_dict `{Pydantic} : value → outcome value := to_dict_with schema [
  DumpItems "conditions" "conditions" IoK8sApimachineryPkgApisMetaV1Condition.to_dict;
  Dump "result" "result" TrainerV1alpha1Result.to_dict].
Definition from_dict `{Pydantic} : value → outcome value := from_dict_with schema [
  FromDictItems "conditions" IoK8sApimachineryPkgApisMetaV1Condition.from_dict;
  FromDict "result" TrainerV1alpha1Result.from_dict].
Definition to_json `{Pydantic} : value → outcome string := to_json_with to_dict.
Definition from_json `{Pydantic} : string → outcome value := from_json_with from_dict.
Definition to_str `{Pydantic} : value → outcome string := to_str_with schema.
End TrainerV1alpha1OptimizationJobStatus.
#[export] Instance TrainerV1alpha1OptimizationJobStatus_templated `{PydanticLaws} :
  Templated TrainerV1alpha1OptimizationJobStatus.schema
    TrainerV1alpha1OptimizationJobStatus.to_dict TrainerV1alpha1OptimizationJobStatus.from_dict.
Proof. solve_model. Qed.

Module TrainerV1alpha1OptimizationJob.
Definition schema `{Pydantic} : Schema := model "TrainerV1alpha1OptimizationJob" [
  opt "api_version" "apiVersion" StrictStr;
  opt "kind" "kind" StrictStr;
  opt "metadata" "metadata" (Model IoK8sApimachineryPkgApisMetaV1ObjectMeta.schema);
  req "spec" "spec" (Model TrainerV1alpha1OptimizationJobSpec.schema);
  opt "status" "status" (Model TrainerV1alpha1OptimizationJobStatus.schema)].
Definition to_dict `{Pydantic} : value → outcome value := to_dict_with schema [
  Dump "metadata" "metadata" IoK8sApimachineryPkgApisMetaV1ObjectMeta.to_dict;
  Dump "spec" "spec" TrainerV1alpha1OptimizationJobSpec.to_dict;
  Dump "status" "status" TrainerV1alpha1OptimizationJobStatus.to_dict].
Definition from_dict `{Pydantic} : value → outcome value := from_dict_with schema [
  Get "apiVersion";
  Get "kind";
  FromDict "metadata" IoK8sApimachineryPkgApisMetaV1ObjectMeta.from_dict;
  FromDict "spec" TrainerV1alpha1OptimizationJobSpec.from_dict;
  FromDict "status" TrainerV1alpha1OptimizationJobStatus.from_dict].
Definition to_json `{Pydantic} : value → outcome string := to_json_with to_dict.
Definition from_json `{Pydantic} : string → outcome value := from_json_with from_dict.
Definition to_str `{Pydantic} : value → outcome string := to_str_with schema.
End TrainerV1alpha1OptimizationJob.
#[export] Instance TrainerV1alpha1OptimizationJob_templated `{PydanticLaws} :
  Templated TrainerV1alpha1OptimizationJob.schema TrainerV1alpha1OptimizationJob.to_dict
    TrainerV1alpha1OptimizationJob.from_dict.
Proof. solve_model. Qed.

Module TrainerV1alpha1OptimizationJobList.
Definition schema `{Pydantic} : Schema := model "TrainerV1alpha1OptimizationJobList" [
  opt "api_version" "apiVersion" StrictStr;
  req "items" "items" (List (Model TrainerV1alpha1OptimizationJob.schema));
  opt "kind" "kind" StrictStr;
  opt "metadata" "metadata" (Model IoK8sApimachineryPkgApisMetaV1ListMeta.schema)].
Definition to_dict `{Pydantic} : value → outcome value := to_dict_with schema [
  DumpItems "items" "items" TrainerV1alpha1OptimizationJob.to_dict;
  Dump "metadata" "metadata" IoK8sApimachineryPkgApisMetaV1ListMeta.to_dict].
Definition from_dict `{Pydantic} : value → outcome value := from_dict_with schema [
  Get "apiVersion";
  FromDictItems "items" TrainerV1alpha1OptimizationJob.from_dict;
  Get "kind";
  FromDict "metadata" IoK8sApimachineryPkgApisMetaV1ListMeta.from_dict].
Definition to_json `{Pydantic} : value → outcome string := to_json_with to_dict.
Definition from_json `{Pydantic} : string → outcome value := from_json_with from_dict.
Definition to_str `{Pydantic} : value → outcome string := to_str_with schema.
End TrainerV1alpha1OptimizationJobList.
#[export] Instance TrainerV1alpha1OptimizationJobList_templated `{PydanticLaws} :
  Templated TrainerV1alpha1OptimizationJobList.schema TrainerV1alpha1OptimizationJobList.to_dict
    TrainerV1alpha1OptimizationJobList.from_dict.
Proof. solve_model. Qed.

Module TrainerV1alpha1OptimizationStorage.
Definition schema `{Pydantic} : Schema := model "TrainerV1alpha1OptimizationStorage" [
  opt "pvc_name" "pvcName" StrictStr;
  opt "storage_uri" "storageUri" StrictStr].
Definition to_dict `{Pydantic} : value → outcome value := to_dict_with schema [].
Definition from_dict `{Pydantic} : value → outcome value := from_dict_with schema [
  Get "pvcName";
  Get "storageUri"].
Definition to_json `{Pydantic} : value → outcome string := to_json_with to_dict.
Definition from_json `{Pydantic} : string → outcome value := from_json_with from_dict.
Definition to_str `{Pydantic} : value → outcome string := to_str_with schema.
End TrainerV1alpha1OptimizationStorage.
#[export] Instance TrainerV1alpha1OptimizationStorage_templated `{PydanticLaws} :
  Templated TrainerV1alpha1OptimizationStorage.schema TrainerV1alpha1OptimizationStorage.to_dict
    TrainerV1alpha1OptimizationStorage.from_dict.
Proof. solve_model. Qed.

Module TrainerV1alpha1PodGroupPolicySource.
Definition schema `{Pydantic} : Schema := model "TrainerV1alpha1PodGroupPolicySource" [
  opt "coscheduling" "coscheduling" (Model TrainerV1alpha1CoschedulingPodGroupPolicySource.schema);
  opt "volcano" "volcano" (Model TrainerV1alpha1VolcanoPodGroupPolicySource.schema)].
Definition to_dict `{Pydantic} : value → outcome value := to_dict_with schema [
  Dump "coscheduling" "coscheduling" TrainerV1alpha1CoschedulingPodGroupPolicySource.to_dict;
  Dump "volcano" "volcano" TrainerV1alpha1VolcanoPodGroupPolicySource.to_dict].
Definition from_dict `{Pydantic} : value → outcome value := from_dict_with schema [
  FromDict "coscheduling" TrainerV1alpha1CoschedulingPodGroupPolicySource.from_dict;
  FromDict "volcano" TrainerV1alpha1VolcanoPodGroupPolicySource.from_dict].
Definition to_json `{Pydantic} : value → outcome string := to_json_with to_dict.
Definition from_json `{Pydantic} : string → outcome value := from_json_with from_dict.
Definition to_str `{Pydantic} : value → outcome string := to_str_with schema.
End TrainerV1alpha1PodGroupPolicySource.
#[export] Instance TrainerV1alpha1PodGroupPolicySource_templated `{PydanticLaws} :
  Templated TrainerV1alpha1PodGroupPolicySource.schema TrainerV1alpha1PodGroupPolicySource.to_dict
    TrainerV1alpha1PodGroupPolicySource.from_dict.
Proof. solve_model. Qed.

Module TrainerV1alpha1TPEAlgorithm.
Definition schema `{Pydantic} : Schema := model "TrainerV1alpha1TPEAlgorithm" [
  opt "ei_candidates" "eiCandidates" StrictInt;
  opt "initial_trials" "initialTrials" StrictInt;
  opt "seed" "seed" StrictInt].
Definition to_dict `{Pydantic} : value → outcome value := to_dict_with schema [].
Definition from_dict `{Pydantic} : value → outcome value := from_dict_with schema [
  Get "eiCandidates";
  Get "initialTrials";
  Get "seed"].
Definition to_json `{Pydantic} : value → outcome string := to_json_with to_dict.
Definition from_json `{Pydantic} : string → outcome value := from_json_with from_dict.
Definition to_str `{Pydantic} : value → outcome string := to_str_with schema.
End TrainerV1alpha1TPEAlgorithm.
#[export] Instance TrainerV1alpha1TPEAlgorithm_templated `{PydanticLaws} :
  Templated TrainerV1alpha1TPEAlgorithm.schema TrainerV1alpha1TPEAlgorithm.to_dict
    TrainerV1alpha1TPEAlgorithm.from_dict.
Proof. solve_model. Qed.

Module TrainerV1alpha1TrainerStatus.
Definition schema `{Pydantic} : Schema := model "TrainerV1alpha1TrainerStatus" [
  opt "estimated_remaining_seconds" "estimatedRemainingSeconds" StrictInt;
  opt "last_updated_time" "lastUpdatedTime" Datetime;
  opt "metrics" "metrics" (List (Model TrainerV1alpha1Metric.schema));
  opt "progress_percentage" "progressPercentage" StrictInt].
Definition to_dict `{Pydantic} : value → outcome value := to_dict_with schema [
  DumpItems "metrics" "metrics" TrainerV1alpha1Metric.to_dict].
Definition from_dict `{Pydantic} : value → outcome value := from_dict_with schema [
  Get "estimatedRemainingSeconds";
  Get "lastUpdatedTime";
  FromDictItems "metrics" TrainerV1alpha1Metric.from_dict;
  Get "progressPercentage"].
Definition to_json `{Pydantic} : value → outcome string := to_json_with to_dict.
Definition from_json `{Pydantic} : string → outcome value := from_json_with from_dict.
Definition to_str `{Pydantic} : value → outcome string := to_str_with schema.
End TrainerV1alpha1TrainerStatus.
#[export] Instance TrainerV1alpha1TrainerStatus_templated `{PydanticLaws} :
  Templated TrainerV1alpha1TrainerStatus.schema TrainerV1alpha1TrainerStatus.to_dict
    TrainerV1alpha1TrainerStatus.from_dict.
Proof. solve_model. Qed.

Module TrainerV1alpha1TrainJobStatus.
Definition schema `{Pydantic} : Schema := model "TrainerV1alpha1TrainJobStatus" [
  opt "conditions" "conditions" (List (Model IoK8sApimachineryPkgApisMetaV1Condition.schema));
  opt "jobs_status" "jobsStatus" (List (Model TrainerV1alpha1JobStatus.schema));
  opt "trainer_status" "trainerStatus" (Model TrainerV1alpha1TrainerStatus.schema)].
Definition to_dict `{Pydantic} : value → outcome value := to_dict_with schema [
  DumpItems "conditions" "conditions" IoK8sApimachineryPkgApisMetaV1Condition.to_dict;
  DumpItems "jobs_status" "jobsStatus" TrainerV1alpha1JobStatus.to_dict;
  Dump "trainer_status" "trainerStatus" TrainerV1alpha1TrainerStatus.to_dict].
Definition from_dict `{Pydantic} : value → outcome value := from_dict_with schema [
  FromDictItems "conditions" IoK8sApimachineryPkgApisMetaV1Condition.from_dict;
  FromDictItems "jobsStatus" TrainerV1alpha1JobStatus.from_dict;
  FromDict "trainerStatus" TrainerV1alpha1TrainerStatus.from_dict].
Definition to_json `{Pydantic} : value → outcome string := to_json_with to_dict.
Definition from_json `{Pydantic} : string → outcome value := from_json_with from_dict.
Definition to_str `{Pydantic} : value → outcome string := to_str_with schema.
End TrainerV1alpha1TrainJobStatus.
#[export] Instance TrainerV1alpha1TrainJobStatus_templated `{PydanticLaws} :
  Templated TrainerV1alpha1TrainJobStatus.schema TrainerV1alpha1TrainJobStatus.to_dict
    TrainerV1alpha1TrainJobStatus.from_dict.
Proof. solve_model. Qed.

Module TrainerV1alpha1TrainJob.
Definition schema `{Pydantic} : Schema := model "TrainerV1alpha1TrainJob" [
  opt "api_version" "apiVersion" StrictStr;
  opt "kind" "kind" StrictStr;
  opt "metadata" "metadata" (Model IoK8sApimachineryPkgApisMetaV1ObjectMeta.schema);
  opt "spec" "spec" (Model TrainerV1alpha1TrainJobSpec.schema);
  opt "status" "status" (Model TrainerV1alpha1TrainJobStatus.schema)].
Definition to_dict `{Pydantic} : value → outcome value := to_dict_with schema [
  Dump "metadata" "metadata" IoK8sApimachineryPkgApisMetaV1ObjectMeta.to_dict;
  Dump "spec" "spec" TrainerV1alpha1TrainJobSpec.to_dict;
  Dump "status" "status" TrainerV1alpha1TrainJobStatus.to_dict].
Definition from_dict `{Pydantic} : value → outcome value := from_dict_with schema [
  Get "apiVersion";
  Get "kind";
  FromDict "metadata" IoK8sApimachineryPkgApisMetaV1ObjectMeta.from_dict;
  FromDict "spec" TrainerV1alpha1TrainJobSpec.from_dict;
  FromDict "status" TrainerV1alpha1TrainJobStatus.from_dict].
Definition to_json `{Pydantic} : value → outcome string := to_json_with to_dict.
Definition from_json `{Pydantic} : string → outcome value := from_json_with from_dict.
Definition to_str `{Pydantic} : value → outcome string := to_str_with schema.
End TrainerV1alpha1TrainJob.
#[export] Instance TrainerV1alpha1TrainJob_templated `{PydanticLaws} :
  Templated TrainerV1alpha1TrainJob.schema TrainerV1alpha1TrainJob.to_dict
    TrainerV1alpha1TrainJob.from_dict.
Proof. solve_model. Qed.

Module TrainerV1alpha1TrainJobList.
Definition schema `{Pydantic} : Schema := model "TrainerV1alpha1TrainJobList" [
  opt "api_version" "apiVersion" StrictStr;
  req "items" "items" (List (Model TrainerV1alpha1TrainJob.schema));
  opt "kind" "kind" StrictStr;
  opt "metadata" "metadata" (Model IoK8sApimachineryPkgApisMetaV1ListMeta.schema)].
Definition to_dict `{Pydantic} : value → outcome value := to_dict_with schema [
  DumpItems "items" "items" TrainerV1alpha1TrainJob.to_dict;
  Dump "metadata" "metadata" IoK8sApimachineryPkgApisMetaV1ListMeta.to_dict].
Definition from_dict `{Pydantic} : value → outcome value := from_dict_with schema [
  Get "apiVersion";
  FromDictItems "items" TrainerV1alpha1TrainJob.from_dict;
  Get "kind";
  FromDict "metadata" IoK8sApimachineryPkgApisMetaV1ListMeta.from_dict].
Definition to_json `{Pydantic} : value → outcome string := to_json_with to_dict.
Definition from_json `{Pydantic} : string → outcome value := from_json_with from_dict.
Definition to_str `{Pydantic} : value → outcome string := to_str_with schema.
End TrainerV1alpha1TrainJobList.
#[export] Instance TrainerV1alpha1TrainJobList_templated `{PydanticLaws} :
  Templated TrainerV1alpha1TrainJobList.schema TrainerV1alpha1TrainJobList.to_dict
    TrainerV1alpha1TrainJobList.from_dict.
Proof. solve_model. Qed.

Module TrainerV1alpha1TrainingRuntime.
Definition schema `{Pydantic} : Schema := model "TrainerV1alpha1TrainingRuntime" [
  opt "api_version" "apiVersion" StrictStr;
  opt "kind" "kind" StrictStr;
  opt "metadata" "metadata" (Model IoK8sApimachineryPkgApisMetaV1ObjectMeta.schema);
  opt "spec" "spec" (Model TrainerV1alpha1TrainingRuntimeSpec.schema)].
Definition to_dict `{Pydantic} : value → outcome value := to_dict_with schema [
  Dump "metadata" "metadata" IoK8sApimachineryPkgApisMetaV1ObjectMeta.to_dict;
  Dump "spec" "spec" TrainerV1alpha1TrainingRuntimeSpec.to_dict].
Definition from_dict `{Pydantic} : value → outcome value := from_dict_with schema [
  Get "apiVersion";
  Get "kind";
  FromDict "metadata" IoK8sApimachineryPkgApisMetaV1ObjectMeta.from_dict;
  FromDict "spec" TrainerV1alpha1TrainingRuntimeSpec.from_dict].
Definition to_json `{Pydantic} : value → outcome string := to_json_with to_dict.
Definition from_json `{Pydantic} : string → outcome value := from_json_with from_dict.
Definition to_str `{Pydantic} : value → outcome string := to_str_with schema.
End TrainerV1alpha1TrainingRuntime.
#[export] Instance TrainerV1alpha1TrainingRuntime_templated `{PydanticLaws} :
  Templated TrainerV1alpha1TrainingRuntime.schema TrainerV1alpha1TrainingRuntime.to_dict
    TrainerV1alpha1TrainingRuntime.from_dict.
Proof. solve_model. Qed.

Module TrainerV1alpha1TrainingRuntimeList.
Definition schema `{Pydantic} : Schema := model "TrainerV1alpha1TrainingRuntimeList" [
  opt "api_version" "apiVersion" StrictStr;
  req "items" "items" (List (Model TrainerV1alpha1TrainingRuntime.schema));
  opt "kind" "kind" StrictStr;
  opt "metadata" "metadata" (Model IoK8sApimachineryPkgApisMetaV1ListMeta.schema)].
Definition to_dict `{Pydantic} : value → outcome value := to_dict_with schema [
  DumpItems "items" "items" TrainerV1alpha1TrainingRuntime.to_dict;
  Dump "metadata" "metadata" IoK8sApimachineryPkgApisMetaV1ListMeta.to_dict].
Definition from_dict `{Pydantic} : value → outcome value := from_dict_with schema [
  Get "apiVersion";
  FromDictItems "items" TrainerV1alpha1TrainingRuntime.from_dict;
  Get "kind";
  FromDict "metadata" IoK8sApimachineryPkgApisMetaV1ListMeta.from_dict].
Definition to_json `{Pydantic} : value → outcome string := to_json_with to_dict.
Definition from_json `{Pydantic} : string → outcome value := from_json_with from_dict.
Definition to_str `{Pydantic} : value → outcome string := to_str_with schema.
End TrainerV1alpha1TrainingRuntimeList.
#[export] Instance TrainerV1alpha1TrainingRuntimeList_templated `{PydanticLaws} :
  Templated TrainerV1alpha1TrainingRuntimeList.schema TrainerV1alpha1TrainingRuntimeList.to_dict
    TrainerV1alpha1TrainingRuntimeList.from_dict.
Proof. solve_model. Qed.

Module TrainerV1alpha1TrialConfig.
Definition schema `{Pydantic} : Schema := model "TrainerV1alpha1TrialConfig" [
  opt "max_failed_trials" "maxFailedTrials" StrictInt;
  opt "num_trials" "numTrials" StrictInt;
  opt "parallel_trials" "parallelTrials" StrictInt].
Definition to_dict `{Pydantic} : value → outcome value := to_dict_with schema [].
Definition from_dict `{Pydantic} : value → outcome value := from_dict_with schema [
  Get "maxFailedTrials";
  Get "numTrials";
  Get "parallelTrials"].
Definition to_json `{Pydantic} : value → outcome string := to_json_with to_dict.
Definition from_json `{Pydantic} : string → outcome value := from_json_with from_dict.
Definition to_str `{Pydantic} : value → outcome string := to_str_with schema.
End TrainerV1alpha1TrialConfig.
#[export] Instance TrainerV1alpha1TrialConfig_templated `{PydanticLaws} :
  Templated TrainerV1alpha1TrialConfig.schema TrainerV1alpha1TrialConfig.to_dict
    TrainerV1alpha1TrialConfig.from_dict.
Proof. solve_model. Qed.

Module TrainerV1alpha1UpdateTrainJobStatusRequest.
Definition schema `{Pydantic} : Schema := model "TrainerV1alpha1UpdateTrainJobStatusRequest" [
  opt "trainer_status" "trainerStatus" (Model TrainerV1alpha1TrainerStatus.schema)].
Definition to_dict `{Pydantic} : value → outcome value := to_dict_with schema [
  Dump "trainer_status" "trainerStatus" TrainerV1alpha1TrainerStatus.to_dict].
Definition from_dict `{Pydantic} : value → outcome value := from_dict_with schema [
  FromDict "trainerStatus" TrainerV1alpha1TrainerStatus.from_dict].
Definition to_json `{Pydantic} : value → outcome string := to_json_with to_dict.
Definition from_json `{Pydantic} : string → outcome value := from_json_with from_dict.
Definition to_str `{Pydantic} : value → outcome string := to_str_with schema.
End TrainerV1alpha1UpdateTrainJobStatusRequest.
#[export] Instance TrainerV1alpha1UpdateTrainJobStatusRequest_templated `{PydanticLaws} :
  Templated TrainerV1alpha1UpdateTrainJobStatusRequest.schema
    TrainerV1alpha1UpdateTrainJobStatusRequest.to_dict
      TrainerV1alpha1UpdateTrainJobStatusRequest.from_dict.
Proof. solve_model. Qed.

(** All the classes of this file. *)
Definition trainer_models `{Pydantic} : list ApiModel := [
  {| m_schema := TrainerV1alpha1SettingKV.schema;
     m_to_dict := TrainerV1alpha1SettingKV.to_dict;
     m_from_dict := TrainerV1alpha1SettingKV.from_dict;
     m_to_json := TrainerV1alpha1SettingKV.to_json;
     m_from_json := TrainerV1alpha1SettingKV.from_json;
     m_to_str := TrainerV1alpha1SettingKV.to_str |};
  {| m_schema := TrainerV1alpha1Algorithm.schema;
     m_to_dict := TrainerV1alpha1Algorithm.to_dict;
     m_from_dict := TrainerV1alpha1Algorithm.from_dict;
     m_to_json := TrainerV1alpha1Algorithm.to_json;
     m_from_json := TrainerV1alpha1Algorithm.from_json;
     m_to_str := TrainerV1alpha1Algorithm.to_str |};
  {| m_schema := TrainerV1alpha1BayesianAlgorithm.schema;
     m_to_dict := TrainerV1alpha1BayesianAlgorithm.to_dict;
     m_from_dict := TrainerV1alpha1BayesianAlgorithm.from_dict;
     m_to_json := TrainerV1alpha1BayesianAlgorithm.to_json;
     m_from_json := TrainerV1alpha1BayesianAlgorithm.from_json;
     m_to_str := TrainerV1alpha1BayesianAlgorithm.to_str |};
  {| m_schema := TrainerV1alpha1ParameterAssignment.schema;
     m_to_dict := TrainerV1alpha1ParameterAssignment.to_dict;
     m_from_dict := TrainerV1alpha1ParameterAssignment.from_dict;
     m_to_json := TrainerV1alpha1ParameterAssignment.to_json;
     m_from_json := TrainerV1alpha1ParameterAssignment.from_json;
     m_to_str := TrainerV1alpha1ParameterAssignment.to_str |};
  {| m_schema := TrainerV1alpha1BestTrial.schema;
     m_to_dict := TrainerV1alpha1BestTrial.to_dict;
     m_from_dict := TrainerV1alpha1BestTrial.from_dict;
     m_to_json := TrainerV1alpha1BestTrial.to_json;
     m_from_json := TrainerV1alpha1BestTrial.from_json;
     m_to_str := TrainerV1alpha1BestTrial.to_str |};
  {| m_schema := TrainerV1alpha1CategoricalSpace.schema;
     m_to_dict := TrainerV1alpha1CategoricalSpace.to_dict;
     m_from_dict := TrainerV1alpha1CategoricalSpace.from_dict;
     m_to_json := TrainerV1alpha1CategoricalSpace.to_json;
     m_from_json := TrainerV1alpha1CategoricalSpace.from_json;
     m_to_str := TrainerV1alpha1CategoricalSpace.to_str |};
  {| m_schema := TrainerV1alpha1FluxMLPolicySource.schema;
     m_to_dict := TrainerV1alpha1FluxMLPolicySource.to_dict;
     m_from_dict := TrainerV1alpha1FluxMLPolicySource.from_dict;
     m_to_json := TrainerV1alpha1FluxMLPolicySource.to_json;
     m_from_json := TrainerV1alpha1FluxMLPolicySource.from_json;
     m_to_str := TrainerV1alpha1FluxMLPolicySource.to_str |};
  {| m_schema := TrainerV1alpha1MPIMLPolicySource.schema;
     m_to_dict := TrainerV1alpha1MPIMLPolicySource.to_dict;
     m_from_dict := TrainerV1alpha1MPIMLPolicySource.from_dict;
     m_to_json := TrainerV1alpha1MPIMLPolicySource.to_json;
     m_from_json := TrainerV1alpha1MPIMLPolicySource.from_json;
     m_to_str := TrainerV1alpha1MPIMLPolicySource.to_str |};
  {| m_schema := TrainerV1alpha1EnvInjectionTarget.schema;
     m_to_dict := TrainerV1alpha1EnvInjectionTarget.to_dict;
     m_from_dict := TrainerV1alpha1EnvInjectionTarget.from_dict;
     m_to_json := TrainerV1alpha1EnvInjectionTarget.to_json;
     m_from_json := TrainerV1alpha1EnvInjectionTarget.from_json;
     m_to_str := TrainerV1alpha1EnvInjectionTarget.to_str |};
  {| m_schema := TrainerV1alpha1EnvInjection.schema;
     m_to_dict := TrainerV1alpha1EnvInjection.to_dict;
     m_from_dict := TrainerV1alpha1EnvInjection.from_dict;
     m_to_json := TrainerV1alpha1EnvInjection.to_json;
     m_from_json := TrainerV1alpha1EnvInjection.from_json;
     m_to_str := TrainerV1alpha1EnvInjection.to_str |};
  {| m_schema := TrainerV1alpha1TorchMLPolicySource.schema;
     m_to_dict := TrainerV1alpha1TorchMLPolicySource.to_dict;
     m_from_dict := TrainerV1alpha1TorchMLPolicySource.from_dict;
     m_to_json := TrainerV1alpha1TorchMLPolicySource.to_json;
     m_from_json := TrainerV1alpha1TorchMLPolicySource.from_json;
     m_to_str := TrainerV1alpha1TorchMLPolicySource.to_str |};
  {| m_schema := TrainerV1alpha1MLPolicy.schema;
     m_to_dict := TrainerV1alpha1MLPolicy.to_dict;
     m_from_dict := TrainerV1alpha1MLPolicy.from_dict;
     m_to_json := TrainerV1alpha1MLPolicy.to_json;
     m_from_json := TrainerV1alpha1MLPolicy.from_json;
     m_to_str := TrainerV1alpha1MLPolicy.to_str |};
  {| m_schema := TrainerV1alpha1CoschedulingPodGroupPolicySource.schema;
     m_to_dict := TrainerV1alpha1CoschedulingPodGroupPolicySource.to_dict;
     m_from_dict := TrainerV1alpha1CoschedulingPodGroupPolicySource.from_dict;
     m_to_json := TrainerV1alpha1CoschedulingPodGroupPolicySource.to_json;
     m_from_json := TrainerV1alpha1CoschedulingPodGroupPolicySource.from_json;
     m_to_str := TrainerV1alpha1CoschedulingPodGroupPolicySource.to_str |};
  {| m_schema := TrainerV1alpha1VolcanoPodGroupPolicySource.schema;
     m_to_dict := TrainerV1alpha1VolcanoPodGroupPolicySource.to_dict;
     m_from_dict := TrainerV1alpha1VolcanoPodGroupPolicySource.from_dict;
     m_to_json := TrainerV1alpha1VolcanoPodGroupPolicySource.to_json;
     m_from_json := TrainerV1alpha1VolcanoPodGroupPolicySource.from_json;
     m_to_str := TrainerV1alpha1VolcanoPodGroupPolicySource.to_str |};
  {| m_schema := TrainerV1alpha1PodGroupPolicy.schema;
     m_to_dict := TrainerV1alpha1PodGroupPolicy.to_dict;
     m_from_dict := TrainerV1alpha1PodGroupPolicy.from_dict;
     m_to_json := TrainerV1alpha1PodGroupPolicy.to_json;
     m_from_json := TrainerV1alpha1PodGroupPolicy.from_json;
     m_to_str := TrainerV1alpha1PodGroupPolicy.to_str |};
  {| m_schema := TrainerV1alpha1JobSetTemplateSpec.schema;
     m_to_dict := TrainerV1alpha1JobSetTemplateSpec.to_dict;
     m_from_dict := TrainerV1alpha1JobSetTemplateSpec.from_dict;
     m_to_json := TrainerV1alpha1JobSetTemplateSpec.to_json;
     m_from_json := TrainerV1alpha1JobSetTemplateSpec.from_json;
     m_to_str := TrainerV1alpha1JobSetTemplateSpec.to_str |};
  {| m_schema := TrainerV1alpha1TrainingRuntimeSpec.schema;
     m_to_dict := TrainerV1alpha1TrainingRuntimeSpec.to_dict;
     m_from_dict := TrainerV1alpha1TrainingRuntimeSpec.from_dict;
     m_to_json := TrainerV1alpha1TrainingRuntimeSpec.to_json;
     m_from_json := TrainerV1alpha1TrainingRuntimeSpec.from_json;
     m_to_str := TrainerV1alpha1TrainingRuntimeSpec.to_str |};
  {| m_schema := TrainerV1alpha1ClusterTrainingRuntime.schema;
     m_to_dict := TrainerV1alpha1ClusterTrainingRuntime.to_dict;
     m_from_dict := TrainerV1alpha1ClusterTrainingRuntime.from_dict;
     m_to_json := TrainerV1alpha1ClusterTrainingRuntime.to_json;
     m_from_json := TrainerV1alpha1ClusterTrainingRuntime.from_json;
     m_to_str := TrainerV1alpha1ClusterTrainingRuntime.to_str |};
  {| m_schema := TrainerV1alpha1ClusterTrainingRuntimeList.schema;
     m_to_dict := TrainerV1alpha1ClusterTrainingRuntimeList.to_dict;
     m_from_dict := TrainerV1alpha1ClusterTrainingRuntimeList.from_dict;
     m_to_json := TrainerV1alpha1ClusterTrainingRuntimeList.to_json;
     m_from_json := TrainerV1alpha1ClusterTrainingRuntimeList.from_json;
     m_to_str := TrainerV1alpha1ClusterTrainingRuntimeList.to_str |};
  {| m_schema := TrainerV1alpha1ContainerPatch.schema;
     m_to_dict := TrainerV1alpha1ContainerPatch.to_dict;
     m_from_dict := TrainerV1alpha1ContainerPatch.from_dict;
     m_to_json := TrainerV1alpha1ContainerPatch.to_json;
     m_from_json := TrainerV1alpha1ContainerPatch.from_json;
     m_to_str := TrainerV1alpha1ContainerPatch.to_str |};
  {| m_schema := TrainerV1alpha1CustomAlgorithm.schema;
     m_to_dict := TrainerV1alpha1CustomAlgorithm.to_dict;
     m_from_dict := TrainerV1alpha1CustomAlgorithm.from_dict;
     m_to_json := TrainerV1alpha1CustomAlgorithm.to_json;
     m_from_json := TrainerV1alpha1CustomAlgorithm.from_json;
     m_to_str := TrainerV1alpha1CustomAlgorithm.to_str |};
  {| m_schema := TrainerV1alpha1DatasetInitializer.schema;
     m_to_dict := TrainerV1alpha1DatasetInitializer.to_dict;
     m_from_dict := TrainerV1alpha1DatasetInitializer.from_dict;
     m_to_json := TrainerV1alpha1DatasetInitializer.to_json;
     m_from_json := TrainerV1alpha1DatasetInitializer.from_json;
     m_to_str := TrainerV1alpha1DatasetInitializer.to_str |};
  {| m_schema := TrainerV1alpha1EarlyStopping.schema;
     m_to_dict := TrainerV1alpha1EarlyStopping.to_dict;
     m_from_dict := TrainerV1alpha1EarlyStopping.from_dict;
     m_to_json := TrainerV1alpha1EarlyStopping.to_json;
     m_from_json := TrainerV1alpha1EarlyStopping.from_json;
     m_to_str := TrainerV1alpha1EarlyStopping.to_str |};
  {| m_schema := TrainerV1alpha1ModelInitializer.schema;
     m_to_dict := TrainerV1alpha1ModelInitializer.to_dict;
     m_from_dict := TrainerV1alpha1ModelInitializer.from_dict;
     m_to_json := TrainerV1alpha1ModelInitializer.to_json;
     m_from_json := TrainerV1alpha1ModelInitializer.from_json;
     m_to_str := TrainerV1alpha1ModelInitializer.to_str |};
  {| m_schema := TrainerV1alpha1Initializer.schema;
     m_to_dict := TrainerV1alpha1Initializer.to_dict;
     m_from_dict := TrainerV1alpha1Initializer.from_dict;
     m_to_json := TrainerV1alpha1Initializer.to_json;
     m_from_json := TrainerV1alpha1Initializer.from_json;
     m_to_str := TrainerV1alpha1Initializer.to_str |};
  {| m_schema := TrainerV1alpha1IntSpace.schema;
     m_to_dict := TrainerV1alpha1IntSpace.to_dict;
     m_from_dict := TrainerV1alpha1IntSpace.from_dict;
     m_to_json := TrainerV1alpha1IntSpace.to_json;
     m_from_json := TrainerV1alpha1IntSpace.from_json;
     m_to_str := TrainerV1alpha1IntSpace.to_str |};
  {| m_schema := TrainerV1alpha1PodSpecPatch.schema;
     m_to_dict := TrainerV1alpha1PodSpecPatch.to_dict;
     m_from_dict := TrainerV1alpha1PodSpecPatch.from_dict;
     m_to_json := TrainerV1alpha1PodSpecPatch.to_json;
     m_from_json := TrainerV1alpha1PodSpecPatch.from_json;
     m_to_str := TrainerV1alpha1PodSpecPatch.to_str |};
  {| m_schema := TrainerV1alpha1PodTemplatePatch.schema;
     m_to_dict := TrainerV1alpha1PodTemplatePatch.to_dict;
     m_from_dict := TrainerV1alpha1PodTemplatePatch.from_dict;
     m_to_json := TrainerV1alpha1PodTemplatePatch.to_json;
     m_from_json := TrainerV1alpha1PodTemplatePatch.from_json;
     m_to_str := TrainerV1alpha1PodTemplatePatch.to_str |};
  {| m_schema := TrainerV1alpha1JobSpecPatch.schema;
     m_to_dict := TrainerV1alpha1JobSpecPatch.to_dict;
     m_from_dict := TrainerV1alpha1JobSpecPatch.from_dict;
     m_to_json := TrainerV1alpha1JobSpecPatch.to_json;
     m_from_json := TrainerV1alpha1JobSpecPatch.from_json;
     m_to_str := TrainerV1alpha1JobSpecPatch.to_str |};
  {| m_schema := TrainerV1alpha1JobTemplatePatch.schema;
     m_to_dict := TrainerV1alpha1JobTemplatePatch.to_dict;
     m_from_dict := TrainerV1alpha1JobTemplatePatch.from_dict;
     m_to_json := TrainerV1alpha1JobTemplatePatch.to_json;
     m_from_json := TrainerV1alpha1JobTemplatePatch.from_json;
     m_to_str := TrainerV1alpha1JobTemplatePatch.to_str |};
  {| m_schema := TrainerV1alpha1ReplicatedJobPatch.schema;
     m_to_dict := TrainerV1alpha1ReplicatedJobPatch.to_dict;
     m_from_dict := TrainerV1alpha1ReplicatedJobPatch.from_dict;
     m_to_json := TrainerV1alpha1ReplicatedJobPatch.to_json;
     m_from_json := TrainerV1alpha1ReplicatedJobPatch.from_json;
     m_to_str := TrainerV1alpha1ReplicatedJobPatch.to_str |};
  {| m_schema := TrainerV1alpha1JobSetSpecPatch.schema;
     m_to_dict := TrainerV1alpha1JobSetSpecPatch.to_dict;
     m_from_dict := TrainerV1alpha1JobSetSpecPatch.from_dict;
     m_to_json := TrainerV1alpha1JobSetSpecPatch.to_json;
     m_from_json := TrainerV1alpha1JobSetSpecPatch.from_json;
     m_to_str := TrainerV1alpha1JobSetSpecPatch.to_str |};
  {| m_schema := TrainerV1alpha1JobSetTemplatePatch.schema;
     m_to_dict := TrainerV1alpha1JobSetTemplatePatch.to_dict;
     m_from_dict := TrainerV1alpha1JobSetTemplatePatch.from_dict;
     m_to_json := TrainerV1alpha1JobSetTemplatePatch.to_json;
     m_from_json := TrainerV1alpha1JobSetTemplatePatch.from_json;
     m_to_str := TrainerV1alpha1JobSetTemplatePatch.to_str |};
  {| m_schema := TrainerV1alpha1JobStatus.schema;
     m_to_dict := TrainerV1alpha1JobStatus.to_dict;
     m_from_dict := TrainerV1alpha1JobStatus.from_dict;
     m_to_json := TrainerV1alpha1JobStatus.to_json;
     m_from_json := TrainerV1alpha1JobStatus.from_json;
     m_to_str := TrainerV1alpha1JobStatus.to_str |};
  {| m_schema := TrainerV1alpha1LogNormalSpace.schema;
     m_to_dict := TrainerV1alpha1LogNormalSpace.to_dict;
     m_from_dict := TrainerV1alpha1LogNormalSpace.from_dict;
     m_to_json := TrainerV1alpha1LogNormalSpace.to_json;
     m_from_json := TrainerV1alpha1LogNormalSpace.from_json;
     m_to_str := TrainerV1alpha1LogNormalSpace.to_str |};
  {| m_schema := TrainerV1alpha1LogUniformSpace.schema;
     m_to_dict := TrainerV1alpha1LogUniformSpace.to_dict;
     m_from_dict := TrainerV1alpha1LogUniformSpace.from_dict;
     m_to_json := TrainerV1alpha1LogUniformSpace.to_json;
     m_from_json := TrainerV1alpha1LogUniformSpace.from_json;
     m_to_str := TrainerV1alpha1LogUniformSpace.to_str |};
  {| m_schema := TrainerV1alpha1Metric.schema;
     m_to_dict := TrainerV1alpha1Metric.to_dict;
     m_from_dict := TrainerV1alpha1Metric.from_dict;
     m_to_json := TrainerV1alpha1Metric.to_json;
     m_from_json := TrainerV1alpha1Metric.from_json;
     m_to_str := TrainerV1alpha1Metric.to_str |};
  {| m_schema := TrainerV1alpha1MLPolicySource.schema;
     m_to_dict := TrainerV1alpha1MLPolicySource.to_dict;
     m_from_dict := TrainerV1alpha1MLPolicySource.from_dict;
     m_to_json := TrainerV1alpha1MLPolicySource.to_json;
     m_from_json := TrainerV1alpha1MLPolicySource.from_json;
     m_to_str := TrainerV1alpha1MLPolicySource.to_str |};
  {| m_schema := TrainerV1alpha1NormalSpace.schema;
     m_to_dict := TrainerV1alpha1NormalSpace.to_dict;
     m_from_dict := TrainerV1alpha1NormalSpace.from_dict;
     m_to_json := TrainerV1alpha1NormalSpace.to_json;
     m_from_json := TrainerV1alpha1NormalSpace.from_json;
     m_to_str := TrainerV1alpha1NormalSpace.to_str |};
  {| m_schema := TrainerV1alpha1Objective.schema;
     m_to_dict := TrainerV1alpha1Objective.to_dict;
     m_from_dict := TrainerV1alpha1Objective.from_dict;
     m_to_json := TrainerV1alpha1Objective.to_json;
     m_from_json := TrainerV1alpha1Objective.from_json;
     m_to_str := TrainerV1alpha1Objective.to_str |};
  {| m_schema := TrainerV1alpha1UniformSpace.schema;
     m_to_dict := TrainerV1alpha1UniformSpace.to_dict;
     m_from_dict := TrainerV1alpha1UniformSpace.from_dict;
     m_to_json := TrainerV1alpha1UniformSpace.to_json;
     m_from_json := TrainerV1alpha1UniformSpace.from_json;
     m_to_str := TrainerV1alpha1UniformSpace.to_str |};
  {| m_schema := TrainerV1alpha1SearchSpace.schema;
     m_to_dict := TrainerV1alpha1SearchSpace.to_dict;
     m_from_dict := TrainerV1alpha1SearchSpace.from_dict;
     m_to_json := TrainerV1alpha1SearchSpace.to_json;
     m_from_json := TrainerV1alpha1SearchSpace.from_json;
     m_to_str := TrainerV1alpha1SearchSpace.to_str |};
  {| m_schema := TrainerV1alpha1Parameter.schema;
     m_to_dict := TrainerV1alpha1Parameter.to_dict;
     m_from_dict := TrainerV1alpha1Parameter.from_dict;
     m_to_json := TrainerV1alpha1Parameter.to_json;
     m_from_json := TrainerV1alpha1Parameter.from_json;
     m_to_str := TrainerV1alpha1Parameter.to_str |};
  {| m_schema := TrainerV1alpha1RandomAlgorithm.schema;
     m_to_dict := TrainerV1alpha1RandomAlgorithm.to_dict;
     m_from_dict := TrainerV1alpha1RandomAlgorithm.from_dict;
     m_to_json := TrainerV1alpha1RandomAlgorithm.to_json;
     m_from_json := TrainerV1alpha1RandomAlgorithm.from_json;
     m_to_str := TrainerV1alpha1RandomAlgorithm.to_str |};
  {| m_schema := TrainerV1alpha1SearchAlgorithm.schema;
     m_to_dict := TrainerV1alpha1SearchAlgorithm.to_dict;
     m_from_dict := TrainerV1alpha1SearchAlgorithm.from_dict;
     m_to_json := TrainerV1alpha1SearchAlgorithm.to_json;
     m_from_json := TrainerV1alpha1SearchAlgorithm.from_json;
     m_to_str := TrainerV1alpha1SearchAlgorithm.to_str |};
  {| m_schema := TrainerV1alpha1TrainingRuntimeSpecPatch.schema;
     m_to_dict := TrainerV1alpha1TrainingRuntimeSpecPatch.to_dict;
     m_from_dict := TrainerV1alpha1TrainingRuntimeSpecPatch.from_dict;
     m_to_json := TrainerV1alpha1TrainingRuntimeSpecPatch.to_json;
     m_from_json := TrainerV1alpha1TrainingRuntimeSpecPatch.from_json;
     m_to_str := TrainerV1alpha1TrainingRuntimeSpecPatch.to_str |};
  {| m_schema := TrainerV1alpha1RuntimePatch.schema;
     m_to_dict := TrainerV1alpha1RuntimePatch.to_dict;
     m_from_dict := TrainerV1alpha1RuntimePatch.from_dict;
     m_to_json := TrainerV1alpha1RuntimePatch.to_json;
     m_from_json := TrainerV1alpha1RuntimePatch.from_json;
     m_to_str := TrainerV1alpha1RuntimePatch.to_str |};
  {| m_schema := TrainerV1alpha1RuntimeRef.schema;
     m_to_dict := TrainerV1alpha1RuntimeRef.to_dict;
     m_from_dict := TrainerV1alpha1RuntimeRef.from_dict;
     m_to_json := TrainerV1alpha1RuntimeRef.to_json;
     m_from_json := TrainerV1alpha1RuntimeRef.from_json;
     m_to_str := TrainerV1alpha1RuntimeRef.to_str |};
  {| m_schema := TrainerV1alpha1TrainerResourceClaim.schema;
     m_to_dict := TrainerV1alpha1TrainerResourceClaim.to_dict;
     m_from_dict := TrainerV1alpha1TrainerResourceClaim.from_dict;
     m_to_json := TrainerV1alpha1TrainerResourceClaim.to_json;
     m_from_json := TrainerV1alpha1TrainerResourceClaim.from_json;
     m_to_str := TrainerV1alpha1TrainerResourceClaim.to_str |};
  {| m_schema := TrainerV1alpha1Trainer.schema;
     m_to_dict := TrainerV1alpha1Trainer.to_dict;
     m_from_dict := TrainerV1alpha1Trainer.from_dict;
     m_to_json := TrainerV1alpha1Trainer.to_json;
     m_from_json := TrainerV1alpha1Trainer.from_json;
     m_to_str := TrainerV1alpha1Trainer.to_str |};
  {| m_schema := TrainerV1alpha1TrainJobSpec.schema;
     m_to_dict := TrainerV1alpha1TrainJobSpec.to_dict;
     m_from_dict := TrainerV1alpha1TrainJobSpec.from_dict;
     m_to_json := TrainerV1alpha1TrainJobSpec.to_json;
     m_from_json := TrainerV1alpha1TrainJobSpec.from_json;
     m_to_str := TrainerV1alpha1TrainJobSpec.to_str |};
  {| m_schema := TrainerV1alpha1TrainJobTemplateSpec.schema;
     m_to_dict := TrainerV1alpha1TrainJobTemplateSpec.to_dict;
     m_from_dict := TrainerV1alpha1TrainJobTemplateSpec.from_dict;
     m_to_json := TrainerV1alpha1TrainJobTemplateSpec.to_json;
     m_from_json := TrainerV1alpha1TrainJobTemplateSpec.from_json;
     m_to_str := TrainerV1alpha1TrainJobTemplateSpec.to_str |};
  {| m_schema := TrainerV1alpha1OptimizationJobSpec.schema;
     m_to_dict := TrainerV1alpha1OptimizationJobSpec.to_dict;
     m_from_dict := TrainerV1alpha1OptimizationJobSpec.from_dict;
     m_to_json := TrainerV1alpha1OptimizationJobSpec.to_json;
     m_from_json := TrainerV1alpha1OptimizationJobSpec.from_json;
     m_to_str := TrainerV1alpha1OptimizationJobSpec.to_str |};
  {| m_schema := TrainerV1alpha1Result.schema;
     m_to_dict := TrainerV1alpha1Result.to_dict;
     m_from_dict := TrainerV1alpha1Result.from_dict;
     m_to_json := TrainerV1alpha1Result.to_json;
     m_from_json := TrainerV1alpha1Result.from_json;
     m_to_str := TrainerV1alpha1Result.to_str |};
  {| m_schema := TrainerV1alpha1OptimizationJobStatus.schema;
     m_to_dict := TrainerV1alpha1OptimizationJobStatus.to_dict;
     m_from_dict := TrainerV1alpha1OptimizationJobStatus.from_dict;
     m_to_json := TrainerV1alpha1OptimizationJobStatus.to_json;
     m_from_json := TrainerV1alpha1OptimizationJobStatus.from_json;
     m_to_str := TrainerV1alpha1OptimizationJobStatus.to_str |};
  {| m_schema := TrainerV1alpha1OptimizationJob.schema;
     m_to_dict := TrainerV1alpha1OptimizationJob.to_dict;
     m_from_dict := TrainerV1alpha1OptimizationJob.from_dict;
     m_to_json := TrainerV1alpha1OptimizationJob.to_json;
     m_from_json := TrainerV1alpha1OptimizationJob.from_json;
     m_to_str := TrainerV1alpha1OptimizationJob.to_str |};
  {| m_schema := TrainerV1alpha1OptimizationJobList.schema;
     m_to_dict := TrainerV1alpha1OptimizationJobList.to_dict;
     m_from_dict := TrainerV1alpha1OptimizationJobList.from_dict;
     m_to_json := TrainerV1alpha1OptimizationJobList.to_json;
     m_from_json := TrainerV1alpha1OptimizationJobList.from_json;
     m_to_str := TrainerV1alpha1OptimizationJobList.to_str |};
  {| m_schema := TrainerV1alpha1OptimizationStorage.schema;
     m_to_dict := TrainerV1alpha1OptimizationStorage.to_dict;
     m_from_dict := TrainerV1alpha1OptimizationStorage.from_dict;
     m_to_json := TrainerV1alpha1OptimizationStorage.to_json;
     m_from_json := TrainerV1alpha1OptimizationStorage.from_json;
     m_to_str := TrainerV1alpha1OptimizationStorage.to_str |};
  {| m_schema := TrainerV1alpha1PodGroupPolicySource.schema;
     m_to_dict := TrainerV1alpha1PodGroupPolicySource.to_dict;
     m_from_dict := TrainerV1alpha1PodGroupPolicySource.from_dict;
     m_to_json := TrainerV1alpha1PodGroupPolicySource.to_json;
     m_from_json := TrainerV1alpha1PodGroupPolicySource.from_json;
     m_to_str := TrainerV1alpha1PodGroupPolicySource.to_str |};
  {| m_schema := TrainerV1alpha1TPEAlgorithm.schema;
     m_to_dict := TrainerV1alpha1TPEAlgorithm.to_dict;
     m_from_dict := TrainerV1alpha1TPEAlgorithm.from_dict;
     m_to_json := TrainerV1alpha1TPEAlgorithm.to_json;
     m_from_json := TrainerV1alpha1TPEAlgorithm.from_json;
     m_to_str := TrainerV1alpha1TPEAlgorithm.to_str |};
  {| m_schema := TrainerV1alpha1TrainerStatus.schema;
     m_to_dict := TrainerV1alpha1TrainerStatus.to_dict;
     m_from_dict := TrainerV1alpha1TrainerStatus.from_dict;
     m_to_json := TrainerV1alpha1TrainerStatus.to_json;
     m_from_json := TrainerV1alpha1TrainerStatus.from_json;
     m_to_str := TrainerV1alpha1TrainerStatus.to_str |};
  {| m_schema := TrainerV1alpha1TrainJobStatus.schema;
     m_to_dict := TrainerV1alpha1TrainJobStatus.to_dict;
     m_from_dict := TrainerV1alpha1TrainJobStatus.from_dict;
     m_to_json := TrainerV1alpha1TrainJobStatus.to_json;
     m_from_json := TrainerV1alpha1TrainJobStatus.from_json;
     m_to_str := TrainerV1alpha1TrainJobStatus.to_str |};
  {| m_schema := TrainerV1alpha1TrainJob.schema;
     m_to_dict := TrainerV1alpha1TrainJob.to_dict;
     m_from_dict := TrainerV1alpha1TrainJob.from_dict;
     m_to_json := TrainerV1alpha1TrainJob.to_json;
     m_from_json := TrainerV1alpha1TrainJob.from_json;
     m_to_str := TrainerV1alpha1TrainJob.to_str |};
  {| m_schema := TrainerV1alpha1TrainJobList.schema;
     m_to_dict := TrainerV1alpha1TrainJobList.to_dict;
     m_from_dict := TrainerV1alpha1TrainJobList.from_dict;
     m_to_json := TrainerV1alpha1TrainJobList.to_json;
     m_from_json := TrainerV1alpha1TrainJobList.from_json;
     m_to_str := TrainerV1alpha1TrainJobList.to_str |};
  {| m_schema := TrainerV1alpha1TrainingRuntime.schema;
     m_to_dict := TrainerV1alpha1TrainingRuntime.to_dict;
     m_from_dict := TrainerV1alpha1TrainingRuntime.from_dict;
     m_to_json := TrainerV1alpha1TrainingRuntime.to_json;
     m_from_json := TrainerV1alpha1TrainingRuntime.from_json;
     m_to_str := TrainerV1alpha1TrainingRuntime.to_str |};
  {| m_schema := TrainerV1alpha1TrainingRuntimeList.schema;
     m_to_dict := TrainerV1alpha1TrainingRuntimeList.to_dict;
     m_from_dict := TrainerV1alpha1TrainingRuntimeList.from_dict;
     m_to_json := TrainerV1alpha1TrainingRuntimeList.to_json;
     m_from_json := TrainerV1alpha1TrainingRuntimeList.from_json;
     m_to_str := TrainerV1alpha1TrainingRuntimeList.to_str |};
  {| m_schema := TrainerV1alpha1TrialConfig.schema;
     m_to_dict := TrainerV1alpha1TrialConfig.to_dict;
     m_from_dict := TrainerV1alpha1TrialConfig.from_dict;
     m_to_json := TrainerV1alpha1TrialConfig.to_json;
     m_from_json := TrainerV1alpha1TrialConfig.from_json;
     m_to_str := TrainerV1alpha1TrialConfig.to_str |};
  {| m_schema := TrainerV1alpha1UpdateTrainJobStatusRequest.schema;
     m_to_dict := TrainerV1alpha1UpdateTrainJobStatusRequest.to_dict;
     m_from_dict := TrainerV1alpha1UpdateTrainJobStatusRequest.from_dict;
     m_to_json := TrainerV1alpha1UpdateTrainJobStatusRequest.to_json;
     m_from_json := TrainerV1alpha1UpdateTrainJobStatusRequest.from_json;
     m_to_str := TrainerV1alpha1UpdateTrainJobStatusRequest.to_str |}].
Lemma trainer_models_templated `{PydanticLaws} : Forall is_templated trainer_models.
Proof. solve_models. Qed.
