(* ===== verification/ApiMetaMore.v ===== *)
(** * Further API machinery models

    The classes of the Kubernetes API machinery that the Trainer API does not
    contain (discovery, delete options, patches, status, conversion, resource
    information), from
    api/python_api/kubeflow_trainer_api/models/io_k8s_apimachinery_*.py. Each
    Module is a class: its fields, [to_dict] and [from_dict]. *)

From S2P Require Import Prelude PyStr PyValue Pydantic PydanticSpec PydanticDocs.
From S2P Require Import OneOf ApiMeta.
Local Open Scope string_scope.
Local Open Scope list_scope.

Module IoK8sApimachineryPkgApisMetaV1GroupVersionForDiscovery.
Definition schema `{Pydantic} : Schema :=
  model "IoK8sApimachineryPkgApisMetaV1GroupVersionForDiscovery" [
  req "group_version" "groupVersion" StrictStr;
  req "version" "version" StrictStr].
Definition to_dict `{Pydantic} : value → outcome value := to_dict_with schema [].
Definition from_dict `{Pydantic} : value → outcome value := from_dict_with schema [
  GetOr "groupVersion" (VStr "");
  GetOr "version" (VStr "")].
Definition to_json `{Pydantic} : value → outcome string := to_json_with to_dict.
Definition from_json `{Pydantic} : string → outcome value := from_json_with from_dict.
Definition to_str `{Pydantic} : value → outcome string := to_str_with schema.
End IoK8sApimachineryPkgApisMetaV1GroupVersionForDiscovery.
#[export] Instance IoK8sApimachineryPkgApisMetaV1GroupVersionForDiscovery_templated
  `{PydanticLaws} :
  Templated IoK8sApimachineryPkgApisMetaV1GroupVersionForDiscovery.schema
    IoK8sApimachineryPkgApisMetaV1GroupVersionForDiscovery.to_dict
      IoK8sApimachineryPkgApisMetaV1GroupVersionForDiscovery.from_dict.
Proof. solve_model. Qed.

Module IoK8sApimachineryPkgApisMetaV1ServerAddressByClientCIDR.
Definition schema `{Pydantic} : Schema :=
  model "IoK8sApimachineryPkgApisMetaV1ServerAddressByClientCIDR" [
  req "client_cidr" "clientCIDR" StrictStr;
  req "server_address" "serverAddress" StrictStr].
Definition to_dict `{Pydantic} : value → outcome value := to_dict_with schema [].
Definition from_dict `{Pydantic} : value → outcome value := from_dict_with schema [
  GetOr "clientCIDR" (VStr "");
  GetOr "serverAddress" (VStr "")].
Definition to_json `{Pydantic} : value → outcome string := to_json_with to_dict.
Definition from_json `{Pydantic} : string → outcome value := from_json_with from_dict.
Definition to_str `{Pydantic} : value → outcome string := to_str_with schema.
End IoK8sApimachineryPkgApisMetaV1ServerAddressByClientCIDR.
#[export] Instance IoK8sApimachineryPkgApisMetaV1ServerAddressByClientCIDR_templated
  `{PydanticLaws} :
  Templated IoK8sApimachineryPkgApisMetaV1ServerAddressByClientCIDR.schema
    IoK8sApimachineryPkgApisMetaV1ServerAddressByClientCIDR.to_dict
      IoK8sApimachineryPkgApisMetaV1ServerAddressByClientCIDR.from_dict.
Proof. solve_model. Qed.

Module IoK8sApimachineryPkgApisMetaV1APIGroup.
Definition schema `{Pydantic} : Schema := model "IoK8sApimachineryPkgApisMetaV1APIGroup" [
  opt "api_version" "apiVersion" StrictStr;
  opt "kind" "kind" StrictStr;
  req "name" "name" StrictStr;
  opt "preferred_version" "preferredVersion"
    (Model IoK8sApimachineryPkgApisMetaV1GroupVersionForDiscovery.schema);
  opt "server_address_by_client_cidrs" "serverAddressByClientCIDRs" (List
    (Model IoK8sApimachineryPkgApisMetaV1ServerAddressByClientCIDR.schema));
  req "versions" "versions" (List
    (Model IoK8sApimachineryPkgApisMetaV1GroupVersionForDiscovery.schema))].
Definition to_dict `{Pydantic} : value → outcome value := to_dict_with schema [
  Dump "preferred_version" "preferredVersion"
    IoK8sApimachineryPkgApisMetaV1GroupVersionForDiscovery.to_dict;
  DumpItems "server_address_by_client_cidrs" "serverAddressByClientCIDRs"
    IoK8sApimachineryPkgApisMetaV1ServerAddressByClientCIDR.to_dict;
  DumpItems "versions" "versions" IoK8sApimachineryPkgApisMetaV1GroupVersionForDiscovery.to_dict].
Definition from_dict `{Pydantic} : value → outcome value := from_dict_with schema [
  Get "apiVersion";
  Get "kind";
  GetOr "name" (VStr "");
  FromDict "preferredVersion" IoK8sApimachineryPkgApisMetaV1GroupVersionForDiscovery.from_dict;
  FromDictItems "serverAddressByClientCIDRs"
    IoK8sApimachineryPkgApisMetaV1ServerAddressByClientCIDR.from_dict;
  FromDictItems "versions" IoK8sApimachineryPkgApisMetaV1GroupVersionForDiscovery.from_dict].
Definition to_json `{Pydantic} : value → outcome string := to_json_with to_dict.
Definition from_json `{Pydantic} : string → outcome value := from_json_with from_dict.
Definition to_str `{Pydantic} : value → outcome string := to_str_with schema.
End IoK8sApimachineryPkgApisMetaV1APIGroup.
#[export] Instance IoK8sApimachineryPkgApisMetaV1APIGroup_templated `{PydanticLaws} :
  Templated IoK8sApimachineryPkgApisMetaV1APIGroup.schema
    IoK8sApimachineryPkgApisMetaV1APIGroup.to_dict IoK8sApimachineryPkgApisMetaV1APIGroup.from_dict.
Proof. solve_model. Qed.

Module IoK8sApimachineryPkgApisMetaV1APIGroupList.
Definition schema `{Pydantic} : Schema := model "IoK8sApimachineryPkgApisMetaV1APIGroupList" [
  opt "api_version" "apiVersion" StrictStr;
  req "groups" "groups" (List (Model IoK8sApimachineryPkgApisMetaV1APIGroup.schema));
  opt "kind" "kind" StrictStr].
Definition to_dict `{Pydantic} : value → outcome value := to_dict_with schema [
  DumpItems "groups" "groups" IoK8sApimachineryPkgApisMetaV1APIGroup.to_dict].
Definition from_dict `{Pydantic} : value → outcome value := from_dict_with schema [
  Get "apiVersion";
  FromDictItems "groups" IoK8sApimachineryPkgApisMetaV1APIGroup.from_dict;
  Get "kind"].
Definition to_json `{Pydantic} : value → outcome string := to_json_with to_dict.
Definition from_json `{Pydantic} : string → outcome value := from_json_with from_dict.
Definition to_str `{Pydantic} : value → outcome string := to_str_with schema.
End IoK8sApimachineryPkgApisMetaV1APIGroupList.
#[export] Instance IoK8sApimachineryPkgApisMetaV1APIGroupList_templated `{PydanticLaws} :
  Templated IoK8sApimachineryPkgApisMetaV1APIGroupList.schema
    IoK8sApimachineryPkgApisMetaV1APIGroupList.to_dict
      IoK8sApimachineryPkgApisMetaV1APIGroupList.from_dict.
Proof. solve_model. Qed.

Module IoK8sApimachineryPkgApisMetaV1APIResource.
Definition schema `{Pydantic} : Schema := model "IoK8sApimachineryPkgApisMetaV1APIResource" [
  opt "categories" "categories" (List StrictStr);
  opt "group" "group" StrictStr;
  req "kind" "kind" StrictStr;
  req "name" "name" StrictStr;
  req "namespaced" "namespaced" StrictBool;
  opt "short_names" "shortNames" (List StrictStr);
  req "singular_name" "singularName" StrictStr;
  opt "storage_version_hash" "storageVersionHash" StrictStr;
  req "verbs" "verbs" (List StrictStr);
  opt "version" "version" StrictStr].
Definition to_dict `{Pydantic} : value → outcome value := to_dict_with schema [].
Definition from_dict `{Pydantic} : value → outcome value := from_dict_with schema [
  Get "categories";
  Get "group";
  GetOr "kind" (VStr "");
  GetOr "name" (VStr "");
  GetOr "namespaced" (VBool false);
  Get "shortNames";
  GetOr "singularName" (VStr "");
  Get "storageVersionHash";
  Get "verbs";
  Get "version"].
Definition to_json `{Pydantic} : value → outcome string := to_json_with to_dict.
Definition from_json `{Pydantic} : string → outcome value := from_json_with from_dict.
Definition to_str `{Pydantic} : value → outcome string := to_str_with schema.
End IoK8sApimachineryPkgApisMetaV1APIResource.
#[export] Instance IoK8sApimachineryPkgApisMetaV1APIResource_templated `{PydanticLaws} :
  Templated IoK8sApimachineryPkgApisMetaV1APIResource.schema
    IoK8sApimachineryPkgApisMetaV1APIResource.to_dict
      IoK8sApimachineryPkgApisMetaV1APIResource.from_dict.
Proof. solve_model. Qed.

Module IoK8sApimachineryPkgApisMetaV1APIResourceList.
Definition schema `{Pydantic} : Schema := model "IoK8sApimachineryPkgApisMetaV1APIResourceList" [
  opt "api_version" "apiVersion" StrictStr;
  req "group_version" "groupVersion" StrictStr;
  opt "kind" "kind" StrictStr;
  req "resources" "resources" (List (Model IoK8sApimachineryPkgApisMetaV1APIResource.schema))].
Definition to_dict `{Pydantic} : value → outcome value := to_dict_with schema [
  DumpItems "resources" "resources" IoK8sApimachineryPkgApisMetaV1APIResource.to_dict].
Definition from_dict `{Pydantic} : value → outcome value := from_dict_with schema [
  Get "apiVersion";
  GetOr "groupVersion" (VStr "");
  Get "kind";
  FromDictItems "resources" IoK8sApimachineryPkgApisMetaV1APIResource.from_dict].
Definition to_json `{Pydantic} : value → outcome string := to_json_with to_dict.
Definition from_json `{Pydantic} : string → outcome value := from_json_with from_dict.
Definition to_str `{Pydantic} : value → outcome string := to_str_with schema.
End IoK8sApimachineryPkgApisMetaV1APIResourceList.
#[export] Instance IoK8sApimachineryPkgApisMetaV1APIResourceList_templated `{PydanticLaws} :
  Templated IoK8sApimachineryPkgApisMetaV1APIResourceList.schema
    IoK8sApimachineryPkgApisMetaV1APIResourceList.to_dict
      IoK8sApimachineryPkgApisMetaV1APIResourceList.from_dict.
Proof. solve_model. Qed.

Module IoK8sApimachineryPkgApisMetaV1APIVersions.
Definition schema `{Pydantic} : Schema := model "IoK8sApimachineryPkgApisMetaV1APIVersions" [
  opt "api_version" "apiVersion" StrictStr;
  opt "kind" "kind" StrictStr;
  req "server_address_by_client_cidrs" "serverAddressByClientCIDRs" (List
    (Model IoK8sApimachineryPkgApisMetaV1ServerAddressByClientCIDR.schema));
  req "versions" "versions" (List StrictStr)].
Definition to_dict `{Pydantic} : value → outcome value := to_dict_with schema [
  DumpItems "server_address_by_client_cidrs" "serverAddressByClientCIDRs"
    IoK8sApimachineryPkgApisMetaV1ServerAddressByClientCIDR.to_dict].
Definition from_dict `{Pydantic} : value → outcome value := from_dict_with schema [
  Get "apiVersion";
  Get "kind";
  FromDictItems "serverAddressByClientCIDRs"
    IoK8sApimachineryPkgApisMetaV1ServerAddressByClientCIDR.from_dict;
  Get "versions"].
Definition to_json `{Pydantic} : value → outcome string := to_json_with to_dict.
Definition from_json `{Pydantic} : string → outcome value := from_json_with from_dict.
Definition to_str `{Pydantic} : value → outcome string := to_str_with schema.
End IoK8sApimachineryPkgApisMetaV1APIVersions.
#[export] Instance IoK8sApimachineryPkgApisMetaV1APIVersions_templated `{PydanticLaws} :
  Templated IoK8sApimachineryPkgApisMetaV1APIVersions.schema
    IoK8sApimachineryPkgApisMetaV1APIVersions.to_dict
      IoK8sApimachineryPkgApisMetaV1APIVersions.from_dict.
Proof. solve_model. Qed.

Module IoK8sApimachineryPkgApisMetaV1ApplyOptions.
Definition schema `{Pydantic} : Schema := model "IoK8sApimachineryPkgApisMetaV1ApplyOptions" [
  opt "api_version" "apiVersion" StrictStr;
  opt "dry_run" "dryRun" (List StrictStr);
  req "field_manager" "fieldManager" StrictStr;
  req "force" "force" StrictBool;
  opt "kind" "kind" StrictStr].
Definition to_dict `{Pydantic} : value → outcome value := to_dict_with schema [].
Definition from_dict `{Pydantic} : value → outcome value := from_dict_with schema [
  Get "apiVersion";
  Get "dryRun";
  GetOr "fieldManager" (VStr "");
  GetOr "force" (VBool false);
  Get "kind"].
Definition to_json `{Pydantic} : value → outcome string := to_json_with to_dict.
Definition from_json `{Pydantic} : string → outcome value := from_json_with from_dict.
Definition to_str `{Pydantic} : value → outcome string := to_str_with schema.
End IoK8sApimachineryPkgApisMetaV1ApplyOptions.
#[export] Instance IoK8sApimachineryPkgApisMetaV1ApplyOptions_templated `{PydanticLaws} :
  Templated IoK8sApimachineryPkgApisMetaV1ApplyOptions.schema
    IoK8sApimachineryPkgApisMetaV1ApplyOptions.to_dict
      IoK8sApimachineryPkgApisMetaV1ApplyOptions.from_dict.
Proof. solve_model. Qed.

Module IoK8sApimachineryPkgApisMetaV1CreateOptions.
Definition schema `{Pydantic} : Schema := model "IoK8sApimachineryPkgApisMetaV1CreateOptions" [
  opt "api_version" "apiVersion" StrictStr;
  opt "dry_run" "dryRun" (List StrictStr);
  opt "field_manager" "fieldManager" StrictStr;
  opt "field_validation" "fieldValidation" StrictStr;
  opt "kind" "kind" StrictStr].
Definition to_dict `{Pydantic} : value → outcome value := to_dict_with schema [].
Definition from_dict `{Pydantic} : value → outcome value := from_dict_with schema [
  Get "apiVersion";
  Get "dryRun";
  Get "fieldManager";
  Get "fieldValidation";
  Get "kind"].
Definition to_json `{Pydantic} : value → outcome string := to_json_with to_dict.
Definition from_json `{Pydantic} : string → outcome value := from_json_with from_dict.
Definition to_str `{Pydantic} : value → outcome string := to_str_with schema.
End IoK8sApimachineryPkgApisMetaV1CreateOptions.
#[export] Instance IoK8sApimachineryPkgApisMetaV1CreateOptions_templated `{PydanticLaws} :
  Templated IoK8sApimachineryPkgApisMetaV1CreateOptions.schema
    IoK8sApimachineryPkgApisMetaV1CreateOptions.to_dict
      IoK8sApimachineryPkgApisMetaV1CreateOptions.from_dict.
Proof. solve_model. Qed.

Module IoK8sApimachineryPkgApisMetaV1Preconditions.
Definition schema `{Pydantic} : Schema := model "IoK8sApimachineryPkgApisMetaV1Preconditions" [
  opt "resource_version" "resourceVersion" StrictStr;
  opt "uid" "uid" StrictStr].
Definition to_dict `{Pydantic} : value → outcome value := to_dict_with schema [].
Definition from_dict `{Pydantic} : value → outcome value := from_dict_with schema [
  Get "resourceVersion";
  Get "uid"].
Definition to_json `{Pydantic} : value → outcome string := to_json_with to_dict.
Definition from_json `{Pydantic} : string → outcome value := from_json_with from_dict.
Definition to_str `{Pydantic} : value → outcome string := to_str_with schema.
End IoK8sApimachineryPkgApisMetaV1Preconditions.
#[export] Instance IoK8sApimachineryPkgApisMetaV1Preconditions_templated `{PydanticLaws} :
  Templated IoK8sApimachineryPkgApisMetaV1Preconditions.schema
    IoK8sApimachineryPkgApisMetaV1Preconditions.to_dict
      IoK8sApimachineryPkgApisMetaV1Preconditions.from_dict.
Proof. solve_model. Qed.

Module IoK8sApimachineryPkgApisMetaV1DeleteOptions.
Definition schema `{Pydantic} : Schema := model "IoK8sApimachineryPkgApisMetaV1DeleteOptions" [
  opt "api_version" "apiVersion" StrictStr;
  opt "dry_run" "dryRun" (List StrictStr);
  opt "grace_period_seconds" "gracePeriodSeconds" StrictInt;
  opt "ignore_store_read_error_with_cluster_breaking_potential"
    "ignoreStoreReadErrorWithClusterBreakingPotential" StrictBool;
  opt "kind" "kind" StrictStr;
  opt "orphan_dependents" "orphanDependents" StrictBool;
  opt "preconditions" "preconditions" (Model IoK8sApimachineryPkgApisMetaV1Preconditions.schema);
  opt "propagation_policy" "propagationPolicy" StrictStr].
Definition to_dict `{Pydantic} : value → outcome value := to_dict_with schema [
  Dump "preconditions" "preconditions" IoK8sApimachineryPkgApisMetaV1Preconditions.to_dict].
Definition from_dict `{Pydantic} : value → outcome value := from_dict_with schema [
  Get "apiVersion";
  Get "dryRun";
  Get "gracePeriodSeconds";
  Get "ignoreStoreReadErrorWithClusterBreakingPotential";
  Get "kind";
  Get "orphanDependents";
  FromDict "preconditions" IoK8sApimachineryPkgApisMetaV1Preconditions.from_dict;
  Get "propagationPolicy"].
Definition to_json `{Pydantic} : value → outcome string := to_json_with to_dict.
Definition from_json `{Pydantic} : string → outcome value := from_json_with from_dict.
Definition to_str `{Pydantic} : value → outcome string := to_str_with schema.
End IoK8sApimachineryPkgApisMetaV1DeleteOptions.
#[export] Instance IoK8sApimachineryPkgApisMetaV1DeleteOptions_templated `{PydanticLaws} :
  Templated IoK8sApimachineryPkgApisMetaV1DeleteOptions.schema
    IoK8sApimachineryPkgApisMetaV1DeleteOptions.to_dict
      IoK8sApimachineryPkgApisMetaV1DeleteOptions.from_dict.
Proof. solve_model. Qed.

Module IoK8sApimachineryPkgApisMetaV1FieldSelectorRequirement.
Definition schema `{Pydantic} : Schema :=
  model "IoK8sApimachineryPkgApisMetaV1FieldSelectorRequirement" [
  req "key" "key" StrictStr;
  req "operator" "operator" StrictStr;
  opt "values" "values" (List StrictStr)].
Definition to_dict `{Pydantic} : value → outcome value := to_dict_with schema [].
Definition from_dict `{Pydantic} : value → outcome value := from_dict_with schema [
  GetOr "key" (VStr "");
  GetOr "operator" (VStr "");
  Get "values"].
Definition to_json `{Pydantic} : value → outcome string := to_json_with to_dict.
Definition from_json `{Pydantic} : string → outcome value := from_json_with from_dict.
Definition to_str `{Pydantic} : value → outcome string := to_str_with schema.
End IoK8sApimachineryPkgApisMetaV1FieldSelectorRequirement.
#[export] Instance IoK8sApimachineryPkgApisMetaV1FieldSelectorRequirement_templated
  `{PydanticLaws} :
  Templated IoK8sApimachineryPkgApisMetaV1FieldSelectorRequirement.schema
    IoK8sApimachineryPkgApisMetaV1FieldSelectorRequirement.to_dict
      IoK8sApimachineryPkgApisMetaV1FieldSelectorRequirement.from_dict.
Proof. solve_model. Qed.

Module IoK8sApimachineryPkgApisMetaV1GetOptions.
Definition schema `{Pydantic} : Schema := model "IoK8sApimachineryPkgApisMetaV1GetOptions" [
  opt "api_version" "apiVersion" StrictStr;
  opt "kind" "kind" StrictStr;
  opt "resource_version" "resourceVersion" StrictStr].
Definition to_dict `{Pydantic} : value → outcome value := to_dict_with schema [].
Definition from_dict `{Pydantic} : value → outcome value := from_dict_with schema [
  Get "apiVersion";
  Get "kind";
  Get "resourceVersion"].
Definition to_json `{Pydantic} : value → outcome string := to_json_with to_dict.
Definition from_json `{Pydantic} : string → outcome value := from_json_with from_dict.
Definition to_str `{Pydantic} : value → outcome string := to_str_with schema.
End IoK8sApimachineryPkgApisMetaV1GetOptions.
#[export] Instance IoK8sApimachineryPkgApisMetaV1GetOptions_templated `{PydanticLaws} :
  Templated IoK8sApimachineryPkgApisMetaV1GetOptions.schema
    IoK8sApimachineryPkgApisMetaV1GetOptions.to_dict
      IoK8sApimachineryPkgApisMetaV1GetOptions.from_dict.
Proof. solve_model. Qed.

Module IoK8sApimachineryPkgApisMetaV1GroupKind.
Definition schema `{Pydantic} : Schema := model "IoK8sApimachineryPkgApisMetaV1GroupKind" [
  req "group" "group" StrictStr;
  req "kind" "kind" StrictStr].
Definition to_dict `{Pydantic} : value → outcome value := to_dict_with schema [].
Definition from_dict `{Pydantic} : value → outcome value := from_dict_with schema [
  GetOr "group" (VStr "");
  GetOr "kind" (VStr "")].
Definition to_json `{Pydantic} : value → outcome string := to_json_with to_dict.
Definition from_json `{Pydantic} : string → outcome value := from_json_with from_dict.
Definition to_str `{Pydantic} : value → outcome string := to_str_with schema.
End IoK8sApimachineryPkgApisMetaV1GroupKind.
#[export] Instance IoK8sApimachineryPkgApisMetaV1GroupKind_templated `{PydanticLaws} :
  Templated IoK8sApimachineryPkgApisMetaV1GroupKind.schema
    IoK8sApimachineryPkgApisMetaV1GroupKind.to_dict
      IoK8sApimachineryPkgApisMetaV1GroupKind.from_dict.
Proof. solve_model. Qed.

Module IoK8sApimachineryPkgApisMetaV1GroupResource.
Definition schema `{Pydantic} : Schema := model "IoK8sApimachineryPkgApisMetaV1GroupResource" [
  req "group" "group" StrictStr;
  req "resource" "resource" StrictStr].
Definition to_dict `{Pydantic} : value → outcome value := to_dict_with schema [].
Definition from_dict `{Pydantic} : value → outcome value := from_dict_with schema [
  GetOr "group" (VStr "");
  GetOr "resource" (VStr "")].
Definition to_json `{Pydantic} : value → outcome string := to_json_with to_dict.
Definition from_json `{Pydantic} : string → outcome value := from_json_with from_dict.
Definition to_str `{Pydantic} : value → outcome string := to_str_with schema.
End IoK8sApimachineryPkgApisMetaV1GroupResource.
#[export] Instance IoK8sApimachineryPkgApisMetaV1GroupResource_templated `{PydanticLaws} :
  Templated IoK8sApimachineryPkgApisMetaV1GroupResource.schema
    IoK8sApimachineryPkgApisMetaV1GroupResource.to_dict
      IoK8sApimachineryPkgApisMetaV1GroupResource.from_dict.
Proof. solve_model. Qed.

Module IoK8sApimachineryPkgApisMetaV1GroupVersion.
Definition schema `{Pydantic} : Schema := model "IoK8sApimachineryPkgApisMetaV1GroupVersion" [
  req "group" "group" StrictStr;
  req "version" "version" StrictStr].
Definition to_dict `{Pydantic} : value → outcome value := to_dict_with schema [].
Definition from_dict `{Pydantic} : value → outcome value := from_dict_with schema [
  GetOr "group" (VStr "");
  GetOr "version" (VStr "")].
Definition to_json `{Pydantic} : value → outcome string := to_json_with to_dict.
Definition from_json `{Pydantic} : string → outcome value := from_json_with from_dict.
Definition to_str `{Pydantic} : value → outcome string := to_str_with schema.
End IoK8sApimachineryPkgApisMetaV1GroupVersion.
#[export] Instance IoK8sApimachineryPkgApisMetaV1GroupVersion_templated `{PydanticLaws} :
  Templated IoK8sApimachineryPkgApisMetaV1GroupVersion.schema
    IoK8sApimachineryPkgApisMetaV1GroupVersion.to_dict
      IoK8sApimachineryPkgApisMetaV1GroupVersion.from_dict.
Proof. solve_model. Qed.

Module IoK8sApimachineryPkgApisMetaV1GroupVersionKind.
Definition schema `{Pydantic} : Schema := model "IoK8sApimachineryPkgApisMetaV1GroupVersionKind" [
  req "group" "group" StrictStr;
  req "kind" "kind" StrictStr;
  req "version" "version" StrictStr].
Definition to_dict `{Pydantic} : value → outcome value := to_dict_with schema [].
Definition from_dict `{Pydantic} : value → outcome value := from_dict_with schema [
  GetOr "group" (VStr "");
  GetOr "kind" (VStr "");
  GetOr "version" (VStr "")].
Definition to_json `{Pydantic} : value → outcome string := to_json_with to_dict.
Definition from_json `{Pydantic} : string → outcome value := from_json_with from_dict.
Definition to_str `{Pydantic} : value → outcome string := to_str_with schema.
End IoK8sApimachineryPkgApisMetaV1GroupVersionKind.
#[export] Instance IoK8sApimachineryPkgApisMetaV1GroupVersionKind_templated `{PydanticLaws} :
  Templated IoK8sApimachineryPkgApisMetaV1GroupVersionKind.schema
    IoK8sApimachineryPkgApisMetaV1GroupVersionKind.to_dict
      IoK8sApimachineryPkgApisMetaV1GroupVersionKind.from_dict.
Proof. solve_model. Qed.

Module IoK8sApimachineryPkgApisMetaV1GroupVersionResource.
Definition schema `{Pydantic} : Schema :=
  model "IoK8sApimachineryPkgApisMetaV1GroupVersionResource" [
  req "group" "group" StrictStr;
  req "resource" "resource" StrictStr;
  req "version" "version" StrictStr].
Definition to_dict `{Pydantic} : value → outcome value := to_dict_with schema [].
Definition from_dict `{Pydantic} : value → outcome value := from_dict_with schema [
  GetOr "group" (VStr "");
  GetOr "resource" (VStr "");
  GetOr "version" (VStr "")].
Definition to_json `{Pydantic} : value → outcome string := to_json_with to_dict.
Definition from_json `{Pydantic} : string → outcome value := from_json_with from_dict.
Definition to_str `{Pydantic} : value → outcome string := to_str_with schema.
End IoK8sApimachineryPkgApisMetaV1GroupVersionResource.
#[export] Instance IoK8sApimachineryPkgApisMetaV1GroupVersionResource_templated `{PydanticLaws} :
  Templated IoK8sApimachineryPkgApisMetaV1GroupVersionResource.schema
    IoK8sApimachineryPkgApisMetaV1GroupVersionResource.to_dict
      IoK8sApimachineryPkgApisMetaV1GroupVersionResource.from_dict.
Proof. solve_model. Qed.

Module IoK8sApimachineryPkgApisMetaV1List.
Definition schema `{Pydantic} : Schema := model "IoK8sApimachineryPkgApisMetaV1List" [
  opt "api_version" "apiVersion" StrictStr;
  req "items" "items" (List (Dict AnyValue));
  opt "kind" "kind" StrictStr;
  opt "metadata" "metadata" (Model IoK8sApimachineryPkgApisMetaV1ListMeta.schema)].
Definition to_dict `{Pydantic} : value → outcome value := to_dict_with schema [
  Dump "metadata" "metadata" IoK8sApimachineryPkgApisMetaV1ListMeta.to_dict].
Definition from_dict `{Pydantic} : value → outcome value := from_dict_with schema [
  Get "apiVersion";
  Get "items";
  Get "kind";
  FromDict "metadata" IoK8sApimachineryPkgApisMetaV1ListMeta.from_dict].
Definition to_json `{Pydantic} : value → outcome string := to_json_with to_dict.
Definition from_json `{Pydantic} : string → outcome value := from_json_with from_dict.
Definition to_str `{Pydantic} : value → outcome string := to_str_with schema.
End IoK8sApimachineryPkgApisMetaV1List.
#[export] Instance IoK8sApimachineryPkgApisMetaV1List_templated `{PydanticLaws} :
  Templated IoK8sApimachineryPkgApisMetaV1List.schema IoK8sApimachineryPkgApisMetaV1List.to_dict
    IoK8sApimachineryPkgApisMetaV1List.from_dict.
Proof. solve_model. Qed.

Module IoK8sApimachineryPkgApisMetaV1ListOptions.
Definition schema `{Pydantic} : Schema := model "IoK8sApimachineryPkgApisMetaV1ListOptions" [
  opt "allow_watch_bookmarks" "allowWatchBookmarks" StrictBool;
  opt "api_version" "apiVersion" StrictStr;
  opt "var_continue" "continue" StrictStr;
  opt "field_selector" "fieldSelector" StrictStr;
  opt "kind" "kind" StrictStr;
  opt "label_selector" "labelSelector" StrictStr;
  opt "limit" "limit" StrictInt;
  opt "resource_version" "resourceVersion" StrictStr;
  opt "resource_version_match" "resourceVersionMatch" StrictStr;
  opt "send_initial_events" "sendInitialEvents" StrictBool;
  opt "shard_selector" "shardSelector" StrictStr;
  opt "timeout_seconds" "timeoutSeconds" StrictInt;
  opt "watch" "watch" StrictBool].
Definition to_dict `{Pydantic} : value → outcome value := to_dict_with schema [].
Definition from_dict `{Pydantic} : value → outcome value := from_dict_with schema [
  Get "allowWatchBookmarks";
  Get "apiVersion";
  Get "continue";
  Get "fieldSelector";
  Get "kind";
  Get "labelSelector";
  Get "limit";
  Get "resourceVersion";
  Get "resourceVersionMatch";
  Get "sendInitialEvents";
  Get "shardSelector";
  Get "timeoutSeconds";
  Get "watch"].
Definition to_json `{Pydantic} : value → outcome string := to_json_with to_dict.
Definition from_json `{Pydantic} : string → outcome value := from_json_with from_dict.
Definition to_str `{Pydantic} : value → outcome string := to_str_with schema.
End IoK8sApimachineryPkgApisMetaV1ListOptions.
#[export] Instance IoK8sApimachineryPkgApisMetaV1ListOptions_templated `{PydanticLaws} :
  Templated IoK8sApimachineryPkgApisMetaV1ListOptions.schema
    IoK8sApimachineryPkgApisMetaV1ListOptions.to_dict
      IoK8sApimachineryPkgApisMetaV1ListOptions.from_dict.
Proof. solve_model. Qed.

Module IoK8sApimachineryPkgApisMetaV1PartialObjectMetadata.
Definition schema `{Pydantic} : Schema :=
  model "IoK8sApimachineryPkgApisMetaV1PartialObjectMetadata" [
  opt "api_version" "apiVersion" StrictStr;
  opt "kind" "kind" StrictStr;
  opt "metadata" "metadata" (Model IoK8sApimachineryPkgApisMetaV1ObjectMeta.schema)].
Definition to_dict `{Pydantic} : value → outcome value := to_dict_with schema [
  Dump "metadata" "metadata" IoK8sApimachineryPkgApisMetaV1ObjectMeta.to_dict].
Definition from_dict `{Pydantic} : value → outcome value := from_dict_with schema [
  Get "apiVersion";
  Get "kind";
  FromDict "metadata" IoK8sApimachineryPkgApisMetaV1ObjectMeta.from_dict].
Definition to_json `{Pydantic} : value → outcome string := to_json_with to_dict.
Definition from_json `{Pydantic} : string → outcome value := from_json_with from_dict.
Definition to_str `{Pydantic} : value → outcome string := to_str_with schema.
End IoK8sApimachineryPkgApisMetaV1PartialObjectMetadata.
#[export] Instance IoK8sApimachineryPkgApisMetaV1PartialObjectMetadata_templated `{PydanticLaws} :
  Templated IoK8sApimachineryPkgApisMetaV1PartialObjectMetadata.schema
    IoK8sApimachineryPkgApisMetaV1PartialObjectMetadata.to_dict
      IoK8sApimachineryPkgApisMetaV1PartialObjectMetadata.from_dict.
Proof. solve_model. Qed.

Module IoK8sApimachineryPkgApisMetaV1PartialObjectMetadataList.
Definition schema `{Pydantic} : Schema :=
  model "IoK8sApimachineryPkgApisMetaV1PartialObjectMetadataList" [
  opt "api_version" "apiVersion" StrictStr;
  req "items" "items" (List (Model IoK8sApimachineryPkgApisMetaV1PartialObjectMetadata.schema));
  opt "kind" "kind" StrictStr;
  opt "metadata" "metadata" (Model IoK8sApimachineryPkgApisMetaV1ListMeta.schema)].
Definition to_dict `{Pydantic} : value → outcome value := to_dict_with schema [
  DumpItems "items" "items" IoK8sApimachineryPkgApisMetaV1PartialObjectMetadata.to_dict;
  Dump "metadata" "metadata" IoK8sApimachineryPkgApisMetaV1ListMeta.to_dict].
Definition from_dict `{Pydantic} : value → outcome value := from_dict_with schema [
  Get "apiVersion";
  FromDictItems "items" IoK8sApimachineryPkgApisMetaV1PartialObjectMetadata.from_dict;
  Get "kind";
  FromDict "metadata" IoK8sApimachineryPkgApisMetaV1ListMeta.from_dict].
Definition to_json `{Pydantic} : value → outcome string := to_json_with to_dict.
Definition from_json `{Pydantic} : string → outcome value := from_json_with from_dict.
Definition to_str `{Pydantic} : value → outcome string := to_str_with schema.
End IoK8sApimachineryPkgApisMetaV1PartialObjectMetadataList.
#[export] Instance IoK8sApimachineryPkgApisMetaV1PartialObjectMetadataList_templated
  `{PydanticLaws} :
  Templated IoK8sApimachineryPkgApisMetaV1PartialObjectMetadataList.schema
    IoK8sApimachineryPkgApisMetaV1PartialObjectMetadataList.to_dict
      IoK8sApimachineryPkgApisMetaV1PartialObjectMetadataList.from_dict.
Proof. solve_model. Qed.

Module IoK8sApimachineryPkgApisMetaV1PatchOptions.
Definition schema `{Pydantic} : Schema := model "IoK8sApimachineryPkgApisMetaV1PatchOptions" [
  opt "api_version" "apiVersion" StrictStr;
  opt "dry_run" "dryRun" (List StrictStr);
  opt "field_manager" "fieldManager" StrictStr;
  opt "field_validation" "fieldValidation" StrictStr;
  opt "force" "force" StrictBool;
  opt "kind" "kind" StrictStr].
Definition to_dict `{Pydantic} : value → outcome value := to_dict_with schema [].
Definition from_dict `{Pydantic} : value → outcome value := from_dict_with schema [
  Get "apiVersion";
  Get "dryRun";
  Get "fieldManager";
  Get "fieldValidation";
  Get "force";
  Get "kind"].
Definition to_json `{Pydantic} : value → outcome string := to_json_with to_dict.
Definition from_json `{Pydantic} : string → outcome value := from_json_with from_dict.
Definition to_str `{Pydantic} : value → outcome string := to_str_with schema.
End IoK8sApimachineryPkgApisMetaV1PatchOptions.
#[export] Instance IoK8sApimachineryPkgApisMetaV1PatchOptions_templated `{PydanticLaws} :
  Templated IoK8sApimachineryPkgApisMetaV1PatchOptions.schema
    IoK8sApimachineryPkgApisMetaV1PatchOptions.to_dict
      IoK8sApimachineryPkgApisMetaV1PatchOptions.from_dict.
Proof. solve_model. Qed.

Module IoK8sApimachineryPkgApisMetaV1RootPaths.
Definition schema `{Pydantic} : Schema := model "IoK8sApimachineryPkgApisMetaV1RootPaths" [
  req "paths" "paths" (List StrictStr)].
Definition to_dict `{Pydantic} : value → outcome value := to_dict_with schema [].
Definition from_dict `{Pydantic} : value → outcome value := from_dict_with schema [
  Get "paths"].
Definition to_json `{Pydantic} : value → outcome string := to_json_with to_dict.
Definition from_json `{Pydantic} : string → outcome value := from_json_with from_dict.
Definition to_str `{Pydantic} : value → outcome string := to_str_with schema.
End IoK8sApimachineryPkgApisMetaV1RootPaths.
#[export] Instance IoK8sApimachineryPkgApisMetaV1RootPaths_templated `{PydanticLaws} :
  Templated IoK8sApimachineryPkgApisMetaV1RootPaths.schema
    IoK8sApimachineryPkgApisMetaV1RootPaths.to_dict
      IoK8sApimachineryPkgApisMetaV1RootPaths.from_dict.
Proof. solve_model. Qed.

Module IoK8sApimachineryPkgApisMetaV1StatusCause.
Definition schema `{Pydantic} : Schema := model "IoK8sApimachineryPkgApisMetaV1StatusCause" [
  opt "var_field" "field" StrictStr;
  opt "message" "message" StrictStr;
  opt "reason" "reason" StrictStr].
Definition to_dict `{Pydantic} : value → outcome value := to_dict_with schema [].
Definition from_dict `{Pydantic} : value → outcome value := from_dict_with schema [
  Get "field";
  Get "message";
  Get "reason"].
Definition to_json `{Pydantic} : value → outcome string := to_json_with to_dict.
Definition from_json `{Pydantic} : string → outcome value := from_json_with from_dict.
Definition to_str `{Pydantic} : value → outcome string := to_str_with schema.
End IoK8sApimachineryPkgApisMetaV1StatusCause.
#[export] Instance IoK8sApimachineryPkgApisMetaV1StatusCause_templated `{PydanticLaws} :
  Templated IoK8sApimachineryPkgApisMetaV1StatusCause.schema
    IoK8sApimachineryPkgApisMetaV1StatusCause.to_dict
      IoK8sApimachineryPkgApisMetaV1StatusCause.from_dict.
Proof. solve_model. Qed.

Module IoK8sApimachineryPkgApisMetaV1StatusDetails.
Definition schema `{Pydantic} : Schema := model "IoK8sApimachineryPkgApisMetaV1StatusDetails" [
  opt "causes" "causes" (List (Model IoK8sApimachineryPkgApisMetaV1StatusCause.schema));
  opt "group" "group" StrictStr;
  opt "kind" "kind" StrictStr;
  opt "name" "name" StrictStr;
  opt "retry_after_seconds" "retryAfterSeconds" StrictInt;
  opt "uid" "uid" StrictStr].
Definition to_dict `{Pydantic} : value → outcome value := to_dict_with schema [
  DumpItems "causes" "causes" IoK8sApimachineryPkgApisMetaV1StatusCause.to_dict].
Definition from_dict `{Pydantic} : value → outcome value := from_dict_with schema [
  FromDictItems "causes" IoK8sApimachineryPkgApisMetaV1StatusCause.from_dict;
  Get "group";
  Get "kind";
  Get "name";
  Get "retryAfterSeconds";
  Get "uid"].
Definition to_json `{Pydantic} : value → outcome string := to_json_with to_dict.
Definition from_json `{Pydantic} : string → outcome value := from_json_with from_dict.
Definition to_str `{Pydantic} : value → outcome string := to_str_with schema.
End IoK8sApimachineryPkgApisMetaV1StatusDetails.
#[export] Instance IoK8sApimachineryPkgApisMetaV1StatusDetails_templated `{PydanticLaws} :
  Templated IoK8sApimachineryPkgApisMetaV1StatusDetails.schema
    IoK8sApimachineryPkgApisMetaV1StatusDetails.to_dict
      IoK8sApimachineryPkgApisMetaV1StatusDetails.from_dict.
Proof. solve_model. Qed.

Module IoK8sApimachineryPkgApisMetaV1Status.
Definition schema `{Pydantic} : Schema := model "IoK8sApimachineryPkgApisMetaV1Status" [
  opt "api_version" "apiVersion" StrictStr;
  opt "code" "code" StrictInt;
  opt "details" "details" (Model IoK8sApimachineryPkgApisMetaV1StatusDetails.schema);
  opt "kind" "kind" StrictStr;
  opt "message" "message" StrictStr;
  opt "metadata" "metadata" (Model IoK8sApimachineryPkgApisMetaV1ListMeta.schema);
  opt "reason" "reason" StrictStr;
  opt "status" "status" StrictStr].
Definition to_dict `{Pydantic} : value → outcome value := to_dict_with schema [
  Dump "details" "details" IoK8sApimachineryPkgApisMetaV1StatusDetails.to_dict;
  Dump "metadata" "metadata" IoK8sApimachineryPkgApisMetaV1ListMeta.to_dict].
Definition from_dict `{Pydantic} : value → outcome value := from_dict_with schema [
  Get "apiVersion";
  Get "code";
  FromDict "details" IoK8sApimachineryPkgApisMetaV1StatusDetails.from_dict;
  Get "kind";
  Get "message";
  FromDict "metadata" IoK8sApimachineryPkgApisMetaV1ListMeta.from_dict;
  Get "reason";
  Get "status"].
Definition to_json `{Pydantic} : value → outcome string := to_json_with to_dict.
Definition from_json `{Pydantic} : string → outcome value := from_json_with from_dict.
Definition to_str `{Pydantic} : value → outcome string := to_str_with schema.
End IoK8sApimachineryPkgApisMetaV1Status.
#[export] Instance IoK8sApimachineryPkgApisMetaV1Status_templated `{PydanticLaws} :
  Templated IoK8sApimachineryPkgApisMetaV1Status.schema
    IoK8sApimachineryPkgApisMetaV1Status.to_dict IoK8sApimachineryPkgApisMetaV1Status.from_dict.
Proof. solve_model. Qed.

Module IoK8sApimachineryPkgApisMetaV1TableColumnDefinition.
Definition schema `{Pydantic} : Schema :=
  model "IoK8sApimachineryPkgApisMetaV1TableColumnDefinition" [
  req "description" "description" StrictStr;
  req "format" "format" StrictStr;
  req "name" "name" StrictStr;
  req "priority" "priority" StrictInt;
  req "type" "type" StrictStr].
Definition to_dict `{Pydantic} : value → outcome value := to_dict_with schema [].
Definition from_dict `{Pydantic} : value → outcome value := from_dict_with schema [
  GetOr "description" (VStr "");
  GetOr "format" (VStr "");
  GetOr "name" (VStr "");
  GetOr "priority" (VInt 0);
  GetOr "type" (VStr "")].
Definition to_json `{Pydantic} : value → outcome string := to_json_with to_dict.
Definition from_json `{Pydantic} : string → outcome value := from_json_with from_dict.
Definition to_str `{Pydantic} : value → outcome string := to_str_with schema.
End IoK8sApimachineryPkgApisMetaV1TableColumnDefinition.
#[export] Instance IoK8sApimachineryPkgApisMetaV1TableColumnDefinition_templated `{PydanticLaws} :
  Templated IoK8sApimachineryPkgApisMetaV1TableColumnDefinition.schema
    IoK8sApimachineryPkgApisMetaV1TableColumnDefinition.to_dict
      IoK8sApimachineryPkgApisMetaV1TableColumnDefinition.from_dict.
Proof. solve_model. Qed.

Module IoK8sApimachineryPkgApisMetaV1TableRowCondition.
Definition schema `{Pydantic} : Schema := model "IoK8sApimachineryPkgApisMetaV1TableRowCondition" [
  opt "message" "message" StrictStr;
  opt "reason" "reason" StrictStr;
  req "status" "status" StrictStr;
  req "type" "type" StrictStr].
Definition to_dict `{Pydantic} : value → outcome value := to_dict_with schema [].
Definition from_dict `{Pydantic} : value → outcome value := from_dict_with schema [
  Get "message";
  Get "reason";
  GetOr "status" (VStr "");
  GetOr "type" (VStr "")].
Definition to_json `{Pydantic} : value → outcome string := to_json_with to_dict.
Definition from_json `{Pydantic} : string → outcome value := from_json_with from_dict.
Definition to_str `{Pydantic} : value → outcome string := to_str_with schema.
End IoK8sApimachineryPkgApisMetaV1TableRowCondition.
#[export] Instance IoK8sApimachineryPkgApisMetaV1TableRowCondition_templated `{PydanticLaws} :
  Templated IoK8sApimachineryPkgApisMetaV1TableRowCondition.schema
    IoK8sApimachineryPkgApisMetaV1TableRowCondition.to_dict
      IoK8sApimachineryPkgApisMetaV1TableRowCondition.from_dict.
Proof. solve_model. Qed.

Module IoK8sApimachineryPkgApisMetaV1TableRow.
Definition schema `{Pydantic} : Schema := model "IoK8sApimachineryPkgApisMetaV1TableRow" [
  req "cells" "cells" (List (Dict AnyValue));
  opt "conditions" "conditions" (List
    (Model IoK8sApimachineryPkgApisMetaV1TableRowCondition.schema));
  opt "object" "object" (Dict AnyValue)].
Definition to_dict `{Pydantic} : value → outcome value := to_dict_with schema [
  DumpItems "conditions" "conditions" IoK8sApimachineryPkgApisMetaV1TableRowCondition.to_dict].
Definition from_dict `{Pydantic} : value → outcome value := from_dict_with schema [
  Get "cells";
  FromDictItems "conditions" IoK8sApimachineryPkgApisMetaV1TableRowCondition.from_dict;
  Get "object"].
Definition to_json `{Pydantic} : value → outcome string := to_json_with to_dict.
Definition from_json `{Pydantic} : string → outcome value := from_json_with from_dict.
Definition to_str `{Pydantic} : value → outcome string := to_str_with schema.
End IoK8sApimachineryPkgApisMetaV1TableRow.
#[export] Instance IoK8sApimachineryPkgApisMetaV1TableRow_templated `{PydanticLaws} :
  Templated IoK8sApimachineryPkgApisMetaV1TableRow.schema
    IoK8sApimachineryPkgApisMetaV1TableRow.to_dict IoK8sApimachineryPkgApisMetaV1TableRow.from_dict.
Proof. solve_model. Qed.

Module IoK8sApimachineryPkgApisMetaV1Table.
Definition schema `{Pydantic} : Schema := model "IoK8sApimachineryPkgApisMetaV1Table" [
  opt "api_version" "apiVersion" StrictStr;
  req "column_definitions" "columnDefinitions" (List
    (Model IoK8sApimachineryPkgApisMetaV1TableColumnDefinition.schema));
  opt "kind" "kind" StrictStr;
  opt "metadata" "metadata" (Model IoK8sApimachineryPkgApisMetaV1ListMeta.schema);
  req "rows" "rows" (List (Model IoK8sApimachineryPkgApisMetaV1TableRow.schema))].
Definition to_dict `{Pydantic} : value → outcome value := to_dict_with schema [
  DumpItems "column_definitions" "columnDefinitions"
    IoK8sApimachineryPkgApisMetaV1TableColumnDefinition.to_dict;
  Dump "metadata" "metadata" IoK8sApimachineryPkgApisMetaV1ListMeta.to_dict;
  DumpItems "rows" "rows" IoK8sApimachineryPkgApisMetaV1TableRow.to_dict].
Definition from_dict `{Pydantic} : value → outcome value := from_dict_with schema [
  Get "apiVersion";
  FromDictItems "columnDefinitions" IoK8sApimachineryPkgApisMetaV1TableColumnDefinition.from_dict;
  Get "kind";
  FromDict "metadata" IoK8sApimachineryPkgApisMetaV1ListMeta.from_dict;
  FromDictItems "rows" IoK8sApimachineryPkgApisMetaV1TableRow.from_dict].
Definition to_json `{Pydantic} : value → outcome string := to_json_with to_dict.
Definition from_json `{Pydantic} : string → outcome value := from_json_with from_dict.
Definition to_str `{Pydantic} : value → outcome string := to_str_with schema.
End IoK8sApimachineryPkgApisMetaV1Table.
#[export] Instance IoK8sApimachineryPkgApisMetaV1Table_templated `{PydanticLaws} :
  Templated IoK8sApimachineryPkgApisMetaV1Table.schema IoK8sApimachineryPkgApisMetaV1Table.to_dict
    IoK8sApimachineryPkgApisMetaV1Table.from_dict.
Proof. solve_model. Qed.

Module IoK8sApimachineryPkgApisMetaV1TableOptions.
Definition schema `{Pydantic} : Schema := model "IoK8sApimachineryPkgApisMetaV1TableOptions" [
  opt "api_version" "apiVersion" StrictStr;
  opt "include_object" "includeObject" StrictStr;
  opt "kind" "kind" StrictStr].
Definition to_dict `{Pydantic} : value → outcome value := to_dict_with schema [].
Definition from_dict `{Pydantic} : value → outcome value := from_dict_with schema [
  Get "apiVersion";
  Get "includeObject";
  Get "kind"].
Definition to_json `{Pydantic} : value → outcome string := to_json_with to_dict.
Definition from_json `{Pydantic} : string → outcome value := from_json_with from_dict.
Definition to_str `{Pydantic} : value → outcome string := to_str_with schema.
End IoK8sApimachineryPkgApisMetaV1TableOptions.
#[export] Instance IoK8sApimachineryPkgApisMetaV1TableOptions_templated `{PydanticLaws} :
  Templated IoK8sApimachineryPkgApisMetaV1TableOptions.schema
    IoK8sApimachineryPkgApisMetaV1TableOptions.to_dict
      IoK8sApimachineryPkgApisMetaV1TableOptions.from_dict.
Proof. solve_model. Qed.

Module IoK8sApimachineryPkgApisMetaV1Timestamp.
Definition schema `{Pydantic} : Schema := model "IoK8sApimachineryPkgApisMetaV1Timestamp" [
  req "nanos" "nanos" StrictInt;
  req "seconds" "seconds" StrictInt].
Definition to_dict `{Pydantic} : value → outcome value := to_dict_with schema [].
Definition from_dict `{Pydantic} : value → outcome value := from_dict_with schema [
  GetOr "nanos" (VInt 0);
  GetOr "seconds" (VInt 0)].
Definition to_json `{Pydantic} : value → outcome string := to_json_with to_dict.
Definition from_json `{Pydantic} : string → outcome value := from_json_with from_dict.
Definition to_str `{Pydantic} : value → outcome string := to_str_with schema.
End IoK8sApimachineryPkgApisMetaV1Timestamp.
#[export] Instance IoK8sApimachineryPkgApisMetaV1Timestamp_templated `{PydanticLaws} :
  Templated IoK8sApimachineryPkgApisMetaV1Timestamp.schema
    IoK8sApimachineryPkgApisMetaV1Timestamp.to_dict
      IoK8sApimachineryPkgApisMetaV1Timestamp.from_dict.
Proof. solve_model. Qed.

Module IoK8sApimachineryPkgApisMetaV1TypeMeta.
Definition schema `{Pydantic} : Schema := model "IoK8sApimachineryPkgApisMetaV1TypeMeta" [
  opt "api_version" "apiVersion" StrictStr;
  opt "kind" "kind" StrictStr].
Definition to_dict `{Pydantic} : value → outcome value := to_dict_with schema [].
Definition from_dict `{Pydantic} : value → outcome value := from_dict_with schema [
  Get "apiVersion";
  Get "kind"].
Definition to_json `{Pydantic} : value → outcome string := to_json_with to_dict.
Definition from_json `{Pydantic} : string → outcome value := from_json_with from_dict.
Definition to_str `{Pydantic} : value → outcome string := to_str_with schema.
End IoK8sApimachineryPkgApisMetaV1TypeMeta.
#[export] Instance IoK8sApimachineryPkgApisMetaV1TypeMeta_templated `{PydanticLaws} :
  Templated IoK8sApimachineryPkgApisMetaV1TypeMeta.schema
    IoK8sApimachineryPkgApisMetaV1TypeMeta.to_dict IoK8sApimachineryPkgApisMetaV1TypeMeta.from_dict.
Proof. solve_model. Qed.

Module IoK8sApimachineryPkgApisMetaV1UpdateOptions.
Definition schema `{Pydantic} : Schema := model "IoK8sApimachineryPkgApisMetaV1UpdateOptions" [
  opt "api_version" "apiVersion" StrictStr;
  opt "dry_run" "dryRun" (List StrictStr);
  opt "field_manager" "fieldManager" StrictStr;
  opt "field_validation" "fieldValidation" StrictStr;
  opt "kind" "kind" StrictStr].
Definition to_dict `{Pydantic} : value → outcome value := to_dict_with schema [].
Definition from_dict `{Pydantic} : value → outcome value := from_dict_with schema [
  Get "apiVersion";
  Get "dryRun";
  Get "fieldManager";
  Get "fieldValidation";
  Get "kind"].
Definition to_json `{Pydantic} : value → outcome string := to_json_with to_dict.
Definition from_json `{Pydantic} : string → outcome value := from_json_with from_dict.
Definition to_str `{Pydantic} : value → outcome string := to_str_with schema.
End IoK8sApimachineryPkgApisMetaV1UpdateOptions.
#[export] Instance IoK8sApimachineryPkgApisMetaV1UpdateOptions_templated `{PydanticLaws} :
  Templated IoK8sApimachineryPkgApisMetaV1UpdateOptions.schema
    IoK8sApimachineryPkgApisMetaV1UpdateOptions.to_dict
      IoK8sApimachineryPkgApisMetaV1UpdateOptions.from_dict.
Proof. solve_model. Qed.

Module IoK8sApimachineryPkgApisMetaV1WatchEvent.
Definition schema `{Pydantic} : Schema := model "IoK8sApimachineryPkgApisMetaV1WatchEvent" [
  req "object" "object" (Dict AnyValue);
  req "type" "type" StrictStr].
Definition to_dict `{Pydantic} : value → outcome value := to_dict_with schema [].
Definition from_dict `{Pydantic} : value → outcome value := from_dict_with schema [
  Get "object";
  GetOr "type" (VStr "")].
Definition to_json `{Pydantic} : value → outcome string := to_json_with to_dict.
Definition from_json `{Pydantic} : string → outcome value := from_json_with from_dict.
Definition to_str `{Pydantic} : value → outcome string := to_str_with schema.
End IoK8sApimachineryPkgApisMetaV1WatchEvent.
#[export] Instance IoK8sApimachineryPkgApisMetaV1WatchEvent_templated `{PydanticLaws} :
  Templated IoK8sApimachineryPkgApisMetaV1WatchEvent.schema
    IoK8sApimachineryPkgApisMetaV1WatchEvent.to_dict
      IoK8sApimachineryPkgApisMetaV1WatchEvent.from_dict.
Proof. solve_model. Qed.

Module IoK8sApimachineryPkgRuntimeTypeMeta.
Definition schema `{Pydantic} : Schema := model "IoK8sApimachineryPkgRuntimeTypeMeta" [
  opt "api_version" "apiVersion" StrictStr;
  opt "kind" "kind" StrictStr].
Definition to_dict `{Pydantic} : value → outcome value := to_dict_with schema [].
Definition from_dict `{Pydantic} : value → outcome value := from_dict_with schema [
  Get "apiVersion";
  Get "kind"].
Definition to_json `{Pydantic} : value → outcome string := to_json_with to_dict.
Definition from_json `{Pydantic} : string → outcome value := from_json_with from_dict.
Definition to_str `{Pydantic} : value → outcome string := to_str_with schema.
End IoK8sApimachineryPkgRuntimeTypeMeta.
#[export] Instance IoK8sApimachineryPkgRuntimeTypeMeta_templated `{PydanticLaws} :
  Templated IoK8sApimachineryPkgRuntimeTypeMeta.schema IoK8sApimachineryPkgRuntimeTypeMeta.to_dict
    IoK8sApimachineryPkgRuntimeTypeMeta.from_dict.
Proof. solve_model. Qed.

Module IoK8sApimachineryPkgRuntimeUnknown.
Definition schema `{Pydantic} : Schema := model "IoK8sApimachineryPkgRuntimeUnknown" [
  req "content_encoding" "ContentEncoding" StrictStr;
  req "content_type" "ContentType" StrictStr;
  opt "api_version" "apiVersion" StrictStr;
  opt "kind" "kind" StrictStr].
Definition to_dict `{Pydantic} : value → outcome value := to_dict_with schema [].
Definition from_dict `{Pydantic} : value → outcome value := from_dict_with schema [
  GetOr "ContentEncoding" (VStr "");
  GetOr "ContentType" (VStr "");
  Get "apiVersion";
  Get "kind"].
Definition to_json `{Pydantic} : value → outcome string := to_json_with to_dict.
Definition from_json `{Pydantic} : string → outcome value := from_json_with from_dict.
Definition to_str `{Pydantic} : value → outcome string := to_str_with schema.
End IoK8sApimachineryPkgRuntimeUnknown.
#[export] Instance IoK8sApimachineryPkgRuntimeUnknown_templated `{PydanticLaws} :
  Templated IoK8sApimachineryPkgRuntimeUnknown.schema IoK8sApimachineryPkgRuntimeUnknown.to_dict
    IoK8sApimachineryPkgRuntimeUnknown.from_dict.
Proof. solve_model. Qed.

(** All the classes of this file. *)
Definition more_meta_models `{Pydantic} : list ApiModel := [
  {| m_schema := IoK8sApimachineryPkgApisMetaV1GroupVersionForDiscovery.schema;
     m_to_dict := IoK8sApimachineryPkgApisMetaV1GroupVersionForDiscovery.to_dict;
     m_from_dict := IoK8sApimachineryPkgApisMetaV1GroupVersionForDiscovery.from_dict;
     m_to_json := IoK8sApimachineryPkgApisMetaV1GroupVersionForDiscovery.to_json;
     m_from_json := IoK8sApimachineryPkgApisMetaV1GroupVersionForDiscovery.from_json;
     m_to_str := IoK8sApimachineryPkgApisMetaV1GroupVersionForDiscovery.to_str |};
  {| m_schema := IoK8sApimachineryPkgApisMetaV1ServerAddressByClientCIDR.schema;
     m_to_dict := IoK8sApimachineryPkgApisMetaV1ServerAddressByClientCIDR.to_dict;
     m_from_dict := IoK8sApimachineryPkgApisMetaV1ServerAddressByClientCIDR.from_dict;
     m_to_json := IoK8sApimachineryPkgApisMetaV1ServerAddressByClientCIDR.to_json;
     m_from_json := IoK8sApimachineryPkgApisMetaV1ServerAddressByClientCIDR.from_json;
     m_to_str := IoK8sApimachineryPkgApisMetaV1ServerAddressByClientCIDR.to_str |};
  {| m_schema := IoK8sApimachineryPkgApisMetaV1APIGroup.schema;
     m_to_dict := IoK8sApimachineryPkgApisMetaV1APIGroup.to_dict;
     m_from_dict := IoK8sApimachineryPkgApisMetaV1APIGroup.from_dict;
     m_to_json := IoK8sApimachineryPkgApisMetaV1APIGroup.to_json;
     m_from_json := IoK8sApimachineryPkgApisMetaV1APIGroup.from_json;
     m_to_str := IoK8sApimachineryPkgApisMetaV1APIGroup.to_str |};
  {| m_schema := IoK8sApimachineryPkgApisMetaV1APIGroupList.schema;
     m_to_dict := IoK8sApimachineryPkgApisMetaV1APIGroupList.to_dict;
     m_from_dict := IoK8sApimachineryPkgApisMetaV1APIGroupList.from_dict;
     m_to_json := IoK8sApimachineryPkgApisMetaV1APIGroupList.to_json;
     m_from_json := IoK8sApimachineryPkgApisMetaV1APIGroupList.from_json;
     m_to_str := IoK8sApimachineryPkgApisMetaV1APIGroupList.to_str |};
  {| m_schema := IoK8sApimachineryPkgApisMetaV1APIResource.schema;
     m_to_dict := IoK8sApimachineryPkgApisMetaV1APIResource.to_dict;
     m_from_dict := IoK8sApimachineryPkgApisMetaV1APIResource.from_dict;
     m_to_json := IoK8sApimachineryPkgApisMetaV1APIResource.to_json;
     m_from_json := IoK8sApimachineryPkgApisMetaV1APIResource.from_json;
     m_to_str := IoK8sApimachineryPkgApisMetaV1APIResource.to_str |};
  {| m_schema := IoK8sApimachineryPkgApisMetaV1APIResourceList.schema;
     m_to_dict := IoK8sApimachineryPkgApisMetaV1APIResourceList.to_dict;
     m_from_dict := IoK8sApimachineryPkgApisMetaV1APIResourceList.from_dict;
     m_to_json := IoK8sApimachineryPkgApisMetaV1APIResourceList.to_json;
     m_from_json := IoK8sApimachineryPkgApisMetaV1APIResourceList.from_json;
     m_to_str := IoK8sApimachineryPkgApisMetaV1APIResourceList.to_str |};
  {| m_schema := IoK8sApimachineryPkgApisMetaV1APIVersions.schema;
     m_to_dict := IoK8sApimachineryPkgApisMetaV1APIVersions.to_dict;
     m_from_dict := IoK8sApimachineryPkgApisMetaV1APIVersions.from_dict;
     m_to_json := IoK8sApimachineryPkgApisMetaV1APIVersions.to_json;
     m_from_json := IoK8sApimachineryPkgApisMetaV1APIVersions.from_json;
     m_to_str := IoK8sApimachineryPkgApisMetaV1APIVersions.to_str |};
  {| m_schema := IoK8sApimachineryPkgApisMetaV1ApplyOptions.schema;
     m_to_dict := IoK8sApimachineryPkgApisMetaV1ApplyOptions.to_dict;
     m_from_dict := IoK8sApimachineryPkgApisMetaV1ApplyOptions.from_dict;
     m_to_json := IoK8sApimachineryPkgApisMetaV1ApplyOptions.to_json;
     m_from_json := IoK8sApimachineryPkgApisMetaV1ApplyOptions.from_json;
     m_to_str := IoK8sApimachineryPkgApisMetaV1ApplyOptions.to_str |};
  {| m_schema := IoK8sApimachineryPkgApisMetaV1CreateOptions.schema;
     m_to_dict := IoK8sApimachineryPkgApisMetaV1CreateOptions.to_dict;
     m_from_dict := IoK8sApimachineryPkgApisMetaV1CreateOptions.from_dict;
     m_to_json := IoK8sApimachineryPkgApisMetaV1CreateOptions.to_json;
     m_from_json := IoK8sApimachineryPkgApisMetaV1CreateOptions.from_json;
     m_to_str := IoK8sApimachineryPkgApisMetaV1CreateOptions.to_str |};
  {| m_schema := IoK8sApimachineryPkgApisMetaV1Preconditions.schema;
     m_to_dict := IoK8sApimachineryPkgApisMetaV1Preconditions.to_dict;
     m_from_dict := IoK8sApimachineryPkgApisMetaV1Preconditions.from_dict;
     m_to_json := IoK8sApimachineryPkgApisMetaV1Preconditions.to_json;
     m_from_json := IoK8sApimachineryPkgApisMetaV1Preconditions.from_json;
     m_to_str := IoK8sApimachineryPkgApisMetaV1Preconditions.to_str |};
  {| m_schema := IoK8sApimachineryPkgApisMetaV1DeleteOptions.schema;
     m_to_dict := IoK8sApimachineryPkgApisMetaV1DeleteOptions.to_dict;
     m_from_dict := IoK8sApimachineryPkgApisMetaV1DeleteOptions.from_dict;
     m_to_json := IoK8sApimachineryPkgApisMetaV1DeleteOptions.to_json;
     m_from_json := IoK8sApimachineryPkgApisMetaV1DeleteOptions.from_json;
     m_to_str := IoK8sApimachineryPkgApisMetaV1DeleteOptions.to_str |};
  {| m_schema := IoK8sApimachineryPkgApisMetaV1FieldSelectorRequirement.schema;
     m_to_dict := IoK8sApimachineryPkgApisMetaV1FieldSelectorRequirement.to_dict;
     m_from_dict := IoK8sApimachineryPkgApisMetaV1FieldSelectorRequirement.from_dict;
     m_to_json := IoK8sApimachineryPkgApisMetaV1FieldSelectorRequirement.to_json;
     m_from_json := IoK8sApimachineryPkgApisMetaV1FieldSelectorRequirement.from_json;
     m_to_str := IoK8sApimachineryPkgApisMetaV1FieldSelectorRequirement.to_str |};
  {| m_schema := IoK8sApimachineryPkgApisMetaV1GetOptions.schema;
     m_to_dict := IoK8sApimachineryPkgApisMetaV1GetOptions.to_dict;
     m_from_dict := IoK8sApimachineryPkgApisMetaV1GetOptions.from_dict;
     m_to_json := IoK8sApimachineryPkgApisMetaV1GetOptions.to_json;
     m_from_json := IoK8sApimachineryPkgApisMetaV1GetOptions.from_json;
     m_to_str := IoK8sApimachineryPkgApisMetaV1GetOptions.to_str |};
  {| m_schema := IoK8sApimachineryPkgApisMetaV1GroupKind.schema;
     m_to_dict := IoK8sApimachineryPkgApisMetaV1GroupKind.to_dict;
     m_from_dict := IoK8sApimachineryPkgApisMetaV1GroupKind.from_dict;
     m_to_json := IoK8sApimachineryPkgApisMetaV1GroupKind.to_json;
     m_from_json := IoK8sApimachineryPkgApisMetaV1GroupKind.from_json;
     m_to_str := IoK8sApimachineryPkgApisMetaV1GroupKind.to_str |};
  {| m_schema := IoK8sApimachineryPkgApisMetaV1GroupResource.schema;
     m_to_dict := IoK8sApimachineryPkgApisMetaV1GroupResource.to_dict;
     m_from_dict := IoK8sApimachineryPkgApisMetaV1GroupResource.from_dict;
     m_to_json := IoK8sApimachineryPkgApisMetaV1GroupResource.to_json;
     m_from_json := IoK8sApimachineryPkgApisMetaV1GroupResource.from_json;
     m_to_str := IoK8sApimachineryPkgApisMetaV1GroupResource.to_str |};
  {| m_schema := IoK8sApimachineryPkgApisMetaV1GroupVersion.schema;
     m_to_dict := IoK8sApimachineryPkgApisMetaV1GroupVersion.to_dict;
     m_from_dict := IoK8sApimachineryPkgApisMetaV1GroupVersion.from_dict;
     m_to_json := IoK8sApimachineryPkgApisMetaV1GroupVersion.to_json;
     m_from_json := IoK8sApimachineryPkgApisMetaV1GroupVersion.from_json;
     m_to_str := IoK8sApimachineryPkgApisMetaV1GroupVersion.to_str |};
  {| m_schema := IoK8sApimachineryPkgApisMetaV1GroupVersionKind.schema;
     m_to_dict := IoK8sApimachineryPkgApisMetaV1GroupVersionKind.to_dict;
     m_from_dict := IoK8sApimachineryPkgApisMetaV1GroupVersionKind.from_dict;
     m_to_json := IoK8sApimachineryPkgApisMetaV1GroupVersionKind.to_json;
     m_from_json := IoK8sApimachineryPkgApisMetaV1GroupVersionKind.from_json;
     m_to_str := IoK8sApimachineryPkgApisMetaV1GroupVersionKind.to_str |};
  {| m_schema := IoK8sApimachineryPkgApisMetaV1GroupVersionResource.schema;
     m_to_dict := IoK8sApimachineryPkgApisMetaV1GroupVersionResource.to_dict;
     m_from_dict := IoK8sApimachineryPkgApisMetaV1GroupVersionResource.from_dict;
     m_to_json := IoK8sApimachineryPkgApisMetaV1GroupVersionResource.to_json;
     m_from_json := IoK8sApimachineryPkgApisMetaV1GroupVersionResource.from_json;
     m_to_str := IoK8sApimachineryPkgApisMetaV1GroupVersionResource.to_str |};
  {| m_schema := IoK8sApimachineryPkgApisMetaV1List.schema;
     m_to_dict := IoK8sApimachineryPkgApisMetaV1List.to_dict;
     m_from_dict := IoK8sApimachineryPkgApisMetaV1List.from_dict;
     m_to_json := IoK8sApimachineryPkgApisMetaV1List.to_json;
     m_from_json := IoK8sApimachineryPkgApisMetaV1List.from_json;
     m_to_str := IoK8sApimachineryPkgApisMetaV1List.to_str |};
  {| m_schema := IoK8sApimachineryPkgApisMetaV1ListOptions.schema;
     m_to_dict := IoK8sApimachineryPkgApisMetaV1ListOptions.to_dict;
     m_from_dict := IoK8sApimachineryPkgApisMetaV1ListOptions.from_dict;
     m_to_json := IoK8sApimachineryPkgApisMetaV1ListOptions.to_json;
     m_from_json := IoK8sApimachineryPkgApisMetaV1ListOptions.from_json;
     m_to_str := IoK8sApimachineryPkgApisMetaV1ListOptions.to_str |};
  {| m_schema := IoK8sApimachineryPkgApisMetaV1PartialObjectMetadata.schema;
     m_to_dict := IoK8sApimachineryPkgApisMetaV1PartialObjectMetadata.to_dict;
     m_from_dict := IoK8sApimachineryPkgApisMetaV1PartialObjectMetadata.from_dict;
     m_to_json := IoK8sApimachineryPkgApisMetaV1PartialObjectMetadata.to_json;
     m_from_json := IoK8sApimachineryPkgApisMetaV1PartialObjectMetadata.from_json;
     m_to_str := IoK8sApimachineryPkgApisMetaV1PartialObjectMetadata.to_str |};
  {| m_schema := IoK8sApimachineryPkgApisMetaV1PartialObjectMetadataList.schema;
     m_to_dict := IoK8sApimachineryPkgApisMetaV1PartialObjectMetadataList.to_dict;
     m_from_dict := IoK8sApimachineryPkgApisMetaV1PartialObjectMetadataList.from_dict;
     m_to_json := IoK8sApimachineryPkgApisMetaV1PartialObjectMetadataList.to_json;
     m_from_json := IoK8sApimachineryPkgApisMetaV1PartialObjectMetadataList.from_json;
     m_to_str := IoK8sApimachineryPkgApisMetaV1PartialObjectMetadataList.to_str |};
  {| m_schema := IoK8sApimachineryPkgApisMetaV1PatchOptions.schema;
     m_to_dict := IoK8sApimachineryPkgApisMetaV1PatchOptions.to_dict;
     m_from_dict := IoK8sApimachineryPkgApisMetaV1PatchOptions.from_dict;
     m_to_json := IoK8sApimachineryPkgApisMetaV1PatchOptions.to_json;
     m_from_json := IoK8sApimachineryPkgApisMetaV1PatchOptions.from_json;
     m_to_str := IoK8sApimachineryPkgApisMetaV1PatchOptions.to_str |};
  {| m_schema := IoK8sApimachineryPkgApisMetaV1RootPaths.schema;
     m_to_dict := IoK8sApimachineryPkgApisMetaV1RootPaths.to_dict;
     m_from_dict := IoK8sApimachineryPkgApisMetaV1RootPaths.from_dict;
     m_to_json := IoK8sApimachineryPkgApisMetaV1RootPaths.to_json;
     m_from_json := IoK8sApimachineryPkgApisMetaV1RootPaths.from_json;
     m_to_str := IoK8sApimachineryPkgApisMetaV1RootPaths.to_str |};
  {| m_schema := IoK8sApimachineryPkgApisMetaV1StatusCause.schema;
     m_to_dict := IoK8sApimachineryPkgApisMetaV1StatusCause.to_dict;
     m_from_dict := IoK8sApimachineryPkgApisMetaV1StatusCause.from_dict;
     m_to_json := IoK8sApimachineryPkgApisMetaV1StatusCause.to_json;
     m_from_json := IoK8sApimachineryPkgApisMetaV1StatusCause.from_json;
     m_to_str := IoK8sApimachineryPkgApisMetaV1StatusCause.to_str |};
  {| m_schema := IoK8sApimachineryPkgApisMetaV1StatusDetails.schema;
     m_to_dict := IoK8sApimachineryPkgApisMetaV1StatusDetails.to_dict;
     m_from_dict := IoK8sApimachineryPkgApisMetaV1StatusDetails.from_dict;
     m_to_json := IoK8sApimachineryPkgApisMetaV1StatusDetails.to_json;
     m_from_json := IoK8sApimachineryPkgApisMetaV1StatusDetails.from_json;
     m_to_str := IoK8sApimachineryPkgApisMetaV1StatusDetails.to_str |};
  {| m_schema := IoK8sApimachineryPkgApisMetaV1Status.schema;
     m_to_dict := IoK8sApimachineryPkgApisMetaV1Status.to_dict;
     m_from_dict := IoK8sApimachineryPkgApisMetaV1Status.from_dict;
     m_to_json := IoK8sApimachineryPkgApisMetaV1Status.to_json;
     m_from_json := IoK8sApimachineryPkgApisMetaV1Status.from_json;
     m_to_str := IoK8sApimachineryPkgApisMetaV1Status.to_str |};
  {| m_schema := IoK8sApimachineryPkgApisMetaV1TableColumnDefinition.schema;
     m_to_dict := IoK8sApimachineryPkgApisMetaV1TableColumnDefinition.to_dict;
     m_from_dict := IoK8sApimachineryPkgApisMetaV1TableColumnDefinition.from_dict;
     m_to_json := IoK8sApimachineryPkgApisMetaV1TableColumnDefinition.to_json;
     m_from_json := IoK8sApimachineryPkgApisMetaV1TableColumnDefinition.from_json;
     m_to_str := IoK8sApimachineryPkgApisMetaV1TableColumnDefinition.to_str |};
  {| m_schema := IoK8sApimachineryPkgApisMetaV1TableRowCondition.schema;
     m_to_dict := IoK8sApimachineryPkgApisMetaV1TableRowCondition.to_dict;
     m_from_dict := IoK8sApimachineryPkgApisMetaV1TableRowCondition.from_dict;
     m_to_json := IoK8sApimachineryPkgApisMetaV1TableRowCondition.to_json;
     m_from_json := IoK8sApimachineryPkgApisMetaV1TableRowCondition.from_json;
     m_to_str := IoK8sApimachineryPkgApisMetaV1TableRowCondition.to_str |};
  {| m_schema := IoK8sApimachineryPkgApisMetaV1TableRow.schema;
     m_to_dict := IoK8sApimachineryPkgApisMetaV1TableRow.to_dict;
     m_from_dict := IoK8sApimachineryPkgApisMetaV1TableRow.from_dict;
     m_to_json := IoK8sApimachineryPkgApisMetaV1TableRow.to_json;
     m_from_json := IoK8sApimachineryPkgApisMetaV1TableRow.from_json;
     m_to_str := IoK8sApimachineryPkgApisMetaV1TableRow.to_str |};
  {| m_schema := IoK8sApimachineryPkgApisMetaV1Table.schema;
     m_to_dict := IoK8sApimachineryPkgApisMetaV1Table.to_dict;
     m_from_dict := IoK8sApimachineryPkgApisMetaV1Table.from_dict;
     m_to_json := IoK8sApimachineryPkgApisMetaV1Table.to_json;
     m_from_json := IoK8sApimachineryPkgApisMetaV1Table.from_json;
     m_to_str := IoK8sApimachineryPkgApisMetaV1Table.to_str |};
  {| m_schema := IoK8sApimachineryPkgApisMetaV1TableOptions.schema;
     m_to_dict := IoK8sApimachineryPkgApisMetaV1TableOptions.to_dict;
     m_from_dict := IoK8sApimachineryPkgApisMetaV1TableOptions.from_dict;
     m_to_json := IoK8sApimachineryPkgApisMetaV1TableOptions.to_json;
     m_from_json := IoK8sApimachineryPkgApisMetaV1TableOptions.from_json;
     m_to_str := IoK8sApimachineryPkgApisMetaV1TableOptions.to_str |};
  {| m_schema := IoK8sApimachineryPkgApisMetaV1Timestamp.schema;
     m_to_dict := IoK8sApimachineryPkgApisMetaV1Timestamp.to_dict;
     m_from_dict := IoK8sApimachineryPkgApisMetaV1Timestamp.from_dict;
     m_to_json := IoK8sApimachineryPkgApisMetaV1Timestamp.to_json;
     m_from_json := IoK8sApimachineryPkgApisMetaV1Timestamp.from_json;
     m_to_str := IoK8sApimachineryPkgApisMetaV1Timestamp.to_str |};
  {| m_schema := IoK8sApimachineryPkgApisMetaV1TypeMeta.schema;
     m_to_dict := IoK8sApimachineryPkgApisMetaV1TypeMeta.to_dict;
     m_from_dict := IoK8sApimachineryPkgApisMetaV1TypeMeta.from_dict;
     m_to_json := IoK8sApimachineryPkgApisMetaV1TypeMeta.to_json;
     m_from_json := IoK8sApimachineryPkgApisMetaV1TypeMeta.from_json;
     m_to_str := IoK8sApimachineryPkgApisMetaV1TypeMeta.to_str |};
  {| m_schema := IoK8sApimachineryPkgApisMetaV1UpdateOptions.schema;
     m_to_dict := IoK8sApimachineryPkgApisMetaV1UpdateOptions.to_dict;
     m_from_dict := IoK8sApimachineryPkgApisMetaV1UpdateOptions.from_dict;
     m_to_json := IoK8sApimachineryPkgApisMetaV1UpdateOptions.to_json;
     m_from_json := IoK8sApimachineryPkgApisMetaV1UpdateOptions.from_json;
     m_to_str := IoK8sApimachineryPkgApisMetaV1UpdateOptions.to_str |};
  {| m_schema := IoK8sApimachineryPkgApisMetaV1WatchEvent.schema;
     m_to_dict := IoK8sApimachineryPkgApisMetaV1WatchEvent.to_dict;
     m_from_dict := IoK8sApimachineryPkgApisMetaV1WatchEvent.from_dict;
     m_to_json := IoK8sApimachineryPkgApisMetaV1WatchEvent.to_json;
     m_from_json := IoK8sApimachineryPkgApisMetaV1WatchEvent.from_json;
     m_to_str := IoK8sApimachineryPkgApisMetaV1WatchEvent.to_str |};
  {| m_schema := IoK8sApimachineryPkgRuntimeTypeMeta.schema;
     m_to_dict := IoK8sApimachineryPkgRuntimeTypeMeta.to_dict;
     m_from_dict := IoK8sApimachineryPkgRuntimeTypeMeta.from_dict;
     m_to_json := IoK8sApimachineryPkgRuntimeTypeMeta.to_json;
     m_from_json := IoK8sApimachineryPkgRuntimeTypeMeta.from_json;
     m_to_str := IoK8sApimachineryPkgRuntimeTypeMeta.to_str |};
  {| m_schema := IoK8sApimachineryPkgRuntimeUnknown.schema;
     m_to_dict := IoK8sApimachineryPkgRuntimeUnknown.to_dict;
     m_from_dict := IoK8sApimachineryPkgRuntimeUnknown.from_dict;
     m_to_json := IoK8sApimachineryPkgRuntimeUnknown.to_json;
     m_from_json := IoK8sApimachineryPkgRuntimeUnknown.from_json;
     m_to_str := IoK8sApimachineryPkgRuntimeUnknown.to_str |}].
Lemma more_meta_models_templated `{PydanticLaws} : Forall is_templated more_meta_models.
Proof. solve_models. Qed.
