(* ===== verification/ApiCoreMore.v ===== *)
(** * Further core Kubernetes models

    The core classes that the Trainer API does not contain (pods and their
    status, nodes, services, persistent volumes, events, quotas), from
    api/python_api/kubeflow_trainer_api/models/io_k8s_api_core_*.py. Each Module
    is a class: its fields, [to_dict] and [from_dict]. *)

From S2P Require Import Prelude PyStr PyValue Pydantic PydanticSpec PydanticDocs.
From S2P Require Import OneOf ApiMeta ApiCore ApiMetaMore.
Local Open Scope string_scope.
Local Open Scope list_scope.

Module IoK8sApiCoreV1ObjectReference.
Definition schema `{Pydantic} : Schema := model "IoK8sApiCoreV1ObjectReference" [
  opt "api_version" "apiVersion" StrictStr;
  opt "field_path" "fieldPath" StrictStr;
  opt "kind" "kind" StrictStr;
  opt "name" "name" StrictStr;
  opt "namespace" "namespace" StrictStr;
  opt "resource_version" "resourceVersion" StrictStr;
  opt "uid" "uid" StrictStr].
Definition to_dict `{Pydantic} : value → outcome value := to_dict_with schema [].
Definition from_dict `{Pydantic} : value → outcome value := from_dict_with schema [
  Get "apiVersion";
  Get "fieldPath";
  Get "kind";
  Get "name";
  Get "namespace";
  Get "resourceVersion";
  Get "uid"].
Definition to_json `{Pydantic} : value → outcome string := to_json_with to_dict.
Definition from_json `{Pydantic} : string → outcome value := from_json_with from_dict.
Definition to_str `{Pydantic} : value → outcome string := to_str_with schema.
End IoK8sApiCoreV1ObjectReference.
#[export] Instance IoK8sApiCoreV1ObjectReference_templated `{PydanticLaws} :
  Templated IoK8sApiCoreV1ObjectReference.schema IoK8sApiCoreV1ObjectReference.to_dict
    IoK8sApiCoreV1ObjectReference.from_dict.
Proof. solve_model. Qed.

Module IoK8sApiCoreV1AttachedVolume.
Definition schema `{Pydantic} : Schema := model "IoK8sApiCoreV1AttachedVolume" [
  req "device_path" "devicePath" StrictStr;
  req "name" "name" StrictStr].
Definition to_dict `{Pydantic} : value → outcome value := to_dict_with schema [].
Definition from_dict `{Pydantic} : value → outcome value := from_dict_with schema [
  GetOr "devicePath" (VStr "");
  GetOr "name" (VStr "")].
Definition to_json `{Pydantic} : value → outcome string := to_json_with to_dict.
Definition from_json `{Pydantic} : string → outcome value := from_json_with from_dict.
Definition to_str `{Pydantic} : value → outcome string := to_str_with schema.
End IoK8sApiCoreV1AttachedVolume.
#[export] Instance IoK8sApiCoreV1AttachedVolume_templated `{PydanticLaws} :
  Templated IoK8sApiCoreV1AttachedVolume.schema IoK8sApiCoreV1AttachedVolume.to_dict
    IoK8sApiCoreV1AttachedVolume.from_dict.
Proof. solve_model. Qed.

Module IoK8sApiCoreV1PodSignature.
Definition schema `{Pydantic} : Schema := model "IoK8sApiCoreV1PodSignature" [
  opt "pod_controller" "podController" (Model IoK8sApimachineryPkgApisMetaV1OwnerReference.schema)].
Definition to_dict `{Pydantic} : value → outcome value := to_dict_with schema [
  Dump "pod_controller" "podController" IoK8sApimachineryPkgApisMetaV1OwnerReference.to_dict].
Definition from_dict `{Pydantic} : value → outcome value := from_dict_with schema [
  FromDict "podController" IoK8sApimachineryPkgApisMetaV1OwnerReference.from_dict].
Definition to_json `{Pydantic} : value → outcome string := to_json_with to_dict.
Definition from_json `{Pydantic} : string → outcome value := from_json_with from_dict.
Definition to_str `{Pydantic} : value → outcome string := to_str_with schema.
End IoK8sApiCoreV1PodSignature.
#[export] Instance IoK8sApiCoreV1PodSignature_templated `{PydanticLaws} :
  Templated IoK8sApiCoreV1PodSignature.schema IoK8sApiCoreV1PodSignature.to_dict
    IoK8sApiCoreV1PodSignature.from_dict.
Proof. solve_model. Qed.

Module IoK8sApiCoreV1PreferAvoidPodsEntry.
Definition schema `{Pydantic} : Schema := model "IoK8sApiCoreV1PreferAvoidPodsEntry" [
  opt "eviction_time" "evictionTime" Datetime;
  opt "message" "message" StrictStr;
  req "pod_signature" "podSignature" (Model IoK8sApiCoreV1PodSignature.schema);
  opt "reason" "reason" StrictStr].
Definition to_dict `{Pydantic} : value → outcome value := to_dict_with schema [
  Dump "pod_signature" "podSignature" IoK8sApiCoreV1PodSignature.to_dict].
Definition from_dict `{Pydantic} : value → outcome value := from_dict_with schema [
  Get "evictionTime";
  Get "message";
  FromDict "podSignature" IoK8sApiCoreV1PodSignature.from_dict;
  Get "reason"].
Definition to_json `{Pydantic} : value → outcome string := to_json_with to_dict.
Definition from_json `{Pydantic} : string → outcome value := from_json_with from_dict.
Definition to_str `{Pydantic} : value → outcome string := to_str_with schema.
End IoK8sApiCoreV1PreferAvoidPodsEntry.
#[export] Instance IoK8sApiCoreV1PreferAvoidPodsEntry_templated `{PydanticLaws} :
  Templated IoK8sApiCoreV1PreferAvoidPodsEntry.schema IoK8sApiCoreV1PreferAvoidPodsEntry.to_dict
    IoK8sApiCoreV1PreferAvoidPodsEntry.from_dict.
Proof. solve_model. Qed.

Module IoK8sApiCoreV1AvoidPods.
Definition schema `{Pydantic} : Schema := model "IoK8sApiCoreV1AvoidPods" [
  opt "prefer_avoid_pods" "preferAvoidPods" (List
    (Model IoK8sApiCoreV1PreferAvoidPodsEntry.schema))].
Definition to_dict `{Pydantic} : value → outcome value := to_dict_with schema [
  DumpItems "prefer_avoid_pods" "preferAvoidPods" IoK8sApiCoreV1PreferAvoidPodsEntry.to_dict].
Definition from_dict `{Pydantic} : value → outcome value := from_dict_with schema [
  FromDictItems "preferAvoidPods" IoK8sApiCoreV1PreferAvoidPodsEntry.from_dict].
Definition to_json `{Pydantic} : value → outcome string := to_json_with to_dict.
Definition from_json `{Pydantic} : string → outcome value := from_json_with from_dict.
Definition to_str `{Pydantic} : value → outcome string := to_str_with schema.
End IoK8sApiCoreV1AvoidPods.
#[export] Instance IoK8sApiCoreV1AvoidPods_templated `{PydanticLaws} :
  Templated IoK8sApiCoreV1AvoidPods.schema IoK8sApiCoreV1AvoidPods.to_dict
    IoK8sApiCoreV1AvoidPods.from_dict.
Proof. solve_model. Qed.

Module IoK8sApiCoreV1AzureFilePersistentVolumeSource.
Definition schema `{Pydantic} : Schema := model "IoK8sApiCoreV1AzureFilePersistentVolumeSource" [
  opt "read_only" "readOnly" StrictBool;
  req "secret_name" "secretName" StrictStr;
  opt "secret_namespace" "secretNamespace" StrictStr;
  req "share_name" "shareName" StrictStr].
Definition to_dict `{Pydantic} : value → outcome value := to_dict_with schema [].
Definition from_dict `{Pydantic} : value → outcome value := from_dict_with schema [
  Get "readOnly";
  GetOr "secretName" (VStr "");
  Get "secretNamespace";
  GetOr "shareName" (VStr "")].
Definition to_json `{Pydantic} : value → outcome string := to_json_with to_dict.
Definition from_json `{Pydantic} : string → outcome value := from_json_with from_dict.
Definition to_str `{Pydantic} : value → outcome string := to_str_with schema.
End IoK8sApiCoreV1AzureFilePersistentVolumeSource.
#[export] Instance IoK8sApiCoreV1AzureFilePersistentVolumeSource_templated `{PydanticLaws} :
  Templated IoK8sApiCoreV1AzureFilePersistentVolumeSource.schema
    IoK8sApiCoreV1AzureFilePersistentVolumeSource.to_dict
      IoK8sApiCoreV1AzureFilePersistentVolumeSource.from_dict.
Proof. solve_model. Qed.

Module IoK8sApiCoreV1Binding.
Definition schema `{Pydantic} : Schema := model "IoK8sApiCoreV1Binding" [
  opt "api_version" "apiVersion" StrictStr;
  opt "kind" "kind" StrictStr;
  opt "metadata" "metadata" (Model IoK8sApimachineryPkgApisMetaV1ObjectMeta.schema);
  req "target" "target" (Model IoK8sApiCoreV1ObjectReference.schema)].
Definition to_dict `{Pydantic} : value → outcome value := to_dict_with schema [
  Dump "metadata" "metadata" IoK8sApimachineryPkgApisMetaV1ObjectMeta.to_dict;
  Dump "target" "target" IoK8sApiCoreV1ObjectReference.to_dict].
Definition from_dict `{Pydantic} : value → outcome value := from_dict_with schema [
  Get "apiVersion";
  Get "kind";
  FromDict "metadata" IoK8sApimachineryPkgApisMetaV1ObjectMeta.from_dict;
  FromDict "target" IoK8sApiCoreV1ObjectReference.from_dict].
Definition to_json `{Pydantic} : value → outcome string := to_json_with to_dict.
Definition from_json `{Pydantic} : string → outcome value := from_json_with from_dict.
Definition to_str `{Pydantic} : value → outcome string := to_str_with schema.
End IoK8sApiCoreV1Binding.
#[export] Instance IoK8sApiCoreV1Binding_templated `{PydanticLaws} :
  Templated IoK8sApiCoreV1Binding.schema IoK8sApiCoreV1Binding.to_dict
    IoK8sApiCoreV1Binding.from_dict.
Proof. solve_model. Qed.

Module IoK8sApiCoreV1SecretReference.
Definition schema `{Pydantic} : Schema := model "IoK8sApiCoreV1SecretReference" [
  opt "name" "name" StrictStr;
  opt "namespace" "namespace" StrictStr].
Definition to_dict `{Pydantic} : value → outcome value := to_dict_with schema [].
Definition from_dict `{Pydantic} : value → outcome value := from_dict_with schema [
  Get "name";
  Get "namespace"].
Definition to_json `{Pydantic} : value → outcome string := to_json_with to_dict.
Definition from_json `{Pydantic} : string → outcome value := from_json_with from_dict.
Definition to_str `{Pydantic} : value → outcome string := to_str_with schema.
End IoK8sApiCoreV1SecretReference.
#[export] Instance IoK8sApiCoreV1SecretReference_templated `{PydanticLaws} :
  Templated IoK8sApiCoreV1SecretReference.schema IoK8sApiCoreV1SecretReference.to_dict
    IoK8sApiCoreV1SecretReference.from_dict.
Proof. solve_model. Qed.

Module IoK8sApiCoreV1CephFSPersistentVolumeSource.
Definition schema `{Pydantic} : Schema := model "IoK8sApiCoreV1CephFSPersistentVolumeSource" [
  req "monitors" "monitors" (List StrictStr);
  opt "path" "path" StrictStr;
  opt "read_only" "readOnly" StrictBool;
  opt "secret_file" "secretFile" StrictStr;
  opt "secret_ref" "secretRef" (Model IoK8sApiCoreV1SecretReference.schema);
  opt "user" "user" StrictStr].
Definition to_dict `{Pydantic} : value → outcome value := to_dict_with schema [
  Dump "secret_ref" "secretRef" IoK8sApiCoreV1SecretReference.to_dict].
Definition from_dict `{Pydantic} : value → outcome value := from_dict_with schema [
  Get "monitors";
  Get "path";
  Get "readOnly";
  Get "secretFile";
  FromDict "secretRef" IoK8sApiCoreV1SecretReference.from_dict;
  Get "user"].
Definition to_json `{Pydantic} : value → outcome string := to_json_with to_dict.
Definition from_json `{Pydantic} : string → outcome value := from_json_with from_dict.
Definition to_str `{Pydantic} : value → outcome string := to_str_with schema.
End IoK8sApiCoreV1CephFSPersistentVolumeSource.
#[export] Instance IoK8sApiCoreV1CephFSPersistentVolumeSource_templated `{PydanticLaws} :
  Templated IoK8sApiCoreV1CephFSPersistentVolumeSource.schema
    IoK8sApiCoreV1CephFSPersistentVolumeSource.to_dict
      IoK8sApiCoreV1CephFSPersistentVolumeSource.from_dict.
Proof. solve_model. Qed.

Module IoK8sApiCoreV1CinderPersistentVolumeSource.
Definition schema `{Pydantic} : Schema := model "IoK8sApiCoreV1CinderPersistentVolumeSource" [
  opt "fs_type" "fsType" StrictStr;
  opt "read_only" "readOnly" StrictBool;
  opt "secret_ref" "secretRef" (Model IoK8sApiCoreV1SecretReference.schema);
  req "volume_id" "volumeID" StrictStr].
Definition to_dict `{Pydantic} : value → outcome value := to_dict_with schema [
  Dump "secret_ref" "secretRef" IoK8sApiCoreV1SecretReference.to_dict].
Definition from_dict `{Pydantic} : value → outcome value := from_dict_with schema [
  Get "fsType";
  Get "readOnly";
  FromDict "secretRef" IoK8sApiCoreV1SecretReference.from_dict;
  GetOr "volumeID" (VStr "")].
Definition to_json `{Pydantic} : value → outcome string := to_json_with to_dict.
Definition from_json `{Pydantic} : string → outcome value := from_json_with from_dict.
Definition to_str `{Pydantic} : value → outcome string := to_str_with schema.
End IoK8sApiCoreV1CinderPersistentVolumeSource.
#[export] Instance IoK8sApiCoreV1CinderPersistentVolumeSource_templated `{PydanticLaws} :
  Templated IoK8sApiCoreV1CinderPersistentVolumeSource.schema
    IoK8sApiCoreV1CinderPersistentVolumeSource.to_dict
      IoK8sApiCoreV1CinderPersistentVolumeSource.from_dict.
Proof. solve_model. Qed.

Module IoK8sApiCoreV1ClientIPConfig.
Definition schema `{Pydantic} : Schema := model "IoK8sApiCoreV1ClientIPConfig" [
  opt "timeout_seconds" "timeoutSeconds" StrictInt].
Definition to_dict `{Pydantic} : value → outcome value := to_dict_with schema [].
Definition from_dict `{Pydantic} : value → outcome value := from_dict_with schema [
  Get "timeoutSeconds"].
Definition to_json `{Pydantic} : value → outcome string := to_json_with to_dict.
Definition from_json `{Pydantic} : string → outcome value := from_json_with from_dict.
Definition to_str `{Pydantic} : value → outcome string := to_str_with schema.
End IoK8sApiCoreV1ClientIPConfig.
#[export] Instance IoK8sApiCoreV1ClientIPConfig_templated `{PydanticLaws} :
  Templated IoK8sApiCoreV1ClientIPConfig.schema IoK8sApiCoreV1ClientIPConfig.to_dict
    IoK8sApiCoreV1ClientIPConfig.from_dict.
Proof. solve_model. Qed.

Module IoK8sApiCoreV1ComponentCondition.
Definition schema `{Pydantic} : Schema := model "IoK8sApiCoreV1ComponentCondition" [
  opt "error" "error" StrictStr;
  opt "message" "message" StrictStr;
  req "status" "status" StrictStr;
  req "type" "type" StrictStr].
Definition to_dict `{Pydantic} : value → outcome value := to_dict_with schema [].
Definition from_dict `{Pydantic} : value → outcome value := from_dict_with schema [
  Get "error";
  Get "message";
  GetOr "status" (VStr "");
  GetOr "type" (VStr "")].
Definition to_json `{Pydantic} : value → outcome string := to_json_with to_dict.
Definition from_json `{Pydantic} : string → outcome value := from_json_with from_dict.
Definition to_str `{Pydantic} : value → outcome string := to_str_with schema.
End IoK8sApiCoreV1ComponentCondition.
#[export] Instance IoK8sApiCoreV1ComponentCondition_templated `{PydanticLaws} :
  Templated IoK8sApiCoreV1ComponentCondition.schema IoK8sApiCoreV1ComponentCondition.to_dict
    IoK8sApiCoreV1ComponentCondition.from_dict.
Proof. solve_model. Qed.

Module IoK8sApiCoreV1ComponentStatus.
Definition schema `{Pydantic} : Schema := model "IoK8sApiCoreV1ComponentStatus" [
  opt "api_version" "apiVersion" StrictStr;
  opt "conditions" "conditions" (List (Model IoK8sApiCoreV1ComponentCondition.schema));
  opt "kind" "kind" StrictStr;
  opt "metadata" "metadata" (Model IoK8sApimachineryPkgApisMetaV1ObjectMeta.schema)].
Definition to_dict `{Pydantic} : value → outcome value := to_dict_with schema [
  DumpItems "conditions" "conditions" IoK8sApiCoreV1ComponentCondition.to_dict;
  Dump "metadata" "metadata" IoK8sApimachineryPkgApisMetaV1ObjectMeta.to_dict].
Definition from_dict `{Pydantic} : value → outcome value := from_dict_with schema [
  Get "apiVersion";
  FromDictItems "conditions" IoK8sApiCoreV1ComponentCondition.from_dict;
  Get "kind";
  FromDict "metadata" IoK8sApimachineryPkgApisMetaV1ObjectMeta.from_dict].
Definition to_json `{Pydantic} : value → outcome string := to_json_with to_dict.
Definition from_json `{Pydantic} : string → outcome value := from_json_with from_dict.
Definition to_str `{Pydantic} : value → outcome string := to_str_with schema.
End IoK8sApiCoreV1ComponentStatus.
#[export] Instance IoK8sApiCoreV1ComponentStatus_templated `{PydanticLaws} :
  Templated IoK8sApiCoreV1ComponentStatus.schema IoK8sApiCoreV1ComponentStatus.to_dict
    IoK8sApiCoreV1ComponentStatus.from_dict.
Proof. solve_model. Qed.

Module IoK8sApiCoreV1ComponentStatusList.
Definition schema `{Pydantic} : Schema := model "IoK8sApiCoreV1ComponentStatusList" [
  opt "api_version" "apiVersion" StrictStr;
  req "items" "items" (List (Model IoK8sApiCoreV1ComponentStatus.schema));
  opt "kind" "kind" StrictStr;
  opt "metadata" "metadata" (Model IoK8sApimachineryPkgApisMetaV1ListMeta.schema)].
Definition to_dict `{Pydantic} : value → outcome value := to_dict_with schema [
  DumpItems "items" "items" IoK8sApiCoreV1ComponentStatus.to_dict;
  Dump "metadata" "metadata" IoK8sApimachineryPkgApisMetaV1ListMeta.to_dict].
Definition from_dict `{Pydantic} : value → outcome value := from_dict_with schema [
  Get "apiVersion";
  FromDictItems "items" IoK8sApiCoreV1ComponentStatus.from_dict;
  Get "kind";
  FromDict "metadata" IoK8sApimachineryPkgApisMetaV1ListMeta.from_dict].
Definition to_json `{Pydantic} : value → outcome string := to_json_with to_dict.
Definition from_json `{Pydantic} : string → outcome value := from_json_with from_dict.
Definition to_str `{Pydantic} : value → outcome string := to_str_with schema.
End IoK8sApiCoreV1ComponentStatusList.
#[export] Instance IoK8sApiCoreV1ComponentStatusList_templated `{PydanticLaws} :
  Templated IoK8sApiCoreV1ComponentStatusList.schema IoK8sApiCoreV1ComponentStatusList.to_dict
    IoK8sApiCoreV1ComponentStatusList.from_dict.
Proof. solve_model. Qed.

Module IoK8sApiCoreV1ConfigMap.
Definition schema `{Pydantic} : Schema := model "IoK8sApiCoreV1ConfigMap" [
  opt "api_version" "apiVersion" StrictStr;
  opt "binary_data" "binaryData" (Dict (Union StrictBytes StrictStr));
  opt "data" "data" (Dict StrictStr);
  opt "immutable" "immutable" StrictBool;
  opt "kind" "kind" StrictStr;
  opt "metadata" "metadata" (Model IoK8sApimachineryPkgApisMetaV1ObjectMeta.schema)].
Definition to_dict `{Pydantic} : value → outcome value := to_dict_with schema [
  Dump "metadata" "metadata" IoK8sApimachineryPkgApisMetaV1ObjectMeta.to_dict].
Definition from_dict `{Pydantic} : value → outcome value := from_dict_with schema [
  Get "apiVersion";
  Get "binaryData";
  Get "data";
  Get "immutable";
  Get "kind";
  FromDict "metadata" IoK8sApimachineryPkgApisMetaV1ObjectMeta.from_dict].
Definition to_json `{Pydantic} : value → outcome string := to_json_with to_dict.
Definition from_json `{Pydantic} : string → outcome value := from_json_with from_dict.
Definition to_str `{Pydantic} : value → outcome string := to_str_with schema.
End IoK8sApiCoreV1ConfigMap.
#[export] Instance IoK8sApiCoreV1ConfigMap_templated `{PydanticLaws} :
  Templated IoK8sApiCoreV1ConfigMap.schema IoK8sApiCoreV1ConfigMap.to_dict
    IoK8sApiCoreV1ConfigMap.from_dict.
Proof. solve_model. Qed.

Module IoK8sApiCoreV1ConfigMapList.
Definition schema `{Pydantic} : Schema := model "IoK8sApiCoreV1ConfigMapList" [
  opt "api_version" "apiVersion" StrictStr;
  req "items" "items" (List (Model IoK8sApiCoreV1ConfigMap.schema));
  opt "kind" "kind" StrictStr;
  opt "metadata" "metadata" (Model IoK8sApimachineryPkgApisMetaV1ListMeta.schema)].
Definition to_dict `{Pydantic} : value → outcome value := to_dict_with schema [
  DumpItems "items" "items" IoK8sApiCoreV1ConfigMap.to_dict;
  Dump "metadata" "metadata" IoK8sApimachineryPkgApisMetaV1ListMeta.to_dict].
Definition from_dict `{Pydantic} : value → outcome value := from_dict_with schema [
  Get "apiVersion";
  FromDictItems "items" IoK8sApiCoreV1ConfigMap.from_dict;
  Get "kind";
  FromDict "metadata" IoK8sApimachineryPkgApisMetaV1ListMeta.from_dict].
Definition to_json `{Pydantic} : value → outcome string := to_json_with to_dict.
Definition from_json `{Pydantic} : string → outcome value := from_json_with from_dict.
Definition to_str `{Pydantic} : value → outcome string := to_str_with schema.
End IoK8sApiCoreV1ConfigMapList.
#[export] Instance IoK8sApiCoreV1ConfigMapList_templated `{PydanticLaws} :
  Templated IoK8sApiCoreV1ConfigMapList.schema IoK8sApiCoreV1ConfigMapList.to_dict
    IoK8sApiCoreV1ConfigMapList.from_dict.
Proof. solve_model. Qed.

Module IoK8sApiCoreV1ConfigMapNodeConfigSource.
Definition schema `{Pydantic} : Schema := model "IoK8sApiCoreV1ConfigMapNodeConfigSource" [
  req "kubelet_config_key" "kubeletConfigKey" StrictStr;
  req "name" "name" StrictStr;
  req "namespace" "namespace" StrictStr;
  opt "resource_version" "resourceVersion" StrictStr;
  opt "uid" "uid" StrictStr].
Definition to_dict `{Pydantic} : value → outcome value := to_dict_with schema [].
Definition from_dict `{Pydantic} : value → outcome value := from_dict_with schema [
  GetOr "kubeletConfigKey" (VStr "");
  GetOr "name" (VStr "");
  GetOr "namespace" (VStr "");
  Get "resourceVersion";
  Get "uid"].
Definition to_json `{Pydantic} : value → outcome string := to_json_with to_dict.
Definition from_json `{Pydantic} : string → outcome value := from_json_with from_dict.
Definition to_str `{Pydantic} : value → outcome string := to_str_with schema.
End IoK8sApiCoreV1ConfigMapNodeConfigSource.
#[export] Instance IoK8sApiCoreV1ConfigMapNodeConfigSource_templated `{PydanticLaws} :
  Templated IoK8sApiCoreV1ConfigMapNodeConfigSource.schema
    IoK8sApiCoreV1ConfigMapNodeConfigSource.to_dict
      IoK8sApiCoreV1ConfigMapNodeConfigSource.from_dict.
Proof. solve_model. Qed.

Module IoK8sApiCoreV1ContainerExtendedResourceRequest.
Definition schema `{Pydantic} : Schema := model "IoK8sApiCoreV1ContainerExtendedResourceRequest" [
  req "container_name" "containerName" StrictStr;
  req "request_name" "requestName" StrictStr;
  req "resource_name" "resourceName" StrictStr].
Definition to_dict `{Pydantic} : value → outcome value := to_dict_with schema [].
Definition from_dict `{Pydantic} : value → outcome value := from_dict_with schema [
  GetOr "containerName" (VStr "");
  GetOr "requestName" (VStr "");
  GetOr "resourceName" (VStr "")].
Definition to_json `{Pydantic} : value → outcome string := to_json_with to_dict.
Definition from_json `{Pydantic} : string → outcome value := from_json_with from_dict.
Definition to_str `{Pydantic} : value → outcome string := to_str_with schema.
End IoK8sApiCoreV1ContainerExtendedResourceRequest.
#[export] Instance IoK8sApiCoreV1ContainerExtendedResourceRequest_templated `{PydanticLaws} :
  Templated IoK8sApiCoreV1ContainerExtendedResourceRequest.schema
    IoK8sApiCoreV1ContainerExtendedResourceRequest.to_dict
      IoK8sApiCoreV1ContainerExtendedResourceRequest.from_dict.
Proof. solve_model. Qed.

Module IoK8sApiCoreV1ContainerImage.
Definition schema `{Pydantic} : Schema := model "IoK8sApiCoreV1ContainerImage" [
  opt "names" "names" (List StrictStr);
  opt "size_bytes" "sizeBytes" StrictInt].
Definition to_dict `{Pydantic} : value → outcome value := to_dict_with schema [].
Definition from_dict `{Pydantic} : value → outcome value := from_dict_with schema [
  Get "names";
  Get "sizeBytes"].
Definition to_json `{Pydantic} : value → outcome string := to_json_with to_dict.
Definition from_json `{Pydantic} : string → outcome value := from_json_with from_dict.
Definition to_str `{Pydantic} : value → outcome string := to_str_with schema.
End IoK8sApiCoreV1ContainerImage.
#[export] Instance IoK8sApiCoreV1ContainerImage_templated `{PydanticLaws} :
  Templated IoK8sApiCoreV1ContainerImage.schema IoK8sApiCoreV1ContainerImage.to_dict
    IoK8sApiCoreV1ContainerImage.from_dict.
Proof. solve_model. Qed.

Module IoK8sApiCoreV1ContainerStateRunning.
Definition schema `{Pydantic} : Schema := model "IoK8sApiCoreV1ContainerStateRunning" [
  opt "started_at" "startedAt" Datetime].
Definition to_dict `{Pydantic} : value → outcome value := to_dict_with schema [].
Definition from_dict `{Pydantic} : value → outcome value := from_dict_with schema [
  Get "startedAt"].
Definition to_json `{Pydantic} : value → outcome string := to_json_with to_dict.
Definition from_json `{Pydantic} : string → outcome value := from_json_with from_dict.
Definition to_str `{Pydantic} : value → outcome string := to_str_with schema.
End IoK8sApiCoreV1ContainerStateRunning.
#[export] Instance IoK8sApiCoreV1ContainerStateRunning_templated `{PydanticLaws} :
  Templated IoK8sApiCoreV1ContainerStateRunning.schema IoK8sApiCoreV1ContainerStateRunning.to_dict
    IoK8sApiCoreV1ContainerStateRunning.from_dict.
Proof. solve_model. Qed.

Module IoK8sApiCoreV1ContainerStateTerminated.
Definition schema `{Pydantic} : Schema := model "IoK8sApiCoreV1ContainerStateTerminated" [
  opt "container_id" "containerID" StrictStr;
  req "exit_code" "exitCode" StrictInt;
  opt "finished_at" "finishedAt" Datetime;
  opt "message" "message" StrictStr;
  opt "reason" "reason" StrictStr;
  opt "signal" "signal" StrictInt;
  opt "started_at" "startedAt" Datetime].
Definition to_dict `{Pydantic} : value → outcome value := to_dict_with schema [].
Definition from_dict `{Pydantic} : value → outcome value := from_dict_with schema [
  Get "containerID";
  GetOr "exitCode" (VInt 0);
  Get "finishedAt";
  Get "message";
  Get "reason";
  Get "signal";
  Get "startedAt"].
Definition to_json `{Pydantic} : value → outcome string := to_json_with to_dict.
Definition from_json `{Pydantic} : string → outcome value := from_json_with from_dict.
Definition to_str `{Pydantic} : value → outcome string := to_str_with schema.
End IoK8sApiCoreV1ContainerStateTerminated.
#[export] Instance IoK8sApiCoreV1ContainerStateTerminated_templated `{PydanticLaws} :
  Templated IoK8sApiCoreV1ContainerStateTerminated.schema
    IoK8sApiCoreV1ContainerStateTerminated.to_dict IoK8sApiCoreV1ContainerStateTerminated.from_dict.
Proof. solve_model. Qed.

Module IoK8sApiCoreV1ContainerStateWaiting.
Definition schema `{Pydantic} : Schema := model "IoK8sApiCoreV1ContainerStateWaiting" [
  opt "message" "message" StrictStr;
  opt "reason" "reason" StrictStr].
Definition to_dict `{Pydantic} : value → outcome value := to_dict_with schema [].
Definition from_dict `{Pydantic} : value → outcome value := from_dict_with schema [
  Get "message";
  Get "reason"].
Definition to_json `{Pydantic} : value → outcome string := to_json_with to_dict.
Definition from_json `{Pydantic} : string → outcome value := from_json_with from_dict.
Definition to_str `{Pydantic} : value → outcome string := to_str_with schema.
End IoK8sApiCoreV1ContainerStateWaiting.
#[export] Instance IoK8sApiCoreV1ContainerStateWaiting_templated `{PydanticLaws} :
  Templated IoK8sApiCoreV1ContainerStateWaiting.schema IoK8sApiCoreV1ContainerStateWaiting.to_dict
    IoK8sApiCoreV1ContainerStateWaiting.from_dict.
Proof. solve_model. Qed.

Module IoK8sApiCoreV1ContainerState.
Definition schema `{Pydantic} : Schema := model "IoK8sApiCoreV1ContainerState" [
  opt "running" "running" (Model IoK8sApiCoreV1ContainerStateRunning.schema);
  opt "terminated" "terminated" (Model IoK8sApiCoreV1ContainerStateTerminated.schema);
  opt "waiting" "waiting" (Model IoK8sApiCoreV1ContainerStateWaiting.schema)].
Definition to_dict `{Pydantic} : value → outcome value := to_dict_with schema [
  Dump "running" "running" IoK8sApiCoreV1ContainerStateRunning.to_dict;
  Dump "terminated" "terminated" IoK8sApiCoreV1ContainerStateTerminated.to_dict;
  Dump "waiting" "waiting" IoK8sApiCoreV1ContainerStateWaiting.to_dict].
Definition from_dict `{Pydantic} : value → outcome value := from_dict_with schema [
  FromDict "running" IoK8sApiCoreV1ContainerStateRunning.from_dict;
  FromDict "terminated" IoK8sApiCoreV1ContainerStateTerminated.from_dict;
  FromDict "waiting" IoK8sApiCoreV1ContainerStateWaiting.from_dict].
Definition to_json `{Pydantic} : value → outcome string := to_json_with to_dict.
Definition from_json `{Pydantic} : string → outcome value := from_json_with from_dict.
Definition to_str `{Pydantic} : value → outcome string := to_str_with schema.
End IoK8sApiCoreV1ContainerState.
#[export] Instance IoK8sApiCoreV1ContainerState_templated `{PydanticLaws} :
  Templated IoK8sApiCoreV1ContainerState.schema IoK8sApiCoreV1ContainerState.to_dict
    IoK8sApiCoreV1ContainerState.from_dict.
Proof. solve_model. Qed.

Module IoK8sApiCoreV1ResourceHealth.
Definition schema `{Pydantic} : Schema := model "IoK8sApiCoreV1ResourceHealth" [
  opt "health" "health" StrictStr;
  opt "message" "message" StrictStr;
  req "resource_id" "resourceID" StrictStr].
Definition to_dict `{Pydantic} : value → outcome value := to_dict_with schema [].
Definition from_dict `{Pydantic} : value → outcome value := from_dict_with schema [
  Get "health";
  Get "message";
  GetOr "resourceID" (VStr "")].
Definition to_json `{Pydantic} : value → outcome string := to_json_with to_dict.
Definition from_json `{Pydantic} : string → outcome value := from_json_with from_dict.
Definition to_str `{Pydantic} : value → outcome string := to_str_with schema.
End IoK8sApiCoreV1ResourceHealth.
#[export] Instance IoK8sApiCoreV1ResourceHealth_templated `{PydanticLaws} :
  Templated IoK8sApiCoreV1ResourceHealth.schema IoK8sApiCoreV1ResourceHealth.to_dict
    IoK8sApiCoreV1ResourceHealth.from_dict.
Proof. solve_model. Qed.

Module IoK8sApiCoreV1ResourceStatus.
Definition schema `{Pydantic} : Schema := model "IoK8sApiCoreV1ResourceStatus" [
  req "name" "name" StrictStr;
  opt "resources" "resources" (List (Model IoK8sApiCoreV1ResourceHealth.schema))].
Definition to_dict `{Pydantic} : value → outcome value := to_dict_with schema [
  DumpItems "resources" "resources" IoK8sApiCoreV1ResourceHealth.to_dict].
Definition from_dict `{Pydantic} : value → outcome value := from_dict_with schema [
  GetOr "name" (VStr "");
  FromDictItems "resources" IoK8sApiCoreV1ResourceHealth.from_dict].
Definition to_json `{Pydantic} : value → outcome string := to_json_with to_dict.
Definition from_json `{Pydantic} : string → outcome value := from_json_with from_dict.
Definition to_str `{Pydantic} : value → outcome string := to_str_with schema.
End IoK8sApiCoreV1ResourceStatus.
#[export] Instance IoK8sApiCoreV1ResourceStatus_templated `{PydanticLaws} :
  Templated IoK8sApiCoreV1ResourceStatus.schema IoK8sApiCoreV1ResourceStatus.to_dict
    IoK8sApiCoreV1ResourceStatus.from_dict.
Proof. solve_model. Qed.

Module IoK8sApiCoreV1LinuxContainerUser.
Definition schema `{Pydantic} : Schema := model "IoK8sApiCoreV1LinuxContainerUser" [
  req "gid" "gid" StrictInt;
  opt "supplemental_groups" "supplementalGroups" (List StrictInt);
  req "uid" "uid" StrictInt].
Definition to_dict `{Pydantic} : value → outcome value := to_dict_with schema [].
Definition from_dict `{Pydantic} : value → outcome value := from_dict_with schema [
  GetOr "gid" (VInt 0);
  Get "supplementalGroups";
  GetOr "uid" (VInt 0)].
Definition to_json `{Pydantic} : value → outcome string := to_json_with to_dict.
Definition from_json `{Pydantic} : string → outcome value := from_json_with from_dict.
Definition to_str `{Pydantic} : value → outcome string := to_str_with schema.
End IoK8sApiCoreV1LinuxContainerUser.
#[export] Instance IoK8sApiCoreV1LinuxContainerUser_templated `{PydanticLaws} :
  Templated IoK8sApiCoreV1LinuxContainerUser.schema IoK8sApiCoreV1LinuxContainerUser.to_dict
    IoK8sApiCoreV1LinuxContainerUser.from_dict.
Proof. solve_model. Qed.

Module IoK8sApiCoreV1ContainerUser.
Definition schema `{Pydantic} : Schema := model "IoK8sApiCoreV1ContainerUser" [
  opt "linux" "linux" (Model IoK8sApiCoreV1LinuxContainerUser.schema)].
Definition to_dict `{Pydantic} : value → outcome value := to_dict_with schema [
  Dump "linux" "linux" IoK8sApiCoreV1LinuxContainerUser.to_dict].
Definition from_dict `{Pydantic} : value → outcome value := from_dict_with schema [
  FromDict "linux" IoK8sApiCoreV1LinuxContainerUser.from_dict].
Definition to_json `{Pydantic} : value → outcome string := to_json_with to_dict.
Definition from_json `{Pydantic} : string → outcome value := from_json_with from_dict.
Definition to_str `{Pydantic} : value → outcome string := to_str_with schema.
End IoK8sApiCoreV1ContainerUser.
#[export] Instance IoK8sApiCoreV1ContainerUser_templated `{PydanticLaws} :
  Templated IoK8sApiCoreV1ContainerUser.schema IoK8sApiCoreV1ContainerUser.to_dict
    IoK8sApiCoreV1ContainerUser.from_dict.
Proof. solve_model. Qed.

Module IoK8sApiCoreV1ImageVolumeStatus.
Definition schema `{Pydantic} : Schema := model "IoK8sApiCoreV1ImageVolumeStatus" [
  req "image_ref" "imageRef" StrictStr].
Definition to_dict `{Pydantic} : value → outcome value := to_dict_with schema [].
Definition from_dict `{Pydantic} : value → outcome value := from_dict_with schema [
  Get "imageRef"].
Definition to_json `{Pydantic} : value → outcome string := to_json_with to_dict.
Definition from_json `{Pydantic} : string → outcome value := from_json_with from_dict.
Definition to_str `{Pydantic} : value → outcome string := to_str_with schema.
End IoK8sApiCoreV1ImageVolumeStatus.
#[export] Instance IoK8sApiCoreV1ImageVolumeStatus_templated `{PydanticLaws} :
  Templated IoK8sApiCoreV1ImageVolumeStatus.schema IoK8sApiCoreV1ImageVolumeStatus.to_dict
    IoK8sApiCoreV1ImageVolumeStatus.from_dict.
Proof. solve_model. Qed.

Module IoK8sApiCoreV1VolumeStatus.
Definition schema `{Pydantic} : Schema := model "IoK8sApiCoreV1VolumeStatus" [
  opt "image" "image" (Model IoK8sApiCoreV1ImageVolumeStatus.schema)].
Definition to_dict `{Pydantic} : value → outcome value := to_dict_with schema [
  Dump "image" "image" IoK8sApiCoreV1ImageVolumeStatus.to_dict].
Definition from_dict `{Pydantic} : value → outcome value := from_dict_with schema [
  FromDict "image" IoK8sApiCoreV1ImageVolumeStatus.from_dict].
Definition to_json `{Pydantic} : value → outcome string := to_json_with to_dict.
Definition from_json `{Pydantic} : string → outcome value := from_json_with from_dict.
Definition to_str `{Pydantic} : value → outcome string := to_str_with schema.
End IoK8sApiCoreV1VolumeStatus.
#[export] Instance IoK8sApiCoreV1VolumeStatus_templated `{PydanticLaws} :
  Templated IoK8sApiCoreV1VolumeStatus.schema IoK8sApiCoreV1VolumeStatus.to_dict
    IoK8sApiCoreV1VolumeStatus.from_dict.
Proof. solve_model. Qed.

Module IoK8sApiCoreV1VolumeMountStatus.
Definition schema `{Pydantic} : Schema := model "IoK8sApiCoreV1VolumeMountStatus" [
  req "mount_path" "mountPath" StrictStr;
  req "name" "name" StrictStr;
  opt "read_only" "readOnly" StrictBool;
  opt "recursive_read_only" "recursiveReadOnly" StrictStr;
  opt "volume_status" "volumeStatus" (Model IoK8sApiCoreV1VolumeStatus.schema)].
Definition to_dict `{Pydantic} : value → outcome value := to_dict_with schema [
  Dump "volume_status" "volumeStatus" IoK8sApiCoreV1VolumeStatus.to_dict].
Definition from_dict `{Pydantic} : value → outcome value := from_dict_with schema [
  GetOr "mountPath" (VStr "");
  GetOr "name" (VStr "");
  Get "readOnly";
  Get "recursiveReadOnly";
  FromDict "volumeStatus" IoK8sApiCoreV1VolumeStatus.from_dict].
Definition to_json `{Pydantic} : value → outcome string := to_json_with to_dict.
Definition from_json `{Pydantic} : string → outcome value := from_json_with from_dict.
Definition to_str `{Pydantic} : value → outcome string := to_str_with schema.
End IoK8sApiCoreV1VolumeMountStatus.
#[export] Instance IoK8sApiCoreV1VolumeMountStatus_templated `{PydanticLaws} :
  Templated IoK8sApiCoreV1VolumeMountStatus.schema IoK8sApiCoreV1VolumeMountStatus.to_dict
    IoK8sApiCoreV1VolumeMountStatus.from_dict.
Proof. solve_model. Qed.

Module IoK8sApiCoreV1ContainerStatus.
Definition schema `{Pydantic} : Schema := model "IoK8sApiCoreV1ContainerStatus" [
  opt "allocated_resources" "allocatedResources" (Dict
    (Model IoK8sApimachineryPkgApiResourceQuantity.schema));
  opt "allocated_resources_status" "allocatedResourcesStatus" (List
    (Model IoK8sApiCoreV1ResourceStatus.schema));
  opt "container_id" "containerID" StrictStr;
  req "image" "image" StrictStr;
  req "image_id" "imageID" StrictStr;
  opt "last_state" "lastState" (Model IoK8sApiCoreV1ContainerState.schema);
  req "name" "name" StrictStr;
  req "ready" "ready" StrictBool;
  opt "resources" "resources" (Model IoK8sApiCoreV1ResourceRequirements.schema);
  req "restart_count" "restartCount" StrictInt;
  opt "started" "started" StrictBool;
  opt "state" "state" (Model IoK8sApiCoreV1ContainerState.schema);
  checked (opt "stop_signal" "stopSignal" StrictStr)
    (none_or_one_of ["SIGABRT"; "SIGALRM"; "SIGBUS"; "SIGCHLD"; "SIGCLD"; "SIGCONT"; "SIGFPE";
      "SIGHUP"; "SIGILL"; "SIGINT"; "SIGIO"; "SIGIOT"; "SIGKILL"; "SIGPIPE"; "SIGPOLL"; "SIGPROF";
        "SIGPWR"; "SIGQUIT"; "SIGRTMAX"; "SIGRTMAX-1"; "SIGRTMAX-10"; "SIGRTMAX-11";
          "SIGRTMAX-12"; "SIGRTMAX-13"; "SIGRTMAX-14"; "SIGRTMAX-2"; "SIGRTMAX-3"; "SIGRTMAX-4";
            "SIGRTMAX-5"; "SIGRTMAX-6"; "SIGRTMAX-7"; "SIGRTMAX-8"; "SIGRTMAX-9"; "SIGRTMIN";
              "SIGRTMIN+1"; "SIGRTMIN+10"; "SIGRTMIN+11"; "SIGRTMIN+12"; "SIGRTMIN+13";
                "SIGRTMIN+14"; "SIGRTMIN+15"; "SIGRTMIN+2"; "SIGRTMIN+3"; "SIGRTMIN+4";
                  "SIGRTMIN+5"; "SIGRTMIN+6"; "SIGRTMIN+7"; "SIGRTMIN+8"; "SIGRTMIN+9"; "SIGSEGV";
                    "SIGSTKFLT"; "SIGSTOP"; "SIGSYS"; "SIGTERM"; "SIGTRAP"; "SIGTSTP"; "SIGTTIN";
                      "SIGTTOU"; "SIGURG"; "SIGUSR1"; "SIGUSR2"; "SIGVTALRM"; "SIGWINCH";
                        "SIGXCPU"; "SIGXFSZ"]);
  opt "user" "user" (Model IoK8sApiCoreV1ContainerUser.schema);
  opt "volume_mounts" "volumeMounts" (List (Model IoK8sApiCoreV1VolumeMountStatus.schema))].
Definition to_dict `{Pydantic} : value → outcome value := to_dict_with schema [
  DumpValues "allocated_resources" "allocatedResources"
    IoK8sApimachineryPkgApiResourceQuantity.to_dict;
  DumpItems "allocated_resources_status" "allocatedResourcesStatus"
    IoK8sApiCoreV1ResourceStatus.to_dict;
  Dump "last_state" "lastState" IoK8sApiCoreV1ContainerState.to_dict;
  Dump "resources" "resources" IoK8sApiCoreV1ResourceRequirements.to_dict;
  Dump "state" "state" IoK8sApiCoreV1ContainerState.to_dict;
  Dump "user" "user" IoK8sApiCoreV1ContainerUser.to_dict;
  DumpItems "volume_mounts" "volumeMounts" IoK8sApiCoreV1VolumeMountStatus.to_dict].
Definition from_dict `{Pydantic} : value → outcome value := from_dict_with schema [
  FromDictValues "allocatedResources" IoK8sApimachineryPkgApiResourceQuantity.from_dict;
  FromDictItems "allocatedResourcesStatus" IoK8sApiCoreV1ResourceStatus.from_dict;
  Get "containerID";
  GetOr "image" (VStr "");
  GetOr "imageID" (VStr "");
  FromDict "lastState" IoK8sApiCoreV1ContainerState.from_dict;
  GetOr "name" (VStr "");
  GetOr "ready" (VBool false);
  FromDict "resources" IoK8sApiCoreV1ResourceRequirements.from_dict;
  GetOr "restartCount" (VInt 0);
  Get "started";
  FromDict "state" IoK8sApiCoreV1ContainerState.from_dict;
  Get "stopSignal";
  FromDict "user" IoK8sApiCoreV1ContainerUser.from_dict;
  FromDictItems "volumeMounts" IoK8sApiCoreV1VolumeMountStatus.from_dict].
Definition to_json `{Pydantic} : value → outcome string := to_json_with to_dict.
Definition from_json `{Pydantic} : string → outcome value := from_json_with from_dict.
Definition to_str `{Pydantic} : value → outcome string := to_str_with schema.
End IoK8sApiCoreV1ContainerStatus.
#[export] Instance IoK8sApiCoreV1ContainerStatus_templated `{PydanticLaws} :
  Templated IoK8sApiCoreV1ContainerStatus.schema IoK8sApiCoreV1ContainerStatus.to_dict
    IoK8sApiCoreV1ContainerStatus.from_dict.
Proof. solve_model. Qed.

Module IoK8sApiCoreV1CSIPersistentVolumeSource.
Definition schema `{Pydantic} : Schema := model "IoK8sApiCoreV1CSIPersistentVolumeSource" [
  opt "controller_expand_secret_ref" "controllerExpandSecretRef"
    (Model IoK8sApiCoreV1SecretReference.schema);
  opt "controller_publish_secret_ref" "controllerPublishSecretRef"
    (Model IoK8sApiCoreV1SecretReference.schema);
  req "driver" "driver" StrictStr;
  opt "fs_type" "fsType" StrictStr;
  opt "node_expand_secret_ref" "nodeExpandSecretRef" (Model IoK8sApiCoreV1SecretReference.schema);
  opt "node_publish_secret_ref" "nodePublishSecretRef" (Model IoK8sApiCoreV1SecretReference.schema);
  opt "node_stage_secret_ref" "nodeStageSecretRef" (Model IoK8sApiCoreV1SecretReference.schema);
  opt "read_only" "readOnly" StrictBool;
  opt "volume_attributes" "volumeAttributes" (Dict StrictStr);
  req "volume_handle" "volumeHandle" StrictStr].
Definition to_dict `{Pydantic} : value → outcome value := to_dict_with schema [
  Dump "controller_expand_secret_ref" "controllerExpandSecretRef"
    IoK8sApiCoreV1SecretReference.to_dict;
  Dump "controller_publish_secret_ref" "controllerPublishSecretRef"
    IoK8sApiCoreV1SecretReference.to_dict;
  Dump "node_expand_secret_ref" "nodeExpandSecretRef" IoK8sApiCoreV1SecretReference.to_dict;
  Dump "node_publish_secret_ref" "nodePublishSecretRef" IoK8sApiCoreV1SecretReference.to_dict;
  Dump "node_stage_secret_ref" "nodeStageSecretRef" IoK8sApiCoreV1SecretReference.to_dict].
Definition from_dict `{Pydantic} : value → outcome value := from_dict_with schema [
  FromDict "controllerExpandSecretRef" IoK8sApiCoreV1SecretReference.from_dict;
  FromDict "controllerPublishSecretRef" IoK8sApiCoreV1SecretReference.from_dict;
  GetOr "driver" (VStr "");
  Get "fsType";
  FromDict "nodeExpandSecretRef" IoK8sApiCoreV1SecretReference.from_dict;
  FromDict "nodePublishSecretRef" IoK8sApiCoreV1SecretReference.from_dict;
  FromDict "nodeStageSecretRef" IoK8sApiCoreV1SecretReference.from_dict;
  Get "readOnly";
  Get "volumeAttributes";
  GetOr "volumeHandle" (VStr "")].
Definition to_json `{Pydantic} : value → outcome string := to_json_with to_dict.
Definition from_json `{Pydantic} : string → outcome value := from_json_with from_dict.
Definition to_str `{Pydantic} : value → outcome string := to_str_with schema.
End IoK8sApiCoreV1CSIPersistentVolumeSource.
#[export] Instance IoK8sApiCoreV1CSIPersistentVolumeSource_templated `{PydanticLaws} :
  Templated IoK8sApiCoreV1CSIPersistentVolumeSource.schema
    IoK8sApiCoreV1CSIPersistentVolumeSource.to_dict
      IoK8sApiCoreV1CSIPersistentVolumeSource.from_dict.
Proof. solve_model. Qed.

Module IoK8sApiCoreV1DaemonEndpoint.
Definition schema `{Pydantic} : Schema := model "IoK8sApiCoreV1DaemonEndpoint" [
  req "port" "Port" StrictInt].
Definition to_dict `{Pydantic} : value → outcome value := to_dict_with schema [].
Definition from_dict `{Pydantic} : value → outcome value := from_dict_with schema [
  GetOr "Port" (VInt 0)].
Definition to_json `{Pydantic} : value → outcome string := to_json_with to_dict.
Definition from_json `{Pydantic} : string → outcome value := from_json_with from_dict.
Definition to_str `{Pydantic} : value → outcome string := to_str_with schema.
End IoK8sApiCoreV1DaemonEndpoint.
#[export] Instance IoK8sApiCoreV1DaemonEndpoint_templated `{PydanticLaws} :
  Templated IoK8sApiCoreV1DaemonEndpoint.schema IoK8sApiCoreV1DaemonEndpoint.to_dict
    IoK8sApiCoreV1DaemonEndpoint.from_dict.
Proof. solve_model. Qed.

Module IoK8sApiCoreV1EndpointAddress.
Definition schema `{Pydantic} : Schema := model "IoK8sApiCoreV1EndpointAddress" [
  opt "hostname" "hostname" StrictStr;
  req "ip" "ip" StrictStr;
  opt "node_name" "nodeName" StrictStr;
  opt "target_ref" "targetRef" (Model IoK8sApiCoreV1ObjectReference.schema)].
Definition to_dict `{Pydantic} : value → outcome value := to_dict_with schema [
  Dump "target_ref" "targetRef" IoK8sApiCoreV1ObjectReference.to_dict].
Definition from_dict `{Pydantic} : value → outcome value := from_dict_with schema [
  Get "hostname";
  GetOr "ip" (VStr "");
  Get "nodeName";
  FromDict "targetRef" IoK8sApiCoreV1ObjectReference.from_dict].
Definition to_json `{Pydantic} : value → outcome string := to_json_with to_dict.
Definition from_json `{Pydantic} : string → outcome value := from_json_with from_dict.
Definition to_str `{Pydantic} : value → outcome string := to_str_with schema.
End IoK8sApiCoreV1EndpointAddress.
#[export] Instance IoK8sApiCoreV1EndpointAddress_templated `{PydanticLaws} :
  Templated IoK8sApiCoreV1EndpointAddress.schema IoK8sApiCoreV1EndpointAddress.to_dict
    IoK8sApiCoreV1EndpointAddress.from_dict.
Proof. solve_model. Qed.

Module IoK8sApiCoreV1EndpointPort.
Definition schema `{Pydantic} : Schema := model "IoK8sApiCoreV1EndpointPort" [
  opt "app_protocol" "appProtocol" StrictStr;
  opt "name" "name" StrictStr;
  req "port" "port" StrictInt;
  checked (opt "protocol" "protocol" StrictStr)
    (none_or_one_of ["SCTP"; "TCP"; "UDP"])].
Definition to_dict `{Pydantic} : value → outcome value := to_dict_with schema [].
Definition from_dict `{Pydantic} : value → outcome value := from_dict_with schema [
  Get "appProtocol";
  Get "name";
  GetOr "port" (VInt 0);
  Get "protocol"].
Definition to_json `{Pydantic} : value → outcome string := to_json_with to_dict.
Definition from_json `{Pydantic} : string → outcome value := from_json_with from_dict.
Definition to_str `{Pydantic} : value → outcome string := to_str_with schema.
End IoK8sApiCoreV1EndpointPort.
#[export] Instance IoK8sApiCoreV1EndpointPort_templated `{PydanticLaws} :
  Templated IoK8sApiCoreV1EndpointPort.schema IoK8sApiCoreV1EndpointPort.to_dict
    IoK8sApiCoreV1EndpointPort.from_dict.
Proof. solve_model. Qed.

Module IoK8sApiCoreV1EndpointSubset.
Definition schema `{Pydantic} : Schema := model "IoK8sApiCoreV1EndpointSubset" [
  opt "addresses" "addresses" (List (Model IoK8sApiCoreV1EndpointAddress.schema));
  opt "not_ready_addresses" "notReadyAddresses" (List (Model IoK8sApiCoreV1EndpointAddress.schema));
  opt "ports" "ports" (List (Model IoK8sApiCoreV1EndpointPort.schema))].
Definition to_dict `{Pydantic} : value → outcome value := to_dict_with schema [
  DumpItems "addresses" "addresses" IoK8sApiCoreV1EndpointAddress.to_dict;
  DumpItems "not_ready_addresses" "notReadyAddresses" IoK8sApiCoreV1EndpointAddress.to_dict;
  DumpItems "ports" "ports" IoK8sApiCoreV1EndpointPort.to_dict].
Definition from_dict `{Pydantic} : value → outcome value := from_dict_with schema [
  FromDictItems "addresses" IoK8sApiCoreV1EndpointAddress.from_dict;
  FromDictItems "notReadyAddresses" IoK8sApiCoreV1EndpointAddress.from_dict;
  FromDictItems "ports" IoK8sApiCoreV1EndpointPort.from_dict].
Definition to_json `{Pydantic} : value → outcome string := to_json_with to_dict.
Definition from_json `{Pydantic} : string → outcome value := from_json_with from_dict.
Definition to_str `{Pydantic} : value → outcome string := to_str_with schema.
End IoK8sApiCoreV1EndpointSubset.
#[export] Instance IoK8sApiCoreV1EndpointSubset_templated `{PydanticLaws} :
  Templated IoK8sApiCoreV1EndpointSubset.schema IoK8sApiCoreV1EndpointSubset.to_dict
    IoK8sApiCoreV1EndpointSubset.from_dict.
Proof. solve_model. Qed.

Module IoK8sApiCoreV1Endpoints.
Definition schema `{Pydantic} : Schema := model "IoK8sApiCoreV1Endpoints" [
  opt "api_version" "apiVersion" StrictStr;
  opt "kind" "kind" StrictStr;
  opt "metadata" "metadata" (Model IoK8sApimachineryPkgApisMetaV1ObjectMeta.schema);
  opt "subsets" "subsets" (List (Model IoK8sApiCoreV1EndpointSubset.schema))].
Definition to_dict `{Pydantic} : value → outcome value := to_dict_with schema [
  Dump "metadata" "metadata" IoK8sApimachineryPkgApisMetaV1ObjectMeta.to_dict;
  DumpItems "subsets" "subsets" IoK8sApiCoreV1EndpointSubset.to_dict].
Definition from_dict `{Pydantic} : value → outcome value := from_dict_with schema [
  Get "apiVersion";
  Get "kind";
  FromDict "metadata" IoK8sApimachineryPkgApisMetaV1ObjectMeta.from_dict;
  FromDictItems "subsets" IoK8sApiCoreV1EndpointSubset.from_dict].
Definition to_json `{Pydantic} : value → outcome string := to_json_with to_dict.
Definition from_json `{Pydantic} : string → outcome value := from_json_with from_dict.
Definition to_str `{Pydantic} : value → outcome string := to_str_with schema.
End IoK8sApiCoreV1Endpoints.
#[export] Instance IoK8sApiCoreV1Endpoints_templated `{PydanticLaws} :
  Templated IoK8sApiCoreV1Endpoints.schema IoK8sApiCoreV1Endpoints.to_dict
    IoK8sApiCoreV1Endpoints.from_dict.
Proof. solve_model. Qed.

Module IoK8sApiCoreV1EndpointsList.
Definition schema `{Pydantic} : Schema := model "IoK8sApiCoreV1EndpointsList" [
  opt "api_version" "apiVersion" StrictStr;
  req "items" "items" (List (Model IoK8sApiCoreV1Endpoints.schema));
  opt "kind" "kind" StrictStr;
  opt "metadata" "metadata" (Model IoK8sApimachineryPkgApisMetaV1ListMeta.schema)].
Definition to_dict `{Pydantic} : value → outcome value := to_dict_with schema [
  DumpItems "items" "items" IoK8sApiCoreV1Endpoints.to_dict;
  Dump "metadata" "metadata" IoK8sApimachineryPkgApisMetaV1ListMeta.to_dict].
Definition from_dict `{Pydantic} : value → outcome value := from_dict_with schema [
  Get "apiVersion";
  FromDictItems "items" IoK8sApiCoreV1Endpoints.from_dict;
  Get "kind";
  FromDict "metadata" IoK8sApimachineryPkgApisMetaV1ListMeta.from_dict].
Definition to_json `{Pydantic} : value → outcome string := to_json_with to_dict.
Definition from_json `{Pydantic} : string → outcome value := from_json_with from_dict.
Definition to_str `{Pydantic} : value → outcome string := to_str_with schema.
End IoK8sApiCoreV1EndpointsList.
#[export] Instance IoK8sApiCoreV1EndpointsList_templated `{PydanticLaws} :
  Templated IoK8sApiCoreV1EndpointsList.schema IoK8sApiCoreV1EndpointsList.to_dict
    IoK8sApiCoreV1EndpointsList.from_dict.
Proof. solve_model. Qed.

Module IoK8sApiCoreV1EphemeralContainerCommon.
Definition schema `{Pydantic} : Schema := model "IoK8sApiCoreV1EphemeralContainerCommon" [
  opt "args" "args" (List StrictStr);
  opt "command" "command" (List StrictStr);
  opt "env" "env" (List (Model IoK8sApiCoreV1EnvVar.schema));
  opt "env_from" "envFrom" (List (Model IoK8sApiCoreV1EnvFromSource.schema));
  opt "image" "image" StrictStr;
  checked (opt "image_pull_policy" "imagePullPolicy" StrictStr)
    (none_or_one_of ["Always"; "IfNotPresent"; "Never"]);
  opt "lifecycle" "lifecycle" (Model IoK8sApiCoreV1Lifecycle.schema);
  opt "liveness_probe" "livenessProbe" (Model IoK8sApiCoreV1Probe.schema);
  req "name" "name" StrictStr;
  opt "ports" "ports" (List (Model IoK8sApiCoreV1ContainerPort.schema));
  opt "readiness_probe" "readinessProbe" (Model IoK8sApiCoreV1Probe.schema);
  opt "resize_policy" "resizePolicy" (List (Model IoK8sApiCoreV1ContainerResizePolicy.schema));
  opt "resources" "resources" (Model IoK8sApiCoreV1ResourceRequirements.schema);
  opt "restart_policy" "restartPolicy" StrictStr;
  opt "restart_policy_rules" "restartPolicyRules" (List
    (Model IoK8sApiCoreV1ContainerRestartRule.schema));
  opt "security_context" "securityContext" (Model IoK8sApiCoreV1SecurityContext.schema);
  opt "startup_probe" "startupProbe" (Model IoK8sApiCoreV1Probe.schema);
  opt "stdin" "stdin" StrictBool;
  opt "stdin_once" "stdinOnce" StrictBool;
  opt "termination_message_path" "terminationMessagePath" StrictStr;
  checked (opt "termination_message_policy" "terminationMessagePolicy" StrictStr)
    (none_or_one_of ["FallbackToLogsOnError"; "File"]);
  opt "tty" "tty" StrictBool;
  opt "volume_devices" "volumeDevices" (List (Model IoK8sApiCoreV1VolumeDevice.schema));
  opt "volume_mounts" "volumeMounts" (List (Model IoK8sApiCoreV1VolumeMount.schema));
  opt "working_dir" "workingDir" StrictStr].
Definition to_dict `{Pydantic} : value → outcome value := to_dict_with schema [
  DumpItems "env" "env" IoK8sApiCoreV1EnvVar.to_dict;
  DumpItems "env_from" "envFrom" IoK8sApiCoreV1EnvFromSource.to_dict;
  Dump "lifecycle" "lifecycle" IoK8sApiCoreV1Lifecycle.to_dict;
  Dump "liveness_probe" "livenessProbe" IoK8sApiCoreV1Probe.to_dict;
  DumpItems "ports" "ports" IoK8sApiCoreV1ContainerPort.to_dict;
  Dump "readiness_probe" "readinessProbe" IoK8sApiCoreV1Probe.to_dict;
  DumpItems "resize_policy" "resizePolicy" IoK8sApiCoreV1ContainerResizePolicy.to_dict;
  Dump "resources" "resources" IoK8sApiCoreV1ResourceRequirements.to_dict;
  DumpItems "restart_policy_rules" "restartPolicyRules" IoK8sApiCoreV1ContainerRestartRule.to_dict;
  Dump "security_context" "securityContext" IoK8sApiCoreV1SecurityContext.to_dict;
  Dump "startup_probe" "startupProbe" IoK8sApiCoreV1Probe.to_dict;
  DumpItems "volume_devices" "volumeDevices" IoK8sApiCoreV1VolumeDevice.to_dict;
  DumpItems "volume_mounts" "volumeMounts" IoK8sApiCoreV1VolumeMount.to_dict].
Definition from_dict `{Pydantic} : value → outcome value := from_dict_with schema [
  Get "args";
  Get "command";
  FromDictItems "env" IoK8sApiCoreV1EnvVar.from_dict;
  FromDictItems "envFrom" IoK8sApiCoreV1EnvFromSource.from_dict;
  Get "image";
  Get "imagePullPolicy";
  FromDict "lifecycle" IoK8sApiCoreV1Lifecycle.from_dict;
  FromDict "livenessProbe" IoK8sApiCoreV1Probe.from_dict;
  GetOr "name" (VStr "");
  FromDictItems "ports" IoK8sApiCoreV1ContainerPort.from_dict;
  FromDict "readinessProbe" IoK8sApiCoreV1Probe.from_dict;
  FromDictItems "resizePolicy" IoK8sApiCoreV1ContainerResizePolicy.from_dict;
  FromDict "resources" IoK8sApiCoreV1ResourceRequirements.from_dict;
  Get "restartPolicy";
  FromDictItems "restartPolicyRules" IoK8sApiCoreV1ContainerRestartRule.from_dict;
  FromDict "securityContext" IoK8sApiCoreV1SecurityContext.from_dict;
  FromDict "startupProbe" IoK8sApiCoreV1Probe.from_dict;
  Get "stdin";
  Get "stdinOnce";
  Get "terminationMessagePath";
  Get "terminationMessagePolicy";
  Get "tty";
  FromDictItems "volumeDevices" IoK8sApiCoreV1VolumeDevice.from_dict;
  FromDictItems "volumeMounts" IoK8sApiCoreV1VolumeMount.from_dict;
  Get "workingDir"].
Definition to_json `{Pydantic} : value → outcome string := to_json_with to_dict.
Definition from_json `{Pydantic} : string → outcome value := from_json_with from_dict.
Definition to_str `{Pydantic} : value → outcome string := to_str_with schema.
End IoK8sApiCoreV1EphemeralContainerCommon.
#[export] Instance IoK8sApiCoreV1EphemeralContainerCommon_templated `{PydanticLaws} :
  Templated IoK8sApiCoreV1EphemeralContainerCommon.schema
    IoK8sApiCoreV1EphemeralContainerCommon.to_dict IoK8sApiCoreV1EphemeralContainerCommon.from_dict.
Proof. solve_model. Qed.

Module IoK8sApiCoreV1EventSeries.
Definition schema `{Pydantic} : Schema := model "IoK8sApiCoreV1EventSeries" [
  opt "count" "count" StrictInt;
  opt "last_observed_time" "lastObservedTime" Datetime].
Definition to_dict `{Pydantic} : value → outcome value := to_dict_with schema [].
Definition from_dict `{Pydantic} : value → outcome value := from_dict_with schema [
  Get "count";
  Get "lastObservedTime"].
Definition to_json `{Pydantic} : value → outcome string := to_json_with to_dict.
Definition from_json `{Pydantic} : string → outcome value := from_json_with from_dict.
Definition to_str `{Pydantic} : value → outcome string := to_str_with schema.
End IoK8sApiCoreV1EventSeries.
#[export] Instance IoK8sApiCoreV1EventSeries_templated `{PydanticLaws} :
  Templated IoK8sApiCoreV1EventSeries.schema IoK8sApiCoreV1EventSeries.to_dict
    IoK8sApiCoreV1EventSeries.from_dict.
Proof. solve_model. Qed.

Module IoK8sApiCoreV1EventSource.
Definition schema `{Pydantic} : Schema := model "IoK8sApiCoreV1EventSource" [
  opt "component" "component" StrictStr;
  opt "host" "host" StrictStr].
Definition to_dict `{Pydantic} : value → outcome value := to_dict_with schema [].
Definition from_dict `{Pydantic} : value → outcome value := from_dict_with schema [
  Get "component";
  Get "host"].
Definition to_json `{Pydantic} : value → outcome string := to_json_with to_dict.
Definition from_json `{Pydantic} : string → outcome value := from_json_with from_dict.
Definition to_str `{Pydantic} : value → outcome string := to_str_with schema.
End IoK8sApiCoreV1EventSource.
#[export] Instance IoK8sApiCoreV1EventSource_templated `{PydanticLaws} :
  Templated IoK8sApiCoreV1EventSource.schema IoK8sApiCoreV1EventSource.to_dict
    IoK8sApiCoreV1EventSource.from_dict.
Proof. solve_model. Qed.

Module IoK8sApiCoreV1Event.
Definition schema `{Pydantic} : Schema := model "IoK8sApiCoreV1Event" [
  opt "action" "action" StrictStr;
  opt "api_version" "apiVersion" StrictStr;
  opt "count" "count" StrictInt;
  opt "event_time" "eventTime" Datetime;
  opt "first_timestamp" "firstTimestamp" Datetime;
  req "involved_object" "involvedObject" (Model IoK8sApiCoreV1ObjectReference.schema);
  opt "kind" "kind" StrictStr;
  opt "last_timestamp" "lastTimestamp" Datetime;
  opt "message" "message" StrictStr;
  req "metadata" "metadata" (Model IoK8sApimachineryPkgApisMetaV1ObjectMeta.schema);
  opt "reason" "reason" StrictStr;
  opt "related" "related" (Model IoK8sApiCoreV1ObjectReference.schema);
  opt_or "reporting_component" "reportingComponent" StrictStr (VStr "");
  opt_or "reporting_instance" "reportingInstance" StrictStr (VStr "");
  opt "series" "series" (Model IoK8sApiCoreV1EventSeries.schema);
  opt "source" "source" (Model IoK8sApiCoreV1EventSource.schema);
  opt "type" "type" StrictStr].
Definition to_dict `{Pydantic} : value → outcome value := to_dict_with schema [
  Dump "involved_object" "involvedObject" IoK8sApiCoreV1ObjectReference.to_dict;
  Dump "metadata" "metadata" IoK8sApimachineryPkgApisMetaV1ObjectMeta.to_dict;
  Dump "related" "related" IoK8sApiCoreV1ObjectReference.to_dict;
  Dump "series" "series" IoK8sApiCoreV1EventSeries.to_dict;
  Dump "source" "source" IoK8sApiCoreV1EventSource.to_dict].
Definition from_dict `{Pydantic} : value → outcome value := from_dict_with schema [
  Get "action";
  Get "apiVersion";
  Get "count";
  Get "eventTime";
  Get "firstTimestamp";
  FromDict "involvedObject" IoK8sApiCoreV1ObjectReference.from_dict;
  Get "kind";
  Get "lastTimestamp";
  Get "message";
  FromDict "metadata" IoK8sApimachineryPkgApisMetaV1ObjectMeta.from_dict;
  Get "reason";
  FromDict "related" IoK8sApiCoreV1ObjectReference.from_dict;
  GetOr "reportingComponent" (VStr "");
  GetOr "reportingInstance" (VStr "");
  FromDict "series" IoK8sApiCoreV1EventSeries.from_dict;
  FromDict "source" IoK8sApiCoreV1EventSource.from_dict;
  Get "type"].
Definition to_json `{Pydantic} : value → outcome string := to_json_with to_dict.
Definition from_json `{Pydantic} : string → outcome value := from_json_with from_dict.
Definition to_str `{Pydantic} : value → outcome string := to_str_with schema.
End IoK8sApiCoreV1Event.
#[export] Instance IoK8sApiCoreV1Event_templated `{PydanticLaws} :
  Templated IoK8sApiCoreV1Event.schema IoK8sApiCoreV1Event.to_dict IoK8sApiCoreV1Event.from_dict.
Proof. solve_model. Qed.

Module IoK8sApiCoreV1EventList.
Definition schema `{Pydantic} : Schema := model "IoK8sApiCoreV1EventList" [
  opt "api_version" "apiVersion" StrictStr;
  req "items" "items" (List (Model IoK8sApiCoreV1Event.schema));
  opt "kind" "kind" StrictStr;
  opt "metadata" "metadata" (Model IoK8sApimachineryPkgApisMetaV1ListMeta.schema)].
Definition to_dict `{Pydantic} : value → outcome value := to_dict_with schema [
  DumpItems "items" "items" IoK8sApiCoreV1Event.to_dict;
  Dump "metadata" "metadata" IoK8sApimachineryPkgApisMetaV1ListMeta.to_dict].
Definition from_dict `{Pydantic} : value → outcome value := from_dict_with schema [
  Get "apiVersion";
  FromDictItems "items" IoK8sApiCoreV1Event.from_dict;
  Get "kind";
  FromDict "metadata" IoK8sApimachineryPkgApisMetaV1ListMeta.from_dict].
Definition to_json `{Pydantic} : value → outcome string := to_json_with to_dict.
Definition from_json `{Pydantic} : string → outcome value := from_json_with from_dict.
Definition to_str `{Pydantic} : value → outcome string := to_str_with schema.
End IoK8sApiCoreV1EventList.
#[export] Instance IoK8sApiCoreV1EventList_templated `{PydanticLaws} :
  Templated IoK8sApiCoreV1EventList.schema IoK8sApiCoreV1EventList.to_dict
    IoK8sApiCoreV1EventList.from_dict.
Proof. solve_model. Qed.

Module IoK8sApiCoreV1FlexPersistentVolumeSource.
Definition schema `{Pydantic} : Schema := model "IoK8sApiCoreV1FlexPersistentVolumeSource" [
  req "driver" "driver" StrictStr;
  opt "fs_type" "fsType" StrictStr;
  opt "options" "options" (Dict StrictStr);
  opt "read_only" "readOnly" StrictBool;
  opt "secret_ref" "secretRef" (Model IoK8sApiCoreV1SecretReference.schema)].
Definition to_dict `{Pydantic} : value → outcome value := to_dict_with schema [
  Dump "secret_ref" "secretRef" IoK8sApiCoreV1SecretReference.to_dict].
Definition from_dict `{Pydantic} : value → outcome value := from_dict_with schema [
  GetOr "driver" (VStr "");
  Get "fsType";
  Get "options";
  Get "readOnly";
  FromDict "secretRef" IoK8sApiCoreV1SecretReference.from_dict].
Definition to_json `{Pydantic} : value → outcome string := to_json_with to_dict.
Definition from_json `{Pydantic} : string → outcome value := from_json_with from_dict.
Definition to_str `{Pydantic} : value → outcome string := to_str_with schema.
End IoK8sApiCoreV1FlexPersistentVolumeSource.
#[export] Instance IoK8sApiCoreV1FlexPersistentVolumeSource_templated `{PydanticLaws} :
  Templated IoK8sApiCoreV1FlexPersistentVolumeSource.schema
    IoK8sApiCoreV1FlexPersistentVolumeSource.to_dict
      IoK8sApiCoreV1FlexPersistentVolumeSource.from_dict.
Proof. solve_model. Qed.

Module IoK8sApiCoreV1GlusterfsPersistentVolumeSource.
Definition schema `{Pydantic} : Schema := model "IoK8sApiCoreV1GlusterfsPersistentVolumeSource" [
  req "endpoints" "endpoints" StrictStr;
  opt "endpoints_namespace" "endpointsNamespace" StrictStr;
  req "path" "path" StrictStr;
  opt "read_only" "readOnly" StrictBool].
Definition to_dict `{Pydantic} : value → outcome value := to_dict_with schema [].
Definition from_dict `{Pydantic} : value → outcome value := from_dict_with schema [
  GetOr "endpoints" (VStr "");
  Get "endpointsNamespace";
  GetOr "path" (VStr "");
  Get "readOnly"].
Definition to_json `{Pydantic} : value → outcome string := to_json_with to_dict.
Definition from_json `{Pydantic} : string → outcome value := from_json_with from_dict.
Definition to_str `{Pydantic} : value → outcome string := to_str_with schema.
End IoK8sApiCoreV1GlusterfsPersistentVolumeSource.
#[export] Instance IoK8sApiCoreV1GlusterfsPersistentVolumeSource_templated `{PydanticLaws} :
  Templated IoK8sApiCoreV1GlusterfsPersistentVolumeSource.schema
    IoK8sApiCoreV1GlusterfsPersistentVolumeSource.to_dict
      IoK8sApiCoreV1GlusterfsPersistentVolumeSource.from_dict.
Proof. solve_model. Qed.

Module IoK8sApiCoreV1HostIP.
Definition schema `{Pydantic} : Schema := model "IoK8sApiCoreV1HostIP" [
  req "ip" "ip" StrictStr].
Definition to_dict `{Pydantic} : value → outcome value := to_dict_with schema [].
Definition from_dict `{Pydantic} : value → outcome value := from_dict_with schema [
  GetOr "ip" (VStr "")].
Definition to_json `{Pydantic} : value → outcome string := to_json_with to_dict.
Definition from_json `{Pydantic} : string → outcome value := from_json_with from_dict.
Definition to_str `{Pydantic} : value → outcome string := to_str_with schema.
End IoK8sApiCoreV1HostIP.
#[export] Instance IoK8sApiCoreV1HostIP_templated `{PydanticLaws} :
  Templated IoK8sApiCoreV1HostIP.schema IoK8sApiCoreV1HostIP.to_dict IoK8sApiCoreV1HostIP.from_dict.
Proof. solve_model. Qed.

Module IoK8sApiCoreV1ISCSIPersistentVolumeSource.
Definition schema `{Pydantic} : Schema := model "IoK8sApiCoreV1ISCSIPersistentVolumeSource" [
  opt "chap_auth_discovery" "chapAuthDiscovery" StrictBool;
  opt "chap_auth_session" "chapAuthSession" StrictBool;
  opt "fs_type" "fsType" StrictStr;
  opt "initiator_name" "initiatorName" StrictStr;
  req "iqn" "iqn" StrictStr;
  opt_or "iscsi_interface" "iscsiInterface" StrictStr (VStr "default");
  req "lun" "lun" StrictInt;
  opt "portals" "portals" (List StrictStr);
  opt "read_only" "readOnly" StrictBool;
  opt "secret_ref" "secretRef" (Model IoK8sApiCoreV1SecretReference.schema);
  req "target_portal" "targetPortal" StrictStr].
Definition to_dict `{Pydantic} : value → outcome value := to_dict_with schema [
  Dump "secret_ref" "secretRef" IoK8sApiCoreV1SecretReference.to_dict].
Definition from_dict `{Pydantic} : value → outcome value := from_dict_with schema [
  Get "chapAuthDiscovery";
  Get "chapAuthSession";
  Get "fsType";
  Get "initiatorName";
  GetOr "iqn" (VStr "");
  GetOr "iscsiInterface" (VStr "default");
  GetOr "lun" (VInt 0);
  Get "portals";
  Get "readOnly";
  FromDict "secretRef" IoK8sApiCoreV1SecretReference.from_dict;
  GetOr "targetPortal" (VStr "")].
Definition to_json `{Pydantic} : value → outcome string := to_json_with to_dict.
Definition from_json `{Pydantic} : string → outcome value := from_json_with from_dict.
Definition to_str `{Pydantic} : value → outcome string := to_str_with schema.
End IoK8sApiCoreV1ISCSIPersistentVolumeSource.
#[export] Instance IoK8sApiCoreV1ISCSIPersistentVolumeSource_templated `{PydanticLaws} :
  Templated IoK8sApiCoreV1ISCSIPersistentVolumeSource.schema
    IoK8sApiCoreV1ISCSIPersistentVolumeSource.to_dict
      IoK8sApiCoreV1ISCSIPersistentVolumeSource.from_dict.
Proof. solve_model. Qed.

Module IoK8sApiCoreV1LimitRangeItem.
Definition schema `{Pydantic} : Schema := model "IoK8sApiCoreV1LimitRangeItem" [
  opt "default" "default" (Dict (Model IoK8sApimachineryPkgApiResourceQuantity.schema));
  opt "default_request" "defaultRequest" (Dict
    (Model IoK8sApimachineryPkgApiResourceQuantity.schema));
  opt "max" "max" (Dict (Model IoK8sApimachineryPkgApiResourceQuantity.schema));
  opt "max_limit_request_ratio" "maxLimitRequestRatio" (Dict
    (Model IoK8sApimachineryPkgApiResourceQuantity.schema));
  opt "min" "min" (Dict (Model IoK8sApimachineryPkgApiResourceQuantity.schema));
  req "type" "type" StrictStr].
Definition to_dict `{Pydantic} : value → outcome value := to_dict_with schema [
  DumpValues "default" "default" IoK8sApimachineryPkgApiResourceQuantity.to_dict;
  DumpValues "default_request" "defaultRequest" IoK8sApimachineryPkgApiResourceQuantity.to_dict;
  DumpValues "max" "max" IoK8sApimachineryPkgApiResourceQuantity.to_dict;
  DumpValues "max_limit_request_ratio" "maxLimitRequestRatio"
    IoK8sApimachineryPkgApiResourceQuantity.to_dict;
  DumpValues "min" "min" IoK8sApimachineryPkgApiResourceQuantity.to_dict].
Definition from_dict `{Pydantic} : value → outcome value := from_dict_with schema [
  FromDictValues "default" IoK8sApimachineryPkgApiResourceQuantity.from_dict;
  FromDictValues "defaultRequest" IoK8sApimachineryPkgApiResourceQuantity.from_dict;
  FromDictValues "max" IoK8sApimachineryPkgApiResourceQuantity.from_dict;
  FromDictValues "maxLimitRequestRatio" IoK8sApimachineryPkgApiResourceQuantity.from_dict;
  FromDictValues "min" IoK8sApimachineryPkgApiResourceQuantity.from_dict;
  GetOr "type" (VStr "")].
Definition to_json `{Pydantic} : value → outcome string := to_json_with to_dict.
Definition from_json `{Pydantic} : string → outcome value := from_json_with from_dict.
Definition to_str `{Pydantic} : value → outcome string := to_str_with schema.
End IoK8sApiCoreV1LimitRangeItem.
#[export] Instance IoK8sApiCoreV1LimitRangeItem_templated `{PydanticLaws} :
  Templated IoK8sApiCoreV1LimitRangeItem.schema IoK8sApiCoreV1LimitRangeItem.to_dict
    IoK8sApiCoreV1LimitRangeItem.from_dict.
Proof. solve_model. Qed.

Module IoK8sApiCoreV1LimitRangeSpec.
Definition schema `{Pydantic} : Schema := model "IoK8sApiCoreV1LimitRangeSpec" [
  req "limits" "limits" (List (Model IoK8sApiCoreV1LimitRangeItem.schema))].
Definition to_dict `{Pydantic} : value → outcome value := to_dict_with schema [
  DumpItems "limits" "limits" IoK8sApiCoreV1LimitRangeItem.to_dict].
Definition from_dict `{Pydantic} : value → outcome value := from_dict_with schema [
  FromDictItems "limits" IoK8sApiCoreV1LimitRangeItem.from_dict].
Definition to_json `{Pydantic} : value → outcome string := to_json_with to_dict.
Definition from_json `{Pydantic} : string → outcome value := from_json_with from_dict.
Definition to_str `{Pydantic} : value → outcome string := to_str_with schema.
End IoK8sApiCoreV1LimitRangeSpec.
#[export] Instance IoK8sApiCoreV1LimitRangeSpec_templated `{PydanticLaws} :
  Templated IoK8sApiCoreV1LimitRangeSpec.schema IoK8sApiCoreV1LimitRangeSpec.to_dict
    IoK8sApiCoreV1LimitRangeSpec.from_dict.
Proof. solve_model. Qed.

Module IoK8sApiCoreV1LimitRange.
Definition schema `{Pydantic} : Schema := model "IoK8sApiCoreV1LimitRange" [
  opt "api_version" "apiVersion" StrictStr;
  opt "kind" "kind" StrictStr;
  opt "metadata" "metadata" (Model IoK8sApimachineryPkgApisMetaV1ObjectMeta.schema);
  opt "spec" "spec" (Model IoK8sApiCoreV1LimitRangeSpec.schema)].
Definition to_dict `{Pydantic} : value → outcome value := to_dict_with schema [
  Dump "metadata" "metadata" IoK8sApimachineryPkgApisMetaV1ObjectMeta.to_dict;
  Dump "spec" "spec" IoK8sApiCoreV1LimitRangeSpec.to_dict].
Definition from_dict `{Pydantic} : value → outcome value := from_dict_with schema [
  Get "apiVersion";
  Get "kind";
  FromDict "metadata" IoK8sApimachineryPkgApisMetaV1ObjectMeta.from_dict;
  FromDict "spec" IoK8sApiCoreV1LimitRangeSpec.from_dict].
Definition to_json `{Pydantic} : value → outcome string := to_json_with to_dict.
Definition from_json `{Pydantic} : string → outcome value := from_json_with from_dict.
Definition to_str `{Pydantic} : value → outcome string := to_str_with schema.
End IoK8sApiCoreV1LimitRange.
#[export] Instance IoK8sApiCoreV1LimitRange_templated `{PydanticLaws} :
  Templated IoK8sApiCoreV1LimitRange.schema IoK8sApiCoreV1LimitRange.to_dict
    IoK8sApiCoreV1LimitRange.from_dict.
Proof. solve_model. Qed.

Module IoK8sApiCoreV1LimitRangeList.
Definition schema `{Pydantic} : Schema := model "IoK8sApiCoreV1LimitRangeList" [
  opt "api_version" "apiVersion" StrictStr;
  req "items" "items" (List (Model IoK8sApiCoreV1LimitRange.schema));
  opt "kind" "kind" StrictStr;
  opt "metadata" "metadata" (Model IoK8sApimachineryPkgApisMetaV1ListMeta.schema)].
Definition to_dict `{Pydantic} : value → outcome value := to_dict_with schema [
  DumpItems "items" "items" IoK8sApiCoreV1LimitRange.to_dict;
  Dump "metadata" "metadata" IoK8sApimachineryPkgApisMetaV1ListMeta.to_dict].
Definition from_dict `{Pydantic} : value → outcome value := from_dict_with schema [
  Get "apiVersion";
  FromDictItems "items" IoK8sApiCoreV1LimitRange.from_dict;
  Get "kind";
  FromDict "metadata" IoK8sApimachineryPkgApisMetaV1ListMeta.from_dict].
Definition to_json `{Pydantic} : value → outcome string := to_json_with to_dict.
Definition from_json `{Pydantic} : string → outcome value := from_json_with from_dict.
Definition to_str `{Pydantic} : value → outcome string := to_str_with schema.
End IoK8sApiCoreV1LimitRangeList.
#[export] Instance IoK8sApiCoreV1LimitRangeList_templated `{PydanticLaws} :
  Templated IoK8sApiCoreV1LimitRangeList.schema IoK8sApiCoreV1LimitRangeList.to_dict
    IoK8sApiCoreV1LimitRangeList.from_dict.
Proof. solve_model. Qed.

Module IoK8sApiCoreV1List.
Definition schema `{Pydantic} : Schema := model "IoK8sApiCoreV1List" [
  opt "api_version" "apiVersion" StrictStr;
  req "items" "items" (List (Dict AnyValue));
  opt "kind" "kind" StrictStr;
  opt "metadata" "metadata" (Model IoK8sApimachineryPkgApisMetaV1ListMeta.schema)].
Definition to_dict `{Pydantic} : value → outcome value := to_dict_with schema [
  Dump "metadata" "metadata" IoK8sApimachineryPkgApisMetaV1ListMeta.to_dict].
Definition from_dict `{Pydantic} : value → outcome value := from_dict_with schema [
  Get "apiVersion";
  Get "items";
  Get "kind";
  FromDict "metadata" IoK8sApimachineryPkgApisMetaV1ListMeta.from_dict].
Definition to_json `{Pydantic} : value → outcome string := to_json_with to_dict.
Definition from_json `{Pydantic} : string → outcome value := from_json_with from_dict.
Definition to_str `{Pydantic} : value → outcome string := to_str_with schema.
End IoK8sApiCoreV1List.
#[export] Instance IoK8sApiCoreV1List_templated `{PydanticLaws} :
  Templated IoK8sApiCoreV1List.schema IoK8sApiCoreV1List.to_dict IoK8sApiCoreV1List.from_dict.
Proof. solve_model. Qed.

Module IoK8sApiCoreV1PortStatus.
Definition schema `{Pydantic} : Schema := model "IoK8sApiCoreV1PortStatus" [
  opt "error" "error" StrictStr;
  req "port" "port" StrictInt;
  checked (req "protocol" "protocol" StrictStr)
    (one_of ["SCTP"; "TCP"; "UDP"])].
Definition to_dict `{Pydantic} : value → outcome value := to_dict_with schema [].
Definition from_dict `{Pydantic} : value → outcome value := from_dict_with schema [
  Get "error";
  GetOr "port" (VInt 0);
  Get "protocol"].
Definition to_json `{Pydantic} : value → outcome string := to_json_with to_dict.
Definition from_json `{Pydantic} : string → outcome value := from_json_with from_dict.
Definition to_str `{Pydantic} : value → outcome string := to_str_with schema.
End IoK8sApiCoreV1PortStatus.
#[export] Instance IoK8sApiCoreV1PortStatus_templated `{PydanticLaws} :
  Templated IoK8sApiCoreV1PortStatus.schema IoK8sApiCoreV1PortStatus.to_dict
    IoK8sApiCoreV1PortStatus.from_dict.
Proof. solve_model. Qed.

Module IoK8sApiCoreV1LoadBalancerIngress.
Definition schema `{Pydantic} : Schema := model "IoK8sApiCoreV1LoadBalancerIngress" [
  opt "hostname" "hostname" StrictStr;
  opt "ip" "ip" StrictStr;
  opt "ip_mode" "ipMode" StrictStr;
  opt "ports" "ports" (List (Model IoK8sApiCoreV1PortStatus.schema))].
Definition to_dict `{Pydantic} : value → outcome value := to_dict_with schema [
  DumpItems "ports" "ports" IoK8sApiCoreV1PortStatus.to_dict].
Definition from_dict `{Pydantic} : value → outcome value := from_dict_with schema [
  Get "hostname";
  Get "ip";
  Get "ipMode";
  FromDictItems "ports" IoK8sApiCoreV1PortStatus.from_dict].
Definition to_json `{Pydantic} : value → outcome string := to_json_with to_dict.
Definition from_json `{Pydantic} : string → outcome value := from_json_with from_dict.
Definition to_str `{Pydantic} : value → outcome string := to_str_with schema.
End IoK8sApiCoreV1LoadBalancerIngress.
#[export] Instance IoK8sApiCoreV1LoadBalancerIngress_templated `{PydanticLaws} :
  Templated IoK8sApiCoreV1LoadBalancerIngress.schema IoK8sApiCoreV1LoadBalancerIngress.to_dict
    IoK8sApiCoreV1LoadBalancerIngress.from_dict.
Proof. solve_model. Qed.

Module IoK8sApiCoreV1LoadBalancerStatus.
Definition schema `{Pydantic} : Schema := model "IoK8sApiCoreV1LoadBalancerStatus" [
  opt "ingress" "ingress" (List (Model IoK8sApiCoreV1LoadBalancerIngress.schema))].
Definition to_dict `{Pydantic} : value → outcome value := to_dict_with schema [
  DumpItems "ingress" "ingress" IoK8sApiCoreV1LoadBalancerIngress.to_dict].
Definition from_dict `{Pydantic} : value → outcome value := from_dict_with schema [
  FromDictItems "ingress" IoK8sApiCoreV1LoadBalancerIngress.from_dict].
Definition to_json `{Pydantic} : value → outcome string := to_json_with to_dict.
Definition from_json `{Pydantic} : string → outcome value := from_json_with from_dict.
Definition to_str `{Pydantic} : value → outcome string := to_str_with schema.
End IoK8sApiCoreV1LoadBalancerStatus.
#[export] Instance IoK8sApiCoreV1LoadBalancerStatus_templated `{PydanticLaws} :
  Templated IoK8sApiCoreV1LoadBalancerStatus.schema IoK8sApiCoreV1LoadBalancerStatus.to_dict
    IoK8sApiCoreV1LoadBalancerStatus.from_dict.
Proof. solve_model. Qed.

Module IoK8sApiCoreV1LocalVolumeSource.
Definition schema `{Pydantic} : Schema := model "IoK8sApiCoreV1LocalVolumeSource" [
  opt "fs_type" "fsType" StrictStr;
  req "path" "path" StrictStr].
Definition to_dict `{Pydantic} : value → outcome value := to_dict_with schema [].
Definition from_dict `{Pydantic} : value → outcome value := from_dict_with schema [
  Get "fsType";
  GetOr "path" (VStr "")].
Definition to_json `{Pydantic} : value → outcome string := to_json_with to_dict.
Definition from_json `{Pydantic} : string → outcome value := from_json_with from_dict.
Definition to_str `{Pydantic} : value → outcome string := to_str_with schema.
End IoK8sApiCoreV1LocalVolumeSource.
#[export] Instance IoK8sApiCoreV1LocalVolumeSource_templated `{PydanticLaws} :
  Templated IoK8sApiCoreV1LocalVolumeSource.schema IoK8sApiCoreV1LocalVolumeSource.to_dict
    IoK8sApiCoreV1LocalVolumeSource.from_dict.
Proof. solve_model. Qed.

Module IoK8sApiCoreV1NamespaceSpec.
Definition schema `{Pydantic} : Schema := model "IoK8sApiCoreV1NamespaceSpec" [
  opt "finalizers" "finalizers" (List StrictStr)].
Definition to_dict `{Pydantic} : value → outcome value := to_dict_with schema [].
Definition from_dict `{Pydantic} : value → outcome value := from_dict_with schema [
  Get "finalizers"].
Definition to_json `{Pydantic} : value → outcome string := to_json_with to_dict.
Definition from_json `{Pydantic} : string → outcome value := from_json_with from_dict.
Definition to_str `{Pydantic} : value → outcome string := to_str_with schema.
End IoK8sApiCoreV1NamespaceSpec.
#[export] Instance IoK8sApiCoreV1NamespaceSpec_templated `{PydanticLaws} :
  Templated IoK8sApiCoreV1NamespaceSpec.schema IoK8sApiCoreV1NamespaceSpec.to_dict
    IoK8sApiCoreV1NamespaceSpec.from_dict.
Proof. solve_model. Qed.

Module IoK8sApiCoreV1NamespaceCondition.
Definition schema `{Pydantic} : Schema := model "IoK8sApiCoreV1NamespaceCondition" [
  opt "last_transition_time" "lastTransitionTime" Datetime;
  opt "message" "message" StrictStr;
  opt "reason" "reason" StrictStr;
  req "status" "status" StrictStr;
  req "type" "type" StrictStr].
Definition to_dict `{Pydantic} : value → outcome value := to_dict_with schema [].
Definition from_dict `{Pydantic} : value → outcome value := from_dict_with schema [
  Get "lastTransitionTime";
  Get "message";
  Get "reason";
  GetOr "status" (VStr "");
  GetOr "type" (VStr "")].
Definition to_json `{Pydantic} : value → outcome string := to_json_with to_dict.
Definition from_json `{Pydantic} : string → outcome value := from_json_with from_dict.
Definition to_str `{Pydantic} : value → outcome string := to_str_with schema.
End IoK8sApiCoreV1NamespaceCondition.
#[export] Instance IoK8sApiCoreV1NamespaceCondition_templated `{PydanticLaws} :
  Templated IoK8sApiCoreV1NamespaceCondition.schema IoK8sApiCoreV1NamespaceCondition.to_dict
    IoK8sApiCoreV1NamespaceCondition.from_dict.
Proof. solve_model. Qed.

Module IoK8sApiCoreV1NamespaceStatus.
Definition schema `{Pydantic} : Schema := model "IoK8sApiCoreV1NamespaceStatus" [
  opt "conditions" "conditions" (List (Model IoK8sApiCoreV1NamespaceCondition.schema));
  checked (opt "phase" "phase" StrictStr)
    (none_or_one_of ["Active"; "Terminating"])].
Definition to_dict `{Pydantic} : value → outcome value := to_dict_with schema [
  DumpItems "conditions" "conditions" IoK8sApiCoreV1NamespaceCondition.to_dict].
Definition from_dict `{Pydantic} : value → outcome value := from_dict_with schema [
  FromDictItems "conditions" IoK8sApiCoreV1NamespaceCondition.from_dict;
  Get "phase"].
Definition to_json `{Pydantic} : value → outcome string := to_json_with to_dict.
Definition from_json `{Pydantic} : string → outcome value := from_json_with from_dict.
Definition to_str `{Pydantic} : value → outcome string := to_str_with schema.
End IoK8sApiCoreV1NamespaceStatus.
#[export] Instance IoK8sApiCoreV1NamespaceStatus_templated `{PydanticLaws} :
  Templated IoK8sApiCoreV1NamespaceStatus.schema IoK8sApiCoreV1NamespaceStatus.to_dict
    IoK8sApiCoreV1NamespaceStatus.from_dict.
Proof. solve_model. Qed.

Module IoK8sApiCoreV1Namespace.
Definition schema `{Pydantic} : Schema := model "IoK8sApiCoreV1Namespace" [
  opt "api_version" "apiVersion" StrictStr;
  opt "kind" "kind" StrictStr;
  opt "metadata" "metadata" (Model IoK8sApimachineryPkgApisMetaV1ObjectMeta.schema);
  opt "spec" "spec" (Model IoK8sApiCoreV1NamespaceSpec.schema);
  opt "status" "status" (Model IoK8sApiCoreV1NamespaceStatus.schema)].
Definition to_dict `{Pydantic} : value → outcome value := to_dict_with schema [
  Dump "metadata" "metadata" IoK8sApimachineryPkgApisMetaV1ObjectMeta.to_dict;
  Dump "spec" "spec" IoK8sApiCoreV1NamespaceSpec.to_dict;
  Dump "status" "status" IoK8sApiCoreV1NamespaceStatus.to_dict].
Definition from_dict `{Pydantic} : value → outcome value := from_dict_with schema [
  Get "apiVersion";
  Get "kind";
  FromDict "metadata" IoK8sApimachineryPkgApisMetaV1ObjectMeta.from_dict;
  FromDict "spec" IoK8sApiCoreV1NamespaceSpec.from_dict;
  FromDict "status" IoK8sApiCoreV1NamespaceStatus.from_dict].
Definition to_json `{Pydantic} : value → outcome string := to_json_with to_dict.
Definition from_json `{Pydantic} : string → outcome value := from_json_with from_dict.
Definition to_str `{Pydantic} : value → outcome string := to_str_with schema.
End IoK8sApiCoreV1Namespace.
#[export] Instance IoK8sApiCoreV1Namespace_templated `{PydanticLaws} :
  Templated IoK8sApiCoreV1Namespace.schema IoK8sApiCoreV1Namespace.to_dict
    IoK8sApiCoreV1Namespace.from_dict.
Proof. solve_model. Qed.

Module IoK8sApiCoreV1NamespaceList.
Definition schema `{Pydantic} : Schema := model "IoK8sApiCoreV1NamespaceList" [
  opt "api_version" "apiVersion" StrictStr;
  req "items" "items" (List (Model IoK8sApiCoreV1Namespace.schema));
  opt "kind" "kind" StrictStr;
  opt "metadata" "metadata" (Model IoK8sApimachineryPkgApisMetaV1ListMeta.schema)].
Definition to_dict `{Pydantic} : value → outcome value := to_dict_with schema [
  DumpItems "items" "items" IoK8sApiCoreV1Namespace.to_dict;
  Dump "metadata" "metadata" IoK8sApimachineryPkgApisMetaV1ListMeta.to_dict].
Definition from_dict `{Pydantic} : value → outcome value := from_dict_with schema [
  Get "apiVersion";
  FromDictItems "items" IoK8sApiCoreV1Namespace.from_dict;
  Get "kind";
  FromDict "metadata" IoK8sApimachineryPkgApisMetaV1ListMeta.from_dict].
Definition to_json `{Pydantic} : value → outcome string := to_json_with to_dict.
Definition from_json `{Pydantic} : string → outcome value := from_json_with from_dict.
Definition to_str `{Pydantic} : value → outcome string := to_str_with schema.
End IoK8sApiCoreV1NamespaceList.
#[export] Instance IoK8sApiCoreV1NamespaceList_templated `{PydanticLaws} :
  Templated IoK8sApiCoreV1NamespaceList.schema IoK8sApiCoreV1NamespaceList.to_dict
    IoK8sApiCoreV1NamespaceList.from_dict.
Proof. solve_model. Qed.

Module IoK8sApiCoreV1NodeConfigSource.
Definition schema `{Pydantic} : Schema := model "IoK8sApiCoreV1NodeConfigSource" [
  opt "config_map" "configMap" (Model IoK8sApiCoreV1ConfigMapNodeConfigSource.schema)].
Definition to_dict `{Pydantic} : value → outcome value := to_dict_with schema [
  Dump "config_map" "configMap" IoK8sApiCoreV1ConfigMapNodeConfigSource.to_dict].
Definition from_dict `{Pydantic} : value → outcome value := from_dict_with schema [
  FromDict "configMap" IoK8sApiCoreV1ConfigMapNodeConfigSource.from_dict].
Definition to_json `{Pydantic} : value → outcome string := to_json_with to_dict.
Definition from_json `{Pydantic} : string → outcome value := from_json_with from_dict.
Definition to_str `{Pydantic} : value → outcome string := to_str_with schema.
End IoK8sApiCoreV1NodeConfigSource.
#[export] Instance IoK8sApiCoreV1NodeConfigSource_templated `{PydanticLaws} :
  Templated IoK8sApiCoreV1NodeConfigSource.schema IoK8sApiCoreV1NodeConfigSource.to_dict
    IoK8sApiCoreV1NodeConfigSource.from_dict.
Proof. solve_model. Qed.

Module IoK8sApiCoreV1NodePodPreemptionPolicy.
Definition schema `{Pydantic} : Schema := model "IoK8sApiCoreV1NodePodPreemptionPolicy" [
  opt "disable_resize_preemption" "disableResizePreemption" (List StrictStr)].
Definition to_dict `{Pydantic} : value → outcome value := to_dict_with schema [].
Definition from_dict `{Pydantic} : value → outcome value := from_dict_with schema [
  Get "disableResizePreemption"].
Definition to_json `{Pydantic} : value → outcome string := to_json_with to_dict.
Definition from_json `{Pydantic} : string → outcome value := from_json_with from_dict.
Definition to_str `{Pydantic} : value → outcome string := to_str_with schema.
End IoK8sApiCoreV1NodePodPreemptionPolicy.
#[export] Instance IoK8sApiCoreV1NodePodPreemptionPolicy_templated `{PydanticLaws} :
  Templated IoK8sApiCoreV1NodePodPreemptionPolicy.schema
    IoK8sApiCoreV1NodePodPreemptionPolicy.to_dict IoK8sApiCoreV1NodePodPreemptionPolicy.from_dict.
Proof. solve_model. Qed.

Module IoK8sApiCoreV1Taint.
Definition schema `{Pydantic} : Schema := model "IoK8sApiCoreV1Taint" [
  checked (req "effect" "effect" StrictStr)
    (one_of ["NoExecute"; "NoSchedule"; "PreferNoSchedule"]);
  req "key" "key" StrictStr;
  opt "time_added" "timeAdded" Datetime;
  opt "value" "value" StrictStr].
Definition to_dict `{Pydantic} : value → outcome value := to_dict_with schema [].
Definition from_dict `{Pydantic} : value → outcome value := from_dict_with schema [
  Get "effect";
  GetOr "key" (VStr "");
  Get "timeAdded";
  Get "value"].
Definition to_json `{Pydantic} : value → outcome string := to_json_with to_dict.
Definition from_json `{Pydantic} : string → outcome value := from_json_with from_dict.
Definition to_str `{Pydantic} : value → outcome string := to_str_with schema.
End IoK8sApiCoreV1Taint.
#[export] Instance IoK8sApiCoreV1Taint_templated `{PydanticLaws} :
  Templated IoK8sApiCoreV1Taint.schema IoK8sApiCoreV1Taint.to_dict IoK8sApiCoreV1Taint.from_dict.
Proof. solve_model. Qed.

Module IoK8sApiCoreV1NodeSpec.
Definition schema `{Pydantic} : Schema := model "IoK8sApiCoreV1NodeSpec" [
  opt "config_source" "configSource" (Model IoK8sApiCoreV1NodeConfigSource.schema);
  opt "external_id" "externalID" StrictStr;
  opt "pod_cidr" "podCIDR" StrictStr;
  opt "pod_cidrs" "podCIDRs" (List StrictStr);
  opt "pod_preemption_policy" "podPreemptionPolicy"
    (Model IoK8sApiCoreV1NodePodPreemptionPolicy.schema);
  opt "provider_id" "providerID" StrictStr;
  opt "taints" "taints" (List (Model IoK8sApiCoreV1Taint.schema));
  opt "unschedulable" "unschedulable" StrictBool].
Definition to_dict `{Pydantic} : value → outcome value := to_dict_with schema [
  Dump "config_source" "configSource" IoK8sApiCoreV1NodeConfigSource.to_dict;
  Dump "pod_preemption_policy" "podPreemptionPolicy" IoK8sApiCoreV1NodePodPreemptionPolicy.to_dict;
  DumpItems "taints" "taints" IoK8sApiCoreV1Taint.to_dict].
Definition from_dict `{Pydantic} : value → outcome value := from_dict_with schema [
  FromDict "configSource" IoK8sApiCoreV1NodeConfigSource.from_dict;
  Get "externalID";
  Get "podCIDR";
  Get "podCIDRs";
  FromDict "podPreemptionPolicy" IoK8sApiCoreV1NodePodPreemptionPolicy.from_dict;
  Get "providerID";
  FromDictItems "taints" IoK8sApiCoreV1Taint.from_dict;
  Get "unschedulable"].
Definition to_json `{Pydantic} : value → outcome string := to_json_with to_dict.
Definition from_json `{Pydantic} : string → outcome value := from_json_with from_dict.
Definition to_str `{Pydantic} : value → outcome string := to_str_with schema.
End IoK8sApiCoreV1NodeSpec.
#[export] Instance IoK8sApiCoreV1NodeSpec_templated `{PydanticLaws} :
  Templated IoK8sApiCoreV1NodeSpec.schema IoK8sApiCoreV1NodeSpec.to_dict
    IoK8sApiCoreV1NodeSpec.from_dict.
Proof. solve_model. Qed.

Module IoK8sApiCoreV1NodeAddress.
Definition schema `{Pydantic} : Schema := model "IoK8sApiCoreV1NodeAddress" [
  req "address" "address" StrictStr;
  req "type" "type" StrictStr].
Definition to_dict `{Pydantic} : value → outcome value := to_dict_with schema [].
Definition from_dict `{Pydantic} : value → outcome value := from_dict_with schema [
  GetOr "address" (VStr "");
  GetOr "type" (VStr "")].
Definition to_json `{Pydantic} : value → outcome string := to_json_with to_dict.
Definition from_json `{Pydantic} : string → outcome value := from_json_with from_dict.
Definition to_str `{Pydantic} : value → outcome string := to_str_with schema.
End IoK8sApiCoreV1NodeAddress.
#[export] Instance IoK8sApiCoreV1NodeAddress_templated `{PydanticLaws} :
  Templated IoK8sApiCoreV1NodeAddress.schema IoK8sApiCoreV1NodeAddress.to_dict
    IoK8sApiCoreV1NodeAddress.from_dict.
Proof. solve_model. Qed.

Module IoK8sApiCoreV1NodeCondition.
Definition schema `{Pydantic} : Schema := model "IoK8sApiCoreV1NodeCondition" [
  opt "last_heartbeat_time" "lastHeartbeatTime" Datetime;
  opt "last_transition_time" "lastTransitionTime" Datetime;
  opt "message" "message" StrictStr;
  opt "reason" "reason" StrictStr;
  req "status" "status" StrictStr;
  req "type" "type" StrictStr].
Definition to_dict `{Pydantic} : value → outcome value := to_dict_with schema [].
Definition from_dict `{Pydantic} : value → outcome value := from_dict_with schema [
  Get "lastHeartbeatTime";
  Get "lastTransitionTime";
  Get "message";
  Get "reason";
  GetOr "status" (VStr "");
  GetOr "type" (VStr "")].
Definition to_json `{Pydantic} : value → outcome string := to_json_with to_dict.
Definition from_json `{Pydantic} : string → outcome value := from_json_with from_dict.
Definition to_str `{Pydantic} : value → outcome string := to_str_with schema.
End IoK8sApiCoreV1NodeCondition.
#[export] Instance IoK8sApiCoreV1NodeCondition_templated `{PydanticLaws} :
  Templated IoK8sApiCoreV1NodeCondition.schema IoK8sApiCoreV1NodeCondition.to_dict
    IoK8sApiCoreV1NodeCondition.from_dict.
Proof. solve_model. Qed.

Module IoK8sApiCoreV1NodeConfigStatus.
Definition schema `{Pydantic} : Schema := model "IoK8sApiCoreV1NodeConfigStatus" [
  opt "active" "active" (Model IoK8sApiCoreV1NodeConfigSource.schema);
  opt "assigned" "assigned" (Model IoK8sApiCoreV1NodeConfigSource.schema);
  opt "error" "error" StrictStr;
  opt "last_known_good" "lastKnownGood" (Model IoK8sApiCoreV1NodeConfigSource.schema)].
Definition to_dict `{Pydantic} : value → outcome value := to_dict_with schema [
  Dump "active" "active" IoK8sApiCoreV1NodeConfigSource.to_dict;
  Dump "assigned" "assigned" IoK8sApiCoreV1NodeConfigSource.to_dict;
  Dump "last_known_good" "lastKnownGood" IoK8sApiCoreV1NodeConfigSource.to_dict].
Definition from_dict `{Pydantic} : value → outcome value := from_dict_with schema [
  FromDict "active" IoK8sApiCoreV1NodeConfigSource.from_dict;
  FromDict "assigned" IoK8sApiCoreV1NodeConfigSource.from_dict;
  Get "error";
  FromDict "lastKnownGood" IoK8sApiCoreV1NodeConfigSource.from_dict].
Definition to_json `{Pydantic} : value → outcome string := to_json_with to_dict.
Definition from_json `{Pydantic} : string → outcome value := from_json_with from_dict.
Definition to_str `{Pydantic} : value → outcome string := to_str_with schema.
End IoK8sApiCoreV1NodeConfigStatus.
#[export] Instance IoK8sApiCoreV1NodeConfigStatus_templated `{PydanticLaws} :
  Templated IoK8sApiCoreV1NodeConfigStatus.schema IoK8sApiCoreV1NodeConfigStatus.to_dict
    IoK8sApiCoreV1NodeConfigStatus.from_dict.
Proof. solve_model. Qed.

Module IoK8sApiCoreV1NodeDaemonEndpoints.
Definition schema `{Pydantic} : Schema := model "IoK8sApiCoreV1NodeDaemonEndpoints" [
  opt "kubelet_endpoint" "kubeletEndpoint" (Model IoK8sApiCoreV1DaemonEndpoint.schema)].
Definition to_dict `{Pydantic} : value → outcome value := to_dict_with schema [
  Dump "kubelet_endpoint" "kubeletEndpoint" IoK8sApiCoreV1DaemonEndpoint.to_dict].
Definition from_dict `{Pydantic} : value → outcome value := from_dict_with schema [
  FromDict "kubeletEndpoint" IoK8sApiCoreV1DaemonEndpoint.from_dict].
Definition to_json `{Pydantic} : value → outcome string := to_json_with to_dict.
Definition from_json `{Pydantic} : string → outcome value := from_json_with from_dict.
Definition to_str `{Pydantic} : value → outcome string := to_str_with schema.
End IoK8sApiCoreV1NodeDaemonEndpoints.
#[export] Instance IoK8sApiCoreV1NodeDaemonEndpoints_templated `{PydanticLaws} :
  Templated IoK8sApiCoreV1NodeDaemonEndpoints.schema IoK8sApiCoreV1NodeDaemonEndpoints.to_dict
    IoK8sApiCoreV1NodeDaemonEndpoints.from_dict.
Proof. solve_model. Qed.

Module IoK8sApiCoreV1NodeFeatures.
Definition schema `{Pydantic} : Schema := model "IoK8sApiCoreV1NodeFeatures" [
  opt "supplemental_groups_policy" "supplementalGroupsPolicy" StrictBool].
Definition to_dict `{Pydantic} : value → outcome value := to_dict_with schema [].
Definition from_dict `{Pydantic} : value → outcome value := from_dict_with schema [
  Get "supplementalGroupsPolicy"].
Definition to_json `{Pydantic} : value → outcome string := to_json_with to_dict.
Definition from_json `{Pydantic} : string → outcome value := from_json_with from_dict.
Definition to_str `{Pydantic} : value → outcome string := to_str_with schema.
End IoK8sApiCoreV1NodeFeatures.
#[export] Instance IoK8sApiCoreV1NodeFeatures_templated `{PydanticLaws} :
  Templated IoK8sApiCoreV1NodeFeatures.schema IoK8sApiCoreV1NodeFeatures.to_dict
    IoK8sApiCoreV1NodeFeatures.from_dict.
Proof. solve_model. Qed.

Module IoK8sApiCoreV1NodeSwapStatus.
Definition schema `{Pydantic} : Schema := model "IoK8sApiCoreV1NodeSwapStatus" [
  opt "capacity" "capacity" StrictInt].
Definition to_dict `{Pydantic} : value → outcome value := to_dict_with schema [].
Definition from_dict `{Pydantic} : value → outcome value := from_dict_with schema [
  Get "capacity"].
Definition to_json `{Pydantic} : value → outcome string := to_json_with to_dict.
Definition from_json `{Pydantic} : string → outcome value := from_json_with from_dict.
Definition to_str `{Pydantic} : value → outcome string := to_str_with schema.
End IoK8sApiCoreV1NodeSwapStatus.
#[export] Instance IoK8sApiCoreV1NodeSwapStatus_templated `{PydanticLaws} :
  Templated IoK8sApiCoreV1NodeSwapStatus.schema IoK8sApiCoreV1NodeSwapStatus.to_dict
    IoK8sApiCoreV1NodeSwapStatus.from_dict.
Proof. solve_model. Qed.

Module IoK8sApiCoreV1NodeSystemInfo.
Definition schema `{Pydantic} : Schema := model "IoK8sApiCoreV1NodeSystemInfo" [
  req "architecture" "architecture" StrictStr;
  req "boot_id" "bootID" StrictStr;
  req "container_runtime_version" "containerRuntimeVersion" StrictStr;
  req "kernel_version" "kernelVersion" StrictStr;
  req "kube_proxy_version" "kubeProxyVersion" StrictStr;
  req "kubelet_version" "kubeletVersion" StrictStr;
  req "machine_id" "machineID" StrictStr;
  req "operating_system" "operatingSystem" StrictStr;
  req "os_image" "osImage" StrictStr;
  opt "running_in_user_namespace" "runningInUserNamespace" StrictBool;
  opt "swap" "swap" (Model IoK8sApiCoreV1NodeSwapStatus.schema);
  req "system_uuid" "systemUUID" StrictStr].
Definition to_dict `{Pydantic} : value → outcome value := to_dict_with schema [
  Dump "swap" "swap" IoK8sApiCoreV1NodeSwapStatus.to_dict].
Definition from_dict `{Pydantic} : value → outcome value := from_dict_with schema [
  GetOr "architecture" (VStr "");
  GetOr "bootID" (VStr "");
  GetOr "containerRuntimeVersion" (VStr "");
  GetOr "kernelVersion" (VStr "");
  GetOr "kubeProxyVersion" (VStr "");
  GetOr "kubeletVersion" (VStr "");
  GetOr "machineID" (VStr "");
  GetOr "operatingSystem" (VStr "");
  GetOr "osImage" (VStr "");
  Get "runningInUserNamespace";
  FromDict "swap" IoK8sApiCoreV1NodeSwapStatus.from_dict;
  GetOr "systemUUID" (VStr "")].
Definition to_json `{Pydantic} : value → outcome string := to_json_with to_dict.
Definition from_json `{Pydantic} : string → outcome value := from_json_with from_dict.
Definition to_str `{Pydantic} : value → outcome string := to_str_with schema.
End IoK8sApiCoreV1NodeSystemInfo.
#[export] Instance IoK8sApiCoreV1NodeSystemInfo_templated `{PydanticLaws} :
  Templated IoK8sApiCoreV1NodeSystemInfo.schema IoK8sApiCoreV1NodeSystemInfo.to_dict
    IoK8sApiCoreV1NodeSystemInfo.from_dict.
Proof. solve_model. Qed.

Module IoK8sApiCoreV1NodeRuntimeHandlerFeatures.
Definition schema `{Pydantic} : Schema := model "IoK8sApiCoreV1NodeRuntimeHandlerFeatures" [
  opt "recursive_read_only_mounts" "recursiveReadOnlyMounts" StrictBool;
  opt "user_namespaces" "userNamespaces" StrictBool].
Definition to_dict `{Pydantic} : value → outcome value := to_dict_with schema [].
Definition from_dict `{Pydantic} : value → outcome value := from_dict_with schema [
  Get "recursiveReadOnlyMounts";
  Get "userNamespaces"].
Definition to_json `{Pydantic} : value → outcome string := to_json_with to_dict.
Definition from_json `{Pydantic} : string → outcome value := from_json_with from_dict.
Definition to_str `{Pydantic} : value → outcome string := to_str_with schema.
End IoK8sApiCoreV1NodeRuntimeHandlerFeatures.
#[export] Instance IoK8sApiCoreV1NodeRuntimeHandlerFeatures_templated `{PydanticLaws} :
  Templated IoK8sApiCoreV1NodeRuntimeHandlerFeatures.schema
    IoK8sApiCoreV1NodeRuntimeHandlerFeatures.to_dict
      IoK8sApiCoreV1NodeRuntimeHandlerFeatures.from_dict.
Proof. solve_model. Qed.

Module IoK8sApiCoreV1NodeRuntimeHandler.
Definition schema `{Pydantic} : Schema := model "IoK8sApiCoreV1NodeRuntimeHandler" [
  opt "features" "features" (Model IoK8sApiCoreV1NodeRuntimeHandlerFeatures.schema);
  opt_or "name" "name" StrictStr (VStr "")].
Definition to_dict `{Pydantic} : value → outcome value := to_dict_with schema [
  Dump "features" "features" IoK8sApiCoreV1NodeRuntimeHandlerFeatures.to_dict].
Definition from_dict `{Pydantic} : value → outcome value := from_dict_with schema [
  FromDict "features" IoK8sApiCoreV1NodeRuntimeHandlerFeatures.from_dict;
  GetOr "name" (VStr "")].
Definition to_json `{Pydantic} : value → outcome string := to_json_with to_dict.
Definition from_json `{Pydantic} : string → outcome value := from_json_with from_dict.
Definition to_str `{Pydantic} : value → outcome string := to_str_with schema.
End IoK8sApiCoreV1NodeRuntimeHandler.
#[export] Instance IoK8sApiCoreV1NodeRuntimeHandler_templated `{PydanticLaws} :
  Templated IoK8sApiCoreV1NodeRuntimeHandler.schema IoK8sApiCoreV1NodeRuntimeHandler.to_dict
    IoK8sApiCoreV1NodeRuntimeHandler.from_dict.
Proof. solve_model. Qed.

Module IoK8sApiCoreV1NodeStatus.
Definition schema `{Pydantic} : Schema := model "IoK8sApiCoreV1NodeStatus" [
  opt "addresses" "addresses" (List (Model IoK8sApiCoreV1NodeAddress.schema));
  opt "allocatable" "allocatable" (Dict (Model IoK8sApimachineryPkgApiResourceQuantity.schema));
  opt "capacity" "capacity" (Dict (Model IoK8sApimachineryPkgApiResourceQuantity.schema));
  opt "conditions" "conditions" (List (Model IoK8sApiCoreV1NodeCondition.schema));
  opt "config" "config" (Model IoK8sApiCoreV1NodeConfigStatus.schema);
  opt "daemon_endpoints" "daemonEndpoints" (Model IoK8sApiCoreV1NodeDaemonEndpoints.schema);
  opt "declared_features" "declaredFeatures" (List StrictStr);
  opt "features" "features" (Model IoK8sApiCoreV1NodeFeatures.schema);
  opt "images" "images" (List (Model IoK8sApiCoreV1ContainerImage.schema));
  opt "node_info" "nodeInfo" (Model IoK8sApiCoreV1NodeSystemInfo.schema);
  checked (opt "phase" "phase" StrictStr)
    (none_or_one_of ["Pending"; "Running"; "Terminated"]);
  opt "runtime_handlers" "runtimeHandlers" (List (Model IoK8sApiCoreV1NodeRuntimeHandler.schema));
  opt "volumes_attached" "volumesAttached" (List (Model IoK8sApiCoreV1AttachedVolume.schema));
  opt "volumes_in_use" "volumesInUse" (List StrictStr)].
Definition to_dict `{Pydantic} : value → outcome value := to_dict_with schema [
  DumpItems "addresses" "addresses" IoK8sApiCoreV1NodeAddress.to_dict;
  DumpValues "allocatable" "allocatable" IoK8sApimachineryPkgApiResourceQuantity.to_dict;
  DumpValues "capacity" "capacity" IoK8sApimachineryPkgApiResourceQuantity.to_dict;
  DumpItems "conditions" "conditions" IoK8sApiCoreV1NodeCondition.to_dict;
  Dump "config" "config" IoK8sApiCoreV1NodeConfigStatus.to_dict;
  Dump "daemon_endpoints" "daemonEndpoints" IoK8sApiCoreV1NodeDaemonEndpoints.to_dict;
  Dump "features" "features" IoK8sApiCoreV1NodeFeatures.to_dict;
  DumpItems "images" "images" IoK8sApiCoreV1ContainerImage.to_dict;
  Dump "node_info" "nodeInfo" IoK8sApiCoreV1NodeSystemInfo.to_dict;
  DumpItems "runtime_handlers" "runtimeHandlers" IoK8sApiCoreV1NodeRuntimeHandler.to_dict;
  DumpItems "volumes_attached" "volumesAttached" IoK8sApiCoreV1AttachedVolume.to_dict].
Definition from_dict `{Pydantic} : value → outcome value := from_dict_with schema [
  FromDictItems "addresses" IoK8sApiCoreV1NodeAddress.from_dict;
  FromDictValues "allocatable" IoK8sApimachineryPkgApiResourceQuantity.from_dict;
  FromDictValues "capacity" IoK8sApimachineryPkgApiResourceQuantity.from_dict;
  FromDictItems "conditions" IoK8sApiCoreV1NodeCondition.from_dict;
  FromDict "config" IoK8sApiCoreV1NodeConfigStatus.from_dict;
  FromDict "daemonEndpoints" IoK8sApiCoreV1NodeDaemonEndpoints.from_dict;
  Get "declaredFeatures";
  FromDict "features" IoK8sApiCoreV1NodeFeatures.from_dict;
  FromDictItems "images" IoK8sApiCoreV1ContainerImage.from_dict;
  FromDict "nodeInfo" IoK8sApiCoreV1NodeSystemInfo.from_dict;
  Get "phase";
  FromDictItems "runtimeHandlers" IoK8sApiCoreV1NodeRuntimeHandler.from_dict;
  FromDictItems "volumesAttached" IoK8sApiCoreV1AttachedVolume.from_dict;
  Get "volumesInUse"].
Definition to_json `{Pydantic} : value → outcome string := to_json_with to_dict.
Definition from_json `{Pydantic} : string → outcome value := from_json_with from_dict.
Definition to_str `{Pydantic} : value → outcome string := to_str_with schema.
End IoK8sApiCoreV1NodeStatus.
#[export] Instance IoK8sApiCoreV1NodeStatus_templated `{PydanticLaws} :
  Templated IoK8sApiCoreV1NodeStatus.schema IoK8sApiCoreV1NodeStatus.to_dict
    IoK8sApiCoreV1NodeStatus.from_dict.
Proof. solve_model. Qed.

Module IoK8sApiCoreV1Node.
Definition schema `{Pydantic} : Schema := model "IoK8sApiCoreV1Node" [
  opt "api_version" "apiVersion" StrictStr;
  opt "kind" "kind" StrictStr;
  opt "metadata" "metadata" (Model IoK8sApimachineryPkgApisMetaV1ObjectMeta.schema);
  opt "spec" "spec" (Model IoK8sApiCoreV1NodeSpec.schema);
  opt "status" "status" (Model IoK8sApiCoreV1NodeStatus.schema)].
Definition to_dict `{Pydantic} : value → outcome value := to_dict_with schema [
  Dump "metadata" "metadata" IoK8sApimachineryPkgApisMetaV1ObjectMeta.to_dict;
  Dump "spec" "spec" IoK8sApiCoreV1NodeSpec.to_dict;
  Dump "status" "status" IoK8sApiCoreV1NodeStatus.to_dict].
Definition from_dict `{Pydantic} : value → outcome value := from_dict_with schema [
  Get "apiVersion";
  Get "kind";
  FromDict "metadata" IoK8sApimachineryPkgApisMetaV1ObjectMeta.from_dict;
  FromDict "spec" IoK8sApiCoreV1NodeSpec.from_dict;
  FromDict "status" IoK8sApiCoreV1NodeStatus.from_dict].
Definition to_json `{Pydantic} : value → outcome string := to_json_with to_dict.
Definition from_json `{Pydantic} : string → outcome value := from_json_with from_dict.
Definition to_str `{Pydantic} : value → outcome string := to_str_with schema.
End IoK8sApiCoreV1Node.
#[export] Instance IoK8sApiCoreV1Node_templated `{PydanticLaws} :
  Templated IoK8sApiCoreV1Node.schema IoK8sApiCoreV1Node.to_dict IoK8sApiCoreV1Node.from_dict.
Proof. solve_model. Qed.

Module IoK8sApiCoreV1NodeAllocatableMappedResources.
Definition schema `{Pydantic} : Schema := model "IoK8sApiCoreV1NodeAllocatableMappedResources" [
  req "name" "name" StrictStr;
  req "quantity" "quantity" (Model IoK8sApimachineryPkgApiResourceQuantity.schema)].
Definition to_dict `{Pydantic} : value → outcome value := to_dict_with schema [
  Dump "quantity" "quantity" IoK8sApimachineryPkgApiResourceQuantity.to_dict].
Definition from_dict `{Pydantic} : value → outcome value := from_dict_with schema [
  GetOr "name" (VStr "");
  FromDict "quantity" IoK8sApimachineryPkgApiResourceQuantity.from_dict].
Definition to_json `{Pydantic} : value → outcome string := to_json_with to_dict.
Definition from_json `{Pydantic} : string → outcome value := from_json_with from_dict.
Definition to_str `{Pydantic} : value → outcome string := to_str_with schema.
End IoK8sApiCoreV1NodeAllocatableMappedResources.
#[export] Instance IoK8sApiCoreV1NodeAllocatableMappedResources_templated `{PydanticLaws} :
  Templated IoK8sApiCoreV1NodeAllocatableMappedResources.schema
    IoK8sApiCoreV1NodeAllocatableMappedResources.to_dict
      IoK8sApiCoreV1NodeAllocatableMappedResources.from_dict.
Proof. solve_model. Qed.

Module IoK8sApiCoreV1NodeAllocatableOverheadResources.
Definition schema `{Pydantic} : Schema := model "IoK8sApiCoreV1NodeAllocatableOverheadResources" [
  req "name" "name" StrictStr;
  opt "per_container" "perContainer" (Model IoK8sApimachineryPkgApiResourceQuantity.schema);
  opt "per_pod" "perPod" (Model IoK8sApimachineryPkgApiResourceQuantity.schema)].
Definition to_dict `{Pydantic} : value → outcome value := to_dict_with schema [
  Dump "per_container" "perContainer" IoK8sApimachineryPkgApiResourceQuantity.to_dict;
  Dump "per_pod" "perPod" IoK8sApimachineryPkgApiResourceQuantity.to_dict].
Definition from_dict `{Pydantic} : value → outcome value := from_dict_with schema [
  GetOr "name" (VStr "");
  FromDict "perContainer" IoK8sApimachineryPkgApiResourceQuantity.from_dict;
  FromDict "perPod" IoK8sApimachineryPkgApiResourceQuantity.from_dict].
Definition to_json `{Pydantic} : value → outcome string := to_json_with to_dict.
Definition from_json `{Pydantic} : string → outcome value := from_json_with from_dict.
Definition to_str `{Pydantic} : value → outcome string := to_str_with schema.
End IoK8sApiCoreV1NodeAllocatableOverheadResources.
#[export] Instance IoK8sApiCoreV1NodeAllocatableOverheadResources_templated `{PydanticLaws} :
  Templated IoK8sApiCoreV1NodeAllocatableOverheadResources.schema
    IoK8sApiCoreV1NodeAllocatableOverheadResources.to_dict
      IoK8sApiCoreV1NodeAllocatableOverheadResources.from_dict.
Proof. solve_model. Qed.

Module IoK8sApiCoreV1NodeAllocatableResourceClaimStatus.
Definition schema `{Pydantic} : Schema := model "IoK8sApiCoreV1NodeAllocatableResourceClaimStatus" [
  opt "containers" "containers" (List StrictStr);
  opt "mapping" "mapping" (List (Model IoK8sApiCoreV1NodeAllocatableMappedResources.schema));
  opt "overhead" "overhead" (List (Model IoK8sApiCoreV1NodeAllocatableOverheadResources.schema));
  req "resource_claim_name" "resourceClaimName" StrictStr].
Definition to_dict `{Pydantic} : value → outcome value := to_dict_with schema [
  DumpItems "mapping" "mapping" IoK8sApiCoreV1NodeAllocatableMappedResources.to_dict;
  DumpItems "overhead" "overhead" IoK8sApiCoreV1NodeAllocatableOverheadResources.to_dict].
Definition from_dict `{Pydantic} : value → outcome value := from_dict_with schema [
  Get "containers";
  FromDictItems "mapping" IoK8sApiCoreV1NodeAllocatableMappedResources.from_dict;
  FromDictItems "overhead" IoK8sApiCoreV1NodeAllocatableOverheadResources.from_dict;
  GetOr "resourceClaimName" (VStr "")].
Definition to_json `{Pydantic} : value → outcome string := to_json_with to_dict.
Definition from_json `{Pydantic} : string → outcome value := from_json_with from_dict.
Definition to_str `{Pydantic} : value → outcome string := to_str_with schema.
End IoK8sApiCoreV1NodeAllocatableResourceClaimStatus.
#[export] Instance IoK8sApiCoreV1NodeAllocatableResourceClaimStatus_templated `{PydanticLaws} :
  Templated IoK8sApiCoreV1NodeAllocatableResourceClaimStatus.schema
    IoK8sApiCoreV1NodeAllocatableResourceClaimStatus.to_dict
      IoK8sApiCoreV1NodeAllocatableResourceClaimStatus.from_dict.
Proof. solve_model. Qed.

Module IoK8sApiCoreV1NodeList.
Definition schema `{Pydantic} : Schema := model "IoK8sApiCoreV1NodeList" [
  opt "api_version" "apiVersion" StrictStr;
  req "items" "items" (List (Model IoK8sApiCoreV1Node.schema));
  opt "kind" "kind" StrictStr;
  opt "metadata" "metadata" (Model IoK8sApimachineryPkgApisMetaV1ListMeta.schema)].
Definition to_dict `{Pydantic} : value → outcome value := to_dict_with schema [
  DumpItems "items" "items" IoK8sApiCoreV1Node.to_dict;
  Dump "metadata" "metadata" IoK8sApimachineryPkgApisMetaV1ListMeta.to_dict].
Definition from_dict `{Pydantic} : value → outcome value := from_dict_with schema [
  Get "apiVersion";
  FromDictItems "items" IoK8sApiCoreV1Node.from_dict;
  Get "kind";
  FromDict "metadata" IoK8sApimachineryPkgApisMetaV1ListMeta.from_dict].
Definition to_json `{Pydantic} : value → outcome string := to_json_with to_dict.
Definition from_json `{Pydantic} : string → outcome value := from_json_with from_dict.
Definition to_str `{Pydantic} : value → outcome string := to_str_with schema.
End IoK8sApiCoreV1NodeList.
#[export] Instance IoK8sApiCoreV1NodeList_templated `{PydanticLaws} :
  Templated IoK8sApiCoreV1NodeList.schema IoK8sApiCoreV1NodeList.to_dict
    IoK8sApiCoreV1NodeList.from_dict.
Proof. solve_model. Qed.

Module IoK8sApiCoreV1NodeProxyOptions.
Definition schema `{Pydantic} : Schema := model "IoK8sApiCoreV1NodeProxyOptions" [
  opt "api_version" "apiVersion" StrictStr;
  opt "kind" "kind" StrictStr;
  opt "path" "path" StrictStr].
Definition to_dict `{Pydantic} : value → outcome value := to_dict_with schema [].
Definition from_dict `{Pydantic} : value → outcome value := from_dict_with schema [
  Get "apiVersion";
  Get "kind";
  Get "path"].
Definition to_json `{Pydantic} : value → outcome string := to_json_with to_dict.
Definition from_json `{Pydantic} : string → outcome value := from_json_with from_dict.
Definition to_str `{Pydantic} : value → outcome string := to_str_with schema.
End IoK8sApiCoreV1NodeProxyOptions.
#[export] Instance IoK8sApiCoreV1NodeProxyOptions_templated `{PydanticLaws} :
  Templated IoK8sApiCoreV1NodeProxyOptions.schema IoK8sApiCoreV1NodeProxyOptions.to_dict
    IoK8sApiCoreV1NodeProxyOptions.from_dict.
Proof. solve_model. Qed.

Module IoK8sApiCoreV1VolumeNodeAffinity.
Definition schema `{Pydantic} : Schema := model "IoK8sApiCoreV1VolumeNodeAffinity" [
  opt "required" "required" (Model IoK8sApiCoreV1NodeSelector.schema)].
Definition to_dict `{Pydantic} : value → outcome value := to_dict_with schema [
  Dump "required" "required" IoK8sApiCoreV1NodeSelector.to_dict].
Definition from_dict `{Pydantic} : value → outcome value := from_dict_with schema [
  FromDict "required" IoK8sApiCoreV1NodeSelector.from_dict].
Definition to_json `{Pydantic} : value → outcome string := to_json_with to_dict.
Definition from_json `{Pydantic} : string → outcome value := from_json_with from_dict.
Definition to_str `{Pydantic} : value → outcome string := to_str_with schema.
End IoK8sApiCoreV1VolumeNodeAffinity.
#[export] Instance IoK8sApiCoreV1VolumeNodeAffinity_templated `{PydanticLaws} :
  Templated IoK8sApiCoreV1VolumeNodeAffinity.schema IoK8sApiCoreV1VolumeNodeAffinity.to_dict
    IoK8sApiCoreV1VolumeNodeAffinity.from_dict.
Proof. solve_model. Qed.

Module IoK8sApiCoreV1RBDPersistentVolumeSource.
Definition schema `{Pydantic} : Schema := model "IoK8sApiCoreV1RBDPersistentVolumeSource" [
  opt "fs_type" "fsType" StrictStr;
  req "image" "image" StrictStr;
  opt_or "keyring" "keyring" StrictStr (VStr "/etc/ceph/keyring");
  req "monitors" "monitors" (List StrictStr);
  opt_or "pool" "pool" StrictStr (VStr "rbd");
  opt "read_only" "readOnly" StrictBool;
  opt "secret_ref" "secretRef" (Model IoK8sApiCoreV1SecretReference.schema);
  opt_or "user" "user" StrictStr (VStr "admin")].
Definition to_dict `{Pydantic} : value → outcome value := to_dict_with schema [
  Dump "secret_ref" "secretRef" IoK8sApiCoreV1SecretReference.to_dict].
Definition from_dict `{Pydantic} : value → outcome value := from_dict_with schema [
  Get "fsType";
  GetOr "image" (VStr "");
  GetOr "keyring" (VStr "/etc/ceph/keyring");
  Get "monitors";
  GetOr "pool" (VStr "rbd");
  Get "readOnly";
  FromDict "secretRef" IoK8sApiCoreV1SecretReference.from_dict;
  GetOr "user" (VStr "admin")].
Definition to_json `{Pydantic} : value → outcome string := to_json_with to_dict.
Definition from_json `{Pydantic} : string → outcome value := from_json_with from_dict.
Definition to_str `{Pydantic} : value → outcome string := to_str_with schema.
End IoK8sApiCoreV1RBDPersistentVolumeSource.
#[export] Instance IoK8sApiCoreV1RBDPersistentVolumeSource_templated `{PydanticLaws} :
  Templated IoK8sApiCoreV1RBDPersistentVolumeSource.schema
    IoK8sApiCoreV1RBDPersistentVolumeSource.to_dict
      IoK8sApiCoreV1RBDPersistentVolumeSource.from_dict.
Proof. solve_model. Qed.

Module IoK8sApiCoreV1ScaleIOPersistentVolumeSource.
Definition schema `{Pydantic} : Schema := model "IoK8sApiCoreV1ScaleIOPersistentVolumeSource" [
  opt_or "fs_type" "fsType" StrictStr (VStr "xfs");
  req "gateway" "gateway" StrictStr;
  opt "protection_domain" "protectionDomain" StrictStr;
  opt "read_only" "readOnly" StrictBool;
  req "secret_ref" "secretRef" (Model IoK8sApiCoreV1SecretReference.schema);
  opt "ssl_enabled" "sslEnabled" StrictBool;
  opt_or "storage_mode" "storageMode" StrictStr (VStr "ThinProvisioned");
  opt "storage_pool" "storagePool" StrictStr;
  req "system" "system" StrictStr;
  opt "volume_name" "volumeName" StrictStr].
Definition to_dict `{Pydantic} : value → outcome value := to_dict_with schema [
  Dump "secret_ref" "secretRef" IoK8sApiCoreV1SecretReference.to_dict].
Definition from_dict `{Pydantic} : value → outcome value := from_dict_with schema [
  GetOr "fsType" (VStr "xfs");
  GetOr "gateway" (VStr "");
  Get "protectionDomain";
  Get "readOnly";
  FromDict "secretRef" IoK8sApiCoreV1SecretReference.from_dict;
  Get "sslEnabled";
  GetOr "storageMode" (VStr "ThinProvisioned");
  Get "storagePool";
  GetOr "system" (VStr "");
  Get "volumeName"].
Definition to_json `{Pydantic} : value → outcome string := to_json_with to_dict.
Definition from_json `{Pydantic} : string → outcome value := from_json_with from_dict.
Definition to_str `{Pydantic} : value → outcome string := to_str_with schema.
End IoK8sApiCoreV1ScaleIOPersistentVolumeSource.
#[export] Instance IoK8sApiCoreV1ScaleIOPersistentVolumeSource_templated `{PydanticLaws} :
  Templated IoK8sApiCoreV1ScaleIOPersistentVolumeSource.schema
    IoK8sApiCoreV1ScaleIOPersistentVolumeSource.to_dict
      IoK8sApiCoreV1ScaleIOPersistentVolumeSource.from_dict.
Proof. solve_model. Qed.

Module IoK8sApiCoreV1StorageOSPersistentVolumeSource.
Definition schema `{Pydantic} : Schema := model "IoK8sApiCoreV1StorageOSPersistentVolumeSource" [
  opt "fs_type" "fsType" StrictStr;
  opt "read_only" "readOnly" StrictBool;
  opt "secret_ref" "secretRef" (Model IoK8sApiCoreV1ObjectReference.schema);
  opt "volume_name" "volumeName" StrictStr;
  opt "volume_namespace" "volumeNamespace" StrictStr].
Definition to_dict `{Pydantic} : value → outcome value := to_dict_with schema [
  Dump "secret_ref" "secretRef" IoK8sApiCoreV1ObjectReference.to_dict].
Definition from_dict `{Pydantic} : value → outcome value := from_dict_with schema [
  Get "fsType";
  Get "readOnly";
  FromDict "secretRef" IoK8sApiCoreV1ObjectReference.from_dict;
  Get "volumeName";
  Get "volumeNamespace"].
Definition to_json `{Pydantic} : value → outcome string := to_json_with to_dict.
Definition from_json `{Pydantic} : string → outcome value := from_json_with from_dict.
Definition to_str `{Pydantic} : value → outcome string := to_str_with schema.
End IoK8sApiCoreV1StorageOSPersistentVolumeSource.
#[export] Instance IoK8sApiCoreV1StorageOSPersistentVolumeSource_templated `{PydanticLaws} :
  Templated IoK8sApiCoreV1StorageOSPersistentVolumeSource.schema
    IoK8sApiCoreV1StorageOSPersistentVolumeSource.to_dict
      IoK8sApiCoreV1StorageOSPersistentVolumeSource.from_dict.
Proof. solve_model. Qed.

Module IoK8sApiCoreV1PersistentVolumeSpec.
Definition schema `{Pydantic} : Schema := model "IoK8sApiCoreV1PersistentVolumeSpec" [
  checked (opt "access_modes" "accessModes" (List StrictStr))
    (none_or_each_of ["ReadOnlyMany"; "ReadWriteMany"; "ReadWriteOnce"; "ReadWriteOncePod"]);
  opt "aws_elastic_block_store" "awsElasticBlockStore"
    (Model IoK8sApiCoreV1AWSElasticBlockStoreVolumeSource.schema);
  opt "azure_disk" "azureDisk" (Model IoK8sApiCoreV1AzureDiskVolumeSource.schema);
  opt "azure_file" "azureFile" (Model IoK8sApiCoreV1AzureFilePersistentVolumeSource.schema);
  opt "capacity" "capacity" (Dict (Model IoK8sApimachineryPkgApiResourceQuantity.schema));
  opt "cephfs" "cephfs" (Model IoK8sApiCoreV1CephFSPersistentVolumeSource.schema);
  opt "cinder" "cinder" (Model IoK8sApiCoreV1CinderPersistentVolumeSource.schema);
  opt "claim_ref" "claimRef" (Model IoK8sApiCoreV1ObjectReference.schema);
  opt "csi" "csi" (Model IoK8sApiCoreV1CSIPersistentVolumeSource.schema);
  opt "fc" "fc" (Model IoK8sApiCoreV1FCVolumeSource.schema);
  opt "flex_volume" "flexVolume" (Model IoK8sApiCoreV1FlexPersistentVolumeSource.schema);
  opt "flocker" "flocker" (Model IoK8sApiCoreV1FlockerVolumeSource.schema);
  opt "gce_persistent_disk" "gcePersistentDisk"
    (Model IoK8sApiCoreV1GCEPersistentDiskVolumeSource.schema);
  opt "glusterfs" "glusterfs" (Model IoK8sApiCoreV1GlusterfsPersistentVolumeSource.schema);
  opt "host_path" "hostPath" (Model IoK8sApiCoreV1HostPathVolumeSource.schema);
  opt "iscsi" "iscsi" (Model IoK8sApiCoreV1ISCSIPersistentVolumeSource.schema);
  opt "local" "local" (Model IoK8sApiCoreV1LocalVolumeSource.schema);
  opt "mount_options" "mountOptions" (List StrictStr);
  opt "nfs" "nfs" (Model IoK8sApiCoreV1NFSVolumeSource.schema);
  opt "node_affinity" "nodeAffinity" (Model IoK8sApiCoreV1VolumeNodeAffinity.schema);
  checked (opt "persistent_volume_reclaim_policy" "persistentVolumeReclaimPolicy" StrictStr)
    (none_or_one_of ["Delete"; "Recycle"; "Retain"]);
  opt "photon_persistent_disk" "photonPersistentDisk"
    (Model IoK8sApiCoreV1PhotonPersistentDiskVolumeSource.schema);
  opt "portworx_volume" "portworxVolume" (Model IoK8sApiCoreV1PortworxVolumeSource.schema);
  opt "quobyte" "quobyte" (Model IoK8sApiCoreV1QuobyteVolumeSource.schema);
  opt "rbd" "rbd" (Model IoK8sApiCoreV1RBDPersistentVolumeSource.schema);
  opt "scale_io" "scaleIO" (Model IoK8sApiCoreV1ScaleIOPersistentVolumeSource.schema);
  opt "storage_class_name" "storageClassName" StrictStr;
  opt "storageos" "storageos" (Model IoK8sApiCoreV1StorageOSPersistentVolumeSource.schema);
  opt "volume_attributes_class_name" "volumeAttributesClassName" StrictStr;
  checked (opt "volume_mode" "volumeMode" StrictStr)
    (none_or_one_of ["Block"; "Filesystem"]);
  opt "vsphere_volume" "vsphereVolume" (Model IoK8sApiCoreV1VsphereVirtualDiskVolumeSource.schema)].
Definition to_dict `{Pydantic} : value → outcome value := to_dict_with schema [
  Dump "aws_elastic_block_store" "awsElasticBlockStore"
    IoK8sApiCoreV1AWSElasticBlockStoreVolumeSource.to_dict;
  Dump "azure_disk" "azureDisk" IoK8sApiCoreV1AzureDiskVolumeSource.to_dict;
  Dump "azure_file" "azureFile" IoK8sApiCoreV1AzureFilePersistentVolumeSource.to_dict;
  DumpValues "capacity" "capacity" IoK8sApimachineryPkgApiResourceQuantity.to_dict;
  Dump "cephfs" "cephfs" IoK8sApiCoreV1CephFSPersistentVolumeSource.to_dict;
  Dump "cinder" "cinder" IoK8sApiCoreV1CinderPersistentVolumeSource.to_dict;
  Dump "claim_ref" "claimRef" IoK8sApiCoreV1ObjectReference.to_dict;
  Dump "csi" "csi" IoK8sApiCoreV1CSIPersistentVolumeSource.to_dict;
  Dump "fc" "fc" IoK8sApiCoreV1FCVolumeSource.to_dict;
  Dump "flex_volume" "flexVolume" IoK8sApiCoreV1FlexPersistentVolumeSource.to_dict;
  Dump "flocker" "flocker" IoK8sApiCoreV1FlockerVolumeSource.to_dict;
  Dump "gce_persistent_disk" "gcePersistentDisk"
    IoK8sApiCoreV1GCEPersistentDiskVolumeSource.to_dict;
  Dump "glusterfs" "glusterfs" IoK8sApiCoreV1GlusterfsPersistentVolumeSource.to_dict;
  Dump "host_path" "hostPath" IoK8sApiCoreV1HostPathVolumeSource.to_dict;
  Dump "iscsi" "iscsi" IoK8sApiCoreV1ISCSIPersistentVolumeSource.to_dict;
  Dump "local" "local" IoK8sApiCoreV1LocalVolumeSource.to_dict;
  Dump "nfs" "nfs" IoK8sApiCoreV1NFSVolumeSource.to_dict;
  Dump "node_affinity" "nodeAffinity" IoK8sApiCoreV1VolumeNodeAffinity.to_dict;
  Dump "photon_persistent_disk" "photonPersistentDisk"
    IoK8sApiCoreV1PhotonPersistentDiskVolumeSource.to_dict;
  Dump "portworx_volume" "portworxVolume" IoK8sApiCoreV1PortworxVolumeSource.to_dict;
  Dump "quobyte" "quobyte" IoK8sApiCoreV1QuobyteVolumeSource.to_dict;
  Dump "rbd" "rbd" IoK8sApiCoreV1RBDPersistentVolumeSource.to_dict;
  Dump "scale_io" "scaleIO" IoK8sApiCoreV1ScaleIOPersistentVolumeSource.to_dict;
  Dump "storageos" "storageos" IoK8sApiCoreV1StorageOSPersistentVolumeSource.to_dict;
  Dump "vsphere_volume" "vsphereVolume" IoK8sApiCoreV1VsphereVirtualDiskVolumeSource.to_dict].
Definition from_dict `{Pydantic} : value → outcome value := from_dict_with schema [
  Get "accessModes";
  FromDict "awsElasticBlockStore" IoK8sApiCoreV1AWSElasticBlockStoreVolumeSource.from_dict;
  FromDict "azureDisk" IoK8sApiCoreV1AzureDiskVolumeSource.from_dict;
  FromDict "azureFile" IoK8sApiCoreV1AzureFilePersistentVolumeSource.from_dict;
  FromDictValues "capacity" IoK8sApimachineryPkgApiResourceQuantity.from_dict;
  FromDict "cephfs" IoK8sApiCoreV1CephFSPersistentVolumeSource.from_dict;
  FromDict "cinder" IoK8sApiCoreV1CinderPersistentVolumeSource.from_dict;
  FromDict "claimRef" IoK8sApiCoreV1ObjectReference.from_dict;
  FromDict "csi" IoK8sApiCoreV1CSIPersistentVolumeSource.from_dict;
  FromDict "fc" IoK8sApiCoreV1FCVolumeSource.from_dict;
  FromDict "flexVolume" IoK8sApiCoreV1FlexPersistentVolumeSource.from_dict;
  FromDict "flocker" IoK8sApiCoreV1FlockerVolumeSource.from_dict;
  FromDict "gcePersistentDisk" IoK8sApiCoreV1GCEPersistentDiskVolumeSource.from_dict;
  FromDict "glusterfs" IoK8sApiCoreV1GlusterfsPersistentVolumeSource.from_dict;
  FromDict "hostPath" IoK8sApiCoreV1HostPathVolumeSource.from_dict;
  FromDict "iscsi" IoK8sApiCoreV1ISCSIPersistentVolumeSource.from_dict;
  FromDict "local" IoK8sApiCoreV1LocalVolumeSource.from_dict;
  Get "mountOptions";
  FromDict "nfs" IoK8sApiCoreV1NFSVolumeSource.from_dict;
  FromDict "nodeAffinity" IoK8sApiCoreV1VolumeNodeAffinity.from_dict;
  Get "persistentVolumeReclaimPolicy";
  FromDict "photonPersistentDisk" IoK8sApiCoreV1PhotonPersistentDiskVolumeSource.from_dict;
  FromDict "portworxVolume" IoK8sApiCoreV1PortworxVolumeSource.from_dict;
  FromDict "quobyte" IoK8sApiCoreV1QuobyteVolumeSource.from_dict;
  FromDict "rbd" IoK8sApiCoreV1RBDPersistentVolumeSource.from_dict;
  FromDict "scaleIO" IoK8sApiCoreV1ScaleIOPersistentVolumeSource.from_dict;
  Get "storageClassName";
  FromDict "storageos" IoK8sApiCoreV1StorageOSPersistentVolumeSource.from_dict;
  Get "volumeAttributesClassName";
  Get "volumeMode";
  FromDict "vsphereVolume" IoK8sApiCoreV1VsphereVirtualDiskVolumeSource.from_dict].
Definition to_json `{Pydantic} : value → outcome string := to_json_with to_dict.
Definition from_json `{Pydantic} : string → outcome value := from_json_with from_dict.
Definition to_str `{Pydantic} : value → outcome string := to_str_with schema.
End IoK8sApiCoreV1PersistentVolumeSpec.
#[export] Instance IoK8sApiCoreV1PersistentVolumeSpec_templated `{PydanticLaws} :
  Templated IoK8sApiCoreV1PersistentVolumeSpec.schema IoK8sApiCoreV1PersistentVolumeSpec.to_dict
    IoK8sApiCoreV1PersistentVolumeSpec.from_dict.
Proof. solve_model. Qed.

Module IoK8sApiCoreV1PersistentVolumeStatus.
Definition schema `{Pydantic} : Schema := model "IoK8sApiCoreV1PersistentVolumeStatus" [
  opt "last_phase_transition_time" "lastPhaseTransitionTime" Datetime;
  opt "message" "message" StrictStr;
  checked (opt "phase" "phase" StrictStr)
    (none_or_one_of ["Available"; "Bound"; "Failed"; "Pending"; "Released"]);
  opt "reason" "reason" StrictStr].
Definition to_dict `{Pydantic} : value → outcome value := to_dict_with schema [].
Definition from_dict `{Pydantic} : value → outcome value := from_dict_with schema [
  Get "lastPhaseTransitionTime";
  Get "message";
  Get "phase";
  Get "reason"].
Definition to_json `{Pydantic} : value → outcome string := to_json_with to_dict.
Definition from_json `{Pydantic} : string → outcome value := from_json_with from_dict.
Definition to_str `{Pydantic} : value → outcome string := to_str_with schema.
End IoK8sApiCoreV1PersistentVolumeStatus.
#[export] Instance IoK8sApiCoreV1PersistentVolumeStatus_templated `{PydanticLaws} :
  Templated IoK8sApiCoreV1PersistentVolumeStatus.schema
    IoK8sApiCoreV1PersistentVolumeStatus.to_dict IoK8sApiCoreV1PersistentVolumeStatus.from_dict.
Proof. solve_model. Qed.

Module IoK8sApiCoreV1PersistentVolume.
Definition schema `{Pydantic} : Schema := model "IoK8sApiCoreV1PersistentVolume" [
  opt "api_version" "apiVersion" StrictStr;
  opt "kind" "kind" StrictStr;
  opt "metadata" "metadata" (Model IoK8sApimachineryPkgApisMetaV1ObjectMeta.schema);
  opt "spec" "spec" (Model IoK8sApiCoreV1PersistentVolumeSpec.schema);
  opt "status" "status" (Model IoK8sApiCoreV1PersistentVolumeStatus.schema)].
Definition to_dict `{Pydantic} : value → outcome value := to_dict_with schema [
  Dump "metadata" "metadata" IoK8sApimachineryPkgApisMetaV1ObjectMeta.to_dict;
  Dump "spec" "spec" IoK8sApiCoreV1PersistentVolumeSpec.to_dict;
  Dump "status" "status" IoK8sApiCoreV1PersistentVolumeStatus.to_dict].
Definition from_dict `{Pydantic} : value → outcome value := from_dict_with schema [
  Get "apiVersion";
  Get "kind";
  FromDict "metadata" IoK8sApimachineryPkgApisMetaV1ObjectMeta.from_dict;
  FromDict "spec" IoK8sApiCoreV1PersistentVolumeSpec.from_dict;
  FromDict "status" IoK8sApiCoreV1PersistentVolumeStatus.from_dict].
Definition to_json `{Pydantic} : value → outcome string := to_json_with to_dict.
Definition from_json `{Pydantic} : string → outcome value := from_json_with from_dict.
Definition to_str `{Pydantic} : value → outcome string := to_str_with schema.
End IoK8sApiCoreV1PersistentVolume.
#[export] Instance IoK8sApiCoreV1PersistentVolume_templated `{PydanticLaws} :
  Templated IoK8sApiCoreV1PersistentVolume.schema IoK8sApiCoreV1PersistentVolume.to_dict
    IoK8sApiCoreV1PersistentVolume.from_dict.
Proof. solve_model. Qed.

Module IoK8sApiCoreV1PersistentVolumeClaimList.
Definition schema `{Pydantic} : Schema := model "IoK8sApiCoreV1PersistentVolumeClaimList" [
  opt "api_version" "apiVersion" StrictStr;
  req "items" "items" (List (Model IoK8sApiCoreV1PersistentVolumeClaim.schema));
  opt "kind" "kind" StrictStr;
  opt "metadata" "metadata" (Model IoK8sApimachineryPkgApisMetaV1ListMeta.schema)].
Definition to_dict `{Pydantic} : value → outcome value := to_dict_with schema [
  DumpItems "items" "items" IoK8sApiCoreV1PersistentVolumeClaim.to_dict;
  Dump "metadata" "metadata" IoK8sApimachineryPkgApisMetaV1ListMeta.to_dict].
Definition from_dict `{Pydantic} : value → outcome value := from_dict_with schema [
  Get "apiVersion";
  FromDictItems "items" IoK8sApiCoreV1PersistentVolumeClaim.from_dict;
  Get "kind";
  FromDict "metadata" IoK8sApimachineryPkgApisMetaV1ListMeta.from_dict].
Definition to_json `{Pydantic} : value → outcome string := to_json_with to_dict.
Definition from_json `{Pydantic} : string → outcome value := from_json_with from_dict.
Definition to_str `{Pydantic} : value → outcome string := to_str_with schema.
End IoK8sApiCoreV1PersistentVolumeClaimList.
#[export] Instance IoK8sApiCoreV1PersistentVolumeClaimList_templated `{PydanticLaws} :
  Templated IoK8sApiCoreV1PersistentVolumeClaimList.schema
    IoK8sApiCoreV1PersistentVolumeClaimList.to_dict
      IoK8sApiCoreV1PersistentVolumeClaimList.from_dict.
Proof. solve_model. Qed.

Module IoK8sApiCoreV1PersistentVolumeList.
Definition schema `{Pydantic} : Schema := model "IoK8sApiCoreV1PersistentVolumeList" [
  opt "api_version" "apiVersion" StrictStr;
  req "items" "items" (List (Model IoK8sApiCoreV1PersistentVolume.schema));
  opt "kind" "kind" StrictStr;
  opt "metadata" "metadata" (Model IoK8sApimachineryPkgApisMetaV1ListMeta.schema)].
Definition to_dict `{Pydantic} : value → outcome value := to_dict_with schema [
  DumpItems "items" "items" IoK8sApiCoreV1PersistentVolume.to_dict;
  Dump "metadata" "metadata" IoK8sApimachineryPkgApisMetaV1ListMeta.to_dict].
Definition from_dict `{Pydantic} : value → outcome value := from_dict_with schema [
  Get "apiVersion";
  FromDictItems "items" IoK8sApiCoreV1PersistentVolume.from_dict;
  Get "kind";
  FromDict "metadata" IoK8sApimachineryPkgApisMetaV1ListMeta.from_dict].
Definition to_json `{Pydantic} : value → outcome string := to_json_with to_dict.
Definition from_json `{Pydantic} : string → outcome value := from_json_with from_dict.
Definition to_str `{Pydantic} : value → outcome string := to_str_with schema.
End IoK8sApiCoreV1PersistentVolumeList.
#[export] Instance IoK8sApiCoreV1PersistentVolumeList_templated `{PydanticLaws} :
  Templated IoK8sApiCoreV1PersistentVolumeList.schema IoK8sApiCoreV1PersistentVolumeList.to_dict
    IoK8sApiCoreV1PersistentVolumeList.from_dict.
Proof. solve_model. Qed.

Module IoK8sApiCoreV1PersistentVolumeSource.
Definition schema `{Pydantic} : Schema := model "IoK8sApiCoreV1PersistentVolumeSource" [
  opt "aws_elastic_block_store" "awsElasticBlockStore"
    (Model IoK8sApiCoreV1AWSElasticBlockStoreVolumeSource.schema);
  opt "azure_disk" "azureDisk" (Model IoK8sApiCoreV1AzureDiskVolumeSource.schema);
  opt "azure_file" "azureFile" (Model IoK8sApiCoreV1AzureFilePersistentVolumeSource.schema);
  opt "cephfs" "cephfs" (Model IoK8sApiCoreV1CephFSPersistentVolumeSource.schema);
  opt "cinder" "cinder" (Model IoK8sApiCoreV1CinderPersistentVolumeSource.schema);
  opt "csi" "csi" (Model IoK8sApiCoreV1CSIPersistentVolumeSource.schema);
  opt "fc" "fc" (Model IoK8sApiCoreV1FCVolumeSource.schema);
  opt "flex_volume" "flexVolume" (Model IoK8sApiCoreV1FlexPersistentVolumeSource.schema);
  opt "flocker" "flocker" (Model IoK8sApiCoreV1FlockerVolumeSource.schema);
  opt "gce_persistent_disk" "gcePersistentDisk"
    (Model IoK8sApiCoreV1GCEPersistentDiskVolumeSource.schema);
  opt "glusterfs" "glusterfs" (Model IoK8sApiCoreV1GlusterfsPersistentVolumeSource.schema);
  opt "host_path" "hostPath" (Model IoK8sApiCoreV1HostPathVolumeSource.schema);
  opt "iscsi" "iscsi" (Model IoK8sApiCoreV1ISCSIPersistentVolumeSource.schema);
  opt "local" "local" (Model IoK8sApiCoreV1LocalVolumeSource.schema);
  opt "nfs" "nfs" (Model IoK8sApiCoreV1NFSVolumeSource.schema);
  opt "photon_persistent_disk" "photonPersistentDisk"
    (Model IoK8sApiCoreV1PhotonPersistentDiskVolumeSource.schema);
  opt "portworx_volume" "portworxVolume" (Model IoK8sApiCoreV1PortworxVolumeSource.schema);
  opt "quobyte" "quobyte" (Model IoK8sApiCoreV1QuobyteVolumeSource.schema);
  opt "rbd" "rbd" (Model IoK8sApiCoreV1RBDPersistentVolumeSource.schema);
  opt "scale_io" "scaleIO" (Model IoK8sApiCoreV1ScaleIOPersistentVolumeSource.schema);
  opt "storageos" "storageos" (Model IoK8sApiCoreV1StorageOSPersistentVolumeSource.schema);
  opt "vsphere_volume" "vsphereVolume" (Model IoK8sApiCoreV1VsphereVirtualDiskVolumeSource.schema)].
Definition to_dict `{Pydantic} : value → outcome value := to_dict_with schema [
  Dump "aws_elastic_block_store" "awsElasticBlockStore"
    IoK8sApiCoreV1AWSElasticBlockStoreVolumeSource.to_dict;
  Dump "azure_disk" "azureDisk" IoK8sApiCoreV1AzureDiskVolumeSource.to_dict;
  Dump "azure_file" "azureFile" IoK8sApiCoreV1AzureFilePersistentVolumeSource.to_dict;
  Dump "cephfs" "cephfs" IoK8sApiCoreV1CephFSPersistentVolumeSource.to_dict;
  Dump "cinder" "cinder" IoK8sApiCoreV1CinderPersistentVolumeSource.to_dict;
  Dump "csi" "csi" IoK8sApiCoreV1CSIPersistentVolumeSource.to_dict;
  Dump "fc" "fc" IoK8sApiCoreV1FCVolumeSource.to_dict;
  Dump "flex_volume" "flexVolume" IoK8sApiCoreV1FlexPersistentVolumeSource.to_dict;
  Dump "flocker" "flocker" IoK8sApiCoreV1FlockerVolumeSource.to_dict;
  Dump "gce_persistent_disk" "gcePersistentDisk"
    IoK8sApiCoreV1GCEPersistentDiskVolumeSource.to_dict;
  Dump "glusterfs" "glusterfs" IoK8sApiCoreV1GlusterfsPersistentVolumeSource.to_dict;
  Dump "host_path" "hostPath" IoK8sApiCoreV1HostPathVolumeSource.to_dict;
  Dump "iscsi" "iscsi" IoK8sApiCoreV1ISCSIPersistentVolumeSource.to_dict;
  Dump "local" "local" IoK8sApiCoreV1LocalVolumeSource.to_dict;
  Dump "nfs" "nfs" IoK8sApiCoreV1NFSVolumeSource.to_dict;
  Dump "photon_persistent_disk" "photonPersistentDisk"
    IoK8sApiCoreV1PhotonPersistentDiskVolumeSource.to_dict;
  Dump "portworx_volume" "portworxVolume" IoK8sApiCoreV1PortworxVolumeSource.to_dict;
  Dump "quobyte" "quobyte" IoK8sApiCoreV1QuobyteVolumeSource.to_dict;
  Dump "rbd" "rbd" IoK8sApiCoreV1RBDPersistentVolumeSource.to_dict;
  Dump "scale_io" "scaleIO" IoK8sApiCoreV1ScaleIOPersistentVolumeSource.to_dict;
  Dump "storageos" "storageos" IoK8sApiCoreV1StorageOSPersistentVolumeSource.to_dict;
  Dump "vsphere_volume" "vsphereVolume" IoK8sApiCoreV1VsphereVirtualDiskVolumeSource.to_dict].
Definition from_dict `{Pydantic} : value → outcome value := from_dict_with schema [
  FromDict "awsElasticBlockStore" IoK8sApiCoreV1AWSElasticBlockStoreVolumeSource.from_dict;
  FromDict "azureDisk" IoK8sApiCoreV1AzureDiskVolumeSource.from_dict;
  FromDict "azureFile" IoK8sApiCoreV1AzureFilePersistentVolumeSource.from_dict;
  FromDict "cephfs" IoK8sApiCoreV1CephFSPersistentVolumeSource.from_dict;
  FromDict "cinder" IoK8sApiCoreV1CinderPersistentVolumeSource.from_dict;
  FromDict "csi" IoK8sApiCoreV1CSIPersistentVolumeSource.from_dict;
  FromDict "fc" IoK8sApiCoreV1FCVolumeSource.from_dict;
  FromDict "flexVolume" IoK8sApiCoreV1FlexPersistentVolumeSource.from_dict;
  FromDict "flocker" IoK8sApiCoreV1FlockerVolumeSource.from_dict;
  FromDict "gcePersistentDisk" IoK8sApiCoreV1GCEPersistentDiskVolumeSource.from_dict;
  FromDict "glusterfs" IoK8sApiCoreV1GlusterfsPersistentVolumeSource.from_dict;
  FromDict "hostPath" IoK8sApiCoreV1HostPathVolumeSource.from_dict;
  FromDict "iscsi" IoK8sApiCoreV1ISCSIPersistentVolumeSource.from_dict;
  FromDict "local" IoK8sApiCoreV1LocalVolumeSource.from_dict;
  FromDict "nfs" IoK8sApiCoreV1NFSVolumeSource.from_dict;
  FromDict "photonPersistentDisk" IoK8sApiCoreV1PhotonPersistentDiskVolumeSource.from_dict;
  FromDict "portworxVolume" IoK8sApiCoreV1PortworxVolumeSource.from_dict;
  FromDict "quobyte" IoK8sApiCoreV1QuobyteVolumeSource.from_dict;
  FromDict "rbd" IoK8sApiCoreV1RBDPersistentVolumeSource.from_dict;
  FromDict "scaleIO" IoK8sApiCoreV1ScaleIOPersistentVolumeSource.from_dict;
  FromDict "storageos" IoK8sApiCoreV1StorageOSPersistentVolumeSource.from_dict;
  FromDict "vsphereVolume" IoK8sApiCoreV1VsphereVirtualDiskVolumeSource.from_dict].
Definition to_json `{Pydantic} : value → outcome string := to_json_with to_dict.
Definition from_json `{Pydantic} : string → outcome value := from_json_with from_dict.
Definition to_str `{Pydantic} : value → outcome string := to_str_with schema.
End IoK8sApiCoreV1PersistentVolumeSource.
#[export] Instance IoK8sApiCoreV1PersistentVolumeSource_templated `{PydanticLaws} :
  Templated IoK8sApiCoreV1PersistentVolumeSource.schema
    IoK8sApiCoreV1PersistentVolumeSource.to_dict IoK8sApiCoreV1PersistentVolumeSource.from_dict.
Proof. solve_model. Qed.

Module IoK8sApiCoreV1PodCondition.
Definition schema `{Pydantic} : Schema := model "IoK8sApiCoreV1PodCondition" [
  opt "last_probe_time" "lastProbeTime" Datetime;
  opt "last_transition_time" "lastTransitionTime" Datetime;
  opt "message" "message" StrictStr;
  opt "observed_generation" "observedGeneration" StrictInt;
  opt "reason" "reason" StrictStr;
  req "status" "status" StrictStr;
  req "type" "type" StrictStr].
Definition to_dict `{Pydantic} : value → outcome value := to_dict_with schema [].
Definition from_dict `{Pydantic} : value → outcome value := from_dict_with schema [
  Get "lastProbeTime";
  Get "lastTransitionTime";
  Get "message";
  Get "observedGeneration";
  Get "reason";
  GetOr "status" (VStr "");
  GetOr "type" (VStr "")].
Definition to_json `{Pydantic} : value → outcome string := to_json_with to_dict.
Definition from_json `{Pydantic} : string → outcome value := from_json_with from_dict.
Definition to_str `{Pydantic} : value → outcome string := to_str_with schema.
End IoK8sApiCoreV1PodCondition.
#[export] Instance IoK8sApiCoreV1PodCondition_templated `{PydanticLaws} :
  Templated IoK8sApiCoreV1PodCondition.schema IoK8sApiCoreV1PodCondition.to_dict
    IoK8sApiCoreV1PodCondition.from_dict.
Proof. solve_model. Qed.

Module IoK8sApiCoreV1PodExtendedResourceClaimStatus.
Definition schema `{Pydantic} : Schema := model "IoK8sApiCoreV1PodExtendedResourceClaimStatus" [
  req "request_mappings" "requestMappings" (List
    (Model IoK8sApiCoreV1ContainerExtendedResourceRequest.schema));
  req "resource_claim_name" "resourceClaimName" StrictStr].
Definition to_dict `{Pydantic} : value → outcome value := to_dict_with schema [
  DumpItems "request_mappings" "requestMappings"
    IoK8sApiCoreV1ContainerExtendedResourceRequest.to_dict].
Definition from_dict `{Pydantic} : value → outcome value := from_dict_with schema [
  FromDictItems "requestMappings" IoK8sApiCoreV1ContainerExtendedResourceRequest.from_dict;
  GetOr "resourceClaimName" (VStr "")].
Definition to_json `{Pydantic} : value → outcome string := to_json_with to_dict.
Definition from_json `{Pydantic} : string → outcome value := from_json_with from_dict.
Definition to_str `{Pydantic} : value → outcome string := to_str_with schema.
End IoK8sApiCoreV1PodExtendedResourceClaimStatus.
#[export] Instance IoK8sApiCoreV1PodExtendedResourceClaimStatus_templated `{PydanticLaws} :
  Templated IoK8sApiCoreV1PodExtendedResourceClaimStatus.schema
    IoK8sApiCoreV1PodExtendedResourceClaimStatus.to_dict
      IoK8sApiCoreV1PodExtendedResourceClaimStatus.from_dict.
Proof. solve_model. Qed.

Module IoK8sApiCoreV1PodIP.
Definition schema `{Pydantic} : Schema := model "IoK8sApiCoreV1PodIP" [
  req "ip" "ip" StrictStr].
Definition to_dict `{Pydantic} : value → outcome value := to_dict_with schema [].
Definition from_dict `{Pydantic} : value → outcome value := from_dict_with schema [
  GetOr "ip" (VStr "")].
Definition to_json `{Pydantic} : value → outcome string := to_json_with to_dict.
Definition from_json `{Pydantic} : string → outcome value := from_json_with from_dict.
Definition to_str `{Pydantic} : value → outcome string := to_str_with schema.
End IoK8sApiCoreV1PodIP.
#[export] Instance IoK8sApiCoreV1PodIP_templated `{PydanticLaws} :
  Templated IoK8sApiCoreV1PodIP.schema IoK8sApiCoreV1PodIP.to_dict IoK8sApiCoreV1PodIP.from_dict.
Proof. solve_model. Qed.

Module IoK8sApiCoreV1PodResourceClaimStatus.
Definition schema `{Pydantic} : Schema := model "IoK8sApiCoreV1PodResourceClaimStatus" [
  req "name" "name" StrictStr;
  opt "resource_claim_name" "resourceClaimName" StrictStr].
Definition to_dict `{Pydantic} : value → outcome value := to_dict_with schema [].
Definition from_dict `{Pydantic} : value → outcome value := from_dict_with schema [
  GetOr "name" (VStr "");
  Get "resourceClaimName"].
Definition to_json `{Pydantic} : value → outcome string := to_json_with to_dict.
Definition from_json `{Pydantic} : string → outcome value := from_json_with from_dict.
Definition to_str `{Pydantic} : value → outcome string := to_str_with schema.
End IoK8sApiCoreV1PodResourceClaimStatus.
#[export] Instance IoK8sApiCoreV1PodResourceClaimStatus_templated `{PydanticLaws} :
  Templated IoK8sApiCoreV1PodResourceClaimStatus.schema
    IoK8sApiCoreV1PodResourceClaimStatus.to_dict IoK8sApiCoreV1PodResourceClaimStatus.from_dict.
Proof. solve_model. Qed.

Module IoK8sApiCoreV1PodVolumeHealth.
Definition schema `{Pydantic} : Schema := model "IoK8sApiCoreV1PodVolumeHealth" [
  opt "health_conditions" "healthConditions" (List
    (Model IoK8sApiCoreV1VolumeHealthCondition.schema));
  opt "last_transition_time" "lastTransitionTime" Datetime;
  req "name" "name" StrictStr].
Definition to_dict `{Pydantic} : value → outcome value := to_dict_with schema [
  DumpItems "health_conditions" "healthConditions" IoK8sApiCoreV1VolumeHealthCondition.to_dict].
Definition from_dict `{Pydantic} : value → outcome value := from_dict_with schema [
  FromDictItems "healthConditions" IoK8sApiCoreV1VolumeHealthCondition.from_dict;
  Get "lastTransitionTime";
  GetOr "name" (VStr "")].
Definition to_json `{Pydantic} : value → outcome string := to_json_with to_dict.
Definition from_json `{Pydantic} : string → outcome value := from_json_with from_dict.
Definition to_str `{Pydantic} : value → outcome string := to_str_with schema.
End IoK8sApiCoreV1PodVolumeHealth.
#[export] Instance IoK8sApiCoreV1PodVolumeHealth_templated `{PydanticLaws} :
  Templated IoK8sApiCoreV1PodVolumeHealth.schema IoK8sApiCoreV1PodVolumeHealth.to_dict
    IoK8sApiCoreV1PodVolumeHealth.from_dict.
Proof. solve_model. Qed.

Module IoK8sApiCoreV1PodStatus.
Definition schema `{Pydantic} : Schema := model "IoK8sApiCoreV1PodStatus" [
  opt "allocated_resources" "allocatedResources" (Dict
    (Model IoK8sApimachineryPkgApiResourceQuantity.schema));
  opt "conditions" "conditions" (List (Model IoK8sApiCoreV1PodCondition.schema));
  opt "container_statuses" "containerStatuses" (List (Model IoK8sApiCoreV1ContainerStatus.schema));
  opt "ephemeral_container_statuses" "ephemeralContainerStatuses" (List
    (Model IoK8sApiCoreV1ContainerStatus.schema));
  opt "extended_resource_claim_status" "extendedResourceClaimStatus"
    (Model IoK8sApiCoreV1PodExtendedResourceClaimStatus.schema);
  opt "host_ip" "hostIP" StrictStr;
  opt "host_ips" "hostIPs" (List (Model IoK8sApiCoreV1HostIP.schema));
  opt "init_container_statuses" "initContainerStatuses" (List
    (Model IoK8sApiCoreV1ContainerStatus.schema));
  opt "message" "message" StrictStr;
  opt "node_allocatable_resource_claim_statuses" "nodeAllocatableResourceClaimStatuses" (List
    (Model IoK8sApiCoreV1NodeAllocatableResourceClaimStatus.schema));
  opt "nominated_node_name" "nominatedNodeName" StrictStr;
  opt "observed_generation" "observedGeneration" StrictInt;
  checked (opt "phase" "phase" StrictStr)
    (none_or_one_of ["Failed"; "Pending"; "Running"; "Succeeded"; "Unknown"]);
  opt "pod_ip" "podIP" StrictStr;
  opt "pod_ips" "podIPs" (List (Model IoK8sApiCoreV1PodIP.schema));
  checked (opt "qos_class" "qosClass" StrictStr)
    (none_or_one_of ["BestEffort"; "Burstable"; "Guaranteed"]);
  opt "reason" "reason" StrictStr;
  opt "resize" "resize" StrictStr;
  opt "resource_claim_statuses" "resourceClaimStatuses" (List
    (Model IoK8sApiCoreV1PodResourceClaimStatus.schema));
  opt "resources" "resources" (Model IoK8sApiCoreV1ResourceRequirements.schema);
  opt "start_time" "startTime" Datetime;
  opt "volume_health" "volumeHealth" (List (Model IoK8sApiCoreV1PodVolumeHealth.schema))].
Definition to_dict `{Pydantic} : value → outcome value := to_dict_with schema [
  DumpValues "allocated_resources" "allocatedResources"
    IoK8sApimachineryPkgApiResourceQuantity.to_dict;
  DumpItems "conditions" "conditions" IoK8sApiCoreV1PodCondition.to_dict;
  DumpItems "container_statuses" "containerStatuses" IoK8sApiCoreV1ContainerStatus.to_dict;
  DumpItems "ephemeral_container_statuses" "ephemeralContainerStatuses"
    IoK8sApiCoreV1ContainerStatus.to_dict;
  Dump "extended_resource_claim_status" "extendedResourceClaimStatus"
    IoK8sApiCoreV1PodExtendedResourceClaimStatus.to_dict;
  DumpItems "host_ips" "hostIPs" IoK8sApiCoreV1HostIP.to_dict;
  DumpItems "init_container_statuses" "initContainerStatuses" IoK8sApiCoreV1ContainerStatus.to_dict;
  DumpItems "node_allocatable_resource_claim_statuses" "nodeAllocatableResourceClaimStatuses"
    IoK8sApiCoreV1NodeAllocatableResourceClaimStatus.to_dict;
  DumpItems "pod_ips" "podIPs" IoK8sApiCoreV1PodIP.to_dict;
  DumpItems "resource_claim_statuses" "resourceClaimStatuses"
    IoK8sApiCoreV1PodResourceClaimStatus.to_dict;
  Dump "resources" "resources" IoK8sApiCoreV1ResourceRequirements.to_dict;
  DumpItems "volume_health" "volumeHealth" IoK8sApiCoreV1PodVolumeHealth.to_dict].
Definition from_dict `{Pydantic} : value → outcome value := from_dict_with schema [
  FromDictValues "allocatedResources" IoK8sApimachineryPkgApiResourceQuantity.from_dict;
  FromDictItems "conditions" IoK8sApiCoreV1PodCondition.from_dict;
  FromDictItems "containerStatuses" IoK8sApiCoreV1ContainerStatus.from_dict;
  FromDictItems "ephemeralContainerStatuses" IoK8sApiCoreV1ContainerStatus.from_dict;
  FromDict "extendedResourceClaimStatus" IoK8sApiCoreV1PodExtendedResourceClaimStatus.from_dict;
  Get "hostIP";
  FromDictItems "hostIPs" IoK8sApiCoreV1HostIP.from_dict;
  FromDictItems "initContainerStatuses" IoK8sApiCoreV1ContainerStatus.from_dict;
  Get "message";
  FromDictItems "nodeAllocatableResourceClaimStatuses"
    IoK8sApiCoreV1NodeAllocatableResourceClaimStatus.from_dict;
  Get "nominatedNodeName";
  Get "observedGeneration";
  Get "phase";
  Get "podIP";
  FromDictItems "podIPs" IoK8sApiCoreV1PodIP.from_dict;
  Get "qosClass";
  Get "reason";
  Get "resize";
  FromDictItems "resourceClaimStatuses" IoK8sApiCoreV1PodResourceClaimStatus.from_dict;
  FromDict "resources" IoK8sApiCoreV1ResourceRequirements.from_dict;
  Get "startTime";
  FromDictItems "volumeHealth" IoK8sApiCoreV1PodVolumeHealth.from_dict].
Definition to_json `{Pydantic} : value → outcome string := to_json_with to_dict.
Definition from_json `{Pydantic} : string → outcome value := from_json_with from_dict.
Definition to_str `{Pydantic} : value → outcome string := to_str_with schema.
End IoK8sApiCoreV1PodStatus.
#[export] Instance IoK8sApiCoreV1PodStatus_templated `{PydanticLaws} :
  Templated IoK8sApiCoreV1PodStatus.schema IoK8sApiCoreV1PodStatus.to_dict
    IoK8sApiCoreV1PodStatus.from_dict.
Proof. solve_model. Qed.

Module IoK8sApiCoreV1Pod.
Definition schema `{Pydantic} : Schema := model "IoK8sApiCoreV1Pod" [
  opt "api_version" "apiVersion" StrictStr;
  opt "kind" "kind" StrictStr;
  opt "metadata" "metadata" (Model IoK8sApimachineryPkgApisMetaV1ObjectMeta.schema);
  opt "spec" "spec" (Model IoK8sApiCoreV1PodSpec.schema);
  opt "status" "status" (Model IoK8sApiCoreV1PodStatus.schema)].
Definition to_dict `{Pydantic} : value → outcome value := to_dict_with schema [
  Dump "metadata" "metadata" IoK8sApimachineryPkgApisMetaV1ObjectMeta.to_dict;
  Dump "spec" "spec" IoK8sApiCoreV1PodSpec.to_dict;
  Dump "status" "status" IoK8sApiCoreV1PodStatus.to_dict].
Definition from_dict `{Pydantic} : value → outcome value := from_dict_with schema [
  Get "apiVersion";
  Get "kind";
  FromDict "metadata" IoK8sApimachineryPkgApisMetaV1ObjectMeta.from_dict;
  FromDict "spec" IoK8sApiCoreV1PodSpec.from_dict;
  FromDict "status" IoK8sApiCoreV1PodStatus.from_dict].
Definition to_json `{Pydantic} : value → outcome string := to_json_with to_dict.
Definition from_json `{Pydantic} : string → outcome value := from_json_with from_dict.
Definition to_str `{Pydantic} : value → outcome string := to_str_with schema.
End IoK8sApiCoreV1Pod.
#[export] Instance IoK8sApiCoreV1Pod_templated `{PydanticLaws} :
  Templated IoK8sApiCoreV1Pod.schema IoK8sApiCoreV1Pod.to_dict IoK8sApiCoreV1Pod.from_dict.
Proof. solve_model. Qed.

Module IoK8sApiCoreV1PodAttachOptions.
Definition schema `{Pydantic} : Schema := model "IoK8sApiCoreV1PodAttachOptions" [
  opt "api_version" "apiVersion" StrictStr;
  opt "container" "container" StrictStr;
  opt "kind" "kind" StrictStr;
  opt "stderr" "stderr" StrictBool;
  opt "stdin" "stdin" StrictBool;
  opt "stdout" "stdout" StrictBool;
  opt "tty" "tty" StrictBool].
Definition to_dict `{Pydantic} : value → outcome value := to_dict_with schema [].
Definition from_dict `{Pydantic} : value → outcome value := from_dict_with schema [
  Get "apiVersion";
  Get "container";
  Get "kind";
  Get "stderr";
  Get "stdin";
  Get "stdout";
  Get "tty"].
Definition to_json `{Pydantic} : value → outcome string := to_json_with to_dict.
Definition from_json `{Pydantic} : string → outcome value := from_json_with from_dict.
Definition to_str `{Pydantic} : value → outcome string := to_str_with schema.
End IoK8sApiCoreV1PodAttachOptions.
#[export] Instance IoK8sApiCoreV1PodAttachOptions_templated `{PydanticLaws} :
  Templated IoK8sApiCoreV1PodAttachOptions.schema IoK8sApiCoreV1PodAttachOptions.to_dict
    IoK8sApiCoreV1PodAttachOptions.from_dict.
Proof. solve_model. Qed.

Module IoK8sApiCoreV1PodExecOptions.
Definition schema `{Pydantic} : Schema := model "IoK8sApiCoreV1PodExecOptions" [
  opt "api_version" "apiVersion" StrictStr;
  req "command" "command" (List StrictStr);
  opt "container" "container" StrictStr;
  opt "kind" "kind" StrictStr;
  opt "stderr" "stderr" StrictBool;
  opt "stdin" "stdin" StrictBool;
  opt "stdout" "stdout" StrictBool;
  opt "tty" "tty" StrictBool].
Definition to_dict `{Pydantic} : value → outcome value := to_dict_with schema [].
Definition from_dict `{Pydantic} : value → outcome value := from_dict_with schema [
  Get "apiVersion";
  Get "command";
  Get "container";
  Get "kind";
  Get "stderr";
  Get "stdin";
  Get "stdout";
  Get "tty"].
Definition to_json `{Pydantic} : value → outcome string := to_json_with to_dict.
Definition from_json `{Pydantic} : string → outcome value := from_json_with from_dict.
Definition to_str `{Pydantic} : value → outcome string := to_str_with schema.
End IoK8sApiCoreV1PodExecOptions.
#[export] Instance IoK8sApiCoreV1PodExecOptions_templated `{PydanticLaws} :
  Templated IoK8sApiCoreV1PodExecOptions.schema IoK8sApiCoreV1PodExecOptions.to_dict
    IoK8sApiCoreV1PodExecOptions.from_dict.
Proof. solve_model. Qed.

Module IoK8sApiCoreV1PodList.
Definition schema `{Pydantic} : Schema := model "IoK8sApiCoreV1PodList" [
  opt "api_version" "apiVersion" StrictStr;
  req "items" "items" (List (Model IoK8sApiCoreV1Pod.schema));
  opt "kind" "kind" StrictStr;
  opt "metadata" "metadata" (Model IoK8sApimachineryPkgApisMetaV1ListMeta.schema)].
Definition to_dict `{Pydantic} : value → outcome value := to_dict_with schema [
  DumpItems "items" "items" IoK8sApiCoreV1Pod.to_dict;
  Dump "metadata" "metadata" IoK8sApimachineryPkgApisMetaV1ListMeta.to_dict].
Definition from_dict `{Pydantic} : value → outcome value := from_dict_with schema [
  Get "apiVersion";
  FromDictItems "items" IoK8sApiCoreV1Pod.from_dict;
  Get "kind";
  FromDict "metadata" IoK8sApimachineryPkgApisMetaV1ListMeta.from_dict].
Definition to_json `{Pydantic} : value → outcome string := to_json_with to_dict.
Definition from_json `{Pydantic} : string → outcome value := from_json_with from_dict.
Definition to_str `{Pydantic} : value → outcome string := to_str_with schema.
End IoK8sApiCoreV1PodList.
#[export] Instance IoK8sApiCoreV1PodList_templated `{PydanticLaws} :
  Templated IoK8sApiCoreV1PodList.schema IoK8sApiCoreV1PodList.to_dict
    IoK8sApiCoreV1PodList.from_dict.
Proof. solve_model. Qed.

Module IoK8sApiCoreV1PodLogOptions.
Definition schema `{Pydantic} : Schema := model "IoK8sApiCoreV1PodLogOptions" [
  opt "api_version" "apiVersion" StrictStr;
  opt "container" "container" StrictStr;
  opt "follow" "follow" StrictBool;
  opt "insecure_skip_tls_verify_backend" "insecureSkipTLSVerifyBackend" StrictBool;
  opt "kind" "kind" StrictStr;
  opt "limit_bytes" "limitBytes" StrictInt;
  opt "previous" "previous" StrictBool;
  opt "since_seconds" "sinceSeconds" StrictInt;
  opt "since_time" "sinceTime" Datetime;
  opt "stream" "stream" StrictStr;
  opt "tail_lines" "tailLines" StrictInt;
  opt "timestamps" "timestamps" StrictBool].
Definition to_dict `{Pydantic} : value → outcome value := to_dict_with schema [].
Definition from_dict `{Pydantic} : value → outcome value := from_dict_with schema [
  Get "apiVersion";
  Get "container";
  Get "follow";
  Get "insecureSkipTLSVerifyBackend";
  Get "kind";
  Get "limitBytes";
  Get "previous";
  Get "sinceSeconds";
  Get "sinceTime";
  Get "stream";
  Get "tailLines";
  Get "timestamps"].
Definition to_json `{Pydantic} : value → outcome string := to_json_with to_dict.
Definition from_json `{Pydantic} : string → outcome value := from_json_with from_dict.
Definition to_str `{Pydantic} : value → outcome string := to_str_with schema.
End IoK8sApiCoreV1PodLogOptions.
#[export] Instance IoK8sApiCoreV1PodLogOptions_templated `{PydanticLaws} :
  Templated IoK8sApiCoreV1PodLogOptions.schema IoK8sApiCoreV1PodLogOptions.to_dict
    IoK8sApiCoreV1PodLogOptions.from_dict.
Proof. solve_model. Qed.

Module IoK8sApiCoreV1PodPortForwardOptions.
Definition schema `{Pydantic} : Schema := model "IoK8sApiCoreV1PodPortForwardOptions" [
  opt "api_version" "apiVersion" StrictStr;
  opt "kind" "kind" StrictStr;
  opt "ports" "ports" (List StrictInt)].
Definition to_dict `{Pydantic} : value → outcome value := to_dict_with schema [].
Definition from_dict `{Pydantic} : value → outcome value := from_dict_with schema [
  Get "apiVersion";
  Get "kind";
  Get "ports"].
Definition to_json `{Pydantic} : value → outcome string := to_json_with to_dict.
Definition from_json `{Pydantic} : string → outcome value := from_json_with from_dict.
Definition to_str `{Pydantic} : value → outcome string := to_str_with schema.
End IoK8sApiCoreV1PodPortForwardOptions.
#[export] Instance IoK8sApiCoreV1PodPortForwardOptions_templated `{PydanticLaws} :
  Templated IoK8sApiCoreV1PodPortForwardOptions.schema IoK8sApiCoreV1PodPortForwardOptions.to_dict
    IoK8sApiCoreV1PodPortForwardOptions.from_dict.
Proof. solve_model. Qed.

Module IoK8sApiCoreV1PodProxyOptions.
Definition schema `{Pydantic} : Schema := model "IoK8sApiCoreV1PodProxyOptions" [
  opt "api_version" "apiVersion" StrictStr;
  opt "kind" "kind" StrictStr;
  opt "path" "path" StrictStr].
Definition to_dict `{Pydantic} : value → outcome value := to_dict_with schema [].
Definition from_dict `{Pydantic} : value → outcome value := from_dict_with schema [
  Get "apiVersion";
  Get "kind";
  Get "path"].
Definition to_json `{Pydantic} : value → outcome string := to_json_with to_dict.
Definition from_json `{Pydantic} : string → outcome value := from_json_with from_dict.
Definition to_str `{Pydantic} : value → outcome string := to_str_with schema.
End IoK8sApiCoreV1PodProxyOptions.
#[export] Instance IoK8sApiCoreV1PodProxyOptions_templated `{PydanticLaws} :
  Templated IoK8sApiCoreV1PodProxyOptions.schema IoK8sApiCoreV1PodProxyOptions.to_dict
    IoK8sApiCoreV1PodProxyOptions.from_dict.
Proof. solve_model. Qed.

Module IoK8sApiCoreV1PodStatusResult.
Definition schema `{Pydantic} : Schema := model "IoK8sApiCoreV1PodStatusResult" [
  opt "api_version" "apiVersion" StrictStr;
  opt "kind" "kind" StrictStr;
  opt "metadata" "metadata" (Model IoK8sApimachineryPkgApisMetaV1ObjectMeta.schema);
  opt "status" "status" (Model IoK8sApiCoreV1PodStatus.schema)].
Definition to_dict `{Pydantic} : value → outcome value := to_dict_with schema [
  Dump "metadata" "metadata" IoK8sApimachineryPkgApisMetaV1ObjectMeta.to_dict;
  Dump "status" "status" IoK8sApiCoreV1PodStatus.to_dict].
Definition from_dict `{Pydantic} : value → outcome value := from_dict_with schema [
  Get "apiVersion";
  Get "kind";
  FromDict "metadata" IoK8sApimachineryPkgApisMetaV1ObjectMeta.from_dict;
  FromDict "status" IoK8sApiCoreV1PodStatus.from_dict].
Definition to_json `{Pydantic} : value → outcome string := to_json_with to_dict.
Definition from_json `{Pydantic} : string → outcome value := from_json_with from_dict.
Definition to_str `{Pydantic} : value → outcome string := to_str_with schema.
End IoK8sApiCoreV1PodStatusResult.
#[export] Instance IoK8sApiCoreV1PodStatusResult_templated `{PydanticLaws} :
  Templated IoK8sApiCoreV1PodStatusResult.schema IoK8sApiCoreV1PodStatusResult.to_dict
    IoK8sApiCoreV1PodStatusResult.from_dict.
Proof. solve_model. Qed.

Module IoK8sApiCoreV1PodTemplate.
Definition schema `{Pydantic} : Schema := model "IoK8sApiCoreV1PodTemplate" [
  opt "api_version" "apiVersion" StrictStr;
  opt "kind" "kind" StrictStr;
  opt "metadata" "metadata" (Model IoK8sApimachineryPkgApisMetaV1ObjectMeta.schema);
  opt "template" "template" (Model IoK8sApiCoreV1PodTemplateSpec.schema)].
Definition to_dict `{Pydantic} : value → outcome value := to_dict_with schema [
  Dump "metadata" "metadata" IoK8sApimachineryPkgApisMetaV1ObjectMeta.to_dict;
  Dump "template" "template" IoK8sApiCoreV1PodTemplateSpec.to_dict].
Definition from_dict `{Pydantic} : value → outcome value := from_dict_with schema [
  Get "apiVersion";
  Get "kind";
  FromDict "metadata" IoK8sApimachineryPkgApisMetaV1ObjectMeta.from_dict;
  FromDict "template" IoK8sApiCoreV1PodTemplateSpec.from_dict].
Definition to_json `{Pydantic} : value → outcome string := to_json_with to_dict.
Definition from_json `{Pydantic} : string → outcome value := from_json_with from_dict.
Definition to_str `{Pydantic} : value → outcome string := to_str_with schema.
End IoK8sApiCoreV1PodTemplate.
#[export] Instance IoK8sApiCoreV1PodTemplate_templated `{PydanticLaws} :
  Templated IoK8sApiCoreV1PodTemplate.schema IoK8sApiCoreV1PodTemplate.to_dict
    IoK8sApiCoreV1PodTemplate.from_dict.
Proof. solve_model. Qed.

Module IoK8sApiCoreV1PodTemplateList.
Definition schema `{Pydantic} : Schema := model "IoK8sApiCoreV1PodTemplateList" [
  opt "api_version" "apiVersion" StrictStr;
  req "items" "items" (List (Model IoK8sApiCoreV1PodTemplate.schema));
  opt "kind" "kind" StrictStr;
  opt "metadata" "metadata" (Model IoK8sApimachineryPkgApisMetaV1ListMeta.schema)].
Definition to_dict `{Pydantic} : value → outcome value := to_dict_with schema [
  DumpItems "items" "items" IoK8sApiCoreV1PodTemplate.to_dict;
  Dump "metadata" "metadata" IoK8sApimachineryPkgApisMetaV1ListMeta.to_dict].
Definition from_dict `{Pydantic} : value → outcome value := from_dict_with schema [
  Get "apiVersion";
  FromDictItems "items" IoK8sApiCoreV1PodTemplate.from_dict;
  Get "kind";
  FromDict "metadata" IoK8sApimachineryPkgApisMetaV1ListMeta.from_dict].
Definition to_json `{Pydantic} : value → outcome string := to_json_with to_dict.
Definition from_json `{Pydantic} : string → outcome value := from_json_with from_dict.
Definition to_str `{Pydantic} : value → outcome string := to_str_with schema.
End IoK8sApiCoreV1PodTemplateList.
#[export] Instance IoK8sApiCoreV1PodTemplateList_templated `{PydanticLaws} :
  Templated IoK8sApiCoreV1PodTemplateList.schema IoK8sApiCoreV1PodTemplateList.to_dict
    IoK8sApiCoreV1PodTemplateList.from_dict.
Proof. solve_model. Qed.

Module IoK8sApiCoreV1ProbeHandler.
Definition schema `{Pydantic} : Schema := model "IoK8sApiCoreV1ProbeHandler" [
  opt "var_exec" "exec" (Model IoK8sApiCoreV1ExecAction.schema);
  opt "grpc" "grpc" (Model IoK8sApiCoreV1GRPCAction.schema);
  opt "http_get" "httpGet" (Model IoK8sApiCoreV1HTTPGetAction.schema);
  opt "tcp_socket" "tcpSocket" (Model IoK8sApiCoreV1TCPSocketAction.schema)].
Definition to_dict `{Pydantic} : value → outcome value := to_dict_with schema [
  Dump "var_exec" "exec" IoK8sApiCoreV1ExecAction.to_dict;
  Dump "grpc" "grpc" IoK8sApiCoreV1GRPCAction.to_dict;
  Dump "http_get" "httpGet" IoK8sApiCoreV1HTTPGetAction.to_dict;
  Dump "tcp_socket" "tcpSocket" IoK8sApiCoreV1TCPSocketAction.to_dict].
Definition from_dict `{Pydantic} : value → outcome value := from_dict_with schema [
  FromDict "exec" IoK8sApiCoreV1ExecAction.from_dict;
  FromDict "grpc" IoK8sApiCoreV1GRPCAction.from_dict;
  FromDict "httpGet" IoK8sApiCoreV1HTTPGetAction.from_dict;
  FromDict "tcpSocket" IoK8sApiCoreV1TCPSocketAction.from_dict].
Definition to_json `{Pydantic} : value → outcome string := to_json_with to_dict.
Definition from_json `{Pydantic} : string → outcome value := from_json_with from_dict.
Definition to_str `{Pydantic} : value → outcome string := to_str_with schema.
End IoK8sApiCoreV1ProbeHandler.
#[export] Instance IoK8sApiCoreV1ProbeHandler_templated `{PydanticLaws} :
  Templated IoK8sApiCoreV1ProbeHandler.schema IoK8sApiCoreV1ProbeHandler.to_dict
    IoK8sApiCoreV1ProbeHandler.from_dict.
Proof. solve_model. Qed.

Module IoK8sApiCoreV1RangeAllocation.
Definition schema `{Pydantic} : Schema := model "IoK8sApiCoreV1RangeAllocation" [
  opt "api_version" "apiVersion" StrictStr;
  req "data" "data" (Union StrictBytes StrictStr);
  opt "kind" "kind" StrictStr;
  opt "metadata" "metadata" (Model IoK8sApimachineryPkgApisMetaV1ObjectMeta.schema);
  req "range" "range" StrictStr].
Definition to_dict `{Pydantic} : value → outcome value := to_dict_with schema [
  Dump "metadata" "metadata" IoK8sApimachineryPkgApisMetaV1ObjectMeta.to_dict].
Definition from_dict `{Pydantic} : value → outcome value := from_dict_with schema [
  Get "apiVersion";
  Get "data";
  Get "kind";
  FromDict "metadata" IoK8sApimachineryPkgApisMetaV1ObjectMeta.from_dict;
  GetOr "range" (VStr "")].
Definition to_json `{Pydantic} : value → outcome string := to_json_with to_dict.
Definition from_json `{Pydantic} : string → outcome value := from_json_with from_dict.
Definition to_str `{Pydantic} : value → outcome string := to_str_with schema.
End IoK8sApiCoreV1RangeAllocation.
#[export] Instance IoK8sApiCoreV1RangeAllocation_templated `{PydanticLaws} :
  Templated IoK8sApiCoreV1RangeAllocation.schema IoK8sApiCoreV1RangeAllocation.to_dict
    IoK8sApiCoreV1RangeAllocation.from_dict.
Proof. solve_model. Qed.

Module IoK8sApiCoreV1ReplicationControllerSpec.
Definition schema `{Pydantic} : Schema := model "IoK8sApiCoreV1ReplicationControllerSpec" [
  opt_or "min_ready_seconds" "minReadySeconds" StrictInt (VInt 0);
  opt_or "replicas" "replicas" StrictInt (VInt 1);
  opt "selector" "selector" (Dict StrictStr);
  opt "template" "template" (Model IoK8sApiCoreV1PodTemplateSpec.schema)].
Definition to_dict `{Pydantic} : value → outcome value := to_dict_with schema [
  Dump "template" "template" IoK8sApiCoreV1PodTemplateSpec.to_dict].
Definition from_dict `{Pydantic} : value → outcome value := from_dict_with schema [
  GetOr "minReadySeconds" (VInt 0);
  GetOr "replicas" (VInt 1);
  Get "selector";
  FromDict "template" IoK8sApiCoreV1PodTemplateSpec.from_dict].
Definition to_json `{Pydantic} : value → outcome string := to_json_with to_dict.
Definition from_json `{Pydantic} : string → outcome value := from_json_with from_dict.
Definition to_str `{Pydantic} : value → outcome string := to_str_with schema.
End IoK8sApiCoreV1ReplicationControllerSpec.
#[export] Instance IoK8sApiCoreV1ReplicationControllerSpec_templated `{PydanticLaws} :
  Templated IoK8sApiCoreV1ReplicationControllerSpec.schema
    IoK8sApiCoreV1ReplicationControllerSpec.to_dict
      IoK8sApiCoreV1ReplicationControllerSpec.from_dict.
Proof. solve_model. Qed.

Module IoK8sApiCoreV1ReplicationControllerCondition.
Definition schema `{Pydantic} : Schema := model "IoK8sApiCoreV1ReplicationControllerCondition" [
  opt "last_transition_time" "lastTransitionTime" Datetime;
  opt "message" "message" StrictStr;
  opt "reason" "reason" StrictStr;
  req "status" "status" StrictStr;
  req "type" "type" StrictStr].
Definition to_dict `{Pydantic} : value → outcome value := to_dict_with schema [].
Definition from_dict `{Pydantic} : value → outcome value := from_dict_with schema [
  Get "lastTransitionTime";
  Get "message";
  Get "reason";
  GetOr "status" (VStr "");
  GetOr "type" (VStr "")].
Definition to_json `{Pydantic} : value → outcome string := to_json_with to_dict.
Definition from_json `{Pydantic} : string → outcome value := from_json_with from_dict.
Definition to_str `{Pydantic} : value → outcome string := to_str_with schema.
End IoK8sApiCoreV1ReplicationControllerCondition.
#[export] Instance IoK8sApiCoreV1ReplicationControllerCondition_templated `{PydanticLaws} :
  Templated IoK8sApiCoreV1ReplicationControllerCondition.schema
    IoK8sApiCoreV1ReplicationControllerCondition.to_dict
      IoK8sApiCoreV1ReplicationControllerCondition.from_dict.
Proof. solve_model. Qed.

Module IoK8sApiCoreV1ReplicationControllerStatus.
Definition schema `{Pydantic} : Schema := model "IoK8sApiCoreV1ReplicationControllerStatus" [
  opt "available_replicas" "availableReplicas" StrictInt;
  opt "conditions" "conditions" (List (Model IoK8sApiCoreV1ReplicationControllerCondition.schema));
  opt "fully_labeled_replicas" "fullyLabeledReplicas" StrictInt;
  opt "observed_generation" "observedGeneration" StrictInt;
  opt "ready_replicas" "readyReplicas" StrictInt;
  req "replicas" "replicas" StrictInt].
Definition to_dict `{Pydantic} : value → outcome value := to_dict_with schema [
  DumpItems "conditions" "conditions" IoK8sApiCoreV1ReplicationControllerCondition.to_dict].
Definition from_dict `{Pydantic} : value → outcome value := from_dict_with schema [
  Get "availableReplicas";
  FromDictItems "conditions" IoK8sApiCoreV1ReplicationControllerCondition.from_dict;
  Get "fullyLabeledReplicas";
  Get "observedGeneration";
  Get "readyReplicas";
  GetOr "replicas" (VInt 0)].
Definition to_json `{Pydantic} : value → outcome string := to_json_with to_dict.
Definition from_json `{Pydantic} : string → outcome value := from_json_with from_dict.
Definition to_str `{Pydantic} : value → outcome string := to_str_with schema.
End IoK8sApiCoreV1ReplicationControllerStatus.
#[export] Instance IoK8sApiCoreV1ReplicationControllerStatus_templated `{PydanticLaws} :
  Templated IoK8sApiCoreV1ReplicationControllerStatus.schema
    IoK8sApiCoreV1ReplicationControllerStatus.to_dict
      IoK8sApiCoreV1ReplicationControllerStatus.from_dict.
Proof. solve_model. Qed.

Module IoK8sApiCoreV1ReplicationController.
Definition schema `{Pydantic} : Schema := model "IoK8sApiCoreV1ReplicationController" [
  opt "api_version" "apiVersion" StrictStr;
  opt "kind" "kind" StrictStr;
  opt "metadata" "metadata" (Model IoK8sApimachineryPkgApisMetaV1ObjectMeta.schema);
  opt "spec" "spec" (Model IoK8sApiCoreV1ReplicationControllerSpec.schema);
  opt "status" "status" (Model IoK8sApiCoreV1ReplicationControllerStatus.schema)].
Definition to_dict `{Pydantic} : value → outcome value := to_dict_with schema [
  Dump "metadata" "metadata" IoK8sApimachineryPkgApisMetaV1ObjectMeta.to_dict;
  Dump "spec" "spec" IoK8sApiCoreV1ReplicationControllerSpec.to_dict;
  Dump "status" "status" IoK8sApiCoreV1ReplicationControllerStatus.to_dict].
Definition from_dict `{Pydantic} : value → outcome value := from_dict_with schema [
  Get "apiVersion";
  Get "kind";
  FromDict "metadata" IoK8sApimachineryPkgApisMetaV1ObjectMeta.from_dict;
  FromDict "spec" IoK8sApiCoreV1ReplicationControllerSpec.from_dict;
  FromDict "status" IoK8sApiCoreV1ReplicationControllerStatus.from_dict].
Definition to_json `{Pydantic} : value → outcome string := to_json_with to_dict.
Definition from_json `{Pydantic} : string → outcome value := from_json_with from_dict.
Definition to_str `{Pydantic} : value → outcome string := to_str_with schema.
End IoK8sApiCoreV1ReplicationController.
#[export] Instance IoK8sApiCoreV1ReplicationController_templated `{PydanticLaws} :
  Templated IoK8sApiCoreV1ReplicationController.schema IoK8sApiCoreV1ReplicationController.to_dict
    IoK8sApiCoreV1ReplicationController.from_dict.
Proof. solve_model. Qed.

Module IoK8sApiCoreV1ReplicationControllerList.
Definition schema `{Pydantic} : Schema := model "IoK8sApiCoreV1ReplicationControllerList" [
  opt "api_version" "apiVersion" StrictStr;
  req "items" "items" (List (Model IoK8sApiCoreV1ReplicationController.schema));
  opt "kind" "kind" StrictStr;
  opt "metadata" "metadata" (Model IoK8sApimachineryPkgApisMetaV1ListMeta.schema)].
Definition to_dict `{Pydantic} : value → outcome value := to_dict_with schema [
  DumpItems "items" "items" IoK8sApiCoreV1ReplicationController.to_dict;
  Dump "metadata" "metadata" IoK8sApimachineryPkgApisMetaV1ListMeta.to_dict].
Definition from_dict `{Pydantic} : value → outcome value := from_dict_with schema [
  Get "apiVersion";
  FromDictItems "items" IoK8sApiCoreV1ReplicationController.from_dict;
  Get "kind";
  FromDict "metadata" IoK8sApimachineryPkgApisMetaV1ListMeta.from_dict].
Definition to_json `{Pydantic} : value → outcome string := to_json_with to_dict.
Definition from_json `{Pydantic} : string → outcome value := from_json_with from_dict.
Definition to_str `{Pydantic} : value → outcome string := to_str_with schema.
End IoK8sApiCoreV1ReplicationControllerList.
#[export] Instance IoK8sApiCoreV1ReplicationControllerList_templated `{PydanticLaws} :
  Templated IoK8sApiCoreV1ReplicationControllerList.schema
    IoK8sApiCoreV1ReplicationControllerList.to_dict
      IoK8sApiCoreV1ReplicationControllerList.from_dict.
Proof. solve_model. Qed.

Module IoK8sApiCoreV1ScopedResourceSelectorRequirement.
Definition schema `{Pydantic} : Schema := model "IoK8sApiCoreV1ScopedResourceSelectorRequirement" [
  checked (req "operator" "operator" StrictStr)
    (one_of ["DoesNotExist"; "Exists"; "In"; "NotIn"]);
  checked (req "scope_name" "scopeName" StrictStr)
    (one_of ["BestEffort"; "CrossNamespacePodAffinity"; "NotBestEffort"; "NotTerminating";
      "PriorityClass"; "Terminating"; "VolumeAttributesClass"]);
  opt "values" "values" (List StrictStr)].
Definition to_dict `{Pydantic} : value → outcome value := to_dict_with schema [].
Definition from_dict `{Pydantic} : value → outcome value := from_dict_with schema [
  Get "operator";
  Get "scopeName";
  Get "values"].
Definition to_json `{Pydantic} : value → outcome string := to_json_with to_dict.
Definition from_json `{Pydantic} : string → outcome value := from_json_with from_dict.
Definition to_str `{Pydantic} : value → outcome string := to_str_with schema.
End IoK8sApiCoreV1ScopedResourceSelectorRequirement.
#[export] Instance IoK8sApiCoreV1ScopedResourceSelectorRequirement_templated `{PydanticLaws} :
  Templated IoK8sApiCoreV1ScopedResourceSelectorRequirement.schema
    IoK8sApiCoreV1ScopedResourceSelectorRequirement.to_dict
      IoK8sApiCoreV1ScopedResourceSelectorRequirement.from_dict.
Proof. solve_model. Qed.

Module IoK8sApiCoreV1ScopeSelector.
Definition schema `{Pydantic} : Schema := model "IoK8sApiCoreV1ScopeSelector" [
  opt "match_expressions" "matchExpressions" (List
    (Model IoK8sApiCoreV1ScopedResourceSelectorRequirement.schema))].
Definition to_dict `{Pydantic} : value → outcome value := to_dict_with schema [
  DumpItems "match_expressions" "matchExpressions"
    IoK8sApiCoreV1ScopedResourceSelectorRequirement.to_dict].
Definition from_dict `{Pydantic} : value → outcome value := from_dict_with schema [
  FromDictItems "matchExpressions" IoK8sApiCoreV1ScopedResourceSelectorRequirement.from_dict].
Definition to_json `{Pydantic} : value → outcome string := to_json_with to_dict.
Definition from_json `{Pydantic} : string → outcome value := from_json_with from_dict.
Definition to_str `{Pydantic} : value → outcome string := to_str_with schema.
End IoK8sApiCoreV1ScopeSelector.
#[export] Instance IoK8sApiCoreV1ScopeSelector_templated `{PydanticLaws} :
  Templated IoK8sApiCoreV1ScopeSelector.schema IoK8sApiCoreV1ScopeSelector.to_dict
    IoK8sApiCoreV1ScopeSelector.from_dict.
Proof. solve_model. Qed.

Module IoK8sApiCoreV1ResourceQuotaSpec.
Definition schema `{Pydantic} : Schema := model "IoK8sApiCoreV1ResourceQuotaSpec" [
  opt "hard" "hard" (Dict (Model IoK8sApimachineryPkgApiResourceQuantity.schema));
  opt "scope_selector" "scopeSelector" (Model IoK8sApiCoreV1ScopeSelector.schema);
  checked (opt "scopes" "scopes" (List StrictStr))
    (none_or_each_of ["BestEffort"; "CrossNamespacePodAffinity"; "NotBestEffort";
      "NotTerminating"; "PriorityClass"; "Terminating"; "VolumeAttributesClass"])].
Definition to_dict `{Pydantic} : value → outcome value := to_dict_with schema [
  DumpValues "hard" "hard" IoK8sApimachineryPkgApiResourceQuantity.to_dict;
  Dump "scope_selector" "scopeSelector" IoK8sApiCoreV1ScopeSelector.to_dict].
Definition from_dict `{Pydantic} : value → outcome value := from_dict_with schema [
  FromDictValues "hard" IoK8sApimachineryPkgApiResourceQuantity.from_dict;
  FromDict "scopeSelector" IoK8sApiCoreV1ScopeSelector.from_dict;
  Get "scopes"].
Definition to_json `{Pydantic} : value → outcome string := to_json_with to_dict.
Definition from_json `{Pydantic} : string → outcome value := from_json_with from_dict.
Definition to_str `{Pydantic} : value → outcome string := to_str_with schema.
End IoK8sApiCoreV1ResourceQuotaSpec.
#[export] Instance IoK8sApiCoreV1ResourceQuotaSpec_templated `{PydanticLaws} :
  Templated IoK8sApiCoreV1ResourceQuotaSpec.schema IoK8sApiCoreV1ResourceQuotaSpec.to_dict
    IoK8sApiCoreV1ResourceQuotaSpec.from_dict.
Proof. solve_model. Qed.

Module IoK8sApiCoreV1ResourceQuotaStatus.
Definition schema `{Pydantic} : Schema := model "IoK8sApiCoreV1ResourceQuotaStatus" [
  opt "hard" "hard" (Dict (Model IoK8sApimachineryPkgApiResourceQuantity.schema));
  opt "used" "used" (Dict (Model IoK8sApimachineryPkgApiResourceQuantity.schema))].
Definition to_dict `{Pydantic} : value → outcome value := to_dict_with schema [
  DumpValues "hard" "hard" IoK8sApimachineryPkgApiResourceQuantity.to_dict;
  DumpValues "used" "used" IoK8sApimachineryPkgApiResourceQuantity.to_dict].
Definition from_dict `{Pydantic} : value → outcome value := from_dict_with schema [
  FromDictValues "hard" IoK8sApimachineryPkgApiResourceQuantity.from_dict;
  FromDictValues "used" IoK8sApimachineryPkgApiResourceQuantity.from_dict].
Definition to_json `{Pydantic} : value → outcome string := to_json_with to_dict.
Definition from_json `{Pydantic} : string → outcome value := from_json_with from_dict.
Definition to_str `{Pydantic} : value → outcome string := to_str_with schema.
End IoK8sApiCoreV1ResourceQuotaStatus.
#[export] Instance IoK8sApiCoreV1ResourceQuotaStatus_templated `{PydanticLaws} :
  Templated IoK8sApiCoreV1ResourceQuotaStatus.schema IoK8sApiCoreV1ResourceQuotaStatus.to_dict
    IoK8sApiCoreV1ResourceQuotaStatus.from_dict.
Proof. solve_model. Qed.

Module IoK8sApiCoreV1ResourceQuota.
Definition schema `{Pydantic} : Schema := model "IoK8sApiCoreV1ResourceQuota" [
  opt "api_version" "apiVersion" StrictStr;
  opt "kind" "kind" StrictStr;
  opt "metadata" "metadata" (Model IoK8sApimachineryPkgApisMetaV1ObjectMeta.schema);
  opt "spec" "spec" (Model IoK8sApiCoreV1ResourceQuotaSpec.schema);
  opt "status" "status" (Model IoK8sApiCoreV1ResourceQuotaStatus.schema)].
Definition to_dict `{Pydantic} : value → outcome value := to_dict_with schema [
  Dump "metadata" "metadata" IoK8sApimachineryPkgApisMetaV1ObjectMeta.to_dict;
  Dump "spec" "spec" IoK8sApiCoreV1ResourceQuotaSpec.to_dict;
  Dump "status" "status" IoK8sApiCoreV1ResourceQuotaStatus.to_dict].
Definition from_dict `{Pydantic} : value → outcome value := from_dict_with schema [
  Get "apiVersion";
  Get "kind";
  FromDict "metadata" IoK8sApimachineryPkgApisMetaV1ObjectMeta.from_dict;
  FromDict "spec" IoK8sApiCoreV1ResourceQuotaSpec.from_dict;
  FromDict "status" IoK8sApiCoreV1ResourceQuotaStatus.from_dict].
Definition to_json `{Pydantic} : value → outcome string := to_json_with to_dict.
Definition from_json `{Pydantic} : string → outcome value := from_json_with from_dict.
Definition to_str `{Pydantic} : value → outcome string := to_str_with schema.
End IoK8sApiCoreV1ResourceQuota.
#[export] Instance IoK8sApiCoreV1ResourceQuota_templated `{PydanticLaws} :
  Templated IoK8sApiCoreV1ResourceQuota.schema IoK8sApiCoreV1ResourceQuota.to_dict
    IoK8sApiCoreV1ResourceQuota.from_dict.
Proof. solve_model. Qed.

Module IoK8sApiCoreV1ResourceQuotaList.
Definition schema `{Pydantic} : Schema := model "IoK8sApiCoreV1ResourceQuotaList" [
  opt "api_version" "apiVersion" StrictStr;
  req "items" "items" (List (Model IoK8sApiCoreV1ResourceQuota.schema));
  opt "kind" "kind" StrictStr;
  opt "metadata" "metadata" (Model IoK8sApimachineryPkgApisMetaV1ListMeta.schema)].
Definition to_dict `{Pydantic} : value → outcome value := to_dict_with schema [
  DumpItems "items" "items" IoK8sApiCoreV1ResourceQuota.to_dict;
  Dump "metadata" "metadata" IoK8sApimachineryPkgApisMetaV1ListMeta.to_dict].
Definition from_dict `{Pydantic} : value → outcome value := from_dict_with schema [
  Get "apiVersion";
  FromDictItems "items" IoK8sApiCoreV1ResourceQuota.from_dict;
  Get "kind";
  FromDict "metadata" IoK8sApimachineryPkgApisMetaV1ListMeta.from_dict].
Definition to_json `{Pydantic} : value → outcome string := to_json_with to_dict.
Definition from_json `{Pydantic} : string → outcome value := from_json_with from_dict.
Definition to_str `{Pydantic} : value → outcome string := to_str_with schema.
End IoK8sApiCoreV1ResourceQuotaList.
#[export] Instance IoK8sApiCoreV1ResourceQuotaList_templated `{PydanticLaws} :
  Templated IoK8sApiCoreV1ResourceQuotaList.schema IoK8sApiCoreV1ResourceQuotaList.to_dict
    IoK8sApiCoreV1ResourceQuotaList.from_dict.
Proof. solve_model. Qed.

Module IoK8sApiCoreV1Secret.
Definition schema `{Pydantic} : Schema := model "IoK8sApiCoreV1Secret" [
  opt "api_version" "apiVersion" StrictStr;
  opt "data" "data" (Dict (Union StrictBytes StrictStr));
  opt "immutable" "immutable" StrictBool;
  opt "kind" "kind" StrictStr;
  opt "metadata" "metadata" (Model IoK8sApimachineryPkgApisMetaV1ObjectMeta.schema);
  opt "string_data" "stringData" (Dict StrictStr);
  opt "type" "type" StrictStr].
Definition to_dict `{Pydantic} : value → outcome value := to_dict_with schema [
  Dump "metadata" "metadata" IoK8sApimachineryPkgApisMetaV1ObjectMeta.to_dict].
Definition from_dict `{Pydantic} : value → outcome value := from_dict_with schema [
  Get "apiVersion";
  Get "data";
  Get "immutable";
  Get "kind";
  FromDict "metadata" IoK8sApimachineryPkgApisMetaV1ObjectMeta.from_dict;
  Get "stringData";
  Get "type"].
Definition to_json `{Pydantic} : value → outcome string := to_json_with to_dict.
Definition from_json `{Pydantic} : string → outcome value := from_json_with from_dict.
Definition to_str `{Pydantic} : value → outcome string := to_str_with schema.
End IoK8sApiCoreV1Secret.
#[export] Instance IoK8sApiCoreV1Secret_templated `{PydanticLaws} :
  Templated IoK8sApiCoreV1Secret.schema IoK8sApiCoreV1Secret.to_dict IoK8sApiCoreV1Secret.from_dict.
Proof. solve_model. Qed.

Module IoK8sApiCoreV1SecretList.
Definition schema `{Pydantic} : Schema := model "IoK8sApiCoreV1SecretList" [
  opt "api_version" "apiVersion" StrictStr;
  req "items" "items" (List (Model IoK8sApiCoreV1Secret.schema));
  opt "kind" "kind" StrictStr;
  opt "metadata" "metadata" (Model IoK8sApimachineryPkgApisMetaV1ListMeta.schema)].
Definition to_dict `{Pydantic} : value → outcome value := to_dict_with schema [
  DumpItems "items" "items" IoK8sApiCoreV1Secret.to_dict;
  Dump "metadata" "metadata" IoK8sApimachineryPkgApisMetaV1ListMeta.to_dict].
Definition from_dict `{Pydantic} : value → outcome value := from_dict_with schema [
  Get "apiVersion";
  FromDictItems "items" IoK8sApiCoreV1Secret.from_dict;
  Get "kind";
  FromDict "metadata" IoK8sApimachineryPkgApisMetaV1ListMeta.from_dict].
Definition to_json `{Pydantic} : value → outcome string := to_json_with to_dict.
Definition from_json `{Pydantic} : string → outcome value := from_json_with from_dict.
Definition to_str `{Pydantic} : value → outcome string := to_str_with schema.
End IoK8sApiCoreV1SecretList.
#[export] Instance IoK8sApiCoreV1SecretList_templated `{PydanticLaws} :
  Templated IoK8sApiCoreV1SecretList.schema IoK8sApiCoreV1SecretList.to_dict
    IoK8sApiCoreV1SecretList.from_dict.
Proof. solve_model. Qed.

Module IoK8sApiCoreV1SerializedReference.
Definition schema `{Pydantic} : Schema := model "IoK8sApiCoreV1SerializedReference" [
  opt "api_version" "apiVersion" StrictStr;
  opt "kind" "kind" StrictStr;
  opt "reference" "reference" (Model IoK8sApiCoreV1ObjectReference.schema)].
Definition to_dict `{Pydantic} : value → outcome value := to_dict_with schema [
  Dump "reference" "reference" IoK8sApiCoreV1ObjectReference.to_dict].
Definition from_dict `{Pydantic} : value → outcome value := from_dict_with schema [
  Get "apiVersion";
  Get "kind";
  FromDict "reference" IoK8sApiCoreV1ObjectReference.from_dict].
Definition to_json `{Pydantic} : value → outcome string := to_json_with to_dict.
Definition from_json `{Pydantic} : string → outcome value := from_json_with from_dict.
Definition to_str `{Pydantic} : value → outcome string := to_str_with schema.
End IoK8sApiCoreV1SerializedReference.
#[export] Instance IoK8sApiCoreV1SerializedReference_templated `{PydanticLaws} :
  Templated IoK8sApiCoreV1SerializedReference.schema IoK8sApiCoreV1SerializedReference.to_dict
    IoK8sApiCoreV1SerializedReference.from_dict.
Proof. solve_model. Qed.

Module IoK8sApiCoreV1ServicePort.
Definition schema `{Pydantic} : Schema := model "IoK8sApiCoreV1ServicePort" [
  opt "app_protocol" "appProtocol" StrictStr;
  opt "name" "name" StrictStr;
  opt "node_port" "nodePort" StrictInt;
  req "port" "port" StrictInt;
  checked (opt_or "protocol" "protocol" StrictStr (VStr "TCP"))
    (none_or_one_of ["SCTP"; "TCP"; "UDP"]);
  opt "target_port" "targetPort" (Model IoK8sApimachineryPkgUtilIntstrIntOrString.schema)].
Definition to_dict `{Pydantic} : value → outcome value := to_dict_with schema [
  Dump "target_port" "targetPort" IoK8sApimachineryPkgUtilIntstrIntOrString.to_dict].
Definition from_dict `{Pydantic} : value → outcome value := from_dict_with schema [
  Get "appProtocol";
  Get "name";
  Get "nodePort";
  GetOr "port" (VInt 0);
  GetOr "protocol" (VStr "TCP");
  FromDict "targetPort" IoK8sApimachineryPkgUtilIntstrIntOrString.from_dict].
Definition to_json `{Pydantic} : value → outcome string := to_json_with to_dict.
Definition from_json `{Pydantic} : string → outcome value := from_json_with from_dict.
Definition to_str `{Pydantic} : value → outcome string := to_str_with schema.
End IoK8sApiCoreV1ServicePort.
#[export] Instance IoK8sApiCoreV1ServicePort_templated `{PydanticLaws} :
  Templated IoK8sApiCoreV1ServicePort.schema IoK8sApiCoreV1ServicePort.to_dict
    IoK8sApiCoreV1ServicePort.from_dict.
Proof. solve_model. Qed.

Module IoK8sApiCoreV1SessionAffinityConfig.
Definition schema `{Pydantic} : Schema := model "IoK8sApiCoreV1SessionAffinityConfig" [
  opt "client_ip" "clientIP" (Model IoK8sApiCoreV1ClientIPConfig.schema)].
Definition to_dict `{Pydantic} : value → outcome value := to_dict_with schema [
  Dump "client_ip" "clientIP" IoK8sApiCoreV1ClientIPConfig.to_dict].
Definition from_dict `{Pydantic} : value → outcome value := from_dict_with schema [
  FromDict "clientIP" IoK8sApiCoreV1ClientIPConfig.from_dict].
Definition to_json `{Pydantic} : value → outcome string := to_json_with to_dict.
Definition from_json `{Pydantic} : string → outcome value := from_json_with from_dict.
Definition to_str `{Pydantic} : value → outcome string := to_str_with schema.
End IoK8sApiCoreV1SessionAffinityConfig.
#[export] Instance IoK8sApiCoreV1SessionAffinityConfig_templated `{PydanticLaws} :
  Templated IoK8sApiCoreV1SessionAffinityConfig.schema IoK8sApiCoreV1SessionAffinityConfig.to_dict
    IoK8sApiCoreV1SessionAffinityConfig.from_dict.
Proof. solve_model. Qed.

Module IoK8sApiCoreV1ServiceSpec.
Definition schema `{Pydantic} : Schema := model "IoK8sApiCoreV1ServiceSpec" [
  opt "allocate_load_balancer_node_ports" "allocateLoadBalancerNodePorts" StrictBool;
  opt "cluster_ip" "clusterIP" StrictStr;
  opt "cluster_ips" "clusterIPs" (List StrictStr);
  opt "external_ips" "externalIPs" (List StrictStr);
  opt "external_name" "externalName" StrictStr;
  checked (opt "external_traffic_policy" "externalTrafficPolicy" StrictStr)
    (none_or_one_of ["Cluster"; "Local"]);
  opt "health_check_node_port" "healthCheckNodePort" StrictInt;
  checked (opt "internal_traffic_policy" "internalTrafficPolicy" StrictStr)
    (none_or_one_of ["Cluster"; "Local"]);
  checked (opt "ip_families" "ipFamilies" (List StrictStr))
    (none_or_each_of [""; "IPv4"; "IPv6"]);
  checked (opt "ip_family_policy" "ipFamilyPolicy" StrictStr)
    (none_or_one_of ["PreferDualStack"; "RequireDualStack"; "SingleStack"]);
  opt "load_balancer_class" "loadBalancerClass" StrictStr;
  opt "load_balancer_ip" "loadBalancerIP" StrictStr;
  opt "load_balancer_source_ranges" "loadBalancerSourceRanges" (List StrictStr);
  opt "ports" "ports" (List (Model IoK8sApiCoreV1ServicePort.schema));
  opt "publish_not_ready_addresses" "publishNotReadyAddresses" StrictBool;
  opt "selector" "selector" (Dict StrictStr);
  checked (opt "session_affinity" "sessionAffinity" StrictStr)
    (none_or_one_of ["ClientIP"; "None"]);
  opt "session_affinity_config" "sessionAffinityConfig"
    (Model IoK8sApiCoreV1SessionAffinityConfig.schema);
  opt "traffic_distribution" "trafficDistribution" StrictStr;
  checked (opt "type" "type" StrictStr)
    (none_or_one_of ["ClusterIP"; "ExternalName"; "LoadBalancer"; "NodePort"])].
Definition to_dict `{Pydantic} : value → outcome value := to_dict_with schema [
  DumpItems "ports" "ports" IoK8sApiCoreV1ServicePort.to_dict;
  Dump "session_affinity_config" "sessionAffinityConfig"
    IoK8sApiCoreV1SessionAffinityConfig.to_dict].
Definition from_dict `{Pydantic} : value → outcome value := from_dict_with schema [
  Get "allocateLoadBalancerNodePorts";
  Get "clusterIP";
  Get "clusterIPs";
  Get "externalIPs";
  Get "externalName";
  Get "externalTrafficPolicy";
  Get "healthCheckNodePort";
  Get "internalTrafficPolicy";
  Get "ipFamilies";
  Get "ipFamilyPolicy";
  Get "loadBalancerClass";
  Get "loadBalancerIP";
  Get "loadBalancerSourceRanges";
  FromDictItems "ports" IoK8sApiCoreV1ServicePort.from_dict;
  Get "publishNotReadyAddresses";
  Get "selector";
  Get "sessionAffinity";
  FromDict "sessionAffinityConfig" IoK8sApiCoreV1SessionAffinityConfig.from_dict;
  Get "trafficDistribution";
  Get "type"].
Definition to_json `{Pydantic} : value → outcome string := to_json_with to_dict.
Definition from_json `{Pydantic} : string → outcome value := from_json_with from_dict.
Definition to_str `{Pydantic} : value → outcome string := to_str_with schema.
End IoK8sApiCoreV1ServiceSpec.
#[export] Instance IoK8sApiCoreV1ServiceSpec_templated `{PydanticLaws} :
  Templated IoK8sApiCoreV1ServiceSpec.schema IoK8sApiCoreV1ServiceSpec.to_dict
    IoK8sApiCoreV1ServiceSpec.from_dict.
Proof. solve_model. Qed.

Module IoK8sApiCoreV1ServiceStatus.
Definition schema `{Pydantic} : Schema := model "IoK8sApiCoreV1ServiceStatus" [
  opt "conditions" "conditions" (List (Model IoK8sApimachineryPkgApisMetaV1Condition.schema));
  opt "load_balancer" "loadBalancer" (Model IoK8sApiCoreV1LoadBalancerStatus.schema)].
Definition to_dict `{Pydantic} : value → outcome value := to_dict_with schema [
  DumpItems "conditions" "conditions" IoK8sApimachineryPkgApisMetaV1Condition.to_dict;
  Dump "load_balancer" "loadBalancer" IoK8sApiCoreV1LoadBalancerStatus.to_dict].
Definition from_dict `{Pydantic} : value → outcome value := from_dict_with schema [
  FromDictItems "conditions" IoK8sApimachineryPkgApisMetaV1Condition.from_dict;
  FromDict "loadBalancer" IoK8sApiCoreV1LoadBalancerStatus.from_dict].
Definition to_json `{Pydantic} : value → outcome string := to_json_with to_dict.
Definition from_json `{Pydantic} : string → outcome value := from_json_with from_dict.
Definition to_str `{Pydantic} : value → outcome string := to_str_with schema.
End IoK8sApiCoreV1ServiceStatus.
#[export] Instance IoK8sApiCoreV1ServiceStatus_templated `{PydanticLaws} :
  Templated IoK8sApiCoreV1ServiceStatus.schema IoK8sApiCoreV1ServiceStatus.to_dict
    IoK8sApiCoreV1ServiceStatus.from_dict.
Proof. solve_model. Qed.

Module IoK8sApiCoreV1Service.
Definition schema `{Pydantic} : Schema := model "IoK8sApiCoreV1Service" [
  opt "api_version" "apiVersion" StrictStr;
  opt "kind" "kind" StrictStr;
  opt "metadata" "metadata" (Model IoK8sApimachineryPkgApisMetaV1ObjectMeta.schema);
  opt "spec" "spec" (Model IoK8sApiCoreV1ServiceSpec.schema);
  opt "status" "status" (Model IoK8sApiCoreV1ServiceStatus.schema)].
Definition to_dict `{Pydantic} : value → outcome value := to_dict_with schema [
  Dump "metadata" "metadata" IoK8sApimachineryPkgApisMetaV1ObjectMeta.to_dict;
  Dump "spec" "spec" IoK8sApiCoreV1ServiceSpec.to_dict;
  Dump "status" "status" IoK8sApiCoreV1ServiceStatus.to_dict].
Definition from_dict `{Pydantic} : value → outcome value := from_dict_with schema [
  Get "apiVersion";
  Get "kind";
  FromDict "metadata" IoK8sApimachineryPkgApisMetaV1ObjectMeta.from_dict;
  FromDict "spec" IoK8sApiCoreV1ServiceSpec.from_dict;
  FromDict "status" IoK8sApiCoreV1ServiceStatus.from_dict].
Definition to_json `{Pydantic} : value → outcome string := to_json_with to_dict.
Definition from_json `{Pydantic} : string → outcome value := from_json_with from_dict.
Definition to_str `{Pydantic} : value → outcome string := to_str_with schema.
End IoK8sApiCoreV1Service.
#[export] Instance IoK8sApiCoreV1Service_templated `{PydanticLaws} :
  Templated IoK8sApiCoreV1Service.schema IoK8sApiCoreV1Service.to_dict
    IoK8sApiCoreV1Service.from_dict.
Proof. solve_model. Qed.

Module IoK8sApiCoreV1ServiceAccount.
Definition schema `{Pydantic} : Schema := model "IoK8sApiCoreV1ServiceAccount" [
  opt "api_version" "apiVersion" StrictStr;
  opt "automount_service_account_token" "automountServiceAccountToken" StrictBool;
  opt "image_pull_secrets" "imagePullSecrets" (List
    (Model IoK8sApiCoreV1LocalObjectReference.schema));
  opt "kind" "kind" StrictStr;
  opt "metadata" "metadata" (Model IoK8sApimachineryPkgApisMetaV1ObjectMeta.schema);
  opt "secrets" "secrets" (List (Model IoK8sApiCoreV1ObjectReference.schema))].
Definition to_dict `{Pydantic} : value → outcome value := to_dict_with schema [
  DumpItems "image_pull_secrets" "imagePullSecrets" IoK8sApiCoreV1LocalObjectReference.to_dict;
  Dump "metadata" "metadata" IoK8sApimachineryPkgApisMetaV1ObjectMeta.to_dict;
  DumpItems "secrets" "secrets" IoK8sApiCoreV1ObjectReference.to_dict].
Definition from_dict `{Pydantic} : value → outcome value := from_dict_with schema [
  Get "apiVersion";
  Get "automountServiceAccountToken";
  FromDictItems "imagePullSecrets" IoK8sApiCoreV1LocalObjectReference.from_dict;
  Get "kind";
  FromDict "metadata" IoK8sApimachineryPkgApisMetaV1ObjectMeta.from_dict;
  FromDictItems "secrets" IoK8sApiCoreV1ObjectReference.from_dict].
Definition to_json `{Pydantic} : value → outcome string := to_json_with to_dict.
Definition from_json `{Pydantic} : string → outcome value := from_json_with from_dict.
Definition to_str `{Pydantic} : value → outcome string := to_str_with schema.
End IoK8sApiCoreV1ServiceAccount.
#[export] Instance IoK8sApiCoreV1ServiceAccount_templated `{PydanticLaws} :
  Templated IoK8sApiCoreV1ServiceAccount.schema IoK8sApiCoreV1ServiceAccount.to_dict
    IoK8sApiCoreV1ServiceAccount.from_dict.
Proof. solve_model. Qed.

Module IoK8sApiCoreV1ServiceAccountList.
Definition schema `{Pydantic} : Schema := model "IoK8sApiCoreV1ServiceAccountList" [
  opt "api_version" "apiVersion" StrictStr;
  req "items" "items" (List (Model IoK8sApiCoreV1ServiceAccount.schema));
  opt "kind" "kind" StrictStr;
  opt "metadata" "metadata" (Model IoK8sApimachineryPkgApisMetaV1ListMeta.schema)].
Definition to_dict `{Pydantic} : value → outcome value := to_dict_with schema [
  DumpItems "items" "items" IoK8sApiCoreV1ServiceAccount.to_dict;
  Dump "metadata" "metadata" IoK8sApimachineryPkgApisMetaV1ListMeta.to_dict].
Definition from_dict `{Pydantic} : value → outcome value := from_dict_with schema [
  Get "apiVersion";
  FromDictItems "items" IoK8sApiCoreV1ServiceAccount.from_dict;
  Get "kind";
  FromDict "metadata" IoK8sApimachineryPkgApisMetaV1ListMeta.from_dict].
Definition to_json `{Pydantic} : value → outcome string := to_json_with to_dict.
Definition from_json `{Pydantic} : string → outcome value := from_json_with from_dict.
Definition to_str `{Pydantic} : value → outcome string := to_str_with schema.
End IoK8sApiCoreV1ServiceAccountList.
#[export] Instance IoK8sApiCoreV1ServiceAccountList_templated `{PydanticLaws} :
  Templated IoK8sApiCoreV1ServiceAccountList.schema IoK8sApiCoreV1ServiceAccountList.to_dict
    IoK8sApiCoreV1ServiceAccountList.from_dict.
Proof. solve_model. Qed.

Module IoK8sApiCoreV1ServiceList.
Definition schema `{Pydantic} : Schema := model "IoK8sApiCoreV1ServiceList" [
  opt "api_version" "apiVersion" StrictStr;
  req "items" "items" (List (Model IoK8sApiCoreV1Service.schema));
  opt "kind" "kind" StrictStr;
  opt "metadata" "metadata" (Model IoK8sApimachineryPkgApisMetaV1ListMeta.schema)].
Definition to_dict `{Pydantic} : value → outcome value := to_dict_with schema [
  DumpItems "items" "items" IoK8sApiCoreV1Service.to_dict;
  Dump "metadata" "metadata" IoK8sApimachineryPkgApisMetaV1ListMeta.to_dict].
Definition from_dict `{Pydantic} : value → outcome value := from_dict_with schema [
  Get "apiVersion";
  FromDictItems "items" IoK8sApiCoreV1Service.from_dict;
  Get "kind";
  FromDict "metadata" IoK8sApimachineryPkgApisMetaV1ListMeta.from_dict].
Definition to_json `{Pydantic} : value → outcome string := to_json_with to_dict.
Definition from_json `{Pydantic} : string → outcome value := from_json_with from_dict.
Definition to_str `{Pydantic} : value → outcome string := to_str_with schema.
End IoK8sApiCoreV1ServiceList.
#[export] Instance IoK8sApiCoreV1ServiceList_templated `{PydanticLaws} :
  Templated IoK8sApiCoreV1ServiceList.schema IoK8sApiCoreV1ServiceList.to_dict
    IoK8sApiCoreV1ServiceList.from_dict.
Proof. solve_model. Qed.

Module IoK8sApiCoreV1ServiceProxyOptions.
Definition schema `{Pydantic} : Schema := model "IoK8sApiCoreV1ServiceProxyOptions" [
  opt "api_version" "apiVersion" StrictStr;
  opt "kind" "kind" StrictStr;
  opt "path" "path" StrictStr].
Definition to_dict `{Pydantic} : value → outcome value := to_dict_with schema [].
Definition from_dict `{Pydantic} : value → outcome value := from_dict_with schema [
  Get "apiVersion";
  Get "kind";
  Get "path"].
Definition to_json `{Pydantic} : value → outcome string := to_json_with to_dict.
Definition from_json `{Pydantic} : string → outcome value := from_json_with from_dict.
Definition to_str `{Pydantic} : value → outcome string := to_str_with schema.
End IoK8sApiCoreV1ServiceProxyOptions.
#[export] Instance IoK8sApiCoreV1ServiceProxyOptions_templated `{PydanticLaws} :
  Templated IoK8sApiCoreV1ServiceProxyOptions.schema IoK8sApiCoreV1ServiceProxyOptions.to_dict
    IoK8sApiCoreV1ServiceProxyOptions.from_dict.
Proof. solve_model. Qed.

Module IoK8sApiCoreV1TopologySelectorLabelRequirement.
Definition schema `{Pydantic} : Schema := model "IoK8sApiCoreV1TopologySelectorLabelRequirement" [
  req "key" "key" StrictStr;
  req "values" "values" (List StrictStr)].
Definition to_dict `{Pydantic} : value → outcome value := to_dict_with schema [].
Definition from_dict `{Pydantic} : value → outcome value := from_dict_with schema [
  GetOr "key" (VStr "");
  Get "values"].
Definition to_json `{Pydantic} : value → outcome string := to_json_with to_dict.
Definition from_json `{Pydantic} : string → outcome value := from_json_with from_dict.
Definition to_str `{Pydantic} : value → outcome string := to_str_with schema.
End IoK8sApiCoreV1TopologySelectorLabelRequirement.
#[export] Instance IoK8sApiCoreV1TopologySelectorLabelRequirement_templated `{PydanticLaws} :
  Templated IoK8sApiCoreV1TopologySelectorLabelRequirement.schema
    IoK8sApiCoreV1TopologySelectorLabelRequirement.to_dict
      IoK8sApiCoreV1TopologySelectorLabelRequirement.from_dict.
Proof. solve_model. Qed.

Module IoK8sApiCoreV1TopologySelectorTerm.
Definition schema `{Pydantic} : Schema := model "IoK8sApiCoreV1TopologySelectorTerm" [
  opt "match_label_expressions" "matchLabelExpressions" (List
    (Model IoK8sApiCoreV1TopologySelectorLabelRequirement.schema))].
Definition to_dict `{Pydantic} : value → outcome value := to_dict_with schema [
  DumpItems "match_label_expressions" "matchLabelExpressions"
    IoK8sApiCoreV1TopologySelectorLabelRequirement.to_dict].
Definition from_dict `{Pydantic} : value → outcome value := from_dict_with schema [
  FromDictItems "matchLabelExpressions" IoK8sApiCoreV1TopologySelectorLabelRequirement.from_dict].
Definition to_json `{Pydantic} : value → outcome string := to_json_with to_dict.
Definition from_json `{Pydantic} : string → outcome value := from_json_with from_dict.
Definition to_str `{Pydantic} : value → outcome string := to_str_with schema.
End IoK8sApiCoreV1TopologySelectorTerm.
#[export] Instance IoK8sApiCoreV1TopologySelectorTerm_templated `{PydanticLaws} :
  Templated IoK8sApiCoreV1TopologySelectorTerm.schema IoK8sApiCoreV1TopologySelectorTerm.to_dict
    IoK8sApiCoreV1TopologySelectorTerm.from_dict.
Proof. solve_model. Qed.

Module IoK8sApiCoreV1VolumeSource.
Definition schema `{Pydantic} : Schema := model "IoK8sApiCoreV1VolumeSource" [
  opt "aws_elastic_block_store" "awsElasticBlockStore"
    (Model IoK8sApiCoreV1AWSElasticBlockStoreVolumeSource.schema);
  opt "azure_disk" "azureDisk" (Model IoK8sApiCoreV1AzureDiskVolumeSource.schema);
  opt "azure_file" "azureFile" (Model IoK8sApiCoreV1AzureFileVolumeSource.schema);
  opt "cephfs" "cephfs" (Model IoK8sApiCoreV1CephFSVolumeSource.schema);
  opt "cinder" "cinder" (Model IoK8sApiCoreV1CinderVolumeSource.schema);
  opt "config_map" "configMap" (Model IoK8sApiCoreV1ConfigMapVolumeSource.schema);
  opt "csi" "csi" (Model IoK8sApiCoreV1CSIVolumeSource.schema);
  opt "downward_api" "downwardAPI" (Model IoK8sApiCoreV1DownwardAPIVolumeSource.schema);
  opt "empty_dir" "emptyDir" (Model IoK8sApiCoreV1EmptyDirVolumeSource.schema);
  opt "ephemeral" "ephemeral" (Model IoK8sApiCoreV1EphemeralVolumeSource.schema);
  opt "fc" "fc" (Model IoK8sApiCoreV1FCVolumeSource.schema);
  opt "flex_volume" "flexVolume" (Model IoK8sApiCoreV1FlexVolumeSource.schema);
  opt "flocker" "flocker" (Model IoK8sApiCoreV1FlockerVolumeSource.schema);
  opt "gce_persistent_disk" "gcePersistentDisk"
    (Model IoK8sApiCoreV1GCEPersistentDiskVolumeSource.schema);
  opt "git_repo" "gitRepo" (Model IoK8sApiCoreV1GitRepoVolumeSource.schema);
  opt "glusterfs" "glusterfs" (Model IoK8sApiCoreV1GlusterfsVolumeSource.schema);
  opt "host_path" "hostPath" (Model IoK8sApiCoreV1HostPathVolumeSource.schema);
  opt "image" "image" (Model IoK8sApiCoreV1ImageVolumeSource.schema);
  opt "iscsi" "iscsi" (Model IoK8sApiCoreV1ISCSIVolumeSource.schema);
  opt "nfs" "nfs" (Model IoK8sApiCoreV1NFSVolumeSource.schema);
  opt "persistent_volume_claim" "persistentVolumeClaim"
    (Model IoK8sApiCoreV1PersistentVolumeClaimVolumeSource.schema);
  opt "photon_persistent_disk" "photonPersistentDisk"
    (Model IoK8sApiCoreV1PhotonPersistentDiskVolumeSource.schema);
  opt "portworx_volume" "portworxVolume" (Model IoK8sApiCoreV1PortworxVolumeSource.schema);
  opt "projected" "projected" (Model IoK8sApiCoreV1ProjectedVolumeSource.schema);
  opt "quobyte" "quobyte" (Model IoK8sApiCoreV1QuobyteVolumeSource.schema);
  opt "rbd" "rbd" (Model IoK8sApiCoreV1RBDVolumeSource.schema);
  opt "scale_io" "scaleIO" (Model IoK8sApiCoreV1ScaleIOVolumeSource.schema);
  opt "secret" "secret" (Model IoK8sApiCoreV1SecretVolumeSource.schema);
  opt "storageos" "storageos" (Model IoK8sApiCoreV1StorageOSVolumeSource.schema);
  opt "vsphere_volume" "vsphereVolume" (Model IoK8sApiCoreV1VsphereVirtualDiskVolumeSource.schema)].
Definition to_dict `{Pydantic} : value → outcome value := to_dict_with schema [
  Dump "aws_elastic_block_store" "awsElasticBlockStore"
    IoK8sApiCoreV1AWSElasticBlockStoreVolumeSource.to_dict;
  Dump "azure_disk" "azureDisk" IoK8sApiCoreV1AzureDiskVolumeSource.to_dict;
  Dump "azure_file" "azureFile" IoK8sApiCoreV1AzureFileVolumeSource.to_dict;
  Dump "cephfs" "cephfs" IoK8sApiCoreV1CephFSVolumeSource.to_dict;
  Dump "cinder" "cinder" IoK8sApiCoreV1CinderVolumeSource.to_dict;
  Dump "config_map" "configMap" IoK8sApiCoreV1ConfigMapVolumeSource.to_dict;
  Dump "csi" "csi" IoK8sApiCoreV1CSIVolumeSource.to_dict;
  Dump "downward_api" "downwardAPI" IoK8sApiCoreV1DownwardAPIVolumeSource.to_dict;
  Dump "empty_dir" "emptyDir" IoK8sApiCoreV1EmptyDirVolumeSource.to_dict;
  Dump "ephemeral" "ephemeral" IoK8sApiCoreV1EphemeralVolumeSource.to_dict;
  Dump "fc" "fc" IoK8sApiCoreV1FCVolumeSource.to_dict;
  Dump "flex_volume" "flexVolume" IoK8sApiCoreV1FlexVolumeSource.to_dict;
  Dump "flocker" "flocker" IoK8sApiCoreV1FlockerVolumeSource.to_dict;
  Dump "gce_persistent_disk" "gcePersistentDisk"
    IoK8sApiCoreV1GCEPersistentDiskVolumeSource.to_dict;
  Dump "git_repo" "gitRepo" IoK8sApiCoreV1GitRepoVolumeSource.to_dict;
  Dump "glusterfs" "glusterfs" IoK8sApiCoreV1GlusterfsVolumeSource.to_dict;
  Dump "host_path" "hostPath" IoK8sApiCoreV1HostPathVolumeSource.to_dict;
  Dump "image" "image" IoK8sApiCoreV1ImageVolumeSource.to_dict;
  Dump "iscsi" "iscsi" IoK8sApiCoreV1ISCSIVolumeSource.to_dict;
  Dump "nfs" "nfs" IoK8sApiCoreV1NFSVolumeSource.to_dict;
  Dump "persistent_volume_claim" "persistentVolumeClaim"
    IoK8sApiCoreV1PersistentVolumeClaimVolumeSource.to_dict;
  Dump "photon_persistent_disk" "photonPersistentDisk"
    IoK8sApiCoreV1PhotonPersistentDiskVolumeSource.to_dict;
  Dump "portworx_volume" "portworxVolume" IoK8sApiCoreV1PortworxVolumeSource.to_dict;
  Dump "projected" "projected" IoK8sApiCoreV1ProjectedVolumeSource.to_dict;
  Dump "quobyte" "quobyte" IoK8sApiCoreV1QuobyteVolumeSource.to_dict;
  Dump "rbd" "rbd" IoK8sApiCoreV1RBDVolumeSource.to_dict;
  Dump "scale_io" "scaleIO" IoK8sApiCoreV1ScaleIOVolumeSource.to_dict;
  Dump "secret" "secret" IoK8sApiCoreV1SecretVolumeSource.to_dict;
  Dump "storageos" "storageos" IoK8sApiCoreV1StorageOSVolumeSource.to_dict;
  Dump "vsphere_volume" "vsphereVolume" IoK8sApiCoreV1VsphereVirtualDiskVolumeSource.to_dict].
Definition from_dict `{Pydantic} : value → outcome value := from_dict_with schema [
  FromDict "awsElasticBlockStore" IoK8sApiCoreV1AWSElasticBlockStoreVolumeSource.from_dict;
  FromDict "azureDisk" IoK8sApiCoreV1AzureDiskVolumeSource.from_dict;
  FromDict "azureFile" IoK8sApiCoreV1AzureFileVolumeSource.from_dict;
  FromDict "cephfs" IoK8sApiCoreV1CephFSVolumeSource.from_dict;
  FromDict "cinder" IoK8sApiCoreV1CinderVolumeSource.from_dict;
  FromDict "configMap" IoK8sApiCoreV1ConfigMapVolumeSource.from_dict;
  FromDict "csi" IoK8sApiCoreV1CSIVolumeSource.from_dict;
  FromDict "downwardAPI" IoK8sApiCoreV1DownwardAPIVolumeSource.from_dict;
  FromDict "emptyDir" IoK8sApiCoreV1EmptyDirVolumeSource.from_dict;
  FromDict "ephemeral" IoK8sApiCoreV1EphemeralVolumeSource.from_dict;
  FromDict "fc" IoK8sApiCoreV1FCVolumeSource.from_dict;
  FromDict "flexVolume" IoK8sApiCoreV1FlexVolumeSource.from_dict;
  FromDict "flocker" IoK8sApiCoreV1FlockerVolumeSource.from_dict;
  FromDict "gcePersistentDisk" IoK8sApiCoreV1GCEPersistentDiskVolumeSource.from_dict;
  FromDict "gitRepo" IoK8sApiCoreV1GitRepoVolumeSource.from_dict;
  FromDict "glusterfs" IoK8sApiCoreV1GlusterfsVolumeSource.from_dict;
  FromDict "hostPath" IoK8sApiCoreV1HostPathVolumeSource.from_dict;
  FromDict "image" IoK8sApiCoreV1ImageVolumeSource.from_dict;
  FromDict "iscsi" IoK8sApiCoreV1ISCSIVolumeSource.from_dict;
  FromDict "nfs" IoK8sApiCoreV1NFSVolumeSource.from_dict;
  FromDict "persistentVolumeClaim" IoK8sApiCoreV1PersistentVolumeClaimVolumeSource.from_dict;
  FromDict "photonPersistentDisk" IoK8sApiCoreV1PhotonPersistentDiskVolumeSource.from_dict;
  FromDict "portworxVolume" IoK8sApiCoreV1PortworxVolumeSource.from_dict;
  FromDict "projected" IoK8sApiCoreV1ProjectedVolumeSource.from_dict;
  FromDict "quobyte" IoK8sApiCoreV1QuobyteVolumeSource.from_dict;
  FromDict "rbd" IoK8sApiCoreV1RBDVolumeSource.from_dict;
  FromDict "scaleIO" IoK8sApiCoreV1ScaleIOVolumeSource.from_dict;
  FromDict "secret" IoK8sApiCoreV1SecretVolumeSource.from_dict;
  FromDict "storageos" IoK8sApiCoreV1StorageOSVolumeSource.from_dict;
  FromDict "vsphereVolume" IoK8sApiCoreV1VsphereVirtualDiskVolumeSource.from_dict].
Definition to_json `{Pydantic} : value → outcome string := to_json_with to_dict.
Definition from_json `{Pydantic} : string → outcome value := from_json_with from_dict.
Definition to_str `{Pydantic} : value → outcome string := to_str_with schema.
End IoK8sApiCoreV1VolumeSource.
#[export] Instance IoK8sApiCoreV1VolumeSource_templated `{PydanticLaws} :
  Templated IoK8sApiCoreV1VolumeSource.schema IoK8sApiCoreV1VolumeSource.to_dict
    IoK8sApiCoreV1VolumeSource.from_dict.
Proof. solve_model. Qed.

Module IoK8sApiCoreV1WorkloadReference.
Definition schema `{Pydantic} : Schema := model "IoK8sApiCoreV1WorkloadReference" [
  req "name" "name" StrictStr;
  req "pod_group" "podGroup" StrictStr;
  opt "pod_group_replica_key" "podGroupReplicaKey" StrictStr].
Definition to_dict `{Pydantic} : value → outcome value := to_dict_with schema [].
Definition from_dict `{Pydantic} : value → outcome value := from_dict_with schema [
  GetOr "name" (VStr "");
  GetOr "podGroup" (VStr "");
  Get "podGroupReplicaKey"].
Definition to_json `{Pydantic} : value → outcome string := to_json_with to_dict.
Definition from_json `{Pydantic} : string → outcome value := from_json_with from_dict.
Definition to_str `{Pydantic} : value → outcome string := to_str_with schema.
End IoK8sApiCoreV1WorkloadReference.
#[export] Instance IoK8sApiCoreV1WorkloadReference_templated `{PydanticLaws} :
  Templated IoK8sApiCoreV1WorkloadReference.schema IoK8sApiCoreV1WorkloadReference.to_dict
    IoK8sApiCoreV1WorkloadReference.from_dict.
Proof. solve_model. Qed.

(** All the classes of this file. *)
Definition more_core_models `{Pydantic} : list ApiModel := [
  {| m_schema := IoK8sApiCoreV1ObjectReference.schema;
     m_to_dict := IoK8sApiCoreV1ObjectReference.to_dict;
     m_from_dict := IoK8sApiCoreV1ObjectReference.from_dict;
     m_to_json := IoK8sApiCoreV1ObjectReference.to_json;
     m_from_json := IoK8sApiCoreV1ObjectReference.from_json;
     m_to_str := IoK8sApiCoreV1ObjectReference.to_str |};
  {| m_schema := IoK8sApiCoreV1AttachedVolume.schema;
     m_to_dict := IoK8sApiCoreV1AttachedVolume.to_dict;
     m_from_dict := IoK8sApiCoreV1AttachedVolume.from_dict;
     m_to_json := IoK8sApiCoreV1AttachedVolume.to_json;
     m_from_json := IoK8sApiCoreV1AttachedVolume.from_json;
     m_to_str := IoK8sApiCoreV1AttachedVolume.to_str |};
  {| m_schema := IoK8sApiCoreV1PodSignature.schema;
     m_to_dict := IoK8sApiCoreV1PodSignature.to_dict;
     m_from_dict := IoK8sApiCoreV1PodSignature.from_dict;
     m_to_json := IoK8sApiCoreV1PodSignature.to_json;
     m_from_json := IoK8sApiCoreV1PodSignature.from_json;
     m_to_str := IoK8sApiCoreV1PodSignature.to_str |};
  {| m_schema := IoK8sApiCoreV1PreferAvoidPodsEntry.schema;
     m_to_dict := IoK8sApiCoreV1PreferAvoidPodsEntry.to_dict;
     m_from_dict := IoK8sApiCoreV1PreferAvoidPodsEntry.from_dict;
     m_to_json := IoK8sApiCoreV1PreferAvoidPodsEntry.to_json;
     m_from_json := IoK8sApiCoreV1PreferAvoidPodsEntry.from_json;
     m_to_str := IoK8sApiCoreV1PreferAvoidPodsEntry.to_str |};
  {| m_schema := IoK8sApiCoreV1AvoidPods.schema;
     m_to_dict := IoK8sApiCoreV1AvoidPods.to_dict;
     m_from_dict := IoK8sApiCoreV1AvoidPods.from_dict;
     m_to_json := IoK8sApiCoreV1AvoidPods.to_json;
     m_from_json := IoK8sApiCoreV1AvoidPods.from_json;
     m_to_str := IoK8sApiCoreV1AvoidPods.to_str |};
  {| m_schema := IoK8sApiCoreV1AzureFilePersistentVolumeSource.schema;
     m_to_dict := IoK8sApiCoreV1AzureFilePersistentVolumeSource.to_dict;
     m_from_dict := IoK8sApiCoreV1AzureFilePersistentVolumeSource.from_dict;
     m_to_json := IoK8sApiCoreV1AzureFilePersistentVolumeSource.to_json;
     m_from_json := IoK8sApiCoreV1AzureFilePersistentVolumeSource.from_json;
     m_to_str := IoK8sApiCoreV1AzureFilePersistentVolumeSource.to_str |};
  {| m_schema := IoK8sApiCoreV1Binding.schema;
     m_to_dict := IoK8sApiCoreV1Binding.to_dict;
     m_from_dict := IoK8sApiCoreV1Binding.from_dict;
     m_to_json := IoK8sApiCoreV1Binding.to_json;
     m_from_json := IoK8sApiCoreV1Binding.from_json;
     m_to_str := IoK8sApiCoreV1Binding.to_str |};
  {| m_schema := IoK8sApiCoreV1SecretReference.schema;
     m_to_dict := IoK8sApiCoreV1SecretReference.to_dict;
     m_from_dict := IoK8sApiCoreV1SecretReference.from_dict;
     m_to_json := IoK8sApiCoreV1SecretReference.to_json;
     m_from_json := IoK8sApiCoreV1SecretReference.from_json;
     m_to_str := IoK8sApiCoreV1SecretReference.to_str |};
  {| m_schema := IoK8sApiCoreV1CephFSPersistentVolumeSource.schema;
     m_to_dict := IoK8sApiCoreV1CephFSPersistentVolumeSource.to_dict;
     m_from_dict := IoK8sApiCoreV1CephFSPersistentVolumeSource.from_dict;
     m_to_json := IoK8sApiCoreV1CephFSPersistentVolumeSource.to_json;
     m_from_json := IoK8sApiCoreV1CephFSPersistentVolumeSource.from_json;
     m_to_str := IoK8sApiCoreV1CephFSPersistentVolumeSource.to_str |};
  {| m_schema := IoK8sApiCoreV1CinderPersistentVolumeSource.schema;
     m_to_dict := IoK8sApiCoreV1CinderPersistentVolumeSource.to_dict;
     m_from_dict := IoK8sApiCoreV1CinderPersistentVolumeSource.from_dict;
     m_to_json := IoK8sApiCoreV1CinderPersistentVolumeSource.to_json;
     m_from_json := IoK8sApiCoreV1CinderPersistentVolumeSource.from_json;
     m_to_str := IoK8sApiCoreV1CinderPersistentVolumeSource.to_str |};
  {| m_schema := IoK8sApiCoreV1ClientIPConfig.schema;
     m_to_dict := IoK8sApiCoreV1ClientIPConfig.to_dict;
     m_from_dict := IoK8sApiCoreV1ClientIPConfig.from_dict;
     m_to_json := IoK8sApiCoreV1ClientIPConfig.to_json;
     m_from_json := IoK8sApiCoreV1ClientIPConfig.from_json;
     m_to_str := IoK8sApiCoreV1ClientIPConfig.to_str |};
  {| m_schema := IoK8sApiCoreV1ComponentCondition.schema;
     m_to_dict := IoK8sApiCoreV1ComponentCondition.to_dict;
     m_from_dict := IoK8sApiCoreV1ComponentCondition.from_dict;
     m_to_json := IoK8sApiCoreV1ComponentCondition.to_json;
     m_from_json := IoK8sApiCoreV1ComponentCondition.from_json;
     m_to_str := IoK8sApiCoreV1ComponentCondition.to_str |};
  {| m_schema := IoK8sApiCoreV1ComponentStatus.schema;
     m_to_dict := IoK8sApiCoreV1ComponentStatus.to_dict;
     m_from_dict := IoK8sApiCoreV1ComponentStatus.from_dict;
     m_to_json := IoK8sApiCoreV1ComponentStatus.to_json;
     m_from_json := IoK8sApiCoreV1ComponentStatus.from_json;
     m_to_str := IoK8sApiCoreV1ComponentStatus.to_str |};
  {| m_schema := IoK8sApiCoreV1ComponentStatusList.schema;
     m_to_dict := IoK8sApiCoreV1ComponentStatusList.to_dict;
     m_from_dict := IoK8sApiCoreV1ComponentStatusList.from_dict;
     m_to_json := IoK8sApiCoreV1ComponentStatusList.to_json;
     m_from_json := IoK8sApiCoreV1ComponentStatusList.from_json;
     m_to_str := IoK8sApiCoreV1ComponentStatusList.to_str |};
  {| m_schema := IoK8sApiCoreV1ConfigMap.schema;
     m_to_dict := IoK8sApiCoreV1ConfigMap.to_dict;
     m_from_dict := IoK8sApiCoreV1ConfigMap.from_dict;
     m_to_json := IoK8sApiCoreV1ConfigMap.to_json;
     m_from_json := IoK8sApiCoreV1ConfigMap.from_json;
     m_to_str := IoK8sApiCoreV1ConfigMap.to_str |};
  {| m_schema := IoK8sApiCoreV1ConfigMapList.schema;
     m_to_dict := IoK8sApiCoreV1ConfigMapList.to_dict;
     m_from_dict := IoK8sApiCoreV1ConfigMapList.from_dict;
     m_to_json := IoK8sApiCoreV1ConfigMapList.to_json;
     m_from_json := IoK8sApiCoreV1ConfigMapList.from_json;
     m_to_str := IoK8sApiCoreV1ConfigMapList.to_str |};
  {| m_schema := IoK8sApiCoreV1ConfigMapNodeConfigSource.schema;
     m_to_dict := IoK8sApiCoreV1ConfigMapNodeConfigSource.to_dict;
     m_from_dict := IoK8sApiCoreV1ConfigMapNodeConfigSource.from_dict;
     m_to_json := IoK8sApiCoreV1ConfigMapNodeConfigSource.to_json;
     m_from_json := IoK8sApiCoreV1ConfigMapNodeConfigSource.from_json;
     m_to_str := IoK8sApiCoreV1ConfigMapNodeConfigSource.to_str |};
  {| m_schema := IoK8sApiCoreV1ContainerExtendedResourceRequest.schema;
     m_to_dict := IoK8sApiCoreV1ContainerExtendedResourceRequest.to_dict;
     m_from_dict := IoK8sApiCoreV1ContainerExtendedResourceRequest.from_dict;
     m_to_json := IoK8sApiCoreV1ContainerExtendedResourceRequest.to_json;
     m_from_json := IoK8sApiCoreV1ContainerExtendedResourceRequest.from_json;
     m_to_str := IoK8sApiCoreV1ContainerExtendedResourceRequest.to_str |};
  {| m_schema := IoK8sApiCoreV1ContainerImage.schema;
     m_to_dict := IoK8sApiCoreV1ContainerImage.to_dict;
     m_from_dict := IoK8sApiCoreV1ContainerImage.from_dict;
     m_to_json := IoK8sApiCoreV1ContainerImage.to_json;
     m_from_json := IoK8sApiCoreV1ContainerImage.from_json;
     m_to_str := IoK8sApiCoreV1ContainerImage.to_str |};
  {| m_schema := IoK8sApiCoreV1ContainerStateRunning.schema;
     m_to_dict := IoK8sApiCoreV1ContainerStateRunning.to_dict;
     m_from_dict := IoK8sApiCoreV1ContainerStateRunning.from_dict;
     m_to_json := IoK8sApiCoreV1ContainerStateRunning.to_json;
     m_from_json := IoK8sApiCoreV1ContainerStateRunning.from_json;
     m_to_str := IoK8sApiCoreV1ContainerStateRunning.to_str |};
  {| m_schema := IoK8sApiCoreV1ContainerStateTerminated.schema;
     m_to_dict := IoK8sApiCoreV1ContainerStateTerminated.to_dict;
     m_from_dict := IoK8sApiCoreV1ContainerStateTerminated.from_dict;
     m_to_json := IoK8sApiCoreV1ContainerStateTerminated.to_json;
     m_from_json := IoK8sApiCoreV1ContainerStateTerminated.from_json;
     m_to_str := IoK8sApiCoreV1ContainerStateTerminated.to_str |};
  {| m_schema := IoK8sApiCoreV1ContainerStateWaiting.schema;
     m_to_dict := IoK8sApiCoreV1ContainerStateWaiting.to_dict;
     m_from_dict := IoK8sApiCoreV1ContainerStateWaiting.from_dict;
     m_to_json := IoK8sApiCoreV1ContainerStateWaiting.to_json;
     m_from_json := IoK8sApiCoreV1ContainerStateWaiting.from_json;
     m_to_str := IoK8sApiCoreV1ContainerStateWaiting.to_str |};
  {| m_schema := IoK8sApiCoreV1ContainerState.schema;
     m_to_dict := IoK8sApiCoreV1ContainerState.to_dict;
     m_from_dict := IoK8sApiCoreV1ContainerState.from_dict;
     m_to_json := IoK8sApiCoreV1ContainerState.to_json;
     m_from_json := IoK8sApiCoreV1ContainerState.from_json;
     m_to_str := IoK8sApiCoreV1ContainerState.to_str |};
  {| m_schema := IoK8sApiCoreV1ResourceHealth.schema;
     m_to_dict := IoK8sApiCoreV1ResourceHealth.to_dict;
     m_from_dict := IoK8sApiCoreV1ResourceHealth.from_dict;
     m_to_json := IoK8sApiCoreV1ResourceHealth.to_json;
     m_from_json := IoK8sApiCoreV1ResourceHealth.from_json;
     m_to_str := IoK8sApiCoreV1ResourceHealth.to_str |};
  {| m_schema := IoK8sApiCoreV1ResourceStatus.schema;
     m_to_dict := IoK8sApiCoreV1ResourceStatus.to_dict;
     m_from_dict := IoK8sApiCoreV1ResourceStatus.from_dict;
     m_to_json := IoK8sApiCoreV1ResourceStatus.to_json;
     m_from_json := IoK8sApiCoreV1ResourceStatus.from_json;
     m_to_str := IoK8sApiCoreV1ResourceStatus.to_str |};
  {| m_schema := IoK8sApiCoreV1LinuxContainerUser.schema;
     m_to_dict := IoK8sApiCoreV1LinuxContainerUser.to_dict;
     m_from_dict := IoK8sApiCoreV1LinuxContainerUser.from_dict;
     m_to_json := IoK8sApiCoreV1LinuxContainerUser.to_json;
     m_from_json := IoK8sApiCoreV1LinuxContainerUser.from_json;
     m_to_str := IoK8sApiCoreV1LinuxContainerUser.to_str |};
  {| m_schema := IoK8sApiCoreV1ContainerUser.schema;
     m_to_dict := IoK8sApiCoreV1ContainerUser.to_dict;
     m_from_dict := IoK8sApiCoreV1ContainerUser.from_dict;
     m_to_json := IoK8sApiCoreV1ContainerUser.to_json;
     m_from_json := IoK8sApiCoreV1ContainerUser.from_json;
     m_to_str := IoK8sApiCoreV1ContainerUser.to_str |};
  {| m_schema := IoK8sApiCoreV1ImageVolumeStatus.schema;
     m_to_dict := IoK8sApiCoreV1ImageVolumeStatus.to_dict;
     m_from_dict := IoK8sApiCoreV1ImageVolumeStatus.from_dict;
     m_to_json := IoK8sApiCoreV1ImageVolumeStatus.to_json;
     m_from_json := IoK8sApiCoreV1ImageVolumeStatus.from_json;
     m_to_str := IoK8sApiCoreV1ImageVolumeStatus.to_str |};
  {| m_schema := IoK8sApiCoreV1VolumeStatus.schema;
     m_to_dict := IoK8sApiCoreV1VolumeStatus.to_dict;
     m_from_dict := IoK8sApiCoreV1VolumeStatus.from_dict;
     m_to_json := IoK8sApiCoreV1VolumeStatus.to_json;
     m_from_json := IoK8sApiCoreV1VolumeStatus.from_json;
     m_to_str := IoK8sApiCoreV1VolumeStatus.to_str |};
  {| m_schema := IoK8sApiCoreV1VolumeMountStatus.schema;
     m_to_dict := IoK8sApiCoreV1VolumeMountStatus.to_dict;
     m_from_dict := IoK8sApiCoreV1VolumeMountStatus.from_dict;
     m_to_json := IoK8sApiCoreV1VolumeMountStatus.to_json;
     m_from_json := IoK8sApiCoreV1VolumeMountStatus.from_json;
     m_to_str := IoK8sApiCoreV1VolumeMountStatus.to_str |};
  {| m_schema := IoK8sApiCoreV1ContainerStatus.schema;
     m_to_dict := IoK8sApiCoreV1ContainerStatus.to_dict;
     m_from_dict := IoK8sApiCoreV1ContainerStatus.from_dict;
     m_to_json := IoK8sApiCoreV1ContainerStatus.to_json;
     m_from_json := IoK8sApiCoreV1ContainerStatus.from_json;
     m_to_str := IoK8sApiCoreV1ContainerStatus.to_str |};
  {| m_schema := IoK8sApiCoreV1CSIPersistentVolumeSource.schema;
     m_to_dict := IoK8sApiCoreV1CSIPersistentVolumeSource.to_dict;
     m_from_dict := IoK8sApiCoreV1CSIPersistentVolumeSource.from_dict;
     m_to_json := IoK8sApiCoreV1CSIPersistentVolumeSource.to_json;
     m_from_json := IoK8sApiCoreV1CSIPersistentVolumeSource.from_json;
     m_to_str := IoK8sApiCoreV1CSIPersistentVolumeSource.to_str |};
  {| m_schema := IoK8sApiCoreV1DaemonEndpoint.schema;
     m_to_dict := IoK8sApiCoreV1DaemonEndpoint.to_dict;
     m_from_dict := IoK8sApiCoreV1DaemonEndpoint.from_dict;
     m_to_json := IoK8sApiCoreV1DaemonEndpoint.to_json;
     m_from_json := IoK8sApiCoreV1DaemonEndpoint.from_json;
     m_to_str := IoK8sApiCoreV1DaemonEndpoint.to_str |};
  {| m_schema := IoK8sApiCoreV1EndpointAddress.schema;
     m_to_dict := IoK8sApiCoreV1EndpointAddress.to_dict;
     m_from_dict := IoK8sApiCoreV1EndpointAddress.from_dict;
     m_to_json := IoK8sApiCoreV1EndpointAddress.to_json;
     m_from_json := IoK8sApiCoreV1EndpointAddress.from_json;
     m_to_str := IoK8sApiCoreV1EndpointAddress.to_str |};
  {| m_schema := IoK8sApiCoreV1EndpointPort.schema;
     m_to_dict := IoK8sApiCoreV1EndpointPort.to_dict;
     m_from_dict := IoK8sApiCoreV1EndpointPort.from_dict;
     m_to_json := IoK8sApiCoreV1EndpointPort.to_json;
     m_from_json := IoK8sApiCoreV1EndpointPort.from_json;
     m_to_str := IoK8sApiCoreV1EndpointPort.to_str |};
  {| m_schema := IoK8sApiCoreV1EndpointSubset.schema;
     m_to_dict := IoK8sApiCoreV1EndpointSubset.to_dict;
     m_from_dict := IoK8sApiCoreV1EndpointSubset.from_dict;
     m_to_json := IoK8sApiCoreV1EndpointSubset.to_json;
     m_from_json := IoK8sApiCoreV1EndpointSubset.from_json;
     m_to_str := IoK8sApiCoreV1EndpointSubset.to_str |};
  {| m_schema := IoK8sApiCoreV1Endpoints.schema;
     m_to_dict := IoK8sApiCoreV1Endpoints.to_dict;
     m_from_dict := IoK8sApiCoreV1Endpoints.from_dict;
     m_to_json := IoK8sApiCoreV1Endpoints.to_json;
     m_from_json := IoK8sApiCoreV1Endpoints.from_json;
     m_to_str := IoK8sApiCoreV1Endpoints.to_str |};
  {| m_schema := IoK8sApiCoreV1EndpointsList.schema;
     m_to_dict := IoK8sApiCoreV1EndpointsList.to_dict;
     m_from_dict := IoK8sApiCoreV1EndpointsList.from_dict;
     m_to_json := IoK8sApiCoreV1EndpointsList.to_json;
     m_from_json := IoK8sApiCoreV1EndpointsList.from_json;
     m_to_str := IoK8sApiCoreV1EndpointsList.to_str |};
  {| m_schema := IoK8sApiCoreV1EphemeralContainerCommon.schema;
     m_to_dict := IoK8sApiCoreV1EphemeralContainerCommon.to_dict;
     m_from_dict := IoK8sApiCoreV1EphemeralContainerCommon.from_dict;
     m_to_json := IoK8sApiCoreV1EphemeralContainerCommon.to_json;
     m_from_json := IoK8sApiCoreV1EphemeralContainerCommon.from_json;
     m_to_str := IoK8sApiCoreV1EphemeralContainerCommon.to_str |};
  {| m_schema := IoK8sApiCoreV1EventSeries.schema;
     m_to_dict := IoK8sApiCoreV1EventSeries.to_dict;
     m_from_dict := IoK8sApiCoreV1EventSeries.from_dict;
     m_to_json := IoK8sApiCoreV1EventSeries.to_json;
     m_from_json := IoK8sApiCoreV1EventSeries.from_json;
     m_to_str := IoK8sApiCoreV1EventSeries.to_str |};
  {| m_schema := IoK8sApiCoreV1EventSource.schema;
     m_to_dict := IoK8sApiCoreV1EventSource.to_dict;
     m_from_dict := IoK8sApiCoreV1EventSource.from_dict;
     m_to_json := IoK8sApiCoreV1EventSource.to_json;
     m_from_json := IoK8sApiCoreV1EventSource.from_json;
     m_to_str := IoK8sApiCoreV1EventSource.to_str |};
  {| m_schema := IoK8sApiCoreV1Event.schema;
     m_to_dict := IoK8sApiCoreV1Event.to_dict;
     m_from_dict := IoK8sApiCoreV1Event.from_dict;
     m_to_json := IoK8sApiCoreV1Event.to_json;
     m_from_json := IoK8sApiCoreV1Event.from_json;
     m_to_str := IoK8sApiCoreV1Event.to_str |};
  {| m_schema := IoK8sApiCoreV1EventList.schema;
     m_to_dict := IoK8sApiCoreV1EventList.to_dict;
     m_from_dict := IoK8sApiCoreV1EventList.from_dict;
     m_to_json := IoK8sApiCoreV1EventList.to_json;
     m_from_json := IoK8sApiCoreV1EventList.from_json;
     m_to_str := IoK8sApiCoreV1EventList.to_str |};
  {| m_schema := IoK8sApiCoreV1FlexPersistentVolumeSource.schema;
     m_to_dict := IoK8sApiCoreV1FlexPersistentVolumeSource.to_dict;
     m_from_dict := IoK8sApiCoreV1FlexPersistentVolumeSource.from_dict;
     m_to_json := IoK8sApiCoreV1FlexPersistentVolumeSource.to_json;
     m_from_json := IoK8sApiCoreV1FlexPersistentVolumeSource.from_json;
     m_to_str := IoK8sApiCoreV1FlexPersistentVolumeSource.to_str |};
  {| m_schema := IoK8sApiCoreV1GlusterfsPersistentVolumeSource.schema;
     m_to_dict := IoK8sApiCoreV1GlusterfsPersistentVolumeSource.to_dict;
     m_from_dict := IoK8sApiCoreV1GlusterfsPersistentVolumeSource.from_dict;
     m_to_json := IoK8sApiCoreV1GlusterfsPersistentVolumeSource.to_json;
     m_from_json := IoK8sApiCoreV1GlusterfsPersistentVolumeSource.from_json;
     m_to_str := IoK8sApiCoreV1GlusterfsPersistentVolumeSource.to_str |};
  {| m_schema := IoK8sApiCoreV1HostIP.schema;
     m_to_dict := IoK8sApiCoreV1HostIP.to_dict;
     m_from_dict := IoK8sApiCoreV1HostIP.from_dict;
     m_to_json := IoK8sApiCoreV1HostIP.to_json;
     m_from_json := IoK8sApiCoreV1HostIP.from_json;
     m_to_str := IoK8sApiCoreV1HostIP.to_str |};
  {| m_schema := IoK8sApiCoreV1ISCSIPersistentVolumeSource.schema;
     m_to_dict := IoK8sApiCoreV1ISCSIPersistentVolumeSource.to_dict;
     m_from_dict := IoK8sApiCoreV1ISCSIPersistentVolumeSource.from_dict;
     m_to_json := IoK8sApiCoreV1ISCSIPersistentVolumeSource.to_json;
     m_from_json := IoK8sApiCoreV1ISCSIPersistentVolumeSource.from_json;
     m_to_str := IoK8sApiCoreV1ISCSIPersistentVolumeSource.to_str |};
  {| m_schema := IoK8sApiCoreV1LimitRangeItem.schema;
     m_to_dict := IoK8sApiCoreV1LimitRangeItem.to_dict;
     m_from_dict := IoK8sApiCoreV1LimitRangeItem.from_dict;
     m_to_json := IoK8sApiCoreV1LimitRangeItem.to_json;
     m_from_json := IoK8sApiCoreV1LimitRangeItem.from_json;
     m_to_str := IoK8sApiCoreV1LimitRangeItem.to_str |};
  {| m_schema := IoK8sApiCoreV1LimitRangeSpec.schema;
     m_to_dict := IoK8sApiCoreV1LimitRangeSpec.to_dict;
     m_from_dict := IoK8sApiCoreV1LimitRangeSpec.from_dict;
     m_to_json := IoK8sApiCoreV1LimitRangeSpec.to_json;
     m_from_json := IoK8sApiCoreV1LimitRangeSpec.from_json;
     m_to_str := IoK8sApiCoreV1LimitRangeSpec.to_str |};
  {| m_schema := IoK8sApiCoreV1LimitRange.schema;
     m_to_dict := IoK8sApiCoreV1LimitRange.to_dict;
     m_from_dict := IoK8sApiCoreV1LimitRange.from_dict;
     m_to_json := IoK8sApiCoreV1LimitRange.to_json;
     m_from_json := IoK8sApiCoreV1LimitRange.from_json;
     m_to_str := IoK8sApiCoreV1LimitRange.to_str |};
  {| m_schema := IoK8sApiCoreV1LimitRangeList.schema;
     m_to_dict := IoK8sApiCoreV1LimitRangeList.to_dict;
     m_from_dict := IoK8sApiCoreV1LimitRangeList.from_dict;
     m_to_json := IoK8sApiCoreV1LimitRangeList.to_json;
     m_from_json := IoK8sApiCoreV1LimitRangeList.from_json;
     m_to_str := IoK8sApiCoreV1LimitRangeList.to_str |};
  {| m_schema := IoK8sApiCoreV1List.schema;
     m_to_dict := IoK8sApiCoreV1List.to_dict;
     m_from_dict := IoK8sApiCoreV1List.from_dict;
     m_to_json := IoK8sApiCoreV1List.to_json;
     m_from_json := IoK8sApiCoreV1List.from_json;
     m_to_str := IoK8sApiCoreV1List.to_str |};
  {| m_schema := IoK8sApiCoreV1PortStatus.schema;
     m_to_dict := IoK8sApiCoreV1PortStatus.to_dict;
     m_from_dict := IoK8sApiCoreV1PortStatus.from_dict;
     m_to_json := IoK8sApiCoreV1PortStatus.to_json;
     m_from_json := IoK8sApiCoreV1PortStatus.from_json;
     m_to_str := IoK8sApiCoreV1PortStatus.to_str |};
  {| m_schema := IoK8sApiCoreV1LoadBalancerIngress.schema;
     m_to_dict := IoK8sApiCoreV1LoadBalancerIngress.to_dict;
     m_from_dict := IoK8sApiCoreV1LoadBalancerIngress.from_dict;
     m_to_json := IoK8sApiCoreV1LoadBalancerIngress.to_json;
     m_from_json := IoK8sApiCoreV1LoadBalancerIngress.from_json;
     m_to_str := IoK8sApiCoreV1LoadBalancerIngress.to_str |};
  {| m_schema := IoK8sApiCoreV1LoadBalancerStatus.schema;
     m_to_dict := IoK8sApiCoreV1LoadBalancerStatus.to_dict;
     m_from_dict := IoK8sApiCoreV1LoadBalancerStatus.from_dict;
     m_to_json := IoK8sApiCoreV1LoadBalancerStatus.to_json;
     m_from_json := IoK8sApiCoreV1LoadBalancerStatus.from_json;
     m_to_str := IoK8sApiCoreV1LoadBalancerStatus.to_str |};
  {| m_schema := IoK8sApiCoreV1LocalVolumeSource.schema;
     m_to_dict := IoK8sApiCoreV1LocalVolumeSource.to_dict;
     m_from_dict := IoK8sApiCoreV1LocalVolumeSource.from_dict;
     m_to_json := IoK8sApiCoreV1LocalVolumeSource.to_json;
     m_from_json := IoK8sApiCoreV1LocalVolumeSource.from_json;
     m_to_str := IoK8sApiCoreV1LocalVolumeSource.to_str |};
  {| m_schema := IoK8sApiCoreV1NamespaceSpec.schema;
     m_to_dict := IoK8sApiCoreV1NamespaceSpec.to_dict;
     m_from_dict := IoK8sApiCoreV1NamespaceSpec.from_dict;
     m_to_json := IoK8sApiCoreV1NamespaceSpec.to_json;
     m_from_json := IoK8sApiCoreV1NamespaceSpec.from_json;
     m_to_str := IoK8sApiCoreV1NamespaceSpec.to_str |};
  {| m_schema := IoK8sApiCoreV1NamespaceCondition.schema;
     m_to_dict := IoK8sApiCoreV1NamespaceCondition.to_dict;
     m_from_dict := IoK8sApiCoreV1NamespaceCondition.from_dict;
     m_to_json := IoK8sApiCoreV1NamespaceCondition.to_json;
     m_from_json := IoK8sApiCoreV1NamespaceCondition.from_json;
     m_to_str := IoK8sApiCoreV1NamespaceCondition.to_str |};
  {| m_schema := IoK8sApiCoreV1NamespaceStatus.schema;
     m_to_dict := IoK8sApiCoreV1NamespaceStatus.to_dict;
     m_from_dict := IoK8sApiCoreV1NamespaceStatus.from_dict;
     m_to_json := IoK8sApiCoreV1NamespaceStatus.to_json;
     m_from_json := IoK8sApiCoreV1NamespaceStatus.from_json;
     m_to_str := IoK8sApiCoreV1NamespaceStatus.to_str |};
  {| m_schema := IoK8sApiCoreV1Namespace.schema;
     m_to_dict := IoK8sApiCoreV1Namespace.to_dict;
     m_from_dict := IoK8sApiCoreV1Namespace.from_dict;
     m_to_json := IoK8sApiCoreV1Namespace.to_json;
     m_from_json := IoK8sApiCoreV1Namespace.from_json;
     m_to_str := IoK8sApiCoreV1Namespace.to_str |};
  {| m_schema := IoK8sApiCoreV1NamespaceList.schema;
     m_to_dict := IoK8sApiCoreV1NamespaceList.to_dict;
     m_from_dict := IoK8sApiCoreV1NamespaceList.from_dict;
     m_to_json := IoK8sApiCoreV1NamespaceList.to_json;
     m_from_json := IoK8sApiCoreV1NamespaceList.from_json;
     m_to_str := IoK8sApiCoreV1NamespaceList.to_str |};
  {| m_schema := IoK8sApiCoreV1NodeConfigSource.schema;
     m_to_dict := IoK8sApiCoreV1NodeConfigSource.to_dict;
     m_from_dict := IoK8sApiCoreV1NodeConfigSource.from_dict;
     m_to_json := IoK8sApiCoreV1NodeConfigSource.to_json;
     m_from_json := IoK8sApiCoreV1NodeConfigSource.from_json;
     m_to_str := IoK8sApiCoreV1NodeConfigSource.to_str |};
  {| m_schema := IoK8sApiCoreV1NodePodPreemptionPolicy.schema;
     m_to_dict := IoK8sApiCoreV1NodePodPreemptionPolicy.to_dict;
     m_from_dict := IoK8sApiCoreV1NodePodPreemptionPolicy.from_dict;
     m_to_json := IoK8sApiCoreV1NodePodPreemptionPolicy.to_json;
     m_from_json := IoK8sApiCoreV1NodePodPreemptionPolicy.from_json;
     m_to_str := IoK8sApiCoreV1NodePodPreemptionPolicy.to_str |};
  {| m_schema := IoK8sApiCoreV1Taint.schema;
     m_to_dict := IoK8sApiCoreV1Taint.to_dict;
     m_from_dict := IoK8sApiCoreV1Taint.from_dict;
     m_to_json := IoK8sApiCoreV1Taint.to_json;
     m_from_json := IoK8sApiCoreV1Taint.from_json;
     m_to_str := IoK8sApiCoreV1Taint.to_str |};
  {| m_schema := IoK8sApiCoreV1NodeSpec.schema;
     m_to_dict := IoK8sApiCoreV1NodeSpec.to_dict;
     m_from_dict := IoK8sApiCoreV1NodeSpec.from_dict;
     m_to_json := IoK8sApiCoreV1NodeSpec.to_json;
     m_from_json := IoK8sApiCoreV1NodeSpec.from_json;
     m_to_str := IoK8sApiCoreV1NodeSpec.to_str |};
  {| m_schema := IoK8sApiCoreV1NodeAddress.schema;
     m_to_dict := IoK8sApiCoreV1NodeAddress.to_dict;
     m_from_dict := IoK8sApiCoreV1NodeAddress.from_dict;
     m_to_json := IoK8sApiCoreV1NodeAddress.to_json;
     m_from_json := IoK8sApiCoreV1NodeAddress.from_json;
     m_to_str := IoK8sApiCoreV1NodeAddress.to_str |};
  {| m_schema := IoK8sApiCoreV1NodeCondition.schema;
     m_to_dict := IoK8sApiCoreV1NodeCondition.to_dict;
     m_from_dict := IoK8sApiCoreV1NodeCondition.from_dict;
     m_to_json := IoK8sApiCoreV1NodeCondition.to_json;
     m_from_json := IoK8sApiCoreV1NodeCondition.from_json;
     m_to_str := IoK8sApiCoreV1NodeCondition.to_str |};
  {| m_schema := IoK8sApiCoreV1NodeConfigStatus.schema;
     m_to_dict := IoK8sApiCoreV1NodeConfigStatus.to_dict;
     m_from_dict := IoK8sApiCoreV1NodeConfigStatus.from_dict;
     m_to_json := IoK8sApiCoreV1NodeConfigStatus.to_json;
     m_from_json := IoK8sApiCoreV1NodeConfigStatus.from_json;
     m_to_str := IoK8sApiCoreV1NodeConfigStatus.to_str |};
  {| m_schema := IoK8sApiCoreV1NodeDaemonEndpoints.schema;
     m_to_dict := IoK8sApiCoreV1NodeDaemonEndpoints.to_dict;
     m_from_dict := IoK8sApiCoreV1NodeDaemonEndpoints.from_dict;
     m_to_json := IoK8sApiCoreV1NodeDaemonEndpoints.to_json;
     m_from_json := IoK8sApiCoreV1NodeDaemonEndpoints.from_json;
     m_to_str := IoK8sApiCoreV1NodeDaemonEndpoints.to_str |};
  {| m_schema := IoK8sApiCoreV1NodeFeatures.schema;
     m_to_dict := IoK8sApiCoreV1NodeFeatures.to_dict;
     m_from_dict := IoK8sApiCoreV1NodeFeatures.from_dict;
     m_to_json := IoK8sApiCoreV1NodeFeatures.to_json;
     m_from_json := IoK8sApiCoreV1NodeFeatures.from_json;
     m_to_str := IoK8sApiCoreV1NodeFeatures.to_str |};
  {| m_schema := IoK8sApiCoreV1NodeSwapStatus.schema;
     m_to_dict := IoK8sApiCoreV1NodeSwapStatus.to_dict;
     m_from_dict := IoK8sApiCoreV1NodeSwapStatus.from_dict;
     m_to_json := IoK8sApiCoreV1NodeSwapStatus.to_json;
     m_from_json := IoK8sApiCoreV1NodeSwapStatus.from_json;
     m_to_str := IoK8sApiCoreV1NodeSwapStatus.to_str |};
  {| m_schema := IoK8sApiCoreV1NodeSystemInfo.schema;
     m_to_dict := IoK8sApiCoreV1NodeSystemInfo.to_dict;
     m_from_dict := IoK8sApiCoreV1NodeSystemInfo.from_dict;
     m_to_json := IoK8sApiCoreV1NodeSystemInfo.to_json;
     m_from_json := IoK8sApiCoreV1NodeSystemInfo.from_json;
     m_to_str := IoK8sApiCoreV1NodeSystemInfo.to_str |};
  {| m_schema := IoK8sApiCoreV1NodeRuntimeHandlerFeatures.schema;
     m_to_dict := IoK8sApiCoreV1NodeRuntimeHandlerFeatures.to_dict;
     m_from_dict := IoK8sApiCoreV1NodeRuntimeHandlerFeatures.from_dict;
     m_to_json := IoK8sApiCoreV1NodeRuntimeHandlerFeatures.to_json;
     m_from_json := IoK8sApiCoreV1NodeRuntimeHandlerFeatures.from_json;
     m_to_str := IoK8sApiCoreV1NodeRuntimeHandlerFeatures.to_str |};
  {| m_schema := IoK8sApiCoreV1NodeRuntimeHandler.schema;
     m_to_dict := IoK8sApiCoreV1NodeRuntimeHandler.to_dict;
     m_from_dict := IoK8sApiCoreV1NodeRuntimeHandler.from_dict;
     m_to_json := IoK8sApiCoreV1NodeRuntimeHandler.to_json;
     m_from_json := IoK8sApiCoreV1NodeRuntimeHandler.from_json;
     m_to_str := IoK8sApiCoreV1NodeRuntimeHandler.to_str |};
  {| m_schema := IoK8sApiCoreV1NodeStatus.schema;
     m_to_dict := IoK8sApiCoreV1NodeStatus.to_dict;
     m_from_dict := IoK8sApiCoreV1NodeStatus.from_dict;
     m_to_json := IoK8sApiCoreV1NodeStatus.to_json;
     m_from_json := IoK8sApiCoreV1NodeStatus.from_json;
     m_to_str := IoK8sApiCoreV1NodeStatus.to_str |};
  {| m_schema := IoK8sApiCoreV1Node.schema;
     m_to_dict := IoK8sApiCoreV1Node.to_dict;
     m_from_dict := IoK8sApiCoreV1Node.from_dict;
     m_to_json := IoK8sApiCoreV1Node.to_json;
     m_from_json := IoK8sApiCoreV1Node.from_json;
     m_to_str := IoK8sApiCoreV1Node.to_str |};
  {| m_schema := IoK8sApiCoreV1NodeAllocatableMappedResources.schema;
     m_to_dict := IoK8sApiCoreV1NodeAllocatableMappedResources.to_dict;
     m_from_dict := IoK8sApiCoreV1NodeAllocatableMappedResources.from_dict;
     m_to_json := IoK8sApiCoreV1NodeAllocatableMappedResources.to_json;
     m_from_json := IoK8sApiCoreV1NodeAllocatableMappedResources.from_json;
     m_to_str := IoK8sApiCoreV1NodeAllocatableMappedResources.to_str |};
  {| m_schema := IoK8sApiCoreV1NodeAllocatableOverheadResources.schema;
     m_to_dict := IoK8sApiCoreV1NodeAllocatableOverheadResources.to_dict;
     m_from_dict := IoK8sApiCoreV1NodeAllocatableOverheadResources.from_dict;
     m_to_json := IoK8sApiCoreV1NodeAllocatableOverheadResources.to_json;
     m_from_json := IoK8sApiCoreV1NodeAllocatableOverheadResources.from_json;
     m_to_str := IoK8sApiCoreV1NodeAllocatableOverheadResources.to_str |};
  {| m_schema := IoK8sApiCoreV1NodeAllocatableResourceClaimStatus.schema;
     m_to_dict := IoK8sApiCoreV1NodeAllocatableResourceClaimStatus.to_dict;
     m_from_dict := IoK8sApiCoreV1NodeAllocatableResourceClaimStatus.from_dict;
     m_to_json := IoK8sApiCoreV1NodeAllocatableResourceClaimStatus.to_json;
     m_from_json := IoK8sApiCoreV1NodeAllocatableResourceClaimStatus.from_json;
     m_to_str := IoK8sApiCoreV1NodeAllocatableResourceClaimStatus.to_str |};
  {| m_schema := IoK8sApiCoreV1NodeList.schema;
     m_to_dict := IoK8sApiCoreV1NodeList.to_dict;
     m_from_dict := IoK8sApiCoreV1NodeList.from_dict;
     m_to_json := IoK8sApiCoreV1NodeList.to_json;
     m_from_json := IoK8sApiCoreV1NodeList.from_json;
     m_to_str := IoK8sApiCoreV1NodeList.to_str |};
  {| m_schema := IoK8sApiCoreV1NodeProxyOptions.schema;
     m_to_dict := IoK8sApiCoreV1NodeProxyOptions.to_dict;
     m_from_dict := IoK8sApiCoreV1NodeProxyOptions.from_dict;
     m_to_json := IoK8sApiCoreV1NodeProxyOptions.to_json;
     m_from_json := IoK8sApiCoreV1NodeProxyOptions.from_json;
     m_to_str := IoK8sApiCoreV1NodeProxyOptions.to_str |};
  {| m_schema := IoK8sApiCoreV1VolumeNodeAffinity.schema;
     m_to_dict := IoK8sApiCoreV1VolumeNodeAffinity.to_dict;
     m_from_dict := IoK8sApiCoreV1VolumeNodeAffinity.from_dict;
     m_to_json := IoK8sApiCoreV1VolumeNodeAffinity.to_json;
     m_from_json := IoK8sApiCoreV1VolumeNodeAffinity.from_json;
     m_to_str := IoK8sApiCoreV1VolumeNodeAffinity.to_str |};
  {| m_schema := IoK8sApiCoreV1RBDPersistentVolumeSource.schema;
     m_to_dict := IoK8sApiCoreV1RBDPersistentVolumeSource.to_dict;
     m_from_dict := IoK8sApiCoreV1RBDPersistentVolumeSource.from_dict;
     m_to_json := IoK8sApiCoreV1RBDPersistentVolumeSource.to_json;
     m_from_json := IoK8sApiCoreV1RBDPersistentVolumeSource.from_json;
     m_to_str := IoK8sApiCoreV1RBDPersistentVolumeSource.to_str |};
  {| m_schema := IoK8sApiCoreV1ScaleIOPersistentVolumeSource.schema;
     m_to_dict := IoK8sApiCoreV1ScaleIOPersistentVolumeSource.to_dict;
     m_from_dict := IoK8sApiCoreV1ScaleIOPersistentVolumeSource.from_dict;
     m_to_json := IoK8sApiCoreV1ScaleIOPersistentVolumeSource.to_json;
     m_from_json := IoK8sApiCoreV1ScaleIOPersistentVolumeSource.from_json;
     m_to_str := IoK8sApiCoreV1ScaleIOPersistentVolumeSource.to_str |};
  {| m_schema := IoK8sApiCoreV1StorageOSPersistentVolumeSource.schema;
     m_to_dict := IoK8sApiCoreV1StorageOSPersistentVolumeSource.to_dict;
     m_from_dict := IoK8sApiCoreV1StorageOSPersistentVolumeSource.from_dict;
     m_to_json := IoK8sApiCoreV1StorageOSPersistentVolumeSource.to_json;
     m_from_json := IoK8sApiCoreV1StorageOSPersistentVolumeSource.from_json;
     m_to_str := IoK8sApiCoreV1StorageOSPersistentVolumeSource.to_str |};
  {| m_schema := IoK8sApiCoreV1PersistentVolumeSpec.schema;
     m_to_dict := IoK8sApiCoreV1PersistentVolumeSpec.to_dict;
     m_from_dict := IoK8sApiCoreV1PersistentVolumeSpec.from_dict;
     m_to_json := IoK8sApiCoreV1PersistentVolumeSpec.to_json;
     m_from_json := IoK8sApiCoreV1PersistentVolumeSpec.from_json;
     m_to_str := IoK8sApiCoreV1PersistentVolumeSpec.to_str |};
  {| m_schema := IoK8sApiCoreV1PersistentVolumeStatus.schema;
     m_to_dict := IoK8sApiCoreV1PersistentVolumeStatus.to_dict;
     m_from_dict := IoK8sApiCoreV1PersistentVolumeStatus.from_dict;
     m_to_json := IoK8sApiCoreV1PersistentVolumeStatus.to_json;
     m_from_json := IoK8sApiCoreV1PersistentVolumeStatus.from_json;
     m_to_str := IoK8sApiCoreV1PersistentVolumeStatus.to_str |};
  {| m_schema := IoK8sApiCoreV1PersistentVolume.schema;
     m_to_dict := IoK8sApiCoreV1PersistentVolume.to_dict;
     m_from_dict := IoK8sApiCoreV1PersistentVolume.from_dict;
     m_to_json := IoK8sApiCoreV1PersistentVolume.to_json;
     m_from_json := IoK8sApiCoreV1PersistentVolume.from_json;
     m_to_str := IoK8sApiCoreV1PersistentVolume.to_str |};
  {| m_schema := IoK8sApiCoreV1PersistentVolumeClaimList.schema;
     m_to_dict := IoK8sApiCoreV1PersistentVolumeClaimList.to_dict;
     m_from_dict := IoK8sApiCoreV1PersistentVolumeClaimList.from_dict;
     m_to_json := IoK8sApiCoreV1PersistentVolumeClaimList.to_json;
     m_from_json := IoK8sApiCoreV1PersistentVolumeClaimList.from_json;
     m_to_str := IoK8sApiCoreV1PersistentVolumeClaimList.to_str |};
  {| m_schema := IoK8sApiCoreV1PersistentVolumeList.schema;
     m_to_dict := IoK8sApiCoreV1PersistentVolumeList.to_dict;
     m_from_dict := IoK8sApiCoreV1PersistentVolumeList.from_dict;
     m_to_json := IoK8sApiCoreV1PersistentVolumeList.to_json;
     m_from_json := IoK8sApiCoreV1PersistentVolumeList.from_json;
     m_to_str := IoK8sApiCoreV1PersistentVolumeList.to_str |};
  {| m_schema := IoK8sApiCoreV1PersistentVolumeSource.schema;
     m_to_dict := IoK8sApiCoreV1PersistentVolumeSource.to_dict;
     m_from_dict := IoK8sApiCoreV1PersistentVolumeSource.from_dict;
     m_to_json := IoK8sApiCoreV1PersistentVolumeSource.to_json;
     m_from_json := IoK8sApiCoreV1PersistentVolumeSource.from_json;
     m_to_str := IoK8sApiCoreV1PersistentVolumeSource.to_str |};
  {| m_schema := IoK8sApiCoreV1PodCondition.schema;
     m_to_dict := IoK8sApiCoreV1PodCondition.to_dict;
     m_from_dict := IoK8sApiCoreV1PodCondition.from_dict;
     m_to_json := IoK8sApiCoreV1PodCondition.to_json;
     m_from_json := IoK8sApiCoreV1PodCondition.from_json;
     m_to_str := IoK8sApiCoreV1PodCondition.to_str |};
  {| m_schema := IoK8sApiCoreV1PodExtendedResourceClaimStatus.schema;
     m_to_dict := IoK8sApiCoreV1PodExtendedResourceClaimStatus.to_dict;
     m_from_dict := IoK8sApiCoreV1PodExtendedResourceClaimStatus.from_dict;
     m_to_json := IoK8sApiCoreV1PodExtendedResourceClaimStatus.to_json;
     m_from_json := IoK8sApiCoreV1PodExtendedResourceClaimStatus.from_json;
     m_to_str := IoK8sApiCoreV1PodExtendedResourceClaimStatus.to_str |};
  {| m_schema := IoK8sApiCoreV1PodIP.schema;
     m_to_dict := IoK8sApiCoreV1PodIP.to_dict;
     m_from_dict := IoK8sApiCoreV1PodIP.from_dict;
     m_to_json := IoK8sApiCoreV1PodIP.to_json;
     m_from_json := IoK8sApiCoreV1PodIP.from_json;
     m_to_str := IoK8sApiCoreV1PodIP.to_str |};
  {| m_schema := IoK8sApiCoreV1PodResourceClaimStatus.schema;
     m_to_dict := IoK8sApiCoreV1PodResourceClaimStatus.to_dict;
     m_from_dict := IoK8sApiCoreV1PodResourceClaimStatus.from_dict;
     m_to_json := IoK8sApiCoreV1PodResourceClaimStatus.to_json;
     m_from_json := IoK8sApiCoreV1PodResourceClaimStatus.from_json;
     m_to_str := IoK8sApiCoreV1PodResourceClaimStatus.to_str |};
  {| m_schema := IoK8sApiCoreV1PodVolumeHealth.schema;
     m_to_dict := IoK8sApiCoreV1PodVolumeHealth.to_dict;
     m_from_dict := IoK8sApiCoreV1PodVolumeHealth.from_dict;
     m_to_json := IoK8sApiCoreV1PodVolumeHealth.to_json;
     m_from_json := IoK8sApiCoreV1PodVolumeHealth.from_json;
     m_to_str := IoK8sApiCoreV1PodVolumeHealth.to_str |};
  {| m_schema := IoK8sApiCoreV1PodStatus.schema;
     m_to_dict := IoK8sApiCoreV1PodStatus.to_dict;
     m_from_dict := IoK8sApiCoreV1PodStatus.from_dict;
     m_to_json := IoK8sApiCoreV1PodStatus.to_json;
     m_from_json := IoK8sApiCoreV1PodStatus.from_json;
     m_to_str := IoK8sApiCoreV1PodStatus.to_str |};
  {| m_schema := IoK8sApiCoreV1Pod.schema;
     m_to_dict := IoK8sApiCoreV1Pod.to_dict;
     m_from_dict := IoK8sApiCoreV1Pod.from_dict;
     m_to_json := IoK8sApiCoreV1Pod.to_json;
     m_from_json := IoK8sApiCoreV1Pod.from_json;
     m_to_str := IoK8sApiCoreV1Pod.to_str |};
  {| m_schema := IoK8sApiCoreV1PodAttachOptions.schema;
     m_to_dict := IoK8sApiCoreV1PodAttachOptions.to_dict;
     m_from_dict := IoK8sApiCoreV1PodAttachOptions.from_dict;
     m_to_json := IoK8sApiCoreV1PodAttachOptions.to_json;
     m_from_json := IoK8sApiCoreV1PodAttachOptions.from_json;
     m_to_str := IoK8sApiCoreV1PodAttachOptions.to_str |};
  {| m_schema := IoK8sApiCoreV1PodExecOptions.schema;
     m_to_dict := IoK8sApiCoreV1PodExecOptions.to_dict;
     m_from_dict := IoK8sApiCoreV1PodExecOptions.from_dict;
     m_to_json := IoK8sApiCoreV1PodExecOptions.to_json;
     m_from_json := IoK8sApiCoreV1PodExecOptions.from_json;
     m_to_str := IoK8sApiCoreV1PodExecOptions.to_str |};
  {| m_schema := IoK8sApiCoreV1PodList.schema;
     m_to_dict := IoK8sApiCoreV1PodList.to_dict;
     m_from_dict := IoK8sApiCoreV1PodList.from_dict;
     m_to_json := IoK8sApiCoreV1PodList.to_json;
     m_from_json := IoK8sApiCoreV1PodList.from_json;
     m_to_str := IoK8sApiCoreV1PodList.to_str |};
  {| m_schema := IoK8sApiCoreV1PodLogOptions.schema;
     m_to_dict := IoK8sApiCoreV1PodLogOptions.to_dict;
     m_from_dict := IoK8sApiCoreV1PodLogOptions.from_dict;
     m_to_json := IoK8sApiCoreV1PodLogOptions.to_json;
     m_from_json := IoK8sApiCoreV1PodLogOptions.from_json;
     m_to_str := IoK8sApiCoreV1PodLogOptions.to_str |};
  {| m_schema := IoK8sApiCoreV1PodPortForwardOptions.schema;
     m_to_dict := IoK8sApiCoreV1PodPortForwardOptions.to_dict;
     m_from_dict := IoK8sApiCoreV1PodPortForwardOptions.from_dict;
     m_to_json := IoK8sApiCoreV1PodPortForwardOptions.to_json;
     m_from_json := IoK8sApiCoreV1PodPortForwardOptions.from_json;
     m_to_str := IoK8sApiCoreV1PodPortForwardOptions.to_str |};
  {| m_schema := IoK8sApiCoreV1PodProxyOptions.schema;
     m_to_dict := IoK8sApiCoreV1PodProxyOptions.to_dict;
     m_from_dict := IoK8sApiCoreV1PodProxyOptions.from_dict;
     m_to_json := IoK8sApiCoreV1PodProxyOptions.to_json;
     m_from_json := IoK8sApiCoreV1PodProxyOptions.from_json;
     m_to_str := IoK8sApiCoreV1PodProxyOptions.to_str |};
  {| m_schema := IoK8sApiCoreV1PodStatusResult.schema;
     m_to_dict := IoK8sApiCoreV1PodStatusResult.to_dict;
     m_from_dict := IoK8sApiCoreV1PodStatusResult.from_dict;
     m_to_json := IoK8sApiCoreV1PodStatusResult.to_json;
     m_from_json := IoK8sApiCoreV1PodStatusResult.from_json;
     m_to_str := IoK8sApiCoreV1PodStatusResult.to_str |};
  {| m_schema := IoK8sApiCoreV1PodTemplate.schema;
     m_to_dict := IoK8sApiCoreV1PodTemplate.to_dict;
     m_from_dict := IoK8sApiCoreV1PodTemplate.from_dict;
     m_to_json := IoK8sApiCoreV1PodTemplate.to_json;
     m_from_json := IoK8sApiCoreV1PodTemplate.from_json;
     m_to_str := IoK8sApiCoreV1PodTemplate.to_str |};
  {| m_schema := IoK8sApiCoreV1PodTemplateList.schema;
     m_to_dict := IoK8sApiCoreV1PodTemplateList.to_dict;
     m_from_dict := IoK8sApiCoreV1PodTemplateList.from_dict;
     m_to_json := IoK8sApiCoreV1PodTemplateList.to_json;
     m_from_json := IoK8sApiCoreV1PodTemplateList.from_json;
     m_to_str := IoK8sApiCoreV1PodTemplateList.to_str |};
  {| m_schema := IoK8sApiCoreV1ProbeHandler.schema;
     m_to_dict := IoK8sApiCoreV1ProbeHandler.to_dict;
     m_from_dict := IoK8sApiCoreV1ProbeHandler.from_dict;
     m_to_json := IoK8sApiCoreV1ProbeHandler.to_json;
     m_from_json := IoK8sApiCoreV1ProbeHandler.from_json;
     m_to_str := IoK8sApiCoreV1ProbeHandler.to_str |};
  {| m_schema := IoK8sApiCoreV1RangeAllocation.schema;
     m_to_dict := IoK8sApiCoreV1RangeAllocation.to_dict;
     m_from_dict := IoK8sApiCoreV1RangeAllocation.from_dict;
     m_to_json := IoK8sApiCoreV1RangeAllocation.to_json;
     m_from_json := IoK8sApiCoreV1RangeAllocation.from_json;
     m_to_str := IoK8sApiCoreV1RangeAllocation.to_str |};
  {| m_schema := IoK8sApiCoreV1ReplicationControllerSpec.schema;
     m_to_dict := IoK8sApiCoreV1ReplicationControllerSpec.to_dict;
     m_from_dict := IoK8sApiCoreV1ReplicationControllerSpec.from_dict;
     m_to_json := IoK8sApiCoreV1ReplicationControllerSpec.to_json;
     m_from_json := IoK8sApiCoreV1ReplicationControllerSpec.from_json;
     m_to_str := IoK8sApiCoreV1ReplicationControllerSpec.to_str |};
  {| m_schema := IoK8sApiCoreV1ReplicationControllerCondition.schema;
     m_to_dict := IoK8sApiCoreV1ReplicationControllerCondition.to_dict;
     m_from_dict := IoK8sApiCoreV1ReplicationControllerCondition.from_dict;
     m_to_json := IoK8sApiCoreV1ReplicationControllerCondition.to_json;
     m_from_json := IoK8sApiCoreV1ReplicationControllerCondition.from_json;
     m_to_str := IoK8sApiCoreV1ReplicationControllerCondition.to_str |};
  {| m_schema := IoK8sApiCoreV1ReplicationControllerStatus.schema;
     m_to_dict := IoK8sApiCoreV1ReplicationControllerStatus.to_dict;
     m_from_dict := IoK8sApiCoreV1ReplicationControllerStatus.from_dict;
     m_to_json := IoK8sApiCoreV1ReplicationControllerStatus.to_json;
     m_from_json := IoK8sApiCoreV1ReplicationControllerStatus.from_json;
     m_to_str := IoK8sApiCoreV1ReplicationControllerStatus.to_str |};
  {| m_schema := IoK8sApiCoreV1ReplicationController.schema;
     m_to_dict := IoK8sApiCoreV1ReplicationController.to_dict;
     m_from_dict := IoK8sApiCoreV1ReplicationController.from_dict;
     m_to_json := IoK8sApiCoreV1ReplicationController.to_json;
     m_from_json := IoK8sApiCoreV1ReplicationController.from_json;
     m_to_str := IoK8sApiCoreV1ReplicationController.to_str |};
  {| m_schema := IoK8sApiCoreV1ReplicationControllerList.schema;
     m_to_dict := IoK8sApiCoreV1ReplicationControllerList.to_dict;
     m_from_dict := IoK8sApiCoreV1ReplicationControllerList.from_dict;
     m_to_json := IoK8sApiCoreV1ReplicationControllerList.to_json;
     m_from_json := IoK8sApiCoreV1ReplicationControllerList.from_json;
     m_to_str := IoK8sApiCoreV1ReplicationControllerList.to_str |};
  {| m_schema := IoK8sApiCoreV1ScopedResourceSelectorRequirement.schema;
     m_to_dict := IoK8sApiCoreV1ScopedResourceSelectorRequirement.to_dict;
     m_from_dict := IoK8sApiCoreV1ScopedResourceSelectorRequirement.from_dict;
     m_to_json := IoK8sApiCoreV1ScopedResourceSelectorRequirement.to_json;
     m_from_json := IoK8sApiCoreV1ScopedResourceSelectorRequirement.from_json;
     m_to_str := IoK8sApiCoreV1ScopedResourceSelectorRequirement.to_str |};
  {| m_schema := IoK8sApiCoreV1ScopeSelector.schema;
     m_to_dict := IoK8sApiCoreV1ScopeSelector.to_dict;
     m_from_dict := IoK8sApiCoreV1ScopeSelector.from_dict;
     m_to_json := IoK8sApiCoreV1ScopeSelector.to_json;
     m_from_json := IoK8sApiCoreV1ScopeSelector.from_json;
     m_to_str := IoK8sApiCoreV1ScopeSelector.to_str |};
  {| m_schema := IoK8sApiCoreV1ResourceQuotaSpec.schema;
     m_to_dict := IoK8sApiCoreV1ResourceQuotaSpec.to_dict;
     m_from_dict := IoK8sApiCoreV1ResourceQuotaSpec.from_dict;
     m_to_json := IoK8sApiCoreV1ResourceQuotaSpec.to_json;
     m_from_json := IoK8sApiCoreV1ResourceQuotaSpec.from_json;
     m_to_str := IoK8sApiCoreV1ResourceQuotaSpec.to_str |};
  {| m_schema := IoK8sApiCoreV1ResourceQuotaStatus.schema;
     m_to_dict := IoK8sApiCoreV1ResourceQuotaStatus.to_dict;
     m_from_dict := IoK8sApiCoreV1ResourceQuotaStatus.from_dict;
     m_to_json := IoK8sApiCoreV1ResourceQuotaStatus.to_json;
     m_from_json := IoK8sApiCoreV1ResourceQuotaStatus.from_json;
     m_to_str := IoK8sApiCoreV1ResourceQuotaStatus.to_str |};
  {| m_schema := IoK8sApiCoreV1ResourceQuota.schema;
     m_to_dict := IoK8sApiCoreV1ResourceQuota.to_dict;
     m_from_dict := IoK8sApiCoreV1ResourceQuota.from_dict;
     m_to_json := IoK8sApiCoreV1ResourceQuota.to_json;
     m_from_json := IoK8sApiCoreV1ResourceQuota.from_json;
     m_to_str := IoK8sApiCoreV1ResourceQuota.to_str |};
  {| m_schema := IoK8sApiCoreV1ResourceQuotaList.schema;
     m_to_dict := IoK8sApiCoreV1ResourceQuotaList.to_dict;
     m_from_dict := IoK8sApiCoreV1ResourceQuotaList.from_dict;
     m_to_json := IoK8sApiCoreV1ResourceQuotaList.to_json;
     m_from_json := IoK8sApiCoreV1ResourceQuotaList.from_json;
     m_to_str := IoK8sApiCoreV1ResourceQuotaList.to_str |};
  {| m_schema := IoK8sApiCoreV1Secret.schema;
     m_to_dict := IoK8sApiCoreV1Secret.to_dict;
     m_from_dict := IoK8sApiCoreV1Secret.from_dict;
     m_to_json := IoK8sApiCoreV1Secret.to_json;
     m_from_json := IoK8sApiCoreV1Secret.from_json;
     m_to_str := IoK8sApiCoreV1Secret.to_str |};
  {| m_schema := IoK8sApiCoreV1SecretList.schema;
     m_to_dict := IoK8sApiCoreV1SecretList.to_dict;
     m_from_dict := IoK8sApiCoreV1SecretList.from_dict;
     m_to_json := IoK8sApiCoreV1SecretList.to_json;
     m_from_json := IoK8sApiCoreV1SecretList.from_json;
     m_to_str := IoK8sApiCoreV1SecretList.to_str |};
  {| m_schema := IoK8sApiCoreV1SerializedReference.schema;
     m_to_dict := IoK8sApiCoreV1SerializedReference.to_dict;
     m_from_dict := IoK8sApiCoreV1SerializedReference.from_dict;
     m_to_json := IoK8sApiCoreV1SerializedReference.to_json;
     m_from_json := IoK8sApiCoreV1SerializedReference.from_json;
     m_to_str := IoK8sApiCoreV1SerializedReference.to_str |};
  {| m_schema := IoK8sApiCoreV1ServicePort.schema;
     m_to_dict := IoK8sApiCoreV1ServicePort.to_dict;
     m_from_dict := IoK8sApiCoreV1ServicePort.from_dict;
     m_to_json := IoK8sApiCoreV1ServicePort.to_json;
     m_from_json := IoK8sApiCoreV1ServicePort.from_json;
     m_to_str := IoK8sApiCoreV1ServicePort.to_str |};
  {| m_schema := IoK8sApiCoreV1SessionAffinityConfig.schema;
     m_to_dict := IoK8sApiCoreV1SessionAffinityConfig.to_dict;
     m_from_dict := IoK8sApiCoreV1SessionAffinityConfig.from_dict;
     m_to_json := IoK8sApiCoreV1SessionAffinityConfig.to_json;
     m_from_json := IoK8sApiCoreV1SessionAffinityConfig.from_json;
     m_to_str := IoK8sApiCoreV1SessionAffinityConfig.to_str |};
  {| m_schema := IoK8sApiCoreV1ServiceSpec.schema;
     m_to_dict := IoK8sApiCoreV1ServiceSpec.to_dict;
     m_from_dict := IoK8sApiCoreV1ServiceSpec.from_dict;
     m_to_json := IoK8sApiCoreV1ServiceSpec.to_json;
     m_from_json := IoK8sApiCoreV1ServiceSpec.from_json;
     m_to_str := IoK8sApiCoreV1ServiceSpec.to_str |};
  {| m_schema := IoK8sApiCoreV1ServiceStatus.schema;
     m_to_dict := IoK8sApiCoreV1ServiceStatus.to_dict;
     m_from_dict := IoK8sApiCoreV1ServiceStatus.from_dict;
     m_to_json := IoK8sApiCoreV1ServiceStatus.to_json;
     m_from_json := IoK8sApiCoreV1ServiceStatus.from_json;
     m_to_str := IoK8sApiCoreV1ServiceStatus.to_str |};
  {| m_schema := IoK8sApiCoreV1Service.schema;
     m_to_dict := IoK8sApiCoreV1Service.to_dict;
     m_from_dict := IoK8sApiCoreV1Service.from_dict;
     m_to_json := IoK8sApiCoreV1Service.to_json;
     m_from_json := IoK8sApiCoreV1Service.from_json;
     m_to_str := IoK8sApiCoreV1Service.to_str |};
  {| m_schema := IoK8sApiCoreV1ServiceAccount.schema;
     m_to_dict := IoK8sApiCoreV1ServiceAccount.to_dict;
     m_from_dict := IoK8sApiCoreV1ServiceAccount.from_dict;
     m_to_json := IoK8sApiCoreV1ServiceAccount.to_json;
     m_from_json := IoK8sApiCoreV1ServiceAccount.from_json;
     m_to_str := IoK8sApiCoreV1ServiceAccount.to_str |};
  {| m_schema := IoK8sApiCoreV1ServiceAccountList.schema;
     m_to_dict := IoK8sApiCoreV1ServiceAccountList.to_dict;
     m_from_dict := IoK8sApiCoreV1ServiceAccountList.from_dict;
     m_to_json := IoK8sApiCoreV1ServiceAccountList.to_json;
     m_from_json := IoK8sApiCoreV1ServiceAccountList.from_json;
     m_to_str := IoK8sApiCoreV1ServiceAccountList.to_str |};
  {| m_schema := IoK8sApiCoreV1ServiceList.schema;
     m_to_dict := IoK8sApiCoreV1ServiceList.to_dict;
     m_from_dict := IoK8sApiCoreV1ServiceList.from_dict;
     m_to_json := IoK8sApiCoreV1ServiceList.to_json;
     m_from_json := IoK8sApiCoreV1ServiceList.from_json;
     m_to_str := IoK8sApiCoreV1ServiceList.to_str |};
  {| m_schema := IoK8sApiCoreV1ServiceProxyOptions.schema;
     m_to_dict := IoK8sApiCoreV1ServiceProxyOptions.to_dict;
     m_from_dict := IoK8sApiCoreV1ServiceProxyOptions.from_dict;
     m_to_json := IoK8sApiCoreV1ServiceProxyOptions.to_json;
     m_from_json := IoK8sApiCoreV1ServiceProxyOptions.from_json;
     m_to_str := IoK8sApiCoreV1ServiceProxyOptions.to_str |};
  {| m_schema := IoK8sApiCoreV1TopologySelectorLabelRequirement.schema;
     m_to_dict := IoK8sApiCoreV1TopologySelectorLabelRequirement.to_dict;
     m_from_dict := IoK8sApiCoreV1TopologySelectorLabelRequirement.from_dict;
     m_to_json := IoK8sApiCoreV1TopologySelectorLabelRequirement.to_json;
     m_from_json := IoK8sApiCoreV1TopologySelectorLabelRequirement.from_json;
     m_to_str := IoK8sApiCoreV1TopologySelectorLabelRequirement.to_str |};
  {| m_schema := IoK8sApiCoreV1TopologySelectorTerm.schema;
     m_to_dict := IoK8sApiCoreV1TopologySelectorTerm.to_dict;
     m_from_dict := IoK8sApiCoreV1TopologySelectorTerm.from_dict;
     m_to_json := IoK8sApiCoreV1TopologySelectorTerm.to_json;
     m_from_json := IoK8sApiCoreV1TopologySelectorTerm.from_json;
     m_to_str := IoK8sApiCoreV1TopologySelectorTerm.to_str |};
  {| m_schema := IoK8sApiCoreV1VolumeSource.schema;
     m_to_dict := IoK8sApiCoreV1VolumeSource.to_dict;
     m_from_dict := IoK8sApiCoreV1VolumeSource.from_dict;
     m_to_json := IoK8sApiCoreV1VolumeSource.to_json;
     m_from_json := IoK8sApiCoreV1VolumeSource.from_json;
     m_to_str := IoK8sApiCoreV1VolumeSource.to_str |};
  {| m_schema := IoK8sApiCoreV1WorkloadReference.schema;
     m_to_dict := IoK8sApiCoreV1WorkloadReference.to_dict;
     m_from_dict := IoK8sApiCoreV1WorkloadReference.from_dict;
     m_to_json := IoK8sApiCoreV1WorkloadReference.to_json;
     m_from_json := IoK8sApiCoreV1WorkloadReference.from_json;
     m_to_str := IoK8sApiCoreV1WorkloadReference.to_str |}].
Lemma more_core_models_templated `{PydanticLaws} : Forall is_templated more_core_models.
Proof. solve_models. Qed.
