(* ===== verification/ApiWorkloads.v ===== *)
(** * Further workload models

    The batch, autoscaling, scheduling and JobSet classes that the Trainer API
    does not contain, from api/python_api/kubeflow_trainer_api/models. Each
    Module is a class: its fields, [to_dict] and [from_dict]. *)

From S2P Require Import Prelude PyStr PyValue Pydantic PydanticSpec PydanticDocs.
From S2P Require Import OneOf ApiMeta ApiCore ApiJobSet ApiMetaMore ApiCoreMore.
Local Open Scope string_scope.
Local Open Scope list_scope.

Module IoK8sApiAutoscalingV2MetricTarget.
Definition schema `{Pydantic} : Schema := model "IoK8sApiAutoscalingV2MetricTarget" [
  opt "average_utilization" "averageUtilization" StrictInt;
  opt "average_value" "averageValue" (Model IoK8sApimachineryPkgApiResourceQuantity.schema);
  req "type" "type" StrictStr;
  opt "value" "value" (Model IoK8sApimachineryPkgApiResourceQuantity.schema)].
Definition to_dict `{Pydantic} : value → outcome value := to_dict_with schema [
  Dump "average_value" "averageValue" IoK8sApimachineryPkgApiResourceQuantity.to_dict;
  Dump "value" "value" IoK8sApimachineryPkgApiResourceQuantity.to_dict].
Definition from_dict `{Pydantic} : value → outcome value := from_dict_with schema [
  Get "averageUtilization";
  FromDict "averageValue" IoK8sApimachineryPkgApiResourceQuantity.from_dict;
  GetOr "type" (VStr "");
  FromDict "value" IoK8sApimachineryPkgApiResourceQuantity.from_dict].
Definition to_json `{Pydantic} : value → outcome string := to_json_with to_dict.
Definition from_json `{Pydantic} : string → outcome value := from_json_with from_dict.
Definition to_str `{Pydantic} : value → outcome string := to_str_with schema.
End IoK8sApiAutoscalingV2MetricTarget.
#[export] Instance IoK8sApiAutoscalingV2MetricTarget_templated `{PydanticLaws} :
  Templated IoK8sApiAutoscalingV2MetricTarget.schema IoK8sApiAutoscalingV2MetricTarget.to_dict
    IoK8sApiAutoscalingV2MetricTarget.from_dict.
Proof. solve_model. Qed.

Module IoK8sApiAutoscalingV2ContainerResourceMetricSource.
Definition schema `{Pydantic} : Schema :=
  model "IoK8sApiAutoscalingV2ContainerResourceMetricSource" [
  req "container" "container" StrictStr;
  req "name" "name" StrictStr;
  req "target" "target" (Model IoK8sApiAutoscalingV2MetricTarget.schema)].
Definition to_dict `{Pydantic} : value → outcome value := to_dict_with schema [
  Dump "target" "target" IoK8sApiAutoscalingV2MetricTarget.to_dict].
Definition from_dict `{Pydantic} : value → outcome value := from_dict_with schema [
  GetOr "container" (VStr "");
  GetOr "name" (VStr "");
  FromDict "target" IoK8sApiAutoscalingV2MetricTarget.from_dict].
Definition to_json `{Pydantic} : value → outcome string := to_json_with to_dict.
Definition from_json `{Pydantic} : string → outcome value := from_json_with from_dict.
Definition to_str `{Pydantic} : value → outcome string := to_str_with schema.
End IoK8sApiAutoscalingV2ContainerResourceMetricSource.
#[export] Instance IoK8sApiAutoscalingV2ContainerResourceMetricSource_templated `{PydanticLaws} :
  Templated IoK8sApiAutoscalingV2ContainerResourceMetricSource.schema
    IoK8sApiAutoscalingV2ContainerResourceMetricSource.to_dict
      IoK8sApiAutoscalingV2ContainerResourceMetricSource.from_dict.
Proof. solve_model. Qed.

Module IoK8sApiAutoscalingV2MetricValueStatus.
Definition schema `{Pydantic} : Schema := model "IoK8sApiAutoscalingV2MetricValueStatus" [
  opt "average_utilization" "averageUtilization" StrictInt;
  opt "average_value" "averageValue" (Model IoK8sApimachineryPkgApiResourceQuantity.schema);
  opt "value" "value" (Model IoK8sApimachineryPkgApiResourceQuantity.schema)].
Definition to_dict `{Pydantic} : value → outcome value := to_dict_with schema [
  Dump "average_value" "averageValue" IoK8sApimachineryPkgApiResourceQuantity.to_dict;
  Dump "value" "value" IoK8sApimachineryPkgApiResourceQuantity.to_dict].
Definition from_dict `{Pydantic} : value → outcome value := from_dict_with schema [
  Get "averageUtilization";
  FromDict "averageValue" IoK8sApimachineryPkgApiResourceQuantity.from_dict;
  FromDict "value" IoK8sApimachineryPkgApiResourceQuantity.from_dict].
Definition to_json `{Pydantic} : value → outcome string := to_json_with to_dict.
Definition from_json `{Pydantic} : string → outcome value := from_json_with from_dict.
Definition to_str `{Pydantic} : value → outcome string := to_str_with schema.
End IoK8sApiAutoscalingV2MetricValueStatus.
#[export] Instance IoK8sApiAutoscalingV2MetricValueStatus_templated `{PydanticLaws} :
  Templated IoK8sApiAutoscalingV2MetricValueStatus.schema
    IoK8sApiAutoscalingV2MetricValueStatus.to_dict IoK8sApiAutoscalingV2MetricValueStatus.from_dict.
Proof. solve_model. Qed.

Module IoK8sApiAutoscalingV2ContainerResourceMetricStatus.
Definition schema `{Pydantic} : Schema :=
  model "IoK8sApiAutoscalingV2ContainerResourceMetricStatus" [
  req "container" "container" StrictStr;
  req "current" "current" (Model IoK8sApiAutoscalingV2MetricValueStatus.schema);
  req "name" "name" StrictStr].
Definition to_dict `{Pydantic} : value → outcome value := to_dict_with schema [
  Dump "current" "current" IoK8sApiAutoscalingV2MetricValueStatus.to_dict].
Definition from_dict `{Pydantic} : value → outcome value := from_dict_with schema [
  GetOr "container" (VStr "");
  FromDict "current" IoK8sApiAutoscalingV2MetricValueStatus.from_dict;
  GetOr "name" (VStr "")].
Definition to_json `{Pydantic} : value → outcome string := to_json_with to_dict.
Definition from_json `{Pydantic} : string → outcome value := from_json_with from_dict.
Definition to_str `{Pydantic} : value → outcome string := to_str_with schema.
End IoK8sApiAutoscalingV2ContainerResourceMetricStatus.
#[export] Instance IoK8sApiAutoscalingV2ContainerResourceMetricStatus_templated `{PydanticLaws} :
  Templated IoK8sApiAutoscalingV2ContainerResourceMetricStatus.schema
    IoK8sApiAutoscalingV2ContainerResourceMetricStatus.to_dict
      IoK8sApiAutoscalingV2ContainerResourceMetricStatus.from_dict.
Proof. solve_model. Qed.

Module IoK8sApiAutoscalingV2CrossVersionObjectReference.
Definition schema `{Pydantic} : Schema := model "IoK8sApiAutoscalingV2CrossVersionObjectReference" [
  opt "api_version" "apiVersion" StrictStr;
  req "kind" "kind" StrictStr;
  req "name" "name" StrictStr].
Definition to_dict `{Pydantic} : value → outcome value := to_dict_with schema [].
Definition from_dict `{Pydantic} : value → outcome value := from_dict_with schema [
  Get "apiVersion";
  GetOr "kind" (VStr "");
  GetOr "name" (VStr "")].
Definition to_json `{Pydantic} : value → outcome string := to_json_with to_dict.
Definition from_json `{Pydantic} : string → outcome value := from_json_with from_dict.
Definition to_str `{Pydantic} : value → outcome string := to_str_with schema.
End IoK8sApiAutoscalingV2CrossVersionObjectReference.
#[export] Instance IoK8sApiAutoscalingV2CrossVersionObjectReference_templated `{PydanticLaws} :
  Templated IoK8sApiAutoscalingV2CrossVersionObjectReference.schema
    IoK8sApiAutoscalingV2CrossVersionObjectReference.to_dict
      IoK8sApiAutoscalingV2CrossVersionObjectReference.from_dict.
Proof. solve_model. Qed.

Module IoK8sApiAutoscalingV2MetricIdentifier.
Definition schema `{Pydantic} : Schema := model "IoK8sApiAutoscalingV2MetricIdentifier" [
  req "name" "name" StrictStr;
  opt "selector" "selector" (Model IoK8sApimachineryPkgApisMetaV1LabelSelector.schema)].
Definition to_dict `{Pydantic} : value → outcome value := to_dict_with schema [
  Dump "selector" "selector" IoK8sApimachineryPkgApisMetaV1LabelSelector.to_dict].
Definition from_dict `{Pydantic} : value → outcome value := from_dict_with schema [
  GetOr "name" (VStr "");
  FromDict "selector" IoK8sApimachineryPkgApisMetaV1LabelSelector.from_dict].
Definition to_json `{Pydantic} : value → outcome string := to_json_with to_dict.
Definition from_json `{Pydantic} : string → outcome value := from_json_with from_dict.
Definition to_str `{Pydantic} : value → outcome string := to_str_with schema.
End IoK8sApiAutoscalingV2MetricIdentifier.
#[export] Instance IoK8sApiAutoscalingV2MetricIdentifier_templated `{PydanticLaws} :
  Templated IoK8sApiAutoscalingV2MetricIdentifier.schema
    IoK8sApiAutoscalingV2MetricIdentifier.to_dict IoK8sApiAutoscalingV2MetricIdentifier.from_dict.
Proof. solve_model. Qed.

Module IoK8sApiAutoscalingV2ExternalMetricSource.
Definition schema `{Pydantic} : Schema := model "IoK8sApiAutoscalingV2ExternalMetricSource" [
  req "metric" "metric" (Model IoK8sApiAutoscalingV2MetricIdentifier.schema);
  req "target" "target" (Model IoK8sApiAutoscalingV2MetricTarget.schema)].
Definition to_dict `{Pydantic} : value → outcome value := to_dict_with schema [
  Dump "metric" "metric" IoK8sApiAutoscalingV2MetricIdentifier.to_dict;
  Dump "target" "target" IoK8sApiAutoscalingV2MetricTarget.to_dict].
Definition from_dict `{Pydantic} : value → outcome value := from_dict_with schema [
  FromDict "metric" IoK8sApiAutoscalingV2MetricIdentifier.from_dict;
  FromDict "target" IoK8sApiAutoscalingV2MetricTarget.from_dict].
Definition to_json `{Pydantic} : value → outcome string := to_json_with to_dict.
Definition from_json `{Pydantic} : string → outcome value := from_json_with from_dict.
Definition to_str `{Pydantic} : value → outcome string := to_str_with schema.
End IoK8sApiAutoscalingV2ExternalMetricSource.
#[export] Instance IoK8sApiAutoscalingV2ExternalMetricSource_templated `{PydanticLaws} :
  Templated IoK8sApiAutoscalingV2ExternalMetricSource.schema
    IoK8sApiAutoscalingV2ExternalMetricSource.to_dict
      IoK8sApiAutoscalingV2ExternalMetricSource.from_dict.
Proof. solve_model. Qed.

Module IoK8sApiAutoscalingV2ExternalMetricStatus.
Definition schema `{Pydantic} : Schema := model "IoK8sApiAutoscalingV2ExternalMetricStatus" [
  req "current" "current" (Model IoK8sApiAutoscalingV2MetricValueStatus.schema);
  req "metric" "metric" (Model IoK8sApiAutoscalingV2MetricIdentifier.schema)].
Definition to_dict `{Pydantic} : value → outcome value := to_dict_with schema [
  Dump "current" "current" IoK8sApiAutoscalingV2MetricValueStatus.to_dict;
  Dump "metric" "metric" IoK8sApiAutoscalingV2MetricIdentifier.to_dict].
Definition from_dict `{Pydantic} : value → outcome value := from_dict_with schema [
  FromDict "current" IoK8sApiAutoscalingV2MetricValueStatus.from_dict;
  FromDict "metric" IoK8sApiAutoscalingV2MetricIdentifier.from_dict].
Definition to_json `{Pydantic} : value → outcome string := to_json_with to_dict.
Definition from_json `{Pydantic} : string → outcome value := from_json_with from_dict.
Definition to_str `{Pydantic} : value → outcome string := to_str_with schema.
End IoK8sApiAutoscalingV2ExternalMetricStatus.
#[export] Instance IoK8sApiAutoscalingV2ExternalMetricStatus_templated `{PydanticLaws} :
  Templated IoK8sApiAutoscalingV2ExternalMetricStatus.schema
    IoK8sApiAutoscalingV2ExternalMetricStatus.to_dict
      IoK8sApiAutoscalingV2ExternalMetricStatus.from_dict.
Proof. solve_model. Qed.

Module IoK8sApiAutoscalingV2HPAScalingPolicy.
Definition schema `{Pydantic} : Schema := model "IoK8sApiAutoscalingV2HPAScalingPolicy" [
  req "period_seconds" "periodSeconds" StrictInt;
  req "type" "type" StrictStr;
  req "value" "value" StrictInt].
Definition to_dict `{Pydantic} : value → outcome value := to_dict_with schema [].
Definition from_dict `{Pydantic} : value → outcome value := from_dict_with schema [
  GetOr "periodSeconds" (VInt 0);
  GetOr "type" (VStr "");
  GetOr "value" (VInt 0)].
Definition to_json `{Pydantic} : value → outcome string := to_json_with to_dict.
Definition from_json `{Pydantic} : string → outcome value := from_json_with from_dict.
Definition to_str `{Pydantic} : value → outcome string := to_str_with schema.
End IoK8sApiAutoscalingV2HPAScalingPolicy.
#[export] Instance IoK8sApiAutoscalingV2HPAScalingPolicy_templated `{PydanticLaws} :
  Templated IoK8sApiAutoscalingV2HPAScalingPolicy.schema
    IoK8sApiAutoscalingV2HPAScalingPolicy.to_dict IoK8sApiAutoscalingV2HPAScalingPolicy.from_dict.
Proof. solve_model. Qed.

Module IoK8sApiAutoscalingV2HPAScalingRules.
Definition schema `{Pydantic} : Schema := model "IoK8sApiAutoscalingV2HPAScalingRules" [
  opt "policies" "policies" (List (Model IoK8sApiAutoscalingV2HPAScalingPolicy.schema));
  opt "select_policy" "selectPolicy" StrictStr;
  opt "stabilization_window_seconds" "stabilizationWindowSeconds" StrictInt;
  opt "tolerance" "tolerance" (Model IoK8sApimachineryPkgApiResourceQuantity.schema)].
Definition to_dict `{Pydantic} : value → outcome value := to_dict_with schema [
  DumpItems "policies" "policies" IoK8sApiAutoscalingV2HPAScalingPolicy.to_dict;
  Dump "tolerance" "tolerance" IoK8sApimachineryPkgApiResourceQuantity.to_dict].
Definition from_dict `{Pydantic} : value → outcome value := from_dict_with schema [
  FromDictItems "policies" IoK8sApiAutoscalingV2HPAScalingPolicy.from_dict;
  Get "selectPolicy";
  Get "stabilizationWindowSeconds";
  FromDict "tolerance" IoK8sApimachineryPkgApiResourceQuantity.from_dict].
Definition to_json `{Pydantic} : value → outcome string := to_json_with to_dict.
Definition from_json `{Pydantic} : string → outcome value := from_json_with from_dict.
Definition to_str `{Pydantic} : value → outcome string := to_str_with schema.
End IoK8sApiAutoscalingV2HPAScalingRules.
#[export] Instance IoK8sApiAutoscalingV2HPAScalingRules_templated `{PydanticLaws} :
  Templated IoK8sApiAutoscalingV2HPAScalingRules.schema
    IoK8sApiAutoscalingV2HPAScalingRules.to_dict IoK8sApiAutoscalingV2HPAScalingRules.from_dict.
Proof. solve_model. Qed.

Module IoK8sApiAutoscalingV2HorizontalPodAutoscalerBehavior.
Definition schema `{Pydantic} : Schema :=
  model "IoK8sApiAutoscalingV2HorizontalPodAutoscalerBehavior" [
  opt "scale_down" "scaleDown" (Model IoK8sApiAutoscalingV2HPAScalingRules.schema);
  opt "scale_up" "scaleUp" (Model IoK8sApiAutoscalingV2HPAScalingRules.schema)].
Definition to_dict `{Pydantic} : value → outcome value := to_dict_with schema [
  Dump "scale_down" "scaleDown" IoK8sApiAutoscalingV2HPAScalingRules.to_dict;
  Dump "scale_up" "scaleUp" IoK8sApiAutoscalingV2HPAScalingRules.to_dict].
Definition from_dict `{Pydantic} : value → outcome value := from_dict_with schema [
  FromDict "scaleDown" IoK8sApiAutoscalingV2HPAScalingRules.from_dict;
  FromDict "scaleUp" IoK8sApiAutoscalingV2HPAScalingRules.from_dict].
Definition to_json `{Pydantic} : value → outcome string := to_json_with to_dict.
Definition from_json `{Pydantic} : string → outcome value := from_json_with from_dict.
Definition to_str `{Pydantic} : value → outcome string := to_str_with schema.
End IoK8sApiAutoscalingV2HorizontalPodAutoscalerBehavior.
#[export] Instance IoK8sApiAutoscalingV2HorizontalPodAutoscalerBehavior_templated `{PydanticLaws} :
  Templated IoK8sApiAutoscalingV2HorizontalPodAutoscalerBehavior.schema
    IoK8sApiAutoscalingV2HorizontalPodAutoscalerBehavior.to_dict
      IoK8sApiAutoscalingV2HorizontalPodAutoscalerBehavior.from_dict.
Proof. solve_model. Qed.

Module IoK8sApiAutoscalingV2ObjectMetricSource.
Definition schema `{Pydantic} : Schema := model "IoK8sApiAutoscalingV2ObjectMetricSource" [
  req "described_object" "describedObject"
    (Model IoK8sApiAutoscalingV2CrossVersionObjectReference.schema);
  req "metric" "metric" (Model IoK8sApiAutoscalingV2MetricIdentifier.schema);
  req "target" "target" (Model IoK8sApiAutoscalingV2MetricTarget.schema)].
Definition to_dict `{Pydantic} : value → outcome value := to_dict_with schema [
  Dump "described_object" "describedObject"
    IoK8sApiAutoscalingV2CrossVersionObjectReference.to_dict;
  Dump "metric" "metric" IoK8sApiAutoscalingV2MetricIdentifier.to_dict;
  Dump "target" "target" IoK8sApiAutoscalingV2MetricTarget.to_dict].
Definition from_dict `{Pydantic} : value → outcome value := from_dict_with schema [
  FromDict "describedObject" IoK8sApiAutoscalingV2CrossVersionObjectReference.from_dict;
  FromDict "metric" IoK8sApiAutoscalingV2MetricIdentifier.from_dict;
  FromDict "target" IoK8sApiAutoscalingV2MetricTarget.from_dict].
Definition to_json `{Pydantic} : value → outcome string := to_json_with to_dict.
Definition from_json `{Pydantic} : string → outcome value := from_json_with from_dict.
Definition to_str `{Pydantic} : value → outcome string := to_str_with schema.
End IoK8sApiAutoscalingV2ObjectMetricSource.
#[export] Instance IoK8sApiAutoscalingV2ObjectMetricSource_templated `{PydanticLaws} :
  Templated IoK8sApiAutoscalingV2ObjectMetricSource.schema
    IoK8sApiAutoscalingV2ObjectMetricSource.to_dict
      IoK8sApiAutoscalingV2ObjectMetricSource.from_dict.
Proof. solve_model. Qed.

Module IoK8sApiAutoscalingV2PodsMetricSource.
Definition schema `{Pydantic} : Schema := model "IoK8sApiAutoscalingV2PodsMetricSource" [
  req "metric" "metric" (Model IoK8sApiAutoscalingV2MetricIdentifier.schema);
  req "target" "target" (Model IoK8sApiAutoscalingV2MetricTarget.schema)].
Definition to_dict `{Pydantic} : value → outcome value := to_dict_with schema [
  Dump "metric" "metric" IoK8sApiAutoscalingV2MetricIdentifier.to_dict;
  Dump "target" "target" IoK8sApiAutoscalingV2MetricTarget.to_dict].
Definition from_dict `{Pydantic} : value → outcome value := from_dict_with schema [
  FromDict "metric" IoK8sApiAutoscalingV2MetricIdentifier.from_dict;
  FromDict "target" IoK8sApiAutoscalingV2MetricTarget.from_dict].
Definition to_json `{Pydantic} : value → outcome string := to_json_with to_dict.
Definition from_json `{Pydantic} : string → outcome value := from_json_with from_dict.
Definition to_str `{Pydantic} : value → outcome string := to_str_with schema.
End IoK8sApiAutoscalingV2PodsMetricSource.
#[export] Instance IoK8sApiAutoscalingV2PodsMetricSource_templated `{PydanticLaws} :
  Templated IoK8sApiAutoscalingV2PodsMetricSource.schema
    IoK8sApiAutoscalingV2PodsMetricSource.to_dict IoK8sApiAutoscalingV2PodsMetricSource.from_dict.
Proof. solve_model. Qed.

Module IoK8sApiAutoscalingV2ResourceMetricSource.
Definition schema `{Pydantic} : Schema := model "IoK8sApiAutoscalingV2ResourceMetricSource" [
  req "name" "name" StrictStr;
  req "target" "target" (Model IoK8sApiAutoscalingV2MetricTarget.schema)].
Definition to_dict `{Pydantic} : value → outcome value := to_dict_with schema [
  Dump "target" "target" IoK8sApiAutoscalingV2MetricTarget.to_dict].
Definition from_dict `{Pydantic} : value → outcome value := from_dict_with schema [
  GetOr "name" (VStr "");
  FromDict "target" IoK8sApiAutoscalingV2MetricTarget.from_dict].
Definition to_json `{Pydantic} : value → outcome string := to_json_with to_dict.
Definition from_json `{Pydantic} : string → outcome value := from_json_with from_dict.
Definition to_str `{Pydantic} : value → outcome string := to_str_with schema.
End IoK8sApiAutoscalingV2ResourceMetricSource.
#[export] Instance IoK8sApiAutoscalingV2ResourceMetricSource_templated `{PydanticLaws} :
  Templated IoK8sApiAutoscalingV2ResourceMetricSource.schema
    IoK8sApiAutoscalingV2ResourceMetricSource.to_dict
      IoK8sApiAutoscalingV2ResourceMetricSource.from_dict.
Proof. solve_model. Qed.

Module IoK8sApiAutoscalingV2MetricSpec.
Definition schema `{Pydantic} : Schema := model "IoK8sApiAutoscalingV2MetricSpec" [
  opt "container_resource" "containerResource"
    (Model IoK8sApiAutoscalingV2ContainerResourceMetricSource.schema);
  opt "external" "external" (Model IoK8sApiAutoscalingV2ExternalMetricSource.schema);
  opt "object" "object" (Model IoK8sApiAutoscalingV2ObjectMetricSource.schema);
  opt "pods" "pods" (Model IoK8sApiAutoscalingV2PodsMetricSource.schema);
  opt "resource" "resource" (Model IoK8sApiAutoscalingV2ResourceMetricSource.schema);
  req "type" "type" StrictStr].
Definition to_dict `{Pydantic} : value → outcome value := to_dict_with schema [
  Dump "container_resource" "containerResource"
    IoK8sApiAutoscalingV2ContainerResourceMetricSource.to_dict;
  Dump "external" "external" IoK8sApiAutoscalingV2ExternalMetricSource.to_dict;
  Dump "object" "object" IoK8sApiAutoscalingV2ObjectMetricSource.to_dict;
  Dump "pods" "pods" IoK8sApiAutoscalingV2PodsMetricSource.to_dict;
  Dump "resource" "resource" IoK8sApiAutoscalingV2ResourceMetricSource.to_dict].
Definition from_dict `{Pydantic} : value → outcome value := from_dict_with schema [
  FromDict "containerResource" IoK8sApiAutoscalingV2ContainerResourceMetricSource.from_dict;
  FromDict "external" IoK8sApiAutoscalingV2ExternalMetricSource.from_dict;
  FromDict "object" IoK8sApiAutoscalingV2ObjectMetricSource.from_dict;
  FromDict "pods" IoK8sApiAutoscalingV2PodsMetricSource.from_dict;
  FromDict "resource" IoK8sApiAutoscalingV2ResourceMetricSource.from_dict;
  GetOr "type" (VStr "")].
Definition to_json `{Pydantic} : value → outcome string := to_json_with to_dict.
Definition from_json `{Pydantic} : string → outcome value := from_json_with from_dict.
Definition to_str `{Pydantic} : value → outcome string := to_str_with schema.
End IoK8sApiAutoscalingV2MetricSpec.
#[export] Instance IoK8sApiAutoscalingV2MetricSpec_templated `{PydanticLaws} :
  Templated IoK8sApiAutoscalingV2MetricSpec.schema IoK8sApiAutoscalingV2MetricSpec.to_dict
    IoK8sApiAutoscalingV2MetricSpec.from_dict.
Proof. solve_model. Qed.

Module IoK8sApiAutoscalingV2HorizontalPodAutoscalerSpec.
Definition schema `{Pydantic} : Schema := model "IoK8sApiAutoscalingV2HorizontalPodAutoscalerSpec" [
  opt "behavior" "behavior" (Model IoK8sApiAutoscalingV2HorizontalPodAutoscalerBehavior.schema);
  req "max_replicas" "maxReplicas" StrictInt;
  opt "metrics" "metrics" (List (Model IoK8sApiAutoscalingV2MetricSpec.schema));
  opt "min_replicas" "minReplicas" StrictInt;
  req "scale_target_ref" "scaleTargetRef"
    (Model IoK8sApiAutoscalingV2CrossVersionObjectReference.schema)].
Definition to_dict `{Pydantic} : value → outcome value := to_dict_with schema [
  Dump "behavior" "behavior" IoK8sApiAutoscalingV2HorizontalPodAutoscalerBehavior.to_dict;
  DumpItems "metrics" "metrics" IoK8sApiAutoscalingV2MetricSpec.to_dict;
  Dump "scale_target_ref" "scaleTargetRef"
    IoK8sApiAutoscalingV2CrossVersionObjectReference.to_dict].
Definition from_dict `{Pydantic} : value → outcome value := from_dict_with schema [
  FromDict "behavior" IoK8sApiAutoscalingV2HorizontalPodAutoscalerBehavior.from_dict;
  GetOr "maxReplicas" (VInt 0);
  FromDictItems "metrics" IoK8sApiAutoscalingV2MetricSpec.from_dict;
  Get "minReplicas";
  FromDict "scaleTargetRef" IoK8sApiAutoscalingV2CrossVersionObjectReference.from_dict].
Definition to_json `{Pydantic} : value → outcome string := to_json_with to_dict.
Definition from_json `{Pydantic} : string → outcome value := from_json_with from_dict.
Definition to_str `{Pydantic} : value → outcome string := to_str_with schema.
End IoK8sApiAutoscalingV2HorizontalPodAutoscalerSpec.
#[export] Instance IoK8sApiAutoscalingV2HorizontalPodAutoscalerSpec_templated `{PydanticLaws} :
  Templated IoK8sApiAutoscalingV2HorizontalPodAutoscalerSpec.schema
    IoK8sApiAutoscalingV2HorizontalPodAutoscalerSpec.to_dict
      IoK8sApiAutoscalingV2HorizontalPodAutoscalerSpec.from_dict.
Proof. solve_model. Qed.

Module IoK8sApiAutoscalingV2HorizontalPodAutoscalerCondition.
Definition schema `{Pydantic} : Schema :=
  model "IoK8sApiAutoscalingV2HorizontalPodAutoscalerCondition" [
  opt "last_transition_time" "lastTransitionTime" Datetime;
  opt "message" "message" StrictStr;
  opt "observed_generation" "observedGeneration" StrictInt;
  opt "reason" "reason" StrictStr;
  req "status" "status" StrictStr;
  req "type" "type" StrictStr].
Definition to_dict `{Pydantic} : value → outcome value := to_dict_with schema [].
Definition from_dict `{Pydantic} : value → outcome value := from_dict_with schema [
  Get "lastTransitionTime";
  Get "message";
  Get "observedGeneration";
  Get "reason";
  GetOr "status" (VStr "");
  GetOr "type" (VStr "")].
Definition to_json `{Pydantic} : value → outcome string := to_json_with to_dict.
Definition from_json `{Pydantic} : string → outcome value := from_json_with from_dict.
Definition to_str `{Pydantic} : value → outcome string := to_str_with schema.
End IoK8sApiAutoscalingV2HorizontalPodAutoscalerCondition.
#[export] Instance IoK8sApiAutoscalingV2HorizontalPodAutoscalerCondition_templated `{PydanticLaws} :
  Templated IoK8sApiAutoscalingV2HorizontalPodAutoscalerCondition.schema
    IoK8sApiAutoscalingV2HorizontalPodAutoscalerCondition.to_dict
      IoK8sApiAutoscalingV2HorizontalPodAutoscalerCondition.from_dict.
Proof. solve_model. Qed.

Module IoK8sApiAutoscalingV2ObjectMetricStatus.
Definition schema `{Pydantic} : Schema := model "IoK8sApiAutoscalingV2ObjectMetricStatus" [
  req "current" "current" (Model IoK8sApiAutoscalingV2MetricValueStatus.schema);
  req "described_object" "describedObject"
    (Model IoK8sApiAutoscalingV2CrossVersionObjectReference.schema);
  req "metric" "metric" (Model IoK8sApiAutoscalingV2MetricIdentifier.schema)].
Definition to_dict `{Pydantic} : value → outcome value := to_dict_with schema [
  Dump "current" "current" IoK8sApiAutoscalingV2MetricValueStatus.to_dict;
  Dump "described_object" "describedObject"
    IoK8sApiAutoscalingV2CrossVersionObjectReference.to_dict;
  Dump "metric" "metric" IoK8sApiAutoscalingV2MetricIdentifier.to_dict].
Definition from_dict `{Pydantic} : value → outcome value := from_dict_with schema [
  FromDict "current" IoK8sApiAutoscalingV2MetricValueStatus.from_dict;
  FromDict "describedObject" IoK8sApiAutoscalingV2CrossVersionObjectReference.from_dict;
  FromDict "metric" IoK8sApiAutoscalingV2MetricIdentifier.from_dict].
Definition to_json `{Pydantic} : value → outcome string := to_json_with to_dict.
Definition from_json `{Pydantic} : string → outcome value := from_json_with from_dict.
Definition to_str `{Pydantic} : value → outcome string := to_str_with schema.
End IoK8sApiAutoscalingV2ObjectMetricStatus.
#[export] Instance IoK8sApiAutoscalingV2ObjectMetricStatus_templated `{PydanticLaws} :
  Templated IoK8sApiAutoscalingV2ObjectMetricStatus.schema
    IoK8sApiAutoscalingV2ObjectMetricStatus.to_dict
      IoK8sApiAutoscalingV2ObjectMetricStatus.from_dict.
Proof. solve_model. Qed.

Module IoK8sApiAutoscalingV2PodsMetricStatus.
Definition schema `{Pydantic} : Schema := model "IoK8sApiAutoscalingV2PodsMetricStatus" [
  req "current" "current" (Model IoK8sApiAutoscalingV2MetricValueStatus.schema);
  req "metric" "metric" (Model IoK8sApiAutoscalingV2MetricIdentifier.schema)].
Definition to_dict `{Pydantic} : value → outcome value := to_dict_with schema [
  Dump "current" "current" IoK8sApiAutoscalingV2MetricValueStatus.to_dict;
  Dump "metric" "metric" IoK8sApiAutoscalingV2MetricIdentifier.to_dict].
Definition from_dict `{Pydantic} : value → outcome value := from_dict_with schema [
  FromDict "current" IoK8sApiAutoscalingV2MetricValueStatus.from_dict;
  FromDict "metric" IoK8sApiAutoscalingV2MetricIdentifier.from_dict].
Definition to_json `{Pydantic} : value → outcome string := to_json_with to_dict.
Definition from_json `{Pydantic} : string → outcome value := from_json_with from_dict.
Definition to_str `{Pydantic} : value → outcome string := to_str_with schema.
End IoK8sApiAutoscalingV2PodsMetricStatus.
#[export] Instance IoK8sApiAutoscalingV2PodsMetricStatus_templated `{PydanticLaws} :
  Templated IoK8sApiAutoscalingV2PodsMetricStatus.schema
    IoK8sApiAutoscalingV2PodsMetricStatus.to_dict IoK8sApiAutoscalingV2PodsMetricStatus.from_dict.
Proof. solve_model. Qed.

Module IoK8sApiAutoscalingV2ResourceMetricStatus.
Definition schema `{Pydantic} : Schema := model "IoK8sApiAutoscalingV2ResourceMetricStatus" [
  req "current" "current" (Model IoK8sApiAutoscalingV2MetricValueStatus.schema);
  req "name" "name" StrictStr].
Definition to_dict `{Pydantic} : value → outcome value := to_dict_with schema [
  Dump "current" "current" IoK8sApiAutoscalingV2MetricValueStatus.to_dict].
Definition from_dict `{Pydantic} : value → outcome value := from_dict_with schema [
  FromDict "current" IoK8sApiAutoscalingV2MetricValueStatus.from_dict;
  GetOr "name" (VStr "")].
Definition to_json `{Pydantic} : value → outcome string := to_json_with to_dict.
Definition from_json `{Pydantic} : string → outcome value := from_json_with from_dict.
Definition to_str `{Pydantic} : value → outcome string := to_str_with schema.
End IoK8sApiAutoscalingV2ResourceMetricStatus.
#[export] Instance IoK8sApiAutoscalingV2ResourceMetricStatus_templated `{PydanticLaws} :
  Templated IoK8sApiAutoscalingV2ResourceMetricStatus.schema
    IoK8sApiAutoscalingV2ResourceMetricStatus.to_dict
      IoK8sApiAutoscalingV2ResourceMetricStatus.from_dict.
Proof. solve_model. Qed.

Module IoK8sApiAutoscalingV2MetricStatus.
Definition schema `{Pydantic} : Schema := model "IoK8sApiAutoscalingV2MetricStatus" [
  opt "container_resource" "containerResource"
    (Model IoK8sApiAutoscalingV2ContainerResourceMetricStatus.schema);
  opt "external" "external" (Model IoK8sApiAutoscalingV2ExternalMetricStatus.schema);
  opt "object" "object" (Model IoK8sApiAutoscalingV2ObjectMetricStatus.schema);
  opt "pods" "pods" (Model IoK8sApiAutoscalingV2PodsMetricStatus.schema);
  opt "resource" "resource" (Model IoK8sApiAutoscalingV2ResourceMetricStatus.schema);
  req "type" "type" StrictStr].
Definition to_dict `{Pydantic} : value → outcome value := to_dict_with schema [
  Dump "container_resource" "containerResource"
    IoK8sApiAutoscalingV2ContainerResourceMetricStatus.to_dict;
  Dump "external" "external" IoK8sApiAutoscalingV2ExternalMetricStatus.to_dict;
  Dump "object" "object" IoK8sApiAutoscalingV2ObjectMetricStatus.to_dict;
  Dump "pods" "pods" IoK8sApiAutoscalingV2PodsMetricStatus.to_dict;
  Dump "resource" "resource" IoK8sApiAutoscalingV2ResourceMetricStatus.to_dict].
Definition from_dict `{Pydantic} : value → outcome value := from_dict_with schema [
  FromDict "containerResource" IoK8sApiAutoscalingV2ContainerResourceMetricStatus.from_dict;
  FromDict "external" IoK8sApiAutoscalingV2ExternalMetricStatus.from_dict;
  FromDict "object" IoK8sApiAutoscalingV2ObjectMetricStatus.from_dict;
  FromDict "pods" IoK8sApiAutoscalingV2PodsMetricStatus.from_dict;
  FromDict "resource" IoK8sApiAutoscalingV2ResourceMetricStatus.from_dict;
  GetOr "type" (VStr "")].
Definition to_json `{Pydantic} : value → outcome string := to_json_with to_dict.
Definition from_json `{Pydantic} : string → outcome value := from_json_with from_dict.
Definition to_str `{Pydantic} : value → outcome string := to_str_with schema.
End IoK8sApiAutoscalingV2MetricStatus.
#[export] Instance IoK8sApiAutoscalingV2MetricStatus_templated `{PydanticLaws} :
  Templated IoK8sApiAutoscalingV2MetricStatus.schema IoK8sApiAutoscalingV2MetricStatus.to_dict
    IoK8sApiAutoscalingV2MetricStatus.from_dict.
Proof. solve_model. Qed.

Module IoK8sApiAutoscalingV2HorizontalPodAutoscalerStatus.
Definition schema `{Pydantic} : Schema :=
  model "IoK8sApiAutoscalingV2HorizontalPodAutoscalerStatus" [
  opt "conditions" "conditions" (List
    (Model IoK8sApiAutoscalingV2HorizontalPodAutoscalerCondition.schema));
  opt "current_metrics" "currentMetrics" (List (Model IoK8sApiAutoscalingV2MetricStatus.schema));
  opt "current_replicas" "currentReplicas" StrictInt;
  req "desired_replicas" "desiredReplicas" StrictInt;
  opt "last_scale_time" "lastScaleTime" Datetime;
  opt "observed_generation" "observedGeneration" StrictInt].
Definition to_dict `{Pydantic} : value → outcome value := to_dict_with schema [
  DumpItems "conditions" "conditions" IoK8sApiAutoscalingV2HorizontalPodAutoscalerCondition.to_dict;
  DumpItems "current_metrics" "currentMetrics" IoK8sApiAutoscalingV2MetricStatus.to_dict].
Definition from_dict `{Pydantic} : value → outcome value := from_dict_with schema [
  FromDictItems "conditions" IoK8sApiAutoscalingV2HorizontalPodAutoscalerCondition.from_dict;
  FromDictItems "currentMetrics" IoK8sApiAutoscalingV2MetricStatus.from_dict;
  Get "currentReplicas";
  GetOr "desiredReplicas" (VInt 0);
  Get "lastScaleTime";
  Get "observedGeneration"].
Definition to_json `{Pydantic} : value → outcome string := to_json_with to_dict.
Definition from_json `{Pydantic} : string → outcome value := from_json_with from_dict.
Definition to_str `{Pydantic} : value → outcome string := to_str_with schema.
End IoK8sApiAutoscalingV2HorizontalPodAutoscalerStatus.
#[export] Instance IoK8sApiAutoscalingV2HorizontalPodAutoscalerStatus_templated `{PydanticLaws} :
  Templated IoK8sApiAutoscalingV2HorizontalPodAutoscalerStatus.schema
    IoK8sApiAutoscalingV2HorizontalPodAutoscalerStatus.to_dict
      IoK8sApiAutoscalingV2HorizontalPodAutoscalerStatus.from_dict.
Proof. solve_model. Qed.

Module IoK8sApiAutoscalingV2HorizontalPodAutoscaler.
Definition schema `{Pydantic} : Schema := model "IoK8sApiAutoscalingV2HorizontalPodAutoscaler" [
  opt "api_version" "apiVersion" StrictStr;
  opt "kind" "kind" StrictStr;
  opt "metadata" "metadata" (Model IoK8sApimachineryPkgApisMetaV1ObjectMeta.schema);
  req "spec" "spec" (Model IoK8sApiAutoscalingV2HorizontalPodAutoscalerSpec.schema);
  opt "status" "status" (Model IoK8sApiAutoscalingV2HorizontalPodAutoscalerStatus.schema)].
Definition to_dict `{Pydantic} : value → outcome value := to_dict_with schema [
  Dump "metadata" "metadata" IoK8sApimachineryPkgApisMetaV1ObjectMeta.to_dict;
  Dump "spec" "spec" IoK8sApiAutoscalingV2HorizontalPodAutoscalerSpec.to_dict;
  Dump "status" "status" IoK8sApiAutoscalingV2HorizontalPodAutoscalerStatus.to_dict].
Definition from_dict `{Pydantic} : value → outcome value := from_dict_with schema [
  Get "apiVersion";
  Get "kind";
  FromDict "metadata" IoK8sApimachineryPkgApisMetaV1ObjectMeta.from_dict;
  FromDict "spec" IoK8sApiAutoscalingV2HorizontalPodAutoscalerSpec.from_dict;
  FromDict "status" IoK8sApiAutoscalingV2HorizontalPodAutoscalerStatus.from_dict].
Definition to_json `{Pydantic} : value → outcome string := to_json_with to_dict.
Definition from_json `{Pydantic} : string → outcome value := from_json_with from_dict.
Definition to_str `{Pydantic} : value → outcome string := to_str_with schema.
End IoK8sApiAutoscalingV2HorizontalPodAutoscaler.
#[export] Instance IoK8sApiAutoscalingV2HorizontalPodAutoscaler_templated `{PydanticLaws} :
  Templated IoK8sApiAutoscalingV2HorizontalPodAutoscaler.schema
    IoK8sApiAutoscalingV2HorizontalPodAutoscaler.to_dict
      IoK8sApiAutoscalingV2HorizontalPodAutoscaler.from_dict.
Proof. solve_model. Qed.

Module IoK8sApiAutoscalingV2HorizontalPodAutoscalerList.
Definition schema `{Pydantic} : Schema := model "IoK8sApiAutoscalingV2HorizontalPodAutoscalerList" [
  opt "api_version" "apiVersion" StrictStr;
  req "items" "items" (List (Model IoK8sApiAutoscalingV2HorizontalPodAutoscaler.schema));
  opt "kind" "kind" StrictStr;
  opt "metadata" "metadata" (Model IoK8sApimachineryPkgApisMetaV1ListMeta.schema)].
Definition to_dict `{Pydantic} : value → outcome value := to_dict_with schema [
  DumpItems "items" "items" IoK8sApiAutoscalingV2HorizontalPodAutoscaler.to_dict;
  Dump "metadata" "metadata" IoK8sApimachineryPkgApisMetaV1ListMeta.to_dict].
Definition from_dict `{Pydantic} : value → outcome value := from_dict_with schema [
  Get "apiVersion";
  FromDictItems "items" IoK8sApiAutoscalingV2HorizontalPodAutoscaler.from_dict;
  Get "kind";
  FromDict "metadata" IoK8sApimachineryPkgApisMetaV1ListMeta.from_dict].
Definition to_json `{Pydantic} : value → outcome string := to_json_with to_dict.
Definition from_json `{Pydantic} : string → outcome value := from_json_with from_dict.
Definition to_str `{Pydantic} : value → outcome string := to_str_with schema.
End IoK8sApiAutoscalingV2HorizontalPodAutoscalerList.
#[export] Instance IoK8sApiAutoscalingV2HorizontalPodAutoscalerList_templated `{PydanticLaws} :
  Templated IoK8sApiAutoscalingV2HorizontalPodAutoscalerList.schema
    IoK8sApiAutoscalingV2HorizontalPodAutoscalerList.to_dict
      IoK8sApiAutoscalingV2HorizontalPodAutoscalerList.from_dict.
Proof. solve_model. Qed.

Module IoK8sApiBatchV1CronJobSpec.
Definition schema `{Pydantic} : Schema := model "IoK8sApiBatchV1CronJobSpec" [
  checked (opt "concurrency_policy" "concurrencyPolicy" StrictStr)
    (none_or_one_of ["Allow"; "Forbid"; "Replace"]);
  opt "failed_jobs_history_limit" "failedJobsHistoryLimit" StrictInt;
  req "job_template" "jobTemplate" (Model IoK8sApiBatchV1JobTemplateSpec.schema);
  req "schedule" "schedule" StrictStr;
  opt "starting_deadline_seconds" "startingDeadlineSeconds" StrictInt;
  opt "successful_jobs_history_limit" "successfulJobsHistoryLimit" StrictInt;
  opt "suspend" "suspend" StrictBool;
  opt "time_zone" "timeZone" StrictStr].
Definition to_dict `{Pydantic} : value → outcome value := to_dict_with schema [
  Dump "job_template" "jobTemplate" IoK8sApiBatchV1JobTemplateSpec.to_dict].
Definition from_dict `{Pydantic} : value → outcome value := from_dict_with schema [
  Get "concurrencyPolicy";
  Get "failedJobsHistoryLimit";
  FromDict "jobTemplate" IoK8sApiBatchV1JobTemplateSpec.from_dict;
  GetOr "schedule" (VStr "");
  Get "startingDeadlineSeconds";
  Get "successfulJobsHistoryLimit";
  Get "suspend";
  Get "timeZone"].
Definition to_json `{Pydantic} : value → outcome string := to_json_with to_dict.
Definition from_json `{Pydantic} : string → outcome value := from_json_with from_dict.
Definition to_str `{Pydantic} : value → outcome string := to_str_with schema.
End IoK8sApiBatchV1CronJobSpec.
#[export] Instance IoK8sApiBatchV1CronJobSpec_templated `{PydanticLaws} :
  Templated IoK8sApiBatchV1CronJobSpec.schema IoK8sApiBatchV1CronJobSpec.to_dict
    IoK8sApiBatchV1CronJobSpec.from_dict.
Proof. solve_model. Qed.

Module IoK8sApiBatchV1CronJobStatus.
Definition schema `{Pydantic} : Schema := model "IoK8sApiBatchV1CronJobStatus" [
  opt "active" "active" (List (Model IoK8sApiCoreV1ObjectReference.schema));
  opt "last_schedule_time" "lastScheduleTime" Datetime;
  opt "last_successful_time" "lastSuccessfulTime" Datetime].
Definition to_dict `{Pydantic} : value → outcome value := to_dict_with schema [
  DumpItems "active" "active" IoK8sApiCoreV1ObjectReference.to_dict].
Definition from_dict `{Pydantic} : value → outcome value := from_dict_with schema [
  FromDictItems "active" IoK8sApiCoreV1ObjectReference.from_dict;
  Get "lastScheduleTime";
  Get "lastSuccessfulTime"].
Definition to_json `{Pydantic} : value → outcome string := to_json_with to_dict.
Definition from_json `{Pydantic} : string → outcome value := from_json_with from_dict.
Definition to_str `{Pydantic} : value → outcome string := to_str_with schema.
End IoK8sApiBatchV1CronJobStatus.
#[export] Instance IoK8sApiBatchV1CronJobStatus_templated `{PydanticLaws} :
  Templated IoK8sApiBatchV1CronJobStatus.schema IoK8sApiBatchV1CronJobStatus.to_dict
    IoK8sApiBatchV1CronJobStatus.from_dict.
Proof. solve_model. Qed.

Module IoK8sApiBatchV1CronJob.
Definition schema `{Pydantic} : Schema := model "IoK8sApiBatchV1CronJob" [
  opt "api_version" "apiVersion" StrictStr;
  opt "kind" "kind" StrictStr;
  opt "metadata" "metadata" (Model IoK8sApimachineryPkgApisMetaV1ObjectMeta.schema);
  req "spec" "spec" (Model IoK8sApiBatchV1CronJobSpec.schema);
  opt "status" "status" (Model IoK8sApiBatchV1CronJobStatus.schema)].
Definition to_dict `{Pydantic} : value → outcome value := to_dict_with schema [
  Dump "metadata" "metadata" IoK8sApimachineryPkgApisMetaV1ObjectMeta.to_dict;
  Dump "spec" "spec" IoK8sApiBatchV1CronJobSpec.to_dict;
  Dump "status" "status" IoK8sApiBatchV1CronJobStatus.to_dict].
Definition from_dict `{Pydantic} : value → outcome value := from_dict_with schema [
  Get "apiVersion";
  Get "kind";
  FromDict "metadata" IoK8sApimachineryPkgApisMetaV1ObjectMeta.from_dict;
  FromDict "spec" IoK8sApiBatchV1CronJobSpec.from_dict;
  FromDict "status" IoK8sApiBatchV1CronJobStatus.from_dict].
Definition to_json `{Pydantic} : value → outcome string := to_json_with to_dict.
Definition from_json `{Pydantic} : string → outcome value := from_json_with from_dict.
Definition to_str `{Pydantic} : value → outcome string := to_str_with schema.
End IoK8sApiBatchV1CronJob.
#[export] Instance IoK8sApiBatchV1CronJob_templated `{PydanticLaws} :
  Templated IoK8sApiBatchV1CronJob.schema IoK8sApiBatchV1CronJob.to_dict
    IoK8sApiBatchV1CronJob.from_dict.
Proof. solve_model. Qed.

Module IoK8sApiBatchV1CronJobList.
Definition schema `{Pydantic} : Schema := model "IoK8sApiBatchV1CronJobList" [
  opt "api_version" "apiVersion" StrictStr;
  req "items" "items" (List (Model IoK8sApiBatchV1CronJob.schema));
  opt "kind" "kind" StrictStr;
  opt "metadata" "metadata" (Model IoK8sApimachineryPkgApisMetaV1ListMeta.schema)].
Definition to_dict `{Pydantic} : value → outcome value := to_dict_with schema [
  DumpItems "items" "items" IoK8sApiBatchV1CronJob.to_dict;
  Dump "metadata" "metadata" IoK8sApimachineryPkgApisMetaV1ListMeta.to_dict].
Definition from_dict `{Pydantic} : value → outcome value := from_dict_with schema [
  Get "apiVersion";
  FromDictItems "items" IoK8sApiBatchV1CronJob.from_dict;
  Get "kind";
  FromDict "metadata" IoK8sApimachineryPkgApisMetaV1ListMeta.from_dict].
Definition to_json `{Pydantic} : value → outcome string := to_json_with to_dict.
Definition from_json `{Pydantic} : string → outcome value := from_json_with from_dict.
Definition to_str `{Pydantic} : value → outcome string := to_str_with schema.
End IoK8sApiBatchV1CronJobList.
#[export] Instance IoK8sApiBatchV1CronJobList_templated `{PydanticLaws} :
  Templated IoK8sApiBatchV1CronJobList.schema IoK8sApiBatchV1CronJobList.to_dict
    IoK8sApiBatchV1CronJobList.from_dict.
Proof. solve_model. Qed.

Module IoK8sApiBatchV1JobCondition.
Definition schema `{Pydantic} : Schema := model "IoK8sApiBatchV1JobCondition" [
  opt "last_probe_time" "lastProbeTime" Datetime;
  opt "last_transition_time" "lastTransitionTime" Datetime;
  opt "message" "message" StrictStr;
  opt "reason" "reason" StrictStr;
  req "status" "status" StrictStr;
  req "type" "type" StrictStr].
Definition to_dict `{Pydantic} : value → outcome value := to_dict_with schema [].
Definition from_dict `{Pydantic} : value → outcome value := from_dict_with schema [
  Get "lastProbeTime";
  Get "lastTransitionTime";
  Get "message";
  Get "reason";
  GetOr "status" (VStr "");
  GetOr "type" (VStr "")].
Definition to_json `{Pydantic} : value → outcome string := to_json_with to_dict.
Definition from_json `{Pydantic} : string → outcome value := from_json_with from_dict.
Definition to_str `{Pydantic} : value → outcome string := to_str_with schema.
End IoK8sApiBatchV1JobCondition.
#[export] Instance IoK8sApiBatchV1JobCondition_templated `{PydanticLaws} :
  Templated IoK8sApiBatchV1JobCondition.schema IoK8sApiBatchV1JobCondition.to_dict
    IoK8sApiBatchV1JobCondition.from_dict.
Proof. solve_model. Qed.

Module IoK8sApiBatchV1UncountedTerminatedPods.
Definition schema `{Pydantic} : Schema := model "IoK8sApiBatchV1UncountedTerminatedPods" [
  opt "failed" "failed" (List StrictStr);
  opt "succeeded" "succeeded" (List StrictStr)].
Definition to_dict `{Pydantic} : value → outcome value := to_dict_with schema [].
Definition from_dict `{Pydantic} : value → outcome value := from_dict_with schema [
  Get "failed";
  Get "succeeded"].
Definition to_json `{Pydantic} : value → outcome string := to_json_with to_dict.
Definition from_json `{Pydantic} : string → outcome value := from_json_with from_dict.
Definition to_str `{Pydantic} : value → outcome string := to_str_with schema.
End IoK8sApiBatchV1UncountedTerminatedPods.
#[export] Instance IoK8sApiBatchV1UncountedTerminatedPods_templated `{PydanticLaws} :
  Templated IoK8sApiBatchV1UncountedTerminatedPods.schema
    IoK8sApiBatchV1UncountedTerminatedPods.to_dict IoK8sApiBatchV1UncountedTerminatedPods.from_dict.
Proof. solve_model. Qed.

Module IoK8sApiBatchV1JobStatus.
Definition schema `{Pydantic} : Schema := model "IoK8sApiBatchV1JobStatus" [
  opt "active" "active" StrictInt;
  opt "completed_indexes" "completedIndexes" StrictStr;
  opt "completion_time" "completionTime" Datetime;
  opt "conditions" "conditions" (List (Model IoK8sApiBatchV1JobCondition.schema));
  opt "failed" "failed" StrictInt;
  opt "failed_indexes" "failedIndexes" StrictStr;
  opt "ready" "ready" StrictInt;
  opt "start_time" "startTime" Datetime;
  opt "succeeded" "succeeded" StrictInt;
  opt "terminating" "terminating" StrictInt;
  opt "uncounted_terminated_pods" "uncountedTerminatedPods"
    (Model IoK8sApiBatchV1UncountedTerminatedPods.schema)].
Definition to_dict `{Pydantic} : value → outcome value := to_dict_with schema [
  DumpItems "conditions" "conditions" IoK8sApiBatchV1JobCondition.to_dict;
  Dump "uncounted_terminated_pods" "uncountedTerminatedPods"
    IoK8sApiBatchV1UncountedTerminatedPods.to_dict].
Definition from_dict `{Pydantic} : value → outcome value := from_dict_with schema [
  Get "active";
  Get "completedIndexes";
  Get "completionTime";
  FromDictItems "conditions" IoK8sApiBatchV1JobCondition.from_dict;
  Get "failed";
  Get "failedIndexes";
  Get "ready";
  Get "startTime";
  Get "succeeded";
  Get "terminating";
  FromDict "uncountedTerminatedPods" IoK8sApiBatchV1UncountedTerminatedPods.from_dict].
Definition to_json `{Pydantic} : value → outcome string := to_json_with to_dict.
Definition from_json `{Pydantic} : string → outcome value := from_json_with from_dict.
Definition to_str `{Pydantic} : value → outcome string := to_str_with schema.
End IoK8sApiBatchV1JobStatus.
#[export] Instance IoK8sApiBatchV1JobStatus_templated `{PydanticLaws} :
  Templated IoK8sApiBatchV1JobStatus.schema IoK8sApiBatchV1JobStatus.to_dict
    IoK8sApiBatchV1JobStatus.from_dict.
Proof. solve_model. Qed.

Module IoK8sApiBatchV1Job.
Definition schema `{Pydantic} : Schema := model "IoK8sApiBatchV1Job" [
  opt "api_version" "apiVersion" StrictStr;
  opt "kind" "kind" StrictStr;
  opt "metadata" "metadata" (Model IoK8sApimachineryPkgApisMetaV1ObjectMeta.schema);
  opt "spec" "spec" (Model IoK8sApiBatchV1JobSpec.schema);
  opt "status" "status" (Model IoK8sApiBatchV1JobStatus.schema)].
Definition to_dict `{Pydantic} : value → outcome value := to_dict_with schema [
  Dump "metadata" "metadata" IoK8sApimachineryPkgApisMetaV1ObjectMeta.to_dict;
  Dump "spec" "spec" IoK8sApiBatchV1JobSpec.to_dict;
  Dump "status" "status" IoK8sApiBatchV1JobStatus.to_dict].
Definition from_dict `{Pydantic} : value → outcome value := from_dict_with schema [
  Get "apiVersion";
  Get "kind";
  FromDict "metadata" IoK8sApimachineryPkgApisMetaV1ObjectMeta.from_dict;
  FromDict "spec" IoK8sApiBatchV1JobSpec.from_dict;
  FromDict "status" IoK8sApiBatchV1JobStatus.from_dict].
Definition to_json `{Pydantic} : value → outcome string := to_json_with to_dict.
Definition from_json `{Pydantic} : string → outcome value := from_json_with from_dict.
Definition to_str `{Pydantic} : value → outcome string := to_str_with schema.
End IoK8sApiBatchV1Job.
#[export] Instance IoK8sApiBatchV1Job_templated `{PydanticLaws} :
  Templated IoK8sApiBatchV1Job.schema IoK8sApiBatchV1Job.to_dict IoK8sApiBatchV1Job.from_dict.
Proof. solve_model. Qed.

Module IoK8sApiBatchV1JobList.
Definition schema `{Pydantic} : Schema := model "IoK8sApiBatchV1JobList" [
  opt "api_version" "apiVersion" StrictStr;
  req "items" "items" (List (Model IoK8sApiBatchV1Job.schema));
  opt "kind" "kind" StrictStr;
  opt "metadata" "metadata" (Model IoK8sApimachineryPkgApisMetaV1ListMeta.schema)].
Definition to_dict `{Pydantic} : value → outcome value := to_dict_with schema [
  DumpItems "items" "items" IoK8sApiBatchV1Job.to_dict;
  Dump "metadata" "metadata" IoK8sApimachineryPkgApisMetaV1ListMeta.to_dict].
Definition from_dict `{Pydantic} : value → outcome value := from_dict_with schema [
  Get "apiVersion";
  FromDictItems "items" IoK8sApiBatchV1Job.from_dict;
  Get "kind";
  FromDict "metadata" IoK8sApimachineryPkgApisMetaV1ListMeta.from_dict].
Definition to_json `{Pydantic} : value → outcome string := to_json_with to_dict.
Definition from_json `{Pydantic} : string → outcome value := from_json_with from_dict.
Definition to_str `{Pydantic} : value → outcome string := to_str_with schema.
End IoK8sApiBatchV1JobList.
#[export] Instance IoK8sApiBatchV1JobList_templated `{PydanticLaws} :
  Templated IoK8sApiBatchV1JobList.schema IoK8sApiBatchV1JobList.to_dict
    IoK8sApiBatchV1JobList.from_dict.
Proof. solve_model. Qed.

Module IoK8sApiSchedulingV1alpha3CompositeDisruptionMode.
Definition schema `{Pydantic} : Schema :=
  model "IoK8sApiSchedulingV1alpha3CompositeDisruptionMode" [
  opt "all" "all" (Dict AnyValue);
  opt "single" "single" (Dict AnyValue)].
Definition to_dict `{Pydantic} : value → outcome value := to_dict_with schema [].
Definition from_dict `{Pydantic} : value → outcome value := from_dict_with schema [
  Get "all";
  Get "single"].
Definition to_json `{Pydantic} : value → outcome string := to_json_with to_dict.
Definition from_json `{Pydantic} : string → outcome value := from_json_with from_dict.
Definition to_str `{Pydantic} : value → outcome string := to_str_with schema.
End IoK8sApiSchedulingV1alpha3CompositeDisruptionMode.
#[export] Instance IoK8sApiSchedulingV1alpha3CompositeDisruptionMode_templated `{PydanticLaws} :
  Templated IoK8sApiSchedulingV1alpha3CompositeDisruptionMode.schema
    IoK8sApiSchedulingV1alpha3CompositeDisruptionMode.to_dict
      IoK8sApiSchedulingV1alpha3CompositeDisruptionMode.from_dict.
Proof. solve_model. Qed.

Module IoK8sApiSchedulingV1alpha3CompositeGangSchedulingPolicy.
Definition schema `{Pydantic} : Schema :=
  model "IoK8sApiSchedulingV1alpha3CompositeGangSchedulingPolicy" [
  req "min_group_count" "minGroupCount" StrictInt].
Definition to_dict `{Pydantic} : value → outcome value := to_dict_with schema [].
Definition from_dict `{Pydantic} : value → outcome value := from_dict_with schema [
  GetOr "minGroupCount" (VInt 0)].
Definition to_json `{Pydantic} : value → outcome string := to_json_with to_dict.
Definition from_json `{Pydantic} : string → outcome value := from_json_with from_dict.
Definition to_str `{Pydantic} : value → outcome string := to_str_with schema.
End IoK8sApiSchedulingV1alpha3CompositeGangSchedulingPolicy.
#[export] Instance IoK8sApiSchedulingV1alpha3CompositeGangSchedulingPolicy_templated
  `{PydanticLaws} :
  Templated IoK8sApiSchedulingV1alpha3CompositeGangSchedulingPolicy.schema
    IoK8sApiSchedulingV1alpha3CompositeGangSchedulingPolicy.to_dict
      IoK8sApiSchedulingV1alpha3CompositeGangSchedulingPolicy.from_dict.
Proof. solve_model. Qed.

Module IoK8sApiSchedulingV1alpha3CompositePodGroupSchedulingConstraints.
Definition schema `{Pydantic} : Schema :=
  model "IoK8sApiSchedulingV1alpha3CompositePodGroupSchedulingConstraints" [
  opt "topology" "topology" (List (Model IoK8sApiSchedulingV1alpha3TopologyConstraint.schema))].
Definition to_dict `{Pydantic} : value → outcome value := to_dict_with schema [
  DumpItems "topology" "topology" IoK8sApiSchedulingV1alpha3TopologyConstraint.to_dict].
Definition from_dict `{Pydantic} : value → outcome value := from_dict_with schema [
  FromDictItems "topology" IoK8sApiSchedulingV1alpha3TopologyConstraint.from_dict].
Definition to_json `{Pydantic} : value → outcome string := to_json_with to_dict.
Definition from_json `{Pydantic} : string → outcome value := from_json_with from_dict.
Definition to_str `{Pydantic} : value → outcome string := to_str_with schema.
End IoK8sApiSchedulingV1alpha3CompositePodGroupSchedulingConstraints.
#[export] Instance IoK8sApiSchedulingV1alpha3CompositePodGroupSchedulingConstraints_templated
  `{PydanticLaws} :
  Templated IoK8sApiSchedulingV1alpha3CompositePodGroupSchedulingConstraints.schema
    IoK8sApiSchedulingV1alpha3CompositePodGroupSchedulingConstraints.to_dict
      IoK8sApiSchedulingV1alpha3CompositePodGroupSchedulingConstraints.from_dict.
Proof. solve_model. Qed.

Module IoK8sApiSchedulingV1alpha3CompositePodGroupSchedulingPolicy.
Definition schema `{Pydantic} : Schema :=
  model "IoK8sApiSchedulingV1alpha3CompositePodGroupSchedulingPolicy" [
  opt "basic" "basic" (Dict AnyValue);
  opt "gang" "gang" (Model IoK8sApiSchedulingV1alpha3CompositeGangSchedulingPolicy.schema)].
Definition to_dict `{Pydantic} : value → outcome value := to_dict_with schema [
  Dump "gang" "gang" IoK8sApiSchedulingV1alpha3CompositeGangSchedulingPolicy.to_dict].
Definition from_dict `{Pydantic} : value → outcome value := from_dict_with schema [
  Get "basic";
  FromDict "gang" IoK8sApiSchedulingV1alpha3CompositeGangSchedulingPolicy.from_dict].
Definition to_json `{Pydantic} : value → outcome string := to_json_with to_dict.
Definition from_json `{Pydantic} : string → outcome value := from_json_with from_dict.
Definition to_str `{Pydantic} : value → outcome string := to_str_with schema.
End IoK8sApiSchedulingV1alpha3CompositePodGroupSchedulingPolicy.
#[export] Instance IoK8sApiSchedulingV1alpha3CompositePodGroupSchedulingPolicy_templated
  `{PydanticLaws} :
  Templated IoK8sApiSchedulingV1alpha3CompositePodGroupSchedulingPolicy.schema
    IoK8sApiSchedulingV1alpha3CompositePodGroupSchedulingPolicy.to_dict
      IoK8sApiSchedulingV1alpha3CompositePodGroupSchedulingPolicy.from_dict.
Proof. solve_model. Qed.

Module IoK8sApiSchedulingV1alpha3WorkloadReference.
Definition schema `{Pydantic} : Schema := model "IoK8sApiSchedulingV1alpha3WorkloadReference" [
  req "template_name" "templateName" StrictStr;
  req "workload_name" "workloadName" StrictStr].
Definition to_dict `{Pydantic} : value → outcome value := to_dict_with schema [].
Definition from_dict `{Pydantic} : value → outcome value := from_dict_with schema [
  GetOr "templateName" (VStr "");
  GetOr "workloadName" (VStr "")].
Definition to_json `{Pydantic} : value → outcome string := to_json_with to_dict.
Definition from_json `{Pydantic} : string → outcome value := from_json_with from_dict.
Definition to_str `{Pydantic} : value → outcome string := to_str_with schema.
End IoK8sApiSchedulingV1alpha3WorkloadReference.
#[export] Instance IoK8sApiSchedulingV1alpha3WorkloadReference_templated `{PydanticLaws} :
  Templated IoK8sApiSchedulingV1alpha3WorkloadReference.schema
    IoK8sApiSchedulingV1alpha3WorkloadReference.to_dict
      IoK8sApiSchedulingV1alpha3WorkloadReference.from_dict.
Proof. solve_model. Qed.

Module IoK8sApiSchedulingV1alpha3CompositePodGroupSpec.
Definition schema `{Pydantic} : Schema := model "IoK8sApiSchedulingV1alpha3CompositePodGroupSpec" [
  opt "disruption_mode" "disruptionMode"
    (Model IoK8sApiSchedulingV1alpha3CompositeDisruptionMode.schema);
  opt "parent_composite_pod_group_name" "parentCompositePodGroupName" StrictStr;
  checked (opt "preemption_policy" "preemptionPolicy" StrictStr)
    (none_or_one_of ["Never"; "PreemptLowerPriority"]);
  opt "priority" "priority" StrictInt;
  opt "priority_class_name" "priorityClassName" StrictStr;
  opt "scheduling_constraints" "schedulingConstraints"
    (Model IoK8sApiSchedulingV1alpha3CompositePodGroupSchedulingConstraints.schema);
  req "scheduling_policy" "schedulingPolicy"
    (Model IoK8sApiSchedulingV1alpha3CompositePodGroupSchedulingPolicy.schema);
  req "workload_ref" "workloadRef" (Model IoK8sApiSchedulingV1alpha3WorkloadReference.schema)].
Definition to_dict `{Pydantic} : value → outcome value := to_dict_with schema [
  Dump "disruption_mode" "disruptionMode" IoK8sApiSchedulingV1alpha3CompositeDisruptionMode.to_dict;
  Dump "scheduling_constraints" "schedulingConstraints"
    IoK8sApiSchedulingV1alpha3CompositePodGroupSchedulingConstraints.to_dict;
  Dump "scheduling_policy" "schedulingPolicy"
    IoK8sApiSchedulingV1alpha3CompositePodGroupSchedulingPolicy.to_dict;
  Dump "workload_ref" "workloadRef" IoK8sApiSchedulingV1alpha3WorkloadReference.to_dict].
Definition from_dict `{Pydantic} : value → outcome value := from_dict_with schema [
  FromDict "disruptionMode" IoK8sApiSchedulingV1alpha3CompositeDisruptionMode.from_dict;
  Get "parentCompositePodGroupName";
  Get "preemptionPolicy";
  Get "priority";
  Get "priorityClassName";
  FromDict "schedulingConstraints"
    IoK8sApiSchedulingV1alpha3CompositePodGroupSchedulingConstraints.from_dict;
  FromDict "schedulingPolicy" IoK8sApiSchedulingV1alpha3CompositePodGroupSchedulingPolicy.from_dict;
  FromDict "workloadRef" IoK8sApiSchedulingV1alpha3WorkloadReference.from_dict].
Definition to_json `{Pydantic} : value → outcome string := to_json_with to_dict.
Definition from_json `{Pydantic} : string → outcome value := from_json_with from_dict.
Definition to_str `{Pydantic} : value → outcome string := to_str_with schema.
End IoK8sApiSchedulingV1alpha3CompositePodGroupSpec.
#[export] Instance IoK8sApiSchedulingV1alpha3CompositePodGroupSpec_templated `{PydanticLaws} :
  Templated IoK8sApiSchedulingV1alpha3CompositePodGroupSpec.schema
    IoK8sApiSchedulingV1alpha3CompositePodGroupSpec.to_dict
      IoK8sApiSchedulingV1alpha3CompositePodGroupSpec.from_dict.
Proof. solve_model. Qed.

Module IoK8sApiSchedulingV1alpha3CompositePodGroupStatus.
Definition schema `{Pydantic} : Schema :=
  model "IoK8sApiSchedulingV1alpha3CompositePodGroupStatus" [
  opt "conditions" "conditions" (List (Model IoK8sApimachineryPkgApisMetaV1Condition.schema))].
Definition to_dict `{Pydantic} : value → outcome value := to_dict_with schema [
  DumpItems "conditions" "conditions" IoK8sApimachineryPkgApisMetaV1Condition.to_dict].
Definition from_dict `{Pydantic} : value → outcome value := from_dict_with schema [
  FromDictItems "conditions" IoK8sApimachineryPkgApisMetaV1Condition.from_dict].
Definition to_json `{Pydantic} : value → outcome string := to_json_with to_dict.
Definition from_json `{Pydantic} : string → outcome value := from_json_with from_dict.
Definition to_str `{Pydantic} : value → outcome string := to_str_with schema.
End IoK8sApiSchedulingV1alpha3CompositePodGroupStatus.
#[export] Instance IoK8sApiSchedulingV1alpha3CompositePodGroupStatus_templated `{PydanticLaws} :
  Templated IoK8sApiSchedulingV1alpha3CompositePodGroupStatus.schema
    IoK8sApiSchedulingV1alpha3CompositePodGroupStatus.to_dict
      IoK8sApiSchedulingV1alpha3CompositePodGroupStatus.from_dict.
Proof. solve_model. Qed.

Module IoK8sApiSchedulingV1alpha3CompositePodGroup.
Definition schema `{Pydantic} : Schema := model "IoK8sApiSchedulingV1alpha3CompositePodGroup" [
  opt "api_version" "apiVersion" StrictStr;
  opt "kind" "kind" StrictStr;
  opt "metadata" "metadata" (Model IoK8sApimachineryPkgApisMetaV1ObjectMeta.schema);
  req "spec" "spec" (Model IoK8sApiSchedulingV1alpha3CompositePodGroupSpec.schema);
  opt "status" "status" (Model IoK8sApiSchedulingV1alpha3CompositePodGroupStatus.schema)].
Definition to_dict `{Pydantic} : value → outcome value := to_dict_with schema [
  Dump "metadata" "metadata" IoK8sApimachineryPkgApisMetaV1ObjectMeta.to_dict;
  Dump "spec" "spec" IoK8sApiSchedulingV1alpha3CompositePodGroupSpec.to_dict;
  Dump "status" "status" IoK8sApiSchedulingV1alpha3CompositePodGroupStatus.to_dict].
Definition from_dict `{Pydantic} : value → outcome value := from_dict_with schema [
  Get "apiVersion";
  Get "kind";
  FromDict "metadata" IoK8sApimachineryPkgApisMetaV1ObjectMeta.from_dict;
  FromDict "spec" IoK8sApiSchedulingV1alpha3CompositePodGroupSpec.from_dict;
  FromDict "status" IoK8sApiSchedulingV1alpha3CompositePodGroupStatus.from_dict].
Definition to_json `{Pydantic} : value → outcome string := to_json_with to_dict.
Definition from_json `{Pydantic} : string → outcome value := from_json_with from_dict.
Definition to_str `{Pydantic} : value → outcome string := to_str_with schema.
End IoK8sApiSchedulingV1alpha3CompositePodGroup.
#[export] Instance IoK8sApiSchedulingV1alpha3CompositePodGroup_templated `{PydanticLaws} :
  Templated IoK8sApiSchedulingV1alpha3CompositePodGroup.schema
    IoK8sApiSchedulingV1alpha3CompositePodGroup.to_dict
      IoK8sApiSchedulingV1alpha3CompositePodGroup.from_dict.
Proof. solve_model. Qed.

Module IoK8sApiSchedulingV1alpha3CompositePodGroupList.
Definition schema `{Pydantic} : Schema := model "IoK8sApiSchedulingV1alpha3CompositePodGroupList" [
  opt "api_version" "apiVersion" StrictStr;
  req "items" "items" (List (Model IoK8sApiSchedulingV1alpha3CompositePodGroup.schema));
  opt "kind" "kind" StrictStr;
  opt "metadata" "metadata" (Model IoK8sApimachineryPkgApisMetaV1ListMeta.schema)].
Definition to_dict `{Pydantic} : value → outcome value := to_dict_with schema [
  DumpItems "items" "items" IoK8sApiSchedulingV1alpha3CompositePodGroup.to_dict;
  Dump "metadata" "metadata" IoK8sApimachineryPkgApisMetaV1ListMeta.to_dict].
Definition from_dict `{Pydantic} : value → outcome value := from_dict_with schema [
  Get "apiVersion";
  FromDictItems "items" IoK8sApiSchedulingV1alpha3CompositePodGroup.from_dict;
  Get "kind";
  FromDict "metadata" IoK8sApimachineryPkgApisMetaV1ListMeta.from_dict].
Definition to_json `{Pydantic} : value → outcome string := to_json_with to_dict.
Definition from_json `{Pydantic} : string → outcome value := from_json_with from_dict.
Definition to_str `{Pydantic} : value → outcome string := to_str_with schema.
End IoK8sApiSchedulingV1alpha3CompositePodGroupList.
#[export] Instance IoK8sApiSchedulingV1alpha3CompositePodGroupList_templated `{PydanticLaws} :
  Templated IoK8sApiSchedulingV1alpha3CompositePodGroupList.schema
    IoK8sApiSchedulingV1alpha3CompositePodGroupList.to_dict
      IoK8sApiSchedulingV1alpha3CompositePodGroupList.from_dict.
Proof. solve_model. Qed.

Module IoK8sApiSchedulingV1alpha3DisruptionMode.
Definition schema `{Pydantic} : Schema := model "IoK8sApiSchedulingV1alpha3DisruptionMode" [
  opt "all" "all" (Dict AnyValue);
  opt "single" "single" (Dict AnyValue)].
Definition to_dict `{Pydantic} : value → outcome value := to_dict_with schema [].
Definition from_dict `{Pydantic} : value → outcome value := from_dict_with schema [
  Get "all";
  Get "single"].
Definition to_json `{Pydantic} : value → outcome string := to_json_with to_dict.
Definition from_json `{Pydantic} : string → outcome value := from_json_with from_dict.
Definition to_str `{Pydantic} : value → outcome string := to_str_with schema.
End IoK8sApiSchedulingV1alpha3DisruptionMode.
#[export] Instance IoK8sApiSchedulingV1alpha3DisruptionMode_templated `{PydanticLaws} :
  Templated IoK8sApiSchedulingV1alpha3DisruptionMode.schema
    IoK8sApiSchedulingV1alpha3DisruptionMode.to_dict
      IoK8sApiSchedulingV1alpha3DisruptionMode.from_dict.
Proof. solve_model. Qed.

Module IoK8sApiSchedulingV1alpha3GangSchedulingPolicy.
Definition schema `{Pydantic} : Schema := model "IoK8sApiSchedulingV1alpha3GangSchedulingPolicy" [
  req "min_count" "minCount" StrictInt].
Definition to_dict `{Pydantic} : value → outcome value := to_dict_with schema [].
Definition from_dict `{Pydantic} : value → outcome value := from_dict_with schema [
  GetOr "minCount" (VInt 0)].
Definition to_json `{Pydantic} : value → outcome string := to_json_with to_dict.
Definition from_json `{Pydantic} : string → outcome value := from_json_with from_dict.
Definition to_str `{Pydantic} : value → outcome string := to_str_with schema.
End IoK8sApiSchedulingV1alpha3GangSchedulingPolicy.
#[export] Instance IoK8sApiSchedulingV1alpha3GangSchedulingPolicy_templated `{PydanticLaws} :
  Templated IoK8sApiSchedulingV1alpha3GangSchedulingPolicy.schema
    IoK8sApiSchedulingV1alpha3GangSchedulingPolicy.to_dict
      IoK8sApiSchedulingV1alpha3GangSchedulingPolicy.from_dict.
Proof. solve_model. Qed.

Module IoK8sApiSchedulingV1alpha3PodGroupResourceClaim.
Definition schema `{Pydantic} : Schema := model "IoK8sApiSchedulingV1alpha3PodGroupResourceClaim" [
  req "name" "name" StrictStr;
  opt "resource_claim_name" "resourceClaimName" StrictStr;
  opt "resource_claim_template_name" "resourceClaimTemplateName" StrictStr].
Definition to_dict `{Pydantic} : value → outcome value := to_dict_with schema [].
Definition from_dict `{Pydantic} : value → outcome value := from_dict_with schema [
  GetOr "name" (VStr "");
  Get "resourceClaimName";
  Get "resourceClaimTemplateName"].
Definition to_json `{Pydantic} : value → outcome string := to_json_with to_dict.
Definition from_json `{Pydantic} : string → outcome value := from_json_with from_dict.
Definition to_str `{Pydantic} : value → outcome string := to_str_with schema.
End IoK8sApiSchedulingV1alpha3PodGroupResourceClaim.
#[export] Instance IoK8sApiSchedulingV1alpha3PodGroupResourceClaim_templated `{PydanticLaws} :
  Templated IoK8sApiSchedulingV1alpha3PodGroupResourceClaim.schema
    IoK8sApiSchedulingV1alpha3PodGroupResourceClaim.to_dict
      IoK8sApiSchedulingV1alpha3PodGroupResourceClaim.from_dict.
Proof. solve_model. Qed.

Module IoK8sApiSchedulingV1alpha3PodGroupSchedulingConstraints.
Definition schema `{Pydantic} : Schema :=
  model "IoK8sApiSchedulingV1alpha3PodGroupSchedulingConstraints" [
  opt "topology" "topology" (List (Model IoK8sApiSchedulingV1alpha3TopologyConstraint.schema))].
Definition to_dict `{Pydantic} : value → outcome value := to_dict_with schema [
  DumpItems "topology" "topology" IoK8sApiSchedulingV1alpha3TopologyConstraint.to_dict].
Definition from_dict `{Pydantic} : value → outcome value := from_dict_with schema [
  FromDictItems "topology" IoK8sApiSchedulingV1alpha3TopologyConstraint.from_dict].
Definition to_json `{Pydantic} : value → outcome string := to_json_with to_dict.
Definition from_json `{Pydantic} : string → outcome value := from_json_with from_dict.
Definition to_str `{Pydantic} : value → outcome string := to_str_with schema.
End IoK8sApiSchedulingV1alpha3PodGroupSchedulingConstraints.
#[export] Instance IoK8sApiSchedulingV1alpha3PodGroupSchedulingConstraints_templated
  `{PydanticLaws} :
  Templated IoK8sApiSchedulingV1alpha3PodGroupSchedulingConstraints.schema
    IoK8sApiSchedulingV1alpha3PodGroupSchedulingConstraints.to_dict
      IoK8sApiSchedulingV1alpha3PodGroupSchedulingConstraints.from_dict.
Proof. solve_model. Qed.

Module IoK8sApiSchedulingV1alpha3PodGroupSchedulingPolicy.
Definition schema `{Pydantic} : Schema :=
  model "IoK8sApiSchedulingV1alpha3PodGroupSchedulingPolicy" [
  opt "basic" "basic" (Dict AnyValue);
  opt "gang" "gang" (Model IoK8sApiSchedulingV1alpha3GangSchedulingPolicy.schema)].
Definition to_dict `{Pydantic} : value → outcome value := to_dict_with schema [
  Dump "gang" "gang" IoK8sApiSchedulingV1alpha3GangSchedulingPolicy.to_dict].
Definition from_dict `{Pydantic} : value → outcome value := from_dict_with schema [
  Get "basic";
  FromDict "gang" IoK8sApiSchedulingV1alpha3GangSchedulingPolicy.from_dict].
Definition to_json `{Pydantic} : value → outcome string := to_json_with to_dict.
Definition from_json `{Pydantic} : string → outcome value := from_json_with from_dict.
Definition to_str `{Pydantic} : value → outcome string := to_str_with schema.
End IoK8sApiSchedulingV1alpha3PodGroupSchedulingPolicy.
#[export] Instance IoK8sApiSchedulingV1alpha3PodGroupSchedulingPolicy_templated `{PydanticLaws} :
  Templated IoK8sApiSchedulingV1alpha3PodGroupSchedulingPolicy.schema
    IoK8sApiSchedulingV1alpha3PodGroupSchedulingPolicy.to_dict
      IoK8sApiSchedulingV1alpha3PodGroupSchedulingPolicy.from_dict.
Proof. solve_model. Qed.

Module IoK8sApiSchedulingV1alpha3PodGroupSpec.
Definition schema `{Pydantic} : Schema := model "IoK8sApiSchedulingV1alpha3PodGroupSpec" [
  opt "disruption_mode" "disruptionMode" (Model IoK8sApiSchedulingV1alpha3DisruptionMode.schema);
  opt "parent_composite_pod_group_name" "parentCompositePodGroupName" StrictStr;
  checked (opt "preemption_policy" "preemptionPolicy" StrictStr)
    (none_or_one_of ["Never"; "PreemptLowerPriority"]);
  opt "priority" "priority" StrictInt;
  opt "priority_class_name" "priorityClassName" StrictStr;
  opt "resource_claims" "resourceClaims" (List
    (Model IoK8sApiSchedulingV1alpha3PodGroupResourceClaim.schema));
  opt "scheduling_constraints" "schedulingConstraints"
    (Model IoK8sApiSchedulingV1alpha3PodGroupSchedulingConstraints.schema);
  req "scheduling_policy" "schedulingPolicy"
    (Model IoK8sApiSchedulingV1alpha3PodGroupSchedulingPolicy.schema);
  opt "workload_ref" "workloadRef" (Model IoK8sApiSchedulingV1alpha3WorkloadReference.schema)].
Definition to_dict `{Pydantic} : value → outcome value := to_dict_with schema [
  Dump "disruption_mode" "disruptionMode" IoK8sApiSchedulingV1alpha3DisruptionMode.to_dict;
  DumpItems "resource_claims" "resourceClaims"
    IoK8sApiSchedulingV1alpha3PodGroupResourceClaim.to_dict;
  Dump "scheduling_constraints" "schedulingConstraints"
    IoK8sApiSchedulingV1alpha3PodGroupSchedulingConstraints.to_dict;
  Dump "scheduling_policy" "schedulingPolicy"
    IoK8sApiSchedulingV1alpha3PodGroupSchedulingPolicy.to_dict;
  Dump "workload_ref" "workloadRef" IoK8sApiSchedulingV1alpha3WorkloadReference.to_dict].
Definition from_dict `{Pydantic} : value → outcome value := from_dict_with schema [
  FromDict "disruptionMode" IoK8sApiSchedulingV1alpha3DisruptionMode.from_dict;
  Get "parentCompositePodGroupName";
  Get "preemptionPolicy";
  Get "priority";
  Get "priorityClassName";
  FromDictItems "resourceClaims" IoK8sApiSchedulingV1alpha3PodGroupResourceClaim.from_dict;
  FromDict "schedulingConstraints"
    IoK8sApiSchedulingV1alpha3PodGroupSchedulingConstraints.from_dict;
  FromDict "schedulingPolicy" IoK8sApiSchedulingV1alpha3PodGroupSchedulingPolicy.from_dict;
  FromDict "workloadRef" IoK8sApiSchedulingV1alpha3WorkloadReference.from_dict].
Definition to_json `{Pydantic} : value → outcome string := to_json_with to_dict.
Definition from_json `{Pydantic} : string → outcome value := from_json_with from_dict.
Definition to_str `{Pydantic} : value → outcome string := to_str_with schema.
End IoK8sApiSchedulingV1alpha3PodGroupSpec.
#[export] Instance IoK8sApiSchedulingV1alpha3PodGroupSpec_templated `{PydanticLaws} :
  Templated IoK8sApiSchedulingV1alpha3PodGroupSpec.schema
    IoK8sApiSchedulingV1alpha3PodGroupSpec.to_dict IoK8sApiSchedulingV1alpha3PodGroupSpec.from_dict.
Proof. solve_model. Qed.

Module IoK8sApiSchedulingV1alpha3PodGroupResourceClaimStatus.
Definition schema `{Pydantic} : Schema :=
  model "IoK8sApiSchedulingV1alpha3PodGroupResourceClaimStatus" [
  req "name" "name" StrictStr;
  opt "resource_claim_name" "resourceClaimName" StrictStr].
Definition to_dict `{Pydantic} : value → outcome value := to_dict_with schema [].
Definition from_dict `{Pydantic} : value → outcome value := from_dict_with schema [
  GetOr "name" (VStr "");
  Get "resourceClaimName"].
Definition to_json `{Pydantic} : value → outcome string := to_json_with to_dict.
Definition from_json `{Pydantic} : string → outcome value := from_json_with from_dict.
Definition to_str `{Pydantic} : value → outcome string := to_str_with schema.
End IoK8sApiSchedulingV1alpha3PodGroupResourceClaimStatus.
#[export] Instance IoK8sApiSchedulingV1alpha3PodGroupResourceClaimStatus_templated `{PydanticLaws} :
  Templated IoK8sApiSchedulingV1alpha3PodGroupResourceClaimStatus.schema
    IoK8sApiSchedulingV1alpha3PodGroupResourceClaimStatus.to_dict
      IoK8sApiSchedulingV1alpha3PodGroupResourceClaimStatus.from_dict.
Proof. solve_model. Qed.

Module IoK8sApiSchedulingV1alpha3PodGroupStatus.
Definition schema `{Pydantic} : Schema := model "IoK8sApiSchedulingV1alpha3PodGroupStatus" [
  opt "conditions" "conditions" (List (Model IoK8sApimachineryPkgApisMetaV1Condition.schema));
  opt "resource_claim_statuses" "resourceClaimStatuses" (List
    (Model IoK8sApiSchedulingV1alpha3PodGroupResourceClaimStatus.schema))].
Definition to_dict `{Pydantic} : value → outcome value := to_dict_with schema [
  DumpItems "conditions" "conditions" IoK8sApimachineryPkgApisMetaV1Condition.to_dict;
  DumpItems "resource_claim_statuses" "resourceClaimStatuses"
    IoK8sApiSchedulingV1alpha3PodGroupResourceClaimStatus.to_dict].
Definition from_dict `{Pydantic} : value → outcome value := from_dict_with schema [
  FromDictItems "conditions" IoK8sApimachineryPkgApisMetaV1Condition.from_dict;
  FromDictItems "resourceClaimStatuses"
    IoK8sApiSchedulingV1alpha3PodGroupResourceClaimStatus.from_dict].
Definition to_json `{Pydantic} : value → outcome string := to_json_with to_dict.
Definition from_json `{Pydantic} : string → outcome value := from_json_with from_dict.
Definition to_str `{Pydantic} : value → outcome string := to_str_with schema.
End IoK8sApiSchedulingV1alpha3PodGroupStatus.
#[export] Instance IoK8sApiSchedulingV1alpha3PodGroupStatus_templated `{PydanticLaws} :
  Templated IoK8sApiSchedulingV1alpha3PodGroupStatus.schema
    IoK8sApiSchedulingV1alpha3PodGroupStatus.to_dict
      IoK8sApiSchedulingV1alpha3PodGroupStatus.from_dict.
Proof. solve_model. Qed.

Module IoK8sApiSchedulingV1alpha3PodGroup.
Definition schema `{Pydantic} : Schema := model "IoK8sApiSchedulingV1alpha3PodGroup" [
  opt "api_version" "apiVersion" StrictStr;
  opt "kind" "kind" StrictStr;
  opt "metadata" "metadata" (Model IoK8sApimachineryPkgApisMetaV1ObjectMeta.schema);
  req "spec" "spec" (Model IoK8sApiSchedulingV1alpha3PodGroupSpec.schema);
  opt "status" "status" (Model IoK8sApiSchedulingV1alpha3PodGroupStatus.schema)].
Definition to_dict `{Pydantic} : value → outcome value := to_dict_with schema [
  Dump "metadata" "metadata" IoK8sApimachineryPkgApisMetaV1ObjectMeta.to_dict;
  Dump "spec" "spec" IoK8sApiSchedulingV1alpha3PodGroupSpec.to_dict;
  Dump "status" "status" IoK8sApiSchedulingV1alpha3PodGroupStatus.to_dict].
Definition from_dict `{Pydantic} : value → outcome value := from_dict_with schema [
  Get "apiVersion";
  Get "kind";
  FromDict "metadata" IoK8sApimachineryPkgApisMetaV1ObjectMeta.from_dict;
  FromDict "spec" IoK8sApiSchedulingV1alpha3PodGroupSpec.from_dict;
  FromDict "status" IoK8sApiSchedulingV1alpha3PodGroupStatus.from_dict].
Definition to_json `{Pydantic} : value → outcome string := to_json_with to_dict.
Definition from_json `{Pydantic} : string → outcome value := from_json_with from_dict.
Definition to_str `{Pydantic} : value → outcome string := to_str_with schema.
End IoK8sApiSchedulingV1alpha3PodGroup.
#[export] Instance IoK8sApiSchedulingV1alpha3PodGroup_templated `{PydanticLaws} :
  Templated IoK8sApiSchedulingV1alpha3PodGroup.schema IoK8sApiSchedulingV1alpha3PodGroup.to_dict
    IoK8sApiSchedulingV1alpha3PodGroup.from_dict.
Proof. solve_model. Qed.

Module IoK8sApiSchedulingV1alpha3PodGroupList.
Definition schema `{Pydantic} : Schema := model "IoK8sApiSchedulingV1alpha3PodGroupList" [
  opt "api_version" "apiVersion" StrictStr;
  req "items" "items" (List (Model IoK8sApiSchedulingV1alpha3PodGroup.schema));
  opt "kind" "kind" StrictStr;
  opt "metadata" "metadata" (Model IoK8sApimachineryPkgApisMetaV1ListMeta.schema)].
Definition to_dict `{Pydantic} : value → outcome value := to_dict_with schema [
  DumpItems "items" "items" IoK8sApiSchedulingV1alpha3PodGroup.to_dict;
  Dump "metadata" "metadata" IoK8sApimachineryPkgApisMetaV1ListMeta.to_dict].
Definition from_dict `{Pydantic} : value → outcome value := from_dict_with schema [
  Get "apiVersion";
  FromDictItems "items" IoK8sApiSchedulingV1alpha3PodGroup.from_dict;
  Get "kind";
  FromDict "metadata" IoK8sApimachineryPkgApisMetaV1ListMeta.from_dict].
Definition to_json `{Pydantic} : value → outcome string := to_json_with to_dict.
Definition from_json `{Pydantic} : string → outcome value := from_json_with from_dict.
Definition to_str `{Pydantic} : value → outcome string := to_str_with schema.
End IoK8sApiSchedulingV1alpha3PodGroupList.
#[export] Instance IoK8sApiSchedulingV1alpha3PodGroupList_templated `{PydanticLaws} :
  Templated IoK8sApiSchedulingV1alpha3PodGroupList.schema
    IoK8sApiSchedulingV1alpha3PodGroupList.to_dict IoK8sApiSchedulingV1alpha3PodGroupList.from_dict.
Proof. solve_model. Qed.

Module IoK8sApiSchedulingV1alpha3PodGroupTemplate.
Definition schema `{Pydantic} : Schema := model "IoK8sApiSchedulingV1alpha3PodGroupTemplate" [
  opt "disruption_mode" "disruptionMode" (Model IoK8sApiSchedulingV1alpha3DisruptionMode.schema);
  req "name" "name" StrictStr;
  checked (opt "preemption_policy" "preemptionPolicy" StrictStr)
    (none_or_one_of ["Never"; "PreemptLowerPriority"]);
  opt "priority" "priority" StrictInt;
  opt "priority_class_name" "priorityClassName" StrictStr;
  opt "resource_claims" "resourceClaims" (List
    (Model IoK8sApiSchedulingV1alpha3PodGroupResourceClaim.schema));
  opt "scheduling_constraints" "schedulingConstraints"
    (Model IoK8sApiSchedulingV1alpha3PodGroupSchedulingConstraints.schema);
  req "scheduling_policy" "schedulingPolicy"
    (Model IoK8sApiSchedulingV1alpha3PodGroupSchedulingPolicy.schema)].
Definition to_dict `{Pydantic} : value → outcome value := to_dict_with schema [
  Dump "disruption_mode" "disruptionMode" IoK8sApiSchedulingV1alpha3DisruptionMode.to_dict;
  DumpItems "resource_claims" "resourceClaims"
    IoK8sApiSchedulingV1alpha3PodGroupResourceClaim.to_dict;
  Dump "scheduling_constraints" "schedulingConstraints"
    IoK8sApiSchedulingV1alpha3PodGroupSchedulingConstraints.to_dict;
  Dump "scheduling_policy" "schedulingPolicy"
    IoK8sApiSchedulingV1alpha3PodGroupSchedulingPolicy.to_dict].
Definition from_dict `{Pydantic} : value → outcome value := from_dict_with schema [
  FromDict "disruptionMode" IoK8sApiSchedulingV1alpha3DisruptionMode.from_dict;
  GetOr "name" (VStr "");
  Get "preemptionPolicy";
  Get "priority";
  Get "priorityClassName";
  FromDictItems "resourceClaims" IoK8sApiSchedulingV1alpha3PodGroupResourceClaim.from_dict;
  FromDict "schedulingConstraints"
    IoK8sApiSchedulingV1alpha3PodGroupSchedulingConstraints.from_dict;
  FromDict "schedulingPolicy" IoK8sApiSchedulingV1alpha3PodGroupSchedulingPolicy.from_dict].
Definition to_json `{Pydantic} : value → outcome string := to_json_with to_dict.
Definition from_json `{Pydantic} : string → outcome value := from_json_with from_dict.
Definition to_str `{Pydantic} : value → outcome string := to_str_with schema.
End IoK8sApiSchedulingV1alpha3PodGroupTemplate.
#[export] Instance IoK8sApiSchedulingV1alpha3PodGroupTemplate_templated `{PydanticLaws} :
  Templated IoK8sApiSchedulingV1alpha3PodGroupTemplate.schema
    IoK8sApiSchedulingV1alpha3PodGroupTemplate.to_dict
      IoK8sApiSchedulingV1alpha3PodGroupTemplate.from_dict.
Proof. solve_model. Qed.

Module IoK8sApiSchedulingV1alpha3TypedLocalObjectReference.
Definition schema `{Pydantic} : Schema :=
  model "IoK8sApiSchedulingV1alpha3TypedLocalObjectReference" [
  opt "api_group" "apiGroup" StrictStr;
  req "kind" "kind" StrictStr;
  req "name" "name" StrictStr].
Definition to_dict `{Pydantic} : value → outcome value := to_dict_with schema [].
Definition from_dict `{Pydantic} : value → outcome value := from_dict_with schema [
  Get "apiGroup";
  GetOr "kind" (VStr "");
  GetOr "name" (VStr "")].
Definition to_json `{Pydantic} : value → outcome string := to_json_with to_dict.
Definition from_json `{Pydantic} : string → outcome value := from_json_with from_dict.
Definition to_str `{Pydantic} : value → outcome string := to_str_with schema.
End IoK8sApiSchedulingV1alpha3TypedLocalObjectReference.
#[export] Instance IoK8sApiSchedulingV1alpha3TypedLocalObjectReference_templated `{PydanticLaws} :
  Templated IoK8sApiSchedulingV1alpha3TypedLocalObjectReference.schema
    IoK8sApiSchedulingV1alpha3TypedLocalObjectReference.to_dict
      IoK8sApiSchedulingV1alpha3TypedLocalObjectReference.from_dict.
Proof. solve_model. Qed.

Module JobsetV1alpha2ReplicatedJobStatus.
Definition schema `{Pydantic} : Schema := model "JobsetV1alpha2ReplicatedJobStatus" [
  req "active" "active" StrictInt;
  req "failed" "failed" StrictInt;
  opt "job_restarts" "jobRestarts" (List StrictInt);
  opt "job_restarts_count_towards_max" "jobRestartsCountTowardsMax" (List StrictInt);
  req "name" "name" StrictStr;
  req "ready" "ready" StrictInt;
  req "succeeded" "succeeded" StrictInt;
  req "suspended" "suspended" StrictInt].
Definition to_dict `{Pydantic} : value → outcome value := to_dict_with schema [].
Definition from_dict `{Pydantic} : value → outcome value := from_dict_with schema [
  GetOr "active" (VInt 0);
  GetOr "failed" (VInt 0);
  Get "jobRestarts";
  Get "jobRestartsCountTowardsMax";
  GetOr "name" (VStr "");
  GetOr "ready" (VInt 0);
  GetOr "succeeded" (VInt 0);
  GetOr "suspended" (VInt 0)].
Definition to_json `{Pydantic} : value → outcome string := to_json_with to_dict.
Definition from_json `{Pydantic} : string → outcome value := from_json_with from_dict.
Definition to_str `{Pydantic} : value → outcome string := to_str_with schema.
End JobsetV1alpha2ReplicatedJobStatus.
#[export] Instance JobsetV1alpha2ReplicatedJobStatus_templated `{PydanticLaws} :
  Templated JobsetV1alpha2ReplicatedJobStatus.schema JobsetV1alpha2ReplicatedJobStatus.to_dict
    JobsetV1alpha2ReplicatedJobStatus.from_dict.
Proof. solve_model. Qed.

Module JobsetV1alpha2JobSetStatus.
Definition schema `{Pydantic} : Schema := model "JobsetV1alpha2JobSetStatus" [
  opt "conditions" "conditions" (List (Model IoK8sApimachineryPkgApisMetaV1Condition.schema));
  opt "current_in_place_restart_attempt" "currentInPlaceRestartAttempt" StrictInt;
  opt "execution_attempts" "executionAttempts" StrictInt;
  opt "previous_in_place_restart_attempt" "previousInPlaceRestartAttempt" StrictInt;
  opt "replicated_jobs_status" "replicatedJobsStatus" (List
    (Model JobsetV1alpha2ReplicatedJobStatus.schema));
  opt_or "restarts" "restarts" StrictInt (VInt 0);
  opt "restarts_count_towards_max" "restartsCountTowardsMax" StrictInt;
  opt "start_time" "startTime" Datetime;
  opt "terminal_state" "terminalState" StrictStr].
Definition to_dict `{Pydantic} : value → outcome value := to_dict_with schema [
  DumpItems "conditions" "conditions" IoK8sApimachineryPkgApisMetaV1Condition.to_dict;
  DumpItems "replicated_jobs_status" "replicatedJobsStatus"
    JobsetV1alpha2ReplicatedJobStatus.to_dict].
Definition from_dict `{Pydantic} : value → outcome value := from_dict_with schema [
  FromDictItems "conditions" IoK8sApimachineryPkgApisMetaV1Condition.from_dict;
  Get "currentInPlaceRestartAttempt";
  Get "executionAttempts";
  Get "previousInPlaceRestartAttempt";
  FromDictItems "replicatedJobsStatus" JobsetV1alpha2ReplicatedJobStatus.from_dict;
  GetOr "restarts" (VInt 0);
  Get "restartsCountTowardsMax";
  Get "startTime";
  Get "terminalState"].
Definition to_json `{Pydantic} : value → outcome string := to_json_with to_dict.
Definition from_json `{Pydantic} : string → outcome value := from_json_with from_dict.
Definition to_str `{Pydantic} : value → outcome string := to_str_with schema.
End JobsetV1alpha2JobSetStatus.
#[export] Instance JobsetV1alpha2JobSetStatus_templated `{PydanticLaws} :
  Templated JobsetV1alpha2JobSetStatus.schema JobsetV1alpha2JobSetStatus.to_dict
    JobsetV1alpha2JobSetStatus.from_dict.
Proof. solve_model. Qed.

Module JobsetV1alpha2JobSet.
Definition schema `{Pydantic} : Schema := model "JobsetV1alpha2JobSet" [
  opt "api_version" "apiVersion" StrictStr;
  opt "kind" "kind" StrictStr;
  opt "metadata" "metadata" (Model IoK8sApimachineryPkgApisMetaV1ObjectMeta.schema);
  opt "spec" "spec" (Model JobsetV1alpha2JobSetSpec.schema);
  opt "status" "status" (Model JobsetV1alpha2JobSetStatus.schema)].
Definition to_dict `{Pydantic} : value → outcome value := to_dict_with schema [
  Dump "metadata" "metadata" IoK8sApimachineryPkgApisMetaV1ObjectMeta.to_dict;
  Dump "spec" "spec" JobsetV1alpha2JobSetSpec.to_dict;
  Dump "status" "status" JobsetV1alpha2JobSetStatus.to_dict].
Definition from_dict `{Pydantic} : value → outcome value := from_dict_with schema [
  Get "apiVersion";
  Get "kind";
  FromDict "metadata" IoK8sApimachineryPkgApisMetaV1ObjectMeta.from_dict;
  FromDict "spec" JobsetV1alpha2JobSetSpec.from_dict;
  FromDict "status" JobsetV1alpha2JobSetStatus.from_dict].
Definition to_json `{Pydantic} : value → outcome string := to_json_with to_dict.
Definition from_json `{Pydantic} : string → outcome value := from_json_with from_dict.
Definition to_str `{Pydantic} : value → outcome string := to_str_with schema.
End JobsetV1alpha2JobSet.
#[export] Instance JobsetV1alpha2JobSet_templated `{PydanticLaws} :
  Templated JobsetV1alpha2JobSet.schema JobsetV1alpha2JobSet.to_dict JobsetV1alpha2JobSet.from_dict.
Proof. solve_model. Qed.

Module JobsetV1alpha2JobSetList.
Definition schema `{Pydantic} : Schema := model "JobsetV1alpha2JobSetList" [
  opt "api_version" "apiVersion" StrictStr;
  req "items" "items" (List (Model JobsetV1alpha2JobSet.schema));
  opt "kind" "kind" StrictStr;
  opt "metadata" "metadata" (Model IoK8sApimachineryPkgApisMetaV1ListMeta.schema)].
Definition to_dict `{Pydantic} : value → outcome value := to_dict_with schema [
  DumpItems "items" "items" JobsetV1alpha2JobSet.to_dict;
  Dump "metadata" "metadata" IoK8sApimachineryPkgApisMetaV1ListMeta.to_dict].
Definition from_dict `{Pydantic} : value → outcome value := from_dict_with schema [
  Get "apiVersion";
  FromDictItems "items" JobsetV1alpha2JobSet.from_dict;
  Get "kind";
  FromDict "metadata" IoK8sApimachineryPkgApisMetaV1ListMeta.from_dict].
Definition to_json `{Pydantic} : value → outcome string := to_json_with to_dict.
Definition from_json `{Pydantic} : string → outcome value := from_json_with from_dict.
Definition to_str `{Pydantic} : value → outcome string := to_str_with schema.
End JobsetV1alpha2JobSetList.
#[export] Instance JobsetV1alpha2JobSetList_templated `{PydanticLaws} :
  Templated JobsetV1alpha2JobSetList.schema JobsetV1alpha2JobSetList.to_dict
    JobsetV1alpha2JobSetList.from_dict.
Proof. solve_model. Qed.

(** All the classes of this file. *)
Definition workload_models `{Pydantic} : list ApiModel := [
  {| m_schema := IoK8sApiAutoscalingV2MetricTarget.schema;
     m_to_dict := IoK8sApiAutoscalingV2MetricTarget.to_dict;
     m_from_dict := IoK8sApiAutoscalingV2MetricTarget.from_dict;
     m_to_json := IoK8sApiAutoscalingV2MetricTarget.to_json;
     m_from_json := IoK8sApiAutoscalingV2MetricTarget.from_json;
     m_to_str := IoK8sApiAutoscalingV2MetricTarget.to_str |};
  {| m_schema := IoK8sApiAutoscalingV2ContainerResourceMetricSource.schema;
     m_to_dict := IoK8sApiAutoscalingV2ContainerResourceMetricSource.to_dict;
     m_from_dict := IoK8sApiAutoscalingV2ContainerResourceMetricSource.from_dict;
     m_to_json := IoK8sApiAutoscalingV2ContainerResourceMetricSource.to_json;
     m_from_json := IoK8sApiAutoscalingV2ContainerResourceMetricSource.from_json;
     m_to_str := IoK8sApiAutoscalingV2ContainerResourceMetricSource.to_str |};
  {| m_schema := IoK8sApiAutoscalingV2MetricValueStatus.schema;
     m_to_dict := IoK8sApiAutoscalingV2MetricValueStatus.to_dict;
     m_from_dict := IoK8sApiAutoscalingV2MetricValueStatus.from_dict;
     m_to_json := IoK8sApiAutoscalingV2MetricValueStatus.to_json;
     m_from_json := IoK8sApiAutoscalingV2MetricValueStatus.from_json;
     m_to_str := IoK8sApiAutoscalingV2MetricValueStatus.to_str |};
  {| m_schema := IoK8sApiAutoscalingV2ContainerResourceMetricStatus.schema;
     m_to_dict := IoK8sApiAutoscalingV2ContainerResourceMetricStatus.to_dict;
     m_from_dict := IoK8sApiAutoscalingV2ContainerResourceMetricStatus.from_dict;
     m_to_json := IoK8sApiAutoscalingV2ContainerResourceMetricStatus.to_json;
     m_from_json := IoK8sApiAutoscalingV2ContainerResourceMetricStatus.from_json;
     m_to_str := IoK8sApiAutoscalingV2ContainerResourceMetricStatus.to_str |};
  {| m_schema := IoK8sApiAutoscalingV2CrossVersionObjectReference.schema;
     m_to_dict := IoK8sApiAutoscalingV2CrossVersionObjectReference.to_dict;
     m_from_dict := IoK8sApiAutoscalingV2CrossVersionObjectReference.from_dict;
     m_to_json := IoK8sApiAutoscalingV2CrossVersionObjectReference.to_json;
     m_from_json := IoK8sApiAutoscalingV2CrossVersionObjectReference.from_json;
     m_to_str := IoK8sApiAutoscalingV2CrossVersionObjectReference.to_str |};
  {| m_schema := IoK8sApiAutoscalingV2MetricIdentifier.schema;
     m_to_dict := IoK8sApiAutoscalingV2MetricIdentifier.to_dict;
     m_from_dict := IoK8sApiAutoscalingV2MetricIdentifier.from_dict;
     m_to_json := IoK8sApiAutoscalingV2MetricIdentifier.to_json;
     m_from_json := IoK8sApiAutoscalingV2MetricIdentifier.from_json;
     m_to_str := IoK8sApiAutoscalingV2MetricIdentifier.to_str |};
  {| m_schema := IoK8sApiAutoscalingV2ExternalMetricSource.schema;
     m_to_dict := IoK8sApiAutoscalingV2ExternalMetricSource.to_dict;
     m_from_dict := IoK8sApiAutoscalingV2ExternalMetricSource.from_dict;
     m_to_json := IoK8sApiAutoscalingV2ExternalMetricSource.to_json;
     m_from_json := IoK8sApiAutoscalingV2ExternalMetricSource.from_json;
     m_to_str := IoK8sApiAutoscalingV2ExternalMetricSource.to_str |};
  {| m_schema := IoK8sApiAutoscalingV2ExternalMetricStatus.schema;
     m_to_dict := IoK8sApiAutoscalingV2ExternalMetricStatus.to_dict;
     m_from_dict := IoK8sApiAutoscalingV2ExternalMetricStatus.from_dict;
     m_to_json := IoK8sApiAutoscalingV2ExternalMetricStatus.to_json;
     m_from_json := IoK8sApiAutoscalingV2ExternalMetricStatus.from_json;
     m_to_str := IoK8sApiAutoscalingV2ExternalMetricStatus.to_str |};
  {| m_schema := IoK8sApiAutoscalingV2HPAScalingPolicy.schema;
     m_to_dict := IoK8sApiAutoscalingV2HPAScalingPolicy.to_dict;
     m_from_dict := IoK8sApiAutoscalingV2HPAScalingPolicy.from_dict;
     m_to_json := IoK8sApiAutoscalingV2HPAScalingPolicy.to_json;
     m_from_json := IoK8sApiAutoscalingV2HPAScalingPolicy.from_json;
     m_to_str := IoK8sApiAutoscalingV2HPAScalingPolicy.to_str |};
  {| m_schema := IoK8sApiAutoscalingV2HPAScalingRules.schema;
     m_to_dict := IoK8sApiAutoscalingV2HPAScalingRules.to_dict;
     m_from_dict := IoK8sApiAutoscalingV2HPAScalingRules.from_dict;
     m_to_json := IoK8sApiAutoscalingV2HPAScalingRules.to_json;
     m_from_json := IoK8sApiAutoscalingV2HPAScalingRules.from_json;
     m_to_str := IoK8sApiAutoscalingV2HPAScalingRules.to_str |};
  {| m_schema := IoK8sApiAutoscalingV2HorizontalPodAutoscalerBehavior.schema;
     m_to_dict := IoK8sApiAutoscalingV2HorizontalPodAutoscalerBehavior.to_dict;
     m_from_dict := IoK8sApiAutoscalingV2HorizontalPodAutoscalerBehavior.from_dict;
     m_to_json := IoK8sApiAutoscalingV2HorizontalPodAutoscalerBehavior.to_json;
     m_from_json := IoK8sApiAutoscalingV2HorizontalPodAutoscalerBehavior.from_json;
     m_to_str := IoK8sApiAutoscalingV2HorizontalPodAutoscalerBehavior.to_str |};
  {| m_schema := IoK8sApiAutoscalingV2ObjectMetricSource.schema;
     m_to_dict := IoK8sApiAutoscalingV2ObjectMetricSource.to_dict;
     m_from_dict := IoK8sApiAutoscalingV2ObjectMetricSource.from_dict;
     m_to_json := IoK8sApiAutoscalingV2ObjectMetricSource.to_json;
     m_from_json := IoK8sApiAutoscalingV2ObjectMetricSource.from_json;
     m_to_str := IoK8sApiAutoscalingV2ObjectMetricSource.to_str |};
  {| m_schema := IoK8sApiAutoscalingV2PodsMetricSource.schema;
     m_to_dict := IoK8sApiAutoscalingV2PodsMetricSource.to_dict;
     m_from_dict := IoK8sApiAutoscalingV2PodsMetricSource.from_dict;
     m_to_json := IoK8sApiAutoscalingV2PodsMetricSource.to_json;
     m_from_json := IoK8sApiAutoscalingV2PodsMetricSource.from_json;
     m_to_str := IoK8sApiAutoscalingV2PodsMetricSource.to_str |};
  {| m_schema := IoK8sApiAutoscalingV2ResourceMetricSource.schema;
     m_to_dict := IoK8sApiAutoscalingV2ResourceMetricSource.to_dict;
     m_from_dict := IoK8sApiAutoscalingV2ResourceMetricSource.from_dict;
     m_to_json := IoK8sApiAutoscalingV2ResourceMetricSource.to_json;
     m_from_json := IoK8sApiAutoscalingV2ResourceMetricSource.from_json;
     m_to_str := IoK8sApiAutoscalingV2ResourceMetricSource.to_str |};
  {| m_schema := IoK8sApiAutoscalingV2MetricSpec.schema;
     m_to_dict := IoK8sApiAutoscalingV2MetricSpec.to_dict;
     m_from_dict := IoK8sApiAutoscalingV2MetricSpec.from_dict;
     m_to_json := IoK8sApiAutoscalingV2MetricSpec.to_json;
     m_from_json := IoK8sApiAutoscalingV2MetricSpec.from_json;
     m_to_str := IoK8sApiAutoscalingV2MetricSpec.to_str |};
  {| m_schema := IoK8sApiAutoscalingV2HorizontalPodAutoscalerSpec.schema;
     m_to_dict := IoK8sApiAutoscalingV2HorizontalPodAutoscalerSpec.to_dict;
     m_from_dict := IoK8sApiAutoscalingV2HorizontalPodAutoscalerSpec.from_dict;
     m_to_json := IoK8sApiAutoscalingV2HorizontalPodAutoscalerSpec.to_json;
     m_from_json := IoK8sApiAutoscalingV2HorizontalPodAutoscalerSpec.from_json;
     m_to_str := IoK8sApiAutoscalingV2HorizontalPodAutoscalerSpec.to_str |};
  {| m_schema := IoK8sApiAutoscalingV2HorizontalPodAutoscalerCondition.schema;
     m_to_dict := IoK8sApiAutoscalingV2HorizontalPodAutoscalerCondition.to_dict;
     m_from_dict := IoK8sApiAutoscalingV2HorizontalPodAutoscalerCondition.from_dict;
     m_to_json := IoK8sApiAutoscalingV2HorizontalPodAutoscalerCondition.to_json;
     m_from_json := IoK8sApiAutoscalingV2HorizontalPodAutoscalerCondition.from_json;
     m_to_str := IoK8sApiAutoscalingV2HorizontalPodAutoscalerCondition.to_str |};
  {| m_schema := IoK8sApiAutoscalingV2ObjectMetricStatus.schema;
     m_to_dict := IoK8sApiAutoscalingV2ObjectMetricStatus.to_dict;
     m_from_dict := IoK8sApiAutoscalingV2ObjectMetricStatus.from_dict;
     m_to_json := IoK8sApiAutoscalingV2ObjectMetricStatus.to_json;
     m_from_json := IoK8sApiAutoscalingV2ObjectMetricStatus.from_json;
     m_to_str := IoK8sApiAutoscalingV2ObjectMetricStatus.to_str |};
  {| m_schema := IoK8sApiAutoscalingV2PodsMetricStatus.schema;
     m_to_dict := IoK8sApiAutoscalingV2PodsMetricStatus.to_dict;
     m_from_dict := IoK8sApiAutoscalingV2PodsMetricStatus.from_dict;
     m_to_json := IoK8sApiAutoscalingV2PodsMetricStatus.to_json;
     m_from_json := IoK8sApiAutoscalingV2PodsMetricStatus.from_json;
     m_to_str := IoK8sApiAutoscalingV2PodsMetricStatus.to_str |};
  {| m_schema := IoK8sApiAutoscalingV2ResourceMetricStatus.schema;
     m_to_dict := IoK8sApiAutoscalingV2ResourceMetricStatus.to_dict;
     m_from_dict := IoK8sApiAutoscalingV2ResourceMetricStatus.from_dict;
     m_to_json := IoK8sApiAutoscalingV2ResourceMetricStatus.to_json;
     m_from_json := IoK8sApiAutoscalingV2ResourceMetricStatus.from_json;
     m_to_str := IoK8sApiAutoscalingV2ResourceMetricStatus.to_str |};
  {| m_schema := IoK8sApiAutoscalingV2MetricStatus.schema;
     m_to_dict := IoK8sApiAutoscalingV2MetricStatus.to_dict;
     m_from_dict := IoK8sApiAutoscalingV2MetricStatus.from_dict;
     m_to_json := IoK8sApiAutoscalingV2MetricStatus.to_json;
     m_from_json := IoK8sApiAutoscalingV2MetricStatus.from_json;
     m_to_str := IoK8sApiAutoscalingV2MetricStatus.to_str |};
  {| m_schema := IoK8sApiAutoscalingV2HorizontalPodAutoscalerStatus.schema;
     m_to_dict := IoK8sApiAutoscalingV2HorizontalPodAutoscalerStatus.to_dict;
     m_from_dict := IoK8sApiAutoscalingV2HorizontalPodAutoscalerStatus.from_dict;
     m_to_json := IoK8sApiAutoscalingV2HorizontalPodAutoscalerStatus.to_json;
     m_from_json := IoK8sApiAutoscalingV2HorizontalPodAutoscalerStatus.from_json;
     m_to_str := IoK8sApiAutoscalingV2HorizontalPodAutoscalerStatus.to_str |};
  {| m_schema := IoK8sApiAutoscalingV2HorizontalPodAutoscaler.schema;
     m_to_dict := IoK8sApiAutoscalingV2HorizontalPodAutoscaler.to_dict;
     m_from_dict := IoK8sApiAutoscalingV2HorizontalPodAutoscaler.from_dict;
     m_to_json := IoK8sApiAutoscalingV2HorizontalPodAutoscaler.to_json;
     m_from_json := IoK8sApiAutoscalingV2HorizontalPodAutoscaler.from_json;
     m_to_str := IoK8sApiAutoscalingV2HorizontalPodAutoscaler.to_str |};
  {| m_schema := IoK8sApiAutoscalingV2HorizontalPodAutoscalerList.schema;
     m_to_dict := IoK8sApiAutoscalingV2HorizontalPodAutoscalerList.to_dict;
     m_from_dict := IoK8sApiAutoscalingV2HorizontalPodAutoscalerList.from_dict;
     m_to_json := IoK8sApiAutoscalingV2HorizontalPodAutoscalerList.to_json;
     m_from_json := IoK8sApiAutoscalingV2HorizontalPodAutoscalerList.from_json;
     m_to_str := IoK8sApiAutoscalingV2HorizontalPodAutoscalerList.to_str |};
  {| m_schema := IoK8sApiBatchV1CronJobSpec.schema;
     m_to_dict := IoK8sApiBatchV1CronJobSpec.to_dict;
     m_from_dict := IoK8sApiBatchV1CronJobSpec.from_dict;
     m_to_json := IoK8sApiBatchV1CronJobSpec.to_json;
     m_from_json := IoK8sApiBatchV1CronJobSpec.from_json;
     m_to_str := IoK8sApiBatchV1CronJobSpec.to_str |};
  {| m_schema := IoK8sApiBatchV1CronJobStatus.schema;
     m_to_dict := IoK8sApiBatchV1CronJobStatus.to_dict;
     m_from_dict := IoK8sApiBatchV1CronJobStatus.from_dict;
     m_to_json := IoK8sApiBatchV1CronJobStatus.to_json;
     m_from_json := IoK8sApiBatchV1CronJobStatus.from_json;
     m_to_str := IoK8sApiBatchV1CronJobStatus.to_str |};
  {| m_schema := IoK8sApiBatchV1CronJob.schema;
     m_to_dict := IoK8sApiBatchV1CronJob.to_dict;
     m_from_dict := IoK8sApiBatchV1CronJob.from_dict;
     m_to_json := IoK8sApiBatchV1CronJob.to_json;
     m_from_json := IoK8sApiBatchV1CronJob.from_json;
     m_to_str := IoK8sApiBatchV1CronJob.to_str |};
  {| m_schema := IoK8sApiBatchV1CronJobList.schema;
     m_to_dict := IoK8sApiBatchV1CronJobList.to_dict;
     m_from_dict := IoK8sApiBatchV1CronJobList.from_dict;
     m_to_json := IoK8sApiBatchV1CronJobList.to_json;
     m_from_json := IoK8sApiBatchV1CronJobList.from_json;
     m_to_str := IoK8sApiBatchV1CronJobList.to_str |};
  {| m_schema := IoK8sApiBatchV1JobCondition.schema;
     m_to_dict := IoK8sApiBatchV1JobCondition.to_dict;
     m_from_dict := IoK8sApiBatchV1JobCondition.from_dict;
     m_to_json := IoK8sApiBatchV1JobCondition.to_json;
     m_from_json := IoK8sApiBatchV1JobCondition.from_json;
     m_to_str := IoK8sApiBatchV1JobCondition.to_str |};
  {| m_schema := IoK8sApiBatchV1UncountedTerminatedPods.schema;
     m_to_dict := IoK8sApiBatchV1UncountedTerminatedPods.to_dict;
     m_from_dict := IoK8sApiBatchV1UncountedTerminatedPods.from_dict;
     m_to_json := IoK8sApiBatchV1UncountedTerminatedPods.to_json;
     m_from_json := IoK8sApiBatchV1UncountedTerminatedPods.from_json;
     m_to_str := IoK8sApiBatchV1UncountedTerminatedPods.to_str |};
  {| m_schema := IoK8sApiBatchV1JobStatus.schema;
     m_to_dict := IoK8sApiBatchV1JobStatus.to_dict;
     m_from_dict := IoK8sApiBatchV1JobStatus.from_dict;
     m_to_json := IoK8sApiBatchV1JobStatus.to_json;
     m_from_json := IoK8sApiBatchV1JobStatus.from_json;
     m_to_str := IoK8sApiBatchV1JobStatus.to_str |};
  {| m_schema := IoK8sApiBatchV1Job.schema;
     m_to_dict := IoK8sApiBatchV1Job.to_dict;
     m_from_dict := IoK8sApiBatchV1Job.from_dict;
     m_to_json := IoK8sApiBatchV1Job.to_json;
     m_from_json := IoK8sApiBatchV1Job.from_json;
     m_to_str := IoK8sApiBatchV1Job.to_str |};
  {| m_schema := IoK8sApiBatchV1JobList.schema;
     m_to_dict := IoK8sApiBatchV1JobList.to_dict;
     m_from_dict := IoK8sApiBatchV1JobList.from_dict;
     m_to_json := IoK8sApiBatchV1JobList.to_json;
     m_from_json := IoK8sApiBatchV1JobList.from_json;
     m_to_str := IoK8sApiBatchV1JobList.to_str |};
  {| m_schema := IoK8sApiSchedulingV1alpha3CompositeDisruptionMode.schema;
     m_to_dict := IoK8sApiSchedulingV1alpha3CompositeDisruptionMode.to_dict;
     m_from_dict := IoK8sApiSchedulingV1alpha3CompositeDisruptionMode.from_dict;
     m_to_json := IoK8sApiSchedulingV1alpha3CompositeDisruptionMode.to_json;
     m_from_json := IoK8sApiSchedulingV1alpha3CompositeDisruptionMode.from_json;
     m_to_str := IoK8sApiSchedulingV1alpha3CompositeDisruptionMode.to_str |};
  {| m_schema := IoK8sApiSchedulingV1alpha3CompositeGangSchedulingPolicy.schema;
     m_to_dict := IoK8sApiSchedulingV1alpha3CompositeGangSchedulingPolicy.to_dict;
     m_from_dict := IoK8sApiSchedulingV1alpha3CompositeGangSchedulingPolicy.from_dict;
     m_to_json := IoK8sApiSchedulingV1alpha3CompositeGangSchedulingPolicy.to_json;
     m_from_json := IoK8sApiSchedulingV1alpha3CompositeGangSchedulingPolicy.from_json;
     m_to_str := IoK8sApiSchedulingV1alpha3CompositeGangSchedulingPolicy.to_str |};
  {| m_schema := IoK8sApiSchedulingV1alpha3CompositePodGroupSchedulingConstraints.schema;
     m_to_dict := IoK8sApiSchedulingV1alpha3CompositePodGroupSchedulingConstraints.to_dict;
     m_from_dict := IoK8sApiSchedulingV1alpha3CompositePodGroupSchedulingConstraints.from_dict;
     m_to_json := IoK8sApiSchedulingV1alpha3CompositePodGroupSchedulingConstraints.to_json;
     m_from_json := IoK8sApiSchedulingV1alpha3CompositePodGroupSchedulingConstraints.from_json;
     m_to_str := IoK8sApiSchedulingV1alpha3CompositePodGroupSchedulingConstraints.to_str |};
  {| m_schema := IoK8sApiSchedulingV1alpha3CompositePodGroupSchedulingPolicy.schema;
     m_to_dict := IoK8sApiSchedulingV1alpha3CompositePodGroupSchedulingPolicy.to_dict;
     m_from_dict := IoK8sApiSchedulingV1alpha3CompositePodGroupSchedulingPolicy.from_dict;
     m_to_json := IoK8sApiSchedulingV1alpha3CompositePodGroupSchedulingPolicy.to_json;
     m_from_json := IoK8sApiSchedulingV1alpha3CompositePodGroupSchedulingPolicy.from_json;
     m_to_str := IoK8sApiSchedulingV1alpha3CompositePodGroupSchedulingPolicy.to_str |};
  {| m_schema := IoK8sApiSchedulingV1alpha3WorkloadReference.schema;
     m_to_dict := IoK8sApiSchedulingV1alpha3WorkloadReference.to_dict;
     m_from_dict := IoK8sApiSchedulingV1alpha3WorkloadReference.from_dict;
     m_to_json := IoK8sApiSchedulingV1alpha3WorkloadReference.to_json;
     m_from_json := IoK8sApiSchedulingV1alpha3WorkloadReference.from_json;
     m_to_str := IoK8sApiSchedulingV1alpha3WorkloadReference.to_str |};
  {| m_schema := IoK8sApiSchedulingV1alpha3CompositePodGroupSpec.schema;
     m_to_dict := IoK8sApiSchedulingV1alpha3CompositePodGroupSpec.to_dict;
     m_from_dict := IoK8sApiSchedulingV1alpha3CompositePodGroupSpec.from_dict;
     m_to_json := IoK8sApiSchedulingV1alpha3CompositePodGroupSpec.to_json;
     m_from_json := IoK8sApiSchedulingV1alpha3CompositePodGroupSpec.from_json;
     m_to_str := IoK8sApiSchedulingV1alpha3CompositePodGroupSpec.to_str |};
  {| m_schema := IoK8sApiSchedulingV1alpha3CompositePodGroupStatus.schema;
     m_to_dict := IoK8sApiSchedulingV1alpha3CompositePodGroupStatus.to_dict;
     m_from_dict := IoK8sApiSchedulingV1alpha3CompositePodGroupStatus.from_dict;
     m_to_json := IoK8sApiSchedulingV1alpha3CompositePodGroupStatus.to_json;
     m_from_json := IoK8sApiSchedulingV1alpha3CompositePodGroupStatus.from_json;
     m_to_str := IoK8sApiSchedulingV1alpha3CompositePodGroupStatus.to_str |};
  {| m_schema := IoK8sApiSchedulingV1alpha3CompositePodGroup.schema;
     m_to_dict := IoK8sApiSchedulingV1alpha3CompositePodGroup.to_dict;
     m_from_dict := IoK8sApiSchedulingV1alpha3CompositePodGroup.from_dict;
     m_to_json := IoK8sApiSchedulingV1alpha3CompositePodGroup.to_json;
     m_from_json := IoK8sApiSchedulingV1alpha3CompositePodGroup.from_json;
     m_to_str := IoK8sApiSchedulingV1alpha3CompositePodGroup.to_str |};
  {| m_schema := IoK8sApiSchedulingV1alpha3CompositePodGroupList.schema;
     m_to_dict := IoK8sApiSchedulingV1alpha3CompositePodGroupList.to_dict;
     m_from_dict := IoK8sApiSchedulingV1alpha3CompositePodGroupList.from_dict;
     m_to_json := IoK8sApiSchedulingV1alpha3CompositePodGroupList.to_json;
     m_from_json := IoK8sApiSchedulingV1alpha3CompositePodGroupList.from_json;
     m_to_str := IoK8sApiSchedulingV1alpha3CompositePodGroupList.to_str |};
  {| m_schema := IoK8sApiSchedulingV1alpha3DisruptionMode.schema;
     m_to_dict := IoK8sApiSchedulingV1alpha3DisruptionMode.to_dict;
     m_from_dict := IoK8sApiSchedulingV1alpha3DisruptionMode.from_dict;
     m_to_json := IoK8sApiSchedulingV1alpha3DisruptionMode.to_json;
     m_from_json := IoK8sApiSchedulingV1alpha3DisruptionMode.from_json;
     m_to_str := IoK8sApiSchedulingV1alpha3DisruptionMode.to_str |};
  {| m_schema := IoK8sApiSchedulingV1alpha3GangSchedulingPolicy.schema;
     m_to_dict := IoK8sApiSchedulingV1alpha3GangSchedulingPolicy.to_dict;
     m_from_dict := IoK8sApiSchedulingV1alpha3GangSchedulingPolicy.from_dict;
     m_to_json := IoK8sApiSchedulingV1alpha3GangSchedulingPolicy.to_json;
     m_from_json := IoK8sApiSchedulingV1alpha3GangSchedulingPolicy.from_json;
     m_to_str := IoK8sApiSchedulingV1alpha3GangSchedulingPolicy.to_str |};
  {| m_schema := IoK8sApiSchedulingV1alpha3PodGroupResourceClaim.schema;
     m_to_dict := IoK8sApiSchedulingV1alpha3PodGroupResourceClaim.to_dict;
     m_from_dict := IoK8sApiSchedulingV1alpha3PodGroupResourceClaim.from_dict;
     m_to_json := IoK8sApiSchedulingV1alpha3PodGroupResourceClaim.to_json;
     m_from_json := IoK8sApiSchedulingV1alpha3PodGroupResourceClaim.from_json;
     m_to_str := IoK8sApiSchedulingV1alpha3PodGroupResourceClaim.to_str |};
  {| m_schema := IoK8sApiSchedulingV1alpha3PodGroupSchedulingConstraints.schema;
     m_to_dict := IoK8sApiSchedulingV1alpha3PodGroupSchedulingConstraints.to_dict;
     m_from_dict := IoK8sApiSchedulingV1alpha3PodGroupSchedulingConstraints.from_dict;
     m_to_json := IoK8sApiSchedulingV1alpha3PodGroupSchedulingConstraints.to_json;
     m_from_json := IoK8sApiSchedulingV1alpha3PodGroupSchedulingConstraints.from_json;
     m_to_str := IoK8sApiSchedulingV1alpha3PodGroupSchedulingConstraints.to_str |};
  {| m_schema := IoK8sApiSchedulingV1alpha3PodGroupSchedulingPolicy.schema;
     m_to_dict := IoK8sApiSchedulingV1alpha3PodGroupSchedulingPolicy.to_dict;
     m_from_dict := IoK8sApiSchedulingV1alpha3PodGroupSchedulingPolicy.from_dict;
     m_to_json := IoK8sApiSchedulingV1alpha3PodGroupSchedulingPolicy.to_json;
     m_from_json := IoK8sApiSchedulingV1alpha3PodGroupSchedulingPolicy.from_json;
     m_to_str := IoK8sApiSchedulingV1alpha3PodGroupSchedulingPolicy.to_str |};
  {| m_schema := IoK8sApiSchedulingV1alpha3PodGroupSpec.schema;
     m_to_dict := IoK8sApiSchedulingV1alpha3PodGroupSpec.to_dict;
     m_from_dict := IoK8sApiSchedulingV1alpha3PodGroupSpec.from_dict;
     m_to_json := IoK8sApiSchedulingV1alpha3PodGroupSpec.to_json;
     m_from_json := IoK8sApiSchedulingV1alpha3PodGroupSpec.from_json;
     m_to_str := IoK8sApiSchedulingV1alpha3PodGroupSpec.to_str |};
  {| m_schema := IoK8sApiSchedulingV1alpha3PodGroupResourceClaimStatus.schema;
     m_to_dict := IoK8sApiSchedulingV1alpha3PodGroupResourceClaimStatus.to_dict;
     m_from_dict := IoK8sApiSchedulingV1alpha3PodGroupResourceClaimStatus.from_dict;
     m_to_json := IoK8sApiSchedulingV1alpha3PodGroupResourceClaimStatus.to_json;
     m_from_json := IoK8sApiSchedulingV1alpha3PodGroupResourceClaimStatus.from_json;
     m_to_str := IoK8sApiSchedulingV1alpha3PodGroupResourceClaimStatus.to_str |};
  {| m_schema := IoK8sApiSchedulingV1alpha3PodGroupStatus.schema;
     m_to_dict := IoK8sApiSchedulingV1alpha3PodGroupStatus.to_dict;
     m_from_dict := IoK8sApiSchedulingV1alpha3PodGroupStatus.from_dict;
     m_to_json := IoK8sApiSchedulingV1alpha3PodGroupStatus.to_json;
     m_from_json := IoK8sApiSchedulingV1alpha3PodGroupStatus.from_json;
     m_to_str := IoK8sApiSchedulingV1alpha3PodGroupStatus.to_str |};
  {| m_schema := IoK8sApiSchedulingV1alpha3PodGroup.schema;
     m_to_dict := IoK8sApiSchedulingV1alpha3PodGroup.to_dict;
     m_from_dict := IoK8sApiSchedulingV1alpha3PodGroup.from_dict;
     m_to_json := IoK8sApiSchedulingV1alpha3PodGroup.to_json;
     m_from_json := IoK8sApiSchedulingV1alpha3PodGroup.from_json;
     m_to_str := IoK8sApiSchedulingV1alpha3PodGroup.to_str |};
  {| m_schema := IoK8sApiSchedulingV1alpha3PodGroupList.schema;
     m_to_dict := IoK8sApiSchedulingV1alpha3PodGroupList.to_dict;
     m_from_dict := IoK8sApiSchedulingV1alpha3PodGroupList.from_dict;
     m_to_json := IoK8sApiSchedulingV1alpha3PodGroupList.to_json;
     m_from_json := IoK8sApiSchedulingV1alpha3PodGroupList.from_json;
     m_to_str := IoK8sApiSchedulingV1alpha3PodGroupList.to_str |};
  {| m_schema := IoK8sApiSchedulingV1alpha3PodGroupTemplate.schema;
     m_to_dict := IoK8sApiSchedulingV1alpha3PodGroupTemplate.to_dict;
     m_from_dict := IoK8sApiSchedulingV1alpha3PodGroupTemplate.from_dict;
     m_to_json := IoK8sApiSchedulingV1alpha3PodGroupTemplate.to_json;
     m_from_json := IoK8sApiSchedulingV1alpha3PodGroupTemplate.from_json;
     m_to_str := IoK8sApiSchedulingV1alpha3PodGroupTemplate.to_str |};
  {| m_schema := IoK8sApiSchedulingV1alpha3TypedLocalObjectReference.schema;
     m_to_dict := IoK8sApiSchedulingV1alpha3TypedLocalObjectReference.to_dict;
     m_from_dict := IoK8sApiSchedulingV1alpha3TypedLocalObjectReference.from_dict;
     m_to_json := IoK8sApiSchedulingV1alpha3TypedLocalObjectReference.to_json;
     m_from_json := IoK8sApiSchedulingV1alpha3TypedLocalObjectReference.from_json;
     m_to_str := IoK8sApiSchedulingV1alpha3TypedLocalObjectReference.to_str |};
  {| m_schema := JobsetV1alpha2ReplicatedJobStatus.schema;
     m_to_dict := JobsetV1alpha2ReplicatedJobStatus.to_dict;
     m_from_dict := JobsetV1alpha2ReplicatedJobStatus.from_dict;
     m_to_json := JobsetV1alpha2ReplicatedJobStatus.to_json;
     m_from_json := JobsetV1alpha2ReplicatedJobStatus.from_json;
     m_to_str := JobsetV1alpha2ReplicatedJobStatus.to_str |};
  {| m_schema := JobsetV1alpha2JobSetStatus.schema;
     m_to_dict := JobsetV1alpha2JobSetStatus.to_dict;
     m_from_dict := JobsetV1alpha2JobSetStatus.from_dict;
     m_to_json := JobsetV1alpha2JobSetStatus.to_json;
     m_from_json := JobsetV1alpha2JobSetStatus.from_json;
     m_to_str := JobsetV1alpha2JobSetStatus.to_str |};
  {| m_schema := JobsetV1alpha2JobSet.schema;
     m_to_dict := JobsetV1alpha2JobSet.to_dict;
     m_from_dict := JobsetV1alpha2JobSet.from_dict;
     m_to_json := JobsetV1alpha2JobSet.to_json;
     m_from_json := JobsetV1alpha2JobSet.from_json;
     m_to_str := JobsetV1alpha2JobSet.to_str |};
  {| m_schema := JobsetV1alpha2JobSetList.schema;
     m_to_dict := JobsetV1alpha2JobSetList.to_dict;
     m_from_dict := JobsetV1alpha2JobSetList.from_dict;
     m_to_json := JobsetV1alpha2JobSetList.to_json;
     m_from_json := JobsetV1alpha2JobSetList.from_json;
     m_to_str := JobsetV1alpha2JobSetList.to_str |}].
Lemma workload_models_templated `{PydanticLaws} : Forall is_templated workload_models.
Proof. solve_models. Qed.
