(* ===== verification/ApiRecursive.v ===== *)
(** * Models that contain themselves, and a nullable field

    A CompositePodGroupTemplate contains a list of further such templates. Its
    definitions take the depth of the nesting that the recursion limit of the
    interpreter leaves room for: at depth 0 there is no instance, and the
    conversions raise [RecursionError]. Every instance is finite, so that some
    depth is enough for it, and the theorems hold at every depth. The classes
    of a Workload contain it. InternalEvent has a required field that may hold
    [None], which its [to_dict] keeps. All are from
    api/python_api/kubeflow_trainer_api/models. *)

From S2P Require Import Prelude PyStr PyValue Json Pydantic Documents PydanticSpec PydanticDocs.
From S2P Require Import OneOf ApiMeta ApiCore ApiJobSet ApiMetaMore ApiCoreMore ApiWorkloads.
Local Open Scope string_scope.
Local Open Scope list_scope.

Module IoK8sApiSchedulingV1alpha3CompositePodGroupTemplate.
Fixpoint schema `{Pydantic} (depth : nat) : Schema :=
  match depth with
  | O => MkSchema "IoK8sApiSchedulingV1alpha3CompositePodGroupTemplate" [] (Some (fun _ => false))
  | S depth => model "IoK8sApiSchedulingV1alpha3CompositePodGroupTemplate" [
  opt "composite_pod_group_templates" "compositePodGroupTemplates" (List (Model (schema depth)));
  opt "disruption_mode" "disruptionMode"
    (Model IoK8sApiSchedulingV1alpha3CompositeDisruptionMode.schema);
  req "name" "name" StrictStr;
  opt "pod_group_templates" "podGroupTemplates" (List
    (Model IoK8sApiSchedulingV1alpha3PodGroupTemplate.schema));
  checked (opt "preemption_policy" "preemptionPolicy" StrictStr)
    (none_or_one_of ["Never"; "PreemptLowerPriority"]);
  opt "priority" "priority" StrictInt;
  opt "priority_class_name" "priorityClassName" StrictStr;
  opt "scheduling_constraints" "schedulingConstraints"
    (Model IoK8sApiSchedulingV1alpha3CompositePodGroupSchedulingConstraints.schema);
  req "scheduling_policy" "schedulingPolicy"
    (Model IoK8sApiSchedulingV1alpha3CompositePodGroupSchedulingPolicy.schema)]
  end.
Fixpoint to_dict `{Pydantic} (depth : nat) : value → outcome value :=
  match depth with
  | O => fun _ => Raise (ExternalError "RecursionError")
  | S depth => to_dict_with (schema (S depth)) [
  DumpItems "composite_pod_group_templates" "compositePodGroupTemplates" (to_dict depth);
  Dump "disruption_mode" "disruptionMode" IoK8sApiSchedulingV1alpha3CompositeDisruptionMode.to_dict;
  DumpItems "pod_group_templates" "podGroupTemplates"
    IoK8sApiSchedulingV1alpha3PodGroupTemplate.to_dict;
  Dump "scheduling_constraints" "schedulingConstraints"
    IoK8sApiSchedulingV1alpha3CompositePodGroupSchedulingConstraints.to_dict;
  Dump "scheduling_policy" "schedulingPolicy"
    IoK8sApiSchedulingV1alpha3CompositePodGroupSchedulingPolicy.to_dict]
  end.
Fixpoint from_dict `{Pydantic} (depth : nat) : value → outcome value :=
  match depth with
  | O => fun _ => Raise (ExternalError "RecursionError")
  | S depth => from_dict_with (schema (S depth)) [
  FromDictItems "compositePodGroupTemplates" (from_dict depth);
  FromDict "disruptionMode" IoK8sApiSchedulingV1alpha3CompositeDisruptionMode.from_dict;
  GetOr "name" (VStr "");
  FromDictItems "podGroupTemplates" IoK8sApiSchedulingV1alpha3PodGroupTemplate.from_dict;
  Get "preemptionPolicy";
  Get "priority";
  Get "priorityClassName";
  FromDict "schedulingConstraints"
    IoK8sApiSchedulingV1alpha3CompositePodGroupSchedulingConstraints.from_dict;
  FromDict "schedulingPolicy" IoK8sApiSchedulingV1alpha3CompositePodGroupSchedulingPolicy.from_dict]
  end.
Definition to_json `{Pydantic} (depth : nat) : value → outcome string :=
  to_json_with (to_dict depth).
Definition from_json `{Pydantic} (depth : nat) : string → outcome value :=
  from_json_with (from_dict depth).
Definition to_str `{Pydantic} (depth : nat) : value → outcome string := to_str_with (schema depth).
End IoK8sApiSchedulingV1alpha3CompositePodGroupTemplate.

Section Nesting.
Context `{HL : PydanticLaws}.
Import IoK8sApiSchedulingV1alpha3CompositePodGroupTemplate.

Lemma template_templated depth :
  Converts (schema depth) (to_dict depth) (from_dict depth) →
  Templated (schema (S depth)) (to_dict (S depth)) (from_dict (S depth)).
Proof using HL. intros ?. solve_model. Qed.

#[export] Instance template_converts depth : Converts (schema depth) (to_dict depth) (from_dict depth).
Proof using HL.
  induction depth as [|depth IH].
  - split; [split; try done; [|by split; [|right]; eauto]|done|done].
    split; [by intros x (attrs & -> & ->%Forall2_nil_inv_l)%conforms_model|].
    by intros x (attrs & _ & Hinv & _)%settled_model.
  - apply templated_converts. by apply template_templated.
Qed.
End Nesting.

Module IoK8sApiSchedulingV1alpha3WorkloadSpec.
Definition schema `{Pydantic} (depth : nat) : Schema :=
  model "IoK8sApiSchedulingV1alpha3WorkloadSpec" [
  opt "composite_pod_group_templates" "compositePodGroupTemplates" (List (Model
    (IoK8sApiSchedulingV1alpha3CompositePodGroupTemplate.schema depth)));
  opt "controller_ref" "controllerRef"
    (Model IoK8sApiSchedulingV1alpha3TypedLocalObjectReference.schema);
  opt "pod_group_templates" "podGroupTemplates" (List
    (Model IoK8sApiSchedulingV1alpha3PodGroupTemplate.schema))].
Definition to_dict `{Pydantic} (depth : nat) : value → outcome value :=
  to_dict_with (schema depth) [
  DumpItems "composite_pod_group_templates" "compositePodGroupTemplates"
    (IoK8sApiSchedulingV1alpha3CompositePodGroupTemplate.to_dict depth);
  Dump "controller_ref" "controllerRef" IoK8sApiSchedulingV1alpha3TypedLocalObjectReference.to_dict;
  DumpItems "pod_group_templates" "podGroupTemplates"
    IoK8sApiSchedulingV1alpha3PodGroupTemplate.to_dict].
Definition from_dict `{Pydantic} (depth : nat) : value → outcome value :=
  from_dict_with (schema depth) [
  FromDictItems "compositePodGroupTemplates"
    (IoK8sApiSchedulingV1alpha3CompositePodGroupTemplate.from_dict depth);
  FromDict "controllerRef" IoK8sApiSchedulingV1alpha3TypedLocalObjectReference.from_dict;
  FromDictItems "podGroupTemplates" IoK8sApiSchedulingV1alpha3PodGroupTemplate.from_dict].
Definition to_json `{Pydantic} (depth : nat) : value → outcome string :=
  to_json_with (to_dict depth).
Definition from_json `{Pydantic} (depth : nat) : string → outcome value :=
  from_json_with (from_dict depth).
Definition to_str `{Pydantic} (depth : nat) : value → outcome string := to_str_with (schema depth).
End IoK8sApiSchedulingV1alpha3WorkloadSpec.

#[export] Instance IoK8sApiSchedulingV1alpha3WorkloadSpec_templated `{PydanticLaws} depth :
  Templated (IoK8sApiSchedulingV1alpha3WorkloadSpec.schema depth) (IoK8sApiSchedulingV1alpha3WorkloadSpec.to_dict depth) (IoK8sApiSchedulingV1alpha3WorkloadSpec.from_dict depth).
Proof. solve_model. Qed.

Module IoK8sApiSchedulingV1alpha3Workload.
Definition schema `{Pydantic} (depth : nat) : Schema := model "IoK8sApiSchedulingV1alpha3Workload" [
  opt "api_version" "apiVersion" StrictStr;
  opt "kind" "kind" StrictStr;
  opt "metadata" "metadata" (Model IoK8sApimachineryPkgApisMetaV1ObjectMeta.schema);
  req "spec" "spec" (Model (IoK8sApiSchedulingV1alpha3WorkloadSpec.schema depth))].
Definition to_dict `{Pydantic} (depth : nat) : value → outcome value :=
  to_dict_with (schema depth) [
  Dump "metadata" "metadata" IoK8sApimachineryPkgApisMetaV1ObjectMeta.to_dict;
  Dump "spec" "spec" (IoK8sApiSchedulingV1alpha3WorkloadSpec.to_dict depth)].
Definition from_dict `{Pydantic} (depth : nat) : value → outcome value :=
  from_dict_with (schema depth) [
  Get "apiVersion";
  Get "kind";
  FromDict "metadata" IoK8sApimachineryPkgApisMetaV1ObjectMeta.from_dict;
  FromDict "spec" (IoK8sApiSchedulingV1alpha3WorkloadSpec.from_dict depth)].
Definition to_json `{Pydantic} (depth : nat) : value → outcome string :=
  to_json_with (to_dict depth).
Definition from_json `{Pydantic} (depth : nat) : string → outcome value :=
  from_json_with (from_dict depth).
Definition to_str `{Pydantic} (depth : nat) : value → outcome string := to_str_with (schema depth).
End IoK8sApiSchedulingV1alpha3Workload.

#[export] Instance IoK8sApiSchedulingV1alpha3Workload_templated `{PydanticLaws} depth :
  Templated (IoK8sApiSchedulingV1alpha3Workload.schema depth) (IoK8sApiSchedulingV1alpha3Workload.to_dict depth) (IoK8sApiSchedulingV1alpha3Workload.from_dict depth).
Proof. solve_model. Qed.

Module IoK8sApiSchedulingV1alpha3WorkloadList.
Definition schema `{Pydantic} (depth : nat) : Schema :=
  model "IoK8sApiSchedulingV1alpha3WorkloadList" [
  opt "api_version" "apiVersion" StrictStr;
  req "items" "items" (List (Model (IoK8sApiSchedulingV1alpha3Workload.schema depth)));
  opt "kind" "kind" StrictStr;
  opt "metadata" "metadata" (Model IoK8sApimachineryPkgApisMetaV1ListMeta.schema)].
Definition to_dict `{Pydantic} (depth : nat) : value → outcome value :=
  to_dict_with (schema depth) [
  DumpItems "items" "items" (IoK8sApiSchedulingV1alpha3Workload.to_dict depth);
  Dump "metadata" "metadata" IoK8sApimachineryPkgApisMetaV1ListMeta.to_dict].
Definition from_dict `{Pydantic} (depth : nat) : value → outcome value :=
  from_dict_with (schema depth) [
  Get "apiVersion";
  FromDictItems "items" (IoK8sApiSchedulingV1alpha3Workload.from_dict depth);
  Get "kind";
  FromDict "metadata" IoK8sApimachineryPkgApisMetaV1ListMeta.from_dict].
Definition to_json `{Pydantic} (depth : nat) : value → outcome string :=
  to_json_with (to_dict depth).
Definition from_json `{Pydantic} (depth : nat) : string → outcome value :=
  from_json_with (from_dict depth).
Definition to_str `{Pydantic} (depth : nat) : value → outcome string := to_str_with (schema depth).
End IoK8sApiSchedulingV1alpha3WorkloadList.

#[export] Instance IoK8sApiSchedulingV1alpha3WorkloadList_templated `{PydanticLaws} depth :
  Templated (IoK8sApiSchedulingV1alpha3WorkloadList.schema depth) (IoK8sApiSchedulingV1alpha3WorkloadList.to_dict depth) (IoK8sApiSchedulingV1alpha3WorkloadList.from_dict depth).
Proof. solve_model. Qed.

(** The classes above; the first one at a depth that has instances. *)
Definition nested_models `{Pydantic} (depth : nat) : list ApiModel := [
  {| m_schema := IoK8sApiSchedulingV1alpha3CompositePodGroupTemplate.schema (S depth);
     m_to_dict := IoK8sApiSchedulingV1alpha3CompositePodGroupTemplate.to_dict (S depth);
     m_from_dict := IoK8sApiSchedulingV1alpha3CompositePodGroupTemplate.from_dict (S depth);
     m_to_json := IoK8sApiSchedulingV1alpha3CompositePodGroupTemplate.to_json (S depth);
     m_from_json := IoK8sApiSchedulingV1alpha3CompositePodGroupTemplate.from_json (S depth);
     m_to_str := IoK8sApiSchedulingV1alpha3CompositePodGroupTemplate.to_str (S depth) |};
  {| m_schema := IoK8sApiSchedulingV1alpha3WorkloadSpec.schema depth;
     m_to_dict := IoK8sApiSchedulingV1alpha3WorkloadSpec.to_dict depth;
     m_from_dict := IoK8sApiSchedulingV1alpha3WorkloadSpec.from_dict depth;
     m_to_json := IoK8sApiSchedulingV1alpha3WorkloadSpec.to_json depth;
     m_from_json := IoK8sApiSchedulingV1alpha3WorkloadSpec.from_json depth;
     m_to_str := IoK8sApiSchedulingV1alpha3WorkloadSpec.to_str depth |};
  {| m_schema := IoK8sApiSchedulingV1alpha3Workload.schema depth;
     m_to_dict := IoK8sApiSchedulingV1alpha3Workload.to_dict depth;
     m_from_dict := IoK8sApiSchedulingV1alpha3Workload.from_dict depth;
     m_to_json := IoK8sApiSchedulingV1alpha3Workload.to_json depth;
     m_from_json := IoK8sApiSchedulingV1alpha3Workload.from_json depth;
     m_to_str := IoK8sApiSchedulingV1alpha3Workload.to_str depth |};
  {| m_schema := IoK8sApiSchedulingV1alpha3WorkloadList.schema depth;
     m_to_dict := IoK8sApiSchedulingV1alpha3WorkloadList.to_dict depth;
     m_from_dict := IoK8sApiSchedulingV1alpha3WorkloadList.from_dict depth;
     m_to_json := IoK8sApiSchedulingV1alpha3WorkloadList.to_json depth;
     m_from_json := IoK8sApiSchedulingV1alpha3WorkloadList.from_json depth;
     m_to_str := IoK8sApiSchedulingV1alpha3WorkloadList.to_str depth |}].
Lemma nested_models_templated `{PydanticLaws} depth : Forall is_templated (nested_models depth).
Proof.
  apply List.Forall_cons; [split_and!; [apply template_templated; typeclasses eauto|done..]|].
  solve_models.
Qed.

(** ** InternalEvent *)

Module IoK8sApimachineryPkgApisMetaV1InternalEvent.
Definition schema `{Pydantic} : Schema := model "IoK8sApimachineryPkgApisMetaV1InternalEvent" [
  MkField "object" "Object" (Optional AnyValue) None no_check;
  req "type" "Type" StrictStr].
(** [if self.object is None and "object" in self.model_fields_set: _dict['Object'] = None]:
    the field is required, so every validated instance has it set. *)
Definition to_dict `{Pydantic} (self : value) : outcome value :=
  _dict ← model_dump schema self;
  object ← getattr self "object";
  Ret (VDict (if is_none object then dict_set _dict "Object" VNone else _dict)).
Definition from_dict `{Pydantic} : value → outcome value := from_dict_with schema [
  Get "Object";
  GetOr "Type" (VStr "")].
Definition to_json `{Pydantic} : value → outcome string := to_json_with to_dict.
Definition from_json `{Pydantic} : string → outcome value := from_json_with from_dict.
Definition to_str `{Pydantic} : value → outcome string := to_str_with schema.
End IoK8sApimachineryPkgApisMetaV1InternalEvent.

Section InternalEvent.
Context `{HL : PydanticLaws}.
Import IoK8sApimachineryPkgApisMetaV1InternalEvent.

Lemma internal_event_coded :
  coded (s_name schema) (s_fields schema) [] [Get "Object"; GetOr "Type" (VStr "")].
Proof. solve_coded. Qed.

Lemma internal_event_templated : Templated schema (to_dict_with schema []) from_dict.
Proof using HL.
  exists [], [Get "Object"; GetOr "Type" (VStr "")]. split_and!; try reflexivity. apply internal_event_coded.
Qed.

Lemma internal_event_rebuilt v t :
  is_none t = false → rebuilt_attrs (s_fields schema) [("object", v); ("type", t)] = [("object", v); ("type", t)].
Proof. intros Ht. unfold rebuilt_attrs, rebuilt_field. cbn. rewrite Ht. by destruct v. Qed.

(** [None] in [object] is kept as an explicit null, and read back. *)
Lemma internal_event_to_dict x :
  conforms (Model schema) x = true →
  ∃ d v, to_dict x = Ret (VDict d) ∧ getattr x "object" = Ret v ∧ dict_get d "Object" = Some v ∧
         from_dict (VDict d) = Ret x ∧ rebuilt (Model schema) x = x.
Proof using HL.
  intros (attrs & -> & Hf)%conforms_model.
  apply Forall2_cons_inv_l in Hf as ([k v] & attrs' & Ho & Hf & ->).
  apply Forall2_cons_inv_l in Hf as ([k' t] & attrs'' & Hty & Hf & ->).
  apply Forall2_nil_inv_l in Hf as ->. pose proof Ho as (Hk & _). pose proof Hty as (Hk' & Hts & _).
  cbn in Hk, Hk', Hts. subst k k'. assert (is_none t = false) as Htn by (by destruct t).
  pose proof (internal_event_rebuilt v t Htn) as Er.
  destruct (coded_to_dict schema [] _ [("object", v); ("type", t)] eq_refl eq_refl internal_event_coded eq_refl)
    as (d & Ht & _ & Hacc & He); [by do 2 (apply List.Forall2_cons; [by split|])|]. rewrite Er in Hacc, He.
  unfold to_dict_with in Ht. apply outcome_bind_Ret in Ht as (d0 & Hd0 & [= ->]).
  set (d' := if is_none v then dict_set d "Object" VNone else d).
  assert (dict_get d "Object" = Some v ∨ dict_get d "Object" = None ∧ v = VNone) as Hobj.
  { cbn in He. unfold entry in He. cbn in He. destruct (dict_get d "Object"); cbn in He;
      injection He as <- _; [by left|by right]. }
  assert (dict_get d' "Object" = Some v) as Hobj'.
  { unfold d'. destruct (is_none v) eqn:Hn.
    - rewrite dict_get_set_eq. by destruct v.
    - destruct Hobj as [|[_ ->]]; done. }
  exists d', v. split_and!; [|done|done| |by rewrite regular_rebuilt, Er].
  - unfold to_dict. rewrite Hd0. reflexivity.
  - unfold from_dict, from_dict_with.
    assert (entries d' [Get "Object"; GetOr "Type" (VStr "")] =
            entries d [Get "Object"; GetOr "Type" (VStr "")]) as ->.
    { cbn. unfold entry. cbn. rewrite Hobj'. unfold d'.
      assert (default VNone (dict_get d "Object") = v) as -> by (by destruct Hobj as [->|[-> ->]]).
      destruct (is_none v); [|done]. by rewrite dict_get_set_ne. }
    rewrite He. cbn [mbind outcome_bind]. unfold model_validate. by apply typed_validate_dict.
Qed.

#[export] Instance internal_event_reads : Reads schema to_dict from_dict.
Proof using HL.
  destruct (templated_converts _ _ _ internal_event_templated) as [[HR ????] _ _]. split; [split|done..].
  - intros x Hx Hc. destruct (internal_event_to_dict x Hx) as (d & v & Ht & _ & _ & Hg & Er).
    exists (VDict d). rewrite Er in *. split_and!; [done..|].
    destruct HR as [HR _]. destruct (HR x Hx Hc) as (_ & _ & _ & _ & Hs). by rewrite Er in Hs.
  - apply HR.
Qed.
End InternalEvent.
