(* ===== verification/ApiSpec.v ===== *)
(** * The API models: theorems

    Round trips of all modelled classes, through dictionaries and through JSON,
    what [from_dict] accepts and refuses, and the one-of class IntOrString. *)

From S2P Require Import Prelude PyStr PyValue PyNum Json JsonSpec Pydantic Documents PydanticSpec PydanticDocs PydanticRef OneOf.
From S2P Require Import ApiMeta ApiCore ApiJobSet ApiTrainer ApiMetaMore ApiCoreMore ApiWorkloads ApiRecursive.
Local Open Scope string_scope.
Local Open Scope bool_scope.
Local Open Scope list_scope.

(** All the classes written with the template; [depth] bounds the nesting of the
    one that contains itself. *)
Definition api_models `{Pydantic} (depth : nat) : list ApiModel :=
  meta_models ++ core_models ++ jobset_models ++ trainer_models ++
  more_meta_models ++ more_core_models ++ workload_models ++ nested_models depth.

Lemma api_models_templated `{PydanticLaws} depth m : m ∈ api_models depth → is_templated m.
Proof.
  revert m. apply Forall_forall. unfold api_models. rewrite !Forall_app.
  split_and!; [apply meta_models_templated|apply core_models_templated
              |apply jobset_models_templated|apply trainer_models_templated
              |apply more_meta_models_templated|apply more_core_models_templated
              |apply workload_models_templated|apply nested_models_templated].
Qed.

(** C14. For every class written with the template (those of the Trainer API, and
    the Kubernetes classes of the package) and every instance that conforms to its
    annotations, Quantity and IntOrString parts with values that JSON text can
    carry: [to_dict] gives a dictionary with exactly the fields that are not
    [None], under their JSON names and in the declared order, and from it
    [from_dict] makes [rebuilt] of the instance: the same, all nested models
    included, except that a [None] over another default has become the default,
    and that Quantity and IntOrString parts have the validator attribute of their
    type set, and not the other. From then on writing and reading back gives the
    same instance. *)
Theorem api_round_trip `{PydanticLaws} depth m x :
  m ∈ api_models depth → conforms (Model (m_schema m)) x = true → carried (Model (m_schema m)) x = true →
  let y := rebuilt (Model (m_schema m)) x in
  (∃ attrs d, x = VObj (s_name (m_schema m)) attrs ∧
     m_to_dict m x = Ret (VDict d) ∧ d.*1 = set_keys (s_fields (m_schema m)) attrs ∧
     m_from_dict m (VDict d) = Ret y) ∧
  (∃ d, m_to_dict m y = Ret d ∧ m_from_dict m d = Ret y) ∧
  (settled (Model (m_schema m)) x = true → y = x).
Proof.
  intros [Hm _]%api_models_templated Hx Hc y. pose proof Hx as (attrs & -> & _)%conforms_model.
  pose proof (templated_round_trip _ _ _ Hm) as HR.
  destruct (templated_to_dict _ _ _ attrs Hm Hx Hc) as (d & Ht & Hk & Hg & Hs). split_and!.
  - by exists attrs, d.
  - destruct (settled_rebuilt y Hs) as [Hcy Ey].
    destruct (round_trip y (settled_conforms _ _ Hs) Hcy) as (v & Hv & _ & Hgv & _).
    rewrite Ey in Hgv. by exists v.
  - intros Hx'. by apply settled_rebuilt.
Qed.

(** [from_dict] ignores what it does not know: for every modelled class,
    setting a key that is no JSON name of a field changes nothing. *)
Lemma api_ignores_unknown_keys `{PydanticLaws} depth m d k v :
  m ∈ api_models depth → (∀ f, f ∈ s_fields (m_schema m) → f_alias f ≠ k) →
  m_from_dict m (VDict (dict_set d k v)) = m_from_dict m (VDict d).
Proof.
  intros [Hm _]%api_models_templated Hk. eapply templated_unknown_keys; [done|].
  intros f Hf. apply dict_get_set_ne. by apply not_eq_sym, Hk.
Qed.

(** ** JSON *)

(** C31. Through JSON text, for every class written with the template and every
    instance that conforms to its annotations, Quantity and IntOrString parts with
    values that JSON text can carry: when JSON can represent the dictionary of
    [to_dict] ([json_ok]: integers within the digit limit, floats whose text
    is read as the same float, distinct keys, no datetimes and no bytes), [to_json] returns a text of which
    [from_json] makes [rebuilt] of the instance, the instance itself where it is
    as [from_json] makes them; when the dictionary holds something that JSON
    cannot represent, [to_json] raises. *)
Theorem api_json_round_trip `{PydanticLaws} depth m x :
  m ∈ api_models depth → conforms (Model (m_schema m)) x = true → carried (Model (m_schema m)) x = true →
  ∃ v, m_to_dict m x = Ret v ∧
    (json_ok v = true →
     ∃ s, m_to_json m x = Ret s ∧ m_from_json m s = Ret (rebuilt (Model (m_schema m)) x) ∧
          (settled (Model (m_schema m)) x = true → m_from_json m s = Ret x)) ∧
    (json_data v = false → ∃ e, m_to_json m x = Raise e).
Proof.
  intros (Hm & -> & -> & _)%api_models_templated Hx Hc. pose proof Hx as (attrs & -> & _)%conforms_model.
  pose proof (templated_round_trip _ _ _ Hm) as HR.
  destruct (templated_to_dict _ _ _ attrs Hm Hx Hc) as (d & Ht & _ & Hg & _). exists (VDict d).
  unfold to_json_with, from_json_with. rewrite Ht. cbn [mbind outcome_bind]. split_and!; [done|..].
  - intros (t & Hd & Hl)%loads_of_dumps. exists t. rewrite Hl. split_and!; [done..|].
    intros Hs. destruct (settled_rebuilt _ Hs) as [_ E]. by rewrite E in Hg.
  - by apply dumps_not_data.
Qed.

Lemma trainer_status_coded `{PydanticLaws} :
  coded "TrainerV1alpha1TrainerStatus" (s_fields TrainerV1alpha1TrainerStatus.schema)
    [DumpItems "metrics" "metrics" TrainerV1alpha1Metric.to_dict]
    [Get "estimatedRemainingSeconds"; Get "lastUpdatedTime";
     FromDictItems "metrics" TrainerV1alpha1Metric.from_dict; Get "progressPercentage"].
Proof. solve_coded. Qed.

Lemma mapM_stops {A B} (f : A → outcome B) l1 x l2 e :
  Forall (fun y => ∃ b, f y = Ret b) l1 → f x = Raise e → mapM f (l1 ++ x :: l2) = Raise e.
Proof.
  intros Hl Hx. induction Hl as [|y l1 [b Hb] _ IH]; cbn; [by rewrite Hx|].
  rewrite Hb. cbn. by rewrite IH.
Qed.

(** [json.dumps] goes through the dictionary in order and stops at the first
    value it cannot write. *)
Lemma dumps_unserializable d1 k v d2 e :
  Forall (fun kv => ∃ t, dumps kv.2 = Ret t) d1 → dumps v = Raise e →
  dumps (VDict (d1 ++ (k, v) :: d2)) = Raise e.
Proof.
  intros Hd Hv. rewrite dumps_dict, (mapM_stops _ d1 (k, v) d2 e); [done| |cbn; by rewrite Hv].
  eapply Forall_impl; [exact Hd|]. intros [k' w] [t Ht]. cbn in *. rewrite Ht. by eexists.
Qed.

Lemma int_ok_repr z : int_ok z = true → ∃ t, int_repr z = Ret t.
Proof.
  intros Hz. destruct (loads_of_dumps (VInt z)) as (t & Ht & _); [exact Hz|]. by exists t.
Qed.

(** C37. A TrainerStatus with its update time set is not serialised: [to_json]
    raises [TypeError], because [to_dict] leaves the [datetime] in the dictionary
    that it gives to [json.dumps]. *)
Theorem trainer_status_to_json `{PydanticLaws} remaining t off metrics progress :
  let x := VObj "TrainerV1alpha1TrainerStatus" [
    ("estimated_remaining_seconds", remaining); ("last_updated_time", VDatetime t off);
    ("metrics", metrics); ("progress_percentage", progress)] in
  settled (Model TrainerV1alpha1TrainerStatus.schema) x = true →
  (∀ z, remaining = VInt z → int_ok z = true) →
  TrainerV1alpha1TrainerStatus.to_json x =
  Raise (TypeError "Object of type datetime is not JSON serializable").
Proof.
  intros x Hx Hz.
  pose proof Hx as (attrs & [= Ea] & _ & Hf)%settled_model.
  destruct (coded_settled _ _ _ _ trainer_status_coded Hf) as [Hwr Er].
  destruct (coded_to_dict TrainerV1alpha1TrainerStatus.schema _ _ _ eq_refl eq_refl
    trainer_status_coded eq_refl Hwr) as (d & Ht & Hk & _ & He). rewrite Er in He. subst attrs.
  change (TrainerV1alpha1TrainerStatus.to_dict x = Ret (VDict d)) in Ht.
  unfold TrainerV1alpha1TrainerStatus.to_json, to_json_with. rewrite Ht. cbn [mbind outcome_bind].
  destruct (entries_lookup _ _ _ 0 _ He eq_refl) as (v & Hv & Ha).
  destruct (entries_lookup _ _ _ 1 _ He eq_refl) as (w & Hw & Hb).
  cbn in Hv, Ha, Hw, Hb. injection Ha as <-. injection Hb as <-. unfold entry in Hv, Hw. cbn in Hv, Hw.
  assert (remaining = VNone ∨ ∃ z, remaining = VInt z) as [->|[z ->]]
    by (cbn in Hx; destruct remaining; eauto; done); cbn in Hk; clear He Ht Hx.
  - destruct d as [|[k1 v1] d]; [done|]. cbn in Hk. injection Hk as -> _.
    injection Hw as Hw. cbn in Hw. subst v1. by apply (dumps_unserializable []).
  - destruct (int_ok_repr z) as [tz Htz]; [by apply Hz|].
    destruct d as [|[k1 v1] [|[k2 v2] d]]; try done. cbn in Hk. injection Hk as -> -> _.
    injection Hv as Hv. injection Hw as Hw. cbn in Hv, Hw. subst v1 v2.
    apply (dumps_unserializable [("estimatedRemainingSeconds", VInt z)]); [|done].
    repeat constructor. by exists tz.
Qed.

(** ** What [from_dict] accepts and refuses *)

(** A required string whose schema has a default is not enforced: a normal
    search space without mean and standard deviation is accepted, with empty
    strings in their place. *)
Lemma normal_space_missing_fields `{PydanticLaws} d :
  dict_get d "mean" = None → dict_get d "stdDev" = None →
  TrainerV1alpha1NormalSpace.from_dict (VDict d) =
  Ret (VObj "TrainerV1alpha1NormalSpace" [("mean", VStr ""); ("std_dev", VStr "")]).
Proof.
  intros Hm Hs. unfold TrainerV1alpha1NormalSpace.from_dict, from_dict_with.
  assert (entries d [GetOr "mean" (VStr ""); GetOr "stdDev" (VStr "")] =
          Ret [("mean", VStr ""); ("stdDev", VStr "")]) as ->.
  { cbn. unfold entry. cbn. by rewrite Hm, Hs. }
  apply (typed_validate_dict TrainerV1alpha1NormalSpace.schema
    [("mean", VStr ""); ("std_dev", VStr "")]); [reflexivity|repeat constructor].
Qed.

Lemma in_enum_false values s : s ∉ values → in_enum values (VStr s) = false.
Proof. intros Hs. cbn. by apply bool_decide_eq_false. Qed.

(** A Toleration whose operator or effect is not one of the allowed values
    is refused with a [ValidationError]. *)
Lemma toleration_enums `{PydanticLaws} operator effect :
  operator ∉ ["Equal"; "Exists"; "Gt"; "Lt"] ∨
  effect ∉ ["NoExecute"; "NoSchedule"; "PreferNoSchedule"] →
  ∃ what, IoK8sApiCoreV1Toleration.from_dict (VDict [
    ("operator", VStr operator); ("effect", VStr effect)]) = Raise (ValidationError what).
Proof.
  intros Hor. eapply from_dict_with_refused; [reflexivity|].
  unfold args_refused, arg_accepted, arg_refused. cbn -[in_enum]. unfold one_of.
  destruct Hor as [Ho%in_enum_false|He%in_enum_false]; [rewrite Ho; clear Ho|rewrite He; clear He];
    by destruct (in_enum _ _).
Qed.

(** C39. IntOrString.from_json accepts exactly integers and strings, which it keeps:
    booleans, floats, null, lists and objects raise [ValueError], and so does a
    text that is no JSON document. *)
Theorem int_or_string_from_json `{PydanticLaws} s :
  match loads s with
  | Ret (VInt _ | VStr _) as r =>
      ∃ x, IoK8sApimachineryPkgUtilIntstrIntOrString.from_json s = Ret x ∧
           IoK8sApimachineryPkgUtilIntstrIntOrString.to_dict x = r
  | Ret _ | Raise (ValueError _) =>
      IoK8sApimachineryPkgUtilIntstrIntOrString.from_json s = Raise (ValueError "No match found")
  | _ => True
  end.
Proof.
  unfold IoK8sApimachineryPkgUtilIntstrIntOrString.from_json.
  destruct (loads s) as [v|e|] eqn:Hs; [|destruct e; try done; by eapply oneof_from_json_invalid|done].
  destruct v as [| |z| |str| | | | |];
    try (by apply oneof_from_json_none); try (by eapply oneof_from_json_no_match).
  - exists (instance_1 IoK8sApimachineryPkgUtilIntstrIntOrString.oneof (VInt z)).
    by rewrite (oneof_from_json_1 _ _ _ Hs).
  - exists (instance_2 IoK8sApimachineryPkgUtilIntstrIntOrString.oneof (VStr str)).
    by rewrite (oneof_from_json_2 _ _ _ Hs).
Qed.

(** ** A concrete TrainJob *)

Definition demo_train_job_dict : value := VDict [
  ("apiVersion", VStr "trainer.kubeflow.org/v1alpha1"); ("kind", VStr "TrainJob");
  ("metadata", VDict [("labels", VDict [("team", VStr "ml")]); ("name", VStr "fine-tune")]);
  ("spec", VDict [
    ("runtimeRef", VDict [("name", VStr "torch-distributed")]);
    ("trainer", VDict [
      ("env", VList [VDict [("name", VStr "LR"); ("value", VStr "0.1")]]);
      ("numNodes", VInt 2);
      ("resourcesPerNode", VDict [("limits", VDict [("cpu", VStr "4")])])])])].

Definition demo_train_job : value :=
  match TrainerV1alpha1TrainJob.from_dict demo_train_job_dict with Ret x => x | _ => VNone end.

Definition train_job_model `{Pydantic} : ApiModel := {|
  m_schema := TrainerV1alpha1TrainJob.schema;
  m_to_dict := TrainerV1alpha1TrainJob.to_dict;
  m_from_dict := TrainerV1alpha1TrainJob.from_dict;
  m_to_json := TrainerV1alpha1TrainJob.to_json;
  m_from_json := TrainerV1alpha1TrainJob.from_json;
  m_to_str := TrainerV1alpha1TrainJob.to_str |}.

Lemma train_job_in `{Pydantic} depth : train_job_model ∈ api_models depth.
Proof.
  unfold api_models. rewrite !elem_of_app. right. right. right. left. unfold trainer_models.
  repeat first [apply list_elem_of_here | apply list_elem_of_further].
Qed.

(** [job.spec.trainer.resources_per_node.limits = {"cpu": Quantity("4")}]: the
    constructor leaves the validator attributes of the Quantity unset. *)
Definition constructed_quantity : value :=
  match IoK8sApimachineryPkgApiResourceQuantity.init [VStr "4"] [] with Ret x => x | _ => VNone end.
Definition constructed_resources : value :=
  VObj "IoK8sApiCoreV1ResourceRequirements" [
    ("claims", VNone); ("limits", VDict [("cpu", constructed_quantity)]); ("requests", VNone)].
Definition resources_model `{Pydantic} : ApiModel := {|
  m_schema := IoK8sApiCoreV1ResourceRequirements.schema;
  m_to_dict := IoK8sApiCoreV1ResourceRequirements.to_dict;
  m_from_dict := IoK8sApiCoreV1ResourceRequirements.from_dict;
  m_to_json := IoK8sApiCoreV1ResourceRequirements.to_json;
  m_from_json := IoK8sApiCoreV1ResourceRequirements.from_json;
  m_to_str := IoK8sApiCoreV1ResourceRequirements.to_str |}.

Lemma resources_in `{Pydantic} depth : resources_model ∈ api_models depth.
Proof.
  unfold api_models. rewrite !elem_of_app. right. left. unfold core_models.
  repeat first [apply list_elem_of_here | apply list_elem_of_further].
Qed.

Lemma api_round_trip_witness :
  (∃ d, m_to_dict train_job_model demo_train_job = Ret (VDict d) ∧
        m_from_dict train_job_model (VDict d) = Ret demo_train_job) ∧
  ∃ d y, m_to_dict resources_model constructed_resources = Ret (VDict d) ∧
         m_from_dict resources_model (VDict d) = Ret y ∧ y ≠ constructed_resources ∧
         getattr y "limits" = Ret (VDict [("cpu", VObj "IoK8sApimachineryPkgApiResourceQuantity" [
           ("oneof_schema_1_validator", VStr "4"); ("oneof_schema_2_validator", VNone);
           ("actual_instance", VStr "4")])]).
Proof.
  split.
  - destruct (api_round_trip 0 train_job_model demo_train_job (train_job_in 0))
      as ((attrs & d & _ & Ht & _ & Hg) & _ & Hs); [vm_compute; reflexivity..|].
    exists d. split; [exact Ht|]. rewrite Hg, Hs by (vm_compute; reflexivity). reflexivity.
  - destruct (api_round_trip 0 resources_model constructed_resources (resources_in 0))
      as ((attrs & d & _ & Ht & _ & Hg) & _); [vm_compute; reflexivity..|].
    exists d. eexists. split; [exact Ht|]. split; [exact Hg|].
    split; [vm_compute; discriminate|vm_compute; reflexivity].
Defined.

Lemma api_json_round_trip_witness :
  ∃ s, m_to_json train_job_model demo_train_job = Ret s ∧
       m_from_json train_job_model s = Ret demo_train_job.
Proof.
  destruct (api_json_round_trip 0 train_job_model demo_train_job (train_job_in 0))
    as (v & Hv & Ht & _); [vm_compute; reflexivity..|].
  assert (m_to_dict train_job_model demo_train_job = Ret demo_train_job_dict) as E
    by (vm_compute; reflexivity).
  rewrite E in Hv. injection Hv as <-. destruct Ht as (s & Hj & _ & Hs); [vm_compute; reflexivity|].
  exists s. split; [exact Hj|]. apply Hs. vm_compute. reflexivity.
Defined.

Lemma trainer_status_to_json_witness :
  TrainerV1alpha1TrainerStatus.to_json (VObj "TrainerV1alpha1TrainerStatus" [
    ("estimated_remaining_seconds", VInt 60); ("last_updated_time", VDatetime 0 (Some 0%Z));
    ("metrics", VNone); ("progress_percentage", VInt 50)]) =
  Raise (TypeError "Object of type datetime is not JSON serializable").
Proof.
  apply trainer_status_to_json; [reflexivity|]. intros z [= <-]. vm_compute. reflexivity.
Defined.

Lemma int_or_string_from_json_witness :
  IoK8sApimachineryPkgUtilIntstrIntOrString.from_json "true" = Raise (ValueError "No match found").
Proof.
  pose proof (int_or_string_from_json "true") as Hs.
  assert (loads "true" = Ret (VBool true)) as E by (vm_compute; reflexivity).
  by rewrite E in Hs.
Defined.
