(* ===== verification/ApiDocs.v ===== *)
(** * The API models: documents

    Every class of the package, the one-of classes included, reads documents as
    their specification ([Documents]) says. *)

From S2P Require Import Prelude PyStr PyValue PyNum Json JsonSpec Pydantic Documents PydanticSpec PydanticDocs PydanticRef.
From S2P Require Import PydanticWrites OneOf ApiMeta ApiCore ApiJobSet ApiTrainer ApiMetaMore ApiCoreMore ApiWorkloads ApiRecursive ApiSpec.
Local Open Scope string_scope.
Local Open Scope bool_scope.
Local Open Scope list_scope.

(** The classes that are not written with the template throughout. *)
Definition other_models `{Pydantic} : list ApiModel := [
  {| m_schema := IoK8sApimachineryPkgApisMetaV1InternalEvent.schema;
     m_to_dict := IoK8sApimachineryPkgApisMetaV1InternalEvent.to_dict;
     m_from_dict := IoK8sApimachineryPkgApisMetaV1InternalEvent.from_dict;
     m_to_json := IoK8sApimachineryPkgApisMetaV1InternalEvent.to_json;
     m_from_json := IoK8sApimachineryPkgApisMetaV1InternalEvent.from_json;
     m_to_str := IoK8sApimachineryPkgApisMetaV1InternalEvent.to_str |};
  {| m_schema := IoK8sApimachineryPkgUtilIntstrIntOrString.schema;
     m_to_dict := IoK8sApimachineryPkgUtilIntstrIntOrString.to_dict;
     m_from_dict := IoK8sApimachineryPkgUtilIntstrIntOrString.from_dict;
     m_to_json := IoK8sApimachineryPkgUtilIntstrIntOrString.to_json;
     m_from_json := IoK8sApimachineryPkgUtilIntstrIntOrString.from_json;
     m_to_str := IoK8sApimachineryPkgUtilIntstrIntOrString.to_str |};
  {| m_schema := IoK8sApimachineryPkgApiResourceQuantity.schema;
     m_to_dict := IoK8sApimachineryPkgApiResourceQuantity.to_dict;
     m_from_dict := IoK8sApimachineryPkgApiResourceQuantity.from_dict;
     m_to_json := IoK8sApimachineryPkgApiResourceQuantity.to_json;
     m_from_json := IoK8sApimachineryPkgApiResourceQuantity.from_json;
     m_to_str := IoK8sApimachineryPkgApiResourceQuantity.to_str |}].

(** The whole package. *)
Definition all_models `{Pydantic} (depth : nat) : list ApiModel := api_models depth ++ other_models.

Section AllModels.
Context `{HL : PydanticLaws}.

Lemma all_models_read depth m :
  m ∈ all_models depth → Reads (m_schema m) (m_to_dict m) (m_from_dict m).
Proof using HL.
  intros [[Hm _]%api_models_templated|Hm]%elem_of_app; [by apply templated_converts|].
  revert m Hm. apply Forall_forall. do 3 (constructor; [cbn; typeclasses eauto|]). constructor.
Qed.

(** [from_json] reads the document and gives it to [from_dict], in the one-of
    classes the other way round. *)
Lemma all_models_from_json depth m :
  m ∈ all_models depth →
  m_from_json m = from_json_with (m_from_dict m) ∨
  ∃ o, m_from_json m = oneof_from_json o ∧ m_from_dict m = oneof_from_dict o ∧
       m_schema m = oneof_schema o ∧
       plain_ann (o_schema_1 o) && plain_ann (o_schema_2 o) && plain_ann (o_actual o) = true ∧
       ∀ x, settled (o_schema_1 o) x || settled (o_schema_2 o) x = true → data x = true.
Proof using HL.
  intros [(_ & _ & Hm & _)%api_models_templated|Hm]%elem_of_app; [by left|].
  revert m Hm. apply Forall_forall. constructor; [by left|].
  do 2 (constructor; [right; eexists; split_and!; [reflexivity..|by intros []]|]). constructor.
Qed.

Lemma all_models_build depth m v :
  m ∈ all_models depth → valid_doc (Model (m_schema m)) v = true →
  m_from_dict m v = Ret (built (Model (m_schema m)) v) ∧
  ∀ s, loads s = Ret v → m_from_json m s = Ret (built (Model (m_schema m)) v).
Proof using HL.
  intros Hm Hv. destruct (all_models_read depth m Hm) as [_ _ Hb _ _]. split; [by apply Hb|].
  intros s Hs. destruct (all_models_from_json depth m Hm) as [->|(o & -> & _ & E & _)].
  - unfold from_json_with. rewrite Hs. by apply Hb.
  - rewrite E in Hv |- *. by apply oneof_json_builds.
Qed.

Lemma all_models_write depth m :
  m ∈ all_models depth →
  s_name (m_schema m) ≠ s_name IoK8sApimachineryPkgApisMetaV1InternalEvent.schema →
  Writes (m_schema m) (m_to_dict m) ∧ m_to_json m = to_json_with (m_to_dict m).
Proof using HL.
  intros [(Hm & Hj & _)%api_models_templated|Hm]%elem_of_app Hi; [split; [by eapply templated_writes|done]|].
  assert (Forall (fun m => s_name (m_schema m) ≠ s_name IoK8sApimachineryPkgApisMetaV1InternalEvent.schema →
    Writes (m_schema m) (m_to_dict m) ∧ m_to_json m = to_json_with (m_to_dict m)) other_models) as Hall.
  { constructor; [done|]. do 2 (constructor; [intros _; split; [cbn; typeclasses eauto|reflexivity]|]). constructor. }
  rewrite Forall_forall in Hall. auto.
Qed.
End AllModels.

(** C15. Type soundness: whatever data [from_dict] of a class of the package is
    given, and whatever text [from_json] is given, what it returns conforms to the
    annotations of the class, all nested models, lists and dictionaries included,
    and passes its validators; only [None], or the text of null, gives [None]. *)
Theorem api_returns_typed `{PydanticLaws} depth m :
  m ∈ all_models depth →
  (∀ v x, data v = true → m_from_dict m v = Ret x →
     (v = VNone ∧ x = VNone) ∨ conforms (Model (m_schema m)) x = true) ∧
  (∀ s x, m_from_json m s = Ret x →
     (loads s = Ret VNone ∧ x = VNone) ∨ conforms (Model (m_schema m)) x = true).
Proof.
  intros Hm. destruct (all_models_read depth m Hm) as [_ Hs _ _ _]. split; [exact Hs|]. intros s x.
  destruct (all_models_from_json depth m Hm) as [->|(o & -> & _ & -> & Hp & Hd)].
  - intros (v & Hv & Hx)%outcome_bind_Ret. rewrite Hv.
    destruct (Hs v x (loads_data s v Hv) Hx) as [[-> ->]|]; auto.
  - intros Hx. right. by eapply oneof_from_json_conforms.
Qed.

(** C9. On every document that is valid for a class, for every class of the
    package, [from_dict] returns exactly the instance that the schema assigns to
    the document: nested models, lists and dictionaries of models at every depth,
    fields that are missing or null with their defaults (for a required field,
    the default of the OpenAPI specification), unknown keys left out.
    [from_json] does the same on every text of the document. *)
Theorem api_builds `{PydanticLaws} depth m v :
  m ∈ all_models depth → valid_doc (Model (m_schema m)) v = true →
  m_from_dict m v = Ret (built (Model (m_schema m)) v) ∧
  ∀ s, loads s = Ret v → m_from_json m s = Ret (built (Model (m_schema m)) v).
Proof. apply all_models_build. Qed.

(** C10. What certainly makes a document invalid is refused: for every class of the
    package, when a value at any depth of nesting has a type that pydantic does not
    convert to its annotation, is outside its enumeration, or is required, without
    a default in the OpenAPI specification, and missing or null, [from_dict]
    raises, and so does [from_json] on every text of the document. Where a list of
    models is expected, [from_dict] iterates over what it finds: a string or an
    object there counts as the list of its characters or keys, so that an empty
    one is not among these documents. [None] for the whole document is let through,
    by every class but the one-of classes. *)
Theorem api_refuses `{PydanticLaws} depth m v :
  m ∈ all_models depth → invalid_doc (Model (m_schema m)) v = true → data v = true → v ≠ VNone →
  (∃ e, m_from_dict m v = Raise e) ∧ ∀ s, loads s = Ret v → ∃ e, m_from_json m s = Raise e.
Proof.
  intros Hm Hv Hd Hn. destruct (all_models_read depth m Hm) as [_ _ _ Hr _].
  split; [by apply Hr|]. intros s Hs.
  destruct (all_models_from_json depth m Hm) as [->|(o & -> & _ & E & _)].
  - unfold from_json_with. rewrite Hs. by apply Hr.
  - eexists. eapply oneof_json_refuses; [done|]. by rewrite <- E.
Qed.

(** C13. No known value is lost between reading and writing: for every class but
    InternalEvent, the instance that [from_dict] makes of a valid document is well
    typed, and [to_dict] writes it back as the same document, at every depth of
    nesting, with the keys in the order of the fields, unknown keys and nulls
    left out and defaults filled in; so do [from_json] and [to_json] on texts. *)
Theorem api_writes_back `{PydanticLaws} depth m v :
  m ∈ all_models depth →
  s_name (m_schema m) ≠ s_name IoK8sApimachineryPkgApisMetaV1InternalEvent.schema →
  valid_doc (Model (m_schema m)) v = true → data v = true →
  ∃ x, m_from_dict m v = Ret x ∧ settled (Model (m_schema m)) x = true ∧
       m_to_dict m x = Ret (canon (Model (m_schema m)) v) ∧
       ∀ s, loads s = Ret v →
            m_from_json m s = Ret x ∧ m_to_json m x = dumps (canon (Model (m_schema m)) v).
Proof.
  intros Hm Hi Hv Hd. destruct (all_models_build depth m v Hm Hv) as [Hb Hj].
  destruct (all_models_write depth m Hm Hi) as [Hw Ej]. destruct (Hw v Hv Hd) as [Ht Hwv].
  exists (built (Model (m_schema m)) v). split_and!; [done..|]. intros s Hs. split; [by apply Hj|].
  rewrite Ej. unfold to_json_with. by rewrite Hwv.
Qed.

(** Every conversion ends: whatever data [from_dict] of any class is given,
    and whatever text [from_json] is given, it returns an instance or raises. *)
Lemma api_from_json_ends `{PydanticLaws} depth m :
  m ∈ all_models depth →
  (∀ v, data v = true → m_from_dict m v ≠ OutOfFuel) ∧ ∀ s, m_from_json m s ≠ OutOfFuel.
Proof.
  intros Hm. destruct (all_models_read depth m Hm) as [_ _ _ _ He]. split; [exact He|]. intros s.
  destruct (all_models_from_json depth m Hm) as [->|(o & -> & _ & _ & Hp & _)].
  - unfold from_json_with. pose proof (loads_total s) as Ht. pose proof (loads_data s) as Hd.
    destruct (loads s) as [v| |]; cbn; [|done..]. by apply He, Hd.
  - by apply oneof_from_json_ends.
Qed.

(** Where a list of models is expected, [from_dict] iterates over what it finds: an
    empty string, or an empty object, is an empty list to it. *)
Lemma empty_string_as_list `{Pydantic} :
  TrainerV1alpha1TrainJobStatus.from_dict (VDict [("conditions", VStr "")]) =
  TrainerV1alpha1TrainJobStatus.from_dict (VDict [("conditions", VList [])]).
Proof. reflexivity. Qed.

(** ** Concrete documents *)

Lemma train_job_in_all `{Pydantic} depth : train_job_model ∈ all_models depth.
Proof. apply elem_of_app. left. apply train_job_in. Qed.

(** A misspelt key, and a number for the name of an environment variable. *)
Definition sloppy_train_job_dict (name : value) : value := VDict [
  ("kind", VStr "TrainJob"); ("replicas", VInt 3);
  ("spec", VDict [
    ("runtimeRef", VDict [("name", VStr "torch-distributed")]);
    ("trainer", VDict [("env", VList [VDict [("name", VStr "LR")]; VDict [("name", name)]])])])].

Lemma api_builds_witness :
  m_from_json train_job_model
    (match dumps (sloppy_train_job_dict (VStr "SEED")) with Ret s => s | _ => "" end) =
  Ret (built (Model (m_schema train_job_model)) (sloppy_train_job_dict (VStr "SEED"))).
Proof.
  destruct (api_builds 0 train_job_model (sloppy_train_job_dict (VStr "SEED")) (train_job_in_all 0))
    as [_ Hj]; [vm_compute; reflexivity|].
  apply Hj. vm_compute. reflexivity.
Defined.

(** A runtime reference without the name, which is required and has no default. *)
Definition nameless_train_job_dict : value :=
  VDict [("kind", VStr "TrainJob"); ("spec", VDict [("runtimeRef", VDict [])])].

Lemma api_refuses_witness :
  (∃ e, m_from_dict train_job_model (sloppy_train_job_dict (VInt 5)) = Raise e) ∧
  ∃ e, m_from_dict train_job_model nameless_train_job_dict = Raise e.
Proof.
  split.
  - destruct (api_refuses 0 train_job_model (sloppy_train_job_dict (VInt 5)) (train_job_in_all 0))
      as [Hr _]; [vm_compute; reflexivity|vm_compute; reflexivity|discriminate|exact Hr].
  - destruct (api_refuses 0 train_job_model nameless_train_job_dict (train_job_in_all 0))
      as [Hr _]; [vm_compute; reflexivity|vm_compute; reflexivity|discriminate|exact Hr].
Defined.

Lemma api_returns_typed_witness :
  ∃ x, m_from_dict train_job_model demo_train_job_dict = Ret x ∧
       conforms (Model (m_schema train_job_model)) x = true.
Proof.
  destruct (api_returns_typed 0 train_job_model (train_job_in_all 0)) as [Hd _].
  assert (m_from_dict train_job_model demo_train_job_dict = Ret demo_train_job) as E
    by (vm_compute; reflexivity).
  assert (data demo_train_job_dict = true) as D by (vm_compute; reflexivity).
  exists demo_train_job. split; [exact E|].
  destruct (Hd _ _ D E) as [[Hn _]|Hc]; [discriminate Hn|exact Hc].
Defined.

Lemma api_writes_back_witness :
  ∃ x, m_from_dict train_job_model (sloppy_train_job_dict (VStr "SEED")) = Ret x ∧
       m_to_dict train_job_model x =
       Ret (VDict [("kind", VStr "TrainJob");
         ("spec", VDict [
           ("runtimeRef", VDict [("name", VStr "torch-distributed")]);
           ("trainer", VDict [("env", VList [VDict [("name", VStr "LR")]; VDict [("name", VStr "SEED")]])])])]).
Proof.
  destruct (api_writes_back 0 train_job_model (sloppy_train_job_dict (VStr "SEED")) (train_job_in_all 0))
    as (x & Hx & _ & Hw & _); [discriminate|vm_compute; reflexivity|vm_compute; reflexivity|].
  exists x. split; [exact Hx|]. rewrite Hw. vm_compute. reflexivity.
Defined.
