(* ===== verification/ApiObjects.v ===== *)
(** * The API models as objects

    Every instance of a class of the package that a program can construct, read or
    change conforms to the annotations of its class. *)

From S2P Require Import Prelude PyStr PyValue Json JsonSpec Pydantic Documents PydanticSpec PydanticDocs PydanticRef PydanticObjects.
From S2P Require Import OneOf ApiMeta ApiCore ApiJobSet ApiTrainer ApiMetaMore ApiCoreMore ApiWorkloads ApiRecursive ApiSpec.
Local Open Scope string_scope.
Local Open Scope bool_scope.
Local Open Scope list_scope.

Section Objects.
Context `{HL : PydanticLaws} `{HO : PydanticObjects} `{HOL : !PydanticObjectsLaws}.

Lemma reachable_conforms depth m x :
  m ∈ api_models depth → reachable m x → conforms (Model (m_schema m)) x = true.
Proof using HL HOL.
  intros (Hm & _ & Ej & _)%api_models_templated. destruct (templated_converts _ _ _ Hm) as [[_ Hs _ _ _] _ Hw].
  pose proof Hm as (os & es & _ & _ & _ & _ & _ & Hd & _).
  induction 1 as [kwargs x Ha Hx|v x Hv Hx Hn|s x Hx Hn|x x' _ IH Hmut].
  - by eapply new_conforms.
  - destruct (Hs v x Hv Hx) as [[_ ->]|]; done.
  - rewrite Ej in Hx. apply outcome_bind_Ret in Hx as (v & Hv & Hx).
    destruct (Hs v x (loads_data s v Hv) Hx) as [[_ ->]|]; done.
  - by eapply (proj1 mutates_both_conform).
Qed.
End Objects.

(** C16. The type invariant of the objects: every instance of a class written with
    the template that is constructed with keyword arguments or read by [from_dict]
    or [from_json], and then changed by any sequence of assignments to it and to
    the instances inside it, shared or not, conforms to the annotations of the
    class and passes its validators, at every depth. The arguments and the assigned
    values may be data, instances that conform, lists and dictionaries of these,
    and dictionaries in the place of instances, to any depth ([admissible]); a
    dictionary for a Quantity or an IntOrString has to have [actual_instance]. *)
Theorem api_objects_typed `{PydanticLaws} `{PydanticObjects} `{!PydanticObjectsLaws} depth m x :
  m ∈ api_models depth → reachable m x → conforms (Model (m_schema m)) x = true.
Proof. apply reachable_conforms. Qed.

(** ** A concrete change *)

(** [job = TrainJob(spec={"runtimeRef": {"name": "torch"}})]: dictionaries for the
    instances, at two depths. *)
Definition constructed_kwargs : list (string * value) :=
  [("spec", VDict [("runtimeRef", VDict [("name", VStr "torch")])])].
Definition constructed_job : value :=
  match model_validate (m_schema train_job_model) (VDict constructed_kwargs) with Ret x => x | _ => VNone end.

(** [job.metadata = {"name": "fine-tune"}]. *)
Definition named_job : value :=
  match setattr model_config (m_schema train_job_model) constructed_job "metadata"
          (VDict [("name", VStr "fine-tune")]) with
  | Ret x => x
  | _ => VNone
  end.

(** Discharges [admissible] for a concrete dictionary. *)
Ltac solve_admissible :=
  repeat first
    [ reflexivity
    | match goal with |- True => exact I end
    | match goal with |- _ ∧ _ => split end
    | match goal with
      | |- ∀ y, Some _ = Some y → _ =>
          let y := fresh in let E := fresh in intros y E; injection E as <-; split_and!; reflexivity
      | |- ∀ y, None = Some y → _ => let y := fresh in let E := fresh in intros y E; discriminate E
      end
    | match goal with |- _ ∨ _ ∨ _ => right; right end
    | progress cbn ].

Lemma api_objects_typed_witness :
  (∃ metadata, getattr named_job "metadata" = Ret metadata ∧ getattr metadata "name" = Ret (VStr "fine-tune")) ∧
  conforms (Model (m_schema train_job_model)) named_job = true.
Proof.
  split; [eexists; split; [vm_compute; reflexivity|vm_compute; reflexivity]|].
  apply (api_objects_typed 0 train_job_model named_job (train_job_in 0)).
  apply (reachable_mutated _ constructed_job).
  - apply (reachable_new _ constructed_kwargs); [|vm_compute; reflexivity].
    assert (Forall (fun f => ∀ v, argument constructed_kwargs f = inr v → admissible (f_ann f) v)
      (s_fields (m_schema train_job_model))) as Hall.
    { repeat (apply List.Forall_cons; [intros v E; first [discriminate E|injection E as <-; solve_admissible]|]).
      apply List.Forall_nil. }
    rewrite Forall_forall in Hall. intros f v Hf. by apply Hall.
  - apply (mutates_here _ _ (opt "metadata" "metadata" (Model IoK8sApimachineryPkgApisMetaV1ObjectMeta.schema))
      (VDict [("name", VStr "fine-tune")])); [apply list_elem_of_further, list_elem_of_further, list_elem_of_here|solve_admissible|vm_compute; reflexivity].
Defined.
