(* ===== verification/ApiText.v ===== *)
(** * The API models: [to_str]

    The text that the classes written with the template print of their instances:
    an expression for the data of the instance, whatever its size, which does not
    depend on the order of its dictionaries. Instances that hold a Quantity or an
    IntOrString are left out: their dump has the set [one_of_schemas]. *)

From S2P Require Import Prelude PyStr PyValue PyNum Json PPrint PPrintSpec Pydantic Documents PydanticSpec PydanticDocs PydanticRef.
From S2P Require Import OneOf ApiTrainer ApiRecursive ApiSpec ApiDocs.
Local Open Scope string_scope.
Local Open Scope list_scope.

Lemma api_to_str_pformat `{HL : PydanticLaws} depth m x :
  m ∈ api_models depth → conforms (Model (m_schema m)) x = true →
  without_oneof (Model (m_schema m)) x = true →
  m_to_str m x = pformat tzinfo_repr (dump_all (Model (m_schema m)) x).
Proof.
  intros (_ & _ & _ & ->)%api_models_templated Hx Hw. unfold to_str_with. by rewrite dump_by_alias.
Qed.

(** C32. [to_str] of every class written with the template: for every instance
    that conforms to its annotations and holds no Quantity or IntOrString, it
    returns, unless an integer has too many digits, and the text is a Python
    expression for the data of the instance: nested models as dictionaries under
    their JSON names, [None]s included, strings that are too long for a line as
    adjacent literals that make up the string, line breaks only inside brackets or
    parentheses. Data whose [repr] fits 80 columns is written as that [repr], on
    one line. *)
Theorem api_to_str `{PydanticLaws} depth m x :
  m ∈ api_models depth → conforms (Model (m_schema m)) x = true →
  without_oneof (Model (m_schema m)) x = true →
  let v := dump_all (Model (m_schema m)) x in
  (reprable v = true → ∃ t, m_to_str m x = Ret t) ∧
  (∀ t, m_to_str m x = Ret t → expr tzinfo_repr false v t) ∧
  (∀ rep, safe_repr tzinfo_repr v = Ret rep → (len rep ≤ 80)%Z → m_to_str m x = Ret rep).
Proof.
  intros Hm Hx Hw v. rewrite (api_to_str_pformat depth m x Hm Hx Hw). unfold pformat. split_and!.
  - intros Hv. by apply format_returns.
  - intros t Ht. exact (format_expr _ _ _ _ _ _ Ht).
  - intros rep Hrep Hlen. apply format_fits; [done|]. unfold page_width. lia.
Qed.

(** The text does not depend on the order in which dictionaries were filled. *)
Lemma api_to_str_order `{PydanticLaws} depth m x y t :
  m ∈ api_models depth →
  conforms (Model (m_schema m)) x = true → without_oneof (Model (m_schema m)) x = true →
  conforms (Model (m_schema m)) y = true → without_oneof (Model (m_schema m)) y = true →
  same_value (dump_all (Model (m_schema m)) x) (dump_all (Model (m_schema m)) y) →
  m_to_str m x = Ret t → m_to_str m y = Ret t.
Proof.
  intros Hm Hx Hwx Hy Hwy Hs%(same_value_text tzinfo_repr). rewrite !(api_to_str_pformat depth m) by done.
  unfold pformat. intros Ht. destruct (format_repr _ _ _ _ _ _ Ht) as [rep Hrep].
  destruct (Hs rep Hrep) as [_ Hf]. by rewrite <- Hf.
Qed.

(** ** A concrete instance *)

(** A TrainJob with the given labels and a description longer than a line. *)
Definition labelled_job (labels : list (string * value)) : value :=
  built (Model (m_schema train_job_model)) (VDict [
    ("metadata", VDict [("labels", VDict labels); ("name", VStr "fine-tune");
      ("annotations", VDict [("about",
         VStr "a training job with a description that does not fit into one line of eighty columns")])]);
    ("spec", VDict [("runtimeRef", VDict [("name", VStr "torch-distributed")])])]).
Definition two_labels : list (string * value) := [("team", VStr "ml"); ("app", VStr "llm")].

Lemma api_to_str_witness :
  ∃ t, m_to_str train_job_model (labelled_job two_labels) = Ret t ∧
    expr tzinfo_repr false (dump_all (Model (m_schema train_job_model)) (labelled_job two_labels)) t.
Proof.
  destruct (api_to_str 0 train_job_model (labelled_job two_labels) (train_job_in 0))
    as (Hr & He & _); [vm_compute; reflexivity..|].
  destruct Hr as [t Ht]; [vm_compute; reflexivity|]. exists t. split; [exact Ht|exact (He t Ht)].
Defined.
