(* ===== verification/Exports.v ===== *)
(** * The package exports: models/__init__.py

    The import statements of kubeflow_trainer_api/models/__init__.py in order, the
    namespace they leave, and how it relates to the classes of the package: which
    classes can be imported from the package, and that what they refer to can be
    as well. The version is from kubeflow_trainer_api/__init__.py. *)

From S2P Require Import Prelude PyStr PyValue Pydantic PydanticSpec.
From S2P Require Import ApiSpec ApiDocs.
Local Open Scope string_scope.
Local Open Scope bool_scope.
Local Open Scope list_scope.

(** [from kubeflow_trainer_api.models.module import name]. *)
Record Import : Type := Imp {
  i_module : string;
  i_name : string;
}.

Definition version : string := "2.3.0".

Definition autoscaling_imports : list Import := [
  Imp "io_k8s_api_autoscaling_v2_container_resource_metric_source"
    "IoK8sApiAutoscalingV2ContainerResourceMetricSource";
  Imp "io_k8s_api_autoscaling_v2_container_resource_metric_status"
    "IoK8sApiAutoscalingV2ContainerResourceMetricStatus";
  Imp "io_k8s_api_autoscaling_v2_cross_version_object_reference"
    "IoK8sApiAutoscalingV2CrossVersionObjectReference";
  Imp "io_k8s_api_autoscaling_v2_external_metric_source"
    "IoK8sApiAutoscalingV2ExternalMetricSource";
  Imp "io_k8s_api_autoscaling_v2_external_metric_status"
    "IoK8sApiAutoscalingV2ExternalMetricStatus";
  Imp "io_k8s_api_autoscaling_v2_hpa_scaling_policy"
    "IoK8sApiAutoscalingV2HPAScalingPolicy";
  Imp "io_k8s_api_autoscaling_v2_hpa_scaling_rules"
    "IoK8sApiAutoscalingV2HPAScalingRules";
  Imp "io_k8s_api_autoscaling_v2_horizontal_pod_autoscaler"
    "IoK8sApiAutoscalingV2HorizontalPodAutoscaler";
  Imp "io_k8s_api_autoscaling_v2_horizontal_pod_autoscaler_behavior"
    "IoK8sApiAutoscalingV2HorizontalPodAutoscalerBehavior";
  Imp "io_k8s_api_autoscaling_v2_horizontal_pod_autoscaler_condition"
    "IoK8sApiAutoscalingV2HorizontalPodAutoscalerCondition";
  Imp "io_k8s_api_autoscaling_v2_horizontal_pod_autoscaler_list"
    "IoK8sApiAutoscalingV2HorizontalPodAutoscalerList";
  Imp "io_k8s_api_autoscaling_v2_horizontal_pod_autoscaler_spec"
    "IoK8sApiAutoscalingV2HorizontalPodAutoscalerSpec";
  Imp "io_k8s_api_autoscaling_v2_horizontal_pod_autoscaler_status"
    "IoK8sApiAutoscalingV2HorizontalPodAutoscalerStatus";
  Imp "io_k8s_api_autoscaling_v2_metric_identifier"
    "IoK8sApiAutoscalingV2MetricIdentifier";
  Imp "io_k8s_api_autoscaling_v2_metric_spec"
    "IoK8sApiAutoscalingV2MetricSpec";
  Imp "io_k8s_api_autoscaling_v2_metric_status"
    "IoK8sApiAutoscalingV2MetricStatus";
  Imp "io_k8s_api_autoscaling_v2_metric_target"
    "IoK8sApiAutoscalingV2MetricTarget";
  Imp "io_k8s_api_autoscaling_v2_metric_value_status"
    "IoK8sApiAutoscalingV2MetricValueStatus";
  Imp "io_k8s_api_autoscaling_v2_object_metric_source"
    "IoK8sApiAutoscalingV2ObjectMetricSource";
  Imp "io_k8s_api_autoscaling_v2_object_metric_status"
    "IoK8sApiAutoscalingV2ObjectMetricStatus";
  Imp "io_k8s_api_autoscaling_v2_pods_metric_source"
    "IoK8sApiAutoscalingV2PodsMetricSource";
  Imp "io_k8s_api_autoscaling_v2_pods_metric_status"
    "IoK8sApiAutoscalingV2PodsMetricStatus";
  Imp "io_k8s_api_autoscaling_v2_resource_metric_source"
    "IoK8sApiAutoscalingV2ResourceMetricSource";
  Imp "io_k8s_api_autoscaling_v2_resource_metric_status"
    "IoK8sApiAutoscalingV2ResourceMetricStatus"].
Definition batch_imports : list Import := [
  Imp "io_k8s_api_batch_v1_cron_job"
    "IoK8sApiBatchV1CronJob";
  Imp "io_k8s_api_batch_v1_cron_job_list"
    "IoK8sApiBatchV1CronJobList";
  Imp "io_k8s_api_batch_v1_cron_job_spec"
    "IoK8sApiBatchV1CronJobSpec";
  Imp "io_k8s_api_batch_v1_cron_job_status"
    "IoK8sApiBatchV1CronJobStatus";
  Imp "io_k8s_api_batch_v1_job"
    "IoK8sApiBatchV1Job";
  Imp "io_k8s_api_batch_v1_job_condition"
    "IoK8sApiBatchV1JobCondition";
  Imp "io_k8s_api_batch_v1_job_list"
    "IoK8sApiBatchV1JobList";
  Imp "io_k8s_api_batch_v1_job_scheduling_configuration"
    "IoK8sApiBatchV1JobSchedulingConfiguration";
  Imp "io_k8s_api_batch_v1_job_spec"
    "IoK8sApiBatchV1JobSpec";
  Imp "io_k8s_api_batch_v1_job_status"
    "IoK8sApiBatchV1JobStatus";
  Imp "io_k8s_api_batch_v1_job_template_spec"
    "IoK8sApiBatchV1JobTemplateSpec";
  Imp "io_k8s_api_batch_v1_pod_failure_policy"
    "IoK8sApiBatchV1PodFailurePolicy";
  Imp "io_k8s_api_batch_v1_pod_failure_policy_on_exit_codes_requirement"
    "IoK8sApiBatchV1PodFailurePolicyOnExitCodesRequirement";
  Imp "io_k8s_api_batch_v1_pod_failure_policy_on_pod_conditions_pattern"
    "IoK8sApiBatchV1PodFailurePolicyOnPodConditionsPattern";
  Imp "io_k8s_api_batch_v1_pod_failure_policy_rule"
    "IoK8sApiBatchV1PodFailurePolicyRule";
  Imp "io_k8s_api_batch_v1_success_policy"
    "IoK8sApiBatchV1SuccessPolicy";
  Imp "io_k8s_api_batch_v1_success_policy_rule"
    "IoK8sApiBatchV1SuccessPolicyRule";
  Imp "io_k8s_api_batch_v1_uncounted_terminated_pods"
    "IoK8sApiBatchV1UncountedTerminatedPods"].
Definition core_imports_1 : list Import := [
  Imp "io_k8s_api_core_v1_aws_elastic_block_store_volume_source"
    "IoK8sApiCoreV1AWSElasticBlockStoreVolumeSource";
  Imp "io_k8s_api_core_v1_affinity"
    "IoK8sApiCoreV1Affinity";
  Imp "io_k8s_api_core_v1_app_armor_profile"
    "IoK8sApiCoreV1AppArmorProfile";
  Imp "io_k8s_api_core_v1_attached_volume"
    "IoK8sApiCoreV1AttachedVolume";
  Imp "io_k8s_api_core_v1_avoid_pods"
    "IoK8sApiCoreV1AvoidPods";
  Imp "io_k8s_api_core_v1_azure_disk_volume_source"
    "IoK8sApiCoreV1AzureDiskVolumeSource";
  Imp "io_k8s_api_core_v1_azure_file_persistent_volume_source"
    "IoK8sApiCoreV1AzureFilePersistentVolumeSource";
  Imp "io_k8s_api_core_v1_azure_file_volume_source"
    "IoK8sApiCoreV1AzureFileVolumeSource";
  Imp "io_k8s_api_core_v1_binding"
    "IoK8sApiCoreV1Binding";
  Imp "io_k8s_api_core_v1_csi_persistent_volume_source"
    "IoK8sApiCoreV1CSIPersistentVolumeSource";
  Imp "io_k8s_api_core_v1_csi_volume_source"
    "IoK8sApiCoreV1CSIVolumeSource";
  Imp "io_k8s_api_core_v1_capabilities"
    "IoK8sApiCoreV1Capabilities";
  Imp "io_k8s_api_core_v1_ceph_fs_persistent_volume_source"
    "IoK8sApiCoreV1CephFSPersistentVolumeSource";
  Imp "io_k8s_api_core_v1_ceph_fs_volume_source"
    "IoK8sApiCoreV1CephFSVolumeSource";
  Imp "io_k8s_api_core_v1_cinder_persistent_volume_source"
    "IoK8sApiCoreV1CinderPersistentVolumeSource";
  Imp "io_k8s_api_core_v1_cinder_volume_source"
    "IoK8sApiCoreV1CinderVolumeSource";
  Imp "io_k8s_api_core_v1_client_ip_config"
    "IoK8sApiCoreV1ClientIPConfig";
  Imp "io_k8s_api_core_v1_cluster_trust_bundle_projection"
    "IoK8sApiCoreV1ClusterTrustBundleProjection";
  Imp "io_k8s_api_core_v1_component_condition"
    "IoK8sApiCoreV1ComponentCondition";
  Imp "io_k8s_api_core_v1_component_status"
    "IoK8sApiCoreV1ComponentStatus";
  Imp "io_k8s_api_core_v1_component_status_list"
    "IoK8sApiCoreV1ComponentStatusList";
  Imp "io_k8s_api_core_v1_config_map"
    "IoK8sApiCoreV1ConfigMap";
  Imp "io_k8s_api_core_v1_config_map_env_source"
    "IoK8sApiCoreV1ConfigMapEnvSource";
  Imp "io_k8s_api_core_v1_config_map_key_selector"
    "IoK8sApiCoreV1ConfigMapKeySelector";
  Imp "io_k8s_api_core_v1_config_map_list"
    "IoK8sApiCoreV1ConfigMapList";
  Imp "io_k8s_api_core_v1_config_map_node_config_source"
    "IoK8sApiCoreV1ConfigMapNodeConfigSource";
  Imp "io_k8s_api_core_v1_config_map_projection"
    "IoK8sApiCoreV1ConfigMapProjection";
  Imp "io_k8s_api_core_v1_config_map_volume_source"
    "IoK8sApiCoreV1ConfigMapVolumeSource";
  Imp "io_k8s_api_core_v1_container"
    "IoK8sApiCoreV1Container";
  Imp "io_k8s_api_core_v1_container_extended_resource_request"
    "IoK8sApiCoreV1ContainerExtendedResourceRequest";
  Imp "io_k8s_api_core_v1_container_image"
    "IoK8sApiCoreV1ContainerImage";
  Imp "io_k8s_api_core_v1_container_port"
    "IoK8sApiCoreV1ContainerPort";
  Imp "io_k8s_api_core_v1_container_resize_policy"
    "IoK8sApiCoreV1ContainerResizePolicy";
  Imp "io_k8s_api_core_v1_container_restart_rule"
    "IoK8sApiCoreV1ContainerRestartRule";
  Imp "io_k8s_api_core_v1_container_restart_rule_on_exit_codes"
    "IoK8sApiCoreV1ContainerRestartRuleOnExitCodes";
  Imp "io_k8s_api_core_v1_container_state"
    "IoK8sApiCoreV1ContainerState";
  Imp "io_k8s_api_core_v1_container_state_running"
    "IoK8sApiCoreV1ContainerStateRunning";
  Imp "io_k8s_api_core_v1_container_state_terminated"
    "IoK8sApiCoreV1ContainerStateTerminated";
  Imp "io_k8s_api_core_v1_container_state_waiting"
    "IoK8sApiCoreV1ContainerStateWaiting";
  Imp "io_k8s_api_core_v1_container_status"
    "IoK8sApiCoreV1ContainerStatus";
  Imp "io_k8s_api_core_v1_container_user"
    "IoK8sApiCoreV1ContainerUser";
  Imp "io_k8s_api_core_v1_daemon_endpoint"
    "IoK8sApiCoreV1DaemonEndpoint";
  Imp "io_k8s_api_core_v1_downward_api_projection"
    "IoK8sApiCoreV1DownwardAPIProjection";
  Imp "io_k8s_api_core_v1_downward_api_volume_file"
    "IoK8sApiCoreV1DownwardAPIVolumeFile";
  Imp "io_k8s_api_core_v1_downward_api_volume_source"
    "IoK8sApiCoreV1DownwardAPIVolumeSource";
  Imp "io_k8s_api_core_v1_empty_dir_volume_source"
    "IoK8sApiCoreV1EmptyDirVolumeSource";
  Imp "io_k8s_api_core_v1_endpoint_address"
    "IoK8sApiCoreV1EndpointAddress";
  Imp "io_k8s_api_core_v1_endpoint_port"
    "IoK8sApiCoreV1EndpointPort";
  Imp "io_k8s_api_core_v1_endpoint_subset"
    "IoK8sApiCoreV1EndpointSubset";
  Imp "io_k8s_api_core_v1_endpoints"
    "IoK8sApiCoreV1Endpoints";
  Imp "io_k8s_api_core_v1_endpoints_list"
    "IoK8sApiCoreV1EndpointsList";
  Imp "io_k8s_api_core_v1_env_from_source"
    "IoK8sApiCoreV1EnvFromSource";
  Imp "io_k8s_api_core_v1_env_var"
    "IoK8sApiCoreV1EnvVar";
  Imp "io_k8s_api_core_v1_env_var_source"
    "IoK8sApiCoreV1EnvVarSource";
  Imp "io_k8s_api_core_v1_ephemeral_container"
    "IoK8sApiCoreV1EphemeralContainer";
  Imp "io_k8s_api_core_v1_ephemeral_container_common"
    "IoK8sApiCoreV1EphemeralContainerCommon";
  Imp "io_k8s_api_core_v1_ephemeral_volume_source"
    "IoK8sApiCoreV1EphemeralVolumeSource";
  Imp "io_k8s_api_core_v1_event"
    "IoK8sApiCoreV1Event";
  Imp "io_k8s_api_core_v1_event_list"
    "IoK8sApiCoreV1EventList";
  Imp "io_k8s_api_core_v1_event_series"
    "IoK8sApiCoreV1EventSeries";
  Imp "io_k8s_api_core_v1_event_source"
    "IoK8sApiCoreV1EventSource";
  Imp "io_k8s_api_core_v1_eviction_responder"
    "IoK8sApiCoreV1EvictionResponder";
  Imp "io_k8s_api_core_v1_exec_action"
    "IoK8sApiCoreV1ExecAction";
  Imp "io_k8s_api_core_v1_fc_volume_source"
    "IoK8sApiCoreV1FCVolumeSource";
  Imp "io_k8s_api_core_v1_file_key_selector"
    "IoK8sApiCoreV1FileKeySelector";
  Imp "io_k8s_api_core_v1_flex_persistent_volume_source"
    "IoK8sApiCoreV1FlexPersistentVolumeSource";
  Imp "io_k8s_api_core_v1_flex_volume_source"
    "IoK8sApiCoreV1FlexVolumeSource";
  Imp "io_k8s_api_core_v1_flocker_volume_source"
    "IoK8sApiCoreV1FlockerVolumeSource";
  Imp "io_k8s_api_core_v1_gce_persistent_disk_volume_source"
    "IoK8sApiCoreV1GCEPersistentDiskVolumeSource";
  Imp "io_k8s_api_core_v1_grpc_action"
    "IoK8sApiCoreV1GRPCAction";
  Imp "io_k8s_api_core_v1_git_repo_volume_source"
    "IoK8sApiCoreV1GitRepoVolumeSource";
  Imp "io_k8s_api_core_v1_glusterfs_persistent_volume_source"
    "IoK8sApiCoreV1GlusterfsPersistentVolumeSource";
  Imp "io_k8s_api_core_v1_glusterfs_volume_source"
    "IoK8sApiCoreV1GlusterfsVolumeSource";
  Imp "io_k8s_api_core_v1_http_get_action"
    "IoK8sApiCoreV1HTTPGetAction";
  Imp "io_k8s_api_core_v1_http_header"
    "IoK8sApiCoreV1HTTPHeader";
  Imp "io_k8s_api_core_v1_host_alias"
    "IoK8sApiCoreV1HostAlias";
  Imp "io_k8s_api_core_v1_host_ip"
    "IoK8sApiCoreV1HostIP";
  Imp "io_k8s_api_core_v1_host_path_volume_source"
    "IoK8sApiCoreV1HostPathVolumeSource";
  Imp "io_k8s_api_core_v1_iscsi_persistent_volume_source"
    "IoK8sApiCoreV1ISCSIPersistentVolumeSource";
  Imp "io_k8s_api_core_v1_iscsi_volume_source"
    "IoK8sApiCoreV1ISCSIVolumeSource";
  Imp "io_k8s_api_core_v1_image_volume_source"
    "IoK8sApiCoreV1ImageVolumeSource";
  Imp "io_k8s_api_core_v1_image_volume_status"
    "IoK8sApiCoreV1ImageVolumeStatus";
  Imp "io_k8s_api_core_v1_key_to_path"
    "IoK8sApiCoreV1KeyToPath";
  Imp "io_k8s_api_core_v1_lifecycle"
    "IoK8sApiCoreV1Lifecycle";
  Imp "io_k8s_api_core_v1_lifecycle_handler"
    "IoK8sApiCoreV1LifecycleHandler";
  Imp "io_k8s_api_core_v1_limit_range"
    "IoK8sApiCoreV1LimitRange";
  Imp "io_k8s_api_core_v1_limit_range_item"
    "IoK8sApiCoreV1LimitRangeItem";
  Imp "io_k8s_api_core_v1_limit_range_list"
    "IoK8sApiCoreV1LimitRangeList";
  Imp "io_k8s_api_core_v1_limit_range_spec"
    "IoK8sApiCoreV1LimitRangeSpec";
  Imp "io_k8s_api_core_v1_linux_container_user"
    "IoK8sApiCoreV1LinuxContainerUser";
  Imp "io_k8s_api_core_v1_list"
    "IoK8sApiCoreV1List";
  Imp "io_k8s_api_core_v1_load_balancer_ingress"
    "IoK8sApiCoreV1LoadBalancerIngress";
  Imp "io_k8s_api_core_v1_load_balancer_status"
    "IoK8sApiCoreV1LoadBalancerStatus";
  Imp "io_k8s_api_core_v1_local_object_reference"
    "IoK8sApiCoreV1LocalObjectReference";
  Imp "io_k8s_api_core_v1_local_volume_source"
    "IoK8sApiCoreV1LocalVolumeSource";
  Imp "io_k8s_api_core_v1_modify_volume_status"
    "IoK8sApiCoreV1ModifyVolumeStatus";
  Imp "io_k8s_api_core_v1_nfs_volume_source"
    "IoK8sApiCoreV1NFSVolumeSource";
  Imp "io_k8s_api_core_v1_namespace"
    "IoK8sApiCoreV1Namespace";
  Imp "io_k8s_api_core_v1_namespace_condition"
    "IoK8sApiCoreV1NamespaceCondition";
  Imp "io_k8s_api_core_v1_namespace_list"
    "IoK8sApiCoreV1NamespaceList";
  Imp "io_k8s_api_core_v1_namespace_spec"
    "IoK8sApiCoreV1NamespaceSpec";
  Imp "io_k8s_api_core_v1_namespace_status"
    "IoK8sApiCoreV1NamespaceStatus";
  Imp "io_k8s_api_core_v1_node"
    "IoK8sApiCoreV1Node";
  Imp "io_k8s_api_core_v1_node_address"
    "IoK8sApiCoreV1NodeAddress";
  Imp "io_k8s_api_core_v1_node_affinity"
    "IoK8sApiCoreV1NodeAffinity";
  Imp "io_k8s_api_core_v1_node_allocatable_mapped_resources"
    "IoK8sApiCoreV1NodeAllocatableMappedResources";
  Imp "io_k8s_api_core_v1_node_allocatable_overhead_resources"
    "IoK8sApiCoreV1NodeAllocatableOverheadResources";
  Imp "io_k8s_api_core_v1_node_allocatable_resource_claim_status"
    "IoK8sApiCoreV1NodeAllocatableResourceClaimStatus";
  Imp "io_k8s_api_core_v1_node_condition"
    "IoK8sApiCoreV1NodeCondition";
  Imp "io_k8s_api_core_v1_node_config_source"
    "IoK8sApiCoreV1NodeConfigSource";
  Imp "io_k8s_api_core_v1_node_config_status"
    "IoK8sApiCoreV1NodeConfigStatus";
  Imp "io_k8s_api_core_v1_node_daemon_endpoints"
    "IoK8sApiCoreV1NodeDaemonEndpoints";
  Imp "io_k8s_api_core_v1_node_features"
    "IoK8sApiCoreV1NodeFeatures";
  Imp "io_k8s_api_core_v1_node_list"
    "IoK8sApiCoreV1NodeList";
  Imp "io_k8s_api_core_v1_node_pod_preemption_policy"
    "IoK8sApiCoreV1NodePodPreemptionPolicy";
  Imp "io_k8s_api_core_v1_node_proxy_options"
    "IoK8sApiCoreV1NodeProxyOptions";
  Imp "io_k8s_api_core_v1_node_runtime_handler"
    "IoK8sApiCoreV1NodeRuntimeHandler";
  Imp "io_k8s_api_core_v1_node_runtime_handler_features"
    "IoK8sApiCoreV1NodeRuntimeHandlerFeatures";
  Imp "io_k8s_api_core_v1_node_selector"
    "IoK8sApiCoreV1NodeSelector";
  Imp "io_k8s_api_core_v1_node_selector_requirement"
    "IoK8sApiCoreV1NodeSelectorRequirement";
  Imp "io_k8s_api_core_v1_node_selector_term"
    "IoK8sApiCoreV1NodeSelectorTerm";
  Imp "io_k8s_api_core_v1_node_spec"
    "IoK8sApiCoreV1NodeSpec";
  Imp "io_k8s_api_core_v1_node_status"
    "IoK8sApiCoreV1NodeStatus";
  Imp "io_k8s_api_core_v1_node_swap_status"
    "IoK8sApiCoreV1NodeSwapStatus";
  Imp "io_k8s_api_core_v1_node_system_info"
    "IoK8sApiCoreV1NodeSystemInfo";
  Imp "io_k8s_api_core_v1_object_field_selector"
    "IoK8sApiCoreV1ObjectFieldSelector";
  Imp "io_k8s_api_core_v1_object_reference"
    "IoK8sApiCoreV1ObjectReference"].
Definition core_imports_2 : list Import := [
  Imp "io_k8s_api_core_v1_persistent_volume"
    "IoK8sApiCoreV1PersistentVolume";
  Imp "io_k8s_api_core_v1_persistent_volume_claim"
    "IoK8sApiCoreV1PersistentVolumeClaim";
  Imp "io_k8s_api_core_v1_persistent_volume_claim_condition"
    "IoK8sApiCoreV1PersistentVolumeClaimCondition";
  Imp "io_k8s_api_core_v1_persistent_volume_claim_list"
    "IoK8sApiCoreV1PersistentVolumeClaimList";
  Imp "io_k8s_api_core_v1_persistent_volume_claim_spec"
    "IoK8sApiCoreV1PersistentVolumeClaimSpec";
  Imp "io_k8s_api_core_v1_persistent_volume_claim_status"
    "IoK8sApiCoreV1PersistentVolumeClaimStatus";
  Imp "io_k8s_api_core_v1_persistent_volume_claim_template"
    "IoK8sApiCoreV1PersistentVolumeClaimTemplate";
  Imp "io_k8s_api_core_v1_persistent_volume_claim_volume_source"
    "IoK8sApiCoreV1PersistentVolumeClaimVolumeSource";
  Imp "io_k8s_api_core_v1_persistent_volume_list"
    "IoK8sApiCoreV1PersistentVolumeList";
  Imp "io_k8s_api_core_v1_persistent_volume_source"
    "IoK8sApiCoreV1PersistentVolumeSource";
  Imp "io_k8s_api_core_v1_persistent_volume_spec"
    "IoK8sApiCoreV1PersistentVolumeSpec";
  Imp "io_k8s_api_core_v1_persistent_volume_status"
    "IoK8sApiCoreV1PersistentVolumeStatus";
  Imp "io_k8s_api_core_v1_photon_persistent_disk_volume_source"
    "IoK8sApiCoreV1PhotonPersistentDiskVolumeSource";
  Imp "io_k8s_api_core_v1_pod"
    "IoK8sApiCoreV1Pod";
  Imp "io_k8s_api_core_v1_pod_affinity"
    "IoK8sApiCoreV1PodAffinity";
  Imp "io_k8s_api_core_v1_pod_affinity_term"
    "IoK8sApiCoreV1PodAffinityTerm";
  Imp "io_k8s_api_core_v1_pod_anti_affinity"
    "IoK8sApiCoreV1PodAntiAffinity";
  Imp "io_k8s_api_core_v1_pod_attach_options"
    "IoK8sApiCoreV1PodAttachOptions";
  Imp "io_k8s_api_core_v1_pod_certificate_projection"
    "IoK8sApiCoreV1PodCertificateProjection";
  Imp "io_k8s_api_core_v1_pod_condition"
    "IoK8sApiCoreV1PodCondition";
  Imp "io_k8s_api_core_v1_pod_dns_config"
    "IoK8sApiCoreV1PodDNSConfig";
  Imp "io_k8s_api_core_v1_pod_dns_config_option"
    "IoK8sApiCoreV1PodDNSConfigOption";
  Imp "io_k8s_api_core_v1_pod_exec_options"
    "IoK8sApiCoreV1PodExecOptions";
  Imp "io_k8s_api_core_v1_pod_extended_resource_claim_status"
    "IoK8sApiCoreV1PodExtendedResourceClaimStatus";
  Imp "io_k8s_api_core_v1_pod_ip"
    "IoK8sApiCoreV1PodIP";
  Imp "io_k8s_api_core_v1_pod_list"
    "IoK8sApiCoreV1PodList";
  Imp "io_k8s_api_core_v1_pod_log_options"
    "IoK8sApiCoreV1PodLogOptions";
  Imp "io_k8s_api_core_v1_pod_os"
    "IoK8sApiCoreV1PodOS";
  Imp "io_k8s_api_core_v1_pod_port_forward_options"
    "IoK8sApiCoreV1PodPortForwardOptions";
  Imp "io_k8s_api_core_v1_pod_proxy_options"
    "IoK8sApiCoreV1PodProxyOptions";
  Imp "io_k8s_api_core_v1_pod_readiness_gate"
    "IoK8sApiCoreV1PodReadinessGate";
  Imp "io_k8s_api_core_v1_pod_resource_claim"
    "IoK8sApiCoreV1PodResourceClaim";
  Imp "io_k8s_api_core_v1_pod_resource_claim_status"
    "IoK8sApiCoreV1PodResourceClaimStatus";
  Imp "io_k8s_api_core_v1_pod_scheduling_gate"
    "IoK8sApiCoreV1PodSchedulingGate";
  Imp "io_k8s_api_core_v1_pod_scheduling_group"
    "IoK8sApiCoreV1PodSchedulingGroup";
  Imp "io_k8s_api_core_v1_pod_security_context"
    "IoK8sApiCoreV1PodSecurityContext";
  Imp "io_k8s_api_core_v1_pod_signature"
    "IoK8sApiCoreV1PodSignature";
  Imp "io_k8s_api_core_v1_pod_spec"
    "IoK8sApiCoreV1PodSpec";
  Imp "io_k8s_api_core_v1_pod_status"
    "IoK8sApiCoreV1PodStatus";
  Imp "io_k8s_api_core_v1_pod_template"
    "IoK8sApiCoreV1PodTemplate";
  Imp "io_k8s_api_core_v1_pod_template_list"
    "IoK8sApiCoreV1PodTemplateList";
  Imp "io_k8s_api_core_v1_pod_template_spec"
    "IoK8sApiCoreV1PodTemplateSpec";
  Imp "io_k8s_api_core_v1_pod_volume_health"
    "IoK8sApiCoreV1PodVolumeHealth";
  Imp "io_k8s_api_core_v1_port_status"
    "IoK8sApiCoreV1PortStatus";
  Imp "io_k8s_api_core_v1_portworx_volume_source"
    "IoK8sApiCoreV1PortworxVolumeSource";
  Imp "io_k8s_api_core_v1_prefer_avoid_pods_entry"
    "IoK8sApiCoreV1PreferAvoidPodsEntry";
  Imp "io_k8s_api_core_v1_preferred_scheduling_term"
    "IoK8sApiCoreV1PreferredSchedulingTerm";
  Imp "io_k8s_api_core_v1_probe"
    "IoK8sApiCoreV1Probe";
  Imp "io_k8s_api_core_v1_probe_handler"
    "IoK8sApiCoreV1ProbeHandler";
  Imp "io_k8s_api_core_v1_projected_volume_source"
    "IoK8sApiCoreV1ProjectedVolumeSource";
  Imp "io_k8s_api_core_v1_quobyte_volume_source"
    "IoK8sApiCoreV1QuobyteVolumeSource";
  Imp "io_k8s_api_core_v1_rbd_persistent_volume_source"
    "IoK8sApiCoreV1RBDPersistentVolumeSource";
  Imp "io_k8s_api_core_v1_rbd_volume_source"
    "IoK8sApiCoreV1RBDVolumeSource";
  Imp "io_k8s_api_core_v1_range_allocation"
    "IoK8sApiCoreV1RangeAllocation";
  Imp "io_k8s_api_core_v1_replication_controller"
    "IoK8sApiCoreV1ReplicationController";
  Imp "io_k8s_api_core_v1_replication_controller_condition"
    "IoK8sApiCoreV1ReplicationControllerCondition";
  Imp "io_k8s_api_core_v1_replication_controller_list"
    "IoK8sApiCoreV1ReplicationControllerList";
  Imp "io_k8s_api_core_v1_replication_controller_spec"
    "IoK8sApiCoreV1ReplicationControllerSpec";
  Imp "io_k8s_api_core_v1_replication_controller_status"
    "IoK8sApiCoreV1ReplicationControllerStatus";
  Imp "io_k8s_api_core_v1_resource_claim"
    "IoK8sApiCoreV1ResourceClaim";
  Imp "io_k8s_api_core_v1_resource_field_selector"
    "IoK8sApiCoreV1ResourceFieldSelector";
  Imp "io_k8s_api_core_v1_resource_health"
    "IoK8sApiCoreV1ResourceHealth";
  Imp "io_k8s_api_core_v1_resource_quota"
    "IoK8sApiCoreV1ResourceQuota";
  Imp "io_k8s_api_core_v1_resource_quota_list"
    "IoK8sApiCoreV1ResourceQuotaList";
  Imp "io_k8s_api_core_v1_resource_quota_spec"
    "IoK8sApiCoreV1ResourceQuotaSpec";
  Imp "io_k8s_api_core_v1_resource_quota_status"
    "IoK8sApiCoreV1ResourceQuotaStatus";
  Imp "io_k8s_api_core_v1_resource_requirements"
    "IoK8sApiCoreV1ResourceRequirements";
  Imp "io_k8s_api_core_v1_resource_status"
    "IoK8sApiCoreV1ResourceStatus";
  Imp "io_k8s_api_core_v1_se_linux_options"
    "IoK8sApiCoreV1SELinuxOptions";
  Imp "io_k8s_api_core_v1_scale_io_persistent_volume_source"
    "IoK8sApiCoreV1ScaleIOPersistentVolumeSource";
  Imp "io_k8s_api_core_v1_scale_io_volume_source"
    "IoK8sApiCoreV1ScaleIOVolumeSource";
  Imp "io_k8s_api_core_v1_scope_selector"
    "IoK8sApiCoreV1ScopeSelector";
  Imp "io_k8s_api_core_v1_scoped_resource_selector_requirement"
    "IoK8sApiCoreV1ScopedResourceSelectorRequirement";
  Imp "io_k8s_api_core_v1_seccomp_profile"
    "IoK8sApiCoreV1SeccompProfile";
  Imp "io_k8s_api_core_v1_secret"
    "IoK8sApiCoreV1Secret";
  Imp "io_k8s_api_core_v1_secret_env_source"
    "IoK8sApiCoreV1SecretEnvSource";
  Imp "io_k8s_api_core_v1_secret_key_selector"
    "IoK8sApiCoreV1SecretKeySelector";
  Imp "io_k8s_api_core_v1_secret_list"
    "IoK8sApiCoreV1SecretList";
  Imp "io_k8s_api_core_v1_secret_projection"
    "IoK8sApiCoreV1SecretProjection";
  Imp "io_k8s_api_core_v1_secret_reference"
    "IoK8sApiCoreV1SecretReference";
  Imp "io_k8s_api_core_v1_secret_volume_source"
    "IoK8sApiCoreV1SecretVolumeSource";
  Imp "io_k8s_api_core_v1_security_context"
    "IoK8sApiCoreV1SecurityContext";
  Imp "io_k8s_api_core_v1_serialized_reference"
    "IoK8sApiCoreV1SerializedReference";
  Imp "io_k8s_api_core_v1_service"
    "IoK8sApiCoreV1Service";
  Imp "io_k8s_api_core_v1_service_account"
    "IoK8sApiCoreV1ServiceAccount";
  Imp "io_k8s_api_core_v1_service_account_list"
    "IoK8sApiCoreV1ServiceAccountList";
  Imp "io_k8s_api_core_v1_service_account_token_projection"
    "IoK8sApiCoreV1ServiceAccountTokenProjection";
  Imp "io_k8s_api_core_v1_service_list"
    "IoK8sApiCoreV1ServiceList";
  Imp "io_k8s_api_core_v1_service_port"
    "IoK8sApiCoreV1ServicePort";
  Imp "io_k8s_api_core_v1_service_proxy_options"
    "IoK8sApiCoreV1ServiceProxyOptions";
  Imp "io_k8s_api_core_v1_service_spec"
    "IoK8sApiCoreV1ServiceSpec";
  Imp "io_k8s_api_core_v1_service_status"
    "IoK8sApiCoreV1ServiceStatus";
  Imp "io_k8s_api_core_v1_session_affinity_config"
    "IoK8sApiCoreV1SessionAffinityConfig";
  Imp "io_k8s_api_core_v1_sleep_action"
    "IoK8sApiCoreV1SleepAction";
  Imp "io_k8s_api_core_v1_storage_os_persistent_volume_source"
    "IoK8sApiCoreV1StorageOSPersistentVolumeSource";
  Imp "io_k8s_api_core_v1_storage_os_volume_source"
    "IoK8sApiCoreV1StorageOSVolumeSource";
  Imp "io_k8s_api_core_v1_sysctl"
    "IoK8sApiCoreV1Sysctl";
  Imp "io_k8s_api_core_v1_tcp_socket_action"
    "IoK8sApiCoreV1TCPSocketAction";
  Imp "io_k8s_api_core_v1_taint"
    "IoK8sApiCoreV1Taint";
  Imp "io_k8s_api_core_v1_toleration"
    "IoK8sApiCoreV1Toleration";
  Imp "io_k8s_api_core_v1_topology_selector_label_requirement"
    "IoK8sApiCoreV1TopologySelectorLabelRequirement";
  Imp "io_k8s_api_core_v1_topology_selector_term"
    "IoK8sApiCoreV1TopologySelectorTerm";
  Imp "io_k8s_api_core_v1_topology_spread_constraint"
    "IoK8sApiCoreV1TopologySpreadConstraint";
  Imp "io_k8s_api_core_v1_typed_local_object_reference"
    "IoK8sApiCoreV1TypedLocalObjectReference";
  Imp "io_k8s_api_core_v1_typed_object_reference"
    "IoK8sApiCoreV1TypedObjectReference";
  Imp "io_k8s_api_core_v1_volume"
    "IoK8sApiCoreV1Volume";
  Imp "io_k8s_api_core_v1_volume_device"
    "IoK8sApiCoreV1VolumeDevice";
  Imp "io_k8s_api_core_v1_volume_health_condition"
    "IoK8sApiCoreV1VolumeHealthCondition";
  Imp "io_k8s_api_core_v1_volume_health_status"
    "IoK8sApiCoreV1VolumeHealthStatus";
  Imp "io_k8s_api_core_v1_volume_mount"
    "IoK8sApiCoreV1VolumeMount";
  Imp "io_k8s_api_core_v1_volume_mount_status"
    "IoK8sApiCoreV1VolumeMountStatus";
  Imp "io_k8s_api_core_v1_volume_node_affinity"
    "IoK8sApiCoreV1VolumeNodeAffinity";
  Imp "io_k8s_api_core_v1_volume_projection"
    "IoK8sApiCoreV1VolumeProjection";
  Imp "io_k8s_api_core_v1_volume_resource_requirements"
    "IoK8sApiCoreV1VolumeResourceRequirements";
  Imp "io_k8s_api_core_v1_volume_source"
    "IoK8sApiCoreV1VolumeSource";
  Imp "io_k8s_api_core_v1_volume_status"
    "IoK8sApiCoreV1VolumeStatus";
  Imp "io_k8s_api_core_v1_vsphere_virtual_disk_volume_source"
    "IoK8sApiCoreV1VsphereVirtualDiskVolumeSource";
  Imp "io_k8s_api_core_v1_weighted_pod_affinity_term"
    "IoK8sApiCoreV1WeightedPodAffinityTerm";
  Imp "io_k8s_api_core_v1_windows_security_context_options"
    "IoK8sApiCoreV1WindowsSecurityContextOptions"].
Definition scheduling_imports : list Import := [
  Imp "io_k8s_api_scheduling_v1alpha3_composite_disruption_mode"
    "IoK8sApiSchedulingV1alpha3CompositeDisruptionMode";
  Imp "io_k8s_api_scheduling_v1alpha3_composite_gang_scheduling_policy"
    "IoK8sApiSchedulingV1alpha3CompositeGangSchedulingPolicy";
  Imp "io_k8s_api_scheduling_v1alpha3_composite_pod_group"
    "IoK8sApiSchedulingV1alpha3CompositePodGroup";
  Imp "io_k8s_api_scheduling_v1alpha3_composite_pod_group_list"
    "IoK8sApiSchedulingV1alpha3CompositePodGroupList";
  Imp "io_k8s_api_scheduling_v1alpha3_composite_pod_group_scheduling_constraints"
    "IoK8sApiSchedulingV1alpha3CompositePodGroupSchedulingConstraints";
  Imp "io_k8s_api_scheduling_v1alpha3_composite_pod_group_scheduling_policy"
    "IoK8sApiSchedulingV1alpha3CompositePodGroupSchedulingPolicy";
  Imp "io_k8s_api_scheduling_v1alpha3_composite_pod_group_spec"
    "IoK8sApiSchedulingV1alpha3CompositePodGroupSpec";
  Imp "io_k8s_api_scheduling_v1alpha3_composite_pod_group_status"
    "IoK8sApiSchedulingV1alpha3CompositePodGroupStatus";
  Imp "io_k8s_api_scheduling_v1alpha3_composite_pod_group_template"
    "IoK8sApiSchedulingV1alpha3CompositePodGroupTemplate";
  Imp "io_k8s_api_scheduling_v1alpha3_disruption_mode"
    "IoK8sApiSchedulingV1alpha3DisruptionMode";
  Imp "io_k8s_api_scheduling_v1alpha3_gang_scheduling_policy"
    "IoK8sApiSchedulingV1alpha3GangSchedulingPolicy";
  Imp "io_k8s_api_scheduling_v1alpha3_pod_group"
    "IoK8sApiSchedulingV1alpha3PodGroup";
  Imp "io_k8s_api_scheduling_v1alpha3_pod_group_list"
    "IoK8sApiSchedulingV1alpha3PodGroupList";
  Imp "io_k8s_api_scheduling_v1alpha3_pod_group_resource_claim"
    "IoK8sApiSchedulingV1alpha3PodGroupResourceClaim";
  Imp "io_k8s_api_scheduling_v1alpha3_pod_group_resource_claim_status"
    "IoK8sApiSchedulingV1alpha3PodGroupResourceClaimStatus";
  Imp "io_k8s_api_scheduling_v1alpha3_pod_group_scheduling_constraints"
    "IoK8sApiSchedulingV1alpha3PodGroupSchedulingConstraints";
  Imp "io_k8s_api_scheduling_v1alpha3_pod_group_scheduling_policy"
    "IoK8sApiSchedulingV1alpha3PodGroupSchedulingPolicy";
  Imp "io_k8s_api_scheduling_v1alpha3_pod_group_spec"
    "IoK8sApiSchedulingV1alpha3PodGroupSpec";
  Imp "io_k8s_api_scheduling_v1alpha3_pod_group_status"
    "IoK8sApiSchedulingV1alpha3PodGroupStatus";
  Imp "io_k8s_api_scheduling_v1alpha3_pod_group_template"
    "IoK8sApiSchedulingV1alpha3PodGroupTemplate";
  Imp "io_k8s_api_scheduling_v1alpha3_topology_constraint"
    "IoK8sApiSchedulingV1alpha3TopologyConstraint";
  Imp "io_k8s_api_scheduling_v1alpha3_typed_local_object_reference"
    "IoK8sApiSchedulingV1alpha3TypedLocalObjectReference";
  Imp "io_k8s_api_scheduling_v1alpha3_workload"
    "IoK8sApiSchedulingV1alpha3Workload";
  Imp "io_k8s_api_scheduling_v1alpha3_workload_composite_pod_group_disruption_mode"
    "IoK8sApiSchedulingV1alpha3WorkloadCompositePodGroupDisruptionMode";
  Imp "io_k8s_api_scheduling_v1alpha3_workload_composite_pod_group_gang_scheduling_policy"
    "IoK8sApiSchedulingV1alpha3WorkloadCompositePodGroupGangSchedulingPolicy";
  Imp "io_k8s_api_scheduling_v1alpha3_workload_composite_pod_group_scheduling_constraints"
    "IoK8sApiSchedulingV1alpha3WorkloadCompositePodGroupSchedulingConstraints";
  Imp "io_k8s_api_scheduling_v1alpha3_workload_composite_pod_group_scheduling_policy"
    "IoK8sApiSchedulingV1alpha3WorkloadCompositePodGroupSchedulingPolicy";
  Imp "io_k8s_api_scheduling_v1alpha3_workload_list"
    "IoK8sApiSchedulingV1alpha3WorkloadList";
  Imp "io_k8s_api_scheduling_v1alpha3_workload_pod_group_disruption_mode"
    "IoK8sApiSchedulingV1alpha3WorkloadPodGroupDisruptionMode";
  Imp "io_k8s_api_scheduling_v1alpha3_workload_pod_group_gang_scheduling_policy"
    "IoK8sApiSchedulingV1alpha3WorkloadPodGroupGangSchedulingPolicy";
  Imp "io_k8s_api_scheduling_v1alpha3_workload_pod_group_resource_claim"
    "IoK8sApiSchedulingV1alpha3WorkloadPodGroupResourceClaim";
  Imp "io_k8s_api_scheduling_v1alpha3_workload_pod_group_scheduling_constraints"
    "IoK8sApiSchedulingV1alpha3WorkloadPodGroupSchedulingConstraints";
  Imp "io_k8s_api_scheduling_v1alpha3_workload_pod_group_scheduling_policy"
    "IoK8sApiSchedulingV1alpha3WorkloadPodGroupSchedulingPolicy";
  Imp "io_k8s_api_scheduling_v1alpha3_workload_reference"
    "IoK8sApiSchedulingV1alpha3WorkloadReference";
  Imp "io_k8s_api_scheduling_v1alpha3_workload_spec"
    "IoK8sApiSchedulingV1alpha3WorkloadSpec"].
Definition apimachinery_imports : list Import := [
  Imp "io_k8s_apimachinery_pkg_api_resource_quantity"
    "IoK8sApimachineryPkgApiResourceQuantity";
  Imp "io_k8s_apimachinery_pkg_apis_meta_v1_api_group"
    "IoK8sApimachineryPkgApisMetaV1APIGroup";
  Imp "io_k8s_apimachinery_pkg_apis_meta_v1_api_group_list"
    "IoK8sApimachineryPkgApisMetaV1APIGroupList";
  Imp "io_k8s_apimachinery_pkg_apis_meta_v1_api_resource"
    "IoK8sApimachineryPkgApisMetaV1APIResource";
  Imp "io_k8s_apimachinery_pkg_apis_meta_v1_api_resource_list"
    "IoK8sApimachineryPkgApisMetaV1APIResourceList";
  Imp "io_k8s_apimachinery_pkg_apis_meta_v1_api_versions"
    "IoK8sApimachineryPkgApisMetaV1APIVersions";
  Imp "io_k8s_apimachinery_pkg_apis_meta_v1_apply_options"
    "IoK8sApimachineryPkgApisMetaV1ApplyOptions";
  Imp "io_k8s_apimachinery_pkg_apis_meta_v1_condition"
    "IoK8sApimachineryPkgApisMetaV1Condition";
  Imp "io_k8s_apimachinery_pkg_apis_meta_v1_create_options"
    "IoK8sApimachineryPkgApisMetaV1CreateOptions";
  Imp "io_k8s_apimachinery_pkg_apis_meta_v1_delete_options"
    "IoK8sApimachineryPkgApisMetaV1DeleteOptions";
  Imp "io_k8s_apimachinery_pkg_apis_meta_v1_field_selector_requirement"
    "IoK8sApimachineryPkgApisMetaV1FieldSelectorRequirement";
  Imp "io_k8s_apimachinery_pkg_apis_meta_v1_get_options"
    "IoK8sApimachineryPkgApisMetaV1GetOptions";
  Imp "io_k8s_apimachinery_pkg_apis_meta_v1_group_kind"
    "IoK8sApimachineryPkgApisMetaV1GroupKind";
  Imp "io_k8s_apimachinery_pkg_apis_meta_v1_group_resource"
    "IoK8sApimachineryPkgApisMetaV1GroupResource";
  Imp "io_k8s_apimachinery_pkg_apis_meta_v1_group_version"
    "IoK8sApimachineryPkgApisMetaV1GroupVersion";
  Imp "io_k8s_apimachinery_pkg_apis_meta_v1_group_version_for_discovery"
    "IoK8sApimachineryPkgApisMetaV1GroupVersionForDiscovery";
  Imp "io_k8s_apimachinery_pkg_apis_meta_v1_group_version_kind"
    "IoK8sApimachineryPkgApisMetaV1GroupVersionKind";
  Imp "io_k8s_apimachinery_pkg_apis_meta_v1_group_version_resource"
    "IoK8sApimachineryPkgApisMetaV1GroupVersionResource";
  Imp "io_k8s_apimachinery_pkg_apis_meta_v1_internal_event"
    "IoK8sApimachineryPkgApisMetaV1InternalEvent";
  Imp "io_k8s_apimachinery_pkg_apis_meta_v1_label_selector"
    "IoK8sApimachineryPkgApisMetaV1LabelSelector";
  Imp "io_k8s_apimachinery_pkg_apis_meta_v1_label_selector_requirement"
    "IoK8sApimachineryPkgApisMetaV1LabelSelectorRequirement";
  Imp "io_k8s_apimachinery_pkg_apis_meta_v1_list"
    "IoK8sApimachineryPkgApisMetaV1List";
  Imp "io_k8s_apimachinery_pkg_apis_meta_v1_list_meta"
    "IoK8sApimachineryPkgApisMetaV1ListMeta";
  Imp "io_k8s_apimachinery_pkg_apis_meta_v1_list_options"
    "IoK8sApimachineryPkgApisMetaV1ListOptions";
  Imp "io_k8s_apimachinery_pkg_apis_meta_v1_managed_fields_entry"
    "IoK8sApimachineryPkgApisMetaV1ManagedFieldsEntry";
  Imp "io_k8s_apimachinery_pkg_apis_meta_v1_object_meta"
    "IoK8sApimachineryPkgApisMetaV1ObjectMeta";
  Imp "io_k8s_apimachinery_pkg_apis_meta_v1_owner_reference"
    "IoK8sApimachineryPkgApisMetaV1OwnerReference";
  Imp "io_k8s_apimachinery_pkg_apis_meta_v1_partial_object_metadata"
    "IoK8sApimachineryPkgApisMetaV1PartialObjectMetadata";
  Imp "io_k8s_apimachinery_pkg_apis_meta_v1_partial_object_metadata_list"
    "IoK8sApimachineryPkgApisMetaV1PartialObjectMetadataList";
  Imp "io_k8s_apimachinery_pkg_apis_meta_v1_patch_options"
    "IoK8sApimachineryPkgApisMetaV1PatchOptions";
  Imp "io_k8s_apimachinery_pkg_apis_meta_v1_preconditions"
    "IoK8sApimachineryPkgApisMetaV1Preconditions";
  Imp "io_k8s_apimachinery_pkg_apis_meta_v1_root_paths"
    "IoK8sApimachineryPkgApisMetaV1RootPaths";
  Imp "io_k8s_apimachinery_pkg_apis_meta_v1_server_address_by_client_cidr"
    "IoK8sApimachineryPkgApisMetaV1ServerAddressByClientCIDR";
  Imp "io_k8s_apimachinery_pkg_apis_meta_v1_shard_info"
    "IoK8sApimachineryPkgApisMetaV1ShardInfo";
  Imp "io_k8s_apimachinery_pkg_apis_meta_v1_status"
    "IoK8sApimachineryPkgApisMetaV1Status";
  Imp "io_k8s_apimachinery_pkg_apis_meta_v1_status_cause"
    "IoK8sApimachineryPkgApisMetaV1StatusCause";
  Imp "io_k8s_apimachinery_pkg_apis_meta_v1_status_details"
    "IoK8sApimachineryPkgApisMetaV1StatusDetails";
  Imp "io_k8s_apimachinery_pkg_apis_meta_v1_table"
    "IoK8sApimachineryPkgApisMetaV1Table";
  Imp "io_k8s_apimachinery_pkg_apis_meta_v1_table_column_definition"
    "IoK8sApimachineryPkgApisMetaV1TableColumnDefinition";
  Imp "io_k8s_apimachinery_pkg_apis_meta_v1_table_options"
    "IoK8sApimachineryPkgApisMetaV1TableOptions";
  Imp "io_k8s_apimachinery_pkg_apis_meta_v1_table_row"
    "IoK8sApimachineryPkgApisMetaV1TableRow";
  Imp "io_k8s_apimachinery_pkg_apis_meta_v1_table_row_condition"
    "IoK8sApimachineryPkgApisMetaV1TableRowCondition";
  Imp "io_k8s_apimachinery_pkg_apis_meta_v1_timestamp"
    "IoK8sApimachineryPkgApisMetaV1Timestamp";
  Imp "io_k8s_apimachinery_pkg_apis_meta_v1_type_meta"
    "IoK8sApimachineryPkgApisMetaV1TypeMeta";
  Imp "io_k8s_apimachinery_pkg_apis_meta_v1_update_options"
    "IoK8sApimachineryPkgApisMetaV1UpdateOptions";
  Imp "io_k8s_apimachinery_pkg_apis_meta_v1_watch_event"
    "IoK8sApimachineryPkgApisMetaV1WatchEvent";
  Imp "io_k8s_apimachinery_pkg_runtime_type_meta"
    "IoK8sApimachineryPkgRuntimeTypeMeta";
  Imp "io_k8s_apimachinery_pkg_runtime_unknown"
    "IoK8sApimachineryPkgRuntimeUnknown";
  Imp "io_k8s_apimachinery_pkg_util_intstr_int_or_string"
    "IoK8sApimachineryPkgUtilIntstrIntOrString"].
Definition jobset_imports : list Import := [
  Imp "jobset_v1alpha2_coordinator"
    "JobsetV1alpha2Coordinator";
  Imp "jobset_v1alpha2_depends_on"
    "JobsetV1alpha2DependsOn";
  Imp "jobset_v1alpha2_failure_policy"
    "JobsetV1alpha2FailurePolicy";
  Imp "jobset_v1alpha2_failure_policy_rule"
    "JobsetV1alpha2FailurePolicyRule";
  Imp "jobset_v1alpha2_job_scheduling"
    "JobsetV1alpha2JobScheduling";
  Imp "jobset_v1alpha2_job_set"
    "JobsetV1alpha2JobSet";
  Imp "jobset_v1alpha2_job_set_list"
    "JobsetV1alpha2JobSetList";
  Imp "jobset_v1alpha2_job_set_scheduling"
    "JobsetV1alpha2JobSetScheduling";
  Imp "jobset_v1alpha2_job_set_spec"
    "JobsetV1alpha2JobSetSpec";
  Imp "jobset_v1alpha2_job_set_status"
    "JobsetV1alpha2JobSetStatus";
  Imp "jobset_v1alpha2_network"
    "JobsetV1alpha2Network";
  Imp "jobset_v1alpha2_replicated_job"
    "JobsetV1alpha2ReplicatedJob";
  Imp "jobset_v1alpha2_replicated_job_scheduling"
    "JobsetV1alpha2ReplicatedJobScheduling";
  Imp "jobset_v1alpha2_replicated_job_status"
    "JobsetV1alpha2ReplicatedJobStatus";
  Imp "jobset_v1alpha2_startup_policy"
    "JobsetV1alpha2StartupPolicy";
  Imp "jobset_v1alpha2_success_policy"
    "JobsetV1alpha2SuccessPolicy";
  Imp "jobset_v1alpha2_volume_claim_policy"
    "JobsetV1alpha2VolumeClaimPolicy";
  Imp "jobset_v1alpha2_volume_retention_policy"
    "JobsetV1alpha2VolumeRetentionPolicy";
  Imp "scheduling_v1beta1_network_topology_spec"
    "SchedulingV1beta1NetworkTopologySpec"].
Definition trainer_imports : list Import := [
  Imp "trainer_v1alpha1_categorical_space"
    "TrainerV1alpha1CategoricalSpace";
  Imp "trainer_v1alpha1_cluster_training_runtime"
    "TrainerV1alpha1ClusterTrainingRuntime";
  Imp "trainer_v1alpha1_cluster_training_runtime_list"
    "TrainerV1alpha1ClusterTrainingRuntimeList";
  Imp "trainer_v1alpha1_container_patch"
    "TrainerV1alpha1ContainerPatch";
  Imp "trainer_v1alpha1_coscheduling_pod_group_policy_source"
    "TrainerV1alpha1CoschedulingPodGroupPolicySource";
  Imp "trainer_v1alpha1_dataset_initializer"
    "TrainerV1alpha1DatasetInitializer";
  Imp "trainer_v1alpha1_env_injection"
    "TrainerV1alpha1EnvInjection";
  Imp "trainer_v1alpha1_env_injection_target"
    "TrainerV1alpha1EnvInjectionTarget";
  Imp "trainer_v1alpha1_flux_ml_policy_source"
    "TrainerV1alpha1FluxMLPolicySource";
  Imp "trainer_v1alpha1_initializer"
    "TrainerV1alpha1Initializer";
  Imp "trainer_v1alpha1_job_set_spec_patch"
    "TrainerV1alpha1JobSetSpecPatch";
  Imp "trainer_v1alpha1_job_set_template_patch"
    "TrainerV1alpha1JobSetTemplatePatch";
  Imp "trainer_v1alpha1_job_set_template_spec"
    "TrainerV1alpha1JobSetTemplateSpec";
  Imp "trainer_v1alpha1_job_spec_patch"
    "TrainerV1alpha1JobSpecPatch";
  Imp "trainer_v1alpha1_job_status"
    "TrainerV1alpha1JobStatus";
  Imp "trainer_v1alpha1_job_template_patch"
    "TrainerV1alpha1JobTemplatePatch";
  Imp "trainer_v1alpha1_log_uniform_space"
    "TrainerV1alpha1LogUniformSpace";
  Imp "trainer_v1alpha1_ml_policy"
    "TrainerV1alpha1MLPolicy";
  Imp "trainer_v1alpha1_ml_policy_source"
    "TrainerV1alpha1MLPolicySource";
  Imp "trainer_v1alpha1_mpiml_policy_source"
    "TrainerV1alpha1MPIMLPolicySource";
  Imp "trainer_v1alpha1_metric"
    "TrainerV1alpha1Metric";
  Imp "trainer_v1alpha1_model_initializer"
    "TrainerV1alpha1ModelInitializer";
  Imp "trainer_v1alpha1_objective"
    "TrainerV1alpha1Objective";
  Imp "trainer_v1alpha1_optimization_job"
    "TrainerV1alpha1OptimizationJob";
  Imp "trainer_v1alpha1_optimization_job_list"
    "TrainerV1alpha1OptimizationJobList";
  Imp "trainer_v1alpha1_optimization_job_spec"
    "TrainerV1alpha1OptimizationJobSpec";
  Imp "trainer_v1alpha1_optimization_job_status"
    "TrainerV1alpha1OptimizationJobStatus";
  Imp "trainer_v1alpha1_parameter"
    "TrainerV1alpha1Parameter";
  Imp "trainer_v1alpha1_parameter_assignment"
    "TrainerV1alpha1ParameterAssignment";
  Imp "trainer_v1alpha1_pod_group_policy"
    "TrainerV1alpha1PodGroupPolicy";
  Imp "trainer_v1alpha1_pod_group_policy_source"
    "TrainerV1alpha1PodGroupPolicySource";
  Imp "trainer_v1alpha1_pod_spec_patch"
    "TrainerV1alpha1PodSpecPatch";
  Imp "trainer_v1alpha1_pod_template_patch"
    "TrainerV1alpha1PodTemplatePatch";
  Imp "trainer_v1alpha1_random_algorithm"
    "TrainerV1alpha1RandomAlgorithm";
  Imp "trainer_v1alpha1_replicated_job_patch"
    "TrainerV1alpha1ReplicatedJobPatch";
  Imp "trainer_v1alpha1_result"
    "TrainerV1alpha1Result";
  Imp "trainer_v1alpha1_runtime_patch"
    "TrainerV1alpha1RuntimePatch";
  Imp "trainer_v1alpha1_runtime_ref"
    "TrainerV1alpha1RuntimeRef";
  Imp "trainer_v1alpha1_search_algorithm"
    "TrainerV1alpha1SearchAlgorithm";
  Imp "trainer_v1alpha1_search_space"
    "TrainerV1alpha1SearchSpace";
  Imp "trainer_v1alpha1_torch_ml_policy_source"
    "TrainerV1alpha1TorchMLPolicySource";
  Imp "trainer_v1alpha1_train_job"
    "TrainerV1alpha1TrainJob";
  Imp "trainer_v1alpha1_train_job_list"
    "TrainerV1alpha1TrainJobList";
  Imp "trainer_v1alpha1_train_job_spec"
    "TrainerV1alpha1TrainJobSpec";
  Imp "trainer_v1alpha1_train_job_status"
    "TrainerV1alpha1TrainJobStatus";
  Imp "trainer_v1alpha1_train_job_template_spec"
    "TrainerV1alpha1TrainJobTemplateSpec";
  Imp "trainer_v1alpha1_trainer"
    "TrainerV1alpha1Trainer";
  Imp "trainer_v1alpha1_trainer_resource_claim"
    "TrainerV1alpha1TrainerResourceClaim";
  Imp "trainer_v1alpha1_trainer_status"
    "TrainerV1alpha1TrainerStatus";
  Imp "trainer_v1alpha1_training_runtime"
    "TrainerV1alpha1TrainingRuntime";
  Imp "trainer_v1alpha1_training_runtime_list"
    "TrainerV1alpha1TrainingRuntimeList";
  Imp "trainer_v1alpha1_training_runtime_spec"
    "TrainerV1alpha1TrainingRuntimeSpec";
  Imp "trainer_v1alpha1_training_runtime_spec_patch"
    "TrainerV1alpha1TrainingRuntimeSpecPatch";
  Imp "trainer_v1alpha1_uniform_space"
    "TrainerV1alpha1UniformSpace";
  Imp "trainer_v1alpha1_update_train_job_status_request"
    "TrainerV1alpha1UpdateTrainJobStatusRequest";
  Imp "trainer_v1alpha1_volcano_pod_group_policy_source"
    "TrainerV1alpha1VolcanoPodGroupPolicySource"].

Definition models_imports : list Import :=
  autoscaling_imports ++ batch_imports ++ core_imports_1 ++ core_imports_2 ++ scheduling_imports ++ apimachinery_imports ++ jobset_imports ++ trainer_imports.

(** The names bound by the imports, each to the module its class is from; a later
    import of the same name would replace an earlier one. *)
Definition run_imports (l : list Import) : gmap string string :=
  foldl (fun ns i => <[i_name i := i_module i]> ns) ∅ l.
Definition models_namespace : gmap string string := run_imports models_imports.
Definition exported (name : string) : Prop := is_Some (models_namespace !! name).

(** ** The classes *)

Fixpoint ann_refs (a : ann) : list string :=
  match a with
  | Union a b => ann_refs a ++ ann_refs b
  | Optional a | List a | Dict a => ann_refs a
  | Model s => [s_name s]
  | _ => []
  end.
(** The classes that the fields of a class refer to. *)
Definition schema_refs (s : Schema) : list string := flat_map (fun f => ann_refs (f_ann f)) (s_fields s).

Definition class_names `{Pydantic} (depth : nat) : list string :=
  (fun m => s_name (m_schema m)) <$> all_models depth.

(** The name of a module is that of its class in lower case, with underscores. *)
Definition names_module (name module : string) : bool :=
  String.eqb (lower name) (str_filter (fun c => negb (ch_eqb c "_"%char)) module).

(** The classes whose modules nothing imports into the package. *)
Definition left_over : list string := [
  "IoK8sApiCoreV1PodStatusResult"; "IoK8sApiCoreV1WorkloadReference"; "TrainerV1alpha1Algorithm";
  "TrainerV1alpha1BayesianAlgorithm"; "TrainerV1alpha1BestTrial"; "TrainerV1alpha1CustomAlgorithm";
  "TrainerV1alpha1EarlyStopping"; "TrainerV1alpha1IntSpace"; "TrainerV1alpha1LogNormalSpace";
  "TrainerV1alpha1NormalSpace"; "TrainerV1alpha1OptimizationStorage"; "TrainerV1alpha1SettingKV";
  "TrainerV1alpha1TPEAlgorithm"; "TrainerV1alpha1TrialConfig"].

(** ** Lookup in the namespace *)

(** The module of a name, by going through the imports. *)
Fixpoint find_import (l : list Import) (name : string) : option string :=
  match l with
  | [] => None
  | i :: l' => if String.eqb (i_name i) name then Some (i_module i) else find_import l' name
  end.

Lemma find_import_None l name : name ∉ i_name <$> l → find_import l name = None.
Proof.
  induction l as [|i l IH]; [done|]. rewrite fmap_cons. intros [Hi Hl]%not_elem_of_cons. cbn.
  rewrite (proj2 (String.eqb_neq _ _)) by done. by apply IH.
Qed.

Lemma find_import_elem l name module :
  find_import l name = Some module → ∃ i, i ∈ l ∧ i_name i = name.
Proof.
  induction l as [|i l IH]; [done|]. cbn. destruct (String.eqb_spec (i_name i) name) as [<-|_].
  - intros _. exists i. set_solver.
  - intros (j & Hj & <-)%IH. exists j. set_solver.
Qed.

Lemma run_imports_lookup l name :
  NoDup (i_name <$> l) → run_imports l !! name = find_import l name.
Proof.
  unfold run_imports. intros Hl.
  cut (∀ ns : gmap string string,
    foldl (fun ns i => <[i_name i := i_module i]> ns) ns l !! name =
    match find_import l name with Some m => Some m | None => ns !! name end).
  { intros Hc. rewrite Hc, lookup_empty. by destruct (find_import l name). }
  induction l as [|i l IH]; intros ns; [done|]. rewrite fmap_cons in Hl. apply NoDup_cons in Hl as [Hi Hl].
  cbn. rewrite (IH Hl). destruct (String.eqb_spec (i_name i) name) as [<-|Hn].
  - by rewrite find_import_None, lookup_insert_eq.
  - destruct (find_import l name); [done|]. by rewrite lookup_insert_ne.
Qed.

(** A quick check of distinctness. *)
Fixpoint no_repeat (l : list string) : bool :=
  match l with
  | [] => true
  | x :: l' => negb (existsb (String.eqb x) l') && no_repeat l'
  end.
Lemma no_repeat_NoDup l : no_repeat l = true → NoDup l.
Proof.
  induction l as [|x l IH]; [constructor|]. cbn. intros [Hx%negb_true_iff Hl]%andb_true_iff.
  apply NoDup_cons. split; [|by apply IH]. intros Hin. apply not_true_iff_false in Hx. apply Hx.
  apply existsb_exists. exists x. split; [by apply list_elem_of_In|apply String.eqb_refl].
Qed.

Lemma imports_distinct : NoDup (i_name <$> models_imports).
Proof. apply no_repeat_NoDup. vm_compute. reflexivity. Qed.

(** ** The classes and the namespace *)

(** A class is exported from its own module, with all the classes it refers to, or
    is left over. *)
Definition well_exported (m : ApiModel) : bool :=
  let name := s_name (m_schema m) in
  match find_import models_imports name with
  | Some module =>
      names_module name module && negb (bool_decide (name ∈ left_over)) &&
      forallb (fun r => bool_decide (is_Some (find_import models_imports r))) (schema_refs (m_schema m))
  | None => bool_decide (name ∈ left_over)
  end.

Lemma all_well_exported `{Pydantic} depth m : m ∈ all_models depth → well_exported m = true.
Proof.
  assert (forallb well_exported (all_models depth) = true) as Hall by (destruct depth; vm_compute; reflexivity).
  rewrite forallb_forall in Hall. intros Hm. by apply Hall, list_elem_of_In.
Qed.

Lemma class_names_distinct `{Pydantic} depth : NoDup (class_names depth).
Proof. apply no_repeat_NoDup. destruct depth; vm_compute; reflexivity. Qed.

Definition names_in (names : list string) (l : list Import) : bool :=
  forallb (fun i => existsb (String.eqb (i_name i)) names) l.
Lemma imports_are_classes `{Pydantic} depth i : i ∈ models_imports → i_name i ∈ class_names depth.
Proof.
  assert (names_in (class_names depth) models_imports = true) as Hall
    by (destruct depth; vm_compute; reflexivity).
  unfold names_in in Hall. rewrite forallb_forall in Hall. intros Hi%list_elem_of_In%Hall.
  apply existsb_exists in Hi as (n & Hn & ->%String.eqb_eq). by apply list_elem_of_In.
Qed.

(** C33. The package exports: no import hides another; the names that can be
    imported are exactly the modelled classes, each from the module named after
    it, except for fourteen classes whose modules are in the package and which it
    does not import. The exports are closed: every class that an exported class
    refers to is exported too, so that none of the fourteen is part of a document
    of the others. *)
Theorem models_exports `{Pydantic} depth :
  NoDup (class_names depth) ∧
  (∀ name, exported name ↔ name ∈ class_names depth ∧ name ∉ left_over) ∧
  (∀ name module, models_namespace !! name = Some module → names_module name module = true) ∧
  (∀ m, m ∈ all_models depth → exported (s_name (m_schema m)) →
        Forall exported (schema_refs (m_schema m))).
Proof.
  assert (∀ name, models_namespace !! name = find_import models_imports name) as Hns
    by (intros name; apply run_imports_lookup, imports_distinct).
  assert (∀ name, exported name → name ∈ class_names depth) as Hexp.
  { intros name. unfold exported. rewrite Hns. intros [module Hm].
    destruct (find_import_elem _ _ _ Hm) as (i & Hi & <-). by apply imports_are_classes. }
  assert (∀ name, name ∈ class_names depth → ∃ m, m ∈ all_models depth ∧ name = s_name (m_schema m)) as Hin.
  { intros name (m & -> & Hm)%list_elem_of_fmap_1. by exists m. }
  split_and!; [apply class_names_distinct|..].
  - intros name. split.
    + intros He. split; [by apply Hexp|]. destruct (Hin name (Hexp _ He)) as (m & Hm%all_well_exported & ->).
      unfold exported in He. rewrite Hns in He. destruct He as [module He]. unfold well_exported in Hm.
      rewrite He in Hm. apply andb_true_iff in Hm as [[_ Hm]%andb_true_iff _].
      by apply negb_true_iff, bool_decide_eq_false in Hm.
    + intros [(m & Hm%all_well_exported & ->)%Hin Hl]. unfold exported. rewrite Hns. unfold well_exported in Hm.
      destruct (find_import _ _); [by eexists|]. by apply bool_decide_eq_true in Hm.
  - intros name module Hm.
    destruct (Hin name (Hexp name (mk_is_Some _ _ Hm))) as (m & Hw%all_well_exported & ->).
    unfold well_exported in Hw. rewrite <- Hns, Hm in Hw.
    by apply andb_true_iff in Hw as [[Hw _]%andb_true_iff _].
  - intros m Hm%all_well_exported [module He]. unfold well_exported in Hm. rewrite <- Hns, He in Hm.
    apply andb_true_iff in Hm as [_ Hm]. rewrite forallb_forall in Hm. apply Forall_forall.
    intros r Hr%list_elem_of_In%Hm. unfold exported. rewrite Hns. by apply bool_decide_eq_true in Hr.
Qed.
