(* ===== verification/ApiOpenApi.v ===== *)
(** * The API models against the OpenAPI specification

    Every definition of the specification that has a class is represented by it
    ([Represents]), checked class by class; what follows for the documents that
    are valid by the specification. *)

From S2P Require Import Prelude PyStr PyValue Json JsonSpec Pydantic OpenApi OpenApiData Documents PydanticSpec PydanticDocs PydanticRef OneOf OpenApiSpec.
From S2P Require Import ApiMeta ApiCore ApiJobSet ApiTrainer ApiMetaMore ApiCoreMore ApiWorkloads ApiRecursive ApiSpec ApiDocs Exports.
Local Open Scope string_scope.
Local Open Scope bool_scope.
Local Open Scope list_scope.

(** ** Definitions without a class *)

Lemma io_k8s_api_scheduling_v1alpha3_AllCompositeDisruptionMode_represents `{Pydantic} b :
  Represents b (TRef "io.k8s.api.scheduling.v1alpha3.AllCompositeDisruptionMode") (Dict AnyValue).
Proof. apply (represents_alias b _ TObject); vm_compute; reflexivity. Qed.
#[export] Hint Resolve io_k8s_api_scheduling_v1alpha3_AllCompositeDisruptionMode_represents : represents.
Lemma io_k8s_api_scheduling_v1alpha3_AllDisruptionMode_represents `{Pydantic} b :
  Represents b (TRef "io.k8s.api.scheduling.v1alpha3.AllDisruptionMode") (Dict AnyValue).
Proof. apply (represents_alias b _ TObject); vm_compute; reflexivity. Qed.
#[export] Hint Resolve io_k8s_api_scheduling_v1alpha3_AllDisruptionMode_represents : represents.
Lemma io_k8s_api_scheduling_v1alpha3_BasicSchedulingPolicy_represents `{Pydantic} b :
  Represents b (TRef "io.k8s.api.scheduling.v1alpha3.BasicSchedulingPolicy") (Dict AnyValue).
Proof. apply (represents_alias b _ TObject); vm_compute; reflexivity. Qed.
#[export] Hint Resolve io_k8s_api_scheduling_v1alpha3_BasicSchedulingPolicy_represents : represents.
Lemma io_k8s_api_scheduling_v1alpha3_CompositeBasicSchedulingPolicy_represents `{Pydantic} b :
  Represents b (TRef "io.k8s.api.scheduling.v1alpha3.CompositeBasicSchedulingPolicy") (Dict AnyValue).
Proof. apply (represents_alias b _ TObject); vm_compute; reflexivity. Qed.
#[export] Hint Resolve io_k8s_api_scheduling_v1alpha3_CompositeBasicSchedulingPolicy_represents : represents.
Lemma io_k8s_api_scheduling_v1alpha3_SingleCompositeDisruptionMode_represents `{Pydantic} b :
  Represents b (TRef "io.k8s.api.scheduling.v1alpha3.SingleCompositeDisruptionMode") (Dict AnyValue).
Proof. apply (represents_alias b _ TObject); vm_compute; reflexivity. Qed.
#[export] Hint Resolve io_k8s_api_scheduling_v1alpha3_SingleCompositeDisruptionMode_represents : represents.
Lemma io_k8s_api_scheduling_v1alpha3_SingleDisruptionMode_represents `{Pydantic} b :
  Represents b (TRef "io.k8s.api.scheduling.v1alpha3.SingleDisruptionMode") (Dict AnyValue).
Proof. apply (represents_alias b _ TObject); vm_compute; reflexivity. Qed.
#[export] Hint Resolve io_k8s_api_scheduling_v1alpha3_SingleDisruptionMode_represents : represents.
Lemma io_k8s_api_scheduling_v1alpha3_WorkloadCompositePodGroupAllDisruptionMode_represents `{Pydantic} b :
  Represents b (TRef "io.k8s.api.scheduling.v1alpha3.WorkloadCompositePodGroupAllDisruptionMode") (Dict AnyValue).
Proof. apply (represents_alias b _ TObject); vm_compute; reflexivity. Qed.
#[export] Hint Resolve io_k8s_api_scheduling_v1alpha3_WorkloadCompositePodGroupAllDisruptionMode_represents : represents.
Lemma io_k8s_api_scheduling_v1alpha3_WorkloadCompositePodGroupBasicSchedulingPolicy_represents `{Pydantic} b :
  Represents b (TRef "io.k8s.api.scheduling.v1alpha3.WorkloadCompositePodGroupBasicSchedulingPolicy") (Dict AnyValue).
Proof. apply (represents_alias b _ TObject); vm_compute; reflexivity. Qed.
#[export] Hint Resolve io_k8s_api_scheduling_v1alpha3_WorkloadCompositePodGroupBasicSchedulingPolicy_represents : represents.
Lemma io_k8s_api_scheduling_v1alpha3_WorkloadCompositePodGroupSingleDisruptionMode_represents `{Pydantic} b :
  Represents b (TRef "io.k8s.api.scheduling.v1alpha3.WorkloadCompositePodGroupSingleDisruptionMode") (Dict AnyValue).
Proof. apply (represents_alias b _ TObject); vm_compute; reflexivity. Qed.
#[export] Hint Resolve io_k8s_api_scheduling_v1alpha3_WorkloadCompositePodGroupSingleDisruptionMode_represents : represents.
Lemma io_k8s_api_scheduling_v1alpha3_WorkloadPodGroupAllDisruptionMode_represents `{Pydantic} b :
  Represents b (TRef "io.k8s.api.scheduling.v1alpha3.WorkloadPodGroupAllDisruptionMode") (Dict AnyValue).
Proof. apply (represents_alias b _ TObject); vm_compute; reflexivity. Qed.
#[export] Hint Resolve io_k8s_api_scheduling_v1alpha3_WorkloadPodGroupAllDisruptionMode_represents : represents.
Lemma io_k8s_api_scheduling_v1alpha3_WorkloadPodGroupBasicSchedulingPolicy_represents `{Pydantic} b :
  Represents b (TRef "io.k8s.api.scheduling.v1alpha3.WorkloadPodGroupBasicSchedulingPolicy") (Dict AnyValue).
Proof. apply (represents_alias b _ TObject); vm_compute; reflexivity. Qed.
#[export] Hint Resolve io_k8s_api_scheduling_v1alpha3_WorkloadPodGroupBasicSchedulingPolicy_represents : represents.
Lemma io_k8s_api_scheduling_v1alpha3_WorkloadPodGroupSingleDisruptionMode_represents `{Pydantic} b :
  Represents b (TRef "io.k8s.api.scheduling.v1alpha3.WorkloadPodGroupSingleDisruptionMode") (Dict AnyValue).
Proof. apply (represents_alias b _ TObject); vm_compute; reflexivity. Qed.
#[export] Hint Resolve io_k8s_api_scheduling_v1alpha3_WorkloadPodGroupSingleDisruptionMode_represents : represents.
Lemma io_k8s_apimachinery_pkg_apis_meta_v1_Duration_represents `{Pydantic} b :
  Represents b (TRef "io.k8s.apimachinery.pkg.apis.meta.v1.Duration") StrictStr.
Proof. apply (represents_alias b _ TString); vm_compute; reflexivity. Qed.
#[export] Hint Resolve io_k8s_apimachinery_pkg_apis_meta_v1_Duration_represents : represents.
Lemma io_k8s_apimachinery_pkg_apis_meta_v1_FieldsV1_represents `{Pydantic} b :
  Represents b (TRef "io.k8s.apimachinery.pkg.apis.meta.v1.FieldsV1") (Dict AnyValue).
Proof. apply (represents_alias b _ TObject); vm_compute; reflexivity. Qed.
#[export] Hint Resolve io_k8s_apimachinery_pkg_apis_meta_v1_FieldsV1_represents : represents.
Lemma io_k8s_apimachinery_pkg_apis_meta_v1_MicroTime_represents `{Pydantic} b :
  Represents b (TRef "io.k8s.apimachinery.pkg.apis.meta.v1.MicroTime") Datetime.
Proof. apply (represents_alias b _ TDateTime); vm_compute; reflexivity. Qed.
#[export] Hint Resolve io_k8s_apimachinery_pkg_apis_meta_v1_MicroTime_represents : represents.
Lemma io_k8s_apimachinery_pkg_apis_meta_v1_Patch_represents `{Pydantic} b :
  Represents b (TRef "io.k8s.apimachinery.pkg.apis.meta.v1.Patch") (Dict AnyValue).
Proof. apply (represents_alias b _ TObject); vm_compute; reflexivity. Qed.
#[export] Hint Resolve io_k8s_apimachinery_pkg_apis_meta_v1_Patch_represents : represents.
Lemma io_k8s_apimachinery_pkg_apis_meta_v1_Time_represents `{Pydantic} b :
  Represents b (TRef "io.k8s.apimachinery.pkg.apis.meta.v1.Time") Datetime.
Proof. apply (represents_alias b _ TDateTime); vm_compute; reflexivity. Qed.
#[export] Hint Resolve io_k8s_apimachinery_pkg_apis_meta_v1_Time_represents : represents.
Lemma io_k8s_apimachinery_pkg_runtime_RawExtension_represents `{Pydantic} b :
  Represents b (TRef "io.k8s.apimachinery.pkg.runtime.RawExtension") (Dict AnyValue).
Proof. apply (represents_alias b _ TObject); vm_compute; reflexivity. Qed.
#[export] Hint Resolve io_k8s_apimachinery_pkg_runtime_RawExtension_represents : represents.
Lemma trainer_v1alpha1_GridAlgorithm_represents `{Pydantic} b :
  Represents b (TRef "trainer.v1alpha1.GridAlgorithm") (Dict AnyValue).
Proof. apply (represents_alias b _ TObject); vm_compute; reflexivity. Qed.
#[export] Hint Resolve trainer_v1alpha1_GridAlgorithm_represents : represents.
Lemma trainer_v1alpha1_JAXMLPolicySource_represents `{Pydantic} b :
  Represents b (TRef "trainer.v1alpha1.JAXMLPolicySource") (Dict AnyValue).
Proof. apply (represents_alias b _ TObject); vm_compute; reflexivity. Qed.
#[export] Hint Resolve trainer_v1alpha1_JAXMLPolicySource_represents : represents.
Lemma trainer_v1alpha1_XGBoostMLPolicySource_represents `{Pydantic} b :
  Represents b (TRef "trainer.v1alpha1.XGBoostMLPolicySource") (Dict AnyValue).
Proof. apply (represents_alias b _ TObject); vm_compute; reflexivity. Qed.
#[export] Hint Resolve trainer_v1alpha1_XGBoostMLPolicySource_represents : represents.

(** ** Classes *)

Lemma IoK8sApimachineryPkgUtilIntstrIntOrString_represents `{Pydantic} b :
  Represents b (TRef "io.k8s.apimachinery.pkg.util.intstr.IntOrString") (Model IoK8sApimachineryPkgUtilIntstrIntOrString.schema).
Proof.
  apply (represents_oneof b _ TInteger TString); [vm_compute; reflexivity|set_solver|reflexivity|reflexivity].
Qed.
#[export] Hint Resolve IoK8sApimachineryPkgUtilIntstrIntOrString_represents : represents.
Lemma IoK8sApimachineryPkgApiResourceQuantity_represents `{Pydantic} b :
  Represents b (TRef "io.k8s.apimachinery.pkg.api.resource.Quantity") (Model IoK8sApimachineryPkgApiResourceQuantity.schema).
Proof.
  apply (represents_oneof b _ TString TNumber); [vm_compute; reflexivity|set_solver|reflexivity|reflexivity].
Qed.
#[export] Hint Resolve IoK8sApimachineryPkgApiResourceQuantity_represents : represents.
Lemma IoK8sApimachineryPkgApisMetaV1ManagedFieldsEntry_represents `{Pydantic} b :
  Represents b (TRef "io.k8s.apimachinery.pkg.apis.meta.v1.ManagedFieldsEntry")
    (Model IoK8sApimachineryPkgApisMetaV1ManagedFieldsEntry.schema).
Proof. solve_represents io_k8s_apimachinery_pkg_apis_meta_v1_ManagedFieldsEntry. Qed.
#[export] Hint Resolve IoK8sApimachineryPkgApisMetaV1ManagedFieldsEntry_represents : represents.
Lemma IoK8sApimachineryPkgApisMetaV1OwnerReference_represents `{Pydantic} b :
  Represents b (TRef "io.k8s.apimachinery.pkg.apis.meta.v1.OwnerReference")
    (Model IoK8sApimachineryPkgApisMetaV1OwnerReference.schema).
Proof. solve_represents io_k8s_apimachinery_pkg_apis_meta_v1_OwnerReference. Qed.
#[export] Hint Resolve IoK8sApimachineryPkgApisMetaV1OwnerReference_represents : represents.
Lemma IoK8sApimachineryPkgApisMetaV1ObjectMeta_represents `{Pydantic} b :
  Represents b (TRef "io.k8s.apimachinery.pkg.apis.meta.v1.ObjectMeta")
    (Model IoK8sApimachineryPkgApisMetaV1ObjectMeta.schema).
Proof. solve_represents io_k8s_apimachinery_pkg_apis_meta_v1_ObjectMeta. Qed.
#[export] Hint Resolve IoK8sApimachineryPkgApisMetaV1ObjectMeta_represents : represents.
Lemma IoK8sApimachineryPkgApisMetaV1LabelSelectorRequirement_represents `{Pydantic} b :
  Represents b (TRef "io.k8s.apimachinery.pkg.apis.meta.v1.LabelSelectorRequirement")
    (Model IoK8sApimachineryPkgApisMetaV1LabelSelectorRequirement.schema).
Proof. solve_represents io_k8s_apimachinery_pkg_apis_meta_v1_LabelSelectorRequirement. Qed.
#[export] Hint Resolve IoK8sApimachineryPkgApisMetaV1LabelSelectorRequirement_represents : represents.
Lemma IoK8sApimachineryPkgApisMetaV1LabelSelector_represents `{Pydantic} b :
  Represents b (TRef "io.k8s.apimachinery.pkg.apis.meta.v1.LabelSelector")
    (Model IoK8sApimachineryPkgApisMetaV1LabelSelector.schema).
Proof. solve_represents io_k8s_apimachinery_pkg_apis_meta_v1_LabelSelector. Qed.
#[export] Hint Resolve IoK8sApimachineryPkgApisMetaV1LabelSelector_represents : represents.
Lemma IoK8sApimachineryPkgApisMetaV1ShardInfo_represents `{Pydantic} b :
  Represents b (TRef "io.k8s.apimachinery.pkg.apis.meta.v1.ShardInfo")
    (Model IoK8sApimachineryPkgApisMetaV1ShardInfo.schema).
Proof. solve_represents io_k8s_apimachinery_pkg_apis_meta_v1_ShardInfo. Qed.
#[export] Hint Resolve IoK8sApimachineryPkgApisMetaV1ShardInfo_represents : represents.
Lemma IoK8sApimachineryPkgApisMetaV1ListMeta_represents `{Pydantic} b :
  Represents b (TRef "io.k8s.apimachinery.pkg.apis.meta.v1.ListMeta")
    (Model IoK8sApimachineryPkgApisMetaV1ListMeta.schema).
Proof. solve_represents io_k8s_apimachinery_pkg_apis_meta_v1_ListMeta. Qed.
#[export] Hint Resolve IoK8sApimachineryPkgApisMetaV1ListMeta_represents : represents.
Lemma IoK8sApimachineryPkgApisMetaV1Condition_represents `{Pydantic} b :
  Represents b (TRef "io.k8s.apimachinery.pkg.apis.meta.v1.Condition")
    (Model IoK8sApimachineryPkgApisMetaV1Condition.schema).
Proof. solve_represents io_k8s_apimachinery_pkg_apis_meta_v1_Condition. Qed.
#[export] Hint Resolve IoK8sApimachineryPkgApisMetaV1Condition_represents : represents.
Lemma IoK8sApiCoreV1NodeSelectorRequirement_represents `{Pydantic} b :
  Represents b (TRef "io.k8s.api.core.v1.NodeSelectorRequirement")
    (Model IoK8sApiCoreV1NodeSelectorRequirement.schema).
Proof. solve_represents io_k8s_api_core_v1_NodeSelectorRequirement. Qed.
#[export] Hint Resolve IoK8sApiCoreV1NodeSelectorRequirement_represents : represents.
Lemma IoK8sApiCoreV1NodeSelectorTerm_represents `{Pydantic} b :
  Represents b (TRef "io.k8s.api.core.v1.NodeSelectorTerm")
    (Model IoK8sApiCoreV1NodeSelectorTerm.schema).
Proof. solve_represents io_k8s_api_core_v1_NodeSelectorTerm. Qed.
#[export] Hint Resolve IoK8sApiCoreV1NodeSelectorTerm_represents : represents.
Lemma IoK8sApiCoreV1PreferredSchedulingTerm_represents `{Pydantic} b :
  Represents b (TRef "io.k8s.api.core.v1.PreferredSchedulingTerm")
    (Model IoK8sApiCoreV1PreferredSchedulingTerm.schema).
Proof. solve_represents io_k8s_api_core_v1_PreferredSchedulingTerm. Qed.
#[export] Hint Resolve IoK8sApiCoreV1PreferredSchedulingTerm_represents : represents.
Lemma IoK8sApiCoreV1NodeSelector_represents `{Pydantic} b :
  Represents b (TRef "io.k8s.api.core.v1.NodeSelector")
    (Model IoK8sApiCoreV1NodeSelector.schema).
Proof. solve_represents io_k8s_api_core_v1_NodeSelector. Qed.
#[export] Hint Resolve IoK8sApiCoreV1NodeSelector_represents : represents.
Lemma IoK8sApiCoreV1NodeAffinity_represents `{Pydantic} b :
  Represents b (TRef "io.k8s.api.core.v1.NodeAffinity")
    (Model IoK8sApiCoreV1NodeAffinity.schema).
Proof. solve_represents io_k8s_api_core_v1_NodeAffinity. Qed.
#[export] Hint Resolve IoK8sApiCoreV1NodeAffinity_represents : represents.
Lemma IoK8sApiCoreV1PodAffinityTerm_represents `{Pydantic} b :
  Represents b (TRef "io.k8s.api.core.v1.PodAffinityTerm")
    (Model IoK8sApiCoreV1PodAffinityTerm.schema).
Proof. solve_represents io_k8s_api_core_v1_PodAffinityTerm. Qed.
#[export] Hint Resolve IoK8sApiCoreV1PodAffinityTerm_represents : represents.
Lemma IoK8sApiCoreV1WeightedPodAffinityTerm_represents `{Pydantic} b :
  Represents b (TRef "io.k8s.api.core.v1.WeightedPodAffinityTerm")
    (Model IoK8sApiCoreV1WeightedPodAffinityTerm.schema).
Proof. solve_represents io_k8s_api_core_v1_WeightedPodAffinityTerm. Qed.
#[export] Hint Resolve IoK8sApiCoreV1WeightedPodAffinityTerm_represents : represents.
Lemma IoK8sApiCoreV1PodAffinity_represents `{Pydantic} b :
  Represents b (TRef "io.k8s.api.core.v1.PodAffinity")
    (Model IoK8sApiCoreV1PodAffinity.schema).
Proof. solve_represents io_k8s_api_core_v1_PodAffinity. Qed.
#[export] Hint Resolve IoK8sApiCoreV1PodAffinity_represents : represents.
Lemma IoK8sApiCoreV1PodAntiAffinity_represents `{Pydantic} b :
  Represents b (TRef "io.k8s.api.core.v1.PodAntiAffinity")
    (Model IoK8sApiCoreV1PodAntiAffinity.schema).
Proof. solve_represents io_k8s_api_core_v1_PodAntiAffinity. Qed.
#[export] Hint Resolve IoK8sApiCoreV1PodAntiAffinity_represents : represents.
Lemma IoK8sApiCoreV1Affinity_represents `{Pydantic} b :
  Represents b (TRef "io.k8s.api.core.v1.Affinity")
    (Model IoK8sApiCoreV1Affinity.schema).
Proof. solve_represents io_k8s_api_core_v1_Affinity. Qed.
#[export] Hint Resolve IoK8sApiCoreV1Affinity_represents : represents.
Lemma IoK8sApiCoreV1ConfigMapKeySelector_represents `{Pydantic} b :
  Represents b (TRef "io.k8s.api.core.v1.ConfigMapKeySelector")
    (Model IoK8sApiCoreV1ConfigMapKeySelector.schema).
Proof. solve_represents io_k8s_api_core_v1_ConfigMapKeySelector. Qed.
#[export] Hint Resolve IoK8sApiCoreV1ConfigMapKeySelector_represents : represents.
Lemma IoK8sApiCoreV1ObjectFieldSelector_represents `{Pydantic} b :
  Represents b (TRef "io.k8s.api.core.v1.ObjectFieldSelector")
    (Model IoK8sApiCoreV1ObjectFieldSelector.schema).
Proof. solve_represents io_k8s_api_core_v1_ObjectFieldSelector. Qed.
#[export] Hint Resolve IoK8sApiCoreV1ObjectFieldSelector_represents : represents.
Lemma IoK8sApiCoreV1FileKeySelector_represents `{Pydantic} b :
  Represents b (TRef "io.k8s.api.core.v1.FileKeySelector")
    (Model IoK8sApiCoreV1FileKeySelector.schema).
Proof. solve_represents io_k8s_api_core_v1_FileKeySelector. Qed.
#[export] Hint Resolve IoK8sApiCoreV1FileKeySelector_represents : represents.
Lemma IoK8sApiCoreV1ResourceFieldSelector_represents `{Pydantic} b :
  Represents b (TRef "io.k8s.api.core.v1.ResourceFieldSelector")
    (Model IoK8sApiCoreV1ResourceFieldSelector.schema).
Proof. solve_represents io_k8s_api_core_v1_ResourceFieldSelector. Qed.
#[export] Hint Resolve IoK8sApiCoreV1ResourceFieldSelector_represents : represents.
Lemma IoK8sApiCoreV1SecretKeySelector_represents `{Pydantic} b :
  Represents b (TRef "io.k8s.api.core.v1.SecretKeySelector")
    (Model IoK8sApiCoreV1SecretKeySelector.schema).
Proof. solve_represents io_k8s_api_core_v1_SecretKeySelector. Qed.
#[export] Hint Resolve IoK8sApiCoreV1SecretKeySelector_represents : represents.
Lemma IoK8sApiCoreV1EnvVarSource_represents `{Pydantic} b :
  Represents b (TRef "io.k8s.api.core.v1.EnvVarSource")
    (Model IoK8sApiCoreV1EnvVarSource.schema).
Proof. solve_represents io_k8s_api_core_v1_EnvVarSource. Qed.
#[export] Hint Resolve IoK8sApiCoreV1EnvVarSource_represents : represents.
Lemma IoK8sApiCoreV1EnvVar_represents `{Pydantic} b :
  Represents b (TRef "io.k8s.api.core.v1.EnvVar")
    (Model IoK8sApiCoreV1EnvVar.schema).
Proof. solve_represents io_k8s_api_core_v1_EnvVar. Qed.
#[export] Hint Resolve IoK8sApiCoreV1EnvVar_represents : represents.
Lemma IoK8sApiCoreV1ConfigMapEnvSource_represents `{Pydantic} b :
  Represents b (TRef "io.k8s.api.core.v1.ConfigMapEnvSource")
    (Model IoK8sApiCoreV1ConfigMapEnvSource.schema).
Proof. solve_represents io_k8s_api_core_v1_ConfigMapEnvSource. Qed.
#[export] Hint Resolve IoK8sApiCoreV1ConfigMapEnvSource_represents : represents.
Lemma IoK8sApiCoreV1SecretEnvSource_represents `{Pydantic} b :
  Represents b (TRef "io.k8s.api.core.v1.SecretEnvSource")
    (Model IoK8sApiCoreV1SecretEnvSource.schema).
Proof. solve_represents io_k8s_api_core_v1_SecretEnvSource. Qed.
#[export] Hint Resolve IoK8sApiCoreV1SecretEnvSource_represents : represents.
Lemma IoK8sApiCoreV1EnvFromSource_represents `{Pydantic} b :
  Represents b (TRef "io.k8s.api.core.v1.EnvFromSource")
    (Model IoK8sApiCoreV1EnvFromSource.schema).
Proof. solve_represents io_k8s_api_core_v1_EnvFromSource. Qed.
#[export] Hint Resolve IoK8sApiCoreV1EnvFromSource_represents : represents.
Lemma IoK8sApiCoreV1ExecAction_represents `{Pydantic} b :
  Represents b (TRef "io.k8s.api.core.v1.ExecAction")
    (Model IoK8sApiCoreV1ExecAction.schema).
Proof. solve_represents io_k8s_api_core_v1_ExecAction. Qed.
#[export] Hint Resolve IoK8sApiCoreV1ExecAction_represents : represents.
Lemma IoK8sApiCoreV1HTTPHeader_represents `{Pydantic} b :
  Represents b (TRef "io.k8s.api.core.v1.HTTPHeader")
    (Model IoK8sApiCoreV1HTTPHeader.schema).
Proof. solve_represents io_k8s_api_core_v1_HTTPHeader. Qed.
#[export] Hint Resolve IoK8sApiCoreV1HTTPHeader_represents : represents.
Lemma IoK8sApiCoreV1HTTPGetAction_represents `{Pydantic} b :
  Represents b (TRef "io.k8s.api.core.v1.HTTPGetAction")
    (Model IoK8sApiCoreV1HTTPGetAction.schema).
Proof. solve_represents io_k8s_api_core_v1_HTTPGetAction. Qed.
#[export] Hint Resolve IoK8sApiCoreV1HTTPGetAction_represents : represents.
Lemma IoK8sApiCoreV1SleepAction_represents `{Pydantic} b :
  Represents b (TRef "io.k8s.api.core.v1.SleepAction")
    (Model IoK8sApiCoreV1SleepAction.schema).
Proof. solve_represents io_k8s_api_core_v1_SleepAction. Qed.
#[export] Hint Resolve IoK8sApiCoreV1SleepAction_represents : represents.
Lemma IoK8sApiCoreV1TCPSocketAction_represents `{Pydantic} b :
  Represents b (TRef "io.k8s.api.core.v1.TCPSocketAction")
    (Model IoK8sApiCoreV1TCPSocketAction.schema).
Proof. solve_represents io_k8s_api_core_v1_TCPSocketAction. Qed.
#[export] Hint Resolve IoK8sApiCoreV1TCPSocketAction_represents : represents.
Lemma IoK8sApiCoreV1LifecycleHandler_represents `{Pydantic} b :
  Represents b (TRef "io.k8s.api.core.v1.LifecycleHandler")
    (Model IoK8sApiCoreV1LifecycleHandler.schema).
Proof. solve_represents io_k8s_api_core_v1_LifecycleHandler. Qed.
#[export] Hint Resolve IoK8sApiCoreV1LifecycleHandler_represents : represents.
Lemma IoK8sApiCoreV1Lifecycle_represents `{Pydantic} b :
  Represents b (TRef "io.k8s.api.core.v1.Lifecycle")
    (Model IoK8sApiCoreV1Lifecycle.schema).
Proof. solve_represents io_k8s_api_core_v1_Lifecycle. Qed.
#[export] Hint Resolve IoK8sApiCoreV1Lifecycle_represents : represents.
Lemma IoK8sApiCoreV1GRPCAction_represents `{Pydantic} b :
  Represents b (TRef "io.k8s.api.core.v1.GRPCAction")
    (Model IoK8sApiCoreV1GRPCAction.schema).
Proof. solve_represents io_k8s_api_core_v1_GRPCAction. Qed.
#[export] Hint Resolve IoK8sApiCoreV1GRPCAction_represents : represents.
Lemma IoK8sApiCoreV1Probe_represents `{Pydantic} b :
  Represents b (TRef "io.k8s.api.core.v1.Probe")
    (Model IoK8sApiCoreV1Probe.schema).
Proof. solve_represents io_k8s_api_core_v1_Probe. Qed.
#[export] Hint Resolve IoK8sApiCoreV1Probe_represents : represents.
Lemma IoK8sApiCoreV1ContainerPort_represents `{Pydantic} b :
  Represents b (TRef "io.k8s.api.core.v1.ContainerPort")
    (Model IoK8sApiCoreV1ContainerPort.schema).
Proof. solve_represents io_k8s_api_core_v1_ContainerPort. Qed.
#[export] Hint Resolve IoK8sApiCoreV1ContainerPort_represents : represents.
Lemma IoK8sApiCoreV1ContainerResizePolicy_represents `{Pydantic} b :
  Represents b (TRef "io.k8s.api.core.v1.ContainerResizePolicy")
    (Model IoK8sApiCoreV1ContainerResizePolicy.schema).
Proof. solve_represents io_k8s_api_core_v1_ContainerResizePolicy. Qed.
#[export] Hint Resolve IoK8sApiCoreV1ContainerResizePolicy_represents : represents.
Lemma IoK8sApiCoreV1ResourceClaim_represents `{Pydantic} b :
  Represents b (TRef "io.k8s.api.core.v1.ResourceClaim")
    (Model IoK8sApiCoreV1ResourceClaim.schema).
Proof. solve_represents io_k8s_api_core_v1_ResourceClaim. Qed.
#[export] Hint Resolve IoK8sApiCoreV1ResourceClaim_represents : represents.
Lemma IoK8sApiCoreV1ResourceRequirements_represents `{Pydantic} b :
  Represents b (TRef "io.k8s.api.core.v1.ResourceRequirements")
    (Model IoK8sApiCoreV1ResourceRequirements.schema).
Proof. solve_represents io_k8s_api_core_v1_ResourceRequirements. Qed.
#[export] Hint Resolve IoK8sApiCoreV1ResourceRequirements_represents : represents.
Lemma IoK8sApiCoreV1ContainerRestartRuleOnExitCodes_represents `{Pydantic} b :
  Represents b (TRef "io.k8s.api.core.v1.ContainerRestartRuleOnExitCodes")
    (Model IoK8sApiCoreV1ContainerRestartRuleOnExitCodes.schema).
Proof. solve_represents io_k8s_api_core_v1_ContainerRestartRuleOnExitCodes. Qed.
#[export] Hint Resolve IoK8sApiCoreV1ContainerRestartRuleOnExitCodes_represents : represents.
Lemma IoK8sApiCoreV1ContainerRestartRule_represents `{Pydantic} b :
  Represents b (TRef "io.k8s.api.core.v1.ContainerRestartRule")
    (Model IoK8sApiCoreV1ContainerRestartRule.schema).
Proof. solve_represents io_k8s_api_core_v1_ContainerRestartRule. Qed.
#[export] Hint Resolve IoK8sApiCoreV1ContainerRestartRule_represents : represents.
Lemma IoK8sApiCoreV1AppArmorProfile_represents `{Pydantic} b :
  Represents b (TRef "io.k8s.api.core.v1.AppArmorProfile")
    (Model IoK8sApiCoreV1AppArmorProfile.schema).
Proof. solve_represents io_k8s_api_core_v1_AppArmorProfile. Qed.
#[export] Hint Resolve IoK8sApiCoreV1AppArmorProfile_represents : represents.
Lemma IoK8sApiCoreV1Capabilities_represents `{Pydantic} b :
  Represents b (TRef "io.k8s.api.core.v1.Capabilities")
    (Model IoK8sApiCoreV1Capabilities.schema).
Proof. solve_represents io_k8s_api_core_v1_Capabilities. Qed.
#[export] Hint Resolve IoK8sApiCoreV1Capabilities_represents : represents.
Lemma IoK8sApiCoreV1SELinuxOptions_represents `{Pydantic} b :
  Represents b (TRef "io.k8s.api.core.v1.SELinuxOptions")
    (Model IoK8sApiCoreV1SELinuxOptions.schema).
Proof. solve_represents io_k8s_api_core_v1_SELinuxOptions. Qed.
#[export] Hint Resolve IoK8sApiCoreV1SELinuxOptions_represents : represents.
Lemma IoK8sApiCoreV1SeccompProfile_represents `{Pydantic} b :
  Represents b (TRef "io.k8s.api.core.v1.SeccompProfile")
    (Model IoK8sApiCoreV1SeccompProfile.schema).
Proof. solve_represents io_k8s_api_core_v1_SeccompProfile. Qed.
#[export] Hint Resolve IoK8sApiCoreV1SeccompProfile_represents : represents.
Lemma IoK8sApiCoreV1WindowsSecurityContextOptions_represents `{Pydantic} b :
  Represents b (TRef "io.k8s.api.core.v1.WindowsSecurityContextOptions")
    (Model IoK8sApiCoreV1WindowsSecurityContextOptions.schema).
Proof. solve_represents io_k8s_api_core_v1_WindowsSecurityContextOptions. Qed.
#[export] Hint Resolve IoK8sApiCoreV1WindowsSecurityContextOptions_represents : represents.
Lemma IoK8sApiCoreV1SecurityContext_represents `{Pydantic} b :
  Represents b (TRef "io.k8s.api.core.v1.SecurityContext")
    (Model IoK8sApiCoreV1SecurityContext.schema).
Proof. solve_represents io_k8s_api_core_v1_SecurityContext. Qed.
#[export] Hint Resolve IoK8sApiCoreV1SecurityContext_represents : represents.
Lemma IoK8sApiCoreV1VolumeDevice_represents `{Pydantic} b :
  Represents b (TRef "io.k8s.api.core.v1.VolumeDevice")
    (Model IoK8sApiCoreV1VolumeDevice.schema).
Proof. solve_represents io_k8s_api_core_v1_VolumeDevice. Qed.
#[export] Hint Resolve IoK8sApiCoreV1VolumeDevice_represents : represents.
Lemma IoK8sApiCoreV1VolumeMount_represents `{Pydantic} b :
  Represents b (TRef "io.k8s.api.core.v1.VolumeMount")
    (Model IoK8sApiCoreV1VolumeMount.schema).
Proof. solve_represents io_k8s_api_core_v1_VolumeMount. Qed.
#[export] Hint Resolve IoK8sApiCoreV1VolumeMount_represents : represents.
Lemma IoK8sApiCoreV1Container_represents `{Pydantic} b :
  Represents b (TRef "io.k8s.api.core.v1.Container")
    (Model IoK8sApiCoreV1Container.schema).
Proof. solve_represents io_k8s_api_core_v1_Container. Qed.
#[export] Hint Resolve IoK8sApiCoreV1Container_represents : represents.
Lemma IoK8sApiCoreV1PodDNSConfigOption_represents `{Pydantic} b :
  Represents b (TRef "io.k8s.api.core.v1.PodDNSConfigOption")
    (Model IoK8sApiCoreV1PodDNSConfigOption.schema).
Proof. solve_represents io_k8s_api_core_v1_PodDNSConfigOption. Qed.
#[export] Hint Resolve IoK8sApiCoreV1PodDNSConfigOption_represents : represents.
Lemma IoK8sApiCoreV1PodDNSConfig_represents `{Pydantic} b :
  Represents b (TRef "io.k8s.api.core.v1.PodDNSConfig")
    (Model IoK8sApiCoreV1PodDNSConfig.schema).
Proof. solve_represents io_k8s_api_core_v1_PodDNSConfig. Qed.
#[export] Hint Resolve IoK8sApiCoreV1PodDNSConfig_represents : represents.
Lemma IoK8sApiCoreV1EphemeralContainer_represents `{Pydantic} b :
  Represents b (TRef "io.k8s.api.core.v1.EphemeralContainer")
    (Model IoK8sApiCoreV1EphemeralContainer.schema).
Proof. solve_represents io_k8s_api_core_v1_EphemeralContainer. Qed.
#[export] Hint Resolve IoK8sApiCoreV1EphemeralContainer_represents : represents.
Lemma IoK8sApiCoreV1EvictionResponder_represents `{Pydantic} b :
  Represents b (TRef "io.k8s.api.core.v1.EvictionResponder")
    (Model IoK8sApiCoreV1EvictionResponder.schema).
Proof. solve_represents io_k8s_api_core_v1_EvictionResponder. Qed.
#[export] Hint Resolve IoK8sApiCoreV1EvictionResponder_represents : represents.
Lemma IoK8sApiCoreV1HostAlias_represents `{Pydantic} b :
  Represents b (TRef "io.k8s.api.core.v1.HostAlias")
    (Model IoK8sApiCoreV1HostAlias.schema).
Proof. solve_represents io_k8s_api_core_v1_HostAlias. Qed.
#[export] Hint Resolve IoK8sApiCoreV1HostAlias_represents : represents.
Lemma IoK8sApiCoreV1LocalObjectReference_represents `{Pydantic} b :
  Represents b (TRef "io.k8s.api.core.v1.LocalObjectReference")
    (Model IoK8sApiCoreV1LocalObjectReference.schema).
Proof. solve_represents io_k8s_api_core_v1_LocalObjectReference. Qed.
#[export] Hint Resolve IoK8sApiCoreV1LocalObjectReference_represents : represents.
Lemma IoK8sApiCoreV1PodOS_represents `{Pydantic} b :
  Represents b (TRef "io.k8s.api.core.v1.PodOS")
    (Model IoK8sApiCoreV1PodOS.schema).
Proof. solve_represents io_k8s_api_core_v1_PodOS. Qed.
#[export] Hint Resolve IoK8sApiCoreV1PodOS_represents : represents.
Lemma IoK8sApiCoreV1PodReadinessGate_represents `{Pydantic} b :
  Represents b (TRef "io.k8s.api.core.v1.PodReadinessGate")
    (Model IoK8sApiCoreV1PodReadinessGate.schema).
Proof. solve_represents io_k8s_api_core_v1_PodReadinessGate. Qed.
#[export] Hint Resolve IoK8sApiCoreV1PodReadinessGate_represents : represents.
Lemma IoK8sApiCoreV1PodResourceClaim_represents `{Pydantic} b :
  Represents b (TRef "io.k8s.api.core.v1.PodResourceClaim")
    (Model IoK8sApiCoreV1PodResourceClaim.schema).
Proof. solve_represents io_k8s_api_core_v1_PodResourceClaim. Qed.
#[export] Hint Resolve IoK8sApiCoreV1PodResourceClaim_represents : represents.
Lemma IoK8sApiCoreV1PodSchedulingGate_represents `{Pydantic} b :
  Represents b (TRef "io.k8s.api.core.v1.PodSchedulingGate")
    (Model IoK8sApiCoreV1PodSchedulingGate.schema).
Proof. solve_represents io_k8s_api_core_v1_PodSchedulingGate. Qed.
#[export] Hint Resolve IoK8sApiCoreV1PodSchedulingGate_represents : represents.
Lemma IoK8sApiCoreV1PodSchedulingGroup_represents `{Pydantic} b :
  Represents b (TRef "io.k8s.api.core.v1.PodSchedulingGroup")
    (Model IoK8sApiCoreV1PodSchedulingGroup.schema).
Proof. solve_represents io_k8s_api_core_v1_PodSchedulingGroup. Qed.
#[export] Hint Resolve IoK8sApiCoreV1PodSchedulingGroup_represents : represents.
Lemma IoK8sApiCoreV1Sysctl_represents `{Pydantic} b :
  Represents b (TRef "io.k8s.api.core.v1.Sysctl")
    (Model IoK8sApiCoreV1Sysctl.schema).
Proof. solve_represents io_k8s_api_core_v1_Sysctl. Qed.
#[export] Hint Resolve IoK8sApiCoreV1Sysctl_represents : represents.
Lemma IoK8sApiCoreV1PodSecurityContext_represents `{Pydantic} b :
  Represents b (TRef "io.k8s.api.core.v1.PodSecurityContext")
    (Model IoK8sApiCoreV1PodSecurityContext.schema).
Proof. solve_represents io_k8s_api_core_v1_PodSecurityContext. Qed.
#[export] Hint Resolve IoK8sApiCoreV1PodSecurityContext_represents : represents.
Lemma IoK8sApiCoreV1Toleration_represents `{Pydantic} b :
  Represents b (TRef "io.k8s.api.core.v1.Toleration")
    (Model IoK8sApiCoreV1Toleration.schema).
Proof. solve_represents io_k8s_api_core_v1_Toleration. Qed.
#[export] Hint Resolve IoK8sApiCoreV1Toleration_represents : represents.
Lemma IoK8sApiCoreV1TopologySpreadConstraint_represents `{Pydantic} b :
  Represents b (TRef "io.k8s.api.core.v1.TopologySpreadConstraint")
    (Model IoK8sApiCoreV1TopologySpreadConstraint.schema).
Proof. solve_represents io_k8s_api_core_v1_TopologySpreadConstraint. Qed.
#[export] Hint Resolve IoK8sApiCoreV1TopologySpreadConstraint_represents : represents.
Lemma IoK8sApiCoreV1AWSElasticBlockStoreVolumeSource_represents `{Pydantic} b :
  Represents b (TRef "io.k8s.api.core.v1.AWSElasticBlockStoreVolumeSource")
    (Model IoK8sApiCoreV1AWSElasticBlockStoreVolumeSource.schema).
Proof. solve_represents io_k8s_api_core_v1_AWSElasticBlockStoreVolumeSource. Qed.
#[export] Hint Resolve IoK8sApiCoreV1AWSElasticBlockStoreVolumeSource_represents : represents.
Lemma IoK8sApiCoreV1AzureDiskVolumeSource_represents `{Pydantic} b :
  Represents b (TRef "io.k8s.api.core.v1.AzureDiskVolumeSource")
    (Model IoK8sApiCoreV1AzureDiskVolumeSource.schema).
Proof. solve_represents io_k8s_api_core_v1_AzureDiskVolumeSource. Qed.
#[export] Hint Resolve IoK8sApiCoreV1AzureDiskVolumeSource_represents : represents.
Lemma IoK8sApiCoreV1AzureFileVolumeSource_represents `{Pydantic} b :
  Represents b (TRef "io.k8s.api.core.v1.AzureFileVolumeSource")
    (Model IoK8sApiCoreV1AzureFileVolumeSource.schema).
Proof. solve_represents io_k8s_api_core_v1_AzureFileVolumeSource. Qed.
#[export] Hint Resolve IoK8sApiCoreV1AzureFileVolumeSource_represents : represents.
Lemma IoK8sApiCoreV1CephFSVolumeSource_represents `{Pydantic} b :
  Represents b (TRef "io.k8s.api.core.v1.CephFSVolumeSource")
    (Model IoK8sApiCoreV1CephFSVolumeSource.schema).
Proof. solve_represents io_k8s_api_core_v1_CephFSVolumeSource. Qed.
#[export] Hint Resolve IoK8sApiCoreV1CephFSVolumeSource_represents : represents.
Lemma IoK8sApiCoreV1CinderVolumeSource_represents `{Pydantic} b :
  Represents b (TRef "io.k8s.api.core.v1.CinderVolumeSource")
    (Model IoK8sApiCoreV1CinderVolumeSource.schema).
Proof. solve_represents io_k8s_api_core_v1_CinderVolumeSource. Qed.
#[export] Hint Resolve IoK8sApiCoreV1CinderVolumeSource_represents : represents.
Lemma IoK8sApiCoreV1KeyToPath_represents `{Pydantic} b :
  Represents b (TRef "io.k8s.api.core.v1.KeyToPath")
    (Model IoK8sApiCoreV1KeyToPath.schema).
Proof. solve_represents io_k8s_api_core_v1_KeyToPath. Qed.
#[export] Hint Resolve IoK8sApiCoreV1KeyToPath_represents : represents.
Lemma IoK8sApiCoreV1ConfigMapVolumeSource_represents `{Pydantic} b :
  Represents b (TRef "io.k8s.api.core.v1.ConfigMapVolumeSource")
    (Model IoK8sApiCoreV1ConfigMapVolumeSource.schema).
Proof. solve_represents io_k8s_api_core_v1_ConfigMapVolumeSource. Qed.
#[export] Hint Resolve IoK8sApiCoreV1ConfigMapVolumeSource_represents : represents.
Lemma IoK8sApiCoreV1CSIVolumeSource_represents `{Pydantic} b :
  Represents b (TRef "io.k8s.api.core.v1.CSIVolumeSource")
    (Model IoK8sApiCoreV1CSIVolumeSource.schema).
Proof. solve_represents io_k8s_api_core_v1_CSIVolumeSource. Qed.
#[export] Hint Resolve IoK8sApiCoreV1CSIVolumeSource_represents : represents.
Lemma IoK8sApiCoreV1DownwardAPIVolumeFile_represents `{Pydantic} b :
  Represents b (TRef "io.k8s.api.core.v1.DownwardAPIVolumeFile")
    (Model IoK8sApiCoreV1DownwardAPIVolumeFile.schema).
Proof. solve_represents io_k8s_api_core_v1_DownwardAPIVolumeFile. Qed.
#[export] Hint Resolve IoK8sApiCoreV1DownwardAPIVolumeFile_represents : represents.
Lemma IoK8sApiCoreV1DownwardAPIVolumeSource_represents `{Pydantic} b :
  Represents b (TRef "io.k8s.api.core.v1.DownwardAPIVolumeSource")
    (Model IoK8sApiCoreV1DownwardAPIVolumeSource.schema).
Proof. solve_represents io_k8s_api_core_v1_DownwardAPIVolumeSource. Qed.
#[export] Hint Resolve IoK8sApiCoreV1DownwardAPIVolumeSource_represents : represents.
Lemma IoK8sApiCoreV1EmptyDirVolumeSource_represents `{Pydantic} b :
  Represents b (TRef "io.k8s.api.core.v1.EmptyDirVolumeSource")
    (Model IoK8sApiCoreV1EmptyDirVolumeSource.schema).
Proof. solve_represents io_k8s_api_core_v1_EmptyDirVolumeSource. Qed.
#[export] Hint Resolve IoK8sApiCoreV1EmptyDirVolumeSource_represents : represents.
Lemma IoK8sApiCoreV1TypedLocalObjectReference_represents `{Pydantic} b :
  Represents b (TRef "io.k8s.api.core.v1.TypedLocalObjectReference")
    (Model IoK8sApiCoreV1TypedLocalObjectReference.schema).
Proof. solve_represents io_k8s_api_core_v1_TypedLocalObjectReference. Qed.
#[export] Hint Resolve IoK8sApiCoreV1TypedLocalObjectReference_represents : represents.
Lemma IoK8sApiCoreV1TypedObjectReference_represents `{Pydantic} b :
  Represents b (TRef "io.k8s.api.core.v1.TypedObjectReference")
    (Model IoK8sApiCoreV1TypedObjectReference.schema).
Proof. solve_represents io_k8s_api_core_v1_TypedObjectReference. Qed.
#[export] Hint Resolve IoK8sApiCoreV1TypedObjectReference_represents : represents.
Lemma IoK8sApiCoreV1VolumeResourceRequirements_represents `{Pydantic} b :
  Represents b (TRef "io.k8s.api.core.v1.VolumeResourceRequirements")
    (Model IoK8sApiCoreV1VolumeResourceRequirements.schema).
Proof. solve_represents io_k8s_api_core_v1_VolumeResourceRequirements. Qed.
#[export] Hint Resolve IoK8sApiCoreV1VolumeResourceRequirements_represents : represents.
Lemma IoK8sApiCoreV1PersistentVolumeClaimSpec_represents `{Pydantic} b :
  Represents b (TRef "io.k8s.api.core.v1.PersistentVolumeClaimSpec")
    (Model IoK8sApiCoreV1PersistentVolumeClaimSpec.schema).
Proof. solve_represents io_k8s_api_core_v1_PersistentVolumeClaimSpec. Qed.
#[export] Hint Resolve IoK8sApiCoreV1PersistentVolumeClaimSpec_represents : represents.
Lemma IoK8sApiCoreV1PersistentVolumeClaimTemplate_represents `{Pydantic} b :
  Represents b (TRef "io.k8s.api.core.v1.PersistentVolumeClaimTemplate")
    (Model IoK8sApiCoreV1PersistentVolumeClaimTemplate.schema).
Proof. solve_represents io_k8s_api_core_v1_PersistentVolumeClaimTemplate. Qed.
#[export] Hint Resolve IoK8sApiCoreV1PersistentVolumeClaimTemplate_represents : represents.
Lemma IoK8sApiCoreV1EphemeralVolumeSource_represents `{Pydantic} b :
  Represents b (TRef "io.k8s.api.core.v1.EphemeralVolumeSource")
    (Model IoK8sApiCoreV1EphemeralVolumeSource.schema).
Proof. solve_represents io_k8s_api_core_v1_EphemeralVolumeSource. Qed.
#[export] Hint Resolve IoK8sApiCoreV1EphemeralVolumeSource_represents : represents.
Lemma IoK8sApiCoreV1FCVolumeSource_represents `{Pydantic} b :
  Represents b (TRef "io.k8s.api.core.v1.FCVolumeSource")
    (Model IoK8sApiCoreV1FCVolumeSource.schema).
Proof. solve_represents io_k8s_api_core_v1_FCVolumeSource. Qed.
#[export] Hint Resolve IoK8sApiCoreV1FCVolumeSource_represents : represents.
Lemma IoK8sApiCoreV1FlexVolumeSource_represents `{Pydantic} b :
  Represents b (TRef "io.k8s.api.core.v1.FlexVolumeSource")
    (Model IoK8sApiCoreV1FlexVolumeSource.schema).
Proof. solve_represents io_k8s_api_core_v1_FlexVolumeSource. Qed.
#[export] Hint Resolve IoK8sApiCoreV1FlexVolumeSource_represents : represents.
Lemma IoK8sApiCoreV1FlockerVolumeSource_represents `{Pydantic} b :
  Represents b (TRef "io.k8s.api.core.v1.FlockerVolumeSource")
    (Model IoK8sApiCoreV1FlockerVolumeSource.schema).
Proof. solve_represents io_k8s_api_core_v1_FlockerVolumeSource. Qed.
#[export] Hint Resolve IoK8sApiCoreV1FlockerVolumeSource_represents : represents.
Lemma IoK8sApiCoreV1GCEPersistentDiskVolumeSource_represents `{Pydantic} b :
  Represents b (TRef "io.k8s.api.core.v1.GCEPersistentDiskVolumeSource")
    (Model IoK8sApiCoreV1GCEPersistentDiskVolumeSource.schema).
Proof. solve_represents io_k8s_api_core_v1_GCEPersistentDiskVolumeSource. Qed.
#[export] Hint Resolve IoK8sApiCoreV1GCEPersistentDiskVolumeSource_represents : represents.
Lemma IoK8sApiCoreV1GitRepoVolumeSource_represents `{Pydantic} b :
  Represents b (TRef "io.k8s.api.core.v1.GitRepoVolumeSource")
    (Model IoK8sApiCoreV1GitRepoVolumeSource.schema).
Proof. solve_represents io_k8s_api_core_v1_GitRepoVolumeSource. Qed.
#[export] Hint Resolve IoK8sApiCoreV1GitRepoVolumeSource_represents : represents.
Lemma IoK8sApiCoreV1GlusterfsVolumeSource_represents `{Pydantic} b :
  Represents b (TRef "io.k8s.api.core.v1.GlusterfsVolumeSource")
    (Model IoK8sApiCoreV1GlusterfsVolumeSource.schema).
Proof. solve_represents io_k8s_api_core_v1_GlusterfsVolumeSource. Qed.
#[export] Hint Resolve IoK8sApiCoreV1GlusterfsVolumeSource_represents : represents.
Lemma IoK8sApiCoreV1HostPathVolumeSource_represents `{Pydantic} b :
  Represents b (TRef "io.k8s.api.core.v1.HostPathVolumeSource")
    (Model IoK8sApiCoreV1HostPathVolumeSource.schema).
Proof. solve_represents io_k8s_api_core_v1_HostPathVolumeSource. Qed.
#[export] Hint Resolve IoK8sApiCoreV1HostPathVolumeSource_represents : represents.
Lemma IoK8sApiCoreV1ImageVolumeSource_represents `{Pydantic} b :
  Represents b (TRef "io.k8s.api.core.v1.ImageVolumeSource")
    (Model IoK8sApiCoreV1ImageVolumeSource.schema).
Proof. solve_represents io_k8s_api_core_v1_ImageVolumeSource. Qed.
#[export] Hint Resolve IoK8sApiCoreV1ImageVolumeSource_represents : represents.
Lemma IoK8sApiCoreV1ISCSIVolumeSource_represents `{Pydantic} b :
  Represents b (TRef "io.k8s.api.core.v1.ISCSIVolumeSource")
    (Model IoK8sApiCoreV1ISCSIVolumeSource.schema).
Proof. solve_represents io_k8s_api_core_v1_ISCSIVolumeSource. Qed.
#[export] Hint Resolve IoK8sApiCoreV1ISCSIVolumeSource_represents : represents.
Lemma IoK8sApiCoreV1NFSVolumeSource_represents `{Pydantic} b :
  Represents b (TRef "io.k8s.api.core.v1.NFSVolumeSource")
    (Model IoK8sApiCoreV1NFSVolumeSource.schema).
Proof. solve_represents io_k8s_api_core_v1_NFSVolumeSource. Qed.
#[export] Hint Resolve IoK8sApiCoreV1NFSVolumeSource_represents : represents.
Lemma IoK8sApiCoreV1PersistentVolumeClaimVolumeSource_represents `{Pydantic} b :
  Represents b (TRef "io.k8s.api.core.v1.PersistentVolumeClaimVolumeSource")
    (Model IoK8sApiCoreV1PersistentVolumeClaimVolumeSource.schema).
Proof. solve_represents io_k8s_api_core_v1_PersistentVolumeClaimVolumeSource. Qed.
#[export] Hint Resolve IoK8sApiCoreV1PersistentVolumeClaimVolumeSource_represents : represents.
Lemma IoK8sApiCoreV1PhotonPersistentDiskVolumeSource_represents `{Pydantic} b :
  Represents b (TRef "io.k8s.api.core.v1.PhotonPersistentDiskVolumeSource")
    (Model IoK8sApiCoreV1PhotonPersistentDiskVolumeSource.schema).
Proof. solve_represents io_k8s_api_core_v1_PhotonPersistentDiskVolumeSource. Qed.
#[export] Hint Resolve IoK8sApiCoreV1PhotonPersistentDiskVolumeSource_represents : represents.
Lemma IoK8sApiCoreV1PortworxVolumeSource_represents `{Pydantic} b :
  Represents b (TRef "io.k8s.api.core.v1.PortworxVolumeSource")
    (Model IoK8sApiCoreV1PortworxVolumeSource.schema).
Proof. solve_represents io_k8s_api_core_v1_PortworxVolumeSource. Qed.
#[export] Hint Resolve IoK8sApiCoreV1PortworxVolumeSource_represents : represents.
Lemma IoK8sApiCoreV1ClusterTrustBundleProjection_represents `{Pydantic} b :
  Represents b (TRef "io.k8s.api.core.v1.ClusterTrustBundleProjection")
    (Model IoK8sApiCoreV1ClusterTrustBundleProjection.schema).
Proof. solve_represents io_k8s_api_core_v1_ClusterTrustBundleProjection. Qed.
#[export] Hint Resolve IoK8sApiCoreV1ClusterTrustBundleProjection_represents : represents.
Lemma IoK8sApiCoreV1ConfigMapProjection_represents `{Pydantic} b :
  Represents b (TRef "io.k8s.api.core.v1.ConfigMapProjection")
    (Model IoK8sApiCoreV1ConfigMapProjection.schema).
Proof. solve_represents io_k8s_api_core_v1_ConfigMapProjection. Qed.
#[export] Hint Resolve IoK8sApiCoreV1ConfigMapProjection_represents : represents.
Lemma IoK8sApiCoreV1DownwardAPIProjection_represents `{Pydantic} b :
  Represents b (TRef "io.k8s.api.core.v1.DownwardAPIProjection")
    (Model IoK8sApiCoreV1DownwardAPIProjection.schema).
Proof. solve_represents io_k8s_api_core_v1_DownwardAPIProjection. Qed.
#[export] Hint Resolve IoK8sApiCoreV1DownwardAPIProjection_represents : represents.
Lemma IoK8sApiCoreV1PodCertificateProjection_represents `{Pydantic} b :
  Represents b (TRef "io.k8s.api.core.v1.PodCertificateProjection")
    (Model IoK8sApiCoreV1PodCertificateProjection.schema).
Proof. solve_represents io_k8s_api_core_v1_PodCertificateProjection. Qed.
#[export] Hint Resolve IoK8sApiCoreV1PodCertificateProjection_represents : represents.
Lemma IoK8sApiCoreV1SecretProjection_represents `{Pydantic} b :
  Represents b (TRef "io.k8s.api.core.v1.SecretProjection")
    (Model IoK8sApiCoreV1SecretProjection.schema).
Proof. solve_represents io_k8s_api_core_v1_SecretProjection. Qed.
#[export] Hint Resolve IoK8sApiCoreV1SecretProjection_represents : represents.
Lemma IoK8sApiCoreV1ServiceAccountTokenProjection_represents `{Pydantic} b :
  Represents b (TRef "io.k8s.api.core.v1.ServiceAccountTokenProjection")
    (Model IoK8sApiCoreV1ServiceAccountTokenProjection.schema).
Proof. solve_represents io_k8s_api_core_v1_ServiceAccountTokenProjection. Qed.
#[export] Hint Resolve IoK8sApiCoreV1ServiceAccountTokenProjection_represents : represents.
Lemma IoK8sApiCoreV1VolumeProjection_represents `{Pydantic} b :
  Represents b (TRef "io.k8s.api.core.v1.VolumeProjection")
    (Model IoK8sApiCoreV1VolumeProjection.schema).
Proof. solve_represents io_k8s_api_core_v1_VolumeProjection. Qed.
#[export] Hint Resolve IoK8sApiCoreV1VolumeProjection_represents : represents.
Lemma IoK8sApiCoreV1ProjectedVolumeSource_represents `{Pydantic} b :
  Represents b (TRef "io.k8s.api.core.v1.ProjectedVolumeSource")
    (Model IoK8sApiCoreV1ProjectedVolumeSource.schema).
Proof. solve_represents io_k8s_api_core_v1_ProjectedVolumeSource. Qed.
#[export] Hint Resolve IoK8sApiCoreV1ProjectedVolumeSource_represents : represents.
Lemma IoK8sApiCoreV1QuobyteVolumeSource_represents `{Pydantic} b :
  Represents b (TRef "io.k8s.api.core.v1.QuobyteVolumeSource")
    (Model IoK8sApiCoreV1QuobyteVolumeSource.schema).
Proof. solve_represents io_k8s_api_core_v1_QuobyteVolumeSource. Qed.
#[export] Hint Resolve IoK8sApiCoreV1QuobyteVolumeSource_represents : represents.
Lemma IoK8sApiCoreV1RBDVolumeSource_represents `{Pydantic} b :
  Represents b (TRef "io.k8s.api.core.v1.RBDVolumeSource")
    (Model IoK8sApiCoreV1RBDVolumeSource.schema).
Proof. solve_represents io_k8s_api_core_v1_RBDVolumeSource. Qed.
#[export] Hint Resolve IoK8sApiCoreV1RBDVolumeSource_represents : represents.
Lemma IoK8sApiCoreV1ScaleIOVolumeSource_represents `{Pydantic} b :
  Represents b (TRef "io.k8s.api.core.v1.ScaleIOVolumeSource")
    (Model IoK8sApiCoreV1ScaleIOVolumeSource.schema).
Proof. solve_represents io_k8s_api_core_v1_ScaleIOVolumeSource. Qed.
#[export] Hint Resolve IoK8sApiCoreV1ScaleIOVolumeSource_represents : represents.
Lemma IoK8sApiCoreV1SecretVolumeSource_represents `{Pydantic} b :
  Represents b (TRef "io.k8s.api.core.v1.SecretVolumeSource")
    (Model IoK8sApiCoreV1SecretVolumeSource.schema).
Proof. solve_represents io_k8s_api_core_v1_SecretVolumeSource. Qed.
#[export] Hint Resolve IoK8sApiCoreV1SecretVolumeSource_represents : represents.
Lemma IoK8sApiCoreV1StorageOSVolumeSource_represents `{Pydantic} b :
  Represents b (TRef "io.k8s.api.core.v1.StorageOSVolumeSource")
    (Model IoK8sApiCoreV1StorageOSVolumeSource.schema).
Proof. solve_represents io_k8s_api_core_v1_StorageOSVolumeSource. Qed.
#[export] Hint Resolve IoK8sApiCoreV1StorageOSVolumeSource_represents : represents.
Lemma IoK8sApiCoreV1VsphereVirtualDiskVolumeSource_represents `{Pydantic} b :
  Represents b (TRef "io.k8s.api.core.v1.VsphereVirtualDiskVolumeSource")
    (Model IoK8sApiCoreV1VsphereVirtualDiskVolumeSource.schema).
Proof. solve_represents io_k8s_api_core_v1_VsphereVirtualDiskVolumeSource. Qed.
#[export] Hint Resolve IoK8sApiCoreV1VsphereVirtualDiskVolumeSource_represents : represents.
Lemma IoK8sApiCoreV1Volume_represents `{Pydantic} b :
  Represents b (TRef "io.k8s.api.core.v1.Volume")
    (Model IoK8sApiCoreV1Volume.schema).
Proof. solve_represents io_k8s_api_core_v1_Volume. Qed.
#[export] Hint Resolve IoK8sApiCoreV1Volume_represents : represents.
Lemma IoK8sApiCoreV1PodSpec_represents `{Pydantic} b :
  Represents b (TRef "io.k8s.api.core.v1.PodSpec")
    (Model IoK8sApiCoreV1PodSpec.schema).
Proof. solve_represents io_k8s_api_core_v1_PodSpec. Qed.
#[export] Hint Resolve IoK8sApiCoreV1PodSpec_represents : represents.
Lemma IoK8sApiCoreV1PodTemplateSpec_represents `{Pydantic} b :
  Represents b (TRef "io.k8s.api.core.v1.PodTemplateSpec")
    (Model IoK8sApiCoreV1PodTemplateSpec.schema).
Proof. solve_represents io_k8s_api_core_v1_PodTemplateSpec. Qed.
#[export] Hint Resolve IoK8sApiCoreV1PodTemplateSpec_represents : represents.
Lemma IoK8sApiCoreV1PersistentVolumeClaimCondition_represents `{Pydantic} b :
  Represents b (TRef "io.k8s.api.core.v1.PersistentVolumeClaimCondition")
    (Model IoK8sApiCoreV1PersistentVolumeClaimCondition.schema).
Proof. solve_represents io_k8s_api_core_v1_PersistentVolumeClaimCondition. Qed.
#[export] Hint Resolve IoK8sApiCoreV1PersistentVolumeClaimCondition_represents : represents.
Lemma IoK8sApiCoreV1VolumeHealthCondition_represents `{Pydantic} b :
  Represents b (TRef "io.k8s.api.core.v1.VolumeHealthCondition")
    (Model IoK8sApiCoreV1VolumeHealthCondition.schema).
Proof. solve_represents io_k8s_api_core_v1_VolumeHealthCondition. Qed.
#[export] Hint Resolve IoK8sApiCoreV1VolumeHealthCondition_represents : represents.
Lemma IoK8sApiCoreV1VolumeHealthStatus_represents `{Pydantic} b :
  Represents b (TRef "io.k8s.api.core.v1.VolumeHealthStatus")
    (Model IoK8sApiCoreV1VolumeHealthStatus.schema).
Proof. solve_represents io_k8s_api_core_v1_VolumeHealthStatus. Qed.
#[export] Hint Resolve IoK8sApiCoreV1VolumeHealthStatus_represents : represents.
Lemma IoK8sApiCoreV1ModifyVolumeStatus_represents `{Pydantic} b :
  Represents b (TRef "io.k8s.api.core.v1.ModifyVolumeStatus")
    (Model IoK8sApiCoreV1ModifyVolumeStatus.schema).
Proof. solve_represents io_k8s_api_core_v1_ModifyVolumeStatus. Qed.
#[export] Hint Resolve IoK8sApiCoreV1ModifyVolumeStatus_represents : represents.
Lemma IoK8sApiCoreV1PersistentVolumeClaimStatus_represents `{Pydantic} b :
  Represents b (TRef "io.k8s.api.core.v1.PersistentVolumeClaimStatus")
    (Model IoK8sApiCoreV1PersistentVolumeClaimStatus.schema).
Proof. solve_represents io_k8s_api_core_v1_PersistentVolumeClaimStatus. Qed.
#[export] Hint Resolve IoK8sApiCoreV1PersistentVolumeClaimStatus_represents : represents.
Lemma IoK8sApiCoreV1PersistentVolumeClaim_represents `{Pydantic} b :
  Represents b (TRef "io.k8s.api.core.v1.PersistentVolumeClaim")
    (Model IoK8sApiCoreV1PersistentVolumeClaim.schema).
Proof. solve_represents io_k8s_api_core_v1_PersistentVolumeClaim. Qed.
#[export] Hint Resolve IoK8sApiCoreV1PersistentVolumeClaim_represents : represents.
Lemma SchedulingV1beta1NetworkTopologySpec_represents `{Pydantic} b :
  Represents b (TRef "scheduling.v1beta1.NetworkTopologySpec")
    (Model SchedulingV1beta1NetworkTopologySpec.schema).
Proof. solve_represents scheduling_v1beta1_NetworkTopologySpec. Qed.
#[export] Hint Resolve SchedulingV1beta1NetworkTopologySpec_represents : represents.
Lemma JobsetV1alpha2Coordinator_represents `{Pydantic} b :
  Represents b (TRef "jobset.v1alpha2.Coordinator")
    (Model JobsetV1alpha2Coordinator.schema).
Proof. solve_represents jobset_v1alpha2_Coordinator. Qed.
#[export] Hint Resolve JobsetV1alpha2Coordinator_represents : represents.
Lemma JobsetV1alpha2FailurePolicyRule_represents `{Pydantic} b :
  Represents b (TRef "jobset.v1alpha2.FailurePolicyRule")
    (Model JobsetV1alpha2FailurePolicyRule.schema).
Proof. solve_represents jobset_v1alpha2_FailurePolicyRule. Qed.
#[export] Hint Resolve JobsetV1alpha2FailurePolicyRule_represents : represents.
Lemma JobsetV1alpha2FailurePolicy_represents `{Pydantic} b :
  Represents b (TRef "jobset.v1alpha2.FailurePolicy")
    (Model JobsetV1alpha2FailurePolicy.schema).
Proof. solve_represents jobset_v1alpha2_FailurePolicy. Qed.
#[export] Hint Resolve JobsetV1alpha2FailurePolicy_represents : represents.
Lemma JobsetV1alpha2Network_represents `{Pydantic} b :
  Represents b (TRef "jobset.v1alpha2.Network")
    (Model JobsetV1alpha2Network.schema).
Proof. solve_represents jobset_v1alpha2_Network. Qed.
#[export] Hint Resolve JobsetV1alpha2Network_represents : represents.
Lemma JobsetV1alpha2DependsOn_represents `{Pydantic} b :
  Represents b (TRef "jobset.v1alpha2.DependsOn")
    (Model JobsetV1alpha2DependsOn.schema).
Proof. solve_represents jobset_v1alpha2_DependsOn. Qed.
#[export] Hint Resolve JobsetV1alpha2DependsOn_represents : represents.
Lemma IoK8sApiBatchV1PodFailurePolicyOnExitCodesRequirement_represents `{Pydantic} b :
  Represents b (TRef "io.k8s.api.batch.v1.PodFailurePolicyOnExitCodesRequirement")
    (Model IoK8sApiBatchV1PodFailurePolicyOnExitCodesRequirement.schema).
Proof. solve_represents io_k8s_api_batch_v1_PodFailurePolicyOnExitCodesRequirement. Qed.
#[export] Hint Resolve IoK8sApiBatchV1PodFailurePolicyOnExitCodesRequirement_represents : represents.
Lemma IoK8sApiBatchV1PodFailurePolicyOnPodConditionsPattern_represents `{Pydantic} b :
  Represents b (TRef "io.k8s.api.batch.v1.PodFailurePolicyOnPodConditionsPattern")
    (Model IoK8sApiBatchV1PodFailurePolicyOnPodConditionsPattern.schema).
Proof. solve_represents io_k8s_api_batch_v1_PodFailurePolicyOnPodConditionsPattern. Qed.
#[export] Hint Resolve IoK8sApiBatchV1PodFailurePolicyOnPodConditionsPattern_represents : represents.
Lemma IoK8sApiBatchV1PodFailurePolicyRule_represents `{Pydantic} b :
  Represents b (TRef "io.k8s.api.batch.v1.PodFailurePolicyRule")
    (Model IoK8sApiBatchV1PodFailurePolicyRule.schema).
Proof. solve_represents io_k8s_api_batch_v1_PodFailurePolicyRule. Qed.
#[export] Hint Resolve IoK8sApiBatchV1PodFailurePolicyRule_represents : represents.
Lemma IoK8sApiBatchV1PodFailurePolicy_represents `{Pydantic} b :
  Represents b (TRef "io.k8s.api.batch.v1.PodFailurePolicy")
    (Model IoK8sApiBatchV1PodFailurePolicy.schema).
Proof. solve_represents io_k8s_api_batch_v1_PodFailurePolicy. Qed.
#[export] Hint Resolve IoK8sApiBatchV1PodFailurePolicy_represents : represents.
Lemma IoK8sApiSchedulingV1alpha3WorkloadPodGroupDisruptionMode_represents `{Pydantic} b :
  Represents b (TRef "io.k8s.api.scheduling.v1alpha3.WorkloadPodGroupDisruptionMode")
    (Model IoK8sApiSchedulingV1alpha3WorkloadPodGroupDisruptionMode.schema).
Proof. solve_represents io_k8s_api_scheduling_v1alpha3_WorkloadPodGroupDisruptionMode. Qed.
#[export] Hint Resolve IoK8sApiSchedulingV1alpha3WorkloadPodGroupDisruptionMode_represents : represents.
Lemma IoK8sApiSchedulingV1alpha3WorkloadPodGroupResourceClaim_represents `{Pydantic} b :
  Represents b (TRef "io.k8s.api.scheduling.v1alpha3.WorkloadPodGroupResourceClaim")
    (Model IoK8sApiSchedulingV1alpha3WorkloadPodGroupResourceClaim.schema).
Proof. solve_represents io_k8s_api_scheduling_v1alpha3_WorkloadPodGroupResourceClaim. Qed.
#[export] Hint Resolve IoK8sApiSchedulingV1alpha3WorkloadPodGroupResourceClaim_represents : represents.
Lemma IoK8sApiSchedulingV1alpha3TopologyConstraint_represents `{Pydantic} b :
  Represents b (TRef "io.k8s.api.scheduling.v1alpha3.TopologyConstraint")
    (Model IoK8sApiSchedulingV1alpha3TopologyConstraint.schema).
Proof. solve_represents io_k8s_api_scheduling_v1alpha3_TopologyConstraint. Qed.
#[export] Hint Resolve IoK8sApiSchedulingV1alpha3TopologyConstraint_represents : represents.
Lemma IoK8sApiSchedulingV1alpha3WorkloadPodGroupSchedulingConstraints_represents `{Pydantic} b :
  Represents b (TRef "io.k8s.api.scheduling.v1alpha3.WorkloadPodGroupSchedulingConstraints")
    (Model IoK8sApiSchedulingV1alpha3WorkloadPodGroupSchedulingConstraints.schema).
Proof. solve_represents io_k8s_api_scheduling_v1alpha3_WorkloadPodGroupSchedulingConstraints. Qed.
#[export] Hint Resolve IoK8sApiSchedulingV1alpha3WorkloadPodGroupSchedulingConstraints_represents : represents.
Lemma IoK8sApiSchedulingV1alpha3WorkloadPodGroupGangSchedulingPolicy_represents `{Pydantic} b :
  Represents b (TRef "io.k8s.api.scheduling.v1alpha3.WorkloadPodGroupGangSchedulingPolicy")
    (Model IoK8sApiSchedulingV1alpha3WorkloadPodGroupGangSchedulingPolicy.schema).
Proof. solve_represents io_k8s_api_scheduling_v1alpha3_WorkloadPodGroupGangSchedulingPolicy. Qed.
#[export] Hint Resolve IoK8sApiSchedulingV1alpha3WorkloadPodGroupGangSchedulingPolicy_represents : represents.
Lemma IoK8sApiSchedulingV1alpha3WorkloadPodGroupSchedulingPolicy_represents `{Pydantic} b :
  Represents b (TRef "io.k8s.api.scheduling.v1alpha3.WorkloadPodGroupSchedulingPolicy")
    (Model IoK8sApiSchedulingV1alpha3WorkloadPodGroupSchedulingPolicy.schema).
Proof. solve_represents io_k8s_api_scheduling_v1alpha3_WorkloadPodGroupSchedulingPolicy. Qed.
#[export] Hint Resolve IoK8sApiSchedulingV1alpha3WorkloadPodGroupSchedulingPolicy_represents : represents.
Lemma IoK8sApiBatchV1JobSchedulingConfiguration_represents `{Pydantic} b :
  Represents b (TRef "io.k8s.api.batch.v1.JobSchedulingConfiguration")
    (Model IoK8sApiBatchV1JobSchedulingConfiguration.schema).
Proof. solve_represents io_k8s_api_batch_v1_JobSchedulingConfiguration. Qed.
#[export] Hint Resolve IoK8sApiBatchV1JobSchedulingConfiguration_represents : represents.
Lemma IoK8sApiBatchV1SuccessPolicyRule_represents `{Pydantic} b :
  Represents b (TRef "io.k8s.api.batch.v1.SuccessPolicyRule")
    (Model IoK8sApiBatchV1SuccessPolicyRule.schema).
Proof. solve_represents io_k8s_api_batch_v1_SuccessPolicyRule. Qed.
#[export] Hint Resolve IoK8sApiBatchV1SuccessPolicyRule_represents : represents.
Lemma IoK8sApiBatchV1SuccessPolicy_represents `{Pydantic} b :
  Represents b (TRef "io.k8s.api.batch.v1.SuccessPolicy")
    (Model IoK8sApiBatchV1SuccessPolicy.schema).
Proof. solve_represents io_k8s_api_batch_v1_SuccessPolicy. Qed.
#[export] Hint Resolve IoK8sApiBatchV1SuccessPolicy_represents : represents.
Lemma IoK8sApiBatchV1JobSpec_represents `{Pydantic} b :
  Represents b (TRef "io.k8s.api.batch.v1.JobSpec")
    (Model IoK8sApiBatchV1JobSpec.schema).
Proof. solve_represents io_k8s_api_batch_v1_JobSpec. Qed.
#[export] Hint Resolve IoK8sApiBatchV1JobSpec_represents : represents.
Lemma IoK8sApiBatchV1JobTemplateSpec_represents `{Pydantic} b :
  Represents b (TRef "io.k8s.api.batch.v1.JobTemplateSpec")
    (Model IoK8sApiBatchV1JobTemplateSpec.schema).
Proof. solve_represents io_k8s_api_batch_v1_JobTemplateSpec. Qed.
#[export] Hint Resolve IoK8sApiBatchV1JobTemplateSpec_represents : represents.
Lemma JobsetV1alpha2ReplicatedJob_represents `{Pydantic} b :
  Represents b (TRef "jobset.v1alpha2.ReplicatedJob")
    (Model JobsetV1alpha2ReplicatedJob.schema).
Proof. solve_represents jobset_v1alpha2_ReplicatedJob. Qed.
#[export] Hint Resolve JobsetV1alpha2ReplicatedJob_represents : represents.
Lemma IoK8sApiSchedulingV1alpha3WorkloadCompositePodGroupDisruptionMode_represents `{Pydantic} b :
  Represents b (TRef "io.k8s.api.scheduling.v1alpha3.WorkloadCompositePodGroupDisruptionMode")
    (Model IoK8sApiSchedulingV1alpha3WorkloadCompositePodGroupDisruptionMode.schema).
Proof. solve_represents io_k8s_api_scheduling_v1alpha3_WorkloadCompositePodGroupDisruptionMode. Qed.
#[export] Hint Resolve IoK8sApiSchedulingV1alpha3WorkloadCompositePodGroupDisruptionMode_represents : represents.
Lemma JobsetV1alpha2JobScheduling_represents `{Pydantic} b :
  Represents b (TRef "jobset.v1alpha2.JobScheduling")
    (Model JobsetV1alpha2JobScheduling.schema).
Proof. solve_represents jobset_v1alpha2_JobScheduling. Qed.
#[export] Hint Resolve JobsetV1alpha2JobScheduling_represents : represents.
Lemma IoK8sApiSchedulingV1alpha3WorkloadCompositePodGroupSchedulingConstraints_represents `{Pydantic} b :
  Represents b (TRef "io.k8s.api.scheduling.v1alpha3.WorkloadCompositePodGroupSchedulingConstraints")
    (Model IoK8sApiSchedulingV1alpha3WorkloadCompositePodGroupSchedulingConstraints.schema).
Proof. solve_represents io_k8s_api_scheduling_v1alpha3_WorkloadCompositePodGroupSchedulingConstraints. Qed.
#[export] Hint Resolve IoK8sApiSchedulingV1alpha3WorkloadCompositePodGroupSchedulingConstraints_represents : represents.
Lemma IoK8sApiSchedulingV1alpha3WorkloadCompositePodGroupGangSchedulingPolicy_represents `{Pydantic} b :
  Represents b (TRef "io.k8s.api.scheduling.v1alpha3.WorkloadCompositePodGroupGangSchedulingPolicy")
    (Model IoK8sApiSchedulingV1alpha3WorkloadCompositePodGroupGangSchedulingPolicy.schema).
Proof. solve_represents io_k8s_api_scheduling_v1alpha3_WorkloadCompositePodGroupGangSchedulingPolicy. Qed.
#[export] Hint Resolve IoK8sApiSchedulingV1alpha3WorkloadCompositePodGroupGangSchedulingPolicy_represents : represents.
Lemma IoK8sApiSchedulingV1alpha3WorkloadCompositePodGroupSchedulingPolicy_represents `{Pydantic} b :
  Represents b (TRef "io.k8s.api.scheduling.v1alpha3.WorkloadCompositePodGroupSchedulingPolicy")
    (Model IoK8sApiSchedulingV1alpha3WorkloadCompositePodGroupSchedulingPolicy.schema).
Proof. solve_represents io_k8s_api_scheduling_v1alpha3_WorkloadCompositePodGroupSchedulingPolicy. Qed.
#[export] Hint Resolve IoK8sApiSchedulingV1alpha3WorkloadCompositePodGroupSchedulingPolicy_represents : represents.
Lemma JobsetV1alpha2ReplicatedJobScheduling_represents `{Pydantic} b :
  Represents b (TRef "jobset.v1alpha2.ReplicatedJobScheduling")
    (Model JobsetV1alpha2ReplicatedJobScheduling.schema).
Proof. solve_represents jobset_v1alpha2_ReplicatedJobScheduling. Qed.
#[export] Hint Resolve JobsetV1alpha2ReplicatedJobScheduling_represents : represents.
Lemma JobsetV1alpha2JobSetScheduling_represents `{Pydantic} b :
  Represents b (TRef "jobset.v1alpha2.JobSetScheduling")
    (Model JobsetV1alpha2JobSetScheduling.schema).
Proof. solve_represents jobset_v1alpha2_JobSetScheduling. Qed.
#[export] Hint Resolve JobsetV1alpha2JobSetScheduling_represents : represents.
Lemma JobsetV1alpha2StartupPolicy_represents `{Pydantic} b :
  Represents b (TRef "jobset.v1alpha2.StartupPolicy")
    (Model JobsetV1alpha2StartupPolicy.schema).
Proof. solve_represents jobset_v1alpha2_StartupPolicy. Qed.
#[export] Hint Resolve JobsetV1alpha2StartupPolicy_represents : represents.
Lemma JobsetV1alpha2SuccessPolicy_represents `{Pydantic} b :
  Represents b (TRef "jobset.v1alpha2.SuccessPolicy")
    (Model JobsetV1alpha2SuccessPolicy.schema).
Proof. solve_represents jobset_v1alpha2_SuccessPolicy. Qed.
#[export] Hint Resolve JobsetV1alpha2SuccessPolicy_represents : represents.
Lemma JobsetV1alpha2VolumeRetentionPolicy_represents `{Pydantic} b :
  Represents b (TRef "jobset.v1alpha2.VolumeRetentionPolicy")
    (Model JobsetV1alpha2VolumeRetentionPolicy.schema).
Proof. solve_represents jobset_v1alpha2_VolumeRetentionPolicy. Qed.
#[export] Hint Resolve JobsetV1alpha2VolumeRetentionPolicy_represents : represents.
Lemma JobsetV1alpha2VolumeClaimPolicy_represents `{Pydantic} b :
  Represents b (TRef "jobset.v1alpha2.VolumeClaimPolicy")
    (Model JobsetV1alpha2VolumeClaimPolicy.schema).
Proof. solve_represents jobset_v1alpha2_VolumeClaimPolicy. Qed.
#[export] Hint Resolve JobsetV1alpha2VolumeClaimPolicy_represents : represents.
Lemma JobsetV1alpha2JobSetSpec_represents `{Pydantic} b :
  Represents b (TRef "jobset.v1alpha2.JobSetSpec")
    (Model JobsetV1alpha2JobSetSpec.schema).
Proof. solve_represents jobset_v1alpha2_JobSetSpec. Qed.
#[export] Hint Resolve JobsetV1alpha2JobSetSpec_represents : represents.
Lemma TrainerV1alpha1ParameterAssignment_represents `{Pydantic} b :
  Represents b (TRef "trainer.v1alpha1.ParameterAssignment")
    (Model TrainerV1alpha1ParameterAssignment.schema).
Proof. solve_represents trainer_v1alpha1_ParameterAssignment. Qed.
#[export] Hint Resolve TrainerV1alpha1ParameterAssignment_represents : represents.
Lemma TrainerV1alpha1CategoricalSpace_represents `{Pydantic} b :
  Represents b (TRef "trainer.v1alpha1.CategoricalSpace")
    (Model TrainerV1alpha1CategoricalSpace.schema).
Proof. solve_represents trainer_v1alpha1_CategoricalSpace. Qed.
#[export] Hint Resolve TrainerV1alpha1CategoricalSpace_represents : represents.
Lemma TrainerV1alpha1FluxMLPolicySource_represents `{Pydantic} b :
  Represents b (TRef "trainer.v1alpha1.FluxMLPolicySource")
    (Model TrainerV1alpha1FluxMLPolicySource.schema).
Proof. solve_represents trainer_v1alpha1_FluxMLPolicySource. Qed.
#[export] Hint Resolve TrainerV1alpha1FluxMLPolicySource_represents : represents.
Lemma TrainerV1alpha1MPIMLPolicySource_represents `{Pydantic} b :
  Represents b (TRef "trainer.v1alpha1.MPIMLPolicySource")
    (Model TrainerV1alpha1MPIMLPolicySource.schema).
Proof. solve_represents trainer_v1alpha1_MPIMLPolicySource. Qed.
#[export] Hint Resolve TrainerV1alpha1MPIMLPolicySource_represents : represents.
Lemma TrainerV1alpha1EnvInjectionTarget_represents `{Pydantic} b :
  Represents b (TRef "trainer.v1alpha1.EnvInjectionTarget")
    (Model TrainerV1alpha1EnvInjectionTarget.schema).
Proof. solve_represents trainer_v1alpha1_EnvInjectionTarget. Qed.
#[export] Hint Resolve TrainerV1alpha1EnvInjectionTarget_represents : represents.
Lemma TrainerV1alpha1EnvInjection_represents `{Pydantic} b :
  Represents b (TRef "trainer.v1alpha1.EnvInjection")
    (Model TrainerV1alpha1EnvInjection.schema).
Proof. solve_represents trainer_v1alpha1_EnvInjection. Qed.
#[export] Hint Resolve TrainerV1alpha1EnvInjection_represents : represents.
Lemma TrainerV1alpha1TorchMLPolicySource_represents `{Pydantic} b :
  Represents b (TRef "trainer.v1alpha1.TorchMLPolicySource")
    (Model TrainerV1alpha1TorchMLPolicySource.schema).
Proof. solve_represents trainer_v1alpha1_TorchMLPolicySource. Qed.
#[export] Hint Resolve TrainerV1alpha1TorchMLPolicySource_represents : represents.
Lemma TrainerV1alpha1MLPolicy_represents `{Pydantic} b :
  Represents b (TRef "trainer.v1alpha1.MLPolicy")
    (Model TrainerV1alpha1MLPolicy.schema).
Proof. solve_represents trainer_v1alpha1_MLPolicy. Qed.
#[export] Hint Resolve TrainerV1alpha1MLPolicy_represents : represents.
Lemma TrainerV1alpha1CoschedulingPodGroupPolicySource_represents `{Pydantic} b :
  Represents b (TRef "trainer.v1alpha1.CoschedulingPodGroupPolicySource")
    (Model TrainerV1alpha1CoschedulingPodGroupPolicySource.schema).
Proof. solve_represents trainer_v1alpha1_CoschedulingPodGroupPolicySource. Qed.
#[export] Hint Resolve TrainerV1alpha1CoschedulingPodGroupPolicySource_represents : represents.
Lemma TrainerV1alpha1VolcanoPodGroupPolicySource_represents `{Pydantic} b :
  Represents b (TRef "trainer.v1alpha1.VolcanoPodGroupPolicySource")
    (Model TrainerV1alpha1VolcanoPodGroupPolicySource.schema).
Proof. solve_represents trainer_v1alpha1_VolcanoPodGroupPolicySource. Qed.
#[export] Hint Resolve TrainerV1alpha1VolcanoPodGroupPolicySource_represents : represents.
Lemma TrainerV1alpha1PodGroupPolicy_represents `{Pydantic} b :
  Represents b (TRef "trainer.v1alpha1.PodGroupPolicy")
    (Model TrainerV1alpha1PodGroupPolicy.schema).
Proof. solve_represents trainer_v1alpha1_PodGroupPolicy. Qed.
#[export] Hint Resolve TrainerV1alpha1PodGroupPolicy_represents : represents.
Lemma TrainerV1alpha1JobSetTemplateSpec_represents `{Pydantic} b :
  Represents b (TRef "trainer.v1alpha1.JobSetTemplateSpec")
    (Model TrainerV1alpha1JobSetTemplateSpec.schema).
Proof. solve_represents trainer_v1alpha1_JobSetTemplateSpec. Qed.
#[export] Hint Resolve TrainerV1alpha1JobSetTemplateSpec_represents : represents.
Lemma TrainerV1alpha1TrainingRuntimeSpec_represents `{Pydantic} b :
  Represents b (TRef "trainer.v1alpha1.TrainingRuntimeSpec")
    (Model TrainerV1alpha1TrainingRuntimeSpec.schema).
Proof. solve_represents trainer_v1alpha1_TrainingRuntimeSpec. Qed.
#[export] Hint Resolve TrainerV1alpha1TrainingRuntimeSpec_represents : represents.
Lemma TrainerV1alpha1ClusterTrainingRuntime_represents `{Pydantic} b :
  Represents b (TRef "trainer.v1alpha1.ClusterTrainingRuntime")
    (Model TrainerV1alpha1ClusterTrainingRuntime.schema).
Proof. solve_represents trainer_v1alpha1_ClusterTrainingRuntime. Qed.
#[export] Hint Resolve TrainerV1alpha1ClusterTrainingRuntime_represents : represents.
Lemma TrainerV1alpha1ClusterTrainingRuntimeList_represents `{Pydantic} b :
  Represents b (TRef "trainer.v1alpha1.ClusterTrainingRuntimeList")
    (Model TrainerV1alpha1ClusterTrainingRuntimeList.schema).
Proof. solve_represents trainer_v1alpha1_ClusterTrainingRuntimeList. Qed.
#[export] Hint Resolve TrainerV1alpha1ClusterTrainingRuntimeList_represents : represents.
Lemma TrainerV1alpha1ContainerPatch_represents `{Pydantic} b :
  Represents b (TRef "trainer.v1alpha1.ContainerPatch")
    (Model TrainerV1alpha1ContainerPatch.schema).
Proof. solve_represents trainer_v1alpha1_ContainerPatch. Qed.
#[export] Hint Resolve TrainerV1alpha1ContainerPatch_represents : represents.
Lemma TrainerV1alpha1DatasetInitializer_represents `{Pydantic} b :
  Represents b (TRef "trainer.v1alpha1.DatasetInitializer")
    (Model TrainerV1alpha1DatasetInitializer.schema).
Proof. solve_represents trainer_v1alpha1_DatasetInitializer. Qed.
#[export] Hint Resolve TrainerV1alpha1DatasetInitializer_represents : represents.
Lemma TrainerV1alpha1ModelInitializer_represents `{Pydantic} b :
  Represents b (TRef "trainer.v1alpha1.ModelInitializer")
    (Model TrainerV1alpha1ModelInitializer.schema).
Proof. solve_represents trainer_v1alpha1_ModelInitializer. Qed.
#[export] Hint Resolve TrainerV1alpha1ModelInitializer_represents : represents.
Lemma TrainerV1alpha1Initializer_represents `{Pydantic} b :
  Represents b (TRef "trainer.v1alpha1.Initializer")
    (Model TrainerV1alpha1Initializer.schema).
Proof. solve_represents trainer_v1alpha1_Initializer. Qed.
#[export] Hint Resolve TrainerV1alpha1Initializer_represents : represents.
Lemma TrainerV1alpha1PodSpecPatch_represents `{Pydantic} b :
  Represents b (TRef "trainer.v1alpha1.PodSpecPatch")
    (Model TrainerV1alpha1PodSpecPatch.schema).
Proof. solve_represents trainer_v1alpha1_PodSpecPatch. Qed.
#[export] Hint Resolve TrainerV1alpha1PodSpecPatch_represents : represents.
Lemma TrainerV1alpha1PodTemplatePatch_represents `{Pydantic} b :
  Represents b (TRef "trainer.v1alpha1.PodTemplatePatch")
    (Model TrainerV1alpha1PodTemplatePatch.schema).
Proof. solve_represents trainer_v1alpha1_PodTemplatePatch. Qed.
#[export] Hint Resolve TrainerV1alpha1PodTemplatePatch_represents : represents.
Lemma TrainerV1alpha1JobSpecPatch_represents `{Pydantic} b :
  Represents b (TRef "trainer.v1alpha1.JobSpecPatch")
    (Model TrainerV1alpha1JobSpecPatch.schema).
Proof. solve_represents trainer_v1alpha1_JobSpecPatch. Qed.
#[export] Hint Resolve TrainerV1alpha1JobSpecPatch_represents : represents.
Lemma TrainerV1alpha1JobTemplatePatch_represents `{Pydantic} b :
  Represents b (TRef "trainer.v1alpha1.JobTemplatePatch")
    (Model TrainerV1alpha1JobTemplatePatch.schema).
Proof. solve_represents trainer_v1alpha1_JobTemplatePatch. Qed.
#[export] Hint Resolve TrainerV1alpha1JobTemplatePatch_represents : represents.
Lemma TrainerV1alpha1ReplicatedJobPatch_represents `{Pydantic} b :
  Represents b (TRef "trainer.v1alpha1.ReplicatedJobPatch")
    (Model TrainerV1alpha1ReplicatedJobPatch.schema).
Proof. solve_represents trainer_v1alpha1_ReplicatedJobPatch. Qed.
#[export] Hint Resolve TrainerV1alpha1ReplicatedJobPatch_represents : represents.
Lemma TrainerV1alpha1JobSetSpecPatch_represents `{Pydantic} b :
  Represents b (TRef "trainer.v1alpha1.JobSetSpecPatch")
    (Model TrainerV1alpha1JobSetSpecPatch.schema).
Proof. solve_represents trainer_v1alpha1_JobSetSpecPatch. Qed.
#[export] Hint Resolve TrainerV1alpha1JobSetSpecPatch_represents : represents.
Lemma TrainerV1alpha1JobSetTemplatePatch_represents `{Pydantic} b :
  Represents b (TRef "trainer.v1alpha1.JobSetTemplatePatch")
    (Model TrainerV1alpha1JobSetTemplatePatch.schema).
Proof. solve_represents trainer_v1alpha1_JobSetTemplatePatch. Qed.
#[export] Hint Resolve TrainerV1alpha1JobSetTemplatePatch_represents : represents.
Lemma TrainerV1alpha1JobStatus_represents `{Pydantic} b :
  Represents b (TRef "trainer.v1alpha1.JobStatus")
    (Model TrainerV1alpha1JobStatus.schema).
Proof. solve_represents trainer_v1alpha1_JobStatus. Qed.
#[export] Hint Resolve TrainerV1alpha1JobStatus_represents : represents.
Lemma TrainerV1alpha1LogUniformSpace_represents `{Pydantic} b :
  Represents b (TRef "trainer.v1alpha1.LogUniformSpace")
    (Model TrainerV1alpha1LogUniformSpace.schema).
Proof. solve_represents trainer_v1alpha1_LogUniformSpace. Qed.
#[export] Hint Resolve TrainerV1alpha1LogUniformSpace_represents : represents.
Lemma TrainerV1alpha1Metric_represents `{Pydantic} b :
  Represents b (TRef "trainer.v1alpha1.Metric")
    (Model TrainerV1alpha1Metric.schema).
Proof. solve_represents trainer_v1alpha1_Metric. Qed.
#[export] Hint Resolve TrainerV1alpha1Metric_represents : represents.
Lemma TrainerV1alpha1MLPolicySource_represents `{Pydantic} b :
  Represents b (TRef "trainer.v1alpha1.MLPolicySource")
    (Model TrainerV1alpha1MLPolicySource.schema).
Proof. solve_represents trainer_v1alpha1_MLPolicySource. Qed.
#[export] Hint Resolve TrainerV1alpha1MLPolicySource_represents : represents.
Lemma TrainerV1alpha1Objective_represents `{Pydantic} b :
  Represents b (TRef "trainer.v1alpha1.Objective")
    (Model TrainerV1alpha1Objective.schema).
Proof. solve_represents trainer_v1alpha1_Objective. Qed.
#[export] Hint Resolve TrainerV1alpha1Objective_represents : represents.
Lemma TrainerV1alpha1UniformSpace_represents `{Pydantic} b :
  Represents b (TRef "trainer.v1alpha1.UniformSpace")
    (Model TrainerV1alpha1UniformSpace.schema).
Proof. solve_represents trainer_v1alpha1_UniformSpace. Qed.
#[export] Hint Resolve TrainerV1alpha1UniformSpace_represents : represents.
Lemma TrainerV1alpha1SearchSpace_represents `{Pydantic} b :
  Represents b (TRef "trainer.v1alpha1.SearchSpace")
    (Model TrainerV1alpha1SearchSpace.schema).
Proof. solve_represents trainer_v1alpha1_SearchSpace. Qed.
#[export] Hint Resolve TrainerV1alpha1SearchSpace_represents : represents.
Lemma TrainerV1alpha1Parameter_represents `{Pydantic} b :
  Represents b (TRef "trainer.v1alpha1.Parameter")
    (Model TrainerV1alpha1Parameter.schema).
Proof. solve_represents trainer_v1alpha1_Parameter. Qed.
#[export] Hint Resolve TrainerV1alpha1Parameter_represents : represents.
Lemma TrainerV1alpha1RandomAlgorithm_represents `{Pydantic} b :
  Represents b (TRef "trainer.v1alpha1.RandomAlgorithm")
    (Model TrainerV1alpha1RandomAlgorithm.schema).
Proof. solve_represents trainer_v1alpha1_RandomAlgorithm. Qed.
#[export] Hint Resolve TrainerV1alpha1RandomAlgorithm_represents : represents.
Lemma TrainerV1alpha1SearchAlgorithm_represents `{Pydantic} b :
  Represents b (TRef "trainer.v1alpha1.SearchAlgorithm")
    (Model TrainerV1alpha1SearchAlgorithm.schema).
Proof. solve_represents trainer_v1alpha1_SearchAlgorithm. Qed.
#[export] Hint Resolve TrainerV1alpha1SearchAlgorithm_represents : represents.
Lemma TrainerV1alpha1TrainingRuntimeSpecPatch_represents `{Pydantic} b :
  Represents b (TRef "trainer.v1alpha1.TrainingRuntimeSpecPatch")
    (Model TrainerV1alpha1TrainingRuntimeSpecPatch.schema).
Proof. solve_represents trainer_v1alpha1_TrainingRuntimeSpecPatch. Qed.
#[export] Hint Resolve TrainerV1alpha1TrainingRuntimeSpecPatch_represents : represents.
Lemma TrainerV1alpha1RuntimePatch_represents `{Pydantic} b :
  Represents b (TRef "trainer.v1alpha1.RuntimePatch")
    (Model TrainerV1alpha1RuntimePatch.schema).
Proof. solve_represents trainer_v1alpha1_RuntimePatch. Qed.
#[export] Hint Resolve TrainerV1alpha1RuntimePatch_represents : represents.
Lemma TrainerV1alpha1RuntimeRef_represents `{Pydantic} b :
  Represents b (TRef "trainer.v1alpha1.RuntimeRef")
    (Model TrainerV1alpha1RuntimeRef.schema).
Proof. solve_represents trainer_v1alpha1_RuntimeRef. Qed.
#[export] Hint Resolve TrainerV1alpha1RuntimeRef_represents : represents.
Lemma TrainerV1alpha1TrainerResourceClaim_represents `{Pydantic} b :
  Represents b (TRef "trainer.v1alpha1.TrainerResourceClaim")
    (Model TrainerV1alpha1TrainerResourceClaim.schema).
Proof. solve_represents trainer_v1alpha1_TrainerResourceClaim. Qed.
#[export] Hint Resolve TrainerV1alpha1TrainerResourceClaim_represents : represents.
Lemma TrainerV1alpha1Trainer_represents `{Pydantic} b :
  Represents b (TRef "trainer.v1alpha1.Trainer")
    (Model TrainerV1alpha1Trainer.schema).
Proof. solve_represents trainer_v1alpha1_Trainer. Qed.
#[export] Hint Resolve TrainerV1alpha1Trainer_represents : represents.
Lemma TrainerV1alpha1TrainJobSpec_represents `{Pydantic} b :
  Represents b (TRef "trainer.v1alpha1.TrainJobSpec")
    (Model TrainerV1alpha1TrainJobSpec.schema).
Proof. solve_represents trainer_v1alpha1_TrainJobSpec. Qed.
#[export] Hint Resolve TrainerV1alpha1TrainJobSpec_represents : represents.
Lemma TrainerV1alpha1TrainJobTemplateSpec_represents `{Pydantic} b :
  Represents b (TRef "trainer.v1alpha1.TrainJobTemplateSpec")
    (Model TrainerV1alpha1TrainJobTemplateSpec.schema).
Proof. solve_represents trainer_v1alpha1_TrainJobTemplateSpec. Qed.
#[export] Hint Resolve TrainerV1alpha1TrainJobTemplateSpec_represents : represents.
Lemma TrainerV1alpha1OptimizationJobSpec_represents `{Pydantic} b :
  Represents b (TRef "trainer.v1alpha1.OptimizationJobSpec")
    (Model TrainerV1alpha1OptimizationJobSpec.schema).
Proof. solve_represents trainer_v1alpha1_OptimizationJobSpec. Qed.
#[export] Hint Resolve TrainerV1alpha1OptimizationJobSpec_represents : represents.
Lemma TrainerV1alpha1Result_represents `{Pydantic} b :
  Represents b (TRef "trainer.v1alpha1.Result")
    (Model TrainerV1alpha1Result.schema).
Proof. solve_represents trainer_v1alpha1_Result. Qed.
#[export] Hint Resolve TrainerV1alpha1Result_represents : represents.
Lemma TrainerV1alpha1OptimizationJobStatus_represents `{Pydantic} b :
  Represents b (TRef "trainer.v1alpha1.OptimizationJobStatus")
    (Model TrainerV1alpha1OptimizationJobStatus.schema).
Proof. solve_represents trainer_v1alpha1_OptimizationJobStatus. Qed.
#[export] Hint Resolve TrainerV1alpha1OptimizationJobStatus_represents : represents.
Lemma TrainerV1alpha1OptimizationJob_represents `{Pydantic} b :
  Represents b (TRef "trainer.v1alpha1.OptimizationJob")
    (Model TrainerV1alpha1OptimizationJob.schema).
Proof. solve_represents trainer_v1alpha1_OptimizationJob. Qed.
#[export] Hint Resolve TrainerV1alpha1OptimizationJob_represents : represents.
Lemma TrainerV1alpha1OptimizationJobList_represents `{Pydantic} b :
  Represents b (TRef "trainer.v1alpha1.OptimizationJobList")
    (Model TrainerV1alpha1OptimizationJobList.schema).
Proof. solve_represents trainer_v1alpha1_OptimizationJobList. Qed.
#[export] Hint Resolve TrainerV1alpha1OptimizationJobList_represents : represents.
Lemma TrainerV1alpha1PodGroupPolicySource_represents `{Pydantic} b :
  Represents b (TRef "trainer.v1alpha1.PodGroupPolicySource")
    (Model TrainerV1alpha1PodGroupPolicySource.schema).
Proof. solve_represents trainer_v1alpha1_PodGroupPolicySource. Qed.
#[export] Hint Resolve TrainerV1alpha1PodGroupPolicySource_represents : represents.
Lemma TrainerV1alpha1TrainerStatus_represents `{Pydantic} b :
  Represents b (TRef "trainer.v1alpha1.TrainerStatus")
    (Model TrainerV1alpha1TrainerStatus.schema).
Proof. solve_represents trainer_v1alpha1_TrainerStatus. Qed.
#[export] Hint Resolve TrainerV1alpha1TrainerStatus_represents : represents.
Lemma TrainerV1alpha1TrainJobStatus_represents `{Pydantic} b :
  Represents b (TRef "trainer.v1alpha1.TrainJobStatus")
    (Model TrainerV1alpha1TrainJobStatus.schema).
Proof. solve_represents trainer_v1alpha1_TrainJobStatus. Qed.
#[export] Hint Resolve TrainerV1alpha1TrainJobStatus_represents : represents.
Lemma TrainerV1alpha1TrainJob_represents `{Pydantic} b :
  Represents b (TRef "trainer.v1alpha1.TrainJob")
    (Model TrainerV1alpha1TrainJob.schema).
Proof. solve_represents trainer_v1alpha1_TrainJob. Qed.
#[export] Hint Resolve TrainerV1alpha1TrainJob_represents : represents.
Lemma TrainerV1alpha1TrainJobList_represents `{Pydantic} b :
  Represents b (TRef "trainer.v1alpha1.TrainJobList")
    (Model TrainerV1alpha1TrainJobList.schema).
Proof. solve_represents trainer_v1alpha1_TrainJobList. Qed.
#[export] Hint Resolve TrainerV1alpha1TrainJobList_represents : represents.
Lemma TrainerV1alpha1TrainingRuntime_represents `{Pydantic} b :
  Represents b (TRef "trainer.v1alpha1.TrainingRuntime")
    (Model TrainerV1alpha1TrainingRuntime.schema).
Proof. solve_represents trainer_v1alpha1_TrainingRuntime. Qed.
#[export] Hint Resolve TrainerV1alpha1TrainingRuntime_represents : represents.
Lemma TrainerV1alpha1TrainingRuntimeList_represents `{Pydantic} b :
  Represents b (TRef "trainer.v1alpha1.TrainingRuntimeList")
    (Model TrainerV1alpha1TrainingRuntimeList.schema).
Proof. solve_represents trainer_v1alpha1_TrainingRuntimeList. Qed.
#[export] Hint Resolve TrainerV1alpha1TrainingRuntimeList_represents : represents.
Lemma TrainerV1alpha1UpdateTrainJobStatusRequest_represents `{Pydantic} b :
  Represents b (TRef "trainer.v1alpha1.UpdateTrainJobStatusRequest")
    (Model TrainerV1alpha1UpdateTrainJobStatusRequest.schema).
Proof. solve_represents trainer_v1alpha1_UpdateTrainJobStatusRequest. Qed.
#[export] Hint Resolve TrainerV1alpha1UpdateTrainJobStatusRequest_represents : represents.
Lemma IoK8sApimachineryPkgApisMetaV1GroupVersionForDiscovery_represents `{Pydantic} b :
  Represents b (TRef "io.k8s.apimachinery.pkg.apis.meta.v1.GroupVersionForDiscovery")
    (Model IoK8sApimachineryPkgApisMetaV1GroupVersionForDiscovery.schema).
Proof. solve_represents io_k8s_apimachinery_pkg_apis_meta_v1_GroupVersionForDiscovery. Qed.
#[export] Hint Resolve IoK8sApimachineryPkgApisMetaV1GroupVersionForDiscovery_represents : represents.
Lemma IoK8sApimachineryPkgApisMetaV1ServerAddressByClientCIDR_represents `{Pydantic} b :
  Represents b (TRef "io.k8s.apimachinery.pkg.apis.meta.v1.ServerAddressByClientCIDR")
    (Model IoK8sApimachineryPkgApisMetaV1ServerAddressByClientCIDR.schema).
Proof. solve_represents io_k8s_apimachinery_pkg_apis_meta_v1_ServerAddressByClientCIDR. Qed.
#[export] Hint Resolve IoK8sApimachineryPkgApisMetaV1ServerAddressByClientCIDR_represents : represents.
Lemma IoK8sApimachineryPkgApisMetaV1APIGroup_represents `{Pydantic} b :
  Represents b (TRef "io.k8s.apimachinery.pkg.apis.meta.v1.APIGroup")
    (Model IoK8sApimachineryPkgApisMetaV1APIGroup.schema).
Proof. solve_represents io_k8s_apimachinery_pkg_apis_meta_v1_APIGroup. Qed.
#[export] Hint Resolve IoK8sApimachineryPkgApisMetaV1APIGroup_represents : represents.
Lemma IoK8sApimachineryPkgApisMetaV1APIGroupList_represents `{Pydantic} b :
  Represents b (TRef "io.k8s.apimachinery.pkg.apis.meta.v1.APIGroupList")
    (Model IoK8sApimachineryPkgApisMetaV1APIGroupList.schema).
Proof. solve_represents io_k8s_apimachinery_pkg_apis_meta_v1_APIGroupList. Qed.
#[export] Hint Resolve IoK8sApimachineryPkgApisMetaV1APIGroupList_represents : represents.
Lemma IoK8sApimachineryPkgApisMetaV1APIResource_represents `{Pydantic} b :
  Represents b (TRef "io.k8s.apimachinery.pkg.apis.meta.v1.APIResource")
    (Model IoK8sApimachineryPkgApisMetaV1APIResource.schema).
Proof. solve_represents io_k8s_apimachinery_pkg_apis_meta_v1_APIResource. Qed.
#[export] Hint Resolve IoK8sApimachineryPkgApisMetaV1APIResource_represents : represents.
Lemma IoK8sApimachineryPkgApisMetaV1APIResourceList_represents `{Pydantic} b :
  Represents b (TRef "io.k8s.apimachinery.pkg.apis.meta.v1.APIResourceList")
    (Model IoK8sApimachineryPkgApisMetaV1APIResourceList.schema).
Proof. solve_represents io_k8s_apimachinery_pkg_apis_meta_v1_APIResourceList. Qed.
#[export] Hint Resolve IoK8sApimachineryPkgApisMetaV1APIResourceList_represents : represents.
Lemma IoK8sApimachineryPkgApisMetaV1APIVersions_represents `{Pydantic} b :
  Represents b (TRef "io.k8s.apimachinery.pkg.apis.meta.v1.APIVersions")
    (Model IoK8sApimachineryPkgApisMetaV1APIVersions.schema).
Proof. solve_represents io_k8s_apimachinery_pkg_apis_meta_v1_APIVersions. Qed.
#[export] Hint Resolve IoK8sApimachineryPkgApisMetaV1APIVersions_represents : represents.
Lemma IoK8sApimachineryPkgApisMetaV1ApplyOptions_represents `{Pydantic} b :
  Represents b (TRef "io.k8s.apimachinery.pkg.apis.meta.v1.ApplyOptions")
    (Model IoK8sApimachineryPkgApisMetaV1ApplyOptions.schema).
Proof. solve_represents io_k8s_apimachinery_pkg_apis_meta_v1_ApplyOptions. Qed.
#[export] Hint Resolve IoK8sApimachineryPkgApisMetaV1ApplyOptions_represents : represents.
Lemma IoK8sApimachineryPkgApisMetaV1CreateOptions_represents `{Pydantic} b :
  Represents b (TRef "io.k8s.apimachinery.pkg.apis.meta.v1.CreateOptions")
    (Model IoK8sApimachineryPkgApisMetaV1CreateOptions.schema).
Proof. solve_represents io_k8s_apimachinery_pkg_apis_meta_v1_CreateOptions. Qed.
#[export] Hint Resolve IoK8sApimachineryPkgApisMetaV1CreateOptions_represents : represents.
Lemma IoK8sApimachineryPkgApisMetaV1Preconditions_represents `{Pydantic} b :
  Represents b (TRef "io.k8s.apimachinery.pkg.apis.meta.v1.Preconditions")
    (Model IoK8sApimachineryPkgApisMetaV1Preconditions.schema).
Proof. solve_represents io_k8s_apimachinery_pkg_apis_meta_v1_Preconditions. Qed.
#[export] Hint Resolve IoK8sApimachineryPkgApisMetaV1Preconditions_represents : represents.
Lemma IoK8sApimachineryPkgApisMetaV1DeleteOptions_represents `{Pydantic} b :
  Represents b (TRef "io.k8s.apimachinery.pkg.apis.meta.v1.DeleteOptions")
    (Model IoK8sApimachineryPkgApisMetaV1DeleteOptions.schema).
Proof. solve_represents io_k8s_apimachinery_pkg_apis_meta_v1_DeleteOptions. Qed.
#[export] Hint Resolve IoK8sApimachineryPkgApisMetaV1DeleteOptions_represents : represents.
Lemma IoK8sApimachineryPkgApisMetaV1FieldSelectorRequirement_represents `{Pydantic} b :
  Represents b (TRef "io.k8s.apimachinery.pkg.apis.meta.v1.FieldSelectorRequirement")
    (Model IoK8sApimachineryPkgApisMetaV1FieldSelectorRequirement.schema).
Proof. solve_represents io_k8s_apimachinery_pkg_apis_meta_v1_FieldSelectorRequirement. Qed.
#[export] Hint Resolve IoK8sApimachineryPkgApisMetaV1FieldSelectorRequirement_represents : represents.
Lemma IoK8sApimachineryPkgApisMetaV1GetOptions_represents `{Pydantic} b :
  Represents b (TRef "io.k8s.apimachinery.pkg.apis.meta.v1.GetOptions")
    (Model IoK8sApimachineryPkgApisMetaV1GetOptions.schema).
Proof. solve_represents io_k8s_apimachinery_pkg_apis_meta_v1_GetOptions. Qed.
#[export] Hint Resolve IoK8sApimachineryPkgApisMetaV1GetOptions_represents : represents.
Lemma IoK8sApimachineryPkgApisMetaV1GroupKind_represents `{Pydantic} b :
  Represents b (TRef "io.k8s.apimachinery.pkg.apis.meta.v1.GroupKind")
    (Model IoK8sApimachineryPkgApisMetaV1GroupKind.schema).
Proof. solve_represents io_k8s_apimachinery_pkg_apis_meta_v1_GroupKind. Qed.
#[export] Hint Resolve IoK8sApimachineryPkgApisMetaV1GroupKind_represents : represents.
Lemma IoK8sApimachineryPkgApisMetaV1GroupResource_represents `{Pydantic} b :
  Represents b (TRef "io.k8s.apimachinery.pkg.apis.meta.v1.GroupResource")
    (Model IoK8sApimachineryPkgApisMetaV1GroupResource.schema).
Proof. solve_represents io_k8s_apimachinery_pkg_apis_meta_v1_GroupResource. Qed.
#[export] Hint Resolve IoK8sApimachineryPkgApisMetaV1GroupResource_represents : represents.
Lemma IoK8sApimachineryPkgApisMetaV1GroupVersion_represents `{Pydantic} b :
  Represents b (TRef "io.k8s.apimachinery.pkg.apis.meta.v1.GroupVersion")
    (Model IoK8sApimachineryPkgApisMetaV1GroupVersion.schema).
Proof. solve_represents io_k8s_apimachinery_pkg_apis_meta_v1_GroupVersion. Qed.
#[export] Hint Resolve IoK8sApimachineryPkgApisMetaV1GroupVersion_represents : represents.
Lemma IoK8sApimachineryPkgApisMetaV1GroupVersionKind_represents `{Pydantic} b :
  Represents b (TRef "io.k8s.apimachinery.pkg.apis.meta.v1.GroupVersionKind")
    (Model IoK8sApimachineryPkgApisMetaV1GroupVersionKind.schema).
Proof. solve_represents io_k8s_apimachinery_pkg_apis_meta_v1_GroupVersionKind. Qed.
#[export] Hint Resolve IoK8sApimachineryPkgApisMetaV1GroupVersionKind_represents : represents.
Lemma IoK8sApimachineryPkgApisMetaV1GroupVersionResource_represents `{Pydantic} b :
  Represents b (TRef "io.k8s.apimachinery.pkg.apis.meta.v1.GroupVersionResource")
    (Model IoK8sApimachineryPkgApisMetaV1GroupVersionResource.schema).
Proof. solve_represents io_k8s_apimachinery_pkg_apis_meta_v1_GroupVersionResource. Qed.
#[export] Hint Resolve IoK8sApimachineryPkgApisMetaV1GroupVersionResource_represents : represents.
Lemma IoK8sApimachineryPkgApisMetaV1List_represents `{Pydantic} b :
  Represents b (TRef "io.k8s.apimachinery.pkg.apis.meta.v1.List")
    (Model IoK8sApimachineryPkgApisMetaV1List.schema).
Proof. solve_represents io_k8s_apimachinery_pkg_apis_meta_v1_List. Qed.
#[export] Hint Resolve IoK8sApimachineryPkgApisMetaV1List_represents : represents.
Lemma IoK8sApimachineryPkgApisMetaV1ListOptions_represents `{Pydantic} b :
  Represents b (TRef "io.k8s.apimachinery.pkg.apis.meta.v1.ListOptions")
    (Model IoK8sApimachineryPkgApisMetaV1ListOptions.schema).
Proof. solve_represents io_k8s_apimachinery_pkg_apis_meta_v1_ListOptions. Qed.
#[export] Hint Resolve IoK8sApimachineryPkgApisMetaV1ListOptions_represents : represents.
Lemma IoK8sApimachineryPkgApisMetaV1PartialObjectMetadata_represents `{Pydantic} b :
  Represents b (TRef "io.k8s.apimachinery.pkg.apis.meta.v1.PartialObjectMetadata")
    (Model IoK8sApimachineryPkgApisMetaV1PartialObjectMetadata.schema).
Proof. solve_represents io_k8s_apimachinery_pkg_apis_meta_v1_PartialObjectMetadata. Qed.
#[export] Hint Resolve IoK8sApimachineryPkgApisMetaV1PartialObjectMetadata_represents : represents.
Lemma IoK8sApimachineryPkgApisMetaV1PartialObjectMetadataList_represents `{Pydantic} b :
  Represents b (TRef "io.k8s.apimachinery.pkg.apis.meta.v1.PartialObjectMetadataList")
    (Model IoK8sApimachineryPkgApisMetaV1PartialObjectMetadataList.schema).
Proof. solve_represents io_k8s_apimachinery_pkg_apis_meta_v1_PartialObjectMetadataList. Qed.
#[export] Hint Resolve IoK8sApimachineryPkgApisMetaV1PartialObjectMetadataList_represents : represents.
Lemma IoK8sApimachineryPkgApisMetaV1PatchOptions_represents `{Pydantic} b :
  Represents b (TRef "io.k8s.apimachinery.pkg.apis.meta.v1.PatchOptions")
    (Model IoK8sApimachineryPkgApisMetaV1PatchOptions.schema).
Proof. solve_represents io_k8s_apimachinery_pkg_apis_meta_v1_PatchOptions. Qed.
#[export] Hint Resolve IoK8sApimachineryPkgApisMetaV1PatchOptions_represents : represents.
Lemma IoK8sApimachineryPkgApisMetaV1RootPaths_represents `{Pydantic} b :
  Represents b (TRef "io.k8s.apimachinery.pkg.apis.meta.v1.RootPaths")
    (Model IoK8sApimachineryPkgApisMetaV1RootPaths.schema).
Proof. solve_represents io_k8s_apimachinery_pkg_apis_meta_v1_RootPaths. Qed.
#[export] Hint Resolve IoK8sApimachineryPkgApisMetaV1RootPaths_represents : represents.
Lemma IoK8sApimachineryPkgApisMetaV1StatusCause_represents `{Pydantic} b :
  Represents b (TRef "io.k8s.apimachinery.pkg.apis.meta.v1.StatusCause")
    (Model IoK8sApimachineryPkgApisMetaV1StatusCause.schema).
Proof. solve_represents io_k8s_apimachinery_pkg_apis_meta_v1_StatusCause. Qed.
#[export] Hint Resolve IoK8sApimachineryPkgApisMetaV1StatusCause_represents : represents.
Lemma IoK8sApimachineryPkgApisMetaV1StatusDetails_represents `{Pydantic} b :
  Represents b (TRef "io.k8s.apimachinery.pkg.apis.meta.v1.StatusDetails")
    (Model IoK8sApimachineryPkgApisMetaV1StatusDetails.schema).
Proof. solve_represents io_k8s_apimachinery_pkg_apis_meta_v1_StatusDetails. Qed.
#[export] Hint Resolve IoK8sApimachineryPkgApisMetaV1StatusDetails_represents : represents.
Lemma IoK8sApimachineryPkgApisMetaV1Status_represents `{Pydantic} b :
  Represents b (TRef "io.k8s.apimachinery.pkg.apis.meta.v1.Status")
    (Model IoK8sApimachineryPkgApisMetaV1Status.schema).
Proof. solve_represents io_k8s_apimachinery_pkg_apis_meta_v1_Status. Qed.
#[export] Hint Resolve IoK8sApimachineryPkgApisMetaV1Status_represents : represents.
Lemma IoK8sApimachineryPkgApisMetaV1TableColumnDefinition_represents `{Pydantic} b :
  Represents b (TRef "io.k8s.apimachinery.pkg.apis.meta.v1.TableColumnDefinition")
    (Model IoK8sApimachineryPkgApisMetaV1TableColumnDefinition.schema).
Proof. solve_represents io_k8s_apimachinery_pkg_apis_meta_v1_TableColumnDefinition. Qed.
#[export] Hint Resolve IoK8sApimachineryPkgApisMetaV1TableColumnDefinition_represents : represents.
Lemma IoK8sApimachineryPkgApisMetaV1TableRowCondition_represents `{Pydantic} b :
  Represents b (TRef "io.k8s.apimachinery.pkg.apis.meta.v1.TableRowCondition")
    (Model IoK8sApimachineryPkgApisMetaV1TableRowCondition.schema).
Proof. solve_represents io_k8s_apimachinery_pkg_apis_meta_v1_TableRowCondition. Qed.
#[export] Hint Resolve IoK8sApimachineryPkgApisMetaV1TableRowCondition_represents : represents.
Lemma IoK8sApimachineryPkgApisMetaV1TableRow_represents `{Pydantic} b :
  Represents b (TRef "io.k8s.apimachinery.pkg.apis.meta.v1.TableRow")
    (Model IoK8sApimachineryPkgApisMetaV1TableRow.schema).
Proof. solve_represents io_k8s_apimachinery_pkg_apis_meta_v1_TableRow. Qed.
#[export] Hint Resolve IoK8sApimachineryPkgApisMetaV1TableRow_represents : represents.
Lemma IoK8sApimachineryPkgApisMetaV1Table_represents `{Pydantic} b :
  Represents b (TRef "io.k8s.apimachinery.pkg.apis.meta.v1.Table")
    (Model IoK8sApimachineryPkgApisMetaV1Table.schema).
Proof. solve_represents io_k8s_apimachinery_pkg_apis_meta_v1_Table. Qed.
#[export] Hint Resolve IoK8sApimachineryPkgApisMetaV1Table_represents : represents.
Lemma IoK8sApimachineryPkgApisMetaV1TableOptions_represents `{Pydantic} b :
  Represents b (TRef "io.k8s.apimachinery.pkg.apis.meta.v1.TableOptions")
    (Model IoK8sApimachineryPkgApisMetaV1TableOptions.schema).
Proof. solve_represents io_k8s_apimachinery_pkg_apis_meta_v1_TableOptions. Qed.
#[export] Hint Resolve IoK8sApimachineryPkgApisMetaV1TableOptions_represents : represents.
Lemma IoK8sApimachineryPkgApisMetaV1Timestamp_represents `{Pydantic} b :
  Represents b (TRef "io.k8s.apimachinery.pkg.apis.meta.v1.Timestamp")
    (Model IoK8sApimachineryPkgApisMetaV1Timestamp.schema).
Proof. solve_represents io_k8s_apimachinery_pkg_apis_meta_v1_Timestamp. Qed.
#[export] Hint Resolve IoK8sApimachineryPkgApisMetaV1Timestamp_represents : represents.
Lemma IoK8sApimachineryPkgApisMetaV1TypeMeta_represents `{Pydantic} b :
  Represents b (TRef "io.k8s.apimachinery.pkg.apis.meta.v1.TypeMeta")
    (Model IoK8sApimachineryPkgApisMetaV1TypeMeta.schema).
Proof. solve_represents io_k8s_apimachinery_pkg_apis_meta_v1_TypeMeta. Qed.
#[export] Hint Resolve IoK8sApimachineryPkgApisMetaV1TypeMeta_represents : represents.
Lemma IoK8sApimachineryPkgApisMetaV1UpdateOptions_represents `{Pydantic} b :
  Represents b (TRef "io.k8s.apimachinery.pkg.apis.meta.v1.UpdateOptions")
    (Model IoK8sApimachineryPkgApisMetaV1UpdateOptions.schema).
Proof. solve_represents io_k8s_apimachinery_pkg_apis_meta_v1_UpdateOptions. Qed.
#[export] Hint Resolve IoK8sApimachineryPkgApisMetaV1UpdateOptions_represents : represents.
Lemma IoK8sApimachineryPkgApisMetaV1WatchEvent_represents `{Pydantic} b :
  Represents b (TRef "io.k8s.apimachinery.pkg.apis.meta.v1.WatchEvent")
    (Model IoK8sApimachineryPkgApisMetaV1WatchEvent.schema).
Proof. solve_represents io_k8s_apimachinery_pkg_apis_meta_v1_WatchEvent. Qed.
#[export] Hint Resolve IoK8sApimachineryPkgApisMetaV1WatchEvent_represents : represents.
Lemma IoK8sApimachineryPkgRuntimeTypeMeta_represents `{Pydantic} b :
  Represents b (TRef "io.k8s.apimachinery.pkg.runtime.TypeMeta")
    (Model IoK8sApimachineryPkgRuntimeTypeMeta.schema).
Proof. solve_represents io_k8s_apimachinery_pkg_runtime_TypeMeta. Qed.
#[export] Hint Resolve IoK8sApimachineryPkgRuntimeTypeMeta_represents : represents.
Lemma IoK8sApimachineryPkgRuntimeUnknown_represents `{Pydantic} b :
  Represents b (TRef "io.k8s.apimachinery.pkg.runtime.Unknown")
    (Model IoK8sApimachineryPkgRuntimeUnknown.schema).
Proof. solve_represents io_k8s_apimachinery_pkg_runtime_Unknown. Qed.
#[export] Hint Resolve IoK8sApimachineryPkgRuntimeUnknown_represents : represents.
Lemma IoK8sApiCoreV1ObjectReference_represents `{Pydantic} b :
  Represents b (TRef "io.k8s.api.core.v1.ObjectReference")
    (Model IoK8sApiCoreV1ObjectReference.schema).
Proof. solve_represents io_k8s_api_core_v1_ObjectReference. Qed.
#[export] Hint Resolve IoK8sApiCoreV1ObjectReference_represents : represents.
Lemma IoK8sApiCoreV1AttachedVolume_represents `{Pydantic} b :
  Represents b (TRef "io.k8s.api.core.v1.AttachedVolume")
    (Model IoK8sApiCoreV1AttachedVolume.schema).
Proof. solve_represents io_k8s_api_core_v1_AttachedVolume. Qed.
#[export] Hint Resolve IoK8sApiCoreV1AttachedVolume_represents : represents.
Lemma IoK8sApiCoreV1PodSignature_represents `{Pydantic} b :
  Represents b (TRef "io.k8s.api.core.v1.PodSignature")
    (Model IoK8sApiCoreV1PodSignature.schema).
Proof. solve_represents io_k8s_api_core_v1_PodSignature. Qed.
#[export] Hint Resolve IoK8sApiCoreV1PodSignature_represents : represents.
Lemma IoK8sApiCoreV1PreferAvoidPodsEntry_represents `{Pydantic} b :
  Represents b (TRef "io.k8s.api.core.v1.PreferAvoidPodsEntry")
    (Model IoK8sApiCoreV1PreferAvoidPodsEntry.schema).
Proof. solve_represents io_k8s_api_core_v1_PreferAvoidPodsEntry. Qed.
#[export] Hint Resolve IoK8sApiCoreV1PreferAvoidPodsEntry_represents : represents.
Lemma IoK8sApiCoreV1AvoidPods_represents `{Pydantic} b :
  Represents b (TRef "io.k8s.api.core.v1.AvoidPods")
    (Model IoK8sApiCoreV1AvoidPods.schema).
Proof. solve_represents io_k8s_api_core_v1_AvoidPods. Qed.
#[export] Hint Resolve IoK8sApiCoreV1AvoidPods_represents : represents.
Lemma IoK8sApiCoreV1AzureFilePersistentVolumeSource_represents `{Pydantic} b :
  Represents b (TRef "io.k8s.api.core.v1.AzureFilePersistentVolumeSource")
    (Model IoK8sApiCoreV1AzureFilePersistentVolumeSource.schema).
Proof. solve_represents io_k8s_api_core_v1_AzureFilePersistentVolumeSource. Qed.
#[export] Hint Resolve IoK8sApiCoreV1AzureFilePersistentVolumeSource_represents : represents.
Lemma IoK8sApiCoreV1Binding_represents `{Pydantic} b :
  Represents b (TRef "io.k8s.api.core.v1.Binding")
    (Model IoK8sApiCoreV1Binding.schema).
Proof. solve_represents io_k8s_api_core_v1_Binding. Qed.
#[export] Hint Resolve IoK8sApiCoreV1Binding_represents : represents.
Lemma IoK8sApiCoreV1SecretReference_represents `{Pydantic} b :
  Represents b (TRef "io.k8s.api.core.v1.SecretReference")
    (Model IoK8sApiCoreV1SecretReference.schema).
Proof. solve_represents io_k8s_api_core_v1_SecretReference. Qed.
#[export] Hint Resolve IoK8sApiCoreV1SecretReference_represents : represents.
Lemma IoK8sApiCoreV1CephFSPersistentVolumeSource_represents `{Pydantic} b :
  Represents b (TRef "io.k8s.api.core.v1.CephFSPersistentVolumeSource")
    (Model IoK8sApiCoreV1CephFSPersistentVolumeSource.schema).
Proof. solve_represents io_k8s_api_core_v1_CephFSPersistentVolumeSource. Qed.
#[export] Hint Resolve IoK8sApiCoreV1CephFSPersistentVolumeSource_represents : represents.
Lemma IoK8sApiCoreV1CinderPersistentVolumeSource_represents `{Pydantic} b :
  Represents b (TRef "io.k8s.api.core.v1.CinderPersistentVolumeSource")
    (Model IoK8sApiCoreV1CinderPersistentVolumeSource.schema).
Proof. solve_represents io_k8s_api_core_v1_CinderPersistentVolumeSource. Qed.
#[export] Hint Resolve IoK8sApiCoreV1CinderPersistentVolumeSource_represents : represents.
Lemma IoK8sApiCoreV1ClientIPConfig_represents `{Pydantic} b :
  Represents b (TRef "io.k8s.api.core.v1.ClientIPConfig")
    (Model IoK8sApiCoreV1ClientIPConfig.schema).
Proof. solve_represents io_k8s_api_core_v1_ClientIPConfig. Qed.
#[export] Hint Resolve IoK8sApiCoreV1ClientIPConfig_represents : represents.
Lemma IoK8sApiCoreV1ComponentCondition_represents `{Pydantic} b :
  Represents b (TRef "io.k8s.api.core.v1.ComponentCondition")
    (Model IoK8sApiCoreV1ComponentCondition.schema).
Proof. solve_represents io_k8s_api_core_v1_ComponentCondition. Qed.
#[export] Hint Resolve IoK8sApiCoreV1ComponentCondition_represents : represents.
Lemma IoK8sApiCoreV1ComponentStatus_represents `{Pydantic} b :
  Represents b (TRef "io.k8s.api.core.v1.ComponentStatus")
    (Model IoK8sApiCoreV1ComponentStatus.schema).
Proof. solve_represents io_k8s_api_core_v1_ComponentStatus. Qed.
#[export] Hint Resolve IoK8sApiCoreV1ComponentStatus_represents : represents.
Lemma IoK8sApiCoreV1ComponentStatusList_represents `{Pydantic} b :
  Represents b (TRef "io.k8s.api.core.v1.ComponentStatusList")
    (Model IoK8sApiCoreV1ComponentStatusList.schema).
Proof. solve_represents io_k8s_api_core_v1_ComponentStatusList. Qed.
#[export] Hint Resolve IoK8sApiCoreV1ComponentStatusList_represents : represents.
Lemma IoK8sApiCoreV1ConfigMap_represents `{Pydantic} b :
  Represents b (TRef "io.k8s.api.core.v1.ConfigMap")
    (Model IoK8sApiCoreV1ConfigMap.schema).
Proof. solve_represents io_k8s_api_core_v1_ConfigMap. Qed.
#[export] Hint Resolve IoK8sApiCoreV1ConfigMap_represents : represents.
Lemma IoK8sApiCoreV1ConfigMapList_represents `{Pydantic} b :
  Represents b (TRef "io.k8s.api.core.v1.ConfigMapList")
    (Model IoK8sApiCoreV1ConfigMapList.schema).
Proof. solve_represents io_k8s_api_core_v1_ConfigMapList. Qed.
#[export] Hint Resolve IoK8sApiCoreV1ConfigMapList_represents : represents.
Lemma IoK8sApiCoreV1ConfigMapNodeConfigSource_represents `{Pydantic} b :
  Represents b (TRef "io.k8s.api.core.v1.ConfigMapNodeConfigSource")
    (Model IoK8sApiCoreV1ConfigMapNodeConfigSource.schema).
Proof. solve_represents io_k8s_api_core_v1_ConfigMapNodeConfigSource. Qed.
#[export] Hint Resolve IoK8sApiCoreV1ConfigMapNodeConfigSource_represents : represents.
Lemma IoK8sApiCoreV1ContainerExtendedResourceRequest_represents `{Pydantic} b :
  Represents b (TRef "io.k8s.api.core.v1.ContainerExtendedResourceRequest")
    (Model IoK8sApiCoreV1ContainerExtendedResourceRequest.schema).
Proof. solve_represents io_k8s_api_core_v1_ContainerExtendedResourceRequest. Qed.
#[export] Hint Resolve IoK8sApiCoreV1ContainerExtendedResourceRequest_represents : represents.
Lemma IoK8sApiCoreV1ContainerImage_represents `{Pydantic} b :
  Represents b (TRef "io.k8s.api.core.v1.ContainerImage")
    (Model IoK8sApiCoreV1ContainerImage.schema).
Proof. solve_represents io_k8s_api_core_v1_ContainerImage. Qed.
#[export] Hint Resolve IoK8sApiCoreV1ContainerImage_represents : represents.
Lemma IoK8sApiCoreV1ContainerStateRunning_represents `{Pydantic} b :
  Represents b (TRef "io.k8s.api.core.v1.ContainerStateRunning")
    (Model IoK8sApiCoreV1ContainerStateRunning.schema).
Proof. solve_represents io_k8s_api_core_v1_ContainerStateRunning. Qed.
#[export] Hint Resolve IoK8sApiCoreV1ContainerStateRunning_represents : represents.
Lemma IoK8sApiCoreV1ContainerStateTerminated_represents `{Pydantic} b :
  Represents b (TRef "io.k8s.api.core.v1.ContainerStateTerminated")
    (Model IoK8sApiCoreV1ContainerStateTerminated.schema).
Proof. solve_represents io_k8s_api_core_v1_ContainerStateTerminated. Qed.
#[export] Hint Resolve IoK8sApiCoreV1ContainerStateTerminated_represents : represents.
Lemma IoK8sApiCoreV1ContainerStateWaiting_represents `{Pydantic} b :
  Represents b (TRef "io.k8s.api.core.v1.ContainerStateWaiting")
    (Model IoK8sApiCoreV1ContainerStateWaiting.schema).
Proof. solve_represents io_k8s_api_core_v1_ContainerStateWaiting. Qed.
#[export] Hint Resolve IoK8sApiCoreV1ContainerStateWaiting_represents : represents.
Lemma IoK8sApiCoreV1ContainerState_represents `{Pydantic} b :
  Represents b (TRef "io.k8s.api.core.v1.ContainerState")
    (Model IoK8sApiCoreV1ContainerState.schema).
Proof. solve_represents io_k8s_api_core_v1_ContainerState. Qed.
#[export] Hint Resolve IoK8sApiCoreV1ContainerState_represents : represents.
Lemma IoK8sApiCoreV1ResourceHealth_represents `{Pydantic} b :
  Represents b (TRef "io.k8s.api.core.v1.ResourceHealth")
    (Model IoK8sApiCoreV1ResourceHealth.schema).
Proof. solve_represents io_k8s_api_core_v1_ResourceHealth. Qed.
#[export] Hint Resolve IoK8sApiCoreV1ResourceHealth_represents : represents.
Lemma IoK8sApiCoreV1ResourceStatus_represents `{Pydantic} b :
  Represents b (TRef "io.k8s.api.core.v1.ResourceStatus")
    (Model IoK8sApiCoreV1ResourceStatus.schema).
Proof. solve_represents io_k8s_api_core_v1_ResourceStatus. Qed.
#[export] Hint Resolve IoK8sApiCoreV1ResourceStatus_represents : represents.
Lemma IoK8sApiCoreV1LinuxContainerUser_represents `{Pydantic} b :
  Represents b (TRef "io.k8s.api.core.v1.LinuxContainerUser")
    (Model IoK8sApiCoreV1LinuxContainerUser.schema).
Proof. solve_represents io_k8s_api_core_v1_LinuxContainerUser. Qed.
#[export] Hint Resolve IoK8sApiCoreV1LinuxContainerUser_represents : represents.
Lemma IoK8sApiCoreV1ContainerUser_represents `{Pydantic} b :
  Represents b (TRef "io.k8s.api.core.v1.ContainerUser")
    (Model IoK8sApiCoreV1ContainerUser.schema).
Proof. solve_represents io_k8s_api_core_v1_ContainerUser. Qed.
#[export] Hint Resolve IoK8sApiCoreV1ContainerUser_represents : represents.
Lemma IoK8sApiCoreV1ImageVolumeStatus_represents `{Pydantic} b :
  Represents b (TRef "io.k8s.api.core.v1.ImageVolumeStatus")
    (Model IoK8sApiCoreV1ImageVolumeStatus.schema).
Proof. solve_represents io_k8s_api_core_v1_ImageVolumeStatus. Qed.
#[export] Hint Resolve IoK8sApiCoreV1ImageVolumeStatus_represents : represents.
Lemma IoK8sApiCoreV1VolumeStatus_represents `{Pydantic} b :
  Represents b (TRef "io.k8s.api.core.v1.VolumeStatus")
    (Model IoK8sApiCoreV1VolumeStatus.schema).
Proof. solve_represents io_k8s_api_core_v1_VolumeStatus. Qed.
#[export] Hint Resolve IoK8sApiCoreV1VolumeStatus_represents : represents.
Lemma IoK8sApiCoreV1VolumeMountStatus_represents `{Pydantic} b :
  Represents b (TRef "io.k8s.api.core.v1.VolumeMountStatus")
    (Model IoK8sApiCoreV1VolumeMountStatus.schema).
Proof. solve_represents io_k8s_api_core_v1_VolumeMountStatus. Qed.
#[export] Hint Resolve IoK8sApiCoreV1VolumeMountStatus_represents : represents.
Lemma IoK8sApiCoreV1ContainerStatus_represents `{Pydantic} b :
  Represents b (TRef "io.k8s.api.core.v1.ContainerStatus")
    (Model IoK8sApiCoreV1ContainerStatus.schema).
Proof. solve_represents io_k8s_api_core_v1_ContainerStatus. Qed.
#[export] Hint Resolve IoK8sApiCoreV1ContainerStatus_represents : represents.
Lemma IoK8sApiCoreV1CSIPersistentVolumeSource_represents `{Pydantic} b :
  Represents b (TRef "io.k8s.api.core.v1.CSIPersistentVolumeSource")
    (Model IoK8sApiCoreV1CSIPersistentVolumeSource.schema).
Proof. solve_represents io_k8s_api_core_v1_CSIPersistentVolumeSource. Qed.
#[export] Hint Resolve IoK8sApiCoreV1CSIPersistentVolumeSource_represents : represents.
Lemma IoK8sApiCoreV1DaemonEndpoint_represents `{Pydantic} b :
  Represents b (TRef "io.k8s.api.core.v1.DaemonEndpoint")
    (Model IoK8sApiCoreV1DaemonEndpoint.schema).
Proof. solve_represents io_k8s_api_core_v1_DaemonEndpoint. Qed.
#[export] Hint Resolve IoK8sApiCoreV1DaemonEndpoint_represents : represents.
Lemma IoK8sApiCoreV1EndpointAddress_represents `{Pydantic} b :
  Represents b (TRef "io.k8s.api.core.v1.EndpointAddress")
    (Model IoK8sApiCoreV1EndpointAddress.schema).
Proof. solve_represents io_k8s_api_core_v1_EndpointAddress. Qed.
#[export] Hint Resolve IoK8sApiCoreV1EndpointAddress_represents : represents.
Lemma IoK8sApiCoreV1EndpointPort_represents `{Pydantic} b :
  Represents b (TRef "io.k8s.api.core.v1.EndpointPort")
    (Model IoK8sApiCoreV1EndpointPort.schema).
Proof. solve_represents io_k8s_api_core_v1_EndpointPort. Qed.
#[export] Hint Resolve IoK8sApiCoreV1EndpointPort_represents : represents.
Lemma IoK8sApiCoreV1EndpointSubset_represents `{Pydantic} b :
  Represents b (TRef "io.k8s.api.core.v1.EndpointSubset")
    (Model IoK8sApiCoreV1EndpointSubset.schema).
Proof. solve_represents io_k8s_api_core_v1_EndpointSubset. Qed.
#[export] Hint Resolve IoK8sApiCoreV1EndpointSubset_represents : represents.
Lemma IoK8sApiCoreV1Endpoints_represents `{Pydantic} b :
  Represents b (TRef "io.k8s.api.core.v1.Endpoints")
    (Model IoK8sApiCoreV1Endpoints.schema).
Proof. solve_represents io_k8s_api_core_v1_Endpoints. Qed.
#[export] Hint Resolve IoK8sApiCoreV1Endpoints_represents : represents.
Lemma IoK8sApiCoreV1EndpointsList_represents `{Pydantic} b :
  Represents b (TRef "io.k8s.api.core.v1.EndpointsList")
    (Model IoK8sApiCoreV1EndpointsList.schema).
Proof. solve_represents io_k8s_api_core_v1_EndpointsList. Qed.
#[export] Hint Resolve IoK8sApiCoreV1EndpointsList_represents : represents.
Lemma IoK8sApiCoreV1EphemeralContainerCommon_represents `{Pydantic} b :
  Represents b (TRef "io.k8s.api.core.v1.EphemeralContainerCommon")
    (Model IoK8sApiCoreV1EphemeralContainerCommon.schema).
Proof. solve_represents io_k8s_api_core_v1_EphemeralContainerCommon. Qed.
#[export] Hint Resolve IoK8sApiCoreV1EphemeralContainerCommon_represents : represents.
Lemma IoK8sApiCoreV1EventSeries_represents `{Pydantic} b :
  Represents b (TRef "io.k8s.api.core.v1.EventSeries")
    (Model IoK8sApiCoreV1EventSeries.schema).
Proof. solve_represents io_k8s_api_core_v1_EventSeries. Qed.
#[export] Hint Resolve IoK8sApiCoreV1EventSeries_represents : represents.
Lemma IoK8sApiCoreV1EventSource_represents `{Pydantic} b :
  Represents b (TRef "io.k8s.api.core.v1.EventSource")
    (Model IoK8sApiCoreV1EventSource.schema).
Proof. solve_represents io_k8s_api_core_v1_EventSource. Qed.
#[export] Hint Resolve IoK8sApiCoreV1EventSource_represents : represents.
Lemma IoK8sApiCoreV1Event_represents `{Pydantic} b :
  Represents b (TRef "io.k8s.api.core.v1.Event")
    (Model IoK8sApiCoreV1Event.schema).
Proof. solve_represents io_k8s_api_core_v1_Event. Qed.
#[export] Hint Resolve IoK8sApiCoreV1Event_represents : represents.
Lemma IoK8sApiCoreV1EventList_represents `{Pydantic} b :
  Represents b (TRef "io.k8s.api.core.v1.EventList")
    (Model IoK8sApiCoreV1EventList.schema).
Proof. solve_represents io_k8s_api_core_v1_EventList. Qed.
#[export] Hint Resolve IoK8sApiCoreV1EventList_represents : represents.
Lemma IoK8sApiCoreV1FlexPersistentVolumeSource_represents `{Pydantic} b :
  Represents b (TRef "io.k8s.api.core.v1.FlexPersistentVolumeSource")
    (Model IoK8sApiCoreV1FlexPersistentVolumeSource.schema).
Proof. solve_represents io_k8s_api_core_v1_FlexPersistentVolumeSource. Qed.
#[export] Hint Resolve IoK8sApiCoreV1FlexPersistentVolumeSource_represents : represents.
Lemma IoK8sApiCoreV1GlusterfsPersistentVolumeSource_represents `{Pydantic} b :
  Represents b (TRef "io.k8s.api.core.v1.GlusterfsPersistentVolumeSource")
    (Model IoK8sApiCoreV1GlusterfsPersistentVolumeSource.schema).
Proof. solve_represents io_k8s_api_core_v1_GlusterfsPersistentVolumeSource. Qed.
#[export] Hint Resolve IoK8sApiCoreV1GlusterfsPersistentVolumeSource_represents : represents.
Lemma IoK8sApiCoreV1HostIP_represents `{Pydantic} b :
  Represents b (TRef "io.k8s.api.core.v1.HostIP")
    (Model IoK8sApiCoreV1HostIP.schema).
Proof. solve_represents io_k8s_api_core_v1_HostIP. Qed.
#[export] Hint Resolve IoK8sApiCoreV1HostIP_represents : represents.
Lemma IoK8sApiCoreV1ISCSIPersistentVolumeSource_represents `{Pydantic} b :
  Represents b (TRef "io.k8s.api.core.v1.ISCSIPersistentVolumeSource")
    (Model IoK8sApiCoreV1ISCSIPersistentVolumeSource.schema).
Proof. solve_represents io_k8s_api_core_v1_ISCSIPersistentVolumeSource. Qed.
#[export] Hint Resolve IoK8sApiCoreV1ISCSIPersistentVolumeSource_represents : represents.
Lemma IoK8sApiCoreV1LimitRangeItem_represents `{Pydantic} b :
  Represents b (TRef "io.k8s.api.core.v1.LimitRangeItem")
    (Model IoK8sApiCoreV1LimitRangeItem.schema).
Proof. solve_represents io_k8s_api_core_v1_LimitRangeItem. Qed.
#[export] Hint Resolve IoK8sApiCoreV1LimitRangeItem_represents : represents.
Lemma IoK8sApiCoreV1LimitRangeSpec_represents `{Pydantic} b :
  Represents b (TRef "io.k8s.api.core.v1.LimitRangeSpec")
    (Model IoK8sApiCoreV1LimitRangeSpec.schema).
Proof. solve_represents io_k8s_api_core_v1_LimitRangeSpec. Qed.
#[export] Hint Resolve IoK8sApiCoreV1LimitRangeSpec_represents : represents.
Lemma IoK8sApiCoreV1LimitRange_represents `{Pydantic} b :
  Represents b (TRef "io.k8s.api.core.v1.LimitRange")
    (Model IoK8sApiCoreV1LimitRange.schema).
Proof. solve_represents io_k8s_api_core_v1_LimitRange. Qed.
#[export] Hint Resolve IoK8sApiCoreV1LimitRange_represents : represents.
Lemma IoK8sApiCoreV1LimitRangeList_represents `{Pydantic} b :
  Represents b (TRef "io.k8s.api.core.v1.LimitRangeList")
    (Model IoK8sApiCoreV1LimitRangeList.schema).
Proof. solve_represents io_k8s_api_core_v1_LimitRangeList. Qed.
#[export] Hint Resolve IoK8sApiCoreV1LimitRangeList_represents : represents.
Lemma IoK8sApiCoreV1List_represents `{Pydantic} b :
  Represents b (TRef "io.k8s.api.core.v1.List")
    (Model IoK8sApiCoreV1List.schema).
Proof. solve_represents io_k8s_api_core_v1_List. Qed.
#[export] Hint Resolve IoK8sApiCoreV1List_represents : represents.
Lemma IoK8sApiCoreV1PortStatus_represents `{Pydantic} b :
  Represents b (TRef "io.k8s.api.core.v1.PortStatus")
    (Model IoK8sApiCoreV1PortStatus.schema).
Proof. solve_represents io_k8s_api_core_v1_PortStatus. Qed.
#[export] Hint Resolve IoK8sApiCoreV1PortStatus_represents : represents.
Lemma IoK8sApiCoreV1LoadBalancerIngress_represents `{Pydantic} b :
  Represents b (TRef "io.k8s.api.core.v1.LoadBalancerIngress")
    (Model IoK8sApiCoreV1LoadBalancerIngress.schema).
Proof. solve_represents io_k8s_api_core_v1_LoadBalancerIngress. Qed.
#[export] Hint Resolve IoK8sApiCoreV1LoadBalancerIngress_represents : represents.
Lemma IoK8sApiCoreV1LoadBalancerStatus_represents `{Pydantic} b :
  Represents b (TRef "io.k8s.api.core.v1.LoadBalancerStatus")
    (Model IoK8sApiCoreV1LoadBalancerStatus.schema).
Proof. solve_represents io_k8s_api_core_v1_LoadBalancerStatus. Qed.
#[export] Hint Resolve IoK8sApiCoreV1LoadBalancerStatus_represents : represents.
Lemma IoK8sApiCoreV1LocalVolumeSource_represents `{Pydantic} b :
  Represents b (TRef "io.k8s.api.core.v1.LocalVolumeSource")
    (Model IoK8sApiCoreV1LocalVolumeSource.schema).
Proof. solve_represents io_k8s_api_core_v1_LocalVolumeSource. Qed.
#[export] Hint Resolve IoK8sApiCoreV1LocalVolumeSource_represents : represents.
Lemma IoK8sApiCoreV1NamespaceSpec_represents `{Pydantic} b :
  Represents b (TRef "io.k8s.api.core.v1.NamespaceSpec")
    (Model IoK8sApiCoreV1NamespaceSpec.schema).
Proof. solve_represents io_k8s_api_core_v1_NamespaceSpec. Qed.
#[export] Hint Resolve IoK8sApiCoreV1NamespaceSpec_represents : represents.
Lemma IoK8sApiCoreV1NamespaceCondition_represents `{Pydantic} b :
  Represents b (TRef "io.k8s.api.core.v1.NamespaceCondition")
    (Model IoK8sApiCoreV1NamespaceCondition.schema).
Proof. solve_represents io_k8s_api_core_v1_NamespaceCondition. Qed.
#[export] Hint Resolve IoK8sApiCoreV1NamespaceCondition_represents : represents.
Lemma IoK8sApiCoreV1NamespaceStatus_represents `{Pydantic} b :
  Represents b (TRef "io.k8s.api.core.v1.NamespaceStatus")
    (Model IoK8sApiCoreV1NamespaceStatus.schema).
Proof. solve_represents io_k8s_api_core_v1_NamespaceStatus. Qed.
#[export] Hint Resolve IoK8sApiCoreV1NamespaceStatus_represents : represents.
Lemma IoK8sApiCoreV1Namespace_represents `{Pydantic} b :
  Represents b (TRef "io.k8s.api.core.v1.Namespace")
    (Model IoK8sApiCoreV1Namespace.schema).
Proof. solve_represents io_k8s_api_core_v1_Namespace. Qed.
#[export] Hint Resolve IoK8sApiCoreV1Namespace_represents : represents.
Lemma IoK8sApiCoreV1NamespaceList_represents `{Pydantic} b :
  Represents b (TRef "io.k8s.api.core.v1.NamespaceList")
    (Model IoK8sApiCoreV1NamespaceList.schema).
Proof. solve_represents io_k8s_api_core_v1_NamespaceList. Qed.
#[export] Hint Resolve IoK8sApiCoreV1NamespaceList_represents : represents.
Lemma IoK8sApiCoreV1NodeConfigSource_represents `{Pydantic} b :
  Represents b (TRef "io.k8s.api.core.v1.NodeConfigSource")
    (Model IoK8sApiCoreV1NodeConfigSource.schema).
Proof. solve_represents io_k8s_api_core_v1_NodeConfigSource. Qed.
#[export] Hint Resolve IoK8sApiCoreV1NodeConfigSource_represents : represents.
Lemma IoK8sApiCoreV1NodePodPreemptionPolicy_represents `{Pydantic} b :
  Represents b (TRef "io.k8s.api.core.v1.NodePodPreemptionPolicy")
    (Model IoK8sApiCoreV1NodePodPreemptionPolicy.schema).
Proof. solve_represents io_k8s_api_core_v1_NodePodPreemptionPolicy. Qed.
#[export] Hint Resolve IoK8sApiCoreV1NodePodPreemptionPolicy_represents : represents.
Lemma IoK8sApiCoreV1Taint_represents `{Pydantic} b :
  Represents b (TRef "io.k8s.api.core.v1.Taint")
    (Model IoK8sApiCoreV1Taint.schema).
Proof. solve_represents io_k8s_api_core_v1_Taint. Qed.
#[export] Hint Resolve IoK8sApiCoreV1Taint_represents : represents.
Lemma IoK8sApiCoreV1NodeSpec_represents `{Pydantic} b :
  Represents b (TRef "io.k8s.api.core.v1.NodeSpec")
    (Model IoK8sApiCoreV1NodeSpec.schema).
Proof. solve_represents io_k8s_api_core_v1_NodeSpec. Qed.
#[export] Hint Resolve IoK8sApiCoreV1NodeSpec_represents : represents.
Lemma IoK8sApiCoreV1NodeAddress_represents `{Pydantic} b :
  Represents b (TRef "io.k8s.api.core.v1.NodeAddress")
    (Model IoK8sApiCoreV1NodeAddress.schema).
Proof. solve_represents io_k8s_api_core_v1_NodeAddress. Qed.
#[export] Hint Resolve IoK8sApiCoreV1NodeAddress_represents : represents.
Lemma IoK8sApiCoreV1NodeCondition_represents `{Pydantic} b :
  Represents b (TRef "io.k8s.api.core.v1.NodeCondition")
    (Model IoK8sApiCoreV1NodeCondition.schema).
Proof. solve_represents io_k8s_api_core_v1_NodeCondition. Qed.
#[export] Hint Resolve IoK8sApiCoreV1NodeCondition_represents : represents.
Lemma IoK8sApiCoreV1NodeConfigStatus_represents `{Pydantic} b :
  Represents b (TRef "io.k8s.api.core.v1.NodeConfigStatus")
    (Model IoK8sApiCoreV1NodeConfigStatus.schema).
Proof. solve_represents io_k8s_api_core_v1_NodeConfigStatus. Qed.
#[export] Hint Resolve IoK8sApiCoreV1NodeConfigStatus_represents : represents.
Lemma IoK8sApiCoreV1NodeDaemonEndpoints_represents `{Pydantic} b :
  Represents b (TRef "io.k8s.api.core.v1.NodeDaemonEndpoints")
    (Model IoK8sApiCoreV1NodeDaemonEndpoints.schema).
Proof. solve_represents io_k8s_api_core_v1_NodeDaemonEndpoints. Qed.
#[export] Hint Resolve IoK8sApiCoreV1NodeDaemonEndpoints_represents : represents.
Lemma IoK8sApiCoreV1NodeFeatures_represents `{Pydantic} b :
  Represents b (TRef "io.k8s.api.core.v1.NodeFeatures")
    (Model IoK8sApiCoreV1NodeFeatures.schema).
Proof. solve_represents io_k8s_api_core_v1_NodeFeatures. Qed.
#[export] Hint Resolve IoK8sApiCoreV1NodeFeatures_represents : represents.
Lemma IoK8sApiCoreV1NodeSwapStatus_represents `{Pydantic} b :
  Represents b (TRef "io.k8s.api.core.v1.NodeSwapStatus")
    (Model IoK8sApiCoreV1NodeSwapStatus.schema).
Proof. solve_represents io_k8s_api_core_v1_NodeSwapStatus. Qed.
#[export] Hint Resolve IoK8sApiCoreV1NodeSwapStatus_represents : represents.
Lemma IoK8sApiCoreV1NodeSystemInfo_represents `{Pydantic} b :
  Represents b (TRef "io.k8s.api.core.v1.NodeSystemInfo")
    (Model IoK8sApiCoreV1NodeSystemInfo.schema).
Proof. solve_represents io_k8s_api_core_v1_NodeSystemInfo. Qed.
#[export] Hint Resolve IoK8sApiCoreV1NodeSystemInfo_represents : represents.
Lemma IoK8sApiCoreV1NodeRuntimeHandlerFeatures_represents `{Pydantic} b :
  Represents b (TRef "io.k8s.api.core.v1.NodeRuntimeHandlerFeatures")
    (Model IoK8sApiCoreV1NodeRuntimeHandlerFeatures.schema).
Proof. solve_represents io_k8s_api_core_v1_NodeRuntimeHandlerFeatures. Qed.
#[export] Hint Resolve IoK8sApiCoreV1NodeRuntimeHandlerFeatures_represents : represents.
Lemma IoK8sApiCoreV1NodeRuntimeHandler_represents `{Pydantic} b :
  Represents b (TRef "io.k8s.api.core.v1.NodeRuntimeHandler")
    (Model IoK8sApiCoreV1NodeRuntimeHandler.schema).
Proof. solve_represents io_k8s_api_core_v1_NodeRuntimeHandler. Qed.
#[export] Hint Resolve IoK8sApiCoreV1NodeRuntimeHandler_represents : represents.
Lemma IoK8sApiCoreV1NodeStatus_represents `{Pydantic} b :
  Represents b (TRef "io.k8s.api.core.v1.NodeStatus")
    (Model IoK8sApiCoreV1NodeStatus.schema).
Proof. solve_represents io_k8s_api_core_v1_NodeStatus. Qed.
#[export] Hint Resolve IoK8sApiCoreV1NodeStatus_represents : represents.
Lemma IoK8sApiCoreV1Node_represents `{Pydantic} b :
  Represents b (TRef "io.k8s.api.core.v1.Node")
    (Model IoK8sApiCoreV1Node.schema).
Proof. solve_represents io_k8s_api_core_v1_Node. Qed.
#[export] Hint Resolve IoK8sApiCoreV1Node_represents : represents.
Lemma IoK8sApiCoreV1NodeAllocatableMappedResources_represents `{Pydantic} b :
  Represents b (TRef "io.k8s.api.core.v1.NodeAllocatableMappedResources")
    (Model IoK8sApiCoreV1NodeAllocatableMappedResources.schema).
Proof. solve_represents io_k8s_api_core_v1_NodeAllocatableMappedResources. Qed.
#[export] Hint Resolve IoK8sApiCoreV1NodeAllocatableMappedResources_represents : represents.
Lemma IoK8sApiCoreV1NodeAllocatableOverheadResources_represents `{Pydantic} b :
  Represents b (TRef "io.k8s.api.core.v1.NodeAllocatableOverheadResources")
    (Model IoK8sApiCoreV1NodeAllocatableOverheadResources.schema).
Proof. solve_represents io_k8s_api_core_v1_NodeAllocatableOverheadResources. Qed.
#[export] Hint Resolve IoK8sApiCoreV1NodeAllocatableOverheadResources_represents : represents.
Lemma IoK8sApiCoreV1NodeAllocatableResourceClaimStatus_represents `{Pydantic} b :
  Represents b (TRef "io.k8s.api.core.v1.NodeAllocatableResourceClaimStatus")
    (Model IoK8sApiCoreV1NodeAllocatableResourceClaimStatus.schema).
Proof. solve_represents io_k8s_api_core_v1_NodeAllocatableResourceClaimStatus. Qed.
#[export] Hint Resolve IoK8sApiCoreV1NodeAllocatableResourceClaimStatus_represents : represents.
Lemma IoK8sApiCoreV1NodeList_represents `{Pydantic} b :
  Represents b (TRef "io.k8s.api.core.v1.NodeList")
    (Model IoK8sApiCoreV1NodeList.schema).
Proof. solve_represents io_k8s_api_core_v1_NodeList. Qed.
#[export] Hint Resolve IoK8sApiCoreV1NodeList_represents : represents.
Lemma IoK8sApiCoreV1NodeProxyOptions_represents `{Pydantic} b :
  Represents b (TRef "io.k8s.api.core.v1.NodeProxyOptions")
    (Model IoK8sApiCoreV1NodeProxyOptions.schema).
Proof. solve_represents io_k8s_api_core_v1_NodeProxyOptions. Qed.
#[export] Hint Resolve IoK8sApiCoreV1NodeProxyOptions_represents : represents.
Lemma IoK8sApiCoreV1VolumeNodeAffinity_represents `{Pydantic} b :
  Represents b (TRef "io.k8s.api.core.v1.VolumeNodeAffinity")
    (Model IoK8sApiCoreV1VolumeNodeAffinity.schema).
Proof. solve_represents io_k8s_api_core_v1_VolumeNodeAffinity. Qed.
#[export] Hint Resolve IoK8sApiCoreV1VolumeNodeAffinity_represents : represents.
Lemma IoK8sApiCoreV1RBDPersistentVolumeSource_represents `{Pydantic} b :
  Represents b (TRef "io.k8s.api.core.v1.RBDPersistentVolumeSource")
    (Model IoK8sApiCoreV1RBDPersistentVolumeSource.schema).
Proof. solve_represents io_k8s_api_core_v1_RBDPersistentVolumeSource. Qed.
#[export] Hint Resolve IoK8sApiCoreV1RBDPersistentVolumeSource_represents : represents.
Lemma IoK8sApiCoreV1ScaleIOPersistentVolumeSource_represents `{Pydantic} b :
  Represents b (TRef "io.k8s.api.core.v1.ScaleIOPersistentVolumeSource")
    (Model IoK8sApiCoreV1ScaleIOPersistentVolumeSource.schema).
Proof. solve_represents io_k8s_api_core_v1_ScaleIOPersistentVolumeSource. Qed.
#[export] Hint Resolve IoK8sApiCoreV1ScaleIOPersistentVolumeSource_represents : represents.
Lemma IoK8sApiCoreV1StorageOSPersistentVolumeSource_represents `{Pydantic} b :
  Represents b (TRef "io.k8s.api.core.v1.StorageOSPersistentVolumeSource")
    (Model IoK8sApiCoreV1StorageOSPersistentVolumeSource.schema).
Proof. solve_represents io_k8s_api_core_v1_StorageOSPersistentVolumeSource. Qed.
#[export] Hint Resolve IoK8sApiCoreV1StorageOSPersistentVolumeSource_represents : represents.
Lemma IoK8sApiCoreV1PersistentVolumeSpec_represents `{Pydantic} b :
  Represents b (TRef "io.k8s.api.core.v1.PersistentVolumeSpec")
    (Model IoK8sApiCoreV1PersistentVolumeSpec.schema).
Proof. solve_represents io_k8s_api_core_v1_PersistentVolumeSpec. Qed.
#[export] Hint Resolve IoK8sApiCoreV1PersistentVolumeSpec_represents : represents.
Lemma IoK8sApiCoreV1PersistentVolumeStatus_represents `{Pydantic} b :
  Represents b (TRef "io.k8s.api.core.v1.PersistentVolumeStatus")
    (Model IoK8sApiCoreV1PersistentVolumeStatus.schema).
Proof. solve_represents io_k8s_api_core_v1_PersistentVolumeStatus. Qed.
#[export] Hint Resolve IoK8sApiCoreV1PersistentVolumeStatus_represents : represents.
Lemma IoK8sApiCoreV1PersistentVolume_represents `{Pydantic} b :
  Represents b (TRef "io.k8s.api.core.v1.PersistentVolume")
    (Model IoK8sApiCoreV1PersistentVolume.schema).
Proof. solve_represents io_k8s_api_core_v1_PersistentVolume. Qed.
#[export] Hint Resolve IoK8sApiCoreV1PersistentVolume_represents : represents.
Lemma IoK8sApiCoreV1PersistentVolumeClaimList_represents `{Pydantic} b :
  Represents b (TRef "io.k8s.api.core.v1.PersistentVolumeClaimList")
    (Model IoK8sApiCoreV1PersistentVolumeClaimList.schema).
Proof. solve_represents io_k8s_api_core_v1_PersistentVolumeClaimList. Qed.
#[export] Hint Resolve IoK8sApiCoreV1PersistentVolumeClaimList_represents : represents.
Lemma IoK8sApiCoreV1PersistentVolumeList_represents `{Pydantic} b :
  Represents b (TRef "io.k8s.api.core.v1.PersistentVolumeList")
    (Model IoK8sApiCoreV1PersistentVolumeList.schema).
Proof. solve_represents io_k8s_api_core_v1_PersistentVolumeList. Qed.
#[export] Hint Resolve IoK8sApiCoreV1PersistentVolumeList_represents : represents.
Lemma IoK8sApiCoreV1PersistentVolumeSource_represents `{Pydantic} b :
  Represents b (TRef "io.k8s.api.core.v1.PersistentVolumeSource")
    (Model IoK8sApiCoreV1PersistentVolumeSource.schema).
Proof. solve_represents io_k8s_api_core_v1_PersistentVolumeSource. Qed.
#[export] Hint Resolve IoK8sApiCoreV1PersistentVolumeSource_represents : represents.
Lemma IoK8sApiCoreV1PodCondition_represents `{Pydantic} b :
  Represents b (TRef "io.k8s.api.core.v1.PodCondition")
    (Model IoK8sApiCoreV1PodCondition.schema).
Proof. solve_represents io_k8s_api_core_v1_PodCondition. Qed.
#[export] Hint Resolve IoK8sApiCoreV1PodCondition_represents : represents.
Lemma IoK8sApiCoreV1PodExtendedResourceClaimStatus_represents `{Pydantic} b :
  Represents b (TRef "io.k8s.api.core.v1.PodExtendedResourceClaimStatus")
    (Model IoK8sApiCoreV1PodExtendedResourceClaimStatus.schema).
Proof. solve_represents io_k8s_api_core_v1_PodExtendedResourceClaimStatus. Qed.
#[export] Hint Resolve IoK8sApiCoreV1PodExtendedResourceClaimStatus_represents : represents.
Lemma IoK8sApiCoreV1PodIP_represents `{Pydantic} b :
  Represents b (TRef "io.k8s.api.core.v1.PodIP")
    (Model IoK8sApiCoreV1PodIP.schema).
Proof. solve_represents io_k8s_api_core_v1_PodIP. Qed.
#[export] Hint Resolve IoK8sApiCoreV1PodIP_represents : represents.
Lemma IoK8sApiCoreV1PodResourceClaimStatus_represents `{Pydantic} b :
  Represents b (TRef "io.k8s.api.core.v1.PodResourceClaimStatus")
    (Model IoK8sApiCoreV1PodResourceClaimStatus.schema).
Proof. solve_represents io_k8s_api_core_v1_PodResourceClaimStatus. Qed.
#[export] Hint Resolve IoK8sApiCoreV1PodResourceClaimStatus_represents : represents.
Lemma IoK8sApiCoreV1PodVolumeHealth_represents `{Pydantic} b :
  Represents b (TRef "io.k8s.api.core.v1.PodVolumeHealth")
    (Model IoK8sApiCoreV1PodVolumeHealth.schema).
Proof. solve_represents io_k8s_api_core_v1_PodVolumeHealth. Qed.
#[export] Hint Resolve IoK8sApiCoreV1PodVolumeHealth_represents : represents.
Lemma IoK8sApiCoreV1PodStatus_represents `{Pydantic} b :
  Represents b (TRef "io.k8s.api.core.v1.PodStatus")
    (Model IoK8sApiCoreV1PodStatus.schema).
Proof. solve_represents io_k8s_api_core_v1_PodStatus. Qed.
#[export] Hint Resolve IoK8sApiCoreV1PodStatus_represents : represents.
Lemma IoK8sApiCoreV1Pod_represents `{Pydantic} b :
  Represents b (TRef "io.k8s.api.core.v1.Pod")
    (Model IoK8sApiCoreV1Pod.schema).
Proof. solve_represents io_k8s_api_core_v1_Pod. Qed.
#[export] Hint Resolve IoK8sApiCoreV1Pod_represents : represents.
Lemma IoK8sApiCoreV1PodAttachOptions_represents `{Pydantic} b :
  Represents b (TRef "io.k8s.api.core.v1.PodAttachOptions")
    (Model IoK8sApiCoreV1PodAttachOptions.schema).
Proof. solve_represents io_k8s_api_core_v1_PodAttachOptions. Qed.
#[export] Hint Resolve IoK8sApiCoreV1PodAttachOptions_represents : represents.
Lemma IoK8sApiCoreV1PodExecOptions_represents `{Pydantic} b :
  Represents b (TRef "io.k8s.api.core.v1.PodExecOptions")
    (Model IoK8sApiCoreV1PodExecOptions.schema).
Proof. solve_represents io_k8s_api_core_v1_PodExecOptions. Qed.
#[export] Hint Resolve IoK8sApiCoreV1PodExecOptions_represents : represents.
Lemma IoK8sApiCoreV1PodList_represents `{Pydantic} b :
  Represents b (TRef "io.k8s.api.core.v1.PodList")
    (Model IoK8sApiCoreV1PodList.schema).
Proof. solve_represents io_k8s_api_core_v1_PodList. Qed.
#[export] Hint Resolve IoK8sApiCoreV1PodList_represents : represents.
Lemma IoK8sApiCoreV1PodLogOptions_represents `{Pydantic} b :
  Represents b (TRef "io.k8s.api.core.v1.PodLogOptions")
    (Model IoK8sApiCoreV1PodLogOptions.schema).
Proof. solve_represents io_k8s_api_core_v1_PodLogOptions. Qed.
#[export] Hint Resolve IoK8sApiCoreV1PodLogOptions_represents : represents.
Lemma IoK8sApiCoreV1PodPortForwardOptions_represents `{Pydantic} b :
  Represents b (TRef "io.k8s.api.core.v1.PodPortForwardOptions")
    (Model IoK8sApiCoreV1PodPortForwardOptions.schema).
Proof. solve_represents io_k8s_api_core_v1_PodPortForwardOptions. Qed.
#[export] Hint Resolve IoK8sApiCoreV1PodPortForwardOptions_represents : represents.
Lemma IoK8sApiCoreV1PodProxyOptions_represents `{Pydantic} b :
  Represents b (TRef "io.k8s.api.core.v1.PodProxyOptions")
    (Model IoK8sApiCoreV1PodProxyOptions.schema).
Proof. solve_represents io_k8s_api_core_v1_PodProxyOptions. Qed.
#[export] Hint Resolve IoK8sApiCoreV1PodProxyOptions_represents : represents.
Lemma IoK8sApiCoreV1PodTemplate_represents `{Pydantic} b :
  Represents b (TRef "io.k8s.api.core.v1.PodTemplate")
    (Model IoK8sApiCoreV1PodTemplate.schema).
Proof. solve_represents io_k8s_api_core_v1_PodTemplate. Qed.
#[export] Hint Resolve IoK8sApiCoreV1PodTemplate_represents : represents.
Lemma IoK8sApiCoreV1PodTemplateList_represents `{Pydantic} b :
  Represents b (TRef "io.k8s.api.core.v1.PodTemplateList")
    (Model IoK8sApiCoreV1PodTemplateList.schema).
Proof. solve_represents io_k8s_api_core_v1_PodTemplateList. Qed.
#[export] Hint Resolve IoK8sApiCoreV1PodTemplateList_represents : represents.
Lemma IoK8sApiCoreV1ProbeHandler_represents `{Pydantic} b :
  Represents b (TRef "io.k8s.api.core.v1.ProbeHandler")
    (Model IoK8sApiCoreV1ProbeHandler.schema).
Proof. solve_represents io_k8s_api_core_v1_ProbeHandler. Qed.
#[export] Hint Resolve IoK8sApiCoreV1ProbeHandler_represents : represents.
Lemma IoK8sApiCoreV1RangeAllocation_represents `{Pydantic} b :
  Represents b (TRef "io.k8s.api.core.v1.RangeAllocation")
    (Model IoK8sApiCoreV1RangeAllocation.schema).
Proof. solve_represents io_k8s_api_core_v1_RangeAllocation. Qed.
#[export] Hint Resolve IoK8sApiCoreV1RangeAllocation_represents : represents.
Lemma IoK8sApiCoreV1ReplicationControllerSpec_represents `{Pydantic} b :
  Represents b (TRef "io.k8s.api.core.v1.ReplicationControllerSpec")
    (Model IoK8sApiCoreV1ReplicationControllerSpec.schema).
Proof. solve_represents io_k8s_api_core_v1_ReplicationControllerSpec. Qed.
#[export] Hint Resolve IoK8sApiCoreV1ReplicationControllerSpec_represents : represents.
Lemma IoK8sApiCoreV1ReplicationControllerCondition_represents `{Pydantic} b :
  Represents b (TRef "io.k8s.api.core.v1.ReplicationControllerCondition")
    (Model IoK8sApiCoreV1ReplicationControllerCondition.schema).
Proof. solve_represents io_k8s_api_core_v1_ReplicationControllerCondition. Qed.
#[export] Hint Resolve IoK8sApiCoreV1ReplicationControllerCondition_represents : represents.
Lemma IoK8sApiCoreV1ReplicationControllerStatus_represents `{Pydantic} b :
  Represents b (TRef "io.k8s.api.core.v1.ReplicationControllerStatus")
    (Model IoK8sApiCoreV1ReplicationControllerStatus.schema).
Proof. solve_represents io_k8s_api_core_v1_ReplicationControllerStatus. Qed.
#[export] Hint Resolve IoK8sApiCoreV1ReplicationControllerStatus_represents : represents.
Lemma IoK8sApiCoreV1ReplicationController_represents `{Pydantic} b :
  Represents b (TRef "io.k8s.api.core.v1.ReplicationController")
    (Model IoK8sApiCoreV1ReplicationController.schema).
Proof. solve_represents io_k8s_api_core_v1_ReplicationController. Qed.
#[export] Hint Resolve IoK8sApiCoreV1ReplicationController_represents : represents.
Lemma IoK8sApiCoreV1ReplicationControllerList_represents `{Pydantic} b :
  Represents b (TRef "io.k8s.api.core.v1.ReplicationControllerList")
    (Model IoK8sApiCoreV1ReplicationControllerList.schema).
Proof. solve_represents io_k8s_api_core_v1_ReplicationControllerList. Qed.
#[export] Hint Resolve IoK8sApiCoreV1ReplicationControllerList_represents : represents.
Lemma IoK8sApiCoreV1ScopedResourceSelectorRequirement_represents `{Pydantic} b :
  Represents b (TRef "io.k8s.api.core.v1.ScopedResourceSelectorRequirement")
    (Model IoK8sApiCoreV1ScopedResourceSelectorRequirement.schema).
Proof. solve_represents io_k8s_api_core_v1_ScopedResourceSelectorRequirement. Qed.
#[export] Hint Resolve IoK8sApiCoreV1ScopedResourceSelectorRequirement_represents : represents.
Lemma IoK8sApiCoreV1ScopeSelector_represents `{Pydantic} b :
  Represents b (TRef "io.k8s.api.core.v1.ScopeSelector")
    (Model IoK8sApiCoreV1ScopeSelector.schema).
Proof. solve_represents io_k8s_api_core_v1_ScopeSelector. Qed.
#[export] Hint Resolve IoK8sApiCoreV1ScopeSelector_represents : represents.
Lemma IoK8sApiCoreV1ResourceQuotaSpec_represents `{Pydantic} b :
  Represents b (TRef "io.k8s.api.core.v1.ResourceQuotaSpec")
    (Model IoK8sApiCoreV1ResourceQuotaSpec.schema).
Proof. solve_represents io_k8s_api_core_v1_ResourceQuotaSpec. Qed.
#[export] Hint Resolve IoK8sApiCoreV1ResourceQuotaSpec_represents : represents.
Lemma IoK8sApiCoreV1ResourceQuotaStatus_represents `{Pydantic} b :
  Represents b (TRef "io.k8s.api.core.v1.ResourceQuotaStatus")
    (Model IoK8sApiCoreV1ResourceQuotaStatus.schema).
Proof. solve_represents io_k8s_api_core_v1_ResourceQuotaStatus. Qed.
#[export] Hint Resolve IoK8sApiCoreV1ResourceQuotaStatus_represents : represents.
Lemma IoK8sApiCoreV1ResourceQuota_represents `{Pydantic} b :
  Represents b (TRef "io.k8s.api.core.v1.ResourceQuota")
    (Model IoK8sApiCoreV1ResourceQuota.schema).
Proof. solve_represents io_k8s_api_core_v1_ResourceQuota. Qed.
#[export] Hint Resolve IoK8sApiCoreV1ResourceQuota_represents : represents.
Lemma IoK8sApiCoreV1ResourceQuotaList_represents `{Pydantic} b :
  Represents b (TRef "io.k8s.api.core.v1.ResourceQuotaList")
    (Model IoK8sApiCoreV1ResourceQuotaList.schema).
Proof. solve_represents io_k8s_api_core_v1_ResourceQuotaList. Qed.
#[export] Hint Resolve IoK8sApiCoreV1ResourceQuotaList_represents : represents.
Lemma IoK8sApiCoreV1Secret_represents `{Pydantic} b :
  Represents b (TRef "io.k8s.api.core.v1.Secret")
    (Model IoK8sApiCoreV1Secret.schema).
Proof. solve_represents io_k8s_api_core_v1_Secret. Qed.
#[export] Hint Resolve IoK8sApiCoreV1Secret_represents : represents.
Lemma IoK8sApiCoreV1SecretList_represents `{Pydantic} b :
  Represents b (TRef "io.k8s.api.core.v1.SecretList")
    (Model IoK8sApiCoreV1SecretList.schema).
Proof. solve_represents io_k8s_api_core_v1_SecretList. Qed.
#[export] Hint Resolve IoK8sApiCoreV1SecretList_represents : represents.
Lemma IoK8sApiCoreV1SerializedReference_represents `{Pydantic} b :
  Represents b (TRef "io.k8s.api.core.v1.SerializedReference")
    (Model IoK8sApiCoreV1SerializedReference.schema).
Proof. solve_represents io_k8s_api_core_v1_SerializedReference. Qed.
#[export] Hint Resolve IoK8sApiCoreV1SerializedReference_represents : represents.
Lemma IoK8sApiCoreV1ServicePort_represents `{Pydantic} b :
  Represents b (TRef "io.k8s.api.core.v1.ServicePort")
    (Model IoK8sApiCoreV1ServicePort.schema).
Proof. solve_represents io_k8s_api_core_v1_ServicePort. Qed.
#[export] Hint Resolve IoK8sApiCoreV1ServicePort_represents : represents.
Lemma IoK8sApiCoreV1SessionAffinityConfig_represents `{Pydantic} b :
  Represents b (TRef "io.k8s.api.core.v1.SessionAffinityConfig")
    (Model IoK8sApiCoreV1SessionAffinityConfig.schema).
Proof. solve_represents io_k8s_api_core_v1_SessionAffinityConfig. Qed.
#[export] Hint Resolve IoK8sApiCoreV1SessionAffinityConfig_represents : represents.
Lemma IoK8sApiCoreV1ServiceSpec_represents `{Pydantic} b :
  Represents b (TRef "io.k8s.api.core.v1.ServiceSpec")
    (Model IoK8sApiCoreV1ServiceSpec.schema).
Proof. solve_represents io_k8s_api_core_v1_ServiceSpec. Qed.
#[export] Hint Resolve IoK8sApiCoreV1ServiceSpec_represents : represents.
Lemma IoK8sApiCoreV1ServiceStatus_represents `{Pydantic} b :
  Represents b (TRef "io.k8s.api.core.v1.ServiceStatus")
    (Model IoK8sApiCoreV1ServiceStatus.schema).
Proof. solve_represents io_k8s_api_core_v1_ServiceStatus. Qed.
#[export] Hint Resolve IoK8sApiCoreV1ServiceStatus_represents : represents.
Lemma IoK8sApiCoreV1Service_represents `{Pydantic} b :
  Represents b (TRef "io.k8s.api.core.v1.Service")
    (Model IoK8sApiCoreV1Service.schema).
Proof. solve_represents io_k8s_api_core_v1_Service. Qed.
#[export] Hint Resolve IoK8sApiCoreV1Service_represents : represents.
Lemma IoK8sApiCoreV1ServiceAccount_represents `{Pydantic} b :
  Represents b (TRef "io.k8s.api.core.v1.ServiceAccount")
    (Model IoK8sApiCoreV1ServiceAccount.schema).
Proof. solve_represents io_k8s_api_core_v1_ServiceAccount. Qed.
#[export] Hint Resolve IoK8sApiCoreV1ServiceAccount_represents : represents.
Lemma IoK8sApiCoreV1ServiceAccountList_represents `{Pydantic} b :
  Represents b (TRef "io.k8s.api.core.v1.ServiceAccountList")
    (Model IoK8sApiCoreV1ServiceAccountList.schema).
Proof. solve_represents io_k8s_api_core_v1_ServiceAccountList. Qed.
#[export] Hint Resolve IoK8sApiCoreV1ServiceAccountList_represents : represents.
Lemma IoK8sApiCoreV1ServiceList_represents `{Pydantic} b :
  Represents b (TRef "io.k8s.api.core.v1.ServiceList")
    (Model IoK8sApiCoreV1ServiceList.schema).
Proof. solve_represents io_k8s_api_core_v1_ServiceList. Qed.
#[export] Hint Resolve IoK8sApiCoreV1ServiceList_represents : represents.
Lemma IoK8sApiCoreV1ServiceProxyOptions_represents `{Pydantic} b :
  Represents b (TRef "io.k8s.api.core.v1.ServiceProxyOptions")
    (Model IoK8sApiCoreV1ServiceProxyOptions.schema).
Proof. solve_represents io_k8s_api_core_v1_ServiceProxyOptions. Qed.
#[export] Hint Resolve IoK8sApiCoreV1ServiceProxyOptions_represents : represents.
Lemma IoK8sApiCoreV1TopologySelectorLabelRequirement_represents `{Pydantic} b :
  Represents b (TRef "io.k8s.api.core.v1.TopologySelectorLabelRequirement")
    (Model IoK8sApiCoreV1TopologySelectorLabelRequirement.schema).
Proof. solve_represents io_k8s_api_core_v1_TopologySelectorLabelRequirement. Qed.
#[export] Hint Resolve IoK8sApiCoreV1TopologySelectorLabelRequirement_represents : represents.
Lemma IoK8sApiCoreV1TopologySelectorTerm_represents `{Pydantic} b :
  Represents b (TRef "io.k8s.api.core.v1.TopologySelectorTerm")
    (Model IoK8sApiCoreV1TopologySelectorTerm.schema).
Proof. solve_represents io_k8s_api_core_v1_TopologySelectorTerm. Qed.
#[export] Hint Resolve IoK8sApiCoreV1TopologySelectorTerm_represents : represents.
Lemma IoK8sApiCoreV1VolumeSource_represents `{Pydantic} b :
  Represents b (TRef "io.k8s.api.core.v1.VolumeSource")
    (Model IoK8sApiCoreV1VolumeSource.schema).
Proof. solve_represents io_k8s_api_core_v1_VolumeSource. Qed.
#[export] Hint Resolve IoK8sApiCoreV1VolumeSource_represents : represents.
Lemma IoK8sApiAutoscalingV2MetricTarget_represents `{Pydantic} b :
  Represents b (TRef "io.k8s.api.autoscaling.v2.MetricTarget")
    (Model IoK8sApiAutoscalingV2MetricTarget.schema).
Proof. solve_represents io_k8s_api_autoscaling_v2_MetricTarget. Qed.
#[export] Hint Resolve IoK8sApiAutoscalingV2MetricTarget_represents : represents.
Lemma IoK8sApiAutoscalingV2ContainerResourceMetricSource_represents `{Pydantic} b :
  Represents b (TRef "io.k8s.api.autoscaling.v2.ContainerResourceMetricSource")
    (Model IoK8sApiAutoscalingV2ContainerResourceMetricSource.schema).
Proof. solve_represents io_k8s_api_autoscaling_v2_ContainerResourceMetricSource. Qed.
#[export] Hint Resolve IoK8sApiAutoscalingV2ContainerResourceMetricSource_represents : represents.
Lemma IoK8sApiAutoscalingV2MetricValueStatus_represents `{Pydantic} b :
  Represents b (TRef "io.k8s.api.autoscaling.v2.MetricValueStatus")
    (Model IoK8sApiAutoscalingV2MetricValueStatus.schema).
Proof. solve_represents io_k8s_api_autoscaling_v2_MetricValueStatus. Qed.
#[export] Hint Resolve IoK8sApiAutoscalingV2MetricValueStatus_represents : represents.
Lemma IoK8sApiAutoscalingV2ContainerResourceMetricStatus_represents `{Pydantic} b :
  Represents b (TRef "io.k8s.api.autoscaling.v2.ContainerResourceMetricStatus")
    (Model IoK8sApiAutoscalingV2ContainerResourceMetricStatus.schema).
Proof. solve_represents io_k8s_api_autoscaling_v2_ContainerResourceMetricStatus. Qed.
#[export] Hint Resolve IoK8sApiAutoscalingV2ContainerResourceMetricStatus_represents : represents.
Lemma IoK8sApiAutoscalingV2CrossVersionObjectReference_represents `{Pydantic} b :
  Represents b (TRef "io.k8s.api.autoscaling.v2.CrossVersionObjectReference")
    (Model IoK8sApiAutoscalingV2CrossVersionObjectReference.schema).
Proof. solve_represents io_k8s_api_autoscaling_v2_CrossVersionObjectReference. Qed.
#[export] Hint Resolve IoK8sApiAutoscalingV2CrossVersionObjectReference_represents : represents.
Lemma IoK8sApiAutoscalingV2MetricIdentifier_represents `{Pydantic} b :
  Represents b (TRef "io.k8s.api.autoscaling.v2.MetricIdentifier")
    (Model IoK8sApiAutoscalingV2MetricIdentifier.schema).
Proof. solve_represents io_k8s_api_autoscaling_v2_MetricIdentifier. Qed.
#[export] Hint Resolve IoK8sApiAutoscalingV2MetricIdentifier_represents : represents.
Lemma IoK8sApiAutoscalingV2ExternalMetricSource_represents `{Pydantic} b :
  Represents b (TRef "io.k8s.api.autoscaling.v2.ExternalMetricSource")
    (Model IoK8sApiAutoscalingV2ExternalMetricSource.schema).
Proof. solve_represents io_k8s_api_autoscaling_v2_ExternalMetricSource. Qed.
#[export] Hint Resolve IoK8sApiAutoscalingV2ExternalMetricSource_represents : represents.
Lemma IoK8sApiAutoscalingV2ExternalMetricStatus_represents `{Pydantic} b :
  Represents b (TRef "io.k8s.api.autoscaling.v2.ExternalMetricStatus")
    (Model IoK8sApiAutoscalingV2ExternalMetricStatus.schema).
Proof. solve_represents io_k8s_api_autoscaling_v2_ExternalMetricStatus. Qed.
#[export] Hint Resolve IoK8sApiAutoscalingV2ExternalMetricStatus_represents : represents.
Lemma IoK8sApiAutoscalingV2HPAScalingPolicy_represents `{Pydantic} b :
  Represents b (TRef "io.k8s.api.autoscaling.v2.HPAScalingPolicy")
    (Model IoK8sApiAutoscalingV2HPAScalingPolicy.schema).
Proof. solve_represents io_k8s_api_autoscaling_v2_HPAScalingPolicy. Qed.
#[export] Hint Resolve IoK8sApiAutoscalingV2HPAScalingPolicy_represents : represents.
Lemma IoK8sApiAutoscalingV2HPAScalingRules_represents `{Pydantic} b :
  Represents b (TRef "io.k8s.api.autoscaling.v2.HPAScalingRules")
    (Model IoK8sApiAutoscalingV2HPAScalingRules.schema).
Proof. solve_represents io_k8s_api_autoscaling_v2_HPAScalingRules. Qed.
#[export] Hint Resolve IoK8sApiAutoscalingV2HPAScalingRules_represents : represents.
Lemma IoK8sApiAutoscalingV2HorizontalPodAutoscalerBehavior_represents `{Pydantic} b :
  Represents b (TRef "io.k8s.api.autoscaling.v2.HorizontalPodAutoscalerBehavior")
    (Model IoK8sApiAutoscalingV2HorizontalPodAutoscalerBehavior.schema).
Proof. solve_represents io_k8s_api_autoscaling_v2_HorizontalPodAutoscalerBehavior. Qed.
#[export] Hint Resolve IoK8sApiAutoscalingV2HorizontalPodAutoscalerBehavior_represents : represents.
Lemma IoK8sApiAutoscalingV2ObjectMetricSource_represents `{Pydantic} b :
  Represents b (TRef "io.k8s.api.autoscaling.v2.ObjectMetricSource")
    (Model IoK8sApiAutoscalingV2ObjectMetricSource.schema).
Proof. solve_represents io_k8s_api_autoscaling_v2_ObjectMetricSource. Qed.
#[export] Hint Resolve IoK8sApiAutoscalingV2ObjectMetricSource_represents : represents.
Lemma IoK8sApiAutoscalingV2PodsMetricSource_represents `{Pydantic} b :
  Represents b (TRef "io.k8s.api.autoscaling.v2.PodsMetricSource")
    (Model IoK8sApiAutoscalingV2PodsMetricSource.schema).
Proof. solve_represents io_k8s_api_autoscaling_v2_PodsMetricSource. Qed.
#[export] Hint Resolve IoK8sApiAutoscalingV2PodsMetricSource_represents : represents.
Lemma IoK8sApiAutoscalingV2ResourceMetricSource_represents `{Pydantic} b :
  Represents b (TRef "io.k8s.api.autoscaling.v2.ResourceMetricSource")
    (Model IoK8sApiAutoscalingV2ResourceMetricSource.schema).
Proof. solve_represents io_k8s_api_autoscaling_v2_ResourceMetricSource. Qed.
#[export] Hint Resolve IoK8sApiAutoscalingV2ResourceMetricSource_represents : represents.
Lemma IoK8sApiAutoscalingV2MetricSpec_represents `{Pydantic} b :
  Represents b (TRef "io.k8s.api.autoscaling.v2.MetricSpec")
    (Model IoK8sApiAutoscalingV2MetricSpec.schema).
Proof. solve_represents io_k8s_api_autoscaling_v2_MetricSpec. Qed.
#[export] Hint Resolve IoK8sApiAutoscalingV2MetricSpec_represents : represents.
Lemma IoK8sApiAutoscalingV2HorizontalPodAutoscalerSpec_represents `{Pydantic} b :
  Represents b (TRef "io.k8s.api.autoscaling.v2.HorizontalPodAutoscalerSpec")
    (Model IoK8sApiAutoscalingV2HorizontalPodAutoscalerSpec.schema).
Proof. solve_represents io_k8s_api_autoscaling_v2_HorizontalPodAutoscalerSpec. Qed.
#[export] Hint Resolve IoK8sApiAutoscalingV2HorizontalPodAutoscalerSpec_represents : represents.
Lemma IoK8sApiAutoscalingV2HorizontalPodAutoscalerCondition_represents `{Pydantic} b :
  Represents b (TRef "io.k8s.api.autoscaling.v2.HorizontalPodAutoscalerCondition")
    (Model IoK8sApiAutoscalingV2HorizontalPodAutoscalerCondition.schema).
Proof. solve_represents io_k8s_api_autoscaling_v2_HorizontalPodAutoscalerCondition. Qed.
#[export] Hint Resolve IoK8sApiAutoscalingV2HorizontalPodAutoscalerCondition_represents : represents.
Lemma IoK8sApiAutoscalingV2ObjectMetricStatus_represents `{Pydantic} b :
  Represents b (TRef "io.k8s.api.autoscaling.v2.ObjectMetricStatus")
    (Model IoK8sApiAutoscalingV2ObjectMetricStatus.schema).
Proof. solve_represents io_k8s_api_autoscaling_v2_ObjectMetricStatus. Qed.
#[export] Hint Resolve IoK8sApiAutoscalingV2ObjectMetricStatus_represents : represents.
Lemma IoK8sApiAutoscalingV2PodsMetricStatus_represents `{Pydantic} b :
  Represents b (TRef "io.k8s.api.autoscaling.v2.PodsMetricStatus")
    (Model IoK8sApiAutoscalingV2PodsMetricStatus.schema).
Proof. solve_represents io_k8s_api_autoscaling_v2_PodsMetricStatus. Qed.
#[export] Hint Resolve IoK8sApiAutoscalingV2PodsMetricStatus_represents : represents.
Lemma IoK8sApiAutoscalingV2ResourceMetricStatus_represents `{Pydantic} b :
  Represents b (TRef "io.k8s.api.autoscaling.v2.ResourceMetricStatus")
    (Model IoK8sApiAutoscalingV2ResourceMetricStatus.schema).
Proof. solve_represents io_k8s_api_autoscaling_v2_ResourceMetricStatus. Qed.
#[export] Hint Resolve IoK8sApiAutoscalingV2ResourceMetricStatus_represents : represents.
Lemma IoK8sApiAutoscalingV2MetricStatus_represents `{Pydantic} b :
  Represents b (TRef "io.k8s.api.autoscaling.v2.MetricStatus")
    (Model IoK8sApiAutoscalingV2MetricStatus.schema).
Proof. solve_represents io_k8s_api_autoscaling_v2_MetricStatus. Qed.
#[export] Hint Resolve IoK8sApiAutoscalingV2MetricStatus_represents : represents.
Lemma IoK8sApiAutoscalingV2HorizontalPodAutoscalerStatus_represents `{Pydantic} b :
  Represents b (TRef "io.k8s.api.autoscaling.v2.HorizontalPodAutoscalerStatus")
    (Model IoK8sApiAutoscalingV2HorizontalPodAutoscalerStatus.schema).
Proof. solve_represents io_k8s_api_autoscaling_v2_HorizontalPodAutoscalerStatus. Qed.
#[export] Hint Resolve IoK8sApiAutoscalingV2HorizontalPodAutoscalerStatus_represents : represents.
Lemma IoK8sApiAutoscalingV2HorizontalPodAutoscaler_represents `{Pydantic} b :
  Represents b (TRef "io.k8s.api.autoscaling.v2.HorizontalPodAutoscaler")
    (Model IoK8sApiAutoscalingV2HorizontalPodAutoscaler.schema).
Proof. solve_represents io_k8s_api_autoscaling_v2_HorizontalPodAutoscaler. Qed.
#[export] Hint Resolve IoK8sApiAutoscalingV2HorizontalPodAutoscaler_represents : represents.
Lemma IoK8sApiAutoscalingV2HorizontalPodAutoscalerList_represents `{Pydantic} b :
  Represents b (TRef "io.k8s.api.autoscaling.v2.HorizontalPodAutoscalerList")
    (Model IoK8sApiAutoscalingV2HorizontalPodAutoscalerList.schema).
Proof. solve_represents io_k8s_api_autoscaling_v2_HorizontalPodAutoscalerList. Qed.
#[export] Hint Resolve IoK8sApiAutoscalingV2HorizontalPodAutoscalerList_represents : represents.
Lemma IoK8sApiBatchV1CronJobSpec_represents `{Pydantic} b :
  Represents b (TRef "io.k8s.api.batch.v1.CronJobSpec")
    (Model IoK8sApiBatchV1CronJobSpec.schema).
Proof. solve_represents io_k8s_api_batch_v1_CronJobSpec. Qed.
#[export] Hint Resolve IoK8sApiBatchV1CronJobSpec_represents : represents.
Lemma IoK8sApiBatchV1CronJobStatus_represents `{Pydantic} b :
  Represents b (TRef "io.k8s.api.batch.v1.CronJobStatus")
    (Model IoK8sApiBatchV1CronJobStatus.schema).
Proof. solve_represents io_k8s_api_batch_v1_CronJobStatus. Qed.
#[export] Hint Resolve IoK8sApiBatchV1CronJobStatus_represents : represents.
Lemma IoK8sApiBatchV1CronJob_represents `{Pydantic} b :
  Represents b (TRef "io.k8s.api.batch.v1.CronJob")
    (Model IoK8sApiBatchV1CronJob.schema).
Proof. solve_represents io_k8s_api_batch_v1_CronJob. Qed.
#[export] Hint Resolve IoK8sApiBatchV1CronJob_represents : represents.
Lemma IoK8sApiBatchV1CronJobList_represents `{Pydantic} b :
  Represents b (TRef "io.k8s.api.batch.v1.CronJobList")
    (Model IoK8sApiBatchV1CronJobList.schema).
Proof. solve_represents io_k8s_api_batch_v1_CronJobList. Qed.
#[export] Hint Resolve IoK8sApiBatchV1CronJobList_represents : represents.
Lemma IoK8sApiBatchV1JobCondition_represents `{Pydantic} b :
  Represents b (TRef "io.k8s.api.batch.v1.JobCondition")
    (Model IoK8sApiBatchV1JobCondition.schema).
Proof. solve_represents io_k8s_api_batch_v1_JobCondition. Qed.
#[export] Hint Resolve IoK8sApiBatchV1JobCondition_represents : represents.
Lemma IoK8sApiBatchV1UncountedTerminatedPods_represents `{Pydantic} b :
  Represents b (TRef "io.k8s.api.batch.v1.UncountedTerminatedPods")
    (Model IoK8sApiBatchV1UncountedTerminatedPods.schema).
Proof. solve_represents io_k8s_api_batch_v1_UncountedTerminatedPods. Qed.
#[export] Hint Resolve IoK8sApiBatchV1UncountedTerminatedPods_represents : represents.
Lemma IoK8sApiBatchV1JobStatus_represents `{Pydantic} b :
  Represents b (TRef "io.k8s.api.batch.v1.JobStatus")
    (Model IoK8sApiBatchV1JobStatus.schema).
Proof. solve_represents io_k8s_api_batch_v1_JobStatus. Qed.
#[export] Hint Resolve IoK8sApiBatchV1JobStatus_represents : represents.
Lemma IoK8sApiBatchV1Job_represents `{Pydantic} b :
  Represents b (TRef "io.k8s.api.batch.v1.Job")
    (Model IoK8sApiBatchV1Job.schema).
Proof. solve_represents io_k8s_api_batch_v1_Job. Qed.
#[export] Hint Resolve IoK8sApiBatchV1Job_represents : represents.
Lemma IoK8sApiBatchV1JobList_represents `{Pydantic} b :
  Represents b (TRef "io.k8s.api.batch.v1.JobList")
    (Model IoK8sApiBatchV1JobList.schema).
Proof. solve_represents io_k8s_api_batch_v1_JobList. Qed.
#[export] Hint Resolve IoK8sApiBatchV1JobList_represents : represents.
Lemma IoK8sApiSchedulingV1alpha3CompositeDisruptionMode_represents `{Pydantic} b :
  Represents b (TRef "io.k8s.api.scheduling.v1alpha3.CompositeDisruptionMode")
    (Model IoK8sApiSchedulingV1alpha3CompositeDisruptionMode.schema).
Proof. solve_represents io_k8s_api_scheduling_v1alpha3_CompositeDisruptionMode. Qed.
#[export] Hint Resolve IoK8sApiSchedulingV1alpha3CompositeDisruptionMode_represents : represents.
Lemma IoK8sApiSchedulingV1alpha3CompositeGangSchedulingPolicy_represents `{Pydantic} b :
  Represents b (TRef "io.k8s.api.scheduling.v1alpha3.CompositeGangSchedulingPolicy")
    (Model IoK8sApiSchedulingV1alpha3CompositeGangSchedulingPolicy.schema).
Proof. solve_represents io_k8s_api_scheduling_v1alpha3_CompositeGangSchedulingPolicy. Qed.
#[export] Hint Resolve IoK8sApiSchedulingV1alpha3CompositeGangSchedulingPolicy_represents : represents.
Lemma IoK8sApiSchedulingV1alpha3CompositePodGroupSchedulingConstraints_represents `{Pydantic} b :
  Represents b (TRef "io.k8s.api.scheduling.v1alpha3.CompositePodGroupSchedulingConstraints")
    (Model IoK8sApiSchedulingV1alpha3CompositePodGroupSchedulingConstraints.schema).
Proof. solve_represents io_k8s_api_scheduling_v1alpha3_CompositePodGroupSchedulingConstraints. Qed.
#[export] Hint Resolve IoK8sApiSchedulingV1alpha3CompositePodGroupSchedulingConstraints_represents : represents.
Lemma IoK8sApiSchedulingV1alpha3CompositePodGroupSchedulingPolicy_represents `{Pydantic} b :
  Represents b (TRef "io.k8s.api.scheduling.v1alpha3.CompositePodGroupSchedulingPolicy")
    (Model IoK8sApiSchedulingV1alpha3CompositePodGroupSchedulingPolicy.schema).
Proof. solve_represents io_k8s_api_scheduling_v1alpha3_CompositePodGroupSchedulingPolicy. Qed.
#[export] Hint Resolve IoK8sApiSchedulingV1alpha3CompositePodGroupSchedulingPolicy_represents : represents.
Lemma IoK8sApiSchedulingV1alpha3WorkloadReference_represents `{Pydantic} b :
  Represents b (TRef "io.k8s.api.scheduling.v1alpha3.WorkloadReference")
    (Model IoK8sApiSchedulingV1alpha3WorkloadReference.schema).
Proof. solve_represents io_k8s_api_scheduling_v1alpha3_WorkloadReference. Qed.
#[export] Hint Resolve IoK8sApiSchedulingV1alpha3WorkloadReference_represents : represents.
Lemma IoK8sApiSchedulingV1alpha3CompositePodGroupSpec_represents `{Pydantic} b :
  Represents b (TRef "io.k8s.api.scheduling.v1alpha3.CompositePodGroupSpec")
    (Model IoK8sApiSchedulingV1alpha3CompositePodGroupSpec.schema).
Proof. solve_represents io_k8s_api_scheduling_v1alpha3_CompositePodGroupSpec. Qed.
#[export] Hint Resolve IoK8sApiSchedulingV1alpha3CompositePodGroupSpec_represents : represents.
Lemma IoK8sApiSchedulingV1alpha3CompositePodGroupStatus_represents `{Pydantic} b :
  Represents b (TRef "io.k8s.api.scheduling.v1alpha3.CompositePodGroupStatus")
    (Model IoK8sApiSchedulingV1alpha3CompositePodGroupStatus.schema).
Proof. solve_represents io_k8s_api_scheduling_v1alpha3_CompositePodGroupStatus. Qed.
#[export] Hint Resolve IoK8sApiSchedulingV1alpha3CompositePodGroupStatus_represents : represents.
Lemma IoK8sApiSchedulingV1alpha3CompositePodGroup_represents `{Pydantic} b :
  Represents b (TRef "io.k8s.api.scheduling.v1alpha3.CompositePodGroup")
    (Model IoK8sApiSchedulingV1alpha3CompositePodGroup.schema).
Proof. solve_represents io_k8s_api_scheduling_v1alpha3_CompositePodGroup. Qed.
#[export] Hint Resolve IoK8sApiSchedulingV1alpha3CompositePodGroup_represents : represents.
Lemma IoK8sApiSchedulingV1alpha3CompositePodGroupList_represents `{Pydantic} b :
  Represents b (TRef "io.k8s.api.scheduling.v1alpha3.CompositePodGroupList")
    (Model IoK8sApiSchedulingV1alpha3CompositePodGroupList.schema).
Proof. solve_represents io_k8s_api_scheduling_v1alpha3_CompositePodGroupList. Qed.
#[export] Hint Resolve IoK8sApiSchedulingV1alpha3CompositePodGroupList_represents : represents.
Lemma IoK8sApiSchedulingV1alpha3DisruptionMode_represents `{Pydantic} b :
  Represents b (TRef "io.k8s.api.scheduling.v1alpha3.DisruptionMode")
    (Model IoK8sApiSchedulingV1alpha3DisruptionMode.schema).
Proof. solve_represents io_k8s_api_scheduling_v1alpha3_DisruptionMode. Qed.
#[export] Hint Resolve IoK8sApiSchedulingV1alpha3DisruptionMode_represents : represents.
Lemma IoK8sApiSchedulingV1alpha3GangSchedulingPolicy_represents `{Pydantic} b :
  Represents b (TRef "io.k8s.api.scheduling.v1alpha3.GangSchedulingPolicy")
    (Model IoK8sApiSchedulingV1alpha3GangSchedulingPolicy.schema).
Proof. solve_represents io_k8s_api_scheduling_v1alpha3_GangSchedulingPolicy. Qed.
#[export] Hint Resolve IoK8sApiSchedulingV1alpha3GangSchedulingPolicy_represents : represents.
Lemma IoK8sApiSchedulingV1alpha3PodGroupResourceClaim_represents `{Pydantic} b :
  Represents b (TRef "io.k8s.api.scheduling.v1alpha3.PodGroupResourceClaim")
    (Model IoK8sApiSchedulingV1alpha3PodGroupResourceClaim.schema).
Proof. solve_represents io_k8s_api_scheduling_v1alpha3_PodGroupResourceClaim. Qed.
#[export] Hint Resolve IoK8sApiSchedulingV1alpha3PodGroupResourceClaim_represents : represents.
Lemma IoK8sApiSchedulingV1alpha3PodGroupSchedulingConstraints_represents `{Pydantic} b :
  Represents b (TRef "io.k8s.api.scheduling.v1alpha3.PodGroupSchedulingConstraints")
    (Model IoK8sApiSchedulingV1alpha3PodGroupSchedulingConstraints.schema).
Proof. solve_represents io_k8s_api_scheduling_v1alpha3_PodGroupSchedulingConstraints. Qed.
#[export] Hint Resolve IoK8sApiSchedulingV1alpha3PodGroupSchedulingConstraints_represents : represents.
Lemma IoK8sApiSchedulingV1alpha3PodGroupSchedulingPolicy_represents `{Pydantic} b :
  Represents b (TRef "io.k8s.api.scheduling.v1alpha3.PodGroupSchedulingPolicy")
    (Model IoK8sApiSchedulingV1alpha3PodGroupSchedulingPolicy.schema).
Proof. solve_represents io_k8s_api_scheduling_v1alpha3_PodGroupSchedulingPolicy. Qed.
#[export] Hint Resolve IoK8sApiSchedulingV1alpha3PodGroupSchedulingPolicy_represents : represents.
Lemma IoK8sApiSchedulingV1alpha3PodGroupSpec_represents `{Pydantic} b :
  Represents b (TRef "io.k8s.api.scheduling.v1alpha3.PodGroupSpec")
    (Model IoK8sApiSchedulingV1alpha3PodGroupSpec.schema).
Proof. solve_represents io_k8s_api_scheduling_v1alpha3_PodGroupSpec. Qed.
#[export] Hint Resolve IoK8sApiSchedulingV1alpha3PodGroupSpec_represents : represents.
Lemma IoK8sApiSchedulingV1alpha3PodGroupResourceClaimStatus_represents `{Pydantic} b :
  Represents b (TRef "io.k8s.api.scheduling.v1alpha3.PodGroupResourceClaimStatus")
    (Model IoK8sApiSchedulingV1alpha3PodGroupResourceClaimStatus.schema).
Proof. solve_represents io_k8s_api_scheduling_v1alpha3_PodGroupResourceClaimStatus. Qed.
#[export] Hint Resolve IoK8sApiSchedulingV1alpha3PodGroupResourceClaimStatus_represents : represents.
Lemma IoK8sApiSchedulingV1alpha3PodGroupStatus_represents `{Pydantic} b :
  Represents b (TRef "io.k8s.api.scheduling.v1alpha3.PodGroupStatus")
    (Model IoK8sApiSchedulingV1alpha3PodGroupStatus.schema).
Proof. solve_represents io_k8s_api_scheduling_v1alpha3_PodGroupStatus. Qed.
#[export] Hint Resolve IoK8sApiSchedulingV1alpha3PodGroupStatus_represents : represents.
Lemma IoK8sApiSchedulingV1alpha3PodGroup_represents `{Pydantic} b :
  Represents b (TRef "io.k8s.api.scheduling.v1alpha3.PodGroup")
    (Model IoK8sApiSchedulingV1alpha3PodGroup.schema).
Proof. solve_represents io_k8s_api_scheduling_v1alpha3_PodGroup. Qed.
#[export] Hint Resolve IoK8sApiSchedulingV1alpha3PodGroup_represents : represents.
Lemma IoK8sApiSchedulingV1alpha3PodGroupList_represents `{Pydantic} b :
  Represents b (TRef "io.k8s.api.scheduling.v1alpha3.PodGroupList")
    (Model IoK8sApiSchedulingV1alpha3PodGroupList.schema).
Proof. solve_represents io_k8s_api_scheduling_v1alpha3_PodGroupList. Qed.
#[export] Hint Resolve IoK8sApiSchedulingV1alpha3PodGroupList_represents : represents.
Lemma IoK8sApiSchedulingV1alpha3PodGroupTemplate_represents `{Pydantic} b :
  Represents b (TRef "io.k8s.api.scheduling.v1alpha3.PodGroupTemplate")
    (Model IoK8sApiSchedulingV1alpha3PodGroupTemplate.schema).
Proof. solve_represents io_k8s_api_scheduling_v1alpha3_PodGroupTemplate. Qed.
#[export] Hint Resolve IoK8sApiSchedulingV1alpha3PodGroupTemplate_represents : represents.
Lemma IoK8sApiSchedulingV1alpha3TypedLocalObjectReference_represents `{Pydantic} b :
  Represents b (TRef "io.k8s.api.scheduling.v1alpha3.TypedLocalObjectReference")
    (Model IoK8sApiSchedulingV1alpha3TypedLocalObjectReference.schema).
Proof. solve_represents io_k8s_api_scheduling_v1alpha3_TypedLocalObjectReference. Qed.
#[export] Hint Resolve IoK8sApiSchedulingV1alpha3TypedLocalObjectReference_represents : represents.
Lemma JobsetV1alpha2ReplicatedJobStatus_represents `{Pydantic} b :
  Represents b (TRef "jobset.v1alpha2.ReplicatedJobStatus")
    (Model JobsetV1alpha2ReplicatedJobStatus.schema).
Proof. solve_represents jobset_v1alpha2_ReplicatedJobStatus. Qed.
#[export] Hint Resolve JobsetV1alpha2ReplicatedJobStatus_represents : represents.
Lemma JobsetV1alpha2JobSetStatus_represents `{Pydantic} b :
  Represents b (TRef "jobset.v1alpha2.JobSetStatus")
    (Model JobsetV1alpha2JobSetStatus.schema).
Proof. solve_represents jobset_v1alpha2_JobSetStatus. Qed.
#[export] Hint Resolve JobsetV1alpha2JobSetStatus_represents : represents.
Lemma JobsetV1alpha2JobSet_represents `{Pydantic} b :
  Represents b (TRef "jobset.v1alpha2.JobSet")
    (Model JobsetV1alpha2JobSet.schema).
Proof. solve_represents jobset_v1alpha2_JobSet. Qed.
#[export] Hint Resolve JobsetV1alpha2JobSet_represents : represents.
Lemma JobsetV1alpha2JobSetList_represents `{Pydantic} b :
  Represents b (TRef "jobset.v1alpha2.JobSetList")
    (Model JobsetV1alpha2JobSetList.schema).
Proof. solve_represents jobset_v1alpha2_JobSetList. Qed.
#[export] Hint Resolve JobsetV1alpha2JobSetList_represents : represents.
Lemma IoK8sApimachineryPkgApisMetaV1InternalEvent_represents `{Pydantic} b :
  Represents b (TRef "io.k8s.apimachinery.pkg.apis.meta.v1.InternalEvent")
    (Model IoK8sApimachineryPkgApisMetaV1InternalEvent.schema).
Proof. solve_represents io_k8s_apimachinery_pkg_apis_meta_v1_InternalEvent. Qed.
#[export] Hint Resolve IoK8sApimachineryPkgApisMetaV1InternalEvent_represents : represents.

(** The class that contains itself, as far as its depth goes. *)
Lemma IoK8sApiSchedulingV1alpha3CompositePodGroupTemplate_represents `{Pydantic} depth :
  Represents depth (TRef "io.k8s.api.scheduling.v1alpha3.CompositePodGroupTemplate")
    (Model (IoK8sApiSchedulingV1alpha3CompositePodGroupTemplate.schema depth)).
Proof. induction depth as [|depth IH]; [apply represents_zero|solve_object io_k8s_api_scheduling_v1alpha3_CompositePodGroupTemplate]. Qed.
#[export] Hint Resolve IoK8sApiSchedulingV1alpha3CompositePodGroupTemplate_represents : represents.
Lemma IoK8sApiSchedulingV1alpha3CompositePodGroupTemplate_represents_less `{Pydantic} depth :
  Represents depth (TRef "io.k8s.api.scheduling.v1alpha3.CompositePodGroupTemplate")
    (Model (IoK8sApiSchedulingV1alpha3CompositePodGroupTemplate.schema (S depth))).
Proof. apply represents_less, IoK8sApiSchedulingV1alpha3CompositePodGroupTemplate_represents. Qed.
#[export] Hint Resolve IoK8sApiSchedulingV1alpha3CompositePodGroupTemplate_represents_less : represents.
Lemma IoK8sApiSchedulingV1alpha3WorkloadSpec_represents `{Pydantic} depth :
  Represents depth (TRef "io.k8s.api.scheduling.v1alpha3.WorkloadSpec")
    (Model (IoK8sApiSchedulingV1alpha3WorkloadSpec.schema depth)).
Proof. solve_represents io_k8s_api_scheduling_v1alpha3_WorkloadSpec. Qed.
#[export] Hint Resolve IoK8sApiSchedulingV1alpha3WorkloadSpec_represents : represents.
Lemma IoK8sApiSchedulingV1alpha3WorkloadSpec_represents_less `{Pydantic} depth :
  Represents depth (TRef "io.k8s.api.scheduling.v1alpha3.WorkloadSpec")
    (Model (IoK8sApiSchedulingV1alpha3WorkloadSpec.schema (S depth))).
Proof. apply represents_less, IoK8sApiSchedulingV1alpha3WorkloadSpec_represents. Qed.
#[export] Hint Resolve IoK8sApiSchedulingV1alpha3WorkloadSpec_represents_less : represents.
Lemma IoK8sApiSchedulingV1alpha3Workload_represents `{Pydantic} depth :
  Represents depth (TRef "io.k8s.api.scheduling.v1alpha3.Workload")
    (Model (IoK8sApiSchedulingV1alpha3Workload.schema depth)).
Proof. solve_represents io_k8s_api_scheduling_v1alpha3_Workload. Qed.
#[export] Hint Resolve IoK8sApiSchedulingV1alpha3Workload_represents : represents.
Lemma IoK8sApiSchedulingV1alpha3Workload_represents_less `{Pydantic} depth :
  Represents depth (TRef "io.k8s.api.scheduling.v1alpha3.Workload")
    (Model (IoK8sApiSchedulingV1alpha3Workload.schema (S depth))).
Proof. apply represents_less, IoK8sApiSchedulingV1alpha3Workload_represents. Qed.
#[export] Hint Resolve IoK8sApiSchedulingV1alpha3Workload_represents_less : represents.
Lemma IoK8sApiSchedulingV1alpha3WorkloadList_represents `{Pydantic} depth :
  Represents depth (TRef "io.k8s.api.scheduling.v1alpha3.WorkloadList")
    (Model (IoK8sApiSchedulingV1alpha3WorkloadList.schema depth)).
Proof. solve_represents io_k8s_api_scheduling_v1alpha3_WorkloadList. Qed.
#[export] Hint Resolve IoK8sApiSchedulingV1alpha3WorkloadList_represents : represents.
Lemma IoK8sApiSchedulingV1alpha3WorkloadList_represents_less `{Pydantic} depth :
  Represents depth (TRef "io.k8s.api.scheduling.v1alpha3.WorkloadList")
    (Model (IoK8sApiSchedulingV1alpha3WorkloadList.schema (S depth))).
Proof. apply represents_less, IoK8sApiSchedulingV1alpha3WorkloadList_represents. Qed.
#[export] Hint Resolve IoK8sApiSchedulingV1alpha3WorkloadList_represents_less : represents.

(** ** The whole package *)

(** The definitions that have a class: objects with properties, and [oneOf]. *)
Definition has_class (def : oas_def) : bool :=
  match def with DObject _ _ | DType (TOneOf _ _) => true | DType _ => false end.

(** The definition of each class. *)
Definition class_definitions : list (string * string) :=
  Eval vm_compute in
    map (fun nd => (class_name nd.1, nd.1)) (filter (fun nd => has_class nd.2 = true) definitions).

Lemma class_of_definition name def :
  assoc definitions name = Some def → has_class def = true →
  assoc class_definitions (class_name name) = Some name.
Proof.
  assert (forallb (fun nd => implb (has_class nd.2)
            (bool_decide (assoc class_definitions (class_name nd.1) = Some nd.1))) definitions = true) as Hall
    by (vm_compute; reflexivity).
  revert Hall. generalize class_definitions definitions. intros cs defs Hall Hn%assoc_elem%list_elem_of_In Hc.
  rewrite forallb_forall in Hall. specialize (Hall _ Hn). cbn [fst snd] in Hall. rewrite Hc in Hall.
  by apply bool_decide_eq_true in Hall.
Qed.

(** A class that has a definition represents it. *)
Definition implements `{Pydantic} (depth : nat) (m : ApiModel) : Prop :=
  match assoc class_definitions (s_name (m_schema m)) with
  | Some name => Represents depth (TRef name) (Model (m_schema m))
  | None => s_name (m_schema m) ∈ left_over
  end.

Lemma implements_intro `{Pydantic} depth m c name :
  s_name (m_schema m) = c → assoc class_definitions c = Some name →
  Represents depth (TRef name) (Model (m_schema m)) → implements depth m.
Proof. unfold implements. by intros -> ->. Qed.
Lemma implements_left_over `{Pydantic} depth m c :
  s_name (m_schema m) = c → assoc class_definitions c = None → bool_decide (c ∈ left_over) = true →
  implements depth m.
Proof. unfold implements. intros -> ->. apply bool_decide_eq_true. Qed.

(** Solves [Forall implements] for a list of classes. *)
Ltac solve_implements :=
  repeat first
    [ apply List.Forall_nil
    | apply List.Forall_cons;
      [lazymatch goal with
       | |- implements _ ?m =>
           let c := eval lazy in (s_name (m_schema m)) in
           let r := eval vm_compute in (assoc class_definitions c) in
           lazymatch r with
           | Some ?name =>
               apply (implements_intro _ m c name);
               [reflexivity|vm_compute; reflexivity|cbn [m_schema]; solve [eauto with represents nocore]]
           | None => apply (implements_left_over _ m c); [reflexivity|vm_compute; reflexivity..]
           end
       end|] ].

Lemma all_models_implement `{Pydantic} depth : Forall (implements depth) (all_models depth).
Proof.
  unfold all_models, api_models. rewrite !Forall_app. split_and!;
    [unfold meta_models|unfold core_models|unfold jobset_models|unfold trainer_models
    |unfold more_meta_models|unfold more_core_models|unfold workload_models|unfold nested_models
    |unfold other_models]; solve_implements.
Qed.

Lemma class_definitions_eq :
  class_definitions =
  map (fun nd => (class_name nd.1, nd.1)) (filter (fun nd => has_class nd.2 = true) definitions).
Proof. vm_compute. reflexivity. Qed.

(** The package imports the classes in the order of the specification. *)
Lemma imports_definitions : i_name <$> models_imports = class_definitions.*1.
Proof. vm_compute. reflexivity. Qed.

Lemma exported_imported c : exported c ↔ c ∈ i_name <$> models_imports.
Proof.
  unfold exported, models_namespace. rewrite run_imports_lookup by apply imports_distinct. split.
  - intros [module (i & Hi & <-)%find_import_elem]. by apply list_elem_of_fmap_2.
  - intros Hc. destruct (find_import models_imports c) eqn:E; [by eexists|]. exfalso.
    revert Hc E. generalize models_imports. intros l. induction l as [|i l IH]; [by intros ?%elem_of_nil|].
    cbn. intros [->|Hc]%elem_of_cons; [by rewrite String.eqb_refl|].
    destruct (String.eqb (i_name i) c); [done|auto].
Qed.

Lemma exported_defined c :
  exported c ↔ ∃ name def, (name, def) ∈ definitions ∧ has_class def = true ∧ c = class_name name.
Proof.
  rewrite exported_imported, imports_definitions, class_definitions_eq. generalize definitions. intros defs.
  rewrite list_elem_of_fmap. split.
  - intros ([c' name'] & -> & ([name def] & [= -> ->] & [Hc Hin]%list_elem_of_filter)%list_elem_of_fmap).
    by exists name, def.
  - intros (name & def & Hin & Hc & ->). exists (class_name name, name). split; [done|].
    apply list_elem_of_fmap. exists (name, def). split; [done|]. by apply list_elem_of_filter.
Qed.

Lemma exported_model `{Pydantic} depth c :
  exported c → ∃ m, m ∈ all_models depth ∧ s_name (m_schema m) = c.
Proof.
  intros (i & -> & Hi)%exported_imported%list_elem_of_fmap.
  pose proof (imports_are_classes depth i Hi) as (m & -> & Hm)%list_elem_of_fmap. by exists m.
Qed.

(** The class of a definition represents it. *)
Lemma defined_represents `{Pydantic} depth m name def :
  m ∈ all_models depth → assoc definitions name = Some def → has_class def = true →
  s_name (m_schema m) = class_name name → Represents depth (TRef name) (Model (m_schema m)).
Proof.
  intros Hm Hn Hc Hs. pose proof (all_models_implement depth) as Hall. rewrite Forall_forall in Hall.
  specialize (Hall m Hm). unfold implements in Hall.
  by rewrite Hs, (class_of_definition name def Hn Hc) in Hall.
Qed.

(** C11. The package implements the OpenAPI specification: the classes that can be
    imported from it are exactly those of the definitions that are objects with
    properties or have [oneOf]; and each class represents its definition, down to
    every depth: the same properties in the same order, with the annotations of
    their types, required or optional as the specification says, with its
    enumerations and the defaults of optional properties that are no objects. *)
Theorem openapi_implemented `{Pydantic} depth :
  (∀ c, exported c ↔
        ∃ name def, (name, def) ∈ definitions ∧ has_class def = true ∧ c = class_name name) ∧
  (∀ name def, assoc definitions name = Some def → has_class def = true →
     ∃ m, m ∈ all_models depth ∧ s_name (m_schema m) = class_name name ∧
          ∀ k, (k ≤ depth)%nat → represents k (TRef name) (Model (m_schema m))).
Proof.
  split; [apply exported_defined|]. intros name def Hn Hc.
  destruct (exported_model depth (class_name name)) as (m & Hm & Hs).
  { apply exported_defined. exists name, def. by split_and!; [apply assoc_elem|..]. }
  exists m. split_and!; [done..|]. by apply (defined_represents depth m name def).
Qed.

(** C12. Every document that is valid for a definition of the specification, with
    nothing in it that pydantic converts (a date-time, or an integer for a
    number), is accepted: [from_dict] of the class of the definition returns the
    instance that the document stands for, and [from_json] returns it from every
    text of the document. *)
Theorem openapi_accepted `{PydanticLaws} depth m name def v :
  m ∈ all_models depth → assoc definitions name = Some def → has_class def = true →
  s_name (m_schema m) = class_name name →
  valid definitions true v (TRef name) = true → json_ok v = true → (height v ≤ depth)%nat →
  m_from_dict m v = Ret (built (Model (m_schema m)) v) ∧
  ∀ s, loads s = Ret v → m_from_json m s = Ret (built (Model (m_schema m)) v).
Proof.
  intros Hm Hn Hc Hs Hv Hj Hh. apply (all_models_build depth); [done|].
  apply (valid_represented depth (TRef name)); [|done..].
  by apply (defined_represents depth m name def).
Qed.

(** ** A concrete document *)

Lemma openapi_accepted_witness :
  valid definitions true (sloppy_train_job_dict (VStr "SEED")) (TRef "trainer.v1alpha1.TrainJob") = true ∧
  m_from_dict train_job_model (sloppy_train_job_dict (VStr "SEED")) =
  Ret (built (Model (m_schema train_job_model)) (sloppy_train_job_dict (VStr "SEED"))).
Proof.
  split; [vm_compute; reflexivity|].
  apply (openapi_accepted 8 train_job_model "trainer.v1alpha1.TrainJob" trainer_v1alpha1_TrainJob
           (sloppy_train_job_dict (VStr "SEED")) (train_job_in_all 8));
    vm_compute; first [reflexivity|repeat constructor].
Defined.

(** A default that is an object is not applied: a PodGroupSpec without its
    disruption mode is read as one with none, where the specification has
    [{"single": {}}]. *)
Lemma object_default_ignored `{Pydantic} :
  (∃ required ps p, assoc definitions "io.k8s.api.scheduling.v1alpha3.PodGroupSpec" = Some (DObject required ps) ∧
     property_of ps "disruptionMode" = Some p ∧ p_default p = Some (VDict [("single", VDict [])])) ∧
  fill "IoK8sApiSchedulingV1alpha3PodGroupSpec"
    (opt "disruption_mode" "disruptionMode" (Model IoK8sApiSchedulingV1alpha3DisruptionMode.schema)) = VNone.
Proof. split; [|reflexivity]. eexists _, _, _. split_and!; [reflexivity|reflexivity|reflexivity]. Qed.
