(* ===== verification/UnitTests.v ===== *)
(** * The unit tests of the initializers, replayed on the model

    The inputs and the expected results of [utils/opendal_test.py],
    [utils/utils_test.py] and [dataset/cache_test.py], evaluated with the
    definitions of this development. They are evidence that the definitions
    translate the code: each test function of the repository becomes one
    [Example] over the table of its parameters. The operator that the tests mock
    is [bucket_dal], which lists by string prefix and answers [stat] and [read]
    for exact keys only. *)

From S2P Require Import Prelude PyStr FnMatch FileSystem World OpenDal OpenDalSpec Config Cache.
Local Open Scope string_scope.
Local Open Scope bool_scope.
Local Open Scope list_scope.

(** ** opendal_test.py *)

Module OpenDalTest.

(** The files below the temporary directory of a test, as [_downloaded_files]
    lists them: the expected ones with their contents and no other. *)
Definition tmpdir : string := "/tmp/d".
Definition file_count (fs : FS) : nat :=
  length (List.filter (fun p => match p.2 with File _ => true | _ => false end)
            (map_to_list (fs_nodes fs))).
Definition has_file (fs : FS) (f : list string * string) : bool :=
  match fs_get fs (["tmp"; "d"] ++ f.1) with
  | Some (File data) => String.eqb data f.2
  | _ => false
  end.
Definition downloaded (fs : FS) (files : list (list string * string)) : bool :=
  forallb (has_file fs) files && (file_count fs =? length files)%nat.

(** [storage.download(prefix, tmpdir, ignore_patterns)] over a mocked bucket. *)
Definition run (objects : list (string * string)) (prefix : string)
    (ignore_patterns : option (list string)) : outcome unit * World :=
  @download (bucket_dal objects) (mem_storage objects) prefix tmpdir ignore_patterns empty_world.

(** The outcome, the requests and the files of a run. *)
Definition passes (objects : list (string * string)) (prefix : string)
    (ignore_patterns : option (list string)) (requests : list event)
    (files : list (list string * string)) : Prop :=
  (run objects prefix ignore_patterns).1 = Ret tt ∧
  w_trace (run objects prefix ignore_patterns).2 = requests ∧
  downloaded (w_fs (run objects prefix ignore_patterns).2) files = true.

Ltac replay := repeat split; vm_compute; reflexivity.

Example test_init :
  s3_config "test-bucket" (Some "https://s3.us-west-2.amazonaws.com") (Some "test_key_id")
    (Some "test_secret_key") (Some "us-west-2") (Some "arn:aws:iam::123456789012:role/TestRole") =
  [("root", "/"); ("bucket", "test-bucket"); ("endpoint", "https://s3.us-west-2.amazonaws.com");
   ("access_key_id", "test_key_id"); ("secret_access_key", "test_secret_key");
   ("region", "us-west-2"); ("role_arn", "arn:aws:iam::123456789012:role/TestRole")] ∧
  s3_config "prod-bucket" (Some "https://s3.eu-west-1.amazonaws.com") (Some "prod_key")
    (Some "prod_secret") None (Some "arn:aws:iam::123456789012:role/TestRole") =
  [("root", "/"); ("bucket", "prod-bucket"); ("endpoint", "https://s3.eu-west-1.amazonaws.com");
   ("access_key_id", "prod_key"); ("secret_access_key", "prod_secret");
   ("region", "auto"); ("role_arn", "arn:aws:iam::123456789012:role/TestRole")].
Proof. replay. Qed.

Example test_download :
  passes [("dataset/train/data.csv", "train data"); ("dataset/test/data.csv", "test data");
          ("dataset/README.md", "readme content")] "dataset/" (Some [])
    [S3List "dataset/"; S3Read "dataset/train/data.csv"; S3Read "dataset/test/data.csv";
     S3Read "dataset/README.md"]
    [(["train"; "data.csv"], "train data"); (["test"; "data.csv"], "test data");
     (["README.md"], "readme content")] ∧
  passes [("models/model.pth", "model weights"); ("models/config.json", "config data")]
    "models/" (Some [])
    [S3List "models/"; S3Read "models/model.pth"; S3Read "models/config.json"]
    [(["model.pth"], "model weights"); (["config.json"], "config data")] ∧
  passes [("data/file.txt", "content"); ("data/temp.log", "log content");
          ("data/cache.tmp", "cache content")] "data/" (Some ["*.log"; "*.tmp"])
    [S3List "data/"; S3Read "data/file.txt"] [(["file.txt"], "content")].
Proof. replay. Qed.

Definition llamas : list (string * string) :=
  [("models/llama/config.json", "config"); ("models/llama/weights/model.safetensors", "weights");
   ("models/llama-2/config.json", "sibling"); ("models/llama2-7b/config.json", "sibling")].

Example test_download_only_objects_under_prefix :
  passes llamas "models/llama" None
    [S3Stat "models/llama"; S3List "models/llama/"; S3Read "models/llama/config.json";
     S3Read "models/llama/weights/model.safetensors"]
    [(["config.json"], "config"); (["weights"; "model.safetensors"], "weights")] ∧
  passes llamas "models/llama/" None
    [S3List "models/llama/"; S3Read "models/llama/config.json";
     S3Read "models/llama/weights/model.safetensors"]
    [(["config.json"], "config"); (["weights"; "model.safetensors"], "weights")].
Proof. replay. Qed.

Example test_download_single_object :
  passes [("datasets/train.parquet", "rows"); ("datasets/train.parquet.bak", "stale rows")]
    "datasets/train.parquet" None
    [S3Stat "datasets/train.parquet"; S3Read "datasets/train.parquet"]
    [(["train.parquet"], "rows")].
Proof. replay. Qed.

Example test_download_exact_object_takes_precedence :
  passes [("models/llama", "archive"); ("models/llama/config.json", "config")]
    "models/llama" None [S3Stat "models/llama"; S3Read "models/llama"]
    [(["llama"], "archive")] ∧
  passes [("models/llama", "archive"); ("models/llama/config.json", "config")]
    "models/llama/" None [S3List "models/llama/"; S3Read "models/llama/config.json"]
    [(["config.json"], "config")].
Proof. replay. Qed.

Example test_download_bucket_root :
  passes [("README.md", "readme"); ("datasets/train.parquet", "rows");
          ("models/llama/config.json", "config")] "" None
    [S3List "/"; S3Read "README.md"; S3Read "datasets/train.parquet";
     S3Read "models/llama/config.json"]
    [(["README.md"], "readme"); (["datasets"; "train.parquet"], "rows");
     (["models"; "llama"; "config.json"], "config")].
Proof. replay. Qed.

(** [pytest.raises(FileNotFoundError, match=message)], nothing stored, nothing read. *)
Definition not_found (objects : list (string * string)) (prefix message : string)
    (requests : list event) : Prop :=
  (∃ m, (run objects prefix None).1 = Raise (FileNotFoundError m) ∧ startswith message m = true) ∧
  w_trace (run objects prefix None).2 = requests ∧
  file_count (w_fs (run objects prefix None).2) = 0.

Example test_download_nothing_found :
  not_found [("datasets/train-00001.parquet", "rows")] "datasets/train"
    "No object at s3://test-bucket/datasets/train and no objects under s3://test-bucket/datasets/train/"
    [S3Stat "datasets/train"; S3List "datasets/train/"] ∧
  not_found [("datasets/train-00001.parquet", "rows")] "datasets/train/"
    "No objects under s3://test-bucket/datasets/train/" [S3List "datasets/train/"] ∧
  not_found [] "" "No objects under s3://test-bucket/" [S3List "/"].
Proof.
  repeat split; try (vm_compute; reflexivity); eexists; split; vm_compute; reflexivity.
Qed.

Example test_download_all_objects_ignored_warns :
  passes [("data/cache.tmp", "cache")] "data/" (Some ["*.tmp"])
    [S3List "data/"; WarnAllSkipped 1] [].
Proof. replay. Qed.

End OpenDalTest.

(** ** utils_test.py *)

Module UtilsTest.

Definition s3_env : environ := list_to_map
  [("STORAGE_URI", "s3://bucket/path"); ("IGNORE_PATTERNS", "*.log,*.txt");
   ("ENDPOINT", "https://s3.amazonaws.com"); ("ACCESS_KEY_ID", "test_key");
   ("SECRET_ACCESS_KEY", "test_secret"); ("REGION", "us-east-1");
   ("ROLE_ARN", "arn:aws:iam::123456789012:role/TestRole")].

(** The configuration of an S3 initializer without any option set. *)
Definition bare_s3 : list (string * cfgval) :=
  [("storage_uri", CStr (Some "s3://bucket/path")); ("ignore_patterns", CList None);
   ("endpoint", CStr None); ("access_key_id", CStr None); ("secret_access_key", CStr None);
   ("region", CStr None); ("role_arn", CStr None)].

Example test_get_config_from_env :
  get_config_from_env HuggingFaceModelInitializer.fields
    (list_to_map [("STORAGE_URI", "hf://test"); ("IGNORE_PATTERNS", "*.msgpack,*.h5");
                  ("ACCESS_TOKEN", "token")]) =
  [("storage_uri", CStr (Some "hf://test")); ("ignore_patterns", CList (Some ["*.msgpack"; "*.h5"]));
   ("access_token", CStr (Some "token"))] ∧
  get_config_from_env HuggingFaceModelInitializer.fields
    (list_to_map [("STORAGE_URI", "hf://test")]) =
  [("storage_uri", CStr (Some "hf://test")); ("ignore_patterns", CList None);
   ("access_token", CStr None)] ∧
  get_config_from_env HuggingFaceDatasetInitializer.fields
    (list_to_map [("STORAGE_URI", "hf://test"); ("IGNORE_PATTERNS", "*.log,*.txt");
                  ("ACCESS_TOKEN", "token")]) =
  [("storage_uri", CStr (Some "hf://test")); ("ignore_patterns", CList (Some ["*.log"; "*.txt"]));
   ("access_token", CStr (Some "token"))] ∧
  get_config_from_env HuggingFaceDatasetInitializer.fields
    (list_to_map [("STORAGE_URI", "hf://test")]) =
  [("storage_uri", CStr (Some "hf://test")); ("ignore_patterns", CList None);
   ("access_token", CStr None)] ∧
  get_config_from_env S3DatasetInitializer.fields (delete "IGNORE_PATTERNS" s3_env) =
  [("storage_uri", CStr (Some "s3://bucket/path")); ("ignore_patterns", CList None);
   ("endpoint", CStr (Some "https://s3.amazonaws.com")); ("access_key_id", CStr (Some "test_key"));
   ("secret_access_key", CStr (Some "test_secret")); ("region", CStr (Some "us-east-1"));
   ("role_arn", CStr (Some "arn:aws:iam::123456789012:role/TestRole"))] ∧
  get_config_from_env S3DatasetInitializer.fields
    (list_to_map [("STORAGE_URI", "s3://bucket/path")]) = bare_s3 ∧
  get_config_from_env S3DatasetInitializer.fields
    (list_to_map [("STORAGE_URI", "s3://bucket/path"); ("ACCESS_KEY_ID", "test_key");
                  ("SECRET_ACCESS_KEY", "test_secret")]) =
  [("storage_uri", CStr (Some "s3://bucket/path")); ("ignore_patterns", CList None);
   ("endpoint", CStr None); ("access_key_id", CStr (Some "test_key"));
   ("secret_access_key", CStr (Some "test_secret")); ("region", CStr None);
   ("role_arn", CStr None)] ∧
  get_config_from_env S3ModelInitializer.fields s3_env =
  [("storage_uri", CStr (Some "s3://bucket/path")); ("ignore_patterns", CList (Some ["*.log"; "*.txt"]));
   ("endpoint", CStr (Some "https://s3.amazonaws.com")); ("access_key_id", CStr (Some "test_key"));
   ("secret_access_key", CStr (Some "test_secret")); ("region", CStr (Some "us-east-1"));
   ("role_arn", CStr (Some "arn:aws:iam::123456789012:role/TestRole"))] ∧
  get_config_from_env S3ModelInitializer.fields
    (list_to_map [("STORAGE_URI", "s3://bucket/path")]) = bare_s3.
Proof. repeat split; vm_compute; reflexivity. Qed.

End UtilsTest.

(** ** cache_test.py *)

Module CacheTest.

Definition refused (uri : string) : Prop :=
  parse_cache_storage_uri uri =
  Raise (ValueError "expected format cache://<SCHEMA_NAME>/<TABLE_NAME>").

Example test_parse_cache_storage_uri :
  parse_cache_storage_uri "cache://my_schema/my_table" = Ret ("my_schema", "my_table") ∧
  parse_cache_storage_uri "cache://test_schema/test_table" = Ret ("test_schema", "test_table") ∧
  Forall refused
    ["cache://"; "cache://schema-only"; "cache:///table"; "cache://schema/";
     "cache://schema/table/extra"].
Proof. repeat first [constructor | vm_compute; reflexivity]. Qed.

(** The configuration that [load_config] leaves, as [config.__dict__]. *)
Definition loaded (env : list (string * string)) : outcome CacheDatasetInitializer.t :=
  self ← Cache.load_config (list_to_map env); Ret (config self).

Example test_load_config :
  loaded [("STORAGE_URI", "cache://test_schema/test_table"); ("TRAIN_JOB_NAME", "custom-job");
          ("CACHE_IMAGE", "custom-image:latest"); ("CLUSTER_SIZE", "5");
          ("METADATA_LOC", "s3://bucket/metadata");
          ("IAM_ROLE", "arn:aws:iam::123456789012:role/custom-role"); ("HEAD_CPU", "4");
          ("HEAD_MEM", "8Gi"); ("WORKER_CPU", "8"); ("WORKER_MEM", "16Gi")] =
  Ret {| CacheDatasetInitializer.storage_uri := "cache://test_schema/test_table";
         CacheDatasetInitializer.train_job_name := "custom-job";
         CacheDatasetInitializer.cache_image := "custom-image:latest";
         CacheDatasetInitializer.iam_role := "arn:aws:iam::123456789012:role/custom-role";
         CacheDatasetInitializer.metadata_loc := "s3://bucket/metadata";
         CacheDatasetInitializer.cluster_size := "5";
         CacheDatasetInitializer.head_cpu := "4"; CacheDatasetInitializer.head_mem := "8Gi";
         CacheDatasetInitializer.worker_cpu := "8"; CacheDatasetInitializer.worker_mem := "16Gi";
         CacheDatasetInitializer.readiness_initial_delay_seconds := "5";
         CacheDatasetInitializer.readiness_period_seconds := "10";
         CacheDatasetInitializer.readiness_timeout_seconds := "5";
         CacheDatasetInitializer.readiness_failure_threshold := "3" |} ∧
  loaded [("STORAGE_URI", "cache://partial_schema/partial_table"); ("TRAIN_JOB_NAME", "partial-job");
          ("CACHE_IMAGE", "partial-image:latest");
          ("IAM_ROLE", "arn:aws:iam::123456789012:role/partial-role"); ("HEAD_CPU", "2");
          ("WORKER_CPU", "4"); ("METADATA_LOC", "s3://partial-bucket/metadata")] =
  Ret {| CacheDatasetInitializer.storage_uri := "cache://partial_schema/partial_table";
         CacheDatasetInitializer.train_job_name := "partial-job";
         CacheDatasetInitializer.cache_image := "partial-image:latest";
         CacheDatasetInitializer.iam_role := "arn:aws:iam::123456789012:role/partial-role";
         CacheDatasetInitializer.metadata_loc := "s3://partial-bucket/metadata";
         CacheDatasetInitializer.cluster_size := "3";
         CacheDatasetInitializer.head_cpu := "2"; CacheDatasetInitializer.head_mem := "1Gi";
         CacheDatasetInitializer.worker_cpu := "4"; CacheDatasetInitializer.worker_mem := "2Gi";
         CacheDatasetInitializer.readiness_initial_delay_seconds := "5";
         CacheDatasetInitializer.readiness_period_seconds := "10";
         CacheDatasetInitializer.readiness_timeout_seconds := "5";
         CacheDatasetInitializer.readiness_failure_threshold := "3" |}.
Proof. split; vm_compute; reflexivity. Qed.

End CacheTest.
